(* ===== verification/_CoqProject ===== *)
-Q . S2P
Prelude.v
Prog.v
Redis.v
AuthTokens.v
Password.v
AuthSessions.v
AuthInv.v
AuthKeeps.v
AuthFlow.v
Samples.v
Auth.v
AuthFaults.v
Pagex.v
Decimal.v
Money.v
MoneyShares.v
MoneyOps.v
Idx.v
IdxLease.v
Lock.v
Idempotency.v
Limits.v
Edges.v
Delay.v
DelayLaws.v
Config.v
Webhook.v
WebhookLaws.v
Outbox.v
OutboxLaws.v
Consumer.v
Dlq.v
Gateway.v
Httpx.v
Css.v
ThemeTexts1.v
ThemeTexts2.v
ThemeTexts3.v
Themes.v
ThemeColors.v
EventStream.v
EventStreamLaws.v
Mime.v
Shell.v
Snippets.v
Literals.v
Utf8.v
Records.v
Multipart.v
MultipartLaws.v
FormData.v
Parameters.v
Pointers.v
Lex.v
Values.v
Wordings.v
Objects.v
PhpValue.v
PhpSamples.v
JsObject.v
JsSamples.v
JuliaSample.v
PythonValue.v
PythonSamples.v
Xml.v
XmlReader.v
XmlLaws.v
XmlDocument.v
RawRequest.v
ShellSamples.v
JavaSamples.v
JsClients.v
Templates.v
MultipartWriter.v
MultipartSent.v
MultipartForms.v
Schemas.v
SchemaValue.v
Generator.v
GeneratorLaws.v
