(* ===== verification/Prelude.v ===== *)
(** * devkit-common: a verification library

    devkit-common is the Go library the services of one platform are built on:
    a gateway (hertzx) in front of RPC services (kitexx), sessions and tokens
    (authx), a Redis lock (redisx), unique ids (idx), events with a transactional
    outbox and a dead-letter tool (kafkax), delayed tasks (delayx), callbacks of
    external providers (webhookx), calls to external APIs (httpx), exact money
    (moneyx), paging (pagex) and configuration (config). The gateway serves its API
    reference as one JavaScript bundle, src/hertzx/docs/scalar.js: a viewer that reads
    an OpenAPI document, sends requests from the browser, shows the answers and writes
    code samples. This library models the decisions of those packages and of the
    bundle as executable Rocq definitions, translated from the source function by
    function under the source's names, and proves what they promise one another and
    their users.

    How the parts interact. A request enters through hertzx: the client's address
    is found (Edges), the guard counts it (Gateway), the login check acts on
    the answer of the token verifier (Gateway; the verifier is in AuthSessions). The RPC service behind it
    judges the edge again (Edges), bounds the calls in flight (Limits) and runs a
    retried call once (Idempotency). Services write events into an outbox in the
    transaction of the change (Outbox), a relay publishes them, consumers
    dedupe, retry and park them (Consumer), and an operator replays the parked ones
    (Dlq), which runs the same [process]. A provider's callback is verified, archived,
    deduplicated and handled by webhookx (Webhook); what httpx signs (Httpx) is
    what webhookx verifies. Nearly all of it shares state through Redis.

    In the bundle a parameter is serialized twice, for the request and for the code
    sample (Parameters); a form becomes a multipart body with a boundary found for it
    (Snippets), which the shell samples write byte for byte (Shell, ShellSamples) and the
    multipart reader can read (FormData). The media type of an answer (Mime) chooses
    the reader of its body: events (EventStream), records (Records) or parts
    (Multipart). A request with a form is itself a multipart body (MultipartWriter) the
    reader can open (MultipartSent). A code sample is a program that sends the same request,
    in the syntax of its language (JsSamples, JsClients, PhpSamples, JuliaSample, PythonSamples, Templates, JavaSamples over
    RawRequest); examples are XML documents (Xml), values taken from schemas that refer to each
    other (SchemaValue) or made for them (Generator). The page looks the way a theme says (Themes) inside one style element.

    ** Conventions

    - [result A E] is Go's (T, error); [outcome A] is a call that returns or panics.
    - Machine integers are Z with the wrap-around written out ([wrap 32], [wrap 64]
      of this file). Strings and byte slices are [string], one ascii per byte.
    - A function that talks to Redis, MySQL, Kafka, a handler, a clock or a random
      source is a command tree [prog E A] of Prog.v: a node per call, in the code's
      order. [run_env] runs it against a server and an environment that may change
      the server's state between any two calls (other replicas, time); [wp] is its
      weakest precondition, sound for every such run ([wp_sound]). [run_steps] are the
      states before and after each call of a run, and [every_call] a rely that bounds what
      a program does to the server with every call.
    - Redis.v states what Redis documents of the commands in use ([redis_doc]) and what
      a network adds ([redis_allows]: any command may be answered by an error,
      executed or not). Theorems about safety assume only [redis_allows]. Theorems of
      functional behaviour name the fault-free server ([redis_up], [auth_up] and
      the like). [map_redis] is a concrete server with a script of faults; witnesses
      run on it.
    - Interleaving that is not a single program's is a step relation: [flight_step]
      (Limits), [delay_step] (Delay), [outbox_step] (Outbox), [gen_run] (Idx); their
      theorems are by rule induction over reachable states.
    - The unit of time is the one the code computes with and is stated by each file:
      milliseconds in Redis expiry, delayx and idx, nanoseconds in time.Duration.

    ** Files

    Foundations. Prelude.v: results, wrap-around, Go's strings and strconv functions
    with their laws, hints and tactics. Prog.v: command trees, runs, [wp]. Redis.v:
    the Redis interface. Samples.v: concrete instances of the parameter classes.

    authx (src/authx/). AuthTokens.v: configuration, key ring, what a token must
    satisfy. Password.v: password.go, the policy and the PHC string. AuthSessions.v:
    Login, Refresh, Logout, RevokeAll and Verify over Redis. AuthInv.v: the admissible
    servers and the shape of the session store. AuthKeeps.v: every operation keeps it.
    AuthFlow.v: what each operation does when Redis answers. Auth.v: only live tokens
    are accepted, under any fault; refresh rotates and detects replay; logout and
    single_session end sessions. AuthFaults.v: RevokeAll with and without a lost read,
    concurrent refreshes, the accepted algorithm.

    pagex (src/pagex/pagex.go). Pagex.v: bounds of the defaults and the offset, the pages
    tile the rows.

    moneyx (src/moneyx/money.go). Decimal.v: interface and laws of the decimal library,
    an implementation that satisfies them. Money.v: parsing,
    rounding, arithmetic, Split and Allocate. MoneyShares.v: shares add up. MoneyOps.v:
    Parse never rounds, rounding and arithmetic.

    idx (src/idx/idx.go). Idx.v: [Next], uniqueness, order and termination. IdxLease.v:
    leasing of instance numbers.

    redisx (src/redisx/lock.go). Lock.v: WithLock excludes, releases only its own, runs
    the function once.

    kitexx (src/kitexx/). Idempotency.v: idempotency.go. Limits.v: limits.go and guard.go.
    Edges.v: client.go, with hertzx/clientip.go.

    delayx (src/delayx/delay.go). Delay.v: the table, the scheduler's operations and
    their interleaving. DelayLaws.v: finality, bounded attempts, settled runs.

    config (src/config/). Config.v: Expand and the environment, takeover mode.

    webhookx (src/webhookx/webhookx.go, src/httpx/callback.go). Webhook.v: the whole
    pipeline [serve]. WebhookLaws.v: who reaches the handler, how often, what is signed.

    kafkax (src/kafkax/). Outbox.v, OutboxLaws.v: outbox.go. Consumer.v: kafkax.go. Dlq.v:
    dlq.go.

    hertzx (src/hertzx/). Gateway.v: guard.go and auth.go.

    httpx (src/httpx/). Httpx.v: retries, private addresses, signing, redaction.

    The bundle (src/hertzx/docs/scalar.js; names are those of the minified source, a
    leading dollar is written dollar, by and _y are [by_] and [underscore_y]).
    Css.v: template literals, a character machine for CSS, a parser of stylesheets.
    ThemeTexts1.v, ThemeTexts2.v, ThemeTexts3.v: the texts of the themes and fonts, line by
    line. Themes.v: the table of themes [bQ], the stylesheet [ean] of one, the text of the
    style element, the stylesheet of the messages. ThemeColors.v: what the palettes say.
    EventStream.v: server-sent events, the parser [VJn] and its lines [HJn].
    EventStreamLaws.v: chunks, round trip, the lines in one pass.
    Mime.v: media types [zc], their classes, methods.
    Utf8.v: the UTF-8 decoder of a stream. Records.v: JSON lines and JSON text sequences, [Vve].
    Multipart.v: the reader [Gc] of multipart answers. MultipartLaws.v: what it reads.
    Shell.v: a POSIX shell's words, quoting [tW], bodies written by printf and cat.
    Snippets.v: requests, forms [FPt], curl. ShellSamples.v: the curl and wget samples run by
    the shell. FormData.v: a form from a
    sample through the multipart reader. Literals.v: string literals of eight languages.
    Parameters.v: serialization of parameters, the request against the sample.
    Pointers.v: JSON pointers of operations.
    MultipartWriter.v: the multipart body [bb] of a request. MultipartSent.v: what the reader
    finds in it. MultipartForms.v: forms inside forms.
    Lex.v: words, signs and literals of a language's text. Values.v: JSON values in the syntax of
    a language, the class [Readable]. Wordings.v: requests as statements. Objects.v: JS
    objects with the order of their keys, [RH], [NH], [MH]. PhpValue.v, PhpSamples.v: PHP
    values, the Laravel and Guzzle samples. JsObject.v, JsSamples.v: the printer [lU], Axios and
    Fetch. JsClients.v: ofetch, undici, XMLHttpRequest, jQuery. JuliaSample.v: HTTP.jl.
    PythonValue.v, PythonSamples.v: the printers [HU], [UU] and [WU], Requests, HTTPX and
    aiohttp. RawRequest.v: the request [rU] a sample sends, and the program that sends it.
    JavaSamples.v: AsyncHttp, java.net.http, Unirest, with readers of tokens. Templates.v:
    samples that are lines with holes, in Kotlin, Rust, F#, Go and Dart.
    Xml.v: the writer of XML examples. XmlReader.v: a reader of XML with namespaces.
    XmlLaws.v, XmlDocument.v: what is written is read back, names and texts first.
    Schemas.v: schemas as objects with addresses, references [vu], [yu], the view [iv.schema].
    SchemaValue.v: the value [qRe] of a schema and of parameters [ov]. Generator.v: the examples
    [Kv] made for schemas, [sze], [cze], [Uv] below the last level, what is remembered.
    GeneratorLaws.v: there is one for every schema, of its type, with its properties.

    ** What each group of theorems shows

    - Safety under faults and interference: Auth.v, WebhookLaws.v, Idempotency.v, Lock.v,
      IdxLease.v, Consumer.v, Dlq.v. A reply may be lost at any command.
    - Invariants of interleavings: OutboxLaws.v (the bus holds what was committed and
      nothing that was rolled back), DelayLaws.v, Limits.v, AuthKeeps.v.
    - Functional contracts on every branch, and refinement of a short abstract
      contract (what a retry, a redelivery, a second delivery observe).
    - Exactness: money adds up, ids are unique, pages tile, addresses are classified by
      their bytes, signatures cover the rendered text and round-trip.
    - The readers of the bundle: the same result for every way to cut the bytes into
      chunks (EventStreamLaws.v, Records.v, MultipartLaws.v), round trips against a
      written form, bounds on what is held, and an exception for what is cut short.
    - The writers of the bundle: a text in a sample stays a text for a shell, a compiler
      or a multipart parser, whatever is in it (Snippets.v, ShellSamples.v, Shell.v, Literals.v,
      FormData.v, MultipartSent.v), a sample says or sends the request it was written for
      (JsSamples.v, JsClients.v, PhpSamples.v, JuliaSample.v, PythonSamples.v, JavaSamples.v,
      Templates.v; where a sample pastes a text the theorem asks for what makes that harmless,
      and an example shows the harm; what it is to say is written from the request alone,
      by the definitions named [asked_...] and [says_...], not with what the generators
      compute: the URL with its query, cookies, credentials and form of Snippets.v and
      FormData.v, the bytes and headers of RawRequest.v, the values of a name of Objects.v,
      and the options, calls and arguments of each client beside its sample), an XML example is read back as
      the document (XmlDocument.v), a theme never leaves its layer nor the style element its tag
      (Themes.v), and a sample shows what the client sends (Parameters.v).
    - An optimised routine against its definition: the values of schemas with their memory
      (SchemaValue.v), the lines of an event stream in one pass (EventStreamLaws.v).
    - Where the code does less than it says, a theorem exhibits the run
      ([killed_consumer_loses_the_event], [concurrent_refresh_escapes_replay_detection],
      [revoke_all_hides_a_lost_read], [outage_makes_duplicates], and others).

    ** Parameters: code that is not in the repository

    Redis, MySQL (row locks and transactions are the shape of [outbox_step] and
    [delay_step]), Kafka ([kE]), argon2 and base64 ([Argon], [Codecs]), SHA-256, HMAC and
    Ed25519 ([Crypto], [Codecs]), the JWT library ([Jwt]), encoding/json of generated
    types ([RecCodec], [EventCodec], the codec of Idempotency), the decimal library
    ([Decimal]), package net ([NetLib]), the OpenAPI document's content. Each has a
    concrete instance on which witnesses evaluate. In the bundle, JSON.parse and
    JSON.stringify of arbitrary documents, the URL class and the decoders of charsets other than UTF-8
    are parameters too (they are the browser's, and print numbers as it does).

    ** Fuel and bounds

    - [os_expand] and [replace_all] consume at least a character per step: called with
      the length of the text; more changes nothing ([os_expand_fuel]).
    - [relay_rounds] is [None] when its fuel runs out before the loop has stopped;
      [relay_drains_in_order] says with how much it does not.
    - [wait_past] loops while the clock stands still; [next] is shown to return for all
      fuel from some bound on, for a clock that goes on.
    - The loops of the bundle get the length of their text as fuel, and a lemma or the
      property itself shows they end within it ([free_form], [first_free_Some],
      [loop_expects] for the multipart buffer, [HJn] by its length).
    - [qRe] and [vu] follow references, which may go in circles: the number of schemas and one
      more is enough ([memory_does_not_matter], [vu_ends]). [Kv] stops at a level: [kv_fuel] is
      enough ([every_schema_has_an_example]) but for dynamic references to themselves
      ([dynamic_circle_never_ends]). The depth of [Ev] and the set of [Uv] are the code's limits.
    - The rounds of Lock's waiting loop and the ticks of a keeper are lists and
      numbers given by the run: the theorems quantify over all of them.

    ** Not modelled

    - Pure glue and I/O: kitexx/runtime.go and kitexx.go, hertzx/hertzx.go and bind.go,
      the storage clients (mysqlx, starrocksx and the like), metricsx, otelx,
      src/cmd (code generators), testx and the examples.
    - Of src/hertzx/docs/scalar.js: the libraries bundled in it (Vue, CodeMirror,
      highlight.js, Markdown, YAML, zod, TypeBox), the components of the page and all
      rendering, which is browser I/O; the samples of other languages but for their string
      literals (C, C#, Clojure, Objective-C, OCaml, PowerShell, R, Ruby, Swift, and http.client of
      Python, OkHttp of Java, cURL of PHP, HTTPie), some of which paste every text as it is;
      the coercion of schemas, and files among their examples; URLs (the URL class is the browser's); the base stylesheet of
      line 1. Texts are sequences of bytes or code units as each file says; files and
      dates among parameter values are left out.
    - Logs, metrics and spans everywhere; deadlines of contexts except where a decision
      depends on them; the resty, gobreaker and oauth2 transports.

    ** What is left

    In the bundle: the samples named above as further instances of Templates.v and Values.v,
    the coercion of schemas, the documents [ey] and [bze] make for XML examples, the
    Markdown writer of operations, the YAML folding. In Go, in this
    order: redisx/cache.go (read-through cache and its single flight),
    kitexx/identity.go, svcidentity.go and callers.go, hertzx/perm.go and audit.go,
    devroute (tag routing and its balancer), nacosx (diff of service lists, typed values),
    kitexx/migrate.go and shutdown.go, httpx's in-flight bound and breaker as a state
    machine, verifyx, jobx, and zlog's sampling and masking. *)
From Stdlib Require Export ZArith Lia Bool Ascii String.
From Stdlib Require Import DecimalString DecimalZ DecimalFacts.
From stdpp Require Export base tactics option list gmap strings.

(** ** Scope and notations of the development *)

Declare Scope devkit_scope.
Delimit Scope devkit_scope with devkit.
#[global] Open Scope Z_scope.

(** ** Results: Go's [(T, error)] *)

Inductive result (A E : Type) : Type :=
| Ok (a : A)
| Err (e : E).
Arguments Ok {A E} a.
Arguments Err {A E} e.

#[export] Instance result_eq_dec {A E} `{EqDecision A, EqDecision E} :
  EqDecision (result A E).
Proof. solve_decision. Defined.

(** [if err != nil { return ..., err }] *)
Definition rbind {A B E} (r : result A E) (k : A → result B E) : result B E :=
  match r with Ok a => k a | Err e => Err e end.

Notation "'let?' x := r 'in' k" := (rbind r (λ x, k))
  (at level 10, x pattern, r at level 100, k at level 200) : devkit_scope.
#[global] Open Scope devkit_scope.

Definition is_ok {A E} (r : result A E) : bool :=
  match r with Ok _ => true | Err _ => false end.

Lemma rbind_ok {A B E} (r : result A E) (k : A → result B E) b :
  rbind r k = Ok b ↔ ∃ a, r = Ok a ∧ k a = Ok b.
Proof.
  destruct r as [a|e]; simpl.
  - split; [eauto|]. by intros (? & [= <-] & ?).
  - split; [done|]. by intros (? & ? & ?).
Qed.

Lemma rbind_err {A B E} (r : result A E) (k : A → result B E) e :
  rbind r k = Err e ↔ r = Err e ∨ ∃ a, r = Ok a ∧ k a = Err e.
Proof.
  destruct r as [a|e']; simpl; split; intros H.
  - right. eauto.
  - destruct H as [H|(x & Hx & H)]; congruence.
  - left. congruence.
  - destruct H as [H|(x & Hx & H)]; congruence.
Qed.

(** ** Go's fixed-width integers

    A value of a w-bit signed type is an integer of [-2^(w-1), 2^(w-1));
    every operation whose mathematical result may leave the range is wrapped. *)

Definition wrap (w : Z) (z : Z) : Z := (z + 2 ^ (w - 1)) mod 2 ^ w - 2 ^ (w - 1).
Definition int32 (z : Z) : Z := wrap 32 z.
Definition int64 (z : Z) : Z := wrap 64 z.
Definition in_int32 (z : Z) : Prop := - 2 ^ 31 ≤ z < 2 ^ 31.
Definition in_int64 (z : Z) : Prop := - 2 ^ 63 ≤ z < 2 ^ 63.

Lemma wrap_small w z : 0 < w → - 2 ^ (w - 1) ≤ z < 2 ^ (w - 1) → wrap w z = z.
Proof.
  intros Hw Hz. unfold wrap.
  assert (2 ^ w = 2 * 2 ^ (w - 1)) as Hp.
  { rewrite <- Z.pow_succ_r by lia. f_equal. lia. }
  rewrite Z.mod_small; lia.
Qed.

Lemma int32_small z : in_int32 z → int32 z = z.
Proof. intros H. apply wrap_small; [lia|exact H]. Qed.

Lemma int64_small z : in_int64 z → int64 z = z.
Proof. intros H. apply wrap_small; [lia|exact H]. Qed.

Lemma wrap_range w z : 0 < w → - 2 ^ (w - 1) ≤ wrap w z < 2 ^ (w - 1).
Proof.
  intros Hw. unfold wrap.
  assert (2 ^ w = 2 * 2 ^ (w - 1)) as Hp.
  { rewrite <- Z.pow_succ_r by lia. f_equal. lia. }
  pose proof (Z.mod_pos_bound (z + 2 ^ (w - 1)) (2 ^ w)). 
  assert (0 < 2 ^ (w - 1)) by (apply Z.pow_pos_nonneg; lia). lia.
Qed.

Lemma int64_range z : in_int64 (int64 z).
Proof. apply (wrap_range 64). lia. Qed.

Lemma int32_range z : in_int32 (int32 z).
Proof. apply (wrap_range 32). lia. Qed.

(** Disjoint bit fields: [a<<n | b] is [a*2^n + b] when [b] fits in [n] bits. *)
Lemma lor_shiftl_add a b n :
  0 ≤ n → 0 ≤ b < 2 ^ n → Z.lor (Z.shiftl a n) b = a * 2 ^ n + b.
Proof.
  intros Hn Hb. rewrite Z.shiftl_mul_pow2 by done.
  assert (Z.land (a * 2 ^ n) b = 0) as Hl.
  { apply Z.bits_inj'. intros k Hk. rewrite Z.land_spec, Z.bits_0.
    destruct (decide (k < n)).
    - rewrite Z.mul_pow2_bits_low by done. done.
    - rewrite <- (Z.mod_small b (2 ^ n)) by done.
      rewrite Z.mod_pow2_bits_high by lia. apply andb_false_r. }
  rewrite <- Z.lxor_lor by done. symmetry. by apply Z.add_nocarry_lxor.
Qed.

(** ** Go's strings

    A Go string is a byte sequence, here a [string]. The [unicode]-aware
    functions of package strings are modelled on their ASCII part: bytes from
    128 up are left as they are. *)

#[global] Open Scope string_scope.
#[global] Open Scope Z_scope.

Definition byte_in (lo hi : nat) (c : ascii) : bool :=
  (Nat.leb lo (nat_of_ascii c)) && (Nat.leb (nat_of_ascii c) hi).

Definition upper_byte (c : ascii) : ascii :=
  if byte_in 97 122 c then ascii_of_nat (nat_of_ascii c - 32) else c.

Definition lower_byte (c : ascii) : ascii :=
  if byte_in 65 90 c then ascii_of_nat (nat_of_ascii c + 32) else c.

Fixpoint smap (f : ascii → ascii) (s : string) : string :=
  match s with "" => "" | String c s' => String (f c) (smap f s') end.

Fixpoint sforall (f : ascii → bool) (s : string) : bool :=
  match s with "" => true | String c s' => f c && sforall f s' end.

(** strings.ToUpper, strings.ToLower *)
Definition to_upper : string → string := smap upper_byte.
Definition to_lower : string → string := smap lower_byte.

(** unicode.IsSpace on ASCII: tab, newline, vertical tab, form feed,
    carriage return and space. *)
Definition is_space (c : ascii) : bool :=
  byte_in 9 13 c || Nat.eqb (nat_of_ascii c) 32.

Fixpoint trim_left (s : string) : string :=
  match s with
  | "" => ""
  | String c s' => if is_space c then trim_left s' else s
  end.

Fixpoint trim_right (s : string) : string :=
  match s with
  | "" => ""
  | String c s' =>
      match trim_right s' with
      | "" => if is_space c then "" else String c ""
      | r => String c r
      end
  end.

(** strings.TrimSpace *)
Definition trim_space (s : string) : string := trim_right (trim_left s).

(** strings.HasPrefix and the rest of the string after a prefix *)
Fixpoint strip_prefix (p s : string) : option string :=
  match p, s with
  | "", _ => Some s
  | String c p', String d s' => if Ascii.eqb c d then strip_prefix p' s' else None
  | _, "" => None
  end.

Definition has_prefix (p s : string) : bool := bool_decide (is_Some (strip_prefix p s)).

(** strings.Cut: the text around the first [sep] *)
Fixpoint cut (sep s : string) : option (string * string) :=
  match strip_prefix sep s with
  | Some r => Some ("", r)
  | None =>
      match s with
      | "" => None
      | String c s' => match cut sep s' with Some (a, b) => Some (String c a, b) | None => None end
      end
  end.

Definition slen (s : string) : Z := Z.of_nat (String.length s).

(** strconv.FormatInt(z, 10) *)
Definition format_int (z : Z) : string := NilZero.string_of_int (Z.to_int z).

(** strconv.ParseInt(s, 10, 64): an optional sign, at least one digit, and
    the value in the range of an int64. *)
Definition parse_int (s : string) : option Z :=
  let d := match s with
           | String "+" s' => Decimal.Pos <$> NilZero.uint_of_string s'
           | _ => NilZero.int_of_string s
           end in
  match Z.of_int <$> d with
  | Some z => if bool_decide (in_int64 z) then Some z else None
  | None => None
  end.

Lemma sapp_nil_r (s : string) : s +:+ "" = s.
Proof. induction s as [|c s IH]; [done|]. exact (f_equal (String c) IH). Qed.

Lemma sapp_assoc (a b c : string) : (a +:+ b) +:+ c = a +:+ (b +:+ c).
Proof. induction a as [|x a IH]; [done|]. exact (f_equal (String x) IH). Qed.

Lemma sapp_inj_l (a b c : string) : a +:+ b = a +:+ c → b = c.
Proof. induction a as [|x a IH]; intros H; [done|]. injection H. exact IH. Qed.

Lemma smap_length f s : String.length (smap f s) = String.length s.
Proof. induction s; simpl; congruence. Qed.

Lemma smap_smap f g s : smap f (smap g s) = smap (λ c, f (g c)) s.
Proof. induction s; simpl; congruence. Qed.

Lemma smap_ext f g s : (∀ c, f c = g c) → smap f s = smap g s.
Proof. intros H. induction s as [|c s IH]; simpl; [done|]. by rewrite H, IH. Qed.

Lemma upper_byte_idemp c : upper_byte (upper_byte c) = upper_byte c.
Proof. destruct c as [[] [] [] [] [] [] [] []]; reflexivity. Qed.

Lemma upper_byte_space c : is_space (upper_byte c) = is_space c.
Proof. destruct c as [[] [] [] [] [] [] [] []]; reflexivity. Qed.

Lemma to_upper_idemp s : to_upper (to_upper s) = to_upper s.
Proof. unfold to_upper. rewrite smap_smap. apply smap_ext, upper_byte_idemp. Qed.

Lemma trim_left_upper s : trim_left (to_upper s) = to_upper (trim_left s).
Proof.
  induction s as [|c s IH]; [done|]. cbn. rewrite upper_byte_space.
  by destruct (is_space c).
Qed.

Lemma trim_right_upper s : trim_right (to_upper s) = to_upper (trim_right s).
Proof.
  induction s as [|c s IH]; [done|]. unfold to_upper in *. cbn. rewrite IH.
  destruct (trim_right s); cbn; [|done]. rewrite upper_byte_space.
  by destruct (is_space c).
Qed.

Lemma trim_space_upper s : trim_space (to_upper s) = to_upper (trim_space s).
Proof. unfold trim_space. by rewrite trim_left_upper, trim_right_upper. Qed.

Lemma trim_right_idemp s : trim_right (trim_right s) = trim_right s.
Proof.
  induction s as [|c s IH]; [done|]. cbn.
  destruct (trim_right s) as [|d r] eqn:E; cbn in *.
  - destruct (is_space c) eqn:Ec; cbn; by rewrite ?Ec.
  - rewrite IH. done.
Qed.

Lemma trim_left_right s : trim_left s = s → trim_left (trim_right s) = trim_right s.
Proof.
  destruct s as [|c s]; [done|]. cbn. destruct (is_space c) eqn:Ec.
  - intros H. exfalso. assert (String.length (trim_left s) ≤ String.length s)%nat as Hl.
    { clear. induction s as [|d s IH]; cbn; [lia|]. destruct (is_space d); cbn; lia. }
    rewrite H in Hl. cbn in Hl. lia.
  - intros _. destruct (trim_right s); cbn; by rewrite Ec.
Qed.

Lemma trim_left_idemp s : trim_left (trim_left s) = trim_left s.
Proof.
  induction s as [|c s IH]; [done|]. cbn. destruct (is_space c) eqn:Ec; [done|].
  cbn. by rewrite Ec.
Qed.

Lemma trim_space_idemp s : trim_space (trim_space s) = trim_space s.
Proof.
  unfold trim_space. rewrite (trim_left_right (trim_left s)) by apply trim_left_idemp.
  apply trim_right_idemp.
Qed.

Lemma strip_prefix_app p s : strip_prefix p (p +:+ s) = Some s.
Proof.
  induction p as [|c p IH]; [done|].
  change (strip_prefix (String c p) (String c p +:+ s))
    with (if Ascii.eqb c c then strip_prefix p (p +:+ s) else None).
  by rewrite Ascii.eqb_refl.
Qed.

Lemma strip_prefix_Some p s r : strip_prefix p s = Some r → s = p +:+ r.
Proof.
  revert s. induction p as [|c p IH]; intros [|d s] H.
  { cbn in H. injection H as <-. done. }
  { cbn in H. injection H as <-. done. }
  { done. }
  change (strip_prefix (String c p) (String d s))
    with (if Ascii.eqb c d then strip_prefix p s else None) in H.
  destruct (Ascii.eqb_spec c d); [|done]. subst. exact (f_equal (String d) (IH _ H)).
Qed.

Lemma cut_Some sep s a b : cut sep s = Some (a, b) → s = a +:+ sep +:+ b.
Proof.
  revert a b. induction s as [|c s IH]; intros a b; cbn;
    destruct (strip_prefix sep _) eqn:E; intros H; simplify_eq.
  - by apply strip_prefix_Some in E.
  - by apply strip_prefix_Some in E.
  - destruct (cut sep s) as [[a' b']|] eqn:Ec; [|done]. simplify_eq.
    exact (f_equal (String c) (IH _ _ eq_refl)).
Qed.

Lemma format_int_digits z : NilZero.int_of_string (format_int z) = Some (Z.to_int z).
Proof.
  apply NilZero.isi.
  - destruct z as [|p|p]; cbn; [done| |done]. intros H.
    injection H. apply DecimalPos.Unsigned.to_uint_nonnil.
  - destruct z as [|p|p]; cbn; [done|done|]. intros H.
    injection H. apply DecimalPos.Unsigned.to_uint_nonnil.
Qed.

Lemma format_int_parse z : in_int64 z → parse_int (format_int z) = Some z.
Proof.
  intros Hz. pose proof (format_int_digits z) as Hi. unfold parse_int.
  assert (∀ s', format_int z ≠ String "+" s') as Hp.
  { intros s' H. rewrite H in Hi. cbn in Hi.
    by destruct (NilEmpty.uint_of_string s'). }
  destruct (format_int z) as [|c s'] eqn:E; [done|].
  destruct (decide (c = "+"%char)) as [->|Hc]; [by destruct (Hp s')|].
  assert ((match String c s' with
           | String "+" t => Decimal.Pos <$> NilZero.uint_of_string t
           | _ => NilZero.int_of_string (String c s') end)
          = NilZero.int_of_string (String c s')) as ->.
  { destruct c as [[] [] [] [] [] [] [] []]; try reflexivity. done. }
  rewrite Hi. cbn [fmap option_fmap option_map].
  rewrite DecimalZ.of_to. by rewrite bool_decide_true.
Qed.

Lemma format_int_inj x y : in_int64 x → in_int64 y → format_int x = format_int y → x = y.
Proof.
  intros Hx Hy H. apply (f_equal parse_int) in H.
  rewrite !format_int_parse in H by done. by simplify_eq.
Qed.

(** strings.Split(s, sep) for a one-byte separator *)
Fixpoint split_on (sep : ascii) (s : string) : list string :=
  match s with
  | "" => [""]
  | String c s' =>
      if Ascii.eqb c sep then "" :: split_on sep s'
      else match split_on sep s' with
           | [] => [String c ""]
           | w :: ws => String c w :: ws
           end
  end.

Definition lacks (sep : ascii) (s : string) : bool := sforall (λ c, negb (Ascii.eqb c sep)) s.

Lemma split_on_nonnil sep s : split_on sep s ≠ [].
Proof. destruct s as [|c s]; cbn; [done|]. repeat case_match; done. Qed.

Lemma split_on_lacks sep s : lacks sep s = true → split_on sep s = [s].
Proof.
  induction s as [|c s IH]; [done|]. unfold lacks in *.
  change (split_on sep (String c s)) with
    (if Ascii.eqb c sep then "" :: split_on sep s
     else match split_on sep s with [] => [String c ""] | w :: ws => String c w :: ws end).
  change (sforall (λ c, negb (Ascii.eqb c sep)) (String c s)) with
    (negb (Ascii.eqb c sep) && sforall (λ c, negb (Ascii.eqb c sep)) s).
  intros [Hc Hs]%andb_prop. apply negb_true_iff in Hc. rewrite Hc, IH by done. done.
Qed.

Lemma split_on_cons sep a b :
  lacks sep a = true → split_on sep (a +:+ String sep b) = a :: split_on sep b.
Proof.
  induction a as [|c a IH]; unfold lacks in *.
  - intros _. change ("" +:+ String sep b) with (String sep b). cbn -[Ascii.eqb].
    by rewrite Ascii.eqb_refl.
  - change (sforall (λ c, negb (Ascii.eqb c sep)) (String c a)) with
      (negb (Ascii.eqb c sep) && sforall (λ c, negb (Ascii.eqb c sep)) a).
    intros [Hc Hs]%andb_prop. apply negb_true_iff in Hc.
    change (String c a +:+ String sep b) with (String c (a +:+ String sep b)).
    change (split_on sep (String c (a +:+ String sep b))) with
      (if Ascii.eqb c sep then "" :: split_on sep (a +:+ String sep b)
       else match split_on sep (a +:+ String sep b) with
            | [] => [String c ""] | w :: ws => String c w :: ws end).
    by rewrite Hc, IH.
Qed.

Lemma concat_cons sep a b l : String.concat sep (a :: b :: l) = a +:+ sep +:+ String.concat sep (b :: l).
Proof. done. Qed.

(** What was joined is split, when no piece holds the separator. *)
Lemma split_concat sep ws : ws ≠ [] → Forall (λ w, lacks sep w = true) ws →
  split_on sep (String.concat (String sep "") ws) = ws.
Proof.
  intros H0 Hw. induction Hw as [|w ws Hw Hws IH]; [done|]. destruct ws as [|v ws]; [by apply split_on_lacks|].
  rewrite concat_cons. change (String sep "" +:+ String.concat (String sep "") (v :: ws)) with (String sep (String.concat (String sep "") (v :: ws))).
  rewrite split_on_cons by done. by rewrite IH.
Qed.

(** ** The digits of a number *)

Lemma sforall_uint P u : (∀ c, byte_in 48 57 c = true → P c = true) →
  sforall P (NilEmpty.string_of_uint u) = true.
Proof. intros HP. induction u as [|u IH|u IH|u IH|u IH|u IH|u IH|u IH|u IH|u IH|u IH];
  cbn -[byte_in]; rewrite ?IH, ?HP by reflexivity; done. Qed.

Lemma sforall_format P z : (∀ c, byte_in 48 57 c = true → P c = true) → P "-"%char = true →
  sforall P (format_int z) = true.
Proof.
  intros HP Hm. unfold format_int. destruct (Z.to_int z) as [u|u]; cbn.
  - destruct u; try (apply (sforall_uint P); exact HP). cbn. by rewrite HP.
  - rewrite Hm. destruct u; try (apply (sforall_uint P); exact HP). cbn. by rewrite HP.
Qed.

Lemma sforall_app P a b : sforall P (a +:+ b) = sforall P a && sforall P b.
Proof.
  induction a as [|c a IH]; [done|].
  change (sforall P (String c a +:+ b)) with (P c && sforall P (a +:+ b)). rewrite IH.
  by rewrite andb_assoc.
Qed.

Lemma trim_space_none s : sforall (λ c, negb (is_space c)) s = true → trim_space s = s.
Proof.
  intros H. unfold trim_space.
  assert (trim_left s = s) as ->.
  { destruct s as [|c s]; [done|]. cbn in *. apply andb_prop in H as [H _].
    apply negb_true_iff in H. by rewrite H. }
  induction s as [|c s IH]; [done|]. cbn in *. apply andb_prop in H as [Hc H].
  rewrite (IH H). destruct s; [|done]. apply negb_true_iff in Hc. by rewrite Hc.
Qed.

Lemma digit_not_space c : byte_in 48 57 c = true → negb (is_space c) = true.
Proof. destruct c as [[] [] [] [] [] [] [] []]; vm_compute; done. Qed.

Lemma format_int_no_space z : sforall (λ c, negb (is_space c)) (format_int z) = true.
Proof. apply sforall_format; [apply digit_not_space|done]. Qed.

Lemma format_int_trim z : trim_space (format_int z) = format_int z.
Proof. apply trim_space_none, format_int_no_space. Qed.

Lemma format_int_lacks c z : byte_in 48 57 c = false → c ≠ "-"%char → lacks c (format_int z) = true.
Proof.
  intros Hc Hm. apply sforall_format.
  - intros d Hd. destruct (Ascii.eqb_spec d c); [congruence|done].
  - destruct (Ascii.eqb_spec "-" c); [congruence|done].
Qed.

Lemma lower_digit c : byte_in 48 57 c = true → lower_byte c = c.
Proof. destruct c as [[] [] [] [] [] [] [] []]; vm_compute; intuition congruence. Qed.

Lemma smap_id f s : sforall (λ c, Ascii.eqb (f c) c) s = true → smap f s = s.
Proof.
  induction s as [|c s IH]; [done|].
  change (sforall (λ c, Ascii.eqb (f c) c) (String c s))
    with (Ascii.eqb (f c) c && sforall (λ c, Ascii.eqb (f c) c) s).
  intros [Hc Hs]%andb_prop. cbn [smap]. apply Ascii.eqb_eq in Hc. by rewrite Hc, IH.
Qed.

Lemma sforall_impl (P Q : ascii → bool) s : (∀ c, P c = true → Q c = true) → sforall P s = true → sforall Q s = true.
Proof.
  intros H. induction s as [|c s IH]; [done|]. cbn. intros [Hc Hs]%andb_prop. by rewrite H, IH.
Qed.

(** strings.Cut at the first separator byte *)
Lemma cut_lacks sep a b : lacks sep a = true → cut (String sep "") (a +:+ String sep b) = Some (a, b).
Proof.
  unfold lacks. induction a as [|c a IH].
  - intros _. change ("" +:+ String sep b) with (String sep b). cbn -[Ascii.eqb]. by rewrite Ascii.eqb_refl.
  - change (sforall (λ c, negb (Ascii.eqb c sep)) (String c a)) with
      (negb (Ascii.eqb c sep) && sforall (λ c, negb (Ascii.eqb c sep)) a).
    intros [Hc Hs]%andb_prop. apply negb_true_iff in Hc. specialize (IH Hs).
    change (String c a +:+ String sep b) with (String c (a +:+ String sep b)).
    cbn -[Ascii.eqb]. rewrite Ascii.eqb_sym, Hc. fold (cut (String sep "") (a +:+ String sep b)). by rewrite IH.
Qed.

(** A call that returns or panics. *)
Inductive outcome (A : Type) : Type :=
| Returns (a : A)
| Panics.
Arguments Returns {A} a.
Arguments Panics {A}.

#[export] Instance outcome_eq_dec {A} `{EqDecision A} : EqDecision (outcome A).
Proof. solve_decision. Defined.
