(* ===== verification/Prog.v ===== *)
(** * Effectful code: command trees, their runs and a program logic

    A Go function that talks to a server (Redis, MySQL) or to other code it is
    handed (the next handler, a callback) is a [prog E A]: a tree whose nodes are
    the calls it makes, in the order it makes them, each continued by what the
    code does with the reply. The other side of the calls is not under src/: it
    is a handler [h], an argument of [run_env], and what is known of it is
    the class [Lawful]. Between two calls of one program anything else (another
    replica, the passing of time) may change the other side's state: [env].

    [wp] is the weakest precondition of a program over the abstract view of
    the other side's state; [wp_sound] carries a [wp] proved once to every run
    against every lawful server and every admissible environment. *)
From S2P Require Import Prelude.

Inductive prog (E : Type → Type) (A : Type) : Type :=
| Ret (a : A)
| Vis {X : Type} (e : E X) (k : X → prog E A).
Arguments Ret {E A} a.
Arguments Vis {E A X} e k.

Fixpoint bind {E A B} (p : prog E A) (f : A → prog E B) : prog E B :=
  match p with
  | Ret a => f a
  | Vis e k => Vis e (λ x, bind (k x) f)
  end.

(** One call, its reply being the result. *)
Definition call {E X} (e : E X) : prog E X := Vis e Ret.

Notation "'let*' x ':=' p 'in' q" := (bind p (λ x, q))
  (at level 10, x pattern, p at level 100, q at level 200) : devkit_scope.

Notation "p ';;;' q" := (bind p (λ _, q))
  (at level 100, q at level 200, right associativity) : devkit_scope.

(** [if err != nil { return err }] around a call whose error is mapped by [f] *)
Definition or_return {E X A Er Er'} (r : result X Er) (f : Er → Er')
    (k : X → prog E (result A Er')) : prog E (result A Er') :=
  match r with Ok x => k x | Err e => Ret (Err (f e)) end.

(** A loop over a list with an early return: [Some] leaves the loop. *)
Fixpoint for_each {E X B} (xs : list X) (body : X → prog E (option B)) : prog E (option B) :=
  match xs with
  | [] => Ret None
  | x :: xs' =>
      bind (body x) (λ r, match r with Some b => Ret (Some b) | None => for_each xs' body end)
  end.

Section Run.
Context {E : Type → Type} {S V : Type}.
Variable h : ∀ X, E X → S → S * X.
Variable env : nat → S → S.

(** The run of a program from call number [n] on: [env n] happens right
    before call [n]. *)
Fixpoint run_env {A} (n : nat) (p : prog E A) (s : S) : S * A :=
  match p with
  | Ret a => (s, a)
  | Vis e k => let '(s', x) := h _ e (env n s) in run_env (Datatypes.S n) (k x) s'
  end.

(** The states right before and right after each call of the run *)
Fixpoint run_steps {A} (n : nat) (p : prog E A) (s : S) : list (S * S) :=
  match p with
  | Ret _ => []
  | Vis e k => let '(s', x) := h _ e (env n s) in (env n s, s') :: run_steps (Datatypes.S n) (k x) s'
  end.

Lemma run_env_bind {A B} (p : prog E A) (f : A → prog E B) n s :
  run_env n (bind p f) s = run_env (n + length (run_steps n p s)) (f (snd (run_env n p s))) (fst (run_env n p s)).
Proof.
  revert n s. induction p as [a|X e k IH]; intros n s; cbn; [by rewrite Nat.add_0_r|].
  destruct (h X e (env n s)) as [s' x]. rewrite IH. cbn. by rewrite Nat.add_succ_r.
Qed.

Lemma run_steps_bind {A B} (p : prog E A) (f : A → prog E B) n s :
  run_steps n (bind p f) s =
    (run_steps n p s ++ run_steps (n + length (run_steps n p s)) (f (snd (run_env n p s))) (fst (run_env n p s)))%list.
Proof.
  revert n s. induction p as [a|X e k IH]; intros n s; cbn; [by rewrite Nat.add_0_r|].
  destruct (h X e (env n s)) as [s' x]. rewrite IH. cbn. by rewrite Nat.add_succ_r.
Qed.

(** [allows e v v' x]: a server that shows [v] may answer the call [e] with
    [x] and show [v'] afterwards. *)
Class Lawful (view : S → V) (allows : ∀ X, E X → V → V → X → Prop) : Prop :=
  lawful : ∀ X (e : E X) s,
    allows X e (view s) (view (fst (h X e s))) (snd (h X e s)).
End Run.

(** A run that nothing interferes with. *)
Definition run {E S A} (h : ∀ X, E X → S → S * X) (p : prog E A) (s : S) : S * A :=
  run_env h (λ _ s, s) 0 p s.

Section Wp.
Context {E : Type → Type} {V : Type}.
Variable rely : V → V → Prop.
Variable allows : ∀ X, E X → V → V → X → Prop.

Fixpoint wp {A} (p : prog E A) (Q : A → V → Prop) (v : V) : Prop :=
  match p with
  | Ret a => Q a v
  | Vis e k => ∀ v1 v2 x, rely v v1 → allows _ e v1 v2 x → wp (k x) Q v2
  end.

Lemma wp_mono {A} (p : prog E A) (Q Q' : A → V → Prop) v :
  (∀ a w, Q a w → Q' a w) → wp p Q v → wp p Q' v.
Proof.
  intros HQ. revert v. induction p as [a|X e k IH]; intros v; simpl; [apply HQ|].
  intros H v1 v2 x Hr Ha. eapply IH, H; eauto.
Qed.

Lemma wp_bind {A B} (p : prog E A) (f : A → prog E B) Q v :
  wp p (λ a w, wp (f a) Q w) v → wp (bind p f) Q v.
Proof.
  revert v. induction p as [a|X e k IH]; intros v; simpl; [done|].
  intros H v1 v2 x Hr Ha. eapply IH, H; eauto.
Qed.

Lemma wp_conj {A} (p : prog E A) (Q Q' : A → V → Prop) v :
  wp p Q v → wp p Q' v → wp p (λ a w, Q a w ∧ Q' a w) v.
Proof. revert v. induction p as [a|X e k IH]; intros v; simpl; eauto. Qed.

Lemma wp_true {A} (p : prog E A) v : wp p (λ _ _, True) v.
Proof. revert v. induction p as [a|X e k IH]; intros v; simpl; auto. Qed.

Lemma wp_any {A B} (p : prog E A) (f : A → prog E B) Q v :
  (∀ a w, wp (f a) Q w) → wp (bind p f) Q v.
Proof. intros Hf. apply wp_bind. eapply wp_mono, wp_true. auto. Qed.

(** Loop rule: an invariant [I] kept by every iteration that does not leave. *)
Lemma wp_for_each {X B} (xs : list X) (body : X → prog E (option B))
    (I : list X → V → Prop) (Q : option B → V → Prop) v :
  (∀ x rest w, I (x :: rest) w →
     wp (body x) (λ r w', match r with Some b => Q (Some b) w' | None => I rest w' end) w) →
  (∀ w, I [] w → Q None w) →
  I xs v → wp (for_each xs body) Q v.
Proof.
  intros Hbody Hend. revert v. induction xs as [|x xs IH]; intros v HI; simpl; [by apply Hend|].
  apply wp_bind. eapply wp_mono, Hbody, HI. intros [b|] w Hw; simpl; [done|]. by apply IH.
Qed.

Lemma wp_sound {A S} (h : ∀ X, E X → S → S * X) (view : S → V) `{HL : !Lawful h view allows}
    (env : nat → S → S) (p : prog E A) (Q : A → V → Prop) n s :
  (∀ m s, rely (view s) (view (env m s))) →
  wp p Q (view s) →
  Q (snd (run_env h env n p s)) (view (fst (run_env h env n p s))).
Proof.
  intros Henv. revert n s. induction p as [a|X e k IH]; intros n s; simpl; [done|].
  intros H. pose proof (HL X e (env n s)) as Ha.
  destruct (h X e (env n s)) as [s' x]; simpl in *.
  apply IH. eapply H; eauto.
Qed.
End Wp.

(** ** What every single call of a program does, in whatever state it finds the server *)

Section Calls.
Context {E : Type → Type} {V : Type}.
Variable allows : ∀ X, E X → V → V → X → Prop.
Variable G : V → V → Prop.

Fixpoint every_call {A} (p : prog E A) : Prop :=
  match p with
  | Ret _ => True
  | Vis e k => (∀ v v' x, allows _ e v v' x → G v v') ∧ ∀ x, every_call (k x)
  end.

Lemma every_call_bind {A B} (p : prog E A) (f : A → prog E B) :
  every_call p → (∀ a, every_call (f a)) → every_call (bind p f).
Proof. induction p as [a|X e k IH]; intros Hp Hf; cbn in *; [by apply Hf|]. destruct Hp as [H Hk]. split; auto. Qed.

Lemma every_call_steps {A S} (h : ∀ X, E X → S → S * X) (view : S → V) `{HL : !Lawful h view allows}
    (env : nat → S → S) (p : prog E A) n s :
  every_call p → Forall (λ x, G (view (fst x)) (view (snd x))) (run_steps h env n p s).
Proof.
  revert n s. induction p as [a|X e k IH]; intros n s Hp; cbn; [constructor|]. destruct Hp as [H Hk].
  pose proof (HL X e (env n s)) as Ha. destruct (h X e (env n s)) as [s' x]. cbn in Ha. constructor; [by eapply H|by apply IH].
Qed.
End Calls.

(** Fewer interferences and fewer behaviours keep a specification. *)
Lemma wp_weaken {E V A} (rely rely' : V → V → Prop)
    (allows allows' : ∀ X, E X → V → V → X → Prop) (p : prog E A) Q v :
  (∀ v w, rely' v w → rely v w) →
  (∀ X e v w x, allows' X e v w x → allows X e v w x) →
  wp rely allows p Q v → wp rely' allows' p Q v.
Proof.
  intros Hr Ha. revert v. induction p as [a|X e k IH]; intros v; simpl; [done|].
  intros H v1 v2 x H1 H2. eapply IH, H; eauto.
Qed.

(** Nothing interferes: the rely of a sequential run. *)
Lemma wp_run {E V A S} (allows : ∀ X, E X → V → V → X → Prop)
    (h : ∀ X, E X → S → S * X) (view : S → V) `{HL : !Lawful h view allows}
    (p : prog E A) (Q : A → V → Prop) s :
  wp (=) allows p Q (view s) → Q (snd (run h p s)) (view (fst (run h p s))).
Proof. intros H. unfold run. by eapply (wp_sound (=) allows h view). Qed.
