(* ===== verification/Redis.v ===== *)
(** * Redis: the interface the packages rely on

    Redis and the go-redis client are not under src/. [rcmd] lists the
    commands the modelled code sends; [redis_doc] states what the Redis
    documentation promises of a command that executes: its reply and its effect
    on what later commands observe ([None] is an error reply, such as
    WRONGTYPE, that changes nothing). [redis_allows] adds what a network adds:
    any command may come back as an error, executed or not. A theorem about a
    program that uses Redis holds for every server that satisfies the class
    [Prog.Lawful] at [redis_allows]; [map_redis] is a concrete one, with a script
    of faults, on which witnesses are evaluated. *)
From S2P Require Import Prelude Prog.

Inductive rval : Type :=
| RStr (s : string)
| RSet (m : gset string)
| RNum (n : Z).

#[export] Instance rval_eq_dec : EqDecision rval.
Proof. solve_decision. Defined.

(** What commands observe: the server's clock (milliseconds) and, by key, the
    value and the moment it expires at ([None]: never). *)
Record rview : Type := RView { rv_now : Z; rv_data : gmap string (rval * option Z) }.

Definition fresh (v : rview) (e : rval * option Z) : bool :=
  match snd e with None => true | Some t => bool_decide (rv_now v < t) end.

(** The value of a key that exists now. *)
Definition look (v : rview) (k : string) : option rval :=
  match rv_data v !! k with
  | Some e => if fresh v e then Some (fst e) else None
  | None => None
  end.

Definition set_data (v : rview) (d : gmap string (rval * option Z)) : rview :=
  RView (rv_now v) d.

(** Expiry of a write, [ttl] in milliseconds: go-redis sends an expiry only for
    a positive TTL. *)
Definition expiry (v : rview) (ttl : Z) : option Z :=
  if bool_decide (0 < ttl) then Some (rv_now v + ttl) else None.

Definition put (v : rview) (k : string) (x : rval) (ex : option Z) : rview :=
  set_data v (<[k := (x, ex)]> (rv_data v)).

Definition drop (v : rview) (k : string) : rview := set_data v (delete k (rv_data v)).

(** Commands that write and reply with a count. *)
Inductive wcmd : Type :=
| WSet (k s : string) (ttl : Z)
| WSetNX (k s : string) (ttl : Z)
| WDel (k : string)
| WSAdd (k m : string)
| WSRem (k m : string)
| WPExpire (k : string) (ttl : Z)
| WIncr (k : string).

Definition old_expiry (v : rview) (k : string) : option Z :=
  match rv_data v !! k with Some e => if fresh v e then snd e else None | None => None end.

Definition wcmd_doc (c : wcmd) (v : rview) : option (rview * Z) :=
  match c with
  | WSet k s ttl => Some (put v k (RStr s) (expiry v ttl), 1)
  | WSetNX k s ttl =>
      match look v k with
      | Some _ => Some (v, 0)
      | None => Some (put v k (RStr s) (expiry v ttl), 1)
      end
  | WDel k =>
      match look v k with Some _ => Some (drop v k, 1) | None => Some (drop v k, 0) end
  | WSAdd k m =>
      match look v k with
      | Some (RSet ms) =>
          Some (put v k (RSet ({[m]} ∪ ms)) (old_expiry v k), if decide (m ∈ ms) then 0 else 1)
      | Some _ => None
      | None => Some (put v k (RSet {[m]}) None, 1)
      end
  | WSRem k m =>
      match look v k with
      | Some (RSet ms) =>
          if decide (m ∈ ms) then
            if decide (ms ∖ {[m]} = ∅) then Some (drop v k, 1)
            else Some (put v k (RSet (ms ∖ {[m]})) (old_expiry v k), 1)
          else Some (v, 0)
      | Some _ => None
      | None => Some (v, 0)
      end
  | WPExpire k ttl =>
      match look v k with
      | Some x =>
          if bool_decide (ttl <= 0) then Some (drop v k, 1)
          else Some (put v k x (Some (rv_now v + ttl)), 1)
      | None => Some (v, 0)
      end
  | WIncr k =>
      match look v k with
      | Some (RNum n) => Some (put v k (RNum (n + 1)) (old_expiry v k), n + 1)
      | Some _ => None
      | None => Some (put v k (RNum 1) None, 1)
      end
  end.

(** MULTI / EXEC: the writes one after the other, as one step; a command that
    errors does not stop the others, the transaction is then reported as an error. *)
Fixpoint tx_doc (cs : list wcmd) (v : rview) : rview * bool :=
  match cs with
  | [] => (v, true)
  | c :: cs' =>
      match wcmd_doc c v with
      | Some (v', _) => tx_doc cs' v'
      | None => let '(v', _) := tx_doc cs' v in (v', false)
      end
  end.

Inductive rcmd : Type → Type :=
| CGet (k : string) : rcmd (option string)
| CExists (k : string) : rcmd bool
| CMembers (k : string) : rcmd (list string)
| CWrite (c : wcmd) : rcmd Z
| CTx (cs : list wcmd) : rcmd bool
| CIfGet (k : string) (test : option string → bool) (act : wcmd) : rcmd Z.

(** [CIfGet k test act] is the shape of the Lua scripts of this repository:
    [if test(redis.call("get", k)) then return act else return 0 end]. *)
Definition redis_doc {X} (c : rcmd X) (v : rview) : option (rview * X) :=
  match c in rcmd X return option (rview * X) with
  | CGet k =>
      match look v k with
      | Some (RStr s) => Some (v, Some s)
      | Some (RNum n) => Some (v, Some (format_int n))
      | Some (RSet _) => None
      | None => Some (v, None)
      end
  | CExists k => Some (v, bool_decide (is_Some (look v k)))
  | CMembers k =>
      match look v k with
      | Some (RSet ms) => Some (v, elements ms)
      | Some _ => None
      | None => Some (v, [])
      end
  | CWrite c => wcmd_doc c v
  | CTx cs => Some (tx_doc cs v)
  | CIfGet k test act =>
      match look v k with
      | Some (RStr s) => if test (Some s) then wcmd_doc act v else Some (v, 0)
      | Some (RNum n) => if test (Some (format_int n)) then wcmd_doc act v else Some (v, 0)
      | Some (RSet _) => None
      | None => if test None then wcmd_doc act v else Some (v, 0)
      end
  end.

(** The error of a command; which one it is does not matter to the code. *)
Inductive rerr : Type := RErr.

#[export] Instance rerr_eq_dec : EqDecision rerr.
Proof. solve_decision. Defined.

(** A command as an effect: it comes back with a reply or an error. *)
Inductive redisE : Type → Type :=
| Redis {X} (c : rcmd X) : redisE (result X rerr).

Definition redis_allows {Y} (e : redisE Y) (v v' : rview) (r : Y) : Prop :=
  match e in redisE Y return Y → Prop with
  | Redis c => λ r,
      match r with
      | Ok x => redis_doc c v = Some (v', x)
      | Err _ => v' = v ∨ ∃ x, redis_doc c v = Some (v', x)
      end
  end r.

(** A server without faults: every command executes and replies. *)
Definition redis_up {Y} (e : redisE Y) (v v' : rview) (r : Y) : Prop :=
  match e in redisE Y return Y → Prop with
  | Redis c => λ r,
      match redis_doc c v with
      | Some (w, x) => v' = w ∧ r = Ok x
      | None => v' = v ∧ r = Err RErr
      end
  end r.

(** ** A concrete server

    [map_redis] keeps the view itself and a script of faults, one per command. *)
Inductive fault : Type := Fine | LostBefore | LostAfter.

Record map_redis_state : Type := MR { mr_view : rview; mr_faults : list fault }.

Definition next_fault (s : map_redis_state) : fault * list fault :=
  match mr_faults s with [] => (Fine, []) | f :: fs => (f, fs) end.

Definition map_redis {Y} (e : redisE Y) (s : map_redis_state) : map_redis_state * Y :=
  match e in redisE Y return map_redis_state * Y with
  | Redis c =>
      let '(f, fs) := next_fault s in
      match f, redis_doc c (mr_view s) with
      | LostBefore, _ => (MR (mr_view s) fs, Err RErr)
      | _, None => (MR (mr_view s) fs, Err RErr)
      | Fine, Some (v', x) => (MR v' fs, Ok x)
      | LostAfter, Some (v', _) => (MR v' fs, Err RErr)
      end
  end.

#[export] Instance map_redis_lawful :
  Lawful (@map_redis) mr_view (@redis_allows).
Proof.
  intros Y [X c] [v fs]. cbn. destruct (next_fault _) as [f fs'].
  destruct f; cbn; destruct (redis_doc c v) as [[v' x]|] eqn:E; cbn; eauto.
Qed.

(** ** What a write leaves behind *)

Create Rewrite HintDb redis.

Lemma look_put_eq v k x ttl : look (put v k x (expiry v ttl)) k = Some x.
Proof.
  unfold look, put, expiry, fresh. cbn. rewrite lookup_insert_eq.
  case_bool_decide; cbn; [|done]. by rewrite bool_decide_true by lia.
Qed.

Lemma look_put_none v k x : look (put v k x None) k = Some x.
Proof. unfold look, put. cbn. by rewrite lookup_insert_eq. Qed.

Lemma look_put_ne v k k' x ex : k ≠ k' → look (put v k x ex) k' = look v k'.
Proof. intros Hk. unfold look, put. cbn. by rewrite lookup_insert_ne. Qed.

Lemma look_drop_eq v k : look (drop v k) k = None.
Proof. unfold look, drop. cbn. by rewrite lookup_delete_eq. Qed.

Lemma look_drop_ne v k k' : k ≠ k' → look (drop v k) k' = look v k'.
Proof. intros Hk. unfold look, drop. cbn. by rewrite lookup_delete_ne. Qed.

Lemma fresh_old_expiry v k x : look v k = Some x →
  ∀ y, look (put v k y (old_expiry v k)) k = Some y.
Proof.
  unfold look, old_expiry, put. cbn. destruct (rv_data v !! k) as [e|]; [|done].
  destruct (fresh v e) eqn:Hf; [|done]. intros _ y. rewrite lookup_insert_eq.
  unfold fresh in *. cbn in *. by rewrite Hf.
Qed.

#[export] Hint Rewrite look_put_none look_put_eq look_drop_eq : redis.

(** The key a write touches; every other key keeps its value. *)
Definition wkey (c : wcmd) : string :=
  match c with
  | WSet k _ _ | WSetNX k _ _ | WDel k | WSAdd k _ | WSRem k _ | WPExpire k _ | WIncr k => k
  end.

Lemma wcmd_doc_frame c v v' n k :
  wcmd_doc c v = Some (v', n) → wkey c ≠ k → look v' k = look v k.
Proof.
  intros H Hk. destruct c; cbn in *;
    repeat first [case_match | progress simplify_eq];
    rewrite ?look_put_ne, ?look_drop_ne by done; done.
Qed.

Lemma wcmd_doc_now c v v' n : wcmd_doc c v = Some (v', n) → rv_now v' = rv_now v.
Proof.
  intros H. destruct c; cbn in *; repeat first [case_match | progress simplify_eq]; done.
Qed.

Lemma tx_doc_frame cs v k :
  (∀ c, c ∈ cs → wkey c ≠ k) → look (fst (tx_doc cs v)) k = look v k.
Proof.
  revert v. induction cs as [|c cs IH]; intros v Hk; cbn; [done|].
  assert (∀ c', c' ∈ cs → wkey c' ≠ k) as Hk' by (intros; apply Hk; by right).
  destruct (wcmd_doc c v) as [[v' n]|] eqn:E.
  - rewrite IH by done. eapply wcmd_doc_frame; [done|]. apply Hk. by left.
  - specialize (IH v Hk'). by destruct (tx_doc cs v).
Qed.

(** A successful command other than a write leaves the store alone. *)
Lemma redis_doc_read {X} (c : rcmd X) v v' x :
  redis_doc c v = Some (v', x) →
  match c with CGet _ | CExists _ | CMembers _ => v' = v | _ => True end.
Proof. destruct c; cbn; repeat case_match; naive_solver. Qed.

(** ** Programs over Redis alone, and what they must not disturb *)

Definition rcall {X} (c : rcmd X) : prog redisE (result X rerr) := call (Redis c).

(** Key [k] holds the string [s]. *)
Definition held (k s : string) (v : rview) : Prop := look v k = Some (RStr s).

(** Time and other clients may do anything that keeps the value of [k]. *)
Definition keeps_held (k s : string) (v v' : rview) : Prop := held k s v → held k s v'.

(** A program leaves [k] alone while it holds [s], with replies lost at any point. *)
Definition frame {A} (p : prog redisE A) (k s : string) : Prop :=
  ∀ v, held k s v → wp (keeps_held k s) (@redis_allows) p (λ _, held k s) v.

Lemma frame_bind {A B} (p : prog redisE A) (f : A → prog redisE B) k s :
  frame p k s → (∀ a, frame (f a) k s) → frame (bind p f) k s.
Proof.
  intros Hp Hf v Hv. apply wp_bind. eapply wp_mono, Hp, Hv. intros a v' Hv'. by apply Hf.
Qed.

Lemma frame_ret {A} (a : A) k s : frame (Ret a) k s.
Proof. intros v Hv. exact Hv. Qed.

Lemma frame_rcall {X} (c : rcmd X) k s :
  (∀ v v' x, held k s v → redis_doc c v = Some (v', x) → held k s v') → frame (rcall c) k s.
Proof.
  intros Hc v Hv v1 v2 x Hr Ha. cbn in *. specialize (Hr Hv).
  destruct x as [x|e]; [by eapply Hc|]. destruct Ha as [->|[x Ha]]; [done|by eapply Hc].
Qed.

(** SETNX never touches a key that exists. *)
Lemma frame_setnx k' s' ttl k s : frame (rcall (CWrite (WSetNX k' s' ttl))) k s.
Proof.
  apply frame_rcall. intros v v' x Hv. unfold held in *. cbn. destruct (decide (k' = k)) as [->|Hne].
  - rewrite Hv. by intros [= <- <-].
  - destruct (look v k'); intros [= <- <-]; [done|]. by rewrite look_put_ne.
Qed.

(** A guarded script does not act on a value that fails its test. *)
Lemma frame_if_get k' test act k s : wkey act = k' → test (Some s) = false →
  frame (rcall (CIfGet k' test act)) k s.
Proof.
  intros Ha Hs. apply frame_rcall. intros v v' x Hv. unfold held in *. cbn -[wcmd_doc].
  destruct (decide (k' = k)) as [->|Hne].
  - rewrite Hv, Hs. by intros [= <- <-].
  - assert (∀ r, wcmd_doc act v = Some r → look (fst r) k = Some (RStr s)) as Hw.
    { intros [v1 y] Hd. cbn [fst]. rewrite (wcmd_doc_frame _ _ _ _ k Hd); [done|congruence]. }
    destruct (look v k') as [[t|m|z]|]; try case_match; intros Hx; simplify_eq;
      try done; exact (Hw (v', x) Hx).
Qed.

Lemma frame_for_each {X B} (xs : list X) (body : X → prog redisE (option B)) k s :
  (∀ x, frame (body x) k s) → frame (for_each xs body) k s.
Proof.
  intros Hb. induction xs as [|x xs IH]; cbn; [apply frame_ret|].
  apply frame_bind; [done|]. intros [b|]; [apply frame_ret|done].
Qed.

(** A framed program on a server, interleaved with clients that keep the key. *)
Lemma frame_run {S A} (h : ∀ X, redisE X → S → S * X) (view : S → rview)
    `{!Lawful h view (@redis_allows)} (env : nat → S → S) (p : prog redisE A) k s n st :
  frame p k s → (∀ m x, keeps_held k s (view x) (view (env m x))) →
  held k s (view st) → held k s (view (fst (run_env h env n p st))).
Proof.
  intros Hp Henv Hst.
  exact (wp_sound _ _ h view env p (λ _, held k s) n st Henv (Hp _ Hst)).
Qed.

(** ** What single commands leave as they are *)

Lemma wcmd_doc_data c v v' n k : wcmd_doc c v = Some (v', n) → wkey c ≠ k → rv_data v' !! k = rv_data v !! k.
Proof.
  intros H Hk. destruct c; cbn in *; repeat first [case_match | progress simplify_eq]; cbn;
    rewrite ?lookup_insert_ne, ?lookup_delete_ne by done; done.
Qed.

(** While [k] holds [s], its value and the moment it expires at stay as they are. *)
Definition leaves (k s : string) (v v' : rview) : Prop :=
  held k s v → rv_data v' !! k = rv_data v !! k ∧ rv_now v' = rv_now v.

Lemma leaves_held k s v v' : leaves k s v v' → held k s v → held k s v'.
Proof. intros H Hv. destruct (H Hv) as [Hd Hn]. unfold held, look, fresh in *. by rewrite Hd, Hn. Qed.

Lemma leaves_rcall {X} (c : rcmd X) k s :
  (∀ v v' x, held k s v → redis_doc c v = Some (v', x) → rv_data v' !! k = rv_data v !! k ∧ rv_now v' = rv_now v) →
  every_call (@redis_allows) (leaves k s) (rcall c).
Proof.
  intros Hc. split; [|done]. intros v v' [x|e] Ha Hv; [by eapply Hc|]. destruct Ha as [->|[x Ha]]; [done|by eapply Hc].
Qed.

Lemma leaves_setnx k' s' ttl k s : every_call (@redis_allows) (leaves k s) (rcall (CWrite (WSetNX k' s' ttl))).
Proof.
  apply leaves_rcall. intros v v' x Hv Hd. destruct (decide (k' = k)) as [->|Hne]; [|split; [by apply (wcmd_doc_data _ _ _ _ k Hd)|exact (wcmd_doc_now _ _ _ _ Hd)]].
  unfold held in Hv. cbn in Hd. rewrite Hv in Hd. by injection Hd as <- <-.
Qed.

Lemma leaves_if_get k' test act k s : wkey act = k' → test (Some s) = false →
  every_call (@redis_allows) (leaves k s) (rcall (CIfGet k' test act)).
Proof.
  intros Ha Hs. apply leaves_rcall. intros v v' x Hv Hd. unfold held in Hv. cbn -[wcmd_doc] in Hd.
  destruct (decide (k' = k)) as [->|Hne].
  - rewrite Hv, Hs in Hd. by injection Hd as <- <-.
  - assert (∀ r, wcmd_doc act v = Some r → rv_data (fst r) !! k = rv_data v !! k ∧ rv_now (fst r) = rv_now v) as Hw.
    { intros [v1 y] Hy. split; [by apply (wcmd_doc_data _ _ _ _ k Hy); rewrite Ha|exact (wcmd_doc_now _ _ _ _ Hy)]. }
    cbn [fst] in Hw. destruct (look v k') as [[t|m|z]|]; try case_match; simplify_eq; try done; exact (Hw (v', x) Hd).
Qed.

Lemma leaves_for_each {X B} (xs : list X) (body : X → prog redisE (option B)) k s :
  (∀ x, every_call (@redis_allows) (leaves k s) (body x)) → every_call (@redis_allows) (leaves k s) (for_each xs body).
Proof. intros Hb. induction xs as [|x xs IH]; cbn; [done|]. apply every_call_bind; [done|]. by intros [b|]. Qed.

(** SETNX replies 1 when it found the key free. *)
Lemma setnx_takes_free k s ttl v v' : redis_allows (Redis (CWrite (WSetNX k s ttl))) v v' (Ok 1) →
  look v k = None ∧ held k s v'.
Proof. cbn. destruct (look v k); [done|]. intros [= <-]. split; [done|]. apply look_put_eq. Qed.

(** A key nobody takes from its holder is held before and after every command. *)
Lemma held_steps {S A} (h : ∀ X, redisE X → S → S * X) (view : S → rview) `{HL : !Lawful h view (@redis_allows)}
    (env : nat → S → S) (p : prog redisE A) k s n st :
  every_call (@redis_allows) (leaves k s) p → (∀ m x, keeps_held k s (view x) (view (env m x))) → held k s (view st) →
  Forall (λ x, held k s (view (fst x)) ∧ held k s (view (snd x))) (run_steps h env n p st).
Proof.
  intros Hp Henv. revert n st Hp. induction p as [a|X e c IH]; intros n st; cbn; [constructor|]. intros [H Hc] Hst.
  pose proof (HL X e (env n st)) as Ha. destruct (h X e (env n st)) as [s' x]. cbn in Ha.
  assert (held k s (view (env n st))) as H1 by (apply Henv, Hst).
  assert (held k s (view s')) as H2 by (eapply leaves_held; [by eapply H|done]). constructor; [done|by apply IH].
Qed.

(** [ms] milliseconds pass before each command of a run on the concrete server. *)
Definition after (ms : Z) (_ : nat) (s : map_redis_state) : map_redis_state :=
  MR (RView (rv_now (mr_view s) + ms) (rv_data (mr_view s))) (mr_faults s).

Definition empty_redis (fs : list fault) : map_redis_state := MR (RView 0 ∅) fs.

Lemma after_0_keeps k s m x : keeps_held k s (mr_view x) (mr_view (after 0 m x)).
Proof.
  destruct x as [[now d] fs]. unfold keeps_held, after, held, look, fresh. cbn.
  by rewrite Z.add_0_r.
Qed.
