(* ===== verification/AuthTokens.v ===== *)
(** * authx, the local half: configuration, keys, tokens, passwords

    Models src/authx/authx.go up to the point where Redis is involved, and
    src/authx/password.go: the `auth:` section and its checks, the key ring, what
    a token must satisfy to be accepted, the `Authorization` header and the PHC
    string of a password. The JWT, base64, SHA-256, Ed25519 and argon2 code is
    not under src/; it enters through the classes [Crypto], [Jwt] and [Argon]. *)
From S2P Require Import Prelude.

(** ** Durations, nanoseconds as in package time *)
Definition second : Z := 1000000000.
Definition minute : Z := 60 * second.
Definition hour : Z := 60 * minute.

(** config.Duration.Or *)
Definition dur_or (d def : Z) : Z := if bool_decide (d = 0) then def else d.

(** ** Realms *)

(** Realm.Valid: [^[a-z][a-z0-9_]{0,31}$] *)
Definition realm_byte (c : ascii) : bool :=
  byte_in 97 122 c || byte_in 48 57 c || Ascii.eqb c "_".

Definition Valid (r : string) : bool :=
  match r with
  | "" => false
  | String c r' => byte_in 97 122 c && sforall realm_byte r' && Nat.leb (String.length r') 31
  end.

Record Config : Type := {
  Enabled : bool;
  PrivateKey : string;
  PublicKeys : list string;
  Secret : string;
  Issuer : string;
  cfgRealm : string;
  AccessTTL : Z;
  RefreshTTL : Z;
  SingleSession : option bool
}.

Definition defaultIssuer : string := "sportsbook".
Definition defaultAccessTTL : Z := 15 * minute.
Definition defaultRefreshTTL : Z := 30 * 24 * hour.

Definition issuer (c : Config) : string :=
  if String.eqb (Issuer c) "" then defaultIssuer else Issuer c.

Definition singleSession (c : Config) : bool :=
  match SingleSession c with None => true | Some b => b end.

Definition access_ttl (c : Config) : Z := dur_or (AccessTTL c) defaultAccessTTL.
Definition refresh_ttl (c : Config) : Z := dur_or (RefreshTTL c) defaultRefreshTTL.

(** ** Keys *)

Class Crypto : Type := {
  b64_decode : string → option string;   (* base64.StdEncoding.DecodeString *)
  sha256_hex : string → string;          (* hex of sha256.Sum256 *)
  ed_public : string → string            (* public key of NewKeyFromSeed *)
}.

Inductive config_error : Type :=
| SecretTooShort
| BadPrivateKey
| BadPublicKey (s : string)
| IssuerNeedsKey
| GatewayNeedsKey
| RealmRequired
| BadRealm (r : string)
| NeedsRedis
| CheckerNeedsKey.

#[export] Instance config_error_eq_dec : EqDecision config_error.
Proof. solve_decision. Defined.

Record keys : Type := Keys {
  secret : option string;
  private : option string;
  kid : string;
  public : gmap string string
}.

Section Keys.
Context `{Crypto}.

(** KeyID: the first 8 hex digits of the SHA-256 (hex of its first 4 bytes). *)
Definition KeyID (pub : string) : string := String.substring 0 8 (sha256_hex pub).

Definition load_secret (c : Config) : result (option string) config_error :=
  let s := trim_space (Secret c) in
  if String.eqb s "" then Ok None
  else if slen s <? 32 then Err SecretTooShort else Ok (Some s).

Definition load_private (c : Config) : result (option string) config_error :=
  let s := trim_space (PrivateKey c) in
  if String.eqb s "" then Ok None
  else match b64_decode s with
       | Some seed => if slen seed =? 32 then Ok (Some seed) else Err BadPrivateKey
       | None => Err BadPrivateKey
       end.

Fixpoint load_public (l : list string) (m : gmap string string) :
    result (gmap string string) config_error :=
  match l with
  | [] => Ok m
  | s :: l' =>
      let s := trim_space s in
      if String.eqb s "" then load_public l' m
      else match b64_decode s with
           | Some raw =>
               if slen raw =? 32 then load_public l' (<[KeyID raw := raw]> m)
               else Err (BadPublicKey s)
           | None => Err (BadPublicKey s)
           end
  end.

Definition loadKeys (c : Config) : result keys config_error :=
  let? sec := load_secret c in
  let? priv := load_private c in
  let '(k, own) := match priv with
                   | Some seed => let pub := ed_public seed in (KeyID pub, {[KeyID pub := pub]})
                   | None => ("", ∅)
                   end in
  let? pubs := load_public (PublicKeys c) own in
  Ok (Keys sec priv k pubs).

Definition Validate (c : Config) (verifier : bool) : result unit config_error :=
  if negb (Enabled c) then Ok tt
  else
    let? k := loadKeys c in
    if negb verifier && bool_decide (private k = None) && bool_decide (secret k = None)
    then Err IssuerNeedsKey
    else if verifier && bool_decide (public k = ∅) && bool_decide (secret k = None)
    then Err GatewayNeedsKey
    else if verifier then
      if String.eqb (cfgRealm c) "" then Err RealmRequired
      else if negb (Valid (cfgRealm c)) then Err (BadRealm (cfgRealm c))
      else Ok tt
    else Ok tt.
End Keys.

(** ** Tokens *)

Record claims : Type := Claims {
  cl_issuer : string;
  cl_subject : string;
  cl_id : string;
  cl_issued_at : option Z;     (* NumericDate: whole seconds *)
  cl_expires_at : option Z;
  cl_realm : string;
  cl_sid : string
}.

Inductive method : Type := EdDSA | HS256 | OtherMethod (name : string).

#[export] Instance method_eq_dec : EqDecision method.
Proof. solve_decision. Defined.

(** What a verification key function may hand back. *)
Inductive vkey : Type := VEd (pub : string) | VHmac (sec : string).
Inductive skey : Type := SEd (seed : string) | SHmac (sec : string).

Record popts : Type := POpts { po_issuer : string; po_methods : list method; po_leeway : Z }.

(** golang-jwt: tokens, what is written in them, and ParseWithClaims with
    WithIssuer, WithExpirationRequired, WithValidMethods and WithLeeway. *)
Class Jwt : Type := {
  token : Type;
  jwt_header : token → option (method * option string);  (* alg, kid *)
  jwt_claims : token → option claims;
  jwt_verified : vkey → token → bool;
  jwt_sign : skey → option string → claims → option token;
  jwt_parse : token → (method → option string → option vkey) → popts → Z → option claims
}.

Definition method_of (k : skey) : method :=
  match k with SEd _ => EdDSA | SHmac _ => HS256 end.

Section JwtLaws.
Context `{Crypto} `{Jwt}.

Definition vkey_of (k : skey) : vkey :=
  match k with SEd seed => VEd (ed_public seed) | SHmac s => VHmac s end.

(** What the library documents, the clock in milliseconds. *)
Class JwtLaws : Prop := {
  jwt_parse_spec t kf o now c :
    jwt_parse t kf o now = Some c ↔
    ∃ m k key e,
      jwt_header t = Some (m, k) ∧ m ∈ po_methods o ∧ kf m k = Some key ∧
      jwt_verified key t = true ∧ jwt_claims t = Some c ∧
      cl_issuer c = po_issuer o ∧ cl_expires_at c = Some e ∧
      now < e * 1000 + po_leeway o;
  jwt_sign_spec sk k c t :
    jwt_sign sk k c = Some t →
    jwt_header t = Some (method_of sk, k) ∧ jwt_claims t = Some c ∧
    jwt_verified (vkey_of sk) t = true
}.

(** The key function of [parse]. *)
Definition keyfunc (k : keys) (m : method) (kd : option string) : option vkey :=
  match m with
  | EdDSA =>
      (* kid, _ := t.Header["kid"].(string): "" when it is missing *)
      VEd <$> public k !! default "" kd
  | HS256 => VHmac <$> secret k
  | OtherMethod _ => None
  end.

(** parse, at the clock reading [now] (milliseconds), with [leeway]. *)
Definition parse (k : keys) (iss : string) (leeway : Z) (now : Z) (t : token) : option claims :=
  jwt_parse t (keyfunc k) (POpts iss [EdDSA; HS256] leeway) now.

(** The signing half of issue. *)
Definition sign_access (k : keys) (c : claims) : option token :=
  match private k with
  | Some seed => jwt_sign (SEd seed) (Some (kid k)) c
  | None => jwt_sign (SHmac (default "" (secret k))) None c
  end.

Record Identity : Type := {
  id_realm : string; id_uid : Z; id_sid : string; id_jti : string; id_exp : Z
}.

(** strconv.ParseInt(c.Subject, 10, 64), refused unless positive *)
Definition subject_uid (c : claims) : option Z :=
  match parse_int (cl_subject c) with
  | Some uid => if uid <=? 0 then None else Some uid
  | None => None
  end.

Definition identity_of (c : claims) (uid : Z) : Identity :=
  {| id_realm := cl_realm c; id_uid := uid; id_sid := cl_sid c; id_jti := cl_id c;
     id_exp := default 0 (cl_expires_at c) |}.

(** TokenChecker: the key ring and the issuer. *)
Definition CheckLeeway : Z := 30 * 1000.

Definition NewTokenChecker (pubs : list string) (iss : string) :
    result (keys * string) config_error :=
  let c := {| Enabled := false; PrivateKey := ""; PublicKeys := pubs; Secret := "";
              Issuer := iss; cfgRealm := ""; AccessTTL := 0; RefreshTTL := 0;
              SingleSession := None |} in
  let? k := loadKeys c in
  if bool_decide (public k = ∅) then Err CheckerNeedsKey else Ok (k, issuer c).

Definition Check (tc : keys * string) (now : Z) (t : token) : option Identity :=
  match parse (fst tc) (snd tc) CheckLeeway now t with
  | None => None
  | Some c =>
      match subject_uid c with Some uid => Some (identity_of c uid) | None => None end
  end.
End JwtLaws.

(** BearerToken: the token of an "Authorization: Bearer <token>" value. *)
Definition BearerToken (header : string) : string :=
  if (7 <? slen header) && String.eqb (to_lower (String.substring 0 7 header)) "bearer "
  then trim_space (String.substring 7 (String.length header - 7) header)
  else "".
