(* ===== verification/Password.v ===== *)
(** * authx: password policy and the argon2id PHC string

    Models src/authx/password.go: [CheckPasswordPolicy], [HashPassword] and
    [VerifyPasswordHash]. argon2 and base64 are parameters ([Argon]); the slots
    that bound the concurrent computations only delay a call and are left out. *)
From S2P Require Import Prelude.

(** golang.org/x/crypto/argon2 and base64.RawStdEncoding. [argon_idkey] is
    [None] where IDKey panics. *)
Class Argon : Type := {
  argon_idkey : string → string → Z → Z → Z → Z → option string; (* pw salt t m p n *)
  raw64_encode : string → string;
  raw64_decode : string → option string
}.

Class ArgonLaws `{Argon} : Prop := {
  raw64_decode_encode s : raw64_decode (raw64_encode s) = Some s;
  raw64_no_dollar s : lacks "$" (raw64_encode s) = true;
  (* IDKey returns n bytes for at least one pass, one lane and one byte, and
     panics on zero passes or zero lanes *)
  argon_len pw salt t m p n : 1 ≤ t → 1 ≤ p → 1 ≤ n →
    ∃ k, argon_idkey pw salt t m p n = Some k ∧ slen k = n;
  argon_zero pw salt t m p n : t < 1 ∨ p < 1 → argon_idkey pw salt t m p n = None
}.

Definition MinPasswordLen : Z := 8.
Definition argonTime : Z := 3.
Definition argonMemory : Z := 64 * 1024.
Definition argonThreads : Z := 2.
Definition argonKeyLen : Z := 32.
Definition argonMaxMemory : Z := 256 * 1024.

(** CheckPasswordPolicy: nil or ErrWeakPassword *)
Definition CheckPasswordPolicy (pw : string) : bool :=
  negb ((slen pw <? MinPasswordLen) || negb (String.eqb (trim_space pw) pw)).

Definition digit_val (c : ascii) : option Z :=
  if byte_in 48 57 c then Some (Z.of_nat (nat_of_ascii c) - 48) else None.

(** The digits at the head of a string, read in base 10 from [acc]; [seen] once
    there was one. *)
Fixpoint scan_digits (acc : Z) (seen : bool) (s : string) : option (Z * string) :=
  match s with
  | "" => if seen then Some (acc, "") else None
  | String c s' =>
      match digit_val c with
      | Some d => scan_digits (acc * 10 + d) true s'
      | None => if seen then Some (acc, s) else None
      end
  end.

(** fmt.Sscanf's %d into an unsigned variable of [bits] bits: blanks skipped, at
    least one digit, no overflow. *)
Fixpoint skip_blanks (s : string) : string :=
  match s with
  | String c s' => if is_space c && negb (Nat.eqb (nat_of_ascii c) 10) then skip_blanks s' else s
  | "" => ""
  end.

Definition scan_uint (bits : Z) (s : string) : option (Z * string) :=
  match scan_digits 0 false (skip_blanks s) with
  | Some (z, r) => if z <? 2 ^ bits then Some (z, r) else None
  | None => None
  end.

(** fmt.Sscanf(s, "m=%d,t=%d,p=%d", &m, &t, &p) *)
Definition scan_params (s : string) : option (Z * Z * Z) :=
  match strip_prefix "m=" s with
  | None => None
  | Some s =>
    match scan_uint 32 s with
    | None => None
    | Some (m, s) =>
      match strip_prefix ",t=" s with
      | None => None
      | Some s =>
        match scan_uint 32 s with
        | None => None
        | Some (t, s) =>
          match strip_prefix ",p=" s with
          | None => None
          | Some s => match scan_uint 8 s with Some (p, _) => Some (m, t, p) | None => None end
          end
        end
      end
    end
  end.

Section Password.
Context `{AL : ArgonLaws}.

Definition dollar (s : string) : string := String "$" s.

(** HashPassword with the salt rand.Read produced. *)
Definition HashPassword (salt pw : string) : outcome string :=
  match argon_idkey pw salt argonTime argonMemory argonThreads argonKeyLen with
  | None => Panics
  | Some key =>
      Returns (dollar ("argon2id" +:+ dollar ("v=19" +:+ dollar
        (("m=" +:+ format_int argonMemory +:+ ",t=" +:+ format_int argonTime +:+ ",p=" +:+
          format_int argonThreads) +:+ dollar (raw64_encode salt +:+ dollar
        (raw64_encode key))))))
  end.

Definition VerifyPasswordHash (phc pw : string) : outcome bool :=
  match split_on "$" phc with
  | [_; alg; _; ps; s64; k64] =>
      if negb (String.eqb alg "argon2id") then Returns false
      else match scan_params ps with
           | None => Returns false
           | Some (m, t, p) =>
               if (argonMaxMemory <? m) || (10 <? t) || (p =? 0) then Returns false
               else match raw64_decode s64 with
                    | None => Returns false
                    | Some salt =>
                        match raw64_decode k64 with
                        | None => Returns false
                        | Some want =>
                            match argon_idkey pw salt t m p (slen want) with
                            | None => Panics
                            | Some got => Returns (String.eqb got want)
                            end
                        end
                    end
           end
  | _ => Returns false
  end.

Lemma split_phc a b c d e :
  lacks "$" a = true → lacks "$" b = true → lacks "$" c = true → lacks "$" d = true →
  lacks "$" e = true →
  split_on "$" (dollar (a +:+ dollar (b +:+ dollar (c +:+ dollar (d +:+ dollar e)))))
  = [""; a; b; c; d; e].
Proof.
  intros Ha Hb Hc Hd He. unfold dollar.
  change (String "$" (a +:+ String "$" (b +:+ String "$" (c +:+ String "$" (d +:+ String "$" e)))))
    with ("" +:+ String "$" (a +:+ String "$" (b +:+ String "$" (c +:+ String "$" (d +:+ String "$" e))))).
  rewrite !split_on_cons by done. by rewrite split_on_lacks.
Qed.

(** What VerifyPasswordHash does with the string HashPassword made: it
    computes the same key from the candidate and compares. *)
Lemma verify_hash_of salt pw pw' phc :
  HashPassword salt pw = Returns phc →
  ∃ key, argon_idkey pw salt argonTime argonMemory argonThreads argonKeyLen = Some key ∧
    VerifyPasswordHash phc pw' =
      match argon_idkey pw' salt argonTime argonMemory argonThreads argonKeyLen with
      | None => Panics
      | Some got => Returns (String.eqb got key)
      end.
Proof.
  unfold HashPassword. destruct (argon_idkey pw salt _ _ _ _) as [key|] eqn:Ek; [|done].
  intros [= <-]. exists key. split; [done|]. unfold VerifyPasswordHash.
  rewrite split_phc by (done || apply raw64_no_dollar).
  replace (String.eqb "argon2id" "argon2id") with true by done.
  replace (scan_params _) with (Some (argonMemory, argonTime, argonThreads)) by done.
  cbn -[raw64_decode]. rewrite !raw64_decode_encode.
  destruct (argon_len pw salt argonTime argonMemory argonThreads argonKeyLen) as (k & Hk & Hl);
    [done..|]. rewrite Ek in Hk. injection Hk as <-. by rewrite Hl.
Qed.

(** A password's hash verifies that password: HashPassword never panics
    with the parameters of the package, VerifyPasswordHash accepts the string it
    made for the same password, and refuses every password whose argon2id key
    under that salt differs. *)
Theorem hash_verify_roundtrip salt pw :
  ∃ phc, HashPassword salt pw = Returns phc ∧
    VerifyPasswordHash phc pw = Returns true ∧
    ∀ pw', argon_idkey pw' salt argonTime argonMemory argonThreads argonKeyLen
           ≠ argon_idkey pw salt argonTime argonMemory argonThreads argonKeyLen →
      VerifyPasswordHash phc pw' = Returns false.
Proof.
  destruct (argon_len pw salt argonTime argonMemory argonThreads argonKeyLen) as (k & Hk & _);
    [done..|].
  destruct (HashPassword salt pw) as [phc|] eqn:E; [|unfold HashPassword in E; by rewrite Hk in E].
  exists phc. split; [done|]. split.
  - destruct (verify_hash_of _ _ pw _ E) as (k' & Hk' & ->). rewrite Hk'.
    by rewrite String.eqb_refl.
  - intros pw' Hne. destruct (verify_hash_of _ _ pw' _ E) as (k' & Hk' & ->).
    destruct (argon_len pw' salt argonTime argonMemory argonThreads argonKeyLen) as (g & Hg & _);
      [done..|]. rewrite Hg, Hk' in *. destruct (String.eqb_spec g k'); [congruence|done].
Qed.
End Password.
