(* ===== verification/AuthSessions.v ===== *)
(** * authx, the half in Redis: sessions, refresh tokens, revocation

    Models the Issuer (Login, Refresh, Logout, RevokeAll) and the Verifier of
    src/authx/authx.go as programs over Redis, a clock and a random source, one
    node per command in the order the code sends them. *)
From S2P Require Import Prelude Prog Redis AuthTokens.

(** ** Keys in Redis *)
Definition keySession (realm : string) (uid : Z) : string :=
  "auth:sess:" +:+ realm +:+ ":" +:+ format_int uid.
Definition keySessionSet (realm : string) (uid : Z) : string :=
  "auth:sessions:" +:+ realm +:+ ":" +:+ format_int uid.
Definition keyRefresh (hash : string) : string := "auth:rt:" +:+ hash.
Definition keyUsed (hash : string) : string := "auth:rtused:" +:+ hash.
Definition keyBlacklist (jti : string) : string := "auth:bl:" +:+ jti.
Definition keySessionAlive (sid : string) : string := "auth:sid:" +:+ sid.
Definition keyEnded (sid : string) : string := "auth:ended:" +:+ sid.

(** ** Why a session ended, errors *)
Definition ReasonReplaced : string := "replaced".
Definition ReasonLogout : string := "logout".
Definition ReasonRefreshReplayed : string := "refresh_replayed".

Inductive auth_error : Type :=
| ErrInvalidToken
| RevokedError (reason : string)   (* errors.Is(err, ErrSessionRevoked) *)
| ErrRefreshInvalid
| ErrRefreshReplayed
| ErrStore (what : string)         (* a Redis error, wrapped *)
| ErrSign.

#[export] Instance auth_error_eq_dec : EqDecision auth_error.
Proof. solve_decision. Defined.

(** RevokeReason *)
Definition RevokeReason (e : auth_error) : string :=
  match e with RevokedError r => r | _ => "" end.

Record refreshRecord : Type := Rec { rec_realm : string; rec_uid : Z; rec_sid : string }.

(** encoding/json on a refreshRecord *)
Class RecCodec : Type := {
  rec_marshal : refreshRecord → string;
  rec_unmarshal : string → option refreshRecord
}.
Class RecCodecLaws `{RecCodec} : Prop := {
  rec_unmarshal_marshal r : rec_unmarshal (rec_marshal r) = Some r;
  rec_marshal_nonempty r : rec_marshal r ≠ ""
}.

(** ** Effects: Redis, crypto/rand (n bytes, base64), the clock *)
Inductive authE : Type → Type :=
| ARedis {X} (e : redisE X) : authE X
| ARandom (n : Z) : authE string
| ANow : authE Z.

Definition redis {X} (c : rcmd X) : prog authE (result X rerr) := call (ARedis (Redis c)).
Definition randomID (n : Z) : prog authE string := call (ARandom n).
Definition now_ms : prog authE Z := call ANow.

(** go-redis sends milliseconds: a positive duration below one is one. *)
Definition ttl_ms (d : Z) : Z :=
  if (0 <? d) && (d <? 1000000) then 1 else Z.quot d 1000000.

Section Issuer.
Context `{Crypto} `{Jwt} `{RecCodec}.
Variable cfg : Config.
Variable ks : keys.

Definition refresh_ms : Z := ttl_ms (refresh_ttl cfg).

Record Tokens : Type := MkTokens {
  AccessToken : token;
  RefreshToken : string;
  AccessExpiresIn : Z;
  RefreshExpiresIn : Z
}.

Definition hashToken (t : string) : string := sha256_hex t.

(** endSession *)
Definition endSession (sid reason : string) : prog authE (result unit auth_error) :=
  let* r := redis (CTx (WDel (keySessionAlive sid) ::
              if String.eqb reason "" then []
              else [WSetNX (keyEnded sid) reason refresh_ms])) in
  Ret (match r with Ok true => Ok tt | _ => Err (ErrStore "end session") end).

(** revoked *)
Definition revoked (sid : string) : prog authE auth_error :=
  let* r := redis (CGet (keyEnded sid)) in
  Ret (RevokedError (match r with Ok (Some reason) => reason | _ => "" end)).

(** The claims issue signs, at clock reading [now] (milliseconds). *)
Definition new_claims (now : Z) (jti realm : string) (uid : Z) (sid : string) : claims :=
  {| cl_issuer := issuer cfg; cl_subject := format_int uid; cl_id := jti;
     cl_issued_at := Some (now / 1000);
     cl_expires_at := Some ((now * 1000000 + access_ttl cfg) / second);
     cl_realm := realm; cl_sid := sid |}.

(** issue *)
Definition issue (realm : string) (uid : Z) (sid : string) : prog authE (result Tokens auth_error) :=
  let* now := now_ms in
  let* jti := randomID 12 in
  match sign_access ks (new_claims now jti realm uid sid) with
  | None => Ret (Err ErrSign)
  | Some access =>
      let* refresh := randomID 32 in
      let rec := rec_marshal (Rec realm uid sid) in
      let* r := redis (CWrite (WSet (keyRefresh (hashToken refresh)) rec refresh_ms)) in
      match r with
      | Err _ => Ret (Err (ErrStore "store refresh token"))
      | Ok _ => Ret (Ok {| AccessToken := access; RefreshToken := refresh;
                           AccessExpiresIn := Z.quot (access_ttl cfg) second;
                           RefreshExpiresIn := Z.quot (refresh_ttl cfg) second |})
      end
  end.

(** The single_session half of Login: the previous session of the principal
    ends. [Some err] when Login must return. *)
Definition end_previous (realm : string) (uid : Z) : prog authE (option auth_error) :=
  let* r := redis (CGet (keySession realm uid)) in
  match r with
  | Ok (Some old) =>
      if String.eqb old "" then Ret None
      else
        let* e := endSession old ReasonReplaced in
        match e with
        | Err err => Ret (Some err)
        | Ok _ =>
            let* _ := redis (CWrite (WSRem (keySessionSet realm uid) old)) in
            Ret None
        end
  | _ => Ret None
  end.

(** Login *)
Definition Login (realm : string) (uid : Z) : prog authE (result Tokens auth_error) :=
  let* sid := randomID 16 in
  let* stop := if singleSession cfg then end_previous realm uid else Ret None in
  match stop with
  | Some err => Ret (Err err)
  | None =>
      let* r := redis (CTx [WSet (keySession realm uid) sid refresh_ms;
                            WSAdd (keySessionSet realm uid) sid;
                            WPExpire (keySessionSet realm uid) refresh_ms;
                            WSet (keySessionAlive sid) (format_int uid) refresh_ms]) in
      match r with
      | Ok true => issue realm uid sid
      | _ => Ret (Err (ErrStore "start session"))
      end
  end.

(** RevokeAll: the error of SMEMBERS is dropped, as in the code. *)
Definition RevokeAll (realm : string) (uid : Z) (reason : string) :
    prog authE (result unit auth_error) :=
  let* r := redis (CMembers (keySessionSet realm uid)) in
  let sids := match r with Ok l => l | Err _ => [] end in
  let* stop := for_each sids (λ sid,
    let* e := endSession sid reason in
    Ret (match e with Err err => Some err | Ok _ => None end)) in
  match stop with
  | Some err => Ret (Err err)
  | None =>
      let* d := redis (CTx [WDel (keySession realm uid); WDel (keySessionSet realm uid)]) in
      Ret (match d with Ok true => Ok tt | _ => Err (ErrStore "revoke") end)
  end.

(** Refresh: the replay branch, when the token is not a live one. *)
Definition refresh_unknown (h : string) : prog authE (result Tokens auth_error) :=
  let* r := redis (CGet (keyUsed h)) in
  match r with
  | Ok (Some used) =>
      if String.eqb used "" then Ret (Err ErrRefreshInvalid)
      else match rec_unmarshal used with
           | Some rec =>
               let* _ := RevokeAll (rec_realm rec) (rec_uid rec) ReasonRefreshReplayed in
               Ret (Err ErrRefreshReplayed)
           | None => Ret (Err ErrRefreshReplayed)
           end
  | _ => Ret (Err ErrRefreshInvalid)
  end.

Definition rotate (h raw : string) (rec : refreshRecord) : prog authE (result Tokens auth_error) :=
  let* alive := redis (CExists (keySessionAlive (rec_sid rec))) in
  match alive with
  | Ok true =>
      let* r := redis (CTx [WDel (keyRefresh h); WSet (keyUsed h) raw refresh_ms]) in
      match r with
      | Ok true => issue (rec_realm rec) (rec_uid rec) (rec_sid rec)
      | _ => Ret (Err (ErrStore "rotate"))
      end
  | _ => (* dead, or EXISTS failed: alive, _ := ... is then 0 *)
      let* _ := redis (CWrite (WDel (keyRefresh h))) in
      let* e := revoked (rec_sid rec) in
      Ret (Err e)
  end.

(** Refresh *)
Definition Refresh (refreshToken : string) : prog authE (result Tokens auth_error) :=
  let h := hashToken refreshToken in
  let* r := redis (CGet (keyRefresh h)) in
  match r with
  | Err _ => Ret (Err (ErrStore "refresh lookup"))
  | Ok None => refresh_unknown h
  | Ok (Some raw) =>
      match rec_unmarshal raw with
      | None => Ret (Err ErrRefreshInvalid)
      | Some rec => rotate h raw rec
      end
  end.

(** The refresh-token half of Logout. *)
Definition logout_session (refreshToken : string) : prog authE (result unit auth_error) :=
  let h := hashToken refreshToken in
  let* r := redis (CGet (keyRefresh h)) in
  match r with
  | Ok (Some raw) =>
      let* stop := match rec_unmarshal raw with
        | None => Ret (Ok tt)
        | Some rec =>
            let* e := endSession (rec_sid rec) ReasonLogout in
            match e with
            | Err err => Ret (Err err)
            | Ok _ =>
                let* cur := redis (CGet (keySession (rec_realm rec) (rec_uid rec))) in
                let* _ := if bool_decide (match cur with Ok (Some s) => s | _ => "" end = rec_sid rec)
                          then (let* _ := redis (CWrite (WDel (keySession (rec_realm rec) (rec_uid rec)))) in Ret tt)
                          else Ret tt in
                let* _ := redis (CWrite (WSRem (keySessionSet (rec_realm rec) (rec_uid rec)) (rec_sid rec))) in
                Ret (Ok tt)
            end
        end in
      match stop with
      | Err err => Ret (Err err)
      | Ok _ => let* _ := redis (CWrite (WDel (keyRefresh h))) in Ret (Ok tt)
      end
  | _ => Ret (Ok tt)
  end.

(** Logout; [None] is the empty access token. time.Until is read after parse. *)
Definition Logout (refreshToken : string) (accessToken : option token) :
    prog authE (result unit auth_error) :=
  let* stop := logout_session refreshToken in
  match stop with
  | Err err => Ret (Err err)
  | Ok _ =>
      match accessToken with
      | None => Ret (Ok tt)
      | Some t =>
          let* now := now_ms in
          match parse ks (issuer cfg) 0 now t with
          | Some c =>
              match cl_expires_at c with
              | Some e =>
                  let* now' := now_ms in
                  if 0 <? e * 1000 - now' then
                    let* _ := redis (CWrite (WSet (keyBlacklist (cl_id c)) "1" (e * 1000 - now'))) in
                    Ret (Ok tt)
                  else Ret (Ok tt)
              | None => Ret (Ok tt)
              end
          | None => Ret (Ok tt)
          end
      end
  end.

(** Verifier.Verify *)
Definition Verify (accessToken : token) : prog authE (result Identity auth_error) :=
  let* now := now_ms in
  match parse ks (issuer cfg) 0 now accessToken with
  | None => Ret (Err ErrInvalidToken)
  | Some c =>
      if negb (String.eqb (cl_realm c) (cfgRealm cfg)) then Ret (Err ErrInvalidToken)
      else match subject_uid c with
      | None => Ret (Err ErrInvalidToken)
      | Some uid =>
          let* bl := redis (CExists (keyBlacklist (cl_id c))) in
          let* alive := redis (CExists (keySessionAlive (cl_sid c))) in
          match bl, alive with
          | Ok true, Ok _ => Ret (Err (RevokedError ReasonLogout))
          | Ok false, Ok true => Ret (Ok (identity_of c uid))
          | Ok false, Ok false =>
              let* e := revoked (cl_sid c) in Ret (Err e)
          | _, _ => Ret (Err (ErrStore "session check"))
          end
      end
  end.
End Issuer.
