(* ===== verification/AuthInv.v ===== *)
(** * authx: what the store holds, whatever fails

    The servers an Issuer or a Verifier may talk to ([auth_allows]: Redis with
    faults, fresh random ids, a clock that is Redis's), the shape of the
    session store ([auth_wf]) and the lemma that every good write keeps it. *)
From S2P Require Import Prelude Prog Redis AuthTokens AuthSessions.

Record aview : Type := AV { av_redis : rview; av_drawn : gset string }.

(** crypto/rand never repeats and never returns the empty string; the clock is
    the one Redis expires keys by. *)
Definition auth_allows_with (ra : ∀ Y, redisE Y → rview → rview → Y → Prop)
    {X} (e : authE X) (v v' : aview) (x : X) : Prop :=
  (match e in authE X return X → Prop with
  | ARedis e => λ x,
      ra _ e (av_redis v) (av_redis v') x ∧ av_drawn v' = av_drawn v
  | ARandom _ => λ x,
      x ∉ av_drawn v ∧ x ≠ "" ∧ av_redis v' = av_redis v ∧ av_drawn v' = {[x]} ∪ av_drawn v
  | ANow => λ x, v' = v ∧ x = rv_now (av_redis v)
  end) x.

(** Any Redis that may fail; a Redis that does not. *)
Definition auth_allows {X} := @auth_allows_with (@redis_allows) X.
Definition auth_up {X} := @auth_allows_with (@redis_up) X.

(** ** A concrete server for the witnesses *)
Record map_auth_state : Type := MA { ma_redis : map_redis_state; ma_drawn : gset string }.

Definition ma_view (s : map_auth_state) : aview := AV (mr_view (ma_redis s)) (ma_drawn s).

Definition map_auth {X} (e : authE X) (s : map_auth_state) : map_auth_state * X :=
  match e in authE X return map_auth_state * X with
  | ARedis e => let '(r, x) := map_redis e (ma_redis s) in (MA r (ma_drawn s), x)
  | ARandom _ =>
      let x := stdpp.base.fresh ({[""]} ∪ ma_drawn s) in
      (MA (ma_redis s) ({[x]} ∪ ma_drawn s), x)
  | ANow => (s, rv_now (mr_view (ma_redis s)))
  end.

#[export] Instance map_auth_lawful : Lawful (@map_auth) ma_view (@auth_allows).
Proof.
  intros X [Y e|n|] s; cbn.
  - pose proof (map_redis_lawful _ e (ma_redis s)) as H.
    destruct (map_redis e (ma_redis s)); cbn in *. done.
  - pose proof (is_fresh ({[""]} ∪ ma_drawn s)) as H.
    apply not_elem_of_union in H as [H1 H2]. repeat split; [done|]. set_solver.
  - done.
Qed.

(** The same server, its fault script ignored. *)
Definition map_auth_fine {X} (e : authE X) (s : map_auth_state) : map_auth_state * X :=
  map_auth e (MA (MR (mr_view (ma_redis s)) []) (ma_drawn s)).

#[export] Instance map_auth_fine_lawful : Lawful (@map_auth_fine) ma_view (@auth_up).
Proof.
  intros X [Y e|n|] s.
  - destruct e as [Z c]. cbn. by destruct (redis_doc c _) as [[w x]|].
  - apply (map_auth_lawful _ (ARandom n) s).
  - cbn. by destruct s as [[v f] D].
Qed.

Section Wf.
Context `{RC : RecCodec}.

(** What may be stored at a key, the ids drawn so far being [D]: sessions are
    strings naming a drawn id, session sets are sets of drawn ids, refresh
    records decode to a drawn id, the live and ended marks are of drawn ids. *)
Definition entry_ok (D : gset string) (k : string) (x : rval) : Prop :=
  (∀ r u, k = keySession r u → ∃ s, x = RStr s ∧ s ∈ D) ∧
  (∀ r u, k = keySessionSet r u → ∃ m, x = RSet m ∧ m ⊆ D) ∧
  (∀ h, (k = keyRefresh h ∨ k = keyUsed h) →
     ∃ raw rec, x = RStr raw ∧ raw ≠ "" ∧ rec_unmarshal raw = Some rec ∧ rec_sid rec ∈ D) ∧
  (∀ s, (k = keySessionAlive s ∨ k = keyEnded s) → s ∈ D ∧ ∃ y, x = RStr y) ∧
  (∀ j, k = keyBlacklist j → ∃ y, x = RStr y).

Definition auth_wf (v : aview) : Prop :=
  "" ∉ av_drawn v ∧ ∀ k x, look (av_redis v) k = Some x → entry_ok (av_drawn v) k x.

Lemma entry_ok_mono D D' k x : D ⊆ D' → entry_ok D k x → entry_ok D' k x.
Proof.
  intros HD (H1 & H2 & H3 & H4 & H5). split_and!.
  - intros r u Hk. destruct (H1 r u Hk) as (s & ? & ?). exists s. set_solver.
  - intros r u Hk. destruct (H2 r u Hk) as (m & ? & ?). exists m. set_solver.
  - intros h Hk. destruct (H3 h Hk) as (raw & rec & ? & ? & ? & ?). exists raw, rec. set_solver.
  - intros s Hk. destruct (H4 s Hk). split; [set_solver|done].
  - exact H5.
Qed.

Lemma entry_ok_subset D k m m' : m' ⊆ m → entry_ok D k (RSet m) → entry_ok D k (RSet m').
Proof.
  intros Hm (H1 & H2 & H3 & H4 & H5). split_and!.
  - intros r u Hk. by destruct (H1 r u Hk) as (? & ? & _).
  - intros r u Hk. destruct (H2 r u Hk) as (? & [= <-] & ?). exists m'. set_solver.
  - intros h Hk. by destruct (H3 h Hk) as (? & ? & ? & _).
  - intros s Hk. by destruct (H4 s Hk) as (_ & ? & ?).
  - intros j Hk. by destruct (H5 j Hk).
Qed.

(** Writes that keep the shape. *)
Definition good_write (D : gset string) (c : wcmd) : Prop :=
  match c with
  | WSet k s _ | WSetNX k s _ => entry_ok D k (RStr s)
  | WSAdd k m => m ∈ D ∧ ∃ r u, k = keySessionSet r u
  | WDel _ | WSRem _ _ | WPExpire _ _ => True
  | WIncr _ => False
  end.

(** Keys of different kinds differ. *)
Ltac key_clash := repeat match goal with H : _ ∨ _ |- _ => destruct H end; discriminate.

Lemma entry_ok_set D r u m : m ⊆ D → entry_ok D (keySessionSet r u) (RSet m).
Proof.
  intros Hm. split_and!; [intros; key_clash| |intros; key_clash..].
  intros. exists m. done.
Qed.

Lemma wcmd_wf D c v v' n :
  good_write D c → (∀ k x, look v k = Some x → entry_ok D k x) →
  wcmd_doc c v = Some (v', n) → (∀ k x, look v' k = Some x → entry_ok D k x).
Proof.
  intros Hg Hwf H k x Hk.
  destruct (decide (wkey c = k)) as [<-|Hne].
  2: { apply Hwf. by rewrite <- (wcmd_doc_frame _ _ _ _ _ H Hne). }
  destruct c as [kk s ttl|kk s ttl|kk|kk m|kk m|kk ttl|kk]; cbn in *; try done.
  - injection H as <- <-. rewrite look_put_eq in Hk. by injection Hk as <-.
  - destruct (look v kk) eqn:E; injection H as <- <-.
    + rewrite E in Hk. injection Hk as <-. by apply Hwf.
    + rewrite look_put_eq in Hk. by injection Hk as <-.
  - destruct (look v kk); injection H as <- <-; by rewrite look_drop_eq in Hk.
  - destruct Hg as (Hm & r & u & ->).
    destruct (look v (keySessionSet r u)) as [[|ms|]|] eqn:E; try done; injection H as <- <-.
    + rewrite (fresh_old_expiry _ _ _ E) in Hk. injection Hk as <-.
      apply entry_ok_set. apply Hwf in E as (_ & E & _).
      destruct (E r u eq_refl) as (m' & [= <-] & ?). set_solver.
    + rewrite look_put_none in Hk. injection Hk as <-. apply entry_ok_set. set_solver.
  - destruct (look v kk) as [[|ms|]|] eqn:E; try done; simplify_eq.
    case_decide; simplify_eq.
    + case_decide; simplify_eq; [by rewrite look_drop_eq in Hk|].
      rewrite (fresh_old_expiry _ _ _ E) in Hk. injection Hk as <-.
      eapply entry_ok_subset, Hwf, E. set_solver.
    + by apply Hwf.
  - destruct (look v kk) eqn:E; [|by simplify_eq; congruence].
    case_bool_decide; injection H as <- <-; [by rewrite look_drop_eq in Hk|].
    assert (look (put v kk r (Some (rv_now v + ttl))) kk = Some r) as Hp.
    { unfold look, put, fresh. cbn. rewrite lookup_insert_eq. cbn.
      by rewrite bool_decide_true by lia. }
    rewrite Hp in Hk. injection Hk as <-. by apply Hwf.
Qed.
End Wf.

(** ** Programs that keep the shape, whatever else runs

    [keeps p Q D]: from any well-formed store in which the ids [D] have been
    drawn, [p] leaves a well-formed store, and [Q] of its result and of the ids
    drawn by then, against every Redis that may fail and any interference that
    itself keeps the shape. *)
Section Keeps.
Context `{RC : RecCodec}.

Definition rely_wf (v v' : aview) : Prop :=
  auth_wf v → auth_wf v' ∧ av_drawn v ⊆ av_drawn v'.

Definition keeps {A} (p : prog authE A) (Q : A → gset string → Prop) (D : gset string) : Prop :=
  ∀ v, auth_wf v → D ⊆ av_drawn v →
    wp rely_wf (@auth_allows) p
      (λ a w, auth_wf w ∧ D ⊆ av_drawn w ∧ Q a (av_drawn w)) v.

Lemma keeps_ret {A} (a : A) (Q : A → gset string → Prop) D :
  (∀ D', D ⊆ D' → Q a D') → keeps (Ret a) Q D.
Proof. intros HQ v Hv HD. cbn. auto. Qed.

Lemma keeps_bind {A B} (p : prog authE A) (f : A → prog authE B) R Q D :
  keeps p R D → (∀ a D', D ⊆ D' → R a D' → keeps (f a) Q D') → keeps (bind p f) Q D.
Proof.
  intros Hp Hf v Hv HD. apply wp_bind. eapply wp_mono, Hp; [|done..].
  intros a w (Hw & HD' & HR). eapply wp_mono, (Hf a (av_drawn w)); [|done..].
  intros b w' (? & ? & ?). split_and!; [done|by etrans|done].
Qed.

Lemma keeps_weaken {A} (p : prog authE A) (Q Q' : A → gset string → Prop) D :
  (∀ a D', D ⊆ D' → Q a D' → Q' a D') → keeps p Q D → keeps p Q' D.
Proof. intros HQ Hp v Hv HD. eapply wp_mono, Hp; [|done..].
  intros a w (? & ? & ?). auto.
Qed.

Lemma keeps_random n D : keeps (randomID n) (λ x D', x ∈ D' ∧ x ≠ "") D.
Proof.
  intros v Hv HD v1 v2 x Hr Ha. cbn in *. destruct (Hr Hv) as [[He Hv1] HD1].
  destruct Ha as (Hx & Hne & Hred & Hdr). unfold auth_wf. rewrite Hred, Hdr.
  assert (av_drawn v1 ⊆ {[x]} ∪ av_drawn v1) as Hsub by apply union_subseteq_r.
  split_and!; [| |by do 2 (etrans; [eassumption|])|by apply elem_of_union_l, elem_of_singleton|done].
  - by apply not_elem_of_union; rewrite elem_of_singleton.
  - intros k y Hk. by eapply entry_ok_mono, Hv1, Hk.
Qed.

Lemma keeps_now D : keeps now_ms (λ _ _, True) D.
Proof.
  intros v Hv HD v1 v2 x Hr Ha. cbn in *. destruct (Hr Hv) as [Hv1 HD1].
  destruct Ha as [-> _]. split_and!; [done|by etrans|done].
Qed.

Definition good_cmd {X} (D : gset string) (c : rcmd X) : Prop :=
  match c with
  | CWrite w | CIfGet _ _ w => good_write D w
  | CTx ws => Forall (good_write D) ws
  | _ => True
  end.

Lemma good_write_mono D D' c : D ⊆ D' → good_write D c → good_write D' c.
Proof.
  intros HD. destruct c; cbn; try done; try by apply entry_ok_mono.
  intros (? & ? & ? & ?). split; [set_solver|eauto].
Qed.

Lemma good_cmd_mono {X} D D' (c : rcmd X) : D ⊆ D' → good_cmd D c → good_cmd D' c.
Proof.
  intros HD. destruct c; cbn; try done; try by apply good_write_mono.
  intros H. eapply Forall_impl; [exact H|]. intros w. by apply good_write_mono.
Qed.

Lemma tx_wf D ws v :
  Forall (good_write D) ws → (∀ k x, look v k = Some x → entry_ok D k x) →
  ∀ k x, look (fst (tx_doc ws v)) k = Some x → entry_ok D k x.
Proof.
  intros Hg. revert v. induction Hg as [|w ws Hw Hg IH]; intros v Hv; cbn; [done|].
  destruct (wcmd_doc w v) as [[v' n]|] eqn:E.
  - apply IH. by eapply wcmd_wf.
  - specialize (IH v Hv). by destruct (tx_doc ws v).
Qed.

Lemma redis_doc_wf {X} D (c : rcmd X) v v' x :
  good_cmd D c → (∀ k x, look v k = Some x → entry_ok D k x) →
  redis_doc c v = Some (v', x) → ∀ k x, look v' k = Some x → entry_ok D k x.
Proof.
  intros Hg Hv H. destruct c; cbn in H; cbn in Hg.
  - repeat case_match; by simplify_eq.
  - by simplify_eq.
  - repeat case_match; by simplify_eq.
  - by eapply wcmd_wf.
  - pose proof (tx_wf D cs v Hg Hv) as Ht. destruct (tx_doc cs v). by simplify_eq.
  - repeat case_match; simplify_eq; first [done | by eapply wcmd_wf].
Qed.

Lemma keeps_redis {X} (c : rcmd X) D :
  good_cmd D c →
  keeps (redis c) (λ r D', ∀ x, r = Ok x → ∃ v v', redis_doc c v = Some (v', x) ∧
    ∀ k y, look v k = Some y → entry_ok D' k y) D.
Proof.
  intros Hg v Hv HD v1 v2 x Hr Ha. destruct (Hr Hv) as [[He Hv1] HD1].
  destruct Ha as [Ha Hdr]. cbn. unfold auth_wf. rewrite Hdr.
  assert (D ⊆ av_drawn v1) as HD' by by etrans.
  assert (good_cmd (av_drawn v1) c) as Hg1 by by eapply good_cmd_mono, Hg.
  split_and!; try done.
  - destruct x as [x|e]; cbn in Ha; [by eapply redis_doc_wf|].
    destruct Ha as [->|[x Ha]]; [done|by eapply redis_doc_wf].
  - intros y ->. cbn in Ha. eauto.
Qed.

Lemma keeps_call {X} (c : rcmd X) D : good_cmd D c → keeps (redis c) (λ _ _, True) D.
Proof. intros Hg. eapply keeps_weaken, keeps_redis, Hg. done. Qed.

Lemma keeps_get_str k D :
  keeps (redis (CGet k)) (λ r D', ∀ s, r = Ok (Some s) →
    entry_ok D' k (RStr s) ∨ ∃ n, s = format_int n ∧ entry_ok D' k (RNum n)) D.
Proof.
  eapply keeps_weaken, (keeps_redis (CGet k)); [|done].
  intros r D' _ H s ->. destruct (H _ eq_refl) as (v & v' & Hd & Hv). cbn in Hd.
  destruct (look v k) as [[y|m|n]|] eqn:E; simplify_eq; eauto.
Qed.

Lemma keeps_members r u D :
  keeps (redis (CMembers (keySessionSet r u)))
    (λ res D', ∀ l, res = Ok l → ∀ s, s ∈ l → s ∈ D') D.
Proof.
  eapply keeps_weaken, (keeps_redis (CMembers _)); [|done].
  intros res D' _ H l ->. destruct (H _ eq_refl) as (v & v' & Hd & Hv). cbn in Hd.
  destruct (look v _) as [[y|m|n]|] eqn:E; simplify_eq; [|by intros s ?%elem_of_nil].
  intros s Hs%elem_of_elements. apply Hv in E as (_ & E & _).
  destruct (E r u eq_refl) as (m' & [= <-] & ?). set_solver.
Qed.

Lemma keeps_for_each {X B} (xs : list X) (body : X → prog authE (option B)) (P : X → gset string → Prop) D :
  (∀ x D D', P x D → D ⊆ D' → P x D') →
  (∀ x D', D ⊆ D' → P x D' → keeps (body x) (λ _ _, True) D') →
  (∀ x, x ∈ xs → P x D) → keeps (for_each xs body) (λ _ _, True) D.
Proof.
  intros Hmono. revert D. induction xs as [|x xs IH]; intros D Hb Hx; cbn.
  - by apply keeps_ret.
  - eapply keeps_bind; [apply Hb; [done|apply Hx; by left]|].
    intros [b|] D' HD' _; [by apply keeps_ret|]. apply IH.
    + intros y D'' HD'' Hy. apply Hb; [by etrans|done].
    + intros y Hy. eapply Hmono; [|exact HD']. apply Hx. by right.
Qed.
End Keeps.
