(* ===== verification/AuthKeeps.v ===== *)
(** * authx: every operation keeps the session store well formed

    The type invariant of the session store, for each operation of the Issuer
    and the Verifier, under lost commands and arbitrary well-behaved
    interference between any two commands. *)
From S2P Require Import Prelude Prog Redis AuthTokens AuthSessions AuthInv.

Section Entries.
Context `{RC : RecCodec}.

Ltac other_keys :=
  intros; repeat match goal with H : _ ∨ _ |- _ => destruct H end; discriminate.

Lemma entry_ok_mark D s y :
  s ∈ D → entry_ok D (keySessionAlive s) (RStr y) ∧ entry_ok D (keyEnded s) (RStr y).
Proof.
  intros Hs. split; (split_and!; [other_keys..| |other_keys]);
    intros s' [H|H]; try discriminate; apply sapp_inj_l in H; subst; eauto.
Qed.

Lemma entry_ok_session D r u s : s ∈ D → entry_ok D (keySession r u) (RStr s).
Proof. intros Hs. split_and!; [|other_keys..]. eauto. Qed.

Lemma entry_ok_record D h raw rec :
  raw ≠ "" → rec_unmarshal raw = Some rec → rec_sid rec ∈ D →
  entry_ok D (keyRefresh h) (RStr raw) ∧ entry_ok D (keyUsed h) (RStr raw).
Proof.
  intros Hn Hr Hs. split; (split_and!; [other_keys..| |other_keys|other_keys]);
    intros h' _; eauto 10.
Qed.

Lemma entry_ok_blacklist D j y : entry_ok D (keyBlacklist j) (RStr y).
Proof. split_and!; [other_keys..|]. eauto. Qed.

Lemma get_session D r u s :
  entry_ok D (keySession r u) (RStr s) ∨
  (∃ n, s = format_int n ∧ entry_ok D (keySession r u) (RNum n)) → s ∈ D.
Proof.
  intros [(H & _)|(n & _ & H & _)]; destruct (H r u eq_refl) as (s' & [= ->] & ?); done.
Qed.

Lemma get_record D k h raw :
  k = keyRefresh h ∨ k = keyUsed h →
  entry_ok D k (RStr raw) ∨ (∃ n, raw = format_int n ∧ entry_ok D k (RNum n)) →
  raw ≠ "" ∧ ∃ rec, rec_unmarshal raw = Some rec ∧ rec_sid rec ∈ D.
Proof.
  intros Hk [(_ & _ & H & _)|(n & _ & _ & _ & H & _)];
    destruct (H h Hk) as (raw' & rec & [= ->] & ? & ? & ?); eauto.
Qed.
End Entries.

Section Ops.
Context `{C : Crypto} `{J : Jwt} `{RC : RecCodec} `{!RecCodecLaws}.
Variable cfg : Config.
Variable ks : keys.

Lemma keeps_endSession sid reason D :
  sid ∈ D → keeps (endSession cfg sid reason) (λ _ _, True) D.
Proof.
  intros Hs. eapply keeps_bind; [|intros; by apply keeps_ret].
  apply keeps_call. cbn. apply Forall_cons. split; [done|].
  destruct (String.eqb reason ""); [done|]. apply Forall_singleton. by apply entry_ok_mark.
Qed.

Lemma keeps_revoked sid D : keeps (revoked sid) (λ _ _, True) D.
Proof.
  eapply keeps_bind; [by apply keeps_call|]. intros; by apply keeps_ret.
Qed.

Lemma keeps_issue realm uid sid D : sid ∈ D → keeps (issue cfg ks realm uid sid) (λ _ _, True) D.
Proof.
  intros Hs. unfold issue. eapply keeps_bind; [apply keeps_now|]. intros now D1 HD1 _.
  eapply keeps_bind; [apply keeps_random|]. intros jti D2 HD2 _.
  destruct (sign_access _ _); [|by apply keeps_ret].
  eapply keeps_bind; [apply keeps_random|]. intros rt D3 HD3 _.
  eapply keeps_bind; [|intros [] ? ? ?; by apply keeps_ret].
  apply keeps_call. cbn. eapply entry_ok_record.
  - apply rec_marshal_nonempty.
  - apply rec_unmarshal_marshal.
  - cbn. set_solver.
Qed.

Lemma keeps_end_previous realm uid D : keeps (end_previous cfg realm uid) (λ _ _, True) D.
Proof.
  unfold end_previous. eapply keeps_bind; [apply keeps_get_str|].
  intros [[old|]|] D1 HD1 Hg; [|by apply keeps_ret..].
  specialize (Hg old eq_refl). apply get_session in Hg.
  destruct (String.eqb old ""); [by apply keeps_ret|].
  eapply keeps_bind; [by apply keeps_endSession|]. intros [] D2 _ _; [|by apply keeps_ret].
  eapply keeps_bind; [by apply keeps_call|]. intros; by apply keeps_ret.
Qed.

Lemma keeps_Login realm uid D : keeps (Login cfg ks realm uid) (λ _ _, True) D.
Proof.
  unfold Login. eapply keeps_bind; [apply keeps_random|]. intros sid D1 _ [Hsid Hne].
  eapply (keeps_bind _ _ (λ _ _, True)).
  { destruct (singleSession cfg); [apply keeps_end_previous|by apply keeps_ret]. }
  intros [e|] D2 HD2 _; [by apply keeps_ret|].
  assert (sid ∈ D2) by set_solver.
  eapply keeps_bind.
  - apply keeps_call. apply Forall_cons_2; [by apply entry_ok_session|].
    apply Forall_cons_2; [split; eauto|]. apply Forall_cons_2; [done|].
    apply Forall_cons_2; [by apply entry_ok_mark|by apply Forall_nil].
  - intros [[]|] D3 HD3 _; try by apply keeps_ret. apply keeps_issue. set_solver.
Qed.

Lemma keeps_RevokeAll realm uid reason D :
  keeps (RevokeAll cfg realm uid reason) (λ _ _, True) D.
Proof.
  unfold RevokeAll. eapply keeps_bind; [apply keeps_members|].
  intros res D1 _ Hres.
  eapply keeps_bind.
  - apply (keeps_for_each _ _ (λ s D, s ∈ D)).
    + set_solver.
    + intros s D2 _ Hs. eapply keeps_bind; [by apply keeps_endSession|].
      intros; by apply keeps_ret.
    + destruct res as [l|]; [by apply Hres|]. by intros s ?%elem_of_nil.
  - intros [e|] D2 _ _; [by apply keeps_ret|].
    eapply keeps_bind; [apply keeps_call; repeat constructor|]. intros; by apply keeps_ret.
Qed.

Lemma keeps_Refresh rt D : keeps (Refresh cfg ks rt) (λ _ _, True) D.
Proof.
  unfold Refresh. eapply keeps_bind; [apply keeps_get_str|].
  intros [[raw|]|] D1 _ Hraw; [| |by apply keeps_ret].
  - specialize (Hraw raw eq_refl). eapply get_record in Hraw as (Hne & rec & Hrec & Hsid); [|by left].
    rewrite Hrec. unfold rotate. eapply keeps_bind; [by apply keeps_call|].
    assert (∀ D2, D1 ⊆ D2 → keeps (redis (CWrite (WDel (keyRefresh (hashToken rt))));;;
      let* e := revoked (rec_sid rec) in Ret (@Err Tokens auth_error e)) (λ _ _, True) D2) as Hdead.
    { intros D2 _. eapply keeps_bind; [by apply keeps_call|]. intros ? D3 _ _.
      eapply keeps_bind; [apply keeps_revoked|]. intros; by apply keeps_ret. }
    intros [[]|] D2 HD2 _; [|by apply Hdead..].
    eapply keeps_bind.
    + apply keeps_call. cbn. apply Forall_cons. split; [done|]. apply Forall_singleton.
      eapply entry_ok_record; [done..|]. set_solver.
    + intros [[]|] D3 HD3 _; try by apply keeps_ret. apply keeps_issue. set_solver.
  - unfold refresh_unknown. eapply keeps_bind; [by apply keeps_call|].
    intros [[used|]|] D2 _ _; [|by apply keeps_ret..].
    destruct (String.eqb used ""); [by apply keeps_ret|].
    destruct (rec_unmarshal used); [|by apply keeps_ret].
    eapply keeps_bind; [apply keeps_RevokeAll|]. intros; by apply keeps_ret.
Qed.

Lemma keeps_logout_session rt D : keeps (logout_session cfg rt) (λ _ _, True) D.
Proof.
  unfold logout_session. eapply keeps_bind; [apply keeps_get_str|].
  intros [[raw|]|] D1 _ Hraw; [|by apply keeps_ret..].
  specialize (Hraw raw eq_refl). eapply get_record in Hraw as (Hne & rec & Hrec & Hsid); [|by left].
  rewrite Hrec. eapply (keeps_bind _ _ (λ _ _, True)).
  - eapply keeps_bind; [by apply keeps_endSession|]. intros [] D2 _ _; [|by apply keeps_ret].
    eapply keeps_bind; [by apply keeps_call|]. intros cur D3 _ _.
    eapply (keeps_bind _ _ (λ _ _, True)).
    + case_bool_decide; [|by apply keeps_ret].
      eapply keeps_bind; [by apply keeps_call|]. intros; by apply keeps_ret.
    + intros _ D4 _ _. eapply keeps_bind; [by apply keeps_call|]. intros; by apply keeps_ret.
  - intros [] D2 _ _; [|by apply keeps_ret].
    eapply keeps_bind; [by apply keeps_call|]. intros; by apply keeps_ret.
Qed.

Lemma keeps_Logout rt at_ D : keeps (Logout cfg ks rt at_) (λ _ _, True) D.
Proof.
  unfold Logout. eapply keeps_bind; [apply keeps_logout_session|].
  intros [] D1 _ _; [|by apply keeps_ret]. destruct at_ as [t|]; [|by apply keeps_ret].
  eapply keeps_bind; [apply keeps_now|]. intros now D2 _ _.
  destruct (parse _ _ _ _ _) as [c|]; [|by apply keeps_ret].
  destruct (cl_expires_at c) as [e|]; [|by apply keeps_ret].
  eapply keeps_bind; [apply keeps_now|]. intros now' D3 _ _.
  case_match; [|by apply keeps_ret].
  eapply keeps_bind; [apply keeps_call, entry_ok_blacklist|]. intros; by apply keeps_ret.
Qed.

Lemma keeps_Verify t D : keeps (Verify cfg ks t) (λ _ _, True) D.
Proof.
  unfold Verify. eapply keeps_bind; [apply keeps_now|]. intros now D1 _ _.
  destruct (parse _ _ _ _ _) as [c|]; [|by apply keeps_ret].
  destruct (negb _); [by apply keeps_ret|]. destruct (subject_uid c); [|by apply keeps_ret].
  eapply keeps_bind; [by apply keeps_call|]. intros bl D2 _ _.
  eapply keeps_bind; [by apply keeps_call|]. intros al D3 _ _.
  destruct bl as [[]|], al as [[]|]; try by apply keeps_ret.
  eapply keeps_bind; [apply keeps_revoked|]. intros; by apply keeps_ret.
Qed.

(** The operations of the package on the session store. *)
Inductive auth_op : Type :=
| OpLogin (realm : string) (uid : Z)
| OpRefresh (refreshToken : string)
| OpLogout (refreshToken : string) (accessToken : option token)
| OpRevokeAll (realm : string) (uid : Z) (reason : string)
| OpVerify (accessToken : token).

Definition auth_step (o : auth_op) : prog authE unit :=
  match o with
  | OpLogin r u => let* _ := Login cfg ks r u in Ret tt
  | OpRefresh t => let* _ := Refresh cfg ks t in Ret tt
  | OpLogout r a => let* _ := Logout cfg ks r a in Ret tt
  | OpRevokeAll r u w => let* _ := RevokeAll cfg r u w in Ret tt
  | OpVerify t => let* _ := Verify cfg ks t in Ret tt
  end.

Lemma keeps_auth_step o D : keeps (auth_step o) (λ _ _, True) D.
Proof.
  destruct o; unfold auth_step; (eapply keeps_bind; [|intros; by apply keeps_ret]).
  - apply keeps_Login.
  - apply keeps_Refresh.
  - apply keeps_Logout.
  - apply keeps_RevokeAll.
  - apply keeps_Verify.
Qed.
End Ops.
