(* ===== verification/AuthFlow.v ===== *)
(** * authx: what the operations do on a Redis that answers

    Specifications of Login, Verify, Refresh and RevokeAll against [auth_up]
    (no faults, nothing interferes), in terms of what the keys of a session hold
    before and after. The theorems of Auth.v compose them. *)
From S2P Require Import Prelude Prog Redis AuthTokens AuthSessions AuthInv AuthKeeps.

(** Distinct kinds of keys, and distinct keys of one kind. *)
Ltac keys_differ :=
  first [ done | discriminate
        | let H := fresh in intros H; apply sapp_inj_l in H; congruence
        | intros; discriminate ].

Ltac look_other :=
  repeat first [rewrite look_put_ne by keys_differ | rewrite look_drop_ne by keys_differ].

Section Up.
#[local] Abbreviation wpu p Q v := (wp eq (@auth_up) p Q v).

Lemma wpu_redis {X A} (c : rcmd X) (k : result X rerr → prog authE A) Q v w x :
  redis_doc c (av_redis v) = Some (w, x) →
  wpu (k (Ok x)) Q (AV w (av_drawn v)) → wpu (bind (redis c) k) Q v.
Proof.
  intros Hd Hk v1 v2 r <- Ha. destruct Ha as [Ha Hdr]. cbn in Ha. rewrite Hd in Ha.
  destruct Ha as [Hw ->]. destruct v2 as [r2 d2]. cbn in *. by subst.
Qed.

Lemma wpu_random {A} n (k : string → prog authE A) Q v :
  (∀ x, x ∉ av_drawn v → x ≠ "" → wpu (k x) Q (AV (av_redis v) ({[x]} ∪ av_drawn v))) →
  wpu (bind (randomID n) k) Q v.
Proof.
  intros Hk v1 v2 x <- Ha. destruct Ha as (Hx & Hne & Hr & Hd).
  destruct v2 as [r2 d2]. cbn in *. subst. by apply Hk.
Qed.

Lemma wpu_now {A} (k : Z → prog authE A) Q v :
  wpu (k (rv_now (av_redis v))) Q v → wpu (bind now_ms k) Q v.
Proof. intros Hk v1 v2 x <- Ha. destruct Ha as [-> ->]. exact Hk. Qed.

Lemma wpu_bind {A B} (p : prog authE A) (f : A → prog authE B) P Q v :
  wpu p P v → (∀ a w, P a w → wpu (f a) Q w) → wpu (bind p f) Q v.
Proof. intros Hp Hf. apply wp_bind. eapply wp_mono, Hp. exact Hf. Qed.

(** A Redis without faults is a Redis. *)
Lemma auth_up_allows {X} (e : authE X) v v' x : auth_up e v v' x → auth_allows e v v' x.
Proof.
  destruct e as [Y e| |]; cbn; [|done..]. intros [H Hd]. split; [|done].
  destruct e as [Z c]. cbn in *. destruct (redis_doc c _) as [[w y]|].
  - by destruct H as [-> ->].
  - destruct H as [-> ->]. by left.
Qed.

Lemma wpu_wf `{RC : RecCodec} {A} (p : prog authE A) (Q : A → aview → Prop) v :
  (∀ D, keeps p (λ _ _, True) D) → auth_wf v → wpu p Q v →
  wpu p (λ a w, auth_wf w ∧ av_drawn v ⊆ av_drawn w ∧ Q a w) v.
Proof.
  intros Hk Hv HQ.
  assert (wpu p (λ a w, auth_wf w ∧ av_drawn v ⊆ av_drawn w ∧ True) v) as Hw.
  { eapply (wp_weaken rely_wf eq (@auth_allows) (@auth_up)); [|apply @auth_up_allows|].
    - intros ? ? <- ?. done.
    - by apply Hk. }
  eapply wp_mono; [|exact (wp_conj _ _ _ _ _ _ Hw HQ)].
  intros a w [(? & ? & _) ?]. auto.
Qed.
End Up.

(** ** Ending a session *)
Section Spec.
Context `{C : Crypto} `{J : Jwt} `{RC : RecCodec} `{!RecCodecLaws}.
Variable cfg : Config.
Variable ks : keys.
#[local] Abbreviation wpu p Q v := (wp eq (@auth_up) p Q v).

Definition ended_view (sid reason : string) (v : rview) : rview :=
  fst (tx_doc (WDel (keySessionAlive sid) ::
    if String.eqb reason "" then []
    else [WSetNX (keyEnded sid) reason (refresh_ms cfg)]) v).

Lemma wpu_endSession {A} sid reason (k : result unit auth_error → prog authE A) Q v :
  wpu (k (Ok tt)) Q (AV (ended_view sid reason (av_redis v)) (av_drawn v)) →
  wpu (bind (endSession cfg sid reason) k) Q v.
Proof.
  intros Hk. unfold endSession.
  change (wpu (bind (redis (CTx (WDel (keySessionAlive sid) ::
    if String.eqb reason "" then [] else [WSetNX (keyEnded sid) reason (refresh_ms cfg)])))
    (λ r, k match r with Ok true => Ok tt | _ => Err (ErrStore "end session") end)) Q v).
  eapply (wpu_redis _ _ _ _ _ true); [|exact Hk]. cbn -[keySessionAlive keyEnded look].
  unfold ended_view. f_equal. cbn -[keySessionAlive keyEnded look].
  destruct (look _ (keySessionAlive sid)); destruct (String.eqb reason ""); try done;
    cbn -[keySessionAlive keyEnded look]; by destruct (look _ (keyEnded sid)).
Qed.

Lemma ended_view_eq sid reason v :
  ended_view sid reason v =
    let v1 := drop v (keySessionAlive sid) in
    if String.eqb reason "" then v1
    else match look v (keyEnded sid) with
         | Some _ => v1
         | None => put v1 (keyEnded sid) (RStr reason) (expiry v1 (refresh_ms cfg))
         end.
Proof.
  unfold ended_view. cbn -[keySessionAlive keyEnded look String.eqb].
  assert (look (drop v (keySessionAlive sid)) (keyEnded sid) = look v (keyEnded sid)) as Hd
    by by look_other.
  destruct (look v (keySessionAlive sid)); destruct (String.eqb reason "");
    cbn -[keySessionAlive keyEnded look]; rewrite ?Hd; try done;
    by destruct (look v (keyEnded sid)).
Qed.

(** What a session's end leaves: the live mark gone, the first reason kept,
    everything else as it was. *)
Lemma ended_alive sid reason v : look (ended_view sid reason v) (keySessionAlive sid) = None.
Proof.
  rewrite ended_view_eq. cbn zeta. repeat case_match; look_other; by rewrite look_drop_eq.
Qed.

Lemma ended_reason sid reason v :
  look (ended_view sid reason v) (keyEnded sid) =
    match look v (keyEnded sid) with
    | Some x => Some x
    | None => if String.eqb reason "" then None else Some (RStr reason)
    end.
Proof.
  rewrite ended_view_eq. cbn zeta.
  destruct (String.eqb reason ""); [|destruct (look v (keyEnded sid)) eqn:E];
    rewrite ?look_put_eq; look_other; try done.
  by destruct (look v (keyEnded sid)).
Qed.

Lemma ended_frame sid reason v k :
  k ≠ keySessionAlive sid → k ≠ keyEnded sid → look (ended_view sid reason v) k = look v k.
Proof.
  intros H1 H2. apply tx_doc_frame. intros c Hc. apply elem_of_cons in Hc as [->|Hc]; [done|].
  destruct (String.eqb reason ""); [by apply elem_of_nil in Hc|].
  by apply list_elem_of_singleton in Hc as ->.
Qed.

Lemma ended_now sid reason v : rv_now (ended_view sid reason v) = rv_now v.
Proof. rewrite ended_view_eq. cbn zeta. by repeat case_match. Qed.

Lemma ended_alive_ne sid reason s v :
  s ≠ sid → look (ended_view sid reason v) (keySessionAlive s) = look v (keySessionAlive s).
Proof. intros Hs. apply ended_frame; keys_differ. Qed.

Lemma ended_reason_ne sid reason s v :
  s ≠ sid → look (ended_view sid reason v) (keyEnded s) = look v (keyEnded s).
Proof. intros Hs. apply ended_frame; keys_differ. Qed.

(** ** Verify *)

(** Keys a verifier must hold to accept what [ks] signs. *)
Definition accepts (vks : keys) : Prop :=
  match private ks with
  | Some seed => public vks !! kid ks = Some (ed_public seed)
  | None => is_Some (secret ks) ∧ secret vks = secret ks
  end.

Context `{!JwtLaws}.

Lemma sign_parse vks c t now leeway e iss :
  accepts vks → sign_access ks c = Some t → cl_issuer c = iss → cl_expires_at c = Some e →
  now < e * 1000 + leeway →
  parse vks iss leeway now t = Some c.
Proof.
  intros Ha Hs <- He Hnow. apply jwt_parse_spec. unfold sign_access, accepts in *.
  destruct (private ks) as [seed|].
  - apply jwt_sign_spec in Hs as (Hh & Hc & Hv).
    exists EdDSA, (Some (kid ks)), (VEd (ed_public seed)), e. cbn in *. rewrite Ha.
    split_and!; try done. apply elem_of_cons; by left.
  - apply jwt_sign_spec in Hs as (Hh & Hc & Hv). destruct Ha as [[sec Hsec] Hvk].
    exists HS256, None, (VHmac sec), e. cbn in *. rewrite Hvk, Hsec in *.
    split_and!; try done. apply elem_of_cons; right; apply elem_of_cons; by left.
Qed.

(** What Verify answers about the claims of an accepted token. *)
Definition verdict (v : rview) (c : claims) (uid : Z) : result Identity auth_error :=
  match look v (keyBlacklist (cl_id c)) with
  | Some _ => Err (RevokedError ReasonLogout)
  | None =>
      match look v (keySessionAlive (cl_sid c)) with
      | Some _ => Ok (identity_of c uid)
      | None => Err (RevokedError match look v (keyEnded (cl_sid c)) with
                                  | Some (RStr r) => r | _ => "" end)
      end
  end.

Lemma verify_spec vks vcfg t c uid (v : aview) :
  auth_wf v →
  parse vks (issuer vcfg) 0 (rv_now (av_redis v)) t = Some c →
  cl_realm c = cfgRealm vcfg → subject_uid c = Some uid →
  wpu (Verify vcfg vks t) (λ r w, w = v ∧ r = verdict (av_redis v) c uid) v.
Proof.
  intros [_ Hwf] Hp Hr Hu. unfold Verify. apply wpu_now. rewrite Hp, Hr, String.eqb_refl, Hu.
  destruct v as [rv D]. cbn [negb].
  eapply wpu_redis; [done|]. eapply wpu_redis; [done|]. unfold verdict. cbn [av_redis] in *.
  destruct (look rv (keyBlacklist (cl_id c))) eqn:Eb.
  { by rewrite bool_decide_true. }
  rewrite bool_decide_false by by intros [].
  destruct (look rv (keySessionAlive (cl_sid c))) eqn:Ea.
  { by rewrite bool_decide_true. }
  rewrite bool_decide_false by by intros [].
  unfold revoked. destruct (look rv (keyEnded (cl_sid c))) as [x|] eqn:Ee.
  - destruct (Hwf _ _ Ee) as (_ & _ & _ & Hm & _).
    destruct (Hm _ (or_intror eq_refl)) as (_ & y & ->).
    apply wp_bind. eapply (wpu_redis (CGet _)); [cbn; by rewrite Ee|]. done.
  - apply wp_bind. eapply (wpu_redis (CGet _)); [cbn; by rewrite Ee|]. done.
Qed.

(** ** issue and Login *)

(** [tk] was issued at the state [v]: its access token carries a fresh id, the
    session [sid] and the clock of [v]; its refresh token is a fresh draw too
    and is stored in [w]. *)
Definition issued (tk : Tokens) (realm : string) (uid : Z) (sid : string) (v w : aview) : Prop :=
  (RefreshToken tk ∉ av_drawn v ∧ RefreshToken tk ∈ av_drawn w) ∧
  ∃ jti, jti ∉ av_drawn v ∧ jti ∈ av_drawn w ∧
    sign_access ks (new_claims cfg (rv_now (av_redis v)) jti realm uid sid) = Some (AccessToken tk) ∧
    look (av_redis w) (keyRefresh (hashToken (RefreshToken tk)))
      = Some (RStr (rec_marshal (Rec realm uid sid))).

Definition same_but_refresh (v w : rview) : Prop :=
  rv_now w = rv_now v ∧ ∀ k, (∀ h, k ≠ keyRefresh h) → look w k = look v k.

Lemma issue_spec realm uid sid (v : aview) :
  wpu (issue cfg ks realm uid sid)
    (λ r w, av_drawn v ⊆ av_drawn w ∧ same_but_refresh (av_redis v) (av_redis w) ∧
       match r with
       | Ok tk => issued tk realm uid sid v w ∧
           ∀ h, h ≠ hashToken (RefreshToken tk) →
             look (av_redis w) (keyRefresh h) = look (av_redis v) (keyRefresh h)
       | Err e => e = ErrSign ∧ ∃ c, sign_access ks c = None
       end) v.
Proof.
  unfold issue. apply wpu_now, wpu_random. intros jti Hj Hjn.
  cbn [av_redis av_drawn].
  destruct (sign_access ks _) as [access|] eqn:Es.
  2: { cbn. split; [apply union_subseteq_r|]. split; [done|]. eauto. }
  apply wpu_random. intros rt Hrt Hrn. cbn [av_redis av_drawn] in *.
  eapply (wpu_redis (CWrite _)); [done|]. cbn [wp av_redis av_drawn].
  split; [|split].
  - etrans; [|apply union_subseteq_r]. apply union_subseteq_r.
  - split; [done|]. intros k Hk. by rewrite look_put_ne.
  - split.
    + unfold issued. cbn [AccessToken RefreshToken av_redis av_drawn]. split; [set_solver|].
      exists jti. split_and!; try done.
      * apply elem_of_union_r, elem_of_union_l. by apply elem_of_singleton.
      * by rewrite look_put_eq.
    + intros h Hh. cbn [RefreshToken] in Hh. rewrite look_put_ne; [done|].
      intros Hk. apply sapp_inj_l in Hk. congruence.
Qed.

(** The transaction of Login, on a well-formed store. *)
Definition login_tx (realm : string) (uid : Z) (sid : string) : list wcmd :=
  [WSet (keySession realm uid) sid (refresh_ms cfg);
   WSAdd (keySessionSet realm uid) sid;
   WPExpire (keySessionSet realm uid) (refresh_ms cfg);
   WSet (keySessionAlive sid) (format_int uid) (refresh_ms cfg)].

Lemma look_pexpire v k x ttl :
  0 < ttl → look (put v k x (Some (rv_now v + ttl))) k = Some x.
Proof.
  intros Ht. unfold look, put, fresh. cbn. rewrite lookup_insert_eq. cbn.
  by rewrite bool_decide_true by lia.
Qed.

Lemma login_tx_spec realm uid sid D v :
  0 < refresh_ms cfg → (∀ k x, look v k = Some x → entry_ok D k x) →
  ∃ w, tx_doc (login_tx realm uid sid) v = (w, true) ∧ rv_now w = rv_now v ∧
    look w (keySession realm uid) = Some (RStr sid) ∧
    (∃ m, look w (keySessionSet realm uid) = Some (RSet m) ∧ sid ∈ m ∧
       ∀ m0, look v (keySessionSet realm uid) = Some (RSet m0) → m0 ⊆ m) ∧
    is_Some (look w (keySessionAlive sid)) ∧
    (∀ k, k ≠ keySession realm uid → k ≠ keySessionSet realm uid → k ≠ keySessionAlive sid →
       look w k = look v k).
Proof.
  intros Ht Hwf.
  set (v1 := put v (keySession realm uid) (RStr sid) (expiry v (refresh_ms cfg))).
  set (S := keySessionSet realm uid).
  assert (look v1 S = look v S) as Hv1 by (unfold v1; by look_other).
  assert (∃ m ex n, wcmd_doc (WSAdd S sid) v1 = Some (put v1 S (RSet m) ex, n) ∧ sid ∈ m ∧
    look (put v1 S (RSet m) ex) S = Some (RSet m) ∧
    ∀ m0, look v S = Some (RSet m0) → m0 ⊆ m) as (m & ex & n & Hadd & Hin & Hl & Hsub).
  { cbn. rewrite Hv1. destruct (look v S) as [x|] eqn:E.
    - destruct (Hwf _ _ E) as (_ & Hs & _). destruct (Hs _ _ eq_refl) as (m & -> & _).
      exists ({[sid]} ∪ m), (old_expiry v1 S). eexists. split_and!; [done|set_solver| |].
      + by eapply fresh_old_expiry.
      + intros m0 [= <-]. set_solver.
    - exists {[sid]}, None. eexists. split_and!; [done|set_solver|by rewrite look_put_none|done]. }
  set (v2 := put v1 S (RSet m) ex) in *.
  set (v3 := put v2 S (RSet m) (Some (rv_now v2 + refresh_ms cfg))).
  exists (put v3 (keySessionAlive sid) (RStr (format_int uid)) (expiry v3 (refresh_ms cfg))).
  unfold login_tx. fold S. cbn [tx_doc].
  change (wcmd_doc (WSet (keySession realm uid) sid (refresh_ms cfg)) v) with (Some (v1, 1)).
  cbv beta iota. rewrite Hadd. cbn -[S v1 v2 put]. rewrite Hl, bool_decide_false by lia. fold v3.
  assert (look v3 S = Some (RSet m)) as Hv3 by by apply look_pexpire.
  unfold S in *. split_and!; try done.
  - look_other. unfold v3, v2. look_other. unfold v1. by rewrite look_put_eq.
  - exists m. look_other. done.
  - rewrite look_put_eq. eauto.
  - intros k H1 H2 H3. rewrite look_put_ne by done. unfold v3, v2, v1.
    by rewrite !look_put_ne by done.
Qed.

(** The recorded reason of [sid] after it was ended for [reason]. *)
Definition first_reason (v : rview) (sid reason : string) : option rval :=
  match look v (keyEnded sid) with
  | Some x => Some x
  | None => if String.eqb reason "" then None else Some (RStr reason)
  end.

(** The session of [realm]/[uid] before a login, as a string. *)
Definition current (v : rview) (realm : string) (uid : Z) (old : string) : Prop :=
  look v (keySession realm uid) = Some (RStr old).

Lemma srem_frame D r u m v :
  (∀ k x, look v k = Some x → entry_ok D k x) →
  ∃ w n, wcmd_doc (WSRem (keySessionSet r u) m) v = Some (w, n) ∧ rv_now w = rv_now v ∧
    ∀ k, k ≠ keySessionSet r u → look w k = look v k.
Proof.
  intros Hwf. cbn -[keySessionSet]. destruct (look v (keySessionSet r u)) as [x|] eqn:E.
  - destruct (Hwf _ _ E) as (_ & Hs & _). destruct (Hs _ _ eq_refl) as (ms & -> & _).
    repeat case_decide; do 2 eexists; split_and!; try done; intros k Hk;
      [by rewrite look_drop_ne|by rewrite look_put_ne].
  - do 2 eexists. split_and!; done.
Qed.

Lemma end_previous_spec realm uid (v : aview) :
  auth_wf v →
  wpu (end_previous cfg realm uid)
    (λ r w, r = None ∧ av_drawn w = av_drawn v ∧ rv_now (av_redis w) = rv_now (av_redis v) ∧
       (∀ old, current (av_redis v) realm uid old →
          look (av_redis w) (keySessionAlive old) = None ∧
          look (av_redis w) (keyEnded old) = first_reason (av_redis v) old ReasonReplaced) ∧
       (∀ k, k ≠ keySessionSet realm uid →
          (∀ old, current (av_redis v) realm uid old → k ≠ keySessionAlive old ∧ k ≠ keyEnded old) →
          look (av_redis w) k = look (av_redis v) k)) v.
Proof.
  intros Hv. destruct v as [v D]. destruct Hv as [Hempty Hwf]. cbn in Hempty, Hwf.
  unfold end_previous, current. cbn [av_redis av_drawn].
  destruct (look v (keySession realm uid)) as [x|] eqn:E.
  - pose proof (Hwf _ _ E) as (Hs & _). destruct (Hs _ _ eq_refl) as (old & -> & Hold).
    eapply (wpu_redis (CGet _)); [cbn [redis_doc av_redis]; by rewrite E|].
    cbv beta iota. destruct (String.eqb_spec old "") as [->|_]; [done|].
    apply wpu_endSession. cbn [av_redis av_drawn].
    set (v1 := ended_view old ReasonReplaced v).
    assert (∀ k y, look v1 k = Some y → entry_ok D k y) as Hwf1.
    { apply tx_wf; [|done]. apply Forall_cons. split; [done|]. cbn.
      apply Forall_singleton. by apply entry_ok_mark. }
    destruct (srem_frame D realm uid old v1 Hwf1) as (w & n & Hd & Hn & Hf).
    eapply (wpu_redis (CWrite _)); [exact Hd|]. cbn [wp av_redis av_drawn].
    split_and!; [done|done|by rewrite Hn; apply ended_now| |].
    + intros old' [= <-]. rewrite !Hf by discriminate. split; [apply ended_alive|apply ended_reason].
    + intros k Hk Hk'. rewrite Hf by done. destruct (Hk' old eq_refl). by apply ended_frame.
  - eapply (wpu_redis (CGet _)); [cbn [redis_doc av_redis]; by rewrite E|]. done.
Qed.

Definition members (v : rview) (realm : string) (uid : Z) : gset string :=
  match look v (keySessionSet realm uid) with Some (RSet m) => m | _ => ∅ end.

Lemma issued_weaken tk r u s v v' w :
  av_drawn v ⊆ av_drawn v' → rv_now (av_redis v') = rv_now (av_redis v) →
  issued tk r u s v' w → issued tk r u s v w.
Proof. intros Hd Hn [[H5 H6] (jti & H1 & H2 & H3 & H4)]. split; [set_solver|]. exists jti. rewrite <- Hn. split_and!; [set_solver|done..]. Qed.

(** What a successful Login from [v] to [w] established. *)
Record logged_in (tk : Tokens) (realm : string) (uid : Z) (sid : string) (v w : aview) : Prop := {
  li_fresh : sid ∉ av_drawn v;
  li_drawn : sid ∈ av_drawn w;
  li_issued : issued tk realm uid sid v w;
  li_now : rv_now (av_redis w) = rv_now (av_redis v);
  li_current : current (av_redis w) realm uid sid;
  li_member : sid ∈ members (av_redis w) realm uid;
  li_alive : is_Some (look (av_redis w) (keySessionAlive sid));
  li_not_ended : look (av_redis w) (keyEnded sid) = None;
  li_replaced : singleSession cfg = true → ∀ old, current (av_redis v) realm uid old →
    look (av_redis w) (keySessionAlive old) = None ∧
    look (av_redis w) (keyEnded old) = first_reason (av_redis v) old ReasonReplaced;
  li_blacklist : ∀ j, look (av_redis w) (keyBlacklist j) = look (av_redis v) (keyBlacklist j);
  li_used : ∀ h, look (av_redis w) (keyUsed h) = look (av_redis v) (keyUsed h)
}.

Lemma unused_sid v s : auth_wf v → s ∉ av_drawn v →
  look (av_redis v) (keySessionAlive s) = None ∧ look (av_redis v) (keyEnded s) = None.
Proof.
  intros [_ Hwf] Hs. split.
  - destruct (look _ (keySessionAlive s)) eqn:E; [|done].
    apply Hwf in E as (_ & _ & _ & Hm & _). by destruct (Hm s (or_introl eq_refl)).
  - destruct (look _ (keyEnded s)) eqn:E; [|done].
    apply Hwf in E as (_ & _ & _ & Hm & _). by destruct (Hm s (or_intror eq_refl)).
Qed.

Lemma current_drawn v r u old : auth_wf v → current (av_redis v) r u old → old ∈ av_drawn v.
Proof. intros [_ Hwf] Hc. apply Hwf in Hc as (Hs & _). by destruct (Hs r u eq_refl) as (s & [= <-] & ?). Qed.

Lemma login_spec realm uid (v : aview) :
  0 < refresh_ms cfg → auth_wf v →
  wpu (Login cfg ks realm uid)
    (λ r w, match r with
       | Ok tk => ∃ sid, logged_in tk realm uid sid v w
       | Err e => e = ErrSign ∧ ∃ c, sign_access ks c = None
       end) v.
Proof.
  intros Ht Hv. unfold Login. apply wpu_random. intros sid Hsid Hne.
  set (v0 := AV (av_redis v) ({[sid]} ∪ av_drawn v)).
  destruct (unused_sid v sid Hv Hsid) as [Hna Hne'].
  assert (auth_wf v0) as Hv0.
  { destruct Hv as [He Hwf]. split; [set_solver|]. intros k x Hk.
    eapply entry_ok_mono, Hwf, Hk. apply union_subseteq_r. }
  assert (∀ old, current (av_redis v) realm uid old → old ≠ sid) as Hold.
  { intros old Hc ->. by apply current_drawn in Hc. }
  (* the previous session *)
  apply (wpu_bind _ _ (λ r w, auth_wf w ∧ av_drawn w = av_drawn v0 ∧ r = None ∧
    rv_now (av_redis w) = rv_now (av_redis v) ∧
    (singleSession cfg = true → ∀ old, current (av_redis v) realm uid old →
       look (av_redis w) (keySessionAlive old) = None ∧
       look (av_redis w) (keyEnded old) = first_reason (av_redis v) old ReasonReplaced) ∧
    (∀ k, k ≠ keySessionSet realm uid →
       (∀ old, current (av_redis v) realm uid old → k ≠ keySessionAlive old ∧ k ≠ keyEnded old) →
       look (av_redis w) k = look (av_redis v) k))).
  { destruct (singleSession cfg).
    - eapply wp_mono, wpu_wf; [|apply keeps_end_previous|done|by apply end_previous_spec].
      intros r w (? & ? & ? & ? & ? & ? & ?). split_and!; auto.
    - cbn. split_and!; done. }
  intros r w1 (Hw1 & Hd1 & -> & Hn1 & Hold1 & Hf1).
  destruct (login_tx_spec realm uid sid (av_drawn w1) (av_redis w1) Ht (proj2 Hw1))
    as (w2 & Htx & Hn2 & Hcur & (m & Hm & Hsm & _) & Hal & Hf2).
  eapply (wpu_redis (CTx _)); [cbn [redis_doc]; exact (f_equal Some Htx)|].
  cbv beta iota. eapply wp_mono, issue_spec.
  intros r w (Hd3 & [Hn3 Hf3] & Hr). cbn [av_redis av_drawn] in *.
  destruct r as [tk|e]; [|exact Hr]. destruct Hr as [Hiss Hrt]. exists sid.
  assert (av_drawn v0 ⊆ av_drawn w) as Hsub by (rewrite <- Hd1; exact Hd3).
  assert (∀ k, (∀ h, k ≠ keyRefresh h) → k ≠ keySession realm uid →
    k ≠ keySessionSet realm uid → k ≠ keySessionAlive sid →
    look (av_redis w) k = look (av_redis w1) k) as Hf.
  { intros k H1 H2 H3 H4. by rewrite Hf3, Hf2 by done. }
  split.
  - done.
  - apply Hsub. apply elem_of_union_l. by apply elem_of_singleton.
  - eapply (issued_weaken _ _ _ _ _ (AV w2 (av_drawn w1))); [| |exact Hiss]; cbn.
    + rewrite Hd1. apply union_subseteq_r.
    + congruence.
  - congruence.
  - unfold current. by rewrite Hf3 by discriminate.
  - unfold members. rewrite Hf3 by discriminate. by rewrite Hm.
  - by rewrite Hf3 by discriminate.
  - rewrite Hf by discriminate. rewrite Hf1; [done|discriminate|].
    intros old Hc. split; [discriminate|]. intros Heq. apply sapp_inj_l in Heq.
    by apply (Hold old Hc).
  - intros Hs old Hc. specialize (Hold old Hc). destruct (Hold1 Hs old Hc) as [Ha Hr].
    rewrite !Hf by (discriminate || keys_differ). done.
  - intros j. rewrite Hf by discriminate. apply Hf1; [discriminate|].
    intros old _; split; discriminate.
  - intros h. rewrite Hf by discriminate. apply Hf1; [discriminate|].
    intros old _; split; discriminate.
Qed.

(** ** RevokeAll *)
Lemma revoke_spec realm uid reason (v : aview) :
  auth_wf v →
  wpu (RevokeAll cfg realm uid reason)
    (λ r w, r = Ok tt ∧ av_drawn w = av_drawn v ∧ rv_now (av_redis w) = rv_now (av_redis v) ∧
       look (av_redis w) (keySession realm uid) = None ∧
       look (av_redis w) (keySessionSet realm uid) = None ∧
       (∀ s, s ∈ members (av_redis v) realm uid →
          look (av_redis w) (keySessionAlive s) = None ∧
          look (av_redis w) (keyEnded s) = first_reason (av_redis v) s reason) ∧
       (∀ k, k ≠ keySession realm uid → k ≠ keySessionSet realm uid →
          (∀ s, s ∈ members (av_redis v) realm uid → k ≠ keySessionAlive s ∧ k ≠ keyEnded s) →
          look (av_redis w) k = look (av_redis v) k)) v.
Proof.
  intros [_ Hwf]. destruct v as [v D]. cbn [av_redis av_drawn] in *. unfold RevokeAll.
  assert (redis_doc (CMembers (keySessionSet realm uid)) v = Some (v, elements (members v realm uid))) as Hm.
  { cbn. unfold members. destruct (look v (keySessionSet realm uid)) as [x|] eqn:E; [|done].
    destruct (Hwf _ _ E) as (_ & Hs & _). by destruct (Hs _ _ eq_refl) as (m & -> & _). }
  eapply (wpu_redis (CMembers _)); [exact Hm|]. cbv beta iota. cbn [av_drawn].
  set (M := members v realm uid) in *.
  apply (wpu_bind _ _ (λ r w, r = None ∧ av_drawn w = D ∧ rv_now (av_redis w) = rv_now v ∧
    (∀ s, s ∈ M → look (av_redis w) (keySessionAlive s) = None ∧
       look (av_redis w) (keyEnded s) = first_reason v s reason) ∧
    (∀ k, (∀ s, s ∈ M → k ≠ keySessionAlive s ∧ k ≠ keyEnded s) → look (av_redis w) k = look v k))).
  - apply (wp_for_each _ _ _ _ (λ rest w, av_drawn w = D ∧ rv_now (av_redis w) = rv_now v ∧
      (∀ s, s ∈ M → s ∉ rest → look (av_redis w) (keySessionAlive s) = None ∧
         look (av_redis w) (keyEnded s) = first_reason v s reason) ∧
      (∀ s, s ∈ rest → s ∈ M) ∧ NoDup rest ∧
      (∀ s, s ∈ rest → look (av_redis w) (keyEnded s) = look v (keyEnded s)) ∧
      (∀ k, (∀ s, s ∈ M → k ≠ keySessionAlive s ∧ k ≠ keyEnded s) → look (av_redis w) k = look v k))).
    + intros s rest w (Hd & Hn & Hdone & Hin & Hnd & Hpend & Hf).
      apply wpu_endSession. cbn [wp av_redis av_drawn].
      apply NoDup_cons in Hnd as [Hs Hnd].
      assert (∀ s', s' ∈ rest → s' ≠ s) as Hne by (intros s' H1 ->; done).
      split_and!; [done|by rewrite ended_now| | |done| |].
      * intros s' HM Hr. destruct (decide (s' = s)) as [->|Hss].
        { rewrite ended_alive, ended_reason. split; [done|]. unfold first_reason.
          by rewrite Hpend by by left. }
        rewrite ended_alive_ne, ended_reason_ne by done. apply Hdone; [done|].
        intros [?|?]%elem_of_cons; done.
      * intros s' H1. apply Hin. by right.
      * intros s' H1. rewrite ended_reason_ne by auto. apply Hpend. by right.
      * intros k Hk. destruct (Hk s) as [H1 H2]; [apply Hin; by left|].
        rewrite ended_frame by done. by apply Hf.
    + intros w (Hd & Hn & Hdone & _ & _ & _ & Hf). split_and!; try done.
      intros s HM. apply Hdone; [done|apply not_elem_of_nil].
    + split_and!; try done.
      * intros s HM Hs. by rewrite elem_of_elements in Hs.
      * intros s. by rewrite elem_of_elements.
      * apply NoDup_elements.
  - intros r w (-> & Hd & Hn & Hdone & Hf). cbv beta iota.
    set (w' := drop (drop (av_redis w) (keySession realm uid)) (keySessionSet realm uid)).
    eapply (wpu_redis (CTx _) _ _ _ w' true).
    { cbn -[keySession keySessionSet look drop]. f_equal.
      destruct (look _ (keySession realm uid)); cbn -[keySession keySessionSet look drop];
        by destruct (look (drop _ _) _). }
    cbn [wp av_redis av_drawn]. unfold w'. split_and!; try done.
    + look_other. by rewrite look_drop_eq.
    + by rewrite look_drop_eq.
    + intros s Hs. look_other. by apply Hdone.
    + intros k H1 H2 H3. rewrite !look_drop_ne by done. by apply Hf.
Qed.

(** ** Refresh *)

(** A live refresh token of a live session is retired and a new pair issued. *)
Lemma refresh_live_spec rt raw rec (v : aview) :
  auth_wf v →
  look (av_redis v) (keyRefresh (hashToken rt)) = Some (RStr raw) →
  rec_unmarshal raw = Some rec →
  is_Some (look (av_redis v) (keySessionAlive (rec_sid rec))) →
  wpu (Refresh cfg ks rt)
    (λ r w, rv_now (av_redis w) = rv_now (av_redis v) ∧
       look (av_redis w) (keyUsed (hashToken rt)) = Some (RStr raw) ∧
       (∀ k, (∀ h, k ≠ keyRefresh h) → k ≠ keyUsed (hashToken rt) →
          look (av_redis w) k = look (av_redis v) k) ∧
       match r with
       | Ok tk => issued tk (rec_realm rec) (rec_uid rec) (rec_sid rec) v w ∧
           (hashToken (RefreshToken tk) ≠ hashToken rt →
            look (av_redis w) (keyRefresh (hashToken rt)) = None)
       | Err e => e = ErrSign ∧ ∃ c, sign_access ks c = None
       end) v.
Proof.
  intros Hv Hr Hrec Hal. unfold Refresh.
  eapply (wpu_redis (CGet _)); [cbn [redis_doc]; by rewrite Hr|]. cbv beta iota. rewrite Hrec.
  unfold rotate. eapply (wpu_redis (CExists _)); [done|]. cbn [av_redis av_drawn].
  rewrite bool_decide_true by done. cbv beta iota.
  set (v1 := drop (av_redis v) (keyRefresh (hashToken rt))).
  set (v2 := put v1 (keyUsed (hashToken rt)) (RStr raw) (expiry v1 (refresh_ms cfg))).
  eapply (wpu_redis (CTx _) _ _ _ v2 true).
  { cbn -[keyRefresh keyUsed look]. by rewrite Hr. }
  cbv beta iota. eapply wp_mono, issue_spec. cbn [av_redis av_drawn].
  intros r w (Hd & [Hn Hf] & Hres). split_and!.
  - by rewrite Hn.
  - rewrite Hf by discriminate. unfold v2. by rewrite look_put_eq.
  - intros k H1 H2. rewrite Hf by done. unfold v2, v1.
    rewrite look_put_ne, look_drop_ne; [done|..]; [intros <-; by eapply H1|done].
  - destruct r as [tk|e]; [|done]. destruct Hres as [Hi Ho]. split.
    + by eapply (issued_weaken _ _ _ _ _ (AV v2 (av_drawn v))).
    + intros Hne. rewrite Ho by done. unfold v2. look_other. unfold v1. by rewrite look_drop_eq.
Qed.

(** A retired refresh token: every session of its principal ends. *)
Lemma refresh_replay_spec rt raw rec (v : aview) :
  auth_wf v →
  look (av_redis v) (keyRefresh (hashToken rt)) = None →
  look (av_redis v) (keyUsed (hashToken rt)) = Some (RStr raw) →
  rec_unmarshal raw = Some rec →
  wpu (Refresh cfg ks rt)
    (λ r w, r = Err ErrRefreshReplayed ∧ rv_now (av_redis w) = rv_now (av_redis v) ∧
       (∀ s, s ∈ members (av_redis v) (rec_realm rec) (rec_uid rec) →
          look (av_redis w) (keySessionAlive s) = None ∧
          look (av_redis w) (keyEnded s) = first_reason (av_redis v) s ReasonRefreshReplayed) ∧
       (∀ j, look (av_redis w) (keyBlacklist j) = look (av_redis v) (keyBlacklist j))) v.
Proof.
  intros Hv Hr Hu Hrec. unfold Refresh.
  eapply (wpu_redis (CGet _)); [cbn [redis_doc]; by rewrite Hr|]. cbv beta iota.
  unfold refresh_unknown. cbn [av_redis av_drawn].
  eapply (wpu_redis (CGet _)); [cbn [redis_doc av_redis]; by rewrite Hu|]. cbv beta iota.
  destruct (String.eqb_spec raw "") as [->|_].
  { destruct Hv as [_ Hwf]. apply Hwf in Hu as (_ & _ & Hm & _).
    by destruct (Hm _ (or_intror eq_refl)) as (? & ? & [= <-] & ? & _). }
  rewrite Hrec. apply wp_bind. destruct v as [v D]. eapply wp_mono, revoke_spec, Hv.
  intros r w (_ & Hd & Hn & _ & _ & Hs & Hf). cbn [wp av_redis] in *. split_and!; try done.
  intros j. apply Hf; [discriminate..|]. intros s _; split; discriminate.
Qed.

(** ** Logout *)
Lemma logout_spec rt raw rec (v : aview) :
  auth_wf v →
  look (av_redis v) (keyRefresh (hashToken rt)) = Some (RStr raw) →
  rec_unmarshal raw = Some rec →
  wpu (logout_session cfg rt)
    (λ r w, r = Ok tt ∧ av_drawn w = av_drawn v ∧ rv_now (av_redis w) = rv_now (av_redis v) ∧
       look (av_redis w) (keyRefresh (hashToken rt)) = None ∧
       look (av_redis w) (keySessionAlive (rec_sid rec)) = None ∧
       look (av_redis w) (keyEnded (rec_sid rec)) = first_reason (av_redis v) (rec_sid rec) ReasonLogout ∧
       ¬ current (av_redis w) (rec_realm rec) (rec_uid rec) (rec_sid rec) ∧
       (∀ h, look (av_redis w) (keyUsed h) = look (av_redis v) (keyUsed h))) v.
Proof.
  intros Hv Hr Hrec. destruct Hv as [Hempty Hwf]. destruct v as [v D]. cbn [av_redis av_drawn] in *.
  assert (rec_sid rec ∈ D) as Hsid.
  { destruct (Hwf _ _ Hr) as (_ & _ & Hm & _).
    destruct (Hm _ (or_introl eq_refl)) as (raw' & rec' & [= <-] & _ & Hrec' & ?). congruence. }
  unfold logout_session. cbn [av_redis av_drawn].
  eapply (wpu_redis (CGet _)); [cbn [redis_doc av_redis]; by rewrite Hr|]. cbv beta iota.
  rewrite Hrec. set (sid := rec_sid rec) in *. set (r := rec_realm rec). set (u := rec_uid rec).
  set (v1 := ended_view sid ReasonLogout v).
  assert (∀ k y, look v1 k = Some y → entry_ok D k y) as Hwf1.
  { apply tx_wf; [|done]. apply Forall_cons. split; [done|]. cbn.
    apply Forall_singleton. by apply entry_ok_mark. }
  (* the session's own keys, then the pointer and the set *)
  apply (wpu_bind _ _ (λ e w, e = Ok tt ∧ av_drawn w = D ∧ rv_now (av_redis w) = rv_now v ∧
    ¬ current (av_redis w) r u sid ∧
    ∀ k, k ≠ keySession r u → k ≠ keySessionSet r u → look (av_redis w) k = look v1 k)).
  - apply wpu_endSession. cbn [av_redis av_drawn]. fold v1.
    assert (∃ cur, redis_doc (CGet (keySession r u)) v1 = Some (v1, cur) ∧
      ∀ s, cur = Some s ↔ current v1 r u s) as (cur & Hcur & Hcs).
    { cbn. unfold current. destruct (look v1 (keySession r u)) as [x|] eqn:E; [|by eexists].
      destruct (Hwf1 _ _ E) as (Hs & _). destruct (Hs _ _ eq_refl) as (s & -> & _).
      eexists. split; [done|]. naive_solver. }
    eapply (wpu_redis (CGet _)); [exact Hcur|]. cbn [av_redis av_drawn].
    assert (∀ v2 : rview, (∀ k x, look v2 k = Some x → entry_ok D k x) →
      rv_now v2 = rv_now v → ¬ current v2 r u sid →
      (∀ k, k ≠ keySession r u → look v2 k = look v1 k) →
      wpu (redis (CWrite (WSRem (keySessionSet r u) sid));;; Ret (Ok tt : result unit auth_error))
        (λ e w, e = Ok tt ∧ av_drawn w = D ∧ rv_now (av_redis w) = rv_now v ∧
           ¬ current (av_redis w) r u sid ∧
           ∀ k, k ≠ keySession r u → k ≠ keySessionSet r u → look (av_redis w) k = look v1 k)
        (AV v2 D)) as Hend.
    { intros v2 Hwf2 Hn2 Hc2 Hf2. destruct (srem_frame D r u sid v2 Hwf2) as (w & n & Hw & Hn & Hf).
      eapply (wpu_redis (CWrite _)); [exact Hw|]. cbn [wp av_redis av_drawn]. split_and!; try done.
      - congruence.
      - unfold current. by rewrite Hf by discriminate.
      - intros k H1 H2. rewrite Hf by done. by apply Hf2. }
    case_bool_decide as Hb.
    + assert (∃ n, wcmd_doc (WDel (keySession r u)) v1 = Some (drop v1 (keySession r u), n)) as [n Hdel].
      { cbn. destruct (look v1 _); eauto. }
      eapply (wpu_redis (CWrite _)); [exact Hdel|]. cbn [bind av_redis av_drawn]. apply Hend.
      * by eapply (wcmd_wf D (WDel (keySession r u))).
      * apply ended_now.
      * unfold current. by rewrite look_drop_eq.
      * intros k Hk. by rewrite look_drop_ne.
    + cbn [bind]. apply Hend; [done|apply ended_now| |done].
      intros Hc. apply Hcs in Hc. subst cur. done.
  - intros e w (-> & Hd & Hn & Hc & Hf). cbv beta iota.
    assert (∃ n, wcmd_doc (WDel (keyRefresh (hashToken rt))) (av_redis w)
      = Some (drop (av_redis w) (keyRefresh (hashToken rt)), n)) as [n Hdel].
    { cbn. destruct (look (av_redis w) _); eauto. }
    eapply (wpu_redis (CWrite _)); [exact Hdel|]. cbn [wp av_redis av_drawn].
    split_and!; try done.
    + by rewrite look_drop_eq.
    + look_other. rewrite Hf by discriminate. apply ended_alive.
    + look_other. rewrite Hf by discriminate. apply ended_reason.
    + unfold current. by look_other.
    + intros h. look_other. rewrite Hf by discriminate. by apply ended_frame.
Qed.

(** ** Verifying what was issued *)
Lemma new_claims_live now jti realm uid sid :
  second ≤ access_ttl cfg →
  ∃ e, cl_expires_at (new_claims cfg now jti realm uid sid) = Some e ∧ now < e * 1000 + 0.
Proof.
  intros Ht. eexists. split; [done|]. unfold second in *.
  pose proof (Z.div_mod (now * 1000000 + access_ttl cfg) 1000000000).
  pose proof (Z.mod_pos_bound (now * 1000000 + access_ttl cfg) 1000000000). lia.
Qed.

Lemma new_claims_uid now jti realm uid sid :
  in_int64 uid → 0 < uid → subject_uid (new_claims cfg now jti realm uid sid) = Some uid.
Proof.
  intros Hi Hp. unfold subject_uid, new_claims. cbn. rewrite format_int_parse by done.
  destruct (Z.leb_spec uid 0); [lia|done].
Qed.

(** A token issued at [v], verified at [w] with the clock unmoved: the verdict
    is about the session [sid] and the token's own id. *)
Lemma verify_issued vks vcfg tk realm uid sid v w0 (w : aview) :
  accepts vks → issuer vcfg = issuer cfg → second ≤ access_ttl cfg →
  in_int64 uid → 0 < uid → issued tk realm uid sid v w0 →
  auth_wf w → rv_now (av_redis w) = rv_now (av_redis v) →
  ∃ jti, jti ∉ av_drawn v ∧ jti ∈ av_drawn w0 ∧
    (cfgRealm vcfg = realm →
      let c := new_claims cfg (rv_now (av_redis v)) jti realm uid sid in
      wpu (Verify vcfg vks (AccessToken tk)) (λ r w', w' = w ∧ r = verdict (av_redis w) c uid) w) ∧
    (cfgRealm vcfg ≠ realm →
      wpu (Verify vcfg vks (AccessToken tk)) (λ r w', w' = w ∧ r = Err ErrInvalidToken) w).
Proof.
  intros Ha Hi Ht Hu Hp [_ (jti & Hj & Hjw & Hs & _)] Hw Hn. exists jti. split; [done|]. split; [done|].
  destruct (new_claims_live (rv_now (av_redis v)) jti realm uid sid Ht) as (e & He & Hlt).
  assert (parse vks (issuer vcfg) 0 (rv_now (av_redis w)) (AccessToken tk)
    = Some (new_claims cfg (rv_now (av_redis v)) jti realm uid sid)) as Hparse.
  { rewrite Hn. eapply sign_parse; [done|exact Hs|done|exact He|exact Hlt]. }
  split; intros Hrealm.
  - cbv zeta. apply verify_spec; [done..|by rewrite <- Hrealm|by apply new_claims_uid].
  - unfold Verify. apply wpu_now. rewrite Hparse. cbn [cl_realm new_claims].
    destruct (String.eqb_spec realm (cfgRealm vcfg)); [congruence|]. by destruct w.
Qed.
(** The settings under which the flows are judged: the refresh TTL reaches
    Redis, an access token lives at least a second, the verifier holds the
    issuer's key and name, the uid is a positive 64-bit number and signing works. *)
Definition fit (vcfg : Config) (vks : keys) (uid : Z) : Prop :=
  0 < refresh_ms cfg ∧ second ≤ access_ttl cfg ∧ accepts vks ∧ issuer vcfg = issuer cfg ∧
  in_int64 uid ∧ 0 < uid ∧ (∀ c, sign_access ks c ≠ None).

End Spec.

(** A store that has blacklisted no id that was never drawn. *)
Definition blacklist_clean (v : aview) : Prop :=
  ∀ j, j ∉ av_drawn v → look (av_redis v) (keyBlacklist j) = None.

