(* ===== verification/Samples.v ===== *)
(** * Concrete stand-ins for the code that is not under src/

    A hexadecimal codec and small concrete instances of the parameter classes
    ([Argon], [Crypto], [Jwt], [RecCodec]) with proofs of their laws: they show
    that the hypotheses of the theorems can hold, and witnesses evaluate on them. *)
From S2P Require Import Prelude Prog Redis AuthTokens Password AuthSessions AuthInv AuthKeeps AuthFlow.

(** ** A codec: two letters of a..p per byte *)
Definition nibble (n : nat) : ascii := ascii_of_nat (97 + n).
Definition unnibble (c : ascii) : nat := nat_of_ascii c - 97.

Fixpoint hex_encode (s : string) : string :=
  match s with
  | "" => ""
  | String c s' =>
      String (nibble (nat_of_ascii c / 16)) (String (nibble (nat_of_ascii c mod 16)) (hex_encode s'))
  end.

Fixpoint hex_decode (s : string) : option string :=
  match s with
  | "" => Some ""
  | String a (String b s') =>
      String (ascii_of_nat (16 * unnibble a + unnibble b)) <$> hex_decode s'
  | String _ "" => None
  end.

Lemma hex_byte c :
  ascii_of_nat (16 * unnibble (nibble (nat_of_ascii c / 16)) + unnibble (nibble (nat_of_ascii c mod 16))) = c.
Proof. destruct c as [[] [] [] [] [] [] [] []]; reflexivity. Qed.

Lemma hex_decode_encode s : hex_decode (hex_encode s) = Some s.
Proof.
  induction s as [|c s IH]; [done|].
  change (hex_decode (hex_encode (String c s))) with
    (String (ascii_of_nat (16 * unnibble (nibble (nat_of_ascii c / 16)) +
       unnibble (nibble (nat_of_ascii c mod 16)))) <$> hex_decode (hex_encode s)).
  by rewrite hex_byte, IH.
Qed.

Lemma nibble_not (sep c : ascii) :
  byte_in 97 112 sep = false →
  negb (Ascii.eqb (nibble (nat_of_ascii c / 16)) sep) &&
  negb (Ascii.eqb (nibble (nat_of_ascii c mod 16)) sep) = true.
Proof.
  intros Hs.
  assert (∀ d, byte_in 97 112 d = true → negb (Ascii.eqb d sep) = true) as H.
  { intros d Hd. destruct (Ascii.eqb_spec d sep); [congruence|done]. }
  rewrite !H; [done|..]; destruct c as [[] [] [] [] [] [] [] []]; reflexivity.
Qed.

Lemma hex_lacks sep s : byte_in 97 112 sep = false → lacks sep (hex_encode s) = true.
Proof.
  intros Hs. induction s as [|c s IH]; [done|].
  change (lacks sep (hex_encode (String c s))) with
    (negb (Ascii.eqb (nibble (nat_of_ascii c / 16)) sep) &&
     (negb (Ascii.eqb (nibble (nat_of_ascii c mod 16)) sep) && lacks sep (hex_encode s))).
  rewrite IH, andb_assoc, nibble_not by done. done.
Qed.

Lemma hex_encode_inj s t : hex_encode s = hex_encode t → s = t.
Proof. intros H. apply (f_equal hex_decode) in H. rewrite !hex_decode_encode in H. congruence. Qed.

(** ** argon2 and raw base64 *)
Fixpoint pad_to (n : nat) (s : string) : string :=
  match n with
  | O => ""
  | S n' => match s with "" => String "0" (pad_to n' "") | String c s' => String c (pad_to n' s') end
  end.

Lemma pad_to_length n s : String.length (pad_to n s) = n.
Proof. revert s. induction n as [|n IH]; intros [|c s]; cbn; auto. Qed.

#[export] Instance sample_argon : Argon := {
  argon_idkey pw salt t m p n :=
    if (t <? 1) || (p <? 1) then None else Some (pad_to (Z.to_nat n) (pw +:+ salt));
  raw64_encode := hex_encode;
  raw64_decode := hex_decode
}.

#[export] Instance sample_argon_laws : ArgonLaws.
Proof.
  split; cbn.
  - apply hex_decode_encode.
  - intros s. by apply hex_lacks.
  - intros pw salt t m p n Ht Hp Hn.
    destruct (Z.ltb_spec t 1); [lia|]. destruct (Z.ltb_spec p 1); [lia|]. cbn.
    eexists. split; [done|]. unfold slen. rewrite pad_to_length. lia.
  - intros pw salt t m p n H.
    destruct (Z.ltb_spec t 1); [done|]. destruct (Z.ltb_spec p 1); [done|]. lia.
Qed.

(** ** Keys and tokens *)
#[export] Instance sample_crypto : Crypto := {
  b64_decode := Some;
  sha256_hex := hex_encode;
  ed_public := smap upper_byte
}.

#[export] Instance vkey_eq_dec : EqDecision vkey.
Proof. solve_decision. Defined.

Record sample_token : Type := Tok {
  tk_method : method; tk_kid : option string; tk_claims : claims; tk_key : skey
}.

#[export] Instance sample_jwt : Jwt := {
  token := sample_token;
  jwt_header t := Some (tk_method t, tk_kid t);
  jwt_claims t := Some (tk_claims t);
  jwt_verified k t := bool_decide (k = vkey_of (tk_key t));
  jwt_sign k kd c := Some (Tok (method_of k) kd c k);
  jwt_parse t kf o now :=
    match kf (tk_method t) (tk_kid t), cl_expires_at (tk_claims t) with
    | Some key, Some e =>
        if bool_decide (tk_method t ∈ po_methods o) && bool_decide (key = vkey_of (tk_key t)) &&
           bool_decide (cl_issuer (tk_claims t) = po_issuer o) &&
           bool_decide (now < e * 1000 + po_leeway o)
        then Some (tk_claims t) else None
    | _, _ => None
    end
}.

#[export] Instance sample_jwt_laws : JwtLaws.
Proof.
  split.
  - intros [m kd c k] kf o now c'. cbn. split.
    + destruct (kf m kd) as [key|] eqn:Ek; [|done].
      destruct (cl_expires_at c) as [e|] eqn:Ee; [|done].
      repeat case_bool_decide; try done. cbn. intros [= <-].
      exists m, kd, key, e. split_and!; try done. by apply bool_decide_true.
    + intros (m' & kd' & key & e & [= <- <-] & Hm & -> & Hv & [= <-] & Hi & -> & Hn).
      rewrite bool_decide_eq_true in Hv. by rewrite !bool_decide_true.
  - intros sk kd c t [= <-]. cbn. split_and!; [done..|]. by apply bool_decide_true.
Qed.

(** ** Refresh records *)
#[export] Instance sample_codec : RecCodec := {
  rec_marshal r := hex_encode (rec_realm r) +:+ String "."
    (hex_encode (format_int (rec_uid r)) +:+ String "." (hex_encode (rec_sid r)));
  rec_unmarshal s :=
    match split_on "." s with
    | [a; b; c] =>
        match hex_decode a, hex_decode b, hex_decode c with
        | Some a, Some b, Some c =>
            match DecimalString.NilZero.int_of_string b with
            | Some d => Some (Rec a (Z.of_int d) c)
            | None => None
            end
        | _, _, _ => None
        end
    | _ => None
    end
}.

#[export] Instance sample_codec_laws : RecCodecLaws.
Proof.
  split.
  - intros [realm uid sid]. cbn -[split_on].
    rewrite !split_on_cons, split_on_lacks by by apply hex_lacks.
    rewrite !hex_decode_encode, format_int_digits. by rewrite DecimalZ.of_to.
  - intros [realm uid sid]. cbn. by destruct (hex_encode realm).
Qed.

(** ** Password witness *)
Lemma hash_verify_witness :
  ∃ phc, HashPassword "salt" "correct horse" = Returns phc ∧
    VerifyPasswordHash phc "correct horse" = Returns true ∧
    VerifyPasswordHash phc "battery staple" = Returns false.
Proof.
  destruct (hash_verify_roundtrip "salt" "correct horse") as (phc & H1 & H2 & H3).
  exists phc. split; [exact H1|]. split; [exact H2|]. apply H3. vm_compute. discriminate.
Defined.

(** ** A set-up of authx for the witnesses and the closed examples

    A configuration, its keys, a store, and tokens of the sample instances. *)

Definition sample_cfg : Config :=
  {| Enabled := true; PrivateKey := ""; PublicKeys := []; Secret := "0123456789abcdef0123456789abcdef";
     Issuer := ""; cfgRealm := "member"; AccessTTL := hour; RefreshTTL := 0; SingleSession := None |}.
Definition sample_keys : keys :=
  Keys (Some "0123456789abcdef0123456789abcdef") None "" ∅.
Definition sample_view : aview := AV (RView 1700000000000 ∅) ∅.
Definition sample_state : map_auth_state := MA (MR (RView 1700000000000 ∅) []) ∅.

Lemma sample_fit uid : in_int64 uid → 0 < uid → fit sample_cfg sample_keys sample_cfg sample_keys uid.
Proof.
  intros Hi Hp. split; [done|]. split; [done|].
  split; [split; [by eexists|done]|]. split; [done|]. split; [done|]. split; [done|]. done.
Qed.

Lemma sample_wf : auth_wf (ma_view sample_state).
Proof. split; [apply not_elem_of_empty|]. intros k x Hk. done. Qed.

Lemma sample_clean : blacklist_clean (ma_view sample_state).
Proof. by intros j _. Qed.


Definition sample_claims (iss : string) : claims :=
  {| cl_issuer := iss; cl_subject := "42"; cl_id := "j1"; cl_issued_at := Some 1700000000;
     cl_expires_at := Some 1700003600; cl_realm := "member"; cl_sid := "s1" |}.

(** A live session and an access token of it. *)
Definition live_state : map_auth_state :=
  MA (MR (RView 1700000000000 {[keySessionAlive "s1" := (RStr "42", None)]}) []) {["s1"]}.
Definition live_token : token :=
  Tok HS256 None (sample_claims "sportsbook") (SHmac "0123456789abcdef0123456789abcdef").
Definition live_id : Identity :=
  {| id_realm := "member"; id_uid := 42; id_sid := "s1"; id_jti := "j1"; id_exp := 1700003600 |}.

(** A store in which the principal 42 has one session. *)
Definition sample_sid : string := "s1".
Definition login_state : map_auth_state :=
  MA (MR (RView 1700000000000
    {[keySessionSet "member" 42 := (RSet {["s1"]}, None);
      keySessionAlive "s1" := (RStr "42", None)]}) []) {["s1"]}.

Lemma login_state_wf : auth_wf (ma_view login_state).
Proof.
  split; [set_solver|]. intros k x Hk. cbn in Hk. unfold look in Hk. cbn [rv_data] in Hk.
  destruct (decide (k = keySessionSet "member" 42)) as [->|H1].
  { rewrite lookup_insert_eq in Hk. injection Hk as <-. by apply entry_ok_set. }
  rewrite lookup_insert_ne in Hk by done.
  destruct (decide (k = keySessionAlive "s1")) as [->|H2].
  { rewrite lookup_singleton_eq in Hk. injection Hk as <-. apply entry_ok_mark. set_solver. }
  by rewrite lookup_singleton_ne in Hk.
Qed.

Definition checker_token : token :=
  Tok EdDSA (Some (KeyID "ABCDEFGHIJKLMNOPQRSTUVWXYZ012345")) (sample_claims "sportsbook")
    (SEd "abcdefghijklmnopqrstuvwxyz012345").
Definition checker_id : Identity := live_id.
