(* ===== verification/Auth.v ===== *)
(** * authx: the theorems

    What a login promises: the invariant of the session store, the safety of
    Verify under failures, and the flows Login, Verify, Refresh, Logout and
    RevokeAll compose to. *)
From S2P Require Import Prelude Prog Redis AuthTokens AuthSessions AuthInv AuthKeeps AuthFlow Samples.

Section Invariant.
Context `{C : Crypto} `{J : Jwt} `{RC : RecCodec} `{!RecCodecLaws}.

(** The session store is well formed after any operation of the package
    (Login, Refresh, Logout, RevokeAll, Verify), whatever Redis commands fail,
    executed or not, and whatever well-behaved work of other replicas happens
    between any two of its commands: sessions are strings, session sets are
    sets, refresh records decode, and every session id in the store was drawn
    from the random source. *)
Theorem auth_store_wf {S} (h : ∀ X, authE X → S → S * X) (view : S → aview)
    `{!Lawful h view (@auth_allows)} (env : nat → S → S) cfg ks (o : auth_op) s :
  (∀ n s, rely_wf (view s) (view (env n s))) →
  auth_wf (view s) →
  auth_wf (view (fst (run_env h env 0 (auth_step cfg ks o) s))) ∧
  av_drawn (view s) ⊆ av_drawn (view (fst (run_env h env 0 (auth_step cfg ks o) s))).
Proof.
  intros Henv Hs.
  pose proof (wp_sound rely_wf (@auth_allows) h view env (auth_step cfg ks o) _ 0 s Henv
    (keeps_auth_step cfg ks o (av_drawn (view s)) (view s) Hs (reflexivity _))) as (H1 & H2 & _).
  done.
Qed.
End Invariant.

Section Safety.
Context `{C : Crypto} `{J : Jwt} `{!JwtLaws}.
Variable cfg : Config.
Variable ks : keys.

(** A token that deserves the identity [id] in the state [v]. *)
Definition acceptable (v : aview) (t : token) (id : Identity) : Prop :=
  ∃ c e m kd key uid,
    jwt_header t = Some (m, kd) ∧ keyfunc ks m kd = Some key ∧ jwt_verified key t = true ∧
    jwt_claims t = Some c ∧ cl_issuer c = issuer cfg ∧ cl_realm c = cfgRealm cfg ∧
    cl_expires_at c = Some e ∧ rv_now (av_redis v) < e * 1000 ∧
    parse_int (cl_subject c) = Some uid ∧ 0 < uid ∧ id = identity_of c uid ∧
    is_Some (look (av_redis v) (keySessionAlive (cl_sid c))) ∧
    look (av_redis v) (keyBlacklist (cl_id c)) = None.

Lemma allows_exists k v v' (r : result bool rerr) :
  auth_allows (ARedis (Redis (CExists k))) v v' r →
  v' = v ∧ ∀ b, r = Ok b → b = bool_decide (is_Some (look (av_redis v) k)).
Proof.
  intros [Hx Hd]. destruct v' as [r2 d2], v as [r1 d1]. cbn in *. subst.
  destruct r as [b|]; [|destruct Hx as [?|[? ?]]]; simplify_eq; (split; [done|]); by intros ? [= <-].
Qed.

Lemma allows_get k v v' (r : result (option string) rerr) :
  auth_allows (ARedis (Redis (CGet k))) v v' r → v' = v.
Proof.
  intros [Hx Hd]. destruct v' as [r2 d2], v as [r1 d1].
  cbn [av_redis av_drawn redis_allows] in *. subst. f_equal.
  destruct r as [x|]; [by apply redis_doc_read in Hx|].
  destruct Hx as [->|[x Hx]]; [done|by apply redis_doc_read in Hx].
Qed.

(** C3. Verify accepts a token only if it is signed by a key of the verifier,
    carries the configured issuer and realm, has not expired, names a positive
    uid, and at that moment its session is alive and it is not blacklisted;
    Verify changes nothing. This holds whatever commands fail: a store that
    cannot answer never lets a token through. *)
Theorem verify_accepts_only_live {S} (h : ∀ X, authE X → S → S * X) (view : S → aview)
    `{!Lawful h view (@auth_allows)} t s :
  view (fst (run h (Verify cfg ks t) s)) = view s ∧
  ∀ id, snd (run h (Verify cfg ks t) s) = Ok id → acceptable (view s) t id.
Proof.
  pose proof (wp_run (@auth_allows) h view (Verify cfg ks t)
    (λ r w, w = view s ∧ ∀ id, r = Ok id → acceptable (view s) t id) s) as Hwp.
  apply Hwp. clear Hwp. generalize (view s). intros v.
  intros v1 v2 now <- [-> ->]. cbn [bind].
  destruct (parse ks (issuer cfg) 0 _ t) as [c|] eqn:Hp; [|done].
  destruct (String.eqb_spec (cl_realm c) (cfgRealm cfg)) as [Hr|]; [|done]. cbn [negb].
  unfold subject_uid. destruct (parse_int (cl_subject c)) as [uid|] eqn:Hu; [|done].
  destruct (Z.leb_spec uid 0) as [|Hpos]; [done|].
  intros v1 v2 bl <- Hbl. apply allows_exists in Hbl as [-> Hbl].
  intros v1 v2 al <- Hal. apply allows_exists in Hal as [-> Hal].
  destruct bl as [[]|]; destruct al as [[]|]; try done.
  - cbn. split; [done|]. intros id [= <-].
    apply jwt_parse_spec in Hp as (m & kd & key & e & H1 & _ & H3 & H4 & H5 & H6 & H7 & H8).
    specialize (Hbl _ eq_refl). symmetry in Hbl. apply bool_decide_eq_false in Hbl.
    specialize (Hal _ eq_refl). symmetry in Hal. apply bool_decide_eq_true in Hal.
    cbn in H6, H8. exists c, e, m, kd, key, uid.
    split_and!; try done; [lia|]. by apply eq_None_not_Some.
  - intros v1 v4 rs <- Hrs. apply allows_get in Hrs as ->. done.
Qed.
End Safety.

(** ** Flows on a Redis that answers *)
Section Flows.
Context `{C : Crypto} `{J : Jwt} `{JL : !JwtLaws} `{RC : RecCodec} `{RL : !RecCodecLaws}.
Variables cfg vcfg : Config.
Variables ks vks : keys.
Variables (realm : string) (uid : Z).
#[local] Abbreviation wpu p Q v := (wp eq (@auth_up) p Q v).

(** Login, then one request with the access token. *)
Definition login_then_verify : prog authE (result Identity auth_error) :=
  let* r := Login cfg ks realm uid in
  match r with Err e => Ret (Err e) | Ok tk => Verify vcfg vks (AccessToken tk) end.

(** A login is good for requests at the gateways of its realm and at no
    other: the access token verifies as the principal
    that logged in at a gateway of the realm, and is refused as invalid at a
    gateway of any other realm. *)
Theorem login_verifies_in_its_realm {S} (h : ∀ X, authE X → S → S * X) (view : S → aview)
    `{!Lawful h view (@auth_up)} s :
  fit cfg ks vcfg vks uid → auth_wf (view s) → blacklist_clean (view s) →
  let r := snd (run h login_then_verify s) in
  if decide (cfgRealm vcfg = realm)
  then ∃ id, r = Ok id ∧ id_uid id = uid ∧ id_realm id = realm
  else r = Err ErrInvalidToken.
Proof.
  intros (Hrt & Hat & Hks & Hiss & Hi & Hp & Hsign) Hv Hbl.
  apply (wp_run (@auth_up) h view login_then_verify (λ r _,
    if decide (cfgRealm vcfg = realm)
    then ∃ id, r = Ok id ∧ id_uid id = uid ∧ id_realm id = realm
    else r = Err ErrInvalidToken)).
  eapply wpu_bind; [apply wpu_wf; [apply keeps_Login|done|by apply login_spec]|].
  intros [tk|e] w (Hw & Hd & Hl); [|by destruct Hl as (_ & c & Hc), (Hsign c)]. destruct Hl as [sid Hl].
  edestruct (verify_issued cfg ks vks vcfg) as (jti & Hj & _ & Hin & Hout);
    [done..|apply (li_issued _ _ _ _ _ _ _ _ Hl)|exact Hw|apply (li_now _ _ _ _ _ _ _ _ Hl)|].
  destruct (decide (cfgRealm vcfg = realm)) as [Hr|Hr].
  - eapply wp_mono, Hin, Hr. intros r w' [-> ->]. unfold verdict.
    cbn [cl_id cl_sid new_claims]. rewrite (li_blacklist _ _ _ _ _ _ _ _ Hl), Hbl by done.
    destruct (li_alive _ _ _ _ _ _ _ _ Hl) as [x ->]. eauto.
  - eapply wp_mono, Hout, Hr. by intros r w' [-> ->].
Qed.

(** Two logins of one principal, then a request with each access token. *)
Definition two_logins : prog authE (option (result Identity auth_error * result Identity auth_error)) :=
  let* a := Login cfg ks realm uid in
  let* b := Login cfg ks realm uid in
  match a, b with
  | Ok ta, Ok tb =>
      let* va := Verify vcfg vks (AccessToken ta) in
      let* vb := Verify vcfg vks (AccessToken tb) in
      Ret (Some (va, vb))
  | _, _ => Ret None
  end.

(** single_session: after a second login of the same principal the first
    session's token is refused as revoked, with the reason "replaced", and the
    second one's is accepted. *)
Theorem single_session_replaces {S} (h : ∀ X, authE X → S → S * X) (view : S → aview)
    `{!Lawful h view (@auth_up)} s :
  fit cfg ks vcfg vks uid → cfgRealm vcfg = realm → singleSession cfg = true →
  auth_wf (view s) → blacklist_clean (view s) →
  ∃ id, id_uid id = uid ∧
    snd (run h two_logins s) = Some (Err (RevokedError ReasonReplaced), Ok id).
Proof.
  intros (Hrt & Hat & Hks & Hiss & Hi & Hp & Hsign) Hr Hsingle Hv Hbl.
  apply (wp_run (@auth_up) h view two_logins (λ r _, ∃ id, id_uid id = uid ∧
    r = Some (Err (RevokedError ReasonReplaced), Ok id))).
  revert Hv Hbl. generalize (view s). clear dependent h. intros v Hv Hbl.
  eapply wpu_bind; [apply wpu_wf; [apply keeps_Login|exact Hv|by apply login_spec]|].
  intros ra w1 (Hw1 & Hd1 & Ha).
  eapply wpu_bind; [apply wpu_wf; [apply keeps_Login|exact Hw1|by apply login_spec]|].
  intros rb w2 (Hw2 & Hd2 & Hb).
  destruct ra as [ta|]; [|by destruct Ha as (_ & c & Hc), (Hsign c)].
  destruct rb as [tb|]; [|by destruct Hb as (_ & c & Hc), (Hsign c)].
  destruct Ha as [sa Ha], Hb as [sb Hb].
  assert (rv_now (av_redis w2) = rv_now (av_redis v)) as Hn.
  { rewrite (li_now _ _ _ _ _ _ _ _ Hb). apply (li_now _ _ _ _ _ _ _ _ Ha). }
  edestruct (verify_issued cfg ks vks vcfg) as (ja & Hja & _ & Hina & _);
    [done..|apply (li_issued _ _ _ _ _ _ _ _ Ha)|exact Hw2|exact Hn|].
  edestruct (verify_issued cfg ks vks vcfg) as (jb & Hjb & _ & Hinb & _);
    [done..|apply (li_issued _ _ _ _ _ _ _ _ Hb)|exact Hw2|apply (li_now _ _ _ _ _ _ _ _ Hb)|].
  assert (∀ j, j ∉ av_drawn v → look (av_redis w2) (keyBlacklist j) = None) as Hbl2.
  { intros j Hj. rewrite (li_blacklist _ _ _ _ _ _ _ _ Hb), (li_blacklist _ _ _ _ _ _ _ _ Ha).
    by apply Hbl. }
  eapply wpu_bind; [apply Hina, Hr|]. intros ? ? [-> ->].
  eapply wpu_bind; [apply Hinb, Hr|]. intros ? ? [-> ->]. cbn [wp].
  unfold verdict. cbn [cl_id cl_sid new_claims].
  rewrite !Hbl2 by set_solver.
  destruct (li_replaced _ _ _ _ _ _ _ _ Hb Hsingle sa (li_current _ _ _ _ _ _ _ _ Ha)) as [-> ->].
  unfold first_reason. rewrite (li_not_ended _ _ _ _ _ _ _ _ Ha).
  destruct (li_alive _ _ _ _ _ _ _ _ Hb) as [x ->].
  eexists. split; [|reflexivity]. done.
Qed.

(** Login, refresh, a request with each access token, the retired refresh token
    again, then the two requests once more. *)
Definition replayed_refresh :
    prog authE (option (Tokens * Tokens * (result Identity auth_error * result Identity auth_error) *
      result Tokens auth_error * (result Identity auth_error * result Identity auth_error))) :=
  let* a := Login cfg ks realm uid in
  match a with
  | Err _ => Ret None
  | Ok ta =>
      let* b := Refresh cfg ks (RefreshToken ta) in
      match b with
      | Err _ => Ret None
      | Ok tb =>
          let* va := Verify vcfg vks (AccessToken ta) in
          let* vb := Verify vcfg vks (AccessToken tb) in
          let* c := Refresh cfg ks (RefreshToken ta) in
          let* wa := Verify vcfg vks (AccessToken ta) in
          let* wb := Verify vcfg vks (AccessToken tb) in
          Ret (Some (ta, tb, (va, vb), c, (wa, wb)))
      end
  end.

(** What those steps answer: both access tokens are good at first, for the same
    principal and session; the second presentation of the refresh token is a
    replay, and then neither is. *)
Definition rotated (ta tb : Tokens) (c : result Tokens auth_error)
    (wa wb : result Identity auth_error)
    (r : option (Tokens * Tokens * (result Identity auth_error * result Identity auth_error) *
      result Tokens auth_error * (result Identity auth_error * result Identity auth_error))) : Prop :=
  ∃ ida idb, r = Some (ta, tb, (Ok ida, Ok idb), c, (wa, wb)) ∧
    (id_realm ida, id_uid ida) = (realm, uid) ∧
    (id_realm idb, id_uid idb, id_sid idb) = (realm, uid, id_sid ida) ∧
    id_jti idb ≠ id_jti ida ∧ RefreshToken tb ≠ RefreshToken ta ∧
    (hashToken (RefreshToken tb) ≠ hashToken (RefreshToken ta) →
     c = Err ErrRefreshReplayed ∧
     wa = Err (RevokedError ReasonRefreshReplayed) ∧
     wb = Err (RevokedError ReasonRefreshReplayed)).
#[local] Ltac rotated_by :=
  do 2 eexists; split; [reflexivity|]; do 2 (split; [reflexivity|]);
  split; [cbn; set_solver|]; split; [done|].

(** C23. A refresh rotates: it answers a pair with another refresh token and an
    access token with an id of its own, which is accepted as the same principal
    in the same session as the one of the login; the retired refresh token
    presented again is answered with ErrRefreshReplayed, and from then on both
    access tokens are refused as revoked for "refresh_replayed" (unless the two
    different refresh tokens have the same SHA-256). *)
Theorem refresh_rotates_and_detects_replay {S} (h : ∀ X, authE X → S → S * X) (view : S → aview)
    `{!Lawful h view (@auth_up)} s :
  fit cfg ks vcfg vks uid → cfgRealm vcfg = realm → auth_wf (view s) → blacklist_clean (view s) →
  ∃ ta tb c wa wb, rotated ta tb c wa wb (snd (run h replayed_refresh s)).
Proof.
  intros (Hrt & Hat & Hks & Hiss & Hi & Hp & Hsign) Hr Hv Hbl.
  apply (wp_run (@auth_up) h view replayed_refresh (λ r _, ∃ ta tb c wa wb, rotated ta tb c wa wb r)).
  revert Hv Hbl. generalize (view s). clear dependent h. intros v Hv Hbl.
  eapply wpu_bind; [apply wpu_wf; [apply keeps_Login|exact Hv|by apply login_spec]|].
  intros ra w1 (Hw1 & Hd1 & Ha).
  destruct ra as [ta|]; [|by destruct Ha as (_ & c & Hc), (Hsign c)]. destruct Ha as [sid Ha].
  destruct (li_issued _ _ _ _ _ _ _ _ Ha) as [[_ Hra] (_ & _ & _ & _ & Hrt1)].
  eapply wpu_bind; [apply wpu_wf; [apply keeps_Refresh|exact Hw1|]|].
  { eapply refresh_live_spec; [done..|apply rec_unmarshal_marshal|]. apply (li_alive _ _ _ _ _ _ _ _ Ha). }
  cbn [rec_realm rec_uid rec_sid].
  intros rb w2 (Hw2 & Hd2 & Hn2 & Hused & Hf2 & Hb).
  destruct rb as [tb|]; [|by destruct Hb as (_ & c & Hc), (Hsign c)]. destruct Hb as [Hib Hgone].
  assert (RefreshToken tb ≠ RefreshToken ta) as Hrt2.
  { destruct Hib as [[Hrb _] _]. intros He. by rewrite He in Hrb. }
  assert (rv_now (av_redis w1) = rv_now (av_redis v)) as Hn1 by apply (li_now _ _ _ _ _ _ _ _ Ha).
  assert (∀ j, j ∉ av_drawn v → look (av_redis w2) (keyBlacklist j) = None) as Hbl2.
  { intros j Hj. rewrite Hf2 by discriminate. rewrite (li_blacklist _ _ _ _ _ _ _ _ Ha). by apply Hbl. }
  destruct (li_alive _ _ _ _ _ _ _ _ Ha) as [x Hal].
  assert (look (av_redis w2) (keySessionAlive sid) = Some x) as Hal2 by (by rewrite Hf2 by discriminate).
  (* while the session lives *)
  edestruct (verify_issued cfg ks vks vcfg) as (ka & Hka & Hka1 & Hina & _);
    [done..|apply (li_issued _ _ _ _ _ _ _ _ Ha)|exact Hw2|congruence|].
  edestruct (verify_issued cfg ks vks vcfg) as (kb & Hkb & _ & Hinb & _);
    [done..|exact Hib|exact Hw2|congruence|].
  eapply wpu_bind; [apply Hina, Hr|]. intros ? ? [-> ->].
  eapply wpu_bind; [apply Hinb, Hr|]. intros ? ? [-> ->]. clear Hina Hinb.
  unfold verdict at 1 2. cbn [cl_id cl_sid new_claims]. rewrite !Hbl2, !Hal2 by set_solver.
  destruct (decide (hashToken (RefreshToken tb) = hashToken (RefreshToken ta))) as [He|Hne].
  { do 3 (apply wp_any; intros ? ?). cbn. do 5 eexists. rotated_by. congruence. }
  specialize (Hgone Hne).
  eapply wpu_bind; [apply wpu_wf; [apply keeps_Refresh|exact Hw2|]|].
  { eapply refresh_replay_spec; [done..|apply rec_unmarshal_marshal]. }
  cbn [rec_realm rec_uid rec_sid].
  intros rc w3 (Hw3 & Hd3 & -> & Hn3 & Hrev & Hbl3).
  (* the session is over, its reason recorded *)
  destruct (Hrev sid) as [Halive Hended].
  { unfold members. rewrite Hf2 by discriminate. apply (li_member _ _ _ _ _ _ _ _ Ha). }
  unfold first_reason in Hended. rewrite Hf2, (li_not_ended _ _ _ _ _ _ _ _ Ha) in Hended by discriminate.
  cbn [String.eqb ReasonRefreshReplayed] in Hended.
  assert (∀ j, j ∉ av_drawn v → look (av_redis w3) (keyBlacklist j) = None) as Hblw.
  { intros j Hj. rewrite Hbl3, Hf2 by discriminate. rewrite (li_blacklist _ _ _ _ _ _ _ _ Ha).
    by apply Hbl. }
  edestruct (verify_issued cfg ks vks vcfg) as (ja & Hja & _ & Hina & _);
    [done..|apply (li_issued _ _ _ _ _ _ _ _ Ha)|exact Hw3|congruence|].
  edestruct (verify_issued cfg ks vks vcfg) as (jb & Hjb & _ & Hinb & _);
    [done..|exact Hib|exact Hw3|congruence|].
  eapply wpu_bind; [apply Hina, Hr|]. intros ? ? [-> ->].
  eapply wpu_bind; [apply Hinb, Hr|]. intros ? ? [-> ->]. cbn [wp].
  do 5 eexists. rotated_by. intros _. unfold verdict. cbn [cl_id cl_sid new_claims].
  rewrite !Hblw by set_solver. by rewrite Halive, Hended.
Qed.

(** Login, logout with both tokens, then the access token and the refresh
    token again. *)
Definition login_then_logout :
    prog authE (option (result unit auth_error * result Identity auth_error * result Tokens auth_error)) :=
  let* a := Login cfg ks realm uid in
  match a with
  | Err _ => Ret None
  | Ok ta =>
      let* l := Logout cfg vks (RefreshToken ta) (Some (AccessToken ta)) in
      let* v := Verify vcfg vks (AccessToken ta) in
      let* f := Refresh cfg ks (RefreshToken ta) in
      Ret (Some (l, v, f))
  end.

(** Logout ends the login: it succeeds, the access token is refused from
    then on as revoked for "logout", and the refresh token gives no new pair. *)
Theorem logout_ends_the_login {S} (h : ∀ X, authE X → S → S * X) (view : S → aview)
    `{!Lawful h view (@auth_up)} s :
  fit cfg ks vcfg vks uid → cfgRealm vcfg = realm → auth_wf (view s) → blacklist_clean (view s) →
  ∃ e, snd (run h login_then_logout s) = Some (Ok tt, Err (RevokedError ReasonLogout), Err e).
Proof.
  intros (Hrt & Hat & Hks & Hiss & Hi & Hp & Hsign) Hr Hv Hbl.
  apply (wp_run (@auth_up) h view login_then_logout (λ r _,
    ∃ e, r = Some (Ok tt, Err (RevokedError ReasonLogout), Err e))).
  revert Hv Hbl. generalize (view s). clear dependent h. intros v Hv Hbl.
  eapply wpu_bind; [apply wpu_wf; [apply keeps_Login|exact Hv|by apply login_spec]|].
  intros ra w1 (Hw1 & Hd1 & Ha).
  destruct ra as [ta|]; [|by destruct Ha as (_ & c & Hc), (Hsign c)]. destruct Ha as [sid Ha].
  destruct (li_issued _ _ _ _ _ _ _ _ Ha) as [_ (jti & Hj & Hjd & Hsa & Hrt1)].
  assert (rv_now (av_redis w1) = rv_now (av_redis v)) as Hn1 by apply (li_now _ _ _ _ _ _ _ _ Ha).
  set (c := new_claims cfg (rv_now (av_redis v)) jti realm uid sid) in *.
  destruct (new_claims_live cfg (rv_now (av_redis v)) jti realm uid sid Hat) as (e & He & Hlt).
  assert (∀ iss, iss = issuer cfg → parse vks iss 0 (rv_now (av_redis v)) (AccessToken ta) = Some c) as Hparse.
  { intros iss ->. by eapply (sign_parse ks vks). }
  (* Logout: the session, then the blacklist *)
  eapply (wpu_bind _ _ (λ r w, auth_wf w ∧ rv_now (av_redis w) = rv_now (av_redis v) ∧ r = Ok tt ∧
    look (av_redis w) (keyRefresh (hashToken (RefreshToken ta))) = None ∧
    is_Some (look (av_redis w) (keyBlacklist jti)))).
  { eapply wp_mono; [|apply wpu_wf; [apply keeps_Logout|exact Hw1|]].
    { intros r w (Hw & _ & HQ). split; [exact Hw|exact HQ]. }
    unfold Logout. eapply wpu_bind.
    { eapply logout_spec; [exact Hw1|exact Hrt1|apply rec_unmarshal_marshal]. }
    intros r w (-> & Hd & Hn & Hgone & _ & _ & _ & _). cbv beta iota. apply wpu_now.
    rewrite Hn, Hn1, (Hparse _ eq_refl), (He : cl_expires_at c = Some e). apply wpu_now. cbn [av_redis].
    rewrite Hn, Hn1. destruct (Z.ltb_spec 0 (e * 1000 - rv_now (av_redis v))); [|lia].
    eapply (wpu_redis (CWrite _)); [done|]. cbn [wp av_redis av_drawn cl_id c new_claims].
    split_and!; [by rewrite <- Hn1, <- Hn|done| |].
    - by rewrite look_put_ne by discriminate.
    - rewrite look_put_eq. eauto. }
  intros r w (Hw & Hn & -> & Hgone & [x Hblk]).
  eapply (wpu_bind _ _ (λ r w', w' = w ∧ r = Err (RevokedError ReasonLogout))).
  { eapply wp_mono, (verify_spec vks vcfg _ c uid); [|exact Hw|by rewrite Hn; apply Hparse|by rewrite Hr|by apply new_claims_uid].
    intros r' w' [-> ->]. split; [done|]. unfold verdict. cbn [cl_id c new_claims]. by rewrite Hblk. }
  intros r' w' [-> ->].
  assert (wpu (Refresh cfg ks (RefreshToken ta)) (λ r _, ∃ e, r = Err e) w) as Href.
  { unfold Refresh. eapply (wpu_redis (CGet _)); [cbn [redis_doc]; by rewrite Hgone|].
    unfold refresh_unknown. intros v1 v2 r2 _ _. cbn [bind].
    destruct r2 as [[used|]|]; [|by eexists..]. destruct (String.eqb used ""); [by eexists|].
    destruct (rec_unmarshal used); [|by eexists]. apply wp_any. intros. by eexists. }
  eapply wpu_bind; [exact Href|]. intros r2 w2 [e2 ->]. cbn. eauto.
Qed.
End Flows.

(** ** Witnesses *)
Lemma auth_store_wf_witness :
  auth_wf (ma_view (fst (run_env (@map_auth) (λ _ s, s) 0
    (auth_step sample_cfg sample_keys (OpLogin "member" 42)) (MA (MR (RView 1700000000000 ∅) [Fine; LostAfter]) ∅)))).
Proof.
  apply (auth_store_wf (@map_auth) ma_view (λ _ s, s) sample_cfg sample_keys (OpLogin "member" 42)
    (MA (MR (RView 1700000000000 ∅) [Fine; LostAfter]) ∅)).
  - intros n s H. done.
  - exact sample_wf.
Defined.

Lemma verify_accepts_only_live_witness :
  acceptable sample_cfg sample_keys (ma_view live_state) live_token live_id.
Proof.
  apply (proj2 (verify_accepts_only_live sample_cfg sample_keys (@map_auth) ma_view live_token live_state)).
  vm_compute. reflexivity.
Defined.

Lemma login_verifies_witness :
  ∃ id, snd (run (@map_auth_fine)
    (login_then_verify sample_cfg sample_cfg sample_keys sample_keys "member" 42) sample_state) = Ok id ∧
    id_uid id = 42 ∧ id_realm id = "member".
Proof.
  exact (login_verifies_in_its_realm sample_cfg sample_cfg sample_keys sample_keys "member" 42
    (@map_auth_fine) ma_view sample_state (sample_fit 42 ltac:(done) ltac:(done)) sample_wf sample_clean).
Defined.

Lemma single_session_witness :
  ∃ id, id_uid id = 42 ∧
    snd (run (@map_auth_fine)
      (two_logins sample_cfg sample_cfg sample_keys sample_keys "member" 42) sample_state)
    = Some (Err (RevokedError ReasonReplaced), Ok id).
Proof.
  exact (single_session_replaces sample_cfg sample_cfg sample_keys sample_keys "member" 42
    (@map_auth_fine) ma_view sample_state (sample_fit 42 ltac:(done) ltac:(done)) eq_refl eq_refl
    sample_wf sample_clean).
Defined.

Lemma refresh_rotates_witness :
  ∃ ta tb c wa wb, rotated "member" 42 ta tb c wa wb (snd (run (@map_auth_fine)
      (replayed_refresh sample_cfg sample_cfg sample_keys sample_keys "member" 42) sample_state)).
Proof.
  exact (refresh_rotates_and_detects_replay sample_cfg sample_cfg sample_keys sample_keys "member" 42
    (@map_auth_fine) ma_view sample_state (sample_fit 42 ltac:(done) ltac:(done)) eq_refl
    sample_wf sample_clean).
Defined.

Lemma logout_ends_witness :
  ∃ e, snd (run (@map_auth_fine)
      (login_then_logout sample_cfg sample_cfg sample_keys sample_keys "member" 42) sample_state)
    = Some (Ok tt, Err (RevokedError ReasonLogout), Err e).
Proof.
  exact (logout_ends_the_login sample_cfg sample_cfg sample_keys sample_keys "member" 42
    (@map_auth_fine) ma_view sample_state (sample_fit 42 ltac:(done) ltac:(done)) eq_refl
    sample_wf sample_clean).
Defined.
