(* ===== verification/AuthFaults.v ===== *)
(** * authx: revocation, key choice, and what happens when commands are lost or raced

    RevokeAll on a Redis that answers and on one that loses a read, two
    refreshes of one token interleaved, and which algorithm a verifier accepts. *)
From S2P Require Import Prelude Prog Redis AuthTokens AuthSessions AuthInv AuthKeeps AuthFlow Samples.

Section Revoke.
Context `{C : Crypto} `{J : Jwt} `{RC : RecCodec} `{!RecCodecLaws}.
Variable cfg : Config.

(** RevokeAll on a Redis that answers succeeds, ends every session in the
    principal's set, keeps the reason a session first ended for, empties the
    principal's pointers, and leaves every key of other principals' sessions
    alone. *)
Theorem revoke_all_ends_every_session {S} (h : ∀ X, authE X → S → S * X) (view : S → aview)
    `{!Lawful h view (@auth_up)} realm uid reason s :
  auth_wf (view s) →
  let v := av_redis (view s) in
  let w := av_redis (view (fst (run h (RevokeAll cfg realm uid reason) s))) in
  snd (run h (RevokeAll cfg realm uid reason) s) = Ok tt ∧
  look w (keySession realm uid) = None ∧ look w (keySessionSet realm uid) = None ∧
  (∀ sid, sid ∈ members v realm uid →
     look w (keySessionAlive sid) = None ∧ look w (keyEnded sid) = first_reason v sid reason) ∧
  (∀ sid, sid ∉ members v realm uid →
     look w (keySessionAlive sid) = look v (keySessionAlive sid) ∧
     look w (keyEnded sid) = look v (keyEnded sid)).
Proof.
  intros Hv v w.
  destruct (wp_run (@auth_up) h view _ _ s (revoke_spec cfg realm uid reason (view s) Hv))
    as (Hr & _ & _ & H1 & H2 & H3 & H4).
  split_and!; [exact Hr|exact H1|exact H2|exact H3|].
  assert (∀ sid s', sid ∉ members v realm uid → s' ∈ members v realm uid → sid ≠ s') as Hne
    by congruence.
  intros sid Hs. split; apply H4; try discriminate; intros s' Hs'; specialize (Hne _ _ Hs Hs');
    split; keys_differ.
Qed.

(** A lost SMEMBERS makes RevokeAll report success while every session of
    the principal stays alive, and drops the set that named them, so that a
    later RevokeAll does not find them either: the error of the read is
    discarded ([sids, _ :=]). *)
Theorem revoke_all_hides_a_lost_read realm uid reason v D :
  let s := MA (MR v [LostBefore]) D in
  let '(s', r) := run (@map_auth) (RevokeAll cfg realm uid reason) s in
  r = Ok tt ∧
  (∀ sid, look (mr_view (ma_redis s')) (keySessionAlive sid) = look v (keySessionAlive sid)) ∧
  look (mr_view (ma_redis s')) (keySessionSet realm uid) = None ∧
  members (mr_view (ma_redis s')) realm uid = ∅.
Proof.
  intros s.
  assert (∃ w, tx_doc [WDel (keySession realm uid); WDel (keySessionSet realm uid)] v = (w, true) ∧
    w = drop (drop v (keySession realm uid)) (keySessionSet realm uid)) as (w & Hw & ->).
  { eexists. split; [|done]. cbn -[keySession keySessionSet look drop].
    destruct (look v _); cbn -[keySession keySessionSet look drop]; by destruct (look (drop _ _) _). }
  assert (run (@map_auth) (RevokeAll cfg realm uid reason) s =
    (MA (MR (drop (drop v (keySession realm uid)) (keySessionSet realm uid)) []) D, Ok tt)) as ->.
  { unfold run, RevokeAll, redis, call. cbn -[tx_doc keySession keySessionSet]. by rewrite Hw. }
  cbn [ma_redis mr_view]. split_and!; [done| | |].
  - intros sid. by look_other.
  - by rewrite look_drop_eq.
  - unfold members. by rewrite look_drop_eq.
Qed.
End Revoke.

(** ** Two refreshes of one token at the same time *)

(** The other replica refreshes [rt] right before call number 2 (the
    transaction that rotates) of ours. *)
Definition other_refresh (rt : string) (n : nat) (s : map_auth_state) : map_auth_state :=
  if Nat.eqb n 2 then fst (run (@map_auth_fine) (Refresh sample_cfg sample_keys rt) s) else s.

Definition after_login : map_auth_state * result Tokens auth_error :=
  run (@map_auth_fine) (Login sample_cfg sample_keys "member" 42) sample_state.

Definition raced (s : map_auth_state) (rt : string) : bool :=
  let ours := snd (run_env (@map_auth_fine) (other_refresh rt) 0 (Refresh sample_cfg sample_keys rt) s) in
  let theirs := snd (run (@map_auth_fine) (Refresh sample_cfg sample_keys rt) s) in
  let final := fst (run_env (@map_auth_fine) (other_refresh rt) 0 (Refresh sample_cfg sample_keys rt) s) in
  match ours, theirs with
  | Ok a, Ok b =>
      negb (String.eqb (RefreshToken a) (RefreshToken b)) &&
      is_ok (snd (run (@map_auth_fine) (Verify sample_cfg sample_keys (AccessToken a)) final)) &&
      is_ok (snd (run (@map_auth_fine) (Verify sample_cfg sample_keys (AccessToken b)) final))
  | _, _ => false
  end.

(** Rotation is not atomic with the lookup: a refresh token presented twice
    at the same time (the second presentation between the first's EXISTS and its
    transaction) is exchanged for two live pairs, and neither presentation is
    taken for a replay. *)
Theorem concurrent_refresh_escapes_replay_detection :
  match snd after_login with
  | Ok tk => raced (fst after_login) (RefreshToken tk) = true
  | Err _ => False
  end.
Proof. vm_compute. reflexivity. Qed.

(** ** Which tokens a key ring accepts *)
Section Alg.
Context `{C : Crypto} `{J : Jwt} `{!JwtLaws}.

Lemma load_public_from l m m' k pub :
  load_public l m = Ok m' → m' !! k = Some pub →
  m !! k = Some pub ∨ (k = KeyID pub ∧ slen pub = 32 ∧ ∃ s, s ∈ l ∧ b64_decode (trim_space s) = Some pub).
Proof.
  revert m. induction l as [|s l IH]; intros m; cbn [load_public].
  { intros [= ->]. by left. }
  destruct (String.eqb (trim_space s) "").
  { intros H1 H2. destruct (IH _ H1 H2) as [?|(? & ? & s' & ? & ?)]; [by left|].
    right. split_and!; try done. exists s'. split; [by right|done]. }
  destruct (b64_decode (trim_space s)) as [raw|] eqn:E; [|done].
  destruct (Z.eqb_spec (slen raw) 32) as [Hl|]; [|done].
  intros H1 H2. destruct (IH _ H1 H2) as [H3|(? & ? & s' & ? & ?)].
  - destruct (decide (k = KeyID raw)) as [->|Hne].
    + rewrite lookup_insert_eq in H3. injection H3 as <-. right. split_and!; try done.
      exists s. split; [by left|done].
    + left. by rewrite lookup_insert_ne in H3.
  - right. split_and!; try done. exists s'. split; [by right|done].
Qed.

(** A token checker built from public keys accepts only EdDSA tokens
    signed under one of those keys (the one the `kid` names, 32 bytes, from the
    list), issued by its issuer: a token "signed" with a public key as an HMAC
    secret, or with any other algorithm, is refused; and expiry is stretched
    by the leeway and no more. *)
Theorem checker_accepts_only_eddsa pubs iss tc now t id :
  NewTokenChecker pubs iss = Ok tc → Check tc now t = Some id →
  ∃ kd pub s c e,
    jwt_header t = Some (EdDSA, kd) ∧ default "" kd = KeyID pub ∧ slen pub = 32 ∧
    s ∈ pubs ∧ b64_decode (trim_space s) = Some pub ∧ jwt_verified (VEd pub) t = true ∧
    jwt_claims t = Some c ∧ cl_issuer c = (if String.eqb iss "" then defaultIssuer else iss) ∧
    cl_expires_at c = Some e ∧ now < e * 1000 + CheckLeeway ∧
    0 < id_uid id ∧ id = identity_of c (id_uid id).
Proof.
  unfold NewTokenChecker, loadKeys, Check. cbn -[load_public].
  destruct (load_public pubs ∅) as [m|] eqn:El; [|done]. cbn [rbind].
  case_bool_decide; [done|]. intros [= <-]. cbn [fst snd issuer Issuer].
  destruct (parse _ _ _ _ _) as [c|] eqn:Hp; [|done].
  unfold subject_uid. destruct (parse_int (cl_subject c)) as [uid|]; [|done].
  destruct (Z.leb_spec uid 0); [done|]. intros [= <-].
  apply jwt_parse_spec in Hp as (meth & kd & key & e & P1 & _ & P3 & P4 & P5 & P6 & P7 & P8).
  destruct meth; cbn [keyfunc public secret] in P3; [|done..].
  destruct (m !! default "" kd) as [pub|] eqn:Ek; [|done]. injection P3 as <-.
  destruct (load_public_from _ _ _ _ _ El Ek) as [P9|(P9 & P10 & s & P11 & P12)].
  { by rewrite lookup_empty in P9. }
  exists kd, pub, s, c, e. by split_and!.
Qed.
End Alg.

(** ** Witnesses *)
Lemma revoke_all_witness :
  let s := login_state in
  let w := av_redis (ma_view (fst (run (@map_auth_fine) (RevokeAll sample_cfg "member" 42 "disabled") s))) in
  look w (keySessionAlive sample_sid) = None.
Proof.
  destruct (revoke_all_ends_every_session sample_cfg (@map_auth_fine) ma_view "member" 42 "disabled"
    login_state login_state_wf) as (_ & _ & _ & H & _).
  destruct (H sample_sid) as [H1 _]; [|exact H1].
  unfold members. replace (look _ _) with (Some (RSet {["s1"]})) by (vm_compute; reflexivity).
  set_solver.
Defined.

Lemma checker_witness :
  ∃ kd pub s c e,
    jwt_header checker_token = Some (EdDSA, kd) ∧ default "" kd = KeyID pub ∧ slen pub = 32 ∧
    s ∈ ["ABCDEFGHIJKLMNOPQRSTUVWXYZ012345"] ∧ b64_decode (trim_space s) = Some pub ∧
    jwt_verified (VEd pub) checker_token = true ∧
    jwt_claims checker_token = Some c ∧ cl_issuer c = defaultIssuer ∧
    cl_expires_at c = Some e ∧ 1700000000000 < e * 1000 + CheckLeeway ∧
    0 < id_uid checker_id ∧ checker_id = identity_of c (id_uid checker_id).
Proof.
  apply (checker_accepts_only_eddsa ["ABCDEFGHIJKLMNOPQRSTUVWXYZ012345"] "" 
    (Keys None None "" {[KeyID "ABCDEFGHIJKLMNOPQRSTUVWXYZ012345" := "ABCDEFGHIJKLMNOPQRSTUVWXYZ012345"]}, "sportsbook")
    1700000000000 checker_token checker_id); vm_compute; reflexivity.
Defined.
