(* ===== verification/Pagex.v ===== *)
(** * pagex: the paging defaults (pagex/pagex.go)

    [Normalize] turns the paging block of a request into page, size and offset,
    with Go's int32 arithmetic kept at its width. The theorems: the defaults and
    the cap hold for every request, the 64-bit offset never overflows, and a
    client that walks the pages sees every row once, in order. *)
From S2P Require Import Prelude.

(** What the generated common.PageReq holds. The interface value handed to
    [Normalize] is nil, holds a nil pointer, or holds a block. *)
Record PageReq : Type := { Page : Z; PageSize : Z }.

Inductive Pager : Type :=
| NilInterface
| NilPointer
| Block (p : PageReq).

Definition DefaultSize : Z := 20.
Definition MaxSize : Z := 100.

Definition isNil (p : Pager) : bool :=
  match p with NilInterface | NilPointer => true | Block _ => false end.

(** The two getters of the generated code; on a nil pointer they panic, which
    is why [Normalize] asks [isNil] first. *)
Definition GetPage (p : Pager) : outcome Z :=
  match p with Block b => Returns (Page b) | _ => Panics end.
Definition GetPageSize (p : Pager) : outcome Z :=
  match p with Block b => Returns (PageSize b) | _ => Panics end.

Definition normalized (page size : Z) : Z * Z * Z :=
  let page := if bool_decide (page < 1) then 1 else page in
  let size := if bool_decide (size < 1) then DefaultSize else size in
  let size := if bool_decide (MaxSize < size) then MaxSize else size in
  (page, size, int64 (int32 (page - 1) * size)).

Arguments normalized : simpl never.

Definition Normalize (p : Pager) : outcome (Z * Z * Z) :=
  if isNil p then Returns (normalized 0 0)
  else match GetPage p, GetPageSize p with
       | Returns page, Returns size => Returns (normalized page size)
       | _, _ => Panics
       end.

Definition pager_in_range (p : Pager) : Prop :=
  match p with Block b => in_int32 (Page b) ∧ in_int32 (PageSize b) | _ => True end.

Lemma normalized_spec page size : in_int32 page → in_int32 size →
  ∃ s, normalized page size = (Z.max 1 page, s, (Z.max 1 page - 1) * s) ∧
       1 ≤ s ≤ MaxSize ∧ (1 ≤ size → s = Z.min size MaxSize) ∧ (size < 1 → s = DefaultSize).
Proof.
  unfold in_int32. intros Hp Hs. unfold normalized, DefaultSize, MaxSize.
  replace (if bool_decide (page < 1) then 1 else page) with (Z.max 1 page)
    by (case_bool_decide; lia).
  eexists. split.
  { rewrite int32_small by (unfold in_int32; lia).
    rewrite int64_small; [reflexivity|].
    unfold in_int64. repeat case_bool_decide; nia. }
  repeat case_bool_decide; lia.
Qed.

(** Whatever a request carries, a missing block and a nil pointer included,
    [Normalize] returns (it never calls a getter on nil): the page is at least
    1, the size between 1 and 100 (the requested one when it is in that
    range, 20 when it is missing), and the offset is (page-1)*size exactly,
    without the overflow its machine types could have. *)
Theorem normalize_defaults (p : Pager) : pager_in_range p →
  ∃ page size offset, Normalize p = Returns (page, size, offset) ∧
    1 ≤ page ∧ 1 ≤ size ≤ MaxSize ∧ offset = (page - 1) * size ∧ in_int64 offset ∧
    (isNil p = true → page = 1 ∧ size = DefaultSize) ∧
    (∀ b, p = Block b →
       page = Z.max 1 (Page b) ∧ size = (if bool_decide (PageSize b < 1) then DefaultSize
                                           else Z.min (PageSize b) MaxSize)).
Proof.
  intros Hr. assert (∀ a b, in_int32 a → 1 ≤ b ≤ MaxSize → in_int64 ((Z.max 1 a - 1) * b)) as Hin.
  { unfold in_int32, in_int64, MaxSize. nia. }
  destruct p as [| |b]; cbn.
  1,2: by exists 1, 20, 0.
  destruct Hr as [Hp Hs]. destruct (normalized_spec _ _ Hp Hs) as (s & E & Hs1 & Hs2 & Hs3).
  exists (Z.max 1 (Page b)), s, ((Z.max 1 (Page b) - 1) * s). rewrite E.
  split_and!; try done; try lia; [by apply Hin|].
  intros b' [= <-]. case_bool_decide; split; auto; apply Hs2; lia.
Qed.

Lemma normalize_defaults_witness :
  Normalize (Block {| Page := 2147483647; PageSize := 5000 |}) = Returns (2147483647, 100, 214748364600)
  ∧ ∃ page size offset, Normalize NilPointer = Returns (page, size, offset) ∧ page = 1.
Proof.
  split; [vm_compute; reflexivity|].
  destruct (normalize_defaults NilPointer I) as (page & size & offset & E & _ & _ & _ & _ & Hn & _).
  exists page, size, offset. split; [exact E|]. by destruct (Hn eq_refl).
Defined.

(** The rows a query with this request returns: LIMIT size OFFSET offset. *)
Definition query_page {A} (rows : list A) (p : Pager) : list A :=
  match Normalize p with
  | Returns (_, size, offset) => take (Z.to_nat size) (drop (Z.to_nat offset) rows)
  | Panics => []
  end.

(** The requests of a client that walks pages 1..k with one size. *)
Definition walk (k : nat) (size : Z) : list Pager :=
  (λ i, Block {| Page := Z.of_nat i; PageSize := size |}) <$> seq 1 k.

Lemma query_page_at {A} (rows : list A) i size :
  (1 ≤ i)%nat → in_int32 (Z.of_nat i) → 1 ≤ size ≤ MaxSize →
  query_page rows (Block {| Page := Z.of_nat i; PageSize := size |})
  = take (Z.to_nat size) (drop ((i - 1) * Z.to_nat size) rows).
Proof.
  intros Hi Hr Hs. unfold query_page. cbn.
  destruct (normalized_spec (Z.of_nat i) size) as (s & E & _ & Hs2 & _);
    [done|unfold in_int32, MaxSize in *; lia|].
  rewrite E, Hs2 by lia. f_equal; [lia|]. f_equal. nia.
Qed.

Lemma take_drop_concat {A} (rows : list A) n k :
  concat ((λ i, take n (drop ((i - 1) * n) rows)) <$> seq 1 k) = take (k * n) rows.
Proof.
  induction k as [|k IH]; [done|].
  rewrite seq_S, fmap_app, concat_app, IH. cbn. rewrite app_nil_r.
  replace (k - 0)%nat with k by lia.
  rewrite take_take_drop. f_equal. lia.
Qed.

(** A client that asks for pages 1, 2, ..., k with one page size of 1..100
    receives, put together, the first k*size rows, each once and in order:
    pages neither overlap nor leave a gap. *)
Theorem pages_tile {A} (rows : list A) (k : nat) (size : Z) :
  1 ≤ size ≤ MaxSize → in_int32 (Z.of_nat k) →
  concat (query_page rows <$> walk k size) = take (k * Z.to_nat size) rows.
Proof.
  intros Hs Hk. rewrite <- take_drop_concat. unfold walk. rewrite <- list_fmap_compose.
  f_equal. apply list_fmap_ext. intros j i [Hi Hj]%lookup_seq. unfold compose.
  rewrite query_page_at; [done|lia| |done]. unfold in_int32 in *. lia.
Qed.

Lemma pages_tile_witness :
  concat (query_page [1;2;3;4;5;6;7] <$> walk 4 2) = [1;2;3;4;5;6;7].
Proof. rewrite (pages_tile [1;2;3;4;5;6;7] 4 2); [reflexivity|by vm_compute|by vm_compute]. Defined.
