(* ===== verification/Decimal.v ===== *)
(** * shopspring/decimal: what moneyx relies on

    The decimal library is not under src/. [Decimal] lists the operations the
    money code calls and [DecimalLaws] what their documentation says of them,
    over the rational number [value d] a decimal stands for. [Fixed] is a
    concrete implementation (a coefficient and a number of decimals) that
    satisfies the laws; witnesses run on it. *)
From Stdlib Require Export QArith Qpower Qround Qabs Lqa.
From Stdlib Require Import DecimalString DecimalZ.
From S2P Require Import Prelude.
#[global] Open Scope Z_scope.

(** ** Powers of ten and roundings of rationals *)

Definition pow10 (p : Z) : Q := (inject_Z 10) ^ p.

Lemma pow10_pos p : (0 < pow10 p)%Q.
Proof. apply Qpower_0_lt. reflexivity. Qed.

Lemma pow10_nz p : ¬ (pow10 p == 0)%Q.
Proof. intros H. pose proof (pow10_pos p) as Hp. rewrite H in Hp. by apply Qlt_irrefl in Hp. Qed.

Lemma pow10_add a b : (pow10 (a + b) == pow10 a * pow10 b)%Q.
Proof. apply Qpower_plus. intros H. discriminate H. Qed.

Lemma pow10_inv a : (pow10 (- a) * pow10 a == 1)%Q.
Proof. rewrite <- pow10_add. replace (- a + a) with 0 by lia. reflexivity. Qed.

Lemma pow10_int p : 0 ≤ p → (pow10 p == inject_Z (10 ^ p))%Q.
Proof. intros Hp. unfold pow10. symmetry. by apply Zpower_Qpower. Qed.

(** [q] scaled up and down again *)
Lemma pow10_cancel q a : (q * pow10 (- a) * pow10 a == q)%Q.
Proof. rewrite <- Qmult_assoc, pow10_inv. ring. Qed.

Lemma pow10_cancel' q a : (q * pow10 a * pow10 (- a) == q)%Q.
Proof. rewrite <- Qmult_assoc, (Qmult_comm (pow10 a)), pow10_inv. ring. Qed.

Lemma pow10_mul_inj p q a : (p * pow10 a == q * pow10 a)%Q → (p == q)%Q.
Proof.
  intros H. rewrite <- (pow10_cancel' p a), <- (pow10_cancel' q a). by rewrite H.
Qed.

Lemma inject_inj a b : (inject_Z a == inject_Z b)%Q → a = b.
Proof. apply inject_Z_injective. Qed.

Definition Qtrunc (q : Q) : Z := if Qle_bool 0%Q q then Qfloor q else - Qfloor (- q)%Q.
Definition Qaway (q : Q) : Z := if Qle_bool 0%Q q then Qceiling q else - Qceiling (- q)%Q.
Definition Qhalf_up (q : Q) : Z :=
  if Qle_bool 0%Q q then Qfloor (q + (1 # 2))%Q else - Qfloor (- q + (1 # 2))%Q.
Definition Qhalf_even (q : Q) : Z :=
  let f := Qfloor q in
  match Qcompare (q - inject_Z f)%Q (1 # 2)%Q with
  | Lt => f
  | Gt => f + 1
  | Eq => if Z.even f then f else f + 1
  end.

Lemma Qfloor_iff q z : Qfloor q = z ↔ (inject_Z z <= q < inject_Z z + 1)%Q.
Proof.
  split.
  - intros <-. split; [apply Qfloor_le|].
    pose proof (Qlt_floor q) as H. by rewrite inject_Z_plus in H.
  - intros [H1 H2]. apply Z.le_antisymm.
    + apply Z.lt_succ_r. rewrite Zlt_Qlt. unfold Z.succ. rewrite inject_Z_plus.
      eapply Qle_lt_trans; [apply Qfloor_le|exact H2].
    + rewrite <- (Qfloor_Z z). by apply Qfloor_resp_le.
Qed.

Lemma Qle_bool_cases q :
  (Qle_bool 0%Q q = true ∧ (0 <= q)%Q) ∨ (Qle_bool 0%Q q = false ∧ (q < 0)%Q).
Proof.
  destruct (Qle_bool 0%Q q) eqn:E.
  - left. split; [done|]. by apply Qle_bool_iff.
  - right. split; [done|]. apply Qnot_le_lt. intros H. apply Qle_bool_iff in H. congruence.
Qed.

(** A rounding keeps integers and is monotone; so it commutes with every bound
    by an integer. *)
Record rounding (f : Q → Z) : Prop := {
  rnd_int : ∀ q z, (q == inject_Z z)%Q → f q = z;
  rnd_mono : ∀ p q, (p <= q)%Q → f p ≤ f q }.

Lemma rnd_ge f q z : rounding f → (inject_Z z <= q)%Q → z ≤ f q.
Proof. intros Hf H. rewrite <- (rnd_int f Hf (inject_Z z) z) by reflexivity. by apply rnd_mono. Qed.

Lemma rnd_le f q z : rounding f → (q <= inject_Z z)%Q → f q ≤ z.
Proof. intros Hf H. rewrite <- (rnd_int f Hf (inject_Z z) z) by reflexivity. by apply rnd_mono. Qed.

Lemma rnd_proper f p q : rounding f → (p == q)%Q → f p = f q.
Proof. intros Hf H. apply Z.le_antisymm; apply (rnd_mono f Hf); rewrite H; apply Qle_refl. Qed.

(** A rounding moves a number by less than one. *)
Lemma rnd_near f q : rounding f → (q - 1 < inject_Z (f q) < q + 1)%Q.
Proof.
  intros Hf. pose proof (Qfloor_le q) as H1. pose proof (Qlt_floor q) as H2.
  rewrite inject_Z_plus in H2.
  pose proof (rnd_ge f q _ Hf H1) as H3. 
  assert (f q ≤ Qfloor q + 1) as H4.
  { apply rnd_le; [done|]. rewrite inject_Z_plus. by apply Qlt_le_weak. }
  rewrite Zle_Qle in H3, H4. rewrite inject_Z_plus in H4. change (inject_Z 1) with 1%Q in *.
  split.
  - lra.
  - destruct (Qlt_le_dec (inject_Z (Qfloor q)) q) as [H5|H5]; [lra|].
    assert (q == inject_Z (Qfloor q))%Q as H6 by lra.
    rewrite (rnd_int f Hf _ _ H6), <- H6. lra.
Qed.

(** A rounding on the non-negative side extended by oddness is a rounding. *)
Lemma odd_rounding (g : Q → Z) :
  (∀ q z, (q == inject_Z z)%Q → g q = z) → (∀ p q, (p <= q)%Q → g p ≤ g q) →
  rounding (λ q, if Qle_bool 0%Q q then g q else - g (- q)%Q).
Proof.
  intros Hi Hm. split.
  - intros q z Hq. destruct (Qle_bool_cases q) as [[-> _]|[-> _]]; [by apply Hi|].
    rewrite (Hi _ (- z)); [lia|]. by rewrite Hq, inject_Z_opp.
  - intros p q Hpq.
    destruct (Qle_bool_cases p) as [[-> Hp]|[-> Hp]], (Qle_bool_cases q) as [[-> Hq]|[-> Hq]].
    + by apply Hm.
    + exfalso. lra.
    + assert (0 ≤ g (- p)%Q) by (rewrite <- (Hi 0%Q 0) by reflexivity; apply Hm; lra).
      assert (0 ≤ g q) by (rewrite <- (Hi 0%Q 0) by reflexivity; by apply Hm). lia.
    + assert (g (- q)%Q ≤ g (- p)%Q) by (apply Hm; lra). lia.
Qed.

Lemma floor_int q z : (q == inject_Z z)%Q → Qfloor q = z.
Proof. intros ->. apply Qfloor_Z. Qed.

Lemma trunc_rounding : rounding Qtrunc.
Proof. apply (odd_rounding Qfloor); [apply floor_int|apply Qfloor_resp_le]. Qed.

Lemma ceiling_rounding : rounding Qceiling.
Proof. split; [intros q z ->; apply Qceiling_Z|apply Qceiling_resp_le]. Qed.

Lemma away_rounding : rounding Qaway.
Proof. apply (odd_rounding Qceiling); [intros q z ->; apply Qceiling_Z|apply Qceiling_resp_le]. Qed.

Lemma half_up_rounding : rounding Qhalf_up.
Proof.
  apply (odd_rounding (λ q, Qfloor (q + (1 # 2))%Q)).
  - intros q z Hq. apply Qfloor_iff. rewrite Hq. lra.
  - intros p q H. apply Qfloor_resp_le. lra.
Qed.

Lemma half_even_rounding : rounding Qhalf_even.
Proof.
  split.
  - intros q z Hq. unfold Qhalf_even. rewrite (floor_int q z Hq).
    destruct (Qcompare_spec (q - inject_Z z)%Q (1 # 2)%Q); [exfalso; lra|done|exfalso; lra].
  - intros p q H. unfold Qhalf_even. pose proof (Qfloor_resp_le p q H) as Hf.
    pose proof (proj1 (Qfloor_iff p _) eq_refl). pose proof (proj1 (Qfloor_iff q _) eq_refl).
    destruct (Z.eq_dec (Qfloor p) (Qfloor q)) as [E|E].
    + rewrite E in *.
      destruct (Qcompare_spec (p - inject_Z (Qfloor q))%Q (1 # 2)%Q),
        (Qcompare_spec (q - inject_Z (Qfloor q))%Q (1 # 2)%Q); try lia; try (exfalso; lra);
        case_match; lia.
    + assert (Qfloor p + 1 ≤ Qfloor q) by lia.
      repeat case_match; lia.
Qed.

(** The two nearest roundings move a number by at most a half. *)
Lemma half_up_near q : (- (1 # 2) <= inject_Z (Qhalf_up q) - q <= (1 # 2))%Q.
Proof.
  unfold Qhalf_up. destruct (Qle_bool_cases q) as [[-> _]|[-> _]].
  - pose proof (proj1 (Qfloor_iff (q + (1 # 2))%Q _) eq_refl). lra.
  - pose proof (proj1 (Qfloor_iff (- q + (1 # 2))%Q _) eq_refl). rewrite inject_Z_opp. lra.
Qed.

Lemma half_even_near q : (- (1 # 2) <= inject_Z (Qhalf_even q) - q <= (1 # 2))%Q.
Proof.
  unfold Qhalf_even. pose proof (proj1 (Qfloor_iff q _) eq_refl).
  destruct (Qcompare_spec (q - inject_Z (Qfloor q))%Q (1 # 2)%Q); [case_match| |];
    rewrite ?inject_Z_plus; change (inject_Z 1) with 1%Q; lra.
Qed.

Lemma trunc_bound q : ((0 <= q)%Q → (inject_Z (Qtrunc q) <= q)%Q) ∧ ((q <= 0)%Q → (q <= inject_Z (Qtrunc q))%Q).
Proof.
  unfold Qtrunc. pose proof (Qfloor_le q). pose proof (Qfloor_le (- q)%Q).
  destruct (Qle_bool_cases q) as [[-> ?]|[-> ?]]; rewrite ?inject_Z_opp; split; intros; try lra.
  assert (q == inject_Z 0)%Q as Hq by (change (inject_Z 0) with 0%Q; lra).
  rewrite (floor_int q 0 Hq). change (inject_Z 0) with 0%Q. lra.
Qed.

Lemma away_bound q : ((0 <= q)%Q → (q <= inject_Z (Qaway q))%Q) ∧ ((q <= 0)%Q → (inject_Z (Qaway q) <= q)%Q).
Proof.
  unfold Qaway. pose proof (Qle_ceiling q). pose proof (Qle_ceiling (- q)%Q).
  destruct (Qle_bool_cases q) as [[-> ?]|[-> ?]]; rewrite ?inject_Z_opp; split; intros; try lra.
  assert (q == inject_Z 0)%Q as Hq by (change (inject_Z 0) with 0%Q; lra).
  rewrite (rnd_int _ ceiling_rounding q 0 Hq). change (inject_Z 0) with 0%Q. lra.
Qed.

(** ** The operations *)

Class Decimal (D : Type) : Type := {
  value : D → Q;
  exponent : D → Z;                      (* Exponent *)
  dec_new : Z → Z → D;                   (* New(coefficient, exponent) *)
  dec_add : D → D → D;
  dec_sub : D → D → D;
  dec_mul : D → D → D;
  dec_div : D → D → D;
  dec_neg : D → D;
  dec_abs : D → D;
  dec_cmp : D → D → Z;
  dec_truncate : D → Z → D;
  dec_round : D → Z → D;
  dec_round_down : D → Z → D;
  dec_round_up : D → Z → D;
  dec_round_bank : D → Z → D;
  dec_int_part : D → Z;
  dec_parse : string → option D;         (* NewFromString *)
  dec_fixed : D → Z → string             (* StringFixed *) }.

(** Predicates whose documentation is their value's. *)
Definition dec_equal {D} `{Decimal D} (a b : D) : bool := Z.eqb (dec_cmp a b) 0.
Definition dec_zero {D} `{Decimal D} : D := dec_new 0 1.
Definition dec_of_int {D} `{Decimal D} (n : Z) : D := dec_new n 0.
Definition dec_is_negative {D} `{Decimal D} (a : D) : bool := Z.eqb (dec_cmp a dec_zero) (-1).

(** [r] is [q] rounded by [f] to [p] decimals. *)
Definition at_places (f : Q → Z) (q r : Q) (p : Z) : Prop :=
  (r == inject_Z (f (q * pow10 p)) * pow10 (- p))%Q.

Definition DivisionPrecision : Z := 16.

Definition cmp_sign (c : comparison) : Z := match c with Lt => -1 | Eq => 0 | Gt => 1 end.

Class DecimalLaws (D : Type) `{Decimal D} : Prop := {
  value_new : ∀ c e, (value (dec_new c e) == inject_Z c * pow10 e)%Q;
  value_add : ∀ a b, (value (dec_add a b) == value a + value b)%Q;
  value_sub : ∀ a b, (value (dec_sub a b) == value a - value b)%Q;
  value_mul : ∀ a b, (value (dec_mul a b) == value a * value b)%Q;
  value_neg : ∀ a, (value (dec_neg a) == - value a)%Q;
  value_abs : ∀ a, (value (dec_abs a) == Qabs.Qabs (value a))%Q;
  cmp_value : ∀ a b, dec_cmp a b = cmp_sign (Qcompare (value a) (value b));
  (* a quotient is rounded half away from zero to DivisionPrecision decimals *)
  value_div : ∀ a b, ¬ (value b == 0)%Q →
    at_places Qhalf_up (value a / value b)%Q (value (dec_div a b)) DivisionPrecision;
  value_truncate : ∀ a p, 0 ≤ p → at_places Qtrunc (value a) (value (dec_truncate a p)) p;
  value_round : ∀ a p, 0 ≤ p → at_places Qhalf_up (value a) (value (dec_round a p)) p;
  value_round_down : ∀ a p, 0 ≤ p → at_places Qtrunc (value a) (value (dec_round_down a p)) p;
  value_round_up : ∀ a p, 0 ≤ p → at_places Qaway (value a) (value (dec_round_up a p)) p;
  value_round_bank : ∀ a p, 0 ≤ p → at_places Qhalf_even (value a) (value (dec_round_bank a p)) p;
  int_part_value : ∀ a, in_int64 (Qtrunc (value a)) → dec_int_part a = Qtrunc (value a);
  (* the value is a coefficient at the decimal's exponent *)
  value_exponent : ∀ a, ∃ c, (value a == inject_Z c * pow10 (exponent a))%Q;
  (* StringFixed renders the value rounded to p decimals, digits, sign and point
     only; NewFromString reads it back *)
  parse_fixed : ∀ a p, 0 ≤ p → ∃ b, dec_parse (trim_space (dec_fixed a p)) = Some b ∧
    at_places Qhalf_up (value a) (value b) p }.

(** ** A concrete decimal: coefficient and exponent

    [fixed_decimal] implements the operations of [Decimal] on pairs (c, e)
    standing for c * 10^e and satisfies [DecimalLaws]: the hypotheses of the money
    theorems can hold, and their witnesses run on it. *)

Definition fixed : Type := Z * Z.
Definition fixed_value (d : fixed) : Q := (inject_Z (fst d) * pow10 (snd d))%Q.

Definition fixed_at (f : Q → Z) (q : Q) (p : Z) : fixed := (f (q * pow10 p)%Q, - p).

Definition fixed_lift (op : Z → Z → Z) (a b : fixed) : fixed :=
  let m := Z.min (snd a) (snd b) in
  (op (fst a * 10 ^ (snd a - m)) (fst b * 10 ^ (snd b - m)), m).

Definition parse_signed (s : string) : option Z := Z.of_int <$> NilZero.int_of_string s.

Definition fixed_parse (s : string) : option fixed :=
  match split_on "e" s with
  | [c; e] =>
      match parse_signed c, parse_signed e with
      | Some c, Some e => Some (c, e)
      | _, _ => None
      end
  | _ => None
  end.

Definition fixed_string (d : fixed) (p : Z) : string :=
  let r := fixed_at Qhalf_up (fixed_value d) p in
  format_int (fst r) +:+ String "e" (format_int (snd r)).

#[export] Instance fixed_decimal : Decimal fixed := {
  value := fixed_value;
  exponent := snd;
  dec_new := pair;
  dec_add := fixed_lift Z.add;
  dec_sub := fixed_lift Z.sub;
  dec_mul := λ a b, (fst a * fst b, snd a + snd b);
  dec_div := λ a b, fixed_at Qhalf_up (fixed_value a / fixed_value b)%Q DivisionPrecision;
  dec_neg := λ a, (- fst a, snd a);
  dec_abs := λ a, (Z.abs (fst a), snd a);
  dec_cmp := λ a b, cmp_sign (Qcompare (fixed_value a) (fixed_value b));
  dec_truncate := λ a p, fixed_at Qtrunc (fixed_value a) p;
  dec_round := λ a p, fixed_at Qhalf_up (fixed_value a) p;
  dec_round_down := λ a p, fixed_at Qtrunc (fixed_value a) p;
  dec_round_up := λ a p, fixed_at Qaway (fixed_value a) p;
  dec_round_bank := λ a p, fixed_at Qhalf_even (fixed_value a) p;
  dec_int_part := λ a, Qtrunc (fixed_value a);
  dec_parse := fixed_parse;
  dec_fixed := fixed_string }.

(** ** Rendering *)

Lemma parse_signed_format z : parse_signed (format_int z) = Some z.
Proof. unfold parse_signed. rewrite format_int_digits. cbn. by rewrite DecimalZ.of_to. Qed.

Lemma digit_not_e c : byte_in 48 57 c = true → negb (Ascii.eqb c "e") = true.
Proof. destruct c as [[] [] [] [] [] [] [] []]; vm_compute; done. Qed.

Lemma fixed_parse_string d p :
  fixed_parse (trim_space (fixed_string d p)) = Some (fixed_at Qhalf_up (fixed_value d) p).
Proof.
  unfold fixed_string. set (r := fixed_at _ _ _). rewrite trim_space_none.
  - unfold fixed_parse. rewrite split_on_cons, split_on_lacks.
    + rewrite !parse_signed_format. by destruct r.
    + by apply sforall_format; [apply digit_not_e|].
    + by apply sforall_format; [apply digit_not_e|].
  - rewrite sforall_app, sforall_format; [|apply digit_not_space|done].
    cbn -[is_space format_int]. rewrite sforall_format; [done|apply digit_not_space|done].
Qed.

(** ** The laws *)

Lemma pow10_scale c e m : m ≤ e → (inject_Z (c * 10 ^ (e - m)) * pow10 m == inject_Z c * pow10 e)%Q.
Proof.
  intros H. rewrite inject_Z_mult, <- pow10_int by lia.
  rewrite <- Qmult_assoc, <- pow10_add. by replace (e - m + m) with e by lia.
Qed.

Lemma fixed_value_at f q p : at_places f q (fixed_value (fixed_at f q p)) p.
Proof. unfold at_places, fixed_value, fixed_at. reflexivity. Qed.

Lemma fixed_value_add a b : (fixed_value (fixed_lift Z.add a b) == fixed_value a + fixed_value b)%Q.
Proof.
  unfold fixed_value, fixed_lift. cbn [fst snd].
  rewrite inject_Z_plus, Qmult_plus_distr_l, !pow10_scale by lia. reflexivity.
Qed.

Lemma fixed_value_sub a b : (fixed_value (fixed_lift Z.sub a b) == fixed_value a - fixed_value b)%Q.
Proof.
  unfold fixed_value, fixed_lift. cbn [fst snd]. unfold Z.sub at 1. unfold Qminus.
  rewrite inject_Z_plus, Qmult_plus_distr_l, <- Z.mul_opp_l, !pow10_scale by lia.
  rewrite inject_Z_opp. ring.
Qed.

#[export] Instance fixed_laws : DecimalLaws fixed.
Proof.
  split; cbn [value dec_new dec_add dec_sub dec_mul dec_div dec_neg dec_abs dec_cmp dec_truncate
    dec_round dec_round_down dec_round_up dec_round_bank dec_int_part dec_parse dec_fixed
    exponent fixed_decimal]; intros; try apply fixed_value_at.
  - reflexivity.
  - apply fixed_value_add.
  - apply fixed_value_sub.
  - unfold fixed_value. cbn. rewrite inject_Z_mult, pow10_add. ring.
  - unfold fixed_value. cbn [fst snd]. rewrite inject_Z_opp. ring.
  - unfold fixed_value. cbn [fst snd]. rewrite Qabs_Qmult, (Qabs_pos (pow10 _))
      by (apply Qlt_le_weak, pow10_pos). reflexivity.
  - reflexivity.
  - reflexivity.
  - exists (fst a). reflexivity.
  - exists (fixed_at Qhalf_up (fixed_value a) p). split; [apply fixed_parse_string|apply fixed_value_at].
Qed.
