(* ===== verification/Money.v ===== *)
(** * moneyx: exact money (moneyx/money.go)

    A [Money] is a decimal amount and a currency code; the table of currency
    scales, a package variable in the code that RegisterCurrency changes, is the
    argument [sc] of every operation that reads it. The decimal library is
    [Decimal.Decimal]. The JSON methods, which wrap [Parse] and [String_] in
    encoding/json, are not modelled. *)
From S2P Require Import Prelude Decimal.

Section Money.
Context {D : Type} `{HD : Decimal D}.

Record Money : Type := { Amount : D; Currency : string }.

Inductive Rounding : Type := RoundHalfUp | RoundDown | RoundUp | RoundHalfEven.

Inductive money_error : Type :=
| ErrCurrencyMismatch | ErrScale | ErrBadAmount | ErrCurrency
| ErrZeroParts | ErrNegativeWeight | ErrZeroWeights.

Definition scale_table : Type := gmap string Z.

Definition scales : scale_table := list_to_map
  [("BIF",0); ("CLP",0); ("DJF",0); ("GNF",0); ("ISK",0); ("JPY",0); ("KMF",0); ("KRW",0);
   ("PYG",0); ("RWF",0); ("UGX",0); ("UYI",0); ("VND",0); ("VUV",0); ("XAF",0); ("XOF",0);
   ("XPF",0); ("BHD",3); ("IQD",3); ("JOD",3); ("KWD",3); ("LYD",3); ("OMR",3); ("TND",3);
   ("CLF",4); ("UYW",4); ("BTC",8); ("ETH",8); ("USDT",6); ("USDC",6)].

Definition Scale (sc : scale_table) (currency : string) : Z :=
  match sc !! to_upper currency with Some s => s | None => 2 end.

Definition RegisterCurrency (sc : scale_table) (code : string) (scale : Z) : scale_table :=
  <[to_upper code := scale]> sc.

Definition normCurrency (c : string) : result string money_error :=
  let c := to_upper (trim_space c) in
  if bool_decide (slen c < 3) || bool_decide (8 < slen c) then Err ErrCurrency else Ok c.

Definition round (d : D) (scale : Z) (mode : Rounding) : D :=
  match mode with
  | RoundDown => dec_round_down d scale
  | RoundUp => dec_round_up d scale
  | RoundHalfEven => dec_round_bank d scale
  | RoundHalfUp => dec_round d scale
  end.

Definition FromDecimal (sc : scale_table) (d : D) (currency : string) (mode : Rounding) :
    result Money money_error :=
  let? c := normCurrency currency in
  Ok {| Amount := round d (Scale sc c) mode; Currency := c |}.

Definition Parse (sc : scale_table) (amount currency : string) : result Money money_error :=
  let? c := normCurrency currency in
  match dec_parse (trim_space amount) with
  | None => Err ErrBadAmount
  | Some d =>
      if bool_decide (Scale sc c < int32 (- exponent d))
         && negb (dec_equal d (dec_truncate d (Scale sc c)))
      then Err ErrScale
      else Ok {| Amount := dec_truncate d (Scale sc c); Currency := c |}
  end.

Definition MustParse (sc : scale_table) (amount currency : string) : outcome Money :=
  match Parse sc amount currency with Ok m => Returns m | Err _ => Panics end.

Definition Zero (currency : string) : Money :=
  {| Amount := dec_zero;
     Currency := match normCurrency currency with Ok c => c | Err _ => "" end |}.

(** The generated common.Money: two string fields, or nil. *)
Definition Of (sc : scale_table) (m : option (string * string)) : result Money money_error :=
  match m with
  | None => Err ErrBadAmount
  | Some (amount, currency) => Parse sc amount currency
  end.

Definition String_ (sc : scale_table) (m : Money) : string :=
  dec_fixed (Amount m) (Scale sc (Currency m)).

Definition Parts (sc : scale_table) (m : Money) : string * string :=
  (String_ sc m, Currency m).

Definition Display (sc : scale_table) (m : Money) : string :=
  String_ sc m +:+ " " +:+ Currency m.

Definition Neg (m : Money) : Money := {| Amount := dec_neg (Amount m); Currency := Currency m |}.
Definition Abs (m : Money) : Money := {| Amount := dec_abs (Amount m); Currency := Currency m |}.

Definition same (m o : Money) : result unit money_error :=
  if String.eqb (Currency m) (Currency o) then Ok tt else Err ErrCurrencyMismatch.

Definition Add (m o : Money) : result Money money_error :=
  let? _ := same m o in
  Ok {| Amount := dec_add (Amount m) (Amount o); Currency := Currency m |}.

Definition Sub (m o : Money) : result Money money_error :=
  let? _ := same m o in
  Ok {| Amount := dec_sub (Amount m) (Amount o); Currency := Currency m |}.

Definition Equal (m o : Money) : bool :=
  String.eqb (Currency m) (Currency o) && dec_equal (Amount m) (Amount o).

Definition Cmp (m o : Money) : result Z money_error :=
  let? _ := same m o in
  Ok (dec_cmp (Amount m) (Amount o)).

Definition Mul (sc : scale_table) (m : Money) (rate : D) (mode : Rounding) : Money :=
  {| Amount := round (dec_mul (Amount m) rate) (Scale sc (Currency m)) mode;
     Currency := Currency m |}.

Definition MulString (sc : scale_table) (m : Money) (rate : string) (mode : Rounding) :
    result Money money_error :=
  match dec_parse (trim_space rate) with
  | None => Err ErrBadAmount
  | Some r => Ok (Mul sc m r mode)
  end.

(** The loop of Split and Allocate: [step] goes to the first [units] parts. *)
Fixpoint hand_out (step : D) (units : Z) (out : list Money) : list Money :=
  match out with
  | [] => []
  | m :: out' =>
      if bool_decide (0 < units) then
        {| Amount := dec_add (Amount m) step; Currency := Currency m |}
        :: hand_out step (units - 1) out'
      else out
  end.

(** The tail both share: the remainder in smallest units and its sign. *)
Definition hand_out_rem (unit rem : D) (out : list Money) : list Money :=
  if dec_is_negative rem
  then hand_out (dec_neg unit) (dec_int_part (dec_div (dec_neg rem) unit)) out
  else hand_out unit (dec_int_part (dec_div rem unit)) out.

(** [make([]Money, n)] is a list of any length here; the program ends when the memory for [n]
    parts cannot be had. *)
Definition Split (sc : scale_table) (m : Money) (n : Z) : result (list Money) money_error :=
  if bool_decide (n <= 0) then Err ErrZeroParts else
  let scale := Scale sc (Currency m) in
  let unit := dec_new 1 (- scale) in
  let base := dec_truncate (dec_div (Amount m) (dec_of_int n)) scale in
  let rem := dec_sub (Amount m) (dec_mul base (dec_of_int n)) in
  let out := replicate (Z.to_nat n) {| Amount := base; Currency := Currency m |} in
  Ok (hand_out_rem unit rem out).

(** [for _, w := range weights { if w < 0 ...; total += w }] in int64 *)
Fixpoint total_weight (weights : list Z) (total : Z) : result Z money_error :=
  match weights with
  | [] => Ok total
  | w :: ws =>
      if bool_decide (w < 0) then Err ErrNegativeWeight
      else total_weight ws (int64 (total + w))
  end.

Definition share (sc : scale_table) (m : Money) (total w : Z) : Money :=
  {| Amount := dec_truncate (dec_div (dec_mul (Amount m) (dec_of_int w)) (dec_of_int total))
                 (Scale sc (Currency m));
     Currency := Currency m |}.

Definition sum_amounts (ms : list Money) : D :=
  fold_left (λ sum m, dec_add sum (Amount m)) ms dec_zero.

Definition Allocate (sc : scale_table) (m : Money) (weights : list Z) :
    result (list Money) money_error :=
  let? total := total_weight weights 0 in
  if bool_decide (total = 0) then Err ErrZeroWeights else
  let unit := dec_new 1 (- Scale sc (Currency m)) in
  let out := share sc m total <$> weights in
  Ok (hand_out_rem unit (dec_sub (Amount m) (sum_amounts out)) out).

(** ** At scale: the invariant *)

(** The amount is [c] smallest units of its currency. *)
Definition in_units (sc : scale_table) (m : Money) (c : Z) : Prop :=
  (value (Amount m) == inject_Z c * pow10 (- Scale sc (Currency m)))%Q.

Definition at_scale (sc : scale_table) (m : Money) : Prop := ∃ c, in_units sc m c.

(** Every registered scale is a number of decimals that quotients keep. *)
Definition scales_ok (sc : scale_table) : Prop := ∀ c, 0 ≤ Scale sc c.

Context {HL : DecimalLaws D}.

Definition round_fun (mode : Rounding) : Q → Z :=
  match mode with
  | RoundDown => Qtrunc | RoundUp => Qaway | RoundHalfEven => Qhalf_even | RoundHalfUp => Qhalf_up
  end.

Lemma round_fun_rounding mode : rounding (round_fun mode).
Proof.
  destruct mode; [apply half_up_rounding|apply trunc_rounding|apply away_rounding|apply half_even_rounding].
Qed.

Lemma value_round_mode d s mode : 0 ≤ s →
  at_places (round_fun mode) (value d) (value (round d s mode)) s.
Proof.
  intros Hs. destruct mode; cbn;
    [by apply value_round|by apply value_round_down|by apply value_round_up|by apply value_round_bank].
Qed.

(** A value with at most [p] decimals is its own rounding to [p] decimals. *)
Lemma at_places_exact f q r p c : rounding f → (q == inject_Z c * pow10 (- p))%Q →
  at_places f q r p → (r == q)%Q.
Proof.
  intros Hf Hq Hr. unfold at_places in Hr. rewrite Hr.
  rewrite (rnd_int f Hf _ c); [symmetry; exact Hq|]. rewrite Hq. apply pow10_cancel.
Qed.

Lemma scale_int s c : (inject_Z c * pow10 (- s) * pow10 s == inject_Z c)%Q.
Proof. apply pow10_cancel. Qed.

Lemma at_scale_add sc m o a b :
  Currency m = Currency o → in_units sc m a → in_units sc o b →
  in_units sc {| Amount := dec_add (Amount m) (Amount o); Currency := Currency m |} (a + b).
Proof.
  unfold in_units. cbn. intros Hc Ha Hb. rewrite value_add, Ha, Hb, Hc, inject_Z_plus. ring.
Qed.

Lemma same_ok m o : same m o = Ok tt ↔ Currency m = Currency o.
Proof. unfold same. destruct (String.eqb_spec (Currency m) (Currency o)); naive_solver. Qed.

Lemma same_spec m o r : same m o = Ok r → Currency m = Currency o.
Proof. destruct r. apply same_ok. Qed.
End Money.
Arguments Money : clear implicits.
