(* ===== verification/MoneyShares.v ===== *)
(** * moneyx: sharing an amount adds up

    [Split] and [Allocate] round a quotient to DivisionPrecision decimals,
    truncate it to the currency's scale and hand the remainder out one smallest
    unit at a time. For a scale of at most DivisionPrecision the parts add
    up exactly; beyond it they need not. *)
From S2P Require Import Prelude Decimal Money.

Fixpoint zsum (cs : list Z) : Z := match cs with [] => 0 | c :: cs' => c + zsum cs' end.

(** [hand_out] on numbers of units *)
Fixpoint spread (st units : Z) (cs : list Z) : list Z :=
  match cs with
  | [] => []
  | c :: cs' => if bool_decide (0 < units) then c + st :: spread st (units - 1) cs' else cs
  end.

Lemma zsum_spread st u cs : 0 ≤ u ≤ Z.of_nat (length cs) → zsum (spread st u cs) = zsum cs + st * u.
Proof.
  revert u. induction cs as [|c cs IH]; intros u Hu; cbn in *.
  { assert (u = 0) as -> by lia. ring. }
  case_bool_decide; cbn; [rewrite IH by lia; ring|].
  assert (u = 0) as -> by lia. ring.
Qed.

Lemma zsum_replicate k c : zsum (replicate k c) = Z.of_nat k * c.
Proof. induction k as [|k IH]; cbn in *; lia. Qed.

Lemma spread_replicate st u k c : 0 ≤ u ≤ Z.of_nat k →
  spread st u (replicate k c) = (replicate (Z.to_nat u) (c + st) ++ replicate (k - Z.to_nat u) c)%list.
Proof.
  revert u. induction k as [|k IH]; intros u Hu; cbn.
  { by replace (Z.to_nat u) with 0%nat by lia. }
  case_bool_decide.
  - rewrite IH by lia. replace (Z.to_nat u) with (S (Z.to_nat (u - 1))) by lia. done.
  - by replace (Z.to_nat u) with 0%nat by lia.
Qed.

Lemma spread_near st u cs i c' : spread st u cs !! i = Some c' →
  ∃ c, cs !! i = Some c ∧ (c' = c ∨ c' = c + st).
Proof.
  revert u i. induction cs as [|c cs IH]; intros u [|i]; cbn; try done;
    case_bool_decide; cbn; intros Hi; simplify_eq; eauto.
Qed.

Section Shares.
Context {D : Type} `{HD : Decimal D} {HL : DecimalLaws D}.
Implicit Types m : Money D.

Definition in_currency (sc : scale_table) (cur : string) (m : Money D) (c : Z) : Prop :=
  Currency m = cur ∧ in_units sc m c.

(** The quotient as the code truncates it, in units of 10^-s. *)
Definition quotient_units (a b : D) (s : Z) : Z := Qtrunc (value (dec_div a b) * pow10 s)%Q.

Lemma quotient_value a b s : 0 ≤ s →
  (value (dec_truncate (dec_div a b) s) == inject_Z (quotient_units a b s) * pow10 (- s))%Q.
Proof. intros Hs. by apply value_truncate. Qed.

(** Dividing [x] units by the number [n], [x] may be compared with multiples of
    [n] before or after the two roundings. *)
Lemma quotient_bounds a b x n s : 0 ≤ s ≤ DivisionPrecision → 0 < n →
  (value a == inject_Z x * pow10 (- s))%Q → (value b == inject_Z n)%Q →
  ∀ k, (k * n ≤ x → k ≤ quotient_units a b s) ∧ (x ≤ k * n → quotient_units a b s ≤ k).
Proof.
  intros Hs Hn Ha Hb k. unfold quotient_units, DivisionPrecision in *.
  assert (0 < inject_Z n)%Q as Hn' by (change 0%Q with (inject_Z 0); by rewrite <- Zlt_Qlt).
  assert (¬ (value b == 0)%Q) as Hb0 by (rewrite Hb; intros H; rewrite H in Hn'; by apply Qlt_irrefl in Hn').
  pose proof (value_div a b Hb0) as Hd. unfold at_places, DivisionPrecision in Hd.
  set (r := Qhalf_up _) in Hd.
  assert (value a / value b * pow10 16 == inject_Z x / inject_Z n * pow10 (16 - s))%Q as Hr.
  { rewrite Ha, Hb. replace (16 - s) with (- s + 16) by lia. rewrite pow10_add.
    field. intros H. rewrite H in Hn'. by apply Qlt_irrefl in Hn'. }
  assert (value (dec_div a b) * pow10 s == inject_Z r * pow10 (s - 16))%Q as Hv.
  { rewrite Hd. replace (s - 16) with (- (16) + s) by lia. rewrite pow10_add. ring. }
  assert (∀ j, (inject_Z j == inject_Z (j * 10 ^ (16 - s)) * pow10 (s - 16))%Q) as Hj.
  { intros j. rewrite inject_Z_mult, <- pow10_int by lia.
    replace (s - 16) with (- (16 - s)) by lia. by rewrite pow10_cancel'. }
  pose proof (pow10_pos (16 - s)) as Hp. pose proof (pow10_pos (s - 16)) as Hq.
  split; intros H; rewrite Zle_Qle, inject_Z_mult in H.
  - apply (rnd_ge _ _ _ trunc_rounding). rewrite Hv, (Hj k). apply Qmult_le_compat_r; [|lra].
    rewrite <- Zle_Qle. apply (rnd_ge _ _ _ half_up_rounding).
    rewrite Hr, inject_Z_mult, <- pow10_int by lia. apply Qmult_le_compat_r; [|lra].
    by apply Qle_shift_div_l.
  - apply (rnd_le _ _ _ trunc_rounding). rewrite Hv, (Hj k). apply Qmult_le_compat_r; [|lra].
    rewrite <- Zle_Qle. apply (rnd_le _ _ _ half_up_rounding).
    rewrite Hr, inject_Z_mult, <- pow10_int by lia. apply Qmult_le_compat_r; [|lra].
    by apply Qle_shift_div_r.
Qed.

Lemma quotient_near a b x n s : 0 ≤ s ≤ DivisionPrecision → 0 < n →
  (value a == inject_Z x * pow10 (- s))%Q → (value b == inject_Z n)%Q →
  Z.abs (x - quotient_units a b s * n) < n.
Proof.
  intros Hs Hn Ha Hb. pose proof (quotient_bounds a b x n s Hs Hn Ha Hb) as H.
  pose proof (proj1 (H (x / n))). pose proof (proj2 (H (x / n + 1))). pose proof (proj2 (H (x / n))).
  pose proof (Z.div_mod x n). pose proof (Z.mod_pos_bound x n). nia.
Qed.

(** ** Handing out a remainder *)

Lemma hand_out_units sc cur st step out cs u :
  (value step == inject_Z st * pow10 (- Scale sc cur))%Q →
  Forall2 (in_currency sc cur) out cs →
  Forall2 (in_currency sc cur) (hand_out step u out) (spread st u cs).
Proof.
  intros Hst H. revert u. induction H as [|m c out cs [Hm Hc] H IH]; intros u; cbn; [constructor|].
  case_bool_decide; [|constructor; [by split|done]].
  constructor; [|apply IH]. split; [done|]. unfold in_units in *. cbn.
  rewrite value_add, Hst, Hc, Hm, inject_Z_plus. ring.
Qed.

(** An integral decimal survives division by the unit. *)
Lemma whole_units rem unit s x : in_int64 x →
  (value rem == inject_Z x * pow10 (- s))%Q → (value unit == pow10 (- s))%Q →
  dec_int_part (dec_div rem unit) = x.
Proof.
  intros Hx Hr Hu. pose proof (pow10_nz (- s)) as Hnz.
  assert (value (dec_div rem unit) == inject_Z x)%Q as Hv.
  { assert (value rem / value unit == inject_Z x)%Q as Hq by (rewrite Hr, Hu; field; done).
    rewrite <- Hq. eapply (at_places_exact Qhalf_up _ _ DivisionPrecision (x * 10 ^ 16));
      [apply half_up_rounding| |apply value_div; by rewrite Hu].
    rewrite Hq, inject_Z_mult, <- pow10_int by lia. unfold DivisionPrecision.
    by rewrite pow10_cancel'. }
  assert (Qtrunc (value (dec_div rem unit)) = x) as Ht by (by apply (rnd_int _ trunc_rounding)).
  by rewrite int_part_value; rewrite Ht.
Qed.

Lemma is_negative_units rem s x : (value rem == inject_Z x * pow10 (- s))%Q →
  dec_is_negative rem = bool_decide (x < 0).
Proof.
  intros Hr. unfold dec_is_negative. rewrite cmp_value. unfold dec_zero.
  pose proof (pow10_pos (- s)) as Hp.
  assert (value (dec_new 0 1) == 0)%Q as Hz by (rewrite value_new; reflexivity).
  destruct (Qcompare_spec (value rem) (value (dec_new 0 1))) as [H|H|H];
    rewrite Hz, Hr in H; cbn; symmetry;
    rewrite ?bool_decide_eq_true, ?bool_decide_eq_false; rewrite ?Z.nlt_ge, ?Zlt_Qlt, ?Zle_Qle;
    change (inject_Z 0) with 0%Q; nra.
Qed.

Definition sign (x : Z) : Z := if bool_decide (x < 0) then -1 else 1.

Lemma hand_out_rem_units sc cur rem x out cs :
  in_int64 x → x ≠ - 2 ^ 63 →
  (value rem == inject_Z x * pow10 (- Scale sc cur))%Q →
  Forall2 (in_currency sc cur) out cs →
  Forall2 (in_currency sc cur) (hand_out_rem (dec_new 1 (- Scale sc cur)) rem out)
    (spread (sign x) (Z.abs x) cs).
Proof.
  intros Hx Hm Hr H. unfold hand_out_rem, sign. rewrite (is_negative_units _ _ _ Hr).
  assert (value (dec_new 1 (- Scale sc cur)) == pow10 (- Scale sc cur))%Q as Hu
    by (rewrite value_new; ring).
  unfold in_int64 in Hx. case_bool_decide.
  - rewrite (whole_units (dec_neg rem) _ (Scale sc cur) (Z.abs x)); [|unfold in_int64; lia| |done].
    + apply hand_out_units; [|done]. rewrite value_neg, Hu. ring.
    + rewrite value_neg, Hr, Z.abs_neq by lia. rewrite inject_Z_opp. ring.
  - rewrite (whole_units rem _ (Scale sc cur) (Z.abs x)); [|unfold in_int64; lia| |done].
    + apply hand_out_units; [|done]. rewrite Hu. ring.
    + by rewrite Hr, Z.abs_eq by lia.
Qed.

Lemma value_of_int n : (value (dec_of_int n) == inject_Z n)%Q.
Proof. unfold dec_of_int. rewrite value_new. change (pow10 0) with 1%Q. ring. Qed.

Lemma sum_amounts_units sc cur out cs : Forall2 (in_currency sc cur) out cs →
  (value (sum_amounts out) == inject_Z (zsum cs) * pow10 (- Scale sc cur))%Q.
Proof.
  intros H. unfold sum_amounts.
  assert (∀ z, (value (fold_left (λ sum m, dec_add sum (Amount m)) out z)
    == value z + inject_Z (zsum cs) * pow10 (- Scale sc cur))%Q) as G.
  { induction H as [|m c out cs [Hm Hc] H IH]; intros z; cbn; [ring|].
    rewrite IH, value_add. unfold in_units in Hc.
    rewrite Hc, Hm. rewrite inject_Z_plus. ring. }
  rewrite G. unfold dec_zero. rewrite value_new. change (inject_Z 0) with 0%Q. ring.
Qed.

(** C35. Split into n parts: for an amount of [c] smallest units in a currency
    of at most 16 decimals and any n of an int64 above zero, Split succeeds with
    exactly n parts of the same currency, each a whole number of smallest
    units, adding up to [c]; the parts are equal but for one unit more (or less,
    when the rounded quotient was above) on the first ones. *)
Theorem split_adds_up sc m n c :
  0 ≤ Scale sc (Currency m) ≤ DivisionPrecision → in_units sc m c → 0 < n → in_int64 n →
  ∃ parts q st k, Split sc m n = Ok parts ∧
    let cs := (replicate k (q + st) ++ replicate (Z.to_nat n - k) q)%list in
    Forall2 (in_currency sc (Currency m)) parts cs ∧
    zsum cs = c ∧ Z.of_nat (length parts) = n ∧ (st = 1 ∨ st = -1) ∧ Z.of_nat k < n.
Proof.
  intros Hs Hc Hn Hn64. set (s := Scale sc (Currency m)) in *.
  set (u := quotient_units (Amount m) (dec_of_int n) s).
  pose proof (quotient_near _ _ c n s Hs Hn Hc (value_of_int n)) as Hnear. fold u in Hnear.
  unfold Split. rewrite bool_decide_false by lia. fold s.
  set (base := dec_truncate _ s). set (rem := dec_sub _ _).
  assert (value base == inject_Z u * pow10 (- s))%Q as Hbase by (apply quotient_value; lia).
  assert (value rem == inject_Z (c - u * n) * pow10 (- s))%Q as Hrem.
  { unfold rem. unfold in_units in Hc. rewrite value_sub, value_mul, value_of_int, Hbase, Hc. fold s.
    unfold Z.sub. rewrite inject_Z_plus, inject_Z_opp, inject_Z_mult. ring. }
  assert (Forall2 (in_currency sc (Currency m))
    (replicate (Z.to_nat n) {| Amount := base; Currency := Currency m |})
    (replicate (Z.to_nat n) u)) as Hout.
  { apply Forall2_same_length_lookup_2; [by rewrite !length_replicate|].
    intros i p x [-> _]%lookup_replicate [-> _]%lookup_replicate. by split. }
  pose proof (hand_out_rem_units sc (Currency m) rem (c - u * n) _ _
    ltac:(unfold in_int64 in *; lia) ltac:(unfold in_int64 in *; lia) Hrem Hout) as Hres.
  fold s in Hres. rewrite spread_replicate in Hres by lia.
  eexists _, u, (sign (c - u * n)), (Z.to_nat (Z.abs (c - u * n))). split; [reflexivity|]. cbn zeta.
  split_and!; [done| | | |lia].
  - rewrite <- spread_replicate by lia. rewrite zsum_spread by (rewrite length_replicate; lia).
    rewrite zsum_replicate. unfold sign. case_bool_decide; nia.
  - rewrite (Forall2_length _ _ _ Hres), length_app, !length_replicate. lia.
  - unfold sign. case_bool_decide; auto.
Qed.

Lemma total_weight_ok weights t : Forall (λ w, 0 ≤ w) weights → 0 ≤ t → t + zsum weights < 2 ^ 63 →
  total_weight weights t = Ok (t + zsum weights).
Proof.
  intros H. revert t. induction H as [|w ws Hw H IH]; intros t Ht Hb; cbn in *; [f_equal; lia|].
  rewrite bool_decide_false by lia. assert (0 ≤ zsum ws) by (clear - H; induction H; cbn; lia).
  rewrite int64_small by (unfold in_int64; lia). rewrite IH by lia. f_equal. lia.
Qed.

(** The rounded shares miss the amount by less than one unit per weight. *)
Lemma shares_near (f : Z → Z) total c ws : 0 < total →
  (∀ w, w ∈ ws → Z.abs (c * w - f w * total) < total) →
  ws ≠ [] → Z.abs (c * zsum ws - zsum (f <$> ws) * total) < Z.of_nat (length ws) * total.
Proof.
  intros Ht H Hne. destruct ws as [|w ws]; [done|]. clear Hne.
  revert w H. induction ws as [|w' ws IH]; intros w H.
  - specialize (H w ltac:(left)). cbn. rewrite ?Z.add_0_r. lia.
  - specialize (IH w' ltac:(intros; apply H; by right)).
    specialize (H w ltac:(left)). cbn in *. lia.
Qed.

(** Allocate by weights: for non-negative int64 weights whose total is
    positive and does not overflow, and an amount of [c] smallest units in a
    currency of at most 16 decimals, the parts are one per weight, in its
    currency, whole units, add up to exactly [c], and each is less than two units
    away from its exact share c*w/total. *)
Theorem allocate_adds_up sc m weights c :
  0 ≤ Scale sc (Currency m) ≤ DivisionPrecision → in_units sc m c →
  Forall (λ w, 0 ≤ w) weights → 0 < zsum weights < 2 ^ 63 → Z.of_nat (length weights) < 2 ^ 63 →
  ∃ parts cs, Allocate sc m weights = Ok parts ∧
    Forall2 (in_currency sc (Currency m)) parts cs ∧ zsum cs = c ∧
    length parts = length weights ∧
    ∀ i w x, weights !! i = Some w → cs !! i = Some x →
      Z.abs (x * zsum weights - c * w) < 2 * zsum weights.
Proof.
  intros Hs Hc Hw Ht Hlen. set (s := Scale sc (Currency m)) in *. set (total := zsum weights) in *.
  set (f := λ w, quotient_units (dec_mul (Amount m) (dec_of_int w)) (dec_of_int total) s).
  assert (∀ w, Z.abs (c * w - f w * total) < total) as Hf.
  { intros w. apply (quotient_near _ _ (c * w) total s Hs); [lia| |apply value_of_int].
    rewrite value_mul, value_of_int. unfold in_units in Hc. rewrite Hc. fold s.
    rewrite inject_Z_mult. ring. }
  unfold Allocate. rewrite total_weight_ok by (done || lia). rewrite Z.add_0_l. cbn [rbind].
  fold total. rewrite bool_decide_false by lia.
  assert (Forall2 (in_currency sc (Currency m)) (share sc m total <$> weights) (f <$> weights)) as Hout.
  { apply Forall2_same_length_lookup_2; [by rewrite !length_fmap|].
    intros i p x. rewrite !list_lookup_fmap. destruct (weights !! i) as [w|]; [|done].
    intros [= <-] [= <-]. split; [done|]. unfold in_units. cbn. apply quotient_value. lia. }
  set (d := c - zsum (f <$> weights)). set (rem := dec_sub _ _).
  assert (value rem == inject_Z d * pow10 (- s))%Q as Hrem.
  { unfold rem, d. unfold in_units in Hc. rewrite value_sub, (sum_amounts_units _ _ _ _ Hout), Hc.
    fold s. unfold Z.sub. rewrite inject_Z_plus, inject_Z_opp. ring. }
  assert (Z.abs d < Z.of_nat (length weights)) as Hd.
  { pose proof (shares_near f total c weights ltac:(lia) ltac:(auto)
      ltac:(intros ->; cbn in Ht; lia)) as Hn. unfold d. fold total in Hn. nia. }
  pose proof (hand_out_rem_units sc (Currency m) rem d _ _
    ltac:(unfold in_int64; lia) ltac:(lia) Hrem Hout) as Hres. fold s in Hres.
  eexists _, _. split; [reflexivity|]. split_and!; [exact Hres| | |].
  - rewrite zsum_spread by (rewrite length_fmap; lia). unfold sign, d in *. case_bool_decide; lia.
  - etransitivity; [exact (Forall2_length _ _ _ Hres)|]. rewrite <- (length_fmap f weights).
    generalize (f <$> weights), (Z.abs d). clear. induction l as [|x l IH]; intros z; cbn; [done|].
    case_bool_decide; cbn; [by rewrite IH|done].
  - intros i w x Hwi [y [Hy Hxy]]%spread_near. rewrite list_lookup_fmap, Hwi in Hy. cbn in Hy.
    simplify_eq. specialize (Hf w). unfold sign in Hxy. case_bool_decide; destruct Hxy; subst; lia.
Qed.

(** A currency registered with more than 16 decimals (an 18-decimal token):
    splitting 1000 units into 3 parts yields 301 + 301 + 301 = 903, for every
    decimal that keeps its documentation: the quotient keeps 16 decimals, 100
    units remain, and the loop hands out only one per part. Split promises parts
    that add up exactly. *)
Theorem split_loses_beyond_16_decimals m :
  let sc := RegisterCurrency scales "TKN" 18 in
  Currency m = "TKN" → in_units sc m 1000 →
  ∃ parts, Split sc m 3 = Ok parts ∧ Forall2 (in_currency sc "TKN") parts [301; 301; 301].
Proof.
  intros sc Hcur Hc. unfold in_units in Hc. rewrite Hcur in Hc.
  assert (Scale sc "TKN" = 18) as Hsc by reflexivity. unfold Split. cbn [bool_decide].
  rewrite bool_decide_false by lia. rewrite Hcur, Hsc. rewrite Hsc in Hc.
  set (base := dec_truncate _ 18). set (rem := dec_sub _ _).
  assert (¬ (value (dec_of_int 3) == 0)%Q) as H3 by (rewrite value_of_int; discriminate).
  assert (value (dec_div (Amount m) (dec_of_int 3)) == inject_Z 300 * pow10 (- (18)))%Q as Hdiv.
  { pose proof (value_div (Amount m) _ H3) as Hd. unfold at_places in Hd. rewrite Hd.
    rewrite (rnd_proper Qhalf_up _ (10 # 3) half_up_rounding); [reflexivity|].
    rewrite Hc, value_of_int. reflexivity. }
  assert (value base == inject_Z 300 * pow10 (- (18)))%Q as Hbase.
  { rewrite <- Hdiv. eapply at_places_exact; [apply trunc_rounding|exact Hdiv|].
    apply value_truncate. lia. }
  assert (value rem == inject_Z 100 * pow10 (- (18)))%Q as Hrem.
  { unfold rem. rewrite value_sub, value_mul, value_of_int, Hbase, Hc. reflexivity. }
  eexists. split; [reflexivity|].
  change [301; 301; 301] with (spread (sign 100) (Z.abs 100) (replicate 3 300)).
  rewrite <- Hsc. apply hand_out_rem_units; [by vm_compute|lia|by rewrite Hsc|].
  repeat constructor; unfold in_units; cbn [Amount Currency]; by rewrite ?Hsc.
Qed.
End Shares.

(** ** On the concrete decimal *)

Definition usd (cents : Z) : Money fixed := {| Amount := (cents, -2); Currency := "USD" |}.

Lemma split_adds_up_witness : ∃ parts q st k,
  Split scales (usd (-1000)) 3 = Ok parts ∧
  zsum (replicate k (q + st) ++ replicate (3 - k) q)%list = -1000 ∧
  (λ p, String_ scales p) <$> parts = ["-334e-2"; "-333e-2"; "-333e-2"].
Proof.
  destruct (split_adds_up scales (usd (-1000)) 3 (-1000)) as (parts & q & st & k & H1 & _ & H3 & _);
    [by vm_compute|by vm_compute|lia|by vm_compute|].
  exists parts, q, st, k. split_and!; [exact H1|exact H3|].
  assert (Split scales (usd (-1000)) 3 = Ok
    [{| Amount := (-334, -2); Currency := "USD" |}; {| Amount := (-333, -2); Currency := "USD" |};
     {| Amount := (-333, -2); Currency := "USD" |}]) as E by (vm_compute; reflexivity).
  rewrite E in H1. injection H1 as <-. vm_compute. reflexivity.
Defined.

Lemma allocate_adds_up_witness : ∃ parts cs,
  Allocate scales (usd 1001) [70; 20; 10] = Ok parts ∧ zsum cs = 1001 ∧
  String_ scales <$> parts = ["701e-2"; "200e-2"; "100e-2"].
Proof.
  destruct (allocate_adds_up scales (usd 1001) [70; 20; 10] 1001) as (parts & cs & H1 & _ & H3 & _);
    [by vm_compute|by vm_compute|repeat constructor; lia|by vm_compute|by vm_compute|].
  exists parts, cs. split_and!; [exact H1|exact H3|].
  assert (Allocate scales (usd 1001) [70; 20; 10] = Ok
    [{| Amount := (701, -2); Currency := "USD" |}; {| Amount := (200, -2); Currency := "USD" |};
     {| Amount := (100, -2); Currency := "USD" |}]) as E by (vm_compute; reflexivity).
  rewrite E in H1. injection H1 as <-. vm_compute. reflexivity.
Defined.

Lemma split_loses_witness : ∃ parts,
  Split (RegisterCurrency scales "TKN" 18) {| Amount := (1000, -18); Currency := "TKN" |} 3 = Ok parts
  ∧ Forall2 (in_currency (RegisterCurrency scales "TKN" 18) "TKN") parts [301; 301; 301].
Proof.
  apply (split_loses_beyond_16_decimals {| Amount := (1000, -18); Currency := "TKN" |});
    [reflexivity|by vm_compute].
Defined.
