(* ===== verification/MoneyOps.v ===== *)
(** * moneyx: parsing, rounding and arithmetic *)
From S2P Require Import Prelude Decimal Money.

Section Ops.
Context {D : Type} `{HD : Decimal D} {HL : DecimalLaws D}.
Implicit Types m o : Money D.

Lemma dec_equal_value a b : dec_equal a b = true ↔ (value a == value b)%Q.
Proof.
  unfold dec_equal. rewrite cmp_value.
  destruct (Qcompare_spec (value a) (value b)) as [H|H|H]; cbn; split; try done; intros E;
    rewrite E in H; by apply Qlt_irrefl in H.
Qed.

(** Truncation to the scale changes a value exactly when it is not at scale. *)
Lemma truncate_same d s : 0 ≤ s →
  (value d == value (dec_truncate d s))%Q ↔ ∃ c, (value d == inject_Z c * pow10 (- s))%Q.
Proof.
  intros Hs. pose proof (value_truncate d s Hs) as Ht. split.
  - intros H. exists (Qtrunc (value d * pow10 s)). by rewrite H at 1.
  - intros [c Hc]. symmetry. by eapply at_places_exact; [apply trunc_rounding|exact Hc|].
Qed.

(** A decimal whose exponent asks for at most [s] decimals has them. *)
Lemma exponent_at_scale d s : - exponent d ≤ s → ∃ c, (value d == inject_Z c * pow10 (- s))%Q.
Proof.
  intros Hs. destruct (value_exponent d) as [c Hc]. exists (c * 10 ^ (exponent d + s)).
  rewrite Hc, inject_Z_mult, <- pow10_int, <- Qmult_assoc, <- pow10_add by lia.
  by replace (exponent d + s + - s) with (exponent d) by lia.
Qed.

(** What Parse does with a currency and an amount that read as [c] and [d]. *)
Lemma parse_reads sc a cur c d : normCurrency cur = Ok c → dec_parse (trim_space a) = Some d →
  0 ≤ Scale sc c → (∃ k, (value d == inject_Z k * pow10 (- Scale sc c))%Q) →
  ∃ m, Parse sc a cur = Ok m ∧ Currency m = c ∧ (value (Amount m) == value d)%Q.
Proof.
  intros Hcur Hd Hs Hk. unfold Parse. rewrite Hcur. cbn [rbind]. rewrite Hd.
  apply truncate_same in Hk as He; [|done].
  rewrite (proj2 (dec_equal_value _ _)) by done. rewrite andb_false_r.
  eexists. split; [reflexivity|]. split; [done|]. cbn. by symmetry.
Qed.

(** Parse never rounds: with a valid currency code and an amount that
    reads as the decimal [d] (whose exponent is not the least int32), it
    returns a Money of exactly [d]'s value when that is a whole number of the
    currency's smallest units, and ErrScale in every other case; a malformed
    currency and an unreadable amount are their own errors. *)
Theorem parse_exact_or_error sc a cur : scales_ok sc →
  match normCurrency cur, dec_parse (trim_space a) with
  | Err e, _ => Parse sc a cur = Err e ∧ e = ErrCurrency
  | Ok _, None => Parse sc a cur = Err ErrBadAmount
  | Ok c, Some d =>
      - 2 ^ 31 < exponent d < 2 ^ 31 →
      (∃ k m, (value d == inject_Z k * pow10 (- Scale sc c))%Q ∧ Parse sc a cur = Ok m ∧
         Currency m = c ∧ (value (Amount m) == value d)%Q ∧ in_units sc m k) ∨
      (¬ (∃ k, (value d == inject_Z k * pow10 (- Scale sc c))%Q) ∧ Parse sc a cur = Err ErrScale)
  end.
Proof.
  intros Hsc. destruct (normCurrency cur) as [c|e] eqn:Hcur; [|unfold Parse; rewrite Hcur].
  2:{ split; [done|]. unfold normCurrency in Hcur. case_match; congruence. }
  destruct (dec_parse (trim_space a)) as [d|] eqn:Hd; [|unfold Parse; by rewrite Hcur; cbn; rewrite Hd].
  intros He. specialize (Hsc c). destruct (dec_equal d (dec_truncate d (Scale sc c))) eqn:E.
  - left. pose proof E as Hv. apply dec_equal_value in Hv.
    pose proof (proj1 (truncate_same d _ Hsc) Hv) as Hat.
    destruct (parse_reads sc a cur c d Hcur Hd Hsc Hat) as (m & H1 & H2 & H3).
    destruct Hat as [k Hk]. exists k, m. split_and!; try done. unfold in_units. by rewrite H3, H2.
  - right. assert (¬ (∃ k, (value d == inject_Z k * pow10 (- Scale sc c))%Q)) as Hn.
    { intros H. apply truncate_same, dec_equal_value in H; [|done]. congruence. }
    split; [done|]. unfold Parse. rewrite Hcur. cbn [rbind]. rewrite Hd, E.
    rewrite bool_decide_true; [done|]. rewrite int32_small by (unfold in_int32; lia).
    destruct (decide (- exponent d ≤ Scale sc c)) as [Hle|]; [|lia].
    destruct (Hn (exponent_at_scale _ _ Hle)).
Qed.

(** The two IDL fields of a Money read back as the same Money: for an amount
    at its currency's scale and a currency code in normal form (which every
    constructor returns), Of applied to Parts succeeds and is Equal. *)
Theorem parts_roundtrip sc m : scales_ok sc → at_scale sc m → normCurrency (Currency m) = Ok (Currency m) →
  ∃ m', Of sc (Some (Parts sc m)) = Ok m' ∧ Equal m' m = true.
Proof.
  intros Hsc [c Hc] Hcur. unfold in_units in Hc. specialize (Hsc (Currency m)).
  destruct (parse_fixed (Amount m) (Scale sc (Currency m)) Hsc) as (b & Hb & Hv).
  apply (at_places_exact _ _ _ _ c half_up_rounding Hc) in Hv.
  destruct (parse_reads sc (String_ sc m) (Currency m) (Currency m) b) as (m' & H1 & H2 & H3);
    [done|done|done|by exists c; rewrite Hv|].
  exists m'. split; [done|]. unfold Equal. rewrite H2, String.eqb_refl. apply dec_equal_value.
  by rewrite H3.
Qed.

(** ** Rounding *)

(** How far and to which side each mode moves [x] (in smallest units). *)
Definition rounded (mode : Rounding) (x : Q) (u : Z) : Prop :=
  (x - 1 < inject_Z u < x + 1)%Q ∧
  match mode with
  | RoundDown => ((0 <= x → inject_Z u <= x) ∧ (x <= 0 → x <= inject_Z u))%Q
  | RoundUp => ((0 <= x → x <= inject_Z u) ∧ (x <= 0 → inject_Z u <= x))%Q
  | _ => (- (1 # 2) <= inject_Z u - x <= (1 # 2))%Q
  end ∧
  ∀ z, (x == inject_Z z)%Q → u = z.

Lemma rounded_spec mode x : rounded mode x (round_fun mode x).
Proof.
  split; [apply rnd_near, round_fun_rounding|]. split.
  - destruct mode; [apply half_up_near|apply trunc_bound|apply away_bound|apply half_even_near].
  - intros z. apply rnd_int, round_fun_rounding.
Qed.

(** Mul (and FromDecimal, whose currency it takes from the Money) rounds
    once: the result is a whole number of smallest units within one unit of the
    exact product, on the side the mode names, within half a unit for the two
    nearest modes, and exact when the product already is at scale. *)
Theorem mul_rounds_once sc m rate mode : scales_ok sc →
  ∃ u, Currency (Mul sc m rate mode) = Currency m ∧ in_units sc (Mul sc m rate mode) u ∧
    rounded mode (value (Amount m) * value rate * pow10 (Scale sc (Currency m)))%Q u.
Proof.
  intros Hsc. specialize (Hsc (Currency m)).
  pose proof (value_round_mode (dec_mul (Amount m) rate) _ mode Hsc) as Hr.
  eexists. split; [done|]. split; [exact Hr|].
  rewrite (rnd_proper _ _ (value (Amount m) * value rate * pow10 (Scale sc (Currency m)))%Q
    (round_fun_rounding mode)); [apply rounded_spec|by rewrite value_mul].
Qed.

(** ** Arithmetic stays at scale *)

(** Every Money the package's constructors and operations produce (the parts of
    Split and Allocate have their own theorems). *)
Inductive made (sc : scale_table) : Money D → Prop :=
| made_from_decimal d cur mode m : FromDecimal sc d cur mode = Ok m → made sc m
| made_parse a cur m : Parse sc a cur = Ok m → made sc m
| made_of t m : Of sc t = Ok m → made sc m
| made_zero cur : made sc (Zero cur)
| made_neg m : made sc m → made sc (Neg m)
| made_abs m : made sc m → made sc (Abs m)
| made_add m o r : made sc m → made sc o → Add m o = Ok r → made sc r
| made_sub m o r : made sc m → made sc o → Sub m o = Ok r → made sc r
| made_mul m rate mode : made sc m → made sc (Mul sc m rate mode)
| made_mul_string m rate mode r : made sc m → MulString sc m rate mode = Ok r → made sc r.

Lemma at_scale_places sc f q m : at_places f q (value (Amount m)) (Scale sc (Currency m)) → at_scale sc m.
Proof. intros H. eexists. exact H. Qed.

Lemma at_scale_parse sc a cur m : scales_ok sc → Parse sc a cur = Ok m → at_scale sc m.
Proof.
  intros Hsc. unfold Parse. intros [c [_ H]]%rbind_ok.
  destruct (dec_parse _) as [d|]; [|done]. case_match; [done|]. simplify_eq.
  eapply at_scale_places, value_truncate, Hsc.
Qed.

Lemma at_scale_mul sc m rate mode : scales_ok sc → at_scale sc (Mul sc m rate mode).
Proof. intros Hsc. eapply at_scale_places, (value_round_mode _ _ mode), Hsc. Qed.

Lemma at_scale_map sc m (d : D) (g : Z → Z) :
  (∀ c, in_units sc m c → (value d == inject_Z (g c) * pow10 (- Scale sc (Currency m)))%Q) →
  at_scale sc m → at_scale sc {| Amount := d; Currency := Currency m |}.
Proof. intros H [c Hc]. exists (g c). exact (H c Hc). Qed.

Lemma sub_units sc m o a b : Currency m = Currency o → in_units sc m a → in_units sc o b →
  in_units sc {| Amount := dec_sub (Amount m) (Amount o); Currency := Currency m |} (a - b).
Proof.
  unfold in_units. cbn. intros Hc Ha Hb. unfold Z.sub.
  rewrite value_sub, Ha, Hb, Hc, inject_Z_plus, inject_Z_opp. ring.
Qed.

(** No fraction of the smallest unit appears: whatever sequence of
    constructors and operations made a Money, its amount is a whole number
    of its currency's smallest units. *)
Theorem made_at_scale sc m : scales_ok sc → made sc m → at_scale sc m.
Proof.
  intros Hsc. induction 1 as [d cur mode m H|a cur m H|[[a cur]|] m H|cur|m _ IH|m _ IH
    |m o r _ [a Ha] _ [b Hb] H|m o r _ [a Ha] _ [b Hb] H|m rate mode _ _|m rate mode r _ _ H].
  - apply rbind_ok in H as (c & _ & [= <-]).
    eapply at_scale_places, (value_round_mode d _ mode), Hsc.
  - by eapply at_scale_parse.
  - by eapply at_scale_parse.
  - done.
  - exists 0. unfold in_units, Zero, dec_zero. cbn. rewrite value_new. change (inject_Z 0) with 0%Q. ring.
  - apply (at_scale_map sc m _ Z.opp); [|done]. intros c Hc. unfold in_units in Hc.
    rewrite value_neg, Hc, inject_Z_opp. ring.
  - apply (at_scale_map sc m _ Z.abs); [|done]. intros c Hc. unfold in_units in Hc.
    rewrite value_abs, (Qabs_wd _ _ Hc), Qabs_Qmult, (Qabs_pos (pow10 _)) by (apply Qlt_le_weak, pow10_pos).
    reflexivity.
  - apply rbind_ok in H as (u & Hs%same_spec & [= <-]). eexists. by apply at_scale_add.
  - apply rbind_ok in H as (u & Hs%same_spec & [= <-]). eexists. by apply sub_units.
  - by apply at_scale_mul.
  - unfold MulString in H. destruct (dec_parse _); [|done]. simplify_eq. by apply at_scale_mul.
Qed.

(** Two amounts are combined exactly when their currencies are the same: Add
    and Sub then return the exact sum and difference in that currency and
    Cmp the order of the values, and otherwise all three are
    ErrCurrencyMismatch. *)
Theorem arithmetic_exact m o :
  (Currency m = Currency o ∧
     (∃ r, Add m o = Ok r ∧ Currency r = Currency m ∧ (value (Amount r) == value (Amount m) + value (Amount o))%Q) ∧
     (∃ r, Sub m o = Ok r ∧ Currency r = Currency m ∧ (value (Amount r) == value (Amount m) - value (Amount o))%Q) ∧
     Cmp m o = Ok (cmp_sign (Qcompare (value (Amount m)) (value (Amount o)))) ∧
     (Equal m o = true ↔ (value (Amount m) == value (Amount o))%Q)) ∨
  (Currency m ≠ Currency o ∧ Add m o = Err ErrCurrencyMismatch ∧ Sub m o = Err ErrCurrencyMismatch ∧
     Cmp m o = Err ErrCurrencyMismatch ∧ Equal m o = false).
Proof.
  unfold Add, Sub, Cmp, Equal, same. destruct (String.eqb_spec (Currency m) (Currency o)); [left|by right].
  split; [done|]. cbn. split_and!.
  - eexists. split_and!; [reflexivity|reflexivity|]. cbn. apply value_add.
  - eexists. split_and!; [reflexivity|reflexivity|]. cbn. apply value_sub.
  - by rewrite cmp_value.
  - apply dec_equal_value.
Qed.
End Ops.

(** ** On the concrete decimal *)

Lemma scales_are_ok : scales_ok scales.
Proof.
  assert (map_Forall (λ _ s, 0 ≤ s) scales) as H by (apply (bool_decide_unpack _); vm_compute; exact I).
  intros c. unfold Scale. destruct (scales !! to_upper c) as [s|] eqn:E; [|lia].
  exact (H _ _ E).
Qed.

Lemma parse_exact_witness :
  Parse (D := fixed) scales "1234e-2" " usd " = Ok {| Amount := (1234, -2); Currency := "USD" |} ∧
  Parse (D := fixed) scales "12345e-3" "USD" = Err ErrScale.
Proof.
  split; [vm_compute; reflexivity|].
  destruct (parse_exact_or_error (D := fixed) scales "12345e-3" "USD" scales_are_ok)
    as [(k & m & _ & H & _)|[_ H]]; [vm_compute; split; reflexivity| |exact H].
  vm_compute in H. discriminate H.
Defined.

Definition bet : Money fixed := {| Amount := (1234, -2); Currency := "USD" |}.

Lemma parts_roundtrip_witness :
  ∃ m', Of scales (Some (Parts scales bet)) = Ok m'
  ∧ Equal m' bet = true.
Proof.
  apply (parts_roundtrip (D := fixed) scales bet);
    [exact scales_are_ok|exists 1234; by vm_compute|by vm_compute].
Defined.

Lemma mul_rounds_once_witness :
  Mul scales bet (185, -2) RoundUp = {| Amount := (2283, -2); Currency := "USD" |} ∧
  ∃ u, in_units scales (Mul scales bet (185, -2) RoundUp) u.
Proof.
  split; [vm_compute; reflexivity|].
  destruct (mul_rounds_once scales bet (185, -2) RoundUp scales_are_ok) as (u & _ & H & _).
  by exists u.
Defined.

Lemma made_at_scale_witness :
  at_scale scales (Neg (Mul scales bet (185, -2) RoundDown)).
Proof.
  apply (made_at_scale (D := fixed)); [exact scales_are_ok|].
  apply made_neg, made_mul, (made_parse scales "1234e-2" "usd"). vm_compute. reflexivity.
Defined.
