(* ===== verification/Idx.v ===== *)
(** * idx: unique 53-bit ids (idx/idx.go)

    [next] is Generator.Next with Go's int64 arithmetic, over the sequence [clk] of
    clock readings (milliseconds since Epoch) it observes and a fuel for the loop
    that waits for the next millisecond. The theorems: with a clock that goes on,
    Next returns; the ids of one generator are unique and fit in 53 bits, increase
    while its instance number stays, carry that number, and are disjoint from the
    ids of every other instance. *)
From Stdlib Require Import Sorting.
From S2P Require Import Prelude.

Definition timeBits : Z := 41.
Definition lowBits : Z := 12.
Definition totalBits : Z := timeBits + lowBits.
Definition DefaultInstanceBits : Z := 5.
Definition MaxID : Z := Z.shiftl 1 totalBits - 1.

Record Config : Type := { InstanceBits : Z }.

Definition instanceBits (c : Config) : Z :=
  if Z.eqb (InstanceBits c) 0 then DefaultInstanceBits else InstanceBits c.

(** Config.Validate: [true] is no error. *)
Definition Validate (c : Config) : bool :=
  negb (bool_decide (instanceBits c < 1) || bool_decide (10 < instanceBits c)).

(** What Next reads and writes of a Generator. *)
Record Generator : Type := Gen {
  g_instance : Z; g_lastMs : Z; g_seq : Z;
  g_instanceBits : Z; g_seqBits : Z;
  g_unleased : bool }.

Definition maxInstance (g : Generator) : Z := Z.shiftl 1 (g_instanceBits g) - 1.
Definition maxSeq (g : Generator) : Z := Z.shiftl 1 (g_seqBits g) - 1.

(** The generator New builds once it knows its instance number. *)
Definition new_generator (c : Config) (instance : Z) (unleased : bool) : Generator :=
  Gen instance 0 0 (instanceBits c) (lowBits - instanceBits c) unleased.

(** Where New takes the number from when there is no Redis. *)
Inductive source : Type := FromEnv (n : Z) | Unleased | FromHostname (n : Z).
Inductive new_error : Type := ErrConfig | ErrInstanceEnv.

Definition New_without_redis (c : Config) (env : string) (local : bool) (fnv32 : Z) :
    result (Generator * source) new_error :=
  if negb (Validate c) then Err ErrConfig else
  let g := new_generator c 0 false in
  if negb (String.eqb env "") then
    match parse_int env with
    | Some n => if bool_decide (n < 0) || bool_decide (maxInstance g < n) then Err ErrInstanceEnv
                else Ok (new_generator c n false, FromEnv n)
    | None => Err ErrInstanceEnv
    end
  else if negb local then Ok (new_generator c 0 true, Unleased)
  else let n := Z.land fnv32 (maxInstance g) in Ok (new_generator c n false, FromHostname n).

Section Next.
Variable clk : nat → Z.

(** [for now <= g.lastMs { time.Sleep(50us); now = <clock> }] *)
Fixpoint wait_past (fuel : nat) (i : nat) (now last : Z) : option (Z * nat) :=
  if bool_decide (now ≤ last) then
    match fuel with
    | O => None
    | S fuel => wait_past fuel (S i) (clk i) last
    end
  else Some (now, i).

Definition make_id (g : Generator) (now seq : Z) : Z :=
  Z.lor (Z.lor (int64 (Z.shiftl now lowBits)) (int64 (Z.shiftl (g_instance g) (g_seqBits g)))) seq.

Definition stamped (g : Generator) (now seq : Z) : Generator :=
  Gen (g_instance g) now seq (g_instanceBits g) (g_seqBits g) (g_unleased g).

(** Next, from clock reading number [i] on: the id, the generator and the number
    of the next reading. [None]: the fuel of the wait ran out. *)
Definition next (fuel i : nat) (g : Generator) : option (outcome (Z * Generator * nat)) :=
  if g_unleased g then Some Panics else
  let finish now seq i := Some (Returns (make_id g now seq, stamped g now seq, i)) in
  let now := clk i in
  let now := if bool_decide (now < g_lastMs g) then g_lastMs g else now in
  if Z.eqb now (g_lastMs g) then
    let seq := int64 (g_seq g + 1) in
    if bool_decide (maxSeq g < seq) then
      match wait_past fuel (S i) now (g_lastMs g) with
      | None => None
      | Some (now, i) => finish now 0 i
      end
    else finish now seq (S i)
  else finish now 0 (S i).
End Next.

(** Time, in milliseconds since Epoch, and Instance of an id. *)
Definition Time (id : Z) : Z := Z.shiftr id lowBits.
Definition Instance (id bits : Z) : Z :=
  let bits := if Z.eqb bits 0 then DefaultInstanceBits else bits in
  Z.land (Z.shiftr id (lowBits - bits)) (Z.shiftl 1 bits - 1).

(** ** Layout *)

Definition gen_wf (g : Generator) : Prop :=
  1 ≤ g_instanceBits g ≤ 10 ∧ g_seqBits g = lowBits - g_instanceBits g ∧
  0 ≤ g_instance g ≤ maxInstance g ∧ 0 ≤ g_lastMs g < 2 ^ timeBits ∧ 0 ≤ g_seq g ≤ maxSeq g.

(** What the clock reads until 2095. *)
Definition clock_ok (clk : nat → Z) : Prop := ∀ i, 0 ≤ clk i < 2 ^ timeBits.

Lemma shiftl_one n : 0 ≤ n → Z.shiftl 1 n = 2 ^ n.
Proof. intros Hn. rewrite Z.shiftl_mul_pow2 by done. lia. Qed.

Lemma low_bits_fit a b inst seq : 0 ≤ inst ≤ a - 1 → 0 ≤ seq ≤ b - 1 → inst * b + seq < a * b.
Proof. intros H1 H2. assert (inst * b ≤ (a - 1) * b) by (apply Z.mul_le_mono_nonneg_r; lia). lia. Qed.

Lemma make_id_value g now seq :
  gen_wf g → 0 ≤ now < 2 ^ timeBits → 0 ≤ seq ≤ maxSeq g →
  make_id g now seq = now * 2 ^ lowBits + g_instance g * 2 ^ g_seqBits g + seq.
Proof.
  unfold gen_wf, maxInstance, maxSeq, timeBits, lowBits. intros (Hb & Hs & Hi & _ & _) Hn Hq.
  rewrite shiftl_one in Hi, Hq by lia. unfold make_id, lowBits.
  assert (2 ^ 12 = 2 ^ g_instanceBits g * 2 ^ g_seqBits g) as Hp
    by (rewrite <- Z.pow_add_r by lia; f_equal; lia).
  assert (0 < 2 ^ g_instanceBits g) by (apply Z.pow_pos_nonneg; lia).
  assert (0 < 2 ^ g_seqBits g) by (apply Z.pow_pos_nonneg; lia).
  rewrite !Z.shiftl_mul_pow2 by lia.
  assert (g_instance g * 2 ^ g_seqBits g + seq < 2 ^ 12) by (rewrite Hp; by apply low_bits_fit).
  assert (0 ≤ now * 2 ^ 12 < 2 ^ 53) by (change (2 ^ 53) with (2 ^ 41 * 2 ^ 12); nia).
  assert (0 ≤ g_instance g * 2 ^ g_seqBits g) by nia.
  rewrite !int64_small by (unfold in_int64; lia).
  rewrite <- Z.lor_assoc, <- (Z.shiftl_mul_pow2 (g_instance g)), lor_shiftl_add by lia.
  rewrite <- (Z.shiftl_mul_pow2 now), lor_shiftl_add by lia.
  rewrite ?Z.shiftl_mul_pow2 by lia. lia.
Qed.

Lemma id_fields ms inst seq b :
  1 ≤ b ≤ 10 → 0 ≤ ms < 2 ^ timeBits → 0 ≤ inst < 2 ^ b → 0 ≤ seq < 2 ^ (12 - b) →
  let id := ms * 2 ^ lowBits + inst * 2 ^ (12 - b) + seq in
  0 ≤ id ≤ MaxID ∧ Time id = ms ∧ Instance id b = inst ∧ id mod 2 ^ (12 - b) = seq.
Proof.
  unfold timeBits, lowBits. intros Hb Hm Hi Hs. cbn zeta. set (id := _ + seq).
  assert (2 ^ 12 = 2 ^ b * 2 ^ (12 - b)) as Hp by (rewrite <- Z.pow_add_r by lia; f_equal; lia).
  assert (0 < 2 ^ b) by (apply Z.pow_pos_nonneg; lia).
  assert (0 < 2 ^ (12 - b)) by (apply Z.pow_pos_nonneg; lia).
  assert (inst * 2 ^ (12 - b) + seq < 2 ^ 12) by (rewrite Hp; apply low_bits_fit; lia).
  split_and!.
  - unfold id. nia.
  - unfold MaxID, totalBits, timeBits, lowBits. rewrite shiftl_one by lia.
    change (2 ^ (41 + 12)) with (2 ^ 41 * 2 ^ 12). unfold id. nia.
  - unfold Time, lowBits. rewrite Z.shiftr_div_pow2 by lia. symmetry.
    apply Z.div_unique_pos with (inst * 2 ^ (12 - b) + seq); unfold id; nia.
  - unfold Instance, lowBits. rewrite (proj2 (Z.eqb_neq b 0)) by lia.
    rewrite shiftl_one, Z.shiftr_div_pow2 by lia.
    replace (2 ^ b - 1) with (Z.ones b) by (rewrite Z.ones_equiv; lia).
    rewrite Z.land_ones by lia.
    assert (id / 2 ^ (12 - b) = ms * 2 ^ b + inst) as ->
      by (symmetry; apply Z.div_unique_pos with seq; unfold id; nia).
    rewrite Z.add_comm, Z.mod_add by lia. apply Z.mod_small. lia.
  - symmetry. apply Z.mod_unique_pos with (ms * 2 ^ b + inst); unfold id; nia.
Qed.

(** ** One call *)

Lemma wait_past_spec clk fuel i now last now' i' :
  wait_past clk fuel i now last = Some (now', i') → last < now' ∧ (now' = now ∨ ∃ j, now' = clk j).
Proof.
  revert i now. induction fuel as [|fuel IH]; intros i now; cbn; case_bool_decide; try done.
  - intros [= <- <-]. split; [lia|by left].
  - intros [H1 H2]%IH. split; [done|]. right. destruct H2; eauto.
  - intros [= <- <-]. split; [lia|by left].
Qed.

Lemma wait_past_ends clk i now last j : (i ≤ j)%nat → last < clk j →
  ∃ n, ∀ fuel, (n ≤ fuel)%nat → is_Some (wait_past clk fuel i now last).
Proof.
  intros Hij Hj. exists (S (j - i)). intros fuel Hf. remember (j - i)%nat as d eqn:Hd.
  revert i now fuel Hij Hd Hf. induction d as [|d IH]; intros i now fuel Hij Hd Hf;
    (destruct fuel as [|fuel]; [lia|]); cbn; case_bool_decide; try by eexists.
  - assert (i = j) as -> by lia. destruct fuel; cbn; rewrite bool_decide_false by lia; eauto.
  - apply IH; lia.
Qed.

(** What a returning Next did: [ms], [seq] is a later stamp than the last one. *)
Lemma next_returns clk fuel i g id g' i' : clock_ok clk → gen_wf g →
  next clk fuel i g = Some (Returns (id, g', i')) →
  gen_wf g' ∧ g' = stamped g (g_lastMs g') (g_seq g') ∧ id = make_id g (g_lastMs g') (g_seq g') ∧
  (g_lastMs g < g_lastMs g' ∨ g_lastMs g = g_lastMs g' ∧ g_seq g < g_seq g').
Proof.
  intros Hc Hwf. unfold next. destruct (g_unleased g) eqn:Hu; [done|].
  pose proof Hwf as (Hb & Hs & Hi & Hl & Hq).
  assert (0 ≤ maxSeq g) as Hmax by lia.
  set (now := if bool_decide (clk i < g_lastMs g) then g_lastMs g else clk i).
  assert (g_lastMs g ≤ now < 2 ^ timeBits) as Hnow.
  { unfold now. specialize (Hc i). case_bool_decide; lia. }
  destruct (Z.eqb_spec now (g_lastMs g)) as [He|He]; [case_bool_decide as Hfull|].
  - destruct (wait_past _ _ _ _ _) as [[now' i1]|] eqn:Hw; [|done]. intros [= <- <- <-].
    apply wait_past_spec in Hw as [Hgt Hw]. assert (now' < 2 ^ timeBits).
    { destruct Hw as [->|[j ->]]; [lia|]. apply Hc. }
    unfold gen_wf, maxInstance, maxSeq, stamped in *. cbn. split_and!; try done; try lia.
  - intros [= <- <- <-].
    assert (maxSeq g < 2 ^ 12) as H12.
    { unfold maxSeq. rewrite shiftl_one by (unfold lowBits in Hs; lia).
      pose proof (Z.pow_lt_mono_r 2 (g_seqBits g) 12). unfold lowBits in Hs. lia. }
    rewrite int64_small in * by (unfold in_int64; lia).
    unfold gen_wf, maxInstance, maxSeq, stamped in *. cbn. split_and!; try done; try lia.
  - intros [= <- <- <-].
    unfold gen_wf, maxInstance, maxSeq, stamped in *. cbn. split_and!; try done; try lia.
Qed.

(** A Next call of a numbered generator returns: while the clock goes on (it
    reads, sometime, more than the last stamp), some number of rounds of the
    waiting loop is enough, and more do not hurt; the id is between 0 and
    2^53-1, carries the generator's instance number and the millisecond it is
    stamped with. A generator without a number panics, whatever the clock. *)
Theorem next_returns_id clk i g : clock_ok clk → gen_wf g →
  (g_unleased g = true → ∀ fuel, next clk fuel i g = Some Panics) ∧
  (g_unleased g = false → (∃ j, (i < j)%nat ∧ g_lastMs g < clk j) →
   ∃ n, ∀ fuel, (n ≤ fuel)%nat → ∃ id g' i', next clk fuel i g = Some (Returns (id, g', i')) ∧
     gen_wf g' ∧ 0 ≤ id ≤ MaxID ∧ Instance id (g_instanceBits g) = g_instance g ∧
     Time id = g_lastMs g' ∧ g_lastMs g ≤ g_lastMs g').
Proof.
  intros Hc Hwf. split; [by intros Hu fuel; unfold next; rewrite Hu|].
  intros Hu (j & Hij & Hj).
  destruct (wait_past_ends clk (S i) (if bool_decide (clk i < g_lastMs g) then g_lastMs g else clk i)
    (g_lastMs g) j) as [n Hn]; [lia|done|].
  exists n. intros fuel Hf. assert (∃ x, next clk fuel i g = Some (Returns x)) as [[[id g'] i'] E].
  { unfold next. rewrite Hu. destruct (Hn fuel Hf) as [[now' i1] Hw].
    repeat case_match; simplify_eq; eauto. }
  destruct (next_returns clk fuel i g id g' i' Hc Hwf E) as (Hwf' & Hg & Hid & Hlt).
  exists id, g', i'. split; [done|]. split; [done|].
  pose proof Hwf as (Hb & Hs & Hi & _). pose proof Hwf' as (_ & _ & _ & Hl' & Hq').
  unfold maxInstance in Hi. rewrite shiftl_one in Hi by lia.
  rewrite Hg in Hq'. unfold maxSeq, stamped in Hq'. cbn in Hq'.
  rewrite make_id_value in Hid by done. rewrite Hs in Hid. unfold lowBits in Hs.
  rewrite shiftl_one in Hq' by lia. rewrite Hs in Hq'.
  destruct (id_fields (g_lastMs g') (g_instance g) (g_seq g') (g_instanceBits g)) as (H1 & H2 & H3 & _);
    [done|done|lia|lia|].
  unfold lowBits in *. subst id. split_and!; try done; lia.
Qed.

(** ** Sequences of calls *)

(** keep gives a generator a new number when its lease went to another replica. *)
Definition moved (g : Generator) (n : Z) : Generator :=
  Gen n (g_lastMs g) (g_seq g) (g_instanceBits g) (g_seqBits g) (g_unleased g).

(** The ids of a run of Next calls, with moves between them when [moves]. *)
Inductive gen_run (clk : nat → Z) (moves : bool) : Generator → nat → list Z → Prop :=
| run_done g i : gen_run clk moves g i []
| run_next g i fuel id g' i' ids :
    next clk fuel i g = Some (Returns (id, g', i')) →
    gen_run clk moves g' i' ids → gen_run clk moves g i (id :: ids)
| run_move g i n ids :
    moves = true → 0 ≤ n ≤ maxInstance g →
    gen_run clk moves (moved g n) i ids → gen_run clk moves g i ids.

(** The moment of an id and its place in it, in one number. *)
Definition stamp (b : Z) (id : Z) : Z := Time id * 2 ^ lowBits + id mod 2 ^ (lowBits - b).
Definition gen_stamp (g : Generator) : Z := g_lastMs g * 2 ^ lowBits + g_seq g.

Lemma next_stamps clk fuel i g id g' i' : clock_ok clk → gen_wf g →
  next clk fuel i g = Some (Returns (id, g', i')) →
  gen_wf g' ∧ g_instance g' = g_instance g ∧ g_instanceBits g' = g_instanceBits g ∧
  gen_stamp g < gen_stamp g' ∧ stamp (g_instanceBits g) id = gen_stamp g' ∧
  0 ≤ id ≤ MaxID ∧ Instance id (g_instanceBits g) = g_instance g ∧
  id = gen_stamp g' + g_instance g * 2 ^ (lowBits - g_instanceBits g).
Proof.
  intros Hc Hwf E. destruct (next_returns clk fuel i g id g' i' Hc Hwf E) as (Hwf' & Hg & Hid & Hlt).
  pose proof Hwf as (Hb & Hs & Hi & Hl0 & Hq0). pose proof Hwf' as (_ & _ & _ & Hl & Hq).
  assert (g_instance g' = g_instance g ∧ g_instanceBits g' = g_instanceBits g) as [Ei Eb]
    by (rewrite Hg; done).
  assert (maxSeq g' = maxSeq g) as Em by (rewrite Hg; done). rewrite Em in Hq.
  rewrite make_id_value in Hid by done. unfold maxInstance, maxSeq, lowBits in *.
  rewrite shiftl_one in Hi, Hq, Hq0 by lia. rewrite Hs in *.
  destruct (id_fields (g_lastMs g') (g_instance g) (g_seq g') (g_instanceBits g)) as (H1 & H2 & H3 & H4);
    [lia|done|lia|lia|]. unfold lowBits in *. rewrite <- Hid in *.
  assert (2 ^ (12 - g_instanceBits g) ≤ 2 ^ 12) by (apply Z.pow_le_mono_r; lia).
  unfold stamp, gen_stamp, lowBits. rewrite H2, H4. split_and!; try done; try lia.
Qed.

Lemma run_stamps clk moves g i ids : clock_ok clk → gen_run clk moves g i ids → gen_wf g →
  Forall (λ id, gen_stamp g < stamp (g_instanceBits g) id ∧ 0 ≤ id ≤ MaxID ∧
    (moves = false → Instance id (g_instanceBits g) = g_instance g ∧
       id = stamp (g_instanceBits g) id + g_instance g * 2 ^ (lowBits - g_instanceBits g))) ids ∧
  StronglySorted (λ a b, stamp (g_instanceBits g) a < stamp (g_instanceBits g) b) ids.
Proof.
  intros Hc. induction 1 as [g i|g i fuel id g' i' ids E _ IH|g i n ids Hm Hn _ IH]; intros Hwf.
  - split; constructor.
  - destruct (next_stamps _ _ _ _ _ _ _ Hc Hwf E) as (Hwf' & Ei & Eb & Hlt & Hst & Hr & Hin & Hv).
    destruct (IH Hwf') as [HF HS]. rewrite Ei, Eb in *. split.
    + constructor; [split_and!; [lia|lia|lia|intros _; split; lia]|].
      eapply Forall_impl; [exact HF|]. cbn. intros x (H1 & H2 & H3). split_and!; [lia|lia|lia|done].
    + constructor; [exact HS|]. eapply Forall_impl; [exact HF|]. cbn. intros x (H1 & _). lia.
  - assert (gen_wf (moved g n)) as Hwf'.
    { destruct Hwf as (H1 & H2 & _ & H4 & H5). unfold gen_wf, moved, maxInstance, maxSeq in *. by cbn. }
    destruct (IH Hwf') as [HF HS]. split; [|exact HS].
    eapply Forall_impl; [exact HF|]. cbn. intros x (H1 & H2 & H3). split_and!; [done|lia|lia|].
    intros Hmf. congruence.
Qed.

Lemma sorted_nodup {A} (f : A → Z) l : StronglySorted (λ a b, f a < f b) l → NoDup l.
Proof.
  induction 1 as [|x l _ IH H]; constructor; [|done]. intros Hx.
  rewrite Forall_forall in H. specialize (H x Hx). lia.
Qed.

(** C36. The ids one generator hands out, whatever the clock does (standing still,
    going back, the sequence running over) and also when its instance number is
    changed between calls, are all different and all between 0 and
    2^53-1; while the number stays the same they strictly increase. *)
Theorem ids_unique_increasing clk moves g i ids : clock_ok clk → gen_wf g →
  gen_run clk moves g i ids →
  NoDup ids ∧ Forall (λ id, 0 ≤ id ≤ MaxID) ids ∧ (moves = false → StronglySorted Z.lt ids).
Proof.
  intros Hc Hwf Hr. destruct (run_stamps _ _ _ _ _ Hc Hr Hwf) as [HF HS].
  split; [by eapply sorted_nodup|]. split; [eapply Forall_impl; [exact HF|]; naive_solver|].
  intros Hm. clear Hr. induction HS as [|x l HS IH H]; constructor.
  - apply IH. by inversion HF.
  - apply Forall_cons in HF as [Hx HF]. rewrite Forall_forall in *. intros y Hy.
    destruct (proj2 (proj2 Hx) Hm) as [_ Ex]. destruct (HF y Hy) as (_ & _ & Hy').
    destruct (Hy' Hm) as [_ Ey]. specialize (H y Hy). lia.
Qed.

(** Two generators with different instance numbers (and the same split)
    never make the same id, whatever their clocks do. *)
Theorem instances_disjoint clk1 clk2 g1 g2 i1 i2 ids1 ids2 id :
  clock_ok clk1 → clock_ok clk2 → gen_wf g1 → gen_wf g2 →
  g_instanceBits g1 = g_instanceBits g2 → g_instance g1 ≠ g_instance g2 →
  gen_run clk1 false g1 i1 ids1 → gen_run clk2 false g2 i2 ids2 →
  id ∈ ids1 → id ∉ ids2.
Proof.
  intros Hc1 Hc2 Hw1 Hw2 Hb Hne Hr1 Hr2 H1 H2.
  destruct (run_stamps _ _ _ _ _ Hc1 Hr1 Hw1) as [HF1 _].
  destruct (run_stamps _ _ _ _ _ Hc2 Hr2 Hw2) as [HF2 _].
  rewrite Forall_forall in HF1, HF2.
  destruct (HF1 id H1) as (_ & _ & E1). destruct (HF2 id H2) as (_ & _ & E2).
  destruct (E1 eq_refl) as [E1' _]. destruct (E2 eq_refl) as [E2' _]. congruence.
Qed.

(** ** Witnesses *)

(** A clock that stands still for three readings, goes back, then goes on. *)
Definition sample_clock (i : nat) : Z :=
  match i with 0%nat | 1%nat | 2%nat => 1000 | 3%nat => 998 | _ => 1000 + Z.of_nat i end.
Definition sample_gen : Generator := new_generator {| InstanceBits := 10 |} 5 false.

Lemma sample_gen_wf : gen_wf sample_gen.
Proof. unfold gen_wf. vm_compute. intuition discriminate. Qed.

(** The same clock, standing still in the end. *)
Definition still_clock (i : nat) : Z := sample_clock (Nat.min i 20).

Lemma still_clock_ok : clock_ok still_clock.
Proof.
  intros i. unfold still_clock, timeBits. assert (Nat.min i 20 <= 20)%nat as H by lia.
  remember (Nat.min i 20) as n eqn:E. clear E.
  do 21 (destruct n as [|n]; [vm_compute; intuition discriminate|]). lia.
Qed.

Lemma next_returns_id_witness : ∃ n, ∀ fuel, (n ≤ fuel)%nat →
  ∃ id g' i', next still_clock fuel 0 sample_gen = Some (Returns (id, g', i')) ∧ 0 ≤ id ≤ MaxID.
Proof.
  destruct (next_returns_id still_clock 0 sample_gen still_clock_ok sample_gen_wf) as [_ H].
  destruct (H eq_refl) as [n Hn]; [exists 1%nat; split; [lia|by vm_compute]|].
  exists n. intros fuel Hf. destruct (Hn fuel Hf) as (id & g' & i' & E & _ & Hr & _). eauto.
Defined.

Lemma sample_run : ∃ ids, gen_run still_clock false sample_gen 0 ids ∧ length ids = 6%nat ∧
  ids = [4096020; 4096021; 4096022; 4096023; 4112404; 4116500].
Proof.
  eexists. split; [|split; [|reflexivity]].
  - do 6 (eapply (run_next _ _ _ _ 30); [vm_compute; reflexivity|]). apply run_done.
  - reflexivity.
Qed.

Lemma ids_unique_witness :
  NoDup [4096020; 4096021; 4096022; 4096023; 4112404; 4116500] ∧
  StronglySorted Z.lt [4096020; 4096021; 4096022; 4096023; 4112404; 4116500].
Proof.
  destruct sample_run as (ids & Hr & _ & Hids). subst ids.
  destruct (ids_unique_increasing _ _ _ _ _ still_clock_ok sample_gen_wf Hr) as (H1 & _ & H3).
  split; [exact H1|exact (H3 eq_refl)].
Defined.

Lemma instances_disjoint_witness : 4096020 ∉ [4096012; 4096013].
Proof.
  destruct sample_run as (ids & Hr & _ & Hids). subst ids.
  refine (instances_disjoint still_clock still_clock sample_gen (moved sample_gen 3) 0 0 _ _ 4096020
    still_clock_ok still_clock_ok sample_gen_wf _ _ _ Hr _ _).
  - unfold gen_wf. vm_compute. intuition discriminate.
  - reflexivity.
  - discriminate.
  - do 2 (eapply (run_next _ _ _ _ 30); [vm_compute; reflexivity|]). apply run_done.
  - apply list_elem_of_here.
Defined.
