(* ===== verification/IdxLease.v ===== *)
(** * idx: the lease of an instance number (idx/idx.go, lease, keep, Close)

    The generator's background half as programs over Redis: [lease] takes the
    first free number, [keep_tick] is one round of keep's loop, [Close] gives
    the number back. The Lua scripts are [CIfGet] with the token test. *)
From S2P Require Import Prelude Prog Redis Idx.

(** string.find(s, t, 1, true) of Lua: [t] occurs in [s]. *)
Fixpoint contains (t s : string) : bool :=
  has_prefix t s || match s with "" => false | String _ s' => contains t s' end.

Definition leaseTTL : Z := 90000.   (* milliseconds *)
Definition renewEvery : Z := 30000.

(** The part of a Generator that names it in Redis. *)
Record Leaser : Type := { service : string; token : string; hostname : string }.

Inductive lease_error : Type := ErrLease | ErrAllLeased.

Section Lease.
Variable w : Leaser.

Definition key (n : Z) : string := "idx:" +:+ service w +:+ ":" +:+ format_int n.
Definition val : string := hostname w +:+ "/" +:+ token w.

Definition lease_body (n : Z) : prog redisE (option (result Z lease_error)) :=
  let* r := rcall (CWrite (WSetNX (key n) val leaseTTL)) in
  match r with
  | Err _ => Ret (Some (Err ErrLease))
  | Ok k => Ret (if Z.eqb k 1 then Some (Ok n) else None)
  end.

Definition lease (maxInstance : Z) : prog redisE (result Z lease_error) :=
  let* r := for_each (seqZ 0 (maxInstance + 1)) lease_body in
  Ret (match r with Some x => x | None => Err ErrAllLeased end).

(** The value of the key has this generator's token in it (ARGV[1]). *)
Definition holds_token (o : option string) : bool :=
  contains (token w) (match o with Some s => s | None => "" end).

Definition renewScript (n : Z) : rcmd Z :=
  CIfGet (key n) holds_token (WPExpire (key n) leaseTTL).
Definition releaseScript (n : Z) : rcmd Z := CIfGet (key n) holds_token (WDel (key n)).

(** One tick of keep: the generator it leaves. *)
Definition keep_tick (g : Generator) : prog redisE Generator :=
  let* res := rcall (renewScript (g_instance g)) in
  match res with
  | Ok 0 =>
      let* ok := rcall (CWrite (WSetNX (key (g_instance g)) val leaseTTL)) in
      match ok with
      | Err _ => Ret g
      | Ok 1 => Ret g
      | Ok _ =>
          let* n := lease (maxInstance g) in
          match n with
          | Ok n => Ret (moved g n)
          | Err _ => Ret g
          end
      end
  | Ok _ => Ret g
  | Err _ => Ret g
  end.

(** Close, after keep's loop stopped; [false]: the error is returned. *)
Definition Close (g : Generator) : prog redisE bool :=
  let* r := rcall (releaseScript (g_instance g)) in
  Ret (is_ok r).

(** New with Redis. *)
Definition New (c : Config) : prog redisE (result Generator (new_error + lease_error)) :=
  if negb (Validate c) then Ret (Err (inl ErrConfig)) else
  let* r := lease (maxInstance (new_generator c 0 false)) in
  Ret (match r with
       | Ok n => Ok (new_generator c n false)
       | Err e => Err (inr e)
       end).

(** ** Other replicas' leases *)

Lemma frame_lease m k s : frame (lease m) k s.
Proof.
  apply frame_bind; [|intros; apply frame_ret]. apply frame_for_each. intros n.
  apply frame_bind; [apply frame_setnx|]. intros [|]; apply frame_ret.
Qed.

Lemma frame_keep_tick g k s : contains (token w) s = false → frame (keep_tick g) k s.
Proof.
  intros Hs. apply frame_bind; [by apply frame_if_get|].
  intros [[|z|z]|]; try apply frame_ret.
  apply frame_bind; [apply frame_setnx|].
  intros [[|[z|z|]|z]|]; try apply frame_ret;
    (apply frame_bind; [apply frame_lease|intros [|]; apply frame_ret]).
Qed.
End Lease.

(** ** What a lease takes *)

Section Taken.
Variable w : Leaser.

(** The lease's own guarantee, against any interference and any fault. *)
Lemma lease_taken max v :
  wp (λ _ _, True) (@redis_allows) (lease w max)
    (λ r v', match r with
             | Ok n => 0 ≤ n ≤ max ∧ held (key w n) (val w) v'
             | Err _ => True
             end) v.
Proof.
  apply wp_bind. apply (wp_for_each _ _ _ _ (λ xs _, Forall (λ n, 0 ≤ n ≤ max) xs)).
  - intros n rest v1 [Hn Hrest]%Forall_cons. unfold lease_body. intros v2 v3 x _ Ha. cbn in *.
    destruct x as [x|]; cbn; [|done].
    destruct (look v2 (key w n)) eqn:E; simplify_eq; cbn; [done|].
    split; [done|]. unfold held. apply look_put_eq.
  - done.
  - apply Forall_forall. intros n Hn%elem_of_seqZ. lia.
Qed.

Lemma key_inj n m : in_int64 n → in_int64 m → key w n = key w m → n = m.
Proof.
  intros Hn Hm H. unfold key in H. apply sapp_inj_l, sapp_inj_l, sapp_inj_l in H.
  by apply format_int_inj.
Qed.

Lemma new_generator_wf c n : Validate c = true → 0 ≤ n ≤ maxInstance (new_generator c 0 false) →
  gen_wf (new_generator c n false).
Proof.
  unfold Validate. intros Hv Hn. apply negb_true_iff, orb_false_iff in Hv as [H1 H2].
  apply bool_decide_eq_false in H1, H2.
  unfold gen_wf, maxInstance, maxSeq, new_generator, timeBits, lowBits in *. cbn in *.
  rewrite (shiftl_one (12 - _)) by lia.
  assert (1 ≤ 2 ^ (12 - instanceBits c)) by (apply Z.pow_pos_nonneg || (pose proof (Z.pow_pos_nonneg 2 (12 - instanceBits c)); lia)).
  split_and!; try lia.
Qed.

Lemma new_taken c v :
  wp (λ _ _, True) (@redis_allows) (New w c)
    (λ r v', match r with
             | Ok g => gen_wf g ∧ held (key w (g_instance g)) (val w) v'
             | Err _ => True
             end) v.
Proof.
  unfold New. destruct (Validate c) eqn:Hv; [|done]. cbn [negb].
  apply wp_bind. eapply wp_mono, lease_taken. intros [n|e] v'; cbn -[new_generator]; [|done].
  intros [Hn Hh]. split; [by apply new_generator_wf|done].
Qed.
End Taken.

(** The three entry points a replica runs: at start, every 30 s, at shutdown. *)
Inductive lease_program (w : Leaser) : ∀ A, prog redisE A → Prop :=
| program_new c : lease_program w _ (New w c)
| program_tick g : lease_program w _ (keep_tick w g)
| program_close g : lease_program w _ (Close w g).

Lemma lease_program_frame w A (p : prog redisE A) k s :
  lease_program w A p → contains (token w) s = false → frame p k s.
Proof.
  intros Hp Hs. destruct Hp; [| |].
  - unfold New. destruct (negb _); [apply frame_ret|].
    apply frame_bind; [apply frame_lease|intros; apply frame_ret].
  - by apply frame_keep_tick.
  - apply frame_bind; [by apply frame_if_get|intros; apply frame_ret].
Qed.

(** A replica never takes, prolongs or frees another replica's lease:
    whatever New, a tick of keep or Close do, with replies lost at any point and
    other clients interleaving, a key whose value does not carry the
    replica's own token keeps that value. *)
Theorem others_lease_untouched {S} w A (p : prog redisE A) k s
    (h : ∀ X, redisE X → S → S * X) (view : S → rview) `{!Lawful h view (@redis_allows)}
    (env : nat → S → S) n st :
  lease_program w A p → contains (token w) s = false →
  (∀ m x, keeps_held k s (view x) (view (env m x))) →
  held k s (view st) → held k s (view (fst (run_env h env n p st))).
Proof.
  intros Hp Hs. apply (frame_run h view env p k s n st). by eapply lease_program_frame.
Qed.

(** ** What the commands of a replica do, one by one *)

Section Commands.
Variable w : Leaser.

Lemma contains_prefix t s : has_prefix t s = true → contains t s = true.
Proof. intros H. destruct s; cbn [contains]; by rewrite H. Qed.

Lemma contains_behind t a : contains t (a +:+ t) = true.
Proof.
  induction a as [|c a IH]; [|change (String c a +:+ t) with (String c (a +:+ t)); cbn [contains]; by rewrite IH, orb_true_r].
  apply contains_prefix. unfold has_prefix. pose proof (strip_prefix_app t "") as H. rewrite sapp_nil_r in H.
  change ("" +:+ t) with t. by rewrite H.
Qed.

Lemma holds_own : holds_token w (Some (val w)) = true.
Proof. unfold holds_token, val. rewrite <- sapp_assoc. apply contains_behind. Qed.

Lemma leaves_lease m k s : every_call (@redis_allows) (leaves k s) (lease w m).
Proof.
  apply every_call_bind; [|done]. apply leaves_for_each. intros n. apply every_call_bind; [apply leaves_setnx|by intros []].
Qed.

Lemma leaves_program A (p : prog redisE A) k s : lease_program w A p → contains (token w) s = false →
  every_call (@redis_allows) (leaves k s) p.
Proof.
  intros Hp Hs. destruct Hp as [c|g|g].
  - unfold New. destruct (negb _); [done|]. apply every_call_bind; [apply leaves_lease|done].
  - apply every_call_bind; [by apply leaves_if_get|]. intros [[|z|z]|]; try done.
    apply every_call_bind; [apply leaves_setnx|]. intros [[|[z|z|]|z]|]; try done;
      (apply every_call_bind; [apply leaves_lease|by intros []]).
  - apply every_call_bind; [by apply leaves_if_get|done].
Qed.

Section runs.
Context {S : Type} (h : ∀ X, redisE X → S → S * X) (view : S → rview) `{HL : !Lawful h view (@redis_allows)} (env : nat → S → S).

(** Some command of the run found the number's key free and wrote this replica's value there. *)
Definition leased {A} (m : nat) (p : prog redisE A) (st : S) (n : Z) : Prop :=
  ∃ x, x ∈ run_steps h env m p st ∧ look (view (fst x)) (key w n) = None ∧ held (key w n) (val w) (view (snd x)).

Lemma leased_first {A B} (p : prog redisE A) (f : A → prog redisE B) m st n : leased m p st n → leased m (bind p f) st n.
Proof. intros (x & Hx & H). exists x. split; [|done]. rewrite run_steps_bind. apply elem_of_app. by left. Qed.

Lemma leased_then {A B} (p : prog redisE A) (f : A → prog redisE B) m st n :
  leased (m + length (run_steps h env m p st)) (f (snd (run_env h env m p st))) (fst (run_env h env m p st)) n →
  leased m (bind p f) st n.
Proof. intros (x & Hx & H). exists x. split; [|done]. rewrite run_steps_bind. apply elem_of_app. by right. Qed.

(** One number that is tried *)
Lemma body_run n m st : ∃ s' x, redis_allows (Redis (CWrite (WSetNX (key w n) (val w) leaseTTL))) (view (env m st)) (view s') x ∧
  run_steps h env m (lease_body w n) st = [(env m st, s')] ∧
  run_env h env m (lease_body w n) st = (s', match x with Ok k => if k =? 1 then Some (Ok n) else None | Err _ => Some (Err ErrLease) end).
Proof.
  pose proof (HL _ (Redis (CWrite (WSetNX (key w n) (val w) leaseTTL))) (env m st)) as Ha.
  unfold lease_body. cbn [bind rcall call run_env run_steps].
  destruct (h _ (Redis (CWrite (WSetNX (key w n) (val w) leaseTTL))) (env m st)) as [s' x]. exists s', x. by destruct x.
Qed.

Lemma loop_leases ns m st r : snd (run_env h env m (for_each ns (lease_body w)) st) = Some (Ok r) →
  r ∈ ns ∧ leased m (for_each ns (lease_body w)) st r.
Proof.
  revert m st. induction ns as [|n ns IH]; intros m st; [done|]. cbn [for_each]. rewrite run_env_bind.
  destruct (body_run n m st) as (s' & x & Ha & Hs & Hrun). rewrite Hs, Hrun. cbn [fst snd length].
  destruct x as [z|e]; [|done]. destruct (Z.eqb_spec z 1) as [->|Hz].
  - intros [= <-]. split; [left|]. apply leased_first. exists (env m st, s'). rewrite Hs. cbn [fst snd]. split; [left|by eapply setnx_takes_free].
  - intros H. destruct (IH _ _ H) as [Hr Hl]. split; [by right|]. apply leased_then. by rewrite Hs, Hrun.
Qed.

Lemma lease_leases max m st r : snd (run_env h env m (lease w max) st) = Ok r → 0 ≤ r ≤ max ∧ leased m (lease w max) st r.
Proof.
  unfold lease. rewrite run_env_bind. destruct (snd (run_env h env m (for_each _ _) st)) as [[n|e]|] eqn:E; try done.
  cbn [run_env snd]. intros [= <-]. destruct (loop_leases _ _ _ _ E) as [Hn Hl]. split; [apply elem_of_seqZ in Hn; lia|].
  by apply leased_first.
Qed.

Lemma new_leases c m st g : snd (run_env h env m (New w c) st) = Ok g →
  gen_wf g ∧ leased m (New w c) st (g_instance g).
Proof.
  unfold New. destruct (Validate c) eqn:Hv; [|done]. cbn [negb]. rewrite run_env_bind.
  destruct (snd (run_env h env m (lease w _) st)) as [n|e] eqn:E; [|done]. cbn [run_env snd]. intros [= <-].
  destruct (lease_leases _ _ _ _ E) as [Hn Hl]. split; [by apply new_generator_wf|]. by apply leased_first.
Qed.

Lemma tick_leases g m st : let g' := snd (run_env h env m (keep_tick w g) st) in
  g' = g ∨ g' = moved g (g_instance g') ∧ 0 ≤ g_instance g' ≤ maxInstance g ∧ leased m (keep_tick w g) st (g_instance g').
Proof.
  cbv zeta. unfold keep_tick. rewrite run_env_bind. destruct (snd (run_env h env m _ st)) as [[|z|z]|e] eqn:E1; [|by left..].
  rewrite run_env_bind. set (st1 := fst (run_env h env m (rcall (renewScript w (g_instance g))) st)).
  set (m1 := (m + length (run_steps h env m (rcall (renewScript w (g_instance g))) st))%nat).
  destruct (snd (run_env h env m1 _ st1)) as [z|e] eqn:E2; [|by left].
  destruct (decide (z = 1)) as [->|Hz]; [by left|].
  set (st2 := fst (run_env h env m1 (rcall (CWrite (WSetNX (key w (g_instance g)) (val w) leaseTTL))) st1)).
  set (m2 := (m1 + length (run_steps h env m1 (rcall (CWrite (WSetNX (key w (g_instance g)) (val w) leaseTTL))) st1))%nat).
  set (move := let* n := lease w (maxInstance g) in match n with Ok n => Ret (moved g n) | Err _ => Ret g end).
  assert (match z with 1 => Ret g | _ => move end = move) as Hmove by by destruct z as [|[]|].
  change (let g' := snd (run_env h env m2 (match z with 1 => Ret g | _ => move end) st2) in
    g' = g ∨ g' = moved g (g_instance g') ∧ 0 ≤ g_instance g' ≤ maxInstance g ∧ leased m (keep_tick w g) st (g_instance g')).
  rewrite Hmove. cbv zeta. unfold move. rewrite run_env_bind.
  destruct (snd (run_env h env m2 (lease w (maxInstance g)) st2)) as [n|e] eqn:E3; [|by left]. right. cbn [run_env snd moved g_instance].
  destruct (lease_leases _ _ _ _ E3) as [Hn Hl]. split_and!; [done|lia|lia|].
  apply leased_then. rewrite E1. apply leased_then. fold m1 st1 m2 st2. rewrite E2. fold move. rewrite Hmove. by apply leased_first.
Qed.

(** C37. Two replicas of a service do not share an instance number while the first one's lease
    lives; on every server, with replies lost at any point and other clients doing anything
    between two commands of replica [w]. A number comes from a lease of its own: the number
    of the generator New returns, and the one a tick of keep moves to, is one whose key a
    command of that run found free and wrote the replica's value to, within the range; a
    tick changes nothing else of the generator. No command of New, of a tick or of Close
    takes, prolongs or frees a lease without the replica's token in it: value and expiry
    stay. So while the key of number [n] holds another replica's value, New does not
    return [n] and no tick moves to it. *)
Theorem live_leases_differ m st : 
  (∀ c g, snd (run_env h env m (New w c) st) = Ok g → gen_wf g ∧ leased m (New w c) st (g_instance g)) ∧
  (∀ g, let g' := snd (run_env h env m (keep_tick w g) st) in
     g' = g ∨ g' = moved g (g_instance g') ∧ 0 ≤ g_instance g' ≤ maxInstance g ∧ leased m (keep_tick w g) st (g_instance g')) ∧
  (∀ A (p : prog redisE A) x k s, lease_program w A p → x ∈ run_steps h env m p st →
     contains (token w) s = false → held k s (view (fst x)) → rv_data (view (snd x)) !! k = rv_data (view (fst x)) !! k) ∧
  (∀ n s, contains (token w) s = false → held (key w n) s (view st) →
     (∀ i x, keeps_held (key w n) s (view x) (view (env i x))) →
     (∀ c g, snd (run_env h env m (New w c) st) = Ok g → g_instance g ≠ n) ∧
     (∀ g, g_instance g ≠ n → g_instance (snd (run_env h env m (keep_tick w g) st)) ≠ n)).
Proof.
  assert (∀ A (p : prog redisE A) n s, lease_program w A p → contains (token w) s = false → held (key w n) s (view st) →
    (∀ i x, keeps_held (key w n) s (view x) (view (env i x))) → ¬ leased m p st n) as Hlive.
  { intros A p n s Hp Hs Hst Henv (x & Hx & Hfree & _).
    pose proof (held_steps h view env p (key w n) s m st (leaves_program A p _ _ Hp Hs) Henv Hst) as Hh.
    rewrite Forall_forall in Hh. destruct (Hh x Hx) as [H _]. unfold held in H. congruence. }
  split_and!.
  - intros c g. apply new_leases.
  - intros g. apply tick_leases.
  - intros A p x k s Hp Hx Hs Hh. pose proof (every_call_steps _ _ h view env p m st (leaves_program A p k s Hp Hs)) as Ha.
    rewrite Forall_forall in Ha. by apply (Ha x Hx).
  - intros n s Hs Hst Henv. split.
    + intros c g Hg <-. destruct (new_leases c m st g Hg) as [_ Hl]. by eapply (Hlive _ _ _ s (program_new w c)).
    + intros g Hg E. destruct (tick_leases g m st) as [H|(_ & _ & Hl)]; [by rewrite H in E|]. rewrite E in Hl.
      by eapply (Hlive _ _ _ s (program_tick w g)).
Qed.
End runs.
End Commands.

(** ** Without faults *)

Definition first_free (w : Leaser) (v : rview) (ns : list Z) : option Z :=
  List.find (λ n, bool_decide (look v (key w n) = None)) ns.

Lemma lease_loop_up w ns v :
  wp (=) (@redis_up) (for_each ns (lease_body w))
    (λ r v', match first_free w v ns with
             | Some n => r = Some (Ok n) ∧ v' = put v (key w n) (RStr (val w)) (expiry v leaseTTL)
             | None => r = None ∧ v' = v
             end) v.
Proof.
  induction ns as [|n ns IH]; [done|]. cbn [for_each]. apply wp_bind. unfold lease_body at 1.
  intros v1 v2 x <- Ha. cbn in Ha. unfold first_free. cbn [List.find].
  destruct (look v (key w n)) eqn:E.
  - destruct Ha as [-> ->]. rewrite bool_decide_false by done. exact IH.
  - destruct Ha as [-> ->]. rewrite bool_decide_true by done. done.
Qed.

(** On a server without faults New leases the least free instance number,
    writing only that key, with the service's lease time; when every number is
    leased it fails and writes nothing. *)
Theorem new_takes_first_free w c v : Validate c = true →
  wp (=) (@redis_up) (New w c)
    (λ r v', let max := maxInstance (new_generator c 0 false) in
             match first_free w v (seqZ 0 (max + 1)) with
             | Some n => r = Ok (new_generator c n false) ∧ gen_wf (new_generator c n false) ∧
                         v' = put v (key w n) (RStr (val w)) (Some (rv_now v + leaseTTL))
             | None => r = Err (inr ErrAllLeased) ∧ v' = v ∧
                       ∀ n, 0 ≤ n ≤ max → look v (key w n) ≠ None
             end) v.
Proof.
  intros Hv. unfold New. rewrite Hv. cbn [negb]. set (max := maxInstance _).
  apply wp_bind, wp_bind. eapply wp_mono, lease_loop_up. intros r v'.
  destruct (first_free w v _) as [n|] eqn:E; intros [-> ->]; cbn -[new_generator].
  - split_and!; [done| |done]. apply List.find_some in E as [E _].
    apply list_elem_of_In, elem_of_seqZ in E. apply new_generator_wf; [done|]. fold max. lia.
  - split_and!; [done|done|]. intros n Hn Hl.
    assert (In n (seqZ 0 (max + 1))) as Hin by (apply list_elem_of_In, elem_of_seqZ; lia).
    pose proof (List.find_none _ _ E n Hin) as Hf. cbn beta in Hf.
    by apply bool_decide_eq_false in Hf.
Qed.

(** On a server without faults a tick prolongs the lease a replica has and keeps its number,
    and Close frees the number. *)
Theorem own_lease_is_renewed w g v : held (key w (g_instance g)) (val w) v →
  wp (=) (@redis_up) (keep_tick w g)
    (λ g' v', g' = g ∧ v' = put v (key w (g_instance g)) (RStr (val w)) (Some (rv_now v + leaseTTL))) v ∧
  wp (=) (@redis_up) (Close w g) (λ ok v', ok = true ∧ look v' (key w (g_instance g)) = None) v.
Proof.
  unfold held. intros Hv. split; apply wp_bind; intros v1 v2 x <- Ha; cbn -[holds_token] in Ha; rewrite Hv, holds_own in Ha; cbn in Ha;
    rewrite ?Hv in Ha; destruct Ha as [-> ->]; cbn; [done|]. split; [done|apply look_drop_eq].
Qed.

(** ** Witnesses and the lost lease *)

Definition replica_a : Leaser := {| service := "bet"; token := "aaaa"; hostname := "pod-1" |}.
Definition replica_b : Leaser := {| service := "bet"; token := "bbbb"; hostname := "pod-2" |}.
Definition split5 : Config := {| InstanceBits := 0 |}.

(** Finding: a replica whose renewals fail for the 90 s of the lease (Redis
    unreachable for it) only logs, and Next goes on with the number; a new
    replica leases the number the moment it expires. Both then hold the same
    generator, and calls in one millisecond make the same id. The documentation
    says ids are unique across every replica. *)
Theorem outage_makes_duplicates :
  let g := new_generator split5 0 false in
  let start w s := run_env (@map_redis) (after 0) 0 (New w split5) s in
  let tick s := run_env (@map_redis) (after renewEvery) 0 (keep_tick replica_a g) s in
  let s0 := empty_redis [Fine; LostBefore; LostBefore; LostBefore] in
  let s1 := fst (start replica_a s0) in
  let s2 := fst (tick s1) in
  let s3 := fst (tick s2) in
  let s4 := fst (tick s3) in
  snd (start replica_a s0) = Ok g ∧
  snd (tick s1) = g ∧ snd (tick s2) = g ∧ snd (tick s3) = g ∧
  snd (start replica_b s4) = Ok g ∧
  is_Some (next (λ _, 1000) 0 0 g).
Proof. cbv zeta. split_and!; try (vm_compute; reflexivity). vm_compute. eexists. reflexivity. Qed.

Lemma others_lease_untouched_witness :
  held (key replica_a 0) (val replica_a)
    (mr_view (fst (run_env (@map_redis) (after 0) 0 (New replica_b split5)
      (fst (run_env (@map_redis) (after 0) 0 (New replica_a split5) (empty_redis [])))))).
Proof.
  apply (others_lease_untouched replica_b _ _ _ _ (@map_redis) mr_view).
  - apply program_new.
  - vm_compute. reflexivity.
  - intros. apply after_0_keeps.
  - vm_compute. reflexivity.
Defined.

(** Replica b starts, loses its number to replica a and moves. *)
Lemma live_leases_differ_witness :
  let st := fst (run_env (@map_redis) (after 0) 0 (New replica_a split5) (empty_redis [])) in
  (∃ x, x ∈ run_steps (@map_redis) (after 0) 0 (New replica_b split5) st ∧ look (mr_view (fst x)) "idx:bet:1" = None) ∧
  (∀ g, g_instance g ≠ 0 → g_instance (snd (run_env (@map_redis) (after 0) 0 (keep_tick replica_b g) st)) ≠ 0) ∧
  g_instance (snd (run_env (@map_redis) (after 0) 0 (keep_tick replica_b (new_generator split5 0 false)) st)) = 1.
Proof.
  intros st. destruct (live_leases_differ replica_b (@map_redis) mr_view (after 0) 0 st) as (H1 & _ & _ & H4). split_and!.
  - destruct (H1 split5 (new_generator split5 1 false)) as [_ (x & Hx & Hf & _)]; [vm_compute; reflexivity|]. by exists x.
  - apply (H4 0 (val replica_a)); [vm_compute; reflexivity|vm_compute; reflexivity|intros; apply after_0_keeps].
  - vm_compute. reflexivity.
Defined.

Lemma new_takes_first_free_witness : ∃ r,
  wp (=) (@redis_up) (New replica_a split5) (λ x _, x = r) (RView 0 ∅) ∧
  r = Ok (new_generator split5 0 false).
Proof.
  eexists. split; [|reflexivity].
  eapply wp_mono, (new_takes_first_free replica_a split5 (RView 0 ∅)); [|reflexivity].
  intros r v' H. destruct H as [H _]. exact H.
Defined.
