(* ===== verification/Lock.v ===== *)
(** * redisx: WithLock (redisx/lock.go)

    [WithLock] is a program over Redis: the acquisition loop, the extensions the
    keeper goroutine sends while fn runs, and the release. What is not Redis is
    an argument: the rounds of the waiting loop (clock reading, ctx.Done), the number
    of times the keeper's ticker fires before fn ends, and fn's own error.
    fn runs at most once, between the acquisition and the release; whether it ran
    is part of the result. *)
From S2P Require Import Prelude Prog Redis.

(** lockOptions, durations in nanoseconds *)
Record lockOptions : Type := { wait : Z; retry : Z }.
Definition retryEvery (o : lockOptions) : Z :=
  if bool_decide (0 < retry o) then retry o else 50000000.

(** One busy round: time.Now() at the check, and which case of the select. *)
Record wait_round : Type := { now_ns : Z; ctx_done : bool }.

Inductive lock_error (E : Type) : Type :=
| ErrNoRedis | ErrNoName | ErrStore | ErrLocked | CtxErr
| ErrLockLost (inner : option E)
| FnErr (e : E).
Arguments ErrNoRedis {E}. Arguments ErrNoName {E}. Arguments ErrStore {E}.
Arguments ErrLocked {E}. Arguments CtxErr {E}. Arguments ErrLockLost {E} inner.
Arguments FnErr {E} e.

(** The result of WithLock and whether it called fn. *)
Record lock_result (E : Type) : Type := LR { lr_called : bool; lr_err : option (lock_error E) }.
Arguments LR {E} lr_called lr_err.
Arguments lr_called {E}. Arguments lr_err {E}.

(** keyOf: "<kind>:<service>:<name>", without the service when the client has no
    namespace. *)
Definition keyOf (service kind name : string) : string :=
  if String.eqb service "" then kind +:+ ":" +:+ name
  else kind +:+ ":" +:+ service +:+ ":" +:+ name.

Section WithLock.
Context {E : Type}.
Variable service : string.
Variable token : string.

Definition is_mine (o : option string) : bool :=
  match o with Some s => String.eqb s token | None => false end.

Definition extendScript (key : string) (ttl : Z) : rcmd Z :=
  CIfGet key is_mine (WPExpire key (Z.quot ttl 1000000)).
Definition releaseScript (key : string) : rcmd Z := CIfGet key is_mine (WDel key).

(** The acquisition loop: [None]: it is still waiting after the given rounds;
    [Some None]: the lock is held; [Some (Some e)]: WithLock returns [e]. *)
Fixpoint acquire (key : string) (ttl : Z) (o : lockOptions) (deadline : Z) (rounds : list wait_round) :
    prog redisE (option (option (lock_error E))) :=
  let* r := rcall (CWrite (WSetNX key token (Z.quot ttl 1000000))) in
  match r with
  | Err _ => Ret (Some (Some ErrStore))
  | Ok 1 => Ret (Some None)
  | Ok _ =>
      match rounds with
      | [] => Ret None
      | rd :: rounds' =>
          if Z.eqb (wait o) 0 || bool_decide (deadline < now_ns rd) then Ret (Some (Some ErrLocked))
          else if ctx_done rd then Ret (Some (Some CtxErr))
          else acquire key ttl o deadline rounds'
      end
  end.

(** The keeper while fn runs: [true] when it found the lock lost. *)
Fixpoint keeper (key : string) (ttl : Z) (ticks : nat) : prog redisE bool :=
  match ticks with
  | O => Ret false
  | S ticks' =>
      let* res := rcall (extendScript key ttl) in
      match res with
      | Err _ => keeper key ttl ticks'
      | Ok 0 => Ret true
      | Ok _ => keeper key ttl ticks'
      end
  end.

(** From the moment the lock is held. *)
Definition hold (key : string) (ttl : Z) (ticks : nat) (fn : option E) :
    prog redisE (lock_result E) :=
  let* lost := keeper key ttl ticks in
  if (lost : bool) then Ret (LR true (Some (ErrLockLost fn)))
  else
    let* _ := rcall (releaseScript key) in
    Ret (LR true (FnErr <$> fn)).

Definition lock_ttl (ttl : Z) : Z :=
  if bool_decide (ttl < 1000000000) then 10000000000 else ttl.

Definition WithLock (rdb : bool) (name : string) (ttl : Z) (o : lockOptions) (start : Z)
    (rounds : list wait_round) (ticks : nat) (fn : option E) : prog redisE (option (lock_result E)) :=
  if negb rdb then Ret (Some (LR false (Some ErrNoRedis))) else
  if String.eqb name "" then Ret (Some (LR false (Some ErrNoName))) else
  let ttl := lock_ttl ttl in
  let key := keyOf service "lock" name in
  let* got := acquire key ttl o (start + wait o) rounds in
  match got with
  | None => Ret None
  | Some (Some e) => Ret (Some (LR false (Some e)))
  | Some None => let* r := hold key ttl ticks fn in Ret (Some r)
  end.

(** ** Another holder *)

Lemma frame_keeper key ttl ticks k s : s ≠ token → frame (keeper key ttl ticks) k s.
Proof.
  intros Hs. induction ticks as [|ticks IH]; cbn [keeper]; [apply frame_ret|].
  apply frame_bind; [|intros [[|z|z]|]; [apply frame_ret|exact IH..]].
  apply frame_if_get; [done|]. cbn. by apply String.eqb_neq.
Qed.

(** While the key holds another token, the loop does not get the lock. *)
Lemma acquire_busy key ttl o deadline rounds s v : held key s v →
  wp (keeps_held key s) (@redis_allows) (acquire key ttl o deadline rounds)
    (λ r _, r ≠ Some None) v.
Proof.
  revert v. induction rounds as [|rd rounds IH]; intros v Hv; cbn [acquire]; apply wp_bind;
    intros v1 v2 x Hr Ha; specialize (Hr Hv); cbn in Ha; unfold held in Hr; rewrite Hr in Ha;
    (destruct x as [x|e]; [|done]); simplify_eq; [done|].
  repeat case_match; try done. by apply IH.
Qed.

(** ** The waiting loop ends *)

Definition ends_wait (o : lockOptions) (deadline : Z) (rd : wait_round) : bool :=
  Z.eqb (wait o) 0 || bool_decide (deadline < now_ns rd) || ctx_done rd.

Lemma acquire_ends key ttl o deadline rounds
    (allows : ∀ X, redisE X → rview → rview → X → Prop) v :
  existsb (ends_wait o deadline) rounds = true →
  wp (λ _ _, True) allows (acquire key ttl o deadline rounds) (λ r _, r ≠ None) v.
Proof.
  revert v. induction rounds as [|rd rounds IH]; intros v Hex; [done|]. cbn [acquire].
  cbn [existsb] in Hex. unfold ends_wait in Hex at 1.
  apply wp_bind. intros v1 v2 x _ _. destruct x as [[|[z|z|]|z]|]; try done; cbn [wp];
    destruct (_ || bool_decide _); cbn in Hex; try done; destruct (ctx_done rd); try done;
    by apply IH.
Qed.

(** The waiting loop of WithLock ends: whatever Redis answers, once a round
    finds the deadline passed or its ctx done (or there is no Wait at all),
    WithLock has returned. *)
Theorem with_lock_returns rdb name ttl o start rounds ticks fn
    (allows : ∀ X, redisE X → rview → rview → X → Prop) v :
  existsb (ends_wait o (start + wait o)) rounds = true →
  wp (λ _ _, True) allows (WithLock rdb name ttl o start rounds ticks fn) (λ r _, r ≠ None) v.
Proof.
  intros Hex. unfold WithLock. destruct (negb rdb); [done|]. destruct (String.eqb name ""); [done|].
  apply wp_bind. eapply wp_mono, acquire_ends, Hex.
  intros [[e|]|] w Hw; [done| |done]. apply wp_any. done.
Qed.

(** ** What each command may do to the lock of somebody else *)

Lemma is_mine_other s : s ≠ token → is_mine (Some s) = false.
Proof. intros Hs. cbn. by apply String.eqb_neq. Qed.

Lemma keeper_leaves key ttl ticks k s : s ≠ token → every_call (@redis_allows) (leaves k s) (keeper key ttl ticks).
Proof.
  intros Hs. induction ticks as [|ticks IH]; cbn [keeper]; [done|].
  apply every_call_bind; [by apply leaves_if_get; [|apply is_mine_other]|]. by intros [[|z|z]|].
Qed.

Lemma acquire_leaves key ttl o deadline rounds k s :
  every_call (@redis_allows) (leaves k s) (acquire key ttl o deadline rounds).
Proof.
  induction rounds as [|rd rounds IH]; cbn [acquire]; (apply every_call_bind; [apply leaves_setnx|]);
    intros [[|[z|z|]|z]|]; try done; repeat case_match; try done; exact IH.
Qed.

Lemma with_lock_leaves rdb name ttl o start rounds ticks fn k s : s ≠ token →
  every_call (@redis_allows) (leaves k s) (WithLock rdb name ttl o start rounds ticks fn).
Proof.
  intros Hs. unfold WithLock. destruct (negb rdb); [done|]. destruct (String.eqb name ""); [done|].
  apply every_call_bind; [apply acquire_leaves|]. intros [[e|]|]; try done.
  apply every_call_bind; [|done]. apply every_call_bind; [by apply keeper_leaves|]. intros [|]; [done|].
  apply every_call_bind; [|done]. by apply leaves_if_get; [|apply is_mine_other].
Qed.

Section runs.
Context {S : Type} (h : ∀ X, redisE X → S → S * X) (view : S → rview) `{HL : !Lawful h view (@redis_allows)} (env : nat → S → S).

(** The lock is got by a command that found the key free and wrote the token. *)
Lemma acquire_takes_free key ttl o deadline rounds n st :
  snd (run_env h env n (acquire key ttl o deadline rounds) st) = Some None →
  ∃ x, x ∈ run_steps h env n (acquire key ttl o deadline rounds) st ∧
    look (view (fst x)) key = None ∧ held key token (view (snd x)).
Proof.
  revert n st. induction rounds as [|rd rounds IH]; intros n st; cbn [acquire bind rcall call run_env run_steps];
    pose proof (HL _ (Redis (CWrite (WSetNX key token (Z.quot ttl 1000000)))) (env n st)) as Ha;
    destruct (h _ (Redis (CWrite (WSetNX key token (Z.quot ttl 1000000)))) (env n st)) as [s' x]; cbn [fst snd] in *.
  all: destruct x as [[|[z|z|]|z]|e]; cbn [run_env snd]; try done.
  all: try (intros _; exists (env n st, s'); cbn [fst snd]; split; [left|by eapply setnx_takes_free]).
  all: destruct (Z.eqb (wait o) 0 || bool_decide (deadline < now_ns rd)); [done|]; destruct (ctx_done rd); [done|];
    intros H; destruct (IH _ _ H) as (y & Hy & Hf); exists y; (split; [by right|done]).
Qed.

(** C38. Mutual exclusion, on every server, with replies lost at any point and other clients
    doing anything between two commands of a run of WithLock. A run that calls fn got the
    lock by a command that found the key free and left this caller's token in it.
    No command of a run, of the waiting, of the keeper that extends the lock or of the
    release, releases or prolongs a lock that is not its own: a key that holds another
    token keeps it, with the moment it expires at. And while the key holds another token
    all the time, fn is not called, and WithLock reports an error or is still waiting. *)
Theorem with_lock_excludes name ttl o start rounds ticks fn n st :
  let key := keyOf service "lock" name in
  let run := WithLock true name ttl o start rounds ticks fn in
  (∀ r, snd (run_env h env n run st) = Some (LR true r) →
     ∃ x, x ∈ run_steps h env n run st ∧ look (view (fst x)) key = None ∧ held key token (view (snd x))) ∧
  (∀ x s, x ∈ run_steps h env n run st → s ≠ token → held key s (view (fst x)) →
     rv_data (view (snd x)) !! key = rv_data (view (fst x)) !! key) ∧
  (∀ s, s ≠ token → held key s (view st) → (∀ m x, keeps_held key s (view x) (view (env m x))) →
     snd (run_env h env n run st) = None ∨ ∃ e, snd (run_env h env n run st) = Some (LR false (Some e))).
Proof.
  intros key run. split_and!.
  - intros r. unfold run, WithLock. cbn [negb]. destruct (String.eqb name ""); [done|]. fold key.
    rewrite run_env_bind, run_steps_bind. set (got := snd (run_env h env n _ st)).
    destruct got as [[e|]|] eqn:Eg; [done| |done]. intros _. destruct (acquire_takes_free _ _ _ _ _ _ _ Eg) as (x & Hx & Hf).
    exists x. split; [|done]. apply elem_of_app. by left.
  - intros x s Hx Hs Hh.
    pose proof (every_call_steps _ _ h view env run n st (with_lock_leaves true name ttl o start rounds ticks fn key s Hs)) as Ha.
    rewrite Forall_forall in Ha. by apply (Ha x Hx).
  - intros s Hs Hst Henv. eapply (wp_sound (keeps_held key s) _ h view env run
      (λ r _, r = None ∨ ∃ e, r = Some (LR false (Some e)))); [exact Henv|].
    unfold run, WithLock. cbn [negb]. destruct (String.eqb name ""); [right; by eexists|].
    fold key. apply wp_bind. eapply wp_mono, acquire_busy, Hst.
    intros [[e|]|] w Hw; cbn [wp]; [right; by eexists|done|by left].
Qed.
End runs.

(** ** The holder's contract *)

(** Other clients respect the key: a value they did not write stays, and they do
    not take a free key meanwhile. *)
Definition respects (key : string) (v v' : rview) : Prop :=
  (held key token v → held key token v') ∧ (look v key = None → look v' key = None).

Lemma keeper_keeps key ttl ticks v : 1000000000 ≤ ttl → held key token v →
  wp (respects key) (@redis_up) (keeper key ttl ticks) (λ lost v', lost = false ∧ held key token v') v.
Proof.
  intros Httl. revert v. induction ticks as [|ticks IH]; intros v Hv; cbn [keeper]; [done|].
  apply wp_bind. intros v1 v2 x [Hr _] Ha. specialize (Hr Hv). unfold held in Hr. cbn in Ha.
  rewrite Hr in Ha. cbn in Ha. rewrite String.eqb_refl in Ha.
  assert (0 < Z.quot ttl 1000000) by (apply Z.quot_str_pos; lia).
  rewrite bool_decide_false in Ha by lia. destruct Ha as [-> ->]. cbn [wp]. apply IH.
  unfold held, look, put, fresh. cbn. rewrite lookup_insert_eq. cbn.
  by rewrite bool_decide_true by lia.
Qed.

Lemma keeper_sees_loss key ttl ticks s v : s ≠ token → held key s v →
  wp (keeps_held key s) (@redis_up) (keeper key ttl (S ticks)) (λ lost _, lost = true) v.
Proof.
  intros Hs Hv. cbn [keeper]. apply wp_bind. intros v1 v2 x Hr Ha. specialize (Hr Hv).
  unfold held in Hr. cbn in Ha. rewrite Hr in Ha. cbn in Ha.
  rewrite (proj2 (String.eqb_neq _ _)) in Ha by done. by destruct Ha as [-> ->].
Qed.

(** What the holder gets, on a server without faults: a free lock is taken at
    once, fn is called, its own error (or none) is returned whatever number of
    extensions was sent, and the key is free again afterwards. When
    another token took the key over while fn ran and the keeper ticked since, the
    result is ErrLockLost (with fn's error inside), not fn's result. *)
Theorem with_lock_runs name ttl o start rounds ticks fn v : name ≠ "" →
  (look v (keyOf service "lock" name) = None →
   wp (respects (keyOf service "lock" name)) (@redis_up)
     (WithLock true name ttl o start rounds ticks fn)
     (λ r v', r = Some (LR true (FnErr <$> fn)) ∧ look v' (keyOf service "lock" name) = None) v) ∧
  (∀ s key t, s ≠ token → held key s v →
   wp (keeps_held key s) (@redis_up) (hold key t (S ticks) fn)
     (λ r v', r = LR true (Some (ErrLockLost fn)) ∧ held key s v') v).
Proof.
  intros Hname. set (key := keyOf service "lock" name). split.
  - intros Hfree. unfold WithLock. cbn [negb]. rewrite (proj2 (String.eqb_neq _ _)) by done.
    fold key. set (T := lock_ttl ttl).
    assert (1000000000 ≤ T) as HT by (unfold T, lock_ttl; case_bool_decide; lia).
    assert (∀ v' w, look v' key = None → w = put v' key (RStr token) (expiry v' (Z.quot T 1000000)) →
      wp (respects key) (@redis_up) (let* r := hold key T ticks fn in Ret (Some r))
        (λ r v', r = Some (LR true (FnErr <$> fn)) ∧ look v' key = None) w) as Hgot.
    { intros v' w _ ->. apply wp_bind, wp_bind. eapply wp_mono, keeper_keeps; [|done|apply look_put_eq].
      intros lost w [-> Hw] v1 v2 x [Hr _] Ha. specialize (Hr Hw). unfold held in Hr. cbn in Ha.
      rewrite Hr in Ha. cbn in Ha. rewrite String.eqb_refl in Ha. destruct Ha as [-> ->]. cbn.
      split; [done|]. apply look_drop_eq. }
    apply wp_bind. destruct rounds; cbn [acquire]; apply wp_bind; intros v1 v2 x [_ Hr] Ha;
      specialize (Hr Hfree); cbn in Ha; rewrite Hr in Ha; destruct Ha as [-> ->]; by eapply Hgot.
  - intros s k t Hs Hv. apply wp_bind.
    apply (wp_mono _ _ _ (λ lost w, lost = true ∧ held k s w)); [by intros lost w [-> Hw]|].
    apply wp_conj.
    + by eapply keeper_sees_loss.
    + eapply wp_weaken; [..|by apply frame_keeper]; [done|].
      intros X [Y c] w w' x. cbn. destruct (redis_doc c w) as [[w1 y]|]; intros [-> ->]; auto.
Qed.
End WithLock.

(** ** Witnesses *)

Definition busy_rounds : list wait_round :=
  [{| now_ns := 1000; ctx_done := false |}; {| now_ns := 90000001; ctx_done := false |}].

Lemma with_lock_returns_witness :
  wp (λ _ _, True) (@redis_allows)
    (WithLock (E := Z) "bet" "tok" true "settle" 0 {| wait := 1000; retry := 0 |} 0 busy_rounds 1 None)
    (λ r _, r ≠ None) (RView 0 ∅).
Proof. apply with_lock_returns. vm_compute. reflexivity. Defined.

(** Another caller takes the key over before the first extension of the keeper. *)
Definition taken_over (m : nat) (s : map_redis_state) : map_redis_state :=
  if Nat.eqb m 1 then MR (put (mr_view s) "lock:bet:settle" (RStr "other") (Some 5000)) (mr_faults s) else s.

Lemma with_lock_excludes_witness :
  let run := WithLock (E := Z) "bet" "tok" true "settle" 0 {| wait := 0; retry := 0 |} 0 busy_rounds 1 None in
  let st := MR (put (RView 0 ∅) "lock:bet:settle" (RStr "other") None) [LostAfter] in
  (∃ x, x ∈ run_steps (@map_redis) taken_over 0 run (empty_redis []) ∧ look (mr_view (fst x)) "lock:bet:settle" = None) ∧
  (∃ x, run_steps (@map_redis) taken_over 0 run (empty_redis []) !! 1%nat = Some x ∧
     rv_data (mr_view (snd x)) !! "lock:bet:settle" = Some (RStr "other", Some 5000)) ∧
  ∃ e, snd (run_env (@map_redis) (after 0) 0 run st) = Some (LR false (Some e)).
Proof.
  cbv zeta. set (run := WithLock _ _ _ _ _ _ _ _ _ _). set (st := MR _ _).
  destruct (with_lock_excludes (E := Z) "bet" "tok" (@map_redis) mr_view taken_over "settle" 0
    {| wait := 0; retry := 0 |} 0 busy_rounds 1 None 0 (empty_redis [])) as (H1 & H2 & _).
  destruct (with_lock_excludes (E := Z) "bet" "tok" (@map_redis) mr_view (after 0) "settle" 0
    {| wait := 0; retry := 0 |} 0 busy_rounds 1 None 0 st) as (_ & _ & H3).
  split_and!.
  - destruct (H1 (Some (ErrLockLost None))) as (x & Hx & Hf & _); [vm_compute; reflexivity|]. by exists x.
  - set (x := default (st, st) (run_steps (@map_redis) taken_over 0 run (empty_redis []) !! 1%nat)).
    assert (run_steps (@map_redis) taken_over 0 run (empty_redis []) !! 1%nat = Some x) as E by (vm_compute; reflexivity).
    exists x. split; [exact E|]. etransitivity; [apply (H2 x "other" (list_elem_of_lookup_2 _ _ _ E)); [done|]|]; vm_compute; reflexivity.
  - destruct (H3 "other") as [H|[e H]]; [done|by vm_compute|intros; apply after_0_keeps|by vm_compute in H|by exists e].
Defined.

Lemma with_lock_runs_witness : ∃ e : Z,
  wp (respects "tok" "lock:bet:settle") (@redis_up)
    (WithLock "bet" "tok" true "settle" 0 {| wait := 0; retry := 0 |} 0 [] 3 (Some e))
    (λ r v', r = Some (LR true (Some (FnErr e))) ∧ look v' "lock:bet:settle" = None) (RView 0 ∅).
Proof.
  exists 7. apply (with_lock_runs "bet" "tok" "settle" 0 {| wait := 0; retry := 0 |} 0 [] 3 (Some 7)
    (RView 0 ∅)); [done|vm_compute; reflexivity].
Defined.
