(* ===== verification/Idempotency.v ===== *)
(** * kitexx: the idempotency middleware (kitexx/idempotency.go)

    [Idempotency] wraps the handler [next] of a method: a program over Redis and
    one call of the handler. The response codec (encoding/json on the generated
    type) is a parameter. The abstract view counts the handler's runs, so
    at most one success per request id is a statement about that log, with
    Redis replies lost at any point. *)
From S2P Require Import Prelude Prog Redis.

Definition CodeRequestInProgress : Z := 1002.
Definition CodeRequestIDRequired : Z := 1003.
Definition CodeIdempotencyUnavailable : Z := 5002.

(** IdempotencyTTL, milliseconds *)
Definition IdempotencyTTL : Z := 24 * 3600 * 1000.

(** "\x00pending" *)
Definition pending : string := String (Ascii.ascii_of_nat 0) "pending".

(** idempotencyKey *)
Definition idempotencyKey (service method requestID : string) (uid : option Z) : string :=
  "idem:" +:+ service +:+ ":" +:+ method +:+ ":" +:+ requestID +:+
    (match uid with Some u => ":u" +:+ format_int u | None => "" end).

Section Middleware.
Context {R Er : Type}.

(** How the handler ended: an error, a business error left in the RPCInfo
    (bizFailed), or a response. *)
Inductive handled : Type := HErr (e : Er) | HBiz (code : Z) | HOk (r : R).

(** What the caller of the middleware gets. *)
Inductive answer : Type :=
| Handled (h : handled)           (* the handler's own outcome *)
| Refused (code : Z)
| Replayed (r : R).

Inductive idemE : Type → Type :=
| IRedis {X} (e : redisE X) : idemE X
| INext : idemE handled.

Definition icall {X} (c : rcmd X) : prog idemE (result X rerr) := call (IRedis (Redis c)).

Variable marshal : R → option string.
Variable unmarshal : string → option R.   (* setSuccess *)

(** The second half of the middleware: the id is this call's. *)
Definition claimed (key : string) : prog idemE answer :=
  let* h := call INext in
  match h with
  | HErr e => let* _ := icall (CWrite (WDel key)) in Ret (Handled h)
  | HBiz c => let* _ := icall (CWrite (WDel key)) in Ret (Handled h)
  | HOk r =>
      match marshal r with
      | None => Ret (Handled h)
      | Some data =>
          let* _ := icall (CWrite (WSet key data IdempotencyTTL)) in Ret (Handled h)
      end
  end.

Definition not_claimed (key : string) : prog idemE answer :=
  let* kept := icall (CGet key) in
  match kept with
  | Err _ => Ret (Refused CodeIdempotencyUnavailable)
  | Ok None => Ret (Refused CodeRequestInProgress)
  | Ok (Some kept) =>
      if String.eqb kept pending then Ret (Refused CodeRequestInProgress)
      else match unmarshal kept with
           | None => Ret (Refused CodeIdempotencyUnavailable)
           | Some r => Ret (Replayed r)
           end
  end.

(** [id]: the request's request_id, [None] when its type has no such field. *)
Definition Idempotency (rdb : bool) (service method : string) (uid : option Z)
    (id : option string) : prog idemE answer :=
  match id with
  | None => let* h := call INext in Ret (Handled h)
  | Some id =>
      if String.eqb id "" then Ret (Refused CodeRequestIDRequired) else
      if negb rdb then Ret (Refused CodeIdempotencyUnavailable) else
      let key := idempotencyKey service method id uid in
      let* c := icall (CWrite (WSetNX key pending IdempotencyTTL)) in
      match c with
      | Err _ => Ret (Refused CodeIdempotencyUnavailable)
      | Ok 1 => claimed key
      | Ok _ => not_claimed key
      end
  end.

(** checkIdempotencyStore: [true] when the service may start. *)
Definition checkIdempotencyStore (rdb : bool) (idempotentMethods : list string) : bool :=
  rdb || match idempotentMethods with [] => true | _ => false end.

(** ** The view: Redis and the log of handler runs *)

Record iview : Type := IV { iv_redis : rview; iv_runs : list handled }.

Definition idem_allows (redis : ∀ X, redisE X → rview → rview → X → Prop)
    X (e : idemE X) (v v' : iview) (x : X) : Prop :=
  match e in idemE X return X → Prop with
  | IRedis e => λ x, redis _ e (iv_redis v) (iv_redis v') x ∧ iv_runs v' = iv_runs v
  | INext => λ x, iv_redis v' = iv_redis v ∧ iv_runs v' = (iv_runs v ++ [x])%list
  end x.

(** Until the key's TTL: other clients and the handler itself keep a value that is
    there, and do not run this method's handler. *)
Definition keeps_key (key : string) (v v' : iview) : Prop :=
  iv_runs v' = iv_runs v ∧
  ∀ x, look (iv_redis v) key = Some x → look (iv_redis v') key = Some x.

Definition refusal (a : answer) : Prop :=
  a = Refused CodeRequestInProgress ∨ a = Refused CodeIdempotencyUnavailable.

(** The lemma behind at-most-once: a present key stops the handler. *)
Lemma held_key_never_runs service method uid id s v : id ≠ "" →
  let key := idempotencyKey service method id uid in
  held key s (iv_redis v) →
  wp (keeps_key key) (idem_allows (@redis_allows)) (Idempotency true service method uid (Some id))
    (λ a v', iv_runs v' = iv_runs v ∧ held key s (iv_redis v') ∧
       (refusal a ∨ s ≠ pending ∧ ∃ r, unmarshal s = Some r ∧ a = Replayed r)) v.
Proof.
  intros Hid key Hs. unfold Idempotency. rewrite (proj2 (String.eqb_neq _ _)) by done. cbn [negb].
  fold key. apply wp_bind. intros v1 v2 x [Hr1 Hk1] [Ha Hr2]. apply Hk1 in Hs. unfold held in *.
  assert (look (iv_redis v2) key = Some (RStr s)) as Hs2.
  { cbn in Ha. rewrite Hs in Ha. destruct x as [x|e]; [by injection Ha as <-|].
    destruct Ha as [->|[y Ha]]; [done|by injection Ha as <-]. }
  cbn in Ha. rewrite Hs in Ha. destruct x as [x|e].
  2:{ cbn. split_and!; [congruence|done|left; by right]. }
  injection Ha as _ <-. cbn [wp]. apply wp_bind. intros v3 v4 y [Hr3 Hk3] [Ha Hr4].
  apply Hk3 in Hs2. cbn in Ha. rewrite Hs2 in Ha.
  assert (iv_runs v4 = iv_runs v) as Hruns by congruence.
  destruct y as [y|e]; cbn.
  - injection Ha as Hv4 <-. rewrite Hv4 in Hs2.
    destruct (String.eqb_spec s pending) as [|Hn]; cbn; [split_and!; [done|done|left; by left]|].
    destruct (unmarshal s) as [r|] eqn:Eu; cbn; split_and!; try done.
    + right. eauto.
    + left. by right.
  - assert (iv_redis v4 = iv_redis v3) as -> by (destruct Ha as [?|[? [=]]]; done).
    split_and!; [done|done|left; by right].
Qed.

(** A run of the middleware runs the handler at most once, and a success of the
    handler leaves the key present, whatever replies are lost. *)
Lemma success_holds_key service method uid id v :
  let key := idempotencyKey service method id uid in
  id ≠ "" →
  wp (keeps_key key) (idem_allows (@redis_allows)) (Idempotency true service method uid (Some id))
    (λ a v', (iv_runs v' = iv_runs v ∧ (∀ h, a ≠ Handled h)) ∨
       ∃ h, iv_runs v' = (iv_runs v ++ [h])%list ∧ a = Handled h ∧
         ∀ r, h = HOk r → held key pending (iv_redis v') ∨
           ∃ d, marshal r = Some d ∧ held key d (iv_redis v')) v.
Proof.
  intros key Hid. unfold Idempotency. rewrite (proj2 (String.eqb_neq _ _)) by done. cbn [negb].
  fold key. apply wp_bind. intros v1 v2 x [Hr1 _] [Ha Hr2].
  destruct x as [n|e]; cbn [wp]; [|left; by rewrite Hr2, Hr1].
  assert (n = 1 → look (iv_redis v2) key = Some (RStr pending)) as Hnew.
  { intros ->. cbn in Ha. destruct (look (iv_redis v1) key); [done|]. injection Ha as <-.
    apply look_put_eq. }
  destruct (decide (n = 1)) as [->|Hn].
  - specialize (Hnew eq_refl). unfold claimed. apply wp_bind.
    intros v3 v4 h [Hr3 Hk3] [Hv4 Hr4]. cbn in Hv4. apply Hk3 in Hnew.
    assert (iv_runs v4 = (iv_runs v ++ [h])%list) as Hruns by (rewrite Hr4; congruence).
    rewrite <- Hv4 in Hnew.
    destruct h as [e|c|r]; cbn [wp].
    1,2: apply wp_bind; intros v5 v6 y [Hr5 _] [_ Hr6]; right; eexists;
      split_and!; [by rewrite Hr6, Hr5|done|done].
    destruct (marshal r) as [d|] eqn:Em; cbn [wp].
    2:{ right. eexists. split_and!; [done|done|]. intros r' [= <-]. by left. }
    apply wp_bind. intros v5 v6 y [Hr5 Hk5] [Hset Hr6]. apply Hk5 in Hnew.
    right. eexists. split_and!; [by rewrite Hr6, Hr5|done|]. intros r' [= <-].
    assert (iv_redis v6 = iv_redis v5 ∨ look (iv_redis v6) key = Some (RStr d)) as [->|Hd].
    { cbn in Hset. destruct y as [y|e].
      - injection Hset as <- _. right. apply look_put_eq.
      - destruct Hset as [->|[y Hset]]; [by left|]. injection Hset as <- _. right. apply look_put_eq. }
    + by left.
    + right. exists d. by split.
  - assert (wp (keeps_key key) (idem_allows (@redis_allows)) (not_claimed key)
      (λ a v', iv_runs v' = iv_runs v ∧ ∀ h, a ≠ Handled h) v2) as Hw.
    { apply wp_bind. intros v3 v4 y [Hr3 _] [_ Hr4].
      assert (iv_runs v4 = iv_runs v) by congruence.
      destruct y as [[d|]|]; cbn; repeat (case_match; cbn); done. }
    destruct n as [|[p|p|]|p]; try done; (eapply wp_mono, Hw); auto.
Qed.
End Middleware.
Arguments handled : clear implicits.
Arguments answer : clear implicits.
Arguments idemE : clear implicits.
Arguments iview : clear implicits.

(** ** Theorems *)

Section Theorems.
Context {R Er : Type}.
Variable marshal : R → option string.
Variable unmarshal : string → option R.
Implicit Types v : iview R Er.

(** C32. At most one success per request id, faults included: when a call of the
    middleware ran the handler successfully, a later call with the same id (as
    long as the key's value is kept, i.e. within the TTL) does not run the
    handler; it replays the very response of the first call, or is refused with
    1002 or 5002. Replies of Redis may be lost, executed or not, in both calls. *)
Theorem idempotent_at_most_once {S} (h : ∀ X, idemE R Er X → S → S * X) (view : S → iview R Er)
    `{!Lawful h view (idem_allows (@redis_allows))} service method uid id
    (env1 env2 : nat → S → S) n1 n2 s s2 r :
  let key := idempotencyKey service method id uid in
  let p := Idempotency marshal unmarshal true service method uid (Some id) in
  let s1 := fst (run_env h env1 n1 p s) in
  let a2 := snd (run_env h env2 n2 p s2) in
  let s3 := fst (run_env h env2 n2 p s2) in
  id ≠ "" → (∀ r d, marshal r = Some d → unmarshal d = Some r) →
  (∀ m x, keeps_key key (view x) (view (env1 m x))) →
  (∀ m x, keeps_key key (view x) (view (env2 m x))) →
  iv_runs (view s1) = (iv_runs (view s) ++ [HOk r])%list →
  keeps_key key (view s1) (view s2) →
  iv_runs (view s3) = iv_runs (view s2) ∧ (refusal a2 ∨ a2 = Replayed r).
Proof.
  intros key p s1 a2 s3 Hid Hcodec He1 He2 Hrun [_ Hk].
  pose proof (wp_sound _ _ h view env1 p _ n1 s He1
    (success_holds_key marshal unmarshal service method uid id (view s) Hid)) as H1.
  cbn beta in H1. fold s1 in H1. destruct H1 as [[H1 _]|(x & H1 & _ & H2)].
  { exfalso. rewrite Hrun in H1. apply (f_equal length) in H1. rewrite length_app in H1. cbn in H1. lia. }
  rewrite Hrun in H1. apply app_inj_tail in H1 as [_ <-].
  assert (∃ d, held key d (iv_redis (view s2)) ∧ (d = pending ∨ marshal r = Some d)) as (d & Hd & Hor).
  { destruct (H2 r eq_refl) as [H|(d & Hm & H)]; [exists pending|exists d]; split; auto;
      by apply Hk in H. }
  pose proof (wp_sound _ _ h view env2 p _ n2 s2 He2
    (held_key_never_runs marshal unmarshal service method uid id d (view s2) Hid Hd)) as H3.
  cbn beta in H3. destruct H3 as (H3 & _ & H4). split; [exact H3|].
  destruct H4 as [H4|(Hn & r' & Hu & H4)]; [by left|]. right.
  destruct Hor as [->|Hm]; [done|]. rewrite (Hcodec _ _ Hm) in Hu. by simplify_eq.
Qed.

(** Nothing touches the key or the log between two calls. *)
Definition same_key (key : string) (v v' : iview R Er) : Prop :=
  iv_runs v' = iv_runs v ∧ look (iv_redis v') key = look (iv_redis v) key.

Lemma first_call service method uid id v : id ≠ "" →
  let key := idempotencyKey service method id uid in
  look (iv_redis v) key = None →
  wp (same_key key) (idem_allows (@redis_up))
    (Idempotency marshal unmarshal true service method uid (Some id))
    (λ a v', ∃ h, a = Handled h ∧ iv_runs v' = (iv_runs v ++ [h])%list ∧
       look (iv_redis v') key =
         match h with
         | HOk r => Some (RStr (match marshal r with Some d => d | None => pending end))
         | _ => None
         end) v.
Proof.
  intros Hid key Hfree. unfold Idempotency. rewrite (proj2 (String.eqb_neq _ _)) by done. cbn [negb].
  fold key. apply wp_bind. intros v1 v2 x [Hr1 Hk1] [Ha Hr2].
  cbn in Ha. rewrite Hk1, Hfree in Ha. destruct Ha as [Hv2 ->]. cbn [wp].
  unfold claimed. apply wp_bind. intros v3 v4 h [Hr3 Hk3] [Hv4 Hr4]. cbn in Hv4.
  assert (look (iv_redis v4) key = Some (RStr pending)) as Hp
    by (rewrite Hv4, Hk3, Hv2; apply look_put_eq).
  destruct h as [e|c|r]; cbn [wp].
  1,2: apply wp_bind; intros v5 v6 y [Hr5 Hk5] [Hd Hr6]; cbn in Hd; rewrite Hk5, Hp in Hd;
    destruct Hd as [Hd _]; eexists; split_and!;
    [done|by rewrite Hr6, Hr5, Hr4, Hr3, Hr2, Hr1|by rewrite Hd; apply look_drop_eq].
  destruct (marshal r) as [d|] eqn:Em; cbn [wp].
  - apply wp_bind. intros v5 v6 y [Hr5 Hk5] [Hd Hr6]. cbn in Hd. destruct Hd as [Hd _].
    exists (HOk r). rewrite Em. split_and!; [done|by rewrite Hr6, Hr5, Hr4, Hr3, Hr2, Hr1|].
    rewrite Hd. apply look_put_eq.
  - exists (HOk r). rewrite Em. split_and!; [done|by rewrite Hr4, Hr3, Hr2, Hr1|done].
Qed.

Lemma later_call service method uid id s v : id ≠ "" →
  let key := idempotencyKey service method id uid in
  held key s (iv_redis v) →
  wp (same_key key) (idem_allows (@redis_up))
    (Idempotency marshal unmarshal true service method uid (Some id))
    (λ a v', iv_runs v' = iv_runs v ∧
       a = if String.eqb s pending then Refused CodeRequestInProgress
           else match unmarshal s with
                | Some r => Replayed r
                | None => Refused CodeIdempotencyUnavailable
                end) v.
Proof.
  intros Hid key Hs. unfold held in Hs. unfold Idempotency.
  rewrite (proj2 (String.eqb_neq _ _)) by done. cbn [negb]. fold key.
  apply wp_bind. intros v1 v2 x [Hr1 Hk1] [Ha Hr2]. cbn in Ha. rewrite Hk1, Hs in Ha.
  destruct Ha as [Hv2 ->]. cbn [wp]. apply wp_bind. intros v3 v4 y [Hr3 Hk3] [Ha Hr4].
  cbn in Ha. rewrite Hk3, Hv2, Hk1, Hs in Ha. destruct Ha as [_ ->]. cbn [wp].
  destruct (String.eqb s pending); [|destruct (unmarshal s)]; cbn; split; congruence.
Qed.

(** The contract of a retry, on a store without faults: the first call
    with an id runs the handler once and gets its outcome; the second one, after
    a kept response, gets that response without running anything, and
    after an error or a business error runs the handler again. *)
Theorem retry_contract service method uid id v : id ≠ "" →
  (∀ r d, marshal r = Some d → unmarshal d = Some r ∧ d ≠ pending) →
  let p := Idempotency marshal unmarshal true service method uid (Some id) in
  look (iv_redis v) (idempotencyKey service method id uid) = None →
  wp (same_key (idempotencyKey service method id uid)) (idem_allows (@redis_up))
    (let* a1 := p in let* a2 := p in Ret (a1, a2))
    (λ a v', ∃ h, fst a = Handled h ∧
       match h with
       | HOk r => is_Some (marshal r) → snd a = Replayed r ∧ iv_runs v' = (iv_runs v ++ [h])%list
       | _ => ∃ h2, snd a = Handled h2 ∧ iv_runs v' = (iv_runs v ++ [h; h2])%list
       end) v.
Proof.
  intros Hid Hcodec p Hfree. apply wp_bind. eapply wp_mono, first_call; [|done|done].
  intros a1 w (h & -> & Hruns & Hkey). apply wp_bind. destruct h as [e|c|r].
  1,2: eapply wp_mono, first_call; [|done|done]; intros a2 w2 (h2 & -> & Hruns2 & _);
    eexists; split; [done|]; cbn; eexists; split; [done|]; rewrite Hruns2, Hruns, <- app_assoc; done.
  destruct (marshal r) as [d|] eqn:Em.
  - eapply wp_mono, later_call; [|done|exact Hkey]. intros a2 w2 [Hr2 ->]. exists (HOk r).
    split; [done|]. cbn. intros _. destruct (Hcodec r d Em) as [Hu Hn].
    rewrite (proj2 (String.eqb_neq _ _)), Hu by done. split; [done|]. by rewrite Hr2.
  - eapply wp_mono, wp_true. intros a2 w2 _. exists (HOk r). split; [done|]. cbn.
    rewrite Em. by intros [? ?].
Qed.

(** Finding: a response that cannot be encoded is answered as a success, with
    the comment "a retry will run again, which is the lesser evil"; but the id
    is left pending, so a retry does not run: it is refused as in progress
    (1002), for the 24 hours of the TTL. *)
Theorem unkept_result_blocks_retries service method uid id v : id ≠ "" →
  let p := Idempotency marshal unmarshal true service method uid (Some id) in
  look (iv_redis v) (idempotencyKey service method id uid) = None →
  wp (same_key (idempotencyKey service method id uid)) (idem_allows (@redis_up))
    (let* a1 := p in let* a2 := p in Ret (a1, a2))
    (λ a v', ∀ r, fst a = Handled (HOk r) → marshal r = None →
       snd a = Refused CodeRequestInProgress ∧ iv_runs v' = (iv_runs v ++ [HOk r])%list) v.
Proof.
  intros Hid p Hfree. apply wp_bind. eapply wp_mono, first_call; [|done|done].
  intros a1 w (h & -> & Hruns & Hkey). apply wp_bind. destruct h as [e|c|r].
  1,2: eapply wp_mono, wp_true; intros a2 w2 _ r; discriminate.
  destruct (marshal r) as [d|] eqn:Em.
  - eapply wp_mono, wp_true. intros a2 w2 _ r' [= <-]. congruence.
  - eapply wp_mono, later_call; [|done|exact Hkey]. intros a2 w2 [Hr2 ->] r' [= <-] _.
    split; [done|]. cbn. by rewrite Hr2.
Qed.
End Theorems.

(** ** A concrete server: Redis with faults and a script of handler outcomes *)

Record map_idem_state (R Er : Type) : Type := MI {
  mi_redis : map_redis_state; mi_script : list (handled R Er); mi_runs : list (handled R Er) }.
Arguments MI {R Er}. Arguments mi_redis {R Er}. Arguments mi_script {R Er}. Arguments mi_runs {R Er}.

Definition map_idem {R Er} (dflt : handled R Er) X (e : idemE R Er X) (s : map_idem_state R Er) :
    map_idem_state R Er * X :=
  match e in idemE _ _ X return map_idem_state R Er * X with
  | IRedis e => let '(r, x) := map_redis e (mi_redis s) in (MI r (mi_script s) (mi_runs s), x)
  | INext => let h := default dflt (head (mi_script s)) in
             (MI (mi_redis s) (tail (mi_script s)) (mi_runs s ++ [h])%list, h)
  end.

Definition mi_view {R Er} (s : map_idem_state R Er) : iview R Er := IV (mr_view (mi_redis s)) (mi_runs s).

#[export] Instance map_idem_lawful {R Er} (dflt : handled R Er) :
  Lawful (map_idem dflt) mi_view (idem_allows (@redis_allows)).
Proof.
  intros X [Y e|] s; cbn; [|done].
  pose proof (map_redis_lawful Y e (mi_redis s)) as H.
  destruct (map_redis e (mi_redis s)) as [r x]. cbn in *. by split.
Qed.

Definition id_marshal (s : string) : option string := Some ("=" +:+ s).
Definition id_unmarshal (s : string) : option string := strip_prefix "=" s.

Lemma id_codec r d : id_marshal r = Some d → id_unmarshal d = Some r ∧ d ≠ pending.
Proof. intros [= <-]. split; [apply strip_prefix_app|done]. Qed.

(** The SET of the first call is executed, its reply lost. *)
Definition retry_state : map_idem_state string Z :=
  MI (empty_redis [Fine; LostAfter]) [HOk "done"; HErr 1] [].

Lemma idempotent_at_most_once_witness :
  let p := Idempotency id_marshal id_unmarshal true "wallet" "Transfer" (Some 7) (Some "r1") in
  snd (run (map_idem (HErr 0)) p (fst (run (map_idem (HErr 0)) p retry_state))) = Replayed "done" ∧
  mi_runs (fst (run (map_idem (HErr 0)) p (fst (run (map_idem (HErr 0)) p retry_state)))) = [HOk "done"].
Proof.
  cbv zeta. split; [vm_compute; reflexivity|].
  edestruct (idempotent_at_most_once id_marshal id_unmarshal (map_idem (HErr 0)) mi_view
    "wallet" "Transfer" (Some 7) "r1" (λ _ s, s) (λ _ s, s) 0 0 retry_state
    (fst (run (map_idem (HErr 0)) (Idempotency id_marshal id_unmarshal true "wallet" "Transfer" (Some 7)
      (Some "r1")) retry_state)) "done") as [H _].
  - done.
  - intros r d H. by apply id_codec.
  - by split.
  - by split.
  - vm_compute. reflexivity.
  - by split.
  - cbn [mi_view iv_runs] in H. etransitivity; [exact H|]. vm_compute. reflexivity.
Defined.

Lemma retry_contract_witness :
  wp (same_key (idempotencyKey "wallet" "Transfer" "r1" None)) (idem_allows (@redis_up))
    (let* a1 := Idempotency (Er := Z) id_marshal id_unmarshal true "wallet" "Transfer" None (Some "r1") in
     let* a2 := Idempotency id_marshal id_unmarshal true "wallet" "Transfer" None (Some "r1") in Ret (a1, a2))
    (λ a _, ∃ h, fst a = Handled h) (IV (RView 0 ∅) []).
Proof.
  eapply wp_mono, (retry_contract id_marshal id_unmarshal "wallet" "Transfer" None "r1" (IV (RView 0 ∅) []));
    [|done|exact id_codec|vm_compute; reflexivity].
  intros a v (h & H & _). by exists h.
Defined.

Lemma unkept_result_witness :
  wp (same_key (idempotencyKey "wallet" "Transfer" "r1" None)) (idem_allows (@redis_up))
    (let* a1 := Idempotency (R := string) (Er := Z) (λ _, None) id_unmarshal true "wallet" "Transfer" None (Some "r1") in
     let* a2 := Idempotency (λ _, None) id_unmarshal true "wallet" "Transfer" None (Some "r1") in Ret (a1, a2))
    (λ a _, ∀ r, fst a = Handled (HOk r) → snd a = Refused 1002) (IV (RView 0 ∅) []).
Proof.
  eapply wp_mono, (unkept_result_blocks_retries (λ _, None) id_unmarshal "wallet" "Transfer" None "r1"
    (IV (RView 0 ∅) [])); [|done|vm_compute; reflexivity].
  intros a v H r Hr. by destruct (H r Hr eq_refl).
Defined.
