(* ===== verification/Limits.v ===== *)
(** * kitexx: limits of an RPC instance, rates and sizes (kitexx/limits.go, kitexx/guard.go)

    The in-flight cap is a transition system: every atomic operation of the
    middleware is a step, requests interleave freely. The QPS cap is [take] with
    its window state; [slot] is the clock reading the code makes before it takes
    the mutex. [ParseRate] and [ParseSize] read the limits of the IDL. *)
From Stdlib Require Import Sorting.
From S2P Require Import Prelude.

Record LimitsConfig : Type := { MaxInFlight : Z; MaxQPS : Z; MaxConnections : Z }.

Definition inFlight (c : LimitsConfig) : Z :=
  if bool_decide (MaxInFlight c < 0) then 0
  else if Z.eqb (MaxInFlight c) 0 then 1000
  else MaxInFlight c.

Definition connections (c : LimitsConfig) : Z :=
  if bool_decide (MaxConnections c ≤ 0) then 10000 else MaxConnections c.

Definition CodeBusy : Z := 5003.

(** ** The QPS cap *)

Record limiter : Type := L { l_window : Z; l_count : Z }.

Definition perWindow (c : LimitsConfig) : Z :=
  let p := Z.quot (MaxQPS c) 10 in if bool_decide (p < 1) then 1 else p.

Definition take (per : Z) (slot : Z) (l : limiter) : limiter * bool :=
  let l := if Z.eqb slot (l_window l) then l else L slot 0 in
  if bool_decide (per ≤ l_count l) then (l, false)
  else (L (l_window l) (l_count l + 1), true).

(** The calls of take in the order they hold the mutex. *)
Fixpoint takes (per : Z) (slots : list Z) (l : limiter) : list bool :=
  match slots with
  | [] => []
  | s :: slots' => let '(l', b) := take per s l in b :: takes per slots' l'
  end.

(** How many calls with slot [s] were let through. *)
Definition admitted (per : Z) (s : Z) (slots : list Z) (l : limiter) : Z :=
  Z.of_nat (length (List.filter (λ p, (Z.eqb (fst p) s && snd p)%bool) (zip slots (takes per slots l)))).

(** ** The in-flight cap *)

(** A request inside Limits: it has added itself to the counter and is about to
    be checked, is being refused (its Add(-1) is still to come), or is running. *)
Inductive phase : Type := Added (n : Z) | Refusing | Running.

Record flight : Type := F { f_counter : Z; f_requests : list phase }.

Inductive flight_step (max : Z) : flight → flight → Prop :=
| step_add c rs :                                     (* n := l.inFlight.Add(1) *)
    flight_step max (F c rs) (F (c + 1) (Added (c + 1) :: rs))
| step_refuse c n rs1 rs2 : max < n →                 (* n > l.maxInFlight *)
    flight_step max (F c (rs1 ++ Added n :: rs2)%list) (F c (rs1 ++ Refusing :: rs2)%list)
| step_admit c n rs1 rs2 : n ≤ max →
    flight_step max (F c (rs1 ++ Added n :: rs2)%list) (F c (rs1 ++ Running :: rs2)%list)
| step_refused c rs1 rs2 :                            (* l.inFlight.Add(-1); return refuse *)
    flight_step max (F c (rs1 ++ Refusing :: rs2)%list) (F (c - 1) (rs1 ++ rs2)%list)
| step_done c rs1 rs2 :                               (* the deferred Add(-1) *)
    flight_step max (F c (rs1 ++ Running :: rs2)%list) (F (c - 1) (rs1 ++ rs2)%list).

Definition running (f : flight) : Z :=
  Z.of_nat (length (List.filter (λ p, match p with Running => true | _ => false end) (f_requests f))).

(** ** Rates *)

Definition second : Z := 1000000000.
Definition minute : Z := 60 * second.
Definition hour : Z := 60 * minute.

Record Rate : Type := MkRate { N : Z; Window : Z; is_set : bool }.

#[export] Instance Rate_eq_dec : EqDecision Rate.
Proof. solve_decision. Defined.

Definition Off (r : Rate) : bool := bool_decide (N r ≤ 0) || bool_decide (Window r ≤ 0).

Definition unit_of (w : Z) : option string :=
  if Z.eqb w second then Some "s" else if Z.eqb w minute then Some "m"
  else if Z.eqb w hour then Some "h" else None.

(** Rate.String; [dur] renders a duration, for a window that is none of the three *)
Definition Rate_String (dur : Z → string) (r : Rate) : string :=
  if Off r then "off"
  else match unit_of (Window r) with
       | Some u => format_int (N r) +:+ "/" +:+ u
       | None => format_int (N r) +:+ "/" +:+ dur (Window r)
       end.

Definition window_of (unit : string) : option Z :=
  if bool_decide (unit ∈ ["s"; "sec"; "second"]) then Some second
  else if bool_decide (unit ∈ ["m"; "min"; "minute"]) then Some minute
  else if bool_decide (unit ∈ ["h"; "hour"]) then Some hour
  else None.

Inductive rate_error : Type := RateForm | RateCount | RateUnit.

Definition ParseRate (s : string) : result Rate rate_error :=
  let s := trim_space (to_lower s) in
  if String.eqb s "" || String.eqb s "off" || String.eqb s "0" then Ok (MkRate 0 0 true)
  else match cut "/" s with
       | None => Err RateForm
       | Some (n, unit) =>
           match parse_int (trim_space n) with
           | None => Err RateCount
           | Some count =>
               if bool_decide (count ≤ 0) then Err RateCount
               else match window_of (trim_space unit) with
                    | None => Err RateUnit
                    | Some w => Ok (MkRate count w true)
                    end
           end
       end.

(** GuardConfig *)
Record GuardConfig : Type := { MaxBodyBytes : Z; Timeout : Z; RatePerIP : Rate }.

Definition MaxBody (g : GuardConfig) : Z :=
  if bool_decide (0 < MaxBodyBytes g) then MaxBodyBytes g else Z.shiftl 1 20.

Definition PerIP (g : GuardConfig) : Rate :=
  if is_set (RatePerIP g) then RatePerIP g else MkRate 600 minute true.

(** strings.HasSuffix and TrimSuffix for one byte *)
Fixpoint strip_suffix_byte (c : ascii) (s : string) : option string :=
  match s with
  | "" => None
  | String d "" => if Ascii.eqb c d then Some "" else None
  | String d s' => match strip_suffix_byte c s' with Some r => Some (String d r) | None => None end
  end.

Definition ParseSize (s : string) : option Z :=
  let t := trim_space (to_lower s) in
  let '(mult, t) :=
    match strip_suffix_byte "k" t with
    | Some r => (Z.shiftl 1 10, r)
    | None => match strip_suffix_byte "m" t with
              | Some r => (Z.shiftl 1 20, r)
              | None => (1, t)
              end
    end in
  match parse_int (trim_space t) with
  | None => None
  | Some n => if bool_decide (n ≤ 0) || bool_decide (Z.quot (Z.shiftl 64 20) mult < n) then None
              else Some (int64 (n * mult))
  end.

(** ** The in-flight invariant *)

Definition is_running (p : phase) : bool := match p with Running => true | _ => false end.

(** Running, or added with a count that will be let in. *)
Definition eligible (max : Z) (p : phase) : bool :=
  match p with Running => true | Added n => bool_decide (n ≤ max) | Refusing => false end.

Definition count_if (P : phase → bool) (rs : list phase) : Z := Z.of_nat (length (List.filter P rs)).

Lemma count_if_mid P rs1 p rs2 :
  count_if P (rs1 ++ p :: rs2)%list = count_if P (rs1 ++ rs2)%list + (if P p then 1 else 0).
Proof.
  unfold count_if. rewrite !List.filter_app, !length_app. cbn. destruct (P p); cbn; lia.
Qed.

Lemma count_if_cons P p rs : count_if P (p :: rs) = count_if P rs + (if P p then 1 else 0).
Proof. exact (count_if_mid P [] p rs). Qed.

Lemma count_if_mono (P Q : phase → bool) rs : (∀ p, P p = true → Q p = true) →
  count_if P rs ≤ count_if Q rs.
Proof.
  intros H. induction rs as [|p rs IH]; [done|]. rewrite !count_if_cons.
  specialize (H p). destruct (P p), (Q p); try lia.
Qed.

(** Every request in the middleware is counted once, and no more than [max] of
    them are let in. *)
Definition flight_ok (max : Z) (f : flight) : Prop :=
  f_counter f = count_if (λ _, true) (f_requests f) ∧
  count_if (eligible max) (f_requests f) ≤ max.

Lemma flight_ok_step max f f' : flight_step max f f' → flight_ok max f → flight_ok max f'.
Proof.
  unfold flight_ok. destruct 1; cbn; rewrite ?count_if_mid, ?count_if_cons; cbn;
    repeat case_bool_decide; intros [H1 H2]; try lia.
  split; [lia|]. pose proof (count_if_mono (eligible max) (λ _, true) rs (λ _ _, eq_refl)). lia.
Qed.

(** However the atomic steps of concurrent requests interleave (adding to the
    counter, being checked, refused, finishing), an instance never runs more
    than max_in_flight handlers at a time, and the counter is exactly the number
    of requests inside the middleware, so it returns to zero when they end. *)
Theorem in_flight_bounded max f : 0 ≤ max →
  rtc (flight_step max) (F 0 []) f →
  running f ≤ max ∧ f_counter f = Z.of_nat (length (f_requests f)).
Proof.
  intros Hmax Hf. assert (flight_ok max f) as [H1 H2].
  { assert (flight_ok max (F 0 [])) as H0 by (split; done).
    revert H0. generalize (F 0 []), Hf. clear Hf. intros f0 Hf.
    induction Hf as [|f1 f2 f3 Hs _ IH]; [done|]. intros H. by apply IH, (flight_ok_step max f1 f2). }
  split.
  - unfold running. fold (count_if is_running (f_requests f)).
    pose proof (count_if_mono is_running (eligible max) (f_requests f)
      ltac:(intros []; cbn; done)). unfold is_running, count_if in *. lia.
  - rewrite H1. unfold count_if. f_equal. f_equal. apply List.filter_true.
Qed.

Lemma in_flight_bounded_witness : running (F 2 [Refusing; Running]) ≤ 1.
Proof.
  apply (in_flight_bounded 1); [lia|].
  eapply rtc_l; [apply step_add|]. cbn.
  eapply rtc_l; [apply (step_admit 1 1 1 [] []); lia|]. cbn.
  eapply rtc_l; [apply step_add|]. cbn.
  eapply rtc_l; [apply (step_refuse 1 2 2 [] [Running]); lia|]. apply rtc_refl.
Defined.

(** ** The QPS cap *)

Lemma admitted_cons per s x xs l :
  admitted per s (x :: xs) l =
    (if Z.eqb x s && snd (take per x l) then 1 else 0) + admitted per s xs (fst (take per x l)).
Proof.
  unfold admitted. cbn [takes zip zip_with]. destruct (take per x l) as [l' b]. cbn.
  destruct (Z.eqb x s), b; cbn; lia.
Qed.

(** When the readings of the clock reach take in order, at most the configured
    tenth of max_qps (at least one) is let through in a 100 ms slot, whatever the
    state before. *)
Theorem qps_bounded per s slots l : 1 ≤ per → 0 ≤ l_count l →
  Sorted.StronglySorted Z.le slots → Forall (Z.le (l_window l)) slots →
  admitted per s slots l ≤ per.
Proof.
  intros Hper Hc HS HF.
  assert (admitted per s slots l ≤ (if Z.eqb (l_window l) s then Z.max 0 (per - l_count l)
                                    else if bool_decide (l_window l < s) then per else 0)) as H.
  { revert l Hc HF. induction HS as [|x xs HS IH Hx]; intros l Hc HF.
    { unfold admitted. cbn. destruct (_ =? _)%Z; [lia|case_bool_decide; lia]. }
    apply Forall_cons in HF as [Hlx HF]. rewrite admitted_cons.
    set (l' := fst (take per x l)).
    assert (l_window l' = x ∧ 0 ≤ l_count l' ∧
      l_count l' = (if Z.eqb x (l_window l) then l_count l else 0) + (if snd (take per x l) then 1 else 0) ∧
      (snd (take per x l) = true → (if Z.eqb x (l_window l) then l_count l else 0) < per)) as (H1 & H2 & H3 & H4).
    { unfold l', take. destruct (Z.eqb_spec x (l_window l)) as [->|]; cbn;
        case_bool_decide; cbn; split_and!; try done; lia. }
    specialize (IH l' H2). rewrite H1 in IH. specialize (IH Hx).
    destruct (Z.eqb_spec x s), (Z.eqb_spec (l_window l) s), (Z.eqb_spec x (l_window l)),
      (snd (take per x l)); cbn in *; repeat case_bool_decide; try lia;
      try (specialize (H4 eq_refl)); lia. }
  destruct (_ =? _)%Z; [lia|]. case_bool_decide; lia.
Qed.

Lemma qps_bounded_witness : admitted 2 5 [4; 5; 5; 5; 6] (L 3 0) ≤ 2.
Proof.
  apply qps_bounded; [lia|by vm_compute| |].
  - repeat (apply SSorted_cons; [|by apply (bool_decide_unpack _)]). apply SSorted_nil.
  - by apply (bool_decide_unpack _).
Defined.

(** Finding: take reads the clock before it takes the mutex, so a reading can
    reach the window late; each late one resets the counter, and one more full
    tenth passes. Two slots' readings alternating let every request of both
    through: in no number of them is one refused, with a cap of one per slot. *)
Theorem late_slot_resets_qps n :
  let slots := concat (replicate n [6; 5]) in
  takes 1 slots (L 0 0) = replicate (2 * n) true ∧ admitted 1 6 slots (L 0 0) = Z.of_nat n.
Proof.
  cbv zeta.
  assert (∀ w c, w ≠ 6 → takes 1 (concat (replicate n [6; 5])) (L w c) = replicate (2 * n) true ∧
    admitted 1 6 (concat (replicate n [6; 5])) (L w c) = Z.of_nat n) as H.
  { induction n as [|n IH]; intros w c Hw; [done|]. replace (2 * S n)%nat with (S (S (2 * n))) by lia.
    change (concat (replicate (S n) [6; 5])) with (6 :: 5 :: concat (replicate n [6; 5])).
    assert (take 1 6 (L w c) = (L 6 1, true)) as E1.
    { unfold take. rewrite (proj2 (Z.eqb_neq _ _)) by done. done. }
    assert (take 1 5 (L 6 1) = (L 5 1, true)) as E2 by reflexivity.
    destruct (IH 5 1) as [H1 H2]; [done|].
    rewrite !admitted_cons. cbn [takes]. rewrite E1. cbn [fst snd takes]. rewrite E2.
    cbn [fst snd]. rewrite H1, H2. split; [done|]. change (6 =? 6) with true. change (5 =? 6) with false.
    cbn [andb]. lia. }
  by apply H.
Qed.

(** ** Rates and sizes *)

Lemma parse_int_range s z : parse_int s = Some z → in_int64 z.
Proof.
  unfold parse_int. set (o := match s with "" => _ | String _ _ => _ end). destruct (Z.of_int <$> o); [|done].
  case_bool_decide; [|done]. intros [= <-]. done.
Qed.

Lemma window_of_unit u w : window_of u = Some w → ∃ v, unit_of w = Some v ∧ window_of v = Some w ∧
  sforall (λ c, Ascii.eqb (lower_byte c) c) v = true ∧ sforall (λ c, negb (is_space c)) v = true ∧ 0 < w.
Proof.
  unfold window_of. repeat case_bool_decide; intros [= <-]; (eexists; split_and!; [reflexivity|..]);
    vm_compute; reflexivity.
Qed.

(** What ParseRate accepts prints as a rate it reads as the same one: for every
    text, "20/s", " 600/Minute " or "off", the rate's String is its normal form. *)
Theorem rate_roundtrip (dur : Z → string) s r : ParseRate s = Ok r → ParseRate (Rate_String dur r) = Ok r.
Proof.
  intros H. unfold ParseRate in H.
  destruct (_ || _ || _); [simplify_eq; reflexivity|].
  destruct (cut "/" _) as [[n unit]|]; [|done].
  destruct (parse_int (trim_space n)) as [count|] eqn:Hc; [|done].
  case_bool_decide as Hpos; [done|].
  destruct (window_of (trim_space unit)) as [w|] eqn:Hw; [|done]. simplify_eq.
  destruct (window_of_unit _ _ Hw) as (v & Hu & Hv & Hlow & Hsp & Hw0).
  unfold Rate_String, Off. cbn [N Window]. rewrite !bool_decide_false by lia. cbn [orb]. rewrite Hu.
  change (format_int count +:+ "/" +:+ v) with (format_int count +:+ String "/" v).
  set (t := format_int count +:+ String "/" v).
  assert (to_lower t = t) as Hl.
  { apply smap_id. unfold t. rewrite sforall_app. cbn [sforall]. rewrite Hlow, andb_true_r.
    apply sforall_format; [|done].
    intros c Hd. by rewrite lower_digit, Ascii.eqb_refl. }
  assert (trim_space t = t) as Ht.
  { apply trim_space_none. unfold t. rewrite sforall_app, format_int_no_space. cbn [sforall]. by rewrite Hsp. }
  assert (cut "/" t = Some (format_int count, v)) as Hcut by (apply cut_lacks, format_int_lacks; done).
  unfold ParseRate. rewrite Hl, Ht.
  assert (∀ x, cut "/" x = None → String.eqb t x = false) as Hne.
  { intros x Hx. apply String.eqb_neq. intros <-. congruence. }
  rewrite !Hne by reflexivity. cbn [orb]. rewrite Hcut, format_int_trim, trim_space_none by done.
  rewrite format_int_parse by (by eapply parse_int_range). rewrite bool_decide_false by lia.
  by rewrite Hv.
Qed.

Lemma rate_roundtrip_witness :
  ParseRate (Rate_String (λ _, "") (MkRate 600 minute true)) = Ok (MkRate 600 minute true).
Proof. apply (rate_roundtrip (λ _, "") " 600/Minute "). vm_compute. reflexivity. Defined.

(** A body size read from the IDL is at least one byte and at most 64 MiB, and
    the multiplication by the unit does not overflow; the guard's own limit is
    positive too. *)
Theorem parse_size_bounds s n g : ParseSize s = Some n →
  1 ≤ n ≤ Z.shiftl 64 20 ∧ 0 < MaxBody g.
Proof.
  intros H. split; [|unfold MaxBody; case_bool_decide; [lia|by vm_compute]].
  unfold ParseSize in H.
  assert (∃ mult t, (mult = 1 ∨ mult = 1024 ∨ mult = 1048576) ∧
    match parse_int (trim_space t) with
    | None => None
    | Some n => if bool_decide (n ≤ 0) || bool_decide (Z.quot (Z.shiftl 64 20) mult < n) then None
                else Some (int64 (n * mult))
    end = Some n) as (mult & t & Hm & H').
  { destruct (strip_suffix_byte "k" _) as [r|]; [exists 1024, r; auto|].
    destruct (strip_suffix_byte "m" _) as [r|]; [exists 1048576, r; auto|]. eexists 1, _. eauto. }
  destruct (parse_int _) as [x|]; [|done]. destruct (_ || _) eqn:E; [done|].
  apply orb_false_iff in E as [E1%bool_decide_eq_false E2%bool_decide_eq_false].
  change (Z.shiftl 64 20) with 67108864 in *.
  assert (x * mult ≤ 67108864).
  { destruct Hm as [->|[->| ->]]; [change (67108864 `quot` 1) with 67108864 in E2
      |change (67108864 `quot` 1024) with 65536 in E2|change (67108864 `quot` 1048576) with 64 in E2]; lia. }
  rewrite int64_small in H' by (unfold in_int64; destruct Hm as [->|[->| ->]]; lia).
  simplify_eq. destruct Hm as [->|[->| ->]]; lia.
Qed.

Lemma parse_size_witness : ParseSize " 64K" = Some 65536 ∧ 1 ≤ 65536 ≤ Z.shiftl 64 20.
Proof.
  split; [vm_compute; reflexivity|].
  destruct (parse_size_bounds " 64K" 65536 {| MaxBodyBytes := 0; Timeout := 0; RatePerIP := MkRate 0 0 false |})
    as [H _]; [vm_compute; reflexivity|exact H].
Defined.
