(* ===== verification/Edges.v ===== *)
(** * kitexx, hertzx: who the client is (kitexx/client.go, hertzx/clientip.go)

    [EdgeSet] compiles the client.edges section, [Match] finds the edge of a key,
    [forwardedIP] and [edgeOf] find the client's address of a request, [Edge] is
    the middleware. Package net's parsing of addresses and networks is a
    parameter ([NetLib]); the request context keeps what edgeOf caches in it. *)
From S2P Require Import Prelude.

Class NetLib : Type := {
  ip : Type;
  cidr : Type;
  ParseIP : string → option ip;
  ip_string : ip → string;
  is_v4 : ip → bool;                        (* To4() != nil *)
  unspecified : ip → bool;
  ParseCIDR : string → option cidr;
  cidr_contains : cidr → ip → bool;
  SplitHostPort : string → option string;   (* the host *)
  addr : Type;
  ParseAddr : string → option addr;         (* netip *)
  addr_plain : addr → addr;                 (* Unmap().WithZone("") *)
  addr_valid : addr → bool;
  addr_unspecified : addr → bool;
  addr_string : addr → string }.

(** strings.EqualFold, strings.Contains of one byte *)
Definition equal_fold (a b : string) : bool := String.eqb (to_lower a) (to_lower b).

Definition DefaultEdgeKeyHeader : string := "X-CDN-Key".
Definition DefaultEdgeIPHeader : string := "X-CDN-Client-IP".
Definition EdgeKeyMinBytes : Z := 16.
Definition CodeNotViaEdge : Z := 1011.

Definition header_byte (c : ascii) : bool :=
  byte_in 97 122 c || byte_in 65 90 c || byte_in 48 57 c
  || Ascii.eqb c "-" || Ascii.eqb c "_" || Ascii.eqb c ".".

Definition validHeaderName (s : string) : bool :=
  negb (String.eqb s "") && sforall header_byte s.

(** edgeHeaderUnsettable: [true] when a CDN refuses to set the header or writes
    it itself. *)
Definition edgeHeaderUnsettable (h : string) : bool :=
  let l := to_lower h in
  has_prefix "x-edge-" l || has_prefix "x-amz-" l || String.eqb l "x-real-ip"
  || has_prefix "cf-" l || has_prefix "cloudfront-" l || has_prefix "x-forwarded-" l
  || String.eqb l "host" || String.eqb l "via".

(** ^[a-z0-9-]{1,32}$ *)
Definition edgeNameRe (s : string) : bool :=
  bool_decide (1 ≤ slen s) && bool_decide (slen s ≤ 32)
  && sforall (λ c, byte_in 97 122 c || byte_in 48 57 c || Ascii.eqb c "-") s.

(** ** client.device *)

Record DeviceConfig : Type := { dev_required : bool; Types : list string }.

Definition Device_Enabled (d : DeviceConfig) : bool := negb (bool_decide (Types d = [])).

Definition Canonical (d : DeviceConfig) (v : string) : option string :=
  List.find (λ t, equal_fold t (trim_space v)) (Types d).

Section Client.
Context `{NetLib}.

Record EdgeConfig : Type := {
  ec_name : string; ec_keys : list string; ec_ip_header : string; ec_peers : list string }.
Record EdgesConfig : Type := {
  required : bool; key_header : string; ip_header : string; ec_list : list EdgeConfig }.

Record EdgeRule : Type := { Name : string; Keys : list string; IPHeader : string; Peers : list cidr }.
Record EdgeSet : Type := {
  Required : bool; KeyHeader : string; SetIPHeader : string; Edges : list EdgeRule }.

Inductive edges_error : Type :=
| BadHeader | UnsettableHeader | SameHeader | RequiredWithoutEdges
| BadName | DuplicateName | KeyIsIPHeader | ShortKey | SharedKey | NoKey | BadCIDR.

(** parseCIDRs: a bare address is its own /32 or /128. *)
Definition with_mask (s : string) : string :=
  let s := trim_space s in
  if negb (lacks "/" s) then s
  else match ParseIP s with
       | Some a => if is_v4 a then s +:+ "/32" else s +:+ "/128"
       | None => s +:+ "/128"
       end.

Fixpoint parseCIDRs (l : list string) : result (list cidr) edges_error :=
  match l with
  | [] => Ok []
  | s :: l' =>
      match ParseCIDR (with_mask s) with
      | None => Err BadCIDR
      | Some n => let? ns := parseCIDRs l' in Ok (n :: ns)
      end
  end.

Definition defaultTrustedProxies : list string :=
  ["10.0.0.0/8"; "172.16.0.0/12"; "192.168.0.0/16"; "127.0.0.0/8"; "::1/128"; "fc00::/7"].

Definition Trusted (trusted_proxies : list string) : result (list cidr) edges_error :=
  parseCIDRs (defaultTrustedProxies ++ trusted_proxies)%list.

(** The keys of one edge, against those already taken. *)
Fixpoint edge_keys (keys taken : list string) : result (list string) edges_error :=
  match keys with
  | [] => Ok []
  | k :: keys' =>
      let k := trim_space k in
      if String.eqb k "" then edge_keys keys' taken
      else if bool_decide (slen k < EdgeKeyMinBytes) then Err ShortKey
      else if existsb (String.eqb k) taken then Err SharedKey
      else let? ks := edge_keys keys' (k :: taken) in Ok (k :: ks)
  end.

Definition edge_rule (key_header ip_header : string) (names taken : list string) (e : EdgeConfig) :
    result EdgeRule edges_error :=
  let name := trim_space (ec_name e) in
  if negb (edgeNameRe name) then Err BadName else
  if existsb (String.eqb name) names then Err DuplicateName else
  let h := trim_space (ec_ip_header e) in
  if negb (String.eqb h "") && negb (validHeaderName h) then Err BadHeader else
  let h := if String.eqb h "" then ip_header else h in
  if equal_fold h key_header then Err KeyIsIPHeader else
  let? ks := edge_keys (ec_keys e) taken in
  if bool_decide (ks = []) then Err NoKey else
  let? ps := parseCIDRs (ec_peers e) in
  Ok {| Name := name; Keys := ks; IPHeader := h; Peers := ps |}.

Fixpoint edge_rules (key_header ip_header : string) (names taken : list string)
    (l : list EdgeConfig) : result (list EdgeRule) edges_error :=
  match l with
  | [] => Ok []
  | e :: l' =>
      let? x := edge_rule key_header ip_header names taken e in
      let? xs := edge_rules key_header ip_header (Name x :: names) (Keys x ++ taken)%list l' in
      Ok (x :: xs)
  end.

Definition header_check (h : string) : option edges_error :=
  if negb (validHeaderName h) then Some BadHeader
  else if edgeHeaderUnsettable h then Some UnsettableHeader else None.

Definition compile_edges (cfg : EdgesConfig) : result EdgeSet edges_error :=
  let kh := trim_space (key_header cfg) in
  let kh := if String.eqb kh "" then DefaultEdgeKeyHeader else kh in
  let ih := trim_space (ip_header cfg) in
  let ih := if String.eqb ih "" then DefaultEdgeIPHeader else ih in
  match header_check kh, header_check ih with
  | Some e, _ => Err e
  | None, Some e => Err e
  | None, None =>
      if equal_fold kh ih then Err SameHeader else
      if required cfg && bool_decide (ec_list cfg = []) then Err RequiredWithoutEdges else
      let? xs := edge_rules kh ih [] [] (ec_list cfg) in
      Ok {| Required := required cfg; KeyHeader := kh; SetIPHeader := ih; Edges := xs |}
  end.

Definition Enabled (e : EdgeSet) : bool := negb (bool_decide (length (Edges e) = 0%nat)).

(** Match: every key of every edge is compared; the first hit is kept. *)
Definition Match (e : EdgeSet) (presented : string) : option EdgeRule :=
  fold_left (λ found x,
      fold_left (λ found k,
          match found with
          | Some _ => found
          | None => if String.eqb k presented then Some x else None
          end) (Keys x) found) (Edges e) None.

(** SelfHeaders: the key and IP headers of the first edge that has a key. *)
Definition SelfHeaders (e : EdgeSet) : option (list (string * string)) :=
  match List.find (λ x, negb (bool_decide (Keys x = []))) (Edges e) with
  | Some x => match Keys x with
              | k :: _ => Some [(KeyHeader e, k); (IPHeader x, "127.0.0.1")]
              | [] => None
              end
  | None => None
  end.

(** ** A request *)

Inductive edge_result_label : Type := edgeNone | edgeBadKey | edgeBadIP | edgeOK | edgePeerOutside.

Record edgeResult : Type := ER {
  er_edge : string; er_ip : string; er_result : edge_result_label; er_peer : string }.

(** The parts of app.RequestContext the code reads and writes: the connection's
    address, the values of a header (PeekAll), the cached outcome of edgeOf. *)
Record RequestContext : Type := RC {
  remote : option string; peek_all : string → list string; edge_cache : option edgeResult }.

Definition del_header (h : string) (c : RequestContext) : RequestContext :=
  RC (remote c) (λ x, if equal_fold x h then [] else peek_all c x) (edge_cache c).

Definition inAny (a : ip) (nets : list cidr) : bool := existsb (λ n, cidr_contains n a) nets.

Section Forwarded.
Variable trusted : list cidr.

Definition isTrusted (a : ip) : bool := unspecified a || inAny a trusted.

(** The loop over the entries from the right; [client] is the last address
    believed. *)
Fixpoint believe (client : string) (entries_from_right : list string) : string :=
  match entries_from_right with
  | [] => client
  | e :: rest =>
      match ParseIP (trim_space e) with
      | None => client
      | Some a => if isTrusted a then believe (ip_string a) rest else ip_string a
      end
  end.

Definition forwarded_entries (values : list string) : list string :=
  concat (split_on "," <$> values).

Definition forwardedIP (c : RequestContext) : string :=
  match remote c with
  | None => ""
  | Some a =>
      let a := trim_space a in
      let peer := match SplitHostPort a with Some h => h | None => a end in
      match ParseIP peer with
      | None => peer
      | Some p => if negb (isTrusted p) then peer
                  else believe peer (rev (forwarded_entries (peek_all c "X-Forwarded-For")))
      end
  end.
End Forwarded.

Definition parseEdgeIP (s : string) : option string :=
  let s := trim_space s in
  if String.eqb s "" then None else
  let a := match ParseAddr s with
           | Some a => Some a
           | None => match SplitHostPort s with Some h => ParseAddr h | None => None end
           end in
  match a with
  | None => None
  | Some a => let a := addr_plain a in
              if negb (addr_valid a) || addr_unspecified a then None else Some (addr_string a)
  end.

(** edgeOf without its cache *)
Definition edge_outcome (edges : EdgeSet) (forwarded : RequestContext → string) (c : RequestContext) :
    edgeResult :=
  if negb (Enabled edges) then ER "" "" edgeNone "" else
  match peek_all c (KeyHeader edges) with
  | [] => ER "" "" edgeNone ""
  | [k] =>
      match Match edges k with
      | None => ER "" "" edgeBadKey ""
      | Some edge =>
          match peek_all c (IPHeader edge) with
          | [v] =>
              match parseEdgeIP v with
              | None => ER (Name edge) "" edgeBadIP ""
              | Some a =>
                  if bool_decide (length (Peers edge) = 0%nat) then ER (Name edge) a edgeOK ""
                  else let peer := forwarded c in
                       match ParseIP peer with
                       | Some p => if inAny p (Peers edge) then ER (Name edge) a edgeOK ""
                                   else ER (Name edge) a edgePeerOutside peer
                       | None => ER (Name edge) a edgePeerOutside peer
                       end
              end
          | _ => ER (Name edge) "" edgeBadIP ""
          end
      end
  | _ => ER "" "" edgeBadKey ""
  end.

Definition edgeOf (edges : EdgeSet) (forwarded : RequestContext → string) (c : RequestContext) :
    RequestContext * edgeResult :=
  match edge_cache c with
  | Some r => (c, r)
  | None => let r := edge_outcome edges forwarded c in
            (RC (remote c) (peek_all c) (Some r), r)
  end.

Definition ClientIP (trusted : list cidr) (edges : EdgeSet) (c : RequestContext) :
    RequestContext * string :=
  let '(c, r) := edgeOf edges (forwardedIP trusted) c in
  if negb (String.eqb (er_ip r) "") then (c, er_ip r) else (c, forwardedIP trusted c).

(** isFrameworkPath (hertzx/auth.go) *)
Definition isFrameworkPath (p : string) : bool :=
  String.eqb p "/ping" || String.eqb p "/docs" || has_prefix "/docs/" p || has_prefix "/openapi." p.

Inductive edge_answer : Type :=
| Abort (status code : Z)
| Next (edge_name : option string).

(** The middleware: the context the handlers see and whether they run. *)
Definition Edge (trusted : list cidr) (edges : EdgeSet) (path : string) (c : RequestContext) :
    RequestContext * edge_answer :=
  let '(c, _) := ClientIP trusted edges c in
  let r := match edge_cache c with Some r => r | None => ER "" "" edgeNone "" end in
  let c := del_header (KeyHeader edges) c in
  if Required edges && String.eqb (er_ip r) "" && negb (isFrameworkPath path)
  then (c, Abort 403 CodeNotViaEdge)
  else (c, Next (if String.eqb (er_edge r) "" then None else Some (er_edge r))).
End Client.

(** ** Which edge a key belongs to *)

Section Matching.
Context `{NetLib}.

Lemma fold_found {A B} (f : A → option B) l (b : B) :
  fold_left (λ found k, match found with Some _ => found | None => f k end) l (Some b) = Some b.
Proof. induction l as [|x l IH]; cbn; [done|exact IH]. Qed.

Lemma fold_first {A B} (f : A → option B) l :
  fold_left (λ found k, match found with Some _ => found | None => f k end) l None
  = match List.find (λ k, bool_decide (is_Some (f k))) l with Some k => f k | None => None end.
Proof.
  induction l as [|x l IH]; cbn; [done|]. destruct (f x) as [b|] eqn:E; cbn.
  - by rewrite fold_found, E.
  - by rewrite IH.
Qed.

Definition has_key (presented : string) (x : EdgeRule) : bool := existsb (λ k, String.eqb k presented) (Keys x).

Lemma match_spec e presented : Match e presented = List.find (has_key presented) (Edges e).
Proof.
  assert (∀ (x : EdgeRule) ks (found : option EdgeRule), fold_left (λ found k, match found with
      | Some _ => found
      | None => if String.eqb k presented then Some x else None end) ks found
    = match found with Some y => Some y
      | None => if existsb (λ k, String.eqb k presented) ks then Some x else None end) as Hk.
  { intros x ks [y|].
    - exact (fold_found (λ k, if String.eqb k presented then Some x else None) ks y).
    - induction ks as [|k ks IH]; cbn; [done|]. destruct (String.eqb k presented); cbn; [|exact IH].
      exact (fold_found (λ k, if String.eqb k presented then Some x else None) ks x). }
  unfold Match. generalize (Edges e). clear e. intros l.
  assert (∀ found : option EdgeRule, fold_left (λ found x, fold_left (λ found k, match found with
      | Some _ => found
      | None => if String.eqb k presented then Some x else None end) (Keys x) found) l found
    = match found with Some y => Some y | None => List.find (has_key presented) l end) as Hl.
  { induction l as [|x l IH]; intros found; cbn; [by destruct found|]. rewrite Hk, IH.
    unfold has_key at 2. destruct found as [y|]; [done|].
    destruct (existsb (λ k, String.eqb k presented) (Keys x)); done. }
  apply Hl.
Qed.

(** *** What compile_edges guarantees *)

Definition key_ok (k : string) : Prop := EdgeKeyMinBytes ≤ slen k.

Lemma edge_keys_spec keys taken ks : edge_keys keys taken = Ok ks →
  Forall key_ok ks ∧ NoDup ks ∧ Forall (λ k, k ∉ taken) ks.
Proof.
  revert taken ks. induction keys as [|k keys IH]; intros taken ks; cbn.
  { intros [= <-]. split_and!; constructor. }
  destruct (String.eqb _ _); [apply IH|]. case_bool_decide as Hlen; [done|].
  destruct (existsb _ taken) eqn:Hex; [done|]. intros (ks' & E & [= <-])%rbind_ok.
  destruct (IH _ _ E) as (H1 & H2 & H3).
  assert (trim_space k ∉ taken) as Hn.
  { intros Hin. assert (existsb (String.eqb (trim_space k)) taken = true) as Ht; [|congruence].
    apply existsb_exists. exists (trim_space k). split; [by apply list_elem_of_In|apply String.eqb_refl]. }
  split_and!.
  - constructor; [unfold key_ok; lia|done].
  - constructor; [|done]. intros Hin. rewrite Forall_forall in H3. apply (H3 _ Hin). by left.
  - constructor; [done|]. eapply Forall_impl; [exact H3|]. cbn. intros x Hx Hin. apply Hx. by right.
Qed.

Lemma edge_rule_spec kh ih names taken e x : edge_rule kh ih names taken e = Ok x →
  Forall key_ok (Keys x) ∧ NoDup (Keys x) ∧ Forall (λ k, k ∉ taken) (Keys x) ∧ Keys x ≠ [] ∧
  Name x ∉ names ∧ edgeNameRe (Name x) = true ∧ equal_fold (IPHeader x) kh = false.
Proof.
  unfold edge_rule. destruct (edgeNameRe _) eqn:Hn; cbn [negb]; [|done].
  destruct (existsb _ names) eqn:Hex; [done|]. destruct (_ && _); [done|].
  destruct (equal_fold _ kh) eqn:Hf; [done|]. intros (ks & Hks & E)%rbind_ok.
  case_bool_decide as Hne; [done|]. apply rbind_ok in E as (ps & _ & [= <-]).
  apply edge_keys_spec in Hks as (H1 & H2 & H3). cbn. split_and!; try done.
  intros Hin. assert (existsb (String.eqb (trim_space (ec_name e))) names = true) as Ht; [|congruence].
  apply existsb_exists. eexists. split; [by apply list_elem_of_In|apply String.eqb_refl].
Qed.

Lemma edge_rules_spec kh ih l : ∀ names taken xs, edge_rules kh ih names taken l = Ok xs →
  Forall (λ x, Forall key_ok (Keys x) ∧ Keys x ≠ [] ∧ edgeNameRe (Name x) = true ∧
               equal_fold (IPHeader x) kh = false) xs ∧
  NoDup (Name <$> xs) ∧ Forall (λ x, Name x ∉ names) xs ∧
  NoDup (concat (Keys <$> xs)) ∧ Forall (λ k, k ∉ taken) (concat (Keys <$> xs)).
Proof.
  induction l as [|e l IH]; intros names taken xs; cbn.
  { intros [= <-]. split_and!; constructor. }
  intros (x & Hx & E)%rbind_ok. apply rbind_ok in E as (xs' & Hxs & [= <-]).
  apply edge_rule_spec in Hx as (H1 & H2 & H3 & H4 & H5 & H6 & H7).
  destruct (IH _ _ _ Hxs) as (G1 & G2 & G3 & G4 & G5). cbn. split_and!.
  - constructor; [by split_and!|done].
  - constructor; [|done]. intros (y & Hy & Hin)%list_elem_of_fmap. rewrite Forall_forall in G3.
    apply (G3 y Hin). rewrite <- Hy. by left.
  - constructor; [done|]. eapply Forall_impl; [exact G3|]. cbn. intros y Hy Hin. apply Hy. by right.
  - apply NoDup_app. split_and!; [done| |done]. intros k Hk Hk'. rewrite Forall_forall in G5.
    apply (G5 k Hk'). apply elem_of_app. by left.
  - apply Forall_app. split; [done|]. eapply Forall_impl; [exact G5|]. cbn. intros k Hk Hin.
    apply Hk. apply elem_of_app. by right.
Qed.

Lemma key_owner xs k x y : NoDup (concat (Keys <$> xs)) → x ∈ xs → y ∈ xs → k ∈ Keys x → k ∈ Keys y → x = y.
Proof.
  induction xs as [|z xs IH]; cbn; [by intros _ ?%elem_of_nil|].
  intros (H1 & H2 & H3)%NoDup_app Hx Hy Hkx Hky.
  assert (∀ w, w ∈ xs → k ∈ Keys w → k ∈ concat (Keys <$> xs)) as Hin.
  { intros w Hw Hk. apply list_elem_of_In, in_concat. exists (Keys w).
    split; apply list_elem_of_In; [|done]. apply list_elem_of_fmap. eauto. }
  apply elem_of_cons in Hx as [->|Hx], Hy as [->|Hy]; [done| | |by apply IH].
  - destruct (H2 k Hkx). by eapply Hin.
  - destruct (H2 k Hky). by eapply Hin.
Qed.

(** The shape of a successful compilation. *)
Lemma compile_edges_inv cfg e : compile_edges cfg = Ok e →
  header_check (KeyHeader e) = None ∧
  edge_rules (KeyHeader e) (SetIPHeader e) [] [] (ec_list cfg) = Ok (Edges e).
Proof.
  unfold compile_edges. set (kh := if String.eqb _ _ then DefaultEdgeKeyHeader else _).
  set (ih := if String.eqb _ _ then DefaultEdgeIPHeader else _).
  destruct (header_check kh) eqn:Hkh; [by destruct (header_check ih)|].
  destruct (header_check ih) eqn:Hih; [done|]. destruct (equal_fold kh ih); [done|].
  destruct (_ && _); [done|]. by intros (xs & Hxs & [= <-])%rbind_ok.
Qed.

Lemma header_check_none h : header_check h = None → validHeaderName h = true ∧ edgeHeaderUnsettable h = false.
Proof. unfold header_check. destruct (validHeaderName h), (edgeHeaderUnsettable h); done. Qed.

(** A client.edges section that compiles: every edge has a name of its own and at
    least one key, every key is at least 16 bytes and belongs to one edge
    only, the headers are header names a CDN can set, an edge's address header is
    never the key header; and Match returns an edge exactly when the presented
    key is one of that edge's keys. *)
Theorem compiled_edges_sound cfg e : compile_edges cfg = Ok e →
  (∀ x, x ∈ Edges e → Keys x ≠ [] ∧ Forall key_ok (Keys x) ∧ edgeNameRe (Name x) = true ∧
        equal_fold (IPHeader x) (KeyHeader e) = false) ∧
  NoDup (Name <$> Edges e) ∧ NoDup (concat (Keys <$> Edges e)) ∧
  validHeaderName (KeyHeader e) = true ∧ edgeHeaderUnsettable (KeyHeader e) = false ∧
  (∀ presented x, Match e presented = Some x ↔ x ∈ Edges e ∧ presented ∈ Keys x).
Proof.
  intros [[Hv Hu]%header_check_none Hxs]%compile_edges_inv.
  apply edge_rules_spec in Hxs as (H1 & H2 & _ & H4 & _).
  rewrite Forall_forall in H1.
  split_and!; try done.
  - intros x Hx. destruct (H1 x Hx) as (G1 & G2 & G3 & G4). by split_and!.
  - intros presented x. rewrite match_spec.
    assert (∀ y, has_key presented y = true ↔ presented ∈ Keys y) as Hk.
    { intros y. unfold has_key. rewrite existsb_exists. split.
      - intros (k & Hin & ->%String.eqb_eq). by apply list_elem_of_In.
      - intros Hin. exists presented. split; [by apply list_elem_of_In|apply String.eqb_refl]. }
    split.
    + intros Hf. apply List.find_some in Hf as [Hin Hp]. split; [by apply list_elem_of_In|by apply Hk].
    + intros [Hin Hp]. destruct (List.find (has_key presented) (Edges e)) as [y|] eqn:Ef.
      * apply List.find_some in Ef as [Hy Hky]. f_equal. apply (key_owner (Edges e) presented); try done.
        -- by apply list_elem_of_In. -- by apply Hk.
      * exfalso. pose proof (List.find_none _ _ Ef x) as Hn. rewrite (proj2 (Hk x) Hp) in Hn.
        discriminate Hn. by apply list_elem_of_In.
Qed.
End Matching.

(** ** The client's address *)

Section Address.
Context `{NetLib}.

(** An entry that a proxy of ours appended: an address of a trusted network. *)
Definition ours (trusted : list cidr) (e : string) : bool :=
  match ParseIP (trim_space e) with Some a => isTrusted trusted a | None => false end.

Lemma believe_stops trusted client xs e ts : Forall (λ t, ours trusted t = true) ts → ours trusted e = false →
  believe trusted client (rev ((xs ++ e :: ts)%list))
  = match ParseIP (trim_space e) with
    | Some a => ip_string a
    | None => believe trusted client (rev ts)
    end.
Proof.
  intros Hts He. rewrite rev_app_distr. cbn [rev]. rewrite <- app_assoc. cbn [app].
  assert (Forall (λ t, ours trusted t = true) (rev ts)) as Hr by (by apply Forall_rev).
  clear Hts. revert client. induction Hr as [|t r Ht Hr IH]; intros client.
  - cbn. unfold ours in He. destruct (ParseIP (trim_space e)) as [a|]; [|done]. by rewrite He.
  - cbn. unfold ours in Ht. destruct (ParseIP (trim_space t)) as [a|]; [|done]. rewrite Ht. apply IH.
Qed.

(** The address a client gets from X-Forwarded-For is not its to choose: let the
    connection come from a trusted proxy and the entries be whatever the client
    sent ([xs]), then the address our outermost proxy saw ([e]), then entries of
    trusted proxies ([ts]). The result is [e]'s address (and a malformed [e] leaves
    the innermost proxy's view), the same for every [xs]; and a peer that is not
    a trusted proxy is its own address, whatever its headers say. *)
Theorem forwarded_ip_not_spoofable trusted c a p xs e ts :
  remote c = Some a →
  let peer := match SplitHostPort (trim_space a) with Some h => h | None => trim_space a end in
  ParseIP peer = Some p →
  (isTrusted trusted p = false → forwardedIP trusted c = peer) ∧
  (isTrusted trusted p = true →
   forwarded_entries (peek_all c "X-Forwarded-For") = (xs ++ e :: ts)%list →
   Forall (λ t, ours trusted t = true) ts → ours trusted e = false →
   forwardedIP trusted c = match ParseIP (trim_space e) with
                           | Some x => ip_string x
                           | None => believe trusted peer (rev ts)
                           end).
Proof.
  intros Hr peer Hp. unfold forwardedIP. rewrite Hr. fold peer. rewrite Hp. split.
  - intros ->. done.
  - intros -> Hxs Hts He. cbn [negb]. rewrite Hxs. by apply believe_stops.
Qed.

Lemma del_header_other h h' c : equal_fold h' h = false → peek_all (del_header h c) h' = peek_all c h'.
Proof. intros Hh. cbn. by rewrite Hh. Qed.

Lemma forwarded_del_header trusted h c : equal_fold "X-Forwarded-For" h = false →
  forwardedIP trusted (del_header h c) = forwardedIP trusted c.
Proof. intros Hh. unfold forwardedIP. by rewrite del_header_other. Qed.

Lemma settable_not_forwarded h : edgeHeaderUnsettable h = false → equal_fold "X-Forwarded-For" h = false.
Proof.
  intros Hu. apply String.eqb_neq. intros Hf. unfold edgeHeaderUnsettable in Hu.
  change (to_lower "X-Forwarded-For") with "x-forwarded-for" in Hf. rewrite <- Hf in Hu.
  vm_compute in Hu. discriminate Hu.
Qed.

(** The Edge middleware, for a compiled client.edges and a request judged for
    the first time: the handlers see the same client address as before, and no
    key header any more. With required on, a request passes only when exactly
    one key header holds the key of an edge and exactly one address header of
    that edge a usable address, which is then the client's address; every
    other request is 403 with code 1011, except on the framework's own paths. *)
Theorem edge_required_vouched cfg edges trusted path c c' ans : compile_edges cfg = Ok edges →
  edge_cache c = None → Edge trusted edges path c = (c', ans) →
  snd (ClientIP trusted edges c') = snd (ClientIP trusted edges c) ∧
  peek_all c' (KeyHeader edges) = [] ∧
  (Required edges = true → isFrameworkPath path = false →
   (ans = Abort 403 CodeNotViaEdge ∧ er_ip (edge_outcome edges (forwardedIP trusted) c) = "") ∨
   (∃ k edge v a, peek_all c (KeyHeader edges) = [k] ∧ Match edges k = Some edge ∧
      peek_all c (IPHeader edge) = [v] ∧ parseEdgeIP v = Some a ∧ a ≠ "" ∧
      snd (ClientIP trusted edges c) = a ∧
      ans = Next (if String.eqb (Name edge) "" then None else Some (Name edge)))).
Proof.
  intros Hcfg Hcache. set (r := edge_outcome edges (forwardedIP trusted) c).
  assert (equal_fold "X-Forwarded-For" (KeyHeader edges) = false) as Hx.
  { apply settable_not_forwarded. by apply compile_edges_inv in Hcfg as [[_ ?]%header_check_none _]. }
  unfold Edge, ClientIP at 1, edgeOf. rewrite Hcache. fold r. intros E.
  set (c1 := RC (remote c) (peek_all c) (Some r)) in E.
  assert (c' = del_header (KeyHeader edges) c1 ∧
    ans = (if Required edges && String.eqb (er_ip r) "" && negb (isFrameworkPath path)
           then Abort 403 CodeNotViaEdge
           else Next (if String.eqb (er_edge r) "" then None else Some (er_edge r)))) as [-> ->].
  { destruct (negb (er_ip r =? "")%string); cbn in E;
      destruct (_ && _ && _); simplify_eq; done. }
  assert (snd (ClientIP trusted edges c) = if String.eqb (er_ip r) "" then forwardedIP trusted c else er_ip r) as Hip.
  { unfold ClientIP, edgeOf. rewrite Hcache. fold r. by destruct (String.eqb (er_ip r) ""). }
  split_and!.
  - rewrite Hip. unfold ClientIP, edgeOf. cbn [edge_cache del_header c1].
    destruct (String.eqb (er_ip r) ""); cbn [negb snd]; [|done]. by rewrite forwarded_del_header.
  - cbn. unfold equal_fold. by rewrite String.eqb_refl.
  - intros -> ->. rewrite andb_true_l, andb_true_r, Hip.
    destruct (String.eqb_spec (er_ip r) "") as [E0|E0]; [by left|]. right.
    revert E0. clear E. unfold r, edge_outcome. repeat (case_match; cbn [er_ip er_edge]; try done); intros E0;
      eexists _, _, _, _; split_and!;
      first [eassumption|reflexivity|match goal with H : (Name _ =? "")%string = _ |- _ => by rewrite H end].
Qed.
End Address.

(** ** A small NetLib, for witnesses: dotted decimals, networks as prefixes *)

Definition dotted (s : string) : bool :=
  negb (String.eqb s "") && sforall (λ c, byte_in 48 57 c || Ascii.eqb c ".") s.

#[export] Instance sample_net : NetLib := {|
  ip := string; cidr := string; addr := string;
  ParseIP s := if dotted s then Some s else None;
  ip_string s := s; is_v4 _ := true; unspecified s := String.eqb s "0.0.0.0";
  ParseCIDR s := match cut "0" s with Some (p, _) => Some p | None => Some s end;
  cidr_contains p s := has_prefix p s;
  SplitHostPort s := match cut ":" s with Some (h, _) => Some h | None => None end;
  ParseAddr s := if dotted s then Some s else None;
  addr_plain s := s; addr_valid _ := true; addr_unspecified s := String.eqb s "0.0.0.0";
  addr_string s := s |}.

Definition sample_edges_cfg : EdgesConfig := {|
  required := true; key_header := ""; ip_header := "";
  ec_list := [{| ec_name := "cloudflare"; ec_keys := ["0123456789abcdef"; ""]; ec_ip_header := ""; ec_peers := [] |}] |}.

Definition sample_edges : EdgeSet := {|
  Required := true; KeyHeader := "X-CDN-Key"; SetIPHeader := "X-CDN-Client-IP";
  Edges := [{| Name := "cloudflare"; Keys := ["0123456789abcdef"]; IPHeader := "X-CDN-Client-IP"; Peers := [] |}] |}.

Lemma sample_edges_ok : compile_edges sample_edges_cfg = Ok sample_edges.
Proof. vm_compute. reflexivity. Qed.

Definition sample_request (headers : list (string * string)) : RequestContext :=
  RC (Some "1.2.3.4:80") (λ h, snd <$> List.filter (λ kv, equal_fold (fst kv) h) headers) None.

Lemma compiled_edges_witness : ∀ x, Match sample_edges "0123456789abcdef" = Some x → Name x = "cloudflare".
Proof.
  destruct (compiled_edges_sound _ _ sample_edges_ok) as (_ & _ & _ & _ & _ & H).
  intros x Hx. apply H in Hx as [Hx _]. cbn in Hx. apply list_elem_of_singleton in Hx. by subst.
Defined.

Definition lan : list (@cidr sample_net) := ["1.2."].

Lemma forwarded_ip_witness :
  forwardedIP lan (sample_request [("X-Forwarded-For", "9.9.9.9, 5.6.7.8"); ("X-Forwarded-For", "1.2.0.1")])
  = "5.6.7.8".
Proof.
  destruct (forwarded_ip_not_spoofable lan
    (sample_request [("X-Forwarded-For", "9.9.9.9, 5.6.7.8"); ("X-Forwarded-For", "1.2.0.1")])
    "1.2.3.4:80" "1.2.3.4" ["9.9.9.9"] " 5.6.7.8" ["1.2.0.1"] eq_refl eq_refl) as [_ H].
  etransitivity; [apply H|]; try (vm_compute; reflexivity).
  repeat constructor.
Defined.

Lemma edge_required_witness :
  let c := sample_request [("x-cdn-key", "0123456789abcdef"); ("X-CDN-Client-IP", "7.7.7.7")] in
  peek_all (fst (Edge [] sample_edges "/bet" c)) "X-CDN-Key" = [] ∧ snd (ClientIP [] sample_edges c) = "7.7.7.7".
Proof.
  cbv zeta. set (c := sample_request _).
  destruct (edge_required_vouched _ _ [] "/bet" c (fst (Edge [] sample_edges "/bet" c))
    (snd (Edge [] sample_edges "/bet" c)) sample_edges_ok eq_refl) as (_ & H & _).
  - vm_compute. reflexivity.
  - split; [exact H|vm_compute; reflexivity].
Defined.
