(* ===== verification/Delay.v ===== *)
(** * delayx: delayed tasks (delayx/delay.go)

    The table delayed_task is a finite map from id to row; a statement of the code
    is a function on it ([update_where] is gorm's Where(...).Updates, which
    reports the rows it touched). Times are milliseconds. The scheduler's
    operations follow: Schedule, Cancel, Abort, the claiming transaction of
    RunOnce, the outcome of a run, the heartbeat, cleanup and the counters. Logs and
    metrics are left out; MySQL's choice among rows with equal run_at is the
    map's order, and the rows other transactions hold (SKIP LOCKED) an argument. *)
From stdpp Require Import sorting.
From S2P Require Import Prelude.

Record Config : Type := {
  PollInterval : Z; Batch : Z; MaxAttempts : Z; RunTimeout : Z; Retention : Z; LongWorkers : Z; Heartbeat : Z }.

Definition orInt (v def : Z) : Z := if bool_decide (v ≤ 0) then def else v.
(** config.Duration.Or *)
Definition dur_or (d def : Z) : Z := if Z.eqb d 0 then def else d.

Definition interval (c : Config) : Z := dur_or (PollInterval c) 1000.
Definition batch (c : Config) : Z := orInt (Batch c) 50.
Definition maxAttempts (c : Config) : Z := orInt (MaxAttempts c) 5.
Definition run_timeout (c : Config) : Z := dur_or (RunTimeout c) 60000.
Definition retention (c : Config) : Z := dur_or (Retention c) (168 * 3600000).
Definition longWorkers (c : Config) : Z := orInt (LongWorkers c) 1.
Definition heartbeat_every (c : Config) : Z := dur_or (Heartbeat c) 30000.
Definition stale (c : Config) : Z := 3 * heartbeat_every c.

Inductive Status : Type := StatusPending | StatusRunning | StatusDone | StatusFailed | StatusCancel.
#[export] Instance Status_eq_dec : EqDecision Status.
Proof. solve_decision. Defined.

Record Task : Type := MkTask {
  Kind : string; Key : string; RunAt : Z; Payload : string; status : Status; Attempts : Z;
  LastError : string; LockedAt : option Z; UpdatedAt : Z }.

Notation table := (gmap Z Task).

(** The database: the rows and the next auto-increment id. *)
Record db : Type := DB { rows : table; next_id : Z }.

Inductive delay_error : Type := ErrNoTx | ErrNoKind | ErrEncode.

(** ** SQL *)

Definition update_where (p : Z → Task → bool) (f : Task → Task) (d : db) : db * Z :=
  (DB (map_imap (λ i t, Some (if p i t then f t else t)) (rows d)) (next_id d),
   Z.of_nat (size (filter (λ '(i, t), p i t = true) (rows d)))).

Definition count_where (p : Task → bool) (d : db) : Z :=
  Z.of_nat (size (filter (λ '(_, t), p t = true) (rows d))).

(** ** Schedule, Cancel, Abort *)

(** [payload]: the JSON of the payload, [None] when it cannot be encoded. *)
Definition Schedule (tx : bool) (kind key : string) (runAt : Z) (payload : option string) (now : Z) (d : db) :
    result Z delay_error * db :=
  if negb tx then (Err ErrNoTx, d) else
  if String.eqb kind "" then (Err ErrNoKind, d) else
  match payload with
  | None => (Err ErrEncode, d)
  | Some b =>
      (Ok (next_id d),
       DB (<[next_id d := MkTask kind key runAt b StatusPending 0 "" None now]> (rows d)) (next_id d + 1))
  end.

Definition with_status (s : Status) (now : Z) (t : Task) : Task :=
  MkTask (Kind t) (Key t) (RunAt t) (Payload t) s (Attempts t) (LastError t) (LockedAt t) now.

Definition is_task (kind key : string) (t : Task) : bool :=
  String.eqb (Kind t) kind && String.eqb (Key t) key.

Definition status_in (ss : list Status) (t : Task) : bool := bool_decide (status t ∈ ss).

Definition Cancel (kind key : string) (now : Z) (d : db) : db * Z :=
  update_where (λ _ t, is_task kind key t && status_in [StatusPending] t) (with_status StatusCancel now) d.

(** The ids of Abort's Pluck. *)
Definition abort_ids (kind key : string) (d : db) : list Z :=
  fst <$> map_to_list (filter (λ '(_, t), is_task kind key t && status_in [StatusPending; StatusRunning] t = true) (rows d)).

Definition cancelled (now : Z) (t : Task) : Task :=
  MkTask (Kind t) (Key t) (RunAt t) (Payload t) StatusCancel (Attempts t) (LastError t) None now.

(** Abort: the database, the number of rows, and the ids whose local runs get
    cancelLocal(id, ErrAborted). *)
Definition Abort (kind key : string) (now : Z) (d : db) : db * Z * list Z :=
  let ids := abort_ids kind key d in
  if bool_decide (ids = []) then (d, 0, [])
  else let '(d', n) := update_where
         (λ i t, bool_decide (i ∈ ids) && status_in [StatusPending; StatusRunning] t) (cancelled now) d in
       (d', n, ids).

(** ** The claim of RunOnce *)

Definition is_due (c : Config) (kinds : list string) (now : Z) (t : Task) : bool :=
  bool_decide (Kind t ∈ kinds) &&
  ((status_in [StatusPending] t && bool_decide (RunAt t ≤ now))
   || (status_in [StatusRunning] t &&
       match LockedAt t with Some l => bool_decide (l < now - stale c) | None => false end)).

Definition earlier (x y : Z * Task) : Prop := RunAt (snd x) ≤ RunAt (snd y).
#[export] Instance earlier_dec x y : Decision (earlier x y).
Proof. unfold earlier. apply _. Defined.

(** due(limit, kinds): FOR UPDATE SKIP LOCKED, ORDER BY run_at LIMIT limit *)
Definition due (c : Config) (skip : gset Z) (limit : Z) (kinds : list string) (now : Z) (d : db) :
    list (Z * Task) :=
  take (Z.to_nat limit)
    (merge_sort earlier
       (map_to_list (filter (λ '(i, t), (is_due c kinds now t && bool_decide (i ∉ skip)) = true) (rows d)))).

(** The in-memory copy of a claimed row: status and locked_at are set on it. *)
Definition claimed_row (now : Z) (t : Task) : Task :=
  MkTask (Kind t) (Key t) (RunAt t) (Payload t) StatusRunning (Attempts t) (LastError t) (Some now) now.

Definition mark_running (now : Z) (picked : list (Z * Task)) (d : db) : db :=
  foldl (λ d p, fst (update_where (λ i _, bool_decide (i = fst p)) (claimed_row now) d)) d picked.

(** The transaction of RunOnce: [free] is the room of the long pool. *)
Definition claim (c : Config) (skip : gset Z) (short long : list string) (free now : Z) (d : db) :
    db * list (Z * Task) :=
  let picked := (if bool_decide (short = []) then [] else due c skip (batch c) short now d) in
  let more := (if bool_decide (long = []) || bool_decide (free ≤ 0) then []
               else due c skip free long now d) in
  let picked := (picked ++ more)%list in
  (mark_running now picked d, (λ p, (fst p, claimed_row now (snd p))) <$> picked).

(** ** A run *)

(** What ended the run's context first, as context.Cause reports it. *)
Inductive cause : Type := NotEnded | Aborted | Shutdown | TimedOut.
#[export] Instance cause_eq_dec : EqDecision cause.
Proof. solve_decision. Defined.

Definition minute : Z := 60000.
Definition hour : Z := 3600000.

(** backoff; time.Minute << min(attempts-1, 10) is below 2^63 *)
Definition backoff (attempts : Z) : Z :=
  let d := Z.shiftl minute (Z.min (attempts - 1) 10) in
  if bool_decide (hour < d) then hour else d.

Definition clip (msg : string) : string :=
  if bool_decide (500 < slen msg) then substring 0 500 msg else msg.

Definition aborted_text : string := "delayx: task aborted".
Definition shutdown_text : string := "delayx: service stopping".

(** The Updates of one outcome of the run of snapshot [t]. *)
Definition settled (s : Status) (attempts : Z) (err : string) (run_at : Z) (now : Z) (t : Task) : Task :=
  MkTask (Kind t) (Key t) run_at (Payload t) s attempts err None now.

(** The handler's error, [None] for nil, and the fields the switch of run writes. *)
Definition outcome (c : Config) (snapshot : Task) (why : cause) (ctx_over : bool) (err : option string)
    (now : Z) : string * (Task → Task) :=
  match why, err with
  | Aborted, _ => ("aborted", λ t, settled StatusCancel (Attempts t) (clip aborted_text) (RunAt t) now t)
  | _, None => ("ok", λ t, settled StatusDone (Attempts snapshot + 1) "" (RunAt t) now t)
  | _, Some e =>
      if bool_decide (why = Shutdown) || ctx_over
      then ("requeued", λ t, settled StatusPending (Attempts t) (clip shutdown_text) now now t)
      else
        let attempts := Attempts snapshot + 1 in
        if bool_decide (maxAttempts c ≤ attempts)
        then ("failed", λ t, settled StatusFailed attempts (clip e) (RunAt t) now t)
        else ("retry", λ t, settled StatusPending attempts (clip e) (now + backoff attempts) now t)
  end.

(** Model(t).Where("status = running").Updates(fields): the row, while it runs. *)
Definition write_outcome (id : Z) (f : Task → Task) (d : db) : db * Z :=
  update_where (λ i t, bool_decide (i = id) && status_in [StatusRunning] t) f d.

(** run without a handler for the kind *)
Definition no_handler (id : Z) (err : string) (now : Z) (d : db) : db * Z :=
  write_outcome id (λ t, settled StatusPending (Attempts t) err (RunAt t) now t) d.

Definition run (c : Config) (id : Z) (snapshot : Task) (has_handler : bool) (why : cause) (ctx_over : bool)
    (err : option string) (now : Z) (d : db) : db * Z :=
  if negb has_handler then no_handler id ("no handler for kind " +:+ Kind snapshot) now d
  else write_outcome id (snd (outcome c snapshot why ctx_over err now)) d.

Definition beaten (now : Z) (t : Task) : Task :=
  MkTask (Kind t) (Key t) (RunAt t) (Payload t) (status t) (Attempts t) (LastError t) (Some now) now.

(** One tick of heartbeat: [true] when the run goes on, [false] when its context
    is cancelled with ErrAborted. *)
Definition heartbeat (id : Z) (now : Z) (d : db) : db * bool :=
  let '(d', n) := update_where (λ i t, bool_decide (i = id) && status_in [StatusRunning] t) (beaten now) d in
  (d', negb (Z.eqb n 0)).

(** ** Housekeeping *)

(** cleanup deletes at most 10000 of the matching rows; [pick] is MySQL's choice. *)
Definition removable (c : Config) (kinds : list string) (now : Z) (t : Task) : bool :=
  bool_decide (Kind t ∈ kinds) && status_in [StatusDone; StatusCancel] t
  && bool_decide (UpdatedAt t < now - retention c).

Definition cleanup (c : Config) (kinds : list string) (now : Z) (pick : gset Z) (d : db) : db :=
  DB (filter (λ '(i, t), (removable c kinds now t && bool_decide (i ∈ pick)) = false) (rows d)) (next_id d).

Definition FailedCount (kinds : list string) (d : db) : Z :=
  if bool_decide (kinds = []) then 0
  else count_where (λ t, bool_decide (Kind t ∈ kinds) && status_in [StatusFailed] t) d.

(** Overdue: the age of the oldest due pending task. *)
Definition Overdue (kinds : list string) (now : Z) (d : db) : Z :=
  if bool_decide (kinds = []) then 0 else
  map_fold (λ _ t age, if bool_decide (Kind t ∈ kinds) && status_in [StatusPending] t && bool_decide (RunAt t ≤ now)
                       then Z.max age (now - RunAt t) else age) 0 (rows d).

(** ** All the replicas on one table *)

(** The snapshots the processes hold: claimed, their outcome not yet written. *)
Record world : Type := W { w_db : db; w_held : list (Z * Task) }.

Inductive delay_step (c : Config) : world → world → Prop :=
| step_schedule tx kind key runAt payload now d h :
    delay_step c (W d h) (W (snd (Schedule tx kind key runAt payload now d)) h)
| step_cancel kind key now d h :
    delay_step c (W d h) (W (fst (Cancel kind key now d)) h)
| step_abort kind key now d h :
    delay_step c (W d h) (W (fst (fst (Abort kind key now d))) h)
| step_claim skip short long free now d h :
    delay_step c (W d h) (W (fst (claim c skip short long free now d))
                            (snd (claim c skip short long free now d) ++ h)%list)
| step_beat id t now d h : (id, t) ∈ h →
    delay_step c (W d h) (W (fst (heartbeat id now d)) h)
| step_finish id t has_handler why over err now d h1 h2 :
    delay_step c (W d (h1 ++ (id, t) :: h2)%list)
                 (W (fst (run c id t has_handler why over err now d)) (h1 ++ h2)%list)
| step_crash id t d h1 h2 :
    delay_step c (W d (h1 ++ (id, t) :: h2)%list) (W d (h1 ++ h2)%list)
| step_cleanup kinds now pick d h :
    delay_step c (W d h) (W (cleanup c kinds now pick d) h).

(** ** Lemmas *)

Lemma lookup_update_where p f d i :
  rows (fst (update_where p f d)) !! i = (λ t, if p i t then f t else t) <$> rows d !! i.
Proof. unfold update_where. cbn [fst rows]. rewrite map_lookup_imap. by destruct (rows d !! i). Qed.

Lemma lookup_mark_running now picked d i :
  rows (mark_running now picked d) !! i =
    (λ t, if bool_decide (i ∈ fst <$> picked) then claimed_row now t else t) <$> rows d !! i.
Proof.
  unfold mark_running. revert d. induction picked as [|p picked IH]; intros d; cbn [foldl].
  - destruct (rows d !! i) as [t|]; [|done]. cbn. by rewrite bool_decide_false by apply not_elem_of_nil.
  - rewrite IH, lookup_update_where. destruct (rows d !! i) as [t|]; [|done]. cbn. f_equal.
    case_bool_decide as H1; case_bool_decide as H2; case_bool_decide as H3; try done;
      exfalso; set_solver.
Qed.

Lemma next_id_mark_running now picked d : next_id (mark_running now picked d) = next_id d.
Proof. unfold mark_running. revert d. induction picked as [|p l IH]; intros d; [done|]. cbn [foldl]. by rewrite IH. Qed.

Lemma due_elem c skip limit kinds now d i t : (i, t) ∈ due c skip limit kinds now d →
  rows d !! i = Some t ∧ is_due c kinds now t = true ∧ i ∉ skip.
Proof.
  unfold due. intros H. apply (subseteq_take (Z.to_nat limit)) in H || (apply elem_of_take in H as (j & H & _); apply list_elem_of_lookup_2 in H).
  rewrite merge_sort_Permutation in H. apply elem_of_map_to_list, map_lookup_filter_Some in H as [H1 H2].
  apply andb_prop in H2 as [H2 H3]. by apply bool_decide_eq_true in H3.
Qed.

Lemma claim_elem c skip short long free now d i t : (i, t) ∈ snd (claim c skip short long free now d) →
  ∃ t0, rows d !! i = Some t0 ∧ t = claimed_row now t0 ∧ i ∉ skip ∧
    (is_due c short now t0 = true ∨ is_due c long now t0 = true).
Proof.
  unfold claim. cbn [snd]. intros ([j t0] & [= -> ->] & H)%list_elem_of_fmap. cbn.
  exists t0. apply elem_of_app in H as [H|H].
  - case_bool_decide; [by apply elem_of_nil in H|].
    apply due_elem in H as (H1 & H2 & H3). auto.
  - destruct (_ || _); [by apply elem_of_nil in H|].
    apply due_elem in H as (H1 & H2 & H3). auto.
Qed.

Lemma claim_rows c skip short long free now d i :
  rows (fst (claim c skip short long free now d)) !! i =
    (λ t, if bool_decide (i ∈ fst <$> snd (claim c skip short long free now d))
          then claimed_row now t else t) <$> rows d !! i.
Proof.
  unfold claim. cbn [fst snd]. rewrite lookup_mark_running.
  destruct (rows d !! i); [|done]. cbn. f_equal. rewrite <- list_fmap_compose.
  apply (f_equal (λ b : bool, if b then _ else _)), bool_decide_ext. done.
Qed.

Lemma is_due_status c kinds now t : is_due c kinds now t = true →
  Kind t ∈ kinds ∧ (status t = StatusPending ∧ RunAt t ≤ now ∨
    status t = StatusRunning ∧ ∃ l, LockedAt t = Some l ∧ l < now - stale c).
Proof.
  unfold is_due, status_in. intros [Hk H]%andb_prop. apply bool_decide_eq_true in Hk. split; [done|].
  apply orb_prop in H as [[H1 H2]%andb_prop|[H1 H2]%andb_prop]; apply bool_decide_eq_true in H1.
  - apply bool_decide_eq_true in H2. left. set_solver.
  - right. destruct (LockedAt t) as [l|]; [|done]. apply bool_decide_eq_true in H2. set_solver.
Qed.
