(* ===== verification/DelayLaws.v ===== *)
(** * delayx: what every interleaving of the replicas keeps *)
From Stdlib Require Import Sorting.
From stdpp Require Import sorting relations.
From S2P Require Import Prelude Delay.

Definition terminal (t : Task) : Prop :=
  status t = StatusDone ∨ status t = StatusFailed ∨ status t = StatusCancel.

Lemma status_in_spec ss t : status_in ss t = true ↔ status t ∈ ss.
Proof. apply bool_decide_eq_true. Qed.

Definition alive_status (s : Status) : bool :=
  match s with StatusPending | StatusRunning => true | _ => false end.

Lemma alive_not_terminal t : alive_status (status t) = true → ¬ terminal t.
Proof. unfold terminal. destruct (status t); naive_solver. Qed.

Lemma status_in_alive ss t : forallb alive_status ss = true → status_in ss t = true → ¬ terminal t.
Proof.
  intros Hss Ht%status_in_spec. apply alive_not_terminal. rewrite forallb_forall in Hss.
  by apply Hss, list_elem_of_In.
Qed.

(** A guard that lets through rows that are pending or running only. *)
Definition live_guard (p : Z → Task → bool) : Prop := ∀ i t, p i t = true → ¬ terminal t.

Lemma running_guard id : live_guard (λ i t, bool_decide (i = id) && status_in [StatusRunning] t).
Proof.
  intros i t [_ H]%andb_prop. by apply (status_in_alive [StatusRunning]).
Qed.

(** ** One step on one row *)

(** What a step may do to the row of an id. *)
Inductive row_step (c : Config) (d d' : db) (i : Z) : Prop :=
| row_same : rows d' !! i = rows d !! i → row_step c d d' i
| row_new t : rows d !! i = None → i = next_id d → rows d' !! i = Some t →
    status t = StatusPending → Attempts t = 0 → i < next_id d' → row_step c d d' i
| row_updated t t' : rows d !! i = Some t → rows d' !! i = Some t' → ¬ terminal t → row_step c d d' i
| row_removed t : rows d !! i = Some t → rows d' !! i = None →
    status t = StatusDone ∨ status t = StatusCancel → row_step c d d' i.

Lemma update_row_step c p f d i : live_guard p → row_step c d (fst (update_where p f d)) i.
Proof.
  intros Hp. pose proof (lookup_update_where p f d i) as H. destruct (rows d !! i) as [t|] eqn:E.
  - cbn [fmap option_fmap option_map] in H. destruct (p i t) eqn:Hg.
    + eapply row_updated; [exact E|exact H|by apply (Hp i)].
    + apply row_same. by rewrite H, E.
  - apply row_same. by rewrite H, E.
Qed.

Lemma claim_row_step c skip short long free now d i :
  row_step c d (fst (claim c skip short long free now d)) i.
Proof.
  pose proof (claim_rows c skip short long free now d i) as H. destruct (rows d !! i) as [t|] eqn:E.
  - cbn [fmap option_fmap option_map] in H. case_bool_decide as Hin.
    + eapply row_updated; [exact E|exact H|]. apply list_elem_of_fmap in Hin as ([j t1] & Hj & Hin).
      cbn in Hj. subst j. apply claim_elem in Hin as (t0 & H0 & _ & _ & Hdue). rewrite E in H0. simplify_eq.
      destruct Hdue as [Hd|Hd]; apply is_due_status in Hd as [_ [[Hs _]|[Hs _]]]; unfold terminal;
        rewrite Hs; naive_solver.
    + apply row_same. by rewrite H, E.
  - apply row_same. by rewrite H, E.
Qed.

Lemma abort_row_step c kind key now d i : row_step c d (fst (fst (Abort kind key now d))) i.
Proof.
  unfold Abort. case_bool_decide; [by apply row_same|].
  apply update_row_step. intros j t [_ Hs]%andb_prop. by apply (status_in_alive [StatusPending; StatusRunning]).
Qed.

Lemma cleanup_row_step c kinds now pick d i : row_step c d (cleanup c kinds now pick d) i.
Proof.
  unfold cleanup. destruct (rows d !! i) as [t|] eqn:E.
  - destruct (removable c kinds now t && bool_decide (i ∈ pick)) eqn:Hr.
    + eapply row_removed; [exact E|apply map_lookup_filter_None; right; intros t' Ht'; cbn in *; congruence|].
      apply andb_prop in Hr as [Hr _]. unfold removable in Hr.
      apply andb_prop in Hr as [[_ Hr%status_in_spec]%andb_prop _].
      apply elem_of_cons in Hr as [|Hr]; [by left|]. apply list_elem_of_singleton in Hr. by right.
    + apply row_same. cbn [rows]. rewrite E. by apply map_lookup_filter_Some.
  - apply row_same. cbn [rows]. rewrite E. apply map_lookup_filter_None. by left.
Qed.

Lemma schedule_row_step c tx kind key r p now d i :
  (∀ t, rows d !! next_id d ≠ Some t) → row_step c d (snd (Schedule tx kind key r p now d)) i.
Proof.
  intros Hf. unfold Schedule. destruct (negb tx); [by apply row_same|].
  destruct (String.eqb kind ""); [by apply row_same|]. destruct p as [b|]; [|by apply row_same]. cbn.
  destruct (decide (i = next_id d)) as [->|Hi].
  - eapply row_new; [|done|by apply lookup_insert_eq|done|done|cbn; lia].
    destruct (rows d !! next_id d) eqn:E; [|done]. by destruct (Hf t).
  - apply row_same. cbn. by rewrite lookup_insert_ne.
Qed.

(** ** Ids *)

Definition ids_ok (d : db) : Prop := ∀ i t, rows d !! i = Some t → i < next_id d.

Lemma next_id_claim c skip short long free now d :
  next_id (fst (claim c skip short long free now d)) = next_id d.
Proof. unfold claim. cbn [fst]. apply next_id_mark_running. Qed.

Lemma next_id_step c w w' : delay_step c w w' →
  next_id (w_db w) ≤ next_id (w_db w') ≤ next_id (w_db w) + 1.
Proof.
  destruct 1; cbn [w_db].
  - unfold Schedule. repeat case_match; cbn; lia.
  - cbn. lia.
  - unfold Abort. case_bool_decide; cbn; lia.
  - rewrite next_id_claim. lia.
  - cbn. lia.
  - unfold run, no_handler. destruct (negb _); cbn; lia.
  - lia.
  - cbn. lia.
Qed.

Lemma delay_row_step c w w' i : ids_ok (w_db w) → delay_step c w w' → row_step c (w_db w) (w_db w') i.
Proof.
  intros Hok. destruct 1; cbn [w_db].
  - apply schedule_row_step. intros t Ht. specialize (Hok _ _ Ht). cbn in Hok. lia.
  - apply update_row_step. intros j t [_ H]%andb_prop. by apply (status_in_alive [StatusPending]).
  - apply abort_row_step.
  - apply claim_row_step.
  - unfold heartbeat. apply (update_row_step c _ (beaten now)), running_guard.
  - unfold run, no_handler. destruct (negb has_handler); apply update_row_step, running_guard.
  - by apply row_same.
  - apply cleanup_row_step.
Qed.

Lemma ids_ok_step c w w' : ids_ok (w_db w) → delay_step c w w' → ids_ok (w_db w').
Proof.
  intros Hok Hs i t Ht. pose proof (next_id_step c w w' Hs) as Hn.
  destruct (delay_row_step c w w' i Hok Hs) as [He|x Hx Hi _ _ _ Hlt|x x' Hx _ _|x Hx Hr _].
  - rewrite He in Ht. specialize (Hok _ _ Ht). lia.
  - done.
  - specialize (Hok _ _ Hx). lia.
  - congruence.
Qed.

(** Finished is final: once a task is done, failed or cancelled, no
    interleaving of the replicas' operations (late outcomes of a run that was
    aborted or reclaimed, heartbeats, claims, Cancel, Abort) changes its row; only
    cleanup removes it, and never a failed one. So an Abort holds whatever the
    aborted handler still reports. *)
Theorem finished_is_final c w w' i t : ids_ok (w_db w) → rtc (delay_step c) w w' →
  rows (w_db w) !! i = Some t → terminal t →
  rows (w_db w') !! i = Some t ∨ rows (w_db w') !! i = None ∧ status t ≠ StatusFailed.
Proof.
  intros Hok Hr Ht Hterm.
  assert (i < next_id (w_db w) ∧ (rows (w_db w) !! i = Some t ∨
    rows (w_db w) !! i = None ∧ status t ≠ StatusFailed)) as H by (split; [by eapply Hok|by left]).
  clear Ht. revert H. induction Hr as [w|w w1 w2 Hs _ IH]; [naive_solver|]. intros [Hi H].
  apply IH; [by eapply ids_ok_step|]. pose proof (next_id_step _ _ _ Hs) as Hn. split; [lia|].
  destruct (delay_row_step c w w1 i Hok Hs) as [He|x Hx Hin _ _ _ _|x x' Hx _ Hnt|x Hx Hx' Hst].
  - rewrite He. done.
  - lia.
  - destruct H as [H|[H _]]; rewrite Hx in H; simplify_eq. done.
  - destruct H as [H|[H _]]; rewrite Hx in H; simplify_eq. right. split; [done|].
    destruct Hst as [-> | ->]; done.
Qed.

(** ** Attempts *)

Definition attempts_ok (c : Config) (t : Task) : Prop :=
  0 ≤ Attempts t ≤ maxAttempts c ∧
  (alive_status (status t) = true → Attempts t < maxAttempts c) ∧
  (status t = StatusFailed → Attempts t = maxAttempts c).

Definition snapshot_ok (c : Config) (t : Task) : Prop := 0 ≤ Attempts t < maxAttempts c.

Definition world_ok (c : Config) (w : world) : Prop :=
  (∀ i t, rows (w_db w) !! i = Some t → attempts_ok c t) ∧
  Forall (λ p, snapshot_ok c (snd p)) (w_held w).

Lemma maxAttempts_pos c : 1 ≤ maxAttempts c.
Proof. unfold maxAttempts, orInt. case_bool_decide; lia. Qed.

Lemma update_keeps (P : Task → Prop) p f d :
  (∀ i t, rows d !! i = Some t → P t) → (∀ i t, rows d !! i = Some t → P t → p i t = true → P (f t)) →
  ∀ i t, rows (fst (update_where p f d)) !! i = Some t → P t.
Proof.
  intros Hd Hf i t. rewrite lookup_update_where. destruct (rows d !! i) as [x|] eqn:E; [|done].
  cbn. intros [= <-]. destruct (p i x) eqn:Hp; [by eapply Hf; eauto|by eapply Hd].
Qed.

Lemma live_attempts c t ss : forallb alive_status ss = true → status_in ss t = true →
  attempts_ok c t → 0 ≤ Attempts t < maxAttempts c.
Proof.
  intros Hss Ht%status_in_spec (H1 & H2 & _). rewrite forallb_forall in Hss.
  specialize (Hss (status t)). rewrite <- list_elem_of_In in Hss. specialize (H2 (Hss Ht)). lia.
Qed.

Lemma outcome_keeps c snapshot why over err now t :
  snapshot_ok c snapshot → attempts_ok c t → status t = StatusRunning →
  attempts_ok c (snd (outcome c snapshot why over err now) t).
Proof.
  intros Hs (H1 & H2 & _) Hrun. rewrite Hrun in H2. specialize (H2 eq_refl). unfold snapshot_ok in Hs.
  unfold outcome. destruct why, err as [e|]; cbn; repeat case_bool_decide; destruct over; cbn;
    repeat case_bool_decide; unfold attempts_ok; cbn; split_and!; intros; try done; try lia.
Qed.

Lemma world_ok_step c w w' : world_ok c w → delay_step c w w' → world_ok c w'.
Proof.
  intros [Hrows Hheld]. destruct 1; cbn [w_db w_held] in *; (split; cbn [w_db w_held]; [|try done]).
  - intros i t. unfold Schedule. repeat case_match; cbn [w_db snd rows]; try apply Hrows.
    intros [[<- <-]|[_ Hi]]%lookup_insert_Some; [|by eapply Hrows]. pose proof (maxAttempts_pos c).
    unfold attempts_ok. cbn. split_and!; intros; try done; lia.
  - apply update_keeps; [done|]. intros i t Ht (G1 & _ & _) _. unfold attempts_ok. by cbn.
  - unfold Abort. case_bool_decide; [done|]. apply update_keeps; [done|].
    intros i t Ht (G1 & _ & _) _. unfold attempts_ok. by cbn.
  - intros i t. rewrite claim_rows. destruct (rows d !! i) as [x|] eqn:E; [|done]. cbn. intros [= <-].
    specialize (Hrows _ _ E) as Hx. case_bool_decide as Hin; [|done].
    apply list_elem_of_fmap in Hin as ([j y] & Hj & Hin). cbn in Hj. subst j.
    apply claim_elem in Hin as (t0 & H0 & _ & _ & Hdue). rewrite E in H0. simplify_eq.
    assert (alive_status (status t0) = true) as Hal.
    { destruct Hdue as [Hd|Hd]; apply is_due_status in Hd as [_ [[-> _]|[-> _]]]; done. }
    destruct Hx as (G1 & G2 & _). specialize (G2 Hal). unfold attempts_ok. cbn.
    split_and!; intros; try done; lia.
  - apply Forall_app. split; [|done]. apply Forall_forall. intros [i t] Hin.
    apply claim_elem in Hin as (t0 & H0 & -> & _ & Hdue). specialize (Hrows _ _ H0) as (G1 & G2 & _).
    assert (alive_status (status t0) = true) as Hal.
    { destruct Hdue as [Hd|Hd]; apply is_due_status in Hd as [_ [[-> _]|[-> _]]]; done. }
    specialize (G2 Hal). unfold snapshot_ok. cbn. lia.
  - unfold heartbeat. apply (update_keeps (attempts_ok c) _ (beaten now)); [done|].
    intros i x _ Hx _. unfold attempts_ok, beaten in *. by cbn.
  - apply Forall_app in Hheld as [_ Hh]. apply Forall_cons in Hh as [Hsnap _]. cbn in Hsnap.
    unfold run, no_handler. destruct (negb has_handler); apply update_keeps; try done;
      intros i x _ Hx [_ Hr]%andb_prop.
    + apply (live_attempts c) in Hr; [|done|done]. unfold attempts_ok, settled. cbn.
      split_and!; intros; try done; lia.
    + apply status_in_spec, list_elem_of_singleton in Hr. by apply outcome_keeps.
  - apply Forall_app in Hheld as [G1 G2]. apply Forall_cons in G2 as [_ G2]. by apply Forall_app.
  - exact Hrows.
  - apply Forall_app in Hheld as [G1 G2]. apply Forall_cons in G2 as [_ G2]. by apply Forall_app.
  - intros i t. unfold cleanup. cbn [rows]. intros [Ht _]%map_lookup_filter_Some. by eapply Hrows.
Qed.

(** Attempts are bounded: from an empty table, in every interleaving, a task
    that can still run has used fewer than max_attempts attempts, and a task is
    marked failed exactly at max_attempts, also when a reclaimed task is run by
    two processes. *)
Theorem attempts_bounded c n w' i t : rtc (delay_step c) (W (DB ∅ n) []) w' →
  rows (w_db w') !! i = Some t →
  0 ≤ Attempts t ≤ maxAttempts c ∧
  (status t = StatusPending ∨ status t = StatusRunning → Attempts t < maxAttempts c) ∧
  (status t = StatusFailed → Attempts t = maxAttempts c).
Proof.
  intros Hr Ht. assert (world_ok c w') as [Hrows _].
  { assert (world_ok c (W (DB ∅ n) [])) as H0 by (split; [done|constructor]).
    revert H0. induction Hr as [|w1 w2 w3 Hs _ IH]; [done|]. intros H. by eapply IH, world_ok_step. }
  destruct (Hrows _ _ Ht) as (G1 & G2 & G3). split_and!; try done; try lia.
  intros [E|E]; rewrite E in G2; by apply G2.
Qed.

(** ** What a claim takes *)

#[local] Instance earlier_trans : Transitive earlier.
Proof. intros x y z. unfold earlier. lia. Qed.
#[local] Instance earlier_total : Total earlier.
Proof. intros x y. unfold earlier. lia. Qed.

Lemma sorted_take_drop (l : list (Z * Task)) n x y : StronglySorted earlier l →
  x ∈ take n l → y ∈ drop n l → earlier x y.
Proof.
  revert n. induction l as [|z l IH]; intros [|n] HS; cbn; try (by intros ?%elem_of_nil).
  inversion HS as [|? ? HS' HF]; subst. intros Hx Hy. apply elem_of_cons in Hx as [->|Hx].
  - rewrite Forall_forall in HF. apply HF. by eapply subseteq_drop.
  - by eapply IH.
Qed.

Lemma due_oldest_first c skip limit kinds now d i t x : rows d !! i = Some t →
  is_due c kinds now t = true → i ∉ skip → (i, t) ∉ due c skip limit kinds now d →
  x ∈ due c skip limit kinds now d → earlier x (i, t).
Proof.
  unfold due. set (l := merge_sort earlier _). intros Ht Hd Hs Hn Hx.
  assert ((i, t) ∈ l) as Hl.
  { unfold l. rewrite merge_sort_Permutation. apply elem_of_map_to_list, map_lookup_filter_Some. split; [done|].
    by rewrite Hd, bool_decide_true. }
  rewrite <- (take_drop (Z.to_nat limit) l) in Hl. apply elem_of_app in Hl as [Hl|Hl]; [done|].
  eapply sorted_take_drop; [|exact Hx|exact Hl]. apply (StronglySorted_merge_sort earlier).
Qed.

(** A round of a replica claims only rows of kinds it has handlers for, each
    pending and due or running without a heartbeat for three heartbeat periods,
    and none another transaction holds; at most batch short ones and as many long
    ones as the pool has room for; a due short row it leaves is not older than
    any it takes. Afterwards each claimed row is running with locked_at now, and
    every other row is untouched. *)
Theorem claim_takes_due c skip short long free now d : 0 ≤ free →
  let d' := fst (claim c skip short long free now d) in
  let held := snd (claim c skip short long free now d) in
  (∀ i t, (i, t) ∈ held → rows d' !! i = Some t ∧ status t = StatusRunning ∧ LockedAt t = Some now ∧ i ∉ skip ∧
     ∃ t0, rows d !! i = Some t0 ∧ Kind t0 ∈ short ++ long ∧ Attempts t = Attempts t0 ∧
       (status t0 = StatusPending ∧ RunAt t0 ≤ now ∨
        status t0 = StatusRunning ∧ ∃ l, LockedAt t0 = Some l ∧ l < now - stale c))%list ∧
  (∀ i, i ∉ fst <$> held → rows d' !! i = rows d !! i) ∧
  Z.of_nat (length held) ≤ batch c + free ∧
  (∀ i t j t1, rows d !! i = Some t → is_due c short now t = true → i ∉ skip → (∀ t', (i, t') ∉ held) →
     (j, t1) ∈ due c skip (batch c) short now d → RunAt t1 ≤ RunAt t).
Proof.
  intros Hfree d' held. split_and!.
  - intros i t Hin. pose proof (claim_rows c skip short long free now d i) as Hrow.
    assert (i ∈ fst <$> held) as Hi by (apply list_elem_of_fmap; by exists (i, t)).
    apply claim_elem in Hin as (t0 & H0 & -> & Hs & Hdue). rewrite H0 in Hrow.
    cbn [fmap option_fmap option_map] in Hrow. rewrite bool_decide_true in Hrow by done.
    split_and!; try done. exists t0. split; [done|]. split; [|split; [done|]].
    + apply elem_of_app. destruct Hdue as [Hd|Hd]; apply is_due_status in Hd as [Hk _]; auto.
    + by destruct Hdue as [Hd|Hd]; apply is_due_status in Hd as [_ Hd].
  - intros i Hi. unfold d'. rewrite claim_rows. fold held. rewrite bool_decide_false by done.
    by destruct (rows d !! i).
  - unfold held, claim. cbn [snd]. rewrite length_fmap, length_app.
    assert (1 ≤ batch c) by (unfold batch, orInt; case_bool_decide; lia).
    assert (∀ limit ks, 0 ≤ limit → Z.of_nat (length (due c skip limit ks now d)) ≤ limit) as Hlen.
    { intros limit ks Hl. unfold due. rewrite length_take. lia. }
    pose proof (Hlen (batch c) short ltac:(lia)). pose proof (Hlen free long Hfree).
    case_bool_decide; destruct (_ || _); cbn [length]; lia.
  - intros i t j t1 Ht Hd Hs Hn Hj. apply (due_oldest_first c skip (batch c) short now d i t (j, t1)); try done.
    intros Hin. apply (Hn (claimed_row now t)). unfold held, claim. cbn [snd].
    apply list_elem_of_fmap. exists (i, t). split; [done|]. apply elem_of_app. left.
    case_bool_decide as Hsh; [|done]. subst short. apply is_due_status in Hd as [Hd _]. by apply elem_of_nil in Hd.
Qed.

(** ** The outcome of a run *)

Lemma backoff_spec a : 1 ≤ a → backoff a = Z.min (minute * 2 ^ (a - 1)) hour.
Proof.
  intros Ha. unfold backoff. rewrite Z.shiftl_mul_pow2 by lia.
  destruct (Z.le_gt_cases (a - 1) 10).
  - rewrite Z.min_l by done. case_bool_decide; lia.
  - rewrite Z.min_r by lia. assert (2 ^ 10 ≤ 2 ^ (a - 1)) by (apply Z.pow_le_mono_r; lia).
    change (2 ^ 10) with 1024 in *. unfold minute, hour in *. case_bool_decide; lia.
Qed.

(** What the end of a run writes, on every branch, for a row that is still
    running: an aborted run is cancelled; a nil error is done with one more
    attempt; an error while the service stops puts the task back at once and
    counts nothing; another error is retried after 1, 2, 4 ... minutes, at most
    an hour, until max_attempts, then the task has failed. The claim is
    always released, other rows stay, and for a row that is no longer running
    (aborted, or settled by another replica) nothing at all is written. *)
Theorem run_settles c id snapshot why over err now d t : 0 ≤ Attempts snapshot →
  rows d !! id = Some t → Attempts t = Attempts snapshot →
  let d' := fst (run c id snapshot true why over err now d) in
  (∀ j, j ≠ id → rows d' !! j = rows d !! j) ∧
  (status t ≠ StatusRunning → rows d' !! id = Some t) ∧
  (status t = StatusRunning → ∃ t', rows d' !! id = Some t' ∧ LockedAt t' = None ∧ Payload t' = Payload t ∧
     match why, err with
     | Aborted, _ => status t' = StatusCancel ∧ Attempts t' = Attempts t
     | _, None => status t' = StatusDone ∧ Attempts t' = Attempts t + 1
     | _, Some e =>
         if bool_decide (why = Shutdown) || over
         then status t' = StatusPending ∧ RunAt t' = now ∧ Attempts t' = Attempts t
         else Attempts t' = Attempts t + 1 ∧ LastError t' = clip e ∧
              if bool_decide (maxAttempts c ≤ Attempts t + 1) then status t' = StatusFailed
              else status t' = StatusPending ∧
                   RunAt t' = now + Z.min (minute * 2 ^ Attempts t) hour
     end).
Proof.
  intros Ha Ht Hsame d'. unfold d', run, write_outcome. cbn [negb].
  split; [|split].
  - intros j Hj. rewrite lookup_update_where. destruct (rows d !! j); [|done]. cbn.
    by rewrite bool_decide_false.
  - intros Hs. rewrite lookup_update_where, Ht. cbn [fmap option_fmap option_map]. rewrite bool_decide_true by done.
    destruct (status_in [StatusRunning] t) eqn:E; [|done].
    apply status_in_spec, list_elem_of_singleton in E. done.
  - intros Hs. rewrite lookup_update_where, Ht. cbn [fmap option_fmap option_map]. rewrite bool_decide_true by done.
    assert (status_in [StatusRunning] t = true) as -> by (apply status_in_spec, list_elem_of_singleton; done).
    cbn [andb]. eexists. split; [reflexivity|]. unfold outcome. rewrite Hsame.
    assert (backoff (Attempts snapshot + 1) = Z.min (minute * 2 ^ Attempts snapshot) hour) as Hb
      by (rewrite backoff_spec by lia; do 3 f_equal; lia).
    destruct why, err as [e|]; cbn; repeat case_bool_decide; try destruct over; cbn;
      repeat case_bool_decide; cbn; rewrite ?Hb; split_and!; (done || lia).
Qed.

(** ** Two replicas, one task *)

Definition default_config : Config := {|
  PollInterval := 0; Batch := 0; MaxAttempts := 0; RunTimeout := 0; Retention := 0; LongWorkers := 0; Heartbeat := 0 |}.

Definition three_due : db :=
  let add key at_ d := snd (Schedule true "mail" key at_ (Some "{}") 0 d) in
  add "c" 3 (add "b" 2 (add "a" 1 (DB ∅ 1))).

(** Finding: the rows of a batch are claimed together and run one after the
    other, but a row heartbeats only while it runs. With the default settings,
    replica A claims tasks 1, 2, 3 at once and each takes 50 seconds (below the
    60 s timeout): at 91 s task 3 is claimed by replica B although A is alive
    and about to run it. The documentation says every running task heartbeats
    its row, and a row whose heartbeat stopped belongs to a process that died. *)
Theorem waiting_rows_are_reclaimed :
  let take now d := claim default_config ∅ ["mail"] [] 0 now d in
  let a := snd (take 3 three_due) in
  let d1 := fst (take 3 three_due) in
  let d2 := fst (run default_config 1 (MkTask "mail" "a" 1 "{}" StatusRunning 0 "" (Some 3) 3) true NotEnded false None 50003 d1) in
  let d3 := fst (heartbeat 2 80003 d2) in
  fst <$> a = [1; 2; 3] ∧ fst <$> snd (take 91003 d3) = [3].
Proof. cbv zeta. split; vm_compute; reflexivity. Qed.

(** ** Witnesses *)

Definition one_task (s : Status) (attempts : Z) : db :=
  DB {[ 7 := MkTask "mail" "a" 0 "{}" s attempts "" (Some 0) 0 ]} 8.

Lemma one_task_ids s n : ids_ok (one_task s n).
Proof. intros i t. cbn. intros [<- _]%lookup_singleton_Some. lia. Qed.

(** Abort while the handler runs; it then reports success. *)
Lemma finished_is_final_witness :
  let d := fst (fst (Abort "mail" "a" 5 (one_task StatusRunning 0))) in
  let snapshot := MkTask "mail" "a" 0 "{}" StatusRunning 0 "" (Some 0) 0 in
  let d' := fst (run default_config 7 snapshot true NotEnded false None 9 d) in
  status <$> rows d' !! 7 = Some StatusCancel.
Proof.
  cbv zeta. set (d := fst (fst (Abort "mail" "a" 5 (one_task StatusRunning 0)))).
  set (snapshot := MkTask _ _ _ _ _ _ _ _ _).
  edestruct (finished_is_final default_config (W d [(7, snapshot)])
    (W (fst (run default_config 7 snapshot true NotEnded false None 9 d)) []) 7
    (cancelled 5 snapshot)) as [H|[H _]].
  - intros i t Ht. assert (ids_ok d) as Hok; [|by eapply Hok].
    apply (ids_ok_step default_config (W (one_task StatusRunning 0) []) (W d [])); [apply one_task_ids|].
    apply step_abort.
  - eapply rtc_l; [|apply rtc_refl]. apply (step_finish default_config 7 snapshot true NotEnded false None 9 d [] []).
  - vm_compute. reflexivity.
  - unfold terminal. auto.
  - cbn [w_db] in H. rewrite H. reflexivity.
  - exfalso. cbn [w_db] in H. vm_compute in H. discriminate H.
Defined.

Lemma attempts_bounded_witness :
  let d1 := snd (Schedule true "mail" "a" 0 (Some "{}") 0 (DB ∅ 1)) in
  match rows d1 !! 1 with
  | Some t => 0 ≤ Attempts t ≤ maxAttempts default_config
  | None => False
  end.
Proof.
  cbv zeta. destruct (rows _ !! 1) as [t|] eqn:Ht; [|vm_compute in Ht; discriminate Ht].
  destruct (attempts_bounded default_config 1 (W (snd (Schedule true "mail" "a" 0 (Some "{}") 0 (DB ∅ 1))) []) 1 t)
    as [H _]; [|exact Ht|exact H].
  eapply rtc_l; [apply step_schedule|apply rtc_refl].
Defined.

Lemma claim_takes_due_witness :
  let held := snd (claim default_config ∅ ["mail"] [] 0 10 three_due) in
  fst <$> held = [1; 2; 3] ∧ Z.of_nat (length held) ≤ 50.
Proof.
  cbv zeta. split; [vm_compute; reflexivity|].
  destruct (claim_takes_due default_config ∅ ["mail"] [] 0 10 three_due) as (_ & _ & H & _); [lia|].
  exact H.
Defined.

Lemma run_settles_witness :
  let d := one_task StatusRunning 1 in
  let snapshot := MkTask "mail" "a" 0 "{}" StatusRunning 1 "" (Some 0) 0 in
  ∃ t', rows (fst (run default_config 7 snapshot true NotEnded false (Some "smtp down") 1000 d)) !! 7 = Some t'
    ∧ status t' = StatusPending ∧ RunAt t' = 121000.
Proof.
  cbv zeta. set (snapshot := MkTask _ _ _ _ _ _ _ _ _).
  destruct (run_settles default_config 7 snapshot NotEnded false (Some "smtp down") 1000
    (one_task StatusRunning 1) snapshot) as (_ & _ & H); [cbn; lia|vm_compute; reflexivity|reflexivity|].
  destruct (H eq_refl) as (t' & H1 & _ & _ & _ & _ & H2). exists t'. split; [exact H1|].
  vm_compute in H2. exact H2.
Defined.
