(* ===== verification/Config.v ===== *)
(** * config: environment, ${VAR} expansion, takeover mode (config/)

    [os_expand] is os.Expand of the Go library with the mapping [Expand] of the
    package; the environment is a finite map. [Takeover] is the decision the
    process makes once, at start. Reading files, YAML and JSON are parameters:
    what they return is an argument. *)
From S2P Require Import Prelude.

Notation environ := (gmap string string).

(** os.Getenv *)
Definition Getenv (e : environ) (k : string) : string :=
  match e !! k with Some v => v | None => "" end.

Definition EnvVar : string := "APP_ENV".
Definition LocalEnv : string := "local".
Definition DefaultEnv : string := LocalEnv.
Definition DirEnv : string := "CONF_DIR".

Definition Env (e : environ) : string :=
  if String.eqb (Getenv e EnvVar) "" then DefaultEnv else Getenv e EnvVar.
Definition IsLocal (e : environ) : bool := String.eqb (Env e) LocalEnv.

(** Duration.Or *)
Definition Or (d def : Z) : Z := if Z.eqb d 0 then def else d.

(** ** Expansion *)

Definition Expand (e : environ) (key : string) : string :=
  match cut ":-" key with
  | Some (name, def) => if String.eqb (Getenv e name) "" then def else Getenv e name
  | None => Getenv e key
  end.

(** isShellSpecialVar, isAlphaNum *)
Definition special_var (c : ascii) : bool :=
  existsb (Ascii.eqb c) ["*"%char; "#"%char; "$"%char; "@"%char; "!"%char; "?"%char; "-"%char]
  || byte_in 48 57 c.
Definition alpha_num (c : ascii) : bool :=
  Ascii.eqb c "_" || byte_in 48 57 c || byte_in 97 122 c || byte_in 65 90 c.

(** The text up to the first "}" and the rest after it. *)
Fixpoint to_brace (s : string) : option (string * string) :=
  match s with
  | "" => None
  | String c s' =>
      if Ascii.eqb c "}" then Some ("", s')
      else match to_brace s' with Some (a, b) => Some (String c a, b) | None => None end
  end.

Fixpoint span_alnum (s : string) : string * string :=
  match s with
  | "" => ("", "")
  | String c s' => if alpha_num c then let '(a, b) := span_alnum s' in (String c a, b) else ("", s)
  end.

(** What follows a "$": the name ([None]: bad syntax, the characters are eaten;
    [Some ""]: no name, the dollar stays) and the rest of the text. *)
Definition shell_name (s : string) : option string * string :=
  match s with
  | String "{" s1 =>
      match to_brace s1 with
      | Some ("", rest) => (None, rest)
      | Some (name, rest) => (Some name, rest)
      | None => (None, s1)
      end
  | String c s1 =>
      if special_var c then (Some (String c ""), s1)
      else let '(a, b) := span_alnum s in (Some a, b)
  | "" => (Some "", "")
  end.

(** os.Expand; [fuel]: at least the length of the text. *)
Fixpoint os_expand (fuel : nat) (mapping : string → string) (s : string) : string :=
  match fuel, s with
  | O, _ => s
  | _, "" => ""
  | S fuel, String c s1 =>
      if Ascii.eqb c "$" && negb (String.eqb s1 "") then
        match shell_name s1 with
        | (None, rest) => os_expand fuel mapping rest
        | (Some "", rest) => String c (os_expand fuel mapping rest)
        | (Some name, rest) => mapping name +:+ os_expand fuel mapping rest
        end
      else String c (os_expand fuel mapping s1)
  end.

(** The text LoadFile parses. *)
Definition expanded (e : environ) (data : string) : string :=
  os_expand (String.length data) (Expand e) data.

(** ** Finding the directory *)

(** [exe_dir]: the directory of the executable, [None] when it is unknown. *)
Definition Dir (e : environ) (isDir : string → bool) (exe_dir : option string) (join : string → string → string) :
    option string :=
  let v := Getenv e DirEnv in
  if negb (String.eqb v "") then (if isDir v then Some v else None)
  else List.find isDir
         ("conf" :: match exe_dir with
                    | Some base => [join base "conf"; join (join base "..") "conf"]
                    | None => []
                    end).

(** ** Takeover mode *)

Definition TakeoverFresh : Z := 15000.   (* milliseconds *)

Record TakeoverMarker : Type := {
  Service : string; Tag : string; MEnv : string; Heartbeat : Z;
  EnvVars : list (string * string); Rewrite : gmap string string }.

Inductive takeover_note : Type :=
| NotLocal | Unreadable | OtherService | StaleHeartbeat.

(** The body of takeoverOnce: [marker] is the file ([None]: there is none;
    [Some None]: it does not decode), [serviceDir] the base name of the directory. *)
Definition Takeover (off : bool) (e : environ) (serviceDir : string) (now : Z)
    (marker : option (option TakeoverMarker)) : option (TakeoverMarker + takeover_note) :=
  if off then None else
  match marker with
  | None => None
  | Some m =>
      if negb (String.eqb (Getenv e EnvVar) "") && negb (String.eqb (Getenv e EnvVar) LocalEnv)
      then Some (inr NotLocal)
      else match m with
           | None => Some (inr Unreadable)
           | Some m =>
               if String.eqb (Service m) "" || String.eqb (MEnv m) "" then Some (inr Unreadable)
               else if negb (String.eqb (Service m) serviceDir) then Some (inr OtherService)
               else if bool_decide (TakeoverFresh < now - Heartbeat m) then Some (inr StaleHeartbeat)
               else Some (inl m)
           end
  end.

(** The environment the process goes on with: variables already set stay. *)
Definition set_env_vars (vars : list (string * string)) (e : environ) : environ :=
  foldl (λ e kv, if String.eqb (Getenv e (fst kv)) "" then <[fst kv := snd kv]> e else e) e vars.

Definition taken (t : option (TakeoverMarker + takeover_note)) : option TakeoverMarker :=
  match t with Some (inl m) => Some m | _ => None end.

Definition takeover_env (t : option (TakeoverMarker + takeover_note)) (e : environ) : environ :=
  match taken t with Some m => set_env_vars (EnvVars m) e | None => e end.

(** The file Load reads. *)
Definition profile (t : option (TakeoverMarker + takeover_note)) (e : environ) : string :=
  match taken t with
  | Some m => if String.eqb (MEnv m) "" then Env e else MEnv m
  | None => Env e
  end.

Section Rewrite.
(** net.SplitHostPort and net.JoinHostPort *)
Variable split_host_port : string → option (string * string).
Variable join_host_port : string → string → string.

Fixpoint trim_dot (s : string) : string :=   (* strings.TrimSuffix(s, ".") *)
  match s with
  | "" => ""
  | String "." "" => ""
  | String c s' => String c (trim_dot s')
  end.

Definition normalizeAddr (addr : string) : string :=
  let addr := trim_space addr in
  match split_host_port addr with
  | None => to_lower (trim_dot addr)
  | Some (host, port) => join_host_port (to_lower (trim_dot host)) port
  end.

Definition RewriteAddr (t : option (TakeoverMarker + takeover_note)) (addr : string) : string :=
  match taken t with
  | None => addr
  | Some m => match Rewrite m !! normalizeAddr addr with Some a => a | None => addr end
  end.
End Rewrite.

(** ** Expansion, reference by reference *)

Lemma to_brace_app name rest : lacks "}" name = true → to_brace (name +:+ String "}" rest) = Some (name, rest).
Proof.
  unfold lacks. induction name as [|c name IH].
  - intros _. change ("" +:+ String "}" rest) with (String "}" rest). reflexivity.
  - change (sforall (λ c, negb (Ascii.eqb c "}")) (String c name)) with
      (negb (Ascii.eqb c "}") && sforall (λ c, negb (Ascii.eqb c "}")) name).
    intros [Hc Hs]%andb_prop. apply negb_true_iff in Hc.
    change (String c name +:+ String "}" rest) with (String c (name +:+ String "}" rest)).
    cbn -[Ascii.eqb]. by rewrite Hc, IH.
Qed.

Lemma to_brace_shorter s a b : to_brace s = Some (a, b) → (String.length b < String.length s)%nat.
Proof.
  revert a b. induction s as [|c s IH]; intros a b; cbn -[Ascii.eqb]; [done|].
  destruct (Ascii.eqb c "}"); [intros [= <- <-]; lia|].
  destruct (to_brace s) as [[a' b']|]; [|done]. intros [= <- <-]. specialize (IH _ _ eq_refl). lia.
Qed.

Lemma span_alnum_shorter s a b : span_alnum s = (a, b) → (String.length b ≤ String.length s)%nat.
Proof.
  revert a b. induction s as [|c s IH]; intros a b; cbn; [by intros [= <- <-]|].
  destruct (alpha_num c); [|intros [= <- <-]; done].
  destruct (span_alnum s) as [a' b']. intros [= <- <-]. specialize (IH _ _ eq_refl). lia.
Qed.

Lemma shell_name_shorter s o rest : shell_name s = (o, rest) → (String.length rest ≤ String.length s)%nat.
Proof.
  unfold shell_name. destruct s as [|c s1]; [by intros [= <- <-]|].
  assert ((if special_var c then (Some (String c ""), s1)
           else let '(a, b) := span_alnum (String c s1) in (Some a, b)) = (o, rest) →
    (String.length rest ≤ String.length (String c s1))%nat) as Hother.
  { destruct (special_var c); [intros [= <- <-]; cbn; lia|].
    destruct (span_alnum (String c s1)) as [a b] eqn:E. intros [= <- <-]. by apply span_alnum_shorter in E. }
  destruct (decide (c = "{"%char)) as [->|Hc].
  - destruct (to_brace s1) as [[[|d n] r]|] eqn:E; intros [= <- <-]; cbn;
      try (apply to_brace_shorter in E); lia.
  - destruct c as [[] [] [] [] [] [] [] []]; try exact Hother. done.
Qed.

Lemma os_expand_S fuel mapping c s1 : os_expand (S fuel) mapping (String c s1) =
  if Ascii.eqb c "$" && negb (String.eqb s1 "") then
    match shell_name s1 with
    | (None, rest) => os_expand fuel mapping rest
    | (Some "", rest) => String c (os_expand fuel mapping rest)
    | (Some name, rest) => mapping name +:+ os_expand fuel mapping rest
    end
  else String c (os_expand fuel mapping s1).
Proof. reflexivity. Qed.

(** More fuel than the length changes nothing. *)
Lemma os_expand_fuel mapping s : ∀ f1 f2, (String.length s ≤ f1)%nat → (String.length s ≤ f2)%nat →
  os_expand f1 mapping s = os_expand f2 mapping s.
Proof.
  assert (∀ n s, (String.length s ≤ n)%nat → ∀ f1 f2, (String.length s ≤ f1)%nat → (String.length s ≤ f2)%nat →
    os_expand f1 mapping s = os_expand f2 mapping s) as H; [|by apply (H (String.length s))].
  clear s. induction n as [|n IH]; intros s Hn f1 f2 H1 H2.
  { destruct s; [|cbn in Hn; lia]. by destruct f1, f2. }
  destruct s as [|c s]; [by destruct f1, f2|]. cbn in Hn, H1, H2.
  destruct f1 as [|f1]; [lia|]. destruct f2 as [|f2]; [lia|]. cbn [os_expand].
  destruct (_ && _).
  - destruct (shell_name s) as [o rest] eqn:E. apply shell_name_shorter in E.
    destruct o as [[|d name]|]; by rewrite (IH rest ltac:(lia) f1 f2) by lia.
  - by rewrite (IH s ltac:(lia) f1 f2) by lia.
Qed.

Lemma expanded_cons e c s : c ≠ "$"%char → expanded e (String c s) = String c (expanded e s).
Proof.
  intros Hc. unfold expanded. cbn [String.length os_expand].
  destruct (Ascii.eqb_spec c "$"); [done|]. done.
Qed.

Lemma expanded_plain e pre s : lacks "$" pre = true → expanded e (pre +:+ s) = pre +:+ expanded e s.
Proof.
  unfold lacks. induction pre as [|c pre IH]; [done|].
  change (sforall (λ c, negb (Ascii.eqb c "$")) (String c pre)) with
    (negb (Ascii.eqb c "$") && sforall (λ c, negb (Ascii.eqb c "$")) pre).
  intros [Hc Hs]%andb_prop. change (String c pre +:+ s) with (String c (pre +:+ s)).
  rewrite expanded_cons, IH; [done|done|]. intros ->. by rewrite Ascii.eqb_refl in Hc.
Qed.

Lemma expanded_ref e name rest : name ≠ "" → lacks "}" name = true →
  expanded e (String "$" (String "{" (name +:+ String "}" rest))) = Expand e name +:+ expanded e rest.
Proof.
  intros Hn Hl. unfold expanded. cbn [String.length]. rewrite os_expand_S.
  change (Ascii.eqb "$" "$" && negb (String.eqb (String "{" (name +:+ String "}" rest)) "")) with true.
  cbn [shell_name]. rewrite to_brace_app by done. destruct name as [|c name]; [done|]. cbv beta iota.
  f_equal. apply os_expand_fuel; [|done]. set (name' := String c name).
  assert (∀ a b, String.length (a +:+ b) = (String.length a + String.length b)%nat) as Hlen.
  { intros a b. induction a as [|x a IHa]; [done|]. exact (f_equal S IHa). }
  rewrite Hlen. cbn. lia.
Qed.

(** Loading a file replaces each reference and nothing else: text without "$"
    stays as it is, "${NAME}" becomes the variable (empty when unset), and
    "${NAME:-default}" the variable, or the default when it is unset or empty,
    wherever the reference stands in the text. *)
Theorem references_expand e pre name def post :
  lacks "$" pre = true → name ≠ "" → lacks "}" name = true → lacks "}" def = true → lacks ":" name = true →
  expanded e (pre +:+ "${" +:+ name +:+ "}" +:+ post) = pre +:+ Getenv e name +:+ expanded e post ∧
  expanded e (pre +:+ "${" +:+ name +:+ ":-" +:+ def +:+ "}" +:+ post)
    = pre +:+ (if String.eqb (Getenv e name) "" then def else Getenv e name) +:+ expanded e post.
Proof.
  intros Hpre Hname Hb Hd Hc.
  assert (∀ t, cut ":-" (name +:+ t) = match cut ":-" t with
    | Some (a, b) => Some (name +:+ a, b) | None => None end) as Hcut.
  { intros t. unfold lacks in Hc. clear - Hc. induction name as [|c name IH].
    - change ("" +:+ t) with t. by destruct (cut ":-" t) as [[a b]|].
    - change (sforall (λ c, negb (Ascii.eqb c ":")) (String c name)) with
        (negb (Ascii.eqb c ":") && sforall (λ c, negb (Ascii.eqb c ":")) name) in Hc.
      apply andb_prop in Hc as [Hx Hs]. apply negb_true_iff in Hx. specialize (IH Hs).
      change (String c name +:+ t) with (String c (name +:+ t)).
      cbn -[Ascii.eqb cut]. fold (cut ":-" (name +:+ t)).
      change (cut ":-" (String c (name +:+ t))) with
        (match strip_prefix ":-" (String c (name +:+ t)) with
         | Some r => Some ("", r)
         | None => match cut ":-" (name +:+ t) with Some (a, b) => Some (String c a, b) | None => None end end).
      assert (strip_prefix ":-" (String c (name +:+ t)) = None) as ->.
      { cbn -[Ascii.eqb]. by rewrite Ascii.eqb_sym, Hx. }
      rewrite IH. by destruct (cut ":-" t) as [[a b]|]. }
  split; rewrite expanded_plain by done; f_equal.
  - change ("${" +:+ name +:+ "}" +:+ post) with (String "$" (String "{" (name +:+ String "}" post))).
    rewrite expanded_ref by done. f_equal. unfold Expand.
    assert (cut ":-" name = None) as -> by (rewrite <- (sapp_nil_r name), Hcut; reflexivity). done.
  - change ("${" +:+ name +:+ ":-" +:+ def +:+ "}" +:+ post)
      with (String "$" (String "{" (name +:+ (":-" +:+ (def +:+ String "}" post))))).
    rewrite <- (sapp_assoc ":-"), <- (sapp_assoc name). rewrite expanded_ref.
    + f_equal. unfold Expand. rewrite Hcut.
      assert (cut ":-" (":-" +:+ def) = Some ("", def)) as -> by (by destruct def).
      cbv beta iota. by rewrite sapp_nil_r.
    + intros H. destruct name; [done|discriminate].
    + unfold lacks in *. rewrite !sforall_app, Hb, Hd. done.
Qed.

(** Finding: a reference of another form is not the variable named before its
    first colon, as the documentation of Expand says, but the variable
    whose name is the whole text, colon included: "${PORT:8080}" with PORT set is
    the empty string. *)
Theorem unknown_form_ignores_the_variable :
  ∃ e, Getenv e "PORT" = "9090" ∧ expanded e "addr: ${PORT:8080}" = "addr: " ∧ Expand e "PORT:8080" = "".
Proof. exists {[ "PORT" := "9090" ]}. split_and!; vm_compute; reflexivity. Qed.

(** Takeover mode is entered only on a developer's machine (APP_ENV unset or
    local), with a marker that names this very service and an environment and
    whose heartbeat is at most 15 seconds old. Without it, addresses, environment
    and profile are untouched; with it, a variable that is already set keeps
    its value. *)
Theorem takeover_guarded split join off e dir now marker addr k :
  let t := Takeover off e dir now marker in
  match taken t with
  | Some m => off = false ∧ marker = Some (Some m) ∧ IsLocal e = true ∧ Service m = dir ∧
              now - Heartbeat m ≤ TakeoverFresh ∧ profile t e = MEnv m
  | None => RewriteAddr split join t addr = addr ∧ takeover_env t e = e ∧ profile t e = Env e
  end ∧
  (¬ Getenv e k = "" → Getenv (takeover_env t e) k = Getenv e k).
Proof.
  intros t. split.
  - destruct (taken t) as [m|] eqn:E.
    2:{ unfold RewriteAddr, takeover_env, profile. by rewrite E. }
    assert (Hp : profile t e = if String.eqb (MEnv m) "" then Env e else MEnv m) by (unfold profile; by rewrite E).
    rewrite Hp. unfold t, Takeover in E. destruct off; [done|]. destruct marker as [[m'|]|]; [|by destruct (_ && _)|done].
    destruct (negb _ && negb _) eqn:He; [done|]. destruct (_ || _) eqn:Hm; [done|].
    destruct (String.eqb_spec (Service m') dir); [|done]. cbn in E. case_bool_decide; [done|].
    injection E as ->. apply orb_false_iff in Hm as [_ ->]. split_and!; try done; [|lia].
    unfold IsLocal, Env. destruct (String.eqb_spec (Getenv e EnvVar) ""); cbn in He; [done|].
    by apply negb_false_iff in He.
  - intros Hk. unfold takeover_env. destruct (taken t) as [m|]; [|done]. unfold set_env_vars.
    generalize (EnvVars m). intros vars. revert e t Hk. induction vars as [|[k1 v1] vars IH]; intros e t Hk; [done|].
    cbn [foldl fst snd]. destruct (String.eqb_spec (Getenv e k1) "") as [E|E].
    + assert (k ≠ k1) by (intros ->; done).
      assert (Getenv (<[k1:=v1]> e) k = Getenv e k) as Hs by (unfold Getenv; by rewrite lookup_insert_ne).
      rewrite (IH (<[k1:=v1]> e)) by (by rewrite Hs). exact Hs.
    + by apply (IH e).
Qed.

Lemma references_expand_witness :
  expanded {[ "DB_PASS" := "s3cret" ]} ("dsn: " +:+ "${" +:+ "DB_PASS" +:+ "}" +:+ "@db") = "dsn: s3cret@db".
Proof.
  destruct (references_expand {[ "DB_PASS" := "s3cret" ]} "dsn: " "DB_PASS" "" "@db") as [H _];
    [reflexivity|done|reflexivity|reflexivity|reflexivity|].
  rewrite H. vm_compute. reflexivity.
Defined.

(** A "$" that is not followed by a brace is a reference too, though the
    documentation speaks of ${VAR} only: a literal dollar loses the name after it. *)
Example bare_dollar_expands : expanded ∅ "password: pa$word-1" = "password: pa-1".
Proof. vm_compute. reflexivity. Qed.
