(* ===== verification/Webhook.v ===== *)
(** * webhookx: the callbacks of a provider (webhookx/webhookx.go, httpx/callback.go)

    [serve] is the whole pipeline of a callback: source address, body limit,
    signature, archive, event id, handler, answer. It is a program over Redis,
    Kafka and the integration's handler. HMAC-SHA256, base64 and encoding/json
    are parameters ([Codecs]); package net is [NetLib] of Edges.v. *)
From S2P Require Import Prelude Prog Redis Edges.

(** ** Package strings and net/http, as far as the package uses them *)

(** textproto's token characters *)
Definition token_byte (c : ascii) : bool :=
  byte_in 48 57 c || byte_in 65 90 c || byte_in 97 122 c ||
  existsb (Ascii.eqb c) ["!"%char; "#"%char; "$"%char; "%"%char; "&"%char; "'"%char; "*"%char; "+"%char;
    "-"%char; "."%char; "^"%char; "_"%char; "`"%char; "|"%char; "~"%char].

Fixpoint canonical_from (up : bool) (s : string) : string :=
  match s with
  | "" => ""
  | String c s' => String ((if up then upper_byte else lower_byte) c) (canonical_from (Ascii.eqb c "-") s')
  end.

(** textproto.CanonicalMIMEHeaderKey *)
Definition canonical_key (s : string) : string :=
  if sforall token_byte s then canonical_from true s else s.

Notation headers := (list (string * string)) (only parsing).

(** http.Header built with Add in the order of the request, then Get *)
Definition header_get (h : headers) (k : string) : string :=
  match List.find (λ kv, String.eqb (canonical_key (fst kv)) (canonical_key k)) h with
  | Some (_, v) => v
  | None => ""
  end.

(** strings.NewReplacer(pairs...).Replace for pairs of which no old string is a
    prefix of another; [fuel]: the length of the text. *)
Fixpoint first_match (pairs : list (string * string)) (s : string) : option (string * string) :=
  match pairs with
  | [] => None
  | (old, new) :: ps =>
      match strip_prefix old s with Some r => Some (new, r) | None => first_match ps s end
  end.

Fixpoint replace_all (fuel : nat) (pairs : list (string * string)) (s : string) : string :=
  match fuel, s with
  | O, _ => s
  | _, "" => ""
  | S fuel, String c s' =>
      match first_match pairs s with
      | Some (new, r) => new +:+ replace_all fuel pairs r
      | None => String c (replace_all fuel pairs s')
      end
  end.

(** The text after the last [sep] (strings.LastIndexByte), [None]: there is none. *)
Fixpoint after_last (sep : ascii) (s : string) : option string :=
  match s with
  | "" => None
  | String c s' =>
      match after_last sep s' with
      | Some t => Some t
      | None => if Ascii.eqb c sep then Some s' else None
      end
  end.

Definition hex_digit (n : nat) : ascii :=
  if Nat.leb n 9 then ascii_of_nat (48 + n) else ascii_of_nat (87 + n).

(** hex.EncodeToString *)
Fixpoint hex_encode (s : string) : string :=
  match s with
  | "" => ""
  | String c s' =>
      String (hex_digit (Nat.div (nat_of_ascii c) 16))
        (String (hex_digit (Nat.modulo (nat_of_ascii c) 16)) (hex_encode s'))
  end.

(** Decoded JSON; [JNum m e] is the float64 m * 2^e. *)
Inductive json : Type :=
| JNull
| JBool (b : bool)
| JNum (m e : Z)
| JStr (s : string)
| JArr (l : list json)
| JObj (fields : list (string * json)).

Class Codecs : Type := {
  hmac_sha256 : string → string → string;          (* key, message *)
  b64_encode : string → string;
  b64_decode : string → option string;
  json_decode : string → option json;              (* json.Unmarshal into any *)
  json_valid : string → bool;
  json_string : string → string }.                 (* json.Marshal of a string *)

(** int64(v) of a float64, for values in the range *)
Definition float_to_int (m e : Z) : Z := if 0 <=? e then m * 2 ^ e else Z.quot m (2 ^ (- e)).

(** ** httpx: the callback entry of a provider *)

Record CallbackVerify : Type := {
  Type_ : string; Secret : string; Header : string; Payload : string; Encoding : string;
  TimestampHeader : string; MaxSkew : Z; Username : string; Password : string }.
Record EventIDSource : Type := { ev_header : string; ev_json : string }.
Record Callback : Type := {
  Verify : CallbackVerify; AllowCIDRs : list string; EventID : EventIDSource;
  DedupeTTL : Z; ArchiveTopic : string; MaxBody : Z }.

Definition nonempty {A} (l : list A) : bool := match l with [] => false | _ => true end.
Definition given (s : string) : bool := negb (String.eqb s "").

Definition Configured (c : Callback) : bool :=
  given (Type_ (Verify c)) || nonempty (AllowCIDRs c) || given (ev_header (EventID c)) || given (ev_json (EventID c)).

Inductive callback_error : Type :=
| TypeRequired | SecretRequired | BadEncoding | CredentialsRequired | UnknownType | BadCIDR (c : string)
| TwoEventIDs.

Section Config.
Context `{NetLib}.

Definition verify_error (c : Callback) : option callback_error :=
  let v := Verify c in
  if String.eqb (Type_ v) "" then (if nonempty (AllowCIDRs c) then None else Some TypeRequired)
  else if String.eqb (Type_ v) "hmac-sha256" then
    if String.eqb (trim_space (Secret v)) "" then Some SecretRequired
    else if given (Encoding v) && negb (String.eqb (Encoding v) "hex") && negb (String.eqb (Encoding v) "base64")
    then Some BadEncoding else None
  else if String.eqb (Type_ v) "basic" then
    if String.eqb (Username v) "" || String.eqb (Password v) "" then Some CredentialsRequired else None
  else if String.eqb (Type_ v) "custom" then None
  else Some UnknownType.

Definition Validate (c : Callback) : option callback_error :=
  if negb (Configured c) then None else
  match verify_error c with
  | Some e => Some e
  | None =>
      match List.find (λ s, negb (bool_decide (is_Some (ParseCIDR s)))) (AllowCIDRs c) with
      | Some s => Some (BadCIDR s)
      | None => if given (ev_header (EventID c)) && given (ev_json (EventID c)) then Some TwoEventIDs else None
      end
  end.
End Config.

(** ** webhookx *)

Record Event : Type := {
  Provider : string; ID : string; Method : string; Path : string; Headers : headers;
  Body : string; EvClientIP : string }.

Definition second : Z := 1000000000.   (* nanoseconds *)
Definition max_duration : Z := 2 ^ 63 - 1.
Definition defaultDedupeTTL : Z := 7 * 24 * 3600 * 1000.   (* milliseconds *)
Definition defaultMaxBody : Z := 2 ^ 20.
Definition defaultMaxSkew : Z := 5 * 60 * second.
Definition or_default (d def : Z) : Z := if Z.eqb d 0 then def else d.

(** The errors of [verify]; all but [UnknownVerifyType] wrap ErrNotFromProvider. *)
Inductive verify_failure : Type :=
| CustomRefused | BasicRefused | NoSignature | BadTimestamp | Skewed | Mismatch | UnknownVerifyType.

Record Response : Type := { r_result : string; r_status : Z; r_type : string; r_body : string }.

(** The Kafka client's Publish and the handler; a handler that panics is [run]'s error. *)
Inductive whE : Type → Type :=
| WRedis {X} (e : redisE X) : whE X
| WPublish (topic key type raw : string) (ev : Event) : whE bool
| WHandler (ev : Event) : whE (outcome bool).

Definition wcall {X} (c : rcmd X) : prog whE (result X rerr) := call (WRedis (Redis c)).

Section Route.
Context `{NetLib} `{Codecs}.

Record route : Type := {
  provider : string; path : string; cfg : Callback; verifier : option (Event → bool);
  redis : bool; kafka : bool; replyStatus : Z; replyType : string; replyBody : string; cidrs : list cidr }.

Inductive handle_panic : Type := NoProvider | NoCallback | NoVerifier | NilNet.

(** Options of Handle, applied to the route. *)
Inductive Option_ : Type :=
| WithVerifier (v : Event → bool)
| WithReply (status : Z) (contentType body : string).

Definition apply_option (r : route) (o : Option_) : route :=
  match o with
  | WithVerifier v =>
      {| provider := provider r; path := path r; cfg := cfg r; verifier := Some v; redis := redis r;
         kafka := kafka r; replyStatus := replyStatus r; replyType := replyType r; replyBody := replyBody r;
         cidrs := cidrs r |}
  | WithReply s t b =>
      {| provider := provider r; path := path r; cfg := cfg r; verifier := verifier r; redis := redis r;
         kafka := kafka r; replyStatus := s; replyType := t; replyBody := b; cidrs := cidrs r |}
  end.

(** [Handle] returns the route whose [serve] it registers for POST and PUT; an
    AllowCIDRs entry that does not parse, which Validate refuses, leaves a nil
    network that the first callback would dereference. *)
Definition Handle (providers : gmap string Callback) (rdb kfk : bool) (prov pth : string) (opts : list Option_) :
    result route handle_panic :=
  match providers !! prov with
  | None => Err NoProvider
  | Some c =>
      if negb (Configured c) then Err NoCallback else
      let r := foldl apply_option
        {| provider := prov; path := pth; cfg := c; verifier := None; redis := rdb; kafka := kfk;
           replyStatus := 200; replyType := "text/plain"; replyBody := "ok"; cidrs := [] |} opts in
      if String.eqb (Type_ (Verify (cfg r))) "custom" && match verifier r with None => true | _ => false end
      then Err NoVerifier else
      match mapM ParseCIDR (AllowCIDRs (cfg r)) with
      | None => Err NilNet
      | Some nets =>
          Ok {| provider := provider r; path := path r; cfg := cfg r; verifier := verifier r; redis := redis r;
                kafka := kafka r; replyStatus := replyStatus r; replyType := replyType r;
                replyBody := replyBody r; cidrs := nets |}
      end
  end.

Definition archiveTopic (r : route) : string :=
  if String.eqb (ArchiveTopic (cfg r)) "-" then ""
  else if String.eqb (ArchiveTopic (cfg r)) "" then "callbacks." +:+ provider r
  else ArchiveTopic (cfg r).

Definition firstNonEmpty (a b : string) : string := if given a then a else b.

Definition rawOrString (b : string) : string :=
  if json_valid b then b else json_string b.

Definition in_any (a : ip) (nets : list cidr) : bool := existsb (λ n, cidr_contains n a) nets.

Definition parseBasic (h : string) : option (string * string) :=
  match strip_prefix "Basic " h with
  | None => None
  | Some t => match b64_decode t with None => None | Some b => cut ":" b end
  end.

(** ** verify *)

Definition or_string (s def : string) : string := if String.eqb s "" then def else s.

Fixpoint contains (sub s : string) : bool :=
  match strip_prefix sub s with
  | Some _ => true
  | None => match s with "" => false | String _ s' => contains sub s' end
  end.

(** time.Since(time.Unix(sec, 0)).Abs(): the difference of two times saturates. *)
Definition skew (now sec : Z) : Z := Z.min max_duration (Z.abs (now - sec * second)).

(** The timestamp the payload contains, checked against the clock. *)
Definition checked_timestamp (v : CallbackVerify) (now : Z) (payload : string) (ev : Event) :
    result string verify_failure :=
  if contains "{timestamp}" payload then
    let ts := trim_space (header_get (Headers ev) (or_string (TimestampHeader v) "X-Timestamp")) in
    match parse_int ts with
    | None => Err BadTimestamp
    | Some sec => if or_default (MaxSkew v) defaultMaxSkew <? skew now sec then Err Skewed else Ok ts
    end
  else Ok "".

Definition newline : string := String (ascii_of_nat 10) "".

Definition replacements (ev : Event) (query ts : string) : list (string * string) :=
  [("\n", newline); ("{method}", Method ev); ("{path}", Path ev); ("{query}", query);
   ("{timestamp}", ts); ("{body}", Body ev)].

(** The text that is signed. *)
Definition signed_payload (payload : string) (ev : Event) (query ts : string) : string :=
  replace_all (String.length payload) (replacements ev query ts) payload.

Definition expected_signature (v : CallbackVerify) (text : string) : string :=
  let sum := hmac_sha256 (Secret v) text in
  if String.eqb (Encoding v) "base64" then b64_encode sum else hex_encode sum.

Definition presented_signature (v : CallbackVerify) (got : string) : string :=
  match after_last "=" got with
  | Some t => if String.eqb (Encoding v) "base64" then got else t
  | None => got
  end.

Definition verify_hmac (v : CallbackVerify) (now : Z) (ev : Event) (query : string) : option verify_failure :=
  let got := trim_space (header_get (Headers ev) (or_string (Header v) "X-Signature")) in
  if String.eqb got "" then Some NoSignature else
  let payload := or_string (Payload v) "{body}" in
  match checked_timestamp v now payload ev with
  | Err e => Some e
  | Ok ts =>
      let want := expected_signature v (signed_payload payload ev query ts) in
      if String.eqb (to_lower (presented_signature v got)) (to_lower want) then None else Some Mismatch
  end.

Definition verify (r : route) (now : Z) (ev : Event) (query : string) : option verify_failure :=
  let v := Verify (cfg r) in
  if String.eqb (Type_ v) "" then None
  else if String.eqb (Type_ v) "custom" then
    match verifier r with Some f => if f ev then None else Some CustomRefused | None => Some CustomRefused end
  else if String.eqb (Type_ v) "basic" then
    match parseBasic (header_get (Headers ev) "Authorization") with
    | Some (u, p) => if String.eqb u (Username v) && String.eqb p (Password v) then None else Some BasicRefused
    | None => Some BasicRefused
    end
  else if String.eqb (Type_ v) "hmac-sha256" then verify_hmac v now ev query
  else Some UnknownVerifyType.

(** ** eventID *)

Definition field (j : json) (name : string) : option json :=
  match j with
  | JObj fs => Some (match List.find (λ kv, String.eqb (fst kv) name) fs with Some (_, x) => x | None => JNull end)
  | _ => None
  end.

Fixpoint json_path (j : json) (parts : list string) : option json :=
  match parts with
  | [] => Some j
  | p :: ps => match field j p with Some x => json_path x ps | None => None end
  end.

Definition id_text (j : json) : string :=
  match j with JStr s => s | JNum m e => format_int (float_to_int m e) | _ => "" end.

Definition eventID (r : route) (ev : Event) : string :=
  let src := EventID (cfg r) in
  if given (ev_header src) then trim_space (header_get (Headers ev) (ev_header src))
  else if given (ev_json src) then
    match json_decode (Body ev) with
    | None => ""
    | Some doc => match json_path doc (split_on "." (ev_json src)) with Some j => id_text j | None => "" end
    end
  else "".

(** ** serve *)

Definition result_ (res : string) (status : Z) : Response :=
  {| r_result := res; r_status := status; r_type := ""; r_body := "" |}.

Definition reply (r : route) (res : string) : Response :=
  {| r_result := res; r_status := replyStatus r; r_type := replyType r; r_body := replyBody r |}.

(** What the callback's request shows. *)
Record Request : Type := {
  q_client : string; q_method : string; q_path : string; q_query : string; q_headers : headers; q_body : string }.

Definition source_allowed (r : route) (q : Request) : bool :=
  match cidrs r with
  | [] => true
  | _ => match ParseIP (q_client q) with Some a => in_any a (cidrs r) | None => false end
  end.

Definition max_body (r : route) : Z := if MaxBody (cfg r) <=? 0 then defaultMaxBody else MaxBody (cfg r).

Definition event_of (r : route) (q : Request) : Event :=
  {| Provider := provider r; ID := ""; Method := q_method q; Path := q_path q; Headers := q_headers q;
     Body := q_body q; EvClientIP := q_client q |}.

Definition with_id (ev : Event) (id : string) : Event :=
  {| Provider := Provider ev; ID := id; Method := Method ev; Path := Path ev; Headers := Headers ev;
     Body := Body ev; EvClientIP := EvClientIP ev |}.

Definition callback_key (r : route) (id : string) : string := "cb:" +:+ provider r +:+ ":" +:+ id.

(** run: a panic of the handler is an error. *)
Definition run_handler (ev : Event) : prog whE bool :=
  let* o := call (WHandler ev) in
  match o with Returns ok => Ret ok | Panics => Ret false end.

(** Step 7; [key] is empty when nothing was claimed. *)
Definition handle_event (r : route) (ev : Event) (key : string) : prog whE Response :=
  let* ok := run_handler ev in
  if ok then Ret (reply r "ok")
  else if given key then
    let* _ := wcall (CWrite (WDel key)) in Ret (result_ "handler_error" 500)
  else Ret (result_ "handler_error" 500).

(** Step 6. [stamp] is the time as text, the TTL in milliseconds. *)
Definition dedupe (r : route) (stamp : string) (ev : Event) : prog whE Response :=
  if given (ID ev) && redis r then
    let key := callback_key r (ID ev) in
    let ttl := or_default (DedupeTTL (cfg r)) defaultDedupeTTL in
    let* ok := wcall (CWrite (WSetNX key stamp ttl)) in
    match ok with
    | Err _ => Ret (result_ "dedupe_unavailable" 500)
    | Ok 1 => handle_event r ev key
    | Ok _ => Ret (reply r "duplicate")
    end
  else handle_event r ev "".

(** Step 5. *)
Definition archive (r : route) (stamp : string) (ev : Event) : prog whE Response :=
  if given (archiveTopic r) && kafka r then
    let* ok := call (WPublish (archiveTopic r) (firstNonEmpty (ID ev) (provider r)) "callback.received"
                       (rawOrString (Body ev)) ev) in
    match ok with
    | true => dedupe r stamp ev
    | false => Ret (result_ "archive_failed" 500)
    end
  else dedupe r stamp ev.

Definition serve (r : route) (now : Z) (stamp : string) (q : Request) : prog whE Response :=
  if negb (source_allowed r q) then Ret (result_ "bad_source" 403)
  else if max_body r <? slen (q_body q) then Ret (result_ "too_large" 413)
  else
    let ev := event_of r q in
    match verify r now ev (q_query q) with
    | Some _ => Ret (result_ "bad_signature" 401)
    | None => archive r stamp (with_id ev (eventID r ev))
    end.
End Route.

(** ** Hexadecimal signatures *)

Lemma hex_encode_ok (P : ascii → bool) s :
  (∀ n, (n < 16)%nat → P (hex_digit n) = true) → sforall P (hex_encode s) = true.
Proof.
  intros HP. induction s as [|c s IH]; [done|]. cbn [hex_encode].
  change (P (hex_digit (Nat.div (nat_of_ascii c) 16)) &&
    (P (hex_digit (Nat.modulo (nat_of_ascii c) 16)) && sforall P (hex_encode s)) = true).
  pose proof (nat_ascii_bounded c). rewrite !HP, IH; [done|..].
  - apply Nat.mod_upper_bound. lia.
  - apply Nat.Div0.div_lt_upper_bound. lia.
Qed.

Ltac hex_digits := intros n Hn; do 16 (destruct n as [|n]; [reflexivity|]); lia.

Lemma hex_lower s : to_lower (hex_encode s) = hex_encode s.
Proof. apply smap_id, hex_encode_ok. hex_digits. Qed.

Lemma hex_lacks_eq s : lacks "=" (hex_encode s) = true.
Proof. apply hex_encode_ok. hex_digits. Qed.

Lemma hex_no_space s : sforall (λ c, negb (is_space c)) (hex_encode s) = true.
Proof. apply hex_encode_ok. hex_digits. Qed.

Lemma after_last_none sep s : lacks sep s = true → after_last sep s = None.
Proof.
  unfold lacks. induction s as [|c s IH]; [done|].
  change (sforall ?f (String c s)) with (f c && sforall f s). intros [Hc Hs]%andb_prop.
  cbn [after_last]. rewrite IH by done. apply negb_true_iff in Hc. by rewrite Hc.
Qed.

Lemma after_last_app sep a b : lacks sep b = true → after_last sep (a +:+ String sep b) = Some b.
Proof.
  intros Hb. induction a as [|c a IH].
  - change ("" +:+ String sep b) with (String sep b). cbn [after_last].
    by rewrite after_last_none, Ascii.eqb_refl.
  - change (String c a +:+ String sep b) with (String c (a +:+ String sep b)). cbn [after_last]. by rewrite IH.
Qed.
