(* ===== verification/WebhookLaws.v ===== *)
(** * webhookx: what the callback pipeline guarantees

    The view counts the runs of the handler. Redis replies may be lost at any
    point, a Kafka publish may fail, the handler may fail or panic. *)
From S2P Require Import Prelude Prog Redis Edges Webhook.

(** ** The view *)

Record wview : Type := WV { wv_redis : rview; wv_runs : list (Event * bool); wv_archive : list Event }.

Definition succeeded (o : outcome bool) : bool := match o with Returns true => true | _ => false end.

Definition wh_allows (redis : ∀ X, redisE X → rview → rview → X → Prop)
    X (e : whE X) (v v' : wview) (x : X) : Prop :=
  match e in whE X return X → Prop with
  | WRedis e => λ x, redis _ e (wv_redis v) (wv_redis v') x ∧ wv_runs v' = wv_runs v ∧ wv_archive v' = wv_archive v
  | WPublish _ _ _ _ ev => λ ok,
      wv_redis v' = wv_redis v ∧ wv_runs v' = wv_runs v ∧
      (wv_archive v' = (wv_archive v ++ [ev])%list ∨ ok = false ∧ wv_archive v' = wv_archive v)
  | WHandler ev => λ o,
      wv_redis v' = wv_redis v ∧ wv_runs v' = (wv_runs v ++ [(ev, succeeded o)])%list ∧ wv_archive v' = wv_archive v
  end x.

(** Until the TTL: other clients and the handler keep a key that is there. *)
Definition keeps_id (key : string) (v v' : wview) : Prop :=
  wv_runs v' = wv_runs v ∧ wv_archive v' = wv_archive v ∧
  ∀ x, look (wv_redis v) key = Some x → look (wv_redis v') key = Some x.

(** Nothing touches the key between two calls. *)
Definition same_id (key : string) (v v' : wview) : Prop :=
  wv_runs v' = wv_runs v ∧ wv_archive v' = wv_archive v ∧ look (wv_redis v') key = look (wv_redis v) key.

Section Laws.
Context `{NetLib} `{Codecs}.
Implicit Types (r : route) (q : Request) (v : wview) (ev : Event).

(** The checks of a request, all of them before any effect. *)
Definition accepted r (now : Z) q : bool :=
  source_allowed r q && (slen (q_body q) <=? max_body r) &&
  match verify r now (event_of r q) (q_query q) with None => true | Some _ => false end.

Definition the_event r q : Event := with_id (event_of r q) (eventID r (event_of r q)).

Lemma serve_rejected r now stamp q : accepted r now q = false →
  ∃ a, serve r now stamp q = Ret a ∧ r_status a ∈ [403; 413; 401].
Proof.
  unfold accepted, serve. intros Ha. destruct (source_allowed r q); cbn [negb andb] in *.
  2:{ eexists. split; [done|]. left. }
  destruct (Z.ltb_spec (max_body r) (slen (q_body q))).
  { eexists. split; [done|]. right. left. }
  rewrite (proj2 (Z.leb_le _ _)) in Ha by done. cbn [andb] in Ha.
  destruct (verify _ _ _ _); [|done]. eexists. split; [done|]. right. right. left.
Qed.

Lemma serve_accepted r now stamp q : accepted r now q = true →
  serve r now stamp q = archive r stamp (the_event r q).
Proof.
  unfold accepted, serve. intros [[-> Hb]%andb_prop Hv]%andb_prop. cbn [negb].
  apply Z.leb_le in Hb. rewrite (proj2 (Z.ltb_ge _ _)) by done.
  by destruct (verify _ _ _ _).
Qed.

Definition wrefused (a : Response) : Prop :=
  r_status a = 500 ∧ r_result a ∈ ["archive_failed"; "dedupe_unavailable"].

(** ** The archive step changes neither Redis nor the log of runs *)

Lemma wp_archive redis rely r stamp ev Q v :
  (∀ v1 v2, rely v v1 → wv_redis v2 = wv_redis v1 → wv_runs v2 = wv_runs v1 →
     Q (result_ "archive_failed" 500) v2) →
  (∀ v1 v2, rely v v1 → wv_redis v2 = wv_redis v1 → wv_runs v2 = wv_runs v1 →
     wp rely (wh_allows redis) (dedupe r stamp ev) Q v2) →
  (rely v v) →
  wp rely (wh_allows redis) (archive r stamp ev) Q v.
Proof.
  intros Hf Hok Hrefl. unfold archive. destruct (_ && _); [|by apply (Hok v v)].
  apply wp_bind. intros v1 v2 x Hr (Hredis & Hruns & _). destruct x; cbn [wp]; eauto.
Qed.

Lemma keeps_id_refl key v : keeps_id key v v.
Proof. by split_and!. Qed.

(** A present id stops the handler, whatever replies are lost. *)
Lemma held_id_never_runs r stamp ev s v : given (ID ev) = true → redis r = true →
  let key := callback_key r (ID ev) in
  held key s (wv_redis v) →
  wp (keeps_id key) (wh_allows (@redis_allows)) (archive r stamp ev)
    (λ a v', wv_runs v' = wv_runs v ∧ held key s (wv_redis v') ∧ (wrefused a ∨ a = reply r "duplicate")) v.
Proof.
  intros Hid Hr key Hs. apply wp_archive; [| |apply keeps_id_refl].
  - intros v1 v2 (Hr1 & _ & Hk) Hv2 Hr2. split_and!; [congruence| |].
    + unfold held. rewrite Hv2. by apply Hk.
    + left. split; [done|]. left.
  - intros v1 v2 (Hr1 & _ & Hk) Hv2 Hr2. unfold dedupe. rewrite Hid, Hr. cbn [andb]. fold key.
    assert (look (wv_redis v2) key = Some (RStr s)) as Hs2 by (rewrite Hv2; by apply Hk).
    apply wp_bind. intros v3 v4 x (Hr3 & _ & Hk3) (Ha & Hr4 & _). apply Hk3 in Hs2.
    cbn in Ha. rewrite Hs2 in Ha.
    assert (wv_redis v4 = wv_redis v3 ∧ (x = Ok 0 ∨ ∃ e, x = Err e)) as [Hv4 Hx].
    { destruct x as [n|e]; [injection Ha as <- <-; eauto|].
      destruct Ha as [->|[y [= <- _]]]; eauto. }
    assert (held key s (wv_redis v4)) as Hheld by (unfold held; by rewrite Hv4).
    destruct Hx as [->|[e ->]]; cbn; split_and!; try done; try congruence; [by right|].
    left. split; [done|]. right. left.
Qed.

(** One run of the handler at most, and the answer says how it went. *)
Lemma handle_event_spec r ev key redis (rely : wview → wview → Prop) v :
  (∀ w w', rely w w' → wv_runs w' = wv_runs w) →
  wp rely (wh_allows redis) (handle_event r ev key)
    (λ a v', ∃ ok, wv_runs v' = (wv_runs v ++ [(ev, ok)])%list ∧
       a = if (ok : bool) then reply r "ok" else result_ "handler_error" 500) v.
Proof.
  intros Hrely. unfold handle_event, run_handler. do 2 apply wp_bind.
  intros v1 v2 o Hr1 (_ & Hruns & _). apply Hrely in Hr1.
  assert (wp rely (wh_allows redis)
    (if succeeded o then Ret (reply r "ok")
     else if given key then let* _ := wcall (CWrite (WDel key)) in Ret (result_ "handler_error" 500)
     else Ret (result_ "handler_error" 500))
    (λ a v', ∃ ok, wv_runs v' = (wv_runs v ++ [(ev, ok)])%list ∧
       a = if (ok : bool) then reply r "ok" else result_ "handler_error" 500) v2) as Hw.
  { rewrite Hr1 in Hruns. destruct (succeeded o) eqn:Eo; [by exists true|].
    destruct (given key); [|by exists false]. apply wp_bind.
    intros v3 v4 x Hr3 (_ & Hr4 & _). apply Hrely in Hr3. exists false. split; [congruence|done]. }
  destruct o as [[]|]; exact Hw.
Qed.

(** A claimed id stays claimed when the handler succeeds. *)
Lemma success_holds_id r stamp ev v : given (ID ev) = true → redis r = true →
  let key := callback_key r (ID ev) in
  wp (keeps_id key) (wh_allows (@redis_allows)) (archive r stamp ev)
    (λ _ v', wv_runs v' = wv_runs v ∨
       ∃ ok, wv_runs v' = (wv_runs v ++ [(ev, ok)])%list ∧ (ok = true → ∃ s, held key s (wv_redis v'))) v.
Proof.
  intros Hid Hr key. apply wp_archive; [| |apply keeps_id_refl].
  { intros v1 v2 (Hr1 & _) _ Hr2. left. congruence. }
  intros v1 v2 (Hr1 & _) _ Hr2. assert (wv_runs v2 = wv_runs v) as Hv by congruence. rewrite <- Hv.
  clear v v1 Hr1 Hr2 Hv. rename v2 into v. unfold dedupe. rewrite Hid, Hr. cbn [andb]. fold key.
  apply wp_bind. intros v1 v2 x (Hr1 & _) (Ha & Hr2 & _).
  assert (wv_runs v2 = wv_runs v) as Hv by congruence. clear Hr1 Hr2.
  destruct x as [n|e]; cbn [wp]; [|by left].
  destruct (decide (n = 1)) as [->|Hn].
  2:{ destruct n as [|[p|p|]|p]; try done; by left. }
  assert (∃ s, held key s (wv_redis v2)) as [s Hs].
  { cbn in Ha. destruct (look (wv_redis v1) key); [done|]. injection Ha as <-. exists stamp. apply look_put_eq. }
  unfold handle_event, run_handler. do 2 apply wp_bind.
  intros v3 v4 o (Hr3 & _ & Hk) (Hv4 & Hr4 & _). apply Hk in Hs. rewrite Hr3, Hv in Hr4.
  destruct o as [[]|]; cbn [wp succeeded] in *.
  { right. exists true. split; [done|]. exists s. unfold held. by rewrite Hv4. }
  all: destruct (given key); cbn [wp];
    [apply wp_bind; intros v5 v6 y (Hr5 & _) (_ & Hr6 & _)|];
    (right; exists false; split; [congruence|done]).
Qed.

(** C24. A callback is handled at most once: after a run in which the handler
    succeeded, every later callback with the same event id (while Redis keeps
    the id, i.e. within DedupeTTL) leaves the handler alone; it is refused by the
    checks (403, 413, 401), answered 500 so that the provider retries, or
    acknowledged with the route's reply. Lost Redis replies, failing Kafka
    and failing or panicking handlers included. *)
Theorem callback_at_most_once {S} (h : ∀ X, whE X → S → S * X) (view : S → wview)
    `{!Lawful h view (wh_allows (@redis_allows))} r now now' stamp stamp' q q' (env1 env2 : nat → S → S) n1 n2 s s2 :
  let key := callback_key r (ID (the_event r q)) in
  let s1 := fst (run_env h env1 n1 (serve r now stamp q) s) in
  let a2 := snd (run_env h env2 n2 (serve r now' stamp' q') s2) in
  let s3 := fst (run_env h env2 n2 (serve r now' stamp' q') s2) in
  given (ID (the_event r q)) = true → redis r = true → ID (the_event r q') = ID (the_event r q) →
  (∀ m x, keeps_id key (view x) (view (env1 m x))) →
  (∀ m x, keeps_id key (view x) (view (env2 m x))) →
  wv_runs (view s1) = (wv_runs (view s) ++ [(the_event r q, true)])%list →
  keeps_id key (view s1) (view s2) →
  wv_runs (view s3) = wv_runs (view s2) ∧
  (r_status a2 ∈ [403; 413; 401] ∨ wrefused a2 ∨ a2 = reply r "duplicate").
Proof.
  intros key s1 a2 s3 Hid Hr Hsame He1 He2 Hrun (_ & _ & Hk).
  assert (∃ t, held key t (wv_redis (view s1))) as [t Ht].
  { unfold s1 in *. destruct (accepted r now q) eqn:Hacc.
    - rewrite serve_accepted in * by done.
      pose proof (wp_sound _ _ h view env1 _ _ n1 s He1 (success_holds_id r stamp _ (view s) Hid Hr)) as Hw.
      cbn beta in Hw. destruct Hw as [Hw|(ok & Hw & Hheld)].
      + rewrite Hw in Hrun. exfalso. apply (f_equal length) in Hrun. rewrite length_app in Hrun. cbn in Hrun. lia.
      + rewrite Hw in Hrun. apply app_inj_tail in Hrun as [_ Hrun]. simplify_eq. by apply Hheld.
    - destruct (serve_rejected r now stamp q Hacc) as (a & Ha & _). rewrite Ha in Hrun. cbn in Hrun.
      exfalso. apply (f_equal length) in Hrun. rewrite length_app in Hrun. cbn in Hrun. lia. }
  apply Hk in Ht. unfold s3, a2. destruct (accepted r now' q') eqn:Hacc.
  - rewrite serve_accepted by done.
    assert (given (ID (the_event r q')) = true) as Hid' by congruence.
    assert (callback_key r (ID (the_event r q')) = key) as Hkey by (unfold key; congruence).
    rewrite <- Hkey in He2, Ht.
    pose proof (wp_sound _ _ h view env2 _ _ n2 s2 He2 (held_id_never_runs r stamp' _ t (view s2) Hid' Hr Ht)) as Hw. cbn beta in Hw.
    destruct Hw as (Hw1 & _ & Hw2). split; [done|]. by right.
  - destruct (serve_rejected r now' stamp' q' Hacc) as (a & Ha & Hst). rewrite Ha. cbn. split; [done|]. by left.
Qed.

(** ** Who reaches the handler *)

(** The answer of a run, and the runs of the handler it made. *)
Lemma archive_spec r stamp ev redis (rely : wview → wview → Prop) v :
  (∀ w, rely w w) → (∀ w w', rely w w' → wv_runs w' = wv_runs w) →
  wp rely (wh_allows redis) (archive r stamp ev)
    (λ a v',
       (wv_runs v' = wv_runs v ∧
          (wrefused a ∨ a = reply r "duplicate" ∧ given (ID ev) = true ∧ Webhook.redis r = true)) ∨
       ∃ ok, wv_runs v' = (wv_runs v ++ [(ev, ok)])%list ∧
         a = if (ok : bool) then reply r "ok" else result_ "handler_error" 500) v.
Proof.
  intros Hrefl Hrely. apply wp_archive; [| |done].
  { intros v1 v2 Hr1 _ Hr2. left. split; [rewrite Hr2; by apply Hrely|]. left. split; [done|]. left. }
  intros v1 v2 Hr1 _ Hr2. apply Hrely in Hr1. assert (wv_runs v2 = wv_runs v) as Hv by congruence.
  rewrite <- Hv. clear v v1 Hr1 Hr2 Hv. rename v2 into v. unfold dedupe.
  destruct (given (ID ev)) eqn:Hid, (Webhook.redis r) eqn:Hr; cbn [andb].
  2-4: eapply wp_mono, handle_event_spec; [|done]; intros a w (ok & Hw & ->); right; by exists ok.
  apply wp_bind. intros v1 v2 x Hr1 (_ & Hr2 & _). apply Hrely in Hr1.
  assert (wv_runs v2 = wv_runs v) as Hv by congruence. rewrite <- Hv.
  destruct x as [n|e]; cbn [wp].
  2:{ left. split; [done|]. left. split; [done|]. right. left. }
  destruct (decide (n = 1)) as [->|Hn].
  - eapply wp_mono, handle_event_spec; [|done]. intros a w (ok & Hw & ->). right. by exists ok.
  - destruct n as [|[p|p|]|p]; try done; (left; split; [done|]; by right).
Qed.

Lemma handle_verified prov pth providers rdb kfk opts r :
  Handle providers rdb kfk prov pth opts = Ok r →
  ∃ c, providers !! prov = Some c ∧ cfg r = c ∧ Configured c = true ∧ mapM ParseCIDR (AllowCIDRs c) = Some (cidrs r).
Proof.
  unfold Handle. destruct (providers !! prov) as [c|]; [|done]. destruct (Configured c) eqn:Hc; [|done].
  cbn [negb]. cbv zeta. set (r0 := foldl apply_option _ opts).
  assert (cfg r0 = c) as Hr0.
  { unfold r0. match goal with |- cfg (foldl _ ?x _) = _ => assert (cfg x = c) as Hx by reflexivity; revert Hx; generalize x end.
    clear. induction opts as [|o opts IH]; intros x Hx; [done|]. cbn [foldl]. apply IH. by destruct o. }
  rewrite Hr0. destruct (_ && _); [done|]. destruct (mapM ParseCIDR (AllowCIDRs c)) as [nets|] eqn:En; [|done].
  intros [= <-]. exists c. by split_and!.
Qed.

(** C25. Only the provider reaches the handler. Of a route registered from a valid
    configuration, a callback that runs the handler came from an allowed
    network, or carries credentials of the provider: non-empty basic
    credentials, an accepted signature under a secret that is not blank, or the
    acceptance of the integration's own verifier. Every other callback is answered 403,
    413 or 401 with no effect at all on Redis, Kafka or the handler. *)
Theorem only_the_provider_reaches_the_handler providers rdb kfk prov pth opts r redis
    (rely : wview → wview → Prop) now stamp q v :
  Handle providers rdb kfk prov pth opts = Ok r → Webhook.Validate (cfg r) = None →
  (∀ w, rely w w) → (∀ w w', rely w w' → wv_runs w' = wv_runs w) →
  wp rely (wh_allows redis) (serve r now stamp q)
    (λ a v',
       (accepted r now q = false ∧ v' = v ∧ r_status a ∈ [403; 413; 401] ∧ serve r now stamp q = Ret a) ∨
       (accepted r now q = true ∧ (wv_runs v' = wv_runs v ∨
         ∃ ok, wv_runs v' = (wv_runs v ++ [(the_event r q, ok)])%list))) v ∧
  (accepted r now q = true →
     let w := Webhook.Verify (cfg r) in
     (∃ a n, ParseIP (q_client q) = Some a ∧ n ∈ cidrs r ∧ cidr_contains n a = true) ∨
     (Type_ w = "basic" ∧ Username w ≠ "" ∧ Password w ≠ "" ∧
        parseBasic (header_get (q_headers q) "Authorization") = Some (Username w, Password w)) ∨
     (Type_ w = "hmac-sha256" ∧ trim_space (Secret w) ≠ "" ∧
        verify_hmac w now (event_of r q) (q_query q) = None) ∨
     (Type_ w = "custom" ∧ ∃ f, verifier r = Some f ∧ f (event_of r q) = true)).
Proof.
  intros Hh Hv Hrefl Hrely. split.
  { destruct (accepted r now q) eqn:Hacc.
    - rewrite serve_accepted by done. eapply wp_mono, archive_spec; [|done|done].
      intros a w [[Hw _]|(ok & Hw & _)]; right; split; [done|by left|done|right; by exists ok].
    - destruct (serve_rejected r now stamp q Hacc) as (a & Ha & Hst). rewrite Ha. cbn. left. by split_and!. }
  intros Hacc w. destruct (handle_verified _ _ _ _ _ _ _ Hh) as (c & _ & Hc & Hconf & Hnets).
  unfold accepted in Hacc. apply andb_prop in Hacc as [[Hs _]%andb_prop Hver].
  unfold Webhook.Validate in Hv. rewrite Hc, Hconf in Hv. cbn [negb] in Hv.
  destruct (verify_error c) as [e|] eqn:Ee; [done|]. clear Hv. unfold verify_error in Ee.
  unfold verify in Hver. fold w in Hver. rewrite <- Hc in Ee. fold w in Ee.
  destruct (String.eqb_spec (Type_ w) "") as [E1|E1].
  { left. unfold source_allowed in Hs. rewrite Hc in Ee. destruct (AllowCIDRs c) as [|x xs]; [done|].
    destruct (cidrs r) as [|n ns] eqn:En.
    { apply mapM_Some in Hnets. inversion Hnets. }
    destruct (ParseIP (q_client q)) as [a|]; [|done]. unfold in_any in Hs.
    apply existsb_exists in Hs as (m & Hm & Hin). exists a, m. split_and!; [done|by apply list_elem_of_In|done]. }
  right.
  destruct (String.eqb_spec (Type_ w) "hmac-sha256") as [E2|E2].
  { right. left. rewrite E2 in Hver. cbn in Hver. destruct (String.eqb_spec (trim_space (Secret w)) ""); [done|].
    destruct (verify_hmac w now (event_of r q) (q_query q)); done. }
  destruct (String.eqb_spec (Type_ w) "basic") as [E3|E3].
  { left. rewrite E3 in Hver. cbn in Hver.
    destruct (String.eqb_spec (Username w) ""), (String.eqb_spec (Password w) ""); try done.
    destruct (parseBasic _) as [[u p]|]; [|done].
    destruct (String.eqb_spec u (Username w)), (String.eqb_spec p (Password w)); try done. subst. done. }
  destruct (String.eqb_spec (Type_ w) "custom") as [E4|E4]; [|done].
  right. right. split; [done|]. destruct (verifier r) as [f|]; [|done]. exists f.
  by destruct (f (event_of r q)).
Qed.

(** ** A redelivery, on a store without faults *)

Definition archive_failed (a : Response) : Prop := a = result_ "archive_failed" 500.

Lemma same_id_refl key v : same_id key v v.
Proof. by split_and!. Qed.

Lemma first_delivery r now stamp q v :
  let ev := the_event r q in
  let key := callback_key r (ID ev) in
  accepted r now q = true → given (ID ev) = true → redis r = true →
  look (wv_redis v) key = None →
  wp (same_id key) (wh_allows (@redis_up)) (serve r now stamp q)
    (λ a v', (archive_failed a ∧ wv_runs v' = wv_runs v ∧ look (wv_redis v') key = None) ∨
       ∃ ok, wv_runs v' = (wv_runs v ++ [(ev, ok)])%list ∧
         a = (if (ok : bool) then reply r "ok" else result_ "handler_error" 500) ∧
         look (wv_redis v') key = if ok then Some (RStr stamp) else None) v.
Proof.
  intros ev key Hacc Hid Hr Hfree. rewrite serve_accepted by done. fold ev.
  apply wp_archive; [| |apply same_id_refl].
  { intros v1 v2 (Hr1 & _ & Hk1) Hv2 Hr2. left. split_and!; [done|congruence|]. by rewrite Hv2, Hk1. }
  intros v1 v2 (Hr1 & _ & Hk1) Hv2 Hr2. assert (wv_runs v2 = wv_runs v) as Hv by congruence.
  assert (look (wv_redis v2) key = None) as Hfree2 by (by rewrite Hv2, Hk1).
  unfold dedupe. rewrite Hid, Hr. cbn [andb]. fold key. apply wp_bind.
  intros v3 v4 x (Hr3 & _ & Hk3) (Ha & Hr4 & _). cbn in Ha. rewrite Hk3, Hfree2 in Ha.
  destruct Ha as [Hv4 ->]. cbn [wp].
  assert (look (wv_redis v4) key = Some (RStr stamp)) as Hs by (rewrite Hv4; apply look_put_eq).
  unfold handle_event, run_handler. do 2 apply wp_bind.
  intros v5 v6 o (Hr5 & _ & Hk5) (Hv6 & Hr6 & _). rewrite <- Hk5, <- Hv6 in Hs.
  assert (wv_runs v6 = (wv_runs v ++ [(ev, succeeded o)])%list) as Hruns by congruence.
  destruct o as [[]|]; cbn [wp succeeded] in *.
  { right. exists true. by split_and!. }
  all: change (given key) with true; cbn [wp]; apply wp_bind;
    intros v7 v8 y (Hr7 & _ & Hk7) (Hd & Hr8 & _); cbn in Hd; rewrite Hk7, Hs in Hd;
    destruct Hd as [Hd _]; right; exists false; split_and!; [congruence|done|rewrite Hd; apply look_drop_eq].
Qed.

Lemma repeated_delivery r now stamp q s v :
  let ev := the_event r q in
  let key := callback_key r (ID ev) in
  accepted r now q = true → given (ID ev) = true → redis r = true →
  held key s (wv_redis v) →
  wp (same_id key) (wh_allows (@redis_up)) (serve r now stamp q)
    (λ a v', wv_runs v' = wv_runs v ∧ (archive_failed a ∨ a = reply r "duplicate")) v.
Proof.
  intros ev key Hacc Hid Hr Hs. unfold held in Hs. rewrite serve_accepted by done. fold ev.
  apply wp_archive; [| |apply same_id_refl].
  { intros v1 v2 (Hr1 & _) _ Hr2. split; [congruence|by left]. }
  intros v1 v2 (Hr1 & _ & Hk1) Hv2 Hr2. unfold dedupe. rewrite Hid, Hr. cbn [andb]. fold key.
  apply wp_bind. intros v3 v4 x (Hr3 & _ & Hk3) (Ha & Hr4 & _). cbn in Ha.
  rewrite Hk3, Hv2, Hk1, Hs in Ha. destruct Ha as [_ ->]. cbn. split; [congruence|by right].
Qed.

(** The redelivery contract. When the provider delivers an event twice: if
    the handler took it the first time, the second delivery is acknowledged
    without running anything; if the handler failed or panicked, the first
    answer is 500 and the second delivery runs the handler again. *)
Theorem redelivery_contract r now1 now2 stamp1 stamp2 q v :
  let ev := the_event r q in
  accepted r now1 q = true → accepted r now2 q = true →
  given (ID ev) = true → redis r = true →
  look (wv_redis v) (callback_key r (ID ev)) = None →
  wp (same_id (callback_key r (ID ev))) (wh_allows (@redis_up))
    (let* a1 := serve r now1 stamp1 q in let* a2 := serve r now2 stamp2 q in Ret (a1, a2))
    (λ a v', archive_failed (fst a) ∨
       (fst a = reply r "ok" ∧ wv_runs v' = (wv_runs v ++ [(ev, true)])%list ∧
          (archive_failed (snd a) ∨ snd a = reply r "duplicate")) ∨
       (fst a = result_ "handler_error" 500 ∧
          (archive_failed (snd a) ∨ ∃ ok, wv_runs v' = (wv_runs v ++ [(ev, false); (ev, ok)])%list))) v.
Proof.
  intros ev Ha1 Ha2 Hid Hr Hfree. apply wp_bind. eapply wp_mono, first_delivery; [|done..].
  intros a1 w [(Hf & _)|(ok & Hruns & -> & Hlook)].
  { apply wp_bind. eapply wp_mono, wp_true. intros a2 w2 _. by left. }
  apply wp_bind. destruct ok.
  - eapply wp_mono, repeated_delivery; [|done..]. intros a2 w2 [Hr2 Hans]. right. left. cbn.
    split_and!; [done|by rewrite Hr2|done].
  - eapply wp_mono, first_delivery; [|done..].
    intros a2 w2 [(Hf & _)|(ok & Hruns2 & _)]; right; right; (split; [done|]); [by left|].
    right. exists ok. by rewrite Hruns2, Hruns, <- app_assoc.
Qed.

(** ** The signed text *)

(** A template: literal text, and the names the package documents. *)
Inductive piece : Type := Lit (s : string) | PMethod | PPath | PQuery | PTimestamp | PBody | PNewline.

Definition piece_text (p : piece) : string :=
  match p with
  | Lit s => s | PMethod => "{method}" | PPath => "{path}" | PQuery => "{query}"
  | PTimestamp => "{timestamp}" | PBody => "{body}" | PNewline => "\n"
  end.

Definition piece_value (ev : Event) (query ts : string) (p : piece) : string :=
  match p with
  | Lit s => s | PMethod => Method ev | PPath => Path ev | PQuery => query
  | PTimestamp => ts | PBody => Body ev | PNewline => newline
  end.

Definition literal_ok (p : piece) : bool :=
  match p with Lit s => lacks "{" s && lacks "\" s | _ => true end.

Fixpoint sconcat (l : list string) : string :=
  match l with [] => "" | s :: l => s +:+ sconcat l end.

Definition template (ps : list piece) : string := sconcat (piece_text <$> ps).
Definition rendered (ev : Event) (query ts : string) (ps : list piece) : string :=
  sconcat (piece_value ev query ts <$> ps).

Lemma first_match_plain ev query ts c s : c ≠ "{"%char → c ≠ "\"%char →
  first_match (replacements ev query ts) (String c s) = None.
Proof.
  intros H1 H2. apply Ascii.eqb_neq in H1, H2. rewrite Ascii.eqb_sym in H1, H2.
  unfold replacements. cbn -[Ascii.eqb]. by rewrite H1, H2.
Qed.

Lemma slen_app a b : String.length (a +:+ b) = (String.length a + String.length b)%nat.
Proof. induction a as [|c a IH]; [done|]. exact (f_equal S IH). Qed.

Lemma replace_literal ev query ts l : lacks "{" l = true → lacks "\" l = true → ∀ fuel s,
  (String.length (l +:+ s) ≤ fuel)%nat → ∃ fuel', (String.length s ≤ fuel')%nat ∧
  replace_all fuel (replacements ev query ts) (l +:+ s) = l +:+ replace_all fuel' (replacements ev query ts) s.
Proof.
  unfold lacks. induction l as [|c l IH]; intros H1 H2 fuel s Hf; [by exists fuel|].
  change (sforall ?f (String c l)) with (f c && sforall f l) in H1, H2.
  apply andb_prop in H1 as [Hc1 H1], H2 as [Hc2 H2].
  change (String c l +:+ s) with (String c (l +:+ s)) in *. cbn in Hf.
  destruct fuel as [|fuel]; [lia|]. cbn [replace_all]. rewrite first_match_plain.
  - destruct (IH H1 H2 fuel s) as (fuel' & Hl & ->); [lia|]. by exists fuel'.
  - intros ->. by rewrite Ascii.eqb_refl in Hc1.
  - intros ->. by rewrite Ascii.eqb_refl in Hc2.
Qed.

Lemma replace_name ev query ts p s fuel : match p with Lit _ => False | _ => True end →
  (String.length (piece_text p +:+ s) ≤ fuel)%nat → ∃ fuel', (String.length s ≤ fuel')%nat ∧
  replace_all fuel (replacements ev query ts) (piece_text p +:+ s)
    = piece_value ev query ts p +:+ replace_all fuel' (replacements ev query ts) s.
Proof.
  intros Hp Hf. rewrite slen_app in Hf.
  destruct fuel as [|fuel]; [destruct p; cbn in Hf; try lia; done|].
  exists fuel. split; [destruct p; cbn in Hf; try lia; done|].
  destruct p; try done; reflexivity.
Qed.

Lemma render_pieces ev query ts ps : forallb literal_ok ps = true → ∀ fuel,
  (String.length (template ps) ≤ fuel)%nat →
  replace_all fuel (replacements ev query ts) (template ps) = rendered ev query ts ps.
Proof.
  induction ps as [|p ps IH]; intros Hok fuel Hf; [by destruct fuel|].
  cbn in Hok. apply andb_prop in Hok as [Hp Hok].
  change (template (p :: ps)) with (piece_text p +:+ template ps) in *.
  change (rendered ev query ts (p :: ps)) with (piece_value ev query ts p +:+ rendered ev query ts ps).
  assert (∃ fuel', (String.length (template ps) ≤ fuel')%nat ∧
    replace_all fuel (replacements ev query ts) (piece_text p +:+ template ps)
    = piece_value ev query ts p +:+ replace_all fuel' (replacements ev query ts) (template ps))
    as (fuel' & Hl & ->).
  { destruct p as [s| | | | | |]; [|by apply replace_name..]. cbn in Hp.
    apply andb_prop in Hp as [H1 H2]. by apply replace_literal. }
  by rewrite IH.
Qed.

(** The signature covers the whole text of the template, and nothing in the
    request can add to it: the signed text is the template with each name
    replaced by its value once, values being copied byte for byte even when they
    contain "{path}". With a hexadecimal encoding, a callback that carries the MAC of
    that text, alone or behind a scheme such as "sha256=", is accepted; and one that
    is accepted carries, up to case, that very MAC, with a timestamp (when the
    template has one) at most MaxSkew away. *)
Theorem hmac_signs_the_rendered_text ver now ev query ps :
  or_string (Payload ver) "{body}" = template ps → forallb literal_ok ps = true →
  String.eqb (Encoding ver) "base64" = false →
  let got := trim_space (header_get (Headers ev) (or_string (Header ver) "X-Signature")) in
  let mac ts := hex_encode (hmac_sha256 (Secret ver) (rendered ev query ts ps)) in
  (∀ ts scheme, checked_timestamp ver now (template ps) ev = Ok ts →
     got = mac ts ∧ mac ts ≠ "" ∨ got = scheme +:+ "=" +:+ mac ts →
     verify_hmac ver now ev query = None) ∧
  (verify_hmac ver now ev query = None → ∃ ts,
     to_lower (presented_signature ver got) = mac ts ∧
     (contains "{timestamp}" (template ps) = true → ∃ sec, parse_int ts = Some sec ∧
        skew now sec ≤ or_default (MaxSkew ver) defaultMaxSkew)).
Proof.
  intros Hps Hlit Henc got mac.
  assert (∀ ts, expected_signature ver (signed_payload (template ps) ev query ts) = mac ts) as Hexp.
  { intros ts. unfold expected_signature, signed_payload. rewrite Henc, render_pieces by done. done. }
  unfold verify_hmac. fold got. rewrite Hps. split.
  - intros ts scheme Hts Hgot. rewrite Hts, Hexp.
    assert (String.eqb got "" = false ∧ presented_signature ver got = mac ts) as [-> ->].
    { unfold presented_signature. destruct Hgot as [[-> Hne]| ->].
      - rewrite after_last_none by apply hex_lacks_eq. split; [by apply String.eqb_neq|done].
      - change (scheme +:+ "=" +:+ mac ts) with (scheme +:+ String "=" (mac ts)).
        rewrite after_last_app by apply hex_lacks_eq. rewrite Henc. split; [|done].
        apply String.eqb_neq. by destruct scheme. }
    by rewrite String.eqb_refl.
  - destruct (String.eqb got ""); [done|].
    destruct (checked_timestamp ver now (template ps) ev) as [ts|] eqn:Hts; [|done].
    rewrite Hexp. destruct (String.eqb_spec (to_lower (presented_signature ver got)) (to_lower (mac ts))) as [E|]; [|done].
    intros _. exists ts. split; [rewrite E; apply hex_lower|]. intros Hc. unfold checked_timestamp in Hts.
    rewrite Hc in Hts. destruct (parse_int _) as [sec|] eqn:Hp; [|done].
    destruct (Z.ltb_spec (or_default (MaxSkew ver) defaultMaxSkew) (skew now sec)); [done|].
    injection Hts as <-. by exists sec.
Qed.

(** Finding: a base64 signature is compared without regard to case, though
    base64 is case-sensitive: a signature whose letters differ in case from the MAC's
    is accepted. *)
Theorem base64_signature_ignores_case ver now ev query ts got :
  Encoding ver = "base64" →
  let payload := or_string (Payload ver) "{body}" in
  let mac := b64_encode (hmac_sha256 (Secret ver) (signed_payload payload ev query ts)) in
  checked_timestamp ver now payload ev = Ok ts →
  trim_space (header_get (Headers ev) (or_string (Header ver) "X-Signature")) = got →
  got ≠ "" → to_lower got = to_lower mac →
  verify_hmac ver now ev query = None.
Proof.
  intros He payload mac Hts Hgot Hne Hlow. unfold verify_hmac. rewrite Hgot.
  rewrite (proj2 (String.eqb_neq _ _)) by done. fold payload. rewrite Hts.
  assert (presented_signature ver got = got) as ->.
  { unfold presented_signature. rewrite He. by destruct (after_last _ _). }
  assert (expected_signature ver (signed_payload payload ev query ts) = mac) as ->.
  { unfold expected_signature. by rewrite He. }
  by rewrite Hlow, String.eqb_refl.
Qed.
End Laws.

(** ** A concrete world: Redis with faults, Kafka, a script of handler outcomes *)

Record map_wh_state : Type := MW {
  mw_redis : map_redis_state; mw_kafka : list bool; mw_script : list (outcome bool);
  mw_runs : list (Event * bool); mw_archive : list Event }.

Definition map_wh X (e : whE X) (s : map_wh_state) : map_wh_state * X :=
  match e in whE X return map_wh_state * X with
  | WRedis e =>
      let '(r, x) := map_redis e (mw_redis s) in
      (MW r (mw_kafka s) (mw_script s) (mw_runs s) (mw_archive s), x)
  | WPublish _ _ _ _ ev =>
      let ok := default true (head (mw_kafka s)) in
      (MW (mw_redis s) (tail (mw_kafka s)) (mw_script s) (mw_runs s)
         (if ok then mw_archive s ++ [ev] else mw_archive s)%list, ok)
  | WHandler ev =>
      let o := default (Returns true) (head (mw_script s)) in
      (MW (mw_redis s) (mw_kafka s) (tail (mw_script s)) (mw_runs s ++ [(ev, succeeded o)])%list (mw_archive s), o)
  end.

Definition mw_view (s : map_wh_state) : wview := WV (mr_view (mw_redis s)) (mw_runs s) (mw_archive s).

#[export] Instance map_wh_lawful : Lawful map_wh mw_view (wh_allows (@redis_allows)).
Proof.
  intros X e s. destruct e as [Y e|topic key ty raw ev|ev]; cbn.
  - pose proof (map_redis_lawful Y e (mw_redis s)) as H.
    destruct (map_redis e (mw_redis s)) as [r x]. cbn in *. by split_and!.
  - destruct (default true (head (mw_kafka s))); split_and!; try done; [by left|by right].
  - done.
Qed.

(** A toy MAC and codecs that keep what the theorems use. *)
#[export] Instance sample_codecs : Codecs := {|
  hmac_sha256 k m := k +:+ ":" +:+ m; b64_encode s := s; b64_decode s := Some s;
  json_decode s := Some (JObj [("id", JStr s)]); json_valid _ := true; json_string s := s |}.

Definition sample_verify : CallbackVerify := {|
  Type_ := "hmac-sha256"; Secret := "k"; Header := ""; Payload := "{timestamp}.{body}"; Encoding := "";
  TimestampHeader := ""; MaxSkew := 0; Username := ""; Password := "" |}.

Definition sample_callback : Callback := {|
  Verify := sample_verify; AllowCIDRs := ["1.2.0.0"];
  EventID := {| ev_header := ""; ev_json := "id" |}; DedupeTTL := 0; ArchiveTopic := ""; MaxBody := 0 |}.

Definition sample_route : route := {|
  provider := "pay"; path := "/cb"; cfg := sample_callback; verifier := None; redis := true; kafka := true;
  replyStatus := 200; replyType := "text/plain"; replyBody := "ok"; cidrs := ["1.2."] |}.

Definition sample_callback_request : Request := {|
  q_client := "1.2.3.4"; q_method := "POST"; q_path := "/cb"; q_query := "";
  q_headers := [("x-timestamp", "1000"); ("x-signature", "sha256=" +:+ hex_encode "k:1000.evt-{path}")];
  q_body := "evt-{path}" |}.

Lemma sample_route_ok :
  Handle {[ "pay" := sample_callback ]} true true "pay" "/cb" [] = Ok sample_route.
Proof. vm_compute. reflexivity. Qed.

(** A minute after the signature. *)
Lemma sample_accepted : accepted sample_route (1060 * second) sample_callback_request = true.
Proof. vm_compute. reflexivity. Qed.

Definition sample_world (fs : list fault) (script : list (outcome bool)) : map_wh_state :=
  MW (empty_redis fs) [] script [] [].

Definition serve_sample : prog whE Response :=
  serve sample_route (1060 * second) "t" sample_callback_request.

(** The SETNX reply of the second delivery is lost. *)
Lemma callback_at_most_once_witness :
  let s1 := fst (run map_wh serve_sample (sample_world [Fine; LostAfter] [])) in
  mw_runs s1 = mw_runs (fst (run map_wh serve_sample s1)) ∧
  r_result (snd (run map_wh serve_sample s1)) = "dedupe_unavailable".
Proof.
  cbv zeta. split; [|vm_compute; reflexivity].
  edestruct (callback_at_most_once map_wh mw_view sample_route (1060 * second) (1060 * second) "t" "t"
    sample_callback_request sample_callback_request (λ _ s, s) (λ _ s, s) 0 0 (sample_world [Fine; LostAfter] [])
    (fst (run map_wh serve_sample (sample_world [Fine; LostAfter] [])))) as [Hr _].
  - vm_compute. reflexivity.
  - reflexivity.
  - reflexivity.
  - intros m x. apply keeps_id_refl.
  - intros m x. apply keeps_id_refl.
  - vm_compute. reflexivity.
  - apply keeps_id_refl.
  - symmetry. exact Hr.
Defined.

Lemma only_the_provider_witness :
  ∃ a n, @ParseIP sample_net (q_client sample_callback_request) = Some a ∧ n ∈ cidrs sample_route ∨
    trim_space (Secret sample_verify) ≠ "".
Proof.
  destruct (only_the_provider_reaches_the_handler {[ "pay" := sample_callback ]} true true "pay" "/cb" []
    sample_route (@redis_allows) (=) (1060 * second) "t" sample_callback_request (WV (RView 0 ∅) [] [])
    sample_route_ok eq_refl (λ _, eq_refl) ltac:(by intros ? ? ->)) as [_ Hh].
  destruct (Hh sample_accepted) as [(a & n & Hp & Hn & _)|[(Ht & _)|[(_ & Hs & _)|(Ht & _)]]].
  - exists a, n. by left.
  - discriminate Ht.
  - exists "1.2.", "1.2.". by right.
  - discriminate Ht.
Defined.

Lemma redelivery_witness :
  wp (same_id (callback_key sample_route (ID (the_event sample_route sample_callback_request))))
    (wh_allows (@redis_up))
    (let* a1 := serve sample_route (1060 * second) "t" sample_callback_request in
     let* a2 := serve sample_route (1060 * second) "t" sample_callback_request in Ret (a1, a2))
    (λ a v', r_status (fst a) = 200 → r_status (snd a) = 200 ∨ r_status (snd a) = 500)
    (WV (RView 0 ∅) [] []).
Proof.
  eapply wp_mono; [|apply (redelivery_contract sample_route (1060 * second) (1060 * second) "t" "t"
    sample_callback_request (WV (RView 0 ∅) [] []) sample_accepted sample_accepted)].
  - intros a v' [Hf|[(H1 & _ & [Hf|H2])|(H1 & _)]] H200.
    + by rewrite Hf in H200.
    + right. by rewrite Hf.
    + left. by rewrite H2.
    + by rewrite H1 in H200.
  - vm_compute. reflexivity.
  - reflexivity.
  - vm_compute. reflexivity.
Defined.

Lemma hmac_witness :
  verify_hmac sample_verify (1060 * second) (event_of sample_route sample_callback_request) "" = None.
Proof.
  destruct (hmac_signs_the_rendered_text sample_verify (1060 * second)
    (event_of sample_route sample_callback_request) "" [PTimestamp; Lit "."; PBody]
    eq_refl eq_refl eq_refl) as [Hok _].
  apply (Hok "1000" "sha256"); [vm_compute; reflexivity|]. right. vm_compute. reflexivity.
Defined.

(** Finding: the claim on an event id is given back by one DEL whose error is
    ignored. When that DEL is lost the event is acknowledged as already handled
    on every redelivery, although the handler has only ever failed: the
    provider stops retrying and the event is lost, for DedupeTTL. *)
Theorem lost_delete_swallows_the_event :
  let w := sample_world [Fine; LostBefore] [Returns false] in
  let '(s1, a1) := run map_wh serve_sample w in
  let '(s2, a2) := run map_wh serve_sample s1 in
  r_status a1 = 500 ∧ a2 = reply sample_route "duplicate" ∧ r_status a2 = 200 ∧ map snd (mw_runs s2) = [false].
Proof. vm_compute. split_and!; reflexivity. Qed.
