(* ===== verification/Outbox.v ===== *)
(** * kafkax: the transactional outbox (kafkax/outbox.go)

    The operations of the relay on rows, one round as a function ([relayOnce])
    and all processes of a service on one database as a step relation
    ([outbox_step]): transactions that queue events and commit or roll back,
    rounds of several replicas that lock rows (SKIP LOCKED), produce them one by
    one and commit or die at any point, and the cleanup. MySQL's row locks and
    transactions are the shape of the steps; the broker may have written a record
    whose produce came back as an error. *)
From S2P Require Import Prelude.

Definition ms_second : Z := 1000.
Definition ms_hour : Z := 3600 * ms_second.

Definition or_dur (d def : Z) : Z := if Z.eqb d 0 then def else d.

Record OutboxConfig : Type := {
  Enabled : option bool; PollInterval : Z; Batch : Z; Retention : Z; PublishTimeout : Z }.

Definition enabled (c : OutboxConfig) : bool := match Enabled c with None => true | Some b => b end.
Definition EnabledOrDefault (c : OutboxConfig) : bool := enabled c.
Definition interval (c : OutboxConfig) : Z := or_dur (PollInterval c) 500.
Definition batch (c : OutboxConfig) : Z := if Batch c <=? 0 then 100 else Batch c.
Definition retention (c : OutboxConfig) : Z := or_dur (Retention c) (168 * ms_hour).
Definition publishTimeout (c : OutboxConfig) : Z := or_dur (PublishTimeout c) (10 * ms_second).

(** The wait before the next try, milliseconds. *)
Definition backoff (attempts : Z) : Z :=
  let d := Z.shiftl ms_second (Z.min attempts 10) in
  if 300 * ms_second <? d then 300 * ms_second else d.

Record OutboxRow : Type := Row {
  ID : Z; Service : string; EventID : string; Topic : string; Key : string; EventType : string;
  Payload : string; Trace : string; CreatedAt : Z; SentAt : option Z; Attempts : Z; NextAttemptAt : Z;
  LastError : string }.

(** What PublishTx inserts; [id] is the table's AUTO_INCREMENT value. *)
Definition queued_row (id : Z) (service event_id topic key event_type payload trace : string) (now : Z) : OutboxRow :=
  {| ID := id; Service := service; EventID := event_id; Topic := topic; Key := key; EventType := event_type;
     Payload := payload; Trace := trace; CreatedAt := now; SentAt := None; Attempts := 0; NextAttemptAt := now;
     LastError := "" |}.

(** The record of a row on the bus: where, under which key, which event. *)
Record bus_record : Type := Rec {
  b_topic : string; b_key : string; b_event : string; b_type : string; b_data : string; b_time : Z; b_outbox : Z }.

(** produceRow, up to the call of the producer *)
Definition produceRow (r : OutboxRow) : bus_record :=
  {| b_topic := Topic r; b_key := Key r; b_event := EventID r; b_type := EventType r; b_data := Payload r;
     b_time := CreatedAt r; b_outbox := ID r |}.

Definition unsent (r : OutboxRow) : bool := match SentAt r with None => true | Some _ => false end.

(** The WHERE of a round. *)
Definition eligible (service : string) (now : Z) (r : OutboxRow) : bool :=
  String.eqb (Service r) service && unsent r && (NextAttemptAt r <=? now).

(** The rows of a round; the table is in id order, [locked] rows are skipped. *)
Definition takes (service : string) (now : Z) (batch : nat) (locked : OutboxRow → bool) (t : list OutboxRow) :
    list OutboxRow :=
  take batch (List.filter (λ r, eligible service now r && negb (locked r)) t).

Definition sent_row (now : Z) (r : OutboxRow) : OutboxRow :=
  {| ID := ID r; Service := Service r; EventID := EventID r; Topic := Topic r; Key := Key r;
     EventType := EventType r; Payload := Payload r; Trace := Trace r; CreatedAt := CreatedAt r;
     SentAt := Some now; Attempts := Attempts r + 1; NextAttemptAt := NextAttemptAt r; LastError := "" |}.

Definition failed_row (now : Z) (err : string) (r : OutboxRow) : OutboxRow :=
  {| ID := ID r; Service := Service r; EventID := EventID r; Topic := Topic r; Key := Key r;
     EventType := EventType r; Payload := Payload r; Trace := Trace r; CreatedAt := CreatedAt r;
     SentAt := SentAt r; Attempts := Attempts r + 1; NextAttemptAt := now + backoff (Attempts r + 1);
     LastError := substring 0 500 err |}.

(** One row of a round: [None] is an acknowledged produce. *)
Definition relayed (now : Z) (res : option string) (r : OutboxRow) : OutboxRow :=
  match res with None => sent_row now r | Some err => failed_row now err r end.

(** UPDATE ... WHERE id = ? *)
Definition write_row (r : OutboxRow) (t : list OutboxRow) : list OutboxRow :=
  (λ x, if Z.eqb (ID x) (ID r) then r else x) <$> t.

(** A round without interference, [produce] being the producer: the table, the
    records acknowledged, and how many rows it looked at. *)
Definition relayOnce (service : string) (now : Z) (batch : nat) (produce : bus_record → option string)
    (t : list OutboxRow) : list OutboxRow * list bus_record * nat :=
  let rows := takes service now batch (λ _, false) t in
  (foldr write_row t ((λ r, relayed now (produce (produceRow r)) r) <$> rows),
   produceRow <$> List.filter (λ r, match produce (produceRow r) with None => true | _ => false end) rows,
   length rows).

(** The inner loop of StartOutbox: rounds until one is not full; [None]: the loop did not end
    within [fuel] rounds. *)
Fixpoint relay_rounds (fuel : nat) (service : string) (now : Z) (batch : nat) (produce : bus_record → option string)
    (t : list OutboxRow) : option (list OutboxRow * list bus_record) :=
  match fuel with
  | O => None
  | S fuel =>
      let '(t', out, n) := relayOnce service now batch produce t in
      if Nat.ltb n batch then Some (t', out)
      else match relay_rounds fuel service now batch produce t' with
           | Some (t'', out') => Some (t'', out ++ out')%list
           | None => None
           end
  end.

(** cleanupOutbox *)
Definition removable (now retention : Z) (r : OutboxRow) : bool :=
  match SentAt r with Some s => s <? now - retention | None => false end.

(** observeOutbox and unownedOutboxRows *)
Definition pending_rows (service : string) (t : list OutboxRow) : list OutboxRow :=
  List.filter (λ r, String.eqb (Service r) service && unsent r) t.
Definition unownedOutboxRows (t : list OutboxRow) : Z := Z.of_nat (length (pending_rows "" t)).

(** ** All processes on one table *)

(** A round in progress: the rows still to produce, and the updates its
    transaction holds. *)
Record round : Type := Round { r_todo : list OutboxRow; r_writes : list OutboxRow }.

Definition held_ids (r : round) : list Z := (ID <$> r_todo r) ++ (ID <$> r_writes r).

Record outbox_world : Type := OW {
  ow_table : list OutboxRow;
  ow_bus : list bus_record;
  ow_rounds : list round;
  ow_txs : list (list OutboxRow);       (* the rows of open transactions *)
  ow_next : Z;                          (* AUTO_INCREMENT *)
  ow_committed : list OutboxRow;        (* history: every row that was ever committed *)
  ow_rolled_back : list OutboxRow }.    (* history: every row that was rolled back *)

Definition locked_by (rounds : list round) (r : OutboxRow) : bool :=
  existsb (λ q, existsb (Z.eqb (ID r)) (held_ids q)) rounds.

(** Rows committed by several transactions show in id order. *)
Fixpoint insert_row (r : OutboxRow) (t : list OutboxRow) : list OutboxRow :=
  match t with
  | [] => [r]
  | x :: t' => if ID r <? ID x then r :: t else x :: insert_row r t'
  end.

Inductive outbox_step : outbox_world → outbox_world → Prop :=
| step_begin w :
    outbox_step w (OW (ow_table w) (ow_bus w) (ow_rounds w) (ow_txs w ++ [[]])%list (ow_next w)
      (ow_committed w) (ow_rolled_back w))
| step_publish w before rows after_ service e topic key ty payload trace now :
    ow_txs w = (before ++ rows :: after_)%list →
    outbox_step w (OW (ow_table w) (ow_bus w) (ow_rounds w)
      (before ++ (rows ++ [queued_row (ow_next w) service e topic key ty payload trace now]) :: after_)%list
      (ow_next w + 1) (ow_committed w) (ow_rolled_back w))
| step_commit w before rows after_ :
    ow_txs w = (before ++ rows :: after_)%list →
    outbox_step w (OW (foldr insert_row (ow_table w) rows) (ow_bus w) (ow_rounds w) (before ++ after_)%list
      (ow_next w) (ow_committed w ++ rows)%list (ow_rolled_back w))
| step_rollback w before rows after_ :
    ow_txs w = (before ++ rows :: after_)%list →
    outbox_step w (OW (ow_table w) (ow_bus w) (ow_rounds w) (before ++ after_)%list
      (ow_next w) (ow_committed w) (ow_rolled_back w ++ rows)%list)
| step_take w service now n :
    outbox_step w (OW (ow_table w) (ow_bus w)
      (ow_rounds w ++ [Round (takes service now n (locked_by (ow_rounds w)) (ow_table w)) []])%list
      (ow_txs w) (ow_next w) (ow_committed w) (ow_rolled_back w))
| step_produce w before r todo writes after_ now res written :
    ow_rounds w = (before ++ Round (r :: todo) writes :: after_)%list →
    (* an acknowledged record is on the bus, an error says nothing *)
    (res = None → written = true) →
    outbox_step w (OW (ow_table w) (if (written : bool) then ow_bus w ++ [produceRow r] else ow_bus w)%list
      (before ++ Round todo (writes ++ [relayed now res r]) :: after_)%list
      (ow_txs w) (ow_next w) (ow_committed w) (ow_rolled_back w))
| step_round_commit w before writes after_ :
    ow_rounds w = (before ++ Round [] writes :: after_)%list →
    outbox_step w (OW (foldr write_row (ow_table w) writes) (ow_bus w) (before ++ after_)%list
      (ow_txs w) (ow_next w) (ow_committed w) (ow_rolled_back w))
| step_round_dies w before q after_ :
    (* a database error, a crash, a shutdown: nothing of the transaction stays *)
    ow_rounds w = (before ++ q :: after_)%list →
    outbox_step w (OW (ow_table w) (ow_bus w) (before ++ after_)%list
      (ow_txs w) (ow_next w) (ow_committed w) (ow_rolled_back w))
| step_cleanup w now ret keep :
    (* LIMIT 10000: any part of the removable rows nobody holds *)
    (∀ r, r ∈ ow_table w → keep r = false → removable now ret r = true ∧ locked_by (ow_rounds w) r = false) →
    outbox_step w (OW (List.filter keep (ow_table w)) (ow_bus w) (ow_rounds w)
      (ow_txs w) (ow_next w) (ow_committed w) (ow_rolled_back w)).

Inductive outbox_reachable : outbox_world → Prop :=
| reach_init : outbox_reachable (OW [] [] [] [] 1 [] [])
| reach_step w w' : outbox_reachable w → outbox_step w w' → outbox_reachable w'.
