(* ===== verification/OutboxLaws.v ===== *)
(** * kafkax: what the outbox guarantees

    The invariant of the step relation, delivery of exactly what was committed,
    and the functional behaviour of rounds. *)
From S2P Require Import Prelude Outbox.
#[local] Open Scope list_scope.
#[local] Open Scope Z_scope.

Implicit Types (r x c : OutboxRow) (t : list OutboxRow) (w : outbox_world) (q : round).

(** Two versions of one row: what is delivered is the same. *)
Definition same_event r c : Prop := produceRow r = produceRow c ∧ Service r = Service c.

#[export] Instance same_event_equiv : Equivalence same_event.
Proof.
  split; unfold same_event.
  - done.
  - intros r c [H1 H2]. done.
  - intros r c d [H1 H2] [H3 H4]. split; congruence.
Qed.

Lemma same_event_id r c : same_event r c → ID r = ID c.
Proof. intros [H _]. exact (f_equal b_outbox H). Qed.

Lemma relayed_same now res r : same_event (relayed now res r) r.
Proof. by destruct res. Qed.

Lemma relayed_unsent now res r : unsent r = true → SentAt (relayed now res r) ≠ None → res = None.
Proof. destruct res; [|done]. unfold unsent. cbn. by destruct (SentAt r). Qed.

Lemma elem_of_filter_bool {A} (p : A → bool) (l : list A) a : a ∈ List.filter p l ↔ a ∈ l ∧ p a = true.
Proof. rewrite !list_elem_of_In. apply filter_In. Qed.

Lemma takes_spec service now n locked t r : r ∈ takes service now n locked t →
  r ∈ t ∧ eligible service now r = true ∧ locked r = false.
Proof.
  unfold takes. intros Hr. apply (subseteq_take n), elem_of_filter_bool in Hr as [Hr [He Hl]%andb_prop].
  split_and!; [done|done|by apply negb_true_iff].
Qed.

Lemma eligible_spec service now r : eligible service now r = true →
  Service r = service ∧ SentAt r = None ∧ NextAttemptAt r ≤ now.
Proof.
  unfold eligible, unsent. intros [[Hs Hu]%andb_prop Hn]%andb_prop.
  apply String.eqb_eq in Hs. apply Z.leb_le in Hn. split_and!; [done| |done]. by destruct (SentAt r).
Qed.

Lemma eligible_decides service now r :
  eligible service now r = bool_decide (Service r = service ∧ SentAt r = None ∧ NextAttemptAt r ≤ now).
Proof.
  apply eq_true_iff_eq. rewrite bool_decide_eq_true. split; [by apply eligible_spec|]. intros (Hs & Hu & Hn).
  unfold eligible, unsent. by rewrite Hs, Hu, String.eqb_refl, (proj2 (Z.leb_le _ _) Hn).
Qed.

(** ** The table under updates *)

Lemma elem_of_insert_row r x t : r ∈ insert_row x t ↔ r = x ∨ r ∈ t.
Proof.
  induction t as [|y t IH]; cbn; [set_solver|]. destruct (_ <? _); set_solver.
Qed.

Lemma elem_of_insert_rows rows r t : r ∈ foldr insert_row t rows ↔ r ∈ rows ∨ r ∈ t.
Proof. induction rows as [|x rows IH]; cbn; [set_solver|]. rewrite elem_of_insert_row, IH. set_solver. Qed.

Lemma insert_row_perm x t : insert_row x t ≡ₚ x :: t.
Proof.
  induction t as [|y t IH]; cbn; [done|]. destruct (_ <? _); [done|]. rewrite IH. apply Permutation_swap.
Qed.

Lemma insert_rows_perm rows t : foldr insert_row t rows ≡ₚ (rows ++ t)%list.
Proof. induction rows as [|x rows IH]; cbn; [done|]. by rewrite insert_row_perm, IH. Qed.

Lemma write_row_ids r t : ID <$> write_row r t = ID <$> t.
Proof.
  induction t as [|x t IH]; [done|]. unfold write_row in *. cbn. f_equal; [|exact IH].
  by destruct (Z.eqb_spec (ID x) (ID r)).
Qed.

Lemma write_rows_ids rows t : ID <$> foldr write_row t rows = ID <$> t.
Proof. induction rows as [|x rows IH]; [done|]. cbn. by rewrite write_row_ids. Qed.

(** A row after the updates of a round is its old version or one of the updates. *)
Lemma elem_of_write_rows rows t r : r ∈ foldr write_row t rows →
  r ∈ t ∨ (r ∈ rows ∧ ∃ x, x ∈ t ∧ ID x = ID r).
Proof.
  revert r. induction rows as [|y rows IH]; intros r; cbn; [by left|]. intros Hr.
  assert (∃ x, x ∈ foldr write_row t rows ∧ ID x = ID r ∧ (r = y ∨ r = x)) as (x & Hx & Hid & Hor).
  { unfold write_row in Hr. apply list_elem_of_fmap in Hr as (x & -> & Hx).
    destruct (Z.eqb_spec (ID x) (ID y)); eauto. }
  destruct Hor as [->| ->].
  - right. split; [by left|]. apply IH in Hx as [Hx|(_ & z & Hz & Hzx)]; [by exists x|]. exists z. split; [done|congruence].
  - apply IH in Hx as [Hx|(Hx & z & Hz)]; [by left|]. right. split; [by right|by exists z].
Qed.

(** The row of an id, after the updates. *)
Lemma written_row rows t x : x ∈ t → ∃ r, r ∈ foldr write_row t rows ∧ ID r = ID x.
Proof.
  intros Hx. assert (ID x ∈ ID <$> foldr write_row t rows) as H by (rewrite write_rows_ids; by apply list_elem_of_fmap_2).
  apply list_elem_of_fmap in H as (r & Hr & Hin). by exists r.
Qed.

Lemma NoDup_id_inj t x y : NoDup (ID <$> t) → x ∈ t → y ∈ t → ID x = ID y → x = y.
Proof.
  intros Hnd. induction t as [|z t IH]; [by intros ?%elem_of_nil|]. apply NoDup_cons in Hnd as [Hz Hnd].
  assert (∀ u, u ∈ t → ID u = ID z → False) as Hno.
  { intros u Hu He. apply Hz. rewrite <- He. by apply list_elem_of_fmap_2. }
  intros [->|Hx]%elem_of_cons [->|Hy]%elem_of_cons; [done| | |by apply IH].
  - intros He. exfalso. by eapply Hno.
  - intros He. exfalso. by eapply Hno.
Qed.

(** ** The invariant *)

Definition known w : list OutboxRow := ow_committed w ++ ow_rolled_back w ++ concat (ow_txs w).

Record outbox_inv w : Prop := {
  inv_ids : NoDup (ID <$> known w);
  inv_next : ∀ r, r ∈ known w → ID r < ow_next w;
  inv_open : ∀ r, r ∈ concat (ow_txs w) → unsent r = true;
  inv_table : ∀ r, r ∈ ow_table w → ∃ c, c ∈ ow_committed w ∧ same_event r c;
  inv_table_ids : NoDup (ID <$> ow_table w);
  inv_kept : ∀ c, c ∈ ow_committed w →
    (∃ r, r ∈ ow_table w ∧ ID r = ID c ∧ unsent r = true) ∨ produceRow c ∈ ow_bus w;
  inv_sent : ∀ r, r ∈ ow_table w → unsent r = false → produceRow r ∈ ow_bus w;
  inv_todo : ∀ q r, q ∈ ow_rounds w → r ∈ r_todo q → r ∈ ow_table w ∧ unsent r = true;
  inv_writes : ∀ q r, q ∈ ow_rounds w → r ∈ r_writes q →
    (∃ x, x ∈ ow_table w ∧ same_event r x) ∧ (unsent r = false → produceRow r ∈ ow_bus w);
  inv_locks : NoDup (concat (held_ids <$> ow_rounds w));
  inv_bus : ∀ b, b ∈ ow_bus w → ∃ c, c ∈ ow_committed w ∧ b = produceRow c }.

Lemma known_publish w before rows after_ r : ow_txs w = (before ++ rows :: after_)%list →
  (ow_committed w ++ ow_rolled_back w ++ concat (before ++ (rows ++ [r]) :: after_))%list ≡ₚ (r :: known w)%list.
Proof.
  intros H. unfold known. rewrite H, !concat_app. cbn. rewrite <- !app_assoc. cbn.
  rewrite !app_assoc. by rewrite <- Permutation_middle.
Qed.

Lemma known_commit w before rows after_ : ow_txs w = (before ++ rows :: after_)%list →
  ((ow_committed w ++ rows) ++ ow_rolled_back w ++ concat (before ++ after_))%list ≡ₚ known w.
Proof.
  intros H. unfold known. rewrite H, !concat_app. cbn. rewrite <- !app_assoc.
  apply Permutation_app_head. rewrite !app_assoc. rewrite <- !app_assoc.
  rewrite (Permutation_app_swap_app rows (ow_rolled_back w)). apply Permutation_app_head.
  by rewrite (Permutation_app_swap_app rows (concat before)).
Qed.

Lemma known_rollback w before rows after_ : ow_txs w = (before ++ rows :: after_)%list →
  (ow_committed w ++ (ow_rolled_back w ++ rows) ++ concat (before ++ after_))%list ≡ₚ known w.
Proof.
  intros H. unfold known. rewrite H, !concat_app. cbn. rewrite <- !app_assoc.
  do 2 apply Permutation_app_head. by rewrite (Permutation_app_swap_app rows (concat before)).
Qed.

Lemma inv_known_perm (l l' : list OutboxRow) : l ≡ₚ l' → NoDup (ID <$> l') → NoDup (ID <$> l).
Proof. intros H. by rewrite H. Qed.

Lemma NoDup_perm {A} (l l' : list A) : l ≡ₚ l' → NoDup l' → NoDup l.
Proof. intros H. by rewrite H. Qed.

(** The locks of a round that took rows nobody holds. *)
Lemma NoDup_take_ids service now n locked t : NoDup (ID <$> t) → NoDup (ID <$> takes service now n locked t).
Proof.
  intros H. unfold takes. eapply sublist_NoDup; [exact H|]. apply fmap_sublist.
  etransitivity; [apply sublist_take|]. induction t as [|x t IH]; [done|]. cbn in *. apply NoDup_cons in H as [_ H].
  destruct (_ && _); [by apply sublist_skip, IH|by apply sublist_cons, IH].
Qed.

Lemma locked_by_held rounds r q : q ∈ rounds → ID r ∈ held_ids q → locked_by rounds r = true.
Proof.
  intros Hq Hr. unfold locked_by. apply existsb_exists. exists q. split; [by apply list_elem_of_In|].
  apply existsb_exists. exists (ID r). split; [by apply list_elem_of_In|apply Z.eqb_refl].
Qed.

Lemma inv_init : outbox_inv (OW [] [] [] [] 1 [] []).
Proof. split; cbn; try (intros; exfalso; set_solver); constructor. Qed.

(** Steps of transactions leave the table, the bus and the rounds of the invariant alone. *)
Lemma inv_txs w txs next :
  outbox_inv w →
  NoDup (ID <$> (ow_committed w ++ ow_rolled_back w ++ concat txs)) →
  (∀ r, r ∈ (ow_committed w ++ ow_rolled_back w ++ concat txs)%list → ID r < next) →
  (∀ r, r ∈ concat txs → unsent r = true) →
  outbox_inv (OW (ow_table w) (ow_bus w) (ow_rounds w) txs next (ow_committed w) (ow_rolled_back w)).
Proof. intros [] H1 H2 H3. by split. Qed.

Lemma inv_publish w before rows after_ r : outbox_inv w →
  ow_txs w = (before ++ rows :: after_)%list → ID r = ow_next w → unsent r = true →
  outbox_inv (OW (ow_table w) (ow_bus w) (ow_rounds w) (before ++ (rows ++ [r]) :: after_)%list (ow_next w + 1)
    (ow_committed w) (ow_rolled_back w)).
Proof.
  intros Hi Htx Hid Hu. pose proof (known_publish w before rows after_ r Htx) as Hp. apply inv_txs; [done|..].
  - eapply inv_known_perm; [exact Hp|]. cbn. apply NoDup_cons. split; [|apply Hi].
    intros (x & Hx & Hin)%list_elem_of_fmap. apply (inv_next w Hi) in Hin. lia.
  - intros x Hx. rewrite Hp in Hx. apply elem_of_cons in Hx as [->|Hx]; [lia|].
    apply (inv_next w Hi) in Hx. lia.
  - intros x Hx. assert (x ∈ concat (ow_txs w) ∨ x = r) as [Hin| ->]; [|by apply (inv_open w Hi)|done].
    rewrite Htx. rewrite concat_app in *. cbn in *. set_solver.
Qed.

Lemma inv_commit w before rows after_ : outbox_inv w → ow_txs w = (before ++ rows :: after_)%list →
  outbox_inv (OW (foldr insert_row (ow_table w) rows) (ow_bus w) (ow_rounds w) (before ++ after_)%list
    (ow_next w) (ow_committed w ++ rows)%list (ow_rolled_back w)).
Proof.
  intros Hi Htx. pose proof (known_commit w before rows after_ Htx) as Hp.
  assert (∀ r, r ∈ rows → r ∈ known w) as Hrows.
  { intros r Hr. rewrite <- Hp. set_solver. }
  assert (∀ r c, r ∈ rows → c ∈ ow_committed w → ID r ≠ ID c) as Hfresh.
  { intros r c Hr Hc He. pose proof (inv_ids w Hi) as Hnd. rewrite <- Hp in Hnd.
    rewrite !fmap_app in Hnd. apply NoDup_app in Hnd as (Hnd & _). apply NoDup_app in Hnd as (_ & Hnd & _).
    apply (Hnd (ID c)); [by apply list_elem_of_fmap_2|]. rewrite <- He. by apply list_elem_of_fmap_2. }
  assert (NoDup (ID <$> rows)) as Hndr.
  { pose proof (inv_ids w Hi) as Hnd. rewrite <- Hp, !fmap_app in Hnd.
    apply NoDup_app in Hnd as (Hnd & _). by apply NoDup_app in Hnd as (_ & _ & Hnd). }
  assert (∀ r, r ∈ rows → unsent r = true) as Hopen.
  { intros r Hr. apply (inv_open w Hi). rewrite Htx, concat_app. cbn. set_solver. }
  split; cbn.
  - eapply inv_known_perm; [exact Hp|]. apply Hi.
  - intros r Hr. unfold known in Hr. cbn in Hr. rewrite Hp in Hr. by apply (inv_next w Hi).
  - intros r Hr. apply (inv_open w Hi). rewrite Htx. rewrite concat_app in *. cbn. set_solver.
  - intros r Hr. apply elem_of_insert_rows in Hr as [Hr|Hr]; [exists r; split; [set_solver|done]|].
    destruct (inv_table w Hi r Hr) as (c & Hc & Hs). exists c. split; [set_solver|done].
  - rewrite insert_rows_perm, fmap_app. apply NoDup_app. split_and!; [done| |apply Hi].
    intros i Hi1 Hi2. apply list_elem_of_fmap in Hi1 as (r & -> & Hr), Hi2 as (x & Hx & Hin).
    destruct (inv_table w Hi x Hin) as (c & Hc & Hs). apply same_event_id in Hs.
    apply (Hfresh r c Hr Hc). congruence.
  - intros c [Hc|Hc]%elem_of_app.
    + destruct (inv_kept w Hi c Hc) as [(r & Hr & Hid & Hu)|Hb]; [|by right].
      left. exists r. split_and!; [apply elem_of_insert_rows; by right|done|done].
    + left. exists c. split_and!; [apply elem_of_insert_rows; by left|done|by apply Hopen].
  - intros r Hr Hu. apply elem_of_insert_rows in Hr as [Hr|Hr]; [|by apply (inv_sent w Hi)].
    rewrite (Hopen r Hr) in Hu. done.
  - intros q r Hq Hr. destruct (inv_todo w Hi q r Hq Hr). split; [apply elem_of_insert_rows; by right|done].
  - intros q r Hq Hr. destruct (inv_writes w Hi q r Hq Hr) as [(x & Hx & Hs) Hb]. split; [|done].
    exists x. split; [apply elem_of_insert_rows; by right|done].
  - apply Hi.
  - intros b Hb. destruct (inv_bus w Hi b Hb) as (c & Hc & ->). exists c. split; [set_solver|done].
Qed.

Lemma inv_rollback w before rows after_ : outbox_inv w → ow_txs w = (before ++ rows :: after_)%list →
  outbox_inv (OW (ow_table w) (ow_bus w) (ow_rounds w) (before ++ after_)%list
    (ow_next w) (ow_committed w) (ow_rolled_back w ++ rows)%list).
Proof.
  intros Hi Htx. pose proof (known_rollback w before rows after_ Htx) as Hp. split; cbn; try apply Hi.
  - eapply inv_known_perm; [exact Hp|]. apply Hi.
  - intros r Hr. unfold known in Hr. cbn in Hr. rewrite Hp in Hr. by apply (inv_next w Hi).
  - intros r Hr. apply (inv_open w Hi). rewrite Htx. rewrite concat_app in *. cbn. set_solver.
Qed.

Lemma inv_take w service now n : outbox_inv w →
  outbox_inv (OW (ow_table w) (ow_bus w)
    (ow_rounds w ++ [Round (takes service now n (locked_by (ow_rounds w)) (ow_table w)) []])
    (ow_txs w) (ow_next w) (ow_committed w) (ow_rolled_back w)).
Proof.
  intros Hi. set (rows := takes _ _ _ _ _).
  assert (∀ r, r ∈ rows → r ∈ ow_table w ∧ unsent r = true ∧ locked_by (ow_rounds w) r = false) as Hrows.
  { intros r Hr. apply takes_spec in Hr as (Hr & He & Hl). split_and!; [done| |done].
    apply eligible_spec in He as (_ & Hs & _). unfold unsent. by rewrite Hs. }
  split; cbn; try apply Hi.
  - intros q r [Hq|Hq]%elem_of_app Hr; [by eapply (inv_todo w Hi)|].
    apply list_elem_of_singleton in Hq as ->. cbn in Hr. destruct (Hrows r Hr) as (? & ? & _). done.
  - intros q r [Hq|Hq]%elem_of_app Hr; [by eapply (inv_writes w Hi)|].
    apply list_elem_of_singleton in Hq as ->. cbn in Hr. by apply elem_of_nil in Hr.
  - rewrite fmap_app, concat_app. cbn. rewrite app_nil_r. unfold held_ids at 1. cbn. rewrite ?app_nil_r.
    apply NoDup_app. split_and!; [apply Hi| |apply NoDup_take_ids, Hi].
    intros i Hi1 Hi2. apply list_elem_of_fmap in Hi2 as (r & -> & Hr).
    apply list_elem_of_In, in_concat in Hi1 as (ids & Hids & Hin).
    apply list_elem_of_In, list_elem_of_fmap in Hids as (q & -> & Hq). apply list_elem_of_In in Hin.
    destruct (Hrows r Hr) as (_ & _ & Hl). by rewrite (locked_by_held _ _ _ Hq Hin) in Hl.
Qed.

Lemma inv_produce w before r todo writes after_ now res written : outbox_inv w →
  ow_rounds w = before ++ Round (r :: todo) writes :: after_ →
  (res = None → written = true) →
  outbox_inv (OW (ow_table w) (if (written : bool) then ow_bus w ++ [produceRow r] else ow_bus w)
    (before ++ Round todo (writes ++ [relayed now res r]) :: after_)
    (ow_txs w) (ow_next w) (ow_committed w) (ow_rolled_back w)).
Proof.
  intros Hi Hq Hres. set (bus := if written then _ else _).
  assert (∀ b, b ∈ ow_bus w → b ∈ bus) as Hbus by (unfold bus; destruct written; set_solver).
  assert (r ∈ ow_table w ∧ unsent r = true) as [Hr Hu].
  { apply (inv_todo w Hi (Round (r :: todo) writes) r); [rewrite Hq|cbn]; set_solver. }
  split; cbn; try apply Hi.
  - intros c Hc. destruct (inv_kept w Hi c Hc) as [H|H]; [by left|right; auto].
  - intros x Hx Hs. apply Hbus, (inv_sent w Hi); done.
  - intros q x Hin Hx. apply elem_of_app in Hin as [Hin|[->|Hin]%elem_of_cons].
    + apply (inv_todo w Hi q x); [rewrite Hq; set_solver|done].
    + cbn in Hx. apply (inv_todo w Hi (Round (r :: todo) writes) x); [rewrite Hq|cbn]; set_solver.
    + apply (inv_todo w Hi q x); [rewrite Hq; set_solver|done].
  - assert (∀ q x, q ∈ ow_rounds w → x ∈ r_writes q →
      (∃ y, y ∈ ow_table w ∧ same_event x y) ∧ (unsent x = false → produceRow x ∈ bus)) as Hold.
    { intros q x Hin Hx. destruct (inv_writes w Hi q x Hin Hx) as [H1 H2]. split; [done|]. auto. }
    intros q x Hin Hx. apply elem_of_app in Hin as [Hin|[->|Hin]%elem_of_cons].
    + apply (Hold q x); [rewrite Hq; set_solver|done].
    + cbn in Hx. apply elem_of_app in Hx as [Hx|Hx].
      * apply (Hold (Round (r :: todo) writes) x); [rewrite Hq; set_solver|done].
      * apply list_elem_of_singleton in Hx as ->. split; [exists r; split; [done|apply relayed_same]|].
        intros Hsent. assert (res = None) as ->.
        { apply (relayed_unsent now res r Hu). intros He. unfold unsent in Hsent. by rewrite He in Hsent. }
        unfold bus. rewrite Hres by done. apply elem_of_app. right. apply list_elem_of_singleton.
        by destruct (relayed_same now None r).
    + apply (Hold q x); [rewrite Hq; set_solver|done].
  - pose proof (inv_locks w Hi) as Hl. rewrite Hq in Hl. rewrite fmap_app, concat_app in *. cbn in *.
    unfold held_ids in *. cbn in *. rewrite fmap_app. cbn.
    assert (ID (relayed now res r) = ID r) as -> by (apply same_event_id, relayed_same).
    eapply NoDup_perm; [|exact Hl]. apply Permutation_app_head.
    rewrite (app_comm_cons _ _ (ID r)). apply Permutation_app_tail. rewrite app_assoc. symmetry.
    apply Permutation_cons_append.
  - intros b Hb. unfold bus in Hb. destruct written; [|by apply Hi].
    apply elem_of_app in Hb as [Hb|Hb]; [by apply Hi|]. apply list_elem_of_singleton in Hb as ->.
    destruct (inv_table w Hi r Hr) as (c & Hc & Hs & _). by exists c.
Qed.

(** A round leaves, whatever it leaves the table with. *)
Lemma inv_locks_drop w before q after_ : outbox_inv w → ow_rounds w = before ++ q :: after_ →
  NoDup (concat (held_ids <$> (before ++ after_))).
Proof.
  intros Hi Hq. pose proof (inv_locks w Hi) as Hl. rewrite Hq, !fmap_app, !concat_app in *. cbn in Hl.
  rewrite app_assoc, (Permutation_app_comm (concat _) (held_ids q)), <- app_assoc in Hl.
  by apply NoDup_app in Hl as (_ & _ & Hl).
Qed.

Lemma inv_round_dies w before q after_ : outbox_inv w → ow_rounds w = before ++ q :: after_ →
  outbox_inv (OW (ow_table w) (ow_bus w) (before ++ after_)
    (ow_txs w) (ow_next w) (ow_committed w) (ow_rolled_back w)).
Proof.
  intros Hi Hq. split; cbn; try apply Hi.
  - intros q' r Hin. apply (inv_todo w Hi). rewrite Hq. set_solver.
  - intros q' r Hin. apply (inv_writes w Hi). rewrite Hq. set_solver.
  - by eapply inv_locks_drop.
Qed.

Lemma inv_round_commit w before writes after_ : outbox_inv w → ow_rounds w = before ++ Round [] writes :: after_ →
  outbox_inv (OW (foldr write_row (ow_table w) writes) (ow_bus w) (before ++ after_)
    (ow_txs w) (ow_next w) (ow_committed w) (ow_rolled_back w)).
Proof.
  intros Hi Hq. set (t' := foldr _ _ _).
  assert (Round [] writes ∈ ow_rounds w) as Hin by (rewrite Hq; set_solver).
  pose proof (λ r Hr, inv_writes w Hi _ r Hin Hr) as Hw. cbn in Hw.
  assert (∀ r, r ∈ t' → ∃ x, x ∈ ow_table w ∧ same_event r x ∧ (r = x ∨ r ∈ writes)) as Hback.
  { intros r Hr. apply elem_of_write_rows in Hr as [Hr|[Hr _]]; [by exists r; split_and!; [| |left]|].
    destruct (Hw r Hr) as [(x & Hx & Hs) _]. exists x. split_and!; [done|done|by right]. }
  assert (∀ x, x ∈ ow_table w → ∃ r, r ∈ t' ∧ same_event r x) as Hforth.
  { intros x Hx. destruct (written_row writes (ow_table w) x Hx) as (r & Hr & Hid). exists r. split; [done|].
    destruct (Hback r Hr) as (y & Hy & Hs & _).
    assert (y = x) as ->; [|done]. apply (NoDup_id_inj (ow_table w)); [apply Hi|done|done|].
    rewrite <- Hid. symmetry. by apply same_event_id. }
  split; cbn; try apply Hi.
  - intros r Hr. destruct (Hback r Hr) as (x & Hx & Hs & _). destruct (inv_table w Hi x Hx) as (c & Hc & Hsc).
    exists c. split; [done|]. by rewrite Hs.
  - unfold t'. rewrite write_rows_ids. apply Hi.
  - intros c Hc. destruct (inv_kept w Hi c Hc) as [(x & Hx & Hid & Hu)|Hb]; [|by right].
    destruct (Hforth x Hx) as (r & Hr & Hs). destruct (unsent r) eqn:Hur.
    + left. exists r. split_and!; [done|by rewrite (same_event_id _ _ Hs)|done].
    + right. destruct (Hback r Hr) as (y & Hy & Hsy & [->|Hwr]).
      * assert (y = x) as -> by (apply (NoDup_id_inj (ow_table w)); [apply Hi|done|done|by apply same_event_id]).
        congruence.
      * destruct (Hw r Hwr) as [_ Hb]. specialize (Hb Hur).
        destruct (inv_table w Hi x Hx) as (d & Hd & Hsd).
        assert (d = c) as ->.
        { apply (NoDup_id_inj (known w)); [apply Hi|unfold known; set_solver|unfold known; set_solver|].
          rewrite <- Hid. symmetry. by apply same_event_id. }
        destruct Hs as [Hs _], Hsd as [Hsd _]. by rewrite <- Hsd, <- Hs.
  - intros r Hr Hu. destruct (Hback r Hr) as (x & Hx & Hs & [->|Hwr]); [by apply (inv_sent w Hi)|].
    by apply Hw.
  - intros q r Hq' Hr. assert (q ∈ ow_rounds w) as Hqin by (rewrite Hq; set_solver).
    destruct (inv_todo w Hi q r Hqin Hr) as [Hrt Hu]. split; [|done].
    assert (ID r ∉ ID <$> writes) as Hno.
    { intros Hc. pose proof (inv_locks w Hi) as Hl. rewrite Hq, fmap_app, concat_app in Hl. cbn in Hl.
      apply NoDup_app in Hl as (_ & Hl1 & Hl2). apply NoDup_app in Hl2 as (_ & Hl3 & _).
      assert (ID r ∈ held_ids q) as Hheld by (unfold held_ids; set_solver).
      apply elem_of_app in Hq' as [Hq'|Hq'].
      - apply (Hl1 (ID r)); [|set_solver]. apply list_elem_of_In, in_concat. exists (held_ids q).
        split; apply list_elem_of_In; [by apply list_elem_of_fmap_2|done].
      - apply (Hl3 (ID r)); [set_solver|]. apply list_elem_of_In, in_concat. exists (held_ids q).
        split; apply list_elem_of_In; [by apply list_elem_of_fmap_2|done]. }
    unfold t'. clear - Hno Hrt. induction writes as [|y writes IH]; [done|]. cbn in *.
    apply not_elem_of_cons in Hno as [Hne Hno]. specialize (IH Hno).
    unfold write_row at 1. apply list_elem_of_fmap. exists r. split; [|done].
    by destruct (Z.eqb_spec (ID r) (ID y)).
  - intros q r Hq' Hr. assert (q ∈ ow_rounds w) as Hqin by (rewrite Hq; set_solver).
    destruct (inv_writes w Hi q r Hqin Hr) as [(x & Hx & Hs) Hb]. split; [|done].
    destruct (Hforth x Hx) as (y & Hy & Hsy). exists y. split; [done|]. by rewrite Hs, Hsy.
  - by eapply inv_locks_drop.
Qed.

Lemma inv_cleanup w now ret keep : outbox_inv w →
  (∀ r, r ∈ ow_table w → keep r = false → removable now ret r = true ∧ locked_by (ow_rounds w) r = false) →
  outbox_inv (OW (List.filter keep (ow_table w)) (ow_bus w) (ow_rounds w)
    (ow_txs w) (ow_next w) (ow_committed w) (ow_rolled_back w)).
Proof.
  intros Hi Hk.
  assert (∀ r, r ∈ ow_table w → unsent r = true → r ∈ List.filter keep (ow_table w)) as Hun.
  { intros r Hr Hu. apply elem_of_filter_bool. split; [done|]. destruct (keep r) eqn:E; [done|].
    destruct (Hk r Hr E) as [Hrem _]. unfold removable, unsent in *. by destruct (SentAt r). }
  split; cbn; try apply Hi.
  - intros r [Hr _]%elem_of_filter_bool. by apply (inv_table w Hi).
  - eapply sublist_NoDup; [apply (inv_table_ids w Hi)|]. apply fmap_sublist. clear. induction (ow_table w) as [|x t IH]; [done|].
    cbn. destruct (keep x); [by apply sublist_skip|by apply sublist_cons].
  - intros c Hc. destruct (inv_kept w Hi c Hc) as [(r & Hr & Hid & Hu)|Hb]; [left; exists r; eauto|by right].
  - intros r [Hr _]%elem_of_filter_bool. by apply (inv_sent w Hi).
  - intros q r Hq Hr. destruct (inv_todo w Hi q r Hq Hr). eauto.
  - intros q r Hq Hr. destruct (inv_writes w Hi q r Hq Hr) as [(x & Hx & Hs) Hb]. split; [|done].
    exists x. split; [|done]. apply elem_of_filter_bool. split; [done|]. destruct (keep x) eqn:E; [done|].
    destruct (Hk x Hx E) as [_ Hl]. rewrite (locked_by_held _ _ q) in Hl; [done|done|].
    rewrite <- (same_event_id _ _ Hs). unfold held_ids. apply elem_of_app. right. by apply list_elem_of_fmap_2.
Qed.

Lemma outbox_step_inv w w' : outbox_inv w → outbox_step w w' → outbox_inv w'.
Proof.
  intros Hi Hs. destruct Hs.
  - apply inv_txs; [done|..].
    + rewrite concat_app. cbn. rewrite app_nil_r. apply Hi.
    + intros r. rewrite concat_app. cbn. rewrite app_nil_r. apply (inv_next w Hi).
    + intros r. rewrite concat_app. cbn. rewrite app_nil_r. apply (inv_open w Hi).
  - by apply inv_publish.
  - by eapply inv_commit.
  - by eapply inv_rollback.
  - by apply inv_take.
  - by eapply inv_produce.
  - by eapply inv_round_commit.
  - by eapply inv_round_dies.
  - by eapply inv_cleanup.
Qed.

Lemma outbox_reachable_inv w : outbox_reachable w → outbox_inv w.
Proof. induction 1; [apply inv_init|by eapply outbox_step_inv]. Qed.

Lemma committed_row w r c : outbox_inv w → r ∈ ow_table w → c ∈ ow_committed w → ID r = ID c → same_event r c.
Proof.
  intros Hi Hr Hc Hid. destruct (inv_table w Hi r Hr) as (d & Hd & Hs).
  assert (d = c) as <-; [|done]. apply (NoDup_id_inj (known w)); [apply Hi|unfold known; set_solver..|].
  rewrite <- Hid. symmetry. by apply same_event_id.
Qed.

(** C4. The outbox publishes exactly what was committed. At every moment, with any
    number of replicas relaying, rounds dying at any point and produces whose
    outcome is unknown: an event on the bus was committed with its transaction; an
    event that was committed is on the bus or still in the table, unsent and
    unchanged; an event whose transaction rolled back is never on the bus;
    and no two rounds hold the same row. *)
Theorem outbox_delivers_exactly_the_committed w : outbox_reachable w →
  (∀ b, b ∈ ow_bus w → ∃ c, c ∈ ow_committed w ∧ b = produceRow c) ∧
  (∀ c, c ∈ ow_committed w →
     produceRow c ∈ ow_bus w ∨ ∃ r, r ∈ ow_table w ∧ same_event r c ∧ unsent r = true) ∧
  (∀ d, d ∈ ow_rolled_back w → produceRow d ∉ ow_bus w) ∧
  NoDup (concat (held_ids <$> ow_rounds w)).
Proof.
  intros Hi%outbox_reachable_inv. split_and!; [apply Hi| | |apply Hi].
  - intros c Hc. destruct (inv_kept w Hi c Hc) as [(r & Hr & Hid & Hu)|Hb]; [right|by left].
    exists r. split_and!; [done| |done]. by apply (committed_row w).
  - intros d Hd Hb. destruct (inv_bus w Hi _ Hb) as (c & Hc & He). apply (f_equal b_outbox) in He. cbn in He.
    pose proof (inv_ids w Hi) as Hnd. unfold known in Hnd. rewrite fmap_app in Hnd.
    apply NoDup_app in Hnd as (_ & Hnd & _). apply (Hnd (ID c)); [by apply list_elem_of_fmap_2|].
    rewrite <- He. apply list_elem_of_fmap_2. set_solver.
Qed.

(** ** One round as a function *)

Section Drain.
Variables (service : string) (now : Z).
Notation ok := (λ _ : bus_record, @None string).

(** The first [n] eligible rows marked sent. *)
Fixpoint mark (n : nat) t : list OutboxRow :=
  match t with
  | [] => []
  | r :: t' =>
      if eligible service now r then
        match n with O => r :: t' | S n => sent_row now r :: mark n t' end
      else r :: mark n t'
  end.

Definition due_rows t : list OutboxRow := List.filter (eligible service now) t.

Lemma takes_due n t : takes service now n (λ _, false) t = take n (due_rows t).
Proof.
  unfold takes, due_rows. f_equal. apply filter_ext. intros r. apply andb_true_r.
Qed.

Lemma write_row_absent r t : ID r ∉ ID <$> t → write_row r t = t.
Proof.
  unfold write_row. induction t as [|x t IH]; [done|]. cbn. intros [Hne Hno]%not_elem_of_cons.
  rewrite IH by done. by destruct (Z.eqb_spec (ID x) (ID r)).
Qed.

Lemma write_rows_cons x rows t : ID x ∉ ID <$> rows →
  foldr write_row (x :: t) rows = x :: foldr write_row t rows.
Proof.
  induction rows as [|r rows IH]; [done|]. cbn. intros [Hne Hno]%not_elem_of_cons. rewrite IH by done.
  unfold write_row at 1. cbn. by destruct (Z.eqb_spec (ID x) (ID r)).
Qed.

Lemma due_ids n t i : i ∈ ID <$> take n (due_rows t) → i ∈ ID <$> t.
Proof.
  intros (r & -> & Hr)%list_elem_of_fmap. apply (subseteq_take n), elem_of_filter_bool in Hr as [Hr _].
  by apply list_elem_of_fmap_2.
Qed.

Lemma sent_ids (rows : list OutboxRow) : ID <$> (sent_row now <$> rows) = ID <$> rows.
Proof. by rewrite <- list_fmap_compose. Qed.

Lemma write_due n t : NoDup (ID <$> t) →
  foldr write_row t (sent_row now <$> take n (due_rows t)) = mark n t.
Proof.
  revert n. induction t as [|x t IH]; intros n Hnd; [by destruct n|].
  cbn in Hnd. apply NoDup_cons in Hnd as [Hx Hnd].
  assert (∀ k, ID x ∉ ID <$> (sent_row now <$> take k (due_rows t))) as Hno.
  { intros k. rewrite sent_ids. intros H. by apply Hx, (due_ids k). }
  cbn [mark]. unfold due_rows. cbn. destruct (eligible service now x); [|by rewrite write_rows_cons, IH].
  destruct n as [|n]; [done|]. cbn. rewrite write_rows_cons by apply Hno.
  unfold write_row at 1. cbn. rewrite Z.eqb_refl. f_equal.
  change (write_row (sent_row now x) (foldr write_row t (sent_row now <$> take n (due_rows t))) = mark n t).
  rewrite write_row_absent; [by apply IH|]. by rewrite write_rows_ids.
Qed.

Lemma relayOnce_ok n t : NoDup (ID <$> t) →
  relayOnce service now n ok t = (mark n t, produceRow <$> take n (due_rows t), length (take n (due_rows t))).
Proof.
  intros Hnd. unfold relayOnce. rewrite takes_due. repeat f_equal.
  - change ((λ r, relayed now (ok (produceRow r)) r) <$> take n (due_rows t))
      with (sent_row now <$> take n (due_rows t)). by apply write_due.
  - generalize (take n (due_rows t)) as l. intros l. induction l as [|x l IH]; [done|]. cbn. by rewrite IH.
Qed.

Lemma sent_not_eligible r : eligible service now (sent_row now r) = false.
Proof. unfold eligible. cbn. by rewrite andb_false_r. Qed.

Lemma due_mark n t : due_rows (mark n t) = drop n (due_rows t).
Proof.
  revert n. induction t as [|x t IH]; intros n; [by destruct n|]. cbn [mark].
  unfold due_rows in *. destruct (eligible service now x) eqn:E.
  - destruct n as [|n]; cbn [List.filter]; rewrite ?sent_not_eligible, ?E; [done|]. cbn. apply IH.
  - cbn. rewrite E. apply IH.
Qed.

Lemma mark_mark n m t : mark n (mark m t) = mark (m + n) t.
Proof.
  revert n m. induction t as [|x t IH]; intros n m; [done|]. cbn [mark].
  destruct (eligible service now x) eqn:E.
  - destruct m as [|m]; cbn [mark Nat.add]; rewrite ?E, ?sent_not_eligible; [done|]. by rewrite IH.
  - cbn [mark]. rewrite E. by rewrite IH.
Qed.

Lemma mark_all n t : (length (due_rows t) ≤ n)%nat →
  mark n t = (λ r, if eligible service now r then sent_row now r else r) <$> t.
Proof.
  revert n. induction t as [|x t IH]; intros n Hn; [done|]. unfold due_rows in *. cbn in *.
  destruct (eligible service now x); cbn in *; [destruct n as [|n]; [lia|]|]; f_equal; apply IH; lia.
Qed.

Lemma mark_ids n t : ID <$> mark n t = ID <$> t.
Proof.
  revert n. induction t as [|x t IH]; intros n; [done|]. cbn [mark].
  destruct (eligible service now x); [destruct n as [|n]; [done|]|]; cbn; f_equal; apply IH.
Qed.

Lemma relay_rounds_ok fuel batch t : (0 < batch)%nat → NoDup (ID <$> t) →
  (length (due_rows t) < fuel * batch)%nat →
  relay_rounds fuel service now batch ok t =
    Some ((λ r, if eligible service now r then sent_row now r else r) <$> t, produceRow <$> due_rows t).
Proof.
  intros Hb. revert t. induction fuel as [|fuel IH]; intros t Hnd Hf; [lia|]. cbn [relay_rounds].
  rewrite relayOnce_ok by done. rewrite length_take.
  destruct (Nat.ltb_spec (batch `min` length (due_rows t)) batch) as [Hlt|Hge].
  - rewrite mark_all by lia. by rewrite take_ge by lia.
  - rewrite IH; [|by rewrite mark_ids|rewrite due_mark, length_drop; lia].
    do 2 f_equal.
    + rewrite <- (mark_all (fuel * batch) (mark batch t)) by (rewrite due_mark, length_drop; lia).
      rewrite mark_mark, mark_all by lia. done.
    + rewrite due_mark, <- fmap_app. by rewrite take_drop.
Qed.
End Drain.

(** C39. A relay that is not failing drains the outbox: when every produce is acknowledged and
    nothing else changes the table, the loop of one wake-up ends, after at most one round
    more than the full batches among the due rows; it has published every due row of the
    service once, in the order of the table (that of the ids), marked those rows sent, and
    left every other row (another service's, a sent one, one that waits) as it was. *)
Theorem relay_drains_in_order service now batch t fuel : (0 < batch)%nat → NoDup (ID <$> t) →
  let due := List.filter (λ r, bool_decide (Service r = service ∧ SentAt r = None ∧ NextAttemptAt r ≤ now)) t in
  (length due / batch < fuel)%nat →
  relay_rounds fuel service now batch (λ _, None) t =
    Some ((λ r, if bool_decide (Service r = service ∧ SentAt r = None ∧ NextAttemptAt r ≤ now) then sent_row now r else r) <$> t,
          produceRow <$> due).
Proof.
  intros Hb Hnd due Hfuel.
  assert (due = List.filter (eligible service now) t) as Hdue by (apply filter_ext; intros r; symmetry; apply eligible_decides).
  rewrite relay_rounds_ok; [|done|done|].
  { unfold due_rows. rewrite <- Hdue. do 2 f_equal. apply list_fmap_ext. intros _ r _. by rewrite eligible_decides. }
  unfold due_rows. rewrite <- Hdue.
  pose proof (Nat.mod_upper_bound (length due) batch ltac:(lia)).
  pose proof (Nat.div_mod_eq (length due) batch). nia.
Qed.

Lemma backoff_bounds n : 0 ≤ n → 1000 ≤ backoff n ≤ 300000.
Proof.
  intros Hn. unfold backoff, ms_second. rewrite Z.shiftl_mul_pow2 by lia.
  pose proof (Z.pow_le_mono_r 2 0 (Z.min n 10) ltac:(lia) ltac:(lia)). change (2 ^ 0) with 1 in H.
  destruct (Z.ltb_spec (300 * 1000) (1000 * 2 ^ Z.min n 10)); lia.
Qed.

Lemma backoff_mono n m : 0 ≤ n ≤ m → backoff n ≤ backoff m.
Proof.
  intros Hn. unfold backoff, ms_second. rewrite !Z.shiftl_mul_pow2 by lia.
  pose proof (Z.pow_le_mono_r 2 (Z.min n 10) (Z.min m 10) ltac:(lia) ltac:(lia)).
  destruct (Z.ltb_spec (300 * 1000) (1000 * 2 ^ Z.min n 10)), (Z.ltb_spec (300 * 1000) (1000 * 2 ^ Z.min m 10)); lia.
Qed.

(** A row whose produce failed loses nothing: it stays unsent, with one more
    attempt and an error of at most 500 bytes; no round takes it before its wait
    is over, which is between one second and five minutes and never shrinks
    from one failure to the next, and every round after that may take it. *)
Theorem failed_row_waits service now now' err r :
  Service r = service → unsent r = true → 0 ≤ Attempts r →
  let f := failed_row now err r in
  produceRow f = produceRow r ∧ unsent f = true ∧ Attempts f = Attempts r + 1 ∧ slen (LastError f) ≤ 500 ∧
  1000 ≤ backoff (Attempts r + 1) ≤ 300000 ∧ backoff (Attempts r) ≤ backoff (Attempts r + 1) ∧
  eligible service now' f = (now + backoff (Attempts r + 1) <=? now').
Proof.
  intros Hs Hu Ha f. split_and!; try done; try (apply backoff_bounds; lia); try (apply backoff_mono; lia).
  - assert (∀ n s, (String.length (substring 0 n s) ≤ n)%nat) as Hlen.
    { induction n as [|n IH]; intros [|c s]; cbn; try lia. specialize (IH s). lia. }
    unfold f, failed_row. cbn [LastError]. unfold slen. specialize (Hlen 500%nat err). lia.
  - unfold eligible, f. cbn. rewrite Hs, String.eqb_refl. unfold unsent in Hu. cbn.
    change (unsent (failed_row now err r)) with (unsent r). unfold unsent. by rewrite Hu.
Qed.

(** ** Samples *)

Definition deposit (id : Z) (e : string) (now : Z) : OutboxRow :=
  queued_row id "wallet" e "wallet.balance" "user-7" "balance.changed" "{}" "" now.

(** A transaction commits, one rolls back, a round publishes and dies before it
    commits, another one publishes again and commits. *)
Definition sample_outbox : outbox_world :=
  OW [sent_row 5 (deposit 1 "e1" 0)] [produceRow (deposit 1 "e1" 0); produceRow (deposit 1 "e1" 0)] [] [] 3
    [deposit 1 "e1" 0] [deposit 2 "e2" 0].

Lemma sample_outbox_reachable : outbox_reachable sample_outbox.
Proof.
  eapply reach_step; [|apply (step_round_commit (OW [deposit 1 "e1" 0]
    [produceRow (deposit 1 "e1" 0); produceRow (deposit 1 "e1" 0)] [Round [] [sent_row 5 (deposit 1 "e1" 0)]] [] 3
    [deposit 1 "e1" 0] [deposit 2 "e2" 0]) [] [sent_row 5 (deposit 1 "e1" 0)] []); reflexivity].
  eapply reach_step; [|apply (step_produce (OW [deposit 1 "e1" 0] [produceRow (deposit 1 "e1" 0)]
    [Round [deposit 1 "e1" 0] []] [] 3 [deposit 1 "e1" 0] [deposit 2 "e2" 0]) [] (deposit 1 "e1" 0) [] [] [] 5 None true);
    [reflexivity|done]].
  eapply reach_step; [|apply (step_take (OW [deposit 1 "e1" 0] [produceRow (deposit 1 "e1" 0)] [] [] 3
    [deposit 1 "e1" 0] [deposit 2 "e2" 0]) "wallet" 5 100)].
  eapply reach_step; [|apply (step_round_dies (OW [deposit 1 "e1" 0] [produceRow (deposit 1 "e1" 0)]
    [Round [] [sent_row 4 (deposit 1 "e1" 0)]] [] 3 [deposit 1 "e1" 0] [deposit 2 "e2" 0]) []
    (Round [] [sent_row 4 (deposit 1 "e1" 0)]) []); reflexivity].
  eapply reach_step; [|apply (step_produce (OW [deposit 1 "e1" 0] [] [Round [deposit 1 "e1" 0] []] [] 3
    [deposit 1 "e1" 0] [deposit 2 "e2" 0]) [] (deposit 1 "e1" 0) [] [] [] 4 None true); [reflexivity|done]].
  eapply reach_step; [|apply (step_take (OW [deposit 1 "e1" 0] [] [] [] 3
    [deposit 1 "e1" 0] [deposit 2 "e2" 0]) "wallet" 4 100)].
  eapply reach_step; [|apply (step_rollback (OW [deposit 1 "e1" 0] [] [] [[deposit 2 "e2" 0]] 3
    [deposit 1 "e1" 0] []) [] [deposit 2 "e2" 0] []); reflexivity].
  eapply reach_step; [|apply (step_publish (OW [deposit 1 "e1" 0] [] [] [[]] 2
    [deposit 1 "e1" 0] []) [] [] [] "wallet" "e2" "wallet.balance" "user-7" "balance.changed" "{}" "" 0); reflexivity].
  eapply reach_step; [|apply (step_begin (OW [deposit 1 "e1" 0] [] [] [] 2 [deposit 1 "e1" 0] []))].
  eapply reach_step; [|apply (step_commit (OW [] [] [] [[deposit 1 "e1" 0]] 2 [] []) [] [deposit 1 "e1" 0] []); reflexivity].
  eapply reach_step; [|apply (step_publish (OW [] [] [] [[]] 1 [] []) [] [] [] "wallet" "e1" "wallet.balance" "user-7"
    "balance.changed" "{}" "" 0); reflexivity].
  eapply reach_step; [|apply (step_begin (OW [] [] [] [] 1 [] []))].
  constructor.
Qed.

Lemma outbox_delivers_witness : produceRow (deposit 2 "e2" 0) ∉ ow_bus sample_outbox.
Proof.
  destruct (outbox_delivers_exactly_the_committed sample_outbox sample_outbox_reachable) as (_ & _ & H & _).
  apply H. left.
Defined.

Lemma relay_drains_witness :
  relay_rounds 2 "wallet" 5 2 (λ _, None) [deposit 1 "e1" 0; deposit 2 "e2" 9; deposit 3 "e3" 0] =
    Some ([sent_row 5 (deposit 1 "e1" 0); deposit 2 "e2" 9; sent_row 5 (deposit 3 "e3" 0)],
     [produceRow (deposit 1 "e1" 0); produceRow (deposit 3 "e3" 0)]).
Proof.
  refine (relay_drains_in_order "wallet" 5 2 [deposit 1 "e1" 0; deposit 2 "e2" 9; deposit 3 "e3" 0] 2 _ _ _); [lia| |].
  - repeat constructor; vm_compute; set_solver.
  - by vm_compute.
Defined.

Lemma failed_row_waits_witness :
  eligible "wallet" 1999 (failed_row 0 "timeout" (deposit 1 "e1" 0)) = false ∧
  eligible "wallet" 2000 (failed_row 0 "timeout" (deposit 1 "e1" 0)) = true.
Proof.
  split.
  - destruct (failed_row_waits "wallet" 0 1999 "timeout" (deposit 1 "e1" 0) eq_refl eq_refl ltac:(cbn; lia))
      as (_ & _ & _ & _ & _ & _ & ->). reflexivity.
  - destruct (failed_row_waits "wallet" 0 2000 "timeout" (deposit 1 "e1" 0) eq_refl eq_refl ltac:(cbn; lia))
      as (_ & _ & _ & _ & _ & _ & ->). reflexivity.
Defined.

(** Finding: the package promises order per key, but a row that fails waits while
    the rows behind it are sent: of two changes of one balance, queued in
    order under one key, the second is on the bus first. *)
Theorem later_event_overtakes :
  let first := deposit 1 "first" 0 in
  let second := deposit 2 "second" 0 in
  let broken := λ b : bus_record, if String.eqb (b_event b) "first" then Some "timeout" else None in
  let '(t1, out1, _) := relayOnce "wallet" 1 100 broken [first; second] in
  let '(t2, out2, _) := relayOnce "wallet" 3000 100 (λ _, None) t1 in
  Key first = Key second ∧ (b_event <$> (out1 ++ out2)) = ["second"; "first"].
Proof. vm_compute. split; reflexivity. Qed.

(** The wait after the first failure is two seconds, where the configuration's
    documentation says one. *)
Example first_wait : NextAttemptAt (failed_row 0 "timeout" (deposit 1 "e1" 0)) = 2000.
Proof. reflexivity. Qed.
