(* ===== verification/Consumer.v ===== *)
(** * kafkax: publishing and consuming (kafkax/kafkax.go)

    [process] runs one record: envelope, dedupe claim, handler with retries;
    [handle] parks what keeps failing; [consume_batch] is one turn of the consumer
    loop. They are programs over Redis, the producer, the handler and the context
    of the shutdown. The envelope's JSON codec is a parameter. *)
From S2P Require Import Prelude Prog Redis.

(** ** Configuration *)

Record DedupeConfig : Type := { dd_enabled : option bool; dd_ttl : Z }.
Definition DedupeEnabledOrDefault (c : DedupeConfig) : bool := match dd_enabled c with None => true | Some b => b end.
(** milliseconds *)
Definition dedupe_ttl (c : DedupeConfig) : Z := if Z.eqb (dd_ttl c) 0 then 24 * 3600 * 1000 else dd_ttl c.

Record KafkaConfig : Type := {
  k_enabled : bool; Source : string; Role : string; Brokers : list string; Username : string;
  Password : string; MaxRetries : Z; Dedupe : DedupeConfig }.

Definition SourceStatic : string := "static".
Definition SourcePlatform : string := "platform".
Definition RoleTenant : string := "tenant".
Definition RolePlatform : string := "platform".
Definition DLQSuffix : string := ".dlq".
Definition defaultRetries : Z := 3.

Definition SourceName (c : KafkaConfig) : string :=
  if String.eqb (trim_space (Source c)) "" then SourceStatic else trim_space (Source c).
Definition RoleName (c : KafkaConfig) : string :=
  if String.eqb (trim_space (Role c)) "" then RoleTenant else trim_space (Role c).
Definition retries (c : KafkaConfig) : Z := if 0 <? MaxRetries c then MaxRetries c else defaultRetries.

Inductive kafka_error : Type := BadSource | BadRole.

Definition ValidateKafka (c : KafkaConfig) : option kafka_error :=
  if negb (k_enabled c) then None
  else if negb (existsb (String.eqb (SourceName c)) [SourceStatic; SourcePlatform]) then Some BadSource
  else if negb (existsb (String.eqb (RoleName c)) [RoleTenant; RolePlatform]) then Some BadRole
  else None.

Record Target : Type := { t_brokers : list string; t_username : string; t_password : string }.
Definition Static (c : KafkaConfig) : Target :=
  {| t_brokers := match Brokers c with [] => ["127.0.0.1:9092"] | b => b end;
     t_username := Username c; t_password := Password c |}.

(** ** Records, events, effects *)

Record Event : Type := { ev_id : string; ev_type : string; ev_tenant : string; ev_time : Z; ev_data : string }.

Record record : Type := Record_ {
  r_topic : string; r_key : string; r_value : string; r_headers : list (string * string);
  r_partition : Z; r_offset : Z; r_time : Z }.

Inductive kE : Type → Type :=
| KRedis {X} (e : redisE X) : kE X
| KHandler (ev : Event) : kE (outcome (option string))    (* the error of the handler *)
| KDone : kE bool                                         (* ctx.Err() != nil *)
| KProduce (r : record) : kE (option string)              (* ProduceSync *)
| KCommit (at_ : list (Z * Z)) : kE (option string).      (* partition, offset *)

Definition kcall {X} (c : rcmd X) : prog kE (result X rerr) := call (KRedis (Redis c)).

Class EventCodec : Type := {
  encode_event : Event → string;
  decode_event : string → result Event string }.

Section Client.
Context `{EventCodec}.

Record Client : Type := { cfg : KafkaConfig; service : string; tenant : string; dedupe : bool }.

(** Publish; [id] is the new UUID, [now] in milliseconds, [payload] the encoded data. *)
Definition publish_record (c : Client) (topic key eventType payload id : string) (now : Z) : record :=
  {| r_topic := topic; r_key := key;
     r_value := encode_event {| ev_id := id; ev_type := eventType; ev_tenant := tenant c; ev_time := now; ev_data := payload |};
     r_headers := [("content-type", "application/json"); ("event-type", eventType)];
     r_partition := 0; r_offset := 0; r_time := now |}.

Definition Publish (c : Client) (topic key eventType payload id : string) (now : Z) : prog kE (option string) :=
  call (KProduce (publish_record c topic key eventType payload id now)).

Definition dedupe_key (c : Client) (topic id : string) : string :=
  "dedupe:" +:+ service c +:+ ":" +:+ topic +:+ ":" +:+ id.

(** [true]: handled before; the key to forget, empty when nothing was claimed. *)
Definition seen (c : Client) (topic id : string) : prog kE (bool * string) :=
  if negb (dedupe c) || String.eqb id "" then Ret (false, "") else
  let key := dedupe_key c topic id in
  let* ok := kcall (CWrite (WSetNX key "1" (dedupe_ttl (Dedupe (cfg c))))) in
  match ok with
  | Err _ => Ret (false, "")
  | Ok 1 => Ret (false, key)
  | Ok _ => Ret (true, key)
  end.

Definition forget (key : string) : prog kE unit :=
  if String.eqb key "" then Ret tt
  else let* _ := kcall (CWrite (WDel key)) in Ret tt.

(** safely: a panic is an error. *)
Definition safely (o : outcome (option string)) : option string :=
  match o with Returns e => e | Panics => Some "handler panicked" end.

(** The retry loop; [n] attempts are left, [last] is the latest error. *)
Fixpoint attempts (n : nat) (ev : Event) (key last : string) : prog kE (option string) :=
  match n with
  | O => let* _ := forget key in Ret (Some last)
  | S n =>
      let* o := call (KHandler ev) in
      match safely o with
      | None => Ret None
      | Some err =>
          let* stopped := call KDone in
          if (stopped : bool) then let* _ := forget key in Ret (Some err)
          else attempts n ev key err
      end
  end.

Definition process (c : Client) (r : record) : prog kE (option string) :=
  match decode_event (r_value r) with
  | Err e => Ret (Some ("event is not an envelope: " +:+ e))
  | Ok ev =>
      let* s := seen c (r_topic r) (ev_id ev) in
      if fst s then Ret None else attempts (Z.to_nat (retries (cfg c))) ev (snd s) ""
  end.

(** The record park writes. *)
Definition parked (c : Client) (r : record) (cause : string) : record :=
  {| r_topic := r_topic r +:+ DLQSuffix; r_key := r_key r; r_value := r_value r;
     r_headers := (r_headers r ++ [("error", cause); ("source-topic", r_topic r); ("consumer", service c)])%list;
     r_partition := 0; r_offset := 0; r_time := r_time r |}.

Definition park (c : Client) (r : record) (cause : string) : prog kE unit :=
  let* _ := call (KProduce (parked c r cause)) in Ret tt.

Definition handle (c : Client) (r : record) : prog kE unit :=
  let* err := process c r in
  match err with
  | None => Ret tt
  | Some e => let* stopped := call KDone in if (stopped : bool) then Ret tt else park c r e
  end.

Fixpoint handle_all (c : Client) (rs : list record) : prog kE unit :=
  match rs with [] => Ret tt | r :: rs => handle c r ;;; handle_all c rs end.

(** One turn of consume: the records of a poll, then the commit of all of them. *)
Definition consume_batch (c : Client) (rs : list record) : prog kE (option string) :=
  handle_all c rs ;;; call (KCommit ((λ r, (r_partition r, r_offset r + 1)) <$> rs)).

(** ** The view: Redis, the handler's runs with the error of each, the records produced
    (acknowledged or not), the shutdown, the commits *)

Record kview : Type := KV {
  kv_redis : rview; kv_runs : list (Event * option string); kv_out : list (record * bool); kv_stopped : bool;
  kv_at : list (Z * Z) }.

(** What a run of the handler came to: no error, its error, or a panic *)
Definition ran (o : outcome (option string)) : option string :=
  match o with Returns e => e | Panics => Some "handler panicked" end.

Definition k_allows (redis : ∀ X, redisE X → rview → rview → X → Prop)
    X (e : kE X) (v v' : kview) (x : X) : Prop :=
  match e in kE X return X → Prop with
  | KRedis e => λ x,
      redis _ e (kv_redis v) (kv_redis v') x ∧ kv_runs v' = kv_runs v ∧ kv_out v' = kv_out v ∧
      kv_stopped v' = kv_stopped v ∧ kv_at v' = kv_at v
  | KHandler ev => λ o, v' = KV (kv_redis v) (kv_runs v ++ [(ev, ran o)])%list (kv_out v) (kv_stopped v) (kv_at v)
  | KDone => λ b, v' = v ∧ b = kv_stopped v
  | KProduce r => λ e,
      v' = KV (kv_redis v) (kv_runs v) (kv_out v ++ [(r, bool_decide (e = None))])%list (kv_stopped v) (kv_at v)
  | KCommit at_ => λ e,
      (* the consumer's context ends with the shutdown *)
      (v' = KV (kv_redis v) (kv_runs v) (kv_out v) (kv_stopped v) (at_ ++ kv_at v)%list ∨ e ≠ None ∧ v' = v)
  end x.

(** Others may use Redis, and the service may be stopped. *)
Definition k_rely (v v' : kview) : Prop :=
  kv_runs v' = kv_runs v ∧ kv_out v' = kv_out v ∧ kv_at v' = kv_at v ∧ (kv_stopped v = true → kv_stopped v' = true).

Lemma k_rely_refl v : k_rely v v.
Proof. by split_and!. Qed.

(** Runs of the handler that failed, with these errors *)
Definition failures (errs : list string) (ev : Event) : list (Event * option string) := (λ e, (ev, Some e)) <$> errs.

Lemma failures_app a b ev : failures (a ++ b) ev = (failures a ev ++ failures b ev)%list.
Proof. apply fmap_app. Qed.


Lemma safely_ran o : safely o = ran o.
Proof. by destruct o. Qed.











(** ** Dedupe, on a store without faults *)

(** Between two calls nothing touches the key, and the service runs on. *)
Definition same_dedupe (key : string) (v v' : kview) : Prop :=
  kv_runs v' = kv_runs v ∧ look (kv_redis v') key = look (kv_redis v) key.

Lemma forget_up key v : key ≠ "" →
  wp (same_dedupe key) (k_allows (@redis_up)) (forget key)
    (λ _ v', kv_runs v' = kv_runs v ∧ look (kv_redis v') key = None) v.
Proof.
  intros Hk. unfold forget. rewrite (proj2 (String.eqb_neq _ _)) by done.
  apply wp_bind. intros v1 v2 x (Hr1 & Hk1) (Ha & Hr2 & _). cbn in Ha. cbn. split; [congruence|].
  destruct (look (kv_redis v1) key) eqn:E; destruct Ha as [-> _]; apply look_drop_eq.
Qed.

Lemma attempts_up n ev key last v s : key ≠ "" → held key s (kv_redis v) →
  wp (same_dedupe key) (k_allows (@redis_up)) (attempts n ev key last)
    (λ e v', match e with
       | None => (∃ k, kv_runs v' = (kv_runs v ++ failures k ev ++ [(ev, None)])%list) ∧ held key s (kv_redis v')
       | Some _ => (∃ k, kv_runs v' = (kv_runs v ++ failures k ev)%list) ∧ look (kv_redis v') key = None
       end) v.
Proof.
  intros Hk. revert last v. induction n as [|n IH]; intros last v Hs; cbn [attempts].
  - apply wp_bind. eapply wp_mono, forget_up; [|done]. intros [] v' [Hr Hl]. cbn. split; [|done].
    exists []. cbn. by rewrite app_nil_r.
  - apply wp_bind. intros v1 v2 o (Hr1 & Hk1) ->. cbn [wp]. unfold held in *. rewrite <- Hk1 in Hs.
    rewrite safely_ran. destruct (ran o) as [err|]; cbn [wp].
    2:{ split; [|done]. exists []. cbn. by rewrite Hr1. }
    apply wp_bind. intros v3 v4 b (Hr3 & Hk3) [-> ->]. cbn in Hr3, Hk3. cbn [wp]. rewrite <- Hk3 in Hs.
    assert (kv_runs v3 = (kv_runs v ++ failures [err] ev)%list) as Hruns by (rewrite Hr3, Hr1; done).
    destruct (kv_stopped v3).
    + apply wp_bind. eapply wp_mono, forget_up; [|done]. intros [] v' [Hr Hl]. cbn. split; [|done].
      exists [err]. congruence.
    + eapply wp_mono, IH; [|done]. intros e w He. destruct e as [e|]; destruct He as [[k He] Hl];
        (split; [|done]); exists (err :: k); rewrite He, Hruns, <- app_assoc; done.
Qed.

Lemma process_free c r ev v : decode_event (r_value r) = Ok ev → dedupe c = true → ev_id ev ≠ "" →
  let key := dedupe_key c (r_topic r) (ev_id ev) in
  look (kv_redis v) key = None →
  wp (same_dedupe key) (k_allows (@redis_up)) (process c r)
    (λ e v', match e with
       | None => (∃ k, kv_runs v' = (kv_runs v ++ failures k ev ++ [(ev, None)])%list) ∧ held key "1" (kv_redis v')
       | Some _ => (∃ k, kv_runs v' = (kv_runs v ++ failures k ev)%list) ∧ look (kv_redis v') key = None
       end) v.
Proof.
  intros Hd Hdd Hid key Hfree. unfold process. rewrite Hd. unfold seen. rewrite Hdd.
  rewrite (proj2 (String.eqb_neq _ _)) by done. cbn [negb orb]. fold key. apply wp_bind. apply wp_bind.
  intros v1 v2 x (Hr1 & Hk1) (Ha & Hr2 & _). cbn in Ha. rewrite Hk1, Hfree in Ha. destruct Ha as [Hv2 ->].
  cbn [wp fst snd]. rewrite <- Hr1, <- Hr2. apply attempts_up; [done|]. unfold held. rewrite Hv2. apply look_put_eq.
Qed.

Lemma process_duplicate c r ev s v : decode_event (r_value r) = Ok ev → dedupe c = true → ev_id ev ≠ "" →
  let key := dedupe_key c (r_topic r) (ev_id ev) in
  held key s (kv_redis v) →
  wp (same_dedupe key) (k_allows (@redis_up)) (process c r) (λ e v', e = None ∧ kv_runs v' = kv_runs v) v.
Proof.
  intros Hd Hdd Hid key Hs. unfold process. rewrite Hd. unfold seen. rewrite Hdd.
  rewrite (proj2 (String.eqb_neq _ _)) by done. cbn [negb orb]. fold key. apply wp_bind. apply wp_bind.
  intros v1 v2 x (Hr1 & Hk1) (Ha & Hr2 & _). unfold held in Hs. cbn in Ha. rewrite Hk1, Hs in Ha.
  destruct Ha as [_ ->]. cbn. split; [done|congruence].
Qed.

(** Dedupe. With Redis up, an event delivered twice is handled once: after a success
    the second delivery is skipped; after a failure (all attempts, or a
    shutdown) the id is forgotten and the second delivery runs the handler
    again, which is what a replay from the dead-letter topic needs. *)
Theorem delivered_twice_handled_once c r ev v : decode_event (r_value r) = Ok ev →
  dedupe c = true → ev_id ev ≠ "" →
  let key := dedupe_key c (r_topic r) (ev_id ev) in
  look (kv_redis v) key = None →
  wp (same_dedupe key) (k_allows (@redis_up)) (let* e1 := process c r in let* e2 := process c r in Ret (e1, e2))
    (λ e v', ∃ k, match e with
       | (None, e2) => e2 = None ∧ kv_runs v' = (kv_runs v ++ failures k ev ++ [(ev, None)])%list
       | (Some _, None) => ∃ k2, kv_runs v' = (kv_runs v ++ failures k ev ++ failures k2 ev ++ [(ev, None)])%list
       | (Some _, Some _) => ∃ k2, kv_runs v' = (kv_runs v ++ failures k ev ++ failures k2 ev)%list
       end) v.
Proof.
  intros Hd Hdd Hid key Hfree. apply wp_bind. eapply wp_mono, process_free; [|done..].
  intros [e1|] w [[k Hr] Hl]; apply wp_bind.
  - eapply wp_mono, process_free; [|done..]. intros [e2|] w2 [[k2 Hr2] _]; cbn; exists k, k2;
      by rewrite Hr2, Hr, <- app_assoc.
  - eapply wp_mono, process_duplicate; [|done..]. intros e2 w2 [-> Hr2]. cbn. exists k. by rewrite Hr2.
Qed.

(** ** Every record is accounted for *)




End Client.

(** ** A concrete world *)

Record map_k_state : Type := MK {
  mk_redis : map_redis_state; mk_script : list (outcome (option string)); mk_view : list (Event * option string);
  mk_out : list (record * bool); mk_at : list (Z * Z) }.

Definition map_k X (e : kE X) (s : map_k_state) : map_k_state * X :=
  match e in kE X return map_k_state * X with
  | KRedis e => let '(r, x) := map_redis e (mk_redis s) in
                (MK r (mk_script s) (mk_view s) (mk_out s) (mk_at s), x)
  | KHandler ev => let o := default (Returns None) (head (mk_script s)) in
                   (MK (mk_redis s) (tail (mk_script s)) (mk_view s ++ [(ev, ran o)])%list (mk_out s) (mk_at s), o)
  | KDone => (s, false)
  | KProduce r => (MK (mk_redis s) (mk_script s) (mk_view s) (mk_out s ++ [(r, true)])%list (mk_at s), None)
  | KCommit at_ => (MK (mk_redis s) (mk_script s) (mk_view s) (mk_out s) (at_ ++ mk_at s)%list, None)
  end.

(** The first [n] calls of a program, after which the process is killed. *)
Fixpoint killed {E S A} (h : ∀ X, E X → S → S * X) (n : nat) (p : prog E A) (s : S) : S :=
  match n, p with
  | S n, Vis e k => let '(s', x) := h _ e s in killed h n (k x) s'
  | _, _ => s
  end.

#[export] Instance sample_event_codec : EventCodec := {|
  encode_event e := ev_id e;
  decode_event s := Ok {| ev_id := s; ev_type := "t"; ev_tenant := "x"; ev_time := 0; ev_data := "" |} |}.

Definition sample_kafka_config : KafkaConfig :=
  {| k_enabled := true; Source := ""; Role := ""; Brokers := []; Username := ""; Password := ""; MaxRetries := 0;
     Dedupe := {| dd_enabled := None; dd_ttl := 0 |} |}.
Definition sample_client : Client :=
  {| cfg := sample_kafka_config; service := "wallet"; tenant := "x"; dedupe := true |}.
Definition sample_record : record := Record_ "bets" "user-7" "e1" [("traceparent", "00-1")] 0 41 0.
Definition sample_event : Event := {| ev_id := "e1"; ev_type := "t"; ev_tenant := "x"; ev_time := 0; ev_data := "" |}.

Lemma delivered_twice_witness :
  wp (same_dedupe (dedupe_key sample_client "bets" "e1")) (k_allows (@redis_up))
    (let* e1 := process sample_client sample_record in let* e2 := process sample_client sample_record in Ret (e1, e2))
    (λ e v', fst e = None → snd e = None) (KV (RView 0 ∅) [] [] false []).
Proof.
  eapply wp_mono; [|apply (delivered_twice_handled_once sample_client sample_record sample_event
    (KV (RView 0 ∅) [] [] false [])); [reflexivity|reflexivity|done|vm_compute; reflexivity]].
  intros [[e1|] e2] v' (k & H); cbn; [done|]. intros _. by destruct H.
Defined.


(** Finding: the id of an event is claimed before the event is handled, and only a
    process that goes on to fail gives it back. A process killed while its
    handler runs leaves the claim: Kafka redelivers the record, as at least once
    demands, and the consumer skips it as already handled. The event is lost,
    for the 24 hours of the claim, and its offset is committed. *)
Theorem killed_consumer_loses_the_event :
  let s0 := MK (empty_redis []) [] [] [] [] in
  let s1 := killed map_k 1 (process sample_client sample_record) s0 in
  let '(s2, r) := run map_k (consume_batch sample_client [sample_record]) s1 in
  mk_view s1 = [] ∧ mk_view s2 = [] ∧ mk_out s2 = [] ∧ mk_at s2 = [(0, 42)].
Proof. vm_compute. split_and!; reflexivity. Qed.

(** Finding: when the reply of the claim is lost, the event is handled "anyway" but
    the claim, which Redis did write, is not given back on failure: the record is
    parked, and its replay from the dead-letter topic is reported as done
    without the handler ever having succeeded. *)
Theorem lost_claim_reply_voids_the_replay :
  let failing := Returns (Some "database down") in
  let s0 := MK (empty_redis [LostAfter]) [failing; failing; failing] [] [] [] in
  let '(s1, e1) := run map_k (process sample_client sample_record) s0 in
  let '(s2, e2) := run map_k (process sample_client sample_record) s1 in
  e1 = Some "database down" ∧ e2 = None ∧ map snd (mk_view s2) = replicate 3 (Some "database down").
Proof. vm_compute. split_and!; reflexivity. Qed.
