(* ===== verification/Dlq.v ===== *)
(** * kafkax: the dead-letter tool (kafkax/dlq.go)

    [replayAll], [replayOne] and [drop_all] as programs over the consumer's
    effects; [recs] is what dlqPending returned: the records of the dead-letter
    topic from the position of the tool's group on. The lines the tool prints
    are part of the result. *)
From S2P Require Import Prelude Prog Redis Consumer.
From stdpp Require Import sorting.
#[local] Open Scope list_scope.
#[local] Open Scope Z_scope.

Section Tool.
Context `{EventCodec}.
Variable c : Client.

Definition header (r : record) (k : string) : option string :=
  match List.find (λ kv, String.eqb (fst kv) k) (r_headers r) with Some (_, v) => Some v | None => None end.

Definition consumerOf (r : record) : string := default "" (header r "consumer").

Definition parkedHere (r : record) : bool :=
  String.eqb (consumerOf r) "" || String.eqb (consumerOf r) (service c).

(** The headers park and an earlier replay added. *)
Definition tool_header (k : string) : bool :=
  existsb (String.eqb k) ["error"; "source-topic"; "consumer"; "replayed-from"].

Definition original (source : string) (r : record) : record :=
  {| r_topic := source; r_key := r_key r; r_value := r_value r;
     r_headers := List.filter (λ kv, negb (tool_header (fst kv))) (r_headers r) ++
       [("replayed-from", (r_topic r +:+ "@" +:+ format_int (r_offset r))%string)];
     r_partition := r_partition r; r_offset := r_offset r; r_time := r_time r |}.

Definition replayRecord (source : string) (r : record) : prog kE (option string) := process c (original source r).

Inductive line : Type :=
| Replayed (r : record) | StillFailing (r : record) (err : string) | MarkedDone (n : Z).

Record tally : Type := Tally {
  replayed : Z; skipped : Z; failed : Z; done_at : list (Z * Z); out : list line; first_err : option string }.

Definition start_tally : tally := Tally 0 0 0 [] [] None.

(** done[p] = offset + 1; the list holds the latest value of a partition first. *)
Definition set_done (r : record) (t : tally) : list (Z * Z) := (r_partition r, r_offset r + 1) :: done_at t.

Definition position (at_ : list (Z * Z)) (p : Z) : option Z :=
  snd <$> List.find (λ kv, Z.eqb (fst kv) p) at_.

(** The loop over one partition, in offset order; it breaks at the first failure. *)
Fixpoint replay_partition (source : string) (rs : list record) (t : tally) : prog kE tally :=
  match rs with
  | [] => Ret t
  | r :: rs =>
      if negb (parkedHere r) then
        replay_partition source rs (Tally (replayed t) (skipped t + 1) (failed t) (set_done r t) (out t) (first_err t))
      else
        let* e := replayRecord source r in
        match e with
        | Some err =>
            Ret (Tally (replayed t) (skipped t) (failed t + 1) (done_at t) (out t ++ [StillFailing r err])
                   (match first_err t with None => Some err | e => e end))
        | None =>
            replay_partition source rs
              (Tally (replayed t + 1) (skipped t) (failed t) (set_done r t) (out t ++ [Replayed r]) (first_err t))
        end
  end.

Definition by_offset (a b : record) : Prop := r_offset a ≤ r_offset b.
#[local] Instance by_offset_dec a b : Decision (by_offset a b) := Z_le_dec _ _.
#[local] Instance by_offset_total : Total by_offset.
Proof. intros a b. unfold by_offset. lia. Qed.
#[local] Instance by_offset_trans : Transitive by_offset.
Proof. intros a b d. unfold by_offset. lia. Qed.

Definition partitions (recs : list record) : list Z := merge_sort (≤) (remove_dups (r_partition <$> recs)).
Definition of_partition (recs : list record) (p : Z) : list record :=
  merge_sort by_offset (List.filter (λ r, Z.eqb (r_partition r) p) recs).

Fixpoint replay_partitions (source : string) (groups : list (list record)) (t : tally) : prog kE tally :=
  match groups with
  | [] => Ret t
  | rs :: groups => let* t := replay_partition source rs t in replay_partitions source groups t
  end.

Definition dlqCommit (at_ : list (Z * Z)) : prog kE (option string) :=
  match at_ with [] => Ret None | _ => call (KCommit at_) end.

(** The lines printed, and the error of the command. *)
Definition replayAll (source : string) (recs : list record) : prog kE (list line * option string) :=
  let* t := replay_partitions source (of_partition recs <$> partitions recs) start_tally in
  let* e := dlqCommit (done_at t) in
  match e with
  | Some err => Ret (out t, Some err)
  | None => Ret (out t ++ [MarkedDone (replayed t + skipped t)], first_err t)
  end.


(** drop: one past the last pending record of each partition. *)
Definition drop_step (at_ : list (Z * Z)) (r : record) : list (Z * Z) :=
  if default 0 (position at_ (r_partition r)) <? r_offset r + 1
  then (r_partition r, r_offset r + 1) :: at_ else at_.

Definition drop_all (recs : list record) : prog kE (option string) := dlqCommit (foldl drop_step [] recs).

#[export] Instance record_eq_dec : EqDecision record.
Proof. solve_decision. Defined.

#[export] Instance line_eq_dec : EqDecision line.
Proof. solve_decision. Defined.

(** ** The position of a partition *)

Lemma position_cons p o at_ p' : position ((p, o) :: at_) p' = if Z.eqb p p' then Some o else position at_ p'.
Proof. unfold position. cbn. by destruct (Z.eqb p p'). Qed.

Lemma position_app a b p : position (a ++ b) p = match position a p with Some o => Some o | None => position b p end.
Proof.
  unfold position. induction a as [|[q o] a IH]; [done|]. cbn. destruct (Z.eqb q p); [done|exact IH].
Qed.

(** A record the tool's group still has before it. *)
Definition pending (at_ : list (Z * Z)) (r : record) : Prop :=
  ∀ o, position at_ (r_partition r) = Some o → o ≤ r_offset r.




(** Runs are only ever added. *)
Definition goes_on (v v' : kview) : Prop := ∃ l, kv_runs v' = kv_runs v ++ l.

#[export] Instance goes_on_preorder : PreOrder goes_on.
Proof.
  split; [intros v; exists []; by rewrite app_nil_r|]. intros u v w [a Ha] [b Hb]. exists (a ++ b). by rewrite Hb, Ha, app_assoc.
Qed.












Lemma wp_commit redis at_ v Q :
  (∀ e v', kv_runs v' = kv_runs v → kv_at v' = at_ ++ kv_at v ∨ kv_at v' = kv_at v ∧ (at_ = [] ∨ e ≠ None) → Q e v') →
  wp k_rely (k_allows redis) (dlqCommit at_) Q v.
Proof.
  intros HQ. unfold dlqCommit. destruct at_ as [|a at_]; [apply HQ; [done|by left]|].
  intros v1 v2 e (Hr & _ & Ha & _) Hv. cbn in Hv. cbn [wp]. apply HQ.
  - destruct Hv as [->|[_ ->]]; [done|exact Hr].
  - destruct Hv as [->|[He ->]]; [left|right]; cbn; [by rewrite Ha|]. split; [done|by right].
Qed.





Lemma drop_step_covers at_ r x o : position at_ (r_partition x) = Some o → ∃ o',
  position (drop_step at_ r) (r_partition x) = Some o' ∧ o ≤ o'.
Proof.
  intros Ho. unfold drop_step. destruct (Z.ltb_spec (default 0 (position at_ (r_partition r))) (r_offset r + 1)); [|eauto with lia].
  rewrite position_cons. destruct (Z.eqb_spec (r_partition r) (r_partition x)) as [E|E]; [|eauto with lia].
  rewrite E, Ho in H0. cbn in H0. eexists. split; [done|lia].
Qed.

Lemma drop_covers recs at_ x : 0 ≤ r_offset x → x ∈ recs → ∃ o,
  position (foldl drop_step at_ recs) (r_partition x) = Some o ∧ r_offset x < o.
Proof.
  intros Hx. assert (∀ recs at_ o, position at_ (r_partition x) = Some o → ∃ o',
    position (foldl drop_step at_ recs) (r_partition x) = Some o' ∧ o ≤ o') as Hmono.
  { intros l. induction l as [|y l IH]; intros a o Ho; [eauto with lia|]. cbn.
    destruct (drop_step_covers a y x o Ho) as (o1 & H1 & Hle). destruct (IH _ _ H1) as (o2 & H2 & Hle2).
    exists o2. split; [done|lia]. }
  revert at_. induction recs as [|y recs IH]; intros at_; [by intros ?%elem_of_nil|]. cbn.
  intros [<-|Hin]%elem_of_cons; [|by apply IH].
  assert (∃ o, position (drop_step at_ x) (r_partition x) = Some o ∧ r_offset x < o) as (o & Ho & Hlt).
  { unfold drop_step. destruct (Z.ltb_spec (default 0 (position at_ (r_partition x))) (r_offset x + 1)) as [Hl|Hl].
    - rewrite position_cons, Z.eqb_refl. eexists. split; [done|lia].
    - destruct (position at_ (r_partition x)) as [o|]; cbn in Hl; [exists o; split; [done|lia]|lia]. }
  destruct (Hmono recs _ _ Ho) as (o' & Ho' & Hle). exists o'. split; [done|lia].
Qed.
End Tool.

(** A drop marks everything it read: no record of it is pending any more. *)
Lemma drop_marks_all_done `{EventCodec} redis recs v : (∀ r, r ∈ recs → 0 ≤ r_offset r) →
  wp k_rely (k_allows redis) (drop_all recs)
    (λ e v', e = None → ∀ r, r ∈ recs → ¬ pending (kv_at v') r) v.
Proof.
  intros Hoff. apply wp_commit. intros e v' _ Hat He r Hr Hp.
  destruct (drop_covers recs [] r (Hoff r Hr) Hr) as (o & Ho & Hlt).
  assert (kv_at v' = foldl drop_step [] recs ++ kv_at v) as Hv.
  { destruct Hat as [?|[Hv [Hnil|?]]]; [done| |done]. by rewrite Hnil in Ho. }
  specialize (Hp o). rewrite Hv, position_app, Ho in Hp. specialize (Hp eq_refl). lia.
Qed.

(** Two partitions; the second record of partition 0 belongs to another service. *)
Definition dead (p o : Z) (who : string) : record :=
  Record_ "bets.dlq" "k" "e1" [("error", "boom"); ("source-topic", "bets"); ("consumer", who)] p o 0.
Definition sample_dead : list record := [dead 0 4 "wallet"; dead 0 5 "risk"; dead 1 2 "wallet"].


(** The first failing record of a partition stops it; the others go on. *)
Example replay_run :
  let boom := Returns (Some "boom") in
  let s := MK (empty_redis []) [boom; boom; boom] [] [] [] in
  let '(s', (lines, err)) := run map_k (replayAll sample_client "bets" sample_dead) s in
  mk_at s' = [(1, 3)] ∧ err = Some "boom" ∧
  lines = [StillFailing (dead 0 4 "wallet") "boom"; Replayed (dead 1 2 "wallet"); MarkedDone 1].
Proof. vm_compute. split_and!; reflexivity. Qed.
