(* ===== verification/Gateway.v ===== *)
(** * hertzx: what the gateway refuses before a handler runs (hertzx/guard.go, hertzx/auth.go)

    [over] counts a request in its fixed window, in Redis or, when Redis fails,
    in this replica; [handle] is the guard's decision about a request;
    [RequireLogin] the login check. The OpenAPI document is parsed by a library:
    the limits and public operations it declares are arguments. Times are
    nanoseconds since the zero time of package time. *)
From S2P Require Import Prelude Prog Redis Limits Edges.

Record window : Type := Win { w_start : Z; w_n : Z }.
Notation counters := (gmap string window) (only parsing).

(** time.Time.Truncate and Unix *)
Definition truncate (now w : Z) : Z := if w <=? 0 then now else now - now mod w.
Definition zero_to_unix : Z := 62135596800.
Definition unix (t : Z) : Z := t / second - zero_to_unix.

Record guard : Type := Guard {
  g_cfg : GuardConfig; g_rdb : bool; g_service : string; g_debug : Z;
  g_routes : string → option Rate; g_bodies : string → option Z }.

Definition window_key (g : guard) (key : string) (start : Z) : string :=
  "rl:" +:+ g_service g +:+ ":" +:+ key +:+ ":" +:+ format_int (unix start).

(** Windows of the past hour stay when the table is large. *)
Definition prune (now : Z) (l : counters) : counters :=
  if 10000 <? Z.of_nat (size l) then filter (λ kv, now - w_start (snd kv) ≤ hour) l else l.

Definition count_locally (key : string) (r : Rate) (now start left : Z) (l : counters) : counters * Z :=
  let '(l, w) := match l !! key with
                 | Some w => if Z.eqb (w_start w) start then (l, w) else (prune now l, Win start 0)
                 | None => (prune now l, Win start 0)
                 end in
  let w := Win (w_start w) (w_n w + 1) in
  (<[key := w]> l, if N r <? w_n w then left else 0).

(** The time until the window ends when the request is over the limit, else 0. *)
Definition over (g : guard) (key : string) (r : Rate) (now : Z) (l : counters) : prog redisE (counters * Z) :=
  let start := truncate now (Window r) in
  let left := start + Window r - now in
  if g_rdb g then
    let rk := window_key g key start in
    let* incr := rcall (CWrite (WIncr rk)) in
    let* expire := rcall (CWrite (WPExpire rk ((Window r + second) / 1000000))) in
    match incr, expire with
    | Ok n, Ok _ => Ret (l, if N r <? n then left else 0)
    | _, _ => Ret (count_locally key r now start left l)
    end
  else Ret (count_locally key r now start left l).

(** Retry-After, in whole seconds *)
Definition retry_after (retry : Z) : Z := Z.max 1 ((retry + 999000000) / second).

Inductive guard_answer : Type :=
| TooMany (scope : string) (secs : Z)        (* 429, code 1008 *)
| BodyTooLarge                               (* 413, code 1001 *)
| Pass (timeout : Z).                        (* the handler, under this deadline *)

Record guarded_request : Type := {
  gr_method : string; gr_path : string; gr_ip : string; gr_body : Z; gr_tagged : bool }.

Definition operation (q : guarded_request) : string := gr_method q +:+ " " +:+ gr_path q.

Definition RequestTimeout (g : GuardConfig) : Z := if Z.eqb (Timeout g) 0 then 10 * second else Timeout g.

Definition body_limit (g : guard) (q : guarded_request) : Z :=
  match g_bodies g (operation q) with Some n => n | None => MaxBody (g_cfg g) end.

(** The part of handle after the counting. *)
Definition after_counting (g : guard) (q : guarded_request) : guard_answer :=
  if body_limit g q <? gr_body q then BodyTooLarge
  else Pass (if (0 <? g_debug g) && gr_tagged q then g_debug g else RequestTimeout (g_cfg g)).

Definition handle (g : guard) (q : guarded_request) (now : Z) (l : counters) : prog redisE (counters * guard_answer) :=
  if isFrameworkPath (gr_path q) then Ret (l, after_counting g q) else
  let* s := (if Off (PerIP (g_cfg g)) then Ret (l, 0) else over g ("ip:" +:+ gr_ip q) (PerIP (g_cfg g)) now l) in
  if 0 <? snd s then Ret (fst s, TooMany "service" (retry_after (snd s))) else
  let* s := (match g_routes g (operation q) with
             | Some r => if Off r then Ret (fst s, 0)
                         else over g ("route:" +:+ gr_path q +:+ ":" +:+ gr_ip q) r now (fst s)
             | None => Ret (fst s, 0)
             end) in
  if 0 <? snd s then Ret (fst s, TooMany "route" (retry_after (snd s)))
  else Ret (fst s, after_counting g q).

(** The answer of the guard once the handler returned: 504 when the deadline
    passed and nothing was written. *)
Definition timed_out (deadline_exceeded : bool) (body_written : Z) : bool :=
  deadline_exceeded && (body_written =? 0).

(** ** The login check *)

Definition CodeUnauthenticated : Z := 1004.
Definition CodeSessionRevoked : Z := 1005.

Inductive login_answer (Id : Type) : Type :=
| Anonymous                               (* a public operation: no identity *)
| LoggedIn (id : Id) (token : string)
| Reject (code : Z) (reason : string).    (* 401 *)
Arguments Anonymous {Id}.
Arguments LoggedIn {Id} id token.
Arguments Reject {Id} code reason.

(** How Verify refuses. *)
Inductive token_refusal : Type := Revoked (reason : string) | Invalid.

Definition RequireLogin {Id} (public : string → bool) (verify : string → result Id token_refusal)
    (bearer : string → string) (method path authorization : string) : login_answer Id :=
  if isFrameworkPath path || public (method +:+ " " +:+ path) || public path then Anonymous else
  let token := bearer authorization in
  if String.eqb token "" then Reject CodeUnauthenticated ""
  else match verify token with
       | Err (Revoked reason) => Reject CodeSessionRevoked reason
       | Err Invalid => Reject CodeUnauthenticated ""
       | Ok id => LoggedIn id token
       end.

(** publicOperations: an operation whose security list is present and empty, plus
    the paths the caller names. *)
Definition public_operations (ops : list (string * string * option nat)) (paths : list string) (k : string) : bool :=
  existsb (λ '(path, method, sec), match sec with
    | Some 0%nat => String.eqb k (to_upper method +:+ " " +:+ path)
    | _ => false end) ops || existsb (String.eqb k) paths.

(** ** The window *)

Lemma truncate_bounds now w : 0 < w → truncate now w ≤ now < truncate now w + w.
Proof.
  intros Hw. unfold truncate. rewrite (proj2 (Z.leb_gt _ _)) by lia.
  pose proof (Z.mod_pos_bound now w Hw). lia.
Qed.

(** How long a counter lives after the last request it counted, in milliseconds *)
Definition window_ttl (w : Z) : Z := w / 1000000 + 1000.

(** The counter of a window stands at [n], and it does not expire before [T]. *)
Definition counted (T : Z) (k : string) (n : Z) (v : rview) : Prop :=
  if n =? 0 then look v k = None
  else ∃ ex, rv_data v !! k = Some (RNum n, ex) ∧ from_option (λ t, T ≤ t) True ex.

(** Time passes on the server, up to [T]; nobody else writes the counter. Whether it has
    expired by then is for the server to say. *)
Definition until (T : Z) (k : string) (v v' : rview) : Prop :=
  rv_data v' !! k = rv_data v !! k ∧ rv_now v ≤ rv_now v' < T.

Lemma counted_look T k n v : rv_now v < T → counted T k n v → look v k = if n =? 0 then None else Some (RNum n).
Proof.
  unfold counted. intros Ht. destruct (n =? 0); [done|]. intros (ex & E & Hex). unfold look, fresh. rewrite E. cbn.
  destruct ex as [t|]; [|done]. cbn in Hex. by rewrite bool_decide_true by lia.
Qed.

Lemma counted_until T k n v v' : until T k v v' → counted T k n v → counted T k n v'.
Proof.
  intros [Hd Ht]. unfold counted. rewrite Hd. destruct (n =? 0); [|done]. unfold look. rewrite Hd.
  destruct (rv_data v !! k) as [e|]; [|done]. unfold fresh. destruct (snd e) as [t|]; [|done].
  case_bool_decide; [done|]. intros _. by rewrite bool_decide_false by lia.
Qed.

(** INCR of the counter, then its expiry *)
Lemma counted_incr T k n v v' x : 0 ≤ n → rv_now v < T → counted T k n v → redis_up (Redis (CWrite (WIncr k))) v v' x →
  x = Ok (n + 1) ∧ rv_data v' !! k = Some (RNum (n + 1), if n =? 0 then None else old_expiry v k) ∧ rv_now v' = rv_now v.
Proof.
  intros Hn Ht Hc Ha. cbn in Ha. rewrite (counted_look T k n v Ht Hc) in Ha. destruct (Z.eqb_spec n 0) as [->|].
  - destruct Ha as [-> ->]. split_and!; [done|apply lookup_insert_eq|done].
  - destruct Ha as [-> ->]. split_and!; [done|apply lookup_insert_eq|done].
Qed.

Lemma over_up g key r now l n T v : g_rdb g = true → 0 < Window r →
  let rk := window_key g key (truncate now (Window r)) in
  counted T rk n v → 0 ≤ n → T ≤ rv_now v + window_ttl (Window r) → rv_now v < T →
  wp (until T rk) (@redis_up) (over g key r now l)
    (λ a v', a = (l, if N r <? n + 1 then truncate now (Window r) + Window r - now else 0) ∧
             counted T rk (n + 1) v' ∧ rv_now v ≤ rv_now v' < T) v.
Proof.
  intros Hr Hw rk Hn Hpos HT _. unfold over. rewrite Hr. fold rk.
  apply wp_bind. intros v1 v2 x Hu1 Ha. pose proof (counted_until _ _ _ _ _ Hu1 Hn) as Hn1. destruct Hu1 as [_ Ht1].
  destruct (counted_incr T rk n v1 v2 x Hpos ltac:(lia) Hn1 Ha) as (-> & Hd & Hnow). clear Ha.
  assert (counted T rk (n + 1) v2) as Hn2.
  { unfold counted. rewrite (proj2 (Z.eqb_neq _ _)) by lia. eexists. split; [exact Hd|]. unfold counted in Hn1.
    destruct (n =? 0); [done|]. destruct Hn1 as (ex & E & Hex). unfold old_expiry. rewrite E. by destruct (fresh v1 _). }
  cbn [wp]. apply wp_bind. intros v3 v4 y Hu3 Ha. pose proof (counted_until _ _ _ _ _ Hu3 Hn2) as Hn3. destruct Hu3 as [_ Ht3].
  pose proof (counted_look T rk (n + 1) v3 ltac:(lia) Hn3) as Hl. rewrite (proj2 (Z.eqb_neq _ _)) in Hl by lia.
  cbn in Ha. rewrite Hl in Ha.
  assert ((Window r + second) / 1000000 = window_ttl (Window r)) as Httl.
  { unfold window_ttl. change second with (1000 * 1000000). by rewrite Z.div_add by lia. }
  assert (0 < window_ttl (Window r)) by (unfold window_ttl; pose proof (Z.div_pos (Window r) 1000000 ltac:(lia) ltac:(lia)); lia).
  rewrite Httl, bool_decide_false in Ha by lia. destruct Ha as [-> ->]. cbn. split; [done|]. split; [|lia].
  unfold counted. rewrite (proj2 (Z.eqb_neq _ _)) by lia. eexists. split; [apply lookup_insert_eq|]. cbn. lia.
Qed.

(** [k] requests of one client in one window, whichever replica counts them. *)
Fixpoint over_all (key : string) (r : Rate) (calls : list (guard * Z)) : prog redisE (list Z) :=
  match calls with
  | [] => Ret []
  | (g, now) :: calls =>
      let* a := over g key r now ∅ in let* rest := over_all key r calls in Ret (snd a :: rest)
  end.

(** The first [N] are let through, the others told to wait. *)
Definition verdicts (r : Rate) (n : Z) (lefts : list Z) : list Z :=
  imap (λ i left, if N r <? n + Z.of_nat i + 1 then left else 0) lefts.

Lemma over_all_up key r start rk n T calls v : 0 < Window r → 0 ≤ n →
  Forall (λ gn, g_rdb (fst gn) = true ∧ truncate (snd gn) (Window r) = start ∧
                window_key (fst gn) key start = rk) calls →
  counted T rk n v → T ≤ rv_now v + window_ttl (Window r) → rv_now v < T →
  wp (until T rk) (@redis_up) (over_all key r calls)
    (λ a v', a = verdicts r n ((λ gn, start + Window r - snd gn) <$> calls)) v.
Proof.
  intros Hw. revert n v. induction calls as [|[g now] calls IH]; intros n v Hn Hf Hc HT Hlt; [done|].
  apply Forall_cons in Hf as [(Hr & Ht & Hk) Hf]. cbn [fst snd] in *. cbn [over_all]. apply wp_bind.
  pose proof (over_up g key r now ∅ n T v Hr Hw) as Ho. rewrite Ht, Hk in Ho. cbn zeta in Ho.
  eapply wp_mono, Ho; [|done..]. intros a w (-> & Hc' & Hnow). apply wp_bind.
  eapply wp_mono, (IH (n + 1)); [|lia|done|exact Hc'|lia|lia]. intros rest w' ->. cbn [wp snd fmap list_fmap].
  unfold verdicts. rewrite imap_cons. f_equal.
  - by rewrite Z.add_0_r.
  - apply imap_ext. intros i x _. cbn. by replace (n + 1 + Z.of_nat i + 1) with (n + Z.of_nat (S i) + 1) by lia.
Qed.

(** C40. The rate limit holds across replicas that count in Redis, when Redis answers: of the
    requests one client makes in one window, whichever replicas of the service they reach,
    exactly the first [N] pass; every later one is refused with the time until the window
    ends, which is positive, at most the window, and reported as at least one second. Nobody
    else writes the counter; Redis may expire it, and does not while the requests of the
    window come, which on its clock takes at most the window and a second. *)
Theorem rate_limit_across_replicas key r start service calls v : 0 < Window r →
  Forall (λ gn, g_rdb (fst gn) = true ∧ g_service (fst gn) = service ∧ truncate (snd gn) (Window r) = start) calls →
  let rk := "rl:" +:+ service +:+ ":" +:+ key +:+ ":" +:+ format_int (unix start) in
  look v rk = None →
  wp (until (rv_now v + Window r / 1000000 + 1000) rk) (@redis_up) (over_all key r calls)
    (λ a v', length a = length calls ∧ ∀ i g now x, calls !! i = Some (g, now) → a !! i = Some x →
       if Z.of_nat i <? N r then x = 0
       else x = start + Window r - now ∧ 0 < x ≤ Window r ∧ 1 ≤ retry_after x) v.
Proof.
  intros Hw Hf rk Hv. eapply wp_mono; [|apply (over_all_up key r start rk 0); [done|lia| |done|unfold window_ttl; lia|]].
  3:{ pose proof (Z.div_pos (Window r) 1000000 ltac:(lia) ltac:(lia)). lia. }
  2:{ apply Forall_forall. intros gn Hin. rewrite Forall_forall in Hf. destruct (Hf gn Hin) as (H1 & H2 & H3).
      split_and!; [done|done|]. unfold window_key. by rewrite H2. }
  intros a v' ->. unfold verdicts. split; [by rewrite length_imap, length_fmap|].
  intros i g now x Hi Hx. rewrite list_lookup_imap, list_lookup_fmap, Hi in Hx. cbn in Hx. injection Hx as <-.
  rewrite Forall_forall in Hf.
  destruct (Hf (g, now)) as (_ & _ & Ht); [by eapply list_elem_of_lookup_2|]. cbn in Ht.
  destruct (Z.ltb_spec (Z.of_nat i) (N r)), (Z.ltb_spec (N r) (0 + Z.of_nat i + 1)); try lia.
  pose proof (truncate_bounds now (Window r) Hw). split_and!; try lia. unfold retry_after. lia.
Qed.

(** A request reaches its handler only with a body no larger than the route's
    limit (or the service's, for a route without one), under the configured
    deadline, or the debug deadline when debugging is on and the request is
    tagged. The service's own paths are never counted. *)
Theorem handler_only_within_limits (redis : ∀ X, redisE X → rview → rview → X → Prop) rely g q now l v :
  wp rely redis (handle g q now l)
    (λ a v', ∀ t, snd a = Pass t →
       gr_body q ≤ body_limit g q ∧
       (t = RequestTimeout (g_cfg g) ∨ t = g_debug g ∧ 0 < g_debug g ∧ gr_tagged q = true)) v ∧
  (isFrameworkPath (gr_path q) = true → handle g q now l = Ret (l, after_counting g q)).
Proof.
  assert (∀ t, after_counting g q = Pass t → gr_body q ≤ body_limit g q ∧
    (t = RequestTimeout (g_cfg g) ∨ t = g_debug g ∧ 0 < g_debug g ∧ gr_tagged q = true)) as Ha.
  { unfold after_counting. intros t. destruct (Z.ltb_spec (body_limit g q) (gr_body q)); [done|].
    destruct (Z.ltb_spec 0 (g_debug g)); cbn [andb]; [|intros [= <-]; auto].
    destruct (gr_tagged q); intros [= <-]; auto. }
  split; [|by unfold handle; intros ->]. unfold handle. destruct (isFrameworkPath (gr_path q)); [exact Ha|].
  apply wp_any. intros s w. destruct (0 <? snd s); [done|]. apply wp_any. intros s2 w2.
  destruct (0 <? snd s2); [done|exact Ha].
Qed.

(** Behind RequireLogin a handler runs only for the service's own paths, an
    operation the document marks public, or with an identity that Verify
    vouched for, of exactly the token the request carried; a refused token is 1005
    with its reason when the session ended, else 1004. *)
Theorem login_required {Id} public (verify : string → result Id token_refusal) bearer method path auth :
  match RequireLogin public verify bearer method path auth with
  | Anonymous => isFrameworkPath path = true ∨ public (method +:+ " " +:+ path) = true ∨ public path = true
  | LoggedIn id token => token = bearer auth ∧ token ≠ "" ∧ verify token = Ok id
  | Reject code reason =>
      (code = CodeSessionRevoked ∧ verify (bearer auth) = Err (Revoked reason)) ∨
      (code = CodeUnauthenticated ∧ (bearer auth = "" ∨ verify (bearer auth) = Err Invalid))
  end.
Proof.
  unfold RequireLogin.
  destruct (isFrameworkPath path), (public (method +:+ " " +:+ path)), (public path); cbn [orb]; try tauto.
  destruct (String.eqb_spec (bearer auth) ""); [right; auto|].
  destruct (verify (bearer auth)) as [id|[reason|]] eqn:E; auto.
Qed.

(** ** Samples *)

Definition sample_guard (service : string) : guard :=
  Guard {| MaxBodyBytes := 0; Timeout := 0; RatePerIP := MkRate 2 minute true |} true service 0
    (λ _, None) (λ _, None).

Lemma rate_limit_witness :
  wp (until 61000 "rl:api:ip:1.2.3.4:-62135596800") (@redis_up)
    (over_all "ip:1.2.3.4" (MkRate 2 minute true)
       [(sample_guard "api", 1); (sample_guard "api", second); (sample_guard "api", 2 * second)])
    (λ a _, a !! 0%nat = Some 0 → a !! 2%nat ≠ Some 0) (RView 0 ∅).
Proof.
  eapply wp_mono; [|apply (rate_limit_across_replicas "ip:1.2.3.4" (MkRate 2 minute true) 0 "api"
    [(sample_guard "api", 1); (sample_guard "api", second); (sample_guard "api", 2 * second)])].
  - intros a v' [_ H] _ H2. specialize (H 2%nat (sample_guard "api") (2 * second) 0 eq_refl H2).
    change (Z.of_nat 2 <? N (MkRate 2 minute true)) with false in H. cbn beta iota in H. lia.
  - by vm_compute.
  - repeat constructor.
  - vm_compute. reflexivity.
Defined.

(** A replica that cannot reach Redis counts on its own. *)
Example falls_back_to_local :
  let g := sample_guard "api" in
  let q := {| gr_method := "GET"; gr_path := "/bets"; gr_ip := "1.2.3.4"; gr_body := 0; gr_tagged := false |} in
  let s := empty_redis [LostBefore] in
  snd (snd (run (@map_redis) (handle g q 0 {[ "ip:1.2.3.4" := Win 0 2 ]}) s)) = TooMany "service" 60.
Proof. vm_compute. reflexivity. Qed.
