(* ===== verification/Httpx.v ===== *)
(** * httpx: calling an external API (httpx/httpx.go, guard.go, auth.go, redact.go)

    The decisions of the client: what is retried, which addresses may be dialled
    ([isPrivateOrLocal] on the bytes of the address), how a request is signed, what
    counts as a failure for the breaker, and what a logged text may contain. The
    transports themselves (resty, net/http, gobreaker, oauth2) are not under src/. *)
From Stdlib Require Import Btauto.
From S2P Require Import Prelude Edges Webhook.

(** ** Provider configuration *)

Definition defaultTimeout : Z := 5 * second.
Definition defaultRetries : Z := 2.
Definition defaultMaxConcurrent : Z := 64.
Definition defaultBreakerFailures : Z := 5.
Definition defaultBreakerOpenFor : Z := 30 * second.

Definition at_least_0 (o : option Z) (def : Z) : Z := match o with None => def | Some n => Z.max 0 n end.
Definition maxConcurrent (o : option Z) : Z := at_least_0 o defaultMaxConcurrent.
Definition breakerFailures (o : option Z) : Z := at_least_0 o defaultBreakerFailures.
Definition retries (o : option Z) : Z := at_least_0 o defaultRetries.

(** ** Retries *)

Inductive call_error : Type := ErrCircuitOpen | ErrTooManyInFlight | ErrPrivateHost | ErrNetwork | ErrOther.

(** What a finished attempt shows: [sent] is the method of the request that went
    out, [None] when none did. *)
Definition retryCondition (sent : option string) (status : Z) (err : option call_error) : bool :=
  match err with
  | Some ErrCircuitOpen | Some ErrTooManyInFlight => false
  | _ =>
      match sent with
      | None => match err with Some _ => true | None => false end
      | Some m =>
          if existsb (String.eqb m) ["GET"; "HEAD"; "OPTIONS"; "PUT"; "DELETE"] then
            match err with Some _ => true | None => (status =? 429) || (500 <=? status) end
          else false
      end
  end.

(** ** The breaker's view of an attempt, and what the caller gets *)

Inductive attempt : Type := Response (status : Z) | Failed (e : call_error).

Definition failedStatus (status : Z) : bool := (500 <=? status) || (status =? 429).

(** IsSuccessful of the breaker's settings, on what Execute is given *)
Definition isSuccessful (a : attempt) : bool :=
  match a with
  | Response status => negb (failedStatus status)
  | Failed ErrNetwork => false
  | Failed _ => true
  end.

(** The breaker let the attempt through, or refused it (open, or a probe is out). *)
Definition guard_answer (admitted : bool) (a : attempt) : attempt := if admitted then a else Failed ErrCircuitOpen.

Definition ReadyToTrip (failures consecutive : Z) : bool := failures <=? consecutive.

(** ** Addresses *)

(** net.IP: four or sixteen bytes *)
Definition to4 (ip : list Z) : option (list Z) :=
  if Nat.eqb (length ip) 4 then Some ip
  else if Nat.eqb (length ip) 16 && bool_decide (take 12 ip = [0; 0; 0; 0; 0; 0; 0; 0; 0; 0; 255; 255])
  then Some (drop 12 ip) else None.

Definition len16 (ip : list Z) : bool := Nat.eqb (length ip) 16.
Definition byte (ip : list Z) (i : nat) : Z := nth i ip 0.

Definition v6_of (last : Z) : list Z := [0; 0; 0; 0; 0; 0; 0; 0; 0; 0; 0; 0; 0; 0; 0; last].

Definition IsLoopback (ip : list Z) : bool :=
  match to4 ip with Some v => byte v 0 =? 127 | None => bool_decide (ip = v6_of 1) end.
Definition IsPrivate (ip : list Z) : bool :=
  match to4 ip with
  | Some v => (byte v 0 =? 10) || ((byte v 0 =? 172) && (Z.land (byte v 1) 240 =? 16))
              || ((byte v 0 =? 192) && (byte v 1 =? 168))
  | None => len16 ip && (Z.land (byte ip 0) 254 =? 252)
  end.
Definition IsLinkLocalUnicast (ip : list Z) : bool :=
  match to4 ip with
  | Some v => (byte v 0 =? 169) && (byte v 1 =? 254)
  | None => len16 ip && (byte ip 0 =? 254) && (Z.land (byte ip 1) 192 =? 128)
  end.
Definition IsLinkLocalMulticast (ip : list Z) : bool :=
  match to4 ip with
  | Some v => (byte v 0 =? 224) && (byte v 1 =? 0) && (byte v 2 =? 0)
  | None => len16 ip && (byte ip 0 =? 255) && (Z.land (byte ip 1) 15 =? 2)
  end.
Definition IsInterfaceLocalMulticast (ip : list Z) : bool :=
  len16 ip && (byte ip 0 =? 255) && (Z.land (byte ip 1) 15 =? 1).
Definition IsMulticast (ip : list Z) : bool :=
  match to4 ip with
  | Some v => Z.land (byte v 0) 240 =? 224
  | None => len16 ip && (byte ip 0 =? 255)
  end.
Definition IsUnspecified (ip : list Z) : bool :=
  match to4 ip with Some v => bool_decide (v = [0; 0; 0; 0]) | None => bool_decide (ip = v6_of 0) end.

(** cgnat.Contains: 100.64.0.0/10 *)
Definition in_cgnat (ip : list Z) : bool :=
  match to4 ip with Some v => (byte v 0 =? 100) && (Z.land (byte v 1) 192 =? 64) | None => false end.

Definition isPrivateOrLocal (ip : list Z) : bool :=
  let ip := match to4 ip with Some v => v | None => ip end in
  IsLoopback ip || IsPrivate ip || IsLinkLocalUnicast ip || IsLinkLocalMulticast ip ||
  IsInterfaceLocalMulticast ip || IsMulticast ip || IsUnspecified ip || in_cgnat ip.

(** denyPrivateHosts: [split] is net.SplitHostPort's host, [parse] net.ParseIP. *)
Definition denyPrivateHosts (split : string → option string) (parse : string → option (list Z)) (address : string) :
    option call_error :=
  match split address with
  | None => Some ErrPrivateHost
  | Some host =>
      match parse host with
      | None => Some ErrPrivateHost
      | Some ip => if isPrivateOrLocal ip then Some ErrPrivateHost else None
      end
  end.

(** ** Authentication *)

Record Auth : Type := {
  AType : string; Token : string; AUsername : string; APassword : string; ASecret : string; AHeader : string;
  ATimestampHeader : string; APayload : string; AEncoding : string; TokenURL : string; ClientID : string;
  ClientSecret : string }.

Inductive auth_error : Type := FieldRequired (name : string) | AuthEncoding | AuthType.

Definition need (fields : list (string * string)) : option auth_error :=
  match List.find (λ f, String.eqb (trim_space (snd f)) "") fields with
  | Some (n, _) => Some (FieldRequired n)
  | None => None
  end.

Definition ValidateAuth (a : Auth) : option auth_error :=
  if String.eqb (AType a) "" || String.eqb (AType a) "custom" then None
  else if String.eqb (AType a) "bearer" then need [("token", Token a)]
  else if String.eqb (AType a) "basic" then need [("username", AUsername a); ("password", APassword a)]
  else if String.eqb (AType a) "hmac-sha256" then
    if given (AEncoding a) && negb (String.eqb (AEncoding a) "hex") && negb (String.eqb (AEncoding a) "base64")
    then Some AuthEncoding else need [("secret", ASecret a)]
  else if String.eqb (AType a) "oauth2" then
    need [("token_url", TokenURL a); ("client_id", ClientID a); ("client_secret", ClientSecret a)]
  else Some AuthType.

Definition defaultHMACPayload : string := "{method}\n{path}\n{timestamp}\n{body}".
Definition payloadTemplate (a : Auth) : string := if String.eqb (APayload a) "" then defaultHMACPayload else APayload a.

(** The request as the transports see it. *)
Record out_request : Type := {
  o_method : string; o_path : string; o_query : string; o_headers : list (string * string); o_body : string }.

(** http.Header.Set *)
Definition header_set (k v : string) (h : list (string * string)) : list (string * string) :=
  (List.filter (λ kv, negb (String.eqb (canonical_key (fst kv)) (canonical_key k))) h ++ [(k, v)])%list.

Definition with_headers (r : out_request) (h : list (string * string)) : out_request :=
  {| o_method := o_method r; o_path := o_path r; o_query := o_query r; o_headers := h; o_body := o_body r |}.

(** The request as an event the other side reads. *)
Definition as_event (r : out_request) : Event :=
  {| Provider := ""; ID := ""; Method := o_method r; Path := o_path r; Headers := o_headers r; Body := o_body r;
     EvClientIP := "" |}.

Section Sign.
Context `{Codecs}.

(** [sec] is the clock, in unix seconds. *)
Definition signHMAC (a : Auth) (sec : Z) (r : out_request) : out_request :=
  let ts := format_int sec in
  let payload := if String.eqb (APayload a) "" then defaultHMACPayload else APayload a in
  let text := replace_all (String.length payload) (replacements (as_event r) (o_query r) ts) payload in
  let sum := hmac_sha256 (ASecret a) text in
  let sig := if String.eqb (AEncoding a) "base64" then b64_encode sum else hex_encode sum in
  let h := header_set (if String.eqb (AHeader a) "" then "X-Signature" else AHeader a) sig (o_headers r) in
  let tsHeader := if String.eqb (ATimestampHeader a) "" && contains "{timestamp}" (payloadTemplate a)
                  then "X-Timestamp" else ATimestampHeader a in
  with_headers r (if given tsHeader then header_set tsHeader ts h else h).

Inductive sign_error : Type := NoSigner | SignFailed | TokenFailed.

(** authTransport.RoundTrip up to the next transport; [oauth] is the cached token
    or its error, [signer] the integration's. *)
Definition sign_request (a : Auth) (sec : Z) (basic : string → string → string) (oauth : option string)
    (signer : option (out_request → option out_request)) (r : out_request) : result out_request sign_error :=
  if String.eqb (AType a) "" then Ok r
  else if String.eqb (AType a) "bearer" then
    Ok (with_headers r (header_set "Authorization" ("Bearer " +:+ Token a) (o_headers r)))
  else if String.eqb (AType a) "basic" then
    Ok (with_headers r (header_set "Authorization" (basic (AUsername a) (APassword a)) (o_headers r)))
  else if String.eqb (AType a) "oauth2" then
    match oauth with
    | None => Err TokenFailed
    | Some t => Ok (with_headers r (header_set "Authorization" ("Bearer " +:+ t) (o_headers r)))
    end
  else if String.eqb (AType a) "hmac-sha256" then Ok (signHMAC a sec r)
  else if String.eqb (AType a) "custom" then
    match signer with
    | None => Err NoSigner
    | Some s => match s r with None => Err SignFailed | Some r => Ok r end
    end
  else Ok r.
End Sign.

(** ** Redaction *)

(** The classes of the regular expression of redact.go; [\s] is tab, newline,
    form feed, carriage return and space. *)
Definition stop_byte (c : ascii) : bool :=
  existsb (Nat.eqb (nat_of_ascii c)) [9; 10; 12; 13; 32; 34; 38; 39; 60; 62]%nat.
Definition name_byte (c : ascii) : bool := negb (stop_byte c) && negb (Ascii.eqb c "=").
Definition value_byte (c : ascii) : bool := negb (stop_byte c).

(** The automaton of the expression: plain text, right after "?" or "&", inside a
    name, inside a value. *)
Inductive scan : Type := Plain | Start | Name | Value.

Definition plain_next (c : ascii) : scan := if Ascii.eqb c "?" || Ascii.eqb c "&" then Start else Plain.

(** queryValue.ReplaceAllString(s, "$1=***") *)
Fixpoint redact_from (st : scan) (s : string) : string :=
  match s with
  | "" => ""
  | String c s =>
      match st with
      | Plain => String c (redact_from (plain_next c) s)
      | Start => String c (redact_from (if name_byte c then Name else plain_next c) s)
      | Name => if Ascii.eqb c "=" then "=***" +:+ redact_from Value s
                else String c (redact_from (if name_byte c then Name else plain_next c) s)
      | Value => if value_byte c then redact_from Value s else String c (redact_from (plain_next c) s)
      end
  end.

Definition redactQuery : string → string := redact_from Plain.

(** strings.ReplaceAll for a non-empty old string *)
Definition replace_string (old new s : string) : string := replace_all (String.length s) [(old, new)] s.

(** Client.Secret, [path_escape] and [query_escape] being net/url's *)
Definition Secret_ (path_escape query_escape : string → string) (keep values : list string) : list string :=
  foldl (λ keep v,
    if String.eqb v "" then keep
    else (keep ++ v :: (if String.eqb (path_escape v) v then [] else [path_escape v]) ++
           (if String.eqb (query_escape v) v then [] else [query_escape v]))%list) keep values.

Definition redactSecrets (secrets : list string) (s : string) : string :=
  foldl (λ s v, replace_string v "***" s) s secrets.

Definition redact (secrets : list string) (s : string) : string := redactSecrets secrets (redactQuery s).

(** ** Theorems *)

(** A request that is not idempotent is never sent twice: when the attempt that
    went out was a POST or a PATCH, no outcome makes it retried. An idempotent
    one is retried exactly on a network error, 429 or 5xx, and nothing is
    retried that the breaker or the concurrency limit refused. *)
Theorem only_idempotent_requests_are_retried m status err :
  retryCondition (Some m) status err = true ↔
  m ∈ ["GET"; "HEAD"; "OPTIONS"; "PUT"; "DELETE"] ∧ err ≠ Some ErrCircuitOpen ∧ err ≠ Some ErrTooManyInFlight ∧
  (err ≠ None ∨ status = 429 ∨ 500 ≤ status).
Proof.
  assert (existsb (String.eqb m) ["GET"; "HEAD"; "OPTIONS"; "PUT"; "DELETE"] = true ↔
    m ∈ ["GET"; "HEAD"; "OPTIONS"; "PUT"; "DELETE"]) as Hm.
  { rewrite existsb_exists. split.
    - intros (x & Hx & He%String.eqb_eq). subst. by apply list_elem_of_In.
    - intros Hx. exists m. split; [by apply list_elem_of_In|apply String.eqb_refl]. }
  assert ((status =? 429) || (500 <=? status) = true ↔ status = 429 ∨ 500 ≤ status) as Hs by lia.
  unfold retryCondition. rewrite <- Hm.
  destruct (existsb _ _), err as [[]|]; naive_solver.
Qed.

(** A failed status trips the breaker and still reaches the caller. *)
Lemma failed_status_is_counted_and_returned status : failedStatus status = true →
  isSuccessful (Response status) = false ∧ guard_answer true (Response status) = Response status.
Proof. cbn. by intros ->. Qed.

Lemma byte_cases (P : Z → bool) : forallb P (Z.of_nat <$> List.seq 0 256) = true → ∀ b, 0 ≤ b < 256 → P b = true.
Proof.
  intros H b Hb. rewrite forallb_forall in H. apply H. apply list_elem_of_In, list_elem_of_fmap.
  exists (Z.to_nat b). split; [lia|]. apply list_elem_of_In, in_seq. lia.
Qed.

Lemma land_mask b m v lo hi :
  forallb (λ b, Bool.eqb (Z.land b m =? v) ((lo <=? b) && (b <=? hi))) (Z.of_nat <$> List.seq 0 256) = true →
  0 ≤ b < 256 → (Z.land b m =? v) = (lo <=? b) && (b <=? hi).
Proof. intros H Hb. by apply eqb_prop, (byte_cases _ H). Qed.

(** The IPv4 ranges a provider may not live in: first and last address. *)
Definition v4 (a b c d : Z) : Z := a * 2 ^ 24 + b * 2 ^ 16 + c * 2 ^ 8 + d.
Definition denied_v4 : list (Z * Z) :=
  [(v4 0 0 0 0, v4 0 0 0 0); (v4 10 0 0 0, v4 10 255 255 255); (v4 100 64 0 0, v4 100 127 255 255);
   (v4 127 0 0 0, v4 127 255 255 255); (v4 169 254 0 0, v4 169 254 255 255); (v4 172 16 0 0, v4 172 31 255 255);
   (v4 192 168 0 0, v4 192 168 255 255); (v4 224 0 0 0, v4 239 255 255 255)].
Definition in_ranges (l : list (Z * Z)) (n : Z) : bool := existsb (λ r, (fst r <=? n) && (n <=? snd r)) l.

(** Which addresses deny_private_hosts refuses, on the bytes the dialer resolved:
    of the IPv4 addresses, in four bytes or mapped into sixteen, exactly
    those of the ranges 0.0.0.0, 10/8, 100.64/10, 127/8, 169.254/16, 172.16/12,
    192.168/16 and 224/4; of the other sixteen-byte ones exactly ::, ::1, fc00::/7,
    fe80::/10 and ff00::/8. *)
Theorem private_addresses_are_denied a b c d ip :
  0 ≤ a < 256 → 0 ≤ b < 256 → 0 ≤ c < 256 → 0 ≤ d < 256 →
  isPrivateOrLocal [a; b; c; d] = in_ranges denied_v4 (v4 a b c d) ∧
  isPrivateOrLocal [0; 0; 0; 0; 0; 0; 0; 0; 0; 0; 255; 255; a; b; c; d] = in_ranges denied_v4 (v4 a b c d) ∧
  (length ip = 16%nat → to4 ip = None → Forall (λ x, 0 ≤ x < 256) ip →
   isPrivateOrLocal ip =
     bool_decide (ip = v6_of 0) || bool_decide (ip = v6_of 1) || ((252 <=? byte ip 0) && (byte ip 0 <=? 253)) ||
     ((byte ip 0 =? 254) && ((128 <=? byte ip 1) && (byte ip 1 <=? 191))) || (byte ip 0 =? 255)).
Proof.
  intros Ha Hb Hc Hd.
  assert (isPrivateOrLocal [a; b; c; d] = in_ranges denied_v4 (v4 a b c d)) as H4.
  { unfold isPrivateOrLocal, IsLoopback, IsPrivate, IsLinkLocalUnicast, IsLinkLocalMulticast,
      IsInterfaceLocalMulticast, IsMulticast, IsUnspecified, in_cgnat. cbn [to4 byte nth len16 length Nat.eqb andb orb].
    rewrite (land_mask b 240 16 16 31), (land_mask a 240 224 224 239), (land_mask b 192 64 64 127)
      by first [lia|vm_compute; reflexivity].
    assert (bool_decide ([a; b; c; d] = [0; 0; 0; 0]) = (a =? 0) && (b =? 0) && (c =? 0) && (d =? 0)) as ->.
    { apply eq_true_iff_eq. rewrite bool_decide_eq_true. split; [intros [= -> -> -> ->]; reflexivity|].
      intros H. f_equal; [lia|f_equal; [lia|f_equal; [lia|f_equal; lia]]]. }
    unfold in_ranges, denied_v4. cbn [existsb fst snd].
    set (n := v4 a b c d). assert (n = a * 2 ^ 24 + b * 2 ^ 16 + c * 2 ^ 8 + d) as Hn by reflexivity. clearbody n.
    assert ((v4 0 0 0 0 <=? n) && (n <=? v4 0 0 0 0) = (a =? 0) && (b =? 0) && (c =? 0) && (d =? 0)) as -> by (unfold v4; lia).
    assert ((v4 10 0 0 0 <=? n) && (n <=? v4 10 255 255 255) = (a =? 10)) as -> by (unfold v4; lia).
    assert ((v4 100 64 0 0 <=? n) && (n <=? v4 100 127 255 255) = (a =? 100) && ((64 <=? b) && (b <=? 127))) as ->
      by (unfold v4; lia).
    assert ((v4 127 0 0 0 <=? n) && (n <=? v4 127 255 255 255) = (a =? 127)) as -> by (unfold v4; lia).
    assert ((v4 169 254 0 0 <=? n) && (n <=? v4 169 254 255 255) = (a =? 169) && (b =? 254)) as -> by (unfold v4; lia).
    assert ((v4 172 16 0 0 <=? n) && (n <=? v4 172 31 255 255) = (a =? 172) && ((16 <=? b) && (b <=? 31))) as ->
      by (unfold v4; lia).
    assert ((v4 192 168 0 0 <=? n) && (n <=? v4 192 168 255 255) = (a =? 192) && (b =? 168)) as -> by (unfold v4; lia).
    assert ((v4 224 0 0 0 <=? n) && (n <=? v4 239 255 255 255) = (224 <=? a) && (a <=? 239)) as -> by (unfold v4; lia).
    destruct ((224 <=? a) && (a <=? 239)) eqn:Em; [by rewrite !orb_true_r|].
    assert ((a =? 224) = false) as -> by lia. cbn [andb orb]. btauto. }
  split; [exact H4|split; [|]].
  { unfold isPrivateOrLocal.
    assert (to4 [0; 0; 0; 0; 0; 0; 0; 0; 0; 0; 255; 255; a; b; c; d] = Some [a; b; c; d]) as -> by reflexivity.
    exact H4. }
  intros Hlen Hn Hf.
  assert (0 ≤ byte ip 0 < 256 ∧ 0 ≤ byte ip 1 < 256) as [H0 H1].
  { unfold byte. rewrite Forall_forall in Hf. split; apply Hf, list_elem_of_In, nth_In; lia. }
  unfold isPrivateOrLocal, IsLoopback, IsPrivate, IsLinkLocalUnicast, IsLinkLocalMulticast,
      IsInterfaceLocalMulticast, IsMulticast, IsUnspecified, in_cgnat, len16. rewrite Hn. rewrite Hn, Hlen.
  cbn [Nat.eqb andb].
  rewrite (land_mask (byte ip 0) 254 252 252 253), (land_mask (byte ip 1) 192 128 128 191)
    by first [lia|vm_compute; reflexivity].
  destruct (Z.eqb_spec (byte ip 0) 255) as [E|E]; [rewrite !orb_true_r; cbn; rewrite ?orb_true_r; done|].
  cbn [andb]. rewrite !orb_false_r. generalize (bool_decide (ip = v6_of 1)), (bool_decide (ip = v6_of 0)).
  intros [] []; cbn; rewrite ?orb_true_r, ?orb_false_r; done.
Qed.

(** ** Headers *)

Lemma header_get_set k v h : header_get (header_set k v h) k = v.
Proof.
  unfold header_get, header_set. induction h as [|[k' v'] h IH]; cbn; [by rewrite String.eqb_refl|].
  destruct (String.eqb (canonical_key k') (canonical_key k)) eqn:E; cbn; [exact IH|]. by rewrite E.
Qed.

Lemma header_get_set_ne k k' v h : String.eqb (canonical_key k') (canonical_key k) = false →
  header_get (header_set k' v h) k = header_get h k.
Proof.
  intros Hk. unfold header_get, header_set. induction h as [|[x y] h IH]; cbn; [by rewrite Hk|].
  destruct (String.eqb_spec (canonical_key x) (canonical_key k')) as [E|E]; cbn.
  - rewrite E, Hk. exact IH.
  - by destruct (String.eqb (canonical_key x) (canonical_key k)).
Qed.

(** What httpx signs, webhookx accepts: a request signed with hmac-sha256 (in
    hexadecimal) is accepted by the verifier of a callback that has the same
    secret, template and header names, as long as the clocks are within the
    allowed skew, whatever headers the request carried before. *)
Theorem signed_request_verifies `{Codecs} a ver sec now r :
  let payload := payloadTemplate a in
  let sig_header := or_string (AHeader a) "X-Signature" in
  let ts_header := or_string (ATimestampHeader a) "X-Timestamp" in
  contains "{timestamp}" payload = true → payload ≠ "" →
  Webhook.Payload ver = payload → Webhook.Secret ver = ASecret a → Webhook.Encoding ver = AEncoding a →
  AEncoding a ≠ "base64" →
  or_string (Webhook.Header ver) "X-Signature" = sig_header →
  or_string (TimestampHeader ver) "X-Timestamp" = ts_header →
  String.eqb (canonical_key ts_header) (canonical_key sig_header) = false →
  (∀ k m, hmac_sha256 k m ≠ "") →
  in_int64 sec → skew now sec ≤ or_default (MaxSkew ver) defaultMaxSkew →
  verify_hmac ver now (as_event (signHMAC a sec r)) (o_query r) = None.
Proof.
  intros payload sig_header ts_header Hts Hne Hp Hsec Henc H64 Hsh Hth Hdiff Hmac Hin Hskew.
  set (text := replace_all (String.length payload) (replacements (as_event r) (o_query r) (format_int sec)) payload).
  set (sig := hex_encode (hmac_sha256 (ASecret a) text)).
  assert (o_headers (signHMAC a sec r) = header_set ts_header (format_int sec) (header_set sig_header sig (o_headers r)))
    as Hh.
  { unfold signHMAC. cbn [o_headers with_headers].
    assert (String.eqb (AEncoding a) "base64" = false) as -> by by apply String.eqb_neq.
    fold (payloadTemplate a). fold payload. fold text. fold sig. rewrite Hts, andb_true_r.
    fold (or_string (AHeader a) "X-Signature"). fold sig_header.
    change (if String.eqb (ATimestampHeader a) "" then "X-Timestamp" else ATimestampHeader a) with ts_header.
    assert (given ts_header = true) as ->; [|done]. unfold ts_header, or_string, given.
    destruct (String.eqb_spec (ATimestampHeader a) ""); [done|]. by apply negb_true_iff, String.eqb_neq. }
  assert (sig ≠ "") as Hsig.
  { unfold sig. specialize (Hmac (ASecret a) text). by destruct (hmac_sha256 (ASecret a) text). }
  unfold verify_hmac. rewrite Hsh. cbn [Headers as_event]. rewrite Hh.
  rewrite header_get_set_ne, header_get_set by done. unfold sig at 1 2. rewrite (trim_space_none (hex_encode _)) by apply hex_no_space. fold sig.
  rewrite (proj2 (String.eqb_neq sig "")) by done.
  assert (or_string (Webhook.Payload ver) "{body}" = payload) as ->
    by (unfold or_string; by rewrite Hp, (proj2 (String.eqb_neq payload ""))).
  unfold checked_timestamp. rewrite Hts, Hth. cbn [Headers as_event]. rewrite Hh, header_get_set.
  rewrite format_int_trim, format_int_parse by done.
  destruct (Z.ltb_spec (or_default (MaxSkew ver) defaultMaxSkew) (skew now sec)); [lia|].
  assert (expected_signature ver (signed_payload payload (as_event (signHMAC a sec r)) (o_query r) (format_int sec)) = sig)
    as ->.
  { unfold expected_signature. rewrite Henc, (proj2 (String.eqb_neq _ _)), Hsec by done. reflexivity. }
  unfold presented_signature. rewrite after_last_none by apply hex_lacks_eq. by rewrite String.eqb_refl.
Qed.

(** ** Redaction *)

Lemma redact_value v rest : sforall value_byte v = true → redact_from Value (v +:+ rest) = redact_from Value rest.
Proof.
  induction v as [|c v IH]; [done|]. cbn [sforall]. intros [Hc Hv]%andb_prop.
  change (String c v +:+ rest) with (String c (v +:+ rest)). cbn [redact_from]. rewrite Hc. by apply IH.
Qed.

Lemma name_is_value c : name_byte c = true → value_byte c = true.
Proof. unfold name_byte, value_byte. by intros [-> _]%andb_prop. Qed.

Lemma name_not_eq c : name_byte c = true → Ascii.eqb c "=" = false.
Proof. unfold name_byte. intros [_ H]%andb_prop. by apply negb_true_iff. Qed.

(** From any state that cannot be plain, the value behind the next "=" is dropped. *)
Lemma redact_assignment name v v' rest st : sforall name_byte name = true →
  sforall value_byte v = true → sforall value_byte v' = true →
  st = Name ∨ st = Value ∨ (st = Start ∧ name ≠ "") →
  redact_from st (name +:+ String "=" (v +:+ rest)) = redact_from st (name +:+ String "=" (v' +:+ rest)).
Proof.
  intros Hn Hv Hv'. revert st. induction name as [|c name IH]; intros st Hst.
  - change ("" +:+ ?s) with s. destruct Hst as [->|[->|[_ ?]]]; [| |done]; cbn [redact_from].
    + change (Ascii.eqb "=" "=") with true. cbv beta iota. by rewrite !redact_value.
    + change (value_byte "=") with true. cbv beta iota. by rewrite !redact_value.
  - cbn [sforall] in Hn. apply andb_prop in Hn as [Hc Hn].
    change (String c name +:+ ?s) with (String c (name +:+ s)). cbn [redact_from].
    rewrite Hc, (name_is_value c Hc), (name_not_eq c Hc).
    destruct Hst as [->|[->|[-> _]]]; [f_equal|..|f_equal]; apply IH; auto.
Qed.

(** No query value reaches a log: in any text, the value of a query parameter
    can be replaced by any other value without changing what redactQuery makes of the
    text, so nothing of it is left, not even its length. *)
Theorem query_values_are_masked pre q name v v' rest :
  q = "?"%char ∨ q = "&"%char → name ≠ "" → sforall name_byte name = true →
  sforall value_byte v = true → sforall value_byte v' = true →
  redactQuery (pre +:+ String q (name +:+ "=" +:+ v +:+ rest)) =
  redactQuery (pre +:+ String q (name +:+ "=" +:+ v' +:+ rest)).
Proof.
  intros Hq Hne Hn Hv Hv'. unfold redactQuery. generalize Plain as st. induction pre as [|c pre IH]; intros st.
  - change ("" +:+ ?s) with s. change ("=" +:+ v +:+ rest) with (String "=" (v +:+ rest)).
    change ("=" +:+ v' +:+ rest) with (String "=" (v' +:+ rest)). cbn [redact_from].
    assert (redact_from Start (name +:+ String "=" (v +:+ rest)) = redact_from Start (name +:+ String "=" (v' +:+ rest)))
      as Hs by (apply redact_assignment; auto).
    assert (redact_from Name (name +:+ String "=" (v +:+ rest)) = redact_from Name (name +:+ String "=" (v' +:+ rest)))
      as Hnm by (apply redact_assignment; auto).
    assert (redact_from Value (name +:+ String "=" (v +:+ rest)) = redact_from Value (name +:+ String "=" (v' +:+ rest)))
      as Hvl by (apply redact_assignment; auto).
    destruct Hq as [->| ->], st; cbv [plain_next Ascii.eqb Bool.eqb orb]; try (f_equal; exact Hs).
    + exact (f_equal (String "?") Hnm).
    + exact (f_equal (String "?") Hnm).
    + exact Hvl.
  - change (String c pre +:+ ?s) with (String c (pre +:+ s)). cbn [redact_from].
    destruct st; rewrite ?IH; done.
Qed.

(** ** Samples *)

Lemma private_addresses_witness : isPrivateOrLocal [169; 254; 169; 254] = true.
Proof.
  destruct (private_addresses_are_denied 169 254 169 254 [] ltac:(lia) ltac:(lia) ltac:(lia) ltac:(lia)) as [-> _].
  vm_compute. reflexivity.
Defined.

Definition toy_codecs : Codecs := {|
  hmac_sha256 k m := String "#" (k +:+ ":" +:+ m); b64_encode s := s; b64_decode s := Some s;
  json_decode _ := None; json_valid _ := true; json_string s := s |}.

Definition sample_auth : Auth := {|
  AType := "hmac-sha256"; Token := ""; AUsername := ""; APassword := ""; ASecret := "k"; AHeader := "";
  ATimestampHeader := ""; APayload := ""; AEncoding := ""; TokenURL := ""; ClientID := ""; ClientSecret := "" |}.

Definition sample_checks : CallbackVerify := {|
  Type_ := "hmac-sha256"; Webhook.Secret := "k"; Webhook.Header := ""; Payload := defaultHMACPayload;
  Encoding := ""; TimestampHeader := ""; MaxSkew := 0; Username := ""; Password := "" |}.

Lemma signed_request_witness :
  @verify_hmac toy_codecs sample_checks (1700000060 * second)
    (as_event (@signHMAC toy_codecs sample_auth 1700000000
       {| o_method := "POST"; o_path := "/pay"; o_query := "a=1"; o_headers := [("x-timestamp", "0")]; o_body := "{}" |}))
    "a=1" = None.
Proof.
  apply (@signed_request_verifies toy_codecs sample_auth sample_checks 1700000000 (1700000060 * second)
    {| o_method := "POST"; o_path := "/pay"; o_query := "a=1"; o_headers := [("x-timestamp", "0")]; o_body := "{}" |});
    try (vm_compute; reflexivity); try done.
Defined.

Lemma query_values_witness :
  redactQuery "GET https://odds.example/v1?key=s3cret&day=1: timeout" =
  redactQuery "GET https://odds.example/v1?key=&day=1: timeout".
Proof.
  exact (query_values_are_masked "GET https://odds.example/v1" "?" "key" "s3cret" "" "&day=1: timeout"
    (or_introl eq_refl) ltac:(done) eq_refl eq_refl eq_refl).
Defined.

Example redacted_text : redactQuery "GET https://odds.example/v1?key=s3cret&day=1: timeout" =
  "GET https://odds.example/v1?key=***&day=*** timeout".
Proof. vm_compute. reflexivity. Qed.
