(* ===== verification/Css.v ===== *)
(** * CSS: the language of the stylesheets in scalar.js

    Template literals ([template]), the tokens of CSS Syntax the stylesheets use
    (comments, strings, parentheses, blocks, declarations) as a machine that reads one
    character at a time, and custom properties with [var()]. The machine carries no
    input of its own, so what it does to a text is what it does to its parts in
    order: [scan_app]. *)
From S2P Require Import Prelude.
#[local] Open Scope list_scope.

Definition newline : string := String "010" "".

(** A JS template literal, a string of this list per source line. A literal
    cannot hold a backtick, so a backtick stands for the double quote. *)
Definition untick (c : ascii) : ascii := if Ascii.eqb c "`" then "034"%char else c.
Definition template (lines : list string) : string := smap untick (String.concat newline lines).

(** ** Characters *)

(** What the text so far leaves open: a slash that may begin a comment, a
    comment, a star that may end it, a string and an escape inside it. *)
Inductive css_mode : Type := Code | Slash | Comment | Star | Quoted (q : ascii) | Escaped (q : ascii).

(** What a character does: it stays in the text, is dropped (comments), opens
    or closes a block, or ends a declaration. *)
Inductive action : Type := Keep | Drop | OpenBlock | CloseBlock | Semicolon.

#[export] Instance css_mode_eq_dec : EqDecision css_mode.
Proof. solve_decision. Defined.

Definition code_char (paren : nat) (c : ascii) : css_mode * nat * action :=
  if Ascii.eqb c "/" then (Slash, paren, Drop)
  else if Ascii.eqb c "034" || Ascii.eqb c "'" then (Quoted c, paren, Keep)
  else if Ascii.eqb c "(" then (Code, S paren, Keep)
  else if Ascii.eqb c ")" then (Code, Nat.pred paren, Keep)
  else match paren with
       | O =>
           if Ascii.eqb c "{" then (Code, O, OpenBlock)
           else if Ascii.eqb c "}" then (Code, O, CloseBlock)
           else if Ascii.eqb c ";" then (Code, O, Semicolon)
           else (Code, O, Keep)
       | S _ => (Code, paren, Keep)
       end.

(** The next mode, and whether a held back slash turned out to be text. *)
Definition css_char (m : css_mode) (paren : nat) (c : ascii) : css_mode * nat * bool * action :=
  match m with
  | Code => let '(m', p, a) := code_char paren c in (m', p, false, a)
  | Slash => if Ascii.eqb c "*" then (Comment, paren, false, Drop)
             else let '(m', p, a) := code_char paren c in (m', p, true, a)
  | Comment => (if Ascii.eqb c "*" then Star else Comment, paren, false, Drop)
  | Star => (if Ascii.eqb c "/" then Code else if Ascii.eqb c "*" then Star else Comment, paren, false, Drop)
  | Quoted q => (if Ascii.eqb c q then Code else if Ascii.eqb c "\" then Escaped q else Quoted q, paren, false, Keep)
  | Escaped q => (Quoted q, paren, false, Keep)
  end.

(** ** Blocks: how deep a text is after a prefix of it *)

Record depth : Type := Depth { d_mode : css_mode; d_paren : nat; d_blocks : nat }.

(** [None]: a closing brace without an open block. *)
Definition depth_char (d : depth) (c : ascii) : option depth :=
  let '(m, p, _, a) := css_char (d_mode d) (d_paren d) c in
  match a with
  | OpenBlock => Some (Depth m p (S (d_blocks d)))
  | CloseBlock => match d_blocks d with S n => Some (Depth m p n) | O => None end
  | _ => Some (Depth m p (d_blocks d))
  end.

Fixpoint scan (d : depth) (s : string) : option depth :=
  match s with
  | "" => Some d
  | String c s' => match depth_char d c with Some d' => scan d' s' | None => None end
  end.

Definition outside : depth := Depth Code 0 0.

(** A stylesheet: every block, string, parenthesis and comment it opens it
    closes, and it closes nothing else. *)
Definition complete (s : string) : Prop := scan outside s = Some outside.

Lemma scan_app d a b : scan d (a +:+ b) = match scan d a with Some d' => scan d' b | None => None end.
Proof.
  revert d. induction a as [|c a IH]; intros d; [done|].
  change (String c a +:+ b) with (String c (a +:+ b)). cbn [scan].
  destruct (depth_char d c); [apply IH|done].
Qed.

Definition deeper (k : nat) (d : depth) : depth := Depth (d_mode d) (d_paren d) (d_blocks d + k).

(** What reads well at the top level reads the same way inside blocks. *)
Lemma scan_deeper k d s d' : scan d s = Some d' → scan (deeper k d) s = Some (deeper k d').
Proof.
  revert d. induction s as [|c s IH]; intros d; cbn; [by intros [= ->]|].
  destruct (depth_char d c) as [d1|] eqn:E; [|done]. intros Hs.
  replace (depth_char (deeper k d) c) with (Some (deeper k d1)); [by apply IH|].
  revert E. unfold depth_char, deeper; cbn.
  destruct (css_char _ _ c) as [[[m p] b] []]; cbn; try by intros [= <-].
  destruct (d_blocks d); cbn; [done|]. by intros [= <-].
Qed.

Lemma complete_app a b : complete a → complete b → complete (a +:+ b).
Proof. unfold complete. intros Ha Hb. by rewrite scan_app, Ha. Qed.

(** A complete text never leaves the block it is put in. *)
Lemma complete_stays_inside s p q : complete s → s = p +:+ q →
  ∃ d, scan (Depth Code 0 1) p = Some d ∧ (1 ≤ d_blocks d)%nat.
Proof.
  unfold complete. intros Hs ->. rewrite scan_app in Hs.
  destruct (scan outside p) as [d|] eqn:E; [|done].
  exists (deeper 1 d). split; [by apply (scan_deeper 1) in E|]. cbn. lia.
Qed.

(** ** Rules and declarations *)

Inductive token : Type := TText (s : string) | TOpen | TClose | TSemi.

Record lexer : Type := Lexer { lx_mode : css_mode; lx_paren : nat; lx_buf : string; lx_out : list token }.

Fixpoint rev_onto (s acc : string) : string :=
  match s with "" => acc | String c s' => rev_onto s' (String c acc) end.

(** The text read since the last token, trimmed; white space alone is none. *)
Definition flush (buf : string) (out : list token) : list token :=
  match trim_space (rev_onto buf "") with "" => out | s => TText s :: out end.

Definition lex_char (l : lexer) (c : ascii) : lexer :=
  let '(m, p, slash, a) := css_char (lx_mode l) (lx_paren l) c in
  let buf := if (slash : bool) then String "/" (lx_buf l) else lx_buf l in
  match a with
  | Keep => Lexer m p (String c buf) (lx_out l)
  | Drop => Lexer m p buf (lx_out l)
  | OpenBlock => Lexer m p "" (TOpen :: flush buf (lx_out l))
  | CloseBlock => Lexer m p "" (TClose :: flush buf (lx_out l))
  | Semicolon => Lexer m p "" (TSemi :: flush buf (lx_out l))
  end.

Fixpoint lex_from (l : lexer) (s : string) : list token :=
  match s with
  | "" => rev (flush (lx_buf l) (lx_out l))
  | String c s' => lex_from (lex_char l c) s'
  end.

Definition css_tokens (s : string) : list token := lex_from (Lexer Code 0 "" []) s.

Inductive item : Type := Decl (name value : string) | Rule (prelude : string) (body : list item).

Definition declaration (s : string) : item :=
  match cut ":" s with
  | Some (n, v) => Decl (trim_space n) (trim_space v)
  | None => Decl s ""
  end.

(** The open rules from the innermost, each with its items in reverse; [None]: a
    block that does not begin with a prelude, or is not closed. *)
Fixpoint parse_from (open : list (string * list item)) (acc : list item) (ts : list token) : option (list item) :=
  match ts with
  | [] => match open with [] => Some (rev acc) | _ => None end
  | TText s :: TOpen :: ts' => parse_from ((s, acc) :: open) [] ts'
  | TText s :: ts' => parse_from open (declaration s :: acc) ts'
  | TOpen :: _ => None
  | TClose :: ts' =>
      match open with
      | (s, outer) :: open' => parse_from open' (Rule s (rev acc) :: outer) ts'
      | [] => None
      end
  | TSemi :: ts' => parse_from open acc ts'
  end.

Definition parse_css (s : string) : option (list item) := parse_from [] [] (css_tokens s).

(** ** Custom properties *)

(** The declarations of the top-level rules one of whose selectors is in
    [sels], in source order, the later ones first. *)
Definition selected (sels : list string) (prelude : string) : bool :=
  existsb (λ s, existsb (String.eqb (trim_space s)) sels) (split_on "," prelude).

Definition is_custom (name : string) : bool := has_prefix "--" name.

Definition own_properties (body : list item) : list (string * string) :=
  omap (λ i, match i with Decl n v => if is_custom n then Some (n, v) else None | Rule _ _ => None end) body.

Definition properties (sels : list string) (sheet : list item) : list (string * string) :=
  rev (mjoin ((λ i, match i with
                    | Rule p body => if selected sels p then own_properties body else []
                    | Decl _ _ => []
                    end) <$> sheet)).

Fixpoint property (env : list (string * string)) (name : string) : option string :=
  match env with
  | [] => None
  | (n, v) :: env' => if String.eqb n name then Some v else property env' name
  end.

(** The value with each [var(--x)] replaced by the value of --x. [None]: a
    name without a value, or more substitutions in a row than [fuel]. *)
Fixpoint substitute (fuel : nat) (env : list (string * string)) (s : string) : option string :=
  match fuel with
  | O => None
  | S f =>
      match cut "var(" s with
      | None => Some s
      | Some (a, r) =>
          match cut ")" r with
          | None => None
          | Some (name, r') =>
              match property env name with
              | None => None
              | Some v =>
                  match substitute f env v, substitute f env r' with
                  | Some v', Some r'' => Some (a +:+ v' +:+ r'')
                  | _, _ => None
                  end
              end
          end
      end
  end.

(** More fuel changes no result. *)
Lemma substitute_more env f s t : substitute f env s = Some t → ∀ f', (f ≤ f')%nat → substitute f' env s = Some t.
Proof.
  revert s t. induction f as [|f IH]; intros s t; [done|]. cbn. intros H f' Hf.
  destruct f' as [|f']; [lia|]. cbn. destruct (cut "var(" s) as [[a r]|]; [|done].
  destruct (cut ")" r) as [[name r']|]; [|done]. destruct (property env name) as [v|]; [|done].
  destruct (substitute f env v) as [v'|] eqn:E1; [|done].
  destruct (substitute f env r') as [r''|] eqn:E2; [|done].
  rewrite (IH _ _ E1 f') by lia. by rewrite (IH _ _ E2 f') by lia.
Qed.

Example css_small :
  parse_css "/* x */ a, b { --c: url(d;e); f: 'g}' } @media h { i { --j: var(--c) } }" =
  Some [Rule "a, b" [Decl "--c" "url(d;e)"; Decl "f" "'g}'"];
        Rule "@media h" [Rule "i" [Decl "--j" "var(--c)"]]].
Proof. reflexivity. Qed.
