(* ===== verification/ThemeTexts1.v ===== *)
(** * scalar.js: the texts of the themes, the font faces, alternate, bluePlanet, deepSpace

    The template literals of hertzx/docs/scalar.js that hold stylesheets, line by
    line, under the bundle's names. *)
From S2P Require Import Prelude Css.
#[local] Open Scope list_scope.

(** the font faces *)
Definition Lin : string := template [
  "/* Inter (--scalar-font) */";
  "/* cyrillic-ext */";
  "@font-face {";
  "  font-family: `Inter`;";
  "  font-style: normal;";
  "  font-weight: 100 900;";
  "  font-display: swap;";
  "  src: url(https://fonts.scalar.com/inter-cyrillic-ext.woff2) format(`woff2`);";
  "  unicode-range: U+0460-052F, U+1C80-1C88, U+20B4, U+2DE0-2DFF, U+A640-A69F, U+FE2E-FE2F;";
  "}";
  "/* cyrillic */";
  "@font-face {";
  "  font-family: `Inter`;";
  "  font-style: normal;";
  "  font-weight: 100 900;";
  "  font-display: swap;";
  "  src: url(https://fonts.scalar.com/inter-cyrillic.woff2) format(`woff2`);";
  "  unicode-range: U+0301, U+0400-045F, U+0490-0491, U+04B0-04B1, U+2116;";
  "}";
  "/* greek-ext */";
  "@font-face {";
  "  font-family: `Inter`;";
  "  font-style: normal;";
  "  font-weight: 100 900;";
  "  font-display: swap;";
  "  src: url(https://fonts.scalar.com/inter-greek-ext.woff2) format(`woff2`);";
  "  unicode-range: U+1F00-1FFF;";
  "}";
  "/* greek */";
  "@font-face {";
  "  font-family: `Inter`;";
  "  font-style: normal;";
  "  font-weight: 100 900;";
  "  font-display: swap;";
  "  src: url(https://fonts.scalar.com/inter-greek.woff2) format(`woff2`);";
  "  unicode-range: U+0370-0377, U+037A-037F, U+0384-038A, U+038C, U+038E-03A1, U+03A3-03FF;";
  "}";
  "/* vietnamese */";
  "@font-face {";
  "  font-family: `Inter`;";
  "  font-style: normal;";
  "  font-weight: 100 900;";
  "  font-display: swap;";
  "  src: url(https://fonts.scalar.com/inter-vietnamese.woff2) format(`woff2`);";
  "  unicode-range:";
  "    U+0102-0103, U+0110-0111, U+0128-0129, U+0168-0169,";
  "    U+01A0-01A1, U+01AF-01B0, U+0300-0301, U+0303-0304, U+0308-0309, U+0323,";
  "    U+0329, U+1EA0-1EF9, U+20AB;";
  "}";
  "/* latin-ext */";
  "@font-face {";
  "  font-family: `Inter`;";
  "  font-style: normal;";
  "  font-weight: 100 900;";
  "  font-display: swap;";
  "  src: url(https://fonts.scalar.com/inter-latin-ext.woff2) format(`woff2`);";
  "  unicode-range:";
  "    U+0100-02AF, U+0304, U+0308, U+0329, U+1E00-1E9F, U+1EF2-1EFF, U+2020, U+20A0-20AB, U+20AD-20C0, U+2113, U+2C60-2C7F,";
  "    U+A720-A7FF;";
  "}";
  "/* latin */";
  "@font-face {";
  "  font-family: `Inter`;";
  "  font-style: normal;";
  "  font-weight: 100 900;";
  "  font-display: swap;";
  "  src: url(https://fonts.scalar.com/inter-latin.woff2) format(`woff2`);";
  "  unicode-range:";
  "    U+0000-00FF, U+0131, U+0152-0153, U+02BB-02BC, U+02C6, U+02DA,";
  "    U+02DC, U+0304, U+0308, U+0329, U+2000-206F, U+2074, U+20AC, U+2122, U+2191,";
  "    U+2193, U+2212, U+2215, U+FEFF, U+FFFD;";
  "}";
  "";
  "/* keyboard symbols (←↑→↓↵⇧⇪⌘⌥) */";
  "@font-face {";
  "  font-family: `Inter`;";
  "  font-style: normal;";
  "  font-weight: 100 900;";
  "  font-display: swap;";
  "  src: url(https://fonts.scalar.com/inter-symbols.woff2) format(`woff2`);";
  "  unicode-range: U+2190-2193, U+21B5, U+21E7, U+21EA, U+2318, U+2325;";
  "}";
  "";
  "/* JetBrains Mono (--scalar-font-code) */";
  "/* cyrillic-ext */";
  "@font-face {";
  "  font-family: `JetBrains Mono`;";
  "  font-style: normal;";
  "  font-weight: 400;";
  "  src: url(https://fonts.scalar.com/mono-cyrillic-ext.woff2) format(`woff2`);";
  "  unicode-range: U+0460-052F, U+1C80-1C88, U+20B4, U+2DE0-2DFF, U+A640-A69F, U+FE2E-FE2F;";
  "}";
  "/* cyrillic */";
  "@font-face {";
  "  font-family: `JetBrains Mono`;";
  "  font-style: normal;";
  "  font-weight: 400;";
  "  src: url(https://fonts.scalar.com/mono-cyrillic.woff2) format(`woff2`);";
  "  unicode-range: U+0301, U+0400-045F, U+0490-0491, U+04B0-04B1, U+2116;";
  "}";
  "/* greek */";
  "@font-face {";
  "  font-family: `JetBrains Mono`;";
  "  font-style: normal;";
  "  font-weight: 400;";
  "  src: url(https://fonts.scalar.com/mono-greek.woff2) format(`woff2`);";
  "  unicode-range: U+0370-0377, U+037A-037F, U+0384-038A, U+038C, U+038E-03A1, U+03A3-03FF;";
  "}";
  "/* vietnamese */";
  "@font-face {";
  "  font-family: `JetBrains Mono`;";
  "  font-style: normal;";
  "  font-weight: 400;";
  "  src: url(https://fonts.scalar.com/mono-vietnamese.woff2) format(`woff2`);";
  "  unicode-range:";
  "    U+0102-0103, U+0110-0111, U+0128-0129, U+0168-0169,";
  "    U+01A0-01A1, U+01AF-01B0, U+0300-0301, U+0303-0304, U+0308-0309, U+0323,";
  "    U+0329, U+1EA0-1EF9, U+20AB;";
  "}";
  "/* latin-ext */";
  "@font-face {";
  "  font-family: `JetBrains Mono`;";
  "  font-style: normal;";
  "  font-weight: 400;";
  "  src: url(https://fonts.scalar.com/mono-latin-ext.woff2) format(`woff2`);";
  "  unicode-range:";
  "    U+0100-02AF, U+0304, U+0308, U+0329, U+1E00-1E9F, U+1EF2-1EFF, U+2020, U+20A0-20AB, U+20AD-20C0, U+2113, U+2C60-2C7F,";
  "    U+A720-A7FF;";
  "}";
  "/* latin */";
  "@font-face {";
  "  font-family: `JetBrains Mono`;";
  "  font-style: normal;";
  "  font-weight: 400;";
  "  src: url(https://fonts.scalar.com/mono-latin.woff2) format(`woff2`);";
  "  unicode-range:";
  "    U+0000-00FF, U+0131, U+0152-0153, U+02BB-02BC, U+02C6, U+02DA,";
  "    U+02DC, U+0304, U+0308, U+0329, U+2000-206F, U+2074, U+20AC, U+2122, U+2191,";
  "    U+2193, U+2212, U+2215, U+FEFF, U+FFFD;";
  "}";
  ""].

(** alternate *)
Definition Rin : string := template [
  "/* basic theme */";
  ":root {";
  "  --scalar-text-decoration: underline;";
  "  --scalar-text-decoration-hover: underline;";
  "}";
  "";
  ".dark-mode {";
  "  --scalar-background-1: #131313;";
  "  --scalar-background-2: #1d1d1d;";
  "  --scalar-background-3: #272727;";
  "  --scalar-background-card: #1d1d1d;";
  "";
  "  --scalar-color-1: rgba(255, 255, 255, 0.9);";
  "  --scalar-color-2: rgba(255, 255, 255, 0.62);";
  "  --scalar-color-3: rgba(255, 255, 255, 0.44);";
  "";
  "  --scalar-color-accent: var(--scalar-color-1);";
  "  --scalar-background-accent: var(--scalar-background-3);";
  "";
  "  --scalar-border-color: #2a2b2a;";
  "}";
  "";
  ".light-mode,";
  ".light-mode .dark-mode {";
  "  --scalar-background-1: #f9f9f9;";
  "  --scalar-background-2: #f1f1f1;";
  "  --scalar-background-3: #e7e7e7;";
  "  --scalar-background-card: #fff;";
  "";
  "  --scalar-color-1: #1b1b1b;";
  "  --scalar-color-2: #6d6d6d;";
  "  --scalar-color-3: #8e8e8e;";
  "";
  "  --scalar-color-accent: var(--scalar-color-1);";
  "  --scalar-background-accent: var(--scalar-background-3);";
  "";
  "  --scalar-border-color: rgba(0, 0, 0, 0.1);";
  "}";
  "";
  "/* Document Sidebar */";
  ".t-doc__sidebar {";
  "  --scalar-color-green: var(--scalar-color-1);";
  "  --scalar-color-red: var(--scalar-color-1);";
  "  --scalar-color-yellow: var(--scalar-color-1);";
  "  --scalar-color-blue: var(--scalar-color-1);";
  "  --scalar-color-orange: var(--scalar-color-1);";
  "  --scalar-color-purple: var(--scalar-color-1);";
  "  --scalar-color-query: var(--scalar-color-1);";
  "}";
  "";
  ".light-mode .t-doc__sidebar,";
  ".dark-mode .t-doc__sidebar {";
  "  --scalar-sidebar-background-1: var(--scalar-background-1);";
  "  --scalar-sidebar-color-1: var(--scalar-color-1);";
  "  --scalar-sidebar-color-2: var(--scalar-color-2);";
  "  --scalar-sidebar-border-color: var(--scalar-border-color);";
  "";
  "  --scalar-sidebar-item-hover-background: var(--scalar-background-2);";
  "  --scalar-sidebar-item-hover-color: currentColor;";
  "";
  "  --scalar-sidebar-item-active-background: var(--scalar-background-accent);";
  "  --scalar-sidebar-color-active: var(--scalar-color-accent);";
  "";
  "  --scalar-sidebar-search-background: transparent;";
  "  --scalar-sidebar-search-color: var(--scalar-color-3);";
  "  --scalar-sidebar-search-border-color: var(--scalar-border-color);";
  "}";
  "/* advanced */";
  ".light-mode .dark-mode,";
  ".light-mode {";
  "  --scalar-color-green: #069061;";
  "  --scalar-color-red: #ef0006;";
  "  --scalar-color-yellow: #edbe20;";
  "  --scalar-color-blue: #0071bb;";
  "  --scalar-color-orange: #fb892c;";
  "  --scalar-color-purple: #5203d1;";
  "  --scalar-color-query: #007b80;";
  "";
  "  --scalar-button-1: rgba(0, 0, 0, 1);";
  "  --scalar-button-1-hover: rgba(0, 0, 0, 0.8);";
  "  --scalar-button-1-color: #fff;";
  "}";
  ".dark-mode {";
  "  --scalar-color-green: #00b648;";
  "  --scalar-color-red: #dd2f2c;";
  "  --scalar-color-yellow: #ffc90d;";
  "  --scalar-color-blue: #4eb3ec;";
  "  --scalar-color-orange: #ff8d4d;";
  "  --scalar-color-purple: #b191f9;";
  "  --scalar-color-query: #65d4cf;";
  "";
  "  --scalar-button-1: rgba(255, 255, 255, 1);";
  "  --scalar-button-1-hover: rgba(255, 255, 255, 0.9);";
  "  --scalar-button-1-color: black;";
  "}";
  "";
  ".scalar-api-client__item,";
  ".scalar-card,";
  ".dark-mode .dark-mode.scalar-card {";
  "  --scalar-background-1: var(--scalar-background-card);";
  "  --scalar-background-2: var(--scalar-background-1);";
  "  --scalar-background-3: var(--scalar-background-1);";
  "}";
  ".dark-mode .dark-mode.scalar-card {";
  "  --scalar-background-3: var(--scalar-background-3);";
  "}";
  "";
  ".light-mode *::selection {";
  "  background-color: color-mix(in srgb, var(--scalar-color-blue), transparent 70%);";
  "}";
  ".dark-mode *::selection {";
  "  background-color: color-mix(in srgb, var(--scalar-color-blue), transparent 50%);";
  "}";
  ""].

(** bluePlanet: its palettes *)
Definition zin_palette : list string := [
  "/* basic theme */";
  ":root {";
  "  --scalar-text-decoration: underline;";
  "  --scalar-text-decoration-hover: underline;";
  "}";
  ".light-mode {";
  "  --scalar-background-1: #f0f2f5;";
  "  --scalar-background-2: #eaecf0;";
  "  --scalar-background-3: #e0e2e6;";
  "  --scalar-border-color: rgb(213 213 213);";
  "";
  "  --scalar-color-1: rgb(9, 9, 11);";
  "  --scalar-color-2: rgb(105, 105, 112);";
  "  --scalar-color-3: rgba(25, 25, 28, 0.5);";
  "";
  "  --scalar-color-accent: var(--scalar-color-1);";
  "  --scalar-background-accent: #8ab4f81f;";
  "}";
  ".light-mode .scalar-card.dark-mode,";
  ".dark-mode {";
  "  --scalar-background-1: #000e23;";
  "  --scalar-background-2: #01132e;";
  "  --scalar-background-3: #03193b;";
  "  --scalar-border-color: #2e394c;";
  "";
  "  --scalar-color-1: #fafafa;";
  "  --scalar-color-2: rgb(161, 161, 170);";
  "  --scalar-color-3: rgba(255, 255, 255, 0.533);";
  "";
  "  --scalar-color-accent: var(--scalar-color-1);";
  "  --scalar-background-accent: #8ab4f81f;";
  "";
  "  --scalar-code-language-color-supersede: var(--scalar-color-1);";
  "}";
  "/* Document Sidebar */";
  ".light-mode .t-doc__sidebar,";
  ".dark-mode .t-doc__sidebar {";
  "  --scalar-sidebar-background-1: var(--scalar-background-1);";
  "  --scalar-sidebar-color-1: var(--scalar-color-1);";
  "  --scalar-sidebar-color-2: var(--scalar-color-2);";
  "  --scalar-sidebar-border-color: var(--scalar-border-color);";
  "";
  "  --scalar-sidebar-item-hover-background: var(--scalar-background-2);";
  "  --scalar-sidebar-item-hover-color: currentColor;";
  "";
  "  --scalar-sidebar-item-active-background: var(--scalar-background-3);";
  "  --scalar-sidebar-color-active: var(--scalar-color-accent);";
  "";
  "  --scalar-sidebar-search-background: rgba(255, 255, 255, 0.1);";
  "  --scalar-sidebar-search-border-color: var(--scalar-border-color);";
  "  --scalar-sidebar-search-color: var(--scalar-color-3);";
  "  z-index: 1;";
  "}";
  ".light-mode .t-doc__sidebar {";
  "  --scalar-sidebar-search-background: white;";
  "}";
  "/* advanced */";
  ".light-mode {";
  "  --scalar-color-green: #069061;";
  "  --scalar-color-red: #ef0006;";
  "  --scalar-color-yellow: #edbe20;";
  "  --scalar-color-blue: #006db5;";
  "  --scalar-color-orange: #fb892c;";
  "  --scalar-color-purple: #5203d1;";
  "  --scalar-color-query: #007b80;";
  "";
  "  --scalar-button-1: rgba(0, 0, 0, 1);";
  "  --scalar-button-1-hover: rgba(0, 0, 0, 0.8);";
  "  --scalar-button-1-color: #fff;";
  "}";
  ".dark-mode {";
  "  --scalar-color-green: rgba(69, 255, 165, 0.823);";
  "  --scalar-color-red: #ff8589;";
  "  --scalar-color-yellow: #ffcc4d;";
  "  --scalar-color-blue: #6bc1fe;";
  "  --scalar-color-orange: #f98943;";
  "  --scalar-color-purple: #b191f9;";
  "  --scalar-color-query: #79e2da;";
  "";
  "  --scalar-button-1: rgba(255, 255, 255, 1);";
  "  --scalar-button-1-hover: rgba(255, 255, 255, 0.9);";
  "  --scalar-button-1-color: black;";
  "}"].

(** ... and its rules *)
Definition zin_rules : list string := [
  "/* Custom theme */";
  "/* Document header */";
  "@keyframes headerbackground {";
  "  from {";
  "    background: transparent;";
  "    backdrop-filter: none;";
  "  }";
  "  to {";
  "    background: var(--scalar-header-background-1);";
  "    backdrop-filter: blur(12px);";
  "  }";
  "}";
  "";
  ".light-mode .t-doc__header,";
  ".dark-mode .t-doc__header {";
  "  animation: headerbackground forwards;";
  "  animation-timeline: scroll();";
  "  animation-range: 0px 200px;";
  "}";
  "";
  "/* Document Layout */";
  ".dark-mode .t-doc .layout-content {";
  "  background: transparent;";
  "}";
  "";
  ".dark-mode h2.t-editor__heading,";
  ".dark-mode .t-editor__page-title h1,";
  ".dark-mode h1.section-header:not(::selection),";
  ".dark-mode .markdown h1,";
  ".dark-mode .markdown h2,";
  ".dark-mode .markdown h3,";
  ".dark-mode .markdown h4,";
  ".dark-mode .markdown h5,";
  ".dark-mode .markdown h6 {";
  "  -webkit-text-fill-color: transparent;";
  "  background-image: linear-gradient(to right bottom, rgb(255, 255, 255) 30%, rgba(255, 255, 255, 0.38));";
  "  -webkit-background-clip: text;";
  "  background-clip: text;";
  "}";
  "/* Hero Section Flare */";
  ".section-flare-item:nth-of-type(1) {";
  "  --c1: #ffffff;";
  "  --c2: #babfd8;";
  "  --c3: #2e8bb2;";
  "  --c4: #1a8593;";
  "  --c5: #0a143e;";
  "  --c6: #0a0f52;";
  "  --c7: #2341b8;";
  "";
  "  --solid: var(--c1), var(--c2), var(--c3), var(--c4), var(--c5), var(--c6), var(--c7);";
  "  --solid-wrap: var(--solid), var(--c1);";
  "  --trans:";
  "    var(--c1), transparent, var(--c2), transparent, var(--c3),";
  "    transparent, var(--c4), transparent, var(--c5), transparent, var(--c6),";
  "    transparent, var(--c7);";
  "  --trans-wrap: var(--trans), transparent, var(--c1);";
  "";
  "  background:";
  "    radial-gradient(circle, var(--trans)), conic-gradient(from 180deg, var(--trans-wrap)),";
  "    radial-gradient(circle, var(--trans)), conic-gradient(var(--solid-wrap));";
  "  width: 70vw;";
  "  height: 700px;";
  "  border-radius: 50%;";
  "  filter: blur(100px);";
  "  z-index: 0;";
  "  right: 0;";
  "  position: absolute;";
  "  transform: rotate(-45deg);";
  "  top: -300px;";
  "  opacity: 0.3;";
  "}";
  ".section-flare-item:nth-of-type(3) {";
  "  --star-color: #6b9acc;";
  "  --star-color2: #446b8d;";
  "  --star-color3: #3e5879;";
  "  background-image:";
  "    radial-gradient(2px 2px at 20px 30px, var(--star-color2), rgba(0, 0, 0, 0)),";
  "    radial-gradient(2px 2px at 40px 70px, var(--star-color), rgba(0, 0, 0, 0)),";
  "    radial-gradient(2px 2px at 50px 160px, var(--star-color3), rgba(0, 0, 0, 0)),";
  "    radial-gradient(2px 2px at 90px 40px, var(--star-color), rgba(0, 0, 0, 0)),";
  "    radial-gradient(2px 2px at 130px 80px, var(--star-color), rgba(0, 0, 0, 0)),";
  "    radial-gradient(2px 2px at 160px 120px, var(--star-color3), rgba(0, 0, 0, 0));";
  "  background-repeat: repeat;";
  "  background-size: 200px 200px;";
  "  width: 100%;";
  "  height: 100%;";
  "  mask-image: radial-gradient(ellipse at 100% 0%, black 40%, transparent 70%);";
  "}";
  ".section-flare {";
  "  top: -150px !important;";
  "  height: 100vh;";
  "  background: linear-gradient(#000, var(--scalar-background-1));";
  "  width: 100vw;";
  "  overflow-x: hidden;";
  "}";
  ".light-mode .section-flare {";
  "  display: none;";
  "}";
  ".light-mode .scalar-card {";
  "  --scalar-background-1: #fff;";
  "  --scalar-background-2: #fff;";
  "  --scalar-background-3: #fff;";
  "}";
  "";
  "*::selection {";
  "  background-color: color-mix(in srgb, var(--scalar-color-blue), transparent 60%);";
  "}";
  "";
  "@media (max-width: 1000px) {";
  "  .light-mode .t-doc__sidebar,";
  "  .dark-mode .t-doc__sidebar {";
  "    --scalar-sidebar-background-1: var(--scalar-background-1);";
  "  }";
  "  .light-mode .t-doc__header,";
  "  .dark-mode .t-doc__header {";
  "    animation: none;";
  "    background: var(--scalar-header-background-1);";
  "    backdrop-filter: blur(12px);";
  "  }";
  "}";
  ""].

Definition zin : string := template (zin_palette ++ zin_rules).

(** deepSpace: its palettes *)
Definition Bin_palette : list string := [
  "/* basic theme */";
  ":root {";
  "  --scalar-text-decoration: underline;";
  "  --scalar-text-decoration-hover: underline;";
  "}";
  ".light-mode {";
  "  --scalar-color-1: rgb(9, 9, 11);";
  "  --scalar-color-2: rgb(109, 109, 117);";
  "  --scalar-color-3: rgba(25, 25, 28, 0.5);";
  "  --scalar-color-accent: var(--scalar-color-1);";
  "";
  "  --scalar-background-1: #fff;";
  "  --scalar-background-2: #f4f4f5;";
  "  --scalar-background-3: #e3e3e6;";
  "  --scalar-background-accent: #8ab4f81f;";
  "";
  "  --scalar-border-color: rgb(228, 228, 231);";
  "  --scalar-code-language-color-supersede: var(--scalar-color-1);";
  "}";
  ".dark-mode {";
  "  --scalar-color-1: #fafafa;";
  "  --scalar-color-2: rgb(161, 161, 170);";
  "  --scalar-color-3: rgba(255, 255, 255, 0.533);";
  "  --scalar-color-accent: var(--scalar-color-1);";
  "";
  "  --scalar-background-1: #09090b;";
  "  --scalar-background-2: #18181b;";
  "  --scalar-background-3: #2c2c30;";
  "  --scalar-background-accent: #8ab4f81f;";
  "";
  "  --scalar-border-color: rgba(255, 255, 255, 0.16);";
  "  --scalar-code-language-color-supersede: var(--scalar-color-1);";
  "}";
  "";
  "/* Document Sidebar */";
  ".light-mode .t-doc__sidebar,";
  ".dark-mode .t-doc__sidebar {";
  "  --scalar-sidebar-background-1: var(--scalar-background-1);";
  "  --scalar-sidebar-color-1: var(--scalar-color-1);";
  "  --scalar-sidebar-color-2: var(--scalar-color-2);";
  "  --scalar-sidebar-border-color: var(--scalar-border-color);";
  "";
  "  --scalar-sidebar-item-hover-color: currentColor;";
  "  --scalar-sidebar-item-hover-background: var(--scalar-background-2);";
  "";
  "  --scalar-sidebar-item-active-background: var(--scalar-background-3);";
  "  --scalar-sidebar-color-active: var(--scalar-color-accent);";
  "";
  "  --scalar-sidebar-search-background: transparent;";
  "  --scalar-sidebar-search-border-color: var(--scalar-border-color);";
  "  --scalar-sidebar-search-color: var(--scalar-color-3);";
  "}";
  ".light-mode .t-doc__sidebar {";
  "  --scalar-sidebar-item-active-background: var(--scalar-background-2);";
  "}";
  "/* advanced */";
  ".light-mode {";
  "  --scalar-color-green: #069061;";
  "  --scalar-color-red: #ef0006;";
  "  --scalar-color-yellow: #edbe20;";
  "  --scalar-color-blue: #0072bd;";
  "  --scalar-color-orange: #fb892c;";
  "  --scalar-color-purple: #5203d1;";
  "  --scalar-color-query: #007b80;";
  "";
  "  --scalar-button-1: rgba(0, 0, 0, 1);";
  "  --scalar-button-1-hover: rgba(0, 0, 0, 0.8);";
  "  --scalar-button-1-color: #fff;";
  "}";
  ".dark-mode {";
  "  --scalar-color-green: rgba(69, 255, 165, 0.823);";
  "  --scalar-color-red: #ff8589;";
  "  --scalar-color-yellow: #ffcc4d;";
  "  --scalar-color-blue: #6bc1fe;";
  "  --scalar-color-orange: #f98943;";
  "  --scalar-color-purple: #b191f9;";
  "  --scalar-color-query: #79e2da;";
  "";
  "  --scalar-button-1: rgba(255, 255, 255, 1);";
  "  --scalar-button-1-hover: rgba(255, 255, 255, 0.9);";
  "  --scalar-button-1-color: black;";
  "}"].

(** ... and its rules *)
Definition Bin_rules : list string := [
  "/* Custom theme */";
  ".dark-mode h2.t-editor__heading,";
  ".dark-mode .t-editor__page-title h1,";
  ".dark-mode h1.section-header:not(::selection),";
  ".dark-mode .markdown h1,";
  ".dark-mode .markdown h2,";
  ".dark-mode .markdown h3,";
  ".dark-mode .markdown h4,";
  ".dark-mode .markdown h5,";
  ".dark-mode .markdown h6 {";
  "  -webkit-text-fill-color: transparent;";
  "  background-image: linear-gradient(to right bottom, rgb(255, 255, 255) 30%, rgba(255, 255, 255, 0.38));";
  "  -webkit-background-clip: text;";
  "  background-clip: text;";
  "}";
  ".examples .scalar-card-footer {";
  "  --scalar-background-3: transparent;";
  "  padding-top: 0;";
  "}";
  "/* Hero section flare */";
  ".section-flare {";
  "  width: 100vw;";
  "  height: 550px;";
  "  position: absolute;";
  "}";
  ".section-flare-item:nth-of-type(1) {";
  "  position: absolute;";
  "  width: 100vw;";
  "  height: 550px;";
  "  --stripesDark: repeating-linear-gradient(100deg, #000 0%, #000 7%, transparent 10%, transparent 12%, #000 16%);";
  "  --rainbow: repeating-linear-gradient(100deg, #fff 10%, #fff 16%, #fff 22%, #fff 30%);";
  "  background-image: var(--stripesDark), var(--rainbow);";
  "  background-size: 300%, 200%;";
  "  background-position:";
  "    50% 50%,";
  "    50% 50%;";
  "  filter: invert(100%);";
  "  -webkit-mask-image: radial-gradient(ellipse at 100% 0%, black 40%, transparent 70%);";
  "  mask-image: radial-gradient(ellipse at 100% 0%, black 40%, transparent 70%);";
  "  pointer-events: none;";
  "  opacity: 0.07;";
  "}";
  ".dark-mode .section-flare-item:nth-of-type(1) {";
  "  background-image: var(--stripesDark), var(--rainbow);";
  "  filter: opacity(50%) saturate(200%);";
  "  opacity: 0.25;";
  "  height: 350px;";
  "}";
  ".section-flare-item:nth-of-type(1):after {";
  "  content: ``;";
  "  position: absolute;";
  "  top: 0;";
  "  right: 0;";
  "  bottom: 0;";
  "  left: 0;";
  "  background-image: var(--stripesDark), var(--rainbow);";
  "  background-size: 200%, 100%;";
  "  background-attachment: fixed;";
  "  mix-blend-mode: difference;";
  "}";
  ".dark-mode .section-flare:after {";
  "  background-image: var(--stripesDark), var(--rainbow);";
  "}";
  ".section-flare-item:nth-of-type(2) {";
  "  --star-color: #fff;";
  "  --star-color2: #fff;";
  "  --star-color3: #fff;";
  "  width: 100%;";
  "  height: 100%;";
  "  position: absolute;";
  "  background-image:";
  "    radial-gradient(2px 2px at 20px 30px, var(--star-color2), rgba(0, 0, 0, 0)),";
  "    radial-gradient(2px 2px at 40px 70px, var(--star-color), rgba(0, 0, 0, 0)),";
  "    radial-gradient(2px 2px at 50px 160px, var(--star-color3), rgba(0, 0, 0, 0)),";
  "    radial-gradient(2px 2px at 90px 40px, var(--star-color), rgba(0, 0, 0, 0)),";
  "    radial-gradient(2px 2px at 130px 80px, var(--star-color), rgba(0, 0, 0, 0)),";
  "    radial-gradient(2px 2px at 160px 120px, var(--star-color3), rgba(0, 0, 0, 0));";
  "  background-repeat: repeat;";
  "  background-size: 200px 200px;";
  "  mask-image: radial-gradient(ellipse at 100% 0%, black 40%, transparent 70%);";
  "  opacity: 0.2;";
  "}";
  ".light-mode *::selection {";
  "  background-color: color-mix(in srgb, var(--scalar-color-blue), transparent 70%);";
  "}";
  ".dark-mode *::selection {";
  "  background-color: color-mix(in srgb, var(--scalar-color-blue), transparent 50%);";
  "}";
  "";
  "/* document header */";
  ".light-mode .t-doc__header,";
  ".dark-mode .t-doc__header {";
  "  animation: headerbackground forwards;";
  "  animation-timeline: scroll();";
  "  animation-range: 0px 200px;";
  "}";
  "@keyframes headerbackground {";
  "  from {";
  "    background: transparent;";
  "    backdrop-filter: none;";
  "  }";
  "  to {";
  "    background: var(--scalar-header-background-1);";
  "    backdrop-filter: blur(12px);";
  "  }";
  "}";
  "/* remove flare on safari to prevent dropped frames on scroll */";
  "@supports (-webkit-hyphens: none) {";
  "  .section-flare {";
  "    display: none;";
  "  }";
  "}";
  "";
  "/* document background */";
  ".light-mode .t-doc .layout-content,";
  ".dark-mode .t-doc .layout-content {";
  "  background: transparent;";
  "}";
  ""].

Definition Bin : string := template (Bin_palette ++ Bin_rules).
