(* ===== verification/ThemeTexts2.v ===== *)
(** * scalar.js: the texts of the themes, default, elysiajs, fastify, kepler, laserwave

    The template literals of hertzx/docs/scalar.js that hold stylesheets, line by
    line, under the bundle's names. *)
From S2P Require Import Prelude Css.
#[local] Open Scope list_scope.

(** default *)
Definition Vin : string := template [
  "/* basic theme */";
  ":root {";
  "  --scalar-text-decoration: underline;";
  "  --scalar-text-decoration-hover: underline;";
  "}";
  ".light-mode {";
  "  --scalar-background-1: #fff;";
  "  --scalar-background-2: #f6f6f6;";
  "  --scalar-background-3: #e7e7e7;";
  "  --scalar-background-accent: #8ab4f81f;";
  "";
  "  --scalar-color-1: #1b1b1b;";
  "  --scalar-color-2: #707070;";
  "  --scalar-color-3: #8e8e8e;";
  "";
  "  --scalar-color-accent: #0099ff;";
  "  --scalar-border-color: #dfdfdf;";
  "}";
  ".dark-mode {";
  "  --scalar-background-1: #0f0f0f;";
  "  --scalar-background-2: #1a1a1a;";
  "  --scalar-background-3: #272727;";
  "";
  "  --scalar-color-1: #e7e7e7;";
  "  --scalar-color-2: #a4a4a4;";
  "  --scalar-color-3: #797979;";
  "";
  "  --scalar-color-accent: #00aeff;";
  "  --scalar-background-accent: #3ea6ff1f;";
  "";
  "  --scalar-border-color: #2d2d2d;";
  "}";
  "/* Document Sidebar */";
  ".light-mode,";
  ".dark-mode {";
  "  --scalar-sidebar-background-1: var(--scalar-background-1);";
  "  --scalar-sidebar-color-1: var(--scalar-color-1);";
  "  --scalar-sidebar-color-2: var(--scalar-color-2);";
  "  --scalar-sidebar-border-color: var(--scalar-border-color);";
  "";
  "  --scalar-sidebar-item-hover-background: var(--scalar-background-2);";
  "  --scalar-sidebar-item-hover-color: var(--scalar-sidebar-color-2);";
  "";
  "  --scalar-sidebar-item-active-background: var(--scalar-background-2);";
  "  --scalar-sidebar-color-active: var(--scalar-sidebar-color-1);";
  "";
  "  --scalar-sidebar-indent-border: var(--scalar-sidebar-border-color);";
  "  --scalar-sidebar-indent-border-hover: var(--scalar-sidebar-border-color);";
  "  --scalar-sidebar-indent-border-active: var(--scalar-sidebar-border-color);";
  "";
  "  --scalar-sidebar-search-background: color-mix(in srgb, var(--scalar-background-2), var(--scalar-background-1));";
  "  --scalar-sidebar-search-color: var(--scalar-color-3);";
  "  --scalar-sidebar-search-border-color: var(--scalar-border-color);";
  "}";
  "/* advanced */";
  ".light-mode {";
  "  --scalar-color-green: #069061;";
  "  --scalar-color-red: #ef0006;";
  "  --scalar-color-yellow: #edbe20;";
  "  --scalar-color-blue: #0072bd;";
  "  --scalar-color-orange: #ff5800;";
  "  --scalar-color-purple: #5203d1;";
  "  --scalar-color-query: #007b80;";
  "";
  "  --scalar-link-color: var(--scalar-color-1);";
  "  --scalar-link-color-hover: var(--scalar-link-color);";
  "";
  "  --scalar-button-1: rgba(0, 0, 0, 1);";
  "  --scalar-button-1-hover: rgba(0, 0, 0, 0.8);";
  "  --scalar-button-1-color: #fff;";
  "";
  "  --scalar-tooltip-background: color-mix(in srgb, var(--scalar-background-1), transparent 10%);";
  "  --scalar-tooltip-color: var(--scalar-color-1);";
  "";
  "  --scalar-color-alert: color-mix(in srgb, var(--scalar-color-orange), var(--scalar-color-1) 20%);";
  "  --scalar-color-danger: color-mix(in srgb, var(--scalar-color-red), var(--scalar-color-1) 20%);";
  "";
  "  --scalar-background-alert: color-mix(in srgb, var(--scalar-color-orange), var(--scalar-background-1) 95%);";
  "  --scalar-background-danger: color-mix(in srgb, var(--scalar-color-red), var(--scalar-background-1) 95%);";
  "}";
  ".dark-mode {";
  "  --scalar-color-green: #00b648;";
  "  --scalar-color-red: #dc1b19;";
  "  --scalar-color-yellow: #ffc90d;";
  "  --scalar-color-blue: #4eb3ec;";
  "  --scalar-color-orange: #ff8d4d;";
  "  --scalar-color-purple: #b191f9;";
  "  --scalar-color-query: #65d4cf;";
  "";
  "  --scalar-link-color: var(--scalar-color-1);";
  "  --scalar-link-color-hover: var(--scalar-link-color);";
  "";
  "  --scalar-button-1: rgba(255, 255, 255, 1);";
  "  --scalar-button-1-hover: rgba(255, 255, 255, 0.9);";
  "  --scalar-button-1-color: black;";
  "";
  "  --scalar-tooltip-background: color-mix(in srgb, var(--scalar-background-1), #fff 10%);";
  "  --scalar-tooltip-color: color-mix(in srgb, #fff, transparent 5%);";
  "";
  "  --scalar-color-danger: color-mix(in srgb, var(--scalar-color-red), var(--scalar-background-1) 20%);";
  "";
  "  --scalar-background-alert: color-mix(in srgb, var(--scalar-color-orange), var(--scalar-background-1) 95%);";
  "  --scalar-background-danger: color-mix(in srgb, var(--scalar-color-red), var(--scalar-background-1) 95%);";
  "}";
  "@supports (color: color(display-p3 1 1 1)) {";
  "  .light-mode {";
  "    --scalar-color-accent: color(display-p3 0 0.6 1 / 1);";
  "    --scalar-color-green: color(display-p3 0.023529 0.564706 0.380392 / 1);";
  "    --scalar-color-red: color(display-p3 0.937255 0 0.023529 / 1);";
  "    --scalar-color-yellow: color(display-p3 0.929412 0.745098 0.12549 / 1);";
  "    --scalar-color-blue: color(display-p3 0 0.447059 0.741176 / 1);";
  "    --scalar-color-orange: color(display-p3 1 0.4 0.02);";
  "    --scalar-color-purple: color(display-p3 0.321569 0.011765 0.819608 / 1);";
  "  }";
  "  .dark-mode {";
  "    --scalar-color-accent: color(display-p3 0.07 0.67 1);";
  "    --scalar-color-green: color(display-p3 0 0.713725 0.282353 / 1);";
  "    --scalar-color-red: color(display-p3 0.862745 0.105882 0.098039 / 1);";
  "    --scalar-color-yellow: color(display-p3 1 0.788235 0.05098 / 1);";
  "    --scalar-color-blue: color(display-p3 0.305882 0.701961 0.92549 / 1);";
  "    --scalar-color-orange: color(display-p3 1 0.552941 0.301961 / 1);";
  "    --scalar-color-purple: color(display-p3 0.694118 0.568627 0.976471 / 1);";
  "  }";
  "}";
  ""].

(** elysiajs *)
Definition Hin : string := template [
  ".light-mode {";
  "  --scalar-color-1: #1b1b1b;";
  "  --scalar-color-2: #707070;";
  "  --scalar-color-3: #8e8e8e;";
  "  --scalar-color-accent: #f06292;";
  "";
  "  --scalar-background-1: #fff;";
  "  --scalar-background-2: #f6f6f6;";
  "  --scalar-background-3: #e7e7e7;";
  "";
  "  --scalar-border-color: rgba(0, 0, 0, 0.1);";
  "}";
  ".dark-mode {";
  "  --scalar-color-1: rgba(255, 255, 255, 0.9);";
  "  --scalar-color-2: rgba(156, 163, 175, 1);";
  "  --scalar-color-3: rgba(255, 255, 255, 0.44);";
  "  --scalar-color-accent: #f06292;";
  "";
  "  --scalar-background-1: #111728;";
  "  --scalar-background-2: #1e293b;";
  "  --scalar-background-3: #334155;";
  "  --scalar-background-accent: #f062921f;";
  "";
  "  --scalar-border-color: rgba(255, 255, 255, 0.1);";
  "}";
  "";
  "/* Document Sidebar */";
  ".light-mode .t-doc__sidebar,";
  ".dark-mode .t-doc__sidebar {";
  "  --scalar-sidebar-background-1: var(--scalar-background-1);";
  "  --scalar-sidebar-color-1: var(--scalar-color-1);";
  "  --scalar-sidebar-color-2: var(--scalar-color-2);";
  "  --scalar-sidebar-border-color: var(--scalar-border-color);";
  "";
  "  --scalar-sidebar-item-hover-background: var(--scalar-background-2);";
  "  --scalar-sidebar-item-hover-color: currentColor;";
  "";
  "  --scalar-sidebar-item-active-background: #f062921f;";
  "  --scalar-sidebar-color-active: var(--scalar-color-accent);";
  "";
  "  --scalar-sidebar-search-background: transparent;";
  "  --scalar-sidebar-search-color: var(--scalar-color-3);";
  "  --scalar-sidebar-search-border-color: var(--scalar-border-color);";
  "}";
  "";
  "/* advanced */";
  ".light-mode {";
  "  --scalar-button-1: rgb(49 53 56);";
  "  --scalar-button-1-color: #fff;";
  "  --scalar-button-1-hover: rgb(28 31 33);";
  "";
  "  --scalar-color-green: #069061;";
  "  --scalar-color-red: #ef0006;";
  "  --scalar-color-yellow: #edbe20;";
  "  --scalar-color-blue: #0072bd;";
  "  --scalar-color-orange: #fb892c;";
  "  --scalar-color-purple: #5203d1;";
  "  --scalar-color-query: #007b80;";
  "";
  "  --scalar-scrollbar-color: rgba(0, 0, 0, 0.18);";
  "  --scalar-scrollbar-color-active: rgba(0, 0, 0, 0.36);";
  "}";
  ".dark-mode {";
  "  --scalar-button-1: #f6f6f6;";
  "  --scalar-button-1-color: #000;";
  "  --scalar-button-1-hover: #e7e7e7;";
  "";
  "  --scalar-color-green: #a3ffa9;";
  "  --scalar-color-red: #ffa3a3;";
  "  --scalar-color-yellow: #fffca3;";
  "  --scalar-color-blue: #a5d6ff;";
  "  --scalar-color-orange: #e2ae83;";
  "  --scalar-color-purple: #d2a8ff;";
  "  --scalar-color-query: #a5f3df;";
  "";
  "  --scalar-scrollbar-color: rgba(255, 255, 255, 0.24);";
  "  --scalar-scrollbar-color-active: rgba(255, 255, 255, 0.48);";
  "}";
  ".section-flare {";
  "  width: 100%;";
  "  height: 400px;";
  "  position: absolute;";
  "}";
  ".section-flare-item:first-of-type:before {";
  "  content: ``;";
  "  position: absolute;";
  "  top: 0;";
  "  right: 0;";
  "  bottom: 0;";
  "  left: 0;";
  "  --stripes: repeating-linear-gradient(100deg, #fff 0%, #fff 0%, transparent 2%, transparent 12%, #fff 17%);";
  "  --stripesDark: repeating-linear-gradient(100deg, #000 0%, #000 0%, transparent 10%, transparent 12%, #000 17%);";
  "  --rainbow: repeating-linear-gradient(100deg, #60a5fa 10%, #e879f9 16%, #5eead4 22%, #60a5fa 30%);";
  "  contain: strict;";
  "  contain-intrinsic-size: 100vw 40vh;";
  "  background-image: var(--stripesDark), var(--rainbow);";
  "  background-size: 300%, 200%;";
  "  background-position:";
  "    50% 50%,";
  "    50% 50%;";
  "  filter: opacity(20%) saturate(200%);";
  "  -webkit-mask-image: radial-gradient(ellipse at 100% 0%, black 40%, transparent 70%);";
  "  mask-image: radial-gradient(ellipse at 100% 0%, black 40%, transparent 70%);";
  "  pointer-events: none;";
  "}";
  ".section-flare-item:first-of-type:after {";
  "  content: ``;";
  "  position: absolute;";
  "  top: 0;";
  "  right: 0;";
  "  bottom: 0;";
  "  left: 0;";
  "  background-image: var(--stripes), var(--rainbow);";
  "  background-size: 200%, 100%;";
  "  background-attachment: fixed;";
  "  mix-blend-mode: difference;";
  "  background-image: var(--stripesDark), var(--rainbow);";
  "  pointer-events: none;";
  "}";
  ".light-mode .section-flare-item:first-of-type:after,";
  ".light-mode .section-flare-item:first-of-type:before {";
  "  background-image: var(--stripes), var(--rainbow);";
  "  filter: opacity(4%) saturate(200%);";
  "}";
  ""].

(** fastify *)
Definition Uin : string := template [
  ".light-mode {";
  "  color-scheme: light;";
  "  --scalar-color-1: #1c1e21;";
  "  --scalar-color-2: #707070;";
  "  --scalar-color-3: #8e8e8e;";
  "  --scalar-color-disabled: #b4b1b1;";
  "  --scalar-color-ghost: #a7a7a7;";
  "  --scalar-color-accent: #2f8555;";
  "  --scalar-background-1: #fff;";
  "  --scalar-background-2: #f5f5f5;";
  "  --scalar-background-3: #ededed;";
  "  --scalar-background-4: rgba(0, 0, 0, 0.06);";
  "  --scalar-background-accent: #2f85551f;";
  "";
  "  --scalar-border-color: rgba(0, 0, 0, 0.1);";
  "  --scalar-scrollbar-color: rgba(0, 0, 0, 0.18);";
  "  --scalar-scrollbar-color-active: rgba(0, 0, 0, 0.36);";
  "  --scalar-lifted-brightness: 1;";
  "  --scalar-backdrop-brightness: 1;";
  "";
  "  --scalar-shadow-1: 0 1px 3px 0 rgba(0, 0, 0, 0.11);";
  "  --scalar-shadow-2: rgba(0, 0, 0, 0.08) 0px 13px 20px 0px, rgba(0, 0, 0, 0.08) 0px 3px 8px 0px, #eeeeed 0px 0 0 1px;";
  "";
  "  --scalar-button-1: rgb(49 53 56);";
  "  --scalar-button-1-color: #fff;";
  "  --scalar-button-1-hover: rgb(28 31 33);";
  "";
  "  --scalar-color-green: #007300;";
  "  --scalar-color-red: #af272b;";
  "  --scalar-color-yellow: #b38200;";
  "  --scalar-color-blue: #33788f;";
  "  --scalar-color-orange: #fb892c;";
  "  --scalar-color-purple: #5203d1;";
  "  --scalar-color-query: #00766f;";
  "}";
  "";
  ".dark-mode {";
  "  color-scheme: dark;";
  "  --scalar-color-1: rgba(255, 255, 255, 0.9);";
  "  --scalar-color-2: rgba(255, 255, 255, 0.62);";
  "  --scalar-color-3: rgba(255, 255, 255, 0.44);";
  "  --scalar-color-disabled: rgba(255, 255, 255, 0.34);";
  "  --scalar-color-ghost: rgba(255, 255, 255, 0.26);";
  "  --scalar-color-accent: #27c2a0;";
  "  --scalar-background-1: #1b1b1d;";
  "  --scalar-background-2: #242526;";
  "  --scalar-background-3: #3b3b3b;";
  "  --scalar-background-4: rgba(255, 255, 255, 0.06);";
  "  --scalar-background-accent: #27c2a01f;";
  "";
  "  --scalar-border-color: rgba(255, 255, 255, 0.1);";
  "  --scalar-scrollbar-color: rgba(255, 255, 255, 0.24);";
  "  --scalar-scrollbar-color-active: rgba(255, 255, 255, 0.48);";
  "  --scalar-lifted-brightness: 1.45;";
  "  --scalar-backdrop-brightness: 0.5;";
  "";
  "  --scalar-shadow-1: 0 1px 3px 0 rgb(0, 0, 0, 0.1);";
  "  --scalar-shadow-2:";
  "    rgba(15, 15, 15, 0.2) 0px 3px 6px, rgba(15, 15, 15, 0.4) 0px 9px 24px, 0 0 0 1px rgba(255, 255, 255, 0.1);";
  "";
  "  --scalar-button-1: #f6f6f6;";
  "  --scalar-button-1-color: #000;";
  "  --scalar-button-1-hover: #e7e7e7;";
  "";
  "  --scalar-color-green: #26b226;";
  "  --scalar-color-red: #fb565b;";
  "  --scalar-color-yellow: #ffc426;";
  "  --scalar-color-blue: #6ecfef;";
  "  --scalar-color-orange: #ff8d4d;";
  "  --scalar-color-purple: #b191f9;";
  "  --scalar-color-query: #5fdbc5;";
  "}";
  ""].

(** kepler: its palettes *)
Definition Win_palette : list string := [
  "/* basic theme */";
  ".light-mode {";
  "  --scalar-color-1: #1b1b1b;";
  "  --scalar-color-2: #707070;";
  "  --scalar-color-3: #8e8e8e;";
  "  --scalar-color-accent: #7070ff;";
  "";
  "  --scalar-background-1: #fff;";
  "  --scalar-background-2: #f6f6f6;";
  "  --scalar-background-3: #e7e7e7;";
  "  --scalar-background-accent: #7070ff1f;";
  "";
  "  --scalar-border-color: rgba(0, 0, 0, 0.1);";
  "";
  "  --scalar-code-language-color-supersede: var(--scalar-color-3);";
  "}";
  ".dark-mode {";
  "  --scalar-color-1: #f7f8f8;";
  "  --scalar-color-2: rgb(180, 188, 208);";
  "  --scalar-color-3: #b4bcd099;";
  "  --scalar-color-accent: #828fff;";
  "";
  "  --scalar-background-1: #000212;";
  "  --scalar-background-2: #0d0f1e;";
  "  --scalar-background-3: #232533;";
  "  --scalar-background-accent: #8ab4f81f;";
  "";
  "  --scalar-border-color: #313245;";
  "  --scalar-code-language-color-supersede: var(--scalar-color-3);";
  "}";
  "/* Document Sidebar */";
  ".light-mode .t-doc__sidebar {";
  "  --scalar-sidebar-background-1: var(--scalar-background-1);";
  "  --scalar-sidebar-item-hover-color: currentColor;";
  "  --scalar-sidebar-item-hover-background: var(--scalar-background-2);";
  "  --scalar-sidebar-item-active-background: var(--scalar-background-accent);";
  "  --scalar-sidebar-border-color: var(--scalar-border-color);";
  "  --scalar-sidebar-color-1: var(--scalar-color-1);";
  "  --scalar-sidebar-color-2: var(--scalar-color-2);";
  "  --scalar-sidebar-color-active: var(--scalar-color-accent);";
  "  --scalar-sidebar-search-background: rgba(0, 0, 0, 0.05);";
  "  --scalar-sidebar-search-border-color: 1px solid rgba(0, 0, 0, 0.05);";
  "  --scalar-sidebar-search-color: var(--scalar-color-3);";
  "  --scalar-background-2: rgba(0, 0, 0, 0.03);";
  "}";
  ".dark-mode .t-doc__sidebar {";
  "  --scalar-sidebar-background-1: var(--scalar-background-1);";
  "  --scalar-sidebar-item-hover-color: currentColor;";
  "  --scalar-sidebar-item-hover-background: var(--scalar-background-2);";
  "  --scalar-sidebar-item-active-background: rgba(255, 255, 255, 0.1);";
  "  --scalar-sidebar-border-color: var(--scalar-border-color);";
  "  --scalar-sidebar-color-1: var(--scalar-color-1);";
  "  --scalar-sidebar-color-2: var(--scalar-color-2);";
  "  --scalar-sidebar-color-active: var(--scalar-color-accent);";
  "  --scalar-sidebar-search-background: rgba(255, 255, 255, 0.1);";
  "  --scalar-sidebar-search-border-color: 1px solid rgba(255, 255, 255, 0.05);";
  "  --scalar-sidebar-search-color: var(--scalar-color-3);";
  "}";
  "/* advanced */";
  ".light-mode {";
  "  --scalar-color-green: #069061;";
  "  --scalar-color-red: #ef0006;";
  "  --scalar-color-yellow: #edbe20;";
  "  --scalar-color-blue: #0072bd;";
  "  --scalar-color-orange: #fb892c;";
  "  --scalar-color-purple: #5203d1;";
  "  --scalar-color-query: #007b80;";
  "";
  "  --scalar-button-1: rgba(0, 0, 0, 1);";
  "  --scalar-button-1-hover: rgba(0, 0, 0, 0.8);";
  "  --scalar-button-1-color: #fff;";
  "}";
  ".dark-mode {";
  "  --scalar-color-green: #00b648;";
  "  --scalar-color-red: #dc1b19;";
  "  --scalar-color-yellow: #ffc90d;";
  "  --scalar-color-blue: #4eb3ec;";
  "  --scalar-color-orange: #ff8d4d;";
  "  --scalar-color-purple: #b191f9;";
  "  --scalar-color-query: #65d4cf;";
  "";
  "  --scalar-button-1: rgba(255, 255, 255, 1);";
  "  --scalar-button-1-hover: rgba(255, 255, 255, 0.9);";
  "  --scalar-button-1-color: black;";
  "}"].

(** ... and its rules *)
Definition Win_rules : list string := [
  "/* Custom Theme */";
  ".dark-mode h2.t-editor__heading,";
  ".dark-mode .t-editor__page-title h1,";
  ".dark-mode h1.section-header:not(::selection),";
  ".dark-mode .markdown h1,";
  ".dark-mode .markdown h2,";
  ".dark-mode .markdown h3,";
  ".dark-mode .markdown h4,";
  ".dark-mode .markdown h5,";
  ".dark-mode .markdown h6 {";
  "  -webkit-text-fill-color: transparent;";
  "  background-image: linear-gradient(to right bottom, rgb(255, 255, 255) 30%, rgba(255, 255, 255, 0.38));";
  "  -webkit-background-clip: text;";
  "  background-clip: text;";
  "}";
  ".sidebar-search {";
  "  backdrop-filter: blur(12px);";
  "}";
  "@keyframes headerbackground {";
  "  from {";
  "    background: transparent;";
  "    backdrop-filter: none;";
  "  }";
  "  to {";
  "    background: var(--scalar-header-background-1);";
  "    backdrop-filter: blur(12px);";
  "  }";
  "}";
  ".dark-mode .scalar-card {";
  "  background: rgba(255, 255, 255, 0.05) !important;";
  "}";
  ".dark-mode .scalar-card * {";
  "  --scalar-background-2: transparent !important;";
  "  --scalar-background-1: transparent !important;";
  "}";
  ".light-mode .dark-mode.scalar-card *,";
  ".light-mode .dark-mode.scalar-card {";
  "  --scalar-background-1: #0d0f1e !important;";
  "  --scalar-background-2: #0d0f1e !important;";
  "  --scalar-background-3: #191b29 !important;";
  "}";
  ".light-mode .dark-mode.scalar-card {";
  "  background: #191b29 !important;";
  "}";
  ".badge {";
  "  box-shadow: 0 0 0 1px var(--scalar-border-color);";
  "  margin-right: 6px;";
  "}";
  "";
  ".table-row.required-parameter .table-row-item:nth-of-type(2):after {";
  "  background: transparent;";
  "  box-shadow: none;";
  "}";
  "/* Hero Section Flare */";
  ".section-flare {";
  "  width: 100vw;";
  "  background: radial-gradient(ellipse 80% 50% at 50% -20%, rgba(120, 119, 198, 0.3), transparent);";
  "  height: 100vh;";
  "}";
  ".light-mode *::selection {";
  "  background-color: color-mix(in srgb, var(--scalar-color-accent), transparent 70%);";
  "}";
  ".dark-mode *::selection {";
  "  background-color: color-mix(in srgb, var(--scalar-color-accent), transparent 50%);";
  "}";
  "";
  "/* document layout */";
  ".light-mode .t-doc .layout-content,";
  ".dark-mode .t-doc .layout-content {";
  "  background: transparent;";
  "}";
  ""].

Definition Win : string := template (Win_palette ++ Win_rules).

(** laserwave *)
Definition Gin : string := template [
  "/* basic theme */";
  ".light-mode {";
  "  color-scheme: light;";
  "  --scalar-color-1: #322b3b;";
  "  --scalar-color-2: #645676;";
  "  --scalar-color-3: #9789a9;";
  "  --scalar-color-accent: #40b4c4;";
  "";
  "  --scalar-background-1: #fff;";
  "  --scalar-background-2: #f4f2f7;";
  "  --scalar-background-3: #cfc7dc;";
  "  --scalar-background-accent: #f3fafb;";
  "";
  "  --scalar-border-color: #e4e0eb;";
  "}";
  ".dark-mode {";
  "  color-scheme: dark;";
  "  --scalar-color-1: #fff;";
  "  --scalar-color-2: #b8b6ba;";
  "  --scalar-color-3: #706c74;";
  "  --scalar-color-accent: #ed78c2;";
  "";
  "  --scalar-background-1: #27212e;";
  "  --scalar-background-2: #322c39;";
  "  --scalar-background-3: #4c4059;";
  "  --scalar-background-accent: #eb64b91f;";
  "";
  "  --scalar-border-color: rgba(255, 255, 255, 0.1);";
  "}";
  "";
  "/* Sidebar */";
  ".light-mode .t-doc__sidebar {";
  "  --scalar-sidebar-background-1: var(--scalar-background-1);";
  "  --scalar-sidebar-item-hover-color: currentColor;";
  "  --scalar-sidebar-item-hover-background: var(--scalar-background-2);";
  "  --scalar-sidebar-item-active-background: var(--scalar-background-accent);";
  "  --scalar-sidebar-border-color: var(--scalar-border-color);";
  "  --scalar-sidebar-color-1: var(--scalar-color-1);";
  "  --scalar-sidebar-color-2: var(--scalar-color-2);";
  "  --scalar-sidebar-color-active: var(--scalar-color-accent);";
  "  --scalar-sidebar-search-background: var(--scalar-background-2);";
  "  --scalar-sidebar-search-border-color: var(--scalar-sidebar-border-color);";
  "  --scalar-sidebar-search--color: var(--scalar-color-3);";
  "}";
  ".dark-mode .t-doc__sidebar {";
  "  --scalar-sidebar-background-1: var(--scalar-background-1);";
  "  --scalar-sidebar-item-hover-color: currentColor;";
  "  --scalar-sidebar-item-hover-background: var(--scalar-background-2);";
  "  --scalar-sidebar-item-active-background: var(--scalar-background-accent);";
  "  --scalar-sidebar-border-color: var(--scalar-border-color);";
  "  --scalar-sidebar-color-1: var(--scalar-color-1);";
  "  --scalar-sidebar-color-2: var(--scalar-color-2);";
  "  --scalar-sidebar-color-active: var(--scalar-color-accent);";
  "  --scalar-sidebar-search-background: var(--scalar-background-2);";
  "  --scalar-sidebar-search-border-color: #514c56;";
  "  --scalar-sidebar-search--color: var(--scalar-color-3);";
  "}";
  "/* advanced */";
  ".light-mode {";
  "  --scalar-button-1: rgb(49 53 56);";
  "  --scalar-button-1-color: #fff;";
  "  --scalar-button-1-hover: rgb(28 31 33);";
  "";
  "  --scalar-color-green: #74dfc4;";
  "  --scalar-color-red: #d887f5;";
  "  --scalar-color-yellow: #ffe261;";
  "  --scalar-color-blue: #40b4c4;";
  "  --scalar-color-orange: #ff52bf;";
  "  --scalar-color-purple: #91889b;";
  "  --scalar-color-query: #7860a8;";
  "";
  "  --scalar-scrollbar-color: rgba(0, 0, 0, 0.18);";
  "  --scalar-scrollbar-color-active: rgba(0, 0, 0, 0.36);";
  "}";
  ".dark-mode {";
  "  --scalar-button-1: #f6f6f6;";
  "  --scalar-button-1-color: #27212e;";
  "  --scalar-button-1-hover: #e7e7e7;";
  "";
  "  --scalar-color-green: #74dfc4;";
  "  --scalar-color-red: #d887f5;";
  "  --scalar-color-yellow: #ffe261;";
  "  --scalar-color-blue: #40b4c4;";
  "  --scalar-color-orange: #ff52bf;";
  "  --scalar-color-purple: #91889b;";
  "  --scalar-color-query: #b8a2e3;";
  "";
  "  --scalar-scrollbar-color: rgba(255, 255, 255, 0.24);";
  "  --scalar-scrollbar-color-active: rgba(255, 255, 255, 0.48);";
  "}";
  "/* Radius */";
  ":root {";
  "  --scalar-radius: 2px;";
  "  --scalar-radius-lg: 3px;";
  "  --scalar-radius-xl: 4px;";
  "}";
  "/* P3 color support */";
  "@supports (color: color(display-p3 1 1 1)) {";
  "  .light-mode {";
  "    --scalar-color-accent: color(display-p3 0.25098 0.705882 0.768627 / 1);";
  "    --scalar-color-green: color(display-p3 0.454902 0.87451 0.768627 / 1);";
  "    --scalar-color-red: color(display-p3 0.847059 0.529412 0.960784 / 1);";
  "    --scalar-color-yellow: color(display-p3 1 0.886275 0.380392 / 1);";
  "    --scalar-color-blue: color(display-p3 0.25098 0.705882 0.768627 / 1);";
  "    --scalar-color-orange: color(display-p3 1 0.321569 0.74902 / 1);";
  "    --scalar-color-purple: color(display-p3 0.568627 0.533333 0.607843 / 1);";
  "    --scalar-color-query: color(display-p3 0.470588 0.376471 0.658824 / 1);";
  "  }";
  "  .dark-mode {";
  "    --scalar-color-accent: color(display-p3 0.929412 0.470588 0.760784 / 1);";
  "    --scalar-color-green: color(display-p3 0.454902 0.87451 0.768627 / 1);";
  "    --scalar-color-red: color(display-p3 0.847059 0.529412 0.960784 / 1);";
  "    --scalar-color-yellow: color(display-p3 1 0.886275 0.380392 / 1);";
  "    --scalar-color-blue: color(display-p3 0.25098 0.705882 0.768627 / 1);";
  "    --scalar-color-orange: color(display-p3 1 0.321569 0.74902 / 1);";
  "    --scalar-color-purple: color(display-p3 0.568627 0.533333 0.607843 / 1);";
  "    --scalar-color-query: color(display-p3 0.721569 0.635294 0.890196 / 1);";
  "  }";
  "}";
  ""].
