(* ===== verification/ThemeTexts3.v ===== *)
(** * scalar.js: the texts of the themes, mars, moon, purple, saturn, solarized

    The template literals of hertzx/docs/scalar.js that hold stylesheets, line by
    line, under the bundle's names. *)
From S2P Require Import Prelude Css.
#[local] Open Scope list_scope.

(** mars *)
Definition Kin : string := template [
  "/* basic theme */";
  ":root {";
  "  --scalar-text-decoration: underline;";
  "  --scalar-text-decoration-hover: underline;";
  "}";
  ".light-mode {";
  "  --scalar-background-1: #f9f6f0;";
  "  --scalar-background-2: #f2efe8;";
  "  --scalar-background-3: #e9e7e2;";
  "  --scalar-border-color: rgba(203, 165, 156, 0.6);";
  "";
  "  --scalar-color-1: #b24c41;";
  "  --scalar-color-2: #b24c41;";
  "  --scalar-color-3: #b24c41;";
  "";
  "  --scalar-color-accent: #b24c41;";
  "  --scalar-background-accent: #dcbfa81f;";
  "";
  "  --scalar-code-language-color-supersede: var(--scalar-color-1);";
  "}";
  ".dark-mode {";
  "  --scalar-background-1: #140507;";
  "  --scalar-background-2: #20090c;";
  "  --scalar-background-3: #321116;";
  "  --scalar-border-color: #3c3031;";
  "";
  "  --scalar-color-1: rgba(255, 255, 255, 0.9);";
  "  --scalar-color-2: rgba(255, 255, 255, 0.62);";
  "  --scalar-color-3: rgba(255, 255, 255, 0.44);";
  "";
  "  --scalar-color-accent: rgba(255, 255, 255, 0.9);";
  "  --scalar-background-accent: #441313;";
  "";
  "  --scalar-code-language-color-supersede: var(--scalar-color-1);";
  "}";
  "";
  "/* Document Sidebar */";
  ".light-mode .t-doc__sidebar,";
  ".dark-mode .t-doc__sidebar {";
  "  --scalar-sidebar-background-1: var(--scalar-background-1);";
  "  --scalar-sidebar-color-1: var(--scalar-color-1);";
  "  --scalar-sidebar-color-2: var(--scalar-color-2);";
  "  --scalar-sidebar-border-color: var(--scalar-border-color);";
  "";
  "  --scalar-sidebar-item-hover-color: currentColor;";
  "  --scalar-sidebar-item-hover-background: var(--scalar-background-2);";
  "";
  "  --scalar-sidebar-item-active-background: var(--scalar-background-3);";
  "  --scalar-sidebar-color-active: var(--scalar-color-accent);";
  "";
  "  --scalar-sidebar-search-background: rgba(255, 255, 255, 0.1);";
  "  --scalar-sidebar-search-color: var(--scalar-color-3);";
  "  --scalar-sidebar-search-border-color: var(--scalar-border-color);";
  "  z-index: 1;";
  "}";
  "/* advanced */";
  ".light-mode {";
  "  --scalar-color-green: #09533a;";
  "  --scalar-color-red: #aa181d;";
  "  --scalar-color-yellow: #ab8d2b;";
  "  --scalar-color-blue: #19689a;";
  "  --scalar-color-orange: #b26c34;";
  "  --scalar-color-purple: #4c2191;";
  "  --scalar-color-query: #086566;";
  "";
  "  --scalar-button-1: rgba(0, 0, 0, 1);";
  "  --scalar-button-1-hover: rgba(0, 0, 0, 0.8);";
  "  --scalar-button-1-color: #fff;";
  "}";
  ".dark-mode {";
  "  --scalar-color-green: rgba(69, 255, 165, 0.823);";
  "  --scalar-color-red: #ff8589;";
  "  --scalar-color-yellow: #ffcc4d;";
  "  --scalar-color-blue: #6bc1fe;";
  "  --scalar-color-orange: #f98943;";
  "  --scalar-color-purple: #b191f9;";
  "  --scalar-color-query: #79e2da;";
  "";
  "  --scalar-button-1: rgba(255, 255, 255, 1);";
  "  --scalar-button-1-hover: rgba(255, 255, 255, 0.9);";
  "  --scalar-button-1-color: black;";
  "}";
  "/* Custom Theme */";
  ".dark-mode h2.t-editor__heading,";
  ".dark-mode .t-editor__page-title h1,";
  ".dark-mode h1.section-header:not(::selection),";
  ".dark-mode .markdown h1,";
  ".dark-mode .markdown h2,";
  ".dark-mode .markdown h3,";
  ".dark-mode .markdown h4,";
  ".dark-mode .markdown h5,";
  ".dark-mode .markdown h6 {";
  "  -webkit-text-fill-color: transparent;";
  "  background-image: linear-gradient(to right bottom, rgb(255, 255, 255) 30%, rgba(255, 255, 255, 0.38));";
  "  -webkit-background-clip: text;";
  "  background-clip: text;";
  "}";
  ".light-mode .t-doc__sidebar {";
  "  --scalar-sidebar-search-background: white;";
  "}";
  ".examples .scalar-card-footer {";
  "  --scalar-background-3: transparent;";
  "  padding-top: 0;";
  "}";
  "/* Hero section flare */";
  ".section-flare {";
  "  overflow-x: hidden;";
  "  height: 100vh;";
  "  left: initial;";
  "}";
  ".section-flare-item:nth-of-type(1) {";
  "  background: #d25019;";
  "  position: relative;";
  "  top: -150px;";
  "  right: -400px;";
  "  width: 80vw;";
  "  height: 500px;";
  "  margin-top: -150px;";
  "  border-radius: 50%;";
  "  filter: blur(100px);";
  "  z-index: 0;";
  "}";
  ".light-mode .section-flare {";
  "  display: none;";
  "}";
  "*::selection {";
  "  background-color: color-mix(in srgb, var(--scalar-color-red), transparent 75%);";
  "}";
  "";
  "/* document layout */";
  ".dark-mode .t-doc .layout-content {";
  "  background: transparent;";
  "}";
  ""].

(** moon *)
Definition qin : string := template [
  ".light-mode {";
  "  color-scheme: light;";
  "  --scalar-color-1: #000000;";
  "  --scalar-color-2: #000000;";
  "  --scalar-color-3: #000000;";
  "  --scalar-color-accent: #645b0f;";
  "  --scalar-background-1: #ccc9b3;";
  "  --scalar-background-2: #c2bfaa;";
  "  --scalar-background-3: #b8b5a1;";
  "  --scalar-background-accent: #000000;";
  "";
  "  --scalar-border-color: rgba(0, 0, 0, 0.2);";
  "  --scalar-scrollbar-color: rgba(0, 0, 0, 0.18);";
  "  --scalar-scrollbar-color-active: rgba(0, 0, 0, 0.36);";
  "  --scalar-lifted-brightness: 1;";
  "  --scalar-backdrop-brightness: 1;";
  "";
  "  --scalar-shadow-1: 0 1px 3px 0 rgba(0, 0, 0, 0.11);";
  "  --scalar-shadow-2:";
  "    rgba(0, 0, 0, 0.08) 0px 13px 20px 0px, rgba(0, 0, 0, 0.08) 0px 3px 8px 0px, var(--scalar-border-color) 0px 0 0 1px;";
  "";
  "  --scalar-button-1: rgb(49 53 56);";
  "  --scalar-button-1-color: #fff;";
  "  --scalar-button-1-hover: rgb(28 31 33);";
  "";
  "  --scalar-color-red: #b91c1c;";
  "  --scalar-color-orange: #a16207;";
  "  --scalar-color-green: #047857;";
  "  --scalar-color-blue: #1841b5;";
  "  --scalar-color-orange: #c2410c;";
  "  --scalar-color-purple: #6d28d9;";
  "  --scalar-color-query: #0f766e;";
  "}";
  "";
  ".dark-mode {";
  "  color-scheme: dark;";
  "  --scalar-color-1: #fffef3;";
  "  --scalar-color-2: #fffef3;";
  "  --scalar-color-3: #fffef3;";
  "  --scalar-color-accent: #c3b531;";
  "  --scalar-background-1: #313332;";
  "  --scalar-background-2: #393b3a;";
  "  --scalar-background-3: #414342;";
  "  --scalar-background-accent: #fffef3;";
  "";
  "  --scalar-border-color: #505452;";
  "  --scalar-scrollbar-color: rgba(255, 255, 255, 0.24);";
  "  --scalar-scrollbar-color-active: rgba(255, 255, 255, 0.48);";
  "  --scalar-lifted-brightness: 1.45;";
  "  --scalar-backdrop-brightness: 0.5;";
  "";
  "  --scalar-shadow-1: 0 1px 3px 0 rgba(0, 0, 0, 0.11);";
  "  --scalar-shadow-2:";
  "    rgba(15, 15, 15, 0.2) 0px 3px 6px, rgba(15, 15, 15, 0.4) 0px 9px 24px, 0 0 0 1px rgba(255, 255, 255, 0.1);";
  "";
  "  --scalar-button-1: #f6f6f6;";
  "  --scalar-button-1-color: #000;";
  "  --scalar-button-1-hover: #e7e7e7;";
  "";
  "  --scalar-color-green: #00b648;";
  "  --scalar-color-red: #dc1b19;";
  "  --scalar-color-yellow: #ffc90d;";
  "  --scalar-color-blue: #4eb3ec;";
  "  --scalar-color-orange: #ff8d4d;";
  "  --scalar-color-purple: #b191f9;";
  "  --scalar-color-query: #5eead4;";
  "}";
  "";
  "/* Sidebar */";
  ".light-mode .t-doc__sidebar,";
  ".dark-mode .t-doc__sidebar {";
  "  --scalar-sidebar-background-1: var(--scalar-background-1);";
  "  --scalar-sidebar-color-1: var(--scalar-color-1);";
  "  --scalar-sidebar-color-2: var(--scalar-color-2);";
  "  --scalar-sidebar-border-color: var(--scalar-border-color);";
  "";
  "  --scalar-sidebar-item-hover-background: var(--scalar-background-2);";
  "  --scalar-sidebar-item-hover-color: currentColor;";
  "";
  "  --scalar-sidebar-item-active-background: var(--scalar-background-3);";
  "  --scalar-sidebar-color-active: var(--scalar-color-1);";
  "";
  "  --scalar-sidebar-search-background: transparent;";
  "  --scalar-sidebar-search-color: var(--scalar-color-3);";
  "  --scalar-sidebar-search-border-color: var(--scalar-border-color);";
  "}";
  "*::selection {";
  "  background-color: color-mix(in srgb, var(--scalar-color-accent), transparent 80%);";
  "}";
  ""].

(** purple *)
Definition Jin : string := template [
  "/* basic theme */";
  ".light-mode {";
  "  --scalar-background-1: #fff;";
  "  --scalar-background-2: #f5f6f8;";
  "  --scalar-background-3: #eceef1;";
  "";
  "  --scalar-color-1: #1b1b1b;";
  "  --scalar-color-2: #707070;";
  "  --scalar-color-3: #8e8e8e;";
  "";
  "  --scalar-color-accent: #5469d4;";
  "  --scalar-background-accent: #5469d41f;";
  "";
  "  --scalar-border-color: rgba(215, 215, 206, 0.68);";
  "}";
  ".dark-mode {";
  "  --scalar-background-1: #15171c;";
  "  --scalar-background-2: #1c1e24;";
  "  --scalar-background-3: #22252b;";
  "";
  "  --scalar-color-1: #fafafa;";
  "  --scalar-color-2: #c9ced8;";
  "  --scalar-color-3: #8c99ad;";
  "";
  "  --scalar-color-accent: #5469d4;";
  "  --scalar-background-accent: #5469d41f;";
  "";
  "  --scalar-border-color: #3f4145;";
  "}";
  "/* Document Sidebar */";
  ".light-mode .t-doc__sidebar,";
  ".dark-mode .t-doc__sidebar {";
  "  --scalar-sidebar-background-1: var(--scalar-background-1);";
  "  --scalar-sidebar-color-1: var(--scalar-color-1);";
  "  --scalar-sidebar-color-2: var(--scalar-color-2);";
  "  --scalar-sidebar-border-color: var(--scalar-border-color);";
  "";
  "  --scalar-sidebar-item-hover-color: currentColor;";
  "  --scalar-sidebar-item-hover-background: var(--scalar-background-3);";
  "";
  "  --scalar-sidebar-item-active-background: var(--scalar-background-accent);";
  "  --scalar-sidebar-color-active: var(--scalar-color-accent);";
  "";
  "  --scalar-sidebar-search-background: var(--scalar-background-1);";
  "  --scalar-sidebar-search-color: var(--scalar-color-3);";
  "  --scalar-sidebar-search-border-color: var(--scalar-border-color);";
  "}";
  "";
  "/* advanced */";
  ".light-mode {";
  "  --scalar-color-green: #17803d;";
  "  --scalar-color-red: #e10909;";
  "  --scalar-color-yellow: #edbe20;";
  "  --scalar-color-blue: #1763a6;";
  "  --scalar-color-orange: #e25b09;";
  "  --scalar-color-purple: #5c3993;";
  "  --scalar-color-query: #147873;";
  "";
  "  --scalar-button-1: rgba(0, 0, 0, 1);";
  "  --scalar-button-1-hover: rgba(0, 0, 0, 0.8);";
  "  --scalar-button-1-color: #fff;";
  "}";
  ".dark-mode {";
  "  --scalar-color-green: #30a159;";
  "  --scalar-color-red: #dc1b19;";
  "  --scalar-color-yellow: #eec644;";
  "  --scalar-color-blue: #468bc7;";
  "  --scalar-color-orange: #f07528;";
  "  --scalar-color-purple: #7a59b1;";
  "  --scalar-color-query: #4ac6b7;";
  "";
  "  --scalar-button-1: rgba(255, 255, 255, 1);";
  "  --scalar-button-1-hover: rgba(255, 255, 255, 0.9);";
  "  --scalar-button-1-color: black;";
  "}";
  ".light-mode *::selection {";
  "  background-color: color-mix(in srgb, var(--scalar-color-accent), transparent 70%);";
  "}";
  ".dark-mode *::selection {";
  "  background-color: color-mix(in srgb, var(--scalar-color-accent), transparent 50%);";
  "}";
  ""].

(** saturn *)
Definition Yin : string := template [
  "/* basic theme */";
  ".light-mode {";
  "  --scalar-background-1: #f3f3ee;";
  "  --scalar-background-2: #e8e8e3;";
  "  --scalar-background-3: #e4e4df;";
  "  --scalar-border-color: rgba(215, 215, 206, 0.85);";
  "";
  "  --scalar-color-1: #1b1b1b;";
  "  --scalar-color-2: #676767;";
  "  --scalar-color-3: #8e8e8e;";
  "";
  "  --scalar-color-accent: #1763a6;";
  "  --scalar-background-accent: #1f648e1f;";
  "}";
  ".dark-mode {";
  "  --scalar-background-1: #09090b;";
  "  --scalar-background-2: #18181b;";
  "  --scalar-background-3: #2c2c30;";
  "  --scalar-border-color: rgba(255, 255, 255, 0.17);";
  "";
  "  --scalar-color-1: #fafafa;";
  "  --scalar-color-2: rgb(161, 161, 170);";
  "  --scalar-color-3: rgba(255, 255, 255, 0.533);";
  "";
  "  --scalar-color-accent: #4eb3ec;";
  "  --scalar-background-accent: #8ab4f81f;";
  "}";
  "/* Document Sidebar */";
  ".light-mode .t-doc__sidebar,";
  ".dark-mode .t-doc__sidebar {";
  "  --scalar-sidebar-background-1: var(--scalar-background-1);";
  "  --scalar-sidebar-color-1: var(--scalar-color-1);";
  "  --scalar-sidebar-color-2: var(--scalar-color-2);";
  "  --scalar-sidebar-border-color: var(--scalar-border-color);";
  "";
  "  --scalar-sidebar-item-hover-background: var(--scalar-background-2);";
  "  --scalar-sidebar-item-hover-color: currentColor;";
  "";
  "  --scalar-sidebar-item-active-background: var(--scalar-background-3);";
  "  --scalar-sidebar-color-active: var(--scalar-color-1);";
  "";
  "  --scalar-sidebar-search-background: var(--scalar-background-1);";
  "  --scalar-sidebar-search-border-color: var(--scalar-border-color);";
  "  --scalar-sidebar-search-color: var(--scalar-color-3);";
  "}";
  "";
  "/* advanced */";
  ".light-mode {";
  "  --scalar-color-green: #17803d;";
  "  --scalar-color-red: #e10909;";
  "  --scalar-color-yellow: #edbe20;";
  "  --scalar-color-blue: #1763a6;";
  "  --scalar-color-orange: #e25b09;";
  "  --scalar-color-purple: #5c3993;";
  "  --scalar-color-query: #147873;";
  "";
  "  --scalar-button-1: rgba(0, 0, 0, 1);";
  "  --scalar-button-1-hover: rgba(0, 0, 0, 0.8);";
  "  --scalar-button-1-color: #fff;";
  "}";
  ".dark-mode {";
  "  --scalar-color-green: #30a159;";
  "  --scalar-color-red: #dc1b19;";
  "  --scalar-color-yellow: #eec644;";
  "  --scalar-color-blue: #3e86c5;";
  "  --scalar-color-orange: #f07528;";
  "  --scalar-color-purple: #7a59b1;";
  "  --scalar-color-query: #4ac6b7;";
  "";
  "  --scalar-button-1: rgba(255, 255, 255, 1);";
  "  --scalar-button-1-hover: rgba(255, 255, 255, 0.9);";
  "  --scalar-button-1-color: black;";
  "}";
  ".dark-mode h2.t-editor__heading,";
  ".dark-mode .t-editor__page-title h1,";
  ".dark-mode h1.section-header:not(::selection),";
  ".dark-mode .markdown h1,";
  ".dark-mode .markdown h2,";
  ".dark-mode .markdown h3,";
  ".dark-mode .markdown h4,";
  ".dark-mode .markdown h5,";
  ".dark-mode .markdown h6 {";
  "  -webkit-text-fill-color: transparent;";
  "  background-image: linear-gradient(to right bottom, rgb(255, 255, 255) 30%, rgba(255, 255, 255, 0.38));";
  "  -webkit-background-clip: text;";
  "  background-clip: text;";
  "}";
  ".light-mode *::selection {";
  "  background-color: color-mix(in srgb, var(--scalar-color-accent), transparent 70%);";
  "}";
  ".dark-mode *::selection {";
  "  background-color: color-mix(in srgb, var(--scalar-color-accent), transparent 50%);";
  "}";
  ""].

(** solarized *)
Definition Xin : string := template [
  ".light-mode {";
  "  color-scheme: light;";
  "  --scalar-color-1: #584c27;";
  "  --scalar-color-2: #616161;";
  "  --scalar-color-3: #a89f84;";
  "  --scalar-color-accent: #b58900;";
  "  --scalar-background-1: #fdf6e3;";
  "  --scalar-background-2: #eee8d5;";
  "  --scalar-background-3: #ddd6c1;";
  "  --scalar-background-accent: #b589001f;";
  "";
  "  --scalar-border-color: #ded8c8;";
  "  --scalar-scrollbar-color: rgba(0, 0, 0, 0.18);";
  "  --scalar-scrollbar-color-active: rgba(0, 0, 0, 0.36);";
  "  --scalar-lifted-brightness: 1;";
  "  --scalar-backdrop-brightness: 1;";
  "";
  "  --scalar-shadow-1: 0 1px 3px 0 rgba(0, 0, 0, 0.11);";
  "  --scalar-shadow-2: rgba(0, 0, 0, 0.08) 0px 13px 20px 0px, rgba(0, 0, 0, 0.08) 0px 3px 8px 0px, #eeeeed 0px 0 0 1px;";
  "";
  "  --scalar-button-1: rgb(49 53 56);";
  "  --scalar-button-1-color: #fff;";
  "  --scalar-button-1-hover: rgb(28 31 33);";
  "";
  "  --scalar-color-red: #b91c1c;";
  "  --scalar-color-orange: #a16207;";
  "  --scalar-color-green: #047857;";
  "  --scalar-color-blue: #1d4ed8;";
  "  --scalar-color-orange: #c2410c;";
  "  --scalar-color-purple: #6d28d9;";
  "  --scalar-color-query: #007f78;";
  "}";
  "";
  ".dark-mode {";
  "  color-scheme: dark;";
  "  --scalar-color-1: #fff;";
  "  --scalar-color-2: #cccccc;";
  "  --scalar-color-3: #6d8890;";
  "  --scalar-color-accent: #007acc;";
  "  --scalar-background-1: #00212b;";
  "  --scalar-background-2: #012b36;";
  "  --scalar-background-3: #004052;";
  "  --scalar-background-accent: #015a6f;";
  "";
  "  --scalar-border-color: #2f4851;";
  "  --scalar-scrollbar-color: rgba(255, 255, 255, 0.24);";
  "  --scalar-scrollbar-color-active: rgba(255, 255, 255, 0.48);";
  "  --scalar-lifted-brightness: 1.45;";
  "  --scalar-backdrop-brightness: 0.5;";
  "";
  "  --scalar-shadow-1: 0 1px 3px 0 rgb(0, 0, 0, 0.1);";
  "  --scalar-shadow-2:";
  "    rgba(15, 15, 15, 0.2) 0px 3px 6px, rgba(15, 15, 15, 0.4) 0px 9px 24px, 0 0 0 1px rgba(255, 255, 255, 0.1);";
  "";
  "  --scalar-button-1: #f6f6f6;";
  "  --scalar-button-1-color: #000;";
  "  --scalar-button-1-hover: #e7e7e7;";
  "";
  "  --scalar-color-green: #00b648;";
  "  --scalar-color-red: #dc1b19;";
  "  --scalar-color-yellow: #ffc90d;";
  "  --scalar-color-blue: #4eb3ec;";
  "  --scalar-color-orange: #ff8d4d;";
  "  --scalar-color-purple: #b191f9;";
  "  --scalar-color-query: #7bdac7;";
  "}";
  "";
  "/* Sidebar */";
  ".light-mode .t-doc__sidebar {";
  "  --scalar-sidebar-background-1: var(--scalar-background-1);";
  "  --scalar-sidebar-item-hover-color: currentColor;";
  "  --scalar-sidebar-item-hover-background: var(--scalar-background-2);";
  "  --scalar-sidebar-item-active-background: var(--scalar-background-accent);";
  "  --scalar-sidebar-border-color: var(--scalar-border-color);";
  "  --scalar-sidebar-color-1: var(--scalar-color-1);";
  "  --scalar-sidebar-color-2: var(--scalar-color-2);";
  "  --scalar-sidebar-color-active: var(--scalar-color-accent);";
  "  --scalar-sidebar-search-background: var(--scalar-background-2);";
  "  --scalar-sidebar-search-border-color: var(--scalar-sidebar-search-background);";
  "  --scalar-sidebar-search--color: var(--scalar-color-3);";
  "}";
  "";
  ".dark-mode .t-doc__sidebar {";
  "  --scalar-sidebar-background-1: var(--scalar-background-1);";
  "  --scalar-sidebar-item-hover-color: currentColor;";
  "  --scalar-sidebar-item-hover-background: var(--scalar-background-2);";
  "  --scalar-sidebar-item-active-background: var(--scalar-background-accent);";
  "  --scalar-sidebar-border-color: var(--scalar-border-color);";
  "  --scalar-sidebar-color-1: var(--scalar-color-1);";
  "  --scalar-sidebar-color-2: var(--scalar-color-2);";
  "  --scalar-sidebar-color-active: var(--scalar-sidebar-color-1);";
  "  --scalar-sidebar-search-background: var(--scalar-background-2);";
  "  --scalar-sidebar-search-border-color: var(--scalar-sidebar-search-background);";
  "  --scalar-sidebar-search--color: var(--scalar-color-3);";
  "}";
  "*::selection {";
  "  background-color: color-mix(in srgb, var(--scalar-color-accent), transparent 70%);";
  "}";
  ""].

(** what [ean] uses for a name it does not know *)
Definition fallback_css : string := template [
  "/* basic theme */";
  ":root {";
  "  --scalar-text-decoration: underline;";
  "  --scalar-text-decoration-hover: underline;";
  "}";
  ".light-mode {";
  "  --scalar-background-1: #fff;";
  "  --scalar-background-2: #f6f6f6;";
  "  --scalar-background-3: #e7e7e7;";
  "  --scalar-background-accent: #8ab4f81f;";
  "";
  "  --scalar-color-1: #1b1b1b;";
  "  --scalar-color-2: #707070;";
  "  --scalar-color-3: #8e8e8e;";
  "";
  "  --scalar-color-accent: #0099ff;";
  "  --scalar-border-color: #dfdfdf;";
  "}";
  ".dark-mode {";
  "  --scalar-background-1: #0f0f0f;";
  "  --scalar-background-2: #1a1a1a;";
  "  --scalar-background-3: #272727;";
  "";
  "  --scalar-color-1: #e7e7e7;";
  "  --scalar-color-2: #a4a4a4;";
  "  --scalar-color-3: #797979;";
  "";
  "  --scalar-color-accent: #00aeff;";
  "  --scalar-background-accent: #3ea6ff1f;";
  "";
  "  --scalar-border-color: #2d2d2d;";
  "}";
  "/* Document Sidebar */";
  ".light-mode,";
  ".dark-mode {";
  "  --scalar-sidebar-background-1: var(--scalar-background-1);";
  "  --scalar-sidebar-color-1: var(--scalar-color-1);";
  "  --scalar-sidebar-color-2: var(--scalar-color-2);";
  "  --scalar-sidebar-border-color: var(--scalar-border-color);";
  "";
  "  --scalar-sidebar-item-hover-background: var(--scalar-background-2);";
  "  --scalar-sidebar-item-hover-color: var(--scalar-sidebar-color-2);";
  "";
  "  --scalar-sidebar-item-active-background: var(--scalar-background-2);";
  "  --scalar-sidebar-color-active: var(--scalar-sidebar-color-1);";
  "";
  "  --scalar-sidebar-indent-border: var(--scalar-sidebar-border-color);";
  "  --scalar-sidebar-indent-border-hover: var(--scalar-sidebar-border-color);";
  "  --scalar-sidebar-indent-border-active: var(--scalar-sidebar-border-color);";
  "";
  "  --scalar-sidebar-search-background: color-mix(in srgb, var(--scalar-background-2), var(--scalar-background-1));";
  "  --scalar-sidebar-search-color: var(--scalar-color-3);";
  "  --scalar-sidebar-search-border-color: var(--scalar-border-color);";
  "}";
  "/* advanced */";
  ".light-mode {";
  "  --scalar-color-green: #069061;";
  "  --scalar-color-red: #ef0006;";
  "  --scalar-color-yellow: #edbe20;";
  "  --scalar-color-blue: #0072bd;";
  "  --scalar-color-orange: #ff5800;";
  "  --scalar-color-purple: #5203d1;";
  "  --scalar-color-query: #007b80;";
  "";
  "  --scalar-link-color: var(--scalar-color-1);";
  "  --scalar-link-color-hover: var(--scalar-link-color);";
  "";
  "  --scalar-button-1: rgba(0, 0, 0, 1);";
  "  --scalar-button-1-hover: rgba(0, 0, 0, 0.8);";
  "  --scalar-button-1-color: #fff;";
  "";
  "  --scalar-tooltip-background: color-mix(in srgb, var(--scalar-background-1), transparent 10%);";
  "  --scalar-tooltip-color: var(--scalar-color-1);";
  "";
  "  --scalar-color-alert: color-mix(in srgb, var(--scalar-color-orange), var(--scalar-color-1) 20%);";
  "  --scalar-color-danger: color-mix(in srgb, var(--scalar-color-red), var(--scalar-color-1) 20%);";
  "";
  "  --scalar-background-alert: color-mix(in srgb, var(--scalar-color-orange), var(--scalar-background-1) 95%);";
  "  --scalar-background-danger: color-mix(in srgb, var(--scalar-color-red), var(--scalar-background-1) 95%);";
  "}";
  ".dark-mode {";
  "  --scalar-color-green: #00b648;";
  "  --scalar-color-red: #dc1b19;";
  "  --scalar-color-yellow: #ffc90d;";
  "  --scalar-color-blue: #4eb3ec;";
  "  --scalar-color-orange: #ff8d4d;";
  "  --scalar-color-purple: #b191f9;";
  "  --scalar-color-query: #65d4cf;";
  "";
  "  --scalar-link-color: var(--scalar-color-1);";
  "  --scalar-link-color-hover: var(--scalar-link-color);";
  "";
  "  --scalar-button-1: rgba(255, 255, 255, 1);";
  "  --scalar-button-1-hover: rgba(255, 255, 255, 0.9);";
  "  --scalar-button-1-color: black;";
  "";
  "  --scalar-tooltip-background: color-mix(in srgb, var(--scalar-background-1), #fff 10%);";
  "  --scalar-tooltip-color: color-mix(in srgb, #fff, transparent 5%);";
  "";
  "  --scalar-color-danger: color-mix(in srgb, var(--scalar-color-red), var(--scalar-background-1) 20%);";
  "";
  "  --scalar-background-alert: color-mix(in srgb, var(--scalar-color-orange), var(--scalar-background-1) 95%);";
  "  --scalar-background-danger: color-mix(in srgb, var(--scalar-color-red), var(--scalar-background-1) 95%);";
  "}";
  "@supports (color: color(display-p3 1 1 1)) {";
  "  .light-mode {";
  "    --scalar-color-accent: color(display-p3 0 0.6 1 / 1);";
  "    --scalar-color-green: color(display-p3 0.023529 0.564706 0.380392 / 1);";
  "    --scalar-color-red: color(display-p3 0.937255 0 0.023529 / 1);";
  "    --scalar-color-yellow: color(display-p3 0.929412 0.745098 0.12549 / 1);";
  "    --scalar-color-blue: color(display-p3 0 0.447059 0.741176 / 1);";
  "    --scalar-color-orange: color(display-p3 1 0.4 0.02);";
  "    --scalar-color-purple: color(display-p3 0.321569 0.011765 0.819608 / 1);";
  "  }";
  "  .dark-mode {";
  "    --scalar-color-accent: color(display-p3 0.07 0.67 1);";
  "    --scalar-color-green: color(display-p3 0 0.713725 0.282353 / 1);";
  "    --scalar-color-red: color(display-p3 0.862745 0.105882 0.098039 / 1);";
  "    --scalar-color-yellow: color(display-p3 1 0.788235 0.05098 / 1);";
  "    --scalar-color-blue: color(display-p3 0.305882 0.701961 0.92549 / 1);";
  "    --scalar-color-orange: color(display-p3 1 0.552941 0.301961 / 1);";
  "    --scalar-color-purple: color(display-p3 0.694118 0.568627 0.976471 / 1);";
  "  }";
  "}";
  ""].
