(* ===== verification/Themes.v ===== *)
(** * scalar.js: themes, and the style element they end in

    [Qin] the theme ids, [labels_in] their labels, [bQ] the presets, [ean] the
    stylesheet of a theme (getThemeStyles), [style_text] what the page puts into its
    style element. The texts are in ThemeTexts1-3. What the stylesheets mean is said
    with Css.v: blocks, custom properties, colours, ranges of code points. *)
From S2P Require Import Prelude Css ThemeTexts1 ThemeTexts2 ThemeTexts3.
#[local] Open Scope list_scope.

Definition Qin : list string :=
  ["alternate"; "default"; "moon"; "purple"; "solarized"; "bluePlanet"; "deepSpace"; "saturn"; "kepler";
   "elysiajs"; "fastify"; "mars"; "laserwave"; "none"].

(** $in *)
Definition labels_in : list (string * string) :=
  [("default", "Default"); ("alternate", "Alternate"); ("moon", "Moon"); ("purple", "Purple");
   ("solarized", "Solarized"); ("elysiajs", "Elysia.js"); ("fastify", "Fastify");
   ("bluePlanet", "Blue Planet"); ("saturn", "Saturn"); ("kepler", "Kepler-11e"); ("mars", "Mars");
   ("deepSpace", "Deep Space"); ("laserwave", "Laserwave"); ("none", "None")].

Record preset : Type := Preset { uid : string; name : string; description : string; theme : string; slug : string }.

Definition bQ : list (string * preset) := [
  ("default", Preset "qTQR9jSM8E-LihpyZzPOi" "Default" "Default Scalar theme" Vin "default");
  ("alternate", Preset "2skUDSH4S8HYFF9yXysr-" "Alternate" "Alternate Scalar theme" Rin "alternate");
  ("moon", Preset "DG9ZUNp5lJhDeX_kPX4Bl" "Moon" "Lunar styles" qin "moon");
  ("purple", Preset "pE_1ysxcZ-y2LM1GGNBUv" "Purple" "Purple Scalar theme" Jin "purple");
  ("solarized", Preset "BdGVG1vf-4nYl3wJKyj8l" "Solarized" "Solarized Scalar theme" Xin "solarized");
  ("bluePlanet", Preset "X12IfAvl7ue-42V2lW40S" "Blue Planet" "Blue Planet Scalar theme" zin "blue-planet");
  ("deepSpace", Preset "K8b38NWQiicq4-zXGXKdI" "Deep Space" "Deep Space Scalar theme" Bin "deep-space");
  ("saturn", Preset "1jyAjmbIZQG-RUU4Ugk9o" "Saturn" "Saturn Scalar theme" Yin "saturn");
  ("kepler", Preset "jZ6dnWbtqQ0Hz3s9jLPH0" "Kepler-11e" "Kepler-11e Scalar theme" Win "kepler-11e");
  ("mars", Preset "YY4LQgwiXix55-TmMz9qd" "Mars" "Mars Scalar theme" Kin "mars");
  ("laserwave", Preset "c5fZEi-K-hP-xXf885dkf" "Laserwave" "Laserwave Scalar theme" Gin "laserwave");
  ("elysiajs", Preset "nEVZkRmCylPkT0o9YJa7y" "Elysia.js" "Elysia.js theme" Hin "elysiajs");
  ("fastify", Preset "nTZcdcM2_yHFZFxTQe9Kk" "Fastify" "Fastify theme" Uin "fastify")].

(** [bQ[e]?.theme]: a name bQ only inherits (toString) has no theme either. *)
Fixpoint preset_theme (t : list (string * preset)) (e : string) : option string :=
  match t with
  | [] => None
  | (k, p) :: t' => if String.eqb k e then Some (theme p) else preset_theme t' e
  end.

(** [e || x]: undefined and the empty string are false. *)
Definition js_or (e : option string) (x : string) : string :=
  match e with None | Some "" => x | Some s => s end.

Definition theme_css (e : option string) : string := default fallback_css (preset_theme bQ (js_or e "default")).

(** The options of [ean]; [None] is undefined. *)
Record style_options : Type := StyleOptions { fonts : option bool; layer : option string }.

Definition ean (e : option string) (t : option style_options) : string :=
  let o := default (StyleOptions None None) t in
  let n := default true (fonts o) in
  let r := default "scalar-theme" (layer o) in
  let i := theme_css e +:+ (if n then Lin else "") in
  match r with
  | "" => i
  | _ => "@layer " +:+ r +:+ " {" +:+ newline +:+ i +:+ "}"
  end.

(** [x.replace(/<\/style/gi, `<\\/style`)]: the letters after the slash keep
    no case of their own, the replacement is always in lower case. *)
Fixpoint close_tag (p s : string) : option string :=
  match p, s with
  | "", _ => Some s
  | String c p', String d s' => if Ascii.eqb c (lower_byte d) then close_tag p' s' else None
  | _, "" => None
  end.

Fixpoint escape_style (fuel : nat) (s : string) : string :=
  match fuel, s with
  | O, _ | _, "" => ""
  | S f, String c s' =>
      match close_tag "</style" s with
      | Some r => "<\/style" +:+ escape_style f r
      | None => String c (escape_style f s')
      end
  end.

Definition style_text (customCss : option string) (e : option string) (withDefaultFonts : option bool) : string :=
  let s := default "" customCss +:+ newline +:+ ean e (Some (StyleOptions withDefaultFonts None)) in
  escape_style (String.length s) s.

(** ** What the stylesheets declare *)

Definition modes : list string := [".light-mode"; ".dark-mode"].

(** The custom properties of a page in a mode: those of :root and of the
    mode's class. *)
Definition palette (mode : string) (sheet : list item) : list (string * string) := properties [":root"; mode] sheet.

(** The colours the components of the reference are drawn with. *)
Definition core_properties : list string :=
  ["--scalar-background-1"; "--scalar-background-2"; "--scalar-background-3"; "--scalar-border-color";
   "--scalar-button-1"; "--scalar-button-1-color"; "--scalar-button-1-hover"; "--scalar-color-1";
   "--scalar-color-2"; "--scalar-color-3"; "--scalar-color-accent"; "--scalar-color-blue"; "--scalar-color-green";
   "--scalar-color-orange"; "--scalar-color-purple"; "--scalar-color-query"; "--scalar-color-red"].

(** ** Every theme *)

Definition all_themes : list string := fallback_css :: ((λ kp, theme kp.2) <$> bQ).

Lemma preset_theme_in t e s : preset_theme t e = Some s → s ∈ ((λ kp, theme kp.2) <$> t).
Proof.
  induction t as [|[k p] t IH]; [done|]. cbn [preset_theme]. rewrite fmap_cons.
  destruct (String.eqb k e); [intros [= <-]; left|]. intros H. right. by apply IH.
Qed.

Lemma theme_css_in e : theme_css e ∈ all_themes.
Proof.
  unfold theme_css, all_themes. destruct (preset_theme bQ _) as [s|] eqn:E; cbn [default from_option].
  - right. by apply preset_theme_in in E.
  - left.
Qed.

Lemma theme_forall (P : string → bool) : forallb P all_themes = true → ∀ e, P (theme_css e) = true.
Proof. intros H e. rewrite forallb_forall in H. apply H, list_elem_of_In, theme_css_in. Qed.

(** The fonts and every theme close what they open. *)
Definition is_complete (s : string) : bool :=
  match scan outside s with
  | Some (Depth Code O O) => true
  | _ => false
  end.

Lemma is_complete_true s : is_complete s = true → complete s.
Proof. unfold is_complete, complete. destruct (scan outside s) as [[[] [] []]|]; done. Qed.

Lemma texts_complete : is_complete Lin = true ∧ forallb is_complete all_themes = true.
Proof. split; vm_compute; reflexivity. Qed.

Lemma theme_complete e n : complete (theme_css e +:+ (if (n : bool) then Lin else "")).
Proof.
  apply complete_app.
  - apply is_complete_true, (theme_forall is_complete), texts_complete.
  - destruct n; [|done]. apply is_complete_true, texts_complete.
Qed.

Lemma ean_layer e n L : L ≠ "" →
  ean e (Some (StyleOptions n (Some L))) =
    ("@layer " +:+ L +:+ " {" +:+ newline) +:+ (theme_css e +:+ (if default true n then Lin else "")) +:+ "}".
Proof.
  intros HL. unfold ean. cbn [default fonts layer from_option id].
  destruct L as [|c L]; [done|]. by rewrite !sapp_assoc.
Qed.

Lemma scan_layer L : complete L → scan outside ("@layer " +:+ L +:+ " {" +:+ newline) = Some (Depth Code 0 1).
Proof.
  intros HL. rewrite (scan_app outside "@layer ").
  replace (scan outside "@layer ") with (Some outside) by reflexivity.
  by rewrite scan_app, HL.
Qed.

(** C20. A theme stays inside its cascade layer: for every theme id, with or
    without the fonts, and every layer name that is complete CSS by itself, the
    stylesheet is one block [@layer name { body }] whose body is complete, no prefix of
    the body closes the layer's block, and the whole is complete. *)
Theorem theme_stays_in_its_layer e n L : L ≠ "" → complete L →
  ∃ body, ean e (Some (StyleOptions n (Some L))) = ("@layer " +:+ L +:+ " {" +:+ newline) +:+ body +:+ "}" ∧
    complete body ∧ complete (ean e (Some (StyleOptions n (Some L)))) ∧
    ∀ p q, body = p +:+ q → ∃ d,
      scan outside (("@layer " +:+ L +:+ " {" +:+ newline) +:+ p) = Some d ∧ (1 ≤ d_blocks d)%nat.
Proof.
  intros HL Hc. eexists. split; [by apply ean_layer|]. pose proof (theme_complete e (default true n)) as Hb.
  split; [done|]. split.
  - rewrite ean_layer by done. unfold complete. rewrite scan_app, scan_layer by done.
    pose proof (scan_deeper 1 _ _ _ Hb) as Hd. change (deeper 1 outside) with (Depth Code 0 1) in Hd.
    by rewrite scan_app, Hd.
  - intros p q Hp. destruct (complete_stays_inside _ _ _ Hb Hp) as (d & Hd & Hl).
    exists d. by rewrite scan_app, scan_layer.
Qed.

Lemma theme_layer_witness : complete "docs" ∧
  ∃ body, ean (Some "moon") (Some (StyleOptions (Some false) (Some "docs"))) =
    ("@layer " +:+ "docs" +:+ " {" +:+ newline) +:+ body +:+ "}".
Proof.
  assert (complete "docs") as H by reflexivity. split; [exact H|].
  destruct (theme_stays_in_its_layer (Some "moon") (Some false) "docs" ltac:(discriminate) H) as (b & E & _).
  exists b. exact E.
Defined.

(** What [palettes_resolve] states of one theme, computed. *)
Definition resolves (env : list (string * string)) (v : string) : bool :=
  match substitute 8 env v with Some t => match cut "var(" t with None => true | Some _ => false end | None => false end.

Lemma resolves_substitute env v : resolves env v = true → ∃ f t, substitute f env v = Some t ∧ cut "var(" t = None.
Proof.
  unfold resolves. destruct (substitute 8 env v) as [t|] eqn:E; [|done]. intros H. exists 8%nat, t.
  split; [exact E|]. by destruct (cut "var(" t).
Qed.

Definition palette_ok (sheet : list item) (mode : string) : bool :=
  let env := palette mode sheet in
  forallb (λ nv, resolves env nv.2) env &&
  forallb (λ n, match property env n with Some _ => true | None => false end) core_properties.

Definition theme_ok (s : string) : bool :=
  match parse_css s with Some sheet => forallb (palette_ok sheet) modes | None => false end.

Lemma themes_ok : forallb theme_ok all_themes = true.
Proof. vm_compute. reflexivity. Qed.

Lemma property_in env n v : property env n = Some v → (n, v) ∈ env.
Proof.
  induction env as [|[k w] env IH]; [done|]. cbn. destruct (String.eqb_spec k n) as [->|_].
  - intros [= ->]. left.
  - intros H. right. by apply IH.
Qed.

(** Every theme can be drawn: whatever the theme id, the stylesheet parses,
    and in the light and in the dark mode it gives a value to each colour the
    components use, and the value of every custom property it declares resolves, without
    a dangling or circular [var()], to text that holds no [var()]. *)
Theorem palettes_resolve e : ∃ sheet, parse_css (theme_css e) = Some sheet ∧
  ∀ mode, mode ∈ modes →
    (∀ n, n ∈ core_properties → is_Some (property (palette mode sheet) n)) ∧
    (∀ n v, property (palette mode sheet) n = Some v →
       ∃ f t, substitute f (palette mode sheet) v = Some t ∧ cut "var(" t = None).
Proof.
  pose proof (theme_forall _ themes_ok e) as H. unfold theme_ok in H.
  destruct (parse_css (theme_css e)) as [sheet|]; [|done]. exists sheet. split; [done|].
  intros mode Hm%list_elem_of_In. rewrite forallb_forall in H. specialize (H mode Hm).
  unfold palette_ok in H. apply andb_prop in H as [Hv Hc]. rewrite forallb_forall in Hv, Hc. split.
  - intros n Hn%list_elem_of_In. specialize (Hc n Hn). cbv beta in Hc. by destruct (property _ n).
  - intros n v Hp%property_in%list_elem_of_In. specialize (Hv (n, v) Hp).
    exact (resolves_substitute _ _ Hv).
Qed.

(** ** The style element *)

(** Somewhere in the text the style element could end. *)
Fixpoint has_close (s : string) : bool :=
  match close_tag "</style" s with
  | Some _ => true
  | None => match s with "" => false | String _ s' => has_close s' end
  end.

Lemma has_close_cons c s : has_close (String c s) =
  match close_tag "</style" (String c s) with Some _ => true | None => has_close s end.
Proof. reflexivity. Qed.

Lemma escape_style_S f c s : escape_style (S f) (String c s) =
  match close_tag "</style" (String c s) with
  | Some r => "<\/style" +:+ escape_style f r
  | None => String c (escape_style f s)
  end.
Proof. reflexivity. Qed.

Lemma close_tag_cons c p d s :
  close_tag (String c p) (String d s) = if Ascii.eqb c (lower_byte d) then close_tag p s else None.
Proof. reflexivity. Qed.

(** An inner part of a tag in the result was one in the text. *)
Lemma close_tag_escaped p f s : sforall (λ c, negb (Ascii.eqb c "<")) p = true →
  is_Some (close_tag p (escape_style f s)) → is_Some (close_tag p s).
Proof.
  revert f s. induction p as [|c p IH]; intros f s; [by destruct s|].
  cbn [sforall]. intros [Hc Hp]%andb_prop. destruct f as [|f]; [by intros [? [=]]|].
  destruct s as [|d s]; [done|]. rewrite escape_style_S.
  destruct (close_tag "</style" (String d s)) as [r|] eqn:E.
  - change ("<\/style" +:+ escape_style f r) with (String "<" ("\/style" +:+ escape_style f r)).
    cbn [close_tag]. change (lower_byte "<") with "<"%char. by destruct (Ascii.eqb c "<").
  - cbn [close_tag]. destruct (Ascii.eqb c (lower_byte d)); [apply (IH f s Hp)|done].
Qed.

Lemma escape_style_safe f s : has_close (escape_style f s) = false.
Proof.
  revert s. induction f as [|f IH]; intros s; [by destruct s|]. destruct s as [|c s]; [done|].
  rewrite escape_style_S. destruct (close_tag "</style" (String c s)) as [r|] eqn:E; [exact (IH r)|].
  rewrite has_close_cons, IH. destruct (close_tag "</style" (String c (escape_style f s))) as [r|] eqn:E'; [|done].
  exfalso. rewrite close_tag_cons in E, E'. revert E E'. destruct (Ascii.eqb "<" (lower_byte c)); [|done]. intros E E'.
  destruct (close_tag_escaped "/style" f s) as [? Hs]; [done|by eexists|congruence].
Qed.

Lemma close_tag_length p s r : close_tag p s = Some r → (String.length r ≤ String.length s)%nat.
Proof.
  revert s. induction p as [|c p IH]; intros s; [by destruct s; intros [= <-]|].
  destruct s as [|d s]; [done|]. cbn. destruct (Ascii.eqb c (lower_byte d)); [|done].
  intros ?%IH. lia.
Qed.

(** Nothing else changes. *)
Lemma escape_style_id f s : (String.length s ≤ f)%nat → has_close s = false → escape_style f s = s.
Proof.
  revert f. induction s as [|c s IH]; intros f Hf Hc; [by destruct f|].
  destruct f as [|f]; cbn [String.length] in Hf; [lia|]. rewrite escape_style_S. rewrite has_close_cons in Hc.
  destruct (close_tag "</style" (String c s)); [done|]. by rewrite IH by (done || lia).
Qed.

Lemma close_tag_line p a b : sforall (λ c, negb (Ascii.eqb c "010")) p = true → p ≠ "" →
  is_Some (close_tag p (a +:+ newline +:+ b)) ↔ is_Some (close_tag p a).
Proof.
  revert a. induction p as [|c p IH]; intros a; [done|]. cbn [sforall]. intros [Hc Hp]%andb_prop _.
  destruct a as [|d a].
  - cbn [close_tag]. change ("" +:+ newline +:+ b) with (String "010" b). cbn [close_tag].
    change (lower_byte "010") with "010"%char. destruct (Ascii.eqb c "010"); [done|]. split; by intros [? ?].
  - change (String d a +:+ newline +:+ b) with (String d (a +:+ newline +:+ b)). cbn [close_tag].
    destruct (Ascii.eqb c (lower_byte d)); [|done]. destruct p as [|c' p]; [|by apply IH].
    split; intros _; destruct (a +:+ newline +:+ b), a; by eexists.
Qed.

Lemma has_close_line a b : has_close (a +:+ newline +:+ b) = has_close a || has_close b.
Proof.
  induction a as [|c a IH]; [reflexivity|].
  change (String c a +:+ newline +:+ b) with (String c (a +:+ newline +:+ b)). rewrite !has_close_cons, IH.
  destruct (close_tag_line "</style" (String c a) b) as [H1 H2]; [done..|].
  change (String c a +:+ newline +:+ b) with (String c (a +:+ newline +:+ b)) in H1, H2.
  destruct (close_tag "</style" (String c (a +:+ newline +:+ b))) eqn:E1, (close_tag "</style" (String c a)) eqn:E2; try done.
  - by destruct (H1 ltac:(by eexists)).
  - by destruct (H2 ltac:(by eexists)).
Qed.

Definition page_style (n : bool) (s : string) : string :=
  "@layer scalar-theme {" +:+ newline +:+ (s +:+ (if n then Lin else "")) +:+ "}".

Lemma themes_do_not_close : forallb (λ s, negb (has_close (page_style true s)) && negb (has_close (page_style false s))) all_themes = true.
Proof. vm_compute. reflexivity. Qed.

Lemma ean_default_layer e n : ean e (Some (StyleOptions n None)) = page_style (default true n) (theme_css e).
Proof. reflexivity. Qed.

(** C19. The page's style element cannot be closed from inside: whatever custom
    CSS a document configures, in any mix of upper and lower case, the text of the style
    element holds no [</style]; and custom CSS that holds none is used as it is, followed
    by the theme's stylesheet unchanged. *)
Theorem style_element_stays_closed css e n :
  has_close (style_text css e n) = false ∧
  (has_close (default "" css) = false →
   style_text css e n = default "" css +:+ newline +:+ ean e (Some (StyleOptions n None))).
Proof.
  unfold style_text. split; [apply escape_style_safe|]. intros Hc.
  apply escape_style_id; [done|]. rewrite has_close_line, Hc, ean_default_layer.
  pose proof (theme_forall _ themes_do_not_close e) as H. cbv beta in H. apply andb_prop in H as [H1 H2].
  destruct n as [[]|]; cbn [default from_option id] in *; by apply negb_true_iff.
Qed.

Lemma style_element_witness : has_close "a { color: red }" = false ∧
  style_text (Some "a { color: red }") (Some "mars") None =
    "a { color: red }" +:+ newline +:+ ean (Some "mars") (Some (StyleOptions None None)).
Proof.
  split; [reflexivity|].
  exact (proj2 (style_element_stays_closed (Some "a { color: red }") (Some "mars") None) eq_refl).
Defined.

(** ** The stylesheet of the messages

    The text of the style element for the toasts, line by line, and the colours it uses. *)

Definition toast_css : string := template [
  "/**";
  "* We need to be explicit to avoid !important. :)";
  "*";
  "* Original: https://github.com/xiaoluoboding/vue-sonner/blob/311ecc8d9a51b619f968e20f4b44992ad8412850/packages/styles.css#L91-L103";
  "*/";
  ".scalar-toaster [data-sonner-toast][data-styled='true'] {";
  "  background: var(--scalar-background-1);";
  "  color: var(--scalar-color-1);";
  "  padding: 18px;";
  "  border: none;";
  "  border-radius: var(--scalar-radius-lg);";
  "  font-size: var(--scalar-font-size-3);";
  "  font-weight: var(--scalar-font-medium);";
  "  box-shadow: var(--scalar-shadow-2);";
  "}";
  ".scalar-toaster [data-sonner-toast] [data-icon] {";
  "  align-self: flex-start;";
  "  position: relative;";
  "  top: 2px;";
  "}";
  ".scalar-toaster [data-sonner-toast][data-styled='true'][data-expanded='true'] {";
  "  height: auto;";
  "}";
  ".scalar-toaster [data-sonner-toast][data-type='error'] {";
  "  background: var(--scalar-background-1);";
  "}";
  ".scalar-toaster [data-sonner-toast][data-type='error'] [data-icon] {";
  "  color: color-mix(in srgb, var(--scalar-color-red) 75%, var(--scalar-color-1));";
  "}";
  ".scalar-toaster [data-sonner-toast][data-type='warning'] {";
  "  background: var(--scalar-background-1);";
  "}";
  ".scalar-toaster [data-sonner-toast][data-type='warning'] [data-icon] {";
  "  color: color-mix(";
  "    in srgb,";
  "    var(--scalar-color-orange) 90%,";
  "    var(--scalar-color-1)";
  "  );";
  "}";
  "/*$vite$:1*/"].

(** The declarations of a rule *)
Definition declarations (it : item) : list (string * string) :=
  match it with Rule _ body => omap (λ d, match d with Decl n v => Some (n, v) | Rule _ _ => None end) body | Decl _ _ => [] end.

Definition is_colour (n : string) : bool := existsb (String.eqb n) ["background"; "color"].

Definition toast_rules : list item := default [] (parse_css toast_css).

Definition toast_colours : list string := (λ d, d.2) <$> filter (λ d, is_colour d.1 = true) (mjoin (declarations <$> toast_rules)).

Definition toasts_ok (s : string) : bool :=
  match parse_css s with Some sheet => forallb (λ mode, forallb (resolves (palette mode sheet)) toast_colours) modes | None => false end.

Lemma all_toasts_ok : forallb toasts_ok all_themes = true.
Proof. vm_compute. reflexivity. Qed.

(** The messages have their colours in every theme: the stylesheet of the toasts parses, and
    each colour and background in it resolves in the light and in the dark mode of every
    theme to a text that holds no [var()]. *)
Theorem toasts_are_coloured e : parse_css toast_css = Some toast_rules ∧ ∃ sheet, parse_css (theme_css e) = Some sheet ∧
  ∀ mode v, mode ∈ modes → v ∈ toast_colours →
    ∃ f t, substitute f (palette mode sheet) v = Some t ∧ cut "var(" t = None.
Proof.
  split; [vm_compute; reflexivity|]. pose proof (theme_forall _ all_toasts_ok e) as H. unfold toasts_ok in H.
  destruct (parse_css (theme_css e)) as [sheet|]; [|done]. exists sheet. split; [done|].
  intros mode v Hm%list_elem_of_In Hv%list_elem_of_In. rewrite forallb_forall in H. specialize (H mode Hm).
  rewrite forallb_forall in H. exact (resolves_substitute _ _ (H v Hv)).
Qed.

(** The colours of a message, an error and a warning, in the order of the sheet. *)
Example toast_colours_are : toast_colours =
  ["var(--scalar-background-1)"; "var(--scalar-color-1)"; "var(--scalar-background-1)";
   "color-mix(in srgb, var(--scalar-color-red) 75%, var(--scalar-color-1))"; "var(--scalar-background-1)";
   "color-mix(
    in srgb,
    var(--scalar-color-orange) 90%,
    var(--scalar-color-1)
  )"].
Proof. vm_compute. reflexivity. Qed.
