(* ===== verification/ThemeColors.v ===== *)
(** * scalar.js: colours and fonts of the themes

    The wide-gamut colours of a theme against its plain ones, the code points the font
    faces cover, and the two palettes that leave a colour out. *)
From S2P Require Import Prelude Css ThemeTexts1 ThemeTexts2 ThemeTexts3 Themes.
#[local] Open Scope list_scope.

(** ** Numbers in stylesheets *)

Definition hex_digit (c : ascii) : option Z :=
  let n := Z.of_nat (nat_of_ascii c) in
  if byte_in 48 57 c then Some (n - 48)
  else if byte_in 97 102 c then Some (n - 87)
  else if byte_in 65 70 c then Some (n - 55) else None.

Fixpoint hex_from (acc : Z) (s : string) : option Z :=
  match s with
  | "" => Some acc
  | String c s' => match hex_digit c with Some d => hex_from (16 * acc + d) s' | None => None end
  end.

Definition hex_number (s : string) : option Z := match s with "" => None | _ => hex_from 0 s end.

(** The bytes of [#rrggbb]. *)
Definition hex_color (s : string) : option (list Z) :=
  match s with
  | String "#" (String a (String b (String c (String d (String e (String f "")))))) =>
      match hex_digit a, hex_digit b, hex_digit c, hex_digit d, hex_digit e, hex_digit f with
      | Some a, Some b, Some c, Some d, Some e, Some f => Some [16 * a + b; 16 * c + d; 16 * e + f]
      | _, _, _, _, _, _ => None
      end
  | _ => None
  end.

Fixpoint digits (width : nat) (acc : Z) (s : string) : option Z :=
  match s, width with
  | "", O => Some acc
  | "", S w => digits w (10 * acc) ""
  | String c s', S w => if byte_in 48 57 c then digits w (10 * acc + Z.of_nat (nat_of_ascii c) - 48) s' else None
  | String _ _, O => None
  end.

(** A number of at most six decimals, in millionths. *)
Definition millionths (s : string) : option Z :=
  match cut "." s with
  | Some (i, f) => match digits (String.length i) 0 i, digits 6 0 f with
                   | Some a, Some b => Some (1000000 * a + b) | _, _ => None end
  | None => option_map (Z.mul 1000000) (digits (String.length s) 0 s)
  end.

Definition words (s : string) : list string := List.filter (λ w, negb (String.eqb w "")) (split_on " " s).

(** The components of [color(display-p3 r g b / 1)] in millionths. *)
Definition display_p3 (s : string) : option (list Z) :=
  match strip_prefix "color(display-p3 " s with
  | Some r =>
      match cut ")" r with
      | Some (v, "") =>
          match words v with
          | [a; b; c] | [a; b; c; "/"; "1"] =>
              match millionths a, millionths b, millionths c with
              | Some a, Some b, Some c => Some [a; b; c] | _, _, _ => None end
          | _ => None
          end
      | _ => None
      end
  | None => None
  end.

(** [m] millionths is [h]/255 rounded to six decimals. *)
Definition nearest (h m : Z) : bool := 2 * Z.abs (255 * m - 1000000 * h) <=? 255.

(** ** Wide gamut *)

Definition wide_gamut (mode : string) (sheet : list item) : list (string * string) :=
  mjoin ((λ i, match i with
               | Rule p body => if String.eqb p "@supports (color: color(display-p3 1 1 1))"
                                then properties [mode] body else []
               | Decl _ _ => [] end) <$> sheet).

(** Two colours are other ones in wide gamut. *)
Definition retuned : list (string * string) :=
  [(".light-mode", "--scalar-color-orange"); (".dark-mode", "--scalar-color-accent")].

Definition same_color (hex p3 : string) : bool :=
  match hex_color hex, display_p3 p3 with
  | Some [r; g; b], Some [r'; g'; b'] => nearest r r' && nearest g g' && nearest b b'
  | _, _ => false
  end.

Definition gamut_ok (sheet : list item) (mode : string) : bool :=
  forallb (λ nv, existsb (λ mn, String.eqb mn.1 mode && String.eqb mn.2 nv.1) retuned ||
                 match property (palette mode sheet) nv.1 with Some hex => same_color hex nv.2 | None => false end)
    (wide_gamut mode sheet).

Definition theme_gamut_ok (s : string) : bool :=
  match parse_css s with Some sheet => forallb (gamut_ok sheet) modes | None => false end.

Lemma themes_gamut_ok : forallb theme_gamut_ok all_themes = true.
Proof. vm_compute. reflexivity. Qed.

(** Wide-gamut screens get the same palette: of every theme, in both modes,
    each display-p3 colour that replaces a plain one has the plain one's components, the
    bytes divided by 255 and rounded to six decimals; two colours of the default theme
    (the light orange and the dark accent) are exceptions. *)
Theorem wide_gamut_is_the_same_palette e : ∃ sheet, parse_css (theme_css e) = Some sheet ∧
  ∀ mode n v, mode ∈ modes → (n, v) ∈ wide_gamut mode sheet → (mode, n) ∉ retuned →
    ∃ hex, property (palette mode sheet) n = Some hex ∧ same_color hex v = true.
Proof.
  pose proof (theme_forall _ themes_gamut_ok e) as H. unfold theme_gamut_ok in H.
  destruct (parse_css (theme_css e)) as [sheet|]; [|done]. exists sheet. split; [done|].
  intros mode n v Hm%list_elem_of_In Hn%list_elem_of_In Hr. rewrite forallb_forall in H.
  specialize (H mode Hm). unfold gamut_ok in H. rewrite forallb_forall in H. specialize (H (n, v) Hn).
  cbn [fst snd] in H. apply orb_prop in H as [H|H].
  - exfalso. apply existsb_exists in H as ([m k] & Hin & [H1%String.eqb_eq H2%String.eqb_eq]%andb_prop).
    cbn in H1, H2. subst. by apply Hr, list_elem_of_In.
  - destruct (property _ n) as [hex|]; [|done]. by exists hex.
Qed.

Lemma wide_gamut_witness : ∃ sheet, parse_css (theme_css (Some "laserwave")) = Some sheet ∧
  ∃ hex, property (palette ".light-mode" sheet) "--scalar-color-red" = Some hex.
Proof.
  destruct (wide_gamut_is_the_same_palette (Some "laserwave")) as (sheet & E & H). exists sheet. split; [exact E|].
  assert (∃ v, ("--scalar-color-red", v) ∈ wide_gamut ".light-mode" sheet) as [v Hv].
  { vm_compute in E. injection E as <-. eexists. vm_compute. right. right. right. right. right. left. }
  destruct (H ".light-mode" "--scalar-color-red" v) as (hex & Hh & _); [left|exact Hv| |by exists hex].
  intros Hin. vm_compute in Hin. apply list_elem_of_In in Hin. cbn in Hin.
  destruct Hin as [Hin|[Hin|[]]]; discriminate.
Defined.

(** ** Fonts *)

Record face : Type := Face { f_family : string; f_src : string; f_ranges : list (Z * Z) }.

(** [U+a-b] or [U+a] *)
Definition code_range (s : string) : option (Z * Z) :=
  match strip_prefix "U+" (trim_space s) with
  | Some r =>
      match cut "-" r with
      | Some (a, b) => match hex_number a, hex_number b with Some a, Some b => Some (a, b) | _, _ => None end
      | None => option_map (λ a, (a, a)) (hex_number r)
      end
  | None => None
  end.

Definition declared (body : list item) (n : string) : string :=
  default "" (property (omap (λ i, match i with Decl n v => Some (n, v) | Rule _ _ => None end) body) n).

Definition face_of (i : item) : option face :=
  match i with
  | Rule "@font-face" body =>
      match mapM code_range (split_on "," (declared body "unicode-range")) with
      | Some rs => Some (Face (declared body "font-family") (declared body "src") rs)
      | None => None
      end
  | _ => None
  end.

Definition faces (s : string) : option (list face) :=
  match parse_css s with Some sheet => mapM face_of sheet | None => None end.

Definition covers (c : Z) (f : face) : bool := existsb (λ ab, (ab.1 <=? c) && (c <=? ab.2)) (f_ranges f).

(** The files a browser fetches to draw the code point in the family. *)
Definition fetched (family : string) (c : Z) (fs : list face) : list string :=
  f_src <$> List.filter (λ f, String.eqb (f_family f) family && covers c f) fs.

Definition latin_file (family : string) : list string :=
  if String.eqb family (template ["`Inter`"])
  then [template ["url(https://fonts.scalar.com/inter-latin.woff2) format(`woff2`)"]]
  else [template ["url(https://fonts.scalar.com/mono-latin.woff2) format(`woff2`)"]].

Definition families : list string := [template ["`Inter`"]; template ["`JetBrains Mono`"]].

Definition latin_ok (fs : list face) : bool :=
  forallb (λ fam, forallb (λ c, bool_decide (fetched fam (Z.of_nat c) fs = latin_file fam)) (seq 0 256)) families.

Lemma fonts_latin_ok : match faces Lin with Some fs => latin_ok fs | None => false end = true.
Proof. vm_compute. reflexivity. Qed.

(** Latin text costs one font file per family: every rule of the font
    stylesheet is a face with readable code point ranges, and for each code point of
    Latin-1 exactly one face of Inter and one of JetBrains Mono covers it, the Latin
    file. *)
Theorem latin_text_fetches_one_file : ∃ fs, faces Lin = Some fs ∧
  ∀ fam c, fam ∈ families → 0 ≤ c < 256 → fetched fam c fs = latin_file fam.
Proof.
  pose proof fonts_latin_ok as H. destruct (faces Lin) as [fs|]; [|done]. exists fs. split; [done|].
  intros fam c Hf%list_elem_of_In Hc. unfold latin_ok in H. rewrite forallb_forall in H. specialize (H fam Hf).
  rewrite forallb_forall in H. specialize (H (Z.to_nat c)). cbv beta in H.
  rewrite bool_decide_eq_true, Z2Nat.id in H by lia. apply H, in_seq. lia.
Qed.

Lemma latin_text_witness : ∃ fs, faces Lin = Some fs ∧
  fetched (template ["`Inter`"]) 65 fs = latin_file (template ["`Inter`"]).
Proof.
  destruct latin_text_fetches_one_file as (fs & E & H). exists fs. split; [exact E|].
  apply H; [left|lia].
Defined.

(** ** A colour two palettes leave out *)

(** Moon and Solarized write the light orange twice and the light yellow
    never; their dark palettes have it. *)
Lemma light_yellow_is_missing : forallb (λ e,
  match parse_css (theme_css (Some e)) with
  | Some sheet =>
      bool_decide (property (palette ".light-mode" sheet) "--scalar-color-yellow" = None) &&
      bool_decide (is_Some (property (palette ".dark-mode" sheet) "--scalar-color-yellow")) &&
      bool_decide (length (List.filter (λ nv, String.eqb nv.1 "--scalar-color-orange") (palette ".light-mode" sheet)) = 2%nat)
  | None => false
  end) ["moon"; "solarized"] = true.
Proof. vm_compute. reflexivity. Qed.

(** [none], which the list of themes offers as None, is the default theme. *)
Lemma none_is_the_default t : In "none" Qin ∧ ean (Some "none") t = ean None t.
Proof. split; [cbn; tauto|]. vm_compute. reflexivity. Qed.
