(* ===== verification/EventStream.v ===== *)
(** * scalar.js: the parser of server-sent events

    [VJn] (createParser) keeps the parser's state, [HJn] (splitLines) cuts the text
    into lines. JS strings are lists of 16-bit code units. The callbacks the parser
    calls are its output, in order. An onError that throws is not modelled: the
    bundle's TransformStream hands one that does not. *)
From S2P Require Import Prelude.
#[local] Open Scope list_scope.

(** ** JS strings *)

Abbreviation jstr := (list Z).

(** A literal of ASCII characters. *)
Fixpoint js (s : string) : jstr :=
  match s with "" => [] | String c s' => Z.of_nat (nat_of_ascii c) :: js s' end.

Definition CR : Z := 13.
Definition LF : Z := 10.

(** [e.indexOf(c)], [None] for -1 *)
Fixpoint index_of (c : Z) (e : jstr) : option nat :=
  match e with
  | [] => None
  | x :: e' => if x =? c then Some O else option_map S (index_of c e')
  end.

(** [e.indexOf(c, r)] *)
Definition index_from (c : Z) (e : jstr) (r : nat) : option nat := option_map (Nat.add r) (index_of c (drop r e)).

(** [e.slice(a, b)] for a <= b *)
Definition slice (e : jstr) (a b : nat) : jstr := take (b - a) (drop a e).

(** ** HJn: the complete lines of a text and the rest *)

Definition line_end (e : jstr) (r : nat) : option nat :=
  match index_from CR e r, index_from LF e r with
  | Some i, Some a => Some (Nat.min i a)
  | None, a => a
  | Some i, None => if Nat.eqb i (length e - 1) then None else Some i
  end.

Fixpoint HJn_loop (fuel : nat) (e : jstr) (r : nat) (t : list jstr) : list jstr * jstr :=
  match fuel with
  | O => (t, [])
  | S f =>
      if Nat.ltb r (length e) then
        match line_end e r with
        | None => (t, drop r e)
        | Some o =>
            let t' := t ++ [slice e r o] in
            let r' := S o in
            if bool_decide (e !! o = Some CR) && bool_decide (e !! r' = Some LF)
            then HJn_loop f e (S r') t' else HJn_loop f e r' t'
        end
      else (t, [])
  end.

Definition HJn (e : jstr) : list jstr * jstr := HJn_loop (S (length e)) e 0 [].

(** ** VJn: the parser *)

Inductive parse_error : Type :=
| InvalidRetry (value line : jstr)
| UnknownField (field value line : jstr).

(** A call of a callback: onEvent, onError, onRetry (with [parseInt] of these
    digits), onComment. *)
Inductive call : Type :=
| OnEvent (id event : option jstr) (data : jstr)
| OnError (e : parse_error)
| OnRetry (digits : jstr)
| OnComment (text : jstr).

Record parser : Type := Parser {
  p_rest : jstr;             (* a: the incomplete line *)
  p_first : bool;            (* o: nothing fed yet *)
  p_id : option jstr;        (* s *)
  p_data : jstr;             (* c *)
  p_event : jstr }.          (* l *)

Definition VJn : parser := Parser [] true None [] [].

Definition is_digit (c : Z) : bool := (48 <=? c) && (c <=? 57).

Definition ends_with (c : Z) (s : jstr) : bool := match last s with Some x => x =? c | None => false end.

(** p: dispatch *)
Definition dispatch (p : parser) : parser * list call :=
  (Parser (p_rest p) (p_first p) None [] [],
   match p_data p with
   | [] => []
   | c => [OnEvent (p_id p) (match p_event p with [] => None | l => Some l end)
             (if ends_with LF c then removelast c else c)]
   end).

(** f: one field of a line *)
Definition field (p : parser) (e t line : jstr) : parser * list call :=
  if bool_decide (e = js "event") then (Parser (p_rest p) (p_first p) (p_id p) (p_data p) t, [])
  else if bool_decide (e = js "data") then
    (Parser (p_rest p) (p_first p) (p_id p) (p_data p ++ t ++ [LF]) (p_event p), [])
  else if bool_decide (e = js "id") then
    (Parser (p_rest p) (p_first p) (if existsb (Z.eqb 0) t then None else Some t) (p_data p) (p_event p), [])
  else if bool_decide (e = js "retry") then
    (p, if negb (bool_decide (t = [])) && forallb is_digit t then [OnRetry t] else [OnError (InvalidRetry t line)])
  else (p, [OnError (UnknownField e t line)]).

(** The text of a ParseError *)
Definition error_message (e : parse_error) : jstr :=
  match e with
  | InvalidRetry v _ => js "Invalid `retry` value: " ++ [34] ++ v ++ [34]
  | UnknownField f _ _ =>
      js "Unknown field " ++ [34] ++ (if Nat.ltb 20 (length f) then take 20 f ++ [8230] else f) ++ [34]
  end.

(** d: one line; [comments]: an onComment was given *)
Definition parse_line (comments : bool) (p : parser) (e : jstr) : parser * list call :=
  match e with
  | [] => dispatch p
  | c :: e' =>
      if c =? 58 then
        (p, if comments then [OnComment (match e' with x :: e'' => if x =? 32 then e'' else e' | [] => e' end)] else [])
      else
        match index_of 58 e with
        | Some t => let r := if bool_decide (e !! S t = Some 32) then 2%nat else 1%nat in
                    field p (take t e) (drop (t + r) e) e
        | None => field p e [] e
        end
  end.

Fixpoint parse_lines (comments : bool) (p : parser) (ls : list jstr) : parser * list call :=
  match ls with
  | [] => (p, [])
  | l :: ls' => let '(p1, o1) := parse_line comments p l in
                let '(p2, o2) := parse_lines comments p1 ls' in (p2, o1 ++ o2)
  end.

(** [e.replace(/^\xEF\xBB\xBF/, ``)] *)
Definition strip_bom (e : jstr) : jstr :=
  match e with
  | a :: b :: c :: e' => if (a =? 239) && (b =? 187) && (c =? 191) then e' else e
  | _ => e
  end.

Definition set_rest (p : parser) (r : jstr) : parser := Parser r false (p_id p) (p_data p) (p_event p).

(** u: feed *)
Definition feed (comments : bool) (p : parser) (e : jstr) : parser * list call :=
  let t := if p_first p then strip_bom e else e in
  let '(n, r) := HJn (p_rest p ++ t) in
  let '(p', out) := parse_lines comments p n in
  (set_rest p' r, out).

(** m: reset *)
Definition reset (comments consume : bool) (p : parser) : parser * list call :=
  (VJn, match p_rest p with [] => [] | a => if consume then snd (parse_line comments p a) else [] end).

Fixpoint feed_all (comments : bool) (p : parser) (cs : list jstr) : parser * list call :=
  match cs with
  | [] => (p, [])
  | c :: cs' => let '(p1, o1) := feed comments p c in
                let '(p2, o2) := feed_all comments p1 cs' in (p2, o1 ++ o2)
  end.

Example feed_small :
  feed true VJn (js ": hi" ++ [10] ++ js "id: 7" ++ [13; 10] ++ js "data: a" ++ [13] ++ js "data:b" ++ [10; 10] ++ js "x") =
  (Parser (js "x") false None [] [],
   [OnComment (js "hi"); OnEvent (Some (js "7")) None (js "a" ++ [10] ++ js "b")]).
Proof. reflexivity. Qed.
