(* ===== verification/EventStreamLaws.v ===== *)
(** * scalar.js: what the parser of server-sent events guarantees

    [lines_of] is the reference: one pass over the text. [HJn], with its two
    searches per line, computes it; a stream may arrive in any chunks; and what is
    written in the format of the standard is read back. *)
From S2P Require Import Prelude EventStream.
#[local] Open Scope list_scope.

(** ** The reference splitter *)

Fixpoint lines_of (cur e : jstr) : list jstr * jstr :=
  match e with
  | [] => ([], cur)
  | c :: e' =>
      if c =? CR then
        match e' with
        | [] => ([], cur ++ [CR])
        | d :: e'' =>
            let '(ls, r) := if d =? LF then lines_of [] e'' else lines_of [] e' in (cur :: ls, r)
        end
      else if c =? LF then let '(ls, r) := lines_of [] e' in (cur :: ls, r)
      else lines_of (cur ++ [c]) e'
  end.

(** No line terminator in the text. *)
Definition plain (s : jstr) : Prop := Forall (λ c, c ≠ CR ∧ c ≠ LF) s.

Lemma plain_or_end s : plain s ∨ ∃ u x s', s = u ++ x :: s' ∧ plain u ∧ (x = CR ∨ x = LF).
Proof.
  induction s as [|c s IH]; [left; constructor|].
  destruct (decide (c = CR ∨ c = LF)) as [Hc|Hc].
  { right. exists [], c, s. split_and!; [done|constructor|done]. }
  destruct IH as [IH|(u & x & s' & -> & Hu & Hx)].
  - left. constructor; [tauto|done].
  - right. exists (c :: u), x, s'. split_and!; [done|constructor; [tauto|done]|done].
Qed.

Lemma lines_of_plain cur u s : plain u → lines_of cur (u ++ s) = lines_of (cur ++ u) s.
Proof.
  intros Hu. revert cur. induction Hu as [|c u [H1 H2] _ IH]; intros cur; [by rewrite app_nil_r|].
  cbn [app lines_of]. rewrite (proj2 (Z.eqb_neq c CR) H1), (proj2 (Z.eqb_neq c LF) H2), IH.
  by rewrite <- app_assoc.
Qed.

Lemma lines_of_only cur u : plain u → lines_of cur u = ([], cur ++ u).
Proof. intros Hu. rewrite <- (app_nil_r u) at 1. by rewrite lines_of_plain. Qed.

Lemma lines_of_lf cur s : lines_of cur (LF :: s) = (cur :: (lines_of [] s).1, (lines_of [] s).2).
Proof. cbn. by destruct (lines_of [] s). Qed.

Lemma lines_of_cr cur d s : lines_of cur (CR :: d :: s) =
  let p := if d =? LF then lines_of [] s else lines_of [] (d :: s) in (cur :: p.1, p.2).
Proof.
  change (lines_of cur (CR :: d :: s)) with
    (let '(ls, r) := if d =? LF then lines_of [] s else lines_of [] (d :: s) in (cur :: ls, r)).
  cbv zeta. by destruct (if d =? LF then _ else _).
Qed.

(** A text may be cut anywhere: what is left of the first part is put in front
    of the second. *)
Lemma lines_of_app a b : ∀ cur, plain cur →
  lines_of cur (a ++ b) =
    let p := lines_of cur a in let q := lines_of [] (p.2 ++ b) in (p.1 ++ q.1, q.2).
Proof.
  induction a as [a IH] using (induction_ltof1 _ (@length Z)); unfold ltof in IH. intros cur Hcur.
  destruct (plain_or_end a) as [Ha|(u & x & s & -> & Hu & Hx)].
  { rewrite lines_of_plain, (lines_of_only cur a) by done. cbn [fst snd].
    rewrite (lines_of_plain [] (cur ++ a)) by (by apply Forall_app). cbn.
    by destruct (lines_of (cur ++ a) b). }
  rewrite <- app_assoc, !(lines_of_plain cur u) by done. cbn [app].
  assert (plain (cur ++ u)) as Hp by (by apply Forall_app). rewrite length_app in IH. cbn in IH.
  destruct Hx as [-> | ->].
  - destruct s as [|d s]; cbn [app].
    + change (lines_of (cur ++ u) [CR]) with (@nil jstr, (cur ++ u) ++ [CR]). cbn [fst snd app].
      rewrite <- app_assoc, (lines_of_plain [] (cur ++ u)) by done. cbn [app]. by destruct (lines_of _ (CR :: b)).
    + rewrite !lines_of_cr. destruct (d =? LF); cbv zeta; cbn [fst snd].
      * rewrite (IH s) by (try constructor; cbn; lia). by cbn.
      * change (d :: s ++ b) with ((d :: s) ++ b).
        rewrite (IH (d :: s)) by (try constructor; cbn; lia). by cbn.
  - rewrite !lines_of_lf. cbn [fst snd]. rewrite (IH s) by (try constructor; lia). by cbn.
Qed.

Lemma lines_of_rest cur e : plain cur → lines_of [] (lines_of cur e).2 = ([], (lines_of cur e).2).
Proof.
  intros Hc. pose proof (lines_of_app e [] cur Hc) as H. rewrite app_nil_r in H. cbv zeta in H.
  destruct (lines_of cur e) as [ls r]. cbn [fst snd] in *. rewrite app_nil_r in H. destruct (lines_of [] r) as [ls' r'].
  cbn [fst snd] in H. assert (r' = r) as -> by congruence. assert (ls = ls ++ ls') as H1 by congruence.
  apply (f_equal length) in H1. rewrite length_app in H1. destruct ls'; [done|cbn in H1; lia].
Qed.

(** ** HJn computes it *)

Lemma index_of_plain c u s : Forall (λ x, x ≠ c) u → index_of c (u ++ s) = option_map (Nat.add (length u)) (index_of c s).
Proof.
  induction 1 as [|x u Hx _ IH]; cbn; [by destruct (index_of c s)|].
  rewrite (proj2 (Z.eqb_neq x c) Hx), IH. by destruct (index_of c s).
Qed.

Lemma plain_lacks u : plain u → Forall (λ x, x ≠ CR) u ∧ Forall (λ x, x ≠ LF) u.
Proof. intros Hu. split; apply (Forall_impl _ _ _ Hu); tauto. Qed.

Lemma line_end_plain e r u : drop r e = u → plain u → line_end e r = None.
Proof.
  intros Hd [H1 H2]%plain_lacks. unfold line_end, index_from. rewrite Hd.
  rewrite <- (app_nil_r u), !index_of_plain by done. done.
Qed.

Lemma line_end_cr_last e r u : drop r e = u ++ [CR] → plain u → line_end e r = None.
Proof.
  intros Hd [H1 H2]%plain_lacks. unfold line_end, index_from. rewrite Hd, !index_of_plain by done. cbn.
  rewrite Nat.add_0_r. apply (f_equal length) in Hd. rewrite length_drop, length_app in Hd. cbn in Hd.
  by replace (Nat.eqb _ _) with true by (symmetry; apply Nat.eqb_eq; lia).
Qed.

Lemma line_end_cr e r u d s : drop r e = u ++ CR :: d :: s → plain u → line_end e r = Some (r + length u)%nat.
Proof.
  intros Hd [H1 H2]%plain_lacks. unfold line_end, index_from. rewrite Hd, !index_of_plain by done.
  cbn [index_of]. change (CR =? CR) with true. change (CR =? LF) with false. cbn [option_map].
  rewrite Nat.add_0_r. destruct (if d =? LF then _ else _) as [k|]; cbn [option_map]; [f_equal; lia|].
  apply (f_equal length) in Hd. rewrite length_drop, length_app in Hd. cbn in Hd.
  replace (Nat.eqb _ _) with false; [done|]. symmetry. apply Nat.eqb_neq. lia.
Qed.

Lemma line_end_lf e r u s : drop r e = u ++ LF :: s → plain u → line_end e r = Some (r + length u)%nat.
Proof.
  intros Hd [H1 H2]%plain_lacks. unfold line_end, index_from. rewrite Hd, !index_of_plain by done.
  cbn [index_of]. change (LF =? LF) with true. change (LF =? CR) with false. cbn [option_map].
  rewrite Nat.add_0_r. destruct (index_of CR s) as [k|]; cbn [option_map]; [f_equal; lia|done].
Qed.

(** A line found at [r]: its text, and where the next one begins. *)
Lemma at_line (e : jstr) r u x s : drop r e = u ++ x :: s →
  drop (S (r + length u)) e = s ∧ e !! (r + length u)%nat = Some x ∧ slice e r (r + length u) = u ∧
  (r + length u < length e)%nat.
Proof.
  intros Hd. split_and!.
  - replace (S (r + length u)) with (r + (length u + 1))%nat by lia. rewrite <- drop_drop, Hd.
    by rewrite <- drop_drop, drop_app_length.
  - rewrite <- (lookup_drop e r), Hd, lookup_app_r, Nat.sub_diag by done. done.
  - unfold slice. rewrite Hd. replace (r + length u - r)%nat with (length u) by lia. by rewrite take_app_length.
  - apply (f_equal length) in Hd. rewrite length_drop, length_app in Hd. cbn in Hd. lia.
Qed.

Lemma HJn_loop_spec f e r t : (length (drop r e) < f)%nat →
  HJn_loop f e r t = (t ++ (lines_of [] (drop r e)).1, (lines_of [] (drop r e)).2).
Proof.
  revert r t. induction f as [|f IH]; intros r t Hf; [lia|]. cbn [HJn_loop].
  destruct (Nat.ltb_spec r (length e)) as [Hr|Hr]; [|rewrite drop_ge by lia; cbn; by rewrite app_nil_r].
  destruct (plain_or_end (drop r e)) as [Hp|(u & x & s & Hd & Hu & Hx)].
  { rewrite (line_end_plain e r _ eq_refl Hp), lines_of_only by done. cbn. by rewrite app_nil_r. }
  destruct (at_line e r u x s Hd) as (Hn & Hl & Hs & _). rewrite Hd in Hf |- *.
  rewrite length_app in Hf. cbn in Hf. rewrite lines_of_plain by done.
  destruct Hx as [-> | ->].
  - destruct s as [|d s].
    + rewrite (line_end_cr_last e r u) by done. cbn. by rewrite app_nil_r.
    + rewrite (line_end_cr e r u d s) by done. rewrite Hl, Hs, lines_of_cr, bool_decide_true by done.
      assert (e !! S (r + length u) = Some d) as Hl2.
      { rewrite <- (Nat.add_0_r (S _)), <- lookup_drop, Hn. done. }
      rewrite Hl2. cbn [andb]. destruct (Z.eqb_spec d LF) as [->|Hne].
      * rewrite bool_decide_true by done.
        assert (drop (S (S (r + length u))) e = s) as Hn2.
        { replace (S (S (r + length u))) with (S (r + length u) + 1)%nat by lia. by rewrite <- drop_drop, Hn. }
        rewrite IH, Hn2 by (rewrite Hn2; cbn in *; lia). cbv zeta. by rewrite <- app_assoc.
      * rewrite bool_decide_false by congruence. rewrite IH, Hn by (rewrite Hn; cbn in *; lia).
        cbv zeta. cbn [fst snd app]. by rewrite <- app_assoc.
  - rewrite (line_end_lf e r u s) by done. rewrite Hl, Hs, lines_of_lf.
    rewrite (bool_decide_false (Some LF = Some CR)) by done. cbn [andb].
    rewrite IH, Hn by (rewrite Hn; lia). cbn [fst snd app]. by rewrite <- app_assoc.
Qed.

Lemma HJn_lines e : HJn e = lines_of [] e.
Proof. unfold HJn. rewrite HJn_loop_spec by (rewrite length_drop; lia). rewrite drop_0. by destruct (lines_of [] e). Qed.

(** ** The state between chunks *)

Lemma parse_line_rest k p r e :
  parse_line k (set_rest p r) e = (set_rest (parse_line k p e).1 r, (parse_line k p e).2).
Proof.
  unfold parse_line. destruct e as [|c e]; [done|]. unfold field.
  repeat (case_match; cbn; try done); try (unfold set_rest; cbn; congruence).
Qed.

Lemma parse_lines_rest k p r ls :
  parse_lines k (set_rest p r) ls = (set_rest (parse_lines k p ls).1 r, (parse_lines k p ls).2).
Proof.
  revert p. induction ls as [|l ls IH]; intros p; [done|]. cbn. rewrite parse_line_rest.
  destruct (parse_line k p l) as [p1 o1]. cbn [fst snd]. rewrite IH. by destruct (parse_lines k p1 ls).
Qed.

Lemma parse_lines_app k p a b :
  parse_lines k p (a ++ b) =
    let x := parse_lines k p a in let y := parse_lines k x.1 b in (y.1, x.2 ++ y.2).
Proof.
  revert p. induction a as [|l a IH]; intros p; cbn; [by destruct (parse_lines k p b)|].
  destruct (parse_line k p l) as [p1 o1]. rewrite IH. destruct (parse_lines k p1 a) as [p2 o2]. cbn.
  destruct (parse_lines k p2 b) as [p3 o3]. cbn. by rewrite <- app_assoc.
Qed.

(** What [feed] does to the text it is left with. *)
Lemma feed_eq k p e : feed k p e =
  let p' := parse_lines k p (lines_of [] (p_rest p ++ (if p_first p then strip_bom e else e))).1 in
  (set_rest p'.1 (lines_of [] (p_rest p ++ (if p_first p then strip_bom e else e))).2, p'.2).
Proof.
  unfold feed. rewrite HJn_lines. destruct (lines_of [] _) as [n r]. cbn. by destruct (parse_lines k p n).
Qed.

(** After a chunk: it is not the first any more, and the rest is no line yet. *)
Definition fed (p : parser) : Prop := p_first p = false ∧ lines_of [] (p_rest p) = ([], p_rest p).

Lemma feed_fed k p e : plain [] → fed (feed k p e).1.
Proof. intros H. rewrite feed_eq. cbn. split; [done|]. by apply lines_of_rest. Qed.

(** Two chunks are one. *)
Lemma feed_twice k p a b : (if p_first p then strip_bom (a ++ b) = strip_bom a ++ b else True) →
  feed k p (a ++ b) =
    let x := feed k p a in let y := feed k x.1 b in (y.1, x.2 ++ y.2).
Proof.
  intros Hb. cbv zeta.
  assert ((if p_first p then strip_bom (a ++ b) else a ++ b) = (if p_first p then strip_bom a else a) ++ b) as Hs
    by (by destruct (p_first p)).
  rewrite (feed_eq k p (a ++ b)), Hs, app_assoc, (lines_of_app _ b) by constructor.
  rewrite (feed_eq k p a). cbv zeta. cbn [fst snd]. rewrite feed_eq. cbn [p_first set_rest p_rest fst snd].
  rewrite parse_lines_rest, parse_lines_app. done.
Qed.

Lemma feed_nothing k p : fed p → feed k p [] = (p, []).
Proof.
  intros [H1 H2]. rewrite feed_eq, H1, app_nil_r, H2. cbn. destruct p; cbn in *. by subst.
Qed.

Lemma feed_all_one k p cs : fed p → feed_all k p cs = feed k p (concat cs).
Proof.
  revert p. induction cs as [|c cs IH]; intros p Hp; cbn [feed_all concat]; [by rewrite feed_nothing|].
  rewrite feed_twice by (by rewrite (proj1 Hp)). cbv zeta.
  pose proof (feed_fed k p c ltac:(constructor)) as Hf. destruct (feed k p c) as [p1 o1]. cbn [fst snd] in *.
  rewrite IH by done. by destruct (feed k p1 (concat cs)).
Qed.

(** The first chunk does not end inside a byte order mark. *)
Definition whole_bom (c : jstr) : bool := negb (bool_decide (c ∈ [[]; [239]; [239; 187]])).

Lemma strip_bom_app c s : whole_bom c = true → strip_bom (c ++ s) = strip_bom c ++ s.
Proof.
  unfold whole_bom. intros H%negb_true_iff%bool_decide_eq_false_1.
  unfold strip_bom. destruct c as [|a [|b [|d c]]]; cbn [app]; [exfalso; apply H; set_solver| | |by case_match].
  - destruct s as [|b [|d s]]; [done..|]. destruct (Z.eqb_spec a 239) as [->|]; [exfalso; apply H; set_solver|done].
  - destruct s as [|d s]; [done|]. destruct (Z.eqb_spec a 239) as [->|], (Z.eqb_spec b 187) as [->|]; try done.
    exfalso; apply H; set_solver.
Qed.

(** C2. A stream of events means the same however it is cut: feeding a text in
    chunks of any sizes, also between a carriage return and its line feed or inside a
    field name, makes the same calls in the same order and leaves the same state as
    feeding it at once. Only the first chunk must not end inside a byte order
    mark. *)
Theorem chunks_do_not_matter k c cs : whole_bom c = true →
  feed_all k VJn (c :: cs) = feed k VJn (c ++ concat cs).
Proof.
  intros Hc. cbn [feed_all]. rewrite feed_twice by (cbn; by apply strip_bom_app). cbv zeta.
  pose proof (feed_fed k VJn c ltac:(constructor)) as Hf. destruct (feed k VJn c) as [p1 o1]. cbn [fst snd] in *.
  rewrite feed_all_one by done. by destruct (feed k p1 (concat cs)).
Qed.

Lemma chunks_witness :
  feed_all true VJn [js "da"; js "ta: x" ++ [13]; [10]; [13]; js "y"] =
  feed true VJn (js "da" ++ concat [js "ta: x" ++ [13]; [10]; [13]; js "y"]).
Proof. apply (chunks_do_not_matter true (js "da")). reflexivity. Defined.

(** ** Reading back what a server writes *)

Record event : Type := Event { e_id : option jstr; e_type : option jstr; e_data : list jstr }.

(** An event in the format of the standard, one data line per line. *)
Definition event_lines (e : event) : list jstr :=
  match e_id e with Some i => [js "id: " ++ i] | None => [] end ++
  match e_type e with Some t => [js "event: " ++ t] | None => [] end ++
  ((λ d, js "data: " ++ d) <$> e_data e) ++ [[]].

Definition written (ls : list jstr) : jstr := concat ((λ l, l ++ [LF]) <$> ls).

Definition event_ok (e : event) : Prop :=
  (∀ i, e_id e = Some i → plain i ∧ existsb (Z.eqb 0) i = false) ∧
  (∀ t, e_type e = Some t → plain t ∧ t ≠ []) ∧
  e_data e ≠ [] ∧ Forall plain (e_data e).

(** The data of an event: its lines with a line feed between them. *)
Fixpoint joined (ls : list jstr) : jstr :=
  match ls with [] => [] | [d] => d | d :: ls' => d ++ LF :: joined ls' end.

Lemma lines_of_written ls s : Forall plain ls → lines_of [] (written ls ++ s) = (ls ++ (lines_of [] s).1, (lines_of [] s).2).
Proof.
  unfold written. induction 1 as [|l ls Hl _ IH]; [cbn; by destruct (lines_of [] s)|].
  rewrite fmap_cons. cbn [concat]. rewrite <- !app_assoc, lines_of_plain by done. cbn [app].
  rewrite lines_of_lf, IH. done.
Qed.

Lemma parse_data k p ds : parse_lines k p ((λ d, js "data: " ++ d) <$> ds) =
  (Parser (p_rest p) (p_first p) (p_id p) (p_data p ++ written ds) (p_event p), []).
Proof.
  revert p. induction ds as [|d ds IH]; intros p; [cbn; rewrite app_nil_r; by destruct p|].
  rewrite fmap_cons. cbn [parse_lines].
  replace (parse_line k p (js "data: " ++ d)) with
    (Parser (p_rest p) (p_first p) (p_id p) (p_data p ++ d ++ [LF]) (p_event p), @nil call) by reflexivity.
  rewrite IH. cbn [p_rest p_first p_id p_data p_event app]. unfold written. rewrite fmap_cons. cbn [concat].
  by rewrite <- !app_assoc.
Qed.

Lemma written_last ds : ds ≠ [] → written ds = joined ds ++ [LF].
Proof.
  unfold written. induction ds as [|d ds IH]; [done|]. intros _. destruct ds as [|d' ds]; [cbn; by rewrite app_nil_r|].
  rewrite fmap_cons. cbn [concat]. rewrite IH by done. change (joined (d :: d' :: ds)) with (d ++ LF :: joined (d' :: ds)).
  by rewrite <- !app_assoc.
Qed.

(** Dispatch of an event's data *)
Lemma dispatch_data r f i ds t : ds ≠ [] → (∀ x, t = Some x → x ≠ []) →
  dispatch (Parser r f i (written ds) (default [] t)) = (Parser r f None [] [], [OnEvent i t (joined ds)]).
Proof.
  intros Hd Ht. unfold dispatch. cbn [p_rest p_first p_id p_data p_event]. rewrite written_last by done.
  assert (match default [] t with [] => None | l => Some l end = t) as Ht'.
  { destruct t as [[|x t]|]; cbn; [|done..]. by destruct (Ht [] eq_refl). }
  destruct (joined ds ++ [LF]) as [|c l] eqn:E; [by destruct (joined ds)|]. rewrite Ht', <- E.
  unfold ends_with. by rewrite last_snoc, removelast_last.
Qed.

Lemma parse_event k r f e : event_ok e →
  parse_lines k (Parser r f None [] []) (event_lines e) =
    (Parser r f None [] [], [OnEvent (e_id e) (e_type e) (joined (e_data e))]).
Proof.
  intros (Hi & Ht & Hd & _). unfold event_lines. rewrite parse_lines_app.
  replace (parse_lines k (Parser r f None [] []) match e_id e with Some i => [js "id: " ++ i] | None => [] end)
    with (Parser r f (e_id e) [] [], @nil call).
  2:{ destruct (e_id e) as [i|]; [|done]. destruct (Hi i eq_refl) as [_ H0].
      cbn [parse_lines]. change (parse_line k _ (js "id: " ++ i)) with
        (Parser r f (if existsb (Z.eqb 0) i then None else Some i) [] [], @nil call). by rewrite H0. }
  cbv zeta. cbn [fst snd app]. rewrite parse_lines_app.
  replace (parse_lines k (Parser r f (e_id e) [] []) match e_type e with Some t => [js "event: " ++ t] | None => [] end)
    with (Parser r f (e_id e) [] (default [] (e_type e)), @nil call) by (by destruct (e_type e)).
  cbv zeta. cbn [fst snd app]. rewrite parse_lines_app, parse_data. cbv zeta. cbn [fst snd p_rest p_first p_id p_data p_event app].
  cbn [parse_lines parse_line]. rewrite dispatch_data; [done|done|]. intros x Hx. by apply (Ht x).
Qed.

Lemma js_plain_prefix s l : plain (js s) → plain l → plain (js s ++ l).
Proof. intros H1 H2. by apply Forall_app. Qed.

Lemma event_lines_plain e : event_ok e → Forall plain (event_lines e).
Proof.
  assert (plain (js "id: ") ∧ plain (js "event: ") ∧ plain (js "data: ")) as (P1 & P2 & P3).
  { split_and!; repeat constructor; discriminate. }
  intros (Hi & Ht & _ & Hd). unfold event_lines. apply Forall_app. split.
  { destruct (e_id e) as [i|]; constructor; [|constructor]. by apply js_plain_prefix, (Hi i). }
  apply Forall_app. split.
  { destruct (e_type e) as [t|]; constructor; [|constructor]. by apply js_plain_prefix, (Ht t). }
  apply Forall_app. split; [|repeat constructor]. apply Forall_fmap, (Forall_impl _ _ _ Hd).
  intros d. by apply js_plain_prefix.
Qed.

Lemma parse_events k r f es : Forall event_ok es →
  parse_lines k (Parser r f None [] []) (concat (event_lines <$> es)) =
    (Parser r f None [] [], (λ e, OnEvent (e_id e) (e_type e) (joined (e_data e))) <$> es).
Proof.
  induction 1 as [|e es He _ IH]; [done|]. rewrite !fmap_cons. cbn [concat].
  rewrite parse_lines_app, parse_event by done. cbv zeta. cbn [fst snd]. by rewrite IH.
Qed.

Lemma strip_bom_other c s : c ≠ 239 → strip_bom (c :: s) = c :: s.
Proof. intros Hc%Z.eqb_neq. destruct s as [|b [|d s]]; cbn; [done..|]. by rewrite Hc. Qed.

Lemma strip_bom_written es : strip_bom (written (concat (event_lines <$> es))) = written (concat (event_lines <$> es)).
Proof.
  destruct es as [|e es]; [done|]. rewrite fmap_cons. unfold event_lines at 1 3.
  destruct (e_id e) as [i|]; [by apply strip_bom_other|]. destruct (e_type e) as [t|]; [by apply strip_bom_other|].
  destruct (e_data e); by apply strip_bom_other.
Qed.

(** C22. What a server writes is read: the text of any events in the format of
    the standard (an id without a null, a type, data of one or more lines) makes the
    parser call onEvent once per event, in order, with the id, the type and the data's
    lines joined by line feeds, and leaves nothing over. *)
Theorem events_are_read_back k es : Forall event_ok es →
  feed k VJn (written (concat (event_lines <$> es))) =
    (Parser [] false None [] [], (λ e, OnEvent (e_id e) (e_type e) (joined (e_data e))) <$> es).
Proof.
  intros He. rewrite feed_eq. cbn [p_rest p_first VJn app]. rewrite strip_bom_written.
  assert (Forall plain (concat (event_lines <$> es))) as Hp.
  { apply Forall_concat, Forall_fmap, (Forall_impl _ _ _ He). exact event_lines_plain. }
  pose proof (lines_of_written _ [] Hp) as Hw. rewrite app_nil_r in Hw. rewrite Hw. cbn [lines_of fst snd].
  rewrite app_nil_r. unfold VJn. by rewrite parse_events.
Qed.

Definition sample_event : event := Event (Some (js "7")) (Some (js "add")) [js "a"; []; js "b: c"].

Lemma events_witness : event_ok sample_event ∧
  (feed false VJn (written (concat (event_lines <$> [sample_event])))).2 =
    [OnEvent (Some (js "7")) (Some (js "add")) (js "a" ++ [10; 10] ++ js "b: c")].
Proof.
  assert (event_ok sample_event) as H.
  { split_and!; [intros ? [= <-]|intros ? [= <-]|discriminate|]; try split; try done; repeat constructor; discriminate. }
  split; [exact H|]. rewrite (events_are_read_back false [sample_event]); [reflexivity|].
  constructor; [exact H|constructor].
Defined.

(** ** What [HJn] and [reset] do *)

(** Lines are cut once and for all: [HJn], whose loop searches the text
    twice per line, returns what one pass over the text finds (lines end at a line feed,
    a carriage return or both; a carriage return at the very end waits), every line is
    free of terminators, and cutting stops with a rest that holds no complete line. *)
Theorem splits_like_one_pass e :
  HJn e = lines_of [] e ∧ Forall plain (HJn e).1 ∧ HJn (HJn e).2 = ([], (HJn e).2).
Proof.
  rewrite !HJn_lines. split; [done|]. split; [|by apply lines_of_rest; constructor].
  assert (∀ cur, plain cur → Forall plain (lines_of cur e).1) as H; [|by apply H; constructor].
  induction e as [e IH] using (induction_ltof1 _ (@length Z)); unfold ltof in IH. intros cur Hcur.
  destruct (plain_or_end e) as [Ha|(u & x & s & -> & Hu & Hx)]; [by rewrite lines_of_only|].
  rewrite lines_of_plain by done. rewrite length_app in IH. cbn in IH.
  assert (plain (cur ++ u)) by (by apply Forall_app).
  destruct Hx as [-> | ->]; [destruct s as [|d s]; [constructor|]|].
  - rewrite lines_of_cr. cbv zeta. cbn [fst]. constructor; [done|].
    destruct (d =? LF); apply IH; cbn; try lia; constructor.
  - rewrite lines_of_lf. cbn [fst]. constructor; [done|]. apply IH; [lia|constructor].
Qed.
