(* ===== verification/Mime.v ===== *)
(** * scalar.js: media types and HTTP methods

    [zc] reads a media type, [toString] writes it; [Tb], [Kc], [qc], [Xc] classify
    one; [Sc] and [PH] normalise a method. Texts are ASCII. The parameters of a
    media type are a JS Map: a list of entries in insertion order. *)
From S2P Require Import Prelude.
#[local] Open Scope list_scope.

(** ** Tokens and quoted strings *)

Definition DQ : ascii := "034"%char.

Definition token_char (c : ascii) : bool :=
  byte_in 65 90 c || byte_in 97 122 c || byte_in 48 57 c ||
  existsb (Ascii.eqb c) ["!"; "#"; "$"; "%"; "&"; "'"; "*"; "+"; "-"; "."; "^"; "_"; "`"; "|"; "~"]%char.

(** Lc: one or more token characters *)
Definition Lc (s : string) : bool := match s with "" => false | _ => sforall token_char s end.

Definition special (c : ascii) : bool := Ascii.eqb c DQ || Ascii.eqb c "\".

Fixpoint escape (s : string) : string :=
  match s with
  | "" => ""
  | String c s' => if special c then String "\" (String c (escape s')) else String c (escape s')
  end.

(** A backslash before a quote or a backslash is dropped. *)
Fixpoint unescape (s : string) : string :=
  match s with
  | "" => ""
  | String c s' =>
      if Ascii.eqb c "\" then
        match s' with
        | String d s'' => if special d then String d (unescape s'') else String c (unescape s')
        | "" => String c ""
        end
      else String c (unescape s')
  end.

Definition Pve (e : string) : string := String DQ (escape e +:+ String DQ "").

(** The text between the first and the last character, when both are quotes. *)
Fixpoint drop_last_quote (s : string) : option string :=
  match s with
  | "" => None
  | String c "" => if Ascii.eqb c DQ then Some "" else None
  | String c s' => option_map (String c) (drop_last_quote s')
  end.

Definition unquoted (r : string) : option string :=
  match r with String c r' => if Ascii.eqb c DQ then drop_last_quote r' else None | "" => None end.

(** ** zc *)

(** Fve: one parameter, [None] for null *)
Definition Fve (e : string) : option (string * string) :=
  match cut "=" e with
  | None => None
  | Some (a, b) =>
      let n := to_lower (trim_space a) in
      if negb (Lc n) then None
      else
        match trim_space b with
        | "" => None
        | r => Some (n, match unquoted r with Some q => unescape q | None => r end)
        end
  end.

Record media_type : Type := Media { m_type : string; m_subtype : string; m_params : list (string * string) }.

Definition essence (m : media_type) : string := m_type m +:+ "/" +:+ m_subtype m.

(** Rc: [None] is the Error it throws *)
Definition Rc (e : string) : option (string * string) :=
  let '(t, n) := match split_on "/" e with a :: b :: _ => (a, b) | [a] => (a, "") | [] => ("", "") end in
  let r := to_lower (trim_space t) in
  let i := to_lower (trim_space n) in
  if Lc r && Lc i then Some (r, i) else None.

(** [s.set(n, r)] *)
Fixpoint map_set (n r : string) (s : list (string * string)) : list (string * string) :=
  match s with
  | [] => [(n, r)]
  | (k, v) :: s' => if String.eqb k n then (k, r) :: s' else (k, v) :: map_set n r s'
  end.

Fixpoint map_get (n : string) (s : list (string * string)) : option string :=
  match s with [] => None | (k, v) :: s' => if String.eqb k n then Some v else map_get n s' end.

Definition add_param (s : list (string * string)) (e : string) : list (string * string) :=
  match Fve e with None => s | Some (n, r) => map_set n r s end.

Definition zc (e : option string) : media_type :=
  let pieces := split_on ";" (default "text/plain" e) in
  let '(a, o) := default ("text", "plain") (Rc (default "" (head pieces))) in
  Media a o (foldl add_param [] (tail pieces)).

Definition param_text (p : string * string) : string :=
  p.1 +:+ "=" +:+ (if Lc p.2 then p.2 else Pve p.2).

(** join: [xs.join(sep)] *)
Definition join (sep : string) (xs : list string) : string := String.concat sep xs.

Definition toString (m : media_type) : string :=
  match m_params m with
  | [] => essence m
  | ps => essence m +:+ "; " +:+ join "; " (param_text <$> ps)
  end.

(** ** What a media type is for *)

Fixpoint ends_with (p s : string) : bool :=
  String.eqb p s || match s with "" => false | String _ s' => ends_with p s' end.

(** Tb: JSON *)
Definition Tb (e : option string) : bool :=
  let t := m_subtype (zc e) in String.eqb t "json" || ends_with "+json" t.

Inductive streaming : Type := Sse | JsonSeq | JsonLines | Multipart | TextStream.

Definition is_json_lines (t : string) : bool :=
  existsb (String.eqb t) ["application/jsonl"; "application/x-ndjson"; "application/json-lines"].

(** Kc: [None] for undefined *)
Definition Kc (e : option string) : option streaming :=
  let m := zc (Some (default "" e)) in
  if String.eqb (essence m) "text/event-stream" then Some Sse
  else if String.eqb (essence m) "application/json-seq" || ends_with "+json-seq" (m_subtype m) then Some JsonSeq
  else if is_json_lines (essence m) then Some JsonLines
  else if String.eqb (m_type m) "multipart" &&
          (String.eqb (m_subtype m) "mixed" || String.eqb (m_subtype m) "x-mixed-replace") then Some Multipart
  else None.

Definition qc (e : option string) : bool := match Kc e with Some _ => true | None => false end.

(** Xc: how a streamed body is shown *)
Definition Xc (e : option string) : option streaming :=
  if negb (qc e) then None
  else
    let m := zc e in
    if String.eqb (essence m) "text/event-stream" then Some TextStream
    else if is_json_lines (essence m) then Some JsonLines
    else if String.eqb (m_subtype m) "json-seq" || ends_with "+json-seq" (m_subtype m) then Some JsonSeq
    else if String.eqb (m_type m) "multipart" then Some Multipart
    else None.

(** ** Methods *)

Definition xc : list string :=
  ["delete"; "get"; "head"; "options"; "patch"; "post"; "put"; "query"; "trace"].

Definition Sc (e : string) : bool := existsb (String.eqb (to_lower e)) xc.

(** PH: undefined and the empty string are GET *)
Definition PH (e : option string) : string :=
  match e with
  | None | Some "" => "GET"
  | Some m => if Sc m && String.eqb m (to_lower m) then to_upper m else m
  end.

(** ** Laws *)

Lemma unescape_escape s : unescape (escape s) = s.
Proof.
  induction s as [|c s IH]; [done|]. cbn. destruct (special c) eqn:E.
  - cbn. change (Ascii.eqb "\" "\") with true. cbn iota. by rewrite E, IH.
  - cbn. destruct (Ascii.eqb_spec c "\") as [->|_]; [done|]. by rewrite IH.
Qed.

Lemma drop_last_quote_snoc s : drop_last_quote (s +:+ String DQ "") = Some s.
Proof.
  induction s as [|c s IH]; [done|]. change (String c s +:+ String DQ "") with (String c (s +:+ String DQ "")).
  cbn [drop_last_quote]. rewrite IH. destruct (s +:+ String DQ "") eqn:E; [by destruct s|done].
Qed.

Lemma unquoted_Pve s : unquoted (Pve s) = Some (escape s).
Proof. unfold unquoted, Pve. rewrite Ascii.eqb_refl. apply drop_last_quote_snoc. Qed.

Lemma token_not_space c : token_char c = true → negb (is_space c) = true.
Proof. destruct c as [[] [] [] [] [] [] [] []]; vm_compute; congruence. Qed.

Lemma token_not c d : token_char c = true → token_char d = false → negb (Ascii.eqb c d) = true.
Proof. intros Hc Hd. destruct (Ascii.eqb_spec c d) as [->|]; [congruence|done]. Qed.

Lemma lower_byte_idemp c : lower_byte (lower_byte c) = lower_byte c.
Proof. by destruct c as [[] [] [] [] [] [] [] []]. Qed.

Lemma to_lower_idemp s : to_lower (to_lower s) = to_lower s.
Proof. unfold to_lower. rewrite smap_smap. apply smap_ext, lower_byte_idemp. Qed.

Lemma sforall_trim_left P s : sforall P s = true → sforall P (trim_left s) = true.
Proof.
  induction s as [|c s IH]; [done|]. cbn. intros [Hc Hs]%andb_prop.
  destruct (is_space c); [auto|]. cbn. by rewrite Hc.
Qed.

Lemma sforall_trim_right P s : sforall P s = true → sforall P (trim_right s) = true.
Proof.
  induction s as [|c s IH]; [done|]. cbn. intros [Hc Hs]%andb_prop. specialize (IH Hs).
  destruct (trim_right s) as [|d r]; [destruct (is_space c); [done|cbn; by rewrite Hc]|].
  cbn in *. by rewrite Hc.
Qed.

Lemma sforall_trim P s : sforall P s = true → sforall P (trim_space s) = true.
Proof. intros. by apply sforall_trim_right, sforall_trim_left. Qed.

Lemma sforall_cut P sep s a b : sforall P s = true → cut sep s = Some (a, b) → sforall P a = true ∧ sforall P b = true.
Proof.
  intros H ->%cut_Some. rewrite !sforall_app in H. apply andb_prop in H as [Ha [_ Hb]%andb_prop]. done.
Qed.

Lemma sforall_unescape P s : sforall P s = true → sforall P (unescape s) = true.
Proof.
  remember (String.length s) as n eqn:En. assert (String.length s ≤ n)%nat as Hn by lia. clear En.
  revert s Hn. induction n as [|n IH]; intros [|c s]; cbn; try done; try lia.
  intros Hn [Hc Hs]%andb_prop. destruct (Ascii.eqb c "\"); [|cbn; by rewrite Hc, IH by (done || lia)].
  destruct s as [|d s]; [cbn; by rewrite Hc|]. destruct (special d); cbn [sforall].
  - cbn in Hs, Hn. apply andb_prop in Hs as [Hd Hs]. rewrite Hd, IH by (done || lia). done.
  - rewrite Hc. apply IH; [lia|done].
Qed.

Lemma sforall_drop_last P s r : sforall P s = true → drop_last_quote s = Some r → sforall P r = true.
Proof.
  revert r. induction s as [|c s IH]; intros r; [done|]. cbn [sforall drop_last_quote]. intros [Hc Hs]%andb_prop.
  destruct s as [|d s]; [by destruct (Ascii.eqb c DQ); intros [= <-]|].
  destruct (drop_last_quote (String d s)) as [q|]; [|done]. intros [= <-]. cbn [sforall]. rewrite Hc.
  by apply IH.
Qed.

Lemma sforall_escape P s : P "\"%char = true → sforall P s = true → sforall P (escape s) = true.
Proof.
  intros Hb. induction s as [|c s IH]; [done|]. cbn. intros [Hc Hs]%andb_prop.
  destruct (special c); cbn; by rewrite ?Hb, Hc, IH.
Qed.

Definition no_semi (s : string) : bool := lacks ";" s.

(** A parameter [zc] keeps: a token in lower case, and a value without the
    separator. *)
Definition param_ok (p : string * string) : Prop :=
  Lc p.1 = true ∧ to_lower p.1 = p.1 ∧ no_semi p.2 = true.

Lemma Lc_token s : Lc s = true → sforall token_char s = true ∧ s ≠ "".
Proof. by destruct s. Qed.

Lemma token_lacks sep s : token_char sep = false → Lc s = true → lacks sep s = true.
Proof.
  intros Hsep [Hs _]%Lc_token. revert Hs. apply sforall_impl. intros c Hc. by apply token_not.
Qed.

Lemma token_trim s : Lc s = true → trim_space s = s.
Proof. intros [Hs _]%Lc_token. apply trim_space_none. revert Hs. apply sforall_impl, token_not_space. Qed.

Lemma unquoted_ok P r q : sforall P r = true → unquoted r = Some q → sforall P q = true.
Proof.
  destruct r as [|c r]; [done|]. cbn. intros [_ H]%andb_prop. destruct (Ascii.eqb c DQ); [|done].
  by apply sforall_drop_last.
Qed.

Lemma Fve_ok e n r : no_semi e = true → Fve e = Some (n, r) → param_ok (n, r).
Proof.
  intros He. unfold Fve. destruct (cut "=" e) as [[a b]|] eqn:Ec; [|done].
  destruct (sforall_cut _ _ _ _ _ He Ec) as [_ Hb].
  destruct (Lc (to_lower (trim_space a))) eqn:El; [|done]. cbn [negb].
  apply sforall_trim in Hb. destruct (trim_space b) as [|c b'] eqn:Eb; [done|]. rewrite <- Eb in *.
  intros [= <- <-]. split_and!; cbn [fst snd]; [done|apply to_lower_idemp|].
  destruct (unquoted (trim_space b)) as [q|] eqn:Eq; [|done].
  apply sforall_unescape. by apply (unquoted_ok _ _ _ Hb).
Qed.

Lemma map_set_keys n r s : (map_set n r s).*1 = (if bool_decide (n ∈ s.*1) then s.*1 else s.*1 ++ [n]).
Proof.
  induction s as [|[k v] s IH]; [done|]. cbn [map_set]. rewrite fmap_cons. cbn [fst].
  destruct (String.eqb_spec k n) as [->|Hne].
  - rewrite bool_decide_true by left. done.
  - rewrite fmap_cons, IH. cbn [fst]. destruct (decide (n ∈ s.*1)) as [Hin|Hin].
    + rewrite !bool_decide_true; [done|by right|done].
    + rewrite !bool_decide_false; [done| |done]. rewrite list_elem_of_In in *. cbn. intros [?|?]; [congruence|done].
Qed.

Lemma map_set_ok n r s : param_ok (n, r) → Forall param_ok s → Forall param_ok (map_set n r s).
Proof.
  intros Hp. induction 1 as [|[k v] s Hk Hs IH]; cbn; [constructor; [done|constructor]|].
  destruct (String.eqb_spec k n) as [->|]; constructor; done.
Qed.

Lemma map_set_fresh n r s : n ∉ s.*1 → map_set n r s = s ++ [(n, r)].
Proof.
  induction s as [|[k v] s IH]; [done|]. cbn [map_set]. rewrite fmap_cons. cbn [fst].
  intros [H1 H2]%not_elem_of_cons. destruct (String.eqb_spec k n) as [->|]; [done|]. by rewrite IH.
Qed.

Lemma map_set_NoDup n r s : NoDup s.*1 → NoDup (map_set n r s).*1.
Proof.
  intros H. rewrite map_set_keys. case_bool_decide as Hn; [done|].
  apply NoDup_app. split; [done|]. split; [|apply NoDup_singleton]. intros x Hx ->%list_elem_of_singleton. done.
Qed.

Lemma params_ok ps s : Forall (λ e, no_semi e = true) ps → Forall param_ok s → NoDup s.*1 →
  Forall param_ok (foldl add_param s ps) ∧ NoDup (foldl add_param s ps).*1.
Proof.
  intros H. revert s. induction H as [|e ps He _ IH]; intros s Hs Hd; [done|]. cbn. unfold add_param at 2 4.
  destruct (Fve e) as [[n r]|] eqn:E; [|by apply IH].
  apply IH; [apply map_set_ok; [by apply (Fve_ok e)|done]|by apply map_set_NoDup].
Qed.

Lemma split_on_pieces sep s : Forall (λ w, lacks sep w = true) (split_on sep s).
Proof.
  induction s as [|c s IH]; [constructor; [done|constructor]|]. cbn [split_on]. destruct (Ascii.eqb c sep) eqn:E; [by constructor|].
  destruct (split_on sep s) as [|w ws]; [constructor; [unfold lacks; cbn; by rewrite E|constructor]|].
  inversion IH as [|? ? Hw Hws]; subst. constructor; [|done]. unfold lacks in *. cbn. by rewrite E, Hw.
Qed.

Lemma trim_quoted s : trim_space (Pve s) = Pve s.
Proof.
  unfold trim_space, Pve. change (trim_left (String DQ (escape s +:+ String DQ ""))) with (String DQ (escape s +:+ String DQ "")).
  assert (∀ x, trim_right (x +:+ String DQ "") = x +:+ String DQ "") as H.
  { induction x as [|c x IH]; [done|]. change (String c x +:+ String DQ "") with (String c (x +:+ String DQ "")).
    cbn [trim_right]. rewrite IH. by destruct (x +:+ String DQ "") eqn:E; [destruct x|]. }
  apply (H (String DQ (escape s))).
Qed.

(** A parameter is written the way it is read. *)
Lemma Fve_param_text p : param_ok p → Fve (String " " (param_text p)) = Some p ∧ no_semi (String " " (param_text p)) = true.
Proof.
  destruct p as [k v]. intros (Hk & Hl & Hv). cbn [fst snd] in *.
  assert (∃ w, param_text (k, v) = k +:+ String "=" w ∧ no_semi w = true ∧ trim_space w = w ∧
    match w with "" => False | r => match unquoted r with Some q => unescape q | None => r end = v end) as (w & -> & Hw & Ht & Hr).
  { unfold param_text. cbn [fst snd]. destruct (Lc v) eqn:Ev.
    - exists v. split_and!; [done|done|by apply token_trim|]. apply Lc_token in Ev as [Hs Hne].
      destruct v as [|c v]; [done|]. cbn [unquoted]. cbn in Hs. apply andb_prop in Hs as [Hc _].
      pose proof (token_not c DQ Hc eq_refl) as Hq. apply negb_true_iff in Hq. by rewrite Hq.
    - exists (Pve v). split_and!; [done| |apply trim_quoted|].
      + unfold no_semi, lacks, Pve. cbn [sforall]. rewrite sforall_app.
        rewrite (sforall_escape _ v); [done|done|apply Hv].
      + rewrite unquoted_Pve. by rewrite unescape_escape. }
  split.
  - unfold Fve. change (String " " (k +:+ String "=" w)) with (String " " k +:+ String "=" w).
    rewrite cut_lacks by (unfold lacks; cbn [sforall]; by apply (token_lacks "=" k)).
    replace (trim_space (String " " k)) with k by (symmetry; by apply (token_trim k)). rewrite Hl, Hk, Ht. cbn [negb].
    destruct w as [|c w]; [done|]. by rewrite Hr.
  - unfold no_semi, lacks. cbn [sforall]. rewrite sforall_app. pose proof (token_lacks ";" k eq_refl Hk) as Hs.
    unfold lacks in Hs. rewrite Hs. exact Hw.
Qed.

Lemma split_params h ps : no_semi h = true → Forall param_ok ps → ps ≠ [] →
  split_on ";" (h +:+ "; " +:+ join "; " (param_text <$> ps)) = h :: ((λ p, String " " (param_text p)) <$> ps).
Proof.
  intros Hh Hps. revert h Hh. induction Hps as [|p ps Hp _ IH]; intros h Hh Hne; [done|clear Hne].
  rewrite !fmap_cons. change (h +:+ "; " +:+ join "; " (param_text p :: (param_text <$> ps)))
    with (h +:+ String ";" (String " " (join "; " (param_text p :: (param_text <$> ps))))).
  rewrite split_on_cons by done. f_equal. destruct (Fve_param_text p Hp) as [_ Hs].
  destruct ps as [|p' ps]; [cbn; by rewrite split_on_lacks|]. rewrite fmap_cons in *.
  change (String " " (join "; " (param_text p :: param_text p' :: (param_text <$> ps))))
    with (String " " (param_text p) +:+ "; " +:+ join "; " (param_text p' :: (param_text <$> ps))).
  by rewrite IH.
Qed.

Lemma add_params ps s : Forall param_ok ps → NoDup (s ++ ps).*1 →
  foldl add_param s ((λ p, String " " (param_text p)) <$> ps) = s ++ ps.
Proof.
  intros H. revert s. induction H as [|p ps Hp _ IH]; intros s Hd; [by rewrite app_nil_r|].
  rewrite fmap_cons. cbn [foldl]. unfold add_param at 2. destruct (Fve_param_text p Hp) as [-> _].
  destruct p as [k v]. rewrite map_set_fresh.
  - rewrite IH; rewrite <- app_assoc; done.
  - rewrite fmap_app, fmap_cons in Hd. apply NoDup_app in Hd as (_ & Hd & _). intros Hin. apply (Hd k Hin). left.
Qed.

Lemma Rc_ok e r i : Rc e = Some (r, i) → Lc r = true ∧ Lc i = true ∧ to_lower r = r ∧ to_lower i = i.
Proof.
  unfold Rc. destruct (match split_on "/" e with a :: b :: _ => (a, b) | [a] => (a, "") | [] => ("", "") end) as [t n].
  destruct (Lc (to_lower (trim_space t)) && Lc (to_lower (trim_space n))) eqn:E; [|done].
  apply andb_prop in E as [E1 E2]. intros [= <- <-]. by rewrite !to_lower_idemp.
Qed.

Lemma Rc_essence r i : Lc r = true → Lc i = true → to_lower r = r → to_lower i = i →
  Rc (r +:+ "/" +:+ i) = Some (r, i) ∧ no_semi (r +:+ "/" +:+ i) = true.
Proof.
  intros Hr Hi Hlr Hli. split.
  - unfold Rc. change (r +:+ "/" +:+ i) with (r +:+ String "/" i).
    rewrite split_on_cons, split_on_lacks by (by apply token_lacks). rewrite !token_trim by done.
    by rewrite Hlr, Hli, Hr, Hi.
  - unfold no_semi, lacks. rewrite !sforall_app. pose proof (token_lacks ";" r eq_refl Hr) as H1.
    pose proof (token_lacks ";" i eq_refl Hi) as H2. unfold lacks in H1, H2. by rewrite H1, H2.
Qed.

Lemma zc_ok e : Lc (m_type (zc e)) = true ∧ Lc (m_subtype (zc e)) = true ∧
  to_lower (m_type (zc e)) = m_type (zc e) ∧ to_lower (m_subtype (zc e)) = m_subtype (zc e) ∧
  Forall param_ok (m_params (zc e)) ∧ NoDup (m_params (zc e)).*1.
Proof.
  unfold zc. pose proof (split_on_pieces ";" (default "text/plain" e)) as Hp.
  set (pieces := split_on ";" (default "text/plain" e)) in *.
  assert (Forall param_ok (foldl add_param [] (tail pieces)) ∧ NoDup (foldl add_param [] (tail pieces)).*1) as [H1 H2].
  { apply params_ok; [by destruct Hp|constructor|constructor]. }
  destruct (Rc (default "" (head pieces))) as [[r i]|] eqn:E; cbn [default from_option id m_type m_subtype m_params].
  - destruct (Rc_ok _ _ _ E) as (? & ? & ? & ?). done.
  - done.
Qed.

(** A media type of lower-case tokens and distinct parameters is read back. *)
Lemma zc_toString r i ps : Lc r = true → Lc i = true → to_lower r = r → to_lower i = i → Forall param_ok ps → NoDup ps.*1 →
  zc (Some (toString (Media r i ps))) = Media r i ps.
Proof.
  intros Hr Hi Hlr Hli Hp Hd. destruct (Rc_essence r i Hr Hi Hlr Hli) as [HR Hs].
  unfold zc, toString. cbn [m_params default from_option id].
  destruct ps as [|p ps]; unfold essence; cbn [m_type m_subtype].
  - rewrite split_on_lacks by done. cbn [head default from_option id tail foldl]. by rewrite HR.
  - rewrite split_params by done. cbn [head tail default from_option id]. rewrite HR. cbn [from_option id].
    by rewrite (add_params (p :: ps) []).
Qed.

(** C21. A media type is written the way it is read: whatever the text, the
    media type [zc] makes of it, written with [toString] and read again, is the same
    type, subtype and parameters in the same order: names in lower case, values with
    quotes and backslashes, empty values and values in half a pair of quotes
    included. *)
Theorem media_type_roundtrip e : zc (Some (toString (zc e))) = zc e.
Proof.
  destruct (zc_ok e) as (Hr & Hi & Hlr & Hli & Hp & Hd). destruct (zc e) as [r i ps]. by apply zc_toString.
Qed.

(** A quoted value may not hold the separator, although the quotes are there
    for it: the boundary of this type is read as a quote and an a. *)
Lemma quoted_semicolon_is_cut :
  map_get "boundary" (m_params (zc (Some ("multipart/mixed; boundary=" +:+ Pve "a;b")))) = Some (String DQ "a").
Proof. reflexivity. Qed.

(** What is not a media type is plain text: a text whose first part is not
    two tokens around a slash gets type and subtype text/plain, and every result of
    [zc], from any text, has a type and subtype that are tokens in lower case and
    parameters with distinct names in lower case. *)
Theorem media_type_wf e :
  Lc (m_type (zc e)) = true ∧ Lc (m_subtype (zc e)) = true ∧
  to_lower (essence (zc e)) = essence (zc e) ∧ NoDup (m_params (zc e)).*1 ∧
  Forall (λ p, Lc p.1 = true ∧ to_lower p.1 = p.1) (m_params (zc e)) ∧
  (Rc (default "" (head (split_on ";" (default "text/plain" e)))) = None → essence (zc e) = "text/plain").
Proof.
  destruct (zc_ok e) as (Hr & Hi & Hlr & Hli & Hp & Hd). split_and!; [done..| |done| |].
  - unfold essence, to_lower in *. revert Hlr Hli. generalize (m_type (zc e)) (m_subtype (zc e)). intros a b Ha Hb.
    assert (∀ x y, smap lower_byte (x +:+ y) = smap lower_byte x +:+ smap lower_byte y) as H.
    { induction x as [|c x IH]; [done|]. intros y. change (String c x +:+ y) with (String c (x +:+ y)). cbn. by rewrite IH. }
    by rewrite !H, Ha, Hb.
  - apply (Forall_impl _ _ _ Hp). by intros p (? & ? & _).
  - intros H. unfold zc. by rewrite H.
Qed.

Example kc_small :
  Kc (Some "application/vnd.api+json-seq; x=1") = Some JsonSeq ∧ Kc (Some "Text/Event-Stream") = Some Sse ∧
  Tb (Some "application/problem+json; charset=utf-8") = true ∧ Tb None = false ∧ PH (Some "query") = "QUERY" ∧
  PH (Some "purge") = "purge" ∧ PH None = "GET".
Proof. repeat split. Qed.
