(* ===== verification/Shell.v ===== *)
(** * scalar.js: text for a shell

    [tW], [aW], [rW] quote the parts of a shell command; [sh_words] is how a POSIX
    shell splits a command into words (XCU 2.2, 2.3), for commands of literal words:
    safe characters, single quotes, backslashes, line continuations, and a parameter
    in double quotes. A character that could mean anything else outside quotes has no
    reading at all: what [sh_words] reads is one simple command and nothing more. *)
From S2P Require Import Prelude Css.
#[local] Open Scope list_scope.

(** ** Words *)

Inductive sh_mode : Type := Unquoted | Backslash | SingleQ | DoubleQ (name : string).

(** The words so far, and the one being read, if any. *)
Record sh_state : Type := Sh { sh_mode_of : sh_mode; sh_cur : option string; sh_done : list string }.

(** Characters that stand for themselves outside quotes; a tilde only inside a
    word. *)
Definition sh_safe (c : ascii) : bool :=
  byte_in 65 90 c || byte_in 97 122 c || byte_in 48 57 c ||
  existsb (Ascii.eqb c) ["."; "_"; ":"; "/"; "%"; "@"; "+"; ","; "="; "-"]%char.

Definition sh_push (st : sh_state) (m : sh_mode) (s : string) : sh_state :=
  Sh m (Some (default "" (sh_cur st) +:+ s)) (sh_done st).

Definition one (c : ascii) : string := String c "".

Definition sh_char (env : string → string) (st : sh_state) (c : ascii) : option sh_state :=
  match sh_mode_of st with
  | Unquoted =>
      if Ascii.eqb c " " then
        Some (match sh_cur st with Some w => Sh Unquoted None (sh_done st ++ [w]) | None => st end)
      else if Ascii.eqb c "'" then Some (sh_push st SingleQ "")
      else if Ascii.eqb c "034" then Some (sh_push st (DoubleQ "") "")
      else if Ascii.eqb c "\" then Some (Sh Backslash (sh_cur st) (sh_done st))
      else if sh_safe c || (Ascii.eqb c "~" && match sh_cur st with Some _ => true | None => false end)
      then Some (sh_push st Unquoted (one c))
      else None
  | Backslash =>
      if Ascii.eqb c "010" then Some (Sh Unquoted (sh_cur st) (sh_done st))
      else Some (sh_push st Unquoted (one c))
  | SingleQ => Some (if Ascii.eqb c "'" then Sh Unquoted (sh_cur st) (sh_done st) else sh_push st SingleQ (one c))
  | DoubleQ name =>
      if Ascii.eqb c "034" then
        match name with
        | String "$" n => Some (sh_push st Unquoted (env n))
        | _ => None
        end
      else Some (Sh (DoubleQ (name +:+ one c)) (sh_cur st) (sh_done st))
  end.

Fixpoint sh_run (env : string → string) (st : sh_state) (s : string) : option sh_state :=
  match s with
  | "" => Some st
  | String c s' => match sh_char env st c with Some st' => sh_run env st' s' | None => None end
  end.

Definition sh_start (ws : list string) : sh_state := Sh Unquoted None ws.

(** The words of a command; [None]: not a command of literal words. *)
Definition sh_words (env : string → string) (s : string) : option (list string) :=
  match sh_run env (sh_start []) s with
  | Some (Sh Unquoted None ws) => Some ws
  | Some (Sh Unquoted (Some w) ws) => Some (ws ++ [w])
  | _ => None
  end.

(** ** What the bundle writes *)

(** tW: [e.replace(/'/g, `'\\''`)] *)
Fixpoint tW (e : string) : string :=
  match e with
  | "" => ""
  | String c e' => if Ascii.eqb c "'" then "'\''" +:+ tW e' else String c (tW e')
  end.

Definition single (s : string) : string := "'" +:+ tW s +:+ "'".

(** [e.split(t)] for a separator that is not empty; [fuel]: the length of [e]. *)
Fixpoint split_str (fuel : nat) (t e : string) : list string :=
  match fuel with
  | O => [e]
  | S f => match cut t e with Some (a, b) => a :: split_str f t b | None => [e] end
  end.

Definition js_split (t e : string) : list string := split_str (String.length e) t e.

(** [(t ? e.split(t) : [e])]: undefined and the empty string are false *)
Definition pieces (e : string) (t : option string) : list string :=
  match t with None | Some "" => [e] | Some b => js_split b e end.

Definition boundary_ref : string := template ["`$boundary`"].

(** aW *)
Definition aW (e : string) (t : option string) : string := String.concat boundary_ref (single <$> pieces e t).

(** iW: the command that draws a boundary *)
Definition iW : string :=
  "boundary=scalar-$(od -An -N16 -tx1 /dev/urandom | tr -d '[:space:]')" +:+ newline.

(** A part of a request body: text, or the contents of a file. *)
Inductive body_part : Type := PText (text : string) | PFile (file : string).

Definition octal_digit (n : nat) : ascii := ascii_of_nat (48 + n).

(** The escape of a control character for printf's %b: a backslash, a 0 and three
    octal digits. *)
Definition octal_escape (n : nat) : string :=
  String "\" (String "0" (String (octal_digit (n / 64)) (String (octal_digit (n / 8 mod 8)) (one (octal_digit (n mod 8)))))).

Fixpoint printf_escape (s : string) : string :=
  match s with
  | "" => ""
  | String c s' =>
      (if Ascii.eqb c "\" then "\\"
       else if Nat.ltb (nat_of_ascii c) 32 then octal_escape (nat_of_ascii c)
       else one c) +:+ printf_escape s'
  end.

Definition part_lines (t : option string) (p : body_part) : string :=
  match p with
  | PFile f => "  cat -- '" +:+ tW f +:+ "'"
  | PText s => String.concat (newline +:+ "  printf '%s' " +:+ boundary_ref +:+ newline)
                 ((λ x, "  printf '%b' '" +:+ tW (printf_escape x) +:+ "'") <$> pieces s t)
  end.

(** rW: the commands that write a body *)
Definition rW (e : list body_part) (t : option string) : string :=
  String.concat newline ("{" :: ((part_lines t <$> e) ++ ["}"])).

(** ** Reading it back *)

Lemma sh_run_app env st a b :
  sh_run env st (a +:+ b) = match sh_run env st a with Some st' => sh_run env st' b | None => None end.
Proof.
  revert st. induction a as [|c a IH]; intros st; [done|].
  change (String c a +:+ b) with (String c (a +:+ b)). cbn [sh_run]. destruct (sh_char env st c); [apply IH|done].
Qed.

Lemma sapp_one a c b : (a +:+ one c) +:+ b = a +:+ String c b.
Proof. by rewrite sapp_assoc. Qed.

(** Inside single quotes [tW] is every text itself. *)
Lemma sh_tW env w ws s : sh_run env (Sh SingleQ (Some w) ws) (tW s) = Some (Sh SingleQ (Some (w +:+ s)) ws).
Proof.
  revert w. induction s as [|c s IH]; intros w; [by rewrite sapp_nil_r|]. cbn [tW].
  destruct (Ascii.eqb_spec c "'") as [->|Hc].
  - rewrite sh_run_app.
    replace (sh_run env (Sh SingleQ (Some w) ws) "'\''") with (Some (Sh SingleQ (Some ((w +:+ one "'") +:+ "")) ws))
      by reflexivity.
    by rewrite IH, sapp_nil_r, sapp_one.
  - cbn [sh_run]. unfold sh_char. cbn [sh_mode_of]. destruct (Ascii.eqb_spec c "'"); [done|].
    unfold sh_push. cbn [sh_cur sh_done default from_option id]. by rewrite IH, sapp_one.
Qed.

(** A single-quoted text is added to the word as it is. *)
Lemma sh_single env st s : sh_mode_of st = Unquoted →
  sh_run env st (single s) = Some (sh_push st Unquoted s).
Proof.
  intros Hm. unfold single. rewrite sh_run_app.
  replace (sh_run env st "'") with (Some (sh_push st SingleQ "")).
  2:{ cbn. unfold sh_char. by rewrite Hm. }
  unfold sh_push at 1. rewrite sapp_nil_r, sh_run_app, sh_tW. reflexivity.
Qed.

Lemma sh_double env n name cur ws : sforall (λ c, negb (Ascii.eqb c "034")) name = true →
  sh_run env (Sh (DoubleQ n) cur ws) name = Some (Sh (DoubleQ (n +:+ name)) cur ws).
Proof.
  revert n. induction name as [|c name IH]; intros n; [by rewrite sapp_nil_r|].
  cbn [sforall]. intros [Hc Hn]%andb_prop. cbn [sh_run]. unfold sh_char. cbn [sh_mode_of].
  apply negb_true_iff in Hc. rewrite Hc. cbn [sh_cur sh_done]. by rewrite (IH _ Hn), sapp_one.
Qed.

(** A parameter in double quotes *)
Definition param_ref (name : string) : string := String "034" ("$" +:+ name +:+ String "034" "").

Lemma sh_param env st name : sh_mode_of st = Unquoted → sforall (λ c, negb (Ascii.eqb c "034")) name = true →
  sh_run env st (param_ref name) = Some (sh_push (sh_push st Unquoted "") Unquoted (env name)).
Proof.
  intros Hm Hn. destruct st as [m cur ws]. cbn in Hm. subst m. unfold param_ref.
  change (String "034" ("$" +:+ name +:+ String "034" "")) with (String "034" "" +:+ "$" +:+ name +:+ String "034" "").
  rewrite sh_run_app.
  change (sh_run env (Sh Unquoted cur ws) (String "034" ""))
    with (Some (Sh (DoubleQ "") (Some (default "" cur +:+ "")) ws)).
  cbv iota. rewrite (sh_run_app env _ "$").
  change (sh_run env (Sh (DoubleQ "") (Some (default "" cur +:+ "")) ws) "$")
    with (Some (Sh (DoubleQ "$") (Some (default "" cur +:+ "")) ws)). cbv iota.
  rewrite sh_run_app, sh_double by done. reflexivity.
Qed.

Lemma sh_boundary env st : sh_mode_of st = Unquoted →
  sh_run env st boundary_ref = Some (sh_push (sh_push st Unquoted "") Unquoted (env "boundary")).
Proof. intros Hm. by apply (sh_param env st "boundary"). Qed.

Lemma sh_push_push st s t : sh_push (sh_push st Unquoted s) Unquoted t = sh_push st Unquoted (s +:+ t).
Proof. unfold sh_push. cbn. by rewrite sapp_assoc. Qed.

Lemma sh_quoted env ps st : ps ≠ [] → sh_mode_of st = Unquoted →
  sh_run env st (String.concat boundary_ref (single <$> ps)) =
    Some (sh_push st Unquoted (String.concat (env "boundary") ps)).
Proof.
  revert st. induction ps as [|p ps IH]; intros st; [done|]. intros _ Hm.
  destruct ps as [|p' ps]; [apply (sh_single env st p Hm)|].
  rewrite !fmap_cons, concat_cons, <- fmap_cons, sh_run_app, sh_single by done.
  rewrite sh_run_app, sh_boundary by done. rewrite IH by done. rewrite !sh_push_push, concat_cons. done.
Qed.

(** [aW] is one word: the text, with the shell's boundary for the text's. *)
Lemma sh_aW env e t st : sh_mode_of st = Unquoted →
  sh_run env st (aW e t) = Some (sh_push st Unquoted (String.concat (env "boundary") (pieces e t))).
Proof.
  intros Hm. unfold aW. apply sh_quoted; [|done].
  unfold pieces, js_split. destruct t as [[|c b]|]; [done| |done].
  destruct (String.length e); [done|]. cbn. by destruct (cut (String c b) e) as [[? ?]|].
Qed.

(** ** Commands made of pieces *)

(** A piece of a command that reads as the words [args]. *)
Definition yields (env : string → string) (p : string) (args : list string) : Prop :=
  ∀ ws, ∃ w ws', sh_run env (sh_start ws) p = Some (Sh Unquoted (Some w) ws') ∧ ws' ++ [w] = ws ++ args.

(** Pieces are joined over lines. *)
Definition continued : string := " \" +:+ newline +:+ "  ".

Lemma yields_join env ps argss : Forall2 (yields env) ps argss → ∀ ws, ps ≠ [] →
  ∃ w ws', sh_run env (sh_start ws) (String.concat continued ps) = Some (Sh Unquoted (Some w) ws') ∧
    ws' ++ [w] = ws ++ mjoin argss.
Proof.
  induction 1 as [|p args ps argss Hp Hps IH]; intros ws; [done|]. intros _.
  destruct (Hp ws) as (w & ws' & Hr & Hw). destruct Hps as [|p' args' ps argss Hp' Hps].
  - exists w, ws'. split; [exact Hr|]. rewrite Hw. cbn. by rewrite app_nil_r.
  - rewrite concat_cons, sh_run_app, Hr, sh_run_app.
    replace (sh_run env (Sh Unquoted (Some w) ws') continued) with (Some (sh_start (ws' ++ [w]))) by reflexivity.
    destruct (IH (ws' ++ [w]) ltac:(done)) as (w2 & ws2 & Hr2 & Hw2). exists w2, ws2. split; [exact Hr2|].
    rewrite Hw2, Hw. cbn. by rewrite <- app_assoc.
Qed.

Lemma yields_words env ps argss : Forall2 (yields env) ps argss → ps ≠ [] →
  sh_words env (String.concat continued ps) = Some (mjoin argss).
Proof.
  intros H Hps. destruct (yields_join env ps argss H [] Hps) as (w & ws & Hr & Hw).
  unfold sh_words. rewrite Hr. by rewrite Hw.
Qed.

(** Safe text is a word. *)
Definition safe_word (s : string) : bool := match s with "" => false | _ => sforall sh_safe s end.

Lemma safe_not_special c : sh_safe c = true →
  Ascii.eqb c " " = false ∧ Ascii.eqb c "'" = false ∧ Ascii.eqb c "034" = false ∧ Ascii.eqb c "\" = false.
Proof. destruct c as [[] [] [] [] [] [] [] []]; vm_compute; intuition congruence. Qed.

Lemma sh_safe_run env st s : sh_mode_of st = Unquoted → sforall sh_safe s = true → s ≠ "" →
  sh_run env st s = Some (sh_push st Unquoted s).
Proof.
  revert st. induction s as [|c s IH]; intros st Hm; [done|]. cbn [sforall]. intros [Hc Hs]%andb_prop _.
  destruct (safe_not_special c Hc) as (E1 & E2 & E3 & E4). cbn [sh_run]. unfold sh_char.
  rewrite Hm, E1, E2, E3, E4, Hc. cbn [orb]. destruct s as [|d s]; [done|].
  rewrite IH by (done || by cbn). by rewrite sh_push_push.
Qed.

(** A text the code pastes as it is: safe characters, and tildes after the
    first one. *)
Definition tilde_safe (c : ascii) : bool := sh_safe c || Ascii.eqb c "~".

Lemma sh_tilde_run env m w ws s : m = Unquoted → sforall tilde_safe s = true →
  sh_run env (Sh m (Some w) ws) s = Some (Sh Unquoted (Some (w +:+ s)) ws).
Proof.
  intros ->. revert w. induction s as [|c s IH]; intros w; [by rewrite sapp_nil_r|]. cbn [sforall].
  intros [Hc Hs]%andb_prop. cbn [sh_run]. unfold sh_char. cbn [sh_mode_of sh_cur].
  unfold tilde_safe in Hc. destruct (Ascii.eqb_spec c "~") as [->|_].
  - change (sh_run env (Sh Unquoted (Some (w +:+ one "~")) ws) s = Some (Sh Unquoted (Some (w +:+ String "~" s)) ws)).
    by rewrite (IH _ Hs), sapp_one.
  - rewrite orb_false_r in Hc. destruct (safe_not_special c Hc) as (E1 & E2 & E3 & E4).
    rewrite E1, E2, E3, E4, Hc. cbn [orb]. unfold sh_push. cbn [sh_cur sh_done default from_option id].
    by rewrite (IH _ Hs), sapp_one.
Qed.

(** An option and a value. *)
Lemma yields_option env opt v r : safe_word opt = true →
  (∀ st, sh_mode_of st = Unquoted → sh_run env st v = Some (sh_push st Unquoted r)) →
  yields env (opt +:+ " " +:+ v) [opt; r].
Proof.
  intros Ho Hv ws. rewrite sh_run_app. destruct opt as [|c opt]; [done|].
  rewrite (sh_safe_run env (sh_start ws)) by done.
  rewrite sh_run_app. replace (sh_run env (sh_push (sh_start ws) Unquoted (String c opt)) " ")
    with (Some (sh_start (ws ++ [String c opt]))) by reflexivity.
  rewrite Hv by done. eexists _, _. split; [reflexivity|]. cbn. by rewrite <- app_assoc.
Qed.

Lemma yields_flag env opt : safe_word opt = true → yields env opt [opt].
Proof.
  intros Ho ws. destruct opt as [|c opt]; [done|]. rewrite (sh_safe_run env (sh_start ws)) by done.
  eexists _, _. split; [reflexivity|]. done.
Qed.

(** ** Splitting puts nothing in and takes nothing out *)

Lemma split_str_concat f t e : String.concat t (split_str f t e) = e.
Proof.
  revert e. induction f as [|f IH]; intros e; [done|]. cbn [split_str].
  destruct (cut t e) as [[a b]|] eqn:E; [|done]. apply cut_Some in E as ->. specialize (IH b).
  destruct (split_str f t b) as [|x xs] eqn:Es; [by destruct f; cbn in Es; [|destruct (cut t b) as [[? ?]|]]|].
  by rewrite concat_cons, IH.
Qed.

Lemma pieces_concat e t : String.concat (default "" t) (pieces e t) = e.
Proof. unfold pieces. destruct t as [[|c t]|]; [done| |done]. apply split_str_concat. Qed.

(** ** printf *)

Definition octal_value (c : ascii) : option nat :=
  if byte_in 48 55 c then Some (nat_of_ascii c - 48)%nat else None.

(** What printf's %b makes of its argument (the escapes the code writes). *)
Fixpoint printf_b (s : string) : string :=
  match s with
  | "" => ""
  | String c s' =>
      if Ascii.eqb c "\" then
        match s' with
        | String "\" r => one "\" +:+ printf_b r
        | String "0" (String x (String y (String z r))) =>
            match octal_value x, octal_value y, octal_value z with
            | Some x, Some y, Some z => one (ascii_of_nat (64 * x + 8 * y + z)) +:+ printf_b r
            | _, _, _ => String c (printf_b s')
            end
        | _ => String c (printf_b s')
        end
      else String c (printf_b s')
  end.

Lemma printf_b_char c r :
  printf_b ((if Ascii.eqb c "\" then "\\"
             else if Nat.ltb (nat_of_ascii c) 32 then octal_escape (nat_of_ascii c) else one c) +:+ r) =
  String c (printf_b r).
Proof. destruct c as [[] [] [] [] [] [] [] []]; reflexivity. Qed.

Lemma printf_b_escape s : printf_b (printf_escape s) = s.
Proof. induction s as [|c s IH]; [done|]. cbn [printf_escape]. by rewrite printf_b_char, IH. Qed.

(** The commands a body is written with, one per line. *)
Fixpoint between {A} (sep : A) (l : list A) : list A :=
  match l with [] => [] | [x] => [x] | x :: l' => x :: sep :: between sep l' end.

Definition part_commands (t : option string) (p : body_part) : list string :=
  match p with
  | PFile f => ["  cat -- '" +:+ tW f +:+ "'"]
  | PText s => between ("  printf '%s' " +:+ boundary_ref)
                 ((λ x, "  printf '%b' '" +:+ tW (printf_escape x) +:+ "'") <$> pieces s t)
  end.

(** What a command writes to its standard output. *)
Definition command_output (files : string → string) (words : list string) : option string :=
  match words with
  | ["printf"; "%b"; x] => Some (printf_b x)
  | ["printf"; "%s"; x] => Some x
  | ["cat"; "--"; f] => Some (files f)
  | _ => None
  end.

Definition part_content (env files : string → string) (t : option string) (p : body_part) : string :=
  match p with PFile f => files f | PText s => String.concat (env "boundary") (pieces s t) end.

Definition script_output (env files : string → string) (cmds : list string) : option string :=
  option_map (String.concat "") (mapM (λ c, match sh_words env c with Some ws => command_output files ws | None => None end) cmds).

Lemma words_of env a v b r : sh_run env (sh_start []) a = Some (sh_start b) →
  (∀ st, sh_mode_of st = Unquoted → sh_run env st v = Some (sh_push st Unquoted r)) →
  sh_words env (a +:+ v) = Some (b ++ [r]).
Proof. intros Ha Hv. unfold sh_words. rewrite sh_run_app, Ha, Hv by done. done. Qed.

Lemma part_lines_commands t p : part_lines t p = String.concat newline (part_commands t p).
Proof.
  destruct p as [s|f]; [|done]. cbn [part_lines part_commands].
  generalize ((λ x, "  printf '%b' '" +:+ tW (printf_escape x) +:+ "'") <$> pieces s t). intros l.
  induction l as [|x l IH]; [done|]. destruct l as [|y l]; [done|].
  change (between ("  printf '%s' " +:+ boundary_ref) (x :: y :: l)) with
    (x :: ("  printf '%s' " +:+ boundary_ref) :: between ("  printf '%s' " +:+ boundary_ref) (y :: l)).
  rewrite concat_cons, IH.
  destruct (between ("  printf '%s' " +:+ boundary_ref) (y :: l)) as [|z zs] eqn:E; [by destruct l|].
  rewrite !concat_cons. by rewrite !sapp_assoc.
Qed.

Lemma printf_words env x : sh_words env ("  printf '%b' '" +:+ tW (printf_escape x) +:+ "'") = Some ["printf"; "%b"; printf_escape x].
Proof.
  change ("  printf '%b' '" +:+ tW (printf_escape x) +:+ "'") with ("  printf '%b' " +:+ single (printf_escape x)).
  apply (words_of env _ _ ["printf"; "%b"]); [reflexivity|]. intros st. apply sh_single.
Qed.

Lemma concat_empty_sep a l : String.concat "" (a :: l) = a +:+ String.concat "" l.
Proof. destruct l; [cbn; by rewrite sapp_nil_r|done]. Qed.

Lemma script_text env files ps :
  ps ≠ [] →
  script_output env files (between ("  printf '%s' " +:+ boundary_ref)
    ((λ x, "  printf '%b' '" +:+ tW (printf_escape x) +:+ "'") <$> ps)) = Some (String.concat (env "boundary") ps).
Proof.
  unfold script_output. induction ps as [|p ps IH]; [done|]. intros _.
  destruct ps as [|p' ps].
  - cbn [fmap list_fmap between mapM option_map]. cbn. rewrite printf_words. cbn. by rewrite printf_b_escape.
  - specialize (IH ltac:(done)). rewrite (concat_cons (env "boundary")).
    remember (String.concat (env "boundary") (p' :: ps)) as rest eqn:Er. clear Er.
    rewrite !fmap_cons in *. cbn [between]. cbn [mapM]. rewrite printf_words.
    cbn [command_output mbind option_bind]. cbn [between] in IH.
    destruct (mapM _ _) as [outs|] eqn:E in IH; [|done]. cbn [option_map] in IH. injection IH as IH.
    replace (sh_words env ("  printf '%s' " +:+ boundary_ref)) with (Some ["printf"; "%s"; env "boundary"]).
    2:{ symmetry. exact (words_of env "  printf '%s' " boundary_ref ["printf"; "%s"] (env "boundary") eq_refl
          (λ st Hst, eq_trans (sh_boundary env st Hst) (f_equal Some (sh_push_push st "" (env "boundary"))))). }
    cbn [command_output mbind option_bind]. rewrite E. cbn [mbind option_bind mret option_ret option_map].
    rewrite printf_b_escape. f_equal. rewrite <- IH.
    by rewrite !concat_empty_sep.
Qed.

(** What the shell writes is the body: each line of a part of a request
    body is one command of literal words (printf or cat), whatever quotes, backslashes,
    control characters or boundaries the text or the file name holds, and run in order
    the commands write the part: the text with the shell's boundary in the places of the
    text's, or the contents of the file. *)
Theorem body_commands_write_the_body env files t p :
  part_lines t p = String.concat newline (part_commands t p) ∧
  script_output env files (part_commands t p) = Some (part_content env files t p).
Proof.
  split; [apply part_lines_commands|]. destruct p as [s|f].
  - apply script_text. unfold pieces, js_split. destruct t as [[|c b]|]; [done| |done].
    destruct (String.length s); [done|]. cbn. by destruct (cut (String c b) s) as [[? ?]|].
  - unfold script_output. cbn [part_commands mapM].
    change ("  cat -- '" +:+ tW f +:+ "'") with ("  cat -- " +:+ single f).
    rewrite (words_of env "  cat -- " (single f) ["cat"; "--"] f eq_refl (λ st, sh_single env st f)). cbn.
    reflexivity.
Qed.
