(* ===== verification/Snippets.v ===== *)
(** * scalar.js: code samples for a shell (curl, wget)

    [tLt_generate] and [sLt_generate] write the command that sends a request, [rU] and
    [FPt] a multipart body with a boundary of their own. Strings are UTF-8 texts.
    JSON.stringify(JSON.parse(x), null, 2) is a parameter, [reformat] ([None] when
    the parse throws). The URL field of [rU], which these two targets do not use, and
    its Authorization header, for which they pass no credentials, are left out. *)
From S2P Require Import Prelude Css Mime Shell.
#[local] Open Scope list_scope.

(** ** Requests (HAR) *)

Record pair : Type := Pair { p_name : string; p_value : string }.

Record param : Type := Param {
  pa_name : string; pa_value : option string; pa_fileName : option string; pa_contentType : option string }.

Record post_data : Type := Post { mimeType : string; text : option string; params : option (list param) }.

(** Absent lists are empty: the code only asks for their length. *)
Record request : Type := Request {
  url : option string; method : option string; headers : list pair; queryString : list pair;
  cookies : list pair; postData : option post_data }.

Record credentials : Type := Credentials { username : string; password : string }.

(** ** JS *)

Definition truthy (s : option string) : bool := match s with None | Some "" => false | _ => true end.

Fixpoint includes (p s : string) : bool :=
  match strip_prefix p s with
  | Some _ => true
  | None => match s with "" => false | String _ s' => includes p s' end
  end.

(** Some character of the text is in the class. *)
Fixpoint has_char (cls : list ascii) (s : string) : bool :=
  match s with "" => false | String c s' => existsb (Ascii.eqb c) cls || has_char cls s' end.

Definition upper_hex (n : nat) : ascii := ascii_of_nat (if Nat.ltb n 10 then 48 + n else 55 + n).

Definition uri_unreserved (c : ascii) : bool :=
  byte_in 65 90 c || byte_in 97 122 c || byte_in 48 57 c ||
  existsb (Ascii.eqb c) ["-"; "_"; "."; "!"; "~"; "*"; "'"; "("; ")"]%char.

Fixpoint encodeURIComponent (s : string) : string :=
  match s with
  | "" => ""
  | String c s' =>
      (if uri_unreserved c then one c
       else String "%" (String (upper_hex (nat_of_ascii c / 16)) (one (upper_hex (nat_of_ascii c mod 16)))))
      +:+ encodeURIComponent s'
  end.

(** JSON.stringify of a string *)
Definition json_char (c : ascii) : string :=
  if Ascii.eqb c "034" then String "\" (one c)
  else if Ascii.eqb c "\" then "\\"
  else if Ascii.eqb c "008" then "\b"
  else if Ascii.eqb c "009" then "\t"
  else if Ascii.eqb c "010" then "\n"
  else if Ascii.eqb c "012" then "\f"
  else if Ascii.eqb c "013" then "\r"
  else if Nat.ltb (nat_of_ascii c) 32 then
    "\u00" +:+ String (lower_byte (upper_hex (nat_of_ascii c / 16))) (one (lower_byte (upper_hex (nat_of_ascii c mod 16))))
  else one c.

Fixpoint flat_map_s (f : ascii → string) (s : string) : string :=
  match s with "" => "" | String c s' => f c +:+ flat_map_s f s' end.

Definition quote_char : string := String "034" "".
Definition json_string (s : string) : string := quote_char +:+ flat_map_s json_char s +:+ quote_char.

Definition json_field (k : string) (v : option string) : list string :=
  match v with Some v => [json_string k +:+ ":" +:+ json_string v] | None => [] end.

(** JSON.stringify of the parameters of a form *)
Definition json_param (p : param) : string :=
  "{" +:+ String.concat "," (json_field "name" (Some (pa_name p)) ++ json_field "value" (pa_value p) ++
    json_field "fileName" (pa_fileName p) ++ json_field "contentType" (pa_contentType p)) +:+ "}".

Definition json_params (ps : list param) : string := "[" +:+ String.concat "," (json_param <$> ps) +:+ "]".

(** ** Multipart bodies *)

Definition crlf : string := String "013" (String "010" "").

(** nU *)
Definition nU (e : string) : string :=
  flat_map_s (λ c, if Ascii.eqb c "013" then "%0D" else if Ascii.eqb c "010" then "%0A"
                   else if Ascii.eqb c "034" then "%22" else one c) e.

(** [for (; t.includes(n); ) n += "-"] *)
Fixpoint free_boundary (fuel : nat) (t n : string) : option string :=
  match fuel with
  | O => None
  | S f => if includes n t then free_boundary f t (n +:+ "-") else Some n
  end.

Definition part_head (n : string) (p : param) : string :=
  let e := match pa_fileName p with None => "" | Some f => "; filename=" +:+ quote_char +:+ nU f +:+ quote_char end in
  let i := match pa_contentType p, pa_fileName p with
           | Some c, _ => Some c | None, None => None | None, Some _ => Some "application/octet-stream" end in
  "--" +:+ n +:+ crlf +:+ "Content-Disposition: form-data; name=" +:+ quote_char +:+ nU (pa_name p) +:+ quote_char +:+
  e +:+ crlf +:+ (match i with None | Some "" => "" | Some c => "Content-Type: " +:+ c +:+ crlf end) +:+ crlf.

Definition form_part (n : string) (p : param) : list body_part :=
  [PText (part_head n p);
   match pa_fileName p with None => PText (default "" (pa_value p)) | Some f => PFile f end;
   PText crlf].

Record multipart : Type := Multi { contentType : string; body : list body_part }.

Definition form_body (n : string) (ps : list param) : multipart :=
  Multi ("multipart/form-data; boundary=" +:+ n) (mjoin (form_part n <$> ps) ++ [PText ("--" +:+ n +:+ "--" +:+ crlf)]).

(** FPt; [None]: the loop ran out of fuel, which it does not
    ([boundary_is_free]). *)
Definition FPt (ps : list param) : option multipart :=
  let t := json_params ps in
  option_map (λ n, form_body n ps) (free_boundary (S (String.length t)) t "scalar-boundary").

Definition cookie_text (cs : list pair) : string :=
  String.concat "; " ((λ c, encodeURIComponent (p_name c) +:+ "=" +:+ encodeURIComponent (p_value c)) <$> cs).

(** LH([], cookies) *)
Definition cookie_header (cs : list pair) : list pair :=
  match cs with [] => [] | _ => [Pair "Cookie" (cookie_text cs)] end.

Definition is_content_type (h : pair) : bool := String.eqb (to_lower (p_name h)) "content-type".

Record raw_request : Type := Raw { raw_headers : list pair; raw_body : list body_part }.

(** rU of a multipart request with its parameters *)
Definition rU (e : request) (ps : list param) : option raw_request :=
  match FPt ps with
  | None => None
  | Some i =>
      let n := headers e ++ cookie_header (cookies e) in
      let s := List.filter (λ h, negb (is_content_type h)) n in
      Some (Raw (s ++ [Pair "Content-Type" (contentType i)]) (body i))
  end.

Definition is_file (p : body_part) : bool := match p with PFile _ => true | PText _ => false end.

(** iU: the boundary in the Content-Type header of a body with files *)
Definition iU (e : option raw_request) : option string :=
  match e with
  | None => None
  | Some r =>
      if existsb is_file (raw_body r) then
        match List.find is_content_type (raw_headers r) with
        | Some h => js_split "boundary=" (p_value h) !! 1%nat
        | None => None
        end
      else None
  end.

(** ** curl *)

Definition query_text (qs : list pair) : string :=
  String.concat "&" ((λ q, p_name q +:+ "=" +:+ p_value q) <$> qs).

Definition full_url (e : request) : string :=
  let i := default "" (url e) in
  i +:+ (match queryString e with
         | [] => ""
         | qs => (if includes "?" i then "&" else "?") +:+ query_text qs
         end).

(** [/^[A-Za-z0-9._~:/%@+,=-]*$/] *)
Definition bare_url (o : string) : bool := sforall tilde_safe o.

(** The part of the URL from its first question mark on. *)
Definition query_part (o : string) : string :=
  match cut "?" o with Some (_, r) => "?" +:+ r | None => "" end.

(** A parameter curl's own form options cannot carry. *)
Definition needs_raw (p : param) : bool :=
  has_char [";"; "="; "034"; ","; "013"; "010"]%char (pa_name p) ||
  match pa_fileName p with
  | None =>
      truthy (pa_contentType p) &&
      (match default "" (pa_value p) with
       | String c _ => existsb (Ascii.eqb c) ["@"; "<"; "034"]%char
       | "" => false
       end || has_char [";"%char] (default "" (pa_value p)))
  | Some f => has_char [";"; ","; "034"; "\"; "013"; "010"]%char f
  end.

(** The raw form of a request, when it has to be used. *)
Definition raw_form (e : request) : option raw_request :=
  match postData e with
  | Some d =>
      if String.eqb (mimeType d) "multipart/form-data" then
        match params d with
        | Some ps => if existsb needs_raw ps then rU e ps else None
        | None => None
        end
      else None
  | None => None
  end.

Section Generate.
Variable reformat : string → option string.

Definition quoted_option (opt v : string) : string := opt +:+ " '" +:+ tW v +:+ "'".

(** [try { reformat } catch { e }] *)
Definition pretty (e : string) : string := default e (reformat e).

Definition form_option (p : param) : string :=
  let t := tW (pa_name p) in
  let n := if truthy (pa_contentType p) then ";type=" +:+ default "" (pa_contentType p) else "" in
  match pa_fileName p with
  | Some f => "--form '" +:+ t +:+ "=@" +:+ tW (f +:+ n) +:+ "'"
  | None =>
      let i := default "" (pa_value p) in
      let o := if Tb (pa_contentType p) && truthy (Some i) then pretty i else i in
      let s := tW (o +:+ n) in
      if negb (truthy (pa_contentType p)) && (has_prefix "@" o || has_prefix "<" o || has_char [";"%char] o)
      then "--form-string '" +:+ t +:+ "=" +:+ tW o +:+ "'"
      else "--form '" +:+ t +:+ "=" +:+ s +:+ "'"
  end.

Definition data_options (l : bool) (d : post_data) : list string :=
  if Tb (Some (mimeType d)) then
    match text d with
    | None | Some "" => []
    | Some t => [quoted_option "--data" (pretty t)]
    end
  else if qc (Some (mimeType d)) then [quoted_option "--data-binary" (default "" (text d))]
  else if String.eqb (mimeType d) "application/octet-stream" then [quoted_option "--data-binary" (default "" (text d))]
  else
    match String.eqb (mimeType d) "application/x-www-form-urlencoded", String.eqb (mimeType d) "multipart/form-data", params d with
    | true, _, Some ps =>
        (λ p, "--data-urlencode '" +:+ tW (encodeURIComponent (pa_name p)) +:+ "=" +:+ tW (default "" (pa_value p)) +:+ "'") <$> ps
    | _, true, Some ps => if l then ["--data-binary @-"] else form_option <$> ps
    | _, _, _ => [quoted_option "--data" (pretty (default "" (text d)))]
    end.

Definition auth_given (t : option credentials) : option (string * string) :=
  match t with
  | Some c => if truthy (Some (username c)) && truthy (Some (password c)) then Some (username c, password c) else None
  | None => None
  end.

Definition header_boundary (u : option string) (h : pair) : option string :=
  if is_content_type h then u else None.

Definition compressed (d : list pair) : bool :=
  match List.find (λ h, String.eqb (to_lower (p_name h)) "accept-encoding") d with
  | Some h => includes "gzip" (p_value h) || includes "deflate" (p_value h)
  | None => false
  end.

(** r: the pieces of the command *)
Definition curl_pieces (e : request) (t : option credentials) : list string :=
  let m := PH (method e) in
  let o := full_url e in
  let l := raw_form e in
  let u := iU l in
  let d := match l with Some r => raw_headers r | None => headers e end in
  ["curl " +:+ (if bare_url o then o else "'" +:+ tW o +:+ "'")] ++
  (if has_char ["["; "]"]%char o || has_char ["{"; "}"]%char (query_part o) then ["--globoff"] else []) ++
  (if String.eqb m "GET" then [] else ["--request " +:+ m]) ++
  (match auth_given t with Some (a, b) => [quoted_option "--user" (a +:+ ":" +:+ b)] | None => [] end) ++
  ((λ h, "--header " +:+ aW (p_name h +:+ ": " +:+ p_value h) (header_boundary u h)) <$> d) ++
  (if compressed d then ["--compressed"] else []) ++
  (match cookies e with [] => [] | cs => [quoted_option "--cookie" (cookie_text cs)] end) ++
  (match postData e with Some p => data_options (match l with Some _ => true | None => false end) p | None => [] end).

Definition curl_command (e : request) (t : option credentials) : string := String.concat continued (curl_pieces e t).

(** tLt.generate *)
Definition tLt_generate (e : request) (t : option credentials) : string :=
  match raw_form e with
  | Some r => (if truthy (iU (Some r)) then iW else "") +:+ rW (raw_body r) (iU (Some r)) +:+ " | " +:+ curl_command e t
  | None => curl_command e t
  end.

(** A header, with the shell's boundary for the body's. *)
Definition header_argument (env : string → string) (u : option string) (h : pair) : string :=
  String.concat (env "boundary") (pieces (p_name h +:+ ": " +:+ p_value h) (header_boundary u h)).

(** ** The pieces of the command *)

Lemma tW_app a b : tW (a +:+ b) = tW a +:+ tW b.
Proof.
  induction a as [|c a IH]; [done|]. change (String c a +:+ b) with (String c (a +:+ b)). cbn [tW]. rewrite IH.
  destruct (Ascii.eqb c "'"); [by rewrite sapp_assoc|done].
Qed.

Lemma yields_quoted env opt v : safe_word opt = true → yields env (quoted_option opt v) [opt; v].
Proof. intros Ho. apply (yields_option env opt (single v) v Ho). intros st. apply sh_single. Qed.

(** Text pasted between the quotes in pieces is quoted as a whole. *)
Lemma yields_pasted env opt a sep b : safe_word opt = true → tW sep = sep →
  yields env (opt +:+ " '" +:+ tW a +:+ sep +:+ tW b +:+ "'") [opt; a +:+ sep +:+ b].
Proof.
  intros Ho Hs. pose proof (yields_quoted env opt (a +:+ sep +:+ b) Ho) as H. unfold quoted_option in H.
  rewrite !tW_app, Hs, !sapp_assoc in H. exact H.
Qed.

(** The URL: pasted when safe, and then not with a tilde in front, or quoted. *)
Definition url_ok (o : string) : Prop := o ≠ "" ∧ match o with String "~" _ => False | _ => True end.

Lemma sh_url env ws o : url_ok o →
  sh_run env (sh_start ws) (if bare_url o then o else single o) = Some (Sh Unquoted (Some o) ws).
Proof.
  intros [Hne Ht]. destruct (bare_url o) eqn:E; [|by rewrite sh_single].
  destruct o as [|c o]; [done|]. unfold bare_url in E. cbn [sforall] in E. apply andb_prop in E as [Hc Ho].
  assert (sh_safe c = true) as Hs.
  { unfold tilde_safe in Hc. destruct (Ascii.eqb_spec c "~") as [->|]; [done|]. by rewrite orb_false_r in Hc. }
  destruct (safe_not_special c Hs) as (E1 & E2 & E3 & E4).
  cbn [sh_run]. unfold sh_char. cbn [sh_mode_of sh_start]. rewrite E1, E2, E3, E4, Hs. cbn [orb].
  unfold sh_push. cbn [sh_cur sh_done sh_start default from_option id].
  by rewrite (sh_tilde_run env Unquoted ("" +:+ one c)).
Qed.

Lemma yields_url env w o : safe_word w = true → url_ok o →
  yields env (w +:+ " " +:+ (if bare_url o then o else "'" +:+ tW o +:+ "'")) [w; o].
Proof.
  intros Hw Ho ws. change ("'" +:+ tW o +:+ "'") with (single o). rewrite sh_run_app. destruct w as [|c w]; [done|].
  rewrite (sh_safe_run env (sh_start ws)) by done. rewrite sh_run_app.
  replace (sh_run env (sh_push (sh_start ws) Unquoted (String c w)) " ")
    with (Some (sh_start (ws ++ [String c w]))) by reflexivity.
  rewrite sh_url by done. eexists _, _. split; [reflexivity|]. by rewrite <- app_assoc.
Qed.

(** The method: pasted as it is, so it has to be a safe word. *)
Lemma yields_method env m : safe_word m = true → yields env ("--request " +:+ m) ["--request"; m].
Proof.
  intros Hm. apply (yields_option env "--request" m m); [done|]. intros st Hst. destruct m as [|c m]; [done|].
  by apply sh_safe_run.
Qed.

End Generate.

(** ** What a request asks for

    Written from the request alone, not from what the samples are made with: the
    theorems on the samples compare what a sample says with it. *)

(** The method: GET unless one is given; a standard one may be given in small letters. *)
Definition asked_method (e : request) : string :=
  match method e with
  | None | Some "" => "GET"
  | Some m => default m (List.find (λ s, String.eqb (to_lower s) m)
      ["GET"; "HEAD"; "POST"; "PUT"; "PATCH"; "DELETE"; "OPTIONS"; "TRACE"; "QUERY"])
  end.

Definition asked_query (l : list pair) : string := String.concat "&" ((λ q, p_name q +:+ "=" +:+ p_value q) <$> l).

(** The URL: the query behind a question mark, or behind the query the URL has *)
Definition asked_url (e : request) : string :=
  let u := default "" (url e) in
  match queryString e with
  | [] => u
  | l => if includes "?" u then u +:+ "&" +:+ asked_query l else u +:+ "?" +:+ asked_query l
  end.

Definition asked_cookies (l : list pair) : string :=
  String.concat "; " ((λ c, encodeURIComponent (p_name c) +:+ "=" +:+ encodeURIComponent (p_value c)) <$> l).

(** Credentials of which neither half is empty *)
Definition asked_credentials (t : option credentials) : option (string * string) :=
  match t with
  | Some (Credentials (String _ _ as u) (String _ _ as p)) => Some (u, p)
  | _ => None
  end.

(** The parameters of a form, of the media type [m] *)
Definition asked_fields (m : string) (e : request) : option (list param) :=
  match postData e with
  | Some (Post m' _ (Some ps)) => if String.eqb m' m then Some ps else None
  | _ => None
  end.

Definition has_file (p : param) : bool := match pa_fileName p with Some _ => true | None => false end.

Lemma PH_asked e : PH (method e) = asked_method e.
Proof.
  unfold PH, asked_method, Sc. destruct (method e) as [[|c m]|]; [done| |done]. generalize (String c m) as n. clear. intros m.
  destruct (String.eqb_spec m (to_lower m)) as [E|E].
  - rewrite andb_true_r, <- E. destruct (existsb (String.eqb m) xc) eqn:Ex.
    + apply existsb_exists in Ex as (k & Hk%list_elem_of_In & ->%String.eqb_eq). clear E.
      repeat (apply elem_of_cons in Hk as [->|Hk]; [done|]). by apply elem_of_nil in Hk.
    + destruct (List.find _ _) as [s|] eqn:Ef; [|done]. apply List.find_some in Ef as [Hs Hm%String.eqb_eq]. exfalso. subst m.
      apply list_elem_of_In in Hs. repeat (apply elem_of_cons in Hs as [->|Hs]; [done|]). by apply elem_of_nil in Hs.
  - rewrite andb_false_r. destruct (List.find _ _) as [s|] eqn:Ef; [|done].
    apply List.find_some in Ef as [Hs ->%String.eqb_eq%symmetry]. exfalso. apply E.
    apply list_elem_of_In in Hs. repeat (apply elem_of_cons in Hs as [->|Hs]; [done|]). by apply elem_of_nil in Hs.
Qed.

Lemma full_url_asked e : full_url e = asked_url e.
Proof.
  unfold full_url, asked_url. destruct (queryString e) as [|q l]; [by rewrite sapp_nil_r|]. by destruct (includes "?" _).
Qed.

Lemma auth_given_asked t : auth_given t = asked_credentials t.
Proof. by destruct t as [[[|] [|]]|]. Qed.

Definition no_reformat : string → option string := λ _, None.

Definition sample_request : request :=
  Request (Some "https://api.test/it's") (Some "post") [Pair "X-Q" "a'b $(id)"] [Pair "q" "1 2"] [Pair "s" "p q"]
    (Some (Post "multipart/form-data" None
      (Some [Param "n" (Some "@v; rm") None None; Param "f" None (Some "it's.txt") (Some "text/plain")]))).

(** ** The boundary of a multipart body *)

Lemma slength_app a b : String.length (a +:+ b) = (String.length a + String.length b)%nat.
Proof.
  induction a as [|c a IH]; [done|]. change (String c a +:+ b) with (String c (a +:+ b)). cbn. by rewrite IH.
Qed.

Lemma strip_prefix_length p s r : strip_prefix p s = Some r → (String.length p ≤ String.length s)%nat.
Proof. intros ->%strip_prefix_Some. rewrite slength_app. lia. Qed.

Lemma includes_cons p c s : includes p (String c s) =
  match strip_prefix p (String c s) with Some _ => true | None => includes p s end.
Proof. reflexivity. Qed.

Lemma includes_length p s : includes p s = true → (String.length p ≤ String.length s)%nat.
Proof.
  induction s as [|c s IH]; [destruct p; [cbn; lia|done]|]. rewrite includes_cons.
  destruct (strip_prefix p (String c s)) as [r|] eqn:E; [intros _; by apply strip_prefix_length in E|].
  intros ?%IH. cbn. lia.
Qed.

(** A text includes another one between two others, and only then. *)
Lemma includes_spec p s : includes p s = true ↔ ∃ a b, s = a +:+ p +:+ b.
Proof.
  split.
  - induction s as [|c s IH].
    + destruct p; [by exists "", ""|done].
    + rewrite includes_cons. destruct (strip_prefix p (String c s)) as [r|] eqn:E.
      * intros _. exists "", r. by apply strip_prefix_Some in E.
      * intros (a & b & ->)%IH. by exists (String c a), b.
  - intros (a & b & ->). induction a as [|c a IH].
    + change ("" +:+ p +:+ b) with (p +:+ b). pose proof (strip_prefix_app p b) as E.
      destruct (p +:+ b) as [|c s]; [cbn; by rewrite E|by rewrite includes_cons, E].
    + change (String c a +:+ p +:+ b) with (String c (a +:+ p +:+ b)). rewrite includes_cons, IH.
      by destruct (strip_prefix p _).
Qed.

Lemma free_boundary_Some f t n : (S (String.length t) < f + String.length n)%nat → (1 ≤ f)%nat →
  ∃ d, free_boundary f t n = Some (n +:+ d) ∧ includes (n +:+ d) t = false ∧ sforall (Ascii.eqb "-") d = true.
Proof.
  revert n. induction f as [|f IH]; intros n Hf H1; [lia|]. cbn [free_boundary].
  destruct (includes n t) eqn:E; [|exists ""; rewrite sapp_nil_r; split_and!; done].
  apply includes_length in E as Hl. destruct (IH (n +:+ "-")) as (d & -> & Hd & Hs); [rewrite slength_app; cbn; lia|lia|].
  exists (String "-" d). rewrite sapp_assoc in *. split_and!; [done|done|exact Hs].
Qed.

Lemma flat_map_app f a b : flat_map_s f (a +:+ b) = flat_map_s f a +:+ flat_map_s f b.
Proof.
  induction a as [|c a IH]; [done|]. change (String c a +:+ b) with (String c (a +:+ b)). cbn [flat_map_s].
  by rewrite IH, sapp_assoc.
Qed.

(** Characters a boundary is made of: JSON writes them as they are. *)
Definition boundary_char (c : ascii) : bool := byte_in 97 122 c || Ascii.eqb c "-".

Lemma json_boundary c : boundary_char c = true → json_char c = one c.
Proof. destruct c as [[] [] [] [] [] [] [] []]; vm_compute; congruence. Qed.

Lemma json_keeps n : sforall boundary_char n = true → flat_map_s json_char n = n.
Proof.
  induction n as [|c n IH]; [done|]. cbn [sforall flat_map_s]. intros [Hc Hn]%andb_prop.
  by rewrite (json_boundary c Hc), IH.
Qed.

Lemma includes_json n v : sforall boundary_char n = true → includes n v = true → includes n (json_string v) = true.
Proof.
  intros Hn (a & b & ->)%includes_spec. apply includes_spec. unfold json_string.
  rewrite !flat_map_app, (json_keeps n Hn).
  exists (quote_char +:+ flat_map_s json_char a), (flat_map_s json_char b +:+ quote_char). by rewrite !sapp_assoc.
Qed.

Lemma includes_around n a v b : includes n v = true → includes n (a +:+ v +:+ b) = true.
Proof.
  intros (x & y & ->)%includes_spec. apply includes_spec. exists (a +:+ x), (y +:+ b). by rewrite !sapp_assoc.
Qed.

Lemma includes_concat n sep l v : v ∈ l → includes n v = true → includes n (String.concat sep l) = true.
Proof.
  intros Hv Hn. induction l as [|x l IH]; [by apply not_elem_of_nil in Hv|].
  destruct l as [|y l].
  - apply list_elem_of_singleton in Hv as ->. done.
  - rewrite concat_cons. apply elem_of_cons in Hv as [->|Hv].
    + apply (includes_around n "" x). done.
    + specialize (IH Hv). pose proof (includes_around n (x +:+ sep) _ "" IH) as H. by rewrite sapp_nil_r, sapp_assoc in H.
Qed.

(** The texts of a parameter. *)
Definition param_fields (p : param) : list string :=
  pa_name p :: omap id [pa_value p; pa_fileName p; pa_contentType p].

Lemma includes_param n p v : sforall boundary_char n = true → v ∈ param_fields p → includes n v = true →
  includes n (json_param p) = true.
Proof.
  intros Hn Hv Hi. apply includes_around.
  assert (∀ k o, o = Some v → ∃ x, x ∈ json_field k o ∧ includes n x = true) as Hf.
  { intros k o ->. eexists. split; [left|]. pose proof (includes_around n (json_string k +:+ ":") _ "" (includes_json n v Hn Hi)) as H.
    by rewrite sapp_nil_r, sapp_assoc in H. }
  assert (Some v ∈ [Some (pa_name p); pa_value p; pa_fileName p; pa_contentType p]) as Ho.
  { unfold param_fields in Hv. apply elem_of_cons in Hv as [->|Hv]; [left|right].
    apply list_elem_of_omap in Hv as (o & Ho & E). cbn in E. by subst o. }
  rewrite !elem_of_cons in Ho.
  destruct Ho as [E|[E|[E|[E|E]]]]; [| | | |by apply not_elem_of_nil in E].
  all: symmetry in E.
  - destruct (Hf "name" _ E) as (x & Hx & Hn'). apply (includes_concat n "," _ x); [set_solver|done].
  - destruct (Hf "value" _ E) as (x & Hx & Hn'). apply (includes_concat n "," _ x); [set_solver|done].
  - destruct (Hf "fileName" _ E) as (x & Hx & Hn'). apply (includes_concat n "," _ x); [set_solver|done].
  - destruct (Hf "contentType" _ E) as (x & Hx & Hn'). apply (includes_concat n "," _ x); [set_solver|done].
Qed.

(** The boundary the search of a form ends with *)
Lemma free_form ps : ∃ d, FPt ps = Some (form_body ("scalar-boundary" +:+ d) ps) ∧
  sforall (Ascii.eqb "-") d = true ∧ sforall boundary_char ("scalar-boundary" +:+ d) = true ∧
  ∀ p v, p ∈ ps → v ∈ param_fields p → includes ("scalar-boundary" +:+ d) v = false.
Proof.
  destruct (free_boundary_Some (S (String.length (json_params ps))) (json_params ps) "scalar-boundary") as (d & E & Hi & Hd);
    [cbn; lia|lia|].
  assert (sforall boundary_char ("scalar-boundary" +:+ d) = true) as Hb.
  { rewrite sforall_app. change (sforall boundary_char "scalar-boundary") with true. cbn [andb].
    revert Hd. apply sforall_impl. intros c Hc. unfold boundary_char. rewrite Ascii.eqb_sym in Hc. by rewrite Hc, orb_true_r. }
  exists d. unfold FPt. rewrite E. split_and!; [done..|]. intros p v Hp Hv.
  destruct (includes ("scalar-boundary" +:+ d) v) eqn:Ev; [|done]. exfalso.
  unfold json_params in Hi. rewrite (includes_around _ "[" _ "]") in Hi; [done|].
  apply (includes_concat _ "," _ (json_param p)); [by apply list_elem_of_fmap_2|]. by apply (includes_param _ p v).
Qed.

(** C31. The boundary of a form is free: for every list of parameters the search
    for a boundary ends, with the name it starts from and some dashes behind it, and the
    boundary it finds occurs in no name, value, file name or content type of a
    parameter. *)
Theorem boundary_is_free ps : ∃ d, FPt ps = Some (form_body ("scalar-boundary" +:+ d) ps) ∧
  sforall (Ascii.eqb "-") d = true ∧
  ∀ p v, p ∈ ps → v ∈ param_fields p → includes ("scalar-boundary" +:+ d) v = false.
Proof. destruct (free_form ps) as (d & H1 & H2 & _ & H3). by exists d. Qed.

(** ** What the samples leave open *)

(** With a form that needs its raw shape the cookies are sent twice, as a header
    and with --cookie. *)
Lemma raw_form_sends_cookies_twice :
  let e := Request (Some "https://api.test/") (Some "post") [] [] [Pair "s" "1"]
             (Some (Post "multipart/form-data" None (Some [Param "a;b" (Some "x") None None]))) in
  ∃ ws, sh_words (λ _, "") (curl_command no_reformat e None) = Some ws ∧
    In "Cookie: s=1" ws ∧ In "--cookie" ws ∧ In "s=1" ws.
Proof. eexists. split; [vm_compute; reflexivity|]. cbn. tauto. Qed.

(** The method is pasted without quotes: one with a blank or a semicolon is
    no word of the command. *)
Lemma method_is_not_quoted :
  let e := Request (Some "https://api.test/") (Some "X;id") [] [] [] None in
  curl_command no_reformat e None = "curl https://api.test/" +:+ continued +:+ "--request X;id" ∧
  sh_words (λ _, "") (curl_command no_reformat e None) = None.
Proof. split; reflexivity. Qed.
