(* ===== verification/Literals.v ===== *)
(** * scalar.js: string literals of the code samples

    The functions that write a text as a string literal of a target language: [BH]
    (C), [dollarH] and [oPt] (C#), [eU] (F#), [WIt] and [QU] (Rust), [MU] (OCaml), [LU] and
    [RU] (PHP), [qU] and [JU] (Ruby), [uLt] (Swift). The literals of a language are read by
    [read_literal], the raw ones of C# and Swift by [read_raw]: each takes the text
    behind the opening quote and returns the value and what follows the closing
    quote. Texts are ASCII. *)
From S2P Require Import Prelude Css Shell Snippets.
#[local] Open Scope list_scope.

(** ** Reading a literal *)

(** A language: the quote, the characters a literal may hold as they are, and what an
    escape behind a backslash stands for. *)
Record language : Type := Language {
  quote : ascii; raw : ascii → bool; unescaped : string → option (string * string) }.

Fixpoint read_literal (fuel : nat) (l : language) (s : string) : option (string * string) :=
  match fuel, s with
  | O, _ | _, "" => None
  | S f, String c s' =>
      if Ascii.eqb c (quote l) then Some ("", s')
      else if Ascii.eqb c "\" then
        match unescaped l s' with
        | Some (v, r) => match read_literal f l r with Some (w, r') => Some (v +:+ w, r') | None => None end
        | None => None
        end
      else if raw l c then match read_literal f l s' with Some (w, r') => Some (String c w, r') | None => None end
      else None
  end.

(** A character is written so that it can be read: as it is, or behind a
    backslash. *)
Definition readable (l : language) (f : ascii → string) (c : ascii) : Prop :=
  (f c = one c ∧ c ≠ quote l ∧ c ≠ "\"%char ∧ raw l c = true) ∨
  (∃ e, f c = String "\" e ∧ ∀ r, unescaped l (e +:+ r) = Some (one c, r)).

(** The literal of a text is read as the text, and ends at its own quote. *)
Lemma literal_roundtrip l f s r : quote l ≠ "\"%char → (∀ c, readable l f c) →
  read_literal (S (String.length s)) l (flat_map_s f s +:+ String (quote l) r) = Some (s, r).
Proof.
  intros Hq Hf. assert (∀ n, (String.length s < n)%nat →
    read_literal n l (flat_map_s f s +:+ String (quote l) r) = Some (s, r)) as H; [|apply H; lia].
  induction s as [|c s IH]; intros n Hn; (destruct n as [|n]; [cbn in Hn; lia|]).
  - change (flat_map_s f "" +:+ String (quote l) r) with (String (quote l) r). cbn [read_literal].
    by rewrite Ascii.eqb_refl.
  - cbn [String.length] in Hn. cbn [flat_map_s]. rewrite sapp_assoc.
    destruct (Hf c) as [(-> & H1 & H2 & H3)|(e & -> & He)].
    + change (one c +:+ flat_map_s f s +:+ String (quote l) r) with (String c (flat_map_s f s +:+ String (quote l) r)).
      cbn [read_literal]. rewrite (proj2 (Ascii.eqb_neq _ _) H1), (proj2 (Ascii.eqb_neq _ _) H2), H3.
      by rewrite IH by lia.
    + change (String "\" e +:+ flat_map_s f s +:+ String (quote l) r)
        with (String "\" (e +:+ flat_map_s f s +:+ String (quote l) r)).
      cbn [read_literal]. rewrite (proj2 (Ascii.eqb_neq "\" (quote l))) by congruence. rewrite Ascii.eqb_refl, He.
      by rewrite IH by lia.
Qed.

(** ** The languages *)

Definition DQc : ascii := "034"%char.

(** The escapes C, C#, F# and Rust share. *)
Definition simple_escape (c : ascii) : option ascii :=
  if Ascii.eqb c "\" then Some "\"%char else if Ascii.eqb c DQc then Some DQc
  else if Ascii.eqb c "n" then Some "010"%char else if Ascii.eqb c "r" then Some "013"%char
  else if Ascii.eqb c "t" then Some "009"%char else None.

Definition one_char (f : ascii → option ascii) (s : string) : option (string * string) :=
  match s with String c r => match f c with Some d => Some (one d, r) | None => None end | "" => None end.

Definition not_line_end (c : ascii) : bool := negb (Ascii.eqb c "010" || Ascii.eqb c "013").

Definition c_like : language := Language DQc not_line_end (one_char simple_escape).

Definition rust : language :=
  Language DQc not_line_end (one_char (λ c, if Ascii.eqb c "0" then Some "000"%char else simple_escape c)).

(** OCaml: a backslash, a quote, or three decimal digits. *)
Definition decimal_escape (s : string) : option (string * string) :=
  match s with
  | String a (String b (String c r)) =>
      if byte_in 48 57 a && byte_in 48 57 b && byte_in 48 57 c then
        Some (one (ascii_of_nat (100 * (nat_of_ascii a - 48) + 10 * (nat_of_ascii b - 48) + (nat_of_ascii c - 48))), r)
      else None
  | _ => None
  end.

Definition ocaml : language := Language DQc not_line_end (λ s,
  match s with
  | String c r => if Ascii.eqb c "\" || Ascii.eqb c DQc then Some (one c, r) else decimal_escape s
  | "" => None
  end).

(** PHP and Ruby in single quotes: a backslash escapes itself and the quote,
    before any other character it is itself. *)
Definition single_quoted : language := Language "'" (λ _, true) (λ s,
  match s with
  | String c r => if Ascii.eqb c "\" || Ascii.eqb c "'" then Some (one c, r) else Some ("\", s)
  | "" => None
  end).

(** ** What the bundle writes *)

(** BH of the C sample, $H of the C# one and eU of the F# one: the same five
    replacements, one after the other; a replacement writes nothing a later one
    changes. *)
Definition c_escape (c : ascii) : string :=
  if Ascii.eqb c "\" then "\\" else if Ascii.eqb c DQc then String "\" (one DQc)
  else if Ascii.eqb c "010" then "\n" else if Ascii.eqb c "013" then "\r"
  else if Ascii.eqb c "009" then "\t" else one c.

(** [e.replaceAll(x, r)] of one character *)
Definition replace_char (x : ascii) (r : string) (e : string) : string :=
  flat_map_s (λ c, if Ascii.eqb c x then r else one c) e.

Definition BH (e : string) : string :=
  replace_char "009" "\t" (replace_char "013" "\r" (replace_char "010" "\n"
    (replace_char DQc (String "\" (one DQc)) (replace_char "\" "\\" e)))).

Definition dollarH (e : string) : string :=
  replace_char "009" "\t" (replace_char "013" "\r" (replace_char "010" "\n"
    (replace_char DQc (String "\" (one DQc)) (replace_char "\" "\\" e)))).

Definition eU (e : option string) : string := match e with None => "" | Some e => BH e end.

Definition WIt (e : string) : string := replace_char "000" "\0" (BH e).
Definition QU (e : string) : string := String DQc (WIt e +:+ one DQc).

(** Three decimal digits *)
Definition pad3 (n : nat) : string :=
  String (ascii_of_nat (48 + n / 100)) (String (ascii_of_nat (48 + n / 10 mod 10)) (one (ascii_of_nat (48 + n mod 10)))).

Definition ocaml_escape (c : ascii) : string :=
  if Ascii.eqb c "\" || Ascii.eqb c DQc then String "\" (one c)
  else if Nat.ltb (nat_of_ascii c) 32 || Nat.eqb (nat_of_ascii c) 127 then String "\" (pad3 (nat_of_ascii c))
  else one c.

Definition MU (e : string) : string := String DQc (flat_map_s ocaml_escape e +:+ one DQc).

(** LU, and JU of the Ruby sample *)
Definition LU (e : string) : string := replace_char "'" "\'" (replace_char "\" "\\" e).
Definition JU (e : string) : string := replace_char "'" "\'" (replace_char "\" "\\" e).
Definition RU (e : string) : string := "'" +:+ LU e +:+ "'".

(** qU: Ruby in double quotes *)
Definition qU (e : string) : string := replace_char DQc (String "\" (one DQc)) (replace_char "\" "\\" e).

(** *** Raw literals *)

(** [e.repeat(t)] *)
Fixpoint repeat_char (c : ascii) (t : nat) : string := match t with O => "" | S t' => String c (repeat_char c t') end.

(** [for (; e.includes(f(t)); ) t++] *)
Fixpoint first_free (fuel : nat) (f : nat → string) (e : string) (t : nat) : option nat :=
  match fuel with
  | O => None
  | S n => if includes (f t) e then first_free n f e (S t) else Some t
  end.

(** oPt: a C# raw literal *)
Definition oPt (e : string) : option string :=
  option_map (λ t, let n := repeat_char DQc t in n +:+ newline +:+ e +:+ newline +:+ n)
    (first_free (S (String.length e)) (repeat_char DQc) e 3).

(** The quote of a Swift raw literal with [t] hashes *)
Definition swift_quote (t : nat) : string := repeat_char DQc 3 +:+ repeat_char "#" t.

(** uLt: the hashes of a Swift raw literal *)
Definition uLt (e : string) : option string :=
  option_map (repeat_char "#") (first_free (S (String.length e)) swift_quote e 1).

(** The literal of the Swift sample: its opening quote, the text and the closing
    quote, each on lines of their own *)
Definition swift_json (e : string) : option string :=
  option_map (λ t, t +:+ repeat_char DQc 3 +:+ newline +:+ e +:+ newline +:+ repeat_char DQc 3 +:+ t) (uLt e).

(** The text up to the first [q], and what follows it *)
Fixpoint cut_at (q s : string) : option (string * string) :=
  match strip_prefix q s with
  | Some r => Some ("", r)
  | None => match s with
            | "" => None
            | String c s' => match cut_at q s' with Some (v, r) => Some (String c v, r) | None => None end
            end
  end.

(** The text without the line end it ends with *)
Fixpoint drop_newline (s : string) : option string :=
  match s with
  | "" => None
  | String c "" => if Ascii.eqb c "010" then Some "" else None
  | String c s' => option_map (String c) (drop_newline s')
  end.

(** A raw literal of several lines that closes with [q]; an [escape] in it would be
    read as one. *)
Definition read_raw (q : string) (escape : option string) (s : string) : option (string * string) :=
  match s with
  | String c s' =>
      if Ascii.eqb c "010" then
        match cut_at q s' with
        | Some (v, r) =>
            match drop_newline v with
            | Some v' => if match escape with Some x => includes x v' | None => false end then None else Some (v', r)
            | None => None
            end
        | None => None
        end
      else None
  | "" => None
  end.

(** ** Reading them back *)

Lemma flat_map_flat_map f g s : flat_map_s f (flat_map_s g s) = flat_map_s (λ c, flat_map_s f (g c)) s.
Proof. induction s as [|c s IH]; [done|]. cbn [flat_map_s]. by rewrite flat_map_app, IH. Qed.

Lemma flat_map_ext f g s : (∀ c, f c = g c) → flat_map_s f s = flat_map_s g s.
Proof. intros H. induction s as [|c s IH]; [done|]. cbn [flat_map_s]. by rewrite H, IH. Qed.

Lemma BH_once e : BH e = flat_map_s c_escape e.
Proof.
  unfold BH, replace_char. rewrite !flat_map_flat_map. apply flat_map_ext.
  intros c. by destruct c as [[] [] [] [] [] [] [] []].
Qed.

Definition rust_escape (c : ascii) : string := if Ascii.eqb c "000" then "\0" else c_escape c.

Lemma WIt_once e : WIt e = flat_map_s rust_escape e.
Proof.
  unfold WIt, replace_char. rewrite BH_once, flat_map_flat_map. apply flat_map_ext.
  intros c. by destruct c as [[] [] [] [] [] [] [] []].
Qed.

Definition single_escape (c : ascii) : string :=
  if Ascii.eqb c "\" then "\\" else if Ascii.eqb c "'" then "\'" else one c.

Lemma LU_once e : LU e = flat_map_s single_escape e.
Proof.
  unfold LU, replace_char. rewrite flat_map_flat_map. apply flat_map_ext.
  intros c. by destruct c as [[] [] [] [] [] [] [] []].
Qed.

Ltac by_character :=
  let c := fresh "c" in
  intros c; destruct c as [[] [] [] [] [] [] [] []];
  first [ left; split_and!; [reflexivity|discriminate|discriminate|reflexivity]
        | right; eexists; split; [reflexivity|intros; reflexivity] ].

Lemma c_readable : ∀ c, readable c_like c_escape c.
Proof. by_character. Qed.

Lemma rust_readable : ∀ c, readable rust rust_escape c.
Proof. by_character. Qed.

Lemma ocaml_readable : ∀ c, readable ocaml ocaml_escape c.
Proof. by_character. Qed.

Lemma single_readable : ∀ c, readable single_quoted single_escape c.
Proof. by_character. Qed.

(** C30. The quoting functions of the samples write literals that hold their text: BH
    (C), $H (C#) and eU (F#) within double quotes, QU (Rust), MU (OCaml), JU (Ruby)
    within single quotes and RU (PHP), whatever the text, with quotes, backslashes,
    line ends, control characters or code in it: a compiler that reads the literal
    finds the text itself and goes on right behind the closing quote. This is about
    the literals these functions write, not about those the samples write without
    them, such as F#'s triple quotes and the macro json! of Rust. *)
Theorem sample_literals_hold_their_text s r :
  read_literal (S (String.length s)) c_like (BH s +:+ one DQc +:+ r) = Some (s, r) ∧
  read_literal (S (String.length s)) c_like (dollarH s +:+ one DQc +:+ r) = Some (s, r) ∧
  read_literal (S (String.length s)) c_like (eU (Some s) +:+ one DQc +:+ r) = Some (s, r) ∧
  (∃ b, QU s = String DQc b ∧ read_literal (S (String.length s)) rust (b +:+ r) = Some (s, r)) ∧
  (∃ b, MU s = String DQc b ∧ read_literal (S (String.length s)) ocaml (b +:+ r) = Some (s, r)) ∧
  read_literal (S (String.length s)) single_quoted (JU s +:+ one "'" +:+ r) = Some (s, r) ∧
  (∃ b, RU s = String "'" b ∧ read_literal (S (String.length s)) single_quoted (b +:+ r) = Some (s, r)).
Proof.
  assert (∀ l f, quote l ≠ "\"%char → (∀ c, readable l f c) →
    read_literal (S (String.length s)) l (flat_map_s f s +:+ one (quote l) +:+ r) = Some (s, r)) as H.
  { intros l f. exact (literal_roundtrip l f s r). }
  split_and!.
  - rewrite BH_once. by apply (H c_like), c_readable.
  - change (dollarH s) with (BH s). rewrite BH_once. by apply (H c_like), c_readable.
  - cbn [eU]. rewrite BH_once. by apply (H c_like), c_readable.
  - eexists. split; [reflexivity|]. rewrite sapp_assoc, WIt_once. by apply (H rust), rust_readable.
  - eexists. split; [reflexivity|]. rewrite sapp_assoc. by apply (H ocaml), ocaml_readable.
  - change (JU s) with (LU s). rewrite LU_once. by apply (H single_quoted), single_readable.
  - eexists. split; [reflexivity|]. change (LU s +:+ "'") with (LU s +:+ one "'"). rewrite sapp_assoc, LU_once.
    by apply (H single_quoted), single_readable.
Qed.

(** *** Raw literals *)

Lemma first_free_Some fuel f e t : (∀ n, (n ≤ String.length (f n))%nat) →
  (S (String.length e) < fuel + t)%nat → (1 ≤ fuel)%nat →
  ∃ k, first_free fuel f e t = Some k ∧ (t ≤ k)%nat ∧ includes (f k) e = false.
Proof.
  intros Hf. revert t. induction fuel as [|n IH]; intros t Hn H1; [lia|]. cbn [first_free].
  destruct (includes (f t) e) eqn:E; [|by exists t].
  apply includes_length in E. specialize (Hf t). destruct (IH (S t)) as (k & -> & Hk & Hi); [lia..|].
  exists k. split_and!; [done|lia|done].
Qed.

Lemma strip_prefix_line q a b r : sforall (λ c, negb (Ascii.eqb c "010")) q = true →
  strip_prefix q (a +:+ String "010" b) = Some r → ∃ x, strip_prefix q a = Some x.
Proof.
  revert a. induction q as [|c q IH]; intros a Hq; [by exists a|]. cbn in Hq. apply andb_true_iff in Hq as [Hc Hq].
  destruct a as [|d a].
  - change ("" +:+ String "010" b) with (String "010" b). cbn [strip_prefix].
    destruct (Ascii.eqb c "010"); [discriminate Hc|discriminate].
  - change (String d a +:+ String "010" b) with (String d (a +:+ String "010" b)). cbn [strip_prefix].
    destruct (Ascii.eqb c d); [by apply IH|discriminate].
Qed.

(** A raw literal ends where it was written to end. *)
Lemma cut_at_line q a r : sforall (λ c, negb (Ascii.eqb c "010")) q = true → q ≠ "" → includes q a = false →
  cut_at q (a +:+ newline +:+ q +:+ r) = Some (a +:+ newline, r).
Proof.
  intros Hq Hn. change (newline +:+ q +:+ r) with (String "010" (q +:+ r)).
  assert (cut_at q (q +:+ r) = Some ("", r)) as Hc.
  { pose proof (strip_prefix_app q r) as E. destruct (q +:+ r); cbn [cut_at]; by rewrite E. }
  induction a as [|c a IH]; intros Hi.
  - change ("" +:+ String "010" (q +:+ r)) with (String "010" (q +:+ r)). cbn [cut_at].
    destruct (strip_prefix q (String "010" (q +:+ r))) as [x|] eqn:E.
    + apply (strip_prefix_line q "") in E as [y Ey]; [|done]. by destruct q.
    + by rewrite Hc.
  - rewrite includes_cons in Hi.
    change (String c a +:+ String "010" (q +:+ r)) with (String c (a +:+ String "010" (q +:+ r))). cbn [cut_at].
    destruct (strip_prefix q (String c (a +:+ String "010" (q +:+ r)))) as [x|] eqn:E.
    + apply (strip_prefix_line q (String c a)) in E as [y Ey]; [|done]. by rewrite Ey in Hi.
    + rewrite IH; [done|]. by destruct (strip_prefix q (String c a)).
Qed.

Lemma drop_newline_app a : drop_newline (a +:+ newline) = Some a.
Proof.
  induction a as [|c a IH]; [done|]. change (String c a +:+ newline) with (String c (a +:+ newline)).
  cbn [drop_newline]. rewrite IH. by destruct a.
Qed.

Lemma read_raw_back q escape e r : sforall (λ c, negb (Ascii.eqb c "010")) q = true → q ≠ "" → includes q e = false →
  match escape with Some x => includes x e = false | None => True end →
  read_raw q escape (newline +:+ e +:+ newline +:+ q +:+ r) = Some (e, r).
Proof.
  intros Hq Hn Hi Hx. change (newline +:+ e +:+ newline +:+ q +:+ r) with (String "010" (e +:+ newline +:+ q +:+ r)).
  unfold read_raw. rewrite cut_at_line, drop_newline_app by done. cbn. destruct escape; [by rewrite Hx|done].
Qed.

Lemma repeat_length c n : String.length (repeat_char c n) = n.
Proof. induction n as [|n IH]; [done|]. cbn. by rewrite IH. Qed.

Lemma repeat_plain c n : Ascii.eqb c "010" = false → sforall (λ c, negb (Ascii.eqb c "010")) (repeat_char c n) = true.
Proof. intros H. induction n as [|n IH]; [done|]. cbn. by rewrite H, IH. Qed.

(** The raw literals of the C# and Swift samples: the search for a quote that does
    not occur in the text ends for every text, and the literal is read as the text and
    ends at its own quote; in Swift where the text holds no backslash before the hashes
    of the quote. *)
Theorem raw_literals_hold_their_text e r :
  (∃ k, (3 ≤ k)%nat ∧
     oPt e = Some (repeat_char DQc k +:+ newline +:+ e +:+ newline +:+ repeat_char DQc k) ∧
     read_raw (repeat_char DQc k) None (newline +:+ e +:+ newline +:+ repeat_char DQc k +:+ r) = Some (e, r)) ∧
  (∃ k, (1 ≤ k)%nat ∧
     swift_json e = Some (repeat_char "#" k +:+ repeat_char DQc 3 +:+ newline +:+ e +:+ newline +:+ swift_quote k) ∧
     let escape := String "\" (repeat_char "#" k) in
     read_raw (swift_quote k) (Some escape) (newline +:+ e +:+ newline +:+ swift_quote k +:+ r) =
       if includes escape e then None else Some (e, r)).
Proof.
  split.
  - destruct (first_free_Some (S (String.length e)) (repeat_char DQc) e 3) as (k & Hk & H3 & Hi); [|lia|lia|].
    { intros n. by rewrite repeat_length. }
    exists k. split_and!; [done|unfold oPt; by rewrite Hk|].
    apply read_raw_back; [by apply repeat_plain|by destruct k; [lia|]|done|done].
  - destruct (first_free_Some (S (String.length e)) swift_quote e 1) as (k & Hk & H1 & Hi); [|lia|lia|].
    { intros n. unfold swift_quote. rewrite slength_app, !repeat_length. lia. }
    assert (sforall (λ c, negb (Ascii.eqb c "010")) (swift_quote k) = true) as Hq.
    { unfold swift_quote. by rewrite sforall_app, !repeat_plain. }
    exists k. split_and!; [done|unfold swift_json, uLt; by rewrite Hk|].
    cbn zeta. destruct (includes (String "\" (repeat_char "#" k)) e) eqn:Ex.
    + change (newline +:+ e +:+ newline +:+ swift_quote k +:+ r) with (String "010" (e +:+ newline +:+ swift_quote k +:+ r)).
      unfold read_raw. rewrite cut_at_line, drop_newline_app by done. cbn [Ascii.eqb]. by rewrite Ex.
    + by apply read_raw_back.
Qed.

(** ** What the samples leave open *)

(** The double-quoted Ruby literal is not safe: [qU] leaves the start of an
    interpolation as it is, and Ruby runs what is in it. *)
Lemma ruby_interpolates : qU "#{`id`}" = "#{`id`}".
Proof. reflexivity. Qed.

(** The Swift literal of a JSON text runs what a string value of it holds: the JSON
    of a backslash before a hash is an interpolation of the literal. *)
Lemma swift_interpolates :
  let e := String DQc ("\\#(secret)" +:+ one DQc) in
  uLt e = Some "#" ∧ includes "\#(secret)" e = true.
Proof. split; reflexivity. Qed.
