(* ===== verification/Utf8.v ===== *)
(** * scalar.js: the bytes of a stream as text

    The [TextDecoder] of a stream reader: the UTF-8 decoder of the Encoding Standard,
    which JS programs use by that name, fed chunk by chunk. A text is a list of code
    points, as a JS loop over a string sees it; bytes are integers from 0 to 255. *)
From S2P Require Import Prelude.
#[local] Open Scope list_scope.

Abbreviation text := (list Z).

(** ** The decoder *)

(** What is left of a sequence: how many bytes, the range of the next one and the
    code point so far. *)
Record pending : Type := Pending { need : nat; lower : Z; upper : Z; point : Z }.

Definition none_pending : pending := Pending 0 128 191 0.

(** A code point or an error *)
Definition item : Type := option Z.

Definition lead_byte (b : Z) : pending * list item :=
  if b <=? 127 then (none_pending, [Some b])
  else if (194 <=? b) && (b <=? 223) then (Pending 1 128 191 (Z.land b 31), [])
  else if (224 <=? b) && (b <=? 239) then
    (Pending 2 (if b =? 224 then 160 else 128) (if b =? 237 then 159 else 191) (Z.land b 15), [])
  else if (240 <=? b) && (b <=? 244) then
    (Pending 3 (if b =? 240 then 144 else 128) (if b =? 244 then 143 else 191) (Z.land b 7), [])
  else (none_pending, [None]).

Definition next_byte (p : pending) (b : Z) : pending * list item :=
  match need p with
  | O => lead_byte b
  | S n =>
      if (lower p <=? b) && (b <=? upper p) then
        let c := Z.lor (Z.shiftl (point p) 6) (Z.land b 63) in
        match n with O => (none_pending, [Some c]) | S _ => (Pending n 128 191 c, []) end
      else let '(p', o) := lead_byte b in (p', None :: o)
  end.

Fixpoint decode_bytes (p : pending) (bs : list Z) : pending * list item :=
  match bs with
  | [] => (p, [])
  | b :: bs' => let '(p1, o1) := next_byte p b in
                let '(p2, o2) := decode_bytes p1 bs' in (p2, o1 ++ o2)
  end.

(** The decoder: what is pending, and whether the start of the text was seen. *)
Record decoder : Type := Decoder { d_pending : pending; d_started : bool }.

Definition fresh_decoder : decoder := Decoder none_pending false.

Definition BOM : Z := 65279.

(** The byte order mark is not part of the text. *)
Definition without_bom (started : bool) (o : list item) : bool * list item :=
  match o with
  | [] => (started, [])
  | x :: o' => (true, if negb started && bool_decide (x = Some BOM) then o' else o)
  end.

(** An error is an exception for a fatal decoder, a replacement character for another. *)
Fixpoint decoded (fatal : bool) (o : list item) : option text :=
  match o with
  | [] => Some []
  | Some c :: o' => option_map (cons c) (decoded fatal o')
  | None :: o' => if fatal then None else option_map (cons 65533) (decoded fatal o')
  end.

(** [decode(e, {stream: true})] *)
Definition decode_chunk (fatal : bool) (d : decoder) (bs : list Z) : decoder * option text :=
  let '(p, o) := decode_bytes (d_pending d) bs in
  let '(started, o') := without_bom (d_started d) o in
  (Decoder p started, decoded fatal o').

(** [decode()] at the end *)
Definition decode_end (fatal : bool) (d : decoder) : option text :=
  decoded fatal (match need (d_pending d) with O => [] | S _ => [None] end).

(** ** Encoding *)

Definition scalar_value (c : Z) : Prop := 0 ≤ c < 55296 ∨ 57344 ≤ c < 1114112.

Definition utf8_char (c : Z) : list Z :=
  if c <=? 127 then [c]
  else if c <=? 2047 then [192 + c / 64; 128 + c mod 64]
  else if c <=? 65535 then [224 + c / 4096; 128 + c / 64 mod 64; 128 + c mod 64]
  else [240 + c / 262144; 128 + c / 4096 mod 64; 128 + c / 64 mod 64; 128 + c mod 64].

(** [new TextEncoder().encode(s)] *)
Definition utf8 (s : text) : list Z := concat (utf8_char <$> s).

(** ** Laws *)

#[local] Ltac Zify.zify_post_hook ::= Z.div_mod_to_equations.

Lemma decode_bytes_app p a b : decode_bytes p (a ++ b) =
  let '(p1, o1) := decode_bytes p a in let '(p2, o2) := decode_bytes p1 b in (p2, o1 ++ o2).
Proof.
  revert p. induction a as [|x a IH]; intros p; cbn; [by destruct (decode_bytes p b)|].
  destruct (next_byte p x) as [p1 o1]. rewrite IH. destruct (decode_bytes p1 a) as [p2 o2].
  destruct (decode_bytes p2 b) as [p3 o3]. by rewrite app_assoc.
Qed.

Lemma decoded_app fatal a b x y : decoded fatal a = Some x → decoded fatal b = Some y → decoded fatal (a ++ b) = Some (x ++ y).
Proof.
  revert x. induction a as [|[c|] a IH]; intros x; cbn; [by intros [= <-]| |].
  - destruct (decoded fatal a) as [z|]; cbn; [|done]. intros [= <-] Hb. by rewrite (IH z).
  - destruct fatal; [done|]. destruct (decoded false a) as [z|]; cbn; [|done]. intros [= <-] Hb. by rewrite (IH z).
Qed.

Lemma decoded_app_inv a b s : decoded true (a ++ b) = Some s →
  ∃ x y, decoded true a = Some x ∧ decoded true b = Some y ∧ s = x ++ y.
Proof.
  revert s. induction a as [|[c|] a IH]; intros s; cbn; [by exists [], s| |done].
  destruct (decoded true (a ++ b)) as [z|]; cbn; [|done]. intros [= <-].
  destruct (IH z eq_refl) as (x & y & -> & -> & ->). by exists (c :: x), y.
Qed.

Lemma add_bits c x : 0 ≤ x < 64 → Z.lor (Z.shiftl c 6) x = c * 64 + x.
Proof.
  intros Hx. assert (Z.land (Z.shiftl c 6) x = 0) as H0.
  { apply Z.bits_inj'. intros n Hn. rewrite Z.land_spec, Z.bits_0.
    destruct (Z.lt_ge_cases n 6) as [H|H]; [by rewrite Z.shiftl_spec_low|].
    destruct (Z.eq_dec x 0) as [->|]; [by rewrite Z.bits_0, andb_false_r|].
    rewrite (Z.bits_above_log2 x n), andb_false_r; [done|lia|].
    apply (Z.lt_le_trans _ 6); [|done]. apply Z.log2_lt_pow2; lia. }
  pose proof (Z.add_lor_land (Z.shiftl c 6) x) as H. rewrite H0 in H.
  rewrite (Z.shiftl_mul_pow2 c 6) in H |- * by lia. change (2 ^ 6) with 64 in H |- *.
  lia.
Qed.

Lemma low_bits b : 0 ≤ b < 64 → Z.land (128 + b) 63 = b.
Proof. intros H. change 63 with (Z.ones 6). rewrite Z.land_ones by lia. change (2 ^ 6) with 64. lia. Qed.

Lemma continue_byte n lo up c x : 0 ≤ x < 64 → lo ≤ 128 + x ≤ up →
  next_byte (Pending (S n) lo up c) (128 + x) =
  match n with O => (none_pending, [Some (c * 64 + x)]) | S _ => (Pending n 128 191 (c * 64 + x), []) end.
Proof.
  intros Hx Hr. unfold next_byte; cbn [need lower upper point].
  rewrite (proj2 (Z.leb_le lo (128 + x))), (proj2 (Z.leb_le (128 + x) up)) by lia. cbn [andb].
  by rewrite low_bits, add_bits.
Qed.

Lemma lead_bits b k m mask : mask = Z.ones k → 0 ≤ k → m mod 2 ^ k = 0 → 0 ≤ b < 2 ^ k → Z.land (m + b) mask = b.
Proof.
  intros -> Hk Hm Hb. rewrite Z.land_ones, <- Z.add_mod_idemp_l, Hm by lia. apply Z.mod_small. lia.
Qed.

(** What is encoded is decoded. *)
Lemma decode_char c r : scalar_value c →
  decode_bytes none_pending (utf8_char c ++ r) =
  let '(p, o) := decode_bytes none_pending r in (p, Some c :: o).
Proof.
  intros Hc. rewrite decode_bytes_app.
  enough (decode_bytes none_pending (utf8_char c) = (none_pending, [Some c])) as -> by (by destruct decode_bytes).
  unfold scalar_value in Hc. unfold utf8_char.
  destruct (c <=? 127) eqn:E1; [cbn; unfold next_byte; cbn; unfold lead_byte; by rewrite E1|apply Z.leb_gt in E1].
  destruct (c <=? 2047) eqn:E2; [apply Z.leb_le in E2|apply Z.leb_gt in E2].
  { assert (next_byte none_pending (192 + c / 64) = (Pending 1 128 191 (c / 64), [])) as H.
    { unfold next_byte, lead_byte; cbn [need none_pending].
      rewrite (proj2 (Z.leb_gt _ 127)), (proj2 (Z.leb_le 194 _)), (proj2 (Z.leb_le _ 223)) by lia. cbn [andb].
      by rewrite (lead_bits (c / 64) 5 192 31) by (done || cbn; lia). }
    cbn [decode_bytes]. rewrite H, continue_byte by lia. cbn. do 3 f_equal. lia. }
  destruct (c <=? 65535) eqn:E3; [apply Z.leb_le in E3|apply Z.leb_gt in E3].
  { assert (next_byte none_pending (224 + c / 4096) =
      (Pending 2 (if 224 + c / 4096 =? 224 then 160 else 128) (if 224 + c / 4096 =? 237 then 159 else 191) (c / 4096), [])) as H.
    { unfold next_byte, lead_byte; cbn [need none_pending].
      rewrite (proj2 (Z.leb_gt _ 127)), (proj2 (Z.leb_le 194 _)), (proj2 (Z.leb_gt _ 223)) by lia.
      rewrite (proj2 (Z.leb_le 224 _)), (proj2 (Z.leb_le _ 239)) by lia. cbn [andb].
      by rewrite (lead_bits (c / 4096) 4 224 15) by (done || cbn; lia). }
    cbn [decode_bytes]. rewrite H.
    rewrite continue_byte by (destruct (Z.eqb_spec (224 + c / 4096) 224), (Z.eqb_spec (224 + c / 4096) 237); lia).
    rewrite continue_byte by lia. cbn. do 3 f_equal. lia. }
  assert (next_byte none_pending (240 + c / 262144) =
    (Pending 3 (if 240 + c / 262144 =? 240 then 144 else 128) (if 240 + c / 262144 =? 244 then 143 else 191) (c / 262144), [])) as H.
  { unfold next_byte, lead_byte; cbn [need none_pending].
    rewrite (proj2 (Z.leb_gt _ 127)), (proj2 (Z.leb_le 194 _)), (proj2 (Z.leb_gt _ 223)) by lia.
    rewrite (proj2 (Z.leb_le 224 _)), (proj2 (Z.leb_gt _ 239)) by lia. cbn [andb].
    rewrite (proj2 (Z.leb_le 240 _)), (proj2 (Z.leb_le _ 244)) by lia. cbn [andb].
    by rewrite (lead_bits (c / 262144) 3 240 7) by (done || cbn; lia). }
  cbn [decode_bytes]. rewrite H.
  rewrite continue_byte by (destruct (Z.eqb_spec (240 + c / 262144) 240), (Z.eqb_spec (240 + c / 262144) 244); lia).
  rewrite continue_byte, continue_byte by lia. cbn. do 3 f_equal. lia.
Qed.

Lemma decode_utf8 s r : Forall scalar_value s →
  decode_bytes none_pending (utf8 s ++ r) =
  let '(p, o) := decode_bytes none_pending r in (p, (Some <$> s) ++ o).
Proof.
  induction 1 as [|c s Hc _ IH]; cbn; [by destruct decode_bytes|].
  unfold utf8 in *. cbn. rewrite <- app_assoc, decode_char, IH by done. by destruct (decode_bytes none_pending r).
Qed.

Lemma decoded_text fatal s : decoded fatal (Some <$> s) = Some s.
Proof. induction s as [|c s IH]; [done|]. cbn. by rewrite IH. Qed.
