(* ===== verification/Records.v ===== *)
(** * scalar.js: the records of a stream

    [Vve] shows the body of a response while it arrives: the text of a text stream, and
    one report per record of JSON lines or of a JSON text sequence (RFC 7464). The bytes
    come in chunks; [push] takes one, [finish] ends the stream. What the callback is
    given is the output, in order; an exception ends the stream, as it does in the
    reader that calls [push]. [JSON.parse] with [JSON.stringify] is a parameter: the
    kind of the value of a text and how it is printed, or nothing for a text that is
    no JSON. *)
From S2P Require Import Prelude Mime Utf8.
#[local] Open Scope list_scope.

(** ** Texts *)

Definition RS : Z := 30.
Definition LF : Z := 10.

(** What [trim] removes, and a [\s] of an expression matches *)
Definition white (c : Z) : bool :=
  existsb (Z.eqb c) [9; 10; 11; 12; 13; 32; 160; 5760; 8232; 8233; 8239; 8287; 12288; 65279] || ((8192 <=? c) && (c <=? 8202)).

(** [!e.trim()] *)
Definition blank (e : text) : bool := forallb white e.

Fixpoint trim_start (e : text) : text :=
  match e with c :: e' => if white c then trim_start e' else e | [] => [] end.

Definition trim (e : text) : text := reverse (trim_start (reverse (trim_start e))).

(** [/\s$/.test(e)] *)
Definition ends_white (e : text) : bool := match last e with Some c => white c | None => false end.

(** Yc: the bytes of a text *)
Definition Yc_char (c : Z) : Z := if 65535 <? c then 4 else if c <=? 127 then 1 else if c <=? 2047 then 2 else 3.
Fixpoint Yc (e : text) : Z := match e with [] => 0 | c :: e' => Yc_char c + Yc e' end.

Fixpoint codes (s : string) : text := match s with "" => [] | String c s' => Z.of_nat (nat_of_ascii c) :: codes s' end.

Definition Bve : Z := 8 * 1024 * 1024.

(** ** The state *)

(** A value: an object or array, null, a text, or a number or boolean *)
Inductive json_kind : Type := Composite | Null | Text | Primitive.

Inductive stream_error : Type := Undecodable | MissingSeparator | TooLong.

(** How deep the brackets are, inside a string, behind a backslash of one *)
Record nesting : Type := Nesting { n_depth : Z; n_string : bool; n_escaped : bool }.

Definition outermost : nesting := Nesting 0 false false.

Record splitter : Type := Splitter {
  sp_text : text;        (* i: the record so far *)
  sp_bytes : Z;          (* a: its bytes *)
  sp_inside : bool;      (* o: behind a record separator *)
  sp_nesting : nesting   (* s, c, l *) }.

Definition fresh_splitter : splitter := Splitter [] 0 false outermost.

Record run : Type := Run { r_split : splitter; r_out : list text; r_error : option stream_error }.

Definition nest (q : nesting) (t : Z) : nesting :=
  if n_string q then
    if n_escaped q then Nesting (n_depth q) true false
    else if t =? 92 then Nesting (n_depth q) true true
    else if t =? 34 then Nesting (n_depth q) false false
    else q
  else if t =? 34 then Nesting (n_depth q) true (n_escaped q)
  else if (t =? 123) || (t =? 91) then Nesting (n_depth q + 1) false (n_escaped q)
  else if (t =? 125) || (t =? 93) then Nesting (n_depth q - 1) false (n_escaped q)
  else q.

Section Vve.
Variable parse : text → option (json_kind * text).
Variable n : option streaming.

Definition sequence : bool := match n with Some JsonSeq => true | _ => false end.
Definition by_record : bool := match n with Some JsonLines | Some JsonSeq => true | _ => false end.

(** [new TextDecoder(`utf-8`, {fatal: n !== `text` && n !== undefined})] *)
Definition fatal : bool := match n with Some TextStream | None => false | _ => true end.

Definition truncated (k : json_kind) (e : text) : bool :=
  sequence && match k with Primitive | Null => true | _ => false end && negb (ends_white e).

Definition invalid_record (e : text) : text := codes "[Invalid JSON record]" ++ [LF] ++ trim e ++ [LF].

(** What is shown of the text of a record *)
Definition report (e : text) : list text :=
  if blank e then []
  else match parse e with
       | Some (k, p) => [if truncated k e then invalid_record e else p ++ [LF]]
       | None => [invalid_record e]
       end.

(** u: the record is complete *)
Definition u (st : splitter) : splitter * list text := (Splitter [] 0 (sp_inside st) outermost, report (sp_text st)).

Definition set_inside (st : splitter) (o : bool) : splitter := Splitter (sp_text st) (sp_bytes st) o (sp_nesting st).

(** One character of d *)
Definition d_char (st : splitter) (t : Z) : splitter * list text * option stream_error :=
  if sequence && (t =? RS) then let '(st', x) := u st in (set_inside st' true, x, None)
  else if sequence && negb (sp_inside st) then (st, [], if white t then None else Some MissingSeparator)
  else
    let i := sp_text st ++ [t] in
    let a := sp_bytes st + Yc_char t in
    if Bve <? a then (Splitter i a (sp_inside st) (sp_nesting st), [], Some TooLong)
    else if negb sequence then
      let st' := Splitter i a (sp_inside st) (sp_nesting st) in
      if t =? LF then (u st', None) else (st', [], None)
    else
      let q := nest (sp_nesting st) t in
      let st' := Splitter i a (sp_inside st) q in
      if (t =? LF) && negb (n_string q) && (n_depth q =? 0) && negb (blank i) then
        let '(st'', x) := u st' in (set_inside st'' false, x, None)
      else (st', [], None).

Definition d_step (r : run) (t : Z) : run :=
  match r_error r with
  | Some _ => r
  | None => let '(st, x, e) := d_char (r_split r) t in Run st (r_out r ++ x) e
  end.

(** d: a piece of the text *)
Definition d (r : run) (e : text) : run :=
  if by_record then fold_left d_step e r else Run (r_split r) (r_out r ++ [e]) (r_error r).

Definition push (st : decoder * run) (bs : list Z) : decoder * run :=
  let '(dec, r) := st in
  match r_error r with
  | Some _ => st
  | None =>
      match decode_chunk fatal dec bs with
      | (dec', Some e) => (dec', d r e)
      | (dec', None) => (dec', Run (r_split r) (r_out r) (Some Undecodable))
      end
  end.

Definition complete_last (r : run) : run :=
  match r_error r with
  | Some _ => r
  | None => let '(st, x) := u (r_split r) in Run st (r_out r ++ x) None
  end.

Definition finish (st : decoder * run) : run :=
  let '(dec, r) := st in
  match r_error r with
  | Some _ => r
  | None => match decode_end fatal dec with
            | Some e => complete_last (d r e)
            | None => Run (r_split r) (r_out r) (Some Undecodable)
            end
  end.

Definition start : decoder * run := (fresh_decoder, Run fresh_splitter [] None).

(** What the callback is given of a stream, and the exception that ended it *)
Definition Vve (chunks : list (list Z)) : list text * option stream_error :=
  let r := finish (fold_left push chunks start) in (r_out r, r_error r).

(** The same of a text at once *)
Definition of_text (s : text) : list text * option stream_error :=
  let r := complete_last (d (snd start) s) in (r_out r, r_error r).
End Vve.

(** ** The reference: the lines of a text, the records of a sequence *)

(** The lines with their line ends, the last one without *)
Fixpoint lines (s : text) : list text :=
  match s with
  | [] => [[]]
  | c :: s' => if c =? LF then [c] :: lines s'
               else match lines s' with l :: ls => (c :: l) :: ls | [] => [[c]] end
  end.

(** Every line a report, up to the first one over the limit *)
Fixpoint report_lines (rep : text → list text) (ls : list text) : list text * option stream_error :=
  match ls with
  | [] => ([], None)
  | l :: ls' => if Bve <? Yc l then ([], Some TooLong)
                else let '(o, e) := report_lines rep ls' in (rep l ++ o, e)
  end.

(** A JSON text sequence: every text behind a separator, and before a line end or
    cut off there *)
Definition write_sequence (vs : list (text * bool)) : text :=
  concat ((λ '(v, ended), RS :: v ++ if ended : bool then [LF] else []) <$> vs).

(** The grammar of a JSON text as far as brackets and strings go (commas, colons and
    the shape of numbers and names are not looked at, so it has every JSON text): what
    stands in a string, *)
Inductive string_body : text → Prop :=
| body_nil : string_body []
| body_char c b : c ≠ 34 → c ≠ 92 → string_body b → string_body (c :: b)
| body_escape c b : string_body b → string_body (92 :: c :: b).

(** between brackets, *)
Inductive bracketed : text → Prop :=
| in_nil : bracketed []
| in_char c s : c ∉ [34; 91; 93; 123; 125] → bracketed s → bracketed (c :: s)
| in_string b s : string_body b → bracketed s → bracketed (34 :: b ++ 34 :: s)
| in_object a s : bracketed a → bracketed s → bracketed (123 :: a ++ 125 :: s)
| in_array a s : bracketed a → bracketed s → bracketed (91 :: a ++ 93 :: s).

(** and a value: a number or name, a string, an object or an array *)
Inductive json_value : text → Prop :=
| val_atom a : a ≠ [] → Forall (λ c, white c = false ∧ c ∉ [34; 91; 93; 123; 125]) a → json_value a
| val_string b : string_body b → json_value (34 :: b ++ [34])
| val_object a : bracketed a → json_value (123 :: a ++ [125])
| val_array a : bracketed a → json_value (91 :: a ++ [93]).

(** A value with white space around it, line ends in that before it only *)
Definition json_text (v : text) : Prop := ∃ w x w', v = w ++ x ++ w' ∧
  forallb white w = true ∧ json_value x ∧ forallb white w' = true ∧ LF ∉ w'.

(** A text of at most 8 MiB with its line end, without a separator *)
Definition record_text (v : text) : Prop :=
  Forall scalar_value v ∧ RS ∉ v ∧ json_text v ∧ Z.of_nat (length (utf8 v)) + 1 ≤ 8388608.

(** What is shown of a record: its value, or a notice and the text *)
Definition shown (parse : text → option (json_kind * text)) (e : text) : text :=
  match parse e with
  | Some (_, p) => p ++ [10]
  | None => codes "[Invalid JSON record]" ++ [10] ++ trim e ++ [10]
  end.

(** and of one without a line end: a number, a boolean or null may be cut short,
    unless white space ends it. *)
Definition shown_cut (parse : text → option (json_kind * text)) (e : text) : text :=
  match parse e with
  | Some ((Primitive | Null), _) =>
      if match last e with Some c => white c | None => false end then shown parse e
      else codes "[Invalid JSON record]" ++ [10] ++ trim e ++ [10]
  | _ => shown parse e
  end.

(** ** Laws *)

Lemma Yc_char_pos c : 0 < Yc_char c.
Proof. unfold Yc_char. repeat case_match; lia. Qed.

Lemma Yc_nonneg e : 0 ≤ Yc e.
Proof. induction e as [|c e IH]; cbn; [done|]. pose proof (Yc_char_pos c). lia. Qed.

Lemma Yc_app a b : Yc (a ++ b) = Yc a + Yc b.
Proof. induction a as [|c a IH]; cbn; [done|]. rewrite IH. lia. Qed.

Lemma Yc_utf8 e : Yc e = Z.of_nat (length (utf8 e)).
Proof.
  induction e as [|c e IH]; [done|]. cbn [Yc]. unfold utf8 in *. cbn [fmap list_fmap concat].
  rewrite length_app, Nat2Z.inj_add, <- IH. f_equal. unfold Yc_char, utf8_char.
  destruct (Z.ltb_spec 65535 c), (Z.leb_spec c 127), (Z.leb_spec c 2047), (Z.leb_spec c 65535); try lia; done.
Qed.

(** *** Where a record ends: no line end within [v] completes it, each is in a
    string, in brackets or behind nothing but white space. *)
Fixpoint whole (q : nesting) (before : text) (v : text) : bool :=
  match v with
  | [] => true
  | t :: v' =>
      let q' := nest q t in
      negb ((t =? LF) && negb (n_string q') && (n_depth q' =? 0) && negb (blank (before ++ [t])))
      && whole q' (before ++ [t]) v'
  end.

(** [v] leaves the nesting [q] as it was, and no line end in it completes a record. *)
Definition closed (q : nesting) (b v : text) : Prop := whole q b v = true ∧ fold_left nest v q = q.

Lemma whole_app v v' q b : whole q b (v ++ v') = whole q b v && whole (fold_left nest v q) (b ++ v) v'.
Proof.
  revert q b. induction v as [|t v IH]; intros q b; cbn [app whole fold_left]; [by rewrite app_nil_r|].
  by rewrite IH, andb_assoc, <- (app_assoc b).
Qed.

Lemma balanced_app q b v v' : closed q b v → closed q (b ++ v) v' → closed q b (v ++ v').
Proof.
  intros [H1 H2] [H3 H4]. split; [by rewrite whole_app, H1, H2|]. by rewrite fold_left_app, H2.
Qed.

(** A character that is no line end *)
Lemma whole_cons q b t v : t ≠ LF → whole q b (t :: v) = whole (nest q t) (b ++ [t]) v.
Proof. intros Ht. cbn [whole]. by rewrite (proj2 (Z.eqb_neq t LF)). Qed.

Lemma closed_string s : string_body s → ∀ dp b, closed (Nesting dp true false) b s.
Proof.
  induction 1 as [|c s H1 H2 _ IH|c s _ IH]; intros dp b; [done|..].
  - assert (nest (Nesting dp true false) c = Nesting dp true false) as Hn.
    { unfold nest. cbn [n_string n_escaped]. by rewrite (proj2 (Z.eqb_neq c 92)), (proj2 (Z.eqb_neq c 34)) by done. }
    destruct (IH dp (b ++ [c])) as [Hw Hf]. split.
    + cbn [whole]. by rewrite Hn, Hw, andb_false_r.
    + cbn [fold_left]. by rewrite Hn.
  - destruct (IH dp ((b ++ [92]) ++ [c])) as [Hw Hf]. split.
    + cbn [whole nest n_string n_escaped]. cbn. by rewrite Hw, andb_false_r.
    + done.
Qed.

Lemma nest_plain dp c : c ∉ [34; 91; 93; 123; 125] → nest (Nesting dp false false) c = Nesting dp false false.
Proof.
  rewrite !not_elem_of_cons. intros (H1 & H2 & H3 & H4 & H5 & _). unfold nest. cbn [n_string].
  by rewrite (proj2 (Z.eqb_neq c 34)), (proj2 (Z.eqb_neq c 91)), (proj2 (Z.eqb_neq c 93)),
    (proj2 (Z.eqb_neq c 123)), (proj2 (Z.eqb_neq c 125)) by done.
Qed.

(** Something between an opening and a closing character *)
Lemma closed_between o c q q' b v : o ≠ LF → c ≠ LF → nest q o = q' → nest q' c = q →
  closed q' (b ++ [o]) v → closed q b (o :: v ++ [c]).
Proof.
  intros Ho Hc Hq Hq' [Hw Hf]. split.
  - by rewrite whole_cons, Hq, whole_app, Hw, Hf, whole_cons.
  - cbn [fold_left]. by rewrite Hq, fold_left_app, Hf.
Qed.

Lemma closed_string_value dp b s : string_body s → closed (Nesting dp false false) b (34 :: s ++ [34]).
Proof. intros Hs. eapply closed_between; [done..|]. by apply closed_string. Qed.

Lemma closed_bracketed s : bracketed s → ∀ dp b, 1 ≤ dp → closed (Nesting dp false false) b s.
Proof.
  induction 1 as [|c s Hc _ IH|s' s Hs' _ IH|a s _ IHa _ IH|a s _ IHa _ IH]; intros dp b Hd; [done|..].
  - apply (balanced_app _ _ [c]); [|by apply IH]. split; cbn [whole fold_left]; rewrite (nest_plain _ _ Hc); [|done].
    cbn [n_depth]. by rewrite (proj2 (Z.eqb_neq dp 0)), !andb_false_r by lia.
  - rewrite (app_assoc _ [34] s), app_comm_cons. apply balanced_app; [by apply closed_string_value|by apply IH].
  - rewrite (app_assoc _ [125] s), app_comm_cons. apply balanced_app; [|by apply IH].
    apply (closed_between _ _ _ (Nesting (dp + 1) false false)); [done..| |apply IHa; lia].
    unfold nest. cbn. f_equal. lia.
  - rewrite (app_assoc _ [93] s), app_comm_cons. apply balanced_app; [|by apply IH].
    apply (closed_between _ _ _ (Nesting (dp + 1) false false)); [done..| |apply IHa; lia].
    unfold nest. cbn. f_equal. lia.
Qed.

Lemma closed_value x b : json_value x → closed outermost b x.
Proof.
  intros [a _ Ha|s Hs|a Ha|a Ha].
  - revert b. induction Ha as [|c a [Hw Hc] _ IH]; intros b; [done|]. apply (balanced_app _ _ [c]); [|apply IH].
    split; cbn [whole fold_left]; unfold outermost; rewrite (nest_plain _ _ Hc); [|done].
    destruct (Z.eqb_spec c LF) as [->|]; [by destruct Hw|done].
  - by apply closed_string_value.
  - by eapply closed_between; [| | | |apply closed_bracketed].
  - by eapply closed_between; [| | | |apply closed_bracketed].
Qed.

Lemma white_plain c : white c = true → c ∉ [34; 91; 93; 123; 125].
Proof. intros Hw Hin. assert (Forall (λ c, white c = false) [34; 91; 93; 123; 125]) as Hf by (repeat constructor). rewrite Forall_forall in Hf. by rewrite Hf in Hw. Qed.

Lemma closed_white w b : forallb white w = true → blank b = true ∨ LF ∉ w → closed outermost b w.
Proof.
  revert b. induction w as [|c w IH]; intros b Hw Hb; [done|]. cbn [forallb] in Hw. apply andb_true_iff in Hw as [Hc Hw].
  apply (balanced_app _ _ [c]).
  - split; cbn [whole fold_left]; unfold outermost; rewrite (nest_plain _ _ (white_plain _ Hc)); [|done].
    destruct Hb as [Hb|Hb].
    + unfold blank in *. rewrite forallb_app, Hb. cbn [forallb]. by rewrite Hc, !andb_false_r.
    + apply not_elem_of_cons in Hb as [Hn _]. by rewrite (proj2 (Z.eqb_neq c LF)) by done.
  - apply IH; [done|]. destruct Hb as [Hb|Hb].
    + left. unfold blank in *. rewrite forallb_app, Hb. cbn [forallb]. by rewrite Hc.
    + right. by apply not_elem_of_cons in Hb as [_ Hn].
Qed.

Lemma balanced_text v : json_text v → closed outermost [] v ∧ blank v = false.
Proof.
  intros (w & x & w' & -> & Hw & Hx & Hw' & HLF). split.
  - apply balanced_app; [apply closed_white; auto|]. apply balanced_app; [by apply closed_value|].
    apply closed_white; auto.
  - unfold blank. rewrite !forallb_app. apply andb_false_iff. right. apply andb_false_iff. left.
    destruct Hx as [a Hn Ha|s Hs|a Ha|a Ha]; [|done..]. destruct Ha as [|c a [Hc _] _]; [done|]. cbn [forallb]. by rewrite Hc.
Qed.

Lemma without_bom_app b x y :
  without_bom b (x ++ y) = ((fst (without_bom (fst (without_bom b x)) y)), snd (without_bom b x) ++ snd (without_bom (fst (without_bom b x)) y)).
Proof. destruct x as [|i x]; cbn; [by destruct (without_bom b y)|]. destruct (negb b && bool_decide (i = Some BOM)), y; done. Qed.

Section laws.
Variable parse : text → option (json_kind * text).
Variable n : option streaming.
#[local] Abbreviation d := (d parse n).
#[local] Abbreviation d_step := (d_step parse n).
#[local] Abbreviation push := (push parse n).

Lemma d_failed r s : r_error r ≠ None → fold_left d_step s r = r.
Proof.
  intros H. induction s as [|t s IH]; [done|]. cbn. unfold Records.d_step. by destruct (r_error r).
Qed.

Lemma push_failed dec r chunks : r_error r ≠ None → snd (fold_left push chunks (dec, r)) = r.
Proof.
  intros H. induction chunks as [|bs chunks IH]; [done|]. cbn [fold_left]. unfold Records.push at 2.
  by destruct (r_error r).
Qed.

Lemma push_ok dec r bs dec' e : r_error r = None → decode_chunk (fatal n) dec bs = (dec', Some e) →
  push (dec, r) bs = (dec', d r e).
Proof. intros H1 H2. unfold Records.push. by rewrite H1, H2. Qed.

Lemma by_record_fatal : by_record n = true → fatal n = true.
Proof. by destruct n as [[]|]. Qed.

(** The chunks of the bytes of [s] leave the run where [s] leaves it. *)
Lemma push_chunks chunks : by_record n = true → ∀ dec r o s,
  decode_bytes (d_pending dec) (concat chunks) = (none_pending, o) →
  decoded true (snd (without_bom (d_started dec) o)) = Some s → r_error r = None →
  let '(dec', r') := fold_left push chunks (dec, r) in
  r' = fold_left d_step s r ∧ (r_error r' = None → d_pending dec' = none_pending).
Proof.
  intros Hn. pose proof (by_record_fatal Hn) as Hf.
  induction chunks as [|bs chunks IH]; intros dec r o s Hd Hs Hr.
  - cbn in Hd. injection Hd as Hp <-. cbn in Hs. injection Hs as <-. by cbn.
  - cbn [concat] in Hd. rewrite decode_bytes_app in Hd.
    destruct (decode_bytes (d_pending dec) bs) as [p1 o1] eqn:E1.
    destruct (decode_bytes p1 (concat chunks)) as [p2 o2] eqn:E2. injection Hd as -> <-.
    rewrite without_bom_app in Hs. destruct (without_bom (d_started dec) o1) as [b1 w1] eqn:Ew. cbn [fst snd] in Hs.
    apply decoded_app_inv in Hs as (x & y & Hx & Hy & ->).
    cbn [fold_left]. rewrite (push_ok _ _ _ (Decoder p1 b1) x); [|done|unfold decode_chunk; by rewrite E1, Ew, Hf, Hx].
    rewrite fold_left_app. unfold Records.d. rewrite Hn. set (r1 := fold_left d_step x r).
    destruct (r_error r1) eqn:Er.
    + pose proof (push_failed (Decoder p1 b1) r1 chunks) as H.
      destruct (fold_left push chunks (Decoder p1 b1, r1)) as [dec' r']. cbn in H. rewrite H by congruence.
      rewrite d_failed by congruence. split; [done|congruence].
    + by apply (IH (Decoder p1 b1) r1 o2 y).
Qed.

Definition drop_bom (s : text) : text := match s with c :: s' => if c =? BOM then s' else s | [] => [] end.

Lemma without_bom_text s : snd (without_bom false (Some <$> s)) = Some <$> drop_bom s.
Proof.
  destruct s as [|c s]; [done|]. cbn. destruct (Z.eqb_spec c BOM) as [->|]; [by rewrite bool_decide_true|].
  rewrite bool_decide_false by congruence. done.
Qed.
End laws.

(** The run after the chunks of the bytes of a text *)
Lemma push_text parse n chunks s : by_record n = true → Forall scalar_value s → concat chunks = utf8 s →
  ∃ dec, fold_left (push parse n) chunks start = (dec, d parse n (snd start) (drop_bom s)) ∧
    (r_error (d parse n (snd start) (drop_bom s)) = None → d_pending dec = none_pending).
Proof.
  intros Hn Hs Hc. assert (decode_bytes none_pending (concat chunks) = (none_pending, Some <$> s)) as Hd.
  { rewrite Hc, <- (app_nil_r (utf8 s)), decode_utf8 by done. cbn. by rewrite app_nil_r. }
  pose proof (push_chunks parse n chunks Hn fresh_decoder (snd start) (Some <$> s) (drop_bom s) Hd) as H.
  rewrite without_bom_text, decoded_text in H. specialize (H eq_refl eq_refl).
  change start with (fresh_decoder, snd start) at 1. unfold d. rewrite Hn.
  destruct (fold_left (push parse n) chunks (fresh_decoder, snd start)) as [dec r]. destruct H as [-> Hp]. eauto.
Qed.

Lemma Vve_text parse n chunks s : by_record n = true → Forall scalar_value s →
  concat chunks = utf8 s → Vve parse n chunks = of_text parse n (drop_bom s).
Proof.
  intros Hn Hs Hc. destruct (push_text parse n chunks s Hn Hs Hc) as (dec & Hr & Hp).
  unfold Vve, of_text. rewrite Hr. set (r := d parse n (snd start) (drop_bom s)) in *.
  unfold finish, complete_last.
  destruct (r_error r) eqn:E; [done|]. unfold decode_end. rewrite (Hp eq_refl). cbn [need none_pending decoded].
  unfold d. rewrite Hn. cbn [fold_left]. unfold complete_last. by rewrite E.
Qed.

(** C11. A stream of records is read the same in whatever chunks its bytes arrive, cut
    within a record, a line end or the bytes of one character: the reports and the
    exception are those of the text as a whole, less a byte order mark. *)
Theorem stream_chunks_do_not_matter parse n chunks s : by_record n = true → Forall scalar_value s →
  concat chunks = utf8 s → Vve parse n chunks = of_text parse n (drop_bom s).
Proof. apply Vve_text. Qed.

(** ** JSON lines *)

Section lines.
Variable parse : text → option (json_kind * text).
#[local] Abbreviation rep := (report parse (Some JsonLines)).

Definition held (i : text) (out : list text) : run := Run (Splitter i (Yc i) false outermost) out None.

Lemma line_char i out t :
  d_step parse (Some JsonLines) (held i out) t =
  if Bve <? Yc (i ++ [t]) then Run (Splitter (i ++ [t]) (Yc (i ++ [t])) false outermost) out (Some TooLong)
  else if t =? LF then held [] (out ++ rep (i ++ [t])) else held (i ++ [t]) out.
Proof.
  unfold d_step, held, d_char. cbn -[Bve]. rewrite Yc_app. cbn [Yc]. rewrite Z.add_0_r.
  destruct (Bve <? Yc i + Yc_char t); [by rewrite app_nil_r|]. destruct (t =? LF); [done|by rewrite app_nil_r].
Qed.

Definition prepend (i : text) (ls : list text) : list text := match ls with l :: ls' => (i ++ l) :: ls' | [] => [i] end.

Lemma lines_from s : ∀ i out, Yc i ≤ Bve →
  let r := complete_last parse (Some JsonLines) (fold_left (d_step parse (Some JsonLines)) s (held i out)) in
  (r_out r, r_error r) =
  let '(o, e) := report_lines rep (prepend i (lines s)) in (out ++ o, e).
Proof.
  induction s as [|t s IH]; intros i out Hi.
  - cbn -[Bve]. rewrite app_nil_r, (proj2 (Z.ltb_ge Bve (Yc i))) by done. cbn. by rewrite app_nil_r.
  - cbn [fold_left lines]. rewrite line_char.
    destruct (Z.ltb_spec Bve (Yc (i ++ [t]))) as [Hl|Hl].
    + rewrite d_failed by done. cbn zeta. cbn [complete_last r_error r_out].
      assert (∃ l ls, prepend i (if t =? LF then [t] :: lines s
        else match lines s with l :: ls => (t :: l) :: ls | [] => [[t]] end) = (i ++ t :: l) :: ls) as (l & ls & ->).
      { destruct (t =? LF); [by eexists _, _|]. destruct (lines s); by eexists _, _. }
      cbn [report_lines]. rewrite (proj2 (Z.ltb_lt Bve (Yc (i ++ t :: l)))); [by rewrite app_nil_r|].
      rewrite cons_middle, app_assoc, Yc_app. pose proof (Yc_nonneg l). lia.
    + destruct (Z.eqb_spec t LF) as [->|Ht].
      * rewrite IH by (cbn; unfold Bve; lia). cbn [prepend report_lines]. rewrite (proj2 (Z.ltb_ge Bve (Yc (i ++ [LF])))) by done.
        assert (prepend [] (lines s) = lines s) as ->.
        { destruct s as [|c s]; [done|]. cbn [lines]. destruct (c =? LF); [done|]. by destruct (lines s). }
        destruct (report_lines rep (lines s)) as [o e]. by rewrite app_assoc.
      * rewrite IH by done. assert (prepend (i ++ [t]) (lines s) = prepend i match lines s with l :: ls => (t :: l) :: ls | [] => [[t]] end) as ->; [|done].
        destruct (lines s); cbn; [done|]. by rewrite <- app_assoc.
Qed.

(** JSON lines are read line by line: the reports are those of the lines of the
    text, the last one with or without its line end, blank lines skipped; the first
    line over 8 MiB ends the stream with the exception, after the reports of the
    lines before it. *)
Theorem json_lines_are_the_lines s : of_text parse (Some JsonLines) s = report_lines rep (lines s).
Proof.
  pose proof (lines_from s [] [] ltac:(cbn; unfold Bve; lia)) as H. cbn zeta in H. unfold of_text, d. cbn [by_record].
  change (snd start) with (held [] []). etransitivity; [exact H|].
  assert (prepend [] (lines s) = lines s) as ->.
  { destruct s as [|c s]; [done|]. cbn [lines]. destruct (c =? LF); [done|]. by destruct (lines s). }
  by destruct (report_lines rep (lines s)).
Qed.
End lines.

(** ** JSON text sequences *)

Section sequences.
Variable parse : text → option (json_kind * text).
#[local] Abbreviation rep := (report parse (Some JsonSeq)).
#[local] Abbreviation step := (d_step parse (Some JsonSeq)).

Definition inside (i : text) (q : nesting) (out : list text) : run := Run (Splitter i (Yc i) true q) out None.
Definition between_records (out : list text) : run := Run (Splitter [] 0 false outermost) out None.

Lemma sequence_char i q out t : t ≠ RS → Yc (i ++ [t]) ≤ Bve →
  step (inside i q out) t =
  if (t =? LF) && negb (n_string (nest q t)) && (n_depth (nest q t) =? 0) && negb (blank (i ++ [t]))
  then between_records (out ++ rep (i ++ [t])) else inside (i ++ [t]) (nest q t) out.
Proof.
  intros Ht Hl. unfold d_step, inside, d_char. cbn -[Bve nest blank].
  rewrite (proj2 (Z.eqb_neq t RS)) by done. rewrite Yc_app in *. cbn [Yc] in *. rewrite Z.add_0_r in *.
  rewrite (proj2 (Z.ltb_ge Bve _)) by done. cbn -[Bve nest blank].
  by destruct (_ && negb (blank (i ++ [t]))); [|rewrite app_nil_r].
Qed.

Lemma sequence_text v : ∀ i q out, RS ∉ v → whole q i v = true → Yc (i ++ v) ≤ Bve →
  fold_left step v (inside i q out) = inside (i ++ v) (fold_left nest v q) out.
Proof.
  induction v as [|t v IH]; intros i q out Hr Hw Hl; [by rewrite app_nil_r|].
  apply not_elem_of_cons in Hr as [Ht Hr]. cbn [whole] in Hw. apply andb_true_iff in Hw as [Hb Hw].
  rewrite cons_middle, app_assoc in Hl |- *. cbn [fold_left].
  rewrite sequence_char; [|done|rewrite Yc_app in Hl; pose proof (Yc_nonneg v); lia].
  apply negb_true_iff in Hb. rewrite Hb. by apply IH.
Qed.

Lemma report_shown v : record_text v → rep (v ++ [LF]) = [shown parse (v ++ [LF])] ∧ rep v = [shown_cut parse v].
Proof.
  intros (_ & _ & Hj & _). apply balanced_text in Hj as [_ Hb].
  assert (blank (v ++ [LF]) = false) as Hb' by (unfold blank in *; by rewrite forallb_app, Hb).
  unfold report, shown_cut, shown, truncated, ends_white. rewrite Hb, Hb', last_snoc. cbn [sequence andb].
  split.
  - destruct (parse (v ++ [LF])) as [[k p]|]; [|done]. by destruct k.
  - destruct (parse v) as [[k p]|]; [|done]. destruct k, (last v) as [c|]; cbn -[white]; try done; by destruct (white c).
Qed.

(** What is shown of a record once the separator of the next one or the end of the
    stream completes it at the latest *)
Definition said (ve : text * bool) : text :=
  let '(v, ended) := ve in if ended : bool then shown parse (v ++ [LF]) else shown_cut parse v.

Definition after (r : run) (out : list text) : Prop :=
  step r RS = inside [] outermost out ∧
  (r_out (complete_last parse (Some JsonSeq) r), r_error (complete_last parse (Some JsonSeq) r)) = (out, None).

Lemma after_between out : after (between_records out) out.
Proof. unfold after, d_step, between_records, d_char. cbn. by rewrite app_nil_r. Qed.

Lemma record_read v r out : record_text v → after r out →
  fold_left step (RS :: v) r = inside v outermost out.
Proof.
  intros (_ & Hr & Hj & Hl) [Hs _]. apply balanced_text in Hj as [[Hw Hq] _]. cbn [fold_left].
  rewrite Hs, sequence_text, Hq; [done|done|done|]. cbn [app]. rewrite Yc_utf8. unfold Bve. lia.
Qed.

Lemma record_completed v r out : record_text v → after r out →
  fold_left step (RS :: v ++ [LF]) r = between_records (out ++ [shown parse (v ++ [LF])]).
Proof.
  intros Hv Hr. rewrite app_comm_cons, fold_left_app, (record_read v r out) by done. cbn [fold_left].
  destruct (report_shown v Hv) as [<- _]. destruct Hv as (_ & _ & Hj & Hl). apply balanced_text in Hj as [_ Hb].
  rewrite sequence_char; [|done|rewrite Yc_app, Yc_utf8; cbn; unfold Bve; lia].
  unfold blank in *. by rewrite forallb_app, Hb.
Qed.

Lemma record_after ve r out : record_text ve.1 → after r out →
  after (fold_left step (write_sequence [ve]) r) (out ++ [said ve]).
Proof.
  destruct ve as [v []]; intros Hv Hr; unfold write_sequence; cbn [fmap list_fmap concat fst]; rewrite !app_nil_r.
  - rewrite (record_completed v r out) by done. apply after_between.
  - rewrite (record_read v r out) by done. cbn [said]. by destruct (report_shown v Hv) as [_ <-].
Qed.

Lemma records_after vs : Forall (record_text ∘ fst) vs → ∀ r out, after r out →
  after (fold_left step (write_sequence vs) r) (out ++ (said <$> vs)).
Proof.
  induction 1 as [|ve vs Hv _ IH]; intros r out Hr; [cbn; by rewrite app_nil_r|].
  change (ve :: vs) with ([ve] ++ vs). unfold write_sequence. rewrite !fmap_app, concat_app, fold_left_app, app_assoc.
  by apply IH, record_after.
Qed.

Lemma sequence_scalar vs : Forall (record_text ∘ fst) vs → Forall scalar_value (write_sequence vs).
Proof.
  induction 1 as [|[v e] vs (Hs & _) _ IH]; [done|]. unfold write_sequence. cbn [fmap list_fmap concat].
  apply Forall_app. split; [|done]. apply Forall_cons. split; [left; unfold RS; lia|].
  apply Forall_app. split; [done|]. destruct e; [|done]. apply Forall_singleton. left. unfold LF. lia.
Qed.

(** C27. A JSON text sequence is read back record by record, in whatever chunks its
    bytes arrive: of JSON texts behind a separator, before a line end or cut off
    there, each without a separator in it, at most 8 MiB with the line end, with line
    ends only before the value, in its strings and its brackets, every one is shown
    once, in order; one with a line end is shown as soon as that has arrived; a
    number, a boolean or null that was cut off is reported as invalid unless white
    space ends it. What JSON.parse makes of a text is a parameter. *)
Theorem json_sequence_is_read_back vs chunks : Forall (record_text ∘ fst) vs →
  concat chunks = utf8 (write_sequence vs) →
  Vve parse (Some JsonSeq) chunks = (said <$> vs, None) ∧
  ∀ vs' v, vs = vs' ++ [(v, true)] →
    r_out (snd (fold_left (push parse (Some JsonSeq)) chunks start)) = said <$> vs.
Proof.
  intros Hvs Hc. pose proof (sequence_scalar _ Hvs) as Hs.
  assert (drop_bom (write_sequence vs) = write_sequence vs) as Hbom by by destruct vs as [|[]].
  split.
  - rewrite (Vve_text parse (Some JsonSeq) _ _ eq_refl Hs Hc), Hbom. unfold of_text, d. cbn [by_record].
    apply (records_after vs Hvs (snd start) []). apply after_between.
  - intros vs' v ->. destruct (push_text parse (Some JsonSeq) _ _ eq_refl Hs Hc) as (dec & -> & _).
    rewrite Hbom. unfold d. cbn [by_record snd]. apply Forall_app in Hvs as [Hvs [Hv _]%Forall_cons].
    assert (write_sequence (vs' ++ [(v, true)]) = write_sequence vs' ++ RS :: v ++ [LF]) as ->.
    { unfold write_sequence. rewrite fmap_app, concat_app. cbn [fmap list_fmap concat]. by rewrite app_nil_r. }
    rewrite fold_left_app, fmap_app. pose proof (records_after vs' Hvs (snd start) [] (after_between [])) as Hr.
    by rewrite (record_completed v _ _ Hv Hr).
Qed.
End sequences.

(** ** Exceptions and bounds *)

(** The last record of a sequence is cut short when nothing ends it: a number, a
    boolean or null without white space behind it is reported as invalid, since more
    of it may be missing. *)
Lemma truncated_primitive_is_invalid parse v k p : blank v = false → ends_white v = false → parse v = Some (k, p) →
  report parse (Some JsonSeq) v =
  [match k with Primitive | Null => invalid_record v | Composite | Text => p ++ [LF] end].
Proof. intros Hb He Hp. unfold report, truncated. rewrite Hb, Hp, He. by destruct k. Qed.

(** Text before the first separator is an exception, white space is not. *)
Lemma white_before_separator parse w out : forallb white w = true →
  fold_left (d_step parse (Some JsonSeq)) w (between_records out) = between_records out.
Proof.
  assert (white RS = false) as HRS by done.
  induction w as [|c w IH]; [done|]. cbn [forallb]. intros [Hc Hw]%andb_true_iff. cbn [fold_left].
  assert (d_step parse (Some JsonSeq) (between_records out) c = between_records out) as ->; [|by apply IH].
  unfold d_step, between_records, d_char. cbn -[white]. destruct (Z.eqb_spec c RS) as [->|]; [by rewrite HRS in Hc|].
  cbn -[white]. by rewrite Hc, app_nil_r.
Qed.

Lemma text_before_separator parse w c s : forallb white w = true → white c = false → c ≠ RS →
  of_text parse (Some JsonSeq) (w ++ c :: s) = ([], Some MissingSeparator).
Proof.
  intros Hw Hc Hr. unfold of_text, d. cbn [by_record]. change (snd start) with (between_records []).
  rewrite fold_left_app, white_before_separator by done. cbn [fold_left].
  assert (d_step parse (Some JsonSeq) (between_records []) c = Run fresh_splitter [] (Some MissingSeparator)) as ->.
  { unfold d_step, between_records, d_char. cbn -[white]. rewrite (proj2 (Z.eqb_neq c RS)) by done. cbn -[white]. by rewrite Hc. }
  by rewrite d_failed.
Qed.

(** What the reader holds while a stream is read *)
Definition bounded (n : option streaming) (r : run) : Prop :=
  r_error r = None →
  sp_bytes (r_split r) = Yc (sp_text (r_split r)) ∧ sp_bytes (r_split r) ≤ Bve ∧
  (sequence n = true → sp_inside (r_split r) = false → sp_text (r_split r) = []).

Lemma bounded_step parse n r t : bounded n r → bounded n (d_step parse n r t).
Proof.
  unfold bounded, d_step. destruct (r_error r) eqn:E; [by rewrite E|]. intros H. specialize (H eq_refl) as (H1 & H2 & H3).
  destruct (r_split r) as [i a o q]. cbn [sp_text sp_bytes sp_inside] in *. subst a. unfold d_char, u, set_inside. cbn -[Bve].
  assert (Yc i + Yc_char t = Yc (i ++ [t])) as Hi by (rewrite Yc_app; cbn; lia). rewrite Hi.
  assert (0 ≤ Bve) as H0 by (unfold Bve; lia).
  destruct (sequence n) eqn:Es, (t =? RS), o; cbn -[Bve]; repeat case_match; intros; simplify_eq/=; try done;
    split_and!; try done; try lia; intros; try done; try discriminate.
Qed.

(** The reader never holds more than 8 MiB of a record: whatever the bytes and the
    chunks, as long as no exception was raised the count of bytes is that of the text
    held, within the limit, and between two records of a sequence nothing is held. *)
Theorem records_are_bounded parse n chunks : by_record n = true →
  bounded n (snd (fold_left (push parse n) chunks start)) ∧ bounded n (finish parse n (fold_left (push parse n) chunks start)).
Proof.
  intros Hn. assert (∀ s r, bounded n r → bounded n (d parse n r s)) as Hd.
  { intros s. unfold d. rewrite Hn. induction s as [|t s IH]; intros r Hr; [done|]. cbn [fold_left]. by apply IH, bounded_step. }
  assert (∀ cs st, bounded n (snd st) → bounded n (snd (fold_left (push parse n) cs st))) as Hp.
  { intros cs. induction cs as [|bs cs IH]; intros [dec r] Hr; [done|]. cbn [fold_left]. apply IH. unfold push.
    destruct (r_error r); [done|]. destruct (decode_chunk (fatal n) dec bs) as [dec' [e|]]; [by apply Hd|done]. }
  assert (bounded n (snd start)) as H0 by (intros _; unfold Bve; cbn; split_and!; try lia; done).
  specialize (Hp chunks start H0). split; [done|]. destruct (fold_left (push parse n) chunks start) as [dec r]. cbn [snd] in Hp.
  unfold finish. destruct (r_error r) eqn:E; [done|]. destruct (decode_end (fatal n) dec) as [e|]; [|done].
  specialize (Hd e r Hp). revert Hd. generalize (d parse n r e). intros r' Hr'. unfold complete_last.
  destruct (r_error r') eqn:E'; [done|]. intros _. cbn -[Bve]. split_and!; [done|unfold Bve; lia|done].
Qed.

(** ** On concrete streams *)

(** JSON.parse of the texts below *)
Definition sample_json (e : text) : option (json_kind * text) :=
  if bool_decide (trim e = codes "12") then Some (Primitive, codes "12")
  else if bool_decide (trim e = codes "[1]") then Some (Composite, codes "[1]") else None.

(** A letter of two bytes cut between them *)
Lemma stream_chunks_do_not_matter_witness :
  Vve sample_json (Some JsonLines) [[239; 187]; [191; 49; 50; 10; 195]; [169; 10]] =
    ([codes "12" ++ [LF]; invalid_record [233; 10]], None) ∧
  of_text sample_json (Some JsonLines) [49; 50; 10; 233; 10] = ([codes "12" ++ [LF]; invalid_record [233; 10]], None).
Proof.
  split; [|vm_compute; reflexivity].
  rewrite (stream_chunks_do_not_matter sample_json (Some JsonLines) _ [65279; 49; 50; 10; 233; 10]); [vm_compute; reflexivity|reflexivity| |reflexivity].
  repeat constructor; unfold scalar_value; lia.
Defined.

(** An array over two lines, an array with a bracket in a string, and a number; the
    bytes come one by one; the second and the fourth have lost their line ends. *)
Definition sample_texts : list (text * bool) :=
  [(codes "[" ++ [LF] ++ codes "1]", true); (codes "[1]", false); ([91; 34; 93; 34; 93], true);
   (codes "12", false); (codes "12", true)].

Lemma sample_texts_are_records : Forall (record_text ∘ fst) sample_texts.
Proof.
  assert (∀ v, forallb (λ c, (0 <=? c) && (c <? 128) && negb (c =? RS)) v = true →
    json_text v → Z.of_nat (length (utf8 v)) + 1 ≤ 8388608 → record_text v) as H.
  { intros v Hc Hj Hl. split_and!; try done.
    - apply Forall_forall. intros c Hin. apply forallb_forall with (x := c) in Hc; [|by apply list_elem_of_In]. left. lia.
    - intros Hin. apply forallb_forall with (x := RS) in Hc; [done|]. by apply list_elem_of_In. }
  assert (∀ x, json_value x → json_text x) as Hj.
  { intros x Hx. exists [], x, []. rewrite app_nil_r. split_and!; try done. by intros []%elem_of_nil. }
  assert (∀ c : Z, bool_decide (c ∉ [34; 91; 93; 123; 125]) = true → c ∉ [34; 91; 93; 123; 125]) as Hn
    by (intros c; apply bool_decide_eq_true).
  unfold sample_texts. rewrite !Forall_cons. cbn [compose fst]. split_and!; [| | | | |by apply Forall_nil];
    (apply H; [vm_compute; reflexivity|apply Hj|by apply Z.leb_le; vm_compute]).
  - apply (val_array [LF; 49]). do 2 (apply in_char; [by apply Hn|]). constructor.
  - apply (val_array [49]). apply in_char; [by apply Hn|]. constructor.
  - apply (val_array [34; 93; 34]). apply (in_string [93] []); repeat constructor; done.
  - apply val_atom; [done|]. repeat (apply Forall_cons; split; [split; [done|by apply Hn]|]). by apply Forall_nil.
  - apply val_atom; [done|]. repeat (apply Forall_cons; split; [split; [done|by apply Hn]|]). by apply Forall_nil.
Qed.

Lemma json_sequence_is_read_back_witness :
  let chunks := (λ b, [b]) <$> utf8 (write_sequence sample_texts) in
  let out := [invalid_record (codes "[" ++ [LF] ++ codes "1]"); codes "[1]" ++ [LF];
      invalid_record [91; 34; 93; 34; 93]; invalid_record (codes "12"); codes "12" ++ [LF]] in
  Vve sample_json (Some JsonSeq) chunks = (out, None) ∧
  r_out (snd (fold_left (push sample_json (Some JsonSeq)) chunks start)) = out.
Proof.
  cbv zeta. assert (∀ l : list Z, concat ((λ b, [b]) <$> l) = l) as Hc by (induction l as [|b l IH]; [done|]; cbn; by f_equal).
  edestruct (json_sequence_is_read_back sample_json sample_texts
    ((λ b, [b]) <$> utf8 (write_sequence sample_texts)) sample_texts_are_records (Hc _)) as [H1 H2].
  split; [etransitivity; [exact H1|vm_compute; reflexivity]|].
  etransitivity; [exact (H2 (take 4 sample_texts) (codes "12") eq_refl)|vm_compute; reflexivity].
Defined.

Lemma records_are_bounded_witness :
  bounded (Some JsonSeq) (snd (fold_left (push sample_json (Some JsonSeq)) [[30; 49]; [255]] start)) ∧
  r_error (finish sample_json (Some JsonSeq) (fold_left (push sample_json (Some JsonSeq)) [[30; 49]; [255]] start)) = Some Undecodable.
Proof. split; [exact (proj1 (records_are_bounded sample_json (Some JsonSeq) [[30; 49]; [255]] eq_refl))|vm_compute; reflexivity]. Defined.
