(* ===== verification/Multipart.v ===== *)
(** * scalar.js: the parts of a multipart response

    [Gc] shows a multipart body while it arrives. It keeps the bytes not yet
    consumed, looks for the lines of the boundary and shows each part it completes,
    a nested multipart by a reader of its own. [scan] is what the buffer does, its events in
    order; [reader] runs them against the callback. An exception ends the reader.
    Parameters: [decode] is [new TextDecoder(charset).decode(bytes)] ([None] for a charset it
    does not know), [reformat] is [JSON.stringify(JSON.parse(e), null, 2)]. The header lines
    of a part are ASCII. *)
From S2P Require Import Prelude Mime Utf8 Records.
#[local] Open Scope list_scope.

(** ** Bytes *)

Definition CR : Z := 13.
Definition CRLF : list Z := [13; 10].

(** [e.startsWith(p)] *)
Fixpoint starts (p e : list Z) : bool :=
  match p, e with
  | [], _ => true
  | a :: p', b :: e' => (a =? b) && starts p' e'
  | _ :: _, [] => false
  end.

(** [e.indexOf(p)] *)
Fixpoint find_sub (p e : list Z) : option nat :=
  if starts p e then Some O else match e with [] => None | _ :: e' => option_map S (find_sub p e') end.

Definition pad (c : Z) : bool := (c =? 32) || (c =? 9).

(** [/^[ \t]*$/] and [/^--[ \t]*$/] *)
Definition padding (i : list Z) : bool := forallb pad i.
Definition closing (i : list Z) : bool := match i with a :: b :: i' => (a =? 45) && (b =? 45) && padding i' | _ => false end.

(** ** The buffer *)

Definition Uc : nat := Z.to_nat (8 * 1024 * 1024).

Record scanner : Type := Scanner {
  buf : list Z;      (* o, its first s bytes *)
  pos : nat;         (* c: no boundary begins before it *)
  eol : nat;         (* l: where the search for the line end is *)
  started : bool;    (* u: behind the first boundary *)
  closed : bool      (* d: behind the last one *) }.

Definition fresh_scanner : scanner := Scanner [] 0 0 false false.

Inductive mp_error : Type := NoBoundary | TooDeep | PartTooLong | NoHeaders | Unclosed | BadCharset.

Inductive event : Type := Part (e : list Z) | Throw (e : mp_error).

(** Is there a boundary at [t], at the start of a line? *)
Definition at_boundary (a o : list Z) (t : nat) : bool :=
  (Nat.eqb t 0 || (Nat.leb 2 t && bool_decide (o !! (t - 2)%nat = Some CR) && bool_decide (o !! (t - 1)%nat = Some LF)))
  && starts a (drop t o).

(** How far the first line end is, or the last byte *)
Fixpoint line_end (o : list Z) : nat :=
  match o with
  | a :: ((b :: _) as o') => if (a =? CR) && (b =? LF) then O else S (line_end o')
  | _ => O
  end.

(** The loop of h *)
Fixpoint loop (fuel : nat) (a : list Z) (final : bool) (sc : scanner) : scanner * list event :=
  match fuel with
  | O => (sc, [])
  | S f =>
      let o := buf sc in
      let s := length o in
      let t := pos sc in
      if closed sc || Nat.ltb s (t + length a) then (sc, [])
      else if negb (at_boundary a o t) then loop f a final (Scanner o (S t) (eol sc) (started sc) (closed sc))
      else
        let n := (t + length a)%nat in
        let l0 := Nat.max (eol sc) n in
        let l := (l0 + line_end (drop l0 o))%nat in
        let r := if Nat.ltb (S l) s then Some l else None in
        match r, final with
        | None, false => (Scanner o t l (started sc) (closed sc), [])
        | _, _ =>
            let i := take (default s r - n) (drop n o) in
            if closing i || padding i then
              let h := match r with None => s | Some r => (r + 2)%nat end in
              let '(sc', evs) := loop f a final (Scanner (drop h o) 0 0 true (closing i)) in
              (sc', (if started sc then [Part (take (t - 2) o)] else []) ++ evs)
            else loop f a final (Scanner o n 0 (started sc) (closed sc))
        end
  end.

(** h *)
Definition h (a : list Z) (final : bool) (sc : scanner) : scanner * list event :=
  let '(sc', evs) := loop (S (length (buf sc))) a final sc in
  (sc', evs ++ if Nat.ltb (Uc + length a + 6) (length (buf sc')) then [Throw PartTooLong]
               else if final && negb (closed sc') then [Throw Unclosed] else []).

(** One piece of at most 64 KiB *)
Definition push_piece (a : list Z) (sc : scanner) (n : list Z) : scanner * list event :=
  if closed sc then (sc, []) else h a false (Scanner (buf sc ++ n) (pos sc) (eol sc) (started sc) false).

Definition piece_size : nat := Z.to_nat 65536.

Fixpoint pieces_of (fuel : nat) (e : list Z) : list (list Z) :=
  match fuel, e with
  | S f, _ :: _ => take piece_size e :: pieces_of f (drop piece_size e)
  | _, _ => []
  end.

(** push *)
Fixpoint push_pieces (a : list Z) (sc : scanner) (ns : list (list Z)) : scanner * list event :=
  match ns with
  | [] => (sc, [])
  | n :: ns' => let '(sc1, e1) := push_piece a sc n in let '(sc2, e2) := push_pieces a sc1 ns' in (sc2, e1 ++ e2)
  end.

Definition push_bytes (a : list Z) (sc : scanner) (e : list Z) : scanner * list event := push_pieces a sc (pieces_of (length e) e).

Fixpoint push_chunks (a : list Z) (sc : scanner) (es : list (list Z)) : scanner * list event :=
  match es with
  | [] => (sc, [])
  | e :: es' => let '(sc1, e1) := push_bytes a sc e in let '(sc2, e2) := push_chunks a sc1 es' in (sc2, e1 ++ e2)
  end.

(** All the events of a body *)
Definition scan (a : list Z) (es : list (list Z)) : list event :=
  let '(sc, e1) := push_chunks a fresh_scanner es in
  let '(_, e2) := h a true sc in e1 ++ e2.

(** ** The parts *)

Definition to_string (e : list Z) : string := string_of_list_ascii ((λ c, ascii_of_nat (Z.to_nat c)) <$> e).

(** [a.replace(/\r\n[ \t]+/g, ` `)] *)
Fixpoint unfold_headers (folding : bool) (a : list Z) : list Z :=
  match a with
  | [] => []
  | x :: a' =>
      if folding && pad x then unfold_headers true a'
      else match a' with
           | y :: ((z :: _) as a'') => if (x =? CR) && (y =? LF) && pad z then 32 :: unfold_headers true a''
                                       else x :: unfold_headers false a'
           | _ => x :: unfold_headers false a'
           end
  end.

Definition lower_code (c : Z) : Z := if (65 <=? c) && (c <=? 90) then c + 32 else c.

Fixpoint starts_ci (p e : list Z) : option (list Z) :=
  match p, e with
  | [], _ => Some e
  | a :: p', b :: e' => if a =? lower_code b then starts_ci p' e' else None
  | _ :: _, [] => None
  end.

Definition line_break (c : Z) : bool := (c =? CR) || (c =? LF).

Fixpoint first_line (e : list Z) : list Z :=
  match e with [] => [] | c :: e' => if line_break c then [] else c :: first_line e' end.

(** [match(/^content-type:\s*(.+)$/im)?.[1]?.trim()]: behind the first such name the
    white space may end its line. *)
Fixpoint content_type (at_start : bool) (e : list Z) : option (list Z) :=
  let rest := match e with [] => None | c :: e' => content_type (line_break c) e' end in
  if at_start then
    match starts_ci (codes "content-type:") e with
    | Some v => match trim_start v with [] => rest | v' => Some (trim (first_line v')) end
    | None => rest
    end
  else rest.

Definition Lve : nat := 8.

Definition b64_digit (n : Z) : Z :=
  if n <? 26 then 65 + n else if n <? 52 then 71 + n else if n <? 62 then n - 4 else if n =? 62 then 43 else 47.

(** [btoa(o)] *)
Fixpoint btoa (o : list Z) : text :=
  match o with
  | [] => []
  | [x] => [b64_digit (x / 4); b64_digit (x mod 4 * 16); 61; 61]
  | [x; y] => [b64_digit (x / 4); b64_digit (x mod 4 * 16 + y / 16); b64_digit (y mod 16 * 4); 61]
  | x :: y :: z :: o' =>
      b64_digit (x / 4) :: b64_digit (x mod 4 * 16 + y / 16) :: b64_digit (y mod 16 * 4 + z / 64) :: b64_digit (z mod 64) :: btoa o'
  end.

Fixpoint digits (fuel : nat) (n : Z) : text :=
  match fuel with
  | O => []
  | S f => (if n <? 10 then [] else digits f (n / 10)) ++ [48 + n mod 10]
  end.

Definition decimal (n : nat) : text := digits (S n) (Z.of_nat n).

(** The characters of a boundary *)
Definition boundary_byte (c : ascii) : bool :=
  byte_in 48 57 c || byte_in 65 90 c || byte_in 97 122 c ||
  existsb (Ascii.eqb c) ["'"; "("; ")"; "+"; "_"; ","; "-"; "."; "/"; ":"; "="; "?"; " "]%char.

Fixpoint last_char (s : string) : option ascii :=
  match s with "" => None | String c "" => Some c | String _ s' => last_char s' end.

Definition boundary_of (e : string) : option string :=
  match map_get "boundary" (m_params (zc (Some e))) with
  | Some i =>
      if String.eqb i "" || negb (sforall boundary_byte i && Nat.leb (String.length i) 70)
         || bool_decide (last_char i = Some " "%char)
      then None else Some i
  | None => None
  end.

Section Gc.
Variable decode : string → list Z → option text.
Variable reformat : text → option text.

(** What the reader showed: the parts so far, the texts and the exception *)
Record shown : Type := Shown { sh_parts : nat; sh_out : list text; sh_error : option mp_error }.

Section p.
(** The reader of a nested multipart: its content type, the prefix of its numbers and
    its body *)
Variable nested : string → text → list Z → list text * option mp_error.

(** p behind the split into header lines [a] and body [o] *)
Definition show_body (r : text) (f : nat) (a o : list Z) : list text * option mp_error :=
  let s := match content_type true (unfold_headers false a) with Some v => to_string v | None => "text/plain" end in
  let c := zc (Some s) in
  let l := r ++ decimal (S f) in
  let title := codes "Part " ++ l ++ [LF] ++ match a with [] => [LF] | _ => a ++ [LF; LF] end in
  if String.eqb (m_type c) "multipart" then
    let '(out, err) := nested s (l ++ codes ".") o in (title :: out, err)
  else if String.eqb (m_type c) "text" || ends_with "json" (m_subtype c) || ends_with "xml" (m_subtype c) then
    match decode (default "utf-8" (map_get "charset" (m_params c))) o with
    | Some e => ([title; default e (reformat e) ++ [LF]], None)
    | None => ([title], Some BadCharset)
    end
  else ([title; codes "[Binary part: " ++ decimal (length o) ++ codes " bytes, base64]" ++ [LF] ++ btoa o ++ [LF]], None).

(** p: one part, numbered from [f] *)
Definition show_part (r : text) (f : nat) (e : list Z) : list text * option mp_error :=
  if Nat.ltb Uc (length e) then ([], Some PartTooLong)
  else
    match (if starts CRLF e then Some O else find_sub (CRLF ++ CRLF) e) with
    | None => ([], Some NoHeaders)
    | Some i => show_body r f (take i e) (drop (i + (if Nat.eqb i 0 then 2 else 4)) e)
    end.

Definition on_event (r : text) (sh : shown) (ev : event) : shown :=
  match sh_error sh with
  | Some _ => sh
  | None =>
      match ev with
      | Throw e => Shown (sh_parts sh) (sh_out sh) (Some e)
      | Part e => let '(out, err) := show_part r (sh_parts sh) e in Shown (S (sh_parts sh)) (sh_out sh ++ out) err
      end
  end.

Definition show_events (r : text) (evs : list event) : list text * option mp_error :=
  let sh := fold_left (on_event r) evs (Shown 0 [] None) in (sh_out sh, sh_error sh).
End p.

(** Gc with its push and finish; [left] levels of nesting are left of [Lve]. *)
Fixpoint reader (left : nat) (e : string) (r : text) (chunks : list (list Z)) : list text * option mp_error :=
  match boundary_of e with
  | None => ([], Some NoBoundary)
  | Some i =>
      match left with
      | O => ([], Some TooDeep)
      | S left' => show_events (λ s l o, reader left' s l [o]) r (scan (codes ("--" +:+ i)) chunks)
      end
  end.

Definition Gc (e : string) (chunks : list (list Z)) : list text * option mp_error := reader Lve e [] chunks.
End Gc.
