(* ===== verification/MultipartLaws.v ===== *)
(** * scalar.js: the laws of the multipart reader

    A body written part by part is read back as its parts in whatever chunks it
    arrives ([multipart_is_read_back]); a body whose closing boundary is missing ends in
    an exception ([unclosed_body_is_an_error]). [scan_body] is what FormData.v uses. *)
From S2P Require Import Prelude Mime Utf8 Records Multipart.
#[local] Open Scope list_scope.

(** ** The text of a body *)

(** What follows the boundary before the parts [ps]; [tl] is behind the last one. *)
Fixpoint after_boundary (a : list Z) (ps : list (list Z)) (tl : list Z) : list Z :=
  match ps with
  | [] => [45; 45] ++ tl
  | x :: ps' => CRLF ++ x ++ CRLF ++ a ++ after_boundary a ps' tl
  end.

Definition write_multipart (a : list Z) (ps : list (list Z)) (tl : list Z) : list Z := a ++ after_boundary a ps tl.

Definition occurs (p e : list Z) : Prop := ∃ x y, e = x ++ p ++ y.

(** A part the boundary [a] can hold *)
Definition part_ok (a x : list Z) : Prop := ¬ occurs a x ∧ (length x ≤ Uc)%nat.

(** The end of a body: nothing, or a line end and a text that is skipped *)
Definition end_ok (tl : list Z) : Prop := tl = [] ∨ ∃ ep, tl = CRLF ++ ep ∧ (length ep ≤ Uc)%nat.

Lemma starts_spec p e : starts p e = true ↔ ∃ y, e = p ++ y.
Proof.
  revert e. induction p as [|a p IH]; intros e; [split; [by exists e|done]|].
  destruct e as [|b e]; [split; [done|by intros [y ?]]|]. cbn [starts]. rewrite andb_true_iff, IH, Z.eqb_eq. split.
  - intros [-> [y ->]]. by exists y.
  - intros [y [= -> ->]]. split; [done|by exists y].
Qed.

Lemma starts_more p e r : starts p e = true → starts p (e ++ r) = true.
Proof. rewrite !starts_spec. intros [y ->]. exists (y ++ r). by rewrite app_assoc. Qed.

Lemma starts_length p e r : starts p (e ++ r) = true → (length p ≤ length e)%nat → starts p e = true.
Proof.
  revert e. induction p as [|a p IH]; intros e; [done|]. destruct e as [|b e]; cbn; [lia|].
  intros [-> H]%andb_true_iff Hl. cbn. apply IH; [done|lia].
Qed.

(** Behind [x] and a line end, a boundary without a line end cannot begin earlier. *)
Lemma no_early_boundary a x z t : a ≠ [] → CR ∉ a → LF ∉ a → ¬ occurs a x → (t < length x + 2)%nat →
  starts a (drop t (x ++ CRLF ++ z)) = false.
Proof.
  intros Ha Hc Hl Hx Ht. destruct (starts a _) eqn:E; [exfalso|done]. apply starts_spec in E as [y E].
  destruct (decide (t ≤ length x)%nat) as [Hle|].
  - rewrite drop_app_le in E by done.
    assert (∀ u, u ++ CRLF ++ z = a ++ y → ∃ v, u = a ++ v) as Hu.
    { clear E Hx Ha. induction a as [|c a IH]; intros u; [by exists u|]. apply not_elem_of_cons in Hc as [Hc1 Hc], Hl as [Hl1 Hl].
      destruct u as [|d u]; [intros [= H _]; by destruct Hc1|]. intros [= -> H]. destruct (IH Hc Hl u H) as [v ->]. by exists v. }
    destruct (Hu _ E) as [v Hv]. apply Hx. exists (take t x), v. rewrite <- Hv. by rewrite take_drop.
  - replace t with (length x + 1)%nat in E by lia. rewrite drop_app_ge in E by lia.
    replace (length x + 1 - length x)%nat with 1%nat in E by lia. cbn in E.
    destruct a as [|c a]; [done|]. injection E as <- _. apply Hl. left.
Qed.

Section body.
Variable a : list Z.
Hypothesis Ha : a ≠ [].
Hypothesis Hcr : CR ∉ a.
Hypothesis Hlf : LF ∉ a.

(** What is before the next boundary: nothing, or a part and its line end *)
Inductive content : bool → list Z → Prop :=
| at_start : content false []
| behind x : part_ok a x → content true (x ++ CRLF).

Definition waiting_part (u : bool) (y : list Z) : list event := if u then [Part (take (length y - 2) y)] else [].

Definition slack (ps : list (list Z)) : nat := match ps with [] => 2 | _ => 0 end.

Definition expects (sc : scanner) (rest y : list Z) (ps : list (list Z)) (tl : list Z) : Prop :=
  buf sc ++ rest = y ++ a ++ after_boundary a ps tl ∧ (pos sc ≤ length y)%nat ∧
  (eol sc ≤ length y + length a + slack ps)%nat ∧ closed sc = false ∧ content (started sc) y ∧
  Forall (part_ok a) ps ∧ end_ok tl.

Lemma content_boundary u y z t : content u y → (t < length y)%nat → starts a (drop t (y ++ z)) = false.
Proof.
  intros [|x [Hx _]] Ht; [cbn in Ht; lia|]. rewrite <- app_assoc. apply no_early_boundary; [done..|].
  by rewrite length_app in Ht.
Qed.

Lemma buffered (b rest z : list Z) t : b ++ rest = z → (t + length a ≤ length b)%nat →
  starts a (drop t b) = starts a (drop t z).
Proof.
  intros <- Hl. rewrite drop_app_le by lia.
  destruct (starts a (drop t b)) eqn:E; [symmetry; by apply starts_more|].
  destruct (starts a (drop t b ++ rest)) eqn:E'; [|done]. apply starts_length in E'; [congruence|rewrite length_drop; lia].
Qed.

Lemma not_yet u y ps tl rest o t : content u y → o ++ rest = y ++ a ++ after_boundary a ps tl →
  (t < length y)%nat → (t + length a ≤ length o)%nat → at_boundary a o t = false.
Proof.
  intros Hy Ho Ht Hl. unfold at_boundary. by rewrite (buffered o rest _ t Ho Hl), (content_boundary u y _ t Hy Ht), andb_false_r.
Qed.

Lemma now u y ps tl rest o : content u y → o ++ rest = y ++ a ++ after_boundary a ps tl →
  (length y + length a ≤ length o)%nat → at_boundary a o (length y) = true.
Proof.
  intros Hy Ho Hl. unfold at_boundary. rewrite (buffered o rest _ _ Ho Hl), drop_app_length.
  rewrite (proj2 (starts_spec a _)) by by eexists. rewrite andb_true_r.
  destruct Hy as [|x Hx]; [done|]. rewrite length_app in *. cbn [length CRLF] in *.
  replace (length x + 2 - 2)%nat with (length x) by lia. replace (length x + 2 - 1)%nat with (length x + 1)%nat by lia.
  assert (∀ k, (k < 2)%nat → o !! (length x + k)%nat = CRLF !! k) as H.
  { intros k Hk. rewrite <- (lookup_app_l o rest) by (assert (0 < length a)%nat by (destruct a; [done|cbn; lia]); lia).
    rewrite Ho, <- !app_assoc, lookup_app_r by lia. replace (length x + k - length x)%nat with k by lia.
    by rewrite lookup_app_l by (cbn; lia). }
  pose proof (H 0%nat ltac:(lia)) as H0. rewrite Nat.add_0_r in H0. rewrite H0, (H 1%nat) by lia.
  rewrite orb_true_iff. right. rewrite (proj2 (Nat.leb_le 2 _)) by lia. done.
Qed.

Lemma content_length u y : content u y → (length y ≤ Uc + 2)%nat.
Proof. intros [|x [_ Hx]]; [cbn; lia|]. rewrite length_app. cbn. lia. Qed.

(** What the search for the line end finds, when a part follows *)
Lemma line_after_boundary w rest x z : w ++ rest = CRLF ++ x ++ z →
  (w = [] ∨ w = [CR]) ∨ ∃ w', w = CRLF ++ w' ∧ w' ++ rest = x ++ z.
Proof.
  intros H. destruct w as [|c [|d w]]; [by left; left| |].
  - injection H as -> _. by left; right.
  - injection H as -> -> H. right. by exists w.
Qed.

(** ... and when the boundary is the last one *)
Lemma line_after_last w rest tl : w ++ rest = [45; 45] ++ tl → end_ok tl →
  (∃ k, (k ≤ 3)%nat ∧ w = take k [45; 45; CR] ∧ (rest = [] → w = [45; 45])) ∨
  ∃ ep, w ++ rest = [45; 45; CR; LF] ++ ep ∧ (length ep ≤ Uc)%nat ∧ ∃ w', w = [45; 45; CR; LF] ++ w'.
Proof.
  intros H He. destruct w as [|c1 [|c2 [|c3 [|c4 w]]]].
  - left. exists O. split_and!; [lia|done|intros ->; done].
  - injection H as -> H. left. exists 1%nat. split_and!; [lia|done|intros ->; done].
  - injection H as -> -> H. left. exists 2%nat. by split_and!; [lia|..].
  - injection H as -> -> H. destruct He as [->|(ep & -> & _)]; [done|]. injection H as -> H.
    left. exists 3%nat. split_and!; [lia|done|intros ->; done].
  - injection H as -> -> H. destruct He as [->|(ep & -> & He)]; [done|]. injection H as -> -> H.
    right. exists ep. split_and!; [by rewrite <- H|done|by exists w].
Qed.

(** One turn at a boundary whose line is not complete *)
Lemma loop_incomplete f sc n : (pos sc + length a ≤ length (buf sc))%nat → closed sc = false →
  at_boundary a (buf sc) (pos sc) = true →
  let l0 := Nat.max (eol sc) (pos sc + length a) in
  let l := (l0 + line_end (drop l0 (buf sc)))%nat in
  n = l → (length (buf sc) ≤ S l)%nat →
  loop (S f) a false sc = (Scanner (buf sc) (pos sc) n (started sc) false, []).
Proof.
  intros Hl Hc Hb l0 l -> Hn. cbn [loop]. rewrite Hc, (proj2 (Nat.ltb_ge _ _)), Hb by lia. cbn [orb negb].
  by rewrite (proj2 (Nat.ltb_ge (S _) _)) by exact Hn.
Qed.

(** One turn at a boundary whose line is complete *)
Lemma loop_complete f final sc l hd : (pos sc + length a ≤ length (buf sc))%nat → closed sc = false →
  at_boundary a (buf sc) (pos sc) = true →
  let l0 := Nat.max (eol sc) (pos sc + length a) in
  l = (l0 + line_end (drop l0 (buf sc)))%nat → (S l < length (buf sc))%nat →
  hd = take (l - (pos sc + length a)) (drop (pos sc + length a) (buf sc)) → closing hd || padding hd = true →
  loop (S f) a final sc =
  let '(sc', evs) := loop f a final (Scanner (drop (l + 2) (buf sc)) 0 0 true (closing hd)) in
  (sc', (if started sc then [Part (take (pos sc - 2) (buf sc))] else []) ++ evs).
Proof.
  intros Hl Hc Hb l0 Hll Hn Hh Hp. cbn [loop]. rewrite Hc, (proj2 (Nat.ltb_ge _ _)), Hb by lia. cbn [orb negb].
  fold l0. rewrite <- Hll. rewrite (proj2 (Nat.ltb_lt (S _) _)) by exact Hn. cbn [default from_option id]. rewrite <- Hh, Hp. done.
Qed.

(** The last boundary of a body that ends behind it *)
Lemma loop_at_end f sc : (pos sc + length a ≤ length (buf sc))%nat → closed sc = false →
  at_boundary a (buf sc) (pos sc) = true → drop (pos sc + length a) (buf sc) = [45; 45] →
  loop (S f) a true sc =
  let '(sc', evs) := loop f a true (Scanner [] 0 0 true true) in
  (sc', (if started sc then [Part (take (pos sc - 2) (buf sc))] else []) ++ evs).
Proof.
  intros Hl Hc Hb Hd. cbn [loop]. rewrite Hc, (proj2 (Nat.ltb_ge _ _)), Hb by lia. cbn [orb negb].
  assert (length (buf sc) = pos sc + length a + 2)%nat as Hlen by (apply (f_equal length) in Hd; rewrite length_drop in Hd; cbn in Hd; lia).
  rewrite (proj2 (Nat.ltb_ge (S _) _)).
  - cbn [default from_option id]. rewrite Hd, drop_all. replace (length (buf sc) - (pos sc + length a))%nat with 2%nat by lia. done.
  - set (l0 := Nat.max (eol sc) (pos sc + length a)).
    assert (length (buf sc) ≤ S (l0 + line_end (drop l0 (buf sc))))%nat as H; [|exact H].
    destruct (Nat.eq_dec l0 (pos sc + length a)%nat) as [->|]; [rewrite Hd; cbn; lia|subst l0; lia].
Qed.

Lemma closed_stays f final o p l u : loop f a final (Scanner o p l u true) = (Scanner o p l u true, []).
Proof. by destruct f. Qed.

Lemma loop_skips f final sc : (pos sc + length a ≤ length (buf sc))%nat → closed sc = false →
  at_boundary a (buf sc) (pos sc) = false →
  loop (S f) a final sc = loop f a final (Scanner (buf sc) (S (pos sc)) (eol sc) (started sc) false).
Proof. intros Hl Hc Hb. cbn [loop]. by rewrite Hc, (proj2 (Nat.ltb_ge _ _)), Hb by lia. Qed.

Lemma loop_starves f final sc : (length (buf sc) < pos sc + length a)%nat → loop f a final sc = (sc, []).
Proof. intros H. destruct f; [done|]. cbn [loop]. by rewrite (proj2 (Nat.ltb_lt _ _) H), orb_true_r. Qed.

(** The loop keeps what it expects, or completes the body. *)
Lemma loop_expects final f : ∀ sc rest y ps tl,
  expects sc rest y ps tl → (length (buf sc) - pos sc < f)%nat → (final = true → rest = []) →
  ∃ sc' evs, loop f a final sc = (sc', evs) ∧
   ((final = false ∧ ∃ y' ps', expects sc' rest y' ps' tl ∧ (length (buf sc') ≤ Uc + length a + 6)%nat ∧
      waiting_part (started sc) y ++ (Part <$> ps) = evs ++ waiting_part (started sc') y' ++ (Part <$> ps')) ∨
    (closed sc' = true ∧ (length (buf sc') ≤ Uc)%nat ∧ evs = waiting_part (started sc) y ++ (Part <$> ps))).
Proof.
  induction f as [|f IH]; intros sc rest y ps tl He Hf Hfin; [lia|].
  pose proof He as (Ho & Hp & Hl & Hc & Hy & Hps & Htl). pose proof (content_length _ _ Hy) as Hyl.
  assert (0 < length a)%nat as Ha0 by (destruct a; [done|cbn; lia]).
  destruct (Nat.lt_ge_cases (length (buf sc)) (pos sc + length a)) as [Hs|Hs].
  { rewrite loop_starves by done. exists sc, []. split; [done|]. left. destruct final.
    - rewrite Hfin, app_nil_r in Ho by done. apply (f_equal length) in Ho. rewrite !length_app in Ho. lia.
    - split; [done|]. exists y, ps. split; [done|]. split; [lia|done]. }
  destruct (Nat.lt_ge_cases (pos sc) (length y)) as [Ht|Ht].
  { rewrite loop_skips; [|done|done|by apply (not_yet (started sc) y ps tl rest)].
    destruct (IH (Scanner (buf sc) (S (pos sc)) (eol sc) (started sc) false) rest y ps tl) as (sc' & evs & E & H);
      [|cbn [buf pos]; lia|done|by exists sc', evs].
    unfold expects; cbn [buf pos eol closed started]. split_and!; done || lia. }
  assert (pos sc = length y) as Hpos by lia. rewrite Hpos in Hs.
  assert (at_boundary a (buf sc) (pos sc) = true) as Hb by (rewrite Hpos; by apply (now (started sc) y ps tl rest)).
  set (n := (length y + length a)%nat) in *.
  assert (drop n (buf sc) ++ rest = after_boundary a ps tl) as Hw.
  { rewrite <- drop_app_le, Ho, app_assoc by done. subst n. by rewrite <- length_app, drop_app_length. }
  assert (length (buf sc) = n + length (drop n (buf sc)))%nat as Hlen by (rewrite length_drop; lia).
  assert (take (pos sc - 2) (buf sc) = take (length y - 2) y) as Htake.
  { rewrite Hpos. rewrite <- (take_app_le (buf sc) rest), Ho, take_app_le by lia. done. }
  assert ((if started sc then [Part (take (pos sc - 2) (buf sc))] else []) = waiting_part (started sc) y) as Hpart
    by (unfold waiting_part; by rewrite Htake).
  destruct ps as [|x ps].
  - (* the last boundary *)
    destruct (line_after_last _ _ _ Hw Htl) as [(k & Hk & Hwk & Hend)|(ep & Hep & Hepl & w' & Hw')].
    + destruct final.
      * rewrite loop_at_end; [|lia|done|done|rewrite Hpos; apply Hend, Hfin; done].
        rewrite closed_stays, Hpart. eexists _, _. split; [done|]. right. cbn [closed buf fmap list_fmap]. rewrite app_nil_r.
        split_and!; [done|cbn; lia|done].
      * set (l0 := Nat.max (eol sc) (pos sc + length a)).
        assert (∃ j, l0 = n + j ∧ j ≤ 2)%nat as (j & Hj & Hj2).
        { exists (l0 - n)%nat. cbn [slack] in Hl. subst l0 n. lia. }
        assert (length (drop n (buf sc)) = k) as Hkl by (rewrite Hwk; destruct k as [|[|[|[|]]]]; cbn; lia).
        assert (line_end (drop l0 (buf sc)) = Nat.min (2 - j) (k - 1 - j))%nat as Hle.
        { rewrite Hj, <- drop_drop, Hwk. destruct k as [|[|[|[|]]]]; [..|lia]; destruct j as [|[|[|]]]; [reflexivity..|lia|reflexivity|reflexivity|reflexivity|lia|reflexivity|reflexivity|reflexivity|lia|reflexivity|reflexivity|reflexivity|lia]. }
        rewrite (loop_incomplete f sc (l0 + line_end (drop l0 (buf sc)))%nat); [|lia|done|done|done|cbn zeta; fold l0; rewrite Hle; lia].
        eexists _, []. split; [done|]. left. split; [done|]. exists y, []. split; [|cbn [buf]; split; [lia|done]].
        unfold expects; cbn [buf pos eol closed started slack]. rewrite Hle. split_and!; done || lia.
    + set (l0 := Nat.max (eol sc) (pos sc + length a)).
      assert (∃ j, l0 = n + j ∧ j ≤ 2)%nat as (j & Hj & Hj2).
      { exists (l0 - n)%nat. cbn [slack] in Hl. subst l0 n. lia. }
      assert (n + 2 = l0 + line_end (drop l0 (buf sc)))%nat as Hle.
      { rewrite Hj, <- drop_drop, Hw'. destruct j as [|[|[|]]]; [cbn; lia..|lia]. }
      rewrite (loop_complete f final sc (n + 2) [45; 45]);
        [|lia|done|done|done|rewrite Hlen, Hw'; cbn; lia|rewrite Hpos; fold n; rewrite Hw'; by replace (n + 2 - n)%nat with 2%nat by lia|done].
      rewrite closed_stays, Hpart. eexists _, _. split; [done|]. right. cbn [closed buf fmap list_fmap]. rewrite app_nil_r.
      split_and!; [done| |done]. apply (f_equal length) in Hep. rewrite Hw', !length_app in Hep. rewrite length_drop, Hlen, Hw', length_app.
      cbn [length] in *. lia.
  - (* a part follows *)
    cbn [slack] in Hl. assert (Nat.max (eol sc) (pos sc + length a) = n) as Hmax by lia.
    apply Forall_cons in Hps as [Hx Hps].
    destruct (line_after_boundary _ _ _ _ Hw) as [Hi|(w' & Hw' & Hrest)].
    + assert (line_end (drop n (buf sc)) = 0 ∧ length (drop n (buf sc)) ≤ 1)%nat as [Hle Hl1] by (destruct Hi as [-> | ->]; cbn; lia).
      destruct final.
      { exfalso. rewrite Hfin, app_nil_r in Hw by done. apply (f_equal length) in Hw. cbn in Hw. lia. }
      rewrite (loop_incomplete f sc n); [|lia|done|done|rewrite Hmax, Hle; lia|rewrite Hmax, Hle; lia].
      eexists _, []. split; [done|]. left. split; [done|]. exists y, (x :: ps). split; [|cbn [buf]; split; [lia|done]].
      unfold expects; cbn [buf pos eol closed started slack]. split_and!; try done; try lia. by constructor.
    + assert (line_end (drop n (buf sc)) = 0)%nat as Hle by by rewrite Hw'.
      rewrite (loop_complete f final sc n []); [|lia|done|done|rewrite Hmax, Hle; lia|rewrite Hlen, Hw'; cbn; lia| |done].
      2:{ rewrite Hpos. fold n. by rewrite Nat.sub_diag. }
      rewrite Hpart. change (closing []) with false.
      assert (drop (n + 2) (buf sc) = w') as Hd by (rewrite <- drop_drop, Hw'; done).
      destruct (IH (Scanner (drop (n + 2) (buf sc)) 0 0 true false) rest (x ++ CRLF) ps tl) as (sc' & evs & E & H).
      { unfold expects; cbn [buf pos eol closed started]. rewrite Hd. split_and!; try done; try lia; [by rewrite <- app_assoc|by constructor]. }
      { cbn [buf pos]. rewrite length_drop. lia. }
      { done. }
      rewrite E. eexists _, _. split; [done|].
      assert (waiting_part true (x ++ CRLF) = [Part x]) as Hwx.
      { unfold waiting_part. rewrite length_app. change (length CRLF) with 2%nat. rewrite Nat.add_sub. by rewrite take_app_length. }
      cbn [started] in H. rewrite Hwx in H. cbn [fmap list_fmap].
      destruct H as [(Hfn & y' & ps' & He' & Hb' & Heq)|(Hcl & Hb' & ->)].
      * left. split; [done|]. exists y', ps'. split; [done|]. split; [done|]. rewrite <- app_assoc, <- Heq. done.
      * right. split_and!; done.
Qed.

(** The parts still to come of a body of which [rest] was not pushed yet *)
Definition reading (sc : scanner) (rest : list Z) (evs : list event) (tl : list Z) : Prop :=
  (∃ y ps, expects sc rest y ps tl ∧ evs = waiting_part (started sc) y ++ (Part <$> ps)) ∨
  (closed sc = true ∧ (length (buf sc) ≤ Uc)%nat ∧ evs = []).

Lemma h_reads final sc rest y ps tl : expects sc rest y ps tl → (final = true → rest = []) →
  ∃ sc' evs evs', h a final sc = (sc', evs) ∧ waiting_part (started sc) y ++ (Part <$> ps) = evs ++ evs' ∧
    (final = false ∧ reading sc' rest evs' tl ∨ closed sc' = true ∧ (length (buf sc') ≤ Uc)%nat ∧ evs' = []).
Proof.
  intros He Hf. destruct (loop_expects final (S (length (buf sc))) sc rest y ps tl He) as (sc' & evs & E & H); [lia|done|].
  unfold h. rewrite E. destruct H as [(-> & y' & ps' & He' & Hl & Heq)|(Hc & Hl & Heq)].
  - rewrite (proj2 (Nat.ltb_ge _ _)) by done. cbn [andb]. rewrite app_nil_r. eexists _, _, _. split; [done|]. split; [exact Heq|].
    left. split; [done|]. left. by exists y', ps'.
  - rewrite (proj2 (Nat.ltb_ge _ _)) by lia. rewrite Hc, andb_false_r, app_nil_r.
    exists sc', evs, []. split; [done|]. split; [by rewrite app_nil_r|]. by right.
Qed.

Lemma piece_reads sc n rest evs tl : reading sc (n ++ rest) evs tl →
  ∃ sc' e1 e2, push_piece a sc n = (sc', e1) ∧ evs = e1 ++ e2 ∧ reading sc' rest e2 tl.
Proof.
  intros [(y & ps & He & ->)|(Hc & Hl & ->)]; unfold push_piece.
  - assert (closed sc = false) as -> by apply He.
    destruct (h_reads false (Scanner (buf sc ++ n) (pos sc) (eol sc) (started sc) false) rest y ps tl) as (sc' & e1 & e2 & E & Heq & H); [|done|].
    + destruct He as (Ho & Hr). unfold expects in *. cbn [buf pos eol closed started] in *. rewrite <- app_assoc. tauto.
    + exists sc', e1, e2. split; [done|]. split; [exact Heq|]. destruct H as [[_ H]|(Hc & Hl & ->)]; [done|by right].
  - rewrite Hc. exists sc, [], []. split; [done|]. split; [done|]. by right.
Qed.

Lemma pieces_joined fuel e : (length e ≤ fuel)%nat → concat (pieces_of fuel e) = e.
Proof.
  revert e. induction fuel as [|f IH]; intros e Hl; [by destruct e; [|cbn in Hl; lia]|]. destruct e as [|c e]; [done|].
  cbn [pieces_of concat]. rewrite IH; [by rewrite take_drop|]. rewrite length_drop. cbn [length] in *.
  assert (1 ≤ piece_size)%nat by (unfold piece_size; lia). lia.
Qed.

Lemma pieces_read ns : ∀ sc rest evs tl, reading sc (concat ns ++ rest) evs tl →
  ∃ sc' e1 e2, push_pieces a sc ns = (sc', e1) ∧ evs = e1 ++ e2 ∧ reading sc' rest e2 tl.
Proof.
  induction ns as [|n ns IH]; intros sc rest evs tl H; [by exists sc, [], evs|].
  cbn [concat] in H. rewrite <- app_assoc in H. apply piece_reads in H as (sc1 & e1 & e2 & E1 & -> & H).
  apply IH in H as (sc2 & e3 & e4 & E2 & -> & H). cbn [push_pieces]. rewrite E1, E2.
  exists sc2, (e1 ++ e3), e4. by rewrite app_assoc.
Qed.

Lemma chunks_read es : ∀ sc rest evs tl, reading sc (concat es ++ rest) evs tl →
  ∃ sc' e1 e2, push_chunks a sc es = (sc', e1) ∧ evs = e1 ++ e2 ∧ reading sc' rest e2 tl.
Proof.
  induction es as [|e es IH]; intros sc rest evs tl H; [by exists sc, [], evs|].
  cbn [concat] in H. rewrite <- app_assoc, <- (pieces_joined (length e) e) in H by done.
  apply pieces_read in H as (sc1 & e1 & e2 & E1 & -> & H).
  apply IH in H as (sc2 & e3 & e4 & E2 & -> & H). cbn [push_chunks]. unfold push_bytes. rewrite E1, E2.
  exists sc2, (e1 ++ e3), e4. by rewrite app_assoc.
Qed.

Lemma scan_body ps tl es : Forall (part_ok a) ps → end_ok tl → concat es = write_multipart a ps tl →
  scan a es = Part <$> ps.
Proof.
  intros Hps Htl Hes.
  assert (reading fresh_scanner (concat es ++ []) (Part <$> ps) tl) as H.
  { left. exists [], ps. split; [|done]. unfold expects, fresh_scanner; cbn [buf pos eol closed started].
    rewrite app_nil_r, Hes. split_and!; try done; try (cbn; lia). constructor. }
  apply chunks_read in H as (sc & e1 & e2 & E1 & Heq & H). unfold scan. rewrite E1, Heq.
  destruct H as [(y & ps' & He & ->)|(Hc & Hl & ->)].
  - destruct (h_reads true sc [] y ps' tl He) as (sc' & e3 & e4 & E3 & Heq' & H); [done|]. rewrite E3.
    destruct H as [[H _]|(_ & _ & ->)]; [done|]. by rewrite Heq', app_nil_r.
  - unfold h. destruct sc as [o p l u c]. cbn in Hc. subst c. cbn [buf]. rewrite closed_stays. cbn [buf closed] in *.
    rewrite (proj2 (Nat.ltb_ge _ _)) by lia. cbn. by rewrite !app_nil_r.
Qed.
End body.

(** ** The parts, in order *)

(** One after the other, numbered from [k], up to the first exception *)
Fixpoint in_order {A} (show : nat → A → list text * option mp_error) (k : nat) (l : list A) : list text * option mp_error :=
  match l with
  | [] => ([], None)
  | x :: l' =>
      match show k x with
      | (o, Some e) => (o, Some e)
      | (o, None) => let '(o', e') := in_order show (S k) l' in (o ++ o', e')
      end
  end.

Section parts.
Variable decode : string → list Z → option text.
Variable reformat : text → option text.
Variable nested : string → text → list Z → list text * option mp_error.
#[local] Abbreviation ev := (on_event decode reformat nested).

Lemma events_stop r sh evs : sh_error sh ≠ None → fold_left (ev r) evs sh = sh.
Proof. intros H. induction evs as [|e evs IH]; [done|]. cbn. unfold on_event. by destruct (sh_error sh). Qed.

Lemma events_from r ps : ∀ k out,
  let sh := fold_left (ev r) (Part <$> ps) (Shown k out None) in
  (sh_out sh, sh_error sh) =
  let '(o, e) := in_order (show_part decode reformat nested r) k ps in (out ++ o, e).
Proof.
  induction ps as [|x ps IH]; intros k out; [cbn; by rewrite app_nil_r|]. cbn [fmap list_fmap fold_left in_order].
  assert (ev r (Shown k out None) (Part x) = let '(o, e) := show_part decode reformat nested r k x in Shown (S k) (out ++ o) e) as -> by done.
  destruct (show_part decode reformat nested r k x) as [o [e|]].
  - by rewrite events_stop.
  - rewrite IH. destruct (in_order _ (S k) ps) as [o' e']. by rewrite app_assoc.
Qed.

Lemma show_parts r ps : show_events decode reformat nested r (Part <$> ps) = in_order (show_part decode reformat nested r) 0 ps.
Proof. unfold show_events. pose proof (events_from r ps 0 []) as H. cbn zeta in H. rewrite H. by destruct (in_order _ 0 ps). Qed.

Lemma find_sub_app p x y : p ≠ [] → find_sub p (x ++ removelast p) = None → find_sub p (x ++ p ++ y) = Some (length x).
Proof.
  intros Hp. induction x as [|c x IH].
  - intros _. cbn [app length]. assert (starts p (p ++ y) = true) as H by (apply starts_spec; by exists y).
    destruct (p ++ y); cbn [find_sub]; by rewrite H.
  - cbn [app find_sub length]. intros H. destruct (starts p (c :: x ++ p ++ y)) eqn:E.
    + assert (starts p (c :: x ++ removelast p) = true) as E'; [|by rewrite E' in H].
      destruct (exists_last Hp) as (q & z & Hq). rewrite Hq, removelast_last in *.
      apply (starts_length _ _ (z :: y)); [|cbn; rewrite !length_app; cbn; lia].
      cbn [app]. rewrite <- app_assoc. by rewrite <- app_assoc in E.
    + destruct (starts p (c :: x ++ removelast p)); [done|]. rewrite IH; [done|]. by destruct (find_sub p (x ++ removelast p)).
Qed.

(** A part with header lines: none of them blank, and none begins at the part's
    first character with a line end. *)
Definition headed (p : list Z * list Z) : Prop :=
  p.1 ≠ [] ∧ starts CRLF (p.1 ++ CRLF) = false ∧ find_sub (CRLF ++ CRLF) (p.1 ++ removelast (CRLF ++ CRLF)) = None.

Definition write_part (p : list Z * list Z) : list Z := p.1 ++ CRLF ++ CRLF ++ p.2.

Lemma show_written r k p : headed p → (length (write_part p) ≤ Uc)%nat →
  show_part decode reformat nested r k (write_part p) = show_body decode reformat nested r k p.1 p.2.
Proof.
  intros (Hn & Hs & Hf) Hl. destruct p as [a o]. unfold write_part in *. cbn [fst snd] in *.
  unfold show_part. rewrite (proj2 (Nat.ltb_ge _ _)) by done.
  assert (starts CRLF (a ++ CRLF ++ CRLF ++ o) = false) as ->.
  { destruct (starts CRLF (a ++ CRLF ++ CRLF ++ o)) eqn:E; [|done].
    rewrite app_assoc in E. apply starts_length in E; [congruence|rewrite length_app; cbn; lia]. }
  pose proof (find_sub_app (CRLF ++ CRLF) a o ltac:(done) Hf) as E. rewrite <- app_assoc in E. rewrite E.
  assert (Nat.eqb (length a) 0 = false) as -> by (destruct a; done). rewrite take_app_length.
  f_equal. rewrite app_assoc, (app_assoc _ CRLF), drop_app_ge by (rewrite !length_app; cbn; lia).
  rewrite !length_app. cbn [length CRLF]. by replace (length a + 4 - (length a + 2 + 2))%nat with O by lia.
Qed.

Lemma in_order_ext {A B} (f : nat → A → list text * option mp_error) g (h : B → A) l :
  (∀ k x, x ∈ l → f k (h x) = g k x) → ∀ k, in_order f k (h <$> l) = in_order g k l.
Proof.
  induction l as [|x l IH]; intros H k; [done|]. cbn [fmap list_fmap in_order]. rewrite H by left.
  rewrite IH; [done|]. intros k' y Hy. apply H. by right.
Qed.
End parts.

Lemma codes_app a b : codes (a +:+ b) = codes a ++ codes b.
Proof. induction a as [|c a IH]; [done|]. change (String c a +:+ b) with (String c (a +:+ b)). cbn [codes app]. by rewrite IH. Qed.

Lemma codes_elem x s : x ∈ codes s → ∃ c, x = Z.of_nat (nat_of_ascii c) ∧ sforall (λ d, negb (Ascii.eqb d c)) s = false.
Proof.
  induction s as [|d s IH]; [by intros ?%elem_of_nil|]. cbn [codes]. intros [->|H]%elem_of_cons.
  - exists d. split; [done|]. cbn -[Ascii.eqb]. by rewrite Ascii.eqb_refl.
  - destruct (IH H) as (c & -> & Hc). exists c. split; [done|]. cbn -[Ascii.eqb]. by rewrite Hc, andb_false_r.
Qed.

Lemma boundary_plain e i : boundary_of e = Some i →
  codes ("--" +:+ i) ≠ [] ∧ CR ∉ codes ("--" +:+ i) ∧ LF ∉ codes ("--" +:+ i).
Proof.
  unfold boundary_of. destruct (map_get _ _) as [j|]; [|done]. destruct (String.eqb j ""); [done|]. cbn [orb].
  destruct (sforall boundary_byte j) eqn:Hb; [|done]. cbn [andb].
  intros H. assert (j = i) as -> by (revert H; repeat case_match; congruence). clear H.
  assert (∀ c, boundary_byte c = true → Z.of_nat (nat_of_ascii c) ≠ CR ∧ Z.of_nat (nat_of_ascii c) ≠ LF) as Hc.
  { intros c. by destruct c as [[] [] [] [] [] [] [] []]. }
  assert (∀ x, x ∈ codes i → x ≠ CR ∧ x ≠ LF) as Hx.
  { clear -Hb Hc. induction i as [|c i IH]; [by intros x ?%elem_of_nil|]. cbn [sforall] in Hb. apply andb_true_iff in Hb as [H1 H2].
    cbn [codes]. intros x [->|H]%elem_of_cons; [by apply Hc|by apply IH]. }
  rewrite codes_app. split; [done|]. split; (intros [H|H]%elem_of_app; [repeat (apply elem_of_cons in H as [H|H]; [done|]); by apply elem_of_nil in H|by apply Hx in H as [? ?]]).
Qed.

(** C10. A multipart response is read back in whatever chunks its bytes arrive, each a
    single byte or all of it at once: of parts with header lines behind the boundary of
    the media type, where the boundary does not occur in a part and no part is over
    8 MiB, exactly these are shown, in order, each with its header lines and its body,
    and what is behind the closing boundary is skipped. *)
Theorem multipart_is_read_back decode reformat e i ps tl chunks : boundary_of e = Some i →
  let a := codes ("--" +:+ i) in
  Forall (λ p, headed p ∧ part_ok a (write_part p)) ps → end_ok tl →
  concat chunks = write_multipart a (write_part <$> ps) tl →
  Gc decode reformat e chunks =
  in_order (λ k p, show_body decode reformat (λ s l o, reader decode reformat 7 s l [o]) [] k p.1 p.2) 0 ps.
Proof.
  intros He a Hps Htl Hc. destruct (boundary_plain e i He) as (H1 & H2 & H3).
  unfold Gc, Lve. cbn [reader]. rewrite He. fold a.
  rewrite (scan_body a H1 H2 H3 (write_part <$> ps) tl); [|apply Forall_fmap; eapply Forall_impl; [exact Hps|by intros p [_ ?]]|done..].
  rewrite show_parts. apply in_order_ext. intros k p Hp. apply (proj1 (Forall_forall _ _) Hps) in Hp as [Hh [_ Hl]].
  by apply show_written.
Qed.

(** ** Bodies that are cut short *)

Lemma occurs_suffix p x b : occurs p b → occurs p (x ++ b).
Proof. intros (u & v & ->). exists (x ++ u), v. by rewrite <- app_assoc. Qed.

Lemma closing_occurs a o t k : at_boundary a o t = true → closing (take k (drop (t + length a) o)) = true →
  occurs (a ++ [45; 45]) o.
Proof.
  intros [_ Hs]%andb_true_iff Hc. apply starts_spec in Hs as [y Hy]. rewrite <- drop_drop, Hy, drop_app_length in Hc.
  unfold closing in Hc. destruct (take k y) as [|c [|d z]] eqn:E; [done..|].
  apply andb_true_iff in Hc as [[->%Z.eqb_eq ->%Z.eqb_eq]%andb_true_iff _].
  exists (take t o), (z ++ drop k y). rewrite <- app_assoc. change ([45; 45] ++ z ++ drop k y) with ((45 :: 45 :: z) ++ drop k y).
  by rewrite <- E, take_drop, <- Hy, take_drop.
Qed.

Lemma loop_open a final f : ∀ sc, closed sc = false → ¬ occurs (a ++ [45; 45]) (buf sc) →
  closed (fst (loop f a final sc)) = false ∧ ∃ x, buf sc = x ++ buf (fst (loop f a final sc)).
Proof.
  induction f as [|f IH]; intros sc Hc Ho; [split; [done|by exists []]|]. cbn [loop].
  destruct (closed sc || _); [split; [done|by exists []]|].
  destruct (at_boundary a (buf sc) (pos sc)) eqn:Eb; cbn [negb]; [|by apply (IH (Scanner _ _ _ _ _))].
  set (l := (_ + line_end _)%nat). set (r := if Nat.ltb (S l) _ then Some l else None).
  assert (∀ r', let o := buf sc in let n := (pos sc + length a)%nat in let i := take (default (length o) r' - n) (drop n o) in
    let res := if closing i || padding i then
      let '(sc', evs) := loop f a final (Scanner (drop (match r' with None => length o | Some r => (r + 2)%nat end) o) 0 0 true (closing i)) in
      (sc', (if started sc then [Part (take (pos sc - 2) o)] else []) ++ evs)
      else loop f a final (Scanner o n 0 (started sc) (closed sc)) in
    closed (fst res) = false ∧ ∃ x, o = x ++ buf (fst res)) as H.
  { intros r' o n i res. subst res. destruct (closing i) eqn:Ei; [by destruct (Ho (closing_occurs _ _ _ _ Eb Ei))|].
    cbn [orb]. destruct (padding i); [|by apply (IH (Scanner _ _ _ _ _))].
    set (h := match r' with None => length o | Some r => (r + 2)%nat end).
    destruct (IH (Scanner (drop h o) 0 0 true false) eq_refl) as [H1 [x H2]].
    { cbn [buf]. intros Hd. apply Ho. rewrite <- (take_drop h (buf sc)). by apply occurs_suffix. }
    destruct (loop f a final (Scanner (drop h o) 0 0 true false)) as [sc' evs]. cbn [fst buf] in *. split; [done|].
    exists (take h o ++ x). by rewrite <- app_assoc, <- H2, take_drop. }
  destruct r as [r|]; [apply (H (Some r))|]. destruct final; [apply (H None)|]. split; [done|by exists []].
Qed.

Lemma h_open a final sc : closed sc = false → ¬ occurs (a ++ [45; 45]) (buf sc) →
  closed (fst (h a final sc)) = false ∧ (∃ x, buf sc = x ++ buf (fst (h a final sc))) ∧
  (final = true → ∃ evs e, snd (h a final sc) = evs ++ [Throw e]).
Proof.
  intros Hc Ho. destruct (loop_open a final (S (length (buf sc))) sc Hc Ho) as [H1 H2]. unfold h.
  destruct (loop _ a final sc) as [sc' evs]. cbn [fst snd] in *. split_and!; [done..|]. intros ->.
  destruct (Nat.ltb _ _); [by exists evs, PartTooLong|]. rewrite H1. by exists evs, Unclosed.
Qed.

(** No closing boundary in what was pushed: the reader is not closed, and its buffer
    is the end of it. *)
Definition open_after (sc : scanner) (pushed : list Z) : Prop := closed sc = false ∧ ∃ x, pushed = x ++ buf sc.

Lemma piece_open a sc n pushed : ¬ occurs (a ++ [45; 45]) (pushed ++ n) → open_after sc pushed →
  open_after (fst (push_piece a sc n)) (pushed ++ n).
Proof.
  intros Ho [Hc [x Hx]]. unfold push_piece. rewrite Hc.
  destruct (h_open a false (Scanner (buf sc ++ n) (pos sc) (eol sc) (started sc) false) eq_refl) as (H1 & [y H2] & _).
  { cbn [buf]. intros H. apply Ho. rewrite Hx, <- app_assoc. by apply occurs_suffix. }
  split; [done|]. exists (x ++ y). cbn [buf] in H2. rewrite Hx, <- !app_assoc. by f_equal.
Qed.

Lemma occurs_prefix p b x : occurs p b → occurs p (b ++ x).
Proof. intros (u & v & ->). exists u, (v ++ x). by rewrite <- !app_assoc. Qed.

Lemma pieces_open a ns : ∀ sc pushed, ¬ occurs (a ++ [45; 45]) (pushed ++ concat ns) → open_after sc pushed →
  open_after (fst (push_pieces a sc ns)) (pushed ++ concat ns).
Proof.
  induction ns as [|n ns IH]; intros sc pushed Ho H; [by rewrite app_nil_r|].
  cbn [concat push_pieces] in *. rewrite app_assoc in *. apply (piece_open a sc n) in H; [|intros Hn; apply Ho; by apply occurs_prefix].
  destruct (push_piece a sc n) as [sc1 e1]. specialize (IH sc1 _ Ho H). by destruct (push_pieces a sc1 ns) as [sc2 e2].
Qed.

Lemma chunks_open a es : ∀ sc pushed, ¬ occurs (a ++ [45; 45]) (pushed ++ concat es) → open_after sc pushed →
  open_after (fst (push_chunks a sc es)) (pushed ++ concat es).
Proof.
  induction es as [|e es IH]; intros sc pushed Ho H; [by rewrite app_nil_r|].
  cbn [concat push_chunks] in *. rewrite app_assoc in *. unfold push_bytes.
  apply (pieces_open a (pieces_of (length e) e)) in H; rewrite ?pieces_joined in * by done; [|intros Hn; apply Ho; by apply occurs_prefix].
  destruct (push_pieces a sc (pieces_of (length e) e)) as [sc1 e1]. specialize (IH sc1 _ Ho H).
  by destruct (push_chunks a sc1 es) as [sc2 e2].
Qed.

Lemma throw_is_shown decode reformat nested r evs e rest :
  snd (show_events decode reformat nested r (evs ++ Throw e :: rest)) ≠ None.
Proof.
  unfold show_events. rewrite fold_left_app. cbn [fold_left snd].
  set (sh := fold_left (on_event decode reformat nested r) evs (Shown 0 [] None)). unfold on_event at 2.
  destruct (sh_error sh) eqn:E; rewrite events_stop; cbn; congruence.
Qed.

(** C29. A multipart body that is cut short never passes for a complete one: whatever the
    bytes and the chunks, when the closing boundary is not among them the reader ends
    with an exception. *)
Theorem unclosed_body_is_an_error decode reformat e i chunks : boundary_of e = Some i →
  ¬ occurs (codes ("--" +:+ i +:+ "--")) (concat chunks) → snd (Gc decode reformat e chunks) ≠ None.
Proof.
  intros He Ho. unfold Gc, Lve. cbn [reader]. rewrite He. rewrite <- sapp_assoc, (codes_app ("--" +:+ i)) in Ho.
  set (a := codes ("--" +:+ i)) in *.
  pose proof (chunks_open a chunks fresh_scanner [] Ho (conj eq_refl (ex_intro _ [] eq_refl))) as [Hc [x Hx]]. cbn [app] in Hx.
  unfold scan. destruct (push_chunks a fresh_scanner chunks) as [sc e1]. cbn [fst] in *.
  destruct (h_open a true sc Hc) as (_ & _ & H); [intros H; apply Ho; cbn [app]; rewrite Hx; by apply occurs_suffix|].
  destruct (h a true sc) as [sc' e2]. cbn [snd] in H. destruct (H eq_refl) as (evs & err & ->).
  rewrite app_assoc. apply throw_is_shown.
Qed.
