(* ===== verification/FormData.v ===== *)
(** * scalar.js: a form from the code samples to the multipart reader

    The body [FPt] writes of a form is a multipart body in the sense of the reader
    [Gc]: one part per parameter, its header lines and its value. The witnesses of
    MultipartLaws.v are here too, on concrete bodies. *)
From S2P Require Import Prelude Mime Shell Snippets Utf8 Records Multipart MultipartLaws.
#[local] Open Scope list_scope.

(** ** What a server receives *)

(** The bytes of a piece of a body; [files] are the contents of the files. *)
Definition piece_text (files : string → string) (b : body_part) : string :=
  match b with PText s => s | PFile f => files f end.

Definition body_text (files : string → string) (m : multipart) : string :=
  String.concat "" (piece_text files <$> body m).

(** The header lines of a parameter, and its value *)
Definition param_headers (p : param) : string :=
  "Content-Disposition: form-data; name=" +:+ quote_char +:+ nU (pa_name p) +:+ quote_char +:+
  (match pa_fileName p with None => "" | Some f => "; filename=" +:+ quote_char +:+ nU f +:+ quote_char end) +:+
  match pa_contentType p, pa_fileName p with
  | Some "", _ | None, None => ""
  | Some c, _ => crlf +:+ "Content-Type: " +:+ c
  | None, Some _ => crlf +:+ "Content-Type: application/octet-stream"
  end.

Definition param_content (files : string → string) (p : param) : string :=
  match pa_fileName p with None => default "" (pa_value p) | Some f => files f end.

(** The body of a form with the boundary [B]: every part behind the boundary, its header
    lines, an empty line and its value *)
Definition asked_form (B : string) (files : string → string) (ps : list param) : string :=
  String.concat "" ((λ p, "--" +:+ B +:+ crlf +:+ param_headers p +:+ crlf +:+ crlf +:+ param_content files p +:+ crlf) <$> ps) +:+
  "--" +:+ B +:+ "--" +:+ crlf.

Definition form_section (files : string → string) (p : param) : list Z * list Z :=
  (codes (param_headers p), codes (param_content files p)).

(** ** Codes *)

Lemma codes_split s : ∀ x y, codes s = x ++ y → ∃ a b, s = a +:+ b ∧ codes a = x ∧ codes b = y.
Proof.
  induction s as [|c s IH]; intros x y H.
  - destruct x; [|done]. cbn in H. exists "", "". by rewrite <- H.
  - destruct x as [|z x]; [by exists "", (String c s)|]. cbn [codes app] in H. injection H as Hz H.
    destruct (IH x y H) as (a & b & -> & <- & <-). exists (String c a), b. by rewrite <- Hz.
Qed.

Lemma codes_inj a b : codes a = codes b → a = b.
Proof.
  revert b. induction a as [|c a IH]; intros [|d b]; cbn [codes]; [done..|]. intros [= H1%Nat2Z.inj H2].
  apply (f_equal ascii_of_nat) in H1. rewrite !ascii_nat_embedding in H1. by rewrite H1, (IH b).
Qed.

Lemma codes_occurs p s : occurs (codes p) (codes s) → includes p s = true.
Proof.
  intros (x & y & H). destruct (codes_split s _ _ H) as (a & b & -> & <- & Hb).
  destruct (codes_split b _ _ Hb) as (q & r & -> & Hq%codes_inj & _). subst q. apply includes_spec. by exists a, r.
Qed.

(** ** Where a boundary can be *)

Lemma sforall_has P n c : sforall P n = true → P c = false → sforall (λ d, negb (Ascii.eqb d c)) n = true.
Proof. intros Hn Hc. revert Hn. apply sforall_impl. intros d Hd. destruct (Ascii.eqb_spec d c) as [->|]; [congruence|done]. Qed.

(** A text with a character the boundary does not have includes it only before or
    behind that character. *)
Lemma strip_prefix_sep n c : ∀ a b r, sforall (λ d, negb (Ascii.eqb d c)) n = true →
  strip_prefix n (a +:+ String c b) = Some r → ∃ x, strip_prefix n a = Some x.
Proof.
  induction n as [|e n IH]; intros a b r Hn; [by exists a|]. cbn [sforall] in Hn. apply andb_true_iff in Hn as [He Hn].
  destruct a as [|d a].
  - change ("" +:+ String c b) with (String c b). cbn [strip_prefix]. by destruct (Ascii.eqb e c).
  - change (String d a +:+ String c b) with (String d (a +:+ String c b)). cbn [strip_prefix].
    destruct (Ascii.eqb e d); [by apply IH|done].
Qed.

Lemma includes_sep n c a b : n ≠ "" → sforall (λ d, negb (Ascii.eqb d c)) n = true →
  includes n a = false → includes n b = false → includes n (a +:+ String c b) = false.
Proof.
  intros Hn Hc Ha Hb. induction a as [|d a IH].
  - change ("" +:+ String c b) with (String c b). rewrite includes_cons.
    destruct (strip_prefix n (String c b)) as [r|] eqn:E; [|done].
    apply (strip_prefix_sep n c "" b r Hc) in E as [x Hx]. by destruct n.
  - change (String d a +:+ String c b) with (String d (a +:+ String c b)). rewrite includes_cons in Ha |- *.
    destruct (strip_prefix n (String d (a +:+ String c b))) as [r|] eqn:E.
    + apply (strip_prefix_sep n c (String d a) b r Hc) in E as [x Hx]. by rewrite Hx in Ha.
    + apply IH. by destruct (strip_prefix n (String d a)).
Qed.

Definition plain_char (c : ascii) : bool := negb (existsb (Ascii.eqb c) ["%"; "0"; "D"; "A"; "2"]%char).

Lemma nU_cons d s : nU (String d s) =
  (if Ascii.eqb d "013" then "%0D" else if Ascii.eqb d "010" then "%0A" else if Ascii.eqb d "034" then "%22" else one d) +:+ nU s.
Proof. done. Qed.

Lemma nU_strip n : sforall plain_char n = true → ∀ s r, strip_prefix n (nU s) = Some r → ∃ x, strip_prefix n s = Some x.
Proof.
  intros Hn. induction n as [|c n IH]; intros s r; [by exists s|]. cbn [sforall] in Hn. apply andb_true_iff in Hn as [Hc Hn].
  destruct s as [|d s]; [done|]. rewrite nU_cons.
  assert (∀ z, strip_prefix (String c n) (String "%" z) = None) as Hp.
  { intros z. cbn [strip_prefix]. by destruct (Ascii.eqb_spec c "%") as [->|]. }
  destruct (Ascii.eqb d "013"); [change ("%0D" +:+ nU s) with (String "%" ("0D" +:+ nU s)); by rewrite Hp|].
  destruct (Ascii.eqb d "010"); [change ("%0A" +:+ nU s) with (String "%" ("0A" +:+ nU s)); by rewrite Hp|].
  destruct (Ascii.eqb d "034"); [change ("%22" +:+ nU s) with (String "%" ("22" +:+ nU s)); by rewrite Hp|].
  change (one d +:+ nU s) with (String d (nU s)). cbn [strip_prefix].
  destruct (Ascii.eqb c d); [by apply IH|done].
Qed.

Lemma nU_includes n s : n ≠ "" → sforall plain_char n = true → includes n s = false → includes n (nU s) = false.
Proof.
  intros H0 Hn. induction s as [|d s IH]; [done|]. rewrite includes_cons.
  destruct (strip_prefix n (String d s)) as [x|] eqn:E; [done|]. intros Hs. specialize (IH Hs).
  assert (∀ z, sforall (λ c, negb (plain_char c)) z = true → includes n (z +:+ nU s) = false) as Hz.
  { induction z as [|c z IHz]; [done|]. cbn [sforall]. intros [Hc Hz]%andb_true_iff.
    apply (includes_sep n c ""); [done| |by destruct n|by apply IHz].
    apply (sforall_has plain_char); [done|]. by apply negb_true_iff. }
  destruct (strip_prefix n (nU (String d s))) as [r|] eqn:E'; [apply (nU_strip n Hn) in E' as [x Hx]; congruence|].
  rewrite nU_cons in *. destruct (Ascii.eqb d "013"); [by apply Hz|]. destruct (Ascii.eqb d "010"); [by apply Hz|].
  destruct (Ascii.eqb d "034"); [by apply Hz|]. change (one d +:+ nU s) with (String d (nU s)) in *.
  by rewrite includes_cons, E'.
Qed.

(** ** The form *)

Section form.
Variable n : string.
Hypothesis Hn : sforall boundary_char n = true.
Hypothesis Hn0 : n ≠ "".

Lemma boundary_sep c : boundary_char c = false → sforall (λ d, negb (Ascii.eqb d c)) n = true.
Proof. by apply sforall_has. Qed.

Lemma boundary_plain_char : sforall plain_char n = true.
Proof. revert Hn. apply sforall_impl. intros c. by destruct c as [[] [] [] [] [] [] [] []]. Qed.

Lemma part_head_headers p : part_head n p = ("--" +:+ n) +:+ crlf +:+ param_headers p +:+ crlf +:+ crlf.
Proof.
  unfold part_head, param_headers.
  destruct (pa_contentType p) as [[|c s]|], (pa_fileName p) as [f|]; rewrite !sapp_assoc, ?sapp_nil_r; try done; do 8 f_equal.
Qed.

Lemma piece_content files p :
  piece_text files match pa_fileName p with Some f => PFile f | None => PText (default "" (pa_value p)) end = param_content files p.
Proof. unfold param_content. by destruct (pa_fileName p). Qed.

Lemma form_asked files ps : body_text files (form_body n ps) = asked_form n files ps.
Proof.
  unfold body_text, form_body, asked_form. cbn [body]. induction ps as [|p ps IH]; [done|].
  change (mjoin (form_part n <$> p :: ps)) with (form_part n p ++ mjoin (form_part n <$> ps)).
  unfold form_part at 1. cbn [app]. rewrite !fmap_cons. cbn [piece_text].
  rewrite !concat_empty_sep, IH, part_head_headers, piece_content. by rewrite !sapp_assoc.
Qed.

(** The text of the parameters [ps] behind the boundaries *)
Lemma form_text files ps :
  codes (body_text files (form_body n ps)) =
  write_multipart (codes ("--" +:+ n)) (write_part <$> (form_section files <$> ps)) CRLF.
Proof.
  unfold body_text, form_body, write_multipart. cbn [body].
  induction ps as [|p ps IH].
  - cbn [fmap list_fmap mjoin list_join app piece_text String.concat after_boundary]. by rewrite <- sapp_assoc, !codes_app.
  - change (mjoin (form_part n <$> p :: ps)) with (form_part n p ++ mjoin (form_part n <$> ps)).
    unfold form_part at 1. cbn [app]. rewrite !fmap_cons. cbn [piece_text after_boundary].
    rewrite !concat_empty_sep, !codes_app, IH.
    rewrite <- (codes_app "--" n). rewrite part_head_headers, piece_content, !codes_app. unfold write_part at 2, form_section at 2.
    cbn [fst snd]. change (codes crlf) with CRLF. by rewrite <- !app_assoc.
Qed.

(** No piece of a parameter includes the boundary, so its part does not. *)
Lemma headers_lack p : includes n (pa_name p) = false → (∀ f, pa_fileName p = Some f → includes n f = false) →
  (∀ c, pa_contentType p = Some c → includes n c = false) →
  (∀ w, w ∈ ["Content-Disposition: form-data; name="; "; filename="; "Content-Type:"; "application/octet-stream"] → includes n w = false) →
  includes n (param_headers p) = false.
Proof.
  intros Hname Hfile Hct Hw.
  assert (∀ c a b, boundary_char c = false → includes n a = false → includes n b = false → includes n (a +:+ String c b) = false) as Hsep.
  { intros c a b Hc. apply includes_sep; [done|by apply boundary_sep]. }
  assert (includes n "" = false) as He by by destruct n.
  assert (∀ z, includes n z = false → includes n (crlf +:+ "Content-Type: " +:+ z) = false) as Htype.
  { intros z Hz. apply (Hsep "013"%char "" (String "010" ("Content-Type: " +:+ z))); [done|done|].
    apply (Hsep "010"%char "" ("Content-Type: " +:+ z)); [done|done|].
    apply (Hsep " "%char "Content-Type:" z); [done|apply Hw; set_solver|done]. }
  assert (∀ u s z, includes n u = false → includes n s = false → includes n z = false →
    includes n (u +:+ quote_char +:+ nU s +:+ quote_char +:+ z) = false) as Hq.
  { intros u s z Hu Hs Hz. apply (Hsep "034"%char u (nU s +:+ quote_char +:+ z)); [done|done|].
    apply (Hsep "034"%char (nU s) z); [done| |done]. by apply nU_includes; [|apply boundary_plain_char|]. }
  unfold param_headers. apply Hq; [apply Hw; set_solver|done|].
  set (T := match pa_contentType p with Some "" => _ | _ => _ end).
  assert (includes n T = false) as HT.
  { subst T. destruct (pa_contentType p) as [[|c s]|]; [done|by apply Htype, Hct|].
    destruct (pa_fileName p); [|done]. apply (Htype "application/octet-stream"), Hw. set_solver. }
  destruct (pa_fileName p) as [f|]; [|done]. rewrite !sapp_assoc. apply Hq; [apply Hw; set_solver|by apply Hfile|done].
Qed.

Lemma section_lacks files p : includes n (param_headers p) = false → includes n (param_content files p) = false →
  ¬ occurs (codes ("--" +:+ n)) (write_part (form_section files p)).
Proof.
  intros Hh Hc Ho. unfold write_part, form_section in Ho. cbn [fst snd] in Ho. change CRLF with (codes crlf) in Ho.
  rewrite <- !codes_app in Ho. apply codes_occurs, includes_spec in Ho as (x & y & E).
  assert (includes n (param_headers p +:+ crlf +:+ crlf +:+ param_content files p) = true) as H.
  { rewrite E. apply includes_spec. exists (x +:+ "--"), y. by rewrite !sapp_assoc. }
  assert (∀ c b, boundary_char c = false → includes n b = false → includes n (String c b) = false) as Hsep.
  { intros c b Hb. apply (includes_sep n c ""); [done|by apply boundary_sep|by destruct n]. }
  rewrite (includes_sep n "013" _ (String "010" (crlf +:+ param_content files p))) in H; [done|done|by apply boundary_sep|done|].
  apply Hsep; [done|]. apply (Hsep "013"%char (String "010" (param_content files p))); [done|]. by apply Hsep.
Qed.
End form.

(** ** The parts of the form *)

Lemma find_sub_skips p u z : (∀ c, c ∈ u → head p ≠ Some c) → p ≠ [] →
  find_sub p z = None → find_sub p (u ++ z) = None.
Proof.
  intros Hu Hp Hz. induction u as [|c u IH]; [done|]. cbn [app find_sub].
  assert (starts p (c :: u ++ z) = false) as ->.
  { destruct p as [|d p]; [done|]. cbn [starts]. destruct (Z.eqb_spec d c) as [->|]; [|done]. by destruct (Hu c ltac:(left)). }
  rewrite IH; [done|]. intros d Hd. apply Hu. by right.
Qed.

Definition no_line_end (s : string) : bool := sforall (λ c, negb (Ascii.eqb c "013" || Ascii.eqb c "010")) s.

Lemma no_line_end_codes s : no_line_end s = true → CR ∉ codes s.
Proof.
  induction s as [|c s IH]; [intros _; apply not_elem_of_nil|]. unfold no_line_end in *. cbn [sforall codes]. intros [Hc Hs]%andb_true_iff.
  apply not_elem_of_cons. split; [|by apply IH]. intros E. revert Hc. change CR with (Z.of_nat (nat_of_ascii "013")) in E.
  apply Nat2Z.inj, (f_equal ascii_of_nat) in E. rewrite !ascii_nat_embedding in E. by rewrite <- E.
Qed.

Lemma nU_no_line_end s : no_line_end (nU s) = true.
Proof.
  induction s as [|c s IH]; [done|]. rewrite nU_cons. unfold no_line_end in *. rewrite sforall_app, IH, andb_true_r.
  destruct (Ascii.eqb c "013") eqn:E1; [done|]. destruct (Ascii.eqb c "010") eqn:E2; [done|]. destruct (Ascii.eqb c "034"); [done|].
  cbn -[Ascii.eqb]. by rewrite E1, E2.
Qed.

Lemma no_line_end_app a b : no_line_end (a +:+ b) = no_line_end a && no_line_end b.
Proof. apply sforall_app. Qed.

(** Two line ends meet only behind the header lines. *)
Lemma one_line u : CR ∉ u → find_sub (CRLF ++ CRLF) (u ++ [13; 10; 13]) = None.
Proof. intros Hu. apply find_sub_skips; [|done|done]. intros c Hc [= <-]. by destruct Hu. Qed.

Lemma two_lines u c v : CR ∉ u → CR ∉ c :: v → find_sub (CRLF ++ CRLF) ((u ++ CRLF ++ c :: v) ++ [13; 10; 13]) = None.
Proof.
  intros Hu Hv. pose proof (one_line (c :: v) Hv) as H. rewrite <- !app_assoc.
  apply find_sub_skips; [intros d Hd [= <-]; by destruct Hu|done|].
  apply not_elem_of_cons in Hv as [Hc Hv]. change (CRLF ++ CRLF) with [13; 10; 13; 10] in *. cbn [app] in H.
  change ((CRLF ++ (c :: v) ++ [13; 10; 13])) with (13 :: 10 :: c :: v ++ [13; 10; 13]). cbn [find_sub]. cbn [starts].
  rewrite (proj2 (Z.eqb_neq 13 c) Hc). cbn [find_sub starts] in H. rewrite (proj2 (Z.eqb_neq 13 c) Hc) in H. change (13 =? 13) with true. change (10 =? 10) with true.
  change (13 =? 10) with false. cbn [andb] in *. by rewrite H.
Qed.

Lemma form_headed files p : (∀ c, pa_contentType p = Some c → no_line_end c = true) → headed (form_section files p).
Proof.
  intros Hc. unfold headed, form_section. cbn [fst]. split_and!; [done|done|]. change (removelast (CRLF ++ CRLF)) with [13; 10; 13].
  set (u := "Content-Disposition: form-data; name=" +:+ quote_char +:+ nU (pa_name p) +:+ quote_char +:+
    (match pa_fileName p with None => "" | Some f => "; filename=" +:+ quote_char +:+ nU f +:+ quote_char end)).
  assert (no_line_end u = true) as Hu.
  { subst u. rewrite !no_line_end_app, nU_no_line_end. destruct (pa_fileName p); [|done]. by rewrite !no_line_end_app, nU_no_line_end. }
  assert (param_headers p = u ∨ ∃ v, param_headers p = u +:+ crlf +:+ "Content-Type: " +:+ v ∧ no_line_end v = true) as [->|(v & -> & Hv)].
  { unfold param_headers. subst u.
    destruct (pa_contentType p) as [[|c s]|]; [left; by rewrite !sapp_nil_r|right; exists (String c s); split; [by rewrite !sapp_assoc|by apply Hc]|].
    destruct (pa_fileName p); [right; exists "application/octet-stream"; split; [by rewrite !sapp_assoc|done]|left; by rewrite !sapp_nil_r]. }
  - by apply one_line, no_line_end_codes.
  - rewrite !codes_app. change (codes crlf) with CRLF. change (codes "Content-Type: " ++ codes v) with (67 :: codes ("ontent-Type: " +:+ v)).
    apply two_lines; [by apply no_line_end_codes|]. change (67 :: codes ("ontent-Type: " +:+ v)) with (codes ("Content-Type: " +:+ v)).
    apply no_line_end_codes. by rewrite no_line_end_app, Hv.
Qed.

(** The reader accepts the boundary of a form, up to 70 characters. *)
Lemma form_boundary n : sforall boundary_char n = true → n ≠ "" → (String.length n ≤ 70)%nat →
  boundary_of ("multipart/form-data; boundary=" +:+ n) = Some n.
Proof.
  intros Hn H0 Hl. assert (∀ P, (∀ c, boundary_char c = true → P c = true) → sforall P n = true) as Hall.
  { intros P HP. revert Hn. by apply sforall_impl. }
  assert (Lc n = true) as HL.
  { destruct n as [|c s]; [done|]. unfold Lc. apply Hall. intros d. by destruct d as [[] [] [] [] [] [] [] []]. }
  assert (zc (Some ("multipart/form-data; boundary=" +:+ n)) = Media "multipart" "form-data" [("boundary", n)]) as Hz.
  { rewrite <- zc_toString; [|done..| |by apply NoDup_singleton].
    - unfold toString. cbn [m_params fmap list_fmap join String.concat]. unfold param_text, essence. cbn [fst snd m_type m_subtype]. by rewrite HL.
    - constructor; [|done]. split_and!; [done|done|]. apply Hall. intros d. by destruct d as [[] [] [] [] [] [] [] []]. }
  unfold boundary_of. rewrite Hz. cbn [m_params map_get]. change (String.eqb "boundary" "boundary") with true.
  cbn beta iota.
  rewrite (proj2 (String.eqb_neq n "") H0), (Hall boundary_byte) by (intros d; by destruct d as [[] [] [] [] [] [] [] []]).
  rewrite (proj2 (Nat.leb_le _ _)) by done. cbn [andb negb orb].
  rewrite bool_decide_false; [done|]. intros Hs. clear -Hn Hs. induction n as [|c n IH]; [done|].
  cbn [sforall] in Hn. apply andb_true_iff in Hn as [Hc Hn]. destruct n as [|d n]; [|by apply IH].
  cbn in Hs. injection Hs as ->. done.
Qed.

(** The fixed texts of the header lines do not include a boundary. *)
Lemma fixed_lack d w : w ∈ ["Content-Disposition: form-data; name="; "; filename="; "Content-Type:"; "application/octet-stream"] →
  includes ("scalar-boundary" +:+ d) w = false.
Proof.
  intros Hw. destruct (includes ("scalar-boundary" +:+ d) w) eqn:E; [|done].
  assert (includes "scalar-boundary" w = true) as H.
  { apply includes_spec in E as (a & b & ->). apply includes_spec. exists a, (d +:+ b). by rewrite !sapp_assoc. }
  exfalso. clear E. apply (eq_true_false_abs _ H). clear H.
  revert w Hw. apply (proj1 (Forall_forall (λ w, includes "scalar-boundary" w = false) _)). by repeat constructor.
Qed.

Lemma field_of p v o : o ∈ [pa_value p; pa_fileName p; pa_contentType p] → o = Some v → v ∈ param_fields p.
Proof. intros Ho ->. right. apply list_elem_of_omap. by exists (Some v). Qed.

(** C5. A form of the code samples arrives: the bytes a sample sends of a form with text
    and file fields, behind the boundary its search found, are read by the multipart
    reader of the bundle as the fields of the form, in order, each with its name, file
    name and content type in its header lines and its text or the content of its file
    as its body, in whatever chunks they arrive; names with quotes and line ends
    included. Provided that the boundary has at most 70 characters (a longer one the
    reader refuses, [long_boundary_is_refused]), no content type has a line end, every
    part is at most 8 MiB with its header, and no file holds the boundary (the search
    knows what is in the form, not in the files). *)
Theorem sample_form_is_read_back decode reformat files ps n chunks : FPt ps = Some (form_body n ps) → (String.length n ≤ 70)%nat →
  (∀ p f, p ∈ ps → pa_fileName p = Some f → includes n (files f) = false) →
  (∀ p c, p ∈ ps → pa_contentType p = Some c → no_line_end c = true) →
  (∀ p, p ∈ ps → (length (write_part (form_section files p)) ≤ Uc)%nat) →
  concat chunks = codes (body_text files (form_body n ps)) →
  Gc decode reformat (contentType (form_body n ps)) chunks =
  in_order (λ k p, show_body decode reformat (λ s l o, reader decode reformat 7 s l [o]) [] k
                     (codes (param_headers p)) (codes (param_content files p))) 0 ps.
Proof.
  intros HF Hlen Hfiles Hct Hsize Hc.
  destruct (free_form ps) as (d & HF' & _ & Hb & Hfree).
  assert (n = "scalar-boundary" +:+ d) as Hnd.
  { rewrite HF in HF'. apply (f_equal (option_map contentType)) in HF'. cbn [option_map form_body contentType] in HF'.
    apply (f_equal (λ o, match o with Some x => strip_prefix "multipart/form-data; boundary=" x | None => None end)) in HF'.
    cbn beta iota in HF'. rewrite !strip_prefix_app in HF'. congruence. }
  assert (n ≠ "") as H0 by by rewrite Hnd.
  assert (sforall boundary_char n = true) as Hn by by rewrite Hnd.
  pose proof (form_boundary n Hn H0 Hlen) as Hbo. destruct (boundary_plain _ _ Hbo) as (H1 & H2 & H3).
  unfold Gc, Lve. cbn [reader form_body contentType]. rewrite Hbo.
  rewrite (scan_body (codes ("--" +:+ n)) H1 H2 H3 (write_part <$> (form_section files <$> ps)) CRLF).
  - rewrite show_parts, <- list_fmap_compose. apply in_order_ext. intros k p Hp.
    apply (show_written _ _ _ _ k (form_section files p)); [|by apply Hsize]. apply form_headed. intros c. by apply Hct.
  - rewrite <- list_fmap_compose. apply Forall_fmap, Forall_forall. intros p Hp. split; [|by apply Hsize].
    assert (∀ v, v ∈ param_fields p → includes n v = false) as Hv by (intros v Hv; rewrite Hnd; by apply (Hfree p)).
    apply section_lacks; [done|done| |].
    + apply (headers_lack n Hn H0).
      * apply Hv. left.
      * intros f Hf. by apply Hv, (field_of p f (pa_fileName p)); [right; left|].
      * intros c Hf. by apply Hv, (field_of p c (pa_contentType p)); [right; right; left|].
      * intros w Hw. rewrite Hnd. by apply fixed_lack.
    + unfold param_content. destruct (pa_fileName p) as [f|] eqn:Ef; [by apply (Hfiles p)|].
      destruct (pa_value p) as [v|] eqn:Ev; cbn; [|by destruct n]. by apply Hv, (field_of p v (pa_value p)); [left|].
  - right. exists []. split; [done|cbn; lia].
  - by rewrite Hc, form_text.
Qed.

(** ** On concrete bodies *)

Lemma small_fits k : (k ≤ 1000)%nat → (k ≤ Uc)%nat.
Proof. unfold Uc. lia. Qed.

(** A decoder of ASCII *)
Definition ascii_decode (charset : string) (o : list Z) : option text := if String.eqb charset "utf-8" then Some o else None.

Definition sample_parts : list (list Z * list Z) :=
  [(codes "Content-Type: text/plain", codes "hello"); (codes "content-type: image/png", [0; 255; 7])].

Lemma multipart_is_read_back_witness :
  let a := codes "--b" in
  let bytes := write_multipart a (write_part <$> sample_parts) (CRLF ++ codes "ignored") in
  Gc ascii_decode (λ _, None) "multipart/mixed; boundary=b" ((λ c, [c]) <$> bytes) =
    ([codes "Part 1" ++ [LF] ++ codes "Content-Type: text/plain" ++ [LF; LF]; codes "hello" ++ [LF];
      codes "Part 2" ++ [LF] ++ codes "content-type: image/png" ++ [LF; LF];
      codes "[Binary part: 3 bytes, base64]" ++ [LF] ++ codes "AP8H" ++ [LF]], None).
Proof.
  cbn zeta. etransitivity.
  - apply (multipart_is_read_back ascii_decode (λ _, None) "multipart/mixed; boundary=b" "b" sample_parts (CRLF ++ codes "ignored")).
    + reflexivity.
    + assert (∀ s, (String.length s ≤ 1000)%nat → includes "--b" s = false → length (codes s) = String.length s → part_ok (codes "--b") (codes s)) as H.
      { intros s Hl Hi He. split; [intros Ho%codes_occurs; congruence|rewrite He; by apply small_fits]. }
      assert (∀ x y, x ≠ [] → starts CRLF (x ++ CRLF) = false → find_sub (CRLF ++ CRLF) (x ++ removelast (CRLF ++ CRLF)) = None → headed (x, y)) as H'
        by (intros x y ? ? ?; split_and!; done).
      apply Forall_cons; split; [split|apply Forall_cons; split; [split|by apply Forall_nil]].
      * by apply H'.
      * apply (H ("Content-Type: text/plain" +:+ crlf +:+ crlf +:+ "hello")); [by apply Nat.leb_le|reflexivity|reflexivity].
      * by apply H'.
      * apply (H ("content-type: image/png" +:+ crlf +:+ crlf +:+ String "000" (String "255" (String "007" "")))); [by apply Nat.leb_le|reflexivity|reflexivity].
    + right. eexists. split; [reflexivity|]. apply small_fits. by apply Nat.leb_le.
    + vm_compute. reflexivity.
  - vm_compute. reflexivity.
Defined.

Lemma unclosed_body_is_an_error_witness :
  snd (Gc ascii_decode (λ _, None) "multipart/mixed; boundary=b" [codes ("--b" +:+ crlf +:+ crlf +:+ "he"); codes ("llo" +:+ crlf +:+ "--b")]) ≠ None.
Proof.
  apply (unclosed_body_is_an_error ascii_decode (λ _, None) "multipart/mixed; boundary=b" "b"); [reflexivity|].
  change (concat _) with (codes ("--b" +:+ crlf +:+ crlf +:+ "hello" +:+ crlf +:+ "--b")).
  intros Ho%codes_occurs. discriminate Ho.
Defined.

Definition sample_form : list param := [Param ("a" +:+ quote_char) (Some "1") None None; Param "f" None (Some "x.bin") None].

Lemma sample_form_is_read_back_witness :
  let n := "scalar-boundary" in
  FPt sample_form = Some (form_body n sample_form) ∧
  Gc ascii_decode (λ _, None) (contentType (form_body n sample_form)) [codes (body_text (λ _, "ABC") (form_body n sample_form))] =
    ([codes "Part 1" ++ [LF] ++ codes ("Content-Disposition: form-data; name=" +:+ quote_char +:+ "a%22" +:+ quote_char) ++ [LF; LF];
      codes "1" ++ [LF];
      codes "Part 2" ++ [LF] ++ codes ("Content-Disposition: form-data; name=" +:+ quote_char +:+ "f" +:+ quote_char +:+ "; filename=" +:+
        quote_char +:+ "x.bin" +:+ quote_char +:+ crlf +:+ "Content-Type: application/octet-stream") ++ [LF; LF];
      codes "[Binary part: 3 bytes, base64]" ++ [LF] ++ codes "QUJD" ++ [LF]], None).
Proof.
  cbn zeta. assert (FPt sample_form = Some (form_body "scalar-boundary" sample_form)) as HF by (vm_compute; reflexivity).
  split; [exact HF|]. etransitivity.
  - apply (sample_form_is_read_back ascii_decode (λ _, None) (λ _, "ABC") sample_form "scalar-boundary" _ HF).
    + by apply Nat.leb_le.
    + intros p f _ _. reflexivity.
    + intros p c Hp. revert p Hp. apply (proj1 (Forall_forall (λ p, pa_contentType p = Some c → no_line_end c = true) _)).
      repeat constructor; discriminate.
    + apply (proj1 (Forall_forall (λ p, (length (write_part (form_section (λ _, "ABC") p)) ≤ Uc)%nat) _)).
      apply Forall_cons; split; [|apply Forall_cons; split; [|by apply Forall_nil]]; apply small_fits; by apply Nat.leb_le.
    + cbn [concat]. by rewrite app_nil_r.
  - vm_compute. reflexivity.
Defined.

(** A name with the boundary and sixty dashes in it makes the search go on past 70
    characters, the most a boundary may have; the reader refuses it. *)
Lemma long_boundary_is_refused :
  let name := "scalar-boundary" +:+ "------------------------------------------------------------" in
  ∃ m, FPt [Param name (Some "1") None None] = Some m ∧ boundary_of (contentType m) = None.
Proof. eexists. split; [vm_compute; reflexivity|vm_compute; reflexivity]. Qed.
