(* ===== verification/Parameters.v ===== *)
(** * scalar.js: the parameters of a request

    How the API client serializes a parameter ([vy], [yy], [by], [xy], [Sy], [_y]), what it
    sends ([SHe] for the query, [CHe] for the cookies), and what the code sample of the
    same operation shows (the query and cookie cases of [ALt]). A value is what a JS
    program sees of it: numbers are given by the text [String] makes of them, the
    entries of an object in the order of [Object.entries]. [JSON.stringify] is a
    parameter. Files and dates are not modelled. *)
From S2P Require Import Prelude Shell Snippets.
#[local] Open Scope list_scope.

(** ** JS values

    [Verbatim] is a piece of code that a sample of another file holds as it is, an
    instance of one of the classes of the samples; no parameter has one as its value. *)

Inductive jv : Type :=
| Undefined
| Null
| Bool (b : bool)
| Num (printed : string)
| Str (s : string)
| Verbatim (code : string)
| Arr (l : list jv)
| Obj (l : list (string * jv)).

(** [String(e)], what a template makes of e; [item]: e is an item of an array that is
    joined, where null and undefined are empty *)
Fixpoint js_text (item : bool) (e : jv) : string :=
  match e with
  | Undefined => if item then "" else "undefined"
  | Null => if item then "" else "null"
  | Bool b => if b then "true" else "false"
  | Num n => n
  | Str s => s
  | Arr l => String.concat "," (js_text true <$> l)
  | Verbatim _ | Obj _ => "[object Object]"
  end.

Definition js_string (e : jv) : string := js_text false e.

(** [l.join(sep)] *)
Definition join_values (sep : string) (l : list jv) : string := String.concat sep (js_text true <$> l).

(** ** Serializers *)

(** A list of keys and values, or one value *)
Inductive serialized : Type := Entries (l : list (string * jv)) | Single (e : jv).

(** [`${e},${t}`] *)
Definition pair_text (sep : string) (p : string * jv) : string := p.1 +:+ sep +:+ js_string p.2.

(** vy: style form *)
Definition vy (e : jv) (explode : bool) : serialized :=
  match e with
  | Arr l => if explode then Entries ((λ v, ("", v)) <$> l) else Single (Str (join_values "," l))
  | Obj l => if explode then Entries l else Single (Str (String.concat "," (pair_text "," <$> l)))
  | _ => Single e
  end.

(** The keys and values of yy, of objects within objects too *)
Fixpoint flat_entries (e : jv) : list string :=
  match e with
  | Obj l => (fix go (l : list (string * jv)) : list string :=
      match l with
      | [] => []
      | (k, v) :: l' => k :: match v with Obj _ => flat_entries v | _ => [js_string v] end ++ go l'
      end) l
  | _ => []
  end.

(** yy: cookies *)
Definition yy (e : jv) (explode : bool) : serialized :=
  match e with
  | Arr l => if explode then Entries ((λ v, ("", v)) <$> l) else Single (Str (String.concat "," (js_string <$> l)))
  | Obj l => if explode then Entries l else Single (Str (String.concat "," (flat_entries e)))
  | _ => Single e
  end.

(** by: space-delimited *)
Definition by_ (e : jv) : string :=
  match e with
  | Arr l => join_values " " l
  | Obj l => String.concat " " (pair_text " " <$> l)
  | _ => js_string e
  end.

(** xy: pipe-delimited *)
Definition xy (e : jv) : string :=
  match e with
  | Arr l => join_values "|" l
  | Obj l => join_values "|" (mjoin ((λ p, [Str p.1; p.2]) <$> l))
  | _ => js_string e
  end.

(** The entries of a value of Sy, under the key [k] *)
Fixpoint deep_entries (k : string) (t : jv) : list (string * string) :=
  match t with
  | Arr l => (fix go (l : list jv) : list (string * string) :=
      match l with [] => [] | v :: l' => deep_entries (k +:+ "[]") v ++ go l' end) l
  | Obj l => (fix go (l : list (string * jv)) : list (string * string) :=
      match l with [] => [] | (n, v) :: l' => deep_entries (k +:+ "[" +:+ n +:+ "]") v ++ go l' end) l
  | _ => [(k, js_string t)]
  end.

(** Sy: deep objects *)
Definition Sy (e : string) (t : jv) : list (string * string) := match t with Obj _ => deep_entries e t | _ => [] end.

(** [_y]: style simple, headers and paths *)
Definition underscore_y (e : jv) (explode : bool) : jv :=
  match e with
  | Arr l => Str (join_values "," l)
  | Obj l => Str (String.concat "," (pair_text (if explode then "=" else ",") <$> l))
  | _ => e
  end.

(** ** What the client sends *)

Inductive style : Type := Form | SpaceDelimited | PipeDelimited | DeepObject | OtherStyle.

#[export] Instance style_eq_dec : EqDecision style.
Proof. solve_decision. Defined.

Record parameter : Type := Query_parameter {
  pm_name : string; pm_style : option style; pm_explode : option bool; pm_allowReserved : bool;
  pm_content : option string (* the first media type of its content *) }.

Section request.
Variable stringify : jv → string.

(** gy *)
Definition gy (e : jv) (t : string) : string :=
  match e with
  | Str s => s
  | Obj _ => stringify e
  | _ => if includes "json" t then stringify e else js_string e
  end.

(** bHe *)
Definition bHe (p : parameter) (t : jv) : style :=
  match pm_style p with
  | None => Form
  | Some DeepObject => match t with Obj _ => DeepObject | _ => Form end
  | Some s => s
  end.

(** URLSearchParams *)
Fixpoint params_get (t : string) (r : list (string * string)) : option string :=
  match r with [] => None | (k, v) :: r' => if String.eqb k t then Some v else params_get t r' end.

Fixpoint params_without (t : string) (r : list (string * string)) : list (string * string) :=
  match r with [] => [] | (k, v) :: r' => if String.eqb k t then params_without t r' else (k, v) :: params_without t r' end.

Fixpoint params_set (t x : string) (r : list (string * string)) : list (string * string) :=
  match r with
  | [] => [(t, x)]
  | (k, v) :: r' => if String.eqb k t then (t, x) :: params_without t r' else (k, v) :: params_set t x r'
  end.

(** [a ? `${a} ${e}` : e] *)
Definition append_text (a : option string) (sep e : string) : string :=
  match a with None | Some "" => e | Some a => a +:+ sep +:+ e end.

(** [e.key || t] *)
Definition key_or (k t : string) : string := if String.eqb k "" then t else k.

(** SHe: the query of the request, [r] so far *)
Definition SHe (p : parameter) (t : string) (n : jv) (r : list (string * string)) : list (string * string) :=
  let a := default true (pm_explode p) in
  let s := bHe p n in
  match pm_content p with
  | Some c => params_set t (gy n c) r
  | None =>
      if bool_decide (s = DeepObject) && a then r ++ Sy t n
      else match s with
           | SpaceDelimited => params_set t (append_text (params_get t r) " " (by_ n)) r
           | PipeDelimited => params_set t (append_text (params_get t r) "|" (xy n)) r
           | _ => match vy n a with
                  | Entries l => r ++ ((λ x, (key_or x.1 t, js_string x.2)) <$> l)
                  | Single c => r ++ [(t, js_string c)]
                  end
           end
  end.

(** CHe: the cookies of the request *)
Definition CHe (e : string) (t : jv) (explode : bool) (r : list (string * string)) : list (string * string) :=
  match yy t explode with
  | Entries l => r ++ ((λ x, (key_or x.1 e, js_string x.2)) <$> l)
  | Single i => r ++ [(e, js_string i)]
  end.

(** ** What the sample shows *)

(** CW *)
Definition CW (p : parameter) (e : string) : string := if pm_allowReserved p then e else encodeURIComponent e.

(** OLt of a query parameter *)
Definition OLt (p : parameter) : style * bool :=
  let n := default Form (pm_style p) in
  (n, default (bool_decide (n = Form)) (pm_explode p)).

(** The query case of ALt: the entries before CW *)
Definition sample_query (p : parameter) (d : jv) : list (string * string) :=
  match pm_content p with
  | Some c => [(pm_name p, gy d c)]
  | None =>
      let '(f, x) := OLt p in
      let entries s := match s with
                       | Entries l => (λ v, (key_or v.1 (pm_name p), js_string v.2)) <$> l
                       | Single t => [(pm_name p, js_string t)]
                       end in
      match f with
      | Form => entries (vy d x)
      | SpaceDelimited => [(pm_name p, by_ d)]
      | PipeDelimited => [(pm_name p, xy d)]
      | DeepObject => match d with Arr _ => entries (vy d true) | _ => Sy (pm_name p) d end
      | OtherStyle => [(pm_name p, js_string d)]
      end
  end.

Definition ALt_query (p : parameter) (d : jv) : list (string * string) := (λ x, (x.1, CW p x.2)) <$> sample_query p d.

(** The cookie case of ALt, style form *)
Definition ALt_cookie (e : string) (d : jv) (explode : bool) : list (string * string) :=
  match yy d explode with
  | Entries l => (λ x, (key_or x.1 e, match x.2 with Null => "null" | v => js_string v end)) <$> l
  | Single t => [(e, match t with Null => "null" | v => js_string v end)]
  end.
End request.

(** ** Paths of the sample *)

Inductive path_style : Type := Matrix | Label | Simple | OtherPath.

(** [s.replace(p, r)]: the first [p], with the patterns of [r] expanded: [$$], [$&], the
    text before (a backquote) and the text behind (a quote) *)
Fixpoint expand (before p behind r : string) : string :=
  match r with
  | "" => ""
  | String c r' =>
      if Ascii.eqb c "$" then
        match r' with
        | String d r'' =>
            if Ascii.eqb d "$" then String "$" (expand before p behind r'')
            else if Ascii.eqb d "&" then p +:+ expand before p behind r''
            else if Ascii.eqb d "`" then before +:+ expand before p behind r''
            else if Ascii.eqb d "'" then behind +:+ expand before p behind r''
            else String c (expand before p behind r')
        | "" => one c
        end
      else String c (expand before p behind r')
  end.

Fixpoint replace_from (before s p r : string) : string :=
  match strip_prefix p s with
  | Some behind => before +:+ expand before p behind r +:+ behind
  | None => match s with "" => before | String c s' => replace_from (before +:+ one c) s' p r end
  end.

Definition js_replace (s p r : string) : string := replace_from "" s p r.

(** jLt *)
Definition jLt (e name : string) (n : jv) (r : path_style) (i : bool) : string :=
  let matrix := "{;" +:+ name +:+ "}" in
  let label := "{." +:+ name +:+ "}" in
  match r with
  | Matrix =>
      js_replace e matrix
        match n, i with
        | Arr l, true => ";" +:+ String.concat ";" ((λ v, name +:+ "=" +:+ js_string v) <$> l)
        | Obj l, true => ";" +:+ String.concat ";" (pair_text "=" <$> l)
        | Arr l, false => ";" +:+ name +:+ "=" +:+ join_values "," l
        | Obj l, false => ";" +:+ name +:+ "=" +:+ String.concat "," (pair_text "," <$> l)
        | _, _ => ";" +:+ name +:+ "=" +:+ js_string n
        end
  | Label =>
      js_replace e label
        match n, i with
        | Arr l, true => "." +:+ join_values "." l
        | Obj l, true => "." +:+ String.concat "." (pair_text "=" <$> l)
        | Arr l, false => "." +:+ join_values "," l
        | Obj l, false => "." +:+ String.concat "," (pair_text "," <$> l)
        | _, _ => "." +:+ js_string n
        end
  | Simple => js_replace e ("{" +:+ name +:+ "}") (js_string (underscore_y n i))
  | OtherPath => js_replace e ("{" +:+ name +:+ "}") (js_string n)
  end.

(** ** The sample shows what the client sends *)

(** The parameters of which both make the same; [sample_drops_a_primitive] and
    [sample_ignores_explode] are the others. *)
Definition comparable (p : parameter) (d : jv) : bool :=
  match pm_content p with
  | Some _ => true
  | None =>
      match default Form (pm_style p) with
      | OtherStyle => false
      | DeepObject => match d with Obj _ | Arr _ => default true (pm_explode p) | _ => false end
      | _ => true
      end
  end.

Lemma params_set_fresh t x r : params_get t r = None → params_set t x r = r ++ [(t, x)].
Proof.
  induction r as [|[k v] r IH]; [done|]. cbn [params_get params_set]. destruct (String.eqb k t); [done|].
  intros H. cbn [app]. by rewrite IH.
Qed.

(** A server's reading of a value: a percent sign and two hexadecimal digits are a
    byte. *)
Definition hex_digit (c : ascii) : option nat :=
  let n := nat_of_ascii c in
  if byte_in 48 57 c then Some (n - 48)%nat else if byte_in 65 70 c then Some (n - 55)%nat
  else if byte_in 97 102 c then Some (n - 87)%nat else None.

Fixpoint percent_decode (s : string) : string :=
  match s with
  | String "%" (String a (String b s' as t) as u) =>
      match hex_digit a, hex_digit b with
      | Some x, Some y => String (ascii_of_nat (16 * x + y)) (percent_decode s')
      | _, _ => String "%" (percent_decode u)
      end
  | String c s' => String c (percent_decode s')
  | "" => ""
  end.

Lemma percent_decode_plain c s : Ascii.eqb c "%" = false → percent_decode (String c s) = String c (percent_decode s).
Proof. by destruct c as [[] [] [] [] [] [] [] []]. Qed.

Lemma percent_decode_byte c s :
  percent_decode (String "%" (String (upper_hex (nat_of_ascii c / 16)) (String (upper_hex (nat_of_ascii c mod 16)) s))) =
  String c (percent_decode s).
Proof. by destruct c as [[] [] [] [] [] [] [] []]. Qed.

Lemma percent_decode_encode s : percent_decode (encodeURIComponent s) = s.
Proof.
  induction s as [|c s IH]; [done|]. cbn [encodeURIComponent]. destruct (uri_unreserved c) eqn:E.
  - change (one c +:+ ?x) with (String c x). rewrite percent_decode_plain, IH; [done|].
    by destruct (Ascii.eqb_spec c "%") as [->|].
  - change (String ?a (String ?b (one ?c)) +:+ ?x) with (String a (String b (String c x))).
    by rewrite percent_decode_byte, IH.
Qed.

(** The value of an entry of the sample's query, percent-encoded unless the parameter
    allows reserved characters *)
Definition entry_value (p : parameter) (x : string) : string :=
  if pm_allowReserved p then x else percent_decode x.

Lemma entry_value_CW p x : entry_value p (CW p x) = x.
Proof. unfold entry_value, CW. destruct (pm_allowReserved p); [done|apply percent_decode_encode]. Qed.

(** C26. The code sample of an operation shows what the client sends: for every value
    of a query parameter whose name the query does not have yet, of any style a query
    may have and any explode, with its deep objects objects or arrays and not explode:
    false, the entries the client appends to the query are those of the sample, whose
    values are percent-encoded unless the parameter allows reserved characters; the
    names stand in both as they are. And of a cookie parameter of style form, the
    cookies are the same for every value, given the same explode. *)
Theorem sample_shows_what_is_sent stringify p d r explode :
  comparable p d = true → params_get (pm_name p) r = None →
  SHe stringify p (pm_name p) d r = r ++ ((λ x, (x.1, entry_value p x.2)) <$> ALt_query stringify p d) ∧
  CHe (pm_name p) d explode r = r ++ ALt_cookie (pm_name p) d explode.
Proof.
  intros Hc Hr. split.
  - assert ((λ x, (x.1, entry_value p x.2)) <$> ALt_query stringify p d = sample_query stringify p d) as ->.
    { unfold ALt_query. rewrite <- list_fmap_compose. rewrite <- (list_fmap_id (sample_query stringify p d)) at 2.
      apply list_fmap_ext. intros i [k v] _. cbn. by rewrite entry_value_CW. }
    unfold SHe, sample_query, comparable, bHe, OLt in *. destruct (pm_content p) as [c|]; [by apply params_set_fresh|].
    destruct (pm_style p) as [[]|]; cbn [default from_option id] in *; try done.
    + change (bool_decide (Form = DeepObject)) with false. cbn [andb].
      change (bool_decide (Form = Form)) with true. by destruct (vy d _).
    + rewrite bool_decide_false by done. cbn [andb]. rewrite Hr. by apply params_set_fresh.
    + rewrite bool_decide_false by done. cbn [andb]. rewrite Hr. by apply params_set_fresh.
    + destruct d; try done; rewrite Hc; [by rewrite bool_decide_false by done|by rewrite bool_decide_true].
    + change (bool_decide (Form = DeepObject)) with false. cbn [andb].
      change (bool_decide (Form = Form)) with true. by destruct (vy d _).
  - unfold CHe, ALt_cookie. destruct (yy d explode) as [l|i]; [|by destruct i].
    f_equal. apply list_fmap_ext. intros k [n v] _. by destruct v.
Qed.

(** ** Deep objects are read back *)

Section jv_ind.
Variable P : jv → Prop.
Hypothesis Hatom : ∀ e, match e with Arr _ | Obj _ => False | _ => True end → P e.
Hypothesis Harr : ∀ l, Forall P l → P (Arr l).
Hypothesis Hobj : ∀ l, Forall (λ x, P x.2) l → P (Obj l).

Fixpoint jv_nested_ind (e : jv) : P e :=
  match e with
  | Undefined => Hatom Undefined I
  | Null => Hatom Null I
  | Bool b => Hatom (Bool b) I
  | Num n => Hatom (Num n) I
  | Str s => Hatom (Str s) I
  | Verbatim c => Hatom (Verbatim c) I
  | Arr l => Harr l ((fix go l : Forall P l := match l with [] => Forall_nil_2 P | x :: l' => Forall_cons_2 P x l' (jv_nested_ind x) (go l') end) l)
  | Obj l => Hobj l ((fix go l : Forall (λ x, P x.2) l :=
      match l with [] => Forall_nil_2 _ | x :: l' => Forall_cons_2 (λ x, P x.2) x l' (jv_nested_ind x.2) (go l') end) l)
  end.
End jv_ind.

(** The values of an object with the keys that lead to them; an item of an array is
    under the empty key. *)
Fixpoint leaves (path : list string) (t : jv) : list (list string * string) :=
  match t with
  | Arr l => (fix go (l : list jv) := match l with [] => [] | v :: l' => leaves (path ++ [""]) v ++ go l' end) l
  | Obj l => (fix go (l : list (string * jv)) := match l with [] => [] | (n, v) :: l' => leaves (path ++ [n]) v ++ go l' end) l
  | _ => [(path, js_string t)]
  end.

(** The keys of an object have no closing bracket. *)
Fixpoint plain_keys (t : jv) : bool :=
  match t with
  | Arr l => (fix go (l : list jv) := match l with [] => true | v :: l' => plain_keys v && go l' end) l
  | Obj l => (fix go (l : list (string * jv)) := match l with [] => true | (n, v) :: l' => lacks "]" n && plain_keys v && go l' end) l
  | _ => true
  end.

(** A key in the way a server reads it: the name, and what is in each pair of brackets *)
Fixpoint read_path (open : option string) (s : string) : option (list string) :=
  match s with
  | "" => match open with None => Some [] | Some _ => None end
  | String c s' =>
      match open with
      | None => if Ascii.eqb c "[" then read_path (Some "") s' else None
      | Some k => if Ascii.eqb c "]" then option_map (cons k) (read_path None s') else read_path (Some (k +:+ one c)) s'
      end
  end.

Fixpoint read_key (s : string) : option (string * list string) :=
  match s with
  | "" => Some ("", [])
  | String c s' => if Ascii.eqb c "[" then option_map (λ x, ("", x)) (read_path None s)
                   else option_map (λ x, (String c x.1, x.2)) (read_key s')
  end.

Fixpoint brackets (path : list string) : string := match path with [] => "" | k :: p => "[" +:+ k +:+ "]" +:+ brackets p end.

Lemma brackets_snoc p k : brackets (p ++ [k]) = brackets p +:+ "[" +:+ k +:+ "]".
Proof. induction p as [|x p IH]; [cbn [app brackets]; by rewrite sapp_nil_r|]. cbn [app brackets]. by rewrite IH, !sapp_assoc. Qed.

Lemma deep_leaves e t : ∀ path, deep_entries (e +:+ brackets path) t = (λ x, (e +:+ brackets x.1, x.2)) <$> leaves path t.
Proof.
  induction t as [t Ht|l IH|l IH] using jv_nested_ind; [by destruct t|..]; intros path.
  - cbn. induction IH as [|v l Hv _ IH]; [done|]. rewrite fmap_app, <- IH, <- Hv, brackets_snoc, !sapp_assoc. done.
  - cbn. induction IH as [|[n v] l Hv _ IH]; [done|]. rewrite fmap_app, <- IH, <- Hv, brackets_snoc, !sapp_assoc. done.
Qed.

Lemma plain_leaves t : ∀ path, plain_keys t = true → Forall (λ k, lacks "]" k = true) path →
  Forall (λ x, Forall (λ k, lacks "]" k = true) x.1) (leaves path t).
Proof.
  induction t as [t Ht|l IH|l IH] using jv_nested_ind; [destruct t; try done; intros path _ Hp; by repeat constructor|..]; intros path.
  - cbn. induction IH as [|v l Hv _ IH]; [done|]. intros [H1 H2]%andb_true_iff Hp. apply Forall_app. split; [|by apply IH].
    apply Hv; [done|]. apply Forall_app. by repeat constructor.
  - cbn. induction IH as [|[n v] l Hv _ IH]; [done|]. intros [[H0 H1]%andb_true_iff H2]%andb_true_iff Hp.
    apply Forall_app. split; [|by apply IH]. apply Hv; [done|]. apply Forall_app. by repeat constructor.
Qed.

Lemma read_path_inside k k0 s : lacks "]" k = true → read_path (Some k0) (k +:+ "]" +:+ s) = option_map (cons (k0 +:+ k)) (read_path None s).
Proof.
  revert k0. induction k as [|c k IH]; intros k0; unfold lacks in *.
  - intros _. change ("" +:+ "]" +:+ s) with (String "]" s). cbn [read_path]. by rewrite sapp_nil_r.
  - change (String c k +:+ "]" +:+ s) with (String c (k +:+ "]" +:+ s)). cbn [sforall read_path]. intros [Hc Hk]%andb_true_iff.
    apply negb_true_iff in Hc. rewrite Hc, IH by done. by rewrite sapp_assoc.
Qed.

Lemma read_path_brackets path : Forall (λ k, lacks "]" k = true) path → read_path None (brackets path) = Some path.
Proof.
  induction 1 as [|k p Hk _ IH]; [done|]. cbn [brackets].
  change ("[" +:+ k +:+ "]" +:+ brackets p) with (String "[" (k +:+ "]" +:+ brackets p)). cbn [read_path].
  change (Ascii.eqb "[" "[") with true. cbn beta iota. by rewrite read_path_inside, IH.
Qed.

Lemma read_key_brackets e path : lacks "[" e = true → Forall (λ k, lacks "]" k = true) path →
  read_key (e +:+ brackets path) = Some (e, path).
Proof.
  intros He Hp. induction e as [|c e IH]; unfold lacks in *.
  - change ("" +:+ brackets path) with (brackets path). pose proof (read_path_brackets path Hp) as H.
    destruct path as [|k p]; [done|]. cbn [brackets] in *.
    change ("[" +:+ k +:+ "]" +:+ brackets p) with (String "[" (k +:+ "]" +:+ brackets p)) in *. cbn [read_key].
    change (Ascii.eqb "[" "[") with true. cbn beta iota. by rewrite H.
  - change (String c e +:+ brackets path) with (String c (e +:+ brackets path)). cbn [read_key sforall] in *.
    apply andb_true_iff in He as [Hc He]. apply negb_true_iff in Hc. by rewrite Hc, IH.
Qed.

(** A deep object is read back: of an object whose keys have no closing bracket,
    under a name without an opening one, the query has one entry for each value in it,
    in order, and a server that reads the brackets finds the name and the keys that
    lead to the value, of objects within objects and of arrays, whatever else the keys
    hold; two values never share a key unless they are items of one array. *)
Theorem deep_object_is_read_back e t : (∃ l, t = Obj l) → lacks "[" e = true → plain_keys t = true →
  (λ x, (read_key x.1, x.2)) <$> Sy e t = (λ x, (Some (e, x.1), x.2)) <$> leaves [] t.
Proof.
  intros [l ->] He Ht. unfold Sy. pose proof (deep_leaves e (Obj l) []) as H. cbn [brackets] in H. rewrite sapp_nil_r in H. rewrite H.
  pose proof (plain_leaves (Obj l) [] Ht (Forall_nil_2 _)) as Hp. rewrite <- list_fmap_compose. apply Forall_fmap_ext_1.
  eapply Forall_impl; [exact Hp|]. intros [p v] Hv. cbn. by rewrite read_key_brackets.
Qed.

(** ** Delimited values are read back *)

Lemma mjoin_cons {A} (x : list A) l : mjoin (x :: l) = x ++ mjoin l.
Proof. done. Qed.

Lemma concat_pairs sep (f : jv → string) (l : list (string * jv)%type) :
  String.concat sep ((λ p, p.1 +:+ sep +:+ f p.2) <$> l) = String.concat sep (mjoin ((λ p, [p.1; f p.2]) <$> l)).
Proof.
  induction l as [|[k v] l IH]; [done|]. destruct l as [|[k' v'] l]; [done|].
  rewrite !fmap_cons, !mjoin_cons in *. cbn [app fst snd] in *. by rewrite !concat_cons, IH, !concat_cons, !sapp_assoc.
Qed.

Lemma flat_nonnil (f : jv → string) (l : list (string * jv)) : l ≠ [] → mjoin ((λ p, [p.1; f p.2]) <$> l) ≠ [].
Proof. by destruct l. Qed.

(** Delimited values are read back: an array that is joined with commas, blanks or
    bars is split into the texts of its items, and an object into its keys and values
    in turn, in order, when none of them holds the delimiter; null and undefined items
    are empty, values of an object are written out, but for null and undefined ones
    behind a bar. *)
Theorem delimited_values_are_read_back l o : l ≠ [] → o ≠ [] →
  (∀ sep, In sep [","; " "; "|"]%char → Forall (λ v, lacks sep (js_text true v) = true) l ∧
     Forall (λ p, lacks sep p.1 = true ∧ lacks sep (js_string p.2) = true) o) →
  let items := js_text true <$> l in
  let flat f := mjoin ((λ p, [p.1; f p.2]) <$> o) in
  vy (Arr l) false = Single (Str (String.concat "," items)) ∧ split_on "," (String.concat "," items) = items ∧
  split_on " " (by_ (Arr l)) = items ∧ split_on "|" (xy (Arr l)) = items ∧
  split_on "," (js_string (underscore_y (Arr l) false)) = items ∧
  (∃ t, vy (Obj o) false = Single (Str t) ∧ split_on "," t = flat js_string) ∧
  split_on " " (by_ (Obj o)) = flat js_string ∧ split_on "|" (xy (Obj o)) = flat (js_text true) ∧
  split_on "," (js_string (underscore_y (Obj o) false)) = flat js_string.
Proof.
  intros Hl Ho Hs items flat.
  assert (∀ sep, In sep [","; " "; "|"]%char → split_on sep (String.concat (one sep) items) = items) as Hi.
  { intros sep Hin. destruct (Hs sep Hin) as [H _]. apply split_concat; [by destruct l|]. by apply Forall_fmap. }
  assert (∀ sep f, In sep [","; " "; "|"]%char → (∀ v, lacks sep (js_string v) = true → lacks sep (f v) = true) →
    split_on sep (String.concat (one sep) (flat f)) = flat f) as Hf.
  { intros sep f Hin Hfv. destruct (Hs sep Hin) as [_ H]. apply split_concat; [by apply flat_nonnil|].
    subst flat. cbn beta. clear -H Hfv. induction H as [|[k v] o [H1 H2] _ IH]; [constructor|].
    rewrite fmap_cons, mjoin_cons. repeat constructor; [done|by apply Hfv|done]. }
  assert (∀ sep, String.concat sep (pair_text sep <$> o) = String.concat sep (flat js_string)) as Hp by (intros sep; apply concat_pairs).
  assert (∀ o, join_values "|" (mjoin ((λ p : string * jv, [Str p.1; p.2]) <$> o)) = String.concat "|" (mjoin ((λ p, [p.1; js_text true p.2]) <$> o))) as Hx.
  { clear. intros o. unfold join_values. f_equal. induction o as [|[k v] o IH]; [done|]. by rewrite !fmap_cons, !mjoin_cons, fmap_app, IH. }
  assert (∀ sep v, lacks sep (js_string v) = true → lacks sep (js_text true v) = true) as Ht by by intros sep [].
  split_and!.
  - done.
  - apply (Hi ","%char). by left.
  - apply (Hi " "%char). by right; left.
  - apply (Hi "|"%char). by right; right; left.
  - apply (Hi ","%char). by left.
  - eexists. split; [done|]. rewrite Hp. apply (Hf ","%char); [by left|done].
  - cbn [by_]. rewrite Hp. apply (Hf " "%char); [by right; left|done].
  - cbn [xy]. rewrite Hx. apply (Hf "|"%char); [by right; right; left|apply Ht].
  - cbn [underscore_y]. change (js_string (Str ?x)) with x. rewrite Hp. apply (Hf ","%char); [by left|done].
Qed.

(** ** On concrete values *)

Lemma sample_shows_what_is_sent_witness :
  let d := Obj [("a", Num "1"); ("", Arr [Null; Str "x /é"])] in
  let p := Query_parameter "q" (Some DeepObject) None false None in
  ALt_query (λ _, "{}") p d = [("q[a]", "1"); ("q[][]", "null"); ("q[][]", "x%20%2F%C3%A9")] ∧
  SHe (λ _, "{}") p "q" d [("z", "0")] = [("z", "0"); ("q[a]", "1"); ("q[][]", "null"); ("q[][]", "x /é")] ∧
  CHe "q" d true [("z", "0")] = [("z", "0"); ("a", "1"); ("q", ",x /é")].
Proof.
  intros d p. destruct (sample_shows_what_is_sent (λ _, "{}") p d [("z", "0")] true eq_refl eq_refl) as [H1 H2].
  split; [reflexivity|]. split; [etransitivity; [exact H1|reflexivity]|etransitivity; [exact H2|reflexivity]].
Defined.

Lemma deep_object_is_read_back_witness :
  let t := Obj [("a[", Obj [("b", Bool true)]); ("c", Arr [Num "1"; Num "2"])] in
  (λ x, (read_key x.1, x.2)) <$> Sy "q" t =
    [(Some ("q", ["a["; "b"]), "true"); (Some ("q", ["c"; ""]), "1"); (Some ("q", ["c"; ""]), "2")].
Proof.
  intros t. etransitivity; [apply (deep_object_is_read_back "q" t); [by eexists|reflexivity|reflexivity]|reflexivity].
Defined.

Lemma delimited_values_are_read_back_witness :
  split_on " " (by_ (Arr [Num "1"; Null; Str "x"])) = ["1"; ""; "x"] ∧ split_on "|" (xy (Obj [("a", Null); ("b", Bool false)])) = ["a"; ""; "b"; "false"].
Proof.
  destruct (delimited_values_are_read_back [Num "1"; Null; Str "x"] [("a", Null); ("b", Bool false)]) as (_ & _ & H1 & _ & _ & _ & _ & H2 & _);
    [done|done| |by split].
  intros sep [<-|[<-|[<-|[]]]]; repeat constructor.
Defined.

(** ** Where the sample and the request differ *)

(** A primitive value of style deepObject is sent, and missing in the sample. *)
Lemma sample_drops_a_primitive stringify :
  let p := Query_parameter "q" (Some DeepObject) None false None in
  SHe stringify p "q" (Str "v") [] = [("q", "v")] ∧ sample_query stringify p (Str "v") = [].
Proof. done. Qed.

(** With explode: false a deep object is sent as one value; the sample explodes it. *)
Lemma sample_ignores_explode stringify :
  let p := Query_parameter "q" (Some DeepObject) (Some false) false None in
  let d := Obj [("a", Str "1"); ("b", Str "2")] in
  SHe stringify p "q" d [] = [("q", "a,1,b,2")] ∧ sample_query stringify p d = [("q[a]", "1"); ("q[b]", "2")].
Proof. done. Qed.

(** The value of a path parameter is a replacement pattern: two dollars become one,
    and a dollar before an ampersand the placeholder. *)
Lemma path_value_is_a_pattern :
  jLt "/items/{id}" "id" (Str "a$$b") Simple false = "/items/a$b" ∧
  jLt "/items/{id}" "id" (Str "$&") Simple false = "/items/{id}".
Proof. done. Qed.

(** It is not encoded, so a slash in it is another segment. *)
Lemma path_value_is_not_encoded : jLt "/items/{id}" "id" (Str "a/../b?c") Simple false = "/items/a/../b?c".
Proof. done. Qed.

(** A matrix or label parameter is looked for under a name no path template of OpenAPI
    has; the placeholder stays. *)
Lemma matrix_and_label_stay_unfilled :
  jLt "/items/{id}" "id" (Str "5") Matrix false = "/items/{id}" ∧ jLt "/items/{id}" "id" (Str "5") Label false = "/items/{id}".
Proof. done. Qed.
