(* ===== verification/Pointers.v ===== *)
(** * scalar.js: pointers to the operations of a document

    [Vx] (with its copies [cv] and [rg]) writes a key as a segment of a JSON pointer, [Zx] a method;
    [Kzn] reads the segments of a pointer, [qzn] the operation it points to. *)
From S2P Require Import Prelude Mime Shell Snippets Literals.
#[local] Open Scope list_scope.

(** ** Segments *)

Definition Vx (e : string) : string := replace_char "/" "~1" (replace_char "~" "~0" e).

(** [e.replaceAll(`~x`, c)] *)
Fixpoint replace_tilde (x c : ascii) (e : string) : string :=
  match e with
  | String a ((String b e'') as e') =>
      if Ascii.eqb a "~" && Ascii.eqb b x then String c (replace_tilde x c e'') else String a (replace_tilde x c e')
  | _ => e
  end.

Definition unescape_segment (e : string) : string := replace_tilde "0" "~" (replace_tilde "1" "/" e).

(** ** Pointers *)

Inductive pointer_error : Type := BadEscape | NoRoot | NoOperation.

(** [/~(?![01])/.test(e)] *)
Fixpoint bad_escape (e : string) : bool :=
  match e with
  | "" => false
  | String a e' => (Ascii.eqb a "~" && negb match e' with String b _ => Ascii.eqb b "0" || Ascii.eqb b "1" | "" => false end)
                   || bad_escape e'
  end.

(** Gzn *)
Definition Gzn (e : string) : result string pointer_error :=
  if bad_escape e then Err BadEscape
  else if has_prefix "#/" e then Ok (String.substring 1 (String.length e - 1) e)
  else if has_prefix "/" e then Ok e
  else Err NoRoot.

(** Kzn *)
Definition Kzn (e : string) : result (list string) pointer_error :=
  let? p := Gzn e in
  Ok (unescape_segment <$> split_on "/" (String.substring 1 (String.length p - 1) p)).

(** C5: the methods of OpenAPI *)
Definition C5 (r : string) : bool := existsb (String.eqb r) xc.

(** qzn *)
Definition qzn (e : string) : result (string * string) pointer_error :=
  let? t := Kzn e in
  match t with
  | [a; n; r] => if String.eqb a "paths" && negb (String.eqb n "") && negb (String.eqb r "") && C5 r then Ok (n, r) else Err NoOperation
  | [a; n; o; r] =>
      if String.eqb a "paths" && String.eqb o "additionalOperations" && negb (String.eqb n "") && negb (String.eqb r "") && negb (C5 r)
      then Ok (n, r) else Err NoOperation
  | _ => Err NoOperation
  end.

(** Wx: a method of a path item of its own *)
Definition Wx (e : string) : bool := String.eqb e (to_lower e) && Sc e.

(** Zx *)
Definition Zx (e : string) : string := if Wx e then e else "additionalOperations/" +:+ Vx e.

(** The pointer of an operation *)
Definition operation_pointer (path method : string) : string := "#/paths/" +:+ Vx path +:+ "/" +:+ Zx method.

(** ** Laws *)

Definition segment_char (c : ascii) : string :=
  if Ascii.eqb c "~" then "~0" else if Ascii.eqb c "/" then "~1" else one c.

Definition half_char (c : ascii) : string := if Ascii.eqb c "~" then "~0" else one c.

Lemma Vx_once e : Vx e = flat_map_s segment_char e.
Proof.
  unfold Vx, replace_char. rewrite flat_map_flat_map. apply flat_map_ext.
  intros c. by destruct c as [[] [] [] [] [] [] [] []].
Qed.

Lemma replace_tilde_char x c a e : Ascii.eqb a "~" = false → replace_tilde x c (String a e) = String a (replace_tilde x c e).
Proof. intros H. destruct e as [|b e]; [done|]. cbn [replace_tilde]. by rewrite H. Qed.

Lemma replace_tilde_not x c b e : Ascii.eqb b x = false → Ascii.eqb b "~" = false →
  replace_tilde x c (String "~" (String b e)) = String "~" (String b (replace_tilde x c e)).
Proof.
  intros Hx Hb. change (replace_tilde x c (String "~" (String b e))) with
    (if Ascii.eqb "~" "~" && Ascii.eqb b x then String c (replace_tilde x c e) else String "~" (replace_tilde x c (String b e))).
  rewrite Hx, andb_false_r. f_equal. by apply replace_tilde_char.
Qed.

Lemma replace_tilde_hit x c e : replace_tilde x c (String "~" (String x e)) = String c (replace_tilde x c e).
Proof.
  change (replace_tilde x c (String "~" (String x e))) with
    (if Ascii.eqb "~" "~" && Ascii.eqb x x then String c (replace_tilde x c e) else String "~" (replace_tilde x c (String x e))).
  by rewrite !Ascii.eqb_refl.
Qed.

Lemma first_pass e : replace_tilde "1" "/" (Vx e) = flat_map_s half_char e.
Proof.
  rewrite Vx_once. induction e as [|c e IH]; [done|]. cbn [flat_map_s]. unfold segment_char at 1, half_char at 1.
  destruct (Ascii.eqb c "~") eqn:Ec.
  - change ("~0" +:+ ?x) with (String "~" (String "0" x)). rewrite replace_tilde_not by done. by rewrite IH.
  - destruct (Ascii.eqb_spec c "/") as [->|].
    + change ("~1" +:+ ?x) with (String "~" (String "1" x)). by rewrite replace_tilde_hit, IH.
    + change (one c +:+ ?x) with (String c x). by rewrite replace_tilde_char, IH.
Qed.

Lemma second_pass e : replace_tilde "0" "~" (flat_map_s half_char e) = e.
Proof.
  induction e as [|c e IH]; [done|]. cbn [flat_map_s]. unfold half_char at 1.
  destruct (Ascii.eqb_spec c "~") as [->|Hc].
  - change ("~0" +:+ ?x) with (String "~" (String "0" x)). by rewrite replace_tilde_hit, IH.
  - change (one c +:+ ?x) with (String c x). rewrite replace_tilde_char by by apply Ascii.eqb_neq. by rewrite IH.
Qed.

(** Reading a segment undoes writing it. *)
Lemma unescape_Vx e : unescape_segment (Vx e) = e.
Proof. unfold unescape_segment. by rewrite first_pass, second_pass. Qed.

Lemma lacks_app sep a b : lacks sep (a +:+ b) = lacks sep a && lacks sep b.
Proof. apply sforall_app. Qed.

Lemma lacks_Vx e : lacks "/" (Vx e) = true.
Proof.
  rewrite Vx_once. induction e as [|c e IH]; [done|]. cbn [flat_map_s]. rewrite lacks_app, IH, andb_true_r. unfold segment_char.
  destruct (Ascii.eqb c "~"); [done|]. destruct (Ascii.eqb c "/") eqn:E; [done|]. unfold lacks. cbn -[Ascii.eqb]. by rewrite E.
Qed.

Lemma bad_escape_char c r : Ascii.eqb c "~" = false → bad_escape (String c r) = bad_escape r.
Proof. intros H. cbn [bad_escape]. by rewrite H. Qed.

Lemma bad_escape_Vx e r : bad_escape (Vx e +:+ r) = bad_escape r.
Proof.
  rewrite Vx_once. induction e as [|c e IH]; [done|]. cbn [flat_map_s]. rewrite sapp_assoc. unfold segment_char at 1.
  destruct (Ascii.eqb c "~") eqn:Ec; [exact IH|]. destruct (Ascii.eqb c "/"); [exact IH|].
  change (one c +:+ ?x) with (String c x). by rewrite bad_escape_char.
Qed.

Lemma bad_escape_plain s r : lacks "~" s = true → bad_escape (s +:+ r) = bad_escape r.
Proof.
  induction s as [|c s IH]; [done|]. unfold lacks in *. cbn [sforall]. intros [Hc Hs]%andb_true_iff.
  change (String c s +:+ r) with (String c (s +:+ r)). rewrite bad_escape_char; [by apply IH|by apply negb_true_iff].
Qed.

(** The segments of a pointer, written *)
Definition write_pointer (segments : list string) : string := "#/" +:+ String.concat "/" (Vx <$> segments).

Lemma bad_escape_pointer segments : bad_escape (String.concat "/" (Vx <$> segments)) = false.
Proof.
  induction segments as [|s l IH]; [done|]. destruct l as [|s' l]; [change (bad_escape (Vx s) = false); by rewrite <- (sapp_nil_r (Vx s)), bad_escape_Vx|].
  rewrite !fmap_cons in *. change (String.concat "/" (Vx s :: Vx s' :: (Vx <$> l))) with (Vx s +:+ "/" +:+ String.concat "/" (Vx s' :: (Vx <$> l))).
  by rewrite bad_escape_Vx.
Qed.

Lemma substring_all s : String.substring 0 (String.length s) s = s.
Proof. induction s as [|c s IH]; [done|]. cbn. by rewrite IH. Qed.

Lemma Kzn_written segments : segments ≠ [] → Kzn (write_pointer segments) = Ok segments.
Proof.
  intros H0. unfold Kzn, Gzn, write_pointer. set (s := String.concat "/" (Vx <$> segments)).
  change ("#/" +:+ s) with (String "#" (String "/" s)).
  assert (bad_escape (String "#" (String "/" s)) = false) as ->.
  { rewrite !bad_escape_char by done. apply bad_escape_pointer. }
  assert (has_prefix "#/" (String "#" (String "/" s)) = true) as -> by done.
  cbn [rbind String.length Nat.sub String.substring]. rewrite ?Nat.sub_0_r. cbn [String.substring].
  rewrite !substring_all. f_equal. subst s. change (String.concat "/" (Vx <$> segments)) with (String.concat (one "/") (Vx <$> segments)).
  rewrite split_concat.
  - clear. induction segments as [|x l IH]; [done|]. rewrite !fmap_cons. by rewrite unescape_Vx, IH.
  - by destruct segments.
  - apply Forall_fmap, Forall_true. intros x. apply lacks_Vx.
Qed.

(** A pointer is read back: of any keys, with slashes and tildes or empty, written as
    segments behind the root, the reader finds the keys; and of any path and method
    that are not empty, a method of OpenAPI or another one, also one that differs
    from a method of OpenAPI only in case, the pointer of the operation is read as this
    path and this method. *)
Theorem pointers_are_read_back segments path method : segments ≠ [] → path ≠ "" → method ≠ "" →
  Kzn (write_pointer segments) = Ok segments ∧ qzn (operation_pointer path method) = Ok (path, method).
Proof.
  intros Hs Hp Hm. split; [by apply Kzn_written|].
  apply String.eqb_neq in Hp, Hm. unfold qzn, operation_pointer, Zx. destruct (Wx method) eqn:Hw.
  - unfold Wx in Hw. apply andb_true_iff in Hw as [Hl%String.eqb_eq Hc].
    assert (C5 method = true) as HC by (unfold C5, Sc in *; by rewrite <- Hl in Hc).
    assert (Vx method = method) as Hv.
    { unfold C5 in HC. apply existsb_exists in HC as (m & Hin & ->%String.eqb_eq). clear -Hin. cbn in Hin.
      repeat destruct Hin as [<-|Hin]; done. }
    assert ("#/paths/" +:+ Vx path +:+ "/" +:+ method = write_pointer ["paths"; path; method]) as ->.
    { unfold write_pointer. rewrite !fmap_cons, Hv. done. }
    rewrite Kzn_written by done. cbn [rbind]. by rewrite Hp, Hm, HC.
  - assert ("#/paths/" +:+ Vx path +:+ "/" +:+ "additionalOperations/" +:+ Vx method =
      write_pointer ["paths"; path; "additionalOperations"; method]) as -> by done.
    rewrite Kzn_written by done. cbn [rbind].
    assert (C5 method = false) as HC.
    { destruct (C5 method) eqn:E; [|done]. exfalso. unfold C5 in E. apply existsb_exists in E as (m & Hin & ->%String.eqb_eq).
      clear -Hin Hw. cbn in Hin. repeat destruct Hin as [<-|Hin]; done. }
    by rewrite Hp, Hm, HC.
Qed.

Lemma pointers_are_read_back_witness :
  Kzn (write_pointer ["components"; "a/b~1"; ""]) = Ok ["components"; "a/b~1"; ""] ∧
  qzn "#/paths/~1users~1{id}/additionalOperations/Get" = Ok ("/users/{id}", "Get").
Proof.
  destruct (pointers_are_read_back ["components"; "a/b~1"; ""] "/users/{id}" "Get") as [H1 H2]; [done..|].
  split; [exact H1|exact H2].
Defined.
