(* ===== verification/Lex.v ===== *)
(** * The words, signs and texts of a code sample

    What a compiler sees of the text of a sample: a machine that reads one character at
    a time and gives words (names and numbers), signs and the values of string
    literals. A [lexicon] says which characters open a literal, which a literal may
    hold as they are, and what the characters behind a backslash stand for. What it
    finds in two texts one after the other is what it finds in each ([lex_app]), so
    that what a sample consists of is shown part by part. The samples hold no
    comments. *)
From S2P Require Import Prelude Css Shell Snippets.
#[local] Open Scope list_scope.

Inductive token : Type := Word (w : string) | Sign (c : ascii) | Text (s : string).

#[export] Instance token_eq_dec : EqDecision token.
Proof. solve_decision. Defined.

(** [unescape q e]: what the characters [e] behind a backslash stand for in a literal
    opened by [q]: nothing a literal may hold, more characters are needed, or a text. *)
Record lexicon : Type := Lexicon {
  is_quote : ascii → bool;
  plain : ascii → ascii → bool;
  unescape : ascii → string → option (option string) }.

Inductive lex_state : Type :=
| Between
| InWord (w : string)
| InText (q : ascii) (s : string)
| InEscape (q : ascii) (s e : string)
| Broken.

Definition is_word (c : ascii) : bool :=
  byte_in 48 57 c || byte_in 65 90 c || byte_in 97 122 c || existsb (Ascii.eqb c) ["_"; "."; "$"; "+"; "-"]%char.

Section lexer.
Context (l : lexicon).

Definition code_char (c : ascii) : list token * lex_state :=
  if is_quote l c then ([], InText c "")
  else if is_word c then ([], InWord (one c))
  else if is_space c then ([], Between)
  else ([Sign c], Between).

Definition lex_char (st : lex_state) (c : ascii) : list token * lex_state :=
  match st with
  | Between => code_char c
  | InWord w =>
      if is_word c && negb (is_quote l c) then ([], InWord (w +:+ one c))
      else let '(t, st') := code_char c in (Word w :: t, st')
  | InText q s =>
      if Ascii.eqb c q then ([Text s], Between)
      else if Ascii.eqb c "\" then ([], InEscape q s "")
      else ([], if plain l q c then InText q (s +:+ one c) else Broken)
  | InEscape q s e =>
      ([], match unescape l q (e +:+ one c) with
           | None => Broken
           | Some None => InEscape q s (e +:+ one c)
           | Some (Some v) => InText q (s +:+ v)
           end)
  | Broken => ([], Broken)
  end.

Fixpoint lex_run (st : lex_state) (s : string) : list token * lex_state :=
  match s with
  | "" => ([], st)
  | String c s' => let '(t, st') := lex_char st c in let '(t', st'') := lex_run st' s' in (t ++ t', st'')
  end.

Definition lex_end (st : lex_state) : option (list token) :=
  match st with Between => Some [] | InWord w => Some [Word w] | _ => None end.

Definition lex_from (st : lex_state) (s : string) : option (list token) :=
  let '(t, st') := lex_run st s in option_map (app t) (lex_end st').

Definition lex : string → option (list token) := lex_from Between.

(** The text leaves nothing open, not even a word. *)
Definition closed (s : string) (ts : list token) : Prop := lex_run Between s = (ts, Between).

(** ** Texts one after the other *)

Lemma lex_run_app st a b : lex_run st (a +:+ b) =
  let '(t, st1) := lex_run st a in let '(t', st2) := lex_run st1 b in (t ++ t', st2).
Proof.
  revert st. induction a as [|c a IH]; intros st.
  - change ("" +:+ b) with b. cbn [lex_run]. by destruct (lex_run st b).
  - change (String c a +:+ b) with (String c (a +:+ b)). cbn [lex_run].
    destruct (lex_char st c) as [t st']. rewrite IH. destruct (lex_run st' a) as [t1 st1].
    destruct (lex_run st1 b) as [t2 st2]. by rewrite app_assoc.
Qed.

Lemma closed_nil : closed "" [].
Proof. done. Qed.

Lemma closed_lex s ts : closed s ts → lex s = Some ts.
Proof. unfold closed, lex, lex_from. intros ->. cbn. by rewrite app_nil_r. Qed.

Lemma closed_app a b ta tb : closed a ta → closed b tb → closed (a +:+ b) (ta ++ tb).
Proof. unfold closed. rewrite lex_run_app. by intros -> ->. Qed.

Lemma closed_then a b ta tb : closed a ta → lex b = Some tb → lex (a +:+ b) = Some (ta ++ tb).
Proof.
  unfold closed, lex, lex_from. rewrite lex_run_app. intros ->.
  destruct (lex_run Between b) as [t st]. destruct (lex_end st) as [e|]; [|done]. cbn. intros [= <-].
  by rewrite app_assoc.
Qed.

(** The text does not go on with a word that is open before it. *)
Definition apart (b : string) : bool :=
  match b with "" => true | String c _ => negb (is_word c) || is_quote l c end.

Lemma apart_run w b : apart b = true → b ≠ "" →
  lex_run (InWord w) b = let '(t, st) := lex_run Between b in (Word w :: t, st).
Proof.
  destruct b as [|c b]; [done|]. cbn [apart lex_run lex_char]. intros Hc _.
  replace (is_word c && negb (is_quote l c)) with false by (destruct (is_word c), (is_quote l c); done).
  destruct (code_char c) as [t st]. by destruct (lex_run st b).
Qed.

Lemma lex_ends a ta : lex a = Some ta → closed a ta ∨ ∃ t w, lex_run Between a = (t, InWord w) ∧ ta = t ++ [Word w].
Proof.
  unfold lex, lex_from, closed. destruct (lex_run Between a) as [t st].
  destruct st; cbn; intros H; simplify_eq; [left; by rewrite app_nil_r|right; eauto].
Qed.

Lemma lex_then a b ta tb : lex a = Some ta → apart b = true → b ≠ "" → closed b tb → closed (a +:+ b) (ta ++ tb).
Proof.
  intros [Ha|(t & w & Ha & ->)]%lex_ends Hb Hn Hc; [by apply closed_app|].
  unfold closed in *. rewrite lex_run_app, Ha, apart_run, Hc by done. by rewrite <- app_assoc.
Qed.

Lemma lex_app a b ta tb : lex a = Some ta → apart b = true → lex b = Some tb → lex (a +:+ b) = Some (ta ++ tb).
Proof.
  intros Ha Hb Hl. destruct (decide (b = "")) as [->|Hn].
  { injection Hl as <-. by rewrite sapp_nil_r, app_nil_r. }
  apply lex_ends in Ha as [Ha|(t & w & Ha & ->)]; [by apply closed_then|].
  unfold lex, lex_from in *. rewrite lex_run_app, Ha, apart_run by done.
  destruct (lex_run Between b) as [t' st]. destruct (lex_end st) as [e|]; [|done]. injection Hl as <-.
  cbn. by rewrite <- !app_assoc.
Qed.

(** ** Literals *)

(** What [f] writes for a character is read as the character. *)
Definition writes (q : ascii) (f : ascii → string) : Prop :=
  ∀ c s, lex_run (InText q s) (f c) = ([], InText q (s +:+ one c)).

Lemma text_run q f v s : writes q f → lex_run (InText q s) (flat_map_s f v) = ([], InText q (s +:+ v)).
Proof.
  intros Hf. revert s. induction v as [|c v IH]; intros s; [by rewrite sapp_nil_r|].
  cbn [flat_map_s]. rewrite lex_run_app, Hf, IH. by rewrite sapp_assoc.
Qed.

Lemma closed_text q f v : is_quote l q = true → writes q f →
  closed (String q (flat_map_s f v +:+ one q)) [Text v].
Proof.
  intros Hq Hf. unfold closed. cbn [lex_run lex_char]. unfold code_char. rewrite Hq.
  rewrite lex_run_app, (text_run q f v "" Hf). cbn [lex_run lex_char one]. by rewrite Ascii.eqb_refl.
Qed.

(** ** Words *)

Lemma word_run w : sforall is_word w = true → sforall (λ c, negb (is_quote l c)) w = true →
  ∀ a, lex_run (InWord a) w = ([], InWord (a +:+ w)).
Proof.
  induction w as [|c w IH]; intros Hw Hq a; [by rewrite sapp_nil_r|].
  cbn [sforall] in Hw, Hq. apply andb_true_iff in Hw as [Hc Hw], Hq as [Hd Hq]. cbn [lex_run lex_char].
  rewrite Hc, Hd. cbn [andb]. rewrite IH by done. by rewrite sapp_assoc.
Qed.

Lemma lex_word w : w ≠ "" → sforall is_word w = true → sforall (λ c, negb (is_quote l c)) w = true → lex w = Some [Word w].
Proof.
  destruct w as [|c w]; [done|]. cbn [sforall]. intros _ [Hc Hw]%andb_true_iff [Hd Hq]%andb_true_iff.
  unfold lex, lex_from. cbn [lex_run lex_char]. unfold code_char. apply negb_true_iff in Hd.
  by rewrite Hd, Hc, word_run.
Qed.

(** ** Lists of texts *)

Lemma Forall2_map {A B C} (R : B → C → Prop) (f : A → B) (g : A → C) xs : (∀ x, x ∈ xs → R (f x) (g x)) → Forall2 R (f <$> xs) (g <$> xs).
Proof.
  intros H. induction xs as [|x xs IH]; [constructor|]. cbn. constructor; [apply H; by left|].
  apply IH. intros y Hy. apply H. by right.
Qed.

Definition commas (tss : list (list token)) : list token :=
  match tss with [] => [] | t :: tss' => t ++ mjoin ((λ t, Sign "," :: t) <$> tss') end.

(** Texts with a separator between them *)
Lemma lex_concat sep items tss : closed sep [Sign ","] → apart sep = true → sep ≠ "" →
  Forall2 (λ i ts, lex i = Some ts) items tss → lex (String.concat sep items) = Some (commas tss).
Proof.
  intros Hs Ha Hn H. destruct H as [|i ts items tss Hi H]; [done|]. revert i ts Hi.
  induction H as [|j us items tss Hj H IH]; intros i ts Hi.
  - cbn. by rewrite app_nil_r.
  - rewrite concat_cons. change (commas (ts :: us :: tss)) with (ts ++ [Sign ","] ++ commas (us :: tss)).
    apply lex_app; [done|by destruct sep|]. apply closed_then; [done|]. by apply IH.
Qed.

(** A list in brackets: what opens it, the items with a separator, what closes it *)
Lemma closed_list o oc sep items tss c cc : closed o oc → closed sep [Sign ","] → apart sep = true → sep ≠ "" →
  Forall2 (λ i ts, lex i = Some ts) items tss → closed c cc → apart c = true → c ≠ "" →
  closed (o +:+ String.concat sep items +:+ c) (oc ++ commas tss ++ cc).
Proof.
  intros. apply closed_app; [done|]. apply lex_then; [by eapply lex_concat|done..].
Qed.

(** ** Blanks *)

Fixpoint spaces (n : nat) : string := match n with O => "" | S n' => String " " (spaces n') end.

Definition blank (s : string) : bool := sforall (λ c, Ascii.eqb c " " || Ascii.eqb c "010") s.

Lemma blank_spaces n : blank (spaces n) = true.
Proof. induction n as [|n IH]; [done|]. exact IH. Qed.

(** Blanks and commas open no literal. *)
Class Blanks : Prop := {
  space_plain : is_quote l " " = false; line_end_plain : is_quote l "010" = false; comma_plain : is_quote l "," = false }.

Lemma blank_char `{Blanks} c : Ascii.eqb c " " || Ascii.eqb c "010" = true → code_char c = ([], Between) ∧ is_word c = false.
Proof.
  unfold code_char. intros [->%Ascii.eqb_eq| ->%Ascii.eqb_eq]%orb_true_iff; [by rewrite space_plain|by rewrite line_end_plain].
Qed.

Lemma closed_blank `{Blanks} s : blank s = true → closed s [].
Proof.
  unfold blank, closed. induction s as [|c s IH]; [done|]. cbn [sforall]. intros [Hc Hs]%andb_true_iff.
  cbn [lex_run lex_char]. rewrite (proj1 (blank_char c Hc)), IH; done.
Qed.

Lemma blank_apart `{Blanks} s b : blank s = true → apart b = true → apart (s +:+ b) = true.
Proof.
  destruct s as [|c s]; [done|]. cbn [blank sforall]. intros [Hc _]%andb_true_iff _.
  change (String c s +:+ b) with (String c (s +:+ b)). cbn [apart]. by rewrite (proj2 (blank_char c Hc)).
Qed.

Lemma lex_indented `{Blanks} b s ts : blank b = true → lex s = Some ts → lex (b +:+ s) = Some ts.
Proof. intros Hb Hs. by apply (closed_then b s [] ts); [apply closed_blank|]. Qed.

Lemma closed_comma `{Blanks} b : blank b = true → closed ("," +:+ b) [Sign ","].
Proof.
  intros Hb. apply (closed_app "," b [Sign ","] []); [|by apply closed_blank].
  unfold closed. cbn [lex_run lex_char]. unfold code_char. by rewrite comma_plain.
Qed.

(** [f(a, b, c)] *)
Definition call_text (f : string) (args : list string) : string := f +:+ "(" +:+ String.concat ", " args +:+ ")".
Definition call_tokens (f : string) (tss : list (list token)) : list token := Word f :: Sign "(" :: commas tss ++ [Sign ")"].

Lemma closed_call `{Blanks} f args tss : is_quote l "(" = false → is_quote l ")" = false →
  f ≠ "" → sforall is_word f = true → sforall (λ c, negb (is_quote l c)) f = true →
  Forall2 (λ i ts, lex i = Some ts) args tss → closed (call_text f args) (call_tokens f tss).
Proof.
  intros Ho Hc Hn Hw Hq Ha. unfold call_text. rewrite <- (sapp_assoc f "(").
  apply (closed_list (f +:+ "(") [Word f; Sign "("] ", " args tss ")" [Sign ")"]); [| |done|done|done| |done|done].
  - apply (lex_then f "(" [Word f] [Sign "("]); [by apply lex_word|done|done|].
    unfold closed. cbn [lex_run lex_char]. unfold code_char. by rewrite Ho.
  - by apply (closed_comma " ").
  - unfold closed. cbn [lex_run lex_char]. unfold code_char. by rewrite Hc.
Qed.

(** Lines *)
Lemma closed_lines `{Blanks} ls tss : Forall2 closed ls tss → closed (String.concat newline ls) (mjoin tss).
Proof.
  intros H0. destruct H0 as [|x ts ls tss Hx H0]; [done|]. revert x ts Hx.
  induction H0 as [|y us ls tss Hy H0 IH]; intros x ts Hx; [by cbn; rewrite app_nil_r|].
  rewrite concat_cons. apply (closed_app x _ ts (mjoin (us :: tss))); [done|].
  
  rewrite <- (app_nil_l (mjoin (us :: tss))). apply closed_app; [by apply closed_blank|by apply IH].
Qed.

Definition reads_as (x : string) (ts : list token) : Prop := lex x = Some ts.

Lemma lex_lines `{Blanks} ls tss : Forall2 reads_as ls tss → lex (String.concat newline ls) = Some (mjoin tss).
Proof.
  intros H0. destruct H0 as [|x ts ls tss Hx H0]; [done|]. revert x ts Hx.
  induction H0 as [|y us ls tss Hy H0 IH]; intros x ts Hx; [by cbn; rewrite app_nil_r|].
  rewrite concat_cons. apply (lex_app x _ ts (mjoin (us :: tss))); [done|done|].
  rewrite <- (app_nil_l (mjoin (us :: tss))). apply closed_then; [by apply closed_blank|by apply IH].
Qed.

(** A list in brackets over several lines *)
Lemma closed_layout `{Blanks} o b1 b2 items tss b3 c oc cc : closed o oc → blank b1 = true → blank b2 = true →
  Forall2 (λ i ts, lex i = Some ts) items tss →
  blank b3 = true → closed c cc → apart c = true → c ≠ "" →
  closed (o +:+ b1 +:+ String.concat ("," +:+ b2) items +:+ b3 +:+ c) (oc ++ commas tss ++ cc).
Proof.
  intros Ho H1 H2 Hi H3 Hc Ha Hn. rewrite <- (sapp_assoc o b1). apply closed_list; [| | |done|done| | |].
  - rewrite <- (app_nil_r oc). by apply closed_app, closed_blank.
  - by apply closed_comma.
  - done.
  - by apply (closed_app b3 c []); [apply closed_blank|].
  - by apply blank_apart.
  - by destruct b3.
Qed.

(** The text with blanks behind every line end *)
Definition reindent (n : nat) (s : string) : string :=
  flat_map_s (λ c, if Ascii.eqb c "010" then String c (spaces n) else one c) s.

Lemma split_cons sep c s : ∃ w ws, split_on sep s = w :: ws ∧
  split_on sep (String c s) = if Ascii.eqb c sep then "" :: w :: ws else String c w :: ws.
Proof.
  cbn. destruct (split_on sep s) as [|w ws] eqn:E; [by destruct (split_on_nonnil sep s)|]. by exists w, ws.
Qed.

Lemma reindent_split n s : String.concat (newline +:+ spaces n) (split_on "010" s) = reindent n s.
Proof.
  induction s as [|c s IH]; [done|]. destruct (split_cons "010" c s) as (w & ws & E & ->).
  rewrite E in IH. unfold reindent in *. cbn [flat_map_s]. rewrite <- IH.
  destruct (Ascii.eqb_spec c "010") as [->|_]; [done|]. by destruct ws.
Qed.

(** The text with blanks behind every line end, as many as [f] says for what follows *)
Fixpoint reindent_by (f : string → nat) (s : string) : string :=
  match s with
  | "" => ""
  | String c s' => (if Ascii.eqb c "010" then String c (spaces (f s')) else one c) +:+ reindent_by f s'
  end.

Lemma reindent_is_by n s : reindent n s = reindent_by (λ _, n) s.
Proof. unfold reindent. induction s as [|c s IH]; [done|]. cbn [flat_map_s reindent_by]. by rewrite IH. Qed.

(** A line end is no part of a literal. *)
Definition one_line : Prop :=
  (∀ q, plain l q "010" = false) ∧ (∀ q e, unescape l q (e +:+ one "010") = None).

Lemma broken_run s : lex_run Broken s = ([], Broken).
Proof. induction s as [|c s IH]; [done|]. cbn. by rewrite IH. Qed.

Lemma reindent_by_lex `{Blanks} f s ts : one_line → lex s = Some ts → lex (reindent_by f s) = Some ts.
Proof.
  intros (Hp & He). pose proof line_end_plain as Hn. unfold lex.
  assert (∀ st, match st with InText q _ | InEscape q _ _ => is_quote l q = true | _ => True end →
    lex_from st s = Some ts → lex_from st (reindent_by f s) = Some ts) as Hall; [|by apply Hall].
  revert ts. induction s as [|c s IH]; intros ts st Hst; [done|].
  cbn [reindent_by].
  assert (∀ t st', lex_char st c = (t, st') →
    match st' with InText q _ | InEscape q _ _ => is_quote l q = true | _ => True end →
    lex_from st (String c s) = Some ts → ∃ ts', lex_from st' s = Some ts' ∧ ts = t ++ ts') as Hcut.
  { intros t st' Ht _. unfold lex_from. cbn [lex_run]. rewrite Ht. destruct (lex_run st' s) as [t1 st1].
    destruct (lex_end st1) as [e1|]; [|done]. intros [= <-]. eexists. by rewrite app_assoc. }
  assert (∀ t st' x, lex_char st c = (t, st') → lex_run st x = (t, st') → 
    match st' with InText q _ | InEscape q _ _ => is_quote l q = true | _ => True end →
    lex_from st (String c s) = Some ts → lex_from st (x +:+ reindent_by f s) = Some ts) as Hgo.
  { intros t st' x Ht Hx Hq Hs. destruct (Hcut _ _ Ht Hq Hs) as (ts' & H1 & ->). apply IH in H1; [|done].
    revert H1. unfold lex_from. rewrite lex_run_app, Hx. destruct (lex_run st' (reindent_by f s)) as [t2 st2].
    destruct (lex_end st2) as [e2|]; [|done]. intros [= <-]. cbn. by rewrite app_assoc. }
  destruct (Ascii.eqb_spec c "010") as [->|Hc].
  - assert (∀ t, lex_char st "010" = (t, Between) → lex_run st (String "010" (spaces (f s))) = (t, Between)) as Hblank.
    { intros t Ht. cbn [lex_run]. rewrite Ht, (closed_blank _ (blank_spaces _)). by rewrite app_nil_r. }
    assert (∀ t, lex_char st "010" = (t, Broken) → lex_from st (String "010" s) = Some ts → False) as Hbad.
    { intros t Ht. unfold lex_from. cbn [lex_run]. by rewrite Ht, broken_run. }
    destruct st as [|w|q t|q t e|].
    + apply (Hgo [] Between); [|apply Hblank|done]; by apply blank_char.
    + apply (Hgo [Word w] Between); [|apply Hblank|done]; cbn [lex_char]; by rewrite (proj1 (blank_char "010" eq_refl)).
    + intros Hs. exfalso. apply (Hbad []); [|done]. cbn [lex_char].
      destruct (Ascii.eqb_spec "010" q) as [<-|_]; [congruence|]. by rewrite Hp.
    + intros Hs. exfalso. apply (Hbad []); [|done]. cbn [lex_char]. by rewrite He.
    + intros Hs. destruct (Hbad [] eq_refl Hs).
  - destruct (lex_char st c) as [t st'] eqn:Ht. apply (Hgo t st'); [done| |].
    + cbn [one lex_run]. rewrite Ht. by rewrite app_nil_r.
    + destruct st as [|w|q u|q u e|]; cbn in Ht; unfold code_char in Ht; repeat case_match; by simplify_eq.
Qed.
Lemma reindent_lex `{Blanks} n s ts : one_line → lex s = Some ts → lex (reindent n s) = Some ts.
Proof. rewrite reindent_is_by. apply reindent_by_lex. Qed.
End lexer.

(** ** JSON texts *)

Definition hex_value (c : ascii) : option nat :=
  let n := nat_of_ascii c in
  if byte_in 48 57 c then Some (n - 48)%nat else if byte_in 97 102 c then Some (n - 87)%nat
  else if byte_in 65 70 c then Some (n - 55)%nat else None.

Fixpoint hex_text (s : string) (n : nat) : option nat :=
  match s with
  | "" => Some n
  | String c s' => match hex_value c with Some d => hex_text s' (16 * n + d)%nat | None => None end
  end.

(** Four hexadecimal digits behind [\u]; the code units of one byte *)
Definition unicode_escape (s : string) : option (option string) :=
  match hex_text s 0 with
  | None => None
  | Some n => if Nat.ltb (String.length s) 4 then Some None
              else if Nat.ltb n 256 then Some (Some (one (ascii_of_nat n))) else None
  end.

(** A character that is no digit *)
Lemma hex_text_bad h n c : hex_value c = None → hex_text (h +:+ one c) n = None.
Proof.
  intros Hc. revert n. induction h as [|d h IH]; intros n.
  - change ("" +:+ one c) with (one c). cbn [one hex_text]. by rewrite Hc.
  - change (String d h +:+ one c) with (String d (h +:+ one c)). cbn [hex_text]. by destruct (hex_value d).
Qed.

Definition control_escape (c : ascii) : option ascii :=
  if Ascii.eqb c "n" then Some "010"%char else if Ascii.eqb c "r" then Some "013"%char
  else if Ascii.eqb c "t" then Some "009"%char else if Ascii.eqb c "b" then Some "008"%char
  else if Ascii.eqb c "f" then Some "012"%char else None.
