(* ===== verification/Values.v ===== *)
(** * JSON values in the syntax of a language

    The samples of several languages show the JSON body of a request as a value of
    their own: [{"a": null}] is [Dict("a" => nothing)] in Julia. A [syntax] says which
    tokens write an atom, a key and the brackets, and how they are read; the class
    [Readable] states what a syntax promises to the reader: its tokens are read as
    what they were written for. The reader of whole values, [parse], is proved
    against the class once ([parse_tokens]); each language gives its instance. *)
From S2P Require Import Prelude Shell Snippets Parameters Lex.
#[local] Open Scope list_scope.

Record syntax : Type := Syntax {
  atom_tokens : jv → list token;
  read_atom : list token → option (jv * list token);
  arr_open : list token; arr_close : list token;
  obj_open : list token; obj_close : list token;
  key_tokens : string → list token;
  read_key : list token → option (string * list token);
  atom_ok : jv → bool;
  key_ok : string → bool;
  code_tokens : string → option (list token) }.

Definition is_atom (v : jv) : bool := match v with Arr _ | Obj _ => false | _ => true end.

Fixpoint strip (p ts : list token) : option (list token) :=
  match p, ts with
  | [], _ => Some ts
  | x :: p', y :: ts' => if decide (x = y) then strip p' ts' else None
  | _, [] => None
  end.

Lemma strip_app p r : strip p (p ++ r) = Some r.
Proof. induction p as [|x p IH]; [by destruct r|]. cbn. by rewrite decide_True. Qed.

Section values.
Context (L : syntax).

(** ** Writing *)

(** A piece of code in a value has the tokens of the code; it is not read back. *)
Fixpoint tokens (v : jv) : list token :=
  match v with
  | Verbatim c => default [] (code_tokens L c)
  | Arr l => arr_open L ++ commas (tokens <$> l) ++ arr_close L
  | Obj l => obj_open L ++ commas ((λ x, key_tokens L x.1 ++ tokens x.2) <$> l) ++ obj_close L
  | _ => atom_tokens L v
  end.

(** Arrays and objects have the same brackets. *)
Definition same_brackets : bool := bool_decide (arr_open L = obj_open L).

Fixpoint writable (v : jv) : bool :=
  match v with
  | Verbatim _ => false
  | Arr l => forallb writable l
  | Obj l => negb (same_brackets && bool_decide (l = [])) && forallb (λ x, key_ok L x.1 && writable x.2) l
  | _ => atom_ok L v
  end.

(** The atoms of the value can be written; its tokens are then defined, whether or not
    they can be told from those of another value. *)
Fixpoint atoms_ok (v : jv) : bool :=
  match v with
  | Verbatim c => bool_decide (is_Some (code_tokens L c))
  | Arr l => forallb atoms_ok l
  | Obj l => forallb (λ x, atoms_ok x.2) l
  | _ => atom_ok L v
  end.

Lemma atoms_items l : atoms_ok (Arr l) = true → ∀ v, v ∈ l → atoms_ok v = true.
Proof. intros Hw v Hv. by apply (proj1 (forallb_forall _ _) Hw), list_elem_of_In. Qed.

Lemma atoms_entries l : atoms_ok (Obj l) = true → ∀ x, x ∈ l → atoms_ok x.2 = true.
Proof. intros Hw x Hx. by apply (proj1 (forallb_forall (λ x, atoms_ok x.2) _) Hw), list_elem_of_In. Qed.

Lemma writable_atoms v : writable v = true → atoms_ok v = true.
Proof.
  induction v as [v Hv|l IH|l IH] using jv_nested_ind; [by destruct v|..]; rewrite Forall_forall in IH; cbn [writable atoms_ok].
  - intros Hw. apply forallb_forall. intros v Hv%list_elem_of_In. apply IH; [done|].
    by apply (proj1 (forallb_forall _ _) Hw), list_elem_of_In.
  - intros [_ Hw]%andb_true_iff. apply forallb_forall. intros x Hx%list_elem_of_In. apply IH; [done|].
    apply list_elem_of_In in Hx. apply (proj1 (forallb_forall _ _) Hw) in Hx. by apply andb_true_iff in Hx as [_ Hx].
Qed.

(** ** Reading *)

(** Items have no key, entries have one. *)
Definition element : Type := option string * jv.

Fixpoint all_items (l : list element) : option (list jv) :=
  match l with
  | [] => Some []
  | (None, v) :: l' => cons v <$> all_items l'
  | (Some _, _) :: _ => None
  end.

Fixpoint all_entries (l : list element) : option (list (string * jv)) :=
  match l with
  | [] => Some []
  | (Some k, v) :: l' => cons (k, v) <$> all_entries l'
  | (None, _) :: _ => None
  end.

(** An array or an object of what is between brackets; nothing between the brackets
    both have is an array. *)
Definition value_of (array : bool) (l : list element) : option jv :=
  match (if array then all_items l else None) with
  | Some vs => Some (Arr vs)
  | None => if same_brackets || negb array then Obj <$> all_entries l else None
  end.

Fixpoint parse (fuel : nat) (ts : list token) : option (jv * list token) :=
  match fuel with
  | O => None
  | S f =>
      match read_atom L ts with
      | Some x => Some x
      | None =>
          match strip (arr_open L) ts with
          | Some r => match elements f (arr_close L) r with
                      | Some (l, r') => option_map (λ v, (v, r')) (value_of true l)
                      | None => None
                      end
          | None =>
              match strip (obj_open L) ts with
              | Some r => match elements f (obj_close L) r with
                          | Some (l, r') => option_map (λ v, (v, r')) (value_of false l)
                          | None => None
                          end
              | None => None
              end
          end
      end
  end
with elements (fuel : nat) (close ts : list token) : option (list element * list token) :=
  match fuel with
  | O => None
  | S f => match strip close ts with
           | Some r => Some ([], r)
           | None => further f close ts
           end
  end
with further (fuel : nat) (close ts : list token) : option (list element * list token) :=
  match fuel with
  | O => None
  | S f =>
      match (match read_key L ts with
             | Some (k, r) => match parse f r with Some (v, r') => Some ((Some k, v), r') | None => None end
             | None => match parse f ts with Some (v, r') => Some ((None, v), r') | None => None end
             end) with
      | Some (x, Sign "," :: r) => match further f close r with Some (l, r') => Some (x :: l, r') | None => None end
      | Some (x, r) => match strip close r with Some r' => Some ([x], r') | None => None end
      | None => None
      end
  end.

(** What may come behind an item of an array *)
Definition behind_item (r : list token) : Prop := ∃ r', r = Sign "," :: r' ∨ r = arr_close L ++ r'.

Class Readable : Prop := {
  atom_read v r : is_atom v = true → atom_ok L v = true → read_atom L (atom_tokens L v ++ r) = Some (v, r);
  open_no_atom r : read_atom L (arr_open L ++ r) = None ∧ read_atom L (obj_open L ++ r) = None;
  obj_no_arr r : same_brackets = false → strip (arr_open L) (obj_open L ++ r) = None;
  close_no_comma r : strip (arr_close L) (Sign "," :: r) = None ∧ strip (obj_close L) (Sign "," :: r) = None;
  brackets_apart : head (arr_close L) ≠ Some (Sign ",") ∧ head (obj_close L) ≠ Some (Sign ",");
  brackets_some : arr_open L ≠ [] ∧ arr_close L ≠ [] ∧ obj_open L ≠ [] ∧ obj_close L ≠ [];
  atom_some v : is_atom v = true → atom_ok L v = true → atom_tokens L v ≠ [];
  same_close : same_brackets = true → arr_close L = obj_close L;
  key_read k r : key_ok L k = true → read_key L (key_tokens L k ++ r) = Some (k, r);
  value_no_key v r : writable v = true → behind_item r → read_key L (tokens v ++ r) = None;
  value_no_close v r : writable v = true → strip (arr_close L) (tokens v ++ r) = None;
  key_no_close k r : key_ok L k = true → strip (obj_close L) (key_tokens L k ++ r) = None }.

(** ** What was written is read *)

Context `{Hr : Readable}.

(** How much fuel a value takes *)
Fixpoint need (v : jv) : nat :=
  match v with
  | Arr l => (2 + sum_list_with (λ v, S (need v)) l)%nat
  | Obj l => (2 + sum_list_with (λ x, S (need x.2)) l)%nat
  | _ => 1%nat
  end.

Lemma strip_head_ne p c r : head p ≠ Some c → p ≠ [] → strip p (c :: r) = None.
Proof. destruct p as [|x p]; [done|]. cbn. intros H _. rewrite decide_False; [done|congruence]. Qed.

Lemma after_item close r : head close ≠ Some (Sign ",") → close ≠ [] → ∀ {A} (x : A) (f : list token → option (list A * list token)),
  match Some (x, close ++ r) with
  | Some (x, Sign "," :: r) => match f r with Some (l, r') => Some (x :: l, r') | None => None end
  | Some (x, r) => match strip close r with Some r' => Some ([x], r') | None => None end
  | None => None
  end = Some ([x], r).
Proof.
  intros Hh Hn A x f. destruct close as [|c close]; [done|]. cbn [app].
  pose proof (strip_app (c :: close) r) as E. cbn [app] in E.
  destruct c as [w|a|s]; [by rewrite E| |by rewrite E].
  destruct (decide (a = ","%char)) as [->|Ha]; [done|].
  rewrite E. by destruct a as [[] [] [] [] [] [] [] []].
Qed.

Lemma sum_fmap {A B} (f : B → nat) (g : A → B) l : sum_list_with f (g <$> l) = sum_list_with (λ x, f (g x)) l.
Proof. induction l as [|x l IH]; [done|]. cbn. by rewrite IH. Qed.

Definition element_tokens (x : element) : list token := from_option (key_tokens L) [] x.1 ++ tokens x.2.

(** A value is read by every amount of fuel from its need on. *)
Definition reads (v : jv) : Prop :=
  ∀ f r, (need v ≤ f)%nat → parse f (tokens v ++ r) = Some (v, r).

Definition element_ok (close : list token) (x : element) : Prop :=
  reads x.2 ∧ writable x.2 = true ∧
  match x.1 with Some k => key_ok L k = true ∧ close = obj_close L | None => close = arr_close L end.

Lemma element_read f close x rest : element_ok close x → (need x.2 ≤ f)%nat →
  (∃ r', rest = Sign "," :: r' ∨ rest = close ++ r') →
  match read_key L (element_tokens x ++ rest) with
  | Some (k, r) => match parse f r with Some (v, r') => Some ((Some k, v), r') | None => None end
  | None => match parse f (element_tokens x ++ rest) with Some (v, r') => Some ((None, v), r') | None => None end
  end = Some (x, rest).
Proof.
  destruct x as [[k|] v]; cbn [fst snd]; intros (Hv & Hw & Hk) Hf Hb; unfold element_tokens; cbn [fst snd from_option].
  - destruct Hk as [Hk _]. rewrite <- app_assoc, key_read by done. by rewrite Hv.
  - cbn [fst] in Hk. subst close. cbn [app]. rewrite value_no_key by done. by rewrite Hv.
Qed.

Lemma further_read close xs : xs ≠ [] → Forall (element_ok close) xs →
  head close ≠ Some (Sign ",") → close ≠ [] →
  ∀ f r, (sum_list_with (λ x, S (need x.2)) xs ≤ f)%nat →
  further f close (commas (element_tokens <$> xs) ++ close ++ r) = Some (xs, r).
Proof.
  intros Hn Hxs Hh Hc. induction Hxs as [|x xs Hx Hxs IH]; [done|]. intros f r Hf.
  destruct f as [|f]; [cbn in Hf; lia|]. cbn [sum_list_with] in Hf. cbn [further].
  destruct xs as [|y xs].
  - cbn [fmap list_fmap commas mjoin list_join]. rewrite app_nil_r, (element_read f close x) by (eauto; cbn in Hf; lia).
    by apply after_item.
  - change (commas (element_tokens <$> x :: y :: xs)) with (element_tokens x ++ [Sign ","] ++ commas (element_tokens <$> y :: xs)).
    rewrite <- !app_assoc. cbn [app]. rewrite (element_read f close x) by (eauto; cbn in Hf; lia).
    rewrite IH; [done|done|]. cbn in *. lia.
Qed.

Lemma all_items_of vs : all_items ((λ v, (None, v)) <$> vs) = Some vs.
Proof. induction vs as [|v vs IH]; [done|]. cbn. by rewrite IH. Qed.

Lemma all_entries_of xs : all_entries ((λ x, (Some x.1, x.2)) <$> xs) = Some xs.
Proof. induction xs as [|[k v] xs IH]; [done|]. cbn. by rewrite IH. Qed.

Lemma elements_read close xs f r : Forall (element_ok close) xs → (close = arr_close L ∨ close = obj_close L) →
  (S (sum_list_with (λ x, S (need x.2)) xs) ≤ f)%nat →
  elements f close (commas (element_tokens <$> xs) ++ close ++ r) = Some (xs, r).
Proof.
  intros Hxs Hc Hf. destruct f as [|f]; [lia|]. cbn [elements].
  assert (head close ≠ Some (Sign ",") ∧ close ≠ []) as [Hh Hn].
  { pose proof brackets_apart. pose proof brackets_some. destruct Hc as [->| ->]; intuition. }
  destruct xs as [|x xs]; [cbn; by rewrite strip_app|].
  assert (strip close (commas (element_tokens <$> x :: xs) ++ close ++ r) = None) as ->.
  { cbn [fmap list_fmap commas]. rewrite <- !app_assoc. inversion Hxs as [|? ? (Hv & Hw & Hx) _]; simplify_eq.
    unfold element_tokens at 1. destruct x as [[k|] v]; cbn [fst snd from_option] in *.
    - destruct Hx as [Hk E]. rewrite E, <- app_assoc. by apply key_no_close.
    - rewrite Hx. by apply value_no_close. }
  apply further_read; [done..|lia].
Qed.

Lemma writable_elements l : forallb writable l = true → Forall (λ v, writable v = true) l.
Proof. intros H. apply Forall_forall. intros v Hv. by apply (proj1 (forallb_forall _ _) H), list_elem_of_In. Qed.

Lemma array_read l : Forall (λ v, writable v = true → reads v) l → writable (Arr l) = true → reads (Arr l).
Proof.
  intros Hl Hw f r Hf. cbn [need] in Hf. destruct f as [|f]; [lia|]. cbn [tokens parse]. rewrite <- !app_assoc.
  rewrite (proj1 (open_no_atom _)), strip_app.
  assert (tokens <$> l = element_tokens <$> ((λ v, (None, v)) <$> l)) as ->.
  { rewrite <- list_fmap_compose. done. }
  rewrite elements_read; [|..].
  - unfold value_of. by rewrite all_items_of.
  - apply writable_elements in Hw. apply Forall_fmap. rewrite Forall_forall in Hl, Hw |- *.
    intros v Hv. split; [by apply Hl; [|apply Hw]|by split; [apply Hw|]].
  - by left.
  - rewrite sum_fmap. exact Hf || (cbn [snd]; lia).
Qed.

Lemma object_read l : Forall (λ x, writable x.2 = true → reads x.2) l → writable (Obj l) = true → reads (Obj l).
Proof.
  intros Hl Hw f r Hf. cbn [need] in Hf. destruct f as [|f]; [lia|]. cbn [tokens parse]. rewrite <- !app_assoc.
  cbn [writable] in Hw. apply andb_true_iff in Hw as [Hempty Hw].
  assert (Forall (element_ok (obj_close L)) ((λ x, (Some x.1, x.2)) <$> l)) as Hok.
  { apply Forall_fmap. rewrite Forall_forall in Hl |- *. intros x Hx.
    apply (proj1 (forallb_forall _ _)) with (x := x) in Hw; [|by apply list_elem_of_In].
    apply andb_true_iff in Hw as [Hk Hv]. split; [by apply Hl|by split; [|split]]. }
  assert ((λ x, key_tokens L x.1 ++ tokens x.2) <$> l = element_tokens <$> ((λ x, (Some x.1, x.2)) <$> l)) as ->.
  { rewrite <- list_fmap_compose. done. }
  assert (elements f (obj_close L) (commas (element_tokens <$> ((λ x, (Some x.1, x.2)) <$> l)) ++ obj_close L ++ r)
    = Some ((λ x, (Some x.1, x.2)) <$> l, r)) as E.
  { apply elements_read; [done|by right|]. rewrite sum_fmap. exact Hf || (cbn [snd]; lia). }
  rewrite (proj2 (open_no_atom _)). destruct same_brackets eqn:Es.
  - pose proof (same_close Es) as Ec. unfold same_brackets in Es. apply bool_decide_eq_true in Es.
    rewrite <- Es, strip_app, Ec, E. unfold value_of. rewrite all_entries_of.
    destruct l as [|x l]; [by rewrite bool_decide_true in Hempty by done|].
    unfold same_brackets. by rewrite bool_decide_true.
  - rewrite obj_no_arr, strip_app, E by done. unfold value_of. rewrite all_entries_of. by rewrite orb_true_r.
Qed.

Lemma parse_tokens v : writable v = true → reads v.
Proof.
  induction v as [v Hv|l IH|l IH] using jv_nested_ind; intros Hw.
  - assert (is_atom v = true ∧ atom_ok L v = true ∧ tokens v = atom_tokens L v) as (H1 & H2 & H3).
    { by destruct v. }
    intros f r Hf. rewrite H3. destruct f as [|f]; [destruct v; cbn in Hf; lia|]. cbn [parse]. by rewrite atom_read.
  - by apply array_read.
  - by apply object_read.
Qed.

(** The length of the text is fuel enough. *)
Lemma commas_length tss : (length (commas tss) + 1 = sum_list_with (λ ts, S (length ts)) tss ∨ tss = [])%nat.
Proof.
  destruct tss as [|t tss]; [by right|left]. cbn [commas fmap list_fmap sum_list_with].
  rewrite length_app. cut (length (mjoin ((λ t, Sign "," :: t) <$> tss)) = sum_list_with (λ ts, S (length ts)) tss).
  { cbn. intros ->. lia. }
  induction tss as [|u tss IH]; [done|].
  change (mjoin ((λ t, Sign "," :: t) <$> u :: tss)) with ((Sign "," :: u) ++ mjoin ((λ t, Sign "," :: t) <$> tss)).
  rewrite length_app, IH. cbn. lia.
Qed.

Lemma elements_length (xs : list element) :
  Forall (λ x, need x.2 ≤ 3 * length (element_tokens x))%nat xs → Forall (λ x, 1 ≤ length (element_tokens x))%nat xs →
  (sum_list_with (λ x, S (need x.2)) xs ≤ 3 * length (commas (element_tokens <$> xs)) + 1)%nat.
Proof.
  intros H1 H2. destruct (commas_length (element_tokens <$> xs)) as [E|E]; [|by destruct xs; [cbn; lia|]].
  rewrite sum_fmap in E. destruct xs as [|x xs]; [cbn; lia|]. cbn [sum_list_with] in *.
  apply Forall_cons in H1 as [Hx H1], H2 as [Hx' H2].
  assert (sum_list_with (λ x, S (need x.2)) xs ≤ 3 * sum_list_with (λ x, S (length (element_tokens x))) xs)%nat; [|lia].
  clear E. induction H1 as [|y xs Hy H1 IH]; [cbn; lia|]. apply Forall_cons in H2 as [_ H2]. cbn [sum_list_with].
  specialize (IH H2). lia.
Qed.

Lemma nonempty_length {A} (l : list A) : l ≠ [] → (1 ≤ length l)%nat.
Proof. destruct l; [done|]. cbn. lia. Qed.

Lemma tokens_some v : writable v = true → (1 ≤ length (tokens v))%nat.
Proof.
  pose proof brackets_some as (Ha & _ & Ho & _). apply nonempty_length in Ha, Ho.
  destruct v; intros Hw; try done; cbn [tokens]; rewrite ?length_app; try lia; by apply nonempty_length, atom_some.
Qed.

Lemma need_length v : writable v = true → (need v ≤ 3 * length (tokens v))%nat.
Proof.
  pose proof brackets_some as (Ha & Ha' & Ho & Ho'). apply nonempty_length in Ha, Ha', Ho, Ho'.
  induction v as [v Hv|l IH|l IH] using jv_nested_ind; intros Hw.
  - apply tokens_some in Hw. destruct v; cbn [need] in *; try done; lia.
  - cbn [need tokens]. apply writable_elements in Hw. rewrite !length_app.
    pose proof (elements_length ((λ v, (None, v)) <$> l)) as H. rewrite sum_fmap, <- list_fmap_compose in H.
    change (element_tokens ∘ (λ v, (None, v))) with tokens in H. cbn [snd] in H. rewrite !Forall_fmap in H.
    ospecialize* H; [..|lia]; rewrite Forall_forall in IH, Hw |- *; intros v Hv; unfold compose, element_tokens; cbn [fst snd from_option app].
    + by apply IH, Hw.
    + by apply tokens_some, Hw.
  - cbn [need tokens]. cbn [writable] in Hw. apply andb_true_iff in Hw as [_ Hw]. rewrite !length_app.
    pose proof (elements_length ((λ x, (Some x.1, x.2)) <$> l)) as H. rewrite sum_fmap, <- list_fmap_compose in H.
    change (element_tokens ∘ (λ x, (Some x.1, x.2))) with (λ x, key_tokens L x.1 ++ tokens x.2) in H. cbn [snd] in H. rewrite !Forall_fmap in H.
    assert (∀ x, x ∈ l → writable x.2 = true) as Hx.
    { intros x Hx. apply (proj1 (forallb_forall _ _)) with (x := x) in Hw; [|by apply list_elem_of_In].
      by apply andb_true_iff in Hw as [_ Hv]. }
    ospecialize* H; [..|lia]; rewrite Forall_forall in IH |- *; intros x Hv; unfold compose, element_tokens; cbn [fst snd from_option]; rewrite length_app.
    + specialize (IH x Hv (Hx x Hv)). lia.
    + pose proof (tokens_some x.2 (Hx x Hv)). lia.
Qed.

(** Reading a value from its tokens *)
Definition read_value (ts : list token) : option (jv * list token) := parse (3 * length ts) ts.

Lemma read_tokens v r : writable v = true → read_value (tokens v ++ r) = Some (v, r).
Proof. intros Hw. apply parse_tokens; [done|]. apply need_length in Hw. rewrite length_app. lia. Qed.
End values.
