(* ===== verification/Wordings.v ===== *)
(** * Syntaxes that differ in their words

    Most of the languages write a JSON value in the same way and differ in the words
    for null and the booleans, the brackets, what stands between a key and its value,
    and which keys may go without quotes. A [wording] says that much; [wording_syntax]
    is the syntax it gives, and [wording_readable] its instance of the interface of
    Values.v, for a wording that keeps a few rules which computation decides. *)
From S2P Require Import Prelude Shell Snippets Parameters Lex Values.
#[local] Open Scope list_scope.

(** The text of a finite number *)
Definition number_char (c : ascii) : bool :=
  byte_in 48 57 c || existsb (Ascii.eqb c) ["."; "e"; "+"; "-"]%char.

Definition number_text (n : string) : bool :=
  match n with String c _ => (byte_in 48 57 c || Ascii.eqb c "-") && sforall number_char n | "" => false end.

(** [w_bare]: the key is written without quotes; [w_key]: the key can be written at
    all; [w_code]: the tokens of a piece of code. Before a word or a text that is no bare key stands a [w_sigil]. *)
Record wording : Type := Wording {
  w_null : list token; w_true : string; w_false : string; w_sigil : list token;
  w_arr : list token * list token; w_obj : list token * list token; w_colon : list token;
  w_bare : string → bool; w_key : string → bool; w_code : string → option (list token) }.

Section wording.
Context (W : wording).

Definition w_atom (v : jv) : list token :=
  match v with
  | Null => w_null W
  | Bool b => w_sigil W ++ [Word (if b then w_true W else w_false W)]
  | Num n => w_sigil W ++ [Word n]
  | Str s => w_sigil W ++ [Text s]
  | _ => []
  end.

Definition w_word (w : string) : option jv :=
  if String.eqb w (w_true W) then Some (Bool true)
  else if String.eqb w (w_false W) then Some (Bool false)
  else if number_text w then Some (Num w) else None.

Definition w_read_atom (ts : list token) : option (jv * list token) :=
  match strip (w_null W) ts with
  | Some r => Some (Null, r)
  | None => match strip (w_sigil W) ts with
            | Some (Word w :: r) => option_map (λ v, (v, r)) (w_word w)
            | Some (Text s :: r) => Some (Str s, r)
            | _ => None
            end
  end.

Definition w_key_tokens (k : string) : list token :=
  (if w_bare W k then [Word k] else w_sigil W ++ [Text k]) ++ w_colon W.

Definition w_read_key (ts : list token) : option (string * list token) :=
  match (match ts with
         | Word k :: r => if w_bare W k && w_key W k then Some (k, r) else None
         | _ => match strip (w_sigil W) ts with
                | Some (Text k :: r) => if negb (w_bare W k) && w_key W k then Some (k, r) else None
                | _ => None
                end
         end) with
  | Some (k, r) => option_map (λ r, (k, r)) (strip (w_colon W) r)
  | None => None
  end.

Definition w_atom_ok (v : jv) : bool :=
  match v with Null | Bool _ | Str _ => true | Num n => number_text n | _ => false end.

Definition wording_syntax : syntax :=
  Syntax w_atom w_read_atom (w_arr W).1 (w_arr W).2 (w_obj W).1 (w_obj W).2 w_key_tokens w_read_key w_atom_ok (w_key W) (w_code W).

(** ** The rules a wording keeps *)

(** The words for the atoms differ, and no sign or word that opens or closes brackets
    or stands behind a key begins an atom. *)
Class Wording_rules : Prop := {
  sigil_is_sign : match w_sigil W with [] | Sign _ :: _ => True | _ => False end;
  null_some : w_null W ≠ [];
  words_differ (b : bool) : w_word (if b then w_true W else w_false W) = Some (Bool b);
  words_no_number n : number_text n = true → n ≠ w_true W ∧ n ≠ w_false W;
  null_no_word (w : string) r : strip (w_null W) (w_sigil W ++ Word w :: r) = None ∨ (w_word w = None ∧ w_sigil W = []);
  null_no_text (t : string) r : strip (w_null W) (w_sigil W ++ Text t :: r) = None;
  brackets_no_atom r : w_read_atom ((w_arr W).1 ++ r) = None ∧ w_read_atom ((w_obj W).1 ++ r) = None;
  brackets_no_key r : w_read_key ((w_arr W).1 ++ r) = None ∧ w_read_key ((w_obj W).1 ++ r) = None;
  brackets_differ r : same_brackets wording_syntax = false → strip (w_arr W).1 ((w_obj W).1 ++ r) = None;
  brackets_same : same_brackets wording_syntax = true → (w_arr W).2 = (w_obj W).2;
  brackets_nonempty : (w_arr W).1 ≠ [] ∧ (w_arr W).2 ≠ [] ∧ (w_obj W).1 ≠ [] ∧ (w_obj W).2 ≠ [];
  closes_are_signs l : l = (w_arr W).2 ∨ l = (w_obj W).2 → match l with Sign c :: _ => c ≠ ","%char | _ => False end;
  close_no_open r : strip (w_arr W).2 ((w_arr W).1 ++ r) = None ∧ strip (w_arr W).2 ((w_obj W).1 ++ r) = None;
  close_no_null r : strip (w_arr W).2 (w_null W ++ r) = None;
  close_no_sigil l : l = (w_arr W).2 ∨ l = (w_obj W).2 → match w_sigil W with Sign d :: _ => head l ≠ Some (Sign d) | _ => True end;
  colon_apart r : strip (w_colon W) (Sign "," :: r) = None ∧ strip (w_colon W) ((w_arr W).2 ++ r) = None;
  null_no_key r : strip (w_colon W) r = None → w_read_key (w_null W ++ r) = None }.

Context `{Hrules : Wording_rules}.

Lemma strip_other l x r : (∀ c, x ≠ Sign c) → match l with Sign c :: _ => c ≠ ","%char | _ => False end → strip l (x :: r) = None.
Proof. destruct l as [|[w|c|t] l]; try done. intros H _. cbn. rewrite decide_False; [done|]. intros <-. by apply (H c). Qed.

Lemma strip_comma l r : l = (w_arr W).2 ∨ l = (w_obj W).2 → strip l (Sign "," :: r) = None.
Proof.
  intros Hl. pose proof (closes_are_signs l Hl) as H. destruct l as [|[w|c|t] l]; try done.
  cbn. rewrite decide_False; [done|congruence].
Qed.

(** No atom begins with what closes a bracket. *)
Lemma close_no_value l x r : l = (w_arr W).2 ∨ l = (w_obj W).2 → (∀ c, x ≠ Sign c) → strip l (w_sigil W ++ x :: r) = None.
Proof.
  intros Hl Hx. pose proof (closes_are_signs l Hl) as Hs. pose proof (close_no_sigil l Hl) as Hd.
  pose proof sigil_is_sign as Hg. destruct (w_sigil W) as [|[w|d|t] g]; [by apply strip_other|done| |done].
  destruct l as [|[w|c|t] l]; try done. cbn in *. rewrite decide_False; [done|congruence].
Qed.

Lemma colon_behind r : behind_item wording_syntax r → strip (w_colon W) r = None.
Proof. intros (r' & [->| ->]); apply colon_apart. Qed.

Lemma sigil_key x r : match x with Sign _ => False | _ => True end → strip (w_colon W) r = None →
  w_read_key (w_sigil W ++ x :: r) = None.
Proof.
  intros Hx Hr. unfold w_read_key.
  assert (∀ y : option (string * list token), match y with Some (k, r') => r' = r | None => True end →
    match y with Some (k, r') => option_map (λ r, (k, r)) (strip (w_colon W) r') | None => None end = None) as Hy.
  { intros [[k r']|]; [|done]. intros ->. by rewrite Hr. }
  apply Hy. pose proof sigil_is_sign as Hg. destruct x as [w|c|t]; [|done|].
  - destruct (w_sigil W) as [|[|d|] g] eqn:E; try done; cbn [app].
    + by destruct (_ && _).
    + change (Sign d :: g ++ Word w :: r) with ((Sign d :: g) ++ Word w :: r). by rewrite strip_app.
  - destruct (w_sigil W) as [|[|d|] g] eqn:E; try done; cbn [app].
    + cbn. by destruct (_ && _).
    + change (Sign d :: g ++ Text t :: r) with ((Sign d :: g) ++ Text t :: r). rewrite strip_app. by destruct (_ && _).
Qed.

#[export] Instance wording_readable : Readable wording_syntax.
Proof.
  split; cbn [atom_tokens read_atom arr_open arr_close obj_open obj_close key_tokens read_key atom_ok key_ok wording_syntax].
  - intros v r Ha Hok. unfold w_read_atom. destruct v as [| |b|n|s|code|l|l]; try done; cbn [w_atom].
    + by rewrite strip_app.
    + rewrite <- app_assoc. cbn [app]. destruct (null_no_word (if b then w_true W else w_false W) r) as [->|[E _]].
      * rewrite strip_app. by rewrite words_differ.
      * by rewrite words_differ in E.
    + assert (w_word n = Some (Num n)) as Hn.
      { cbn in Hok. destruct (words_no_number n Hok) as [H1 H2]. unfold w_word.
        by rewrite (proj2 (String.eqb_neq _ _) H1), (proj2 (String.eqb_neq _ _) H2), Hok. }
      rewrite <- app_assoc. cbn [app]. destruct (null_no_word n r) as [->|[E _]]; [|by rewrite Hn in E].
      rewrite strip_app. by rewrite Hn.
    + rewrite <- app_assoc. cbn [app]. by rewrite null_no_text, strip_app.
  - apply brackets_no_atom.
  - apply brackets_differ.
  - intros r. split; eapply strip_comma; [by left|by right].
  - split; [pose proof (closes_are_signs (w_arr W).2 (or_introl eq_refl))|pose proof (closes_are_signs (w_obj W).2 (or_intror eq_refl))];
      repeat case_match; cbn; congruence.
  - apply brackets_nonempty.
  - intros v Ha Hok. destruct v; try done; cbn [w_atom]; [apply null_some|by destruct (w_sigil W)..].
  - apply brackets_same.
  - intros k r Hk. unfold w_read_key, w_key_tokens. destruct (w_bare W k) eqn:Hb.
    + cbn. rewrite Hb, Hk. cbn. by rewrite strip_app.
    + rewrite <- !app_assoc. cbn [app]. pose proof sigil_is_sign as Hg. destruct (w_sigil W) as [|[|d|] g] eqn:E; try done; cbn [app].
      * cbn. rewrite Hb, Hk. cbn. by rewrite strip_app.
      * change (Sign d :: g ++ Text k :: w_colon W ++ r) with ((Sign d :: g) ++ Text k :: w_colon W ++ r).
        rewrite strip_app, Hb, Hk. cbn. by rewrite strip_app.
  - intros v r Hw Hr. pose proof (colon_behind r Hr) as Hc. destruct v as [| |b|n|s|code|l|l]; try done; cbn [tokens atom_tokens w_atom wording_syntax arr_open obj_open].
    + by apply null_no_key.
    + rewrite <- app_assoc. by apply sigil_key.
    + rewrite <- app_assoc. by apply sigil_key.
    + rewrite <- app_assoc. by apply sigil_key.
    + rewrite <- !app_assoc. apply brackets_no_key.
    + rewrite <- !app_assoc. apply brackets_no_key.
  - intros v r Hw. destruct v as [| |b|n|s|code|l|l]; try done; cbn [tokens atom_tokens w_atom wording_syntax arr_open obj_open].
    + apply close_no_null.
    + rewrite <- app_assoc. apply close_no_value; [by left|done].
    + rewrite <- app_assoc. apply close_no_value; [by left|done].
    + rewrite <- app_assoc. apply close_no_value; [by left|done].
    + rewrite <- !app_assoc. apply close_no_open.
    + rewrite <- !app_assoc. apply close_no_open.
  - intros k r Hk. unfold w_key_tokens. destruct (w_bare W k).
    + apply strip_other; [done|]. by apply closes_are_signs; right.
    + rewrite <- !app_assoc. apply close_no_value; [by right|done].
Qed.
End wording.

(** ** The words of numbers *)

Lemma number_words n : number_text n = true → n ≠ "" ∧ sforall is_word n = true ∧ ∀ q, existsb (Ascii.eqb q) ["034"; "'"]%char = true → lacks q n = true.
Proof.
  destruct n as [|c n]; [done|]. intros [_ H]%andb_true_iff.
  assert (∀ p, (∀ c, number_char c = true → p c = true) → sforall p (String c n) = true) as Hp.
  { intros p Hp. clear -H Hp. induction (String c n) as [|d m IH]; [done|]. cbn in *. apply andb_true_iff in H as [H1 H2].
    by rewrite Hp, IH. }
  split_and!; [done|apply Hp|intros q Hq; apply Hp].
  - intros d. by destruct d as [[] [] [] [] [] [] [] []].
  - intros d Hd. destruct (Ascii.eqb_spec d q) as [->|]; [|done]. exfalso. cbn in Hq. rewrite orb_false_r in Hq.
    apply orb_true_iff in Hq as [->%Ascii.eqb_eq| ->%Ascii.eqb_eq]; discriminate Hd.
Qed.

Lemma lex_number l n : number_text n = true → (∀ c, is_quote l c = true → existsb (Ascii.eqb c) ["034"; "'"]%char = true) →
  lex l n = Some [Word n].
Proof.
  intros (Hn & Hw & Hq)%number_words Hl. apply lex_word; [done|done|].
  assert (∀ q, is_quote l q = true → lacks q n = true) as H by (intros q Hc; by apply Hq, Hl). clear Hn Hw Hq Hl.
  induction n as [|c n IH]; [done|]. cbn [sforall]. rewrite IH.
  - destruct (is_quote l c) eqn:E; [|done]. apply H in E. unfold lacks in E. cbn in E. by rewrite Ascii.eqb_refl in E.
  - intros q Hc. specialize (H q Hc). unfold lacks in *. cbn in H. by apply andb_true_iff in H as [_ H].
Qed.

(** A wording of constants keeps the rules. *)
Ltac wording_rules :=
  split; cbn -[number_text String.eqb]; try done;
  try first
    [ intros []; reflexivity
    | intros n Hn; split; intros ->; discriminate Hn
    | intros w r; case_decide as E; [right; by simplify_eq|by left]
    | intros l [->| ->]; done ].
