(* ===== verification/Objects.v ===== *)
(** * JS objects as the samples build them

    Assignment to a property keeps the order of [Object.entries]: array indices first, in
    ascending order, then the other keys as they were first assigned. [RH] and [NH]
    collect the values of a name that occurs more than once. An object is its own
    properties: the code also finds the members every object inherits ([constructor],
    [toString] and the like), so the theorems on what is collected ask for names that
    are none of them ([own_names]). *)
From Stdlib Require Import Sorted.
From S2P Require Import Prelude Shell Snippets Parameters.
#[local] Open Scope list_scope.

Definition entries : Type := list (string * jv).

(** ** Properties *)

(** A key that is an array index *)
Definition array_index (k : string) : option Z :=
  match parse_int k with
  | Some z => if bool_decide (0 ≤ z < 4294967295) && String.eqb (format_int z) k then Some z else None
  | None => None
  end.

(** The key comes before the other one, whenever it is assigned. *)
Definition key_before (k k' : string) : bool :=
  match array_index k, array_index k' with
  | Some i, Some j => i <? j
  | Some _, None => true
  | None, _ => false
  end.

(** [e[k]] *)
Fixpoint object_get (k : string) (l : entries) : option jv :=
  match l with [] => None | (k', v) :: l' => if String.eqb k' k then Some v else object_get k l' end.

(** [e[k] = v] *)
Fixpoint object_set (k : string) (v : jv) (l : entries) : entries :=
  match l with
  | [] => [(k, v)]
  | (k', v') :: l' =>
      if String.eqb k' k then (k, v) :: l'
      else if key_before k k' && negb (existsb (λ x, String.eqb x.1 k) l') then (k, v) :: l
      else (k', v') :: object_set k v l'
  end.

(** [Object.fromEntries(l)], and the order of [Object.entries] *)
Definition fromEntries (l : entries) : entries := foldl (λ e x, object_set x.1 x.2 e) [] l.

(** [delete e[k]] *)
Definition object_delete (k : string) (l : entries) : entries := List.filter (λ x, negb (String.eqb x.1 k)) l.

(** The members every object inherits; a name that is one of them is not modelled *)
Definition inherited_members : list string :=
  ["constructor"; "hasOwnProperty"; "isPrototypeOf"; "propertyIsEnumerable"; "toLocaleString"; "toString"; "valueOf";
   "__proto__"; "__defineGetter__"; "__defineSetter__"; "__lookupGetter__"; "__lookupSetter__"].

Definition own_names (l : list string) : bool := forallb (λ n, bool_decide (n ∉ inherited_members)) l.

(** RH, of a name that is no inherited member *)
Definition RH (e : entries) (t : string) (n : jv) : entries :=
  match object_get t e with
  | None | Some Undefined => object_set t n e
  | Some (Arr r) => object_set t (Arr (r ++ [n])) e
  | Some r => object_set t (Arr [r; n]) e
  end.

(** NH *)
Definition NH (e : list pair) : entries := foldl (λ e p, RH e (p_name p) (Str (p_value p))) [] e.

(** MH *)
Definition MH (e : list pair) : string :=
  match e with [] => "" | _ => "?" +:+ String.concat "&" ((λ p, p_name p +:+ "=" +:+ p_value p) <$> e) end.

(** ** The values of a name

    Written from the list alone, as what [RH] is to collect. *)

Definition values (n : string) (l : list pair) : list string := p_value <$> List.filter (λ p, String.eqb (p_name p) n) l.

(** One value is a text, more are an array of them. *)
Definition shown_values (vs : list string) : option jv :=
  match vs with [] => None | [v] => Some (Str v) | _ => Some (Arr (Str <$> vs)) end.

Lemma object_get_set k v l k' : object_get k' (object_set k v l) = if String.eqb k k' then Some v else object_get k' l.
Proof.
  induction l as [|[k0 v0] l IH]; [done|]. cbn [object_set]. destruct (String.eqb_spec k0 k) as [->|Hk].
  - cbn [object_get]. by destruct (String.eqb k k').
  - destruct (_ && _); [done|]. cbn [object_get]. rewrite IH.
    destruct (String.eqb_spec k0 k') as [->|]; [|done]. by rewrite (proj2 (String.eqb_neq k k')) by congruence.
Qed.

Lemma RH_shown e t v n vs : object_get t e = shown_values vs →
  object_get n (RH e t (Str v)) = if String.eqb t n then shown_values (vs ++ [v]) else object_get n e.
Proof.
  intros Hv. unfold RH. rewrite Hv. destruct vs as [|x [|y vs]]; cbn [shown_values app]; rewrite object_get_set; [done..|].
  by rewrite !fmap_cons, fmap_app.
Qed.

Lemma values_cons n p l : values n (p :: l) = if String.eqb (p_name p) n then p_value p :: values n l else values n l.
Proof. unfold values. cbn. by destruct (String.eqb (p_name p) n). Qed.

Lemma values_app n a b : values n (a ++ b) = values n a ++ values n b.
Proof. unfold values. by rewrite List.filter_app, fmap_app. Qed.

Lemma RH_collects l : ∀ e vs, (∀ n, object_get n e = shown_values (vs n)) →
  ∀ n, object_get n (foldl (λ e p, RH e (p_name p) (Str (p_value p))) e l) = shown_values (vs n ++ values n l).
Proof.
  induction l as [|p l IH]; intros e vs He n; [by rewrite app_nil_r|]. cbn [foldl].
  rewrite (IH _ (λ n, if String.eqb (p_name p) n then vs n ++ [p_value p] else vs n)).
  - rewrite values_cons. destruct (String.eqb (p_name p) n); [by rewrite <- app_assoc|done].
  - intros m. rewrite (RH_shown _ _ _ _ (vs (p_name p))) by apply He.
    destruct (String.eqb_spec (p_name p) m) as [<-|]; [done|apply He].
Qed.

Lemma NH_collects l n : object_get n (NH l) = shown_values (values n l).
Proof. apply (RH_collects l [] (λ _, [])). done. Qed.

(** An object that has the values of a list that is not empty is not empty. *)
Lemma shown_nonempty (p : pair) l e : (∀ n, object_get n e = shown_values (values n (p :: l))) → e ≠ [].
Proof. intros H ->. specialize (H (p_name p)). rewrite values_cons, String.eqb_refl in H. by destruct (values _ l). Qed.

(** ** Values as JSON.parse makes them *)

(** The entries of every object are in their order, each key once. *)
Fixpoint js_value (e : jv) : Prop :=
  match e with
  | Arr l => (fix go l := match l with [] => True | v :: l' => js_value v ∧ go l' end) l
  | Obj l => fromEntries l = l ∧ (fix go (l : entries) := match l with [] => True | (_, v) :: l' => js_value v ∧ go l' end) l
  | _ => True
  end.

Lemma js_items l : js_value (Arr l) → ∀ v, v ∈ l → js_value v.
Proof.
  cbn. induction l as [|w l IH]; [by intros _ v []%elem_of_nil|]. intros [H1 H2] v [->|Hv]%elem_of_cons; [done|by apply IH].
Qed.

Lemma js_entries l : js_value (Obj l) → fromEntries l = l ∧ ∀ x, x ∈ l → js_value x.2.
Proof.
  cbn. intros [Hl H]. split; [done|]. clear Hl. induction l as [|[k w] l IH]; [by intros x []%elem_of_nil|].
  destruct H as [H1 H2]. intros x [->|Hx]%elem_of_cons; [done|by apply IH].
Qed.

(** ** Properties under a renaming of the keys *)

Section rename.
Variables (f : string → string) (g : jv → jv).
Hypothesis Hf : ∀ a b, f a = f b → a = b.
Hypothesis Hi : ∀ k, array_index (f k) = array_index k.

Lemma eqb_rename a b : String.eqb (f a) (f b) = String.eqb a b.
Proof. destruct (String.eqb_spec a b) as [->|H]; [apply String.eqb_refl|]. apply String.eqb_neq. intros E. by apply H, Hf. Qed.

Lemma object_set_rename k v l : object_set (f k) (g v) ((λ x, (f x.1, g x.2)) <$> l) = (λ x, (f x.1, g x.2)) <$> object_set k v l.
Proof.
  induction l as [|[k' v'] l IH]; [done|]. cbn. rewrite eqb_rename. destruct (String.eqb k' k); [done|].
  assert (key_before (f k) (f k') = key_before k k') as -> by (unfold key_before; by rewrite !Hi).
  assert (existsb (λ x, String.eqb x.1 (f k)) ((λ x, (f x.1, g x.2)) <$> l) = existsb (λ x, String.eqb x.1 k) l) as ->.
  { clear -Hf. induction l as [|x l IH]; [done|]. cbn. by rewrite eqb_rename, IH. }
  destruct (_ && _); [done|]. cbn. by rewrite IH.
Qed.

Lemma fromEntries_rename l : fromEntries ((λ x, (f x.1, g x.2)) <$> l) = (λ x, (f x.1, g x.2)) <$> fromEntries l.
Proof.
  unfold fromEntries. change (@nil (string * jv)) with ((λ x : string * jv, (f x.1, g x.2)) <$> []) at 1.
  generalize (@nil (string * jv)) as acc. induction l as [|x l IH]; intros acc; [done|]. cbn.
  by rewrite object_set_rename, IH.
Qed.
End rename.

(** ** The order of the entries *)

Lemma key_before_trans a b c : key_before a b = true → key_before b c = true → key_before a c = true.
Proof.
  unfold key_before. destruct (array_index a), (array_index b), (array_index c); try done. intros. apply Z.ltb_lt. lia.
Qed.

(** No key stands behind one it comes before, and none occurs twice. *)
Definition later (x y : string * jv) : Prop := key_before y.1 x.1 = false ∧ y.1 ≠ x.1.
Definition in_order (l : entries) : Prop := StronglySorted later l.

Lemma object_set_member k v l x : x ∈ object_set k v l → x = (k, v) ∨ x ∈ l.
Proof.
  induction l as [|[k' v'] l IH]; cbn; [by intros ->%list_elem_of_singleton; left|].
  destruct (String.eqb k' k); [|destruct (_ && _)]; rewrite !elem_of_cons; [tauto..|].
  intros [->|H%IH]; tauto.
Qed.

Lemma object_set_order k v l : in_order l → in_order (object_set k v l).
Proof.
  unfold in_order. induction 1 as [|[k' v'] l Hl IH Hx]; [by repeat constructor|]. cbn.
  destruct (String.eqb_spec k' k) as [->|Hk]; [by constructor|]. destruct (_ && _) eqn:E.
  - apply andb_true_iff in E as [Hb He%negb_true_iff]. constructor; [by constructor|]. constructor.
    + split; [|done]. cbn. destruct (key_before k' k) eqn:E'; [|done].
      exfalso. pose proof (key_before_trans _ _ _ Hb E') as H. unfold key_before in H.
      destruct (array_index k); [|done]. apply Z.ltb_lt in H. lia.
    + rewrite Forall_forall in Hx |- *. intros y Hy. destruct (Hx y Hy) as [H1 H2]. split; cbn in *.
      * destruct (key_before y.1 k) eqn:E'; [|done]. by rewrite (key_before_trans _ _ _ E' Hb) in H1.
      * intros <-. assert (existsb (λ x, String.eqb x.1 y.1) l = true) as H; [|congruence].
        apply existsb_exists. exists y. by rewrite String.eqb_refl, <- list_elem_of_In.
  - apply andb_false_iff in E. constructor; [done|]. rewrite Forall_forall in Hx |- *.
    intros y [->|Hy]%object_set_member; [|by apply Hx]. split; cbn; [|done].
    destruct E as [E|[z [Hz Hzk%String.eqb_eq]]%negb_false_iff%existsb_exists]; [done|].
    destruct (Hx z) as [H1 _]; [by apply list_elem_of_In|]. cbn in H1. by rewrite <- Hzk.
Qed.

Lemma object_set_last k v l : Forall (λ x, later x (k, v)) l → object_set k v l = l ++ [(k, v)].
Proof.
  induction 1 as [|[k' v'] l [H1 H2] _ IH]; [done|]. cbn in *. by rewrite (proj2 (String.eqb_neq k' k)), H1, IH.
Qed.

Lemma in_order_same l : in_order l → fromEntries l = l.
Proof.
  intros Hl. unfold fromEntries. rewrite <- (app_nil_l l) at 2.
  assert (Forall (λ x, Forall (later x) l) ([] : entries)) as Hacc by constructor. revert Hacc.
  generalize ([] : entries) as acc. induction Hl as [|[k v] l Hl IH Hx]; intros acc Hacc; [by rewrite app_nil_r|].
  cbn [foldl fst snd]. rewrite object_set_last.
  - rewrite IH; [by rewrite <- app_assoc|]. apply Forall_app. split; [|by constructor].
    rewrite Forall_forall in Hacc |- *. intros x Hxa. specialize (Hacc x Hxa). by inversion Hacc.
  - rewrite Forall_forall in Hacc |- *. intros x Hxa. specialize (Hacc x Hxa). by inversion Hacc.
Qed.

Lemma RH_order e t n : in_order e → in_order (RH e t n).
Proof. intros H. unfold RH. repeat case_match; by apply object_set_order. Qed.

Lemma foldl_order {A} (f : entries → A → entries) l : (∀ e x, in_order e → in_order (f e x)) → ∀ e, in_order e → in_order (foldl f e l).
Proof. intros Hf. induction l as [|x l IH]; intros e He; [done|]. by apply IH, Hf. Qed.

Lemma fromEntries_order l : in_order (fromEntries l).
Proof. apply foldl_order; [|constructor]. intros e x. apply object_set_order. Qed.

(** The values of an object that was built by assignments *)
Lemma RH_values (P : jv → Prop) e t n : P n → (∀ r, P r → P (Arr [r; n])) → (∀ r, P (Arr r) → P (Arr (r ++ [n]))) →
  Forall (λ x, P x.2) e → Forall (λ x, P x.2) (RH e t n).
Proof.
  intros Hn H2 Hr He.
  assert (∀ v, P v → Forall (λ x, P x.2) (object_set t v e)) as Hset.
  { intros v Hv. rewrite Forall_forall in He |- *. intros x [->|Hx]%object_set_member; [done|by apply He]. }
  assert (∀ v, object_get t e = Some v → P v) as Hget.
  { clear -He. induction He as [|[k w] l Hw _ IH]; [done|]. cbn. destruct (String.eqb k t); [by intros v [= <-]|done]. }
  unfold RH. destruct (object_get t e) as [r|]; [|by apply Hset]. specialize (Hget r eq_refl).
  destruct r; apply Hset; auto.
Qed.

(** The object [e] has each name of [l] once, with its values in order. *)
Definition collected (l : list pair) (e : entries) : Prop :=
  in_order e ∧ ∀ n, object_get n e = shown_values (values n l).

(** [o] is an object with the values of [l]; none for an empty list. *)
Definition collects (l : list pair) (o : option jv) : Prop :=
  (l = [] ∧ o = None) ∨ l ≠ [] ∧ ∃ e, o = Some (Obj e) ∧ collected l e.

Lemma NH_collected l : collected l (NH l).
Proof. split; [apply foldl_order; [|constructor]; intros e x; apply RH_order|apply NH_collects]. Qed.

Lemma NH_nonempty l : l ≠ [] → NH l ≠ [].
Proof. destruct l as [|p l]; [done|]. intros _. apply (shown_nonempty p l), NH_collects. Qed.

Lemma NH_object l : collects l (match NH l with [] => None | e => Some (Obj e) end).
Proof.
  destruct l as [|p l]; [by left|]. right. split; [done|]. exists (NH (p :: l)). split; [|apply NH_collected].
  pose proof (NH_nonempty (p :: l) ltac:(done)) as H0. by destruct (NH (p :: l)).
Qed.
