(* ===== verification/PhpValue.v ===== *)
(** * scalar.js: values in PHP

    [PU] writes a value as a PHP expression, [FU] a piece of code in it, [zU] escapes the
    keys of a value for the Laravel sample. What [PU] writes is read by [read_php]. Texts
    are ASCII. *)
From S2P Require Import Prelude Css Shell Snippets Literals Parameters Objects Lex Values Wordings.
#[local] Open Scope list_scope.

(** ** PHP *)

(** In single quotes a backslash escapes itself and the quote and is itself before
    anything else; in double quotes a dollar begins a variable. *)
Definition php_unescape (q : ascii) (e : string) : option (option string) :=
  match e with
  | String c "" =>
      if Ascii.eqb q "'" then
        Some (Some (if Ascii.eqb c "\" || Ascii.eqb c "'" then one c else String "\" (one c)))
      else option_map (λ d, Some (one d)) (if Ascii.eqb c "$" then Some c else simple_escape c)
  | _ => None
  end.

Definition php : lexicon :=
  Lexicon (λ c, Ascii.eqb c "'" || Ascii.eqb c DQc) (λ q c, Ascii.eqb q "'" || negb (Ascii.eqb c "$")) php_unescape.

Definition php_words : wording :=
  Wording [Word "null"] "true" "false" [] ([Sign "["], [Sign "]"]) ([Sign "["], [Sign "]"]) [Sign "="; Sign ">"]
    (λ _, false) (λ _, true) (λ c, if lacks "010" c then lex php c else None).

Definition php_value : syntax := wording_syntax php_words.

Definition read_php (s : string) : option (jv * list token) :=
  match lex php s with Some ts => read_value php_value ts | None => None end.

(** ** What the bundle writes *)

(** NU *)
Definition NU (e : nat) : string := spaces (2 * e).

(** PU; [Verbatim] is an instance of FU *)
Fixpoint PU (e : jv) (t : nat) : string :=
  match e with
  | Undefined | Null => "null"
  | Verbatim c => String.concat (newline +:+ NU (t + 1)) (split_on "010" c)
  | Str s => "'" +:+ replace_char "'" "\'" (replace_char "\" "\\" s) +:+ "'"
  | Num n => n
  | Bool b => if b then "true" else "false"
  | Arr l =>
      match l with
      | [] => "[]"
      | _ => "[" +:+ newline +:+ NU (t + 1) +:+
             String.concat ("," +:+ newline +:+ NU (t + 1)) ((λ e, PU e (t + 1)) <$> l) +:+ newline +:+ NU t +:+ "]"
      end
  | Obj l =>
      match l with
      | [] => "[]"
      | _ => "[" +:+ newline +:+ NU (t + 1) +:+
             String.concat ("," +:+ newline +:+ NU (t + 1)) ((λ x, "'" +:+ x.1 +:+ "' => " +:+ PU x.2 (t + 1)) <$> l) +:+
             newline +:+ NU t +:+ "]"
      end
  end.

(** zU; the property of a key is assigned under the escaped key. An assignment to
    [__proto__] sets the prototype and no property, which is not modelled: the theorems
    on samples ask for other keys. *)
Fixpoint zU (e : jv) : jv :=
  match e with
  | Arr l => Arr (zU <$> l)
  | Obj l => Obj (fromEntries ((λ x, (LU x.1, zU x.2)) <$> l))
  | _ => e
  end.

(** ** What is written is read *)

#[export] Instance php_rules : Wording_rules php_words.
Proof. wording_rules. Qed.

#[export] Instance php_readable : Readable php_value.
Proof. exact (wording_readable php_words). Qed.

Lemma php_writes : writes php "'" single_escape.
Proof. intros c s. by destruct c as [[] [] [] [] [] [] [] []]. Qed.

Lemma closed_RU s : closed php ("'" +:+ LU s +:+ "'") [Text s].
Proof. rewrite LU_once. apply (closed_text php "'" single_escape s); [done|apply php_writes]. Qed.


#[export] Instance php_blanks : Blanks php.
Proof. done. Qed.

(** The keys of all objects of a value *)
Fixpoint keys_of (e : jv) : list string :=
  match e with
  | Arr l => mjoin (keys_of <$> l)
  | Obj l => mjoin ((λ x, x.1 :: keys_of x.2) <$> l)
  | _ => []
  end.

(** zU without the assignments *)
Fixpoint escape_keys (f : string → string) (e : jv) : jv :=
  match e with
  | Arr l => Arr (escape_keys f <$> l)
  | Obj l => Obj ((λ x, (f x.1, escape_keys f x.2)) <$> l)
  | _ => e
  end.

Lemma LU_inj a b : LU a = LU b → a = b.
Proof.
  intros E. pose proof (closed_RU a) as Ha. rewrite E in Ha. pose proof (closed_RU b) as Hb. unfold closed in *. congruence.
Qed.

Lemma LU_plain k : lacks "'" k = true → lacks "\" k = true → LU k = k.
Proof.
  rewrite LU_once. unfold lacks. induction k as [|c k IH]; [done|]. cbn [sforall flat_map_s].
  intros [H1 H2]%andb_true_iff [H3 H4]%andb_true_iff. rewrite IH by done. unfold single_escape.
  apply negb_true_iff in H1, H3. by rewrite H1, H3.
Qed.

Lemma LU_index k : array_index (LU k) = array_index k.
Proof.
  assert (∀ x z, array_index x = Some z → x = format_int z) as Hf.
  { intros x z. unfold array_index. destruct (parse_int x); [|done]. destruct (_ && _) eqn:E; [|done].
    apply andb_true_iff in E as [_ E%String.eqb_eq]. intros [= <-]. done. }
  assert (lacks "\" (LU k) = true → LU k = k) as Hl.
  { rewrite LU_once. unfold lacks. induction k as [|c k IH]; [done|]. cbn [flat_map_s]. rewrite sforall_app.
    intros [H1 H2]%andb_true_iff. rewrite IH by done. unfold single_escape in *.
    destruct (Ascii.eqb c "\"); [discriminate H1|]. by destruct (Ascii.eqb c "'"); [discriminate H1|]. }
  destruct (array_index (LU k)) as [z|] eqn:E.
  - rewrite Hl in E; [by rewrite E|]. rewrite (Hf _ _ E). by apply format_int_lacks.
  - destruct (array_index k) as [z|] eqn:E'; [|done]. apply Hf in E' as Hk. rewrite LU_plain in E; [congruence|..];
      rewrite Hk; by apply format_int_lacks.
Qed.

Lemma zU_escape e : js_value e → zU e = escape_keys LU e.
Proof.
  induction e as [e He|l IH|l IH] using jv_nested_ind; [by destruct e|..]; cbn [zU escape_keys]; rewrite Forall_forall in IH.
  - intros Hj. f_equal. apply list_fmap_ext. intros i x Hx%list_elem_of_lookup_2. apply IH; [done|]. by eapply js_items.
  - intros [Hl Hj]%js_entries. f_equal. rewrite <- Hl at 2. rewrite <- (fromEntries_rename LU (escape_keys LU)) by (apply LU_inj || apply LU_index).
    f_equal. apply list_fmap_ext. intros i x Hx%list_elem_of_lookup_2. rewrite IH; [done|done|by apply Hj].
Qed.

Lemma php_number n : number_text n = true → lex php n = Some [Word n].
Proof. intros Hn. apply lex_number; [done|]. intros c. cbn. by rewrite orb_false_r, orb_comm. Qed.

Lemma lex_entry k b tb : lex php b = Some tb →
  lex php ("'" +:+ LU k +:+ "' => " +:+ b) = Some (Text k :: Sign "=" :: Sign ">" :: tb).
Proof.
  intros Hb. pose proof (closed_then php ("'" +:+ LU k +:+ "'") (" => " +:+ b) [Text k] (Sign "=" :: Sign ">" :: tb)) as H.
  rewrite !sapp_assoc in H. apply H; [apply closed_RU|]. by apply (closed_then php " => " b [Sign "="; Sign ">"]).
Qed.

(** The brackets and the lines of PU *)
Lemma lex_block {A} (f : A → string) (g : A → list token) l t : (∀ x, x ∈ l → lex php (f x) = Some (g x)) →
  lex php ("[" +:+ newline +:+ NU (t + 1) +:+ String.concat ("," +:+ newline +:+ NU (t + 1)) (f <$> l) +:+ newline +:+ NU t +:+ "]") =
  Some (Sign "[" :: commas (g <$> l) ++ [Sign "]"]).
Proof.
  intros H. apply closed_lex.
  apply (closed_layout php "[" (newline +:+ NU (t + 1)) (newline +:+ NU (t + 1)) _ _ (newline +:+ NU t) "]" [Sign "["] [Sign "]"]); try done;
    [apply blank_spaces..| |apply blank_spaces].
  by apply Forall2_map.
Qed.

(** The text of a value with escaped keys consists of the tokens of the value. *)
Lemma PU_lex e : atoms_ok php_value e = true → ∀ t, lex php (PU (escape_keys LU e) t) = Some (tokens php_value e).
Proof.
  induction e as [e He|l IH|l IH] using jv_nested_ind; intros Hw t.
  - destruct e as [| |b|n|s|code|l|l]; try done.
    + by destruct b.
    + by apply php_number.
    + apply closed_lex, closed_RU.
    + cbn in *. apply bool_decide_eq_true in Hw as [ts Hc]. destruct (lacks "010" code) eqn:Hl; [|done].
      rewrite split_on_lacks by done. cbn. by rewrite Hc.
  - rewrite Forall_forall in IH. destruct l as [|v l]; [done|].
    change (lex php (PU (escape_keys LU (Arr (v :: l))) t)) with (lex php ("[" +:+ newline +:+ NU (t + 1) +:+
      String.concat ("," +:+ newline +:+ NU (t + 1)) ((λ e, PU e (t + 1)) <$> (escape_keys LU <$> v :: l)) +:+ newline +:+ NU t +:+ "]")).
    rewrite <- list_fmap_compose. apply (lex_block (λ x, PU (escape_keys LU x) (t + 1)) (tokens php_value)).
    intros x Hx. apply IH; [done|]. by eapply atoms_items.
  - rewrite Forall_forall in IH. destruct l as [|v l]; [done|].
    change (lex php (PU (escape_keys LU (Obj (v :: l))) t)) with (lex php ("[" +:+ newline +:+ NU (t + 1) +:+
      String.concat ("," +:+ newline +:+ NU (t + 1)) ((λ x, "'" +:+ x.1 +:+ "' => " +:+ PU x.2 (t + 1)) <$> ((λ x, (LU x.1, escape_keys LU x.2)) <$> v :: l)) +:+
      newline +:+ NU t +:+ "]")).
    rewrite <- list_fmap_compose.
    apply (lex_block (λ x, "'" +:+ LU x.1 +:+ "' => " +:+ PU (escape_keys LU x.2) (t + 1)) (λ x, Text x.1 :: Sign "=" :: Sign ">" :: tokens php_value x.2)).
    intros x Hx. apply lex_entry, IH; [done|]. by eapply (atoms_entries php_value).
Qed.

Lemma escape_keys_same f e : (∀ k, k ∈ keys_of e → f k = k) → escape_keys f e = e.
Proof.
  induction e as [e He|l IH|l IH] using jv_nested_ind; intros Hk; [by destruct e|..]; cbn [escape_keys]; f_equal.
  - rewrite Forall_forall in IH. transitivity (id <$> l); [|apply list_fmap_id]. apply list_fmap_ext. intros i x Hx%list_elem_of_lookup_2.
    apply IH; [done|]. intros k Hkx. apply Hk. cbn. apply list_elem_of_join. eexists. split; [exact Hkx|]. apply list_elem_of_fmap. by exists x.
  - rewrite Forall_forall in IH. transitivity (id <$> l); [|apply list_fmap_id]. apply list_fmap_ext. intros i [n x] Hx%list_elem_of_lookup_2.
    assert (∀ k, k ∈ n :: keys_of x → f k = k) as Hn.
    { intros k Hkx. apply Hk. cbn. apply list_elem_of_join. eexists. split; [exact Hkx|]. apply list_elem_of_fmap. by exists (n, x). }
    cbn. rewrite (Hn n) by left. f_equal. apply (IH (n, x) Hx). intros k Hkx. apply Hn. by right.
Qed.

(** The values of the PHP samples: a value of JSON.parse that holds no empty object
    and whose numbers are finite is written so that PHP reads the value itself, its strings, keys
    and nesting included: by the Laravel sample, which escapes the keys, whatever the
    keys are; by the cURL and Guzzle samples when no key has a quote or a backslash. *)
Theorem php_values_are_read_back e t : writable php_value e = true →
  (js_value e → read_php (PU (zU e) t) = Some (e, [])) ∧
  (Forall (λ k, lacks "'" k = true ∧ lacks "\" k = true) (keys_of e) → read_php (PU e t) = Some (e, [])).
Proof.
  intros Hw. assert (read_php (PU (escape_keys LU e) t) = Some (e, [])) as H.
  { unfold read_php. rewrite PU_lex by by apply writable_atoms. rewrite <- (app_nil_r (tokens php_value e)).
    by apply (read_tokens php_value). }
  split; intros Hk; [by rewrite zU_escape|].
  rewrite (escape_keys_same LU e) in H; [done|]. intros k Hin. rewrite Forall_forall in Hk. by apply LU_plain; apply Hk.
Qed.
