(* ===== verification/PhpSamples.v ===== *)
(** * scalar.js: the Laravel and Guzzle samples

    [iIt_generate] and [Ft_generate] write the PHP code that sends a request with the HTTP
    client of Laravel and with Guzzle. [JSON.parse] and the host name of a URL are
    parameters. *)
From S2P Require Import Prelude Css Mime Shell Snippets Literals Parameters Objects Lex Values Wordings PhpValue.
#[local] Open Scope list_scope.

Section laravel.
(** JSON.parse, [None] when it throws; [new URL(e).hostname], [None] when it throws *)
Variables (parse_json : string → option jv) (url_hostname : string → option string).

(** ** What the bundle writes *)

(** rIt *)
Definition rIt (e : string) : string :=
  match e with
  | "" => "localhost"
  | _ => match url_hostname e with None | Some "" => "localhost" | Some h => h end
  end.

(** The values of the parameters of a form, by name *)
Definition form_values (ps : list param) : entries :=
  foldl (λ e p, RH e (pa_name p) (Str (default "" (pa_value p)))) [] ps.

Definition content_type_value (c : string) : jv := Obj [("Content-Type", Str c)].

(** The parts of a multipart form: the calls that attach them, and the values of those
    without a file and a content type *)
Definition attached (p : param) : list string :=
  match pa_fileName p with
  | Some f =>
      let e := [RU (pa_name p); call_text "file_get_contents" [RU f]; RU f] ++
               (match pa_contentType p with None | Some "" => [] | Some c => [PU (zU (content_type_value c)) 0] end) in
      [call_text "attach" e]
  | None =>
      match pa_contentType p with
      | None | Some "" => []
      | Some c => [call_text "attach" [RU (pa_name p); RU (default "" (pa_value p)); "null"; PU (zU (content_type_value c)) 0]]
      end
  end.

Definition is_attached (p : param) : bool :=
  match pa_fileName p with Some _ => true | None => truthy (pa_contentType p) end.

Definition with_body (text type : string) : string := call_text "withBody" [RU text; type].

(** The calls and the value of the body *)
Definition iIt_body (d : post_data) : list string * option jv :=
  if String.eqb (mimeType d) "application/json" then
    match text d with
    | None | Some "" => ([], None)
    | Some t => match parse_json t with Some o => ([], Some o) | None => ([with_body t "'application/json'"], None) end
    end
  else match (if String.eqb (mimeType d) "application/x-www-form-urlencoded" then params d else None) with
  | Some ps => ([call_text "asForm" []], Some (Obj (form_values ps)))
  | None =>
  match (if String.eqb (mimeType d) "multipart/form-data" then params d else None) with
  | Some ps =>
      let e := form_values (List.filter (λ p, negb (is_attached p)) ps) in
      (mjoin (attached <$> ps), match e with [] => None | _ => Some (Obj e) end)
  | None =>
      if String.eqb (mimeType d) "application/octet-stream" then ([with_body (default "" (text d)) "'application/octet-stream'"], None)
      else match text d with
           | None | Some "" => ([], None)
           | Some t => match parse_json t with
                       | Some o => ([], Some o)
                       | None => ([with_body t (RU (match mimeType d with "" => "text/plain" | m => m end))], None)
                       end
           end
  end end.

Definition http_verbs : list string := ["delete"; "get"; "head"; "patch"; "post"; "put"].

(** The call that sends the request *)
Definition iIt_send (m i : string) (o : option jv) : string :=
  let s := to_lower m in
  if bool_decide (s ∈ http_verbs) then
    match (if String.eqb s "head" then None else o) with
    | Some o => call_text s [RU i; PU (zU o) 1]
    | None => call_text s [RU i]
    end
  else match o with
       | None => call_text "send" [RU m; RU i]
       | Some o => call_text "send" [RU m; RU i; PU (zU o) 1]
       end.

Definition pair_values (l : list pair) : entries := foldl (λ e p, RH e (p_name p) (Str (p_value p))) [] l.

(** The calls before it *)
Definition iIt_calls (e : request) (t : option credentials) : list string :=
  (match auth_given t with Some (a, b) => [call_text "withBasicAuth" [RU a; RU b]] | None => [] end) ++
  (match headers e with [] => [] | hs => [call_text "withHeaders" [PU (zU (Obj (pair_values hs))) 0]] end) ++
  (match cookies e with
   | [] => []
   | cs => [call_text "withCookies" [PU (zU (Obj (pair_values cs))) 0; RU (rIt (default "" (url e)))]]
   end) ++
  (match postData e with Some d => (iIt_body d).1 | None => [] end).

(** iIt.generate *)
Definition iIt_generate (e : request) (t : option credentials) : string :=
  let i := default "" (url e) +:+ MH (queryString e) in
  let c := iIt_send (PH (method e)) i (match postData e with Some d => (iIt_body d).2 | None => None end) in
  "use Illuminate\Support\Facades\Http;" +:+ newline +:+ newline +:+ "$response = " +:+
  (match iIt_calls e t with
   | a :: l => String.concat newline (("Http::" +:+ a) :: ((λ e, "  ->" +:+ e) <$> l) ++ ["  ->" +:+ c])
   | [] => "Http::" +:+ c
   end) +:+ ";".

(** ** What the sample is meant to say *)

Inductive argument : Type := Value (v : jv) | FileContents (f : string).

Definition argument_tokens (a : argument) : list token :=
  match a with Value v => tokens php_value v | FileContents f => call_tokens "file_get_contents" [[Text f]] end.

Record call : Type := Call { c_name : string; c_args : list argument }.

Definition tokens_of_call (c : call) : list token := call_tokens (c_name c) (argument_tokens <$> c_args c).

Definition text_arg (s : string) : argument := Value (Str s).

(** The content type of a part, when it has one *)
Definition part_type (p : param) : list argument :=
  match pa_contentType p with Some (String _ _ as c) => [Value (Obj [("Content-Type", Str c)])] | _ => [] end.

(** A part of a multipart form that is attached: a file, or a value with a content type *)
Definition attach_call (p : param) : list call :=
  match pa_fileName p, part_type p with
  | Some f, ty => [Call "attach" ([text_arg (pa_name p); FileContents f; text_arg f] ++ ty)]
  | None, [] => []
  | None, ty => [Call "attach" ([text_arg (pa_name p); text_arg (default "" (pa_value p)); Value Null] ++ ty)]
  end.

(** The names and values of the parameters of a form *)
Definition form_pairs (ps : list param) : list pair := (λ p, Pair (pa_name p) (default "" (pa_value p))) <$> ps.

(** The other parts: values only *)
Definition value_parts (ps : list param) : list param :=
  List.filter (λ p, match attach_call p with [] => true | _ => false end) ps.

(** The value of a text body, when JSON.parse reads it *)
Definition parsed_text (e : request) : option jv :=
  match postData e with
  | Some (Post m (Some (String _ _ as x)) _) => if String.eqb m "application/octet-stream" then None else parse_json x
  | _ => None
  end.

(** The calls that set the body: a form, its parts, or a text that JSON.parse does not read
    and the sample sends as it is *)
Definition body_calls (e : request) : list call :=
  match asked_fields "application/x-www-form-urlencoded" e, asked_fields "multipart/form-data" e, postData e with
  | Some _, _, _ => [Call "asForm" []]
  | None, Some ps, _ => mjoin (attach_call <$> ps)
  | None, None, Some (Post m x _) =>
      if String.eqb m "application/octet-stream" then [Call "withBody" [text_arg (default "" x); text_arg m]]
      else match x, parsed_text e with
           | Some (String _ _ as x), None => [Call "withBody" [text_arg x; text_arg (if String.eqb m "" then "text/plain" else m)]]
           | _, _ => []
           end
  | None, None, None => []
  end.

(** The value that is sent with the request: an object with the values of a form under their
    names, or the one of a text *)
Definition says_value (e : request) (o : option jv) : Prop :=
  match asked_fields "application/x-www-form-urlencoded" e, asked_fields "multipart/form-data" e with
  | Some ps, _ => ∃ l, o = Some (Obj l) ∧ collected (form_pairs ps) l
  | None, Some ps => collects (form_pairs (value_parts ps)) o
  | None, None => o = parsed_text e
  end.

(** A call with an object of the values of [l] under their names; none for an empty list *)
Definition says_values (f : string) (l : list pair) (more : list argument) (cs : list call) : Prop :=
  (l = [] ∧ cs = []) ∨ l ≠ [] ∧ ∃ o, cs = [Call f (Value (Obj o) :: more)] ∧ collected l o.

Definition cookie_host (e : request) : string :=
  match url e with
  | Some (String _ _ as u) => match url_hostname u with Some (String _ _ as h) => h | _ => "localhost" end
  | _ => "localhost"
  end.

Definition verbs : list string := ["get"; "head"; "post"; "put"; "patch"; "delete"].

(** The call of the method with the URL and the value [o], or of [send] for another method *)
Definition send_call (e : request) (o : option jv) : call :=
  let m := asked_method e in
  let u := text_arg (default "" (url e) +:+ match queryString e with [] => "" | l => "?" +:+ asked_query l end) in
  let value := match o with Some v => [Value v] | None => [] end in
  if bool_decide (to_lower m ∈ verbs) then
    Call (to_lower m) (u :: if String.eqb (to_lower m) "head" then [] else value)
  else Call "send" (text_arg m :: u :: value).

(** [cs] are the calls the request asks for, in their order. *)
Definition says_calls (e : request) (t : option credentials) (cs : list call) : Prop :=
  ∃ hs ks o, says_values "withHeaders" (headers e) [] hs ∧ says_values "withCookies" (cookies e) [text_arg (cookie_host e)] ks ∧
    says_value e o ∧
    cs = (match asked_credentials t with Some (a, b) => [Call "withBasicAuth" [text_arg a; text_arg b]] | None => [] end) ++
         hs ++ ks ++ body_calls e ++ [send_call e o].

(** Names that are no inherited members, and a text whose value has finite numbers and no
    key [__proto__], which assignment would take for the prototype *)
Definition plain_names (e : request) : Prop :=
  own_names (p_name <$> headers e ++ cookies e) = true ∧
  ∀ m ps, asked_fields m e = Some ps → own_names (pa_name <$> ps) = true.

Definition chain (cs : list call) : list token :=
  match cs with
  | [] => []
  | c :: cs' => tokens_of_call c ++ mjoin ((λ c, Word "-" :: Sign ">" :: tokens_of_call c) <$> cs')
  end.

Definition laravel_tokens (cs : list call) : list token :=
  [Word "use"; Word "Illuminate"; Sign "\"; Word "Support"; Sign "\"; Word "Facades"; Sign "\"; Word "Http"; Sign ";";
   Word "$response"; Sign "="; Word "Http"; Sign ":"; Sign ":"] ++ chain cs ++ [Sign ";"].

(** ** The sample says it *)

(** The value is written as its tokens. *)
Definition php_fit (v : jv) : Prop := js_value v ∧ atoms_ok php_value v = true.

Definition plain_value (v : jv) : Prop := php_fit v ∧ "__proto__" ∉ keys_of v.

Lemma fit_lex v t : php_fit v → lex php (PU (zU v) t) = Some (tokens php_value v).
Proof. intros [Hj Ha]. rewrite zU_escape by done. by apply PU_lex. Qed.

Lemma RU_lex s : lex php (RU s) = Some (argument_tokens (text_arg s)).
Proof. apply closed_lex, closed_RU. Qed.

Lemma fit_values {A} (f g : A → string) l : php_fit (Obj (foldl (λ e p, RH e (f p) (Str (g p))) [] l)).
Proof.
  assert (in_order (foldl (λ e p, RH e (f p) (Str (g p))) [] l)) as Ho.
  { apply foldl_order; [|constructor]. intros e x. apply RH_order. }
  assert (Forall (λ x, php_fit x.2) (foldl (λ e p, RH e (f p) (Str (g p))) [] l)) as Hv.
  { assert (Forall (λ x, php_fit x.2) ([] : entries)) as H by constructor. revert H. clear Ho.
    generalize ([] : entries) as e. induction l as [|x l IH]; intros e He; [done|]. apply IH, RH_values; [done| | |done].
    - intros r [H1 H2]. split; cbn in *; [done|by rewrite H2].
    - intros r [H1 H2]. split.
      + cbn. induction r as [|v r IHr]; [done|]. destruct H1 as [H0 H1]. cbn in H2. apply andb_true_iff in H2 as [_ H2]. by split; [|apply IHr].
      + cbn. rewrite forallb_app. cbn in H2. by rewrite H2. }
  split; cbn.
  - split; [by apply in_order_same|]. clear Ho. induction Hv as [|[k v] e [Hx _] _ IH]; [done|by split].
  - apply forallb_forall. intros x Hx%list_elem_of_In. rewrite Forall_forall in Hv. by apply Hv.
Qed.

Lemma php_call f args cs : sforall is_word f = true → sforall (λ c, negb (is_quote php c)) f = true → f ≠ "" →
  Forall2 (λ i a, lex php i = Some (argument_tokens a)) args cs → closed php (call_text f args) (tokens_of_call (Call f cs)).
Proof.
  intros Hw Hq Hn H. apply closed_call; try done. cbn. rewrite <- (list_fmap_id args).
  induction H as [|i a args cs Hi _ IH]; by constructor.
Qed.

Definition says (s : string) (c : call) : Prop := closed php s (tokens_of_call c).

Ltac laravel_call :=
  apply php_call; [done|done|done|]; repeat constructor; try apply RU_lex; try (by apply fit_lex); try done.

Lemma content_type_fit c : php_fit (content_type_value c).
Proof. by repeat split. Qed.

Lemma attached_says p : Forall2 says (attached p) (attach_call p).
Proof.
  unfold attached, attach_call, part_type. destruct (pa_fileName p) as [f|].
  - constructor; [|constructor]. apply php_call; [done|done|done|].
    assert (lex php (call_text "file_get_contents" [RU f]) = Some (argument_tokens (FileContents f))) as Hf.
    { apply closed_lex, closed_call; try done. repeat constructor. apply RU_lex. }
    destruct (pa_contentType p) as [[|c ct]|]; cbn [app]; repeat constructor; try apply RU_lex; try exact Hf.
    apply fit_lex, content_type_fit.
  - destruct (pa_contentType p) as [[|c ct]|]; [constructor| |constructor]. constructor; [|constructor].
    laravel_call.
Qed.

Lemma not_attached p : negb (is_attached p) = match attach_call p with [] => true | _ => false end.
Proof. unfold is_attached, attach_call, part_type. destruct (pa_fileName p); [done|]. by destruct (pa_contentType p) as [[|]|]. Qed.

Lemma form_values_pairs ps : form_values ps = NH (form_pairs ps).
Proof.
  unfold form_values, NH, form_pairs. generalize ([] : entries) as e. induction ps as [|p ps IH]; intros e; [done|]. cbn. apply IH.
Qed.

Definition body_value (e : request) : option jv := match postData e with Some d => (iIt_body d).2 | None => None end.

Lemma value_said e : says_value e (body_value e).
Proof.
  unfold says_value, body_value, parsed_text, asked_fields, iIt_body. destruct (postData e) as [[m x ps]|]; [|done].
  cbn [mimeType text params]. destruct (String.eqb_spec m "application/json") as [->|Hj].
  { assert ((match x with None | Some "" => ([], None) | Some t => match parse_json t with
      | Some o => ([], Some o) | None => ([with_body t "'application/json'"], None) end end : list string * option jv).2 =
      match x with Some (String _ _ as x) => parse_json x | _ => None end) as ->
      by (destruct x as [[|c x]|]; [done| |done]; by destruct (parse_json _)).
    destruct x as [[|c x]|], ps as [ps|]; done. }
  destruct (String.eqb_spec m "application/x-www-form-urlencoded") as [->|Hu].
  { destruct ps as [ps|].
    - exists (form_values ps). split; [done|]. rewrite form_values_pairs. apply NH_collected.
    - destruct x as [[|c x]|]; [done| |done]. cbn. by destruct (parse_json _). }
  destruct (String.eqb_spec m "multipart/form-data") as [->|Hm].
  { destruct ps as [ps|].
    - cbn [snd]. unfold value_parts. assert (List.filter (λ p, negb (is_attached p)) ps =
        List.filter (λ p, match attach_call p with [] => true | _ => false end) ps) as ->
        by (apply filter_ext; apply not_attached).
      rewrite form_values_pairs.
      match goal with |- collects ?l _ => pose proof (NH_object l) as H; by destruct (NH l) end.
    - destruct x as [[|c x]|]; [done| |done]. cbn. by destruct (parse_json _). }
  destruct (String.eqb m "application/octet-stream"); [by destruct x as [[|]|], ps|].
  destruct x as [[|c x]|], ps as [ps|]; try done; cbn; by destruct (parse_json _).
Qed.

Lemma body_says d e : postData e = Some d → Forall2 says (iIt_body d).1 (body_calls e).
Proof.
  intros Hd. destruct d as [m x ps].
  assert (∀ t i, lex php i = Some (argument_tokens (text_arg (if String.eqb m "" then "text/plain" else m))) →
    Forall2 says [with_body t i] [Call "withBody" [text_arg t; text_arg (if String.eqb m "" then "text/plain" else m)]]) as Hraw.
  { intros t i Hm. constructor; [|constructor]. laravel_call. }
  unfold iIt_body, body_calls, asked_fields, parsed_text. rewrite Hd. cbn [mimeType text params].
  destruct (String.eqb_spec m "application/json") as [->|Hj].
  { destruct ps as [ps|], x as [[|c x]|]; cbn; try constructor; (destruct (parse_json _); [constructor|by apply Hraw]). }
  destruct (String.eqb_spec m "application/x-www-form-urlencoded") as [->|Hu].
  { destruct ps as [ps|]; [constructor; [|constructor]; laravel_call|].
    destruct x as [[|c x]|]; cbn; try constructor; (destruct (parse_json _); [constructor|apply Hraw, RU_lex]). }
  destruct (String.eqb_spec m "multipart/form-data") as [->|Hm].
  { destruct ps as [ps|].
    - clear. cbn. induction ps as [|p ps IH]; [constructor|]. cbn. apply Forall2_app; [apply attached_says|apply IH].
    - destruct x as [[|c x]|]; cbn; try constructor; (destruct (parse_json _); [constructor|apply Hraw, RU_lex]). }
  destruct (String.eqb_spec m "application/octet-stream") as [->|Ho].
  { destruct ps; (constructor; [laravel_call|constructor]). }
  assert (Forall2 says (match x with
      | None | Some "" => ([], None)
      | Some t => match parse_json t with
                  | Some o => ([], Some o)
                  | None => ([with_body t (RU (if String.eqb m "" then "text/plain" else m))], None)
                  end
      end).1
    (match x, match x with Some (String _ _ as x) => parse_json x | _ => None end with
     | Some (String _ _ as x), None => [Call "withBody" [text_arg x; text_arg (if String.eqb m "" then "text/plain" else m)]]
     | _, _ => []
     end)) as Hx.
  { destruct x as [[|c x]|]; [constructor| |constructor]. destruct (parse_json _); [constructor|apply Hraw, RU_lex]. }
  by destruct m, ps.
Qed.

Lemma verbs_same m : bool_decide (m ∈ http_verbs) = bool_decide (m ∈ verbs).
Proof. apply bool_decide_ext. unfold http_verbs, verbs. set_solver. Qed.

Lemma send_says e o : (∀ v, o = Some v → php_fit v) →
  says (iIt_send (PH (method e)) (default "" (url e) +:+ MH (queryString e)) o) (send_call e o).
Proof.
  intros Hb. unfold says, iIt_send, send_call. rewrite <- PH_asked, verbs_same.
  assert (MH (queryString e) = match queryString e with [] => "" | l => "?" +:+ asked_query l end) as -> by (by destruct (queryString e)).
  set (u := default "" (url e) +:+ _). case_bool_decide as Hv.
  - assert (sforall is_word (to_lower (PH (method e))) = true ∧ sforall (λ c, negb (is_quote php c)) (to_lower (PH (method e))) = true ∧
      to_lower (PH (method e)) ≠ "") as (H1 & H2 & H3).
    { revert Hv. generalize (to_lower (PH (method e))) as m. intros m Hv.
      repeat (apply elem_of_cons in Hv as [->|Hv]; [done|]). by apply elem_of_nil in Hv. }
    destruct (String.eqb _ "head"); [|destruct o as [o|]]; apply php_call; try done; repeat constructor; try apply RU_lex.
    by apply fit_lex, Hb.
  - destruct o as [o|]; laravel_call. by apply fit_lex, Hb.
Qed.

(** An object of values under their names, in a call *)
Lemma values_call f l more margs : sforall is_word f = true → sforall (λ c, negb (is_quote php c)) f = true → f ≠ "" →
  Forall2 (λ i a, lex php i = Some (argument_tokens a)) margs more →
  ∃ cs, says_values f l more cs ∧ Forall2 says (match l with [] => [] | _ => [call_text f (PU (zU (Obj (pair_values l))) 0 :: margs)] end) cs.
Proof.
  intros H1 H2 H3 Hm. destruct l as [|p l]; [exists []; split; [by left|constructor]|].
  exists [Call f (Value (Obj (NH (p :: l))) :: more)]. split.
  - right. split; [done|]. eexists. split; [done|]. apply NH_collected.
  - constructor; [|constructor]. apply php_call; [done..|]. constructor; [|done]. apply fit_lex, fit_values.
Qed.

Lemma cookie_host_rIt e : rIt (default "" (url e)) = cookie_host e.
Proof. unfold rIt, cookie_host. destruct (url e) as [[|c u]|]; [done| |done]. cbn. by destruct (url_hostname _) as [[|]|]. Qed.

Lemma calls_says e t : (∀ v, body_value e = Some v → php_fit v) → ∃ cs c,
  says_calls e t (cs ++ [send_call e (body_value e)]) ∧ Forall2 says (iIt_calls e t) cs ∧ c = send_call e (body_value e).
Proof.
  intros Hb. destruct (values_call "withHeaders" (headers e) [] []) as (hs & Hhs & Hh); [done..|].
  destruct (values_call "withCookies" (cookies e) [text_arg (cookie_host e)] [RU (rIt (default "" (url e)))]) as (ks & Hks & Hk);
    [done|done|done|rewrite cookie_host_rIt; repeat constructor; apply RU_lex|].
  exists ((match asked_credentials t with Some (a, b) => [Call "withBasicAuth" [text_arg a; text_arg b]] | None => [] end) ++ hs ++ ks ++ body_calls e), (send_call e (body_value e)).
  split_and!; [|unfold iIt_calls; rewrite auth_given_asked|done].
  - exists hs, ks, (body_value e). split_and!; [done..|apply value_said|]. by rewrite <- !app_assoc.
  - repeat apply Forall2_app; [|by destruct (headers e)|by destruct (cookies e)|].
    + destruct (asked_credentials t) as [[a b]|]; [|constructor]. constructor; [|constructor]. laravel_call.
    + unfold body_calls. destruct (postData e) as [d|] eqn:Ed; [|unfold asked_fields; by rewrite Ed].
      pose proof (body_says d e Ed) as H. unfold body_calls in H. by rewrite Ed in H.
Qed.

Lemma body_fit e : (∀ v, parsed_text e = Some v → php_fit v) → ∀ v, body_value e = Some v → php_fit v.
Proof.
  intros Hp v Hv. pose proof (value_said e) as Hs. unfold says_value in Hs.
  assert (∀ l, v = Obj (form_values l) → php_fit v) as Hf by (intros l ->; apply fit_values).
  pose proof Hv as Hv0. unfold body_value, iIt_body in Hv. unfold asked_fields in Hs.
  destruct (postData e) as [[m x ps]|] eqn:Ed; [|done]. cbn [mimeType text params] in Hv.
  destruct ps as [ps|].
  - destruct (String.eqb_spec m "application/x-www-form-urlencoded") as [->|Hu].
    { cbn in Hv. injection Hv as <-. by eapply Hf. }
    destruct (String.eqb_spec m "multipart/form-data") as [->|Hm].
    { cbn -[form_values] in Hv. destruct (form_values _) as [|y q] eqn:E; [done|]. injection Hv as <-. exact (Hf _ (f_equal Obj (eq_sym E))). }
    apply Hp. by rewrite <- Hs.
  - apply Hp. by rewrite <- Hs.
Qed.

Lemma chain_says s c ss cs : says s c → Forall2 says ss cs →
  closed php (String.concat newline (("Http::" +:+ s) :: ((λ e, "  ->" +:+ e) <$> ss)))
    ([Word "Http"; Sign ":"; Sign ":"] ++ chain (c :: cs)).
Proof.
  intros Hs H.
  change ([Word "Http"; Sign ":"; Sign ":"] ++ chain (c :: cs)) with
    (mjoin (([Word "Http"; Sign ":"; Sign ":"] ++ tokens_of_call c) :: ((λ c, Word "-" :: Sign ">" :: tokens_of_call c) <$> cs))).
  apply (closed_lines php). constructor; [by apply (closed_app php "Http::" s [Word "Http"; Sign ":"; Sign ":"])|].
  induction H as [|s' c' ss cs Hs' _ IH]; [constructor|]. constructor; [|exact IH].
  by apply (closed_app php "  ->" s' [Word "-"; Sign ">"]).
Qed.

(** C13. The Laravel sample says what the request is, whatever its texts hold: for every
    request and credentials, PHP finds in the sample the calls the request asks for and no
    other code: credentials, headers and cookies with the values of each name in their
    order, the form, its files and typed values or a text that is no JSON, and the method
    with the URL, its query and the value of the form or of the JSON text; quotes,
    backslashes, line ends and PHP code in them stay in the literals. Names that every
    object inherits (constructor, __proto__) are set apart; a JSON value has finite
    numbers and no key __proto__; an empty object is written as an empty list. *)
Theorem laravel_sample_says_the_request e t : plain_names e → (∀ v, parsed_text e = Some v → plain_value v) →
  ∃ cs, says_calls e t cs ∧ lex php (iIt_generate e t) = Some (laravel_tokens cs).
Proof.
  intros _ Hv. assert (∀ v, body_value e = Some v → php_fit v) as Hb by (apply body_fit; intros v Ev; by apply Hv).
  destruct (calls_says e t Hb) as (cs & c0 & Hcs & Hc & _). exists (cs ++ [send_call e (body_value e)]). split; [exact Hcs|].
  apply closed_lex. unfold iIt_generate, laravel_tokens.
  pose proof (send_says e (body_value e) Hb) as Hs. fold (body_value e).
  set (c := iIt_send _ _ _) in *. clearbody c.
  assert (∀ x y, closed php x ([Word "Http"; Sign ":"; Sign ":"] ++ chain y) →
    closed php ("use Illuminate\Support\Facades\Http;" +:+ newline +:+ newline +:+ "$response = " +:+ x +:+ ";")
      ([Word "use"; Word "Illuminate"; Sign "\"; Word "Support"; Sign "\"; Word "Facades"; Sign "\"; Word "Http"; Sign ";";
        Word "$response"; Sign "="; Word "Http"; Sign ":"; Sign ":"] ++ chain y ++ [Sign ";"])) as Hgo.
  { intros x y Hx.
    apply (closed_app php ("use Illuminate\Support\Facades\Http;" +:+ newline +:+ newline +:+ "$response = ") (x +:+ ";")
      [Word "use"; Word "Illuminate"; Sign "\"; Word "Support"; Sign "\"; Word "Facades"; Sign "\"; Word "Http"; Sign ";"; Word "$response"; Sign "="]
      (([Word "Http"; Sign ":"; Sign ":"] ++ chain y) ++ [Sign ";"])); [done|]. by apply closed_app. }
  apply Hgo. destruct Hc as [|s c1 ss cs1 Hs1 Hc].
  - apply (chain_says c (send_call e (body_value e)) [] [] Hs). constructor.
  - assert ("Http::" = "Http::") as _ by done.
    pose proof (chain_says s c1 (ss ++ [c]) (cs1 ++ [send_call e (body_value e)]) Hs1) as H. rewrite fmap_app in H. apply H.
    apply Forall2_app; [done|by repeat constructor].
Qed.
End laravel.

(** ** An example *)

Definition parse_sample (t : string) : option jv :=
  if String.eqb t "{}" then Some (Obj [("it's", Arr [Num "1"; Null; Str "\'); exit; //"])]) else None.

Definition laravel_request : request :=
  Request (Some "https://api.test/it's") (Some "put") [Pair "X-Q" "a'b"; Pair "X-Q" "\"] [Pair "q" "$x"] [Pair "s" "p q"]
    (Some (Post "application/json" (Some "{}") None)).

Lemma laravel_witness : let e := laravel_request in let t := Some (Credentials "me" "it's") in
  ∃ hs ks, in_order hs ∧ object_get "X-Q" hs = Some (Arr [Str "a'b"; Str "\"]) ∧
    in_order ks ∧ object_get "s" ks = Some (Str "p q") ∧
    lex php (iIt_generate parse_sample (λ _, Some "api.test") e t) = Some (laravel_tokens [
      Call "withBasicAuth" [text_arg "me"; text_arg "it's"];
      Call "withHeaders" [Value (Obj hs)];
      Call "withCookies" [Value (Obj ks); text_arg "api.test"];
      Call "put" [text_arg "https://api.test/it's?q=$x"; Value (Obj [("it's", Arr [Num "1"; Null; Str "\'); exit; //"])])]]).
Proof.
  intros e t. assert (plain_names e) as Hn by (split; [reflexivity|intros m ps; done]).
  assert (∀ v, parsed_text parse_sample e = Some v → plain_value v) as H.
  { intros v [= <-]. split; [by repeat split|]. cbn. rewrite not_elem_of_cons. split; [done|]. by intros []%elem_of_nil. }
  destruct (laravel_sample_says_the_request parse_sample (λ _, Some "api.test") e t Hn H) as (cs & (hs & ks & o & Hh & Hk & Ho & ->) & Hl).
  destruct Hh as [[? _]|(_ & oh & -> & Hho & Hhg)]; [done|]. destruct Hk as [[? _]|(_ & ok & -> & Hko & Hkg)]; [done|].
  cbn in Ho. subst o. exists oh, ok. split_and!; [exact Hho|apply (Hhg "X-Q")|exact Hko|apply (Hkg "s")|exact Hl].
Defined.

(** ** Guzzle *)

Section guzzle.
Variable parse_json : string → option jv.

Definition text_value (t : option string) : jv := from_option Str Undefined t.

Definition or_empty (t : option string) : string := default "" t.

(** A part of a multipart form *)
Definition guzzle_part (p : param) : jv :=
  Obj ([("name", Str (pa_name p));
        ("contents", match pa_fileName p with
                     | None | Some "" => Str (or_empty (pa_value p))
                     | Some f => Verbatim ("fopen('" +:+ f +:+ "', 'rb')")
                     end)] ++
       match pa_contentType p with None | Some "" => [] | Some c => [("headers", Obj [("Content-Type", Str c)])] end).

Definition guzzle_body (d : post_data) : entries :=
  if String.eqb (mimeType d) "application/json" then
    match parse_json (match text d with None | Some "" => "{}" | Some t => t end) with
    | Some v => [("json", v)]
    | None => [("body", text_value (text d))]
    end
  else if String.eqb (mimeType d) "multipart/form-data" then
    match params d with
    | Some ps => [("multipart", Arr (guzzle_part <$> ps))]
    | None => match text d with
              | None | Some "" => []
              | Some t => match parse_json t with Some v => [("form_params", v)] | None => [("body", Str t)] end
              end
    end
  else if String.eqb (mimeType d) "application/x-www-form-urlencoded" then
    match params d with
    | Some ps => [("form_params", Obj (fromEntries ((λ p, (pa_name p, Str (or_empty (pa_value p)))) <$> ps)))]
    | None => []
    end
  else [("body", text_value (text d))].

Definition takes_gzip (h : pair) : bool := String.eqb (p_name h) "Accept-Encoding" && includes "gzip" (p_value h).

(** The options of the request *)
Definition guzzle_options (e : request) (t : option credentials) : entries :=
  (match headers e with [] => [] | hs => [("headers", Obj (pair_values hs))] end) ++
  (match queryString e with [] => [] | q => [("query", Obj (NH q))] end) ++
  (match cookies e with [] => [] | cs => [("cookies", Obj (fromEntries ((λ c, (p_name c, Str (p_value c))) <$> cs)))] end) ++
  (match auth_given t with Some (a, b) => [("auth", Arr [Str a; Str b])] | None => [] end) ++
  (match postData e with Some d => guzzle_body d | None => [] end) ++
  (if existsb takes_gzip (headers e) then [("decode_content", Bool true)] else []).

(** $Ft.generate *)
Definition Ft_generate (e : request) (t : option credentials) : string :=
  "$client = new GuzzleHttp\Client();" +:+ newline +:+ newline +:+
  "$response = $client->request('" +:+ PH (method e) +:+ "', '" +:+ default "" (url e) +:+
  match guzzle_options e t with
  | [] => "');"
  | n => "', " +:+ PU (Obj n) 0 +:+ ");"
  end.

Definition plain_text (s : string) : Prop := lacks "'" s = true ∧ lacks "\" s = true.

Definition guzzle_tokens (m u : string) (options : option jv) : list token :=
  [Word "$client"; Sign "="; Word "new"; Word "GuzzleHttp"; Sign "\"; Word "Client"; Sign "("; Sign ")"; Sign ";";
   Word "$response"; Sign "="; Word "$client-"; Sign ">"] ++
  call_tokens "request" ([[Text m]; [Text u]] ++ match options with Some v => [tokens php_value v] | None => [] end) ++ [Sign ";"].

Lemma closed_plain s : plain_text s → closed php ("'" +:+ s +:+ "'") [Text s].
Proof. intros [H1 H2]. rewrite <- (LU_plain s H1 H2) at 1. apply closed_RU. Qed.

(** The Guzzle sample says what the request is when the method, the URL and the names
    in the options hold no quote and no backslash: PHP finds one call with the method, the
    URL and the options, whatever the values of headers, cookies, credentials and the
    body hold. The code that opens a file has its name pasted in and stands for itself. *)
Theorem guzzle_sample_says_the_request e t :
  plain_text (PH (method e)) → plain_text (default "" (url e)) →
  Forall plain_text (keys_of (Obj (guzzle_options e t))) → atoms_ok php_value (Obj (guzzle_options e t)) = true →
  lex php (Ft_generate e t) = Some (guzzle_tokens (PH (method e)) (default "" (url e))
    (match guzzle_options e t with [] => None | n => Some (Obj n) end)).
Proof.
  intros Hm Hu Hk Ha. apply closed_lex. unfold Ft_generate, guzzle_tokens.
  set (m := PH (method e)) in *. set (u := default "" (url e)) in *.
  assert (∀ args tss, Forall2 (λ i ts, lex php i = Some ts) args tss →
    closed php ("$client = new GuzzleHttp\Client();" +:+ newline +:+ newline +:+ "$response = $client->" +:+ call_text "request" args +:+ ";")
     ([Word "$client"; Sign "="; Word "new"; Word "GuzzleHttp"; Sign "\"; Word "Client"; Sign "("; Sign ")"; Sign ";";
       Word "$response"; Sign "="; Word "$client-"; Sign ">"] ++ call_tokens "request" tss ++ [Sign ";"])) as Hgo.
  { intros args tss Hargs.
    apply (closed_app php ("$client = new GuzzleHttp\Client();" +:+ newline +:+ newline +:+ "$response = $client->") (call_text "request" args +:+ ";")); [done|].
    apply closed_app; [|done]. by apply closed_call. }
  apply closed_plain, closed_lex in Hm, Hu.
  destruct (guzzle_options e t) as [|x n].
  - specialize (Hgo ["'" +:+ m +:+ "'"; "'" +:+ u +:+ "'"] [[Text m]; [Text u]]). unfold call_text in Hgo.
    cbn [String.concat] in Hgo. rewrite !sapp_assoc in Hgo. apply Hgo. by repeat constructor.
  - assert (lex php (PU (Obj (x :: n)) 0) = Some (tokens php_value (Obj (x :: n)))) as Ho.
    { rewrite <- (escape_keys_same LU (Obj (x :: n))) at 1; [by apply PU_lex|].
      intros k Hin. rewrite Forall_forall in Hk. by apply LU_plain; apply Hk. }
    specialize (Hgo ["'" +:+ m +:+ "'"; "'" +:+ u +:+ "'"; PU (Obj (x :: n)) 0] [[Text m]; [Text u]; tokens php_value (Obj (x :: n))]).
    unfold call_text in Hgo. cbn [String.concat] in Hgo. rewrite !sapp_assoc in Hgo. apply Hgo. by repeat constructor.
Qed.
End guzzle.

Definition guzzle_request : request :=
  Request (Some "https://api.test/$x") None [Pair "X-Q" "a'b"] [] [] (Some (Post "text/plain" (Some "it's") None)).

Lemma guzzle_witness : let e := guzzle_request in
  plain_text (PH (method e)) ∧ plain_text (default "" (url e)) ∧
  lex php (Ft_generate parse_sample e None) = Some (guzzle_tokens "GET" "https://api.test/$x"
    (Some (Obj [("headers", Obj [("X-Q", Str "a'b")]); ("body", Str "it's")]))).
Proof.
  intros e. assert (plain_text (PH (method e))) as Hm by done. assert (plain_text (default "" (url e))) as Hu by done.
  split; [exact Hm|]. split; [exact Hu|].
  refine (guzzle_sample_says_the_request parse_sample e None Hm Hu _ eq_refl). cbn. by repeat constructor.
Defined.

(** ** What the samples leave open *)

(** A key of a JSON body is pasted into the cURL and Guzzle samples: what is behind a
    quote in it is PHP code. *)
Lemma php_keys_are_code :
  lex php (PU (Obj [("a' => exit(), 'b", Null)]) 0) =
    Some [Sign "["; Text "a"; Sign "="; Sign ">"; Word "exit"; Sign "("; Sign ")"; Sign ","; Text "b"; Sign "="; Sign ">"; Word "null"; Sign "]"].
Proof. reflexivity. Qed.

(** An empty object is written as an empty list, which PHP encodes as one. *)
Lemma php_empty_object_is_a_list : read_php (PU (Obj [("a", Obj [])]) 0) = Some (Obj [("a", Arr [])], []).
Proof. reflexivity. Qed.
