(* ===== verification/JsObject.v ===== *)
(** * scalar.js: values in JavaScript

    [lU] writes a value as a JS expression ([ZPt]: does a key need quotes, [uU]: a text in
    single quotes, [QPt]: an item over several lines, [dU]: a piece of code). What it
    writes for an object or an array is read by [read_js]. Texts are ASCII. *)
From S2P Require Import Prelude Css Shell Snippets Literals Parameters Objects Lex Values Wordings.
#[local] Open Scope list_scope.

(** ** JavaScript *)

(** [\n], [\u] and the like; any other character behind a backslash stands for itself.
    Octal and [\x] escapes are not read. *)
Definition js_unescape (q : ascii) (e : string) : option (option string) :=
  match e with
  | String "u" h => unicode_escape h
  | String c "" =>
      match control_escape c with
      | Some d => Some (Some (one d))
      | None => if Ascii.eqb c "v" then Some (Some (one "011"))
                else if byte_in 48 57 c || existsb (Ascii.eqb c) ["x"; "010"; "013"]%char then None
                else Some (Some (one c))
      end
  | _ => None
  end.

Definition js : lexicon :=
  Lexicon (λ c, Ascii.eqb c "'" || Ascii.eqb c DQc) (λ _, not_line_end) js_unescape.

(** ZPt: the key is no name of ASCII letters, digits, [_] and [$] *)
Definition name_start (c : ascii) : bool :=
  byte_in 65 90 c || byte_in 97 122 c || existsb (Ascii.eqb c) ["$"; "_"]%char.
Definition name_char (c : ascii) : bool := name_start c || byte_in 48 57 c.
Definition ZPt (e : string) : bool :=
  negb (match e with String c r => name_start c && sforall name_char r | "" => false end).

(** An entry [__proto__] of an object literal is no property: it sets the prototype. *)
Definition js_words : wording :=
  Wording [Word "null"] "true" "false" [] ([Sign "["], [Sign "]"]) ([Sign "{"], [Sign "}"]) [Sign ":"]
    (λ k, negb (ZPt k)) (λ k, negb (String.eqb k "__proto__")) (lex js).

Definition js_syntax : syntax := wording_syntax js_words.

Definition read_js (s : string) : option (jv * list token) :=
  match lex js s with Some ts => read_value js_syntax ts | None => None end.

(** ** What the bundle writes *)

Definition uU (e : string) : string :=
  replace_char "'" "\'" (replace_char "013" "\r" (replace_char "010" "\n" (replace_char "\" "\\" e))).

Definition js_quoted (s : string) : string := "'" +:+ uU s +:+ "'".

Definition js_key (k : string) : string := if ZPt k then js_quoted k else k.

(** QPt *)
Definition QPt (e : string) (t : nat) : string :=
  String.concat newline ((λ e, spaces t +:+ e) <$> split_on "010" e).

(** [JSON.stringify(e)] of what is no text, array or object *)
Definition json_atom (e : jv) : string :=
  match e with Num n => if number_text n then n else "null" | Bool b => if b then "true" else "false" | _ => "null" end.

(** The entries of an object, each on a line of its own *)
Definition js_block (t : nat) (l : list string) : string :=
  match l with
  | [] => "{}"
  | _ => "{" +:+ newline +:+ String.concat ("," +:+ newline) l +:+ newline +:+ spaces t +:+ "}"
  end.

(** A text whose characters are taken for the entries of an object *)
Fixpoint char_entries (i : Z) (t : nat) (s : string) : list string :=
  match s with
  | "" => []
  | String c s' => (spaces (t + 2) +:+ js_quoted (format_int i) +:+ ": " +:+ js_quoted (one c)) :: char_entries (i + 1) t s'
  end.

(** lU of a value that is neither null nor undefined: [Object.keys] of a text are its
    positions, of a number and a boolean there are none. *)
Fixpoint js_print (e : jv) (t : nat) : string :=
  match e with
  | Undefined | Null => ""
  | Bool _ | Num _ => "{}"
  | Str s => js_block t (char_entries 0 t s)
  | Verbatim c => js_block t [spaces (t + 2) +:+ "value: " +:+ js_quoted c]
  | Arr l =>
      let n := (λ e, match e with Str s => js_quoted s | Arr _ | Obj _ | Verbatim _ => js_print e 0 | _ => json_atom e end) <$> l in
      if existsb (includes newline) n
      then "[" +:+ newline +:+ String.concat ("," +:+ newline) ((λ e, QPt e (t + 2)) <$> n) +:+ newline +:+ spaces t +:+ "]"
      else "[" +:+ String.concat ", " n +:+ "]"
  | Obj l =>
      js_block t ((λ x, spaces (t + 2) +:+ js_key x.1 +:+ ": " +:+
        match x.2 with
        | Verbatim c => String.concat (newline +:+ spaces (t + 2)) (split_on "010" c)
        | Arr _ | Obj _ => js_print x.2 (t + 2)
        | Str s => js_quoted s
        | a => js_string a
        end) <$> l)
  end.

(** lU; [None]: a TypeError *)
Definition lU (e : jv) : option string :=
  match e with Undefined | Null => None | _ => Some (js_print e 0) end.

(** ** What is written is read *)

#[export] Instance js_blanks : Blanks js.
Proof. done. Qed.

Lemma js_one_line : one_line js.
Proof.
  split; [done|]. intros q e. destruct e as [|c e]; [done|]. change (String c e +:+ one "010") with (String c (e +:+ one "010")).
  assert (unicode_escape (e +:+ one "010") = None) as H by (unfold unicode_escape; by rewrite hex_text_bad).
  cbn [unescape js]. destruct (decide (c = "u"%char)) as [->|Hc]; [exact H|].
  destruct e; by destruct c as [[] [] [] [] [] [] [] []].
Qed.

#[export] Instance js_rules : Wording_rules js_words.
Proof.
  wording_rules.
  intros r Hr. change (strip [Sign ":"] r = None) in Hr.
  change (option_map (λ r, ("null", r)) (strip [Sign ":"] r) = None). by rewrite Hr.
Qed.

#[export] Instance js_readable : Readable js_syntax.
Proof. exact (wording_readable js_words). Qed.

Definition js_escape (c : ascii) : string :=
  if Ascii.eqb c "\" then "\\" else if Ascii.eqb c "010" then "\n" else if Ascii.eqb c "013" then "\r"
  else if Ascii.eqb c "'" then "\'" else one c.

Lemma uU_once e : uU e = flat_map_s js_escape e.
Proof.
  unfold uU, replace_char. rewrite !flat_map_flat_map. apply flat_map_ext.
  intros c. by destruct c as [[] [] [] [] [] [] [] []].
Qed.

Lemma js_writes : writes js "'" js_escape.
Proof. intros c s. by destruct c as [[] [] [] [] [] [] [] []]. Qed.

Lemma json_writes : writes js DQc json_char.
Proof. intros c s. by destruct c as [[] [] [] [] [] [] [] []]. Qed.

Lemma closed_json s : closed js (json_string s) [Text s].
Proof. apply (closed_text js DQc json_char s); [done|apply json_writes]. Qed.

Lemma closed_js_quoted s : closed js (js_quoted s) [Text s].
Proof. unfold js_quoted. rewrite uU_once. apply (closed_text js "'" js_escape s); [done|apply js_writes]. Qed.

Lemma js_number n : number_text n = true → lex js n = Some [Word n].
Proof. intros Hn. apply lex_number; [done|]. intros c. cbn. by rewrite orb_false_r, orb_comm. Qed.

Lemma name_char_word c : name_char c = true → is_word c = true ∧ negb (is_quote js c) = true.
Proof. by destruct c as [[] [] [] [] [] [] [] []]. Qed.

Lemma lex_js_key k : lex js (js_key k) = Some (if negb (ZPt k) then [Word k] else [Text k]).
Proof.
  unfold js_key. destruct (ZPt k) eqn:E; [apply closed_lex, closed_js_quoted|].
  unfold ZPt in E. apply negb_false_iff in E. destruct k as [|c k]; [done|]. apply andb_true_iff in E as [Hc Hk].
  assert (sforall name_char (String c k) = true) as H by (cbn; unfold name_char at 1; by rewrite Hc, Hk). clear Hc Hk.
  assert (∀ p : ascii → bool, (∀ c, name_char c = true → p c = true) → sforall p (String c k) = true) as Hp.
  { intros p Hp. clear -H Hp. induction (String c k) as [|d m IH]; [done|]. cbn in *. apply andb_true_iff in H as [H1 H2]. by rewrite Hp, IH. }
  apply lex_word; [done|apply Hp; intros d Hd|apply Hp; intros d Hd]; by apply name_char_word.
Qed.

Lemma concat_prefix b sep l : String.concat sep ((λ e, b +:+ e) <$> l) = match l with [] => "" | _ => b +:+ String.concat (sep +:+ b) l end.
Proof.
  destruct l as [|x l]; [done|]. revert x. induction l as [|y l IH]; intros x; [done|].
  change ((λ e, b +:+ e) <$> x :: y :: l) with ((b +:+ x) :: (b +:+ y) :: ((λ e, b +:+ e) <$> l)).
  rewrite !concat_cons. change ((b +:+ y) :: ((λ e, b +:+ e) <$> l)) with ((λ e, b +:+ e) <$> y :: l). by rewrite IH, !sapp_assoc.
Qed.

Lemma QPt_reindent e t : QPt e t = spaces t +:+ reindent t e.
Proof.
  unfold QPt. rewrite concat_prefix. destruct (split_on "010" e) eqn:E; [by destruct (split_on_nonnil "010" e)|].
  by rewrite <- E, reindent_split.
Qed.

Lemma lex_QPt e t ts : lex js e = Some ts → lex js (QPt e t) = Some ts.
Proof. intros H. rewrite QPt_reindent. apply (lex_indented js); [apply blank_spaces|]. by apply (reindent_lex js); [apply js_one_line|]. Qed.

(** A piece of code is the value of a property and no item of an array. *)
Fixpoint code_placed (e : jv) : bool :=
  match e with
  | Arr l => forallb (λ v, match v with Verbatim _ => false | _ => code_placed v end) l
  | Obj l => forallb (λ x, code_placed x.2) l
  | _ => true
  end.

Definition container (e : jv) : bool := match e with Arr _ | Obj _ => true | _ => false end.

Lemma closed_block t items tss : Forall2 (λ i ts, lex js i = Some ts) items tss →
  closed js (js_block t items) (Sign "{" :: commas tss ++ [Sign "}"]).
Proof.
  intros H. destruct H as [|i ts items tss Hi H]; [done|].
  apply (closed_layout js "{" newline newline (i :: items) (ts :: tss) (newline +:+ spaces t) "}" [Sign "{"] [Sign "}"]); try done;
    [by constructor|apply blank_spaces].
Qed.

Lemma lex_js_entry b k v ts : blank b = true → lex js v = Some ts →
  lex js (b +:+ js_key k +:+ ": " +:+ v) = Some (w_key_tokens js_words k ++ ts).
Proof.
  intros Hb Hv. apply (lex_indented js); [done|]. unfold w_key_tokens. cbn [w_bare w_sigil w_colon js_words]. rewrite <- app_assoc.
  apply lex_app; [rewrite lex_js_key; by destruct (ZPt k)|done|]. by apply (closed_then js ": " v [Sign ":"]).
Qed.

Lemma js_print_closed e : atoms_ok js_syntax e = true → code_placed e = true → container e = true →
  ∀ t, closed js (js_print e t) (tokens js_syntax e).
Proof.
  induction e as [e He|l IH|l IH] using jv_nested_ind; intros Ha Hc Hk t; [by destruct e|..]; rewrite Forall_forall in IH.
  - set (item := λ e, match e with Str s => js_quoted s | Arr _ | Obj _ | Verbatim _ => js_print e 0 | _ => json_atom e end).
    assert (∀ x, x ∈ l → lex js (item x) = Some (tokens js_syntax x)) as Hitem.
    { intros x Hx. pose proof (atoms_items _ _ Ha x Hx) as Hax.
      assert (match x with Verbatim _ => false | _ => code_placed x end = true) as Hcx.
      { apply (proj1 (forallb_forall _ _) Hc). by apply list_elem_of_In. }
      destruct x as [| |b|n|s|code|l'|l']; try done.
      - by destruct b.
      - cbn. cbn in Hax. rewrite Hax. by apply js_number.
      - apply closed_lex, closed_js_quoted.
      - apply closed_lex. by apply (IH (Arr l')).
      - apply closed_lex. by apply (IH (Obj l')). }
    cbn [js_print tokens]. fold item. destruct (existsb (includes newline) (item <$> l)).
    + apply (closed_layout js "[" newline newline _ _ (newline +:+ spaces t) "]" [Sign "["] [Sign "]"]); try done; [|apply blank_spaces].
      rewrite <- list_fmap_compose. apply Forall2_map. intros x Hx. by apply lex_QPt, Hitem.
    + apply (closed_list js "[" [Sign "["] ", " _ _ "]" [Sign "]"]); try done. by apply Forall2_map.
  - cbn [js_print tokens]. apply closed_block, Forall2_map. intros [k x] Hx. cbn [fst snd key_tokens js_syntax wording_syntax].
    apply lex_js_entry; [apply blank_spaces|]. pose proof (atoms_entries _ _ Ha _ Hx) as Hax. cbn [snd] in Hax.
    assert (code_placed x = true) as Hcx.
    { apply (proj1 (forallb_forall (λ x, code_placed x.2) _) Hc (k, x)). by apply list_elem_of_In. }
    destruct x as [| |b|n|s|code|l'|l']; try done.
    + by destruct b.
    + by apply js_number.
    + apply closed_lex, closed_js_quoted.
    + rewrite reindent_split. cbn in Hax. apply bool_decide_eq_true in Hax as [ts Hcode].
      cbn. rewrite Hcode. by apply (reindent_lex js); [apply js_one_line|].
    + apply closed_lex. by apply (IH _ Hx).
    + apply closed_lex. by apply (IH _ Hx).
Qed.

Lemma no_code e : writable js_syntax e = true → code_placed e = true.
Proof.
  induction e as [e He|l IH|l IH] using jv_nested_ind; [by destruct e|..]; rewrite Forall_forall in IH; cbn [writable code_placed].
  - intros Hw. apply forallb_forall. intros x Hx. apply (proj1 (forallb_forall _ _) Hw) in Hx as Hwx.
    apply list_elem_of_In in Hx. specialize (IH x Hx Hwx). by destruct x.
  - intros [_ Hw]%andb_true_iff. apply forallb_forall. intros x Hx. apply (proj1 (forallb_forall _ _) Hw) in Hx as Hwx.
    apply andb_true_iff in Hwx as [_ Hwx]. apply list_elem_of_In in Hx. by apply IH.
Qed.

(** C12. The JS samples show a JSON body as it is: an object or an array with finite
    numbers and without a key [__proto__] is written as a JS expression that evaluates to
    the value itself, whatever its texts and keys hold and however deep it nests, arrays
    of objects that are moved to the right line by line included. *)
Theorem js_values_are_read_back e t : writable js_syntax e = true → container e = true →
  read_js (js_print e t) = Some (e, []) ∧ lU e = Some (js_print e 0).
Proof.
  intros Hw Hc. split; [|by destruct e].
  unfold read_js. rewrite (closed_lex _ _ _ (js_print_closed e (writable_atoms _ e Hw) (no_code e Hw) Hc t)).
  rewrite <- (app_nil_r (tokens js_syntax e)). by apply (read_tokens js_syntax).
Qed.

Definition js_example : jv :=
  Obj [("it's", Arr [Num "1"; Null; Obj [("a", Str "b'\"); ("c", Arr [])]]); ("$x", Bool true)].

Lemma js_values_witness : writable js_syntax js_example = true ∧ container js_example = true ∧
  read_js (js_print js_example 2) = Some (js_example, []) ∧ lU js_example = Some (js_print js_example 0).
Proof.
  assert (writable js_syntax js_example = true) as Hw by reflexivity. split; [exact Hw|]. split; [reflexivity|].
  exact (js_values_are_read_back js_example 2 Hw eq_refl).
Defined.

(** A JSON body that is a text or a number is shown as another value. *)
Lemma js_body_text_becomes_an_object :
  lU (Str "hi") = Some ("{" +:+ newline +:+ "  '0': 'h'," +:+ newline +:+ "  '1': 'i'" +:+ newline +:+ "}") ∧ lU (Num "5") = Some "{}".
Proof. split; reflexivity. Qed.

(** A key [__proto__] of a JSON body is written as the prototype of the object. *)
Lemma js_proto_is_lost : js_print (Obj [("__proto__", Num "1")]) 0 = "{" +:+ newline +:+ "  __proto__: 1" +:+ newline +:+ "}" ∧
  read_js (js_print (Obj [("__proto__", Num "1")]) 0) = None.
Proof. split; reflexivity. Qed.
