(* ===== verification/JsSamples.v ===== *)
(** * scalar.js: the Axios and Fetch samples

    [vU] writes the Axios sample of a page and of Node, [aFt_generate] the Fetch sample of
    both; [mU] the lines that build a multipart form, [hU] the headers that go with it. The
    parts of a form are told apart by their position. [JSON.parse] is a parameter. *)
From S2P Require Import Prelude Css Mime Shell Snippets FormData Literals Parameters Objects Lex Values Wordings JsObject.
#[local] Open Scope list_scope.

Inductive target : Type := Page | Node.

#[export] Instance target_eq_dec : EqDecision target.
Proof. solve_decision. Defined.

(** ** Multipart forms *)

(** pU: some value has a content type of its own *)
Definition pU (e : list param) : bool :=
  existsb (λ p, match pa_fileName p with None => truthy (pa_contentType p) | Some _ => false end) e.

(** The files whose content the sample takes from files *)
Definition selected (t : target) (p : param) : bool :=
  match pa_fileName p with
  | None => false
  | Some f => bool_decide (t = Node) || match pa_value p with None => true | Some v => String.eqb v ("@" +:+ f) end
  end.

(** [e.replace(/\r\n|\r|\n/g, "\r\n")] *)
Fixpoint crlf_lines (s : string) : string :=
  match s with
  | String "013" (String "010" s') => crlf +:+ crlf_lines s'
  | String c s' => (if Ascii.eqb c "013" || Ascii.eqb c "010" then crlf else one c) +:+ crlf_lines s'
  | "" => ""
  end.

(** The expression of the content of a part; [k]: the files before it *)
Definition file_content (t : target) (k : nat) (p : param) (f : string) : string :=
  if bool_decide (t = Node) then call_text "readFileSync" [json_string f]
  else if selected t p then "files[" +:+ format_int (Z.of_nat k) +:+ "]"
  else json_string (default "" (pa_value p)).

Definition part_content (t : target) (k : nat) (p : param) : string :=
  match pa_fileName p with
  | None => json_string (crlf_lines (default "" (pa_value p)))
  | Some f => file_content t k p f
  end.

(** The header lines of a part that is written out *)
Definition blob_head (p : param) : string :=
  let e := match pa_fileName p with None => "" | Some f => "; filename=" +:+ quote_char +:+ nU f +:+ quote_char end in
  let i := match pa_contentType p, pa_fileName p with
           | Some c, _ => c | None, None => "" | None, Some _ => "application/octet-stream" end in
  crlf +:+ "Content-Disposition: form-data; name=" +:+ quote_char +:+ nU (pa_name p) +:+ quote_char +:+ e +:+ crlf +:+
  (match i with "" => "" | c => "Content-Type: " +:+ c +:+ crlf end) +:+ crlf.

Definition form_line (t : target) (n : string) (blob : bool) (k : nat) (p : param) : list string :=
  if blob then
    ["  " +:+ json_string "--" +:+ " + " +:+ n +:+ "Boundary + " +:+ json_string (blob_head p) +:+ ",";
     "  " +:+ part_content t k p +:+ ",";
     "  " +:+ json_string crlf +:+ ","]
  else match pa_fileName p with
       | Some f =>
           [call_text (n +:+ ".append") [json_string (pa_name p);
              "new File([" +:+ file_content t k p f +:+ "], " +:+ json_string f +:+ ", { type: " +:+
                json_string (default "application/octet-stream" (pa_contentType p)) +:+ " })"] +:+ ";"]
       | None => [call_text (n +:+ ".append") [json_string (pa_name p); json_string (default "" (pa_value p))] +:+ ";"]
       end.

Fixpoint form_lines (t : target) (n : string) (blob : bool) (k : nat) (e : list param) : list string :=
  match e with
  | [] => []
  | p :: e' => form_line t n blob k p ++ form_lines t n blob (if selected t p then S k else k) e'
  end.

(** A double quote is written as a backtick in the constant lines. *)
Definition ticked (s : string) : string := smap untick s.

(** mU *)
Definition mU (e : list param) (t : target) (n : string) : list string :=
  let i := pU e in
  let files := existsb (selected t) e in
  (if files && bool_decide (t = Node) then ["import { readFileSync } from 'node:fs';"; ""] else []) ++
  (if i then [] else ["const " +:+ n +:+ " = new FormData();"]) ++
  (if files && bool_decide (t = Page) then
     [ticked "// Select upload files with an <input type=`file` multiple> element first.";
      ticked "const files = document.querySelector('input[type=`file`]').files;"] else []) ++
  (if i then
     ["const " +:+ n +:+ "Boundary = " +:+ ticked "Array.from(globalThis.crypto.getRandomValues(new Uint8Array(16)), (byte) => byte.toString(16).padStart(2, `0`)).join(``);";
      "const " +:+ n +:+ " = new Blob(["] else []) ++
  form_lines t n i 0 e ++
  (if i then
     ["  " +:+ json_string "--" +:+ " + " +:+ n +:+ "Boundary + " +:+ json_string ("--" +:+ crlf) +:+ ",";
      "], { type: " +:+ json_string "multipart/form-data; boundary=" +:+ " + " +:+ n +:+ "Boundary });"] else []).

(** ** Headers *)

(** hU: the headers, or those of a multipart form with the type of the blob *)
Definition hU (e : request) (t : string) : list (string * jv) :=
  let plain l := (λ h, (p_name h, Str (p_value h))) <$> l in
  match postData e with
  | Some (Post m _ (Some ps)) =>
      if String.eqb m "multipart/form-data" then
        plain (List.filter (λ h, negb (is_content_type h)) (headers e)) ++
        (if pU ps then [("Content-Type", Verbatim (t +:+ ".type"))] else [])
      else plain (headers e)
  | _ => plain (headers e)
  end.

(** _U *)
Definition underscore_U (e : entries) (t n : string) : entries :=
  match n with "" => object_set t (Str n) e | _ => RH e t (Str n) end.

(** $Pt: the headers of the Axios sample, those of the request and the types that are
    code *)
Definition text_headers (h : entries) : entries :=
  foldl (λ t x, match x.2 with Str s => underscore_U t x.1 s | _ => t end) [] h.
Definition code_headers (h : entries) : entries :=
  foldl (λ n x, match x.2 with Verbatim _ => object_set x.1 x.2 n | _ => n end) [] h.

Definition with_cookies (e : request) (t : entries) : entries :=
  match cookies e with
  | [] => t
  | cs => underscore_U t "Cookie" (String.concat "; " ((λ c, p_name c +:+ "=" +:+ p_value c) <$> cs))
  end.

Definition Pt (e : request) : option entries :=
  let h := hU e "formData" in
  let t := with_cookies e (text_headers h) in
  match t ++ code_headers h with [] => None | _ => Some (foldl (λ o x, object_set x.1 x.2 o) t (code_headers h)) end.

Section samples.
Variable parse_json : string → option jv.

(** ** Axios *)

(** eFt: the lines before the request, and its data *)
Definition eFt (e : request) (t : target) : list string * option jv :=
  match postData e with
  | None => ([], None)
  | Some d =>
      if String.eqb (mimeType d) "application/json" then
        match text d with
        | None | Some "" => ([], None)
        | Some x => ([], Some (default (Str x) (parse_json x)))
        end
      else match (if String.eqb (mimeType d) "application/x-www-form-urlencoded" then params d else None) with
      | Some ((_ :: _) as ps) =>
          ("const encodedParams = new URLSearchParams()" ::
             ((λ p, call_text "encodedParams.append" [js_quoted (pa_name p); js_quoted (default "" (pa_value p))]) <$> ps),
           Some (Verbatim "encodedParams"))
      | _ =>
          match (if String.eqb (mimeType d) "multipart/form-data" then params d else None) with
          | Some ((_ :: _) as ps) => (mU ps t "formData", Some (Verbatim "formData"))
          | _ => match text d with None | Some "" => ([], None) | Some x => ([], Some (Str x)) end
          end
      end
  end.

(** The options of the Axios sample *)
Definition axios_options (e : request) (a : option credentials) (t : target) : entries :=
  [("method", Str (PH (method e))); ("url", Str (default "" (url e)))] ++
  (match NH (queryString e) with [] => [] | q => [("params", Obj q)] end) ++
  (match Pt e with None => [] | Some h => [("headers", Obj h)] end) ++
  (match auth_given a with Some (u, p) => [("auth", Obj [("username", Str u); ("password", Str p)])] | None => [] end) ++
  (match (eFt e t).2 with None => [] | Some v => [("data", v)] end).

(** The lines of a sample; empty lines stay *)
Definition axios_after : string :=
  String.concat newline [""; ""; "try {"; "  const { data } = await axios.request(options)"; "  console.log(data)";
    "} catch (error) {"; "  console.error(error)"; "}"].

(** vU(t).generate *)
Definition vU (t : target) (e : request) (a : option credentials) : string :=
  "import axios from 'axios'" +:+ newline +:+ newline +:+
  (match (eFt e t).1 with [] => "" | s => String.concat newline s +:+ newline +:+ newline end) +:+
  "const options = " +:+ js_print (Obj (axios_options e a t)) 0 +:+ axios_after.

(** ** What the sample is meant to say *)

(** The tokens of constant code *)
Definition code (s : string) : list token := default [] (lex js s).

(** A value of the form has a content type of its own. *)
Definition typed_value (p : param) : bool :=
  match pa_fileName p, pa_contentType p with None, Some (String _ _) => true | _, _ => false end.

(** The content of a file is read from it: always in Node, on a page unless the value is
    the content itself, and not [@] and the name. *)
Definition from_file (t : target) (p : param) : bool :=
  match t, pa_fileName p, pa_value p with
  | _, None, _ => false
  | Page, Some f, Some v => bool_decide (v = "@" +:+ f)
  | _, Some _, _ => true
  end.

(** The line ends of a text as CR LF; [cr]: behind a CR *)
Fixpoint crlf_text (cr : bool) (s : string) : string :=
  match s with
  | "" => ""
  | String c s' =>
      if Ascii.eqb c "010" then (if cr then "" else crlf) +:+ crlf_text false s'
      else if Ascii.eqb c "013" then crlf +:+ crlf_text true s'
      else String c (crlf_text false s')
  end.

Definition content_tokens (t : target) (k : nat) (p : param) (f : string) : list token :=
  match t with
  | Node => call_tokens "readFileSync" [[Text f]]
  | Page => if from_file t p then [Word "files"; Sign "["; Word (format_int (Z.of_nat k)); Sign "]"]
            else [Text (default "" (pa_value p))]
  end.

(** A parameter: the boundary, the header lines and the content of its part in turn, or a
    call of append *)
Definition form_statement (t : target) (n : string) (blob : bool) (k : nat) (p : param) : list (list token) :=
  if blob then
    [[Text "--"; Word "+"; Word (n +:+ "Boundary"); Word "+"; Text (crlf +:+ param_headers p +:+ crlf +:+ crlf); Sign ","];
     (match pa_fileName p with None => [Text (crlf_text false (default "" (pa_value p)))] | Some f => content_tokens t k p f end) ++ [Sign ","];
     [Text crlf; Sign ","]]
  else [call_tokens (n +:+ ".append") ([Text (pa_name p)] ::
         match pa_fileName p with
         | None => [[Text (default "" (pa_value p))]]
         | Some f => [[Word "new"; Word "File"; Sign "("; Sign "["] ++ content_tokens t k p f ++
                      [Sign "]"; Sign ","; Text f; Sign ","; Sign "{"; Word "type"; Sign ":";
                       Text (default "application/octet-stream" (pa_contentType p)); Sign "}"; Sign ")"]]
         end) ++ [Sign ";"]].

Fixpoint form_statements (t : target) (n : string) (blob : bool) (k : nat) (e : list param) : list (list token) :=
  match e with
  | [] => []
  | p :: e' => form_statement t n blob k p ++ form_statements t n blob (if from_file t p then S k else k) e'
  end.

Definition mU_statements (e : list param) (t : target) (n : string) : list (list token) :=
  let i := existsb typed_value e in
  let files := existsb (from_file t) e in
  (if files && bool_decide (t = Node) then [code "import { readFileSync } from 'node:fs';"; []] else []) ++
  (if i then [] else [[Word "const"; Word n] ++ code " = new FormData();"]) ++
  (if files && bool_decide (t = Page) then
     [code (ticked "// Select upload files with an <input type=`file` multiple> element first.");
      code (ticked "const files = document.querySelector('input[type=`file`]').files;")] else []) ++
  (if i then
     [[Word "const"; Word (n +:+ "Boundary"); Sign "="] ++
        code (ticked "Array.from(globalThis.crypto.getRandomValues(new Uint8Array(16)), (byte) => byte.toString(16).padStart(2, `0`)).join(``);");
      [Word "const"; Word n] ++ code " = new Blob(["] else []) ++
  form_statements t n i 0 e ++
  (if i then
     [[Text "--"; Word "+"; Word (n +:+ "Boundary"); Word "+"; Text ("--" +:+ crlf); Sign ","];
      code "], { type: " ++ [Text "multipart/form-data; boundary="; Word "+"; Word (n +:+ "Boundary")] ++ code " });"] else []).

Definition setup_statements (e : request) (t : target) : list (list token) :=
  match postData e with
  | None => []
  | Some d =>
      if String.eqb (mimeType d) "application/json" then []
      else match (if String.eqb (mimeType d) "application/x-www-form-urlencoded" then params d else None) with
      | Some ((_ :: _) as ps) =>
          code "const encodedParams = new URLSearchParams()" ::
            ((λ p, call_tokens "encodedParams.append" [[Text (pa_name p)]; [Text (default "" (pa_value p))]]) <$> ps)
      | _ =>
          match (if String.eqb (mimeType d) "multipart/form-data" then params d else None) with
          | Some ((_ :: _) as ps) => mU_statements ps t "formData"
          | _ => []
          end
      end
  end.

(** The data of the call: the value of a JSON text, the form the lines before it build, or
    a text *)
Definition asked_data (e : request) : option jv :=
  match postData e with
  | None => None
  | Some (Post m tx ps) =>
      let plain := match tx with Some (String _ _ as x) => Some (Str x) | _ => None end in
      if String.eqb m "application/json" then
        match tx with Some (String _ _ as x) => Some (match parse_json x with Some v => v | None => Str x end) | _ => None end
      else match ps with
           | Some (_ :: _) => if String.eqb m "application/x-www-form-urlencoded" then Some (Verbatim "encodedParams")
                              else if String.eqb m "multipart/form-data" then Some (Verbatim "formData") else plain
           | _ => plain
           end
  end.

(** The headers: those of the request and its cookies; those of a form without the content
    type, which is that of the form when it is written out *)
Definition asked_list (e : request) : list pair :=
  (match asked_fields "multipart/form-data" e with
   | Some _ => List.filter (λ h, negb (String.eqb (to_lower (p_name h)) "content-type")) (headers e)
   | None => headers e
   end) ++
  match cookies e with [] => [] | l => [Pair "Cookie" (String.concat "; " ((λ c, p_name c +:+ "=" +:+ p_value c) <$> l))] end.

Definition says_headers (e : request) (h : option jv) : Prop :=
  if match asked_fields "multipart/form-data" e with Some ps => existsb typed_value ps | None => false end then
    ∃ l, h = Some (Obj l) ∧ in_order l ∧ ∀ n, object_get n l =
      if String.eqb n "Content-Type" then Some (Verbatim "formData.type") else shown_values (values n (asked_list e))
  else collects (asked_list e) h.

(** The options [o] are what the request asks for. *)
Definition says_options (e : request) (a : option credentials) (o : entries) : Prop :=
  object_get "method" o = Some (Str (asked_method e)) ∧
  object_get "url" o = Some (Str (default "" (url e))) ∧
  collects (queryString e) (object_get "params" o) ∧
  says_headers e (object_get "headers" o) ∧
  object_get "auth" o = (λ x, Obj [("username", Str x.1); ("password", Str x.2)]) <$> asked_credentials a ∧
  object_get "data" o = asked_data e ∧
  ∀ k, k ∉ ["method"; "url"; "params"; "headers"; "auth"; "data"] → object_get k o = None.

(** Names that are no inherited members, and headers with a value *)
Definition plain_request (e : request) : Prop :=
  own_names (p_name <$> queryString e ++ headers e) = true ∧ Forall (λ h, p_value h ≠ "") (headers e).

(** ** The sample says it *)

Lemma code_closed s : snd (lex_run js Between s) = Between → closed js s (code s).
Proof.
  unfold closed, code, lex, lex_from. destruct (lex_run js Between s) as [ts st]. cbn. intros ->. cbn. by rewrite app_nil_r.
Qed.

Lemma json_lex s : lex js (json_string s) = Some [Text s].
Proof. apply closed_lex, closed_json. Qed.

Section form.
Context (n : string).
Hypothesis Hn : n ≠ "" ∧ sforall is_word n = true ∧ sforall (λ c, negb (is_quote js c)) n = true.

Lemma name_word x : sforall is_word x = true → sforall (λ c, negb (is_quote js c)) x = true → lex js (n +:+ x) = Some [Word (n +:+ x)].
Proof.
  destruct Hn as (H0 & Hw & Hq). intros Hx Hx'. apply lex_word; [by destruct n| |]; rewrite sforall_app.
  - by rewrite Hw, Hx.
  - by rewrite Hq, Hx'.
Qed.

Lemma js_call f args tss : f ≠ "" → sforall is_word f = true → sforall (λ c, negb (is_quote js c)) f = true →
  Forall2 (λ i ts, lex js i = Some ts) args tss → closed js (call_text f args) (call_tokens f tss).
Proof. intros. by apply closed_call. Qed.

Lemma index_number k : lex js (format_int (Z.of_nat k)) = Some [Word (format_int (Z.of_nat k))].
Proof.
  apply lex_word.
  - intros H. pose proof (format_int_digits (Z.of_nat k)) as E. by rewrite H in E.
  - apply sforall_format; [|done]. intros c. by destruct c as [[] [] [] [] [] [] [] []].
  - apply sforall_format; [|done]. intros c. by destruct c as [[] [] [] [] [] [] [] []].
Qed.

Lemma selected_from t p : selected t p = from_file t p.
Proof.
  unfold selected, from_file. destruct t, (pa_fileName p) as [f|], (pa_value p) as [v|]; try done.
  rewrite bool_decide_false by done. cbn [orb]. destruct (String.eqb_spec v ("@" +:+ f)); [by rewrite bool_decide_true|by rewrite bool_decide_false].
Qed.

Lemma pU_typed e : pU e = existsb typed_value e.
Proof. unfold pU. induction e as [|p e IH]; [done|]. cbn [existsb]. rewrite IH. by destruct p as [? ? [?|] [[|]|]]. Qed.

Lemma crlf_lines_text s : crlf_lines s = crlf_text false s ∧ ∀ s', s = String "010" s' → crlf_text true s = crlf_lines s'.
Proof.
  assert (∀ n s, (String.length s < n)%nat → crlf_lines s = crlf_text false s) as H.
  { clear. induction n as [|n IH]; intros s Hn; [lia|]. destruct s as [|c s]; [done|]. cbn [String.length] in Hn.
    assert ((c ≠ "013"%char ∨ ∀ s', s ≠ String "010" s') → crlf_lines (String c s) = (if Ascii.eqb c "013" || Ascii.eqb c "010" then crlf else one c) +:+ crlf_lines s) as Hs.
    { intros Hc. destruct c as [[] [] [] [] [] [] [] []]; try done.
      destruct s as [|d s]; [done|]. destruct d as [[] [] [] [] [] [] [] []]; try done. by destruct Hc as [Hc|Hc]; [|destruct (Hc s)]. }
    destruct (decide (c = "013"%char)) as [->|Hc13].
    - destruct s as [|d s]; [done|]. destruct (decide (d = "010"%char)) as [->|Hd].
      + cbn [crlf_lines crlf_text]. cbn in Hn. rewrite IH by lia. done.
      + rewrite Hs; [|right; congruence]. rewrite IH by lia. cbn [crlf_text].
        rewrite (proj2 (Ascii.eqb_neq d "010")) by done. done.
    - rewrite Hs by by left. rewrite IH by lia. cbn [crlf_text].
      rewrite (proj2 (Ascii.eqb_neq c "013")) by done. by destruct (Ascii.eqb c "010"). }
  split; [by apply (H (S (String.length s))); lia|]. intros s' ->. cbn [crlf_text]. symmetry. by apply (H (S (String.length s'))); lia.
Qed.

Lemma blob_head_lines p : blob_head p = crlf +:+ param_headers p +:+ crlf +:+ crlf.
Proof.
  unfold blob_head, param_headers. destruct (pa_contentType p) as [[|c s]|], (pa_fileName p) as [f|]; rewrite !sapp_assoc, ?sapp_nil_r; try done; do 8 f_equal.
Qed.

Lemma content_closed t k p f : closed js (file_content t k p f) (content_tokens t k p f).
Proof.
  unfold file_content, content_tokens. rewrite selected_from. destruct t; [rewrite bool_decide_false by done|rewrite bool_decide_true by done]; [|apply js_call; try done; repeat constructor; apply json_lex].
  - destruct (from_file Page p); [|apply closed_json].
    apply (closed_app js "files[" (format_int (Z.of_nat k) +:+ "]") [Word "files"; Sign "["]); [done|].
    by apply (lex_then js _ "]" [Word (format_int (Z.of_nat k))] [Sign "]"]); [apply index_number|..].
Qed.

Lemma boundary_line a b : closed js ("  " +:+ json_string a +:+ " + " +:+ n +:+ "Boundary + " +:+ json_string b +:+ ",")
  [Text a; Word "+"; Word (n +:+ "Boundary"); Word "+"; Text b; Sign ","].
Proof.
  apply (closed_app js "  " _ []); [done|]. apply (closed_app js (json_string a) _ [Text a]); [apply closed_json|].
  apply (closed_app js " + " _ [Word "+"]); [done|].
  replace (n +:+ "Boundary + " +:+ json_string b +:+ ",") with ((n +:+ "Boundary") +:+ " + " +:+ json_string b +:+ ",")
    by (by rewrite sapp_assoc).
  apply (lex_then js _ _ [Word (n +:+ "Boundary")]); [by apply name_word|done|done|].
  apply (closed_app js " + " _ [Word "+"]); [done|]. by apply (closed_app js (json_string b) "," [Text b]); [apply closed_json|].
Qed.

Lemma statement_lines t blob k p : Forall2 (closed js) (form_line t n blob k p) (form_statement t n blob k p).
Proof.
  unfold form_line, form_statement. destruct blob.
  - rewrite blob_head_lines. constructor; [apply boundary_line|]. constructor; [|constructor; [done|constructor]].
    apply (closed_app js "  " _ []); [done|]. apply closed_app; [|done]. unfold part_content. rewrite (proj1 (crlf_lines_text _)).
    destruct (pa_fileName p); [apply content_closed|apply closed_json].
  - assert (∀ args tss, Forall2 (λ i ts, lex js i = Some ts) args tss →
      closed js (call_text (n +:+ ".append") args +:+ ";") (call_tokens (n +:+ ".append") tss ++ [Sign ";"])) as Hcall.
    { intros args tss H. apply closed_app; [|done]. destruct Hn as (H0 & Hw & Hq).
      apply js_call; [by destruct n|by rewrite sforall_app, Hw|by rewrite sforall_app, Hq|done]. }
    destruct (pa_fileName p) as [f|]; (constructor; [|constructor]); apply Hcall.
    + constructor; [apply json_lex|]. constructor; [|constructor]. apply closed_lex.
      apply (closed_app js "new File([" _ [Word "new"; Word "File"; Sign "("; Sign "["]); [done|].
      apply closed_app; [apply content_closed|]. apply (closed_app js "], " _ [Sign "]"; Sign ","]); [done|].
      apply (closed_app js (json_string f) _ [Text f]); [apply closed_json|].
      apply (closed_app js ", { type: " _ [Sign ","; Sign "{"; Word "type"; Sign ":"]); [done|].
      by apply (closed_app js (json_string _) " })" [Text _]); [apply closed_json|].
    + repeat constructor; apply json_lex.
Qed.

Lemma statements_lines t blob e : ∀ k, Forall2 (closed js) (form_lines t n blob k e) (form_statements t n blob k e).
Proof.
  induction e as [|p e IH]; intros k; [constructor|]. cbn [form_lines form_statements].
  rewrite selected_from. apply Forall2_app; [apply statement_lines|apply IH].
Qed.

Lemma const_line x ts : closed js x ts → closed js ("const " +:+ n +:+ " = " +:+ x) ([Word "const"; Word n; Sign "="] ++ ts).
Proof.
  intros Hx. apply (closed_app js "const " _ [Word "const"]); [done|].
  apply (lex_then js n _ [Word n]); [|done|done|by apply (closed_app js " = " x [Sign "="])].
  rewrite <- (sapp_nil_r n). by apply name_word.
Qed.

Lemma closed_reads ls tss : Forall2 (closed js) ls tss → Forall2 (reads_as js) ls tss.
Proof. intros H. eapply Forall2_impl; [exact H|]. intros x ts. apply closed_lex. Qed.

Lemma mU_lines e t : Forall2 (reads_as js) (mU e t n) (mU_statements e t n).
Proof.
  unfold mU, mU_statements. rewrite pU_typed. assert (existsb (selected t) e = existsb (from_file t) e) as ->.
  { induction e as [|p e IH]; [done|]. cbn. by rewrite IH, selected_from. }
  repeat apply Forall2_app.
  - destruct (_ && _); by repeat constructor.
  - destruct (existsb typed_value e); [constructor|]. constructor; [|constructor]. by apply closed_lex, (const_line "new FormData();" (code "new FormData();")).
  - destruct (_ && _); by repeat constructor.
  - destruct (existsb typed_value e); [|constructor]. apply closed_reads. constructor; [|constructor; [|constructor]].
    + apply (closed_app js "const " _ [Word "const"]); [done|].
      match goal with |- closed _ (n +:+ "Boundary = " +:+ ?x) ?ts => replace (n +:+ "Boundary = " +:+ x) with ((n +:+ "Boundary") +:+ " = " +:+ x) by (by rewrite sapp_assoc) end.
      apply (lex_then js _ _ [Word (n +:+ "Boundary")]); [by apply name_word|done|done|].
      by apply (closed_app js " = " _ [Sign "="]).
    + by apply (const_line "new Blob([" (code "new Blob([")).
  - apply closed_reads, statements_lines.
  - destruct (existsb typed_value e); [|constructor]. apply closed_reads. constructor; [apply boundary_line|]. constructor; [|constructor].
    apply closed_app; [done|]. apply (closed_app js (json_string _) _ [Text _]); [apply closed_json|].
    apply (closed_app js " + " _ [Word "+"]); [done|].
    replace (n +:+ "Boundary });") with ((n +:+ "Boundary") +:+ " });") by (by rewrite sapp_assoc).
    by apply (lex_then js _ _ [Word (n +:+ "Boundary")]); [apply name_word|..].
Qed.
End form.

Lemma setup_lines e t : Forall2 (reads_as js) (eFt e t).1 (setup_statements e t).
Proof.
  unfold eFt, setup_statements. destruct (postData e) as [d|]; [|constructor].
  destruct (String.eqb (mimeType d) "application/json"); [destruct (text d) as [[|c x]|]; constructor|].
  assert (Forall2 (reads_as js) (match (if String.eqb (mimeType d) "multipart/form-data" then params d else None) with
    | Some ((_ :: _) as ps) => (mU ps t "formData", Some (Verbatim "formData"))
    | _ => match text d with None | Some "" => ([], None) | Some x => ([], Some (Str x)) end
    end).1 (match (if String.eqb (mimeType d) "multipart/form-data" then params d else None) with
    | Some ((_ :: _) as ps) => mU_statements ps t "formData" | _ => [] end)) as Hform.
  { destruct (if String.eqb _ _ then _ else _) as [[|p ps]|]; [destruct (text d) as [[|c x]|]; constructor|
      by apply mU_lines|destruct (text d) as [[|c x]|]; constructor]. }
  destruct (if String.eqb (mimeType d) "application/x-www-form-urlencoded" then params d else None) as [[|p ps]|]; [exact Hform| |exact Hform].
  constructor; [done|]. apply Forall2_map. intros q _. apply closed_lex, js_call; [done|done|done|].
  repeat constructor; apply closed_lex, closed_js_quoted.
Qed.

(** The parameters and headers of the options are texts and lists of texts. *)
Definition texts (v : jv) : Prop := atoms_ok js_syntax v = true ∧ code_placed v = true.

Definition pure (v : jv) : Prop := texts v ∧ match v with Verbatim _ => False | _ => True end.

Lemma pure_RH e t n : Forall (λ x, pure x.2) e → Forall (λ x, pure x.2) (RH e t (Str n)).
Proof.
  apply RH_values; [done| |].
  - intros r [[H1 H2] H3]. repeat split; cbn; rewrite ?H1; cbn; [done|]. by destruct r; try done; rewrite H2.
  - intros r [[H1 H2] _]. repeat split; cbn in *; rewrite forallb_app; [by rewrite H1|by rewrite H2].
Qed.

Lemma set_Forall (P : jv → Prop) (e : entries) k v : P v → Forall (λ x : string * jv, P x.2) e → Forall (λ x : string * jv, P x.2) (object_set k v e).
Proof. intros Hv. rewrite !Forall_forall. intros He x [->|Hx]%object_set_member; [done|by apply He]. Qed.

Lemma foldl_Forall {A} (P : jv → Prop) (f : entries → A → entries) l : (∀ e x, Forall (λ x : string * jv, P x.2) e → Forall (λ x : string * jv, P x.2) (f e x)) →
  ∀ e, Forall (λ x : string * jv, P x.2) e → Forall (λ x : string * jv, P x.2) (foldl f e l).
Proof. intros Hf. induction l as [|x l IH]; intros e He; [done|]. by apply IH, Hf. Qed.

Lemma pure_U e t n : Forall (λ x, pure x.2) e → Forall (λ x, pure x.2) (underscore_U e t n).
Proof. intros He. unfold underscore_U. destruct n; [by apply set_Forall|by apply pure_RH]. Qed.

Lemma pure_texts (e : entries) : Forall (λ x, pure x.2) e → Forall (λ x, texts x.2) e.
Proof. intros H. eapply Forall_impl; [exact H|]. by intros x []. Qed.

Lemma texts_object (e : entries) : Forall (λ x, texts x.2) e → texts (Obj e).
Proof.
  intros H. rewrite Forall_forall in H. split; cbn; apply forallb_forall; intros x Hx%list_elem_of_In; by apply H.
Qed.

Lemma pure_headers e : Forall (λ x, pure x.2) (with_cookies e (text_headers (hU e "formData"))).
Proof.
  assert (Forall (λ x, pure x.2) (text_headers (hU e "formData"))) as Ht.
  { apply foldl_Forall; [|constructor]. intros e' [k v] He. destruct v; try done; by apply pure_U. }
  unfold with_cookies. destruct (cookies e); [done|by apply pure_U].
Qed.

Lemma hU_code e : Forall (λ x, match x.2 with Verbatim _ => texts x.2 | _ => True end) (hU e "formData").
Proof.
  unfold hU. destruct (postData e) as [[m tx [ps|]]|]; [destruct (String.eqb _ _); [apply Forall_app; split|]|..];
    try (by apply Forall_fmap, Forall_forall). by destruct (pU ps); repeat constructor.
Qed.

Lemma texts_code e : Forall (λ x, texts x.2) (code_headers (hU e "formData")).
Proof.
  unfold code_headers. assert (Forall (λ x, texts x.2) ([] : entries)) as H0 by constructor. revert H0.
  generalize ([] : entries) as acc. induction (hU_code e) as [|[k v] l Hv _ IH]; intros acc Hacc; [done|]. cbn [foldl snd]. apply IH.
  destruct v; try done. by apply set_Forall.
Qed.

Lemma texts_Pt e h : Pt e = Some h → texts (Obj h).
Proof.
  unfold Pt. pose proof (pure_texts _ (pure_headers e)) as Ht. revert Ht. generalize (with_cookies e (text_headers (hU e "formData"))) as t.
  intros t Ht. destruct (t ++ code_headers _); [done|]. intros [= <-]. apply texts_object. revert t Ht.
  induction (texts_code e) as [|x n Hx _ IH]; intros t Ht; [done|]. by apply IH, set_Forall.
Qed.

Lemma options_texts e a t : (∀ v, (eFt e t).2 = Some v → texts v) → texts (Obj (axios_options e a t)).
Proof.
  intros Hd. apply texts_object. unfold axios_options. repeat (apply Forall_app; split).
  - by repeat constructor.
  - destruct (NH (queryString e)) as [|x q] eqn:E; [constructor|]. constructor; [|constructor]. rewrite <- E. apply texts_object.
    apply pure_texts. unfold NH. apply foldl_Forall; [|constructor]. intros e' p. apply pure_RH.
  - destruct (Pt e) as [h|] eqn:E; [|constructor]. constructor; [|constructor]. by eapply texts_Pt.
  - destruct (auth_given a) as [[u p]|]; by repeat constructor.
  - destruct ((eFt e t).2) as [v|]; [|constructor]. constructor; [|constructor]. by apply Hd.
Qed.

(** *** The options are what the request asks for *)

Lemma eFt_data e t : (eFt e t).2 = asked_data e.
Proof.
  unfold eFt, asked_data. destruct (postData e) as [[m tx ps]|]; [|done]. cbn [mimeType text params].
  destruct (String.eqb m "application/json"); [destruct tx as [[|c x]|]; try done; cbn; by destruct (parse_json _)|].
  destruct (String.eqb m "application/x-www-form-urlencoded") eqn:E1.
  - destruct (String.eqb_spec m "multipart/form-data") as [->|]; [done|].
    destruct ps as [[|p ps]|]; [by destruct tx as [[|]|]|done|by destruct tx as [[|]|]].
  - destruct (String.eqb m "multipart/form-data"); destruct ps as [[|p ps]|]; try done; by destruct tx as [[|]|].
Qed.

Lemma text_headers_plain l acc : Forall (λ h, p_value h ≠ "") l →
  foldl (λ t x, match x.2 with Str s => underscore_U t x.1 s | _ => t end) acc ((λ h, (p_name h, Str (p_value h))) <$> l) =
  foldl (λ e p, RH e (p_name p) (Str (p_value p))) acc l.
Proof.
  intros H. revert acc. induction H as [|h l Hh _ IH]; intros acc; [done|]. cbn. rewrite IH. f_equal.
  unfold underscore_U. by destruct (p_value h).
Qed.

Lemma code_headers_plain l acc :
  foldl (λ (n : entries) (x : string * jv), match x.2 with Verbatim _ => object_set x.1 x.2 n | _ => n end) acc
    ((λ h, (p_name h, Str (p_value h))) <$> l) = acc.
Proof. revert acc. induction l as [|h l IH]; intros acc; [done|]. cbn. apply IH. Qed.

(** The cookies are one more header, never an empty one. *)
Lemma with_cookies_list e l : with_cookies e (NH l) =
  NH (l ++ match cookies e with [] => [] | l => [Pair "Cookie" (String.concat "; " ((λ c, p_name c +:+ "=" +:+ p_value c) <$> l))] end).
Proof.
  unfold with_cookies. destruct (cookies e) as [|c cs]; [by rewrite app_nil_r|]. unfold NH. rewrite foldl_app. cbn [foldl p_name p_value].
  unfold underscore_U. destruct (String.concat _ _) eqn:E; [|done]. exfalso. apply (f_equal String.length) in E. revert E.
  rewrite fmap_cons. destruct ((λ c, p_name c +:+ "=" +:+ p_value c) <$> cs) as [|y l'];
    [change (String.concat "; " [?x]) with x|rewrite concat_cons]; rewrite !slength_app; cbn; lia.
Qed.

Lemma Pt_headers e : Forall (λ h, p_value h ≠ "") (headers e) → says_headers e (Obj <$> Pt e).
Proof.
  intros Hne. unfold says_headers.
  assert (∃ l c, hU e "formData" = ((λ h, (p_name h, Str (p_value h))) <$> l) ++ c ∧ Forall (λ h, p_value h ≠ "") l ∧
    asked_list e = l ++ match cookies e with [] => [] | l => [Pair "Cookie" (String.concat "; " ((λ c, p_name c +:+ "=" +:+ p_value c) <$> l))] end ∧
    c = if match asked_fields "multipart/form-data" e with Some ps => existsb typed_value ps | None => false end
        then [("Content-Type", Verbatim "formData.type")] else []) as (l & c & HU & Hl & HL & Hc).
  { unfold hU, asked_list, asked_fields. destruct (postData e) as [[m tx [ps|]]|].
    - destruct (String.eqb m "multipart/form-data").
      + eexists _, _. split; [done|]. split; [rewrite Forall_forall in Hne |- *; intros h Hin; apply list_elem_of_In, filter_In in Hin as [Hin _]; apply Hne; by apply list_elem_of_In|]. split; [done|]. by rewrite pU_typed.
      + exists (headers e), []. by rewrite app_nil_r.
    - exists (headers e), []. by rewrite app_nil_r.
    - exists (headers e), []. by rewrite app_nil_r. }
  assert (text_headers (hU e "formData") = NH l ∧ code_headers (hU e "formData") = c) as [Ht Hcode].
  { rewrite HU. unfold text_headers, code_headers. rewrite !foldl_app, text_headers_plain, code_headers_plain by done.
    split; [|destruct (match asked_fields _ e with Some _ => _ | None => _ end); by subst c]. fold (NH l).
    destruct (match asked_fields _ e with Some _ => _ | None => _ end); by subst c. }
  unfold Pt. rewrite Ht, Hcode, with_cookies_list, <- HL.
  destruct (match asked_fields _ e with Some _ => _ | None => _ end); subst c.
  - exists (object_set "Content-Type" (Verbatim "formData.type") (NH (asked_list e))). split; [by destruct (NH (asked_list e))|].
    split; [by apply object_set_order, NH_collected|]. intros n. rewrite object_get_set, NH_collects, String.eqb_sym. done.
  - rewrite app_nil_r. pose proof (NH_object (asked_list e)) as H. by destruct (NH (asked_list e)).
Qed.

Lemma options_said e a t : Forall (λ h, p_value h ≠ "") (headers e) → says_options e a (axios_options e a t).
Proof.
  intros Hne. pose proof (Pt_headers e Hne) as Hh. pose proof (NH_object (queryString e)) as Hq.
  unfold says_options, axios_options. rewrite auth_given_asked, eFt_data, PH_asked.
  destruct (NH (queryString e)) as [|x q], (Pt e) as [h|], (asked_credentials a) as [[u p]|], (asked_data e) as [v|];
    (split_and!; [done|done|exact Hq|exact Hh|done|done|]; intros k Hk;
     apply not_elem_of_cons in Hk as [H1 Hk]; apply not_elem_of_cons in Hk as [H2 Hk]; apply not_elem_of_cons in Hk as [H3 Hk];
     apply not_elem_of_cons in Hk as [H4 Hk]; apply not_elem_of_cons in Hk as [H5 Hk]; apply not_elem_of_cons in Hk as [H6 _];
     cbn [app object_get]; by rewrite ?(proj2 (String.eqb_neq _ _) (not_eq_sym H1)), ?(proj2 (String.eqb_neq _ _) (not_eq_sym H2)),
       ?(proj2 (String.eqb_neq _ _) (not_eq_sym H3)), ?(proj2 (String.eqb_neq _ _) (not_eq_sym H4)),
       ?(proj2 (String.eqb_neq _ _) (not_eq_sym H5)), ?(proj2 (String.eqb_neq _ _) (not_eq_sym H6))).
Qed.

(** C9. The Axios samples, of a page and of Node, say what the request is: a JS engine
    finds the import, the lines that build the form, with the names, values, file names
    and types as texts, one object of options and the call with it, and nothing else.
    The options are the method, the URL, under each name of the query its values in
    order, under each name of a header its values and the cookies, the type of a form that
    is written out, the credentials and the data; whatever the texts hold, none of it is
    code. Names that every object inherits (constructor, toString) and headers without
    a value are set apart, the body is a value of JSON.parse with finite numbers. *)
Theorem axios_sample_says_the_request e a t : plain_request e → (∀ v, asked_data e = Some v → texts v) →
  ∃ o, says_options e a o ∧
    lex js (vU t e a) = Some (code "import axios from 'axios'" ++ mjoin (setup_statements e t) ++
      code "const options =" ++ tokens js_syntax (Obj o) ++
      code "try { const { data } = await axios.request(options) console.log(data) } catch (error) { console.error(error) }").
Proof.
  intros [_ Hne] Hd. rewrite <- (eFt_data e t) in Hd. exists (axios_options e a t). split; [by apply options_said|].
  pose proof (options_texts e a t Hd) as [Ha Hc]. pose proof (setup_lines e t) as Hs.
  unfold vU. apply closed_lex.
  apply (closed_app js ("import axios from 'axios'" +:+ newline +:+ newline) _ (code "import axios from 'axios'")); [done|].
  assert (closed js (match (eFt e t).1 with [] => "" | s => String.concat newline s +:+ newline +:+ newline end) (mjoin (setup_statements e t))) as Hsetup.
  { destruct Hs as [|x ts ls tss Hx Hs]; [done|]. rewrite <- (app_nil_r (mjoin (ts :: tss))).
    apply (lex_then js); [|done|done|done]. apply (lex_lines js). by constructor. }
  apply closed_app; [exact Hsetup|].
  apply (closed_app js "const options = " _ (code "const options =")); [done|].
  apply closed_app; [by apply js_print_closed|done].
Qed.
(** ** Fetch *)

Definition fetch_cookie (h : entries) (c : pair) : entries :=
  let v := p_name c +:+ "=" +:+ p_value c in
  object_set "Set-Cookie" (Str (match object_get "Set-Cookie" h with
                                | None | Some (Str "") => v
                                | Some x => js_string x +:+ "; " +:+ v
                                end)) h.

Definition fetch_headers (e : request) : entries :=
  foldl fetch_cookie (foldl (λ h x, object_set x.1 x.2 h) [] (hU e "formData")) (cookies e).

Definition json_code (v : jv) : option jv := option_map (λ c, Verbatim (call_text "JSON.stringify" [c])) (lU v).

Definition search_params (ps : list param) : jv := Obj (fromEntries ((λ p, (pa_name p, from_option Str Undefined (pa_value p))) <$> ps)).

(** The lines before the call, and its body *)
Definition fetch_body (d : post_data) (t : target) : list string * jv :=
  match (if String.eqb (mimeType d) "application/json" then text d else None) with
  | Some (String _ _ as x) =>
      ([], match parse_json x with
           | Some v => default (Str x) (json_code v)
           | None => Str x
           end)
  | _ =>
      match (if String.eqb (mimeType d) "multipart/form-data" then params d else None) with
      | Some ps => (mU ps t "formData", Verbatim "formData")
      | None => match (if String.eqb (mimeType d) "application/x-www-form-urlencoded" then params d else None) with
                | Some ps => ([], Verbatim ("new " +:+ call_text "URLSearchParams" [js_print (search_params ps) 0]))
                | None => ([], from_option Str Undefined (text d))
                end
      end
  end.

Definition fetch_options (e : request) (t : target) : entries :=
  (if String.eqb (PH (method e)) "GET" then [] else [("method", Str (PH (method e)))]) ++
  (match fetch_headers e with [] => [] | h => [("headers", Obj h)] end) ++
  (match postData e with Some d => [("body", (fetch_body d t).2)] | None => [] end).

Definition fetch_url (e : request) : string := default "undefined" (url e) +:+ MH (queryString e).

(** aFt.generate and FFt.generate *)
Definition aFt_generate (t : target) (e : request) : string :=
  (match postData e with
   | Some d => match (fetch_body d t).1 with [] => "" | n => String.concat newline n +:+ newline +:+ newline end
   | None => ""
   end) +:+
  call_text "fetch" (("'" +:+ fetch_url e +:+ "'") ::
    match fetch_options e t with [] => [] | r => [js_print (Obj r) 0] end).

(** ** What the sample is meant to say *)

Definition fetch_setup (e : request) (t : target) : list (list token) :=
  match postData e with
  | Some (Post m x (Some ps)) =>
      if String.eqb m "multipart/form-data" then mU_statements ps t "formData" else []
  | _ => []
  end.

Definition fetch_tokens (e : request) (t : target) : list token :=
  mjoin (fetch_setup e t) ++
  call_tokens "fetch" ([Text (fetch_url e)] :: match fetch_options e t with [] => [] | r => [tokens js_syntax (Obj r)] end).

Definition js_plain (c : ascii) : bool := negb (Ascii.eqb c "'") && negb (Ascii.eqb c "\") && not_line_end c.

Lemma closed_js_plain s : sforall js_plain s = true → closed js ("'" +:+ s +:+ "'") [Text s].
Proof.
  intros H. assert (uU s = s) as E.
  { rewrite uU_once. induction s as [|c s IH]; [done|]. cbn [sforall flat_map_s] in *. apply andb_true_iff in H as [Hc Hs].
    rewrite IH by done. unfold js_plain, js_escape in *. unfold not_line_end in Hc.
    destruct (Ascii.eqb c "'"); [done|]. destruct (Ascii.eqb c "\"); [done|]. destruct (Ascii.eqb c "010"); [done|].
    by destruct (Ascii.eqb c "013"). }
  pose proof (closed_js_quoted s) as Hq. unfold js_quoted in Hq. by rewrite E in Hq.
Qed.

(** The code of a JSON body is the value in a call of JSON.stringify. *)
Lemma json_code_tokens v : texts v → container v = true →
  ∃ c, json_code v = Some (Verbatim c) ∧ lex js c = Some (call_tokens "JSON.stringify" [tokens js_syntax v]).
Proof.
  intros [Ha Hc] Hv. eexists. split; [by destruct v|]. apply closed_lex, js_call; [done|done|done|].
  constructor; [|constructor]. apply closed_lex. by apply js_print_closed.
Qed.

(** The Fetch samples, of a page and of Node, say what the request is when its URL
    holds no quote, backslash or line end: a JS engine finds the lines that build the
    form and one call, with the URL as a text and an object of options, whatever the
    texts in the options hold; the body of a JSON object or array is that value in a
    call of JSON.stringify. *)
Theorem fetch_sample_says_the_request e t : sforall js_plain (fetch_url e) = true →
  texts (Obj (fetch_options e t)) →
  lex js (aFt_generate t e) = Some (fetch_tokens e t) ∧
  (∀ d x v, postData e = Some d → mimeType d = "application/json" → text d = Some x → x ≠ "" →
     parse_json x = Some v → texts v → container v = true →
     ∃ c, object_get "body" (fetch_options e t) = Some (Verbatim c) ∧ lex js c = Some (call_tokens "JSON.stringify" [tokens js_syntax v])).
Proof.
  intros Hu [Ha Hc]. split.
  - apply closed_lex. unfold aFt_generate, fetch_tokens. apply closed_app.
    + assert (∀ n tss, Forall2 (reads_as js) n tss → closed js (match n with [] => "" | s :: l => String.concat newline (s :: l) +:+ newline +:+ newline end) (mjoin tss)) as Hgo.
      { intros n tss H. destruct H as [|x ts ls tss Hx H]; [done|]. rewrite <- (app_nil_r (mjoin (ts :: tss))).
        apply (lex_then js); [|done|done|done]. apply (lex_lines js). by constructor. }
      unfold fetch_setup. destruct (postData e) as [[m x ps]|]; [|done]. unfold fetch_body. cbn [mimeType text params].
      destruct (String.eqb_spec m "application/json") as [->|_].
      { destruct x as [[|c x]|]; [by destruct ps| |by destruct ps]. by destruct ps. }
      destruct ps as [ps|]; [destruct (String.eqb m "multipart/form-data")|].
      * apply (Hgo (mU ps t "formData")). by apply mU_lines.
      * by destruct (String.eqb m "application/x-www-form-urlencoded").
      * by destruct (String.eqb m "multipart/form-data"), (String.eqb m "application/x-www-form-urlencoded").
    + apply js_call; [done|done|done|]. constructor; [by apply closed_lex, closed_js_plain|].
      destruct (fetch_options e t) as [|x r]; [constructor|]. constructor; [|constructor].
      apply closed_lex. by apply js_print_closed.
  - intros d x v Hd Hm Hx H0 Hp Hv Hcv. destruct (json_code_tokens v Hv Hcv) as (c & Hj & Hl). exists c. split; [|done].
    unfold fetch_options. rewrite Hd. unfold fetch_body. rewrite Hm, Hx. destruct x as [|c0 x]; [done|].
    change (String.eqb "application/json" "application/json") with true. cbn [fst snd]. rewrite Hp. rewrite Hj.
    by destruct (String.eqb (PH (method e)) "GET"), (fetch_headers e).
Qed.
End samples.

Definition js_request : request :=
  Request (Some "https://api.test/it's'); alert(1") (Some "post") [Pair "X-Q" "a'b\"] [Pair "q" "1"; Pair "q" "2"] [Pair "s" "v"]
    (Some (Post "multipart/form-data" None
      (Some [Param "n" (Some "it's") None None; Param "f" None (Some "a.txt") None]))).

Lemma axios_witness : let e := js_request in
  plain_request e ∧ ∃ o q, says_options (λ _, None) e None o ∧
  object_get "params" o = Some (Obj q) ∧ object_get "q" q = Some (Arr [Str "1"; Str "2"]) ∧
  lex js (vU (λ _, None) Node e None) = Some (code "import axios from 'axios'" ++
    (code "import { readFileSync } from 'node:fs'; const formData = new FormData();" ++
     call_tokens "formData.append" [[Text "n"]; [Text "it's"]] ++ [Sign ";"] ++
     call_tokens "formData.append" [[Text "f"]; code "new File([readFileSync('a.txt')], 'a.txt', { type: 'application/octet-stream' })"] ++ [Sign ";"]) ++
    code "const options =" ++ tokens js_syntax (Obj o) ++
    code "try { const { data } = await axios.request(options) console.log(data) } catch (error) { console.error(error) }").
Proof.
  intros e. assert (plain_request e) as Hp by (split; [reflexivity|by repeat constructor]). split; [exact Hp|].
  assert (∀ v, asked_data (λ _, None) e = Some v → texts v) as H by (intros v [= <-]; done).
  destruct (axios_sample_says_the_request (λ _, None) e None Node Hp H) as (o & Ho & Hl). exists o.
  pose proof Ho as (_ & _ & [[Hq _]|(_ & q & Hq & _ & Hv)] & _); [done|]. exists q.
  split; [exact Ho|]. split; [exact Hq|]. split; [apply (Hv "q")|exact Hl].
Defined.

Definition fetch_request : request :=
  Request (Some "https://api.test/x") (Some "post") [Pair "X-Q" "it's"] [Pair "q" "1 2"] [Pair "s" "v"]
    (Some (Post "application/json" (Some "[]") None)).

Definition parse_array (t : string) : option jv := if String.eqb t "[]" then Some (Arr [Str "'"; Null]) else None.

Lemma fetch_witness : let e := fetch_request in
  sforall js_plain (fetch_url e) = true ∧ texts (Obj (fetch_options parse_array e Page)) ∧
  lex js (aFt_generate parse_array Page e) = Some (call_tokens "fetch" [[Text "https://api.test/x?q=1 2"];
    tokens js_syntax (Obj [("method", Str "POST"); ("headers", Obj [("X-Q", Str "it's"); ("Set-Cookie", Str "s=v")]);
                           ("body", Verbatim "JSON.stringify(['\'', null])")])]).
Proof.
  intros e. assert (sforall js_plain (fetch_url e) = true) as Hu by reflexivity.
  assert (texts (Obj (fetch_options parse_array e Page))) as Ho by (split; reflexivity). split; [exact Hu|]. split; [exact Ho|].
  exact (proj1 (fetch_sample_says_the_request parse_array e Page Hu Ho)).
Defined.

(** ** What the samples leave open *)

(** A quote in the URL ends the literal of the Fetch sample. *)
Lemma fetch_url_is_code :
  lex js (aFt_generate (λ _, None) Page (Request (Some "https://a.test/?q=' + document.cookie + '") None [] [] [] None)) =
  Some (call_tokens "fetch" [[Text "https://a.test/?q="; Word "+"; Word "document.cookie"; Word "+"; Text ""]]).
Proof. reflexivity. Qed.

(** The Fetch sample sends the cookies of a request in the header of a response. *)
Lemma fetch_sends_set_cookie : fetch_headers (Request None None [] [] [Pair "s" "v"; Pair "t" "w"] None) = [("Set-Cookie", Str "s=v; t=w")].
Proof. reflexivity. Qed.
