(* ===== verification/JuliaSample.v ===== *)
(** * scalar.js: the Julia sample

    [TU] writes a value as a Julia expression, [wFt_generate] the sample that sends a
    request with HTTP.jl. What [TU] writes is read by [read_julia]. Texts are ASCII;
    [JSON.parse] is a parameter. *)
From S2P Require Import Prelude Css Mime Shell Snippets Literals Parameters Objects Lex Values Wordings.
#[local] Open Scope list_scope.

(** ** Julia *)

(** A dollar in a literal begins an interpolation. *)
Definition julia_unescape (q : ascii) (e : string) : option (option string) :=
  match e with
  | String c "" => option_map (λ d, Some (one d)) (if Ascii.eqb c "$" then Some c else simple_escape c)
  | _ => None
  end.

Definition julia : lexicon := Lexicon (λ c, Ascii.eqb c DQc) (λ _ c, negb (Ascii.eqb c "$")) julia_unescape.

Definition julia_words : wording :=
  Wording [Word "nothing"] "true" "false" [] ([Sign "["], [Sign "]"]) ([Word "Dict"; Sign "("], [Sign ")"])
    [Sign "="; Sign ">"] (λ _, false) (λ _, true) (λ _, None).

Definition julia_syntax : syntax := wording_syntax julia_words.

Definition read_julia (s : string) : option (jv * list token) :=
  match lex julia s with Some ts => read_value julia_syntax ts | None => None end.

(** ** What the bundle writes *)

Definition vFt (e : string) : string :=
  replace_char "009" "\t" (replace_char "013" "\r" (replace_char "010" "\n" (replace_char "$" "\$"
    (replace_char DQc (String "\" (one DQc)) (replace_char "\" "\\" e))))).

Definition bU (e : string) : string := quote_char +:+ vFt e +:+ quote_char.

Definition xU (e : nat) (t : string) : string := spaces (e * 4) +:+ t.

(** SU: items between brackets, one per line unless there is one of one line *)
Definition SU (e : list string) (t n : string) (r : nat) : string :=
  let lines := t +:+ newline +:+ String.concat ("," +:+ newline) (xU (r + 1) <$> e) +:+ newline +:+ xU r n in
  match e with
  | [] => t +:+ n
  | [i] => if negb (String.eqb i "") && negb (includes newline i) then t +:+ i +:+ n else lines
  | _ => lines
  end.

Definition pair_item (p : string * string) : string := bU p.1 +:+ " => " +:+ bU p.2.
Definition CU (e : list (string * string)) (t : nat) : string := SU (pair_item <$> e) "[" "]" t.
Definition wU (e : list (string * string)) (t : nat) : string := SU (pair_item <$> e) "Dict(" ")" t.

(** TU *)
Fixpoint TU (e : jv) (t : nat) : string :=
  match e with
  | Undefined | Null => "nothing"
  | Bool b => if b then "true" else "false"
  | Num n => if number_text n then n else "nothing"
  | Str s => bU s
  | Arr l => SU ((λ e, TU e (t + 1)) <$> l) "[" "]" t
  | Obj l => SU ((λ x, bU x.1 +:+ " => " +:+ TU x.2 (t + 1)) <$> l) "Dict(" ")" t
  | Verbatim c => SU [bU "value" +:+ " => " +:+ bU c] "Dict(" ")" t
  end.

Section julia.
Variable parse_json : string → option jv.

Definition bFt : list string := ["POST"; "PUT"; "PATCH"; "DELETE"; "QUERY"].
Definition EU : list string := ["GET"; "HEAD"; "OPTIONS"].
Definition DU : nat := 1.

(** xFt: a part of a form *)
Definition xFt (p : param) : string :=
  match pa_fileName p with
  | None => bU (pa_name p) +:+ " => " +:+ bU (default "" (pa_value p))
  | Some f => bU (pa_name p) +:+ " => " +:+
      call_text "HTTP.Multipart" ([bU f; call_text "open" [bU f]] ++ match pa_contentType p with None | Some "" => [] | Some c => [bU c] end)
  end.

Record julia_body : Type := JuliaBody { b_value : string; b_packages : list string; b_omitContentType : bool }.

(** SFt *)
Definition SFt (d : post_data) : option julia_body :=
  let plain := match text d with None | Some "" => None | Some n => Some (JuliaBody (bU n) [] false) end in
  let forms :=
    match (if String.eqb (mimeType d) "multipart/form-data" then params d else None) with
    | Some ((_ :: _) as r) => Some (JuliaBody (SU (xFt <$> r) "HTTP.Form([" "])" DU) [] true)
    | _ => match (if String.eqb (mimeType d) "application/x-www-form-urlencoded" then params d else None) with
           | Some ((_ :: _) as r) => Some (JuliaBody (wU ((λ p, (pa_name p, default "" (pa_value p))) <$> r) DU) [] false)
           | _ => plain
           end
    end in
  match (if String.eqb (mimeType d) "application/json" then text d else None) with
  | Some (String _ _ as n) =>
      match parse_json n with
      | Some v => Some (JuliaBody (call_text "JSON.json" [TU v DU]) ["JSON"] false)
      | None => forms
      end
  | _ => forms
  end.

(** [new Map] of the headers *)
Fixpoint map_set (k v : string) (l : list (string * string)) : list (string * string) :=
  match l with
  | [] => [(k, v)]
  | (k', v') :: l' => if String.eqb k' k then (k, v) :: l' else (k', v') :: map_set k v l'
  end.

Definition julia_headers (omit : bool) (hs : list pair) : list (string * string) :=
  foldl (λ a h, if String.eqb (p_name h) "" || omit && is_content_type h then a else map_set (p_name h) (p_value h) a) [] hs.

(** The arguments of a call on lines of their own *)
Fixpoint argument_lines (l : list string) (last : string) : list string :=
  match l with
  | [] => []
  | [x] => [xU DU x +:+ last]
  | x :: l' => (xU DU x +:+ ",") :: argument_lines l' last
  end.

(** CFt *)
Definition CFt (e : string) (t n r : list string) : list string :=
  match n, r with
  | [], [] => ["response = " +:+ call_text e (t ++ n)]
  | _, _ => ("response = " +:+ e +:+ "(") :: argument_lines (t ++ n) (match r with [] => "" | _ => ";" end) ++ argument_lines r "" ++ [")"]
  end.

(** The positional arguments behind method and URL, and the keywords *)
Definition julia_arguments (e : request) (t : option credentials) : list string * list string :=
  let r := PH (method e) in
  let i := match postData e with Some d => SFt d | None => None end in
  let a := julia_headers (match i with Some b => b_omitContentType b | None => false end) (headers e) in
  let keyword := match i with
                 | Some b => if bool_decide (r ∈ EU) || match a with [] => true | _ => false end then true else false
                 | None => false
                 end in
  ((match a with [] => [] | _ => [CU a DU] end) ++
   (match i with Some b => if keyword then [] else [b_value b] | None => [] end),
   (match i with Some b => if keyword then ["body = " +:+ b_value b] else [] | None => [] end) ++
   (match queryString e with [] => [] | q => ["query = " +:+ CU ((λ p, (p_name p, p_value p)) <$> q) DU] end) ++
   (match cookies e with [] => [] | c => ["cookies = " +:+ wU ((λ p, (p_name p, p_value p)) <$> c) DU] end) ++
   (match auth_given t with Some (u, p) => ["basicauth = (" +:+ bU u +:+ ", " +:+ bU p +:+ ")"] | None => [] end)).

(** wFt.generate *)
Definition wFt_generate (e : request) (t : option credentials) : string :=
  let r := PH (method e) in
  let verb := bool_decide (r ∈ bFt ++ EU) in
  let c := bU (default "https://example.com" (url e)) in
  let i := match postData e with Some d => SFt d | None => None end in
  let '(u, d) := julia_arguments e t in
  String.concat newline
    (((λ e, "using " +:+ e) <$> ("HTTP" :: match i with Some b => b_packages b | None => [] end)) ++ [""] ++
     CFt (if verb then "HTTP." +:+ to_lower r else "HTTP.request") (if verb then [c] else [bU r; c]) u d ++
     [""; "println(String(response.body))"]).
End julia.

(** ** What is written is read *)

#[export] Instance julia_blanks : Blanks julia.
Proof. done. Qed.

#[export] Instance julia_rules : Wording_rules julia_words.
Proof. wording_rules. Qed.

#[export] Instance julia_readable : Readable julia_syntax.
Proof. exact (wording_readable julia_words). Qed.

Definition julia_escape (c : ascii) : string := if Ascii.eqb c "$" then "\$" else c_escape c.

Lemma vFt_once e : vFt e = flat_map_s julia_escape e.
Proof.
  unfold vFt, replace_char. rewrite !flat_map_flat_map. apply flat_map_ext.
  intros c. by destruct c as [[] [] [] [] [] [] [] []].
Qed.

Lemma julia_writes : writes julia DQc julia_escape.
Proof. intros c s. by destruct c as [[] [] [] [] [] [] [] []]. Qed.

Lemma closed_bU s : closed julia (bU s) [Text s].
Proof. unfold bU. rewrite vFt_once. apply (closed_text julia DQc julia_escape s); [done|apply julia_writes]. Qed.

Lemma lex_bU s : lex julia (bU s) = Some [Text s].
Proof. apply closed_lex, closed_bU. Qed.

Lemma closed_SU e t n r tss tt tn : Forall2 (reads_as julia) e tss → closed julia t tt → closed julia n tn →
  apart julia n = true → n ≠ "" → closed julia (SU e t n r) (tt ++ commas tss ++ tn).
Proof.
  intros He Ht Hn Ha H0.
  assert (closed julia (t +:+ newline +:+ String.concat ("," +:+ newline) (xU (r + 1) <$> e) +:+ newline +:+ xU r n) (tt ++ commas tss ++ tn)) as Hlines.
  { apply (closed_layout julia t newline newline _ _ (newline +:+ spaces (r * 4)) n); try done; [|apply blank_spaces].
    clear -He. induction He as [|x ts e tss Hx _ IH]; constructor; [|done]. by apply (lex_indented julia); [apply blank_spaces|]. }
  unfold SU. destruct He as [|x ts e tss Hx He]; [by apply closed_app|].
  destruct He as [|y us e tss Hy He]; [|exact Hlines]. destruct (_ && _); [|exact Hlines].
  apply closed_app; [done|]. apply lex_then; [|done..]. cbn. by rewrite app_nil_r.
Qed.

Lemma lex_pair k v ts : lex julia v = Some ts → lex julia (bU k +:+ " => " +:+ v) = Some (Text k :: Sign "=" :: Sign ">" :: ts).
Proof.
  intros Hv. apply (closed_then julia (bU k) (" => " +:+ v) [Text k] (Sign "=" :: Sign ">" :: ts)); [apply closed_bU|].
  by apply (closed_then julia " => " v [Sign "="; Sign ">"]).
Qed.

Lemma julia_number n : number_text n = true → lex julia n = Some [Word n].
Proof. intros Hn. apply lex_number; [done|]. intros c Hc. apply orb_true_iff. by left. Qed.

Lemma TU_lex e : atoms_ok julia_syntax e = true → ∀ t, lex julia (TU e t) = Some (tokens julia_syntax e).
Proof.
  induction e as [e He|l IH|l IH] using jv_nested_ind; intros Ha t.
  - destruct e as [| |b|n|s|c|l|l]; try done.
    + by destruct b.
    + cbn in *. rewrite Ha. by apply julia_number.
    + apply lex_bU.
  - rewrite Forall_forall in IH. apply closed_lex, closed_SU; try done. apply Forall2_map. intros x Hx. apply IH; [done|]. by eapply atoms_items.
  - rewrite Forall_forall in IH. apply closed_lex, (closed_SU _ "Dict(" ")" t _ [Word "Dict"; Sign "("] [Sign ")"]); try done. apply Forall2_map.
    intros x Hx. apply lex_pair, IH; [done|]. by eapply atoms_entries.
Qed.

(** The JSON body of the Julia sample is the body: a value with finite numbers is
    written so that Julia reads the value itself, whatever its texts and keys hold, dollar
    signs and line ends included. *)
Theorem julia_values_are_read_back e t : writable julia_syntax e = true → read_julia (TU e t) = Some (e, []).
Proof.
  intros Hw. unfold read_julia. rewrite TU_lex by by apply writable_atoms.
  rewrite <- (app_nil_r (tokens julia_syntax e)). by apply (read_tokens julia_syntax).
Qed.

Lemma julia_values_witness : let e := Obj [("a$b", Arr [Str "`$(x)"; Num "-1.5"; Null]); ("c", Obj [])] in
  writable julia_syntax e = true ∧ read_julia (TU e 1) = Some (e, []).
Proof.
  intros e. assert (writable julia_syntax e = true) as H by reflexivity. split; [exact H|]. exact (julia_values_are_read_back e 1 H).
Defined.

(** ** What the sample is meant to say *)

(** The names of a list once each, where they first occur, with their last values *)
Fixpoint distinct (l : list string) : list string :=
  match l with [] => [] | n :: l' => n :: List.filter (λ m, negb (String.eqb m n)) (distinct l') end.

Definition last_values (l : list pair) : list (string * string) :=
  (λ n, (n, default "" (last (values n l)))) <$> distinct (p_name <$> l).

Definition named (l : list pair) : list (string * string) := (λ p, (p_name p, p_value p)) <$> l.

Definition pair_tokens (p : string * string) : list token := [Text p.1; Sign "="; Sign ">"; Text p.2].
Definition vector_tokens (l : list (string * string)) : list token := [Sign "["] ++ commas (pair_tokens <$> l) ++ [Sign "]"].
Definition dict_tokens (l : list (string * string)) : list token := [Word "Dict"; Sign "("] ++ commas (pair_tokens <$> l) ++ [Sign ")"].

(** A part of a form: its value, or its file with the name and the content type *)
Definition form_part_tokens (p : param) : list token :=
  [Text (pa_name p); Sign "="; Sign ">"] ++
  match pa_fileName p with
  | None => [Text (default "" (pa_value p))]
  | Some f => call_tokens "HTTP.Multipart" ([[Text f]; call_tokens "open" [[Text f]]] ++
                match pa_contentType p with None | Some "" => [] | Some c => [[Text c]] end)
  end.

(** The call of the sample: positional arguments, then keywords *)
Definition julia_call (f : string) (positional keywords : list (list token)) : list token :=
  [Word f; Sign "("] ++ commas positional ++ (match keywords with [] => [] | _ => Sign ";" :: commas keywords end) ++ [Sign ")"].

Definition keyword (k : string) (ts : list token) : list token := Word k :: Sign "=" :: ts.

Section sample.
Variable parse_json : string → option jv.

(** The text of the body, unless it is empty *)
Definition asked_text (e : request) : option string :=
  match postData e with Some (Post _ (Some (String _ _ as x)) _) => Some x | _ => None end.

(** The value of a JSON text *)
Definition asked_json (e : request) : option jv :=
  match postData e, asked_text e with
  | Some (Post m _ _), Some x => if String.eqb m "application/json" then parse_json x else None
  | _, _ => None
  end.

(** The parameters of a form that has some *)
Definition asked_parts (m : string) (e : request) : list param := default [] (asked_fields m e).

(** The expression of the body: a JSON value, the parts of a multipart form, the values of a
    urlencoded one, or the text as it is *)
Definition asked_body (e : request) : option (list token) :=
  match asked_json e, asked_parts "multipart/form-data" e, asked_parts "application/x-www-form-urlencoded" e, asked_text e with
  | Some v, _, _, _ => Some (call_tokens "JSON.json" [tokens julia_syntax v])
  | None, (_ :: _) as ps, _, _ => Some ([Word "HTTP.Form"; Sign "("; Sign "["] ++ commas (form_part_tokens <$> ps) ++ [Sign "]"; Sign ")"])
  | None, [], (_ :: _) as ps, _ => Some (dict_tokens ((λ p, (pa_name p, default "" (pa_value p))) <$> ps))
  | None, [], [], x => (λ x, [Text x]) <$> x
  end.

(** The headers with a name; the form of the client brings its own content type. *)
Definition kept_header (e : request) (h : pair) : bool :=
  negb (String.eqb (p_name h) "") &&
  match asked_parts "multipart/form-data" e with [] => true | _ => negb (String.eqb (to_lower (p_name h)) "content-type") end.

Definition kept_headers (e : request) : list (string * string) := last_values (List.filter (kept_header e) (headers e)).

(** A place of the call that stays away when its list is empty *)
Definition optional {A} (f : list A → list token) (l : list A) : list (list token) := match l with [] => [] | _ => [f l] end.

(** The functions of HTTP.jl, and those of them that take no body in its place *)
Definition julia_functions : list string := ["GET"; "HEAD"; "OPTIONS"; "POST"; "PUT"; "PATCH"; "DELETE"; "QUERY"].
Definition bodyless : list string := ["GET"; "HEAD"; "OPTIONS"].

(** The tokens of the sample: the packages, the call, and what prints the answer. The body
    stands behind the headers, or is a keyword where there is no such place. *)
Definition julia_tokens (e : request) (t : option credentials) : list token :=
  let m := asked_method e in
  let url := [Text (default "https://example.com" (url e))] in
  let hs := kept_headers e in
  let place := match hs with [] => false | _ => negb (bool_decide (m ∈ bodyless)) end in
  let body := match asked_body e with Some b => [b] | None => [] end in
  let positional := url :: optional vector_tokens hs ++ (if place then body else []) in
  let keywords := (if place then [] else keyword "body" <$> body) ++
    optional (λ q, keyword "query" (vector_tokens (named q))) (queryString e) ++
    optional (λ c, keyword "cookies" (dict_tokens (named c))) (cookies e) ++
    match asked_credentials t with Some (u, p) => [keyword "basicauth" [Sign "("; Text u; Sign ","; Text p; Sign ")"]] | None => [] end in
  [Word "using"; Word "HTTP"] ++ (match asked_json e with Some _ => [Word "using"; Word "JSON"] | None => [] end) ++
  [Word "response"; Sign "="] ++
  (if bool_decide (m ∈ julia_functions) then julia_call ("HTTP." +:+ to_lower m) positional keywords
   else julia_call "HTTP.request" ([Text m] :: positional) keywords) ++
  [Word "println"; Sign "("; Word "String"; Sign "("; Word "response.body"; Sign ")"; Sign ")"].

(** ** The sample says it *)

Lemma closed_CU l t : closed julia (CU l t) (vector_tokens l).
Proof.
  apply (closed_SU _ "[" "]" t _ [Sign "["] [Sign "]"]); try done. apply Forall2_map. intros [k v] _. apply lex_pair, lex_bU.
Qed.

Lemma closed_wU l t : closed julia (wU l t) (dict_tokens l).
Proof.
  apply (closed_SU _ "Dict(" ")" t _ [Word "Dict"; Sign "("] [Sign ")"]); try done. apply Forall2_map. intros [k v] _. apply lex_pair, lex_bU.
Qed.

Lemma julia_call_lex f args tss : f ≠ "" → sforall is_word f = true → sforall (λ c, negb (is_quote julia c)) f = true →
  Forall2 (reads_as julia) args tss → closed julia (call_text f args) (call_tokens f tss).
Proof. intros. by apply closed_call. Qed.

Lemma xFt_lex p : lex julia (xFt p) = Some (form_part_tokens p).
Proof.
  unfold xFt, form_part_tokens. destruct (pa_fileName p) as [f|]; apply lex_pair; [|apply lex_bU].
  apply closed_lex, julia_call_lex; [done|done|done|].
  assert (lex julia (call_text "open" [bU f]) = Some (call_tokens "open" [[Text f]])) as Ho.
  { apply closed_lex, julia_call_lex; [done|done|done|]. repeat constructor. apply lex_bU. }
  apply Forall2_app; [repeat constructor; [apply lex_bU|exact Ho]|].
  destruct (pa_contentType p) as [[|c x]|]; repeat constructor. apply lex_bU.
Qed.

(** The headers of the sample *)
Lemma distinct_elem k l : k ∈ distinct l ↔ k ∈ l.
Proof.
  induction l as [|n l IH]; [done|]. cbn. rewrite !elem_of_cons, list_elem_of_In, filter_In, <- list_elem_of_In, IH.
  destruct (String.eqb_spec k n); naive_solver.
Qed.

Lemma distinct_NoDup l : NoDup (distinct l).
Proof.
  induction l as [|n l IH]; [constructor|]. cbn. constructor.
  - rewrite list_elem_of_In, filter_In, String.eqb_refl. by intros [].
  - by apply NoDup_ListNoDup, List.NoDup_filter, NoDup_ListNoDup.
Qed.

Lemma distinct_snoc l k : distinct (l ++ [k]) = if bool_decide (k ∈ l) then distinct l else distinct l ++ [k].
Proof.
  induction l as [|n l IH]; [done|]. cbn [distinct app]. rewrite IH. destruct (String.eqb_spec k n) as [->|Hk].
  - rewrite (bool_decide_eq_true_2 (n ∈ n :: l)) by by left. case_bool_decide; [done|].
    rewrite List.filter_app. cbn. by rewrite String.eqb_refl, app_nil_r.
  - assert (bool_decide (k ∈ n :: l) = bool_decide (k ∈ l)) as -> by (apply bool_decide_ext; set_solver).
    case_bool_decide; [done|]. rewrite List.filter_app. cbn. by rewrite (proj2 (String.eqb_neq k n)).
Qed.

Lemma map_set_known k v f d : NoDup d →
  map_set k v ((λ n, (n, f n)) <$> d) = (λ n, (n, if String.eqb k n then v else f n)) <$> (if bool_decide (k ∈ d) then d else d ++ [k]).
Proof.
  induction 1 as [|n d Hn Hd IH].
  { rewrite bool_decide_eq_false_2 by apply not_elem_of_nil. cbn. by rewrite String.eqb_refl. }
  rewrite fmap_cons. cbn [map_set fst snd].
  destruct (String.eqb_spec n k) as [->|Hk].
  - rewrite bool_decide_eq_true_2 by by left. rewrite fmap_cons, String.eqb_refl. f_equal. apply list_fmap_ext.
    intros _ x Hx%list_elem_of_lookup_2. by rewrite (proj2 (String.eqb_neq k x)) by (intros ->; done).
  - rewrite IH. assert (bool_decide (k ∈ n :: d) = bool_decide (k ∈ d)) as -> by (apply bool_decide_ext; set_solver).
    case_bool_decide; cbn [app]; rewrite fmap_cons; by rewrite (proj2 (String.eqb_neq k n)).
Qed.

Lemma map_set_last l : foldl (λ a h, map_set (p_name h) (p_value h) a) [] l = last_values l.
Proof.
  induction l as [|h l IH] using rev_ind; [done|]. rewrite foldl_snoc, IH. unfold last_values.
  rewrite map_set_known, fmap_app by apply distinct_NoDup. cbn. rewrite distinct_snoc.
  assert (bool_decide (p_name h ∈ distinct (p_name <$> l)) = bool_decide (p_name h ∈ p_name <$> l)) as ->
    by (apply bool_decide_ext, distinct_elem).
  apply list_fmap_ext. intros _ n _. rewrite values_app, values_cons. change (values n []) with (@nil string).
  destruct (String.eqb (p_name h) n); [by rewrite last_snoc|by rewrite app_nil_r].
Qed.

Lemma julia_headers_kept omit e : omit = (match asked_parts "multipart/form-data" e with [] => false | _ => true end) →
  julia_headers omit (headers e) = kept_headers e.
Proof.
  intros Ho. unfold julia_headers, kept_headers. rewrite <- map_set_last. generalize (@nil (string * string)) as a.
  induction (headers e) as [|h l IH]; intros a; [done|]. cbn [foldl List.filter]. rewrite IH.
  unfold kept_header at 2. rewrite Ho. unfold is_content_type.
  by destruct (String.eqb (p_name h) ""), (asked_parts _ e), (String.eqb (to_lower (p_name h)) "content-type").
Qed.

(** The value is JSON.parse's, with finite numbers. *)
Definition numbers_ok (e : request) : Prop := ∀ v, asked_json e = Some v → atoms_ok julia_syntax v = true.

Definition body_of (e : request) : option julia_body := match postData e with Some d => SFt parse_json d | None => None end.

(** The body that is written *)
Definition body_said (e : request) (i : option julia_body) : Prop :=
  match i with
  | Some b => ∃ ts, asked_body e = Some ts ∧ lex julia (b_value b) = Some ts ∧
      b_packages b = (match asked_json e with Some _ => ["JSON"] | None => [] end) ∧
      b_omitContentType b = (match asked_parts "multipart/form-data" e with [] => false | _ => true end)
  | None => asked_body e = None ∧ asked_json e = None ∧ asked_parts "multipart/form-data" e = []
  end.

Lemma body_lex e : numbers_ok e → body_said e (body_of e).
Proof.
  intros Hv. unfold numbers_ok in Hv. unfold body_of, body_said, SFt, asked_body, asked_json, asked_parts, asked_fields, asked_text in *.
  destruct (postData e) as [[m x ps]|]; [|done]. cbn [mimeType text params].
  assert (∀ x, lex julia (bU x) = Some [Text x]) as Hx by apply lex_bU.
  destruct (String.eqb_spec m "application/json") as [->|Hj].
  { destruct x as [[|c n]|], ps as [ps|]; cbn; try done; destruct (parse_json (String c n)) as [v|] eqn:Ep; cbn; eauto;
      (eexists; split_and!; [done| |done|done]; apply closed_lex, julia_call_lex; [done..|]; constructor; [|constructor]; by apply TU_lex, Hv). }
  assert (∀ x : option string, match match x with None | Some "" => None | Some n => Some (JuliaBody (bU n) [] false) end with
    | Some b => ∃ ts, (λ x, [Text x]) <$> (match x with Some (String _ _ as x) => Some x | _ => None end) = Some ts ∧
        lex julia (b_value b) = Some ts ∧ b_packages b = [] ∧ b_omitContentType b = false
    | None => (λ x, [Text x]) <$> (match x with Some (String _ _ as x) => Some x | _ => None end) = None ∧ @None jv = None ∧ @nil param = []
    end) as Hplain.
  { intros [[|c n]|]; cbn; eauto. }
  specialize (Hplain x).
  assert (match match x with Some (String _ _ as x0) => Some x0 | _ => None end with Some _ | _ => @None jv end = None) as Hn by by destruct x as [[|]|].
  rewrite Hn in *. clear Hn Hv. destruct (String.eqb_spec m "multipart/form-data") as [->|Hm].
  { destruct ps as [[|p ps]|]; [by destruct x as [[|]|]| |by destruct x as [[|]|]]. cbn -[commas fmap SU wU dict_tokens]. eexists. split_and!; [done| |done|done].
    apply closed_lex, (closed_SU _ "HTTP.Form([" "])" DU _ [Word "HTTP.Form"; Sign "("; Sign "["] [Sign "]"; Sign ")"]); try done.
    apply Forall2_map. intros y _. apply xFt_lex. }
  destruct (String.eqb_spec m "application/x-www-form-urlencoded") as [->|Hu].
  { destruct ps as [[|p ps]|]; [by destruct x as [[|]|]| |by destruct x as [[|]|]]. cbn -[commas fmap SU wU dict_tokens]. eexists. split_and!; [done| |done|done].
    apply closed_lex, (closed_wU (_ :: _)). }
  by destruct ps, x as [[|]|].
Qed.

(** The lines of the arguments *)
Lemma arguments_lex l tss last tl : Forall2 (reads_as julia) l tss → (last = "" ∧ tl = [] ∨ apart julia last = true ∧ last ≠ "" ∧ closed julia last tl) →
  ∃ us, Forall2 (reads_as julia) (argument_lines l last) us ∧ mjoin us = commas tss ++ (match l with [] => [] | _ => tl end).
Proof.
  intros H Hlast. induction H as [|x ts l tss Hx H IH]; [by exists []|].
  assert (lex julia (xU DU x) = Some ts) as Hi by (by apply (lex_indented julia); [apply blank_spaces|]).
  destruct H as [|y us l tss Hy H].
  - exists [ts ++ tl]. split; [|cbn; by rewrite !app_nil_r]. constructor; [|constructor]. cbn.
    destruct Hlast as [[-> ->]|(Ha & Hn & Hc)]; [by rewrite sapp_nil_r, app_nil_r|]. apply closed_lex. by apply lex_then.
  - destruct IH as (vs & Hvs & E). exists ((ts ++ [Sign ","]) :: vs). split.
    + constructor; [|exact Hvs]. apply closed_lex. by apply lex_then.
    + change (mjoin ((ts ++ [Sign ","]) :: vs)) with ((ts ++ [Sign ","]) ++ mjoin vs). rewrite E.
      change (commas (ts :: us :: tss)) with (ts ++ [Sign ","] ++ commas (us :: tss)). by rewrite <- !app_assoc.
Qed.

Lemma CFt_lex f t n r tt tn tr : f ≠ "" → sforall is_word f = true → sforall (λ c, negb (is_quote julia c)) f = true → t ≠ [] →
  Forall2 (reads_as julia) t tt → Forall2 (reads_as julia) n tn → Forall2 (reads_as julia) r tr →
  ∃ us, Forall2 (reads_as julia) (CFt f t n r) us ∧ mjoin us = [Word "response"; Sign "="] ++ julia_call f (tt ++ tn) tr.
Proof.
  intros Hf0 Hf Hfq Ht0 Ht Hn Hr.
  assert (∃ us, Forall2 (reads_as julia) (("response = " +:+ f +:+ "(") :: argument_lines (t ++ n) (match r with [] => "" | _ => ";" end) ++ argument_lines r "" ++ [")"]) us ∧
    mjoin us = [Word "response"; Sign "="] ++ julia_call f (tt ++ tn) tr) as Hlines.
  { destruct (arguments_lex (t ++ n) (tt ++ tn) (match r with [] => "" | _ => ";" end) (match tr with [] => [] | _ => [Sign ";"] end)) as (u1 & H1 & E1).
    { by apply Forall2_app. }
    { destruct Hr; [by left|by right]. }
    destruct (arguments_lex r tr "" []) as (u2 & H2 & E2); [done|by left|].
    exists ([Word "response"; Sign "="; Word f; Sign "("] :: u1 ++ u2 ++ [[Sign ")"]]). split.
    - constructor.
      + apply (closed_then julia "response = " (f +:+ "(") [Word "response"; Sign "="]); [done|]. apply closed_lex.
        by apply (lex_then julia f "(" [Word f]); [apply lex_word|..].
      + by repeat apply Forall2_app; [..|repeat constructor].
    - change (mjoin ([Word "response"; Sign "="; Word f; Sign "("] :: u1 ++ u2 ++ [[Sign ")"]])) with
        ([Word "response"; Sign "="; Word f; Sign "("] ++ mjoin (u1 ++ u2 ++ [[Sign ")"]])).
      rewrite !join_app, E1, E2. unfold julia_call. destruct t as [|x t]; [done|]. cbn [app].
      destruct Hr as [|y us r tr Hy Hr]; cbn; rewrite ?app_nil_r, <- ?app_assoc; cbn; by rewrite ?app_nil_r. }
  unfold CFt. destruct Hn as [|y us n tn Hy Hn]; [|exact Hlines]. destruct Hr as [|z vs r tr Hz Hr]; [|exact Hlines].
  exists [[Word "response"; Sign "="] ++ call_tokens f (tt ++ [])]. split.
  - constructor; [|constructor]. apply (closed_then julia "response = " (call_text f (t ++ [])) [Word "response"; Sign "="]); [done|].
    apply closed_lex, julia_call_lex; [done..|]. by apply Forall2_app.
  - cbn. by rewrite !app_nil_r.
Qed.

Lemma keyword_lex k x ts : k ≠ "" → sforall is_word k = true → sforall (λ c, negb (is_quote julia c)) k = true →
  lex julia x = Some ts → lex julia (k +:+ " = " +:+ x) = Some (keyword k ts).
Proof.
  intros Hn Hw Hq Hx. apply (lex_app julia k _ [Word k] (Sign "=" :: ts)); [by apply lex_word|done|].
  by apply (closed_then julia " = " x [Sign "="]).
Qed.

Definition julia_place (e : request) : bool :=
  match kept_headers e with [] => false | _ => negb (bool_decide (asked_method e ∈ bodyless)) end.

Definition body_list (e : request) : list (list token) := match asked_body e with Some b => [b] | None => [] end.

Definition julia_positional (e : request) : list (list token) :=
  optional vector_tokens (kept_headers e) ++ (if julia_place e then body_list e else []).

Definition julia_keywords (e : request) (t : option credentials) : list (list token) :=
  (if julia_place e then [] else keyword "body" <$> body_list e) ++
  optional (λ q, keyword "query" (vector_tokens (named q))) (queryString e) ++
  optional (λ c, keyword "cookies" (dict_tokens (named c))) (cookies e) ++
  match asked_credentials t with Some (u, p) => [keyword "basicauth" [Sign "("; Text u; Sign ","; Text p; Sign ")"]] | None => [] end.

(** The arguments of the call *)
Lemma julia_arguments_lex e t : numbers_ok e →
  Forall2 (reads_as julia) (julia_arguments parse_json e t).1 (julia_positional e) ∧
  Forall2 (reads_as julia) (julia_arguments parse_json e t).2 (julia_keywords e t).
Proof.
  intros Hv. pose proof (body_lex e Hv) as Hb. unfold julia_arguments, julia_positional, julia_keywords, julia_place, body_list. fold (body_of e).
  rewrite (julia_headers_kept _ e).
  2: { destruct (body_of e) as [b|]; cbn in Hb; [by destruct Hb as (_ & _ & _ & _ & ->)|]. by destruct Hb as (_ & _ & ->). }
  rewrite PH_asked. change (bool_decide (asked_method e ∈ EU)) with (bool_decide (asked_method e ∈ bodyless)).
  generalize (bool_decide (asked_method e ∈ bodyless)) as k. intros k. rewrite auth_given_asked. cbn [fst snd].
  assert (∀ x ts, reads_as julia x ts → Forall2 (reads_as julia) ["body = " +:+ x] [keyword "body" ts]) as Hkey.
  { intros x ts Hx. repeat constructor. by apply (keyword_lex "body" x). }
  split; repeat apply Forall2_app.
  - destruct (kept_headers e) as [|h l]; repeat constructor. apply closed_lex, closed_CU.
  - destruct (body_of e) as [b|]; cbn in Hb; [destruct Hb as (ts & -> & Hb & _)|destruct Hb as [-> _]].
    + destruct k, (kept_headers e); cbn; repeat constructor; exact Hb.
    + by destruct (kept_headers e), k.
  - destruct (body_of e) as [b|]; cbn in Hb; [destruct Hb as (ts & -> & Hb & _)|destruct Hb as [-> _]].
    + destruct k, (kept_headers e); cbn -[keyword]; try (by apply Hkey); constructor.
    + by destruct (kept_headers e), k.
  - destruct (queryString e) as [|q l]; repeat constructor.
    apply (keyword_lex "query" (CU _ DU)); [done..|]. apply closed_lex, closed_CU.
  - destruct (cookies e) as [|q l]; repeat constructor.
    apply (keyword_lex "cookies" (wU _ DU)); [done..|]. apply closed_lex, closed_wU.
  - destruct (asked_credentials t) as [[u p]|]; repeat constructor.
    apply (keyword_lex "basicauth" ("(" +:+ bU u +:+ ", " +:+ bU p +:+ ")")); [done..|]. apply closed_lex.
    apply (closed_app julia "(" _ [Sign "("]); [done|]. apply (closed_app julia (bU u) _ [Text u]); [apply closed_bU|].
    apply (closed_app julia ", " _ [Sign ","]); [done|]. by apply (closed_app julia (bU p) ")" [Text p]); [apply closed_bU|].
Qed.

(** The lines of the call *)
Lemma julia_call_lines m c u d tu td : Forall2 (reads_as julia) u tu → Forall2 (reads_as julia) d td →
  ∃ us, Forall2 (reads_as julia) (CFt (if bool_decide (m ∈ bFt ++ EU) then "HTTP." +:+ to_lower m else "HTTP.request")
      (if bool_decide (m ∈ bFt ++ EU) then [bU c] else [bU m; bU c]) u d) us ∧
    mjoin us = [Word "response"; Sign "="] ++
      (if bool_decide (m ∈ julia_functions) then julia_call ("HTTP." +:+ to_lower m) ([Text c] :: tu) td
       else julia_call "HTTP.request" ([Text m] :: [Text c] :: tu) td).
Proof.
  intros Hu Hd. assert (bool_decide (m ∈ julia_functions) = bool_decide (m ∈ bFt ++ EU)) as ->
    by (apply bool_decide_ext; unfold julia_functions, bFt, EU; set_solver).
  case_bool_decide as Hr.
  - assert (sforall is_word ("HTTP." +:+ to_lower m) = true ∧ sforall (λ c, negb (is_quote julia c)) ("HTTP." +:+ to_lower m) = true) as [H1 H2].
    { clear -Hr. cbn [bFt EU app] in Hr. repeat (apply elem_of_cons in Hr as [->|Hr]; [done|]). by apply elem_of_nil in Hr. }
    apply (CFt_lex ("HTTP." +:+ to_lower m) [bU c] u d [[Text c]] tu td); try done. repeat constructor. apply lex_bU.
  - apply (CFt_lex "HTTP.request" [bU m; bU c] u d [[Text m]; [Text c]] tu td); try done. repeat constructor; apply lex_bU.
Qed.

(** C14. The Julia sample says what the request asks for: Julia finds in it, for every
    request and credentials, one call with the method, the URL, the headers (each name
    once with its last value, in the order of the first; without a content type behind a
    multipart form, which brings its own), the body (the value of a JSON text, the parts
    of a form with their files, the values of a urlencoded one, or the text) in its place
    or as a keyword, and the query, the cookies and the credentials as keywords. The texts
    are the ones of the request: quotes, dollar signs, line ends and code in any of them
    stay in the literals. The expectation is written from the request, not with the
    generator. Assumed: the numbers of a JSON body are finite. *)
Theorem julia_sample_says_the_request e t : numbers_ok e →
  lex julia (wFt_generate parse_json e t) = Some (julia_tokens e t).
Proof.
  intros Hv. destruct (julia_arguments_lex e t Hv) as [Hu Hd]. unfold wFt_generate, julia_tokens. rewrite PH_asked. fold (body_of e).
  pose proof (body_lex e Hv) as Hb. destruct (julia_arguments parse_json e t) as [u d]. cbn [fst snd] in Hu, Hd.
  fold (julia_place e) (body_list e) (julia_keywords e t) (julia_positional e).
  destruct (julia_call_lines (asked_method e) (default "https://example.com" (url e)) u d _ _ Hu Hd) as (us & Hc & Ec).
  set (packages := match body_of e with Some b => b_packages b | None => [] end).
  assert (packages = match asked_json e with Some _ => ["JSON"] | None => [] end) as Hp.
  { unfold packages. destruct (body_of e); cbn in Hb; [by destruct Hb as (_ & _ & _ & -> & _)|by destruct Hb as (_ & -> & _)]. }
  rewrite Hp. clear Hp packages Hb.
  rewrite (lex_lines julia _ (([Word "using"; Word "HTTP"] :: match asked_json e with Some _ => [[Word "using"; Word "JSON"]] | None => [] end) ++
    [[]] ++ us ++ [[]; [Word "println"; Sign "("; Word "String"; Sign "("; Word "response.body"; Sign ")"; Sign ")"]])).
  - f_equal. rewrite !join_app, Ec. by destruct (asked_json e); cbn [mjoin list_join app]; rewrite <- ?app_assoc.
  - apply Forall2_app; [by destruct (asked_json e); repeat constructor|]. apply Forall2_app; [by repeat constructor|].
    apply Forall2_app; [exact Hc|by repeat constructor].
Qed.
End sample.

Definition julia_request : request :=
  Request (Some "https://api.test/$(run)") (Some "post") [Pair "X-Q" "old"; Pair "A" "1"; Pair "X-Q" "a`$b"] [Pair "q" "1"] [Pair "s" "v"]
    (Some (Post "application/json" (Some "[]") None)).

Definition parse_list (t : string) : option jv := if String.eqb t "[]" then Some (Arr [Str "$x"; Null]) else None.

Lemma julia_sample_witness : let e := julia_request in let t := Some (Credentials "me" "$p") in
  numbers_ok parse_list e ∧
  lex julia (wFt_generate parse_list e t) = Some (
    [Word "using"; Word "HTTP"; Word "using"; Word "JSON"; Word "response"; Sign "="] ++
    julia_call "HTTP.post" [[Text "https://api.test/$(run)"]; vector_tokens [("X-Q", "a`$b"); ("A", "1")];
        call_tokens "JSON.json" [[Sign "["; Text "$x"; Sign ","; Word "nothing"; Sign "]"]]]
      [keyword "query" (vector_tokens [("q", "1")]); keyword "cookies" (dict_tokens [("s", "v")]);
       keyword "basicauth" [Sign "("; Text "me"; Sign ","; Text "$p"; Sign ")"]] ++
    [Word "println"; Sign "("; Word "String"; Sign "("; Word "response.body"; Sign ")"; Sign ")"]).
Proof.
  intros e t. assert (numbers_ok parse_list e) as H by (intros v [= <-]; reflexivity).
  split; [exact H|]. exact (julia_sample_says_the_request parse_list e t H).
Defined.

(** ** What the sample leaves out *)

(** A value of a form with a content type is sent without it. *)
Lemma julia_drops_the_content_type p c : pa_fileName p = None →
  xFt (Param (pa_name p) (pa_value p) (pa_fileName p) (Some c)) = xFt (Param (pa_name p) (pa_value p) (pa_fileName p) None).
Proof. intros E. unfold xFt. cbn. by rewrite E. Qed.
