(* ===== verification/PythonValue.v ===== *)
(** * scalar.js: JSON values as Python

    [JSON.stringify] prints a value and [HU] rewrites the words of JSON in that text to
    those of Python; [UU] puts the lines farther in. The text is described by its lines
    ([value_lines]): each holds one bracket, word, number or text, so that a rewriting of
    the whole text is one of the lines ([gsub_lines], [HU_lines]), unless a text of the value
    looks like JSON itself ([calm]). Texts are ASCII. *)
From S2P Require Import Prelude Css Mime Shell Snippets Literals Parameters Objects Lex Values Wordings.
#[local] Open Scope list_scope.

(** ** Python *)

Definition python_unescape (q : ascii) (e : string) : option (option string) :=
  match e with
  | String "u" h => unicode_escape h
  | String c "" =>
      match control_escape c with
      | Some d => Some (Some (one d))
      | None => if existsb (Ascii.eqb c) ["034"; "'"; "\"]%char then Some (Some (one c)) else None
      end
  | _ => None
  end.

Definition python : lexicon :=
  Lexicon (λ c, Ascii.eqb c "'" || Ascii.eqb c DQc) (λ _, not_line_end) python_unescape.

Definition python_words : wording :=
  Wording [Word "None"] "True" "False" [] ([Sign "["], [Sign "]"]) ([Sign "{"], [Sign "}"]) [Sign ":"]
    (λ _, false) (λ _, true) (λ _, None).

Definition python_syntax : syntax := wording_syntax python_words.

Definition read_python (s : string) : option (jv * list token) :=
  match lex python s with Some ts => read_value python_syntax ts | None => None end.

(** ** JSON.stringify(v, null, 2)

    The lines of a value: what is in front, what the line holds, what is behind. The value
    has no undefined parts. [word]: what is written for a value that is no array or object *)
Definition line : Type := string * string * string.
Definition render (f : line) : string := f.1.1 +:+ f.1.2 +:+ f.2.

Definition json_word (e : jv) : string :=
  match e with
  | Str s => json_string s
  | Num n => if number_text n then n else "null"
  | Bool b => if b then "true" else "false"
  | _ => "null"
  end.

(** Commas behind all but the last *)
Fixpoint between (l : list (string → list line)) : list line :=
  match l with [] => [] | [f] => f "" | f :: l' => f "," ++ between l' end.

Section value_lines.
Variable word : jv → string.

Fixpoint value_lines (v : jv) (i : nat) (p s : string) : list line :=
  match v with
  | Arr [] => [(p, "[]", s)]
  | Arr l => [(p, "[", "")] ++ between ((λ x, value_lines x (i + 2) (spaces (i + 2))) <$> l) ++ [(spaces i, "]", s)]
  | Obj [] => [(p, "{}", s)]
  | Obj l => [(p, "{", "")] ++ between ((λ x, value_lines x.2 (i + 2) (spaces (i + 2) +:+ json_string x.1 +:+ ": ")) <$> l) ++ [(spaces i, "}", s)]
  | _ => [(p, word v, s)]
  end.
End value_lines.

Definition text_of (l : list line) : string := String.concat newline (render <$> l).
Definition stringify2 (v : jv) : string := text_of (value_lines json_word v 0 "" "").

(** ** HU, UU *)

(** [s.replace(new RegExp(.., "gm"), ..)]: [m] is given whether a line starts here and the text, and says how
    many characters are replaced by what; [skip]: characters of a match that are left *)
Fixpoint gsub (m : bool → string → option (nat * string)) (start : bool) (skip : nat) (s : string) : string :=
  match s with
  | "" => ""
  | String c s' =>
      match skip with
      | S k => gsub m (Ascii.eqb c "010") k s'
      | O => match m start s with
             | Some (S k, r) => r +:+ gsub m (Ascii.eqb c "010") k s'
             | _ => String c (gsub m (Ascii.eqb c "010") O s')
             end
      end
  end.

(** [(?=,|\n)] *)
Definition followed (s : string) : bool := match s with String c _ => Ascii.eqb c "," || Ascii.eqb c "010" | "" => false end.

(** [(: )word(?=,|\n)] *)
Definition after_colon (w r : string) (start : bool) (s : string) : option (nat * string) :=
  match strip_prefix (": " +:+ w) s with
  | Some t => if followed t then Some (2 + String.length w, ": " +:+ r)%nat else None
  | None => None
  end.

(** The spaces in front *)
Fixpoint span_spaces (s : string) : nat * string :=
  match s with String " " s' => let '(n, r) := span_spaces s' in (S n, r) | _ => (O, s) end.

(** [^( +)word(?=,|\n)] *)
Definition on_line (w r : string) (start : bool) (s : string) : option (nat * string) :=
  if start then
    match span_spaces s with
    | (S n, t) =>
        match strip_prefix w t with
        | Some u => if followed u then Some (S n + String.length w, spaces (S n) +:+ r)%nat else None
        | None => None
        end
    | _ => None
    end
  else None.

Definition python_names : list (string * string) := [("true", "True"); ("false", "False"); ("null", "None")].

Definition HU (e : string) : string :=
  foldl (λ n x, gsub (on_line x.1 x.2) true 0 (gsub (after_colon x.1 x.2) true 0 n)) e python_names.

(** The lines of a value, but the first, indented; then the words *)
Definition UU (e : jv) (t : nat) : string := HU (String.concat (newline +:+ spaces t) (split_on "010" (stringify2 e))).

Example UU_shows : UU (Obj [("a", Bool true); ("b", Arr [Null; Num "1"])]) 4 =
  template ["{"; "      `a`: True,"; "      `b`: ["; "        None,"; "        1"; "      ]"; "    }"].
Proof. vm_compute. reflexivity. Qed.

(** A text that holds a JSON word behind a colon is changed. *)
Example UU_changes_texts : UU (Obj [("note", Str "is it: true, or not")]) 0 =
  template ["{"; "  `note`: `is it: True, or not`"; "}"].
Proof. vm_compute. reflexivity. Qed.

(** ** Rewriting a text

    [gsub] leaves what nothing matches in. *)

Definition quiet (m : bool → string → option (nat * string)) (st : bool) (a rest : string) : Prop :=
  ∀ u v, a = u +:+ v → v ≠ "" → m (if String.eqb u "" then st else false) (v +:+ rest) = None.

Definition state_behind (st : bool) (a : string) : bool := if String.eqb a "" then st else false.

Lemma gsub_quiet m a : ∀ st rest, lacks "010" a = true → quiet m st a rest →
  gsub m st 0 (a +:+ rest) = a +:+ gsub m (state_behind st a) 0 rest.
Proof.
  induction a as [|c a IH]; intros st rest Hl Hq; [done|].
  change (String c a +:+ rest) with (String c (a +:+ rest)). cbn [gsub].
  pose proof (Hq "" (String c a) eq_refl ltac:(done)) as H0. cbn [String.eqb] in H0. change (String c a +:+ rest) with (String c (a +:+ rest)) in H0. rewrite H0.
  unfold lacks in Hl. cbn [sforall] in Hl. apply andb_prop in Hl as [Hc Hl]. apply negb_true_iff in Hc. rewrite Hc.
  rewrite IH; [|done|].
  - change (String c a +:+ ?x) with (String c (a +:+ x)). f_equal. f_equal. unfold state_behind. by destruct (String.eqb a "").
  - intros u v -> Hv. pose proof (Hq (String c u) v eq_refl Hv) as H. cbn [String.eqb] in H. by destruct (String.eqb u "").
Qed.

Lemma gsub_skip m n : ∀ st a rest, lacks "010" a = true → String.length a = S n →
  gsub m st (S n) (a +:+ rest) = gsub m false 0 rest.
Proof.
  induction n as [|n IH]; intros st [|c a] rest Hl Hn; try done; cbn in Hn; injection Hn as Hn;
    unfold lacks in Hl; cbn [sforall] in Hl; apply andb_prop in Hl as [Hc Hl]; apply negb_true_iff in Hc;
    change (String c a +:+ rest) with (String c (a +:+ rest)); cbn [gsub]; rewrite Hc.
  - by destruct a.
  - by apply IH.
Qed.

Lemma gsub_match m st a r rest : a ≠ "" → lacks "010" a = true → m st (a +:+ rest) = Some (String.length a, r) →
  gsub m st 0 (a +:+ rest) = r +:+ gsub m false 0 rest.
Proof.
  destruct a as [|c a]; [done|]. intros _ Hl Hm. unfold lacks in Hl. cbn [sforall] in Hl. apply andb_prop in Hl as [Hc Hl].
  apply negb_true_iff in Hc. change (String c a +:+ rest) with (String c (a +:+ rest)) in *. cbn [gsub]. rewrite Hm. cbn [String.length]. rewrite Hc. f_equal.
  destruct a as [|d a]; [done|]. by apply gsub_skip.
Qed.

(** A line end is left, and a line starts behind it. *)
Lemma gsub_newline m st s : m st (newline +:+ s) = None → gsub m st 0 (newline +:+ s) = newline +:+ gsub m true 0 s.
Proof. intros H. change (newline +:+ s) with (String "010" s) in *. cbn [gsub]. by rewrite H. Qed.

(** ** What a line may hold *)

(** Characters that are in no match *)
Definition simple_char (c : ascii) : bool := negb (existsb (Ascii.eqb c) [":"; " "; ","; "010"; "034"]%char).
Definition simple (b : string) : bool := sforall simple_char b.

(** The text has no JSON word between a colon with a blank and a comma. *)
Definition calm (s : string) : bool :=
  forallb (λ x, negb (includes (": " +:+ x.1 +:+ ",") (json_string s))) python_names.

Definition is_prefix (p : string) : Prop := (∃ n, p = spaces n) ∨ ∃ n k, p = spaces n +:+ json_string k +:+ ": " ∧ calm k = true.
Definition is_body (b : string) : Prop := simple b = true ∧ b ≠ "" ∨ ∃ x, b = json_string x ∧ calm x = true.

Definition line_ok (f : line) : Prop := is_prefix f.1.1 ∧ is_body f.1.2 ∧ (f.2 = "" ∨ f.2 = ",").

Lemma lacks_join c a b : lacks c (a +:+ b) = lacks c a && lacks c b.
Proof. apply sforall_app. Qed.

Lemma json_one_line s : lacks "010" (json_string s) = true.
Proof.
  unfold json_string. rewrite !lacks_join. cbn [andb]. rewrite andb_true_r. change (lacks "010" quote_char) with true. cbn [andb].
  induction s as [|c s IH]; [done|]. cbn [flat_map_s]. rewrite lacks_join, IH, andb_true_r. by destruct c as [[] [] [] [] [] [] [] []].
Qed.

Lemma spaces_one_line n : lacks "010" (spaces n) = true.
Proof. induction n as [|n IH]; [done|exact IH]. Qed.

Lemma simple_one_line b : simple b = true → lacks "010" b = true.
Proof.
  unfold simple, lacks. apply sforall_impl. intros c. by destruct c as [[] [] [] [] [] [] [] []].
Qed.

Lemma body_one_line b : is_body b → lacks "010" b = true.
Proof. intros [[Hb _]|(x & -> & _)]; [by apply simple_one_line|apply json_one_line]. Qed.

Lemma prefix_one_line p : is_prefix p → lacks "010" p = true.
Proof.
  intros [[n ->]|(n & k & -> & _)]; [apply spaces_one_line|]. by rewrite !lacks_join, spaces_one_line, json_one_line.
Qed.

(** ** Words behind a colon *)

(** Two ways to cut a text *)
Lemma cut_cases a b c d : a +:+ b = c +:+ d → (∃ e, a = c +:+ e ∧ d = e +:+ b) ∨ (∃ e, c = a +:+ e ∧ b = e +:+ d ∧ e ≠ "").
Proof.
  revert c. induction a as [|x a IH]; intros [|y c] H.
  - left. by exists "".
  - right. by exists (String y c).
  - left. by exists (String x a).
  - change (String x (a +:+ b) = String y (c +:+ d)) in H. injection H as -> H.
    destruct (IH c H) as [(e & -> & ->)|(e & -> & -> & He)]; [left|right]; by exists e.
Qed.

(** The words that are looked for *)
Definition is_name (w : string) : Prop := ∃ r, (w, r) ∈ python_names.

Lemma name_simple w : is_name w → simple w = true ∧ w ≠ "".
Proof. intros [r Hr]. repeat (apply elem_of_cons in Hr as [[= -> ->]|Hr]; [done|]). by apply elem_of_nil in Hr. Qed.

Lemma name_calm w s : is_name w → calm s = true → includes (": " +:+ w +:+ ",") (json_string s) = false.
Proof.
  intros [r Hr] Hs. unfold calm in Hs. rewrite forallb_forall in Hs. apply negb_true_iff, (Hs (w, r)), list_elem_of_In, Hr.
Qed.

Lemma after_colon_Some w r st s x : after_colon w r st s = Some x →
  ∃ t, s = (": " +:+ w) +:+ t ∧ followed t = true ∧ x = (2 + String.length w, ": " +:+ r)%nat.
Proof.
  unfold after_colon. destruct (strip_prefix (": " +:+ w) s) as [t|] eqn:E; [|done]. apply strip_prefix_Some in E.
  destruct (followed t) eqn:F; [|done]. intros [= <-]. by exists t.
Qed.

Lemma no_colon_quiet w r a st rest : sforall (λ c, negb (Ascii.eqb c ":")) a = true → quiet (after_colon w r) st a rest.
Proof.
  intros Ha u v -> Hv. destruct v as [|c v]; [done|]. rewrite sforall_app in Ha. cbn [sforall] in Ha.
  apply andb_prop in Ha as [_ [Hc _]%andb_prop]. apply negb_true_iff in Hc.
  destruct (after_colon w r _ _) as [x|] eqn:E; [|done]. apply after_colon_Some in E as (t & E & _). injection E as Hc2 _. by subst c.
Qed.

Lemma simple_no p b : simple b = true → (∀ c, simple_char c = true → p c = true) → sforall p b = true.
Proof. intros Hb Hp. revert Hb. by apply sforall_impl. Qed.

Lemma followed_line c t : followed (String c t) = true → c = ","%char ∨ c = "010"%char.
Proof. cbn. intros [->%Ascii.eqb_eq| ->%Ascii.eqb_eq]%orb_prop; auto. Qed.

(** Within a text nothing matches. *)
Lemma text_quiet w r x st rest : is_name w → calm x = true → quiet (after_colon w r) st (json_string x) rest.
Proof.
  intros Hw Hx u v Hu Hv. destruct (after_colon w r _ _) as [y|] eqn:E; [|done]. exfalso.
  apply after_colon_Some in E as (t & E & Ht & _). destruct (name_simple w Hw) as [Hs _].
  assert (∃ v1, v = v1 +:+ quote_char) as [v1 ->].
  { unfold json_string in Hu. rewrite <- sapp_assoc in Hu. apply cut_cases in Hu as [(e & H1 & ->)|(e & _ & H2 & He)]; [by exists e|].
    destruct e as [|c [|d e]]; [done| |done]. injection H2 as _ H3. by destruct v. }
  assert (json_string x = u +:+ v1 +:+ quote_char) as HJ by exact Hu.
  rewrite sapp_assoc in E. apply cut_cases in E as [(e & -> & ->)|(e & H1 & H2 & He)].
  - destruct e as [|c e]; [done|]. apply followed_line in Ht as [->| ->].
    + assert (includes (": " +:+ w +:+ ",") (json_string x) = true) as Hi; [|by rewrite (name_calm w x Hw Hx) in Hi].
      apply includes_spec. exists u, (e +:+ quote_char). rewrite HJ, !sapp_assoc. done.
    + pose proof (json_one_line x) as Hl. rewrite HJ, !lacks_join in Hl. unfold lacks in Hl. cbn in Hl. by rewrite !andb_false_r in Hl.
  - destruct e as [|c e]; [done|]. injection H2 as <- _.
    assert (sforall (λ c, negb (Ascii.eqb c "034")) (": " +:+ w) = true) as Hq.
    { rewrite sforall_app. cbn [sforall]. apply (simple_no _ w Hs). intros c. by destruct c as [[] [] [] [] [] [] [] []]. }
    rewrite H1, sforall_app in Hq. cbn in Hq. by rewrite andb_false_r in Hq.
Qed.

(** What follows what a line holds *)
Definition line_end (z : string) : Prop := z = "" ∨ followed z = true.

(** The word is there when the line holds it, and when something follows. *)
Lemma body_match w b z t : is_name w → is_body b → line_end z → strip_prefix w (b +:+ z) = Some t → followed t = true → b = w ∧ t = z.
Proof.
  intros Hw Hb Hz E Ht. destruct (name_simple w Hw) as [Hs Hn]. apply strip_prefix_Some in E.
  apply cut_cases in E as [(e & -> & ->)|(e & -> & -> & He)].
  - destruct e as [|c e]; [by rewrite sapp_nil_r|]. exfalso. destruct Hb as [[Hb _]|(x & Hb & _)].
    + unfold simple in Hb. rewrite sforall_app in Hb. cbn [sforall] in Hb. apply andb_prop in Hb as [_ [Hc _]%andb_prop].
      by apply followed_line in Ht as [->| ->].
    + destruct w as [|c' w]; [done|]. injection Hb as -> _. done.
  - exfalso. destruct e as [|c e]; [done|]. unfold simple in Hs. rewrite sforall_app in Hs. cbn [sforall] in Hs.
    apply andb_prop in Hs as [_ [Hc _]%andb_prop]. destruct Hz as [Hz|Hz]; [done|]. by apply followed_line in Hz as [->| ->].
Qed.

(** ** A line after the other *)

Definition is_blank (p : string) : bool := sforall (Ascii.eqb " ") p.

(** The word of a line, behind a key or behind spaces alone *)
Definition key_step (w r : string) (f : line) : line := (f.1.1, if negb (is_blank f.1.1) && String.eqb f.1.2 w then r else f.1.2, f.2).
Definition item_step (w r : string) (f : line) : line :=
  (f.1.1, if is_blank f.1.1 && negb (String.eqb f.1.1 "") && String.eqb f.1.2 w then r else f.1.2, f.2).

Lemma spaces_blank n : is_blank (spaces n) = true.
Proof. induction n as [|n IH]; [done|exact IH]. Qed.

Lemma key_not_blank n k t : is_blank (spaces n +:+ json_string k +:+ t) = false.
Proof. unfold is_blank. rewrite sforall_app. cbn. by rewrite andb_false_r. Qed.

Lemma colon_state w r k : ∀ st st' s, gsub (after_colon w r) st k s = gsub (after_colon w r) st' k s.
Proof.
  intros st st' s. revert st st' k. induction s as [|c s IH]; intros st st' [|k]; [done..|].
  cbn [gsub]. by change (after_colon w r st (String c s)) with (after_colon w r st' (String c s)).
Qed.

Lemma blank_quiet w r n st rest : quiet (after_colon w r) st (spaces n) rest.
Proof. apply no_colon_quiet. induction n as [|n IH]; [done|exact IH]. Qed.

(** What is behind a line *)
Definition tail_ok (rest : string) : Prop := rest = "" ∨ ∃ t, rest = newline +:+ t.

Lemma end_ok f rest : line_ok f → tail_ok rest → line_end (f.2 +:+ rest).
Proof. intros (_ & _ & [->| ->]) [->|[t ->]]; [by left|by right..]. Qed.

Lemma body_quiet w r b st rest : is_name w → is_body b → quiet (after_colon w r) st b rest.
Proof.
  intros Hw [[Hb _]|(x & -> & Hx)]; [|by apply text_quiet]. apply no_colon_quiet. apply (simple_no _ b Hb).
  intros c. by destruct c as [[] [] [] [] [] [] [] []].
Qed.

(** A part of a line in which nothing matches *)
Lemma colon_pass w r a st rest : lacks "010" a = true → quiet (after_colon w r) st a rest →
  gsub (after_colon w r) st 0 (a +:+ rest) = a +:+ gsub (after_colon w r) true 0 rest.
Proof. intros Ha Hq. rewrite gsub_quiet by done. by rewrite (colon_state w r 0 _ true). Qed.

Lemma body_rest w r b s rest : is_name w → is_body b → s = "" ∨ s = "," →
  gsub (after_colon w r) true 0 (b +:+ s +:+ rest) = b +:+ s +:+ gsub (after_colon w r) true 0 rest.
Proof.
  intros Hw Hb Hs. rewrite colon_pass; [|by apply body_one_line|by apply body_quiet]. f_equal.
  by destruct Hs as [->| ->]; [|apply (colon_pass w r ","); [|apply no_colon_quiet]].
Qed.

Lemma key_line w r f rest st : is_name w → line_ok f → tail_ok rest → (f.1.2 = w → f.2 = "," ∨ rest ≠ "") →
  gsub (after_colon w r) st 0 (render f +:+ rest) = render (key_step w r f) +:+ gsub (after_colon w r) true 0 rest.
Proof.
  intros Hw Hf Hr Hlast. pose proof (end_ok f rest Hf Hr) as Hz. destruct f as [[p b] s], Hf as (Hp & Hb & Hs).
  unfold render, key_step. cbn [fst snd] in *. rewrite !sapp_assoc. destruct Hp as [[n ->]|(n & k & -> & Hk)].
  - rewrite spaces_blank, colon_pass; [|apply spaces_one_line|apply blank_quiet]. f_equal. by apply body_rest.
  - rewrite key_not_blank. cbn [negb andb]. rewrite !sapp_assoc. rewrite colon_pass; [|apply spaces_one_line|apply blank_quiet]. f_equal.
    rewrite colon_pass; [|apply json_one_line|by apply text_quiet]. f_equal.
    destruct (String.eqb_spec b w) as [->|Hne].
    + assert (followed (s +:+ rest) = true) as Hfol.
      { destruct (Hlast eq_refl) as [->|Hn]; [done|]. destruct Hr as [->|[t ->]]; [done|]. by destruct Hs as [->| ->]. }
      rewrite <- (sapp_assoc ": " w), (gsub_match _ true (": " +:+ w) (": " +:+ r)); [|done| |].
      * rewrite sapp_assoc. do 2 f_equal. rewrite (colon_state w r 0 _ true).
        by destruct Hs as [->| ->]; [|apply (colon_pass w r ","); [|apply no_colon_quiet]].
      * rewrite lacks_join. cbn [andb]. by apply simple_one_line, name_simple.
      * unfold after_colon. rewrite strip_prefix_app, Hfol. reflexivity.
    + rewrite colon_pass; [|done|]; [f_equal; by apply body_rest|].
      intros u v Hu Hv. destruct (after_colon w r _ _) as [x|] eqn:E; [|done]. exfalso. apply after_colon_Some in E as (t & E & Ht & _).
      destruct u as [|c u]; [|injection Hu as _ Hu; destruct u as [|c' u]; [|injection Hu as _ Hu; by destruct u, v]].
      * change (": " = v) in Hu. subst v. apply (f_equal (strip_prefix ": ")) in E.
        rewrite sapp_assoc, !strip_prefix_app in E. injection E as E.
        destruct (body_match w b (s +:+ rest) t Hw Hb Hz) as [-> _]; [by rewrite E, strip_prefix_app|done|done].
      * change (" " = v) in Hu. by subst v.
Qed.

(** ** Words behind spaces *)

Lemma on_line_quiet w r a rest : lacks "010" a = true → gsub (on_line w r) false 0 (a +:+ rest) = a +:+ gsub (on_line w r) false 0 rest.
Proof.
  intros Ha. rewrite gsub_quiet; [|done|]; [unfold state_behind; by destruct (String.eqb a "")|].
  intros u v _ _. by destruct (String.eqb u "").
Qed.

(** Nothing at the start of a line: nothing on the line *)
Lemma on_line_none w r a rest : lacks "010" a = true → a ≠ "" → on_line w r true (a +:+ rest) = None →
  gsub (on_line w r) true 0 (a +:+ rest) = a +:+ gsub (on_line w r) false 0 rest.
Proof.
  intros Ha Hn H. rewrite gsub_quiet; [unfold state_behind; by destruct a|done|].
  intros u v -> _. destruct (String.eqb_spec u "") as [->|_]; [exact H|done].
Qed.

Definition starts_blank (s : string) : bool := match s with String " " _ => true | _ => false end.

Lemma span_spaces_app n s : starts_blank s = false → span_spaces (spaces n +:+ s) = (n, s).
Proof.
  intros Hs. induction n as [|n IH].
  - change (spaces 0 +:+ s) with s. destruct s as [|c s]; [done|]. cbn in *. by destruct c as [[] [] [] [] [] [] [] []].
  - change (spaces (S n) +:+ s) with (String " " (spaces n +:+ s)). cbn [span_spaces]. by rewrite IH.
Qed.

Lemma body_not_blank b z : is_body b → starts_blank (b +:+ z) = false ∧ b ≠ "".
Proof.
  intros [[Hb Hn]|(x & -> & _)]; [|done]. destruct b as [|c b]; [done|]. split; [|done].
  unfold simple in Hb. cbn [sforall] in Hb. apply andb_prop in Hb as [Hc _]. by destruct c as [[] [] [] [] [] [] [] []].
Qed.

Lemma item_line w r f rest : is_name w → line_ok f → tail_ok rest → (f.1.2 = w → f.2 = "," ∨ rest ≠ "") →
  gsub (on_line w r) true 0 (render f +:+ rest) = render (item_step w r f) +:+ gsub (on_line w r) false 0 rest.
Proof.
  intros Hw Hf Hr Hlast. pose proof (end_ok f rest Hf Hr) as Hz. destruct f as [[p b] s], Hf as (Hp & Hb & Hs).
  unfold render, item_step. cbn [fst snd] in *.
  assert (lacks "010" (p +:+ b +:+ s) = true) as Hl.
  { rewrite !lacks_join, (body_one_line b Hb), (prefix_one_line p Hp). by destruct Hs as [->| ->]. }
  destruct (body_not_blank b (s +:+ rest) Hb) as [Hbb Hbn].
  assert (p +:+ b +:+ s ≠ "") as Hn by (destruct p; [by destruct b|done]).
  destruct Hp as [[n ->]|(n & k & -> & Hk)].
  - rewrite spaces_blank. cbn [andb]. destruct (String.eqb_spec (spaces n) "") as [E|Hn0]; cbn [negb andb].
    { apply on_line_none; [done..|]. rewrite !sapp_assoc. unfold on_line. by rewrite E, (span_spaces_app 0). }
    destruct n as [|n]; [done|]. destruct (String.eqb_spec b w) as [->|Hne].
    + assert (followed (s +:+ rest) = true) as Hfol.
      { destruct (Hlast eq_refl) as [->|Hx]; [done|]. destruct Hr as [->|[t ->]]; [done|]. by destruct Hs as [->| ->]. }
      rewrite !sapp_assoc, <- (sapp_assoc (spaces (S n)) w), (gsub_match _ true (spaces (S n) +:+ w) (spaces (S n) +:+ r)); [|done| |].
      * rewrite sapp_assoc. do 2 f_equal. apply on_line_quiet. by destruct Hs as [->| ->].
      * rewrite lacks_join, spaces_one_line. by apply simple_one_line, name_simple.
      * rewrite sapp_assoc. unfold on_line. rewrite span_spaces_app by done. rewrite strip_prefix_app, Hfol.
        rewrite slength_app. do 3 f_equal. clear. induction n as [|n IH]; [done|]. cbn in *. by injection IH as <-.
    + apply on_line_none; [done..|]. rewrite !sapp_assoc. unfold on_line. rewrite span_spaces_app by done.
      destruct (strip_prefix w _) as [t|] eqn:E; [|done]. destruct (followed t) eqn:F; [|done].
      by destruct (body_match w b (s +:+ rest) t Hw Hb Hz E F).
  - rewrite key_not_blank. cbn [andb]. apply on_line_none; [done..|]. rewrite !sapp_assoc. unfold on_line. rewrite span_spaces_app by done.
    destruct n as [|n]; [done|]. destruct (strip_prefix w _) as [t|] eqn:E; [|done]. exfalso. apply strip_prefix_Some in E.
    destruct (name_simple w Hw) as [Hs0 Hn0]. destruct w as [|c w]; [done|]. injection E as <- _. done.
Qed.

(** ** The lines of a text *)

(** The last line holds none of the words. *)
Definition ends_well (l : list line) : Prop := ∀ f, last l = Some f → ∀ w, is_name w → f.1.2 ≠ w.

Lemma text_of_cons f g l : text_of (f :: g :: l) = render f +:+ newline +:+ text_of (g :: l).
Proof. unfold text_of. rewrite !fmap_cons. by rewrite concat_cons. Qed.

Lemma gsub_lines m step l : (∀ s, m false (newline +:+ s) = None) →
  (∀ f rest, f ∈ l → tail_ok rest → (∀ w, is_name w → f.1.2 = w → f.2 = "," ∨ rest ≠ "") →
    gsub m true 0 (render f +:+ rest) = render (step f) +:+ gsub m false 0 rest) →
  ends_well l → gsub m true 0 (text_of l) = text_of (step <$> l).
Proof.
  intros Hm Hl He. induction l as [|f l IH]; [done|]. destruct l as [|g l].
  - change (text_of [f]) with (render f). change (text_of (step <$> [f])) with (render (step f)).
    rewrite <- (sapp_nil_r (render f)), Hl; [by rewrite sapp_nil_r|left|by left|]. intros w Hw E. by destruct (He f eq_refl w Hw).
  - rewrite !fmap_cons, !text_of_cons, Hl; [|left|right; by eexists|by right]. f_equal.
    rewrite gsub_newline by done. f_equal. rewrite <- fmap_cons. apply IH; [|exact He].
    intros h rest Hh. apply Hl. by right.
Qed.

(** A word of JSON alone in a line *)
Definition set_body (w r : string) (f : line) : line := (f.1.1, if String.eqb f.1.2 w then r else f.1.2, f.2).

Record fine (l : list line) : Prop := Fine {
  fine_lines : Forall line_ok l;
  fine_end : ends_well l;
  fine_start f w : f ∈ l → is_name w → f.1.1 = "" → f.1.2 ≠ w }.

(** What the word is written as is a body and no word of JSON. *)
Definition python_name (r : string) : Prop := is_body r ∧ ∀ w, is_name w → r ≠ w.

Lemma names_python w r : (w, r) ∈ python_names → is_name w ∧ python_name r.
Proof.
  intros H. split; [by exists r|].
  assert (∀ w', is_name w' → w' = "true" ∨ w' = "false" ∨ w' = "null") as Hn.
  { intros w' [r' Hr]. repeat (apply elem_of_cons in Hr as [[= -> ->]|Hr]; [auto|]). by apply elem_of_nil in Hr. }
  repeat (apply elem_of_cons in H as [[= -> ->]|H];
    [split; [by left|intros w' [-> | [-> | ->]]%Hn; discriminate]|]). by apply elem_of_nil in H.
Qed.

Lemma fine_step w r g l : python_name r → (∀ f, f ∈ l → g f = f ∨ g f = set_body w r f) → fine l → fine (g <$> l).
Proof.
  intros [Hb Hr] Hg [Hl He Hs]. split.
  - rewrite Forall_fmap, Forall_forall in *. intros f Hf. specialize (Hl f Hf). unfold compose.
    destruct (Hg f Hf) as [-> | ->]; [done|]. destruct Hl as (Hp & Hf2 & Hc). unfold set_body. split_and!; cbn [fst snd]; [done| |done].
    by destruct (String.eqb f.1.2 w).
  - intros f E v Hv. rewrite fmap_last in E. destruct (last l) as [h|] eqn:El; [|done]. injection E as <-.
    pose proof (last_Some_elem_of _ _ El) as Hh. destruct (Hg h Hh) as [-> | ->]; [by apply (He h El)|].
    cbn. destruct (String.eqb h.1.2 w); [by apply Hr|by apply (He h El)].
  - intros f v (h & -> & Hh)%list_elem_of_fmap Hv. destruct (Hg h Hh) as [-> | ->]; [by apply Hs|]. cbn. intros H0.
    destruct (String.eqb h.1.2 w); [by apply Hr|by apply Hs].
Qed.

Lemma word_lines w r l : is_name w → python_name r → fine l →
  gsub (on_line w r) true 0 (gsub (after_colon w r) true 0 (text_of l)) = text_of (set_body w r <$> l).
Proof.
  intros Hw Hr Hl.
  assert (fine (key_step w r <$> l)) as Hk.
  { apply (fine_step w r); [done| |done]. intros f _. unfold key_step, set_body. destruct (negb _); [by right|left; by destruct f as [[] ]]. }
  rewrite (gsub_lines (after_colon w r) (key_step w r)); [|done| |apply Hl].
  2: { intros f rest Hf Hrest Hlast. rewrite key_line; [by rewrite (colon_state w r 0 _ false)|done| |done|by apply Hlast].
       by apply (proj1 (Forall_forall _ _) (fine_lines l Hl)). }
  rewrite (gsub_lines (on_line w r) (item_step w r)); [|done| |apply Hk].
  2: { intros f rest Hf Hrest Hlast. apply item_line; [done| |done|by apply Hlast].
       by apply (proj1 (Forall_forall _ _) (fine_lines _ Hk)). }
  f_equal. rewrite <- list_fmap_compose. apply list_fmap_ext. intros k f Hf%list_elem_of_lookup_2. unfold compose, key_step, item_step, set_body.
  cbn [fst snd]. destruct (String.eqb_spec f.1.2 w) as [E|Hne].
  - destruct (is_blank f.1.1); cbn [negb andb].
    + destruct (String.eqb_spec f.1.1 "") as [E0|_]; [by destruct (fine_start l Hl f w Hf Hw E0)|]. cbn. by rewrite E, String.eqb_refl.
    + done.
  - rewrite !andb_false_r. by rewrite (proj2 (String.eqb_neq _ _) Hne), andb_false_r.
Qed.

(** What a body is in Python *)
Definition named (b : string) : string :=
  match List.find (λ x, String.eqb x.1 b) python_names with Some x => x.2 | None => b end.
Definition rename (f : line) : line := (f.1.1, named f.1.2, f.2).

Lemma HU_lines l : fine l → HU (text_of l) = text_of (rename <$> l).
Proof.
  intros Hl. unfold HU, python_names. cbn [foldl fst snd].
  assert (∀ w r, (w, r) ∈ python_names → ∀ l, fine l → fine (set_body w r <$> l)) as Hset.
  { intros w r Hw l' Hl'. apply (fine_step w r); [by apply (names_python w)|by right|done]. }
  assert (∀ w r, (w, r) ∈ python_names → ∀ l, fine l →
    gsub (on_line w r) true 0 (gsub (after_colon w r) true 0 (text_of l)) = text_of (set_body w r <$> l)) as Hpass.
  { intros w r Hw l' Hl'. apply word_lines; [by apply (names_python w r)..|done]. }
  rewrite !Hpass by (repeat apply Hset; try done; unfold python_names; set_solver).
  f_equal. rewrite <- !list_fmap_compose. apply list_fmap_ext. intros k [[p b] s] _. unfold compose, set_body, rename, named.
  cbn -[String.eqb]. rewrite !(String.eqb_sym _ b).
  destruct (String.eqb_spec b "true") as [->|H1]; [done|]. destruct (String.eqb_spec b "false") as [->|H2]; [done|].
  by destruct (String.eqb b "null").
Qed.

(** ** The lines of a value *)

Fixpoint calm_value (v : jv) : bool :=
  match v with
  | Str s => calm s
  | Arr l => forallb calm_value l
  | Obj l => forallb (λ x, calm x.1 && calm_value x.2) l
  | _ => true
  end.

(** No word of JSON alone *)
Definition framed (v : jv) : bool := match v with Num _ | Str _ | Arr _ | Obj _ => true | _ => false end.

Lemma between_fmap (P : line → Prop) l s : (∀ f c, f ∈ l → c = "" ∨ c = "," → Forall P (f c)) → s = "" ∨ s = "," → Forall P (between l).
Proof.
  intros H _. induction l as [|f l IH]; [constructor|]. destruct l as [|g l]; cbn [between].
  - apply H; [left|by left].
  - apply Forall_app. split; [apply H; [left|by right]|]. apply IH. intros h c Hh. apply H. by right.
Qed.

Lemma body_number n : number_text n = true → is_body n.
Proof.
  intros Hn. left. destruct n as [|c n]; [done|]. split; [|done]. cbn [number_text] in Hn. apply andb_prop in Hn as [_ Hn].
  revert Hn. apply sforall_impl. intros d. by destruct d as [[] [] [] [] [] [] [] []].
Qed.

Lemma word_body v : is_atom v = true → atoms_ok python_syntax v = true → calm_value v = true → is_body (json_word v).
Proof.
  destruct v as [| |b|n|s|c|l|l]; try done; cbn; intros _ Ha Hc.
  - by left.
  - destruct b; by left.
  - rewrite Ha. by apply body_number.
  - right. by exists s.
Qed.

Lemma ok_line p b s : is_prefix p → is_body b → s = "" ∨ s = "," → line_ok (p, b, s).
Proof. done. Qed.

Definition bracket (b : string) : bool := existsb (String.eqb b) ["["; "]"; "{"; "}"; "[]"; "{}"].

Lemma bracket_body b : bracket b = true → is_body b.
Proof. intros (x & Hx & ->%String.eqb_eq)%existsb_exists. left. cbn in Hx. naive_solver. Qed.

Lemma framed_ok p s i o c l : is_prefix p → s = "" ∨ s = "," → bracket o = true → bracket c = true →
  (∀ f e, f ∈ l → e = "" ∨ e = "," → Forall line_ok (f e)) →
  Forall line_ok ([(p, o, "")] ++ between l ++ [(spaces i, c, s)]).
Proof.
  intros Hp Hs Ho%bracket_body Hc%bracket_body Hl. apply Forall_app. split; [apply list.Forall_singleton, ok_line; auto|].
  apply Forall_app. split; [by eapply between_fmap; [|by left]|]. apply list.Forall_singleton, ok_line; [|done|done]. left. by exists i.
Qed.

Lemma value_lines_ok v : atoms_ok python_syntax v = true → calm_value v = true → ∀ i p s, is_prefix p → s = "" ∨ s = "," →
  Forall line_ok (value_lines json_word v i p s).
Proof.
  assert (∀ b, bracket b = true → is_body b) as Hb by exact bracket_body.
  induction v as [v Hv|l IH|l IH] using jv_nested_ind; intros Ha Hc i p s Hp Hs.
  - assert (value_lines json_word v i p s = [(p, json_word v, s)]) as -> by by destruct v.
    apply list.Forall_singleton, ok_line; [done|apply word_body; [by destruct v|done..]|done].
  - destruct l as [|x l]; [by apply list.Forall_singleton, ok_line; [|apply Hb|]|]. cbn [value_lines].
    apply framed_ok; [done..|]. intros f c (y & -> & Hy)%list_elem_of_fmap Hf. rewrite Forall_forall in IH.
    apply IH; [done|by eapply atoms_items| |by left; eexists|done]. by apply (proj1 (forallb_forall _ _) Hc), list_elem_of_In.
  - destruct l as [|x l]; [by apply list.Forall_singleton, ok_line; [|apply Hb|]|]. cbn [value_lines].
    apply framed_ok; [done..|]. intros f c (y & -> & Hy)%list_elem_of_fmap Hf. rewrite Forall_forall in IH.
    assert (calm y.1 = true ∧ calm_value y.2 = true) as [Hk Hy2].
    { apply andb_true_iff. by apply (proj1 (forallb_forall _ _) Hc), list_elem_of_In. }
    apply IH; [done|by eapply atoms_entries|done| |done]. right. by exists (i + 2)%nat, y.1.
Qed.

(** A word of JSON is behind a key or spaces. *)
Definition starts_well (f : line) : Prop := f.1.1 = "" → ∀ w, is_name w → f.1.2 ≠ w.

Lemma bracket_start p b s : bracket b = true → starts_well (p, b, s).
Proof.
  intros Hb _ w [r Hr] E. cbn in E. subst b. repeat (apply elem_of_cons in Hr as [[= -> ->]|Hr]; [done|]). by apply elem_of_nil in Hr.
Qed.

Lemma framed_start p s i o c l : bracket o = true → bracket c = true →
  (∀ f e, f ∈ l → e = "" ∨ e = "," → Forall starts_well (f e)) →
  Forall starts_well ([(p, o, "")] ++ between l ++ [(spaces i, c, s)]).
Proof.
  intros Ho Hc Hl. apply Forall_app. split; [by apply list.Forall_singleton, bracket_start|].
  apply Forall_app. split; [by eapply between_fmap; [|by left]|]. by apply list.Forall_singleton, bracket_start.
Qed.

Lemma framed_word v w : framed v = true → is_atom v = true → atoms_ok python_syntax v = true → is_name w → json_word v ≠ w.
Proof.
  intros Hf Hv Ha [r Hr] E. destruct v as [| |b|n|t|c|l|l]; try done.
  - cbn in E, Ha. rewrite Ha in E. subst w. repeat (apply elem_of_cons in Hr as [[= -> ->]|Hr]; [done|]). by apply elem_of_nil in Hr.
  - cbn in E. subst w. repeat (apply elem_of_cons in Hr as [Hr|Hr]; [discriminate Hr|]). by apply elem_of_nil in Hr.
Qed.

Lemma value_lines_start v : ∀ i p s, framed v = true ∨ p ≠ "" → atoms_ok python_syntax v = true →
  Forall starts_well (value_lines json_word v i p s).
Proof.
  assert (∀ i x, spaces (i + 2) +:+ x ≠ "") as Hne by (intros i x; by rewrite Nat.add_comm).
  induction v as [v Hv|l IH|l IH] using jv_nested_ind; intros i p s Hf Ha.
  - assert (value_lines json_word v i p s = [(p, json_word v, s)]) as -> by by destruct v.
    apply list.Forall_singleton. intros Hp w Hw. destruct Hf as [Hf|Hf]; [apply framed_word; try done; by destruct v|done].
  - destruct l as [|x l]; [by apply list.Forall_singleton, bracket_start|]. cbn [value_lines].
    apply framed_start; [done..|]. intros f c (y & -> & Hy)%list_elem_of_fmap _. rewrite Forall_forall in IH. apply IH; [done| |by eapply atoms_items].
    right. rewrite <- (sapp_nil_r (spaces _)). apply Hne.
  - destruct l as [|x l]; [by apply list.Forall_singleton, bracket_start|]. cbn [value_lines].
    apply framed_start; [done..|]. intros f c (y & -> & Hy)%list_elem_of_fmap _. rewrite Forall_forall in IH. apply IH; [done| |by eapply atoms_entries].
    right. apply Hne.
Qed.

Lemma value_lines_end v i p s : framed v = true → atoms_ok python_syntax v = true → ends_well (value_lines json_word v i p s).
Proof.
  intros Hf Ha f E w Hw. assert (∀ b, bracket b = true → b ≠ w) as Hb.
  { intros b Hb. by apply (bracket_start "" b "" Hb eq_refl). }
  destruct v as [| |b|n|t|c|[|x l]|[|x l]]; try done; cbn [value_lines] in E;
    [injection E as <-; by apply (framed_word (Num n))|injection E as <-; by apply (framed_word (Str t))|injection E as <-; by apply Hb| |injection E as <-; by apply Hb| ];
    rewrite app_assoc, last_snoc in E; injection E as <-; by apply Hb.
Qed.

(** ** Lines farther in *)

Definition indent (n : nat) (f : line) : line := (spaces n +:+ f.1.1, f.1.2, f.2).

(** All lines but the first *)
Definition indented (n : nat) (l : list line) : list line := match l with [] => [] | f :: l' => f :: (indent n <$> l') end.

Lemma reindent_app n a b : reindent n (a +:+ b) = reindent n a +:+ reindent n b.
Proof. apply flat_map_app. Qed.

Lemma reindent_lacks n a : lacks "010" a = true → reindent n a = a.
Proof.
  induction a as [|c a IH]; [done|]. unfold lacks. cbn [sforall]. intros [Hc%negb_true_iff Ha]%andb_prop. unfold reindent in *. cbn [flat_map_s].
  rewrite Hc, IH; done.
Qed.

Lemma line_one_line f : line_ok f → lacks "010" (render f) = true.
Proof.
  intros (Hp & Hb & Hs). unfold render. rewrite !lacks_join, (prefix_one_line _ Hp), (body_one_line _ Hb). by destruct Hs as [-> | ->].
Qed.

Lemma text_of_indent n f l : l ≠ [] → text_of (indent n f :: l) = spaces n +:+ text_of (f :: l).
Proof. destruct l as [|g l]; [done|]. intros _. rewrite !text_of_cons. unfold render, indent. cbn [fst snd]. by rewrite !sapp_assoc. Qed.

Lemma reindent_lines n l : Forall line_ok l → reindent n (text_of l) = text_of (indented n l).
Proof.
  intros H. destruct H as [|f l Hf H]; [done|]. revert f Hf. induction H as [|g l Hg H IH]; intros f Hf; cbn [indented fmap list_fmap].
  - by apply reindent_lacks, line_one_line.
  - rewrite text_of_cons, !reindent_app, (reindent_lacks n (render f)) by by apply line_one_line.
    rewrite (IH g Hg). cbn [indented]. rewrite text_of_cons. f_equal.
    change (reindent n newline) with (newline +:+ (spaces n +:+ "")). rewrite sapp_nil_r, sapp_assoc. f_equal.
    destruct l as [|h l]; [|by rewrite text_of_indent].
    unfold text_of, render, indent. cbn. by rewrite !sapp_assoc.
Qed.

Lemma indent_ok n f : line_ok f → line_ok (indent n f).
Proof.
  intros (Hp & Hb & Hs). split_and!; [|done..]. cbn. assert (∀ a b, spaces (a + b) = spaces a +:+ spaces b) as Ha.
  { clear. intros a b. induction a as [|a IH]; [done|]. cbn. by rewrite IH. }
  destruct Hp as [[k ->]|(k & x & -> & Hx)].
  - left. exists (n + k)%nat. by rewrite Ha.
  - right. exists (n + k)%nat, x. by rewrite Ha, !sapp_assoc.
Qed.

Lemma indented_fine n l : fine l → fine (indented n l).
Proof.
  intros [Hl He Hs]. destruct l as [|f l]; [done|]. cbn [indented]. apply Forall_cons in Hl as [Hf Hl]. split.
  - constructor; [done|]. rewrite Forall_fmap. eapply Forall_impl; [done|]. intros g. apply indent_ok.
  - intros g E w Hw. destruct l as [|h l]; [by apply (He g E)|].
    rewrite fmap_cons, last_cons_cons, <- fmap_cons, fmap_last in E. destruct (last (h :: l)) as [k|] eqn:El; [|done].
    injection E as <-. cbn. by apply (He k); [rewrite last_cons_cons|].
  - intros g w [->|(h & -> & Hh)%list_elem_of_fmap]%elem_of_cons Hw; [by apply Hs; [left|]|].
    cbn. intros E. apply Hs; [by right|done|]. by destruct n, h as [[[|] ]].
Qed.

Lemma value_fine v : framed v = true → atoms_ok python_syntax v = true → calm_value v = true → fine (value_lines json_word v 0 "" "").
Proof.
  intros Hf Ha Hc. split.
  - apply value_lines_ok; [done..|left; by exists 0%nat|by left].
  - by apply value_lines_end.
  - intros f w Hl Hw E. pose proof (value_lines_start v 0 "" "" (or_introl Hf) Ha) as H. rewrite Forall_forall in H. by apply (H f).
Qed.

(** UU writes the lines of the value with the names of Python, farther in. *)
Lemma UU_lines v t : framed v = true → atoms_ok python_syntax v = true → calm_value v = true →
  UU v t = reindent t (text_of (rename <$> value_lines json_word v 0 "" "")).
Proof.
  intros Hf Ha Hc. pose proof (value_fine v Hf Ha Hc) as Hl. unfold UU, stringify2.
  rewrite reindent_split, reindent_lines, HU_lines by (apply indented_fine || idtac; apply Hl).
  assert (Forall line_ok (rename <$> value_lines json_word v 0 "" "")) as Hr.
  { rewrite Forall_fmap. eapply Forall_impl; [apply Hl|]. intros f (Hp & Hb & Hs). split_and!; [done| |done]. unfold compose, rename, named. cbn [fst snd].
    destruct (List.find _ _) as [[w r]|] eqn:E; [|done]. apply List.find_some in E as [E _]. apply list_elem_of_In in E. by apply (names_python w r). }
  rewrite reindent_lines by done. f_equal. destruct (value_lines json_word v 0 "" "") as [|f l]; [done|]. cbn [indented fmap list_fmap]. f_equal.
  change (list_fmap ?A ?B ?f ?l) with (f <$> l). rewrite <- !list_fmap_compose. done.
Qed.

(** ** What is written is read *)

#[export] Instance python_blanks : Blanks python.
Proof. done. Qed.

#[export] Instance python_rules : Wording_rules python_words.
Proof. wording_rules. Qed.

#[export] Instance python_readable : Readable python_syntax.
Proof. exact (wording_readable python_words). Qed.

Lemma python_writes : writes python DQc json_char.
Proof. intros c s. by destruct c as [[] [] [] [] [] [] [] []]. Qed.

Lemma closed_json_text s : closed python (json_string s) [Text s].
Proof. apply (closed_text python DQc json_char s); [done|apply python_writes]. Qed.

Lemma python_one_line : one_line python.
Proof.
  split; [done|]. intros q e. destruct e as [|c e]; [done|]. change (String c e +:+ one "010") with (String c (e +:+ one "010")).
  assert (unicode_escape (e +:+ one "010") = None) as H by (unfold unicode_escape; by rewrite hex_text_bad).
  cbn [unescape python]. unfold python_unescape. destruct (decide (c = "u"%char)) as [->|Hc]; [exact H|].
  destruct e; by destruct c as [[] [] [] [] [] [] [] []].
Qed.

Definition line_lex (f : line) : string := render (rename f).

(** The commas of a value in a list: none behind the last *)
Lemma between_lex l tss : Forall2 (λ f ts, ∀ s st, s = "" ∧ st = [] ∨ s = "," ∧ st = [Sign ","] →
    ∃ us, Forall2 (reads_as python) (line_lex <$> f s) us ∧ mjoin us = ts ++ st) l tss →
  ∃ us, Forall2 (reads_as python) (line_lex <$> between l) us ∧ mjoin us = commas tss.
Proof.
  induction 1 as [|f ts l tss Hf H IH]; [by exists []|]. destruct H as [|g us l tss Hg H].
  - destruct (Hf "" []) as (us & H1 & E); [by left|]. exists us. split; [done|]. rewrite E. cbn. done.
  - destruct IH as (vs & H2 & E2). destruct (Hf "," [Sign ","]) as (ws & H1 & E1); [by right|].
    exists (ws ++ vs). split; [cbn [between]; rewrite fmap_app; by apply Forall2_app|].
    rewrite join_app, E1, E2. change (commas (ts :: us :: tss)) with (ts ++ [Sign ","] ++ commas (us :: tss)). by rewrite <- app_assoc.
Qed.

Lemma lex_parts p pt b bt s st : closed python p pt → lex python b = Some bt → s = "" ∧ st = [] ∨ s = "," ∧ st = [Sign ","] →
  reads_as python (p +:+ b +:+ s) (pt ++ bt ++ st).
Proof. intros Hp Hb Hs. apply closed_then; [done|]. by apply lex_app; [|destruct Hs as [[-> ->]|[-> ->]]..]. Qed.

(** What opens and closes, and the lines between *)
Lemma framed_lex p pt s st i o ot c ct l tss : closed python p pt → s = "" ∧ st = [] ∨ s = "," ∧ st = [Sign ","] →
  lex python (named o) = Some ot → lex python (named c) = Some ct →
  Forall2 (λ f ts, ∀ s st, s = "" ∧ st = [] ∨ s = "," ∧ st = [Sign ","] →
    ∃ us, Forall2 (reads_as python) (line_lex <$> f s) us ∧ mjoin us = ts ++ st) l tss →
  ∃ us, Forall2 (reads_as python) (line_lex <$> ([(p, o, "")] ++ between l ++ [(spaces i, c, s)])) us ∧
    mjoin us = pt ++ (ot ++ commas tss ++ ct) ++ st.
Proof.
  intros Hp Hs Ho Hc Hl. destruct (between_lex l tss Hl) as (us & H & E).
  exists ([pt ++ ot ++ []] ++ us ++ [[] ++ ct ++ st]). split.
  - rewrite !fmap_app. apply Forall2_app; [constructor; [by apply lex_parts; [..|left]|constructor]|].
    apply Forall2_app; [done|]. constructor; [|constructor]. apply lex_parts; [exact (closed_blank python _ (blank_spaces _))|done|done].
  - rewrite !join_app, E. cbn. by rewrite ?app_nil_r, <- !app_assoc.
Qed.

Lemma lex_atom v : is_atom v = true → atoms_ok python_syntax v = true → lex python (named (json_word v)) = Some (tokens python_syntax v).
Proof.
  destruct v as [| |b|n|s|c|l|l]; try done; intros _ Ha.
  - by destruct b.
  - cbn in Ha. cbn [json_word]. rewrite Ha. assert (named n = n) as ->.
    { unfold named. destruct (List.find _ _) as [[w r]|] eqn:E; [|done]. apply List.find_some in E as [E En%String.eqb_eq]. cbn in En. subst w.
      apply list_elem_of_In in E. repeat (apply elem_of_cons in E as [[= -> ->]|E]; [done|]). by apply elem_of_nil in E. }
    apply lex_number; [done|]. intros c Hc. cbn in *. rewrite orb_false_r, orb_comm. exact Hc.
  - change (named (json_word (Str s))) with (json_string s). apply closed_lex, closed_json_text.
Qed.

Lemma value_lex v : atoms_ok python_syntax v = true → ∀ i p pt s st, closed python p pt → s = "" ∧ st = [] ∨ s = "," ∧ st = [Sign ","] →
  ∃ us, Forall2 (reads_as python) (line_lex <$> value_lines json_word v i p s) us ∧ mjoin us = pt ++ tokens python_syntax v ++ st.
Proof.
  assert (∀ p pt b bt s st, closed python p pt → lex python (named b) = Some bt → s = "" ∧ st = [] ∨ s = "," ∧ st = [Sign ","] →
    ∃ us, Forall2 (reads_as python) (line_lex <$> [(p, b, s)]) us ∧ mjoin us = pt ++ bt ++ st) as Hone.
  { intros p pt b bt s st Hp Hb Hs. exists [pt ++ bt ++ st]. split; [|by cbn; rewrite app_nil_r].
    constructor; [by apply lex_parts|constructor]. }
  induction v as [v Hv|l IH|l IH] using jv_nested_ind; intros Ha i p pt s st Hp Hs.
  - assert (value_lines json_word v i p s = [(p, json_word v, s)]) as -> by by destruct v.
    apply Hone; [done|apply lex_atom; [by destruct v|done]|done].
  - rewrite Forall_forall in IH. pose proof (atoms_items python_syntax l Ha) as Hx. destruct l as [|x l]; [by apply Hone|]. cbn [value_lines tokens].
    apply framed_lex; [done..|]. apply Forall2_map. intros y Hy s' st' Hs'.
    apply (IH y Hy (Hx y Hy) _ _ []); [exact (closed_blank python _ (blank_spaces _))|done].
  - rewrite Forall_forall in IH. pose proof (atoms_entries python_syntax l Ha) as Hx. destruct l as [|x l]; [by apply Hone|]. cbn [value_lines tokens].
    apply framed_lex; [done..|]. apply Forall2_map. intros y Hy s' st' Hs'. rewrite <- app_assoc.
    apply (IH y Hy (Hx y Hy) _ _ (key_tokens python_syntax y.1)); [|done].
    apply (closed_app python _ _ []); [exact (closed_blank python _ (blank_spaces _))|].
    by apply (closed_app python _ _ [Text y.1]); [apply closed_json_text|].
Qed.

Lemma UU_lex v t : framed v = true → atoms_ok python_syntax v = true → calm_value v = true →
  lex python (UU v t) = Some (tokens python_syntax v).
Proof.
  intros Hf Ha Hc. rewrite UU_lines by done. apply (reindent_lex python); [apply python_one_line|].
  destruct (value_lex v Ha 0 "" [] "" []) as (us & H & E); [done|by left|]. rewrite app_nil_r in E. cbn [app] in E.
  unfold text_of. rewrite <- list_fmap_compose. rewrite <- E. by apply (lex_lines python).
Qed.

(** The JSON body of the Python samples is the body: UU writes an array or an object, a
    number or a text so that Python reads the value itself, wherever the words of JSON
    stand in it. No text and no key holds such a word between a colon with a blank and a
    comma: that is changed too ([UU_changes_texts]). *)
Theorem python_values_are_read_back v t : framed v = true → writable python_syntax v = true → calm_value v = true →
  read_python (UU v t) = Some (v, []).
Proof.
  intros Hf Hw Hc. unfold read_python. rewrite UU_lex; [|done|by apply writable_atoms|done].
  rewrite <- (app_nil_r (tokens python_syntax v)). by apply (read_tokens python_syntax).
Qed.

Lemma python_values_witness :
  let v := Obj [("a: true", Arr [Str "null"; Null; Bool true]); ("b", Bool false); ("c", Obj [("k", Num "-1.5")]); ("d", Null)] in
  framed v = true ∧ writable python_syntax v = true ∧ calm_value v = true ∧ read_python (UU v 4) = Some (v, []).
Proof.
  intros v. assert (framed v = true) as Hf by reflexivity. assert (writable python_syntax v = true) as Hw by reflexivity.
  assert (calm_value v = true) as Hc by (vm_compute; reflexivity). split_and!; [done..|]. exact (python_values_are_read_back v 4 Hf Hw Hc).
Defined.
