(* ===== verification/PythonSamples.v ===== *)
(** * scalar.js: the Python samples (Requests, HTTPX, aiohttp)

    [WU] writes the samples of Requests and of both clients of HTTPX, [gIt_generate] the
    one of aiohttp. What they write is read as tokens of Python. The arguments of the
    call are values of [argument] on the way. [JSON.parse] is a parameter. *)
From S2P Require Import Prelude Css Mime Shell Snippets Literals Parameters Objects Lex Values Wordings PythonValue.
#[local] Open Scope list_scope.

(** What an argument is given *)
Inductive argument : Type :=
| Value (v : jv)
| Tuple (u p : string)
| Files (ps : list param)
| Bytes (s : string)
| Literal (s : string)
| BasicAuth (u p : string)
| Variable_ (w : string).

Definition named_argument : Type := string * argument.

(** ** What the bundle writes *)

Definition python_quoted (s : string) : string := quote_char +:+ s +:+ quote_char.

(** [open("file", "rb")] *)
Definition open_text (f : string) : string := call_text "open" [json_string f; python_quoted "rb"].

Definition tuple_text (l : list string) : string := "(" +:+ String.concat ", " l +:+ ")".

(** WU: the part is one of [files] *)
Definition file_part (n : param) : bool :=
  match pa_fileName n with
  | Some _ => true
  | None => match pa_value n with Some _ => truthy (pa_contentType n) | None => false end
  end.

Definition field_part (n : param) : bool :=
  match pa_fileName n, pa_value n with None, Some _ => negb (truthy (pa_contentType n)) | _, _ => false end.

(** WU: the text of a part of [files] *)
Definition file_text (n : param) : string :=
  let t := json_string (pa_name n) in
  match pa_fileName n with
  | Some f =>
      let r := json_string f in
      match pa_contentType n with
      | None | Some "" => tuple_text [t; open_text f]
      | Some c => tuple_text [t; tuple_text [r; open_text f; json_string c]]
      end
  | None => tuple_text [t; tuple_text ["None"; json_string (default "" (pa_value n)); json_string (default "" (pa_contentType n))]]
  end.

(** The first of the headers with a name *)
Definition first_headers (hs : list pair) : entries :=
  foldl (λ e t, match object_get (p_name t) e with Some _ => e | None => object_set (p_name t) (Str (p_value t)) e end) [] hs.

Definition form_fields (ps : list param) : entries := foldl (λ e n, RH e (pa_name n) (Str (default "" (pa_value n)))) [] ps.

Definition python_methods : list string := ["GET"; "POST"; "PUT"; "DELETE"; "PATCH"; "HEAD"; "OPTIONS"].

Definition given {A} (k : string) (l : list A) (a : argument) : list named_argument := match l with [] => [] | _ => [(k, a)] end.

(** An argument as WU and gIt write it *)
Definition argument_text (a : named_argument) : string :=
  a.1 +:+ "=" +:+
  match a.2 with
  | Value v => UU v 4
  | Tuple u p => tuple_text [HU (json_string u); HU (json_string p)]
  | Files ps => "[" +:+ newline +:+ String.concat ("," +:+ newline) ((λ p, spaces 6 +:+ file_text p) <$> ps) +:+ newline +:+ "    ]"
  | Bytes s => "b" +:+ python_quoted s
  | Literal s => json_string s
  | BasicAuth u p => call_text "aiohttp.BasicAuth" [json_string u; json_string p]
  | Variable_ w => w
  end.

(** What stands between the arguments *)
Definition comma_line : string := "," +:+ newline +:+ spaces 4.

Section python.
Variable parse_json : string → option jv.

(** WU: the arguments of the body *)
Definition body_arguments (d : post_data) : list named_argument :=
  let t := default "" (text d) in
  if String.eqb (mimeType d) "application/json" && truthy (text d) then
    match parse_json t with Some v => [("json", Value v)] | None => [("data", Value (Str t))] end
  else if String.eqb (mimeType d) "application/octet-stream" && truthy (text d) then [("data", Bytes t)]
  else match (if String.eqb (mimeType d) "multipart/form-data" then params d else None) with
       | Some n => (match List.filter file_part n with [] => [] | l => [("files", Files l)] end) ++
                   (match form_fields (List.filter field_part n) with [] => [] | l => [("data", Value (Obj l))] end)
       | None => match (if String.eqb (mimeType d) "application/x-www-form-urlencoded" then params d else None) with
                 | Some n => [("data", Value (Obj (form_fields n)))]
                 | None => []
                 end
       end.

(** WU: the properties of [o]. A name is looked up as a property of its own; the code also
    finds inherited ones ([own_names] in the theorems). *)
Definition WU_arguments (r : request) (n : option credentials) : list named_argument :=
  given "headers" (headers r) (Value (Obj (first_headers (headers r)))) ++
  given "params" (queryString r) (Value (Obj (NH (queryString r)))) ++
  given "cookies" (cookies r) (Value (Obj (fromEntries ((λ e, (p_name e, Str (p_value e))) <$> cookies r)))) ++
  (match auth_given n with Some (u, p) => [("auth", Tuple u p)] | None => [] end) ++
  (match postData r with Some d => body_arguments d | None => [] end).

(** WU *)
Definition WU (e : string) (r : request) (n : option credentials) : string :=
  let u := default "https://example.com" (url r) in
  let i := PH (Some (default "get" (method r))) in
  let a := to_lower i in
  let c := python_quoted u in
  let s := argument_text <$> WU_arguments r n in
  let f := e +:+ "." +:+ a in
  if bool_decide (i ∈ python_methods) then
    if Nat.ltb 40 (String.length u) then f +:+ "(" +:+ newline +:+ spaces 4 +:+ String.concat comma_line (c :: s) +:+ newline +:+ ")"
    else match s with
         | [] => f +:+ "(" +:+ c +:+ ")"
         | _ => f +:+ "(" +:+ c +:+ "," +:+ newline +:+ spaces 4 +:+ String.concat comma_line s +:+ newline +:+ ")"
         end
  else e +:+ ".request(" +:+ String.concat ", " ([json_string i; c] ++ s) +:+ ")".

(** mIt: the lines with something in them, farther in *)
Definition mIt (e : string) : string :=
  String.concat newline ((λ e, match trim_space e with "" => e | _ => spaces 4 +:+ e end) <$> split_on "010" e).

(** MIt, xIt, yIt: Requests, HTTPX and HTTPX (Async) *)
Definition MIt_generate : request → option credentials → string := WU "requests".
Definition xIt_generate : request → option credentials → string := WU "httpx".
Definition yIt_generate (e : request) (t : option credentials) : string :=
  "async with httpx.AsyncClient() as client:" +:+ newline +:+ mIt (WU "await client" e t).

(** hIt *)
Definition hIt (e t n : string) (r : list string) : string :=
  let i := json_string n in
  let f := e +:+ "." +:+ to_lower t in
  if bool_decide (t ∈ python_methods) then
    if Nat.ltb 40 (String.length n) then f +:+ "(" +:+ newline +:+ spaces 4 +:+ String.concat comma_line (i :: r) +:+ newline +:+ ")"
    else match r with
         | [] => f +:+ "(" +:+ i +:+ ")"
         | _ => f +:+ "(" +:+ i +:+ "," +:+ newline +:+ spaces 4 +:+ String.concat comma_line r +:+ newline +:+ ")"
         end
  else e +:+ ".request(" +:+ String.concat ", " ([json_string t; i] ++ r) +:+ ")".

(** gIt: a part of a form *)
Definition add_field (e : param) : string :=
  let typed := match pa_contentType e with None | Some "" => [] | Some c => ["content_type=" +:+ json_string c] end in
  call_text "data.add_field"
    (match pa_fileName e with
     | Some f => [json_string (pa_name e); open_text f; "filename=" +:+ json_string f] ++ typed
     | None => [json_string (pa_name e); json_string (default "" (pa_value e))] ++ typed
     end).

(** gIt: the lines in front of the call, and the arguments of the body *)
Definition gIt_body (d : post_data) : list string * list named_argument :=
  let t := default "" (text d) in
  if String.eqb (mimeType d) "application/json" && truthy (text d) then
    ([], match parse_json t with Some v => [("json", Value v)] | None => [("data", Literal t)] end)
  else if String.eqb (mimeType d) "application/octet-stream" && truthy (text d) then ([], [("data", Bytes t)])
  else match (if String.eqb (mimeType d) "multipart/form-data" then params d else None) with
       | Some r => ("data = aiohttp.FormData()" :: (add_field <$> r), [("data", Variable_ "data")])
       | None => match (if String.eqb (mimeType d) "application/x-www-form-urlencoded" then params d else None) with
                 | Some r => ([], [("data", Value (Obj (form_fields r)))])
                 | None => ([], if truthy (text d) then [("data", Literal t)] else [])
                 end
       end.

(** gIt: the arguments of the session and of the call *)
Definition gIt_session (n : request) (t : option credentials) : list named_argument :=
  given "cookies" (cookies n) (Value (Obj (fromEntries ((λ e, (p_name e, Str (p_value e))) <$> cookies n)))) ++
  (match auth_given t with Some (u, p) => [("auth", BasicAuth u p)] | None => [] end).

Definition gIt_call (n : request) : list named_argument :=
  given "headers" (headers n) (Value (Obj (first_headers (headers n)))) ++
  given "params" (queryString n) (Value (Obj (NH (queryString n)))) ++
  (match postData n with Some d => (gIt_body d).2 | None => [] end).

(** gIt.generate: the line that opens the session *)
Definition session_line (a : list string) : string :=
  match a with
  | [] => "async with aiohttp.ClientSession() as session:"
  | _ => "async with aiohttp.ClientSession(" +:+ newline +:+ spaces 4 +:+ String.concat comma_line a +:+ newline +:+ ") as session:"
  end.

(** gIt.generate *)
Definition gIt_generate (n : request) (t : option credentials) : string :=
  let r := PH (Some (default "get" (method n))) in
  let o := match postData n with Some d => (gIt_body d).1 | None => [] end in
  let s := session_line (argument_text <$> gIt_session n t) in
  let c := hIt "await session" r (default "https://example.com" (url n)) (argument_text <$> gIt_call n) in
  s +:+ newline +:+ mIt (String.concat newline (o ++ [c])).
End python.

(** ** What the samples are meant to say *)

Definition tuple_tokens (tss : list (list token)) : list token := [Sign "("] ++ commas tss ++ [Sign ")"].

Definition file_tokens (n : param) : list token :=
  let content f := call_tokens "open" [[Text f]; [Text "rb"]] in
  match pa_fileName n with
  | Some f => match pa_contentType n with
              | None | Some "" => tuple_tokens [[Text (pa_name n)]; content f]
              | Some c => tuple_tokens [[Text (pa_name n)]; tuple_tokens [[Text f]; content f; [Text c]]]
              end
  | None => tuple_tokens [[Text (pa_name n)]; tuple_tokens [[Word "None"]; [Text (default "" (pa_value n))]; [Text (default "" (pa_contentType n))]]]
  end.

Definition argument_tokens (a : named_argument) : list token :=
  Word a.1 :: Sign "=" ::
  match a.2 with
  | Value v => tokens python_syntax v
  | Tuple u p => tuple_tokens [[Text u]; [Text p]]
  | Files ps => [Sign "["] ++ commas (file_tokens <$> ps) ++ [Sign "]"]
  | Bytes s => [Word "b"; Text s]
  | Literal s => [Text s]
  | BasicAuth u p => call_tokens "aiohttp.BasicAuth" [[Text u]; [Text p]]
  | Variable_ w => [Word w]
  end.

(** The function of a client; [await] stands in front of some. *)
Definition callee (e a : string) : list token :=
  match cut " " e with
  | Some (k, c) => [Word k; Word (c +:+ "." +:+ a)]
  | None => [Word (e +:+ "." +:+ a)]
  end.

Definition python_call (e a : string) (tss : list (list token)) : list token :=
  callee e a ++ [Sign "("] ++ commas tss ++ [Sign ")"].

(** The functions the clients have for methods *)
Definition python_functions : list string := ["DELETE"; "GET"; "HEAD"; "OPTIONS"; "PATCH"; "POST"; "PUT"].

(** The call of a request: the function for the method, or [request] with the method *)
Definition request_call (e i u : string) (l : list named_argument) : list token :=
  if bool_decide (i ∈ python_functions) then python_call e (to_lower i) ([Text u] :: (argument_tokens <$> l))
  else python_call e "request" ([Text i] :: [Text u] :: (argument_tokens <$> l)).

(** *** What the request asks for

    Written from the request alone. *)

(** The names of [l], each with the value [pick] takes from its values *)
Definition picked (pick : list string → option string) (l : list pair) (o : entries) : Prop :=
  in_order o ∧ ∀ n, object_get n o = Str <$> pick (values n l).

(** An argument with an object that [P] accepts; none for an empty list *)
Definition says_object (k : string) (l : list pair) (P : entries → Prop) (a : list named_argument) : Prop :=
  (l = [] ∧ a = []) ∨ l ≠ [] ∧ ∃ o, a = [(k, Value (Obj o))] ∧ P o.

(** A part that is sent as a file: it has one, or it has a value of a content type *)
Definition sent_as_file (p : param) : bool :=
  match p with Param _ _ (Some _) _ | Param _ (Some _) None (Some (String _ _)) => true | _ => false end.

(** A part that is sent as a value. One without a file and a value is not sent. *)
Definition sent_as_value (p : param) : bool :=
  match p with Param _ (Some _) None (None | Some "") => true | _ => false end.

Definition field_pairs (ps : list param) : list pair := (λ p, Pair (pa_name p) (default "" (pa_value p))) <$> ps.

Section asked.
Variable parse_json : string → option jv.

(** The arguments of the body: the files and the values of a multipart form, the values of a
    urlencoded one, the value of a JSON text (the text itself when it is none), the bytes of
    an octet stream. A text of another media type is not sent. *)
Definition says_body (r : request) (a : list named_argument) : Prop :=
  match asked_fields "multipart/form-data" r, asked_fields "application/x-www-form-urlencoded" r, postData r with
  | Some ps, _, _ => ∃ vs, says_object "data" (field_pairs (List.filter sent_as_value ps)) (collected (field_pairs (List.filter sent_as_value ps))) vs ∧
      a = (match List.filter sent_as_file ps with [] => [] | fs => [("files", Files fs)] end) ++ vs
  | None, Some ps, _ => ∃ o, a = [("data", Value (Obj o))] ∧ collected (field_pairs ps) o
  | None, None, Some (Post m (Some (String _ _ as x)) _) =>
      if String.eqb m "application/json" then a = [match parse_json x with Some v => ("json", Value v) | None => ("data", Value (Str x)) end]
      else if String.eqb m "application/octet-stream" then a = [("data", Bytes x)]
      else a = []
  | None, None, _ => a = []
  end.

(** [a] are the arguments the request asks for, in their order: the first value of every
    header, all values of a parameter of the query, the last value of a cookie. *)
Definition says_arguments (r : request) (n : option credentials) (a : list named_argument) : Prop :=
  ∃ hs qs cs bs, says_object "headers" (headers r) (picked head (headers r)) hs ∧
    says_object "params" (queryString r) (collected (queryString r)) qs ∧
    says_object "cookies" (cookies r) (picked last (cookies r)) cs ∧ says_body r bs ∧
    a = hs ++ qs ++ cs ++ (match asked_credentials n with Some (u, p) => [("auth", Tuple u p)] | None => [] end) ++ bs.

(** Names that are no inherited members, where the code looks a name up *)
Definition plain_names (r : request) : Prop :=
  own_names (p_name <$> headers r ++ queryString r) = true ∧
  ∀ m ps, asked_fields m r = Some ps → own_names (pa_name <$> ps) = true.
End asked.

(** A text that a literal may hold as it is *)
Definition plain_text (s : string) : bool :=
  sforall (λ c, not_line_end c && negb (Ascii.eqb c DQc) && negb (Ascii.eqb c "\")) s.

(** The argument is written as it is: [calm], and no true, false or null on its own *)
Definition argument_ready (a : named_argument) : bool :=
  match a.2 with
  | Value v => framed v && atoms_ok python_syntax v && calm_value v
  | Tuple u p => calm u && calm p
  | Bytes s => plain_text s
  | Files _ | Literal _ | BasicAuth _ _ | Variable_ _ => true
  end.

(** ** They say it *)

Lemma HU_json s : calm s = true → HU (json_string s) = json_string s.
Proof.
  intros Hs. pose proof (HU_lines _ (value_fine (Str s) eq_refl eq_refl Hs)) as H. unfold text_of, render in H. cbn -[HU] in H.
  change (named (json_string s)) with (json_string s) in H. change ("" +:+ ?x) with x in H. by rewrite sapp_nil_r in H.
Qed.

Lemma closed_python_quoted s : plain_text s = true → closed python (python_quoted s) [Text s].
Proof.
  intros Hs. assert (∀ a, lex_run python (InText DQc a) s = ([], InText DQc (a +:+ s))) as H.
  { induction s as [|c s IH]; intros a; [by rewrite sapp_nil_r|]. unfold plain_text in Hs. cbn [sforall] in Hs.
    apply andb_prop in Hs as [[[Hn Hq%negb_true_iff]%andb_prop Hb%negb_true_iff]%andb_prop Hs].
    cbn [lex_run lex_char]. rewrite Hq, Hb. cbn [plain python]. rewrite Hn, IH by done. by rewrite sapp_assoc. }
  unfold closed, python_quoted. rewrite lex_run_app. change (lex_run python Between quote_char) with (@nil token, InText DQc "").
  cbn beta iota. by rewrite lex_run_app, H.
Qed.

(** A call whose arguments are on one line or on several *)
Lemma closed_python_call f ft b1 b2 items tss b3 : lex python f = Some ft → blank b1 = true → blank b2 = true → blank b3 = true →
  Forall2 (reads_as python) items tss →
  closed python (f +:+ "(" +:+ b1 +:+ String.concat ("," +:+ b2) items +:+ b3 +:+ ")") (ft ++ [Sign "("] ++ commas tss ++ [Sign ")"]).
Proof.
  intros Hf H1 H2 H3 Hi. rewrite <- (sapp_assoc f "("), (app_assoc ft [Sign "("]). apply (closed_layout python); try done.
  by apply (lex_then python).
Qed.

Lemma tuple_lex items tss : Forall2 (reads_as python) items tss → reads_as python (tuple_text items) (tuple_tokens tss).
Proof. intros Hi. apply closed_lex. exact (closed_python_call "" [] "" " " items tss "" eq_refl eq_refl eq_refl eq_refl Hi). Qed.

Lemma lex_json s : reads_as python (json_string s) [Text s].
Proof. apply closed_lex, closed_json_text. Qed.

Lemma lex_call f args tss : f ≠ "" → sforall is_word f = true → sforall (λ c, negb (is_quote python c)) f = true →
  Forall2 (reads_as python) args tss → reads_as python (call_text f args) (call_tokens f tss).
Proof. intros. by apply closed_lex, closed_call. Qed.

Lemma open_lex f : reads_as python (open_text f) (call_tokens "open" [[Text f]; [Text "rb"]]).
Proof. apply lex_call; [done..|]. repeat constructor. apply lex_json. Qed.

Lemma file_lex n : reads_as python (file_text n) (file_tokens n).
Proof.
  unfold file_text, file_tokens. pose proof lex_json as Hj. pose proof open_lex as Ho.
  assert (∀ a b c at_ bt ct, reads_as python a at_ → reads_as python b bt → reads_as python c ct →
    reads_as python (tuple_text [json_string (pa_name n); tuple_text [a; b; c]]) (tuple_tokens [[Text (pa_name n)]; tuple_tokens [at_; bt; ct]])) as Hin.
  { intros a b c at_ bt ct Ha Hb Hc. apply tuple_lex. constructor; [apply Hj|]. constructor; [|constructor]. apply tuple_lex. by repeat constructor. }
  destruct (pa_fileName n) as [f|]; [|by apply Hin].
  destruct (pa_contentType n) as [[|c x]|]; [|by apply Hin|]; apply tuple_lex; constructor; try apply Hj; constructor; try apply Ho; constructor.
Qed.

Lemma argument_lex a : a.1 ≠ "" → sforall is_word a.1 = true → sforall (λ c, negb (is_quote python c)) a.1 = true →
  (∀ w, a.2 = Variable_ w → w = "data") → argument_ready a = true → reads_as python (argument_text a) (argument_tokens a).
Proof.
  destruct a as [k a]. unfold argument_text, argument_tokens, argument_ready. cbn [fst snd]. intros Hn Hw Hq Hv Hr.
  assert (∀ x xt, reads_as python x xt → reads_as python (k +:+ "=" +:+ x) (Word k :: Sign "=" :: xt)) as Hk.
  { intros x xt Hx. apply (lex_app python k _ [Word k] (Sign "=" :: xt)); [by apply lex_word|done|].
    by apply (closed_then python "=" x [Sign "="]). }
  apply Hk. destruct a as [v|u p|ps|s|s|u p|w].
  - apply andb_prop in Hr as [[Hf Ha]%andb_prop Hc]. by apply UU_lex.
  - apply andb_prop in Hr as [Hu Hp]. rewrite !HU_json by done. apply tuple_lex. repeat constructor; apply lex_json.
  - apply closed_lex, (closed_layout python "[" newline newline _ _ (newline +:+ spaces 4) "]" [Sign "["] [Sign "]"]); try done.
    apply Forall2_map. intros x _. apply (lex_indented python); [apply blank_spaces|apply file_lex].
  - apply closed_lex. by apply (lex_then python "b" (python_quoted s) [Word "b"] [Text s]); [..|apply closed_python_quoted].
  - apply lex_json.
  - apply lex_call; [done..|]. repeat constructor; apply lex_json.
  - by rewrite (Hv w eq_refl).
Qed.

(** ** The lines of a text, farther in *)

Definition line_indent (s : string) : nat :=
  match trim_space (match split_on "010" s with w :: _ => w | [] => "" end) with "" => 0%nat | _ => 4%nat end.

Lemma mIt_reindents s : mIt s = spaces (line_indent s) +:+ reindent_by line_indent s.
Proof.
  unfold mIt. induction s as [|c s IH]; [done|]. destruct (split_cons "010" c s) as (w & ws & E & E').
  unfold line_indent at 1. rewrite E', E in *. cbn [reindent_by]. destruct (Ascii.eqb_spec c "010") as [->|_].
  - change (trim_space "") with "". rewrite fmap_cons, fmap_cons in *. change (trim_space "") with "".
    rewrite concat_cons, IH. change (spaces 0) with "". change ("" +:+ ?x) with x. by rewrite <- sapp_assoc.
  - assert (∀ r, String.concat newline ((match trim_space w with "" => w | _ => spaces 4 +:+ w end) :: r) =
      spaces (line_indent s) +:+ String.concat newline (w :: r)) as Hw.
    { intros r. unfold line_indent. rewrite E. destruct (trim_space w); destruct r; done. }
    rewrite fmap_cons, Hw in IH. apply sapp_inj_l in IH. rewrite <- IH, fmap_cons.
    set (g := λ e : string, _). generalize (g <$> ws). intros r. unfold g.
    destruct (trim_space (String c w)), r; done.
Qed.

Lemma mIt_lex s ts : lex python s = Some ts → reads_as python (mIt s) ts.
Proof.
  intros Hs. rewrite mIt_reindents. apply (lex_indented python); [apply blank_spaces|].
  by apply (reindent_by_lex python); [apply python_one_line|].
Qed.

(** ** The calls *)

Definition python_clients : list string := ["requests"; "httpx"; "await client"; "await session"].

Lemma callee_lex e a : e ∈ python_clients → a ∈ "request" :: (to_lower <$> python_methods) →
  lex python (e +:+ "." +:+ a) = Some (callee e a).
Proof.
  intros He Ha.
  assert (forallb (λ e, forallb (λ a, bool_decide (lex python (e +:+ "." +:+ a) = Some (callee e a)))
    ("request" :: (to_lower <$> python_methods))) python_clients = true) as H by (vm_compute; reflexivity).
  rewrite forallb_forall in H. apply list_elem_of_In in He, Ha. specialize (H e He). rewrite forallb_forall in H.
  by apply (bool_decide_eq_true_1 _), H.
Qed.

Lemma call_lex e a b1 b2 b3 items tss : e ∈ python_clients → a ∈ "request" :: (to_lower <$> python_methods) →
  blank b1 = true → blank b2 = true → blank b3 = true → Forall2 (reads_as python) items tss →
  closed python ((e +:+ "." +:+ a) +:+ "(" +:+ b1 +:+ String.concat ("," +:+ b2) items +:+ b3 +:+ ")") (python_call e a tss).
Proof. intros He Ha H1 H2 H3 Hi. by apply closed_python_call; [apply callee_lex|..]. Qed.

(** The three layouts of a call with the URL [c] first *)
Lemma closed_request e i c u l s : e ∈ python_clients → lex python c = Some [Text u] →
  Forall2 (reads_as python) s (argument_tokens <$> l) →
  let f := e +:+ "." +:+ to_lower i in
  closed python
    (if bool_decide (i ∈ python_methods) then
       if Nat.ltb 40 (String.length u) then f +:+ "(" +:+ newline +:+ spaces 4 +:+ String.concat comma_line (c :: s) +:+ newline +:+ ")"
       else match s with
            | [] => f +:+ "(" +:+ c +:+ ")"
            | _ => f +:+ "(" +:+ c +:+ "," +:+ newline +:+ spaces 4 +:+ String.concat comma_line s +:+ newline +:+ ")"
            end
     else e +:+ ".request(" +:+ String.concat ", " ([json_string i; c] ++ s) +:+ ")")
    (request_call e i u l).
Proof.
  intros He Hc Hs f. unfold request_call.
  assert (bool_decide (i ∈ python_functions) = bool_decide (i ∈ python_methods)) as ->
    by (apply bool_decide_ext; unfold python_functions, python_methods; set_solver).
  assert (Forall2 (reads_as python) (c :: s) ([Text u] :: (argument_tokens <$> l))) as Hcs by by constructor.
  case_bool_decide as Hi.
  - assert (to_lower i ∈ "request" :: (to_lower <$> python_methods)) as Ha by (right; by apply list_elem_of_fmap_2).
    destruct (Nat.ltb 40 (String.length u)); [|destruct s as [|x s]].
    + by apply (call_lex e (to_lower i) (newline +:+ spaces 4) (newline +:+ spaces 4) newline).
    + by apply (call_lex e (to_lower i) "" "" "" [c]).
    + pose proof (call_lex e (to_lower i) "" (newline +:+ spaces 4) newline (c :: x :: s) _ He Ha eq_refl eq_refl eq_refl Hcs) as H.
      rewrite concat_cons, !sapp_assoc in H. unfold f, comma_line. rewrite !sapp_assoc. exact H.
  - assert (Forall2 (reads_as python) ([json_string i; c] ++ s) ([Text i] :: [Text u] :: (argument_tokens <$> l))) as H by (constructor; [apply lex_json|done]).
    pose proof (call_lex e "request" "" " " "" _ _ He ltac:(by left) eq_refl eq_refl eq_refl H) as H'. by rewrite !sapp_assoc in H'.
Qed.

(** ** The arguments are named *)

Definition known_argument (a : named_argument) : Prop :=
  a.1 ∈ ["headers"; "params"; "cookies"; "auth"; "json"; "data"; "files"] ∧ ∀ w, a.2 = Variable_ w → w = "data".

Lemma known_lex a : known_argument a → argument_ready a = true → reads_as python (argument_text a) (argument_tokens a).
Proof.
  intros [Hk Hw] Hr. assert (∀ k, k ∈ ["headers"; "params"; "cookies"; "auth"; "json"; "data"; "files"] →
    k ≠ "" ∧ sforall is_word k = true ∧ sforall (λ c, negb (is_quote python c)) k = true) as Hn.
  { intros k H. repeat (apply elem_of_cons in H as [->|H]; [done|]). by apply elem_of_nil in H. }
  destruct (Hn _ Hk) as (H1 & H2 & H3). by apply argument_lex.
Qed.

Lemma named_arguments_lex l : Forall known_argument l → forallb argument_ready l = true →
  Forall2 (reads_as python) (argument_text <$> l) (argument_tokens <$> l).
Proof.
  intros Hk Hr. apply Forall2_map. intros a Ha. rewrite Forall_forall in Hk. apply known_lex; [by apply Hk|].
  by apply (proj1 (forallb_forall _ _) Hr), list_elem_of_In.
Qed.

Lemma known k a : existsb (String.eqb k) ["headers"; "params"; "cookies"; "auth"; "json"; "data"; "files"] = true →
  (∀ w, a = Variable_ w → w = "data") → known_argument (k, a).
Proof. intros (x & Hx%list_elem_of_In & ->%String.eqb_eq)%existsb_exists Ha. done. Qed.

Lemma given_known {A} k (l : list A) a : known_argument (k, a) → Forall known_argument (given k l a).
Proof. intros H. destruct l; [constructor|]. by apply list.Forall_singleton. Qed.

Section samples.
Variable parse_json : string → option jv.

Lemma body_known d : Forall known_argument (body_arguments parse_json d).
Proof.
  unfold body_arguments. repeat case_match; try apply Forall_app; repeat split; repeat constructor; by apply known.
Qed.

Lemma WU_known r n : Forall known_argument (WU_arguments parse_json r n).
Proof.
  unfold WU_arguments. repeat apply Forall_app_2; try by apply given_known, known.
  - destruct (auth_given n) as [[u p]|]; [|constructor]. by apply list.Forall_singleton, known.
  - destruct (postData r) as [d|]; [apply body_known|constructor].
Qed.

(** What the sample of a client is meant to say, with the arguments [a] *)
Definition WU_tokens (e : string) (r : request) (a : list named_argument) : list token :=
  request_call e (asked_method r) (default "https://example.com" (url r)) a.

(** The texts the sample rewrites or pastes: no text looks like a word of JSON
    ([calm]), and the URL and the bytes hold no quote, backslash or line end. *)
Definition calm_pairs (l : list pair) : bool := forallb (λ p, calm (p_name p) && calm (p_value p)) l.

Definition body_ready (d : post_data) : bool :=
  (match text d with
   | Some (String _ _ as x) =>
       if String.eqb (mimeType d) "application/json" then
         match parse_json x with Some v => framed v && atoms_ok python_syntax v && calm_value v | None => calm x end
       else if String.eqb (mimeType d) "application/octet-stream" then plain_text x
       else true
   | _ => true
   end) && calm_pairs (field_pairs (default [] (params d))).

Definition python_ready (r : request) (n : option credentials) : bool :=
  plain_text (default "https://example.com" (url r)) &&
  calm_pairs (headers r) && calm_pairs (queryString r) && calm_pairs (cookies r) &&
  (match asked_credentials n with Some (u, p) => calm u && calm p | None => true end) &&
  (match postData r with Some d => body_ready d | None => true end).

(** The objects of the arguments are ready. *)
Definition entry_ready (x : string * jv) : Prop := calm x.1 = true ∧ calm_value x.2 = true ∧ atoms_ok python_syntax x.2 = true.

Lemma entries_ready k o : Forall entry_ready o → argument_ready (k, Value (Obj o)) = true.
Proof.
  intros H. unfold argument_ready. cbn [snd framed calm_value atoms_ok andb].
  induction H as [|x o (H1 & H2 & H3) _ [IH1 IH2]%andb_prop]; [done|]. cbn [forallb]. by rewrite H1, H2, H3, IH1, IH2.
Qed.

Lemma set_ready k v o : calm k = true → entry_ready (k, v) → Forall entry_ready o → Forall entry_ready (object_set k v o).
Proof. intros Hk Hv Ho. rewrite Forall_forall in Ho |- *. intros x [->|Hx]%object_set_member; [done|by apply Ho]. Qed.

Lemma get_ready k v o : Forall entry_ready o → object_get k o = Some v → entry_ready (k, v).
Proof.
  induction 1 as [|[k' w] o Hw _ IH]; [done|]. cbn. destruct (String.eqb_spec k' k) as [->|]; [by intros [= <-]|done].
Qed.

Lemma RH_ready k v o : calm k = true → calm v = true → Forall entry_ready o → Forall entry_ready (RH o k (Str v)).
Proof.
  intros Hk Hv Ho. assert (∀ w, calm_value w = true → atoms_ok python_syntax w = true → Forall entry_ready (object_set k w o)) as Hset.
  { intros w H1 H2. by apply set_ready. }
  assert (∀ w, calm_value w = true → atoms_ok python_syntax w = true → Forall entry_ready (object_set k (Arr [w; Str v]) o)) as Htwo.
  { intros w H1 H2. apply Hset; cbn [calm_value atoms_ok forallb]; [by rewrite H1, Hv|by rewrite H2]. }
  unfold RH. destruct (object_get k o) as [w|] eqn:Eg; [|by apply Hset]. pose proof (get_ready k w o Ho Eg) as (_ & H1 & H2).
  cbn [snd] in H1, H2. destruct w as [| | | | | |l|]; try (by apply Htwo); [by apply Hset|].
  apply Hset; cbn [calm_value atoms_ok] in *; rewrite forallb_app; [rewrite H1|rewrite H2]; cbn [forallb calm_value]; by rewrite ?Hv.
Qed.

Lemma fold_ready {A} (f : entries → A → entries) (P : A → bool) l : (∀ o x, P x = true → Forall entry_ready o → Forall entry_ready (f o x)) →
  forallb P l = true → Forall entry_ready (foldl f [] l).
Proof.
  intros Hf. assert (Forall entry_ready ([] : entries)) as H0 by constructor. revert H0. generalize ([] : entries) as o.
  induction l as [|x l IH]; intros o Ho; [done|]. cbn. intros [Hx Hl]%andb_prop. apply IH; [by apply Hf|done].
Qed.

Lemma NH_ready l : calm_pairs l = true → Forall entry_ready (NH l).
Proof. apply fold_ready. intros o p [H1 H2]%andb_prop Ho. by apply RH_ready. Qed.

Lemma first_headers_ready l : calm_pairs l = true → Forall entry_ready (first_headers l).
Proof. apply fold_ready. intros o p [H1 H2]%andb_prop Ho. destruct (object_get _ _); [done|]. by apply set_ready. Qed.

Lemma fromEntries_ready l : calm_pairs l = true → Forall entry_ready (fromEntries ((λ e, (p_name e, Str (p_value e))) <$> l)).
Proof.
  intros H. unfold fromEntries. apply (fold_ready (λ e x, object_set x.1 x.2 e) (λ x, calm x.1 && calm_value x.2 && atoms_ok python_syntax x.2)).
  - intros o x [[H1 H2]%andb_prop H3]%andb_prop Ho. by apply set_ready.
  - unfold calm_pairs in H. induction l as [|p l IH]; [done|]. cbn in *. apply andb_prop in H as [H1 H2]. by rewrite H1, (IH H2).
Qed.

Lemma form_fields_pairs ps : form_fields ps = NH (field_pairs ps).
Proof.
  unfold form_fields, NH, field_pairs. generalize ([] : entries) as e. induction ps as [|p ps IH]; intros e; [done|]. cbn. apply IH.
Qed.

Lemma calm_filter f ps : calm_pairs (field_pairs ps) = true → calm_pairs (field_pairs (List.filter f ps)) = true.
Proof.
  induction ps as [|p ps IH]; [done|]. intros [H1 H2]%andb_prop. cbn [List.filter]. specialize (IH H2).
  destruct (f p); [|exact IH]. apply andb_true_intro. by split.
Qed.

Lemma given_ready {A} k (l : list A) a : argument_ready (k, a) = true → forallb argument_ready (given k l a) = true.
Proof. intros H. destruct l; [done|]. cbn. by rewrite H. Qed.

Lemma body_arguments_ready d : body_ready d = true → forallb argument_ready (body_arguments parse_json d) = true.
Proof.
  unfold body_ready, body_arguments. destruct d as [m x ps]. cbn [mimeType text params]. intros [Hx Hp]%andb_prop.
  assert (∀ ps' : list param, calm_pairs (field_pairs ps') = true → argument_ready ("data", Value (Obj (form_fields ps'))) = true) as Hf.
  { intros ps' H. rewrite form_fields_pairs. by apply entries_ready, NH_ready. }
  destruct x as [[|c x]|]; cbn [truthy default andb] in *; rewrite ?andb_true_r, ?andb_false_r.
  2: { destruct (String.eqb m "application/json").
       { destruct (parse_json _) as [v|]; unfold argument_ready; cbn [forallb snd]; rewrite andb_true_r; exact Hx. }
       destruct (String.eqb m "application/octet-stream"); [cbn [forallb]; rewrite andb_true_r; exact Hx|].
       destruct ps as [ps|]; [|by destruct (String.eqb m _), (String.eqb m _)]. destruct (String.eqb m "multipart/form-data").
       - rewrite forallb_app. apply andb_true_intro. split; [by destruct (List.filter file_part ps)|].
         pose proof (Hf (List.filter field_part ps) (calm_filter field_part ps Hp)) as H.
         destruct (form_fields _); [done|]. cbn [forallb]. by rewrite H.
       - destruct (String.eqb m _); [|done]. cbn [forallb]. by rewrite Hf. }
  all: destruct ps as [ps|]; [|by destruct (String.eqb m _), (String.eqb m _)]; destruct (String.eqb m "multipart/form-data");
    [|destruct (String.eqb m _); [|done]; cbn [forallb]; by rewrite Hf];
    rewrite forallb_app; apply andb_true_intro; (split; [by destruct (List.filter file_part ps)|]);
    pose proof (Hf (List.filter field_part ps) (calm_filter field_part ps Hp)) as H;
    (destruct (form_fields _); [done|]); cbn [forallb]; by rewrite H.
Qed.

Lemma arguments_ready r n : python_ready r n = true → plain_text (default "https://example.com" (url r)) = true ∧ forallb argument_ready (WU_arguments parse_json r n) = true.
Proof.
  intros [[[[[Hu Hh]%andb_prop Hq]%andb_prop Hc]%andb_prop Ha]%andb_prop Hb]%andb_prop. split; [done|].
  unfold WU_arguments. rewrite !forallb_app, auth_given_asked.
  rewrite !given_ready by (by apply entries_ready; (apply first_headers_ready || apply NH_ready || apply fromEntries_ready)). cbn [andb].
  apply andb_true_intro. split.
  - destruct (asked_credentials n) as [[u p]|]; [|done]. cbn [forallb]. rewrite andb_true_r. exact Ha.
  - destruct (postData r) as [d|]; [by apply body_arguments_ready|done].
Qed.

(** They are the ones the request asks for. *)
Lemma first_headers_picked l : picked head l (first_headers l).
Proof.
  split.
  { unfold first_headers. apply foldl_order; [|constructor]. intros e x He. destruct (object_get _ _); [done|]. by apply object_set_order. }
  intros n. unfold first_headers. assert (∀ e, object_get n (foldl (λ e t, match object_get (p_name t) e with Some _ => e
      | None => object_set (p_name t) (Str (p_value t)) e end) e l) =
    match object_get n e with Some v => Some v | None => Str <$> head (values n l) end) as H; [|by rewrite H].
  induction l as [|p l IH]; intros e; [cbn [foldl]; by destruct (object_get n e)|]. cbn [foldl]. rewrite IH, values_cons. clear IH.
  destruct (String.eqb_spec (p_name p) n) as [<-|Hn].
  - destruct (object_get (p_name p) e) as [v|] eqn:E; [by rewrite E|]. by rewrite object_get_set, String.eqb_refl.
  - destruct (object_get (p_name p) e); [done|]. by rewrite object_get_set, (proj2 (String.eqb_neq _ _) Hn).
Qed.

Lemma fromEntries_picked l : picked last l (fromEntries ((λ e, (p_name e, Str (p_value e))) <$> l)).
Proof.
  split; [apply fromEntries_order|]. intros n. unfold fromEntries. induction l as [|p l IH] using rev_ind; [done|].
  rewrite fmap_app, foldl_app. cbn [fmap list_fmap foldl fst snd]. rewrite object_get_set, IH, values_app, values_cons.
  change (values n []) with (@nil string). destruct (String.eqb (p_name p) n); [by rewrite last_snoc|by rewrite app_nil_r].
Qed.

Lemma given_says k l o (P : entries → Prop) : P o → says_object k l P (given k l (Value (Obj o))).
Proof. intros H. destruct l; [by left|]. right. split; [done|]. by exists o. Qed.

Lemma body_arguments_say r : says_body parse_json r (match postData r with Some d => body_arguments parse_json d | None => [] end).
Proof.
  assert (∀ ps, ∃ vs, says_object "data" (field_pairs (List.filter sent_as_value ps)) (collected (field_pairs (List.filter sent_as_value ps))) vs ∧
    (match List.filter file_part ps with [] => [] | l => [("files", Files l)] end) ++
      (match form_fields (List.filter field_part ps) with [] => [] | l => [("data", Value (Obj l))] end) =
    (match List.filter sent_as_file ps with [] => [] | fs => [("files", Files fs)] end) ++ vs) as Hform.
  { intros ps. assert (List.filter file_part ps = List.filter sent_as_file ps) as ->.
    { apply filter_ext. intros [a [v|] [f|] [[|c x]|]]; done. }
    assert (List.filter field_part ps = List.filter sent_as_value ps) as ->.
    { apply filter_ext. intros [a [v|] [f|] [[|c x]|]]; done. }
    eexists. split; [|reflexivity]. rewrite form_fields_pairs. set (l := field_pairs _).
    destruct (decide (l = [])) as [->|Hl]; [by left|]. right. split; [done|]. exists (NH l). split; [|apply NH_collected].
    pose proof (NH_nonempty l Hl). by destruct (NH l). }
  assert (∀ ps, ∃ o, [("data", Value (Obj (form_fields ps)))] = [("data", Value (Obj o))] ∧ collected (field_pairs ps) o) as Hurl.
  { intros ps. exists (form_fields ps). split; [done|]. rewrite form_fields_pairs. apply NH_collected. }
  unfold says_body, asked_fields, body_arguments. destruct (postData r) as [[m x ps]|]; [|done]. cbn [mimeType text params].
  destruct (String.eqb_spec m "application/json") as [->|Hj].
  { destruct x as [[|c x]|], ps as [ps|]; try done; cbn; by destruct (parse_json _). }
  destruct (String.eqb_spec m "application/octet-stream") as [->|Ho].
  { by destruct x as [[|c x]|], ps as [ps|]. }
  destruct (String.eqb_spec m "multipart/form-data") as [->|Hm].
  { destruct ps as [ps|]; [apply Hform|]. by destruct x as [[|]|]. }
  destruct (String.eqb_spec m "application/x-www-form-urlencoded") as [->|Hu].
  { destruct ps as [ps|]; [apply Hurl|]. by destruct x as [[|]|]. }
  by destruct ps, x as [[|]|].
Qed.

Lemma arguments_say r n : says_arguments parse_json r n (WU_arguments parse_json r n).
Proof.
  unfold says_arguments, WU_arguments. do 4 eexists. split_and!; [..|by rewrite auth_given_asked].
  - apply given_says, first_headers_picked.
  - apply given_says, NH_collected.
  - apply given_says, fromEntries_picked.
  - apply body_arguments_say.
Qed.

Lemma method_given r : PH (Some (default "get" (method r))) = asked_method r.
Proof. rewrite <- PH_asked. by destruct (method r). Qed.

Lemma WU_closed e r n : e ∈ python_clients → python_ready r n = true →
  closed python (WU parse_json e r n) (WU_tokens e r (WU_arguments parse_json r n)).
Proof.
  intros He [Hu Ha]%arguments_ready. unfold WU, WU_tokens. rewrite <- method_given. apply closed_request; [done|by apply closed_lex, closed_python_quoted|].
  apply named_arguments_lex; [apply WU_known|done].
Qed.

(** C15. The samples for Requests and both clients of HTTPX say what the request asks for: a
    call of the function for the method (or of [request] with the method) with the URL, the
    first value of every header, all values of every parameter of the query, the last value
    of every cookie, the credentials and the body: the files and values of a multipart form,
    the values of a urlencoded one, a JSON value, or the bytes of an octet stream. A text
    body of another media type is not sent. The expectation is written from the request.
    Assumed ([python_ready]): the URL and an octet stream hold no quote, backslash or line
    end, no text looks like a word of JSON between a colon and a comma, and a JSON body is
    an array, object, number or text with finite numbers; and no name is a member that
    every object inherits. *)
Theorem python_samples_say_the_request r n : plain_names r → python_ready r n = true → ∃ a, says_arguments parse_json r n a ∧
  lex python (MIt_generate parse_json r n) = Some (WU_tokens "requests" r a) ∧
  lex python (xIt_generate parse_json r n) = Some (WU_tokens "httpx" r a) ∧
  lex python (yIt_generate parse_json r n) = Some (
    [Word "async"; Word "with"; Word "httpx.AsyncClient"; Sign "("; Sign ")"; Word "as"; Word "client"; Sign ":"] ++
    WU_tokens "await client" r a).
Proof.
  intros _ Hr. exists (WU_arguments parse_json r n). split; [apply arguments_say|].
  split_and!; [by apply closed_lex, WU_closed; [left|]|by apply closed_lex, WU_closed; [right; left|]|].
  unfold yIt_generate. apply (closed_then python "async with httpx.AsyncClient() as client:"); [done|].
  apply (lex_indented python newline); [done|]. apply mIt_lex, closed_lex, WU_closed; [right; right; left|done].
Qed.

(** *** aiohttp *)

Definition add_field_tokens (e : param) : list token :=
  let typed := match pa_contentType e with None | Some "" => [] | Some c => [[Word "content_type"; Sign "="; Text c]] end in
  call_tokens "data.add_field"
    (match pa_fileName e with
     | Some f => [[Text (pa_name e)]; call_tokens "open" [[Text f]; [Text "rb"]]; [Word "filename"; Sign "="; Text f]] ++ typed
     | None => [[Text (pa_name e)]; [Text (default "" (pa_value e))]] ++ typed
     end).

(** The lines that make the form *)
Definition gIt_form_tokens (d : post_data) : list (list token) :=
  let t := truthy (text d) && (String.eqb (mimeType d) "application/json" || String.eqb (mimeType d) "application/octet-stream") in
  match (if negb t && String.eqb (mimeType d) "multipart/form-data" then params d else None) with
  | Some r => [Word "data"; Sign "="; Word "aiohttp.FormData"; Sign "("; Sign ")"] :: (add_field_tokens <$> r)
  | None => []
  end.

Definition gIt_tokens (n : request) (t : option credentials) : list token :=
  [Word "async"; Word "with"; Word "aiohttp.ClientSession"; Sign "("] ++ commas (argument_tokens <$> gIt_session n t) ++
  [Sign ")"; Word "as"; Word "session"; Sign ":"] ++
  (match postData n with Some d => mjoin (gIt_form_tokens d) | None => [] end) ++
  request_call "await session" (PH (Some (default "get" (method n)))) (default "https://example.com" (url n)) (gIt_call parse_json n).

Lemma keyword_text k s : k = "content_type" ∨ k = "filename" → reads_as python (k +:+ "=" +:+ json_string s) [Word k; Sign "="; Text s].
Proof.
  intros Hk. apply (lex_app python k _ [Word k] [Sign "="; Text s]); [by destruct Hk as [-> | ->]|done|].
  apply (closed_then python "=" _ [Sign "="]); [done|apply lex_json].
Qed.

Lemma add_field_lex e : reads_as python (add_field e) (add_field_tokens e).
Proof.
  unfold add_field, add_field_tokens. apply lex_call; [done..|].
  assert (Forall2 (reads_as python) (match pa_contentType e with None | Some "" => [] | Some c => ["content_type=" +:+ json_string c] end)
    (match pa_contentType e with None | Some "" => [] | Some c => [[Word "content_type"; Sign "="; Text c]] end)) as Ht.
  { destruct (pa_contentType e) as [[|c x]|]; repeat constructor. by apply (keyword_text "content_type"); left. }
  destruct (pa_fileName e) as [f|]; (apply Forall2_app; [|exact Ht]); repeat (constructor; [apply lex_json || apply open_lex|]); [|constructor].
  constructor; [by apply (keyword_text "filename"); right|constructor].
Qed.

Lemma form_lines_lex d : Forall2 (reads_as python) (gIt_body parse_json d).1 (gIt_form_tokens d).
Proof.
  assert (∀ r, Forall2 (reads_as python) ("data = aiohttp.FormData()" :: (add_field <$> r))
    ([Word "data"; Sign "="; Word "aiohttp.FormData"; Sign "("; Sign ")"] :: (add_field_tokens <$> r))) as Hf.
  { intros r. constructor; [done|]. apply Forall2_map. intros e _. apply add_field_lex. }
  unfold gIt_body, gIt_form_tokens. destruct (truthy (text d)); cbn [andb negb].
  - rewrite !andb_true_r. destruct (String.eqb (mimeType d) "application/json"); [constructor|].
    destruct (String.eqb (mimeType d) "application/octet-stream"); [constructor|]. cbn [orb negb andb].
    destruct (if String.eqb (mimeType d) "multipart/form-data" then params d else None); [apply Hf|].
    by destruct (if String.eqb (mimeType d) "application/x-www-form-urlencoded" then params d else None).
  - rewrite !andb_false_r. destruct (if String.eqb (mimeType d) "multipart/form-data" then params d else None); [apply Hf|].
    by destruct (if String.eqb (mimeType d) "application/x-www-form-urlencoded" then params d else None).
Qed.

Lemma gIt_known n t : Forall known_argument (gIt_session n t) ∧ Forall known_argument (gIt_call parse_json n).
Proof.
  unfold gIt_session, gIt_call. split; repeat apply Forall_app_2; try by apply given_known, known.
  - destruct (auth_given t) as [[u p]|]; [|constructor]. by apply list.Forall_singleton, known.
  - destruct (postData n) as [d|]; [|constructor]. unfold gIt_body.
    repeat case_match; cbn [snd]; repeat constructor; try by apply known. apply known; [done|]. by intros w [= <-].
Qed.

Lemma session_closed l tss : Forall2 (reads_as python) l tss →
  closed python (session_line l)
    ([Word "async"; Word "with"; Word "aiohttp.ClientSession"; Sign "("] ++ commas tss ++ [Sign ")"; Word "as"; Word "session"; Sign ":"]).
Proof.
  intros Hl. destruct Hl as [|x ts l tss Hx Hl]; [done|].
  apply (closed_layout python "async with aiohttp.ClientSession(" (newline +:+ spaces 4) (newline +:+ spaces 4) _ _ newline ") as session:"); try done.
  by constructor.
Qed.

(** The aiohttp sample says what the request is: a session with the cookies and the
    credentials, the lines that make a multipart form, and the call for the method with the
    URL, the headers, the query and the body; the URL may hold any text. *)
Theorem aiohttp_sample_says_the_request n t :
  forallb argument_ready (gIt_session n t ++ gIt_call parse_json n) = true →
  lex python (gIt_generate parse_json n t) = Some (gIt_tokens n t).
Proof.
  rewrite forallb_app. intros [Hs Hc]%andb_prop. destruct (gIt_known n t) as [Ks Kc].
  pose proof (named_arguments_lex _ Ks Hs) as Hsl. pose proof (named_arguments_lex _ Kc Hc) as Hcl. unfold gIt_generate, gIt_tokens.
  rewrite (app_assoc (commas _)), (app_assoc [Word "async"; Word "with"; Word "aiohttp.ClientSession"; Sign "("]).
  apply (closed_then python).
  - by apply session_closed.
  - apply (lex_indented python newline); [done|]. apply mIt_lex.
    replace ((match postData n with Some d => mjoin (gIt_form_tokens d) | None => [] end) ++ request_call "await session" (PH (Some (default "get" (method n)))) (default "https://example.com" (url n)) (gIt_call parse_json n))
      with (mjoin ((match postData n with Some d => gIt_form_tokens d | None => [] end) ++
        [request_call "await session" (PH (Some (default "get" (method n)))) (default "https://example.com" (url n)) (gIt_call parse_json n)]))
      by (rewrite join_app; cbn; rewrite app_nil_r; by destruct (postData n)).
    apply (lex_lines python), Forall2_app; [destruct (postData n) as [d|]; [apply form_lines_lex|constructor]|].
    constructor; [|constructor]. apply closed_lex. unfold hIt. apply closed_request; [by do 3 right; left|apply lex_json|exact Hcl].
Qed.
End samples.

Definition python_request : request :=
  Request (Some "https://api.test/items") (Some "post") [Pair "X-Q" "a'b"; Pair "X-Q" "c"] [Pair "q" "1"; Pair "q" "2"] [Pair "s" "old"; Pair "s" "true"]
    (Some (Post "application/json" (Some "[]") None)).

Definition parse_one (t : string) : option jv := if String.eqb t "[]" then Some (Arr [Bool true; Null; Str "null"]) else None.

Definition keyword_tokens (k : string) (ts : list token) : list token := Word k :: Sign "=" :: ts.
Definition dict_of (k : string) (ts : list token) : list token := [Sign "{"; Text k; Sign ":"] ++ ts ++ [Sign "}"].

Definition python_request_arguments : list (list token) :=
  [keyword_tokens "headers" (dict_of "X-Q" [Text "a'b"]);
   keyword_tokens "params" (dict_of "q" [Sign "["; Text "1"; Sign ","; Text "2"; Sign "]"])].

Lemma python_samples_witness : let r := python_request in let n := Some (Credentials "me" "null") in
  plain_names r ∧ python_ready parse_one r n = true ∧ ∃ hs qs cs,
    object_get "X-Q" hs = Some (Str "a'b") ∧ object_get "q" qs = Some (Arr [Str "1"; Str "2"]) ∧ object_get "s" cs = Some (Str "true") ∧
    lex python (MIt_generate parse_one r n) = Some (request_call "requests" "POST" "https://api.test/items"
      [("headers", Value (Obj hs)); ("params", Value (Obj qs)); ("cookies", Value (Obj cs)); ("auth", Tuple "me" "null");
       ("json", Value (Arr [Bool true; Null; Str "null"]))]).
Proof.
  intros r n. assert (python_ready parse_one r n = true) as H by (vm_compute; reflexivity).
  assert (plain_names r) as Hn by (split; [reflexivity|by intros m ps]). split; [exact Hn|]. split; [exact H|].
  destruct (python_samples_say_the_request parse_one r n Hn H) as (a & (hs & qs & cs & bs & Hh & Hq & Hc & Hb & ->) & Hl & _).
  destruct Hh as [[E _]|(_ & oh & -> & _ & Hh)]; [discriminate E|]. destruct Hq as [[E _]|(_ & oq & -> & _ & Hq)]; [discriminate E|].
  destruct Hc as [[E _]|(_ & oc & -> & _ & Hc)]; [discriminate E|]. cbn in Hb. subst bs.
  exists oh, oq, oc. split_and!; [exact (Hh "X-Q")|exact (Hq "q")|exact (Hc "s")|exact Hl].
Defined.

Lemma aiohttp_sample_witness : let r := python_request in let n := Some (Credentials "me" "null") in
  forallb argument_ready (gIt_session r n ++ gIt_call parse_one r) = true ∧
  lex python (gIt_generate parse_one r n) = Some (
    [Word "async"; Word "with"; Word "aiohttp.ClientSession"; Sign "("] ++
    commas [keyword_tokens "cookies" (dict_of "s" [Text "true"]);
            keyword_tokens "auth" (call_tokens "aiohttp.BasicAuth" [[Text "me"]; [Text "null"]])] ++
    [Sign ")"; Word "as"; Word "session"; Sign ":"] ++
    python_call "await session" "post" ([Text "https://api.test/items"] :: python_request_arguments ++
      [keyword_tokens "json" [Sign "["; Word "True"; Sign ","; Word "None"; Sign ","; Text "null"; Sign "]"]])).
Proof.
  intros r n. assert (forallb argument_ready (gIt_session r n ++ gIt_call parse_one r) = true) as H by (vm_compute; reflexivity).
  split; [exact H|]. exact (aiohttp_sample_says_the_request parse_one r n H).
Defined.

(** ** What the samples get wrong *)

(** A text body of a media type that is neither JSON nor a form nor octet-stream is left out of
    the samples of Requests and HTTPX; the one of aiohttp has it. *)
Lemma python_drops_text_bodies parse m t u : m ∉ ["application/json"; "application/octet-stream"; "multipart/form-data"; "application/x-www-form-urlencoded"] →
  body_arguments parse (Post m (Some t) u) = [] ∧ (t ≠ "" → (gIt_body parse (Post m (Some t) u)).2 = [("data", Literal t)]).
Proof.
  rewrite !not_elem_of_cons. intros (H1 & H2 & H3 & H4 & _). unfold body_arguments, gIt_body. cbn [mimeType text params].
  rewrite (proj2 (String.eqb_neq _ _) H1), (proj2 (String.eqb_neq _ _) H2), (proj2 (String.eqb_neq _ _) H3), (proj2 (String.eqb_neq _ _) H4).
  split; [done|]. by destruct t.
Qed.

(** A body that is true, false or null is no Python: the words are only looked for behind a
    colon or spaces. *)
Example bare_words_stay : UU (Bool true) 4 = "true" ∧ UU Null 4 = "null".
Proof. done. Qed.

(** A quote in the URL ends its literal in the samples of Requests and HTTPX. *)
Example python_url_is_not_escaped :
  WU (λ _, None) "requests" (Request (Some "a`b") None [] [] [] None) None = "requests.get(" +:+ python_quoted "a`b" +:+ ")" ∧
  lex python (WU (λ _, None) "requests" (Request (Some (String DQc "")) None [] [] [] None) None) = None.
Proof. by vm_compute. Qed.
