(* ===== verification/Xml.v ===== *)
(** * scalar.js: writing an XML document

    [_ze] writes the example of an XML body: names with their namespaces and prefixes,
    attributes, text and CDATA sections, on lines of their own when asked to. The
    declarations in scope are a [Map] from prefixes to namespaces; the diagnostics, the
    counter of invented prefixes and the number of nodes are the state ([writer]). Names
    and texts are ASCII; of a diagnostic its code is kept. *)
From S2P Require Import Prelude Css Shell Snippets Literals Lex.
#[local] Open Scope list_scope.

(** ** Documents *)

Record attribute : Type := Attribute {
  at_name : string; at_namespace : option string; at_prefix : option string; at_value : string }.

Inductive node : Type :=
| TextNode (value : string)
| Cdata (value : string)
| Element (name : string) (namespace prefix : option string) (attributes : list attribute) (children : list node).

Definition Jv : string := "http://www.w3.org/XML/1998/namespace".
Definition gze : string := "http://www.w3.org/2000/xmlns/".

(** Xv: a name without a colon *)
Definition xml_name_start (c : ascii) : bool := byte_in 65 90 c || byte_in 97 122 c || Ascii.eqb c "_".
Definition xml_name_char (c : ascii) : bool := xml_name_start c || byte_in 48 57 c || Ascii.eqb c "-" || Ascii.eqb c ".".
Definition Xv (e : string) : bool := match e with String c r => xml_name_start c && sforall xml_name_char r | "" => false end.

(** Zv: some character no document can hold *)
Definition xml_char (c : ascii) : bool := Nat.leb 32 (nat_of_ascii c) || existsb (Ascii.eqb c) ["009"; "010"; "013"]%char.
Definition Zv (e : string) : bool := negb (sforall xml_char e).

(** ** State *)

Inductive xml_error : Type :=
| InvalidCharacter | LimitExceeded | InvalidName | ReservedNamespace | UnboundPrefix
| NamespaceConflict | DuplicateAttribute | InvalidRoot.

#[export] Instance xml_error_eq_dec : EqDecision xml_error.
Proof. solve_decision. Defined.

(** Diagnostics (the last first), [a] and [o] *)
Record writer : Type := Writer { diagnostics : list xml_error; invented : nat; nodes : Z }.

Definition r (e : xml_error) (st : writer) : writer := Writer (e :: diagnostics st) (invented st) (nodes st).
Definition r_if (b : bool) (e : xml_error) (st : writer) : writer := if b then r e st else st.

(** A [Map] from prefixes to namespaces, in the order of first assignment *)
Definition scope : Type := list (string * string).

Fixpoint scope_get (k : string) (u : scope) : option string :=
  match u with [] => None | (k', v) :: u' => if String.eqb k' k then Some v else scope_get k u' end.

Fixpoint scope_set (k v : string) (u : scope) : scope :=
  match u with
  | [] => [(k, v)]
  | (k', v') :: u' => if String.eqb k' k then (k, v) :: u' else (k', v') :: scope_set k v u'
  end.

(** ** Texts *)

(** [e.replace(/]]>/g, "]]]]><![CDATA[>")] *)
Fixpoint split_cdata (s : string) : string :=
  match s with
  | String "]" (String "]" (String ">" s')) => "]]]]><![CDATA[>" +:+ split_cdata s'
  | String c s' => String c (split_cdata s')
  | "" => ""
  end.

Definition cdata_text (e : string) : string :=
  "<![CDATA[" +:+ replace_char "013" "]]>&#13;<![CDATA[" (split_cdata e) +:+ "]]>".

(** i *)
Definition xml_text (e : string) (t : bool) : string :=
  let i := replace_char "013" "&#13;" (replace_char ">" "&gt;" (replace_char "<" "&lt;" (replace_char "&" "&amp;" e))) in
  if t then replace_char "009" "&#9;" (replace_char "010" "&#10;" (replace_char DQc "&quot;" i)) else i.

Definition i (e : string) (t : bool) (st : writer) : string * writer := (xml_text e t, r_if (Zv e) InvalidCharacter st).

(** ** Names *)

(** [do n = `ns${++a}`; while (u.has(n) || p.has(n))]; [None]: out of fuel *)
Fixpoint invent (fuel : nat) (u : scope) (p : list string) (a : nat) : option (string * nat) :=
  match fuel with
  | O => None
  | S f =>
      let n := "ns" +:+ format_int (Z.of_nat (S a)) in
      if bool_decide (is_Some (scope_get n u)) || existsb (String.eqb n) p then invent f u p (S a) else Some (n, S a)
  end.

(** [[...u].find(([e, t]) => e !== "" && t === i)] *)
Definition find_prefix (i : string) (u : scope) : string :=
  match List.find (λ x, negb (String.eqb x.1 "") && String.eqb x.2 i) u with Some (k, _) => k | None => "" end.

(** The maps of one element: what is in scope ([u]), what it declares ([d]), what the
    prefixes of its names stand for ([f]) *)
Record naming : Type := Naming { in_scope : scope; declared : scope; used : scope }.

(** m: the name as it is written and its namespace; [t]: it is the name of an attribute *)
Definition m (p : list string) (name : string) (namespace prefix : option string) (t : bool)
    (k : naming) (st : writer) : string * string * naming * writer :=
  let st := r_if (negb (Xv name) || match prefix with Some x => negb (Xv x) | None => false end) InvalidName st in
  let n := default "" prefix in
  let i := match namespace with
           | Some i => i
           | None => match (if String.eqb n "" then if t then Some "" else scope_get "" (in_scope k)
                            else scope_get n (in_scope k)) with Some i => i | None => "" end
           end in
  let st := r_if (String.eqb n "xmlns" || String.eqb i gze || t && String.eqb n "" && String.eqb name "xmlns") ReservedNamespace st in
  let n := if String.eqb i Jv && String.eqb n "" then "xml" else n in
  let st := r_if (negb (Bool.eqb (String.eqb n "xml") (String.eqb i Jv))) ReservedNamespace st in
  let st := r_if (negb (String.eqb n "") && String.eqb i "") UnboundPrefix st in
  let '(n, st) :=
    if t && negb (String.eqb i "") && String.eqb n "" then
      match find_prefix i (in_scope k) with
      | "" => match invent (S (length (in_scope k) + length p)) (in_scope k) p (invented st) with
              | Some (n, a) => (n, Writer (diagnostics st) a (nodes st))
              | None => ("", st)
              end
      | n => (n, st)
      end
    else (n, st) in
  let '(k, st) :=
    if negb t || negb (String.eqb n "") then
      let st := r_if (match scope_get n (used k) with Some j => negb (String.eqb j i) | None => false end) NamespaceConflict st in
      let f := scope_set n i (used k) in
      if String.eqb (default "" (scope_get n (in_scope k))) i then (Naming (in_scope k) (declared k) f, st)
      else (Naming (scope_set n i (in_scope k)) (scope_set n i (declared k)) f, st)
    else (k, st) in
  (if String.eqb n "" then name else n +:+ ":" +:+ name, i, k, st).

(** ** Attributes *)

Definition attribute_text (name value : string) : string := " " +:+ name +:+ "=" +:+ quote_char +:+ value +:+ quote_char.

(** The attributes of an element; [g]: namespaces and names so far, a zero between them *)
Fixpoint attributes_text (p : list string) (l : list attribute) (g : list string) (k : naming) (st : writer)
    : string * naming * writer :=
  match l with
  | [] => ("", k, st)
  | e :: l' =>
      let '(tn, ns, k, st) := m p (at_name e) (at_namespace e) (at_prefix e) true k st in
      let n := ns +:+ String "000" (at_name e) in
      let st := r_if (existsb (String.eqb n) g) DuplicateAttribute st in
      let '(v, st) := i (at_value e) true st in
      let '(x, k, st) := attributes_text p l' (n :: g) k st in
      (attribute_text tn v +:+ x, k, st)
  end.

Fixpoint declarations_text (d : scope) (st : writer) : string * writer :=
  match d with
  | [] => ("", st)
  | (e, t) :: d' =>
      let '(v, st) := i t true st in
      let '(x, st) := declarations_text d' st in
      (attribute_text ("xmlns" +:+ (match e with "" => "" | _ => ":" +:+ e end)) v +:+ x, st)
  end.

(** ** Nodes *)

Definition is_element (e : node) : bool := match e with Element _ _ _ _ _ => true | _ => false end.

(** The children of an element behind its start tag *)
Definition content_text (y name : string) (b : bool) (n : nat) (x : list string) : string :=
  if b then y +:+ ">" +:+ newline +:+ String.concat newline ((λ e, spaces (2 * (n + 1)) +:+ e) <$> x) +:+
            newline +:+ spaces (2 * n) +:+ "</" +:+ name +:+ ">"
  else y +:+ ">" +:+ String.concat "" x +:+ "</" +:+ name +:+ ">".

(** s; [l]: format *)
Fixpoint s (e : node) (t : scope) (n : nat) (l : bool) (st : writer) : string * writer :=
  let st := Writer (diagnostics st) (invented st) (nodes st + 1) in
  if (10000 <? nodes st) || Nat.ltb 100 n then ("", r LimitExceeded st)
  else match e with
  | TextNode v => i v false st
  | Cdata v => (cdata_text v, r_if (Zv v) InvalidCharacter st)
  | Element name namespace prefix attributes children =>
      let p := omap id (prefix :: (at_prefix <$> attributes)) in
      let '(hn, _, k, st) := m p name namespace prefix false (Naming t [] []) st in
      let '(xs, k, st) := attributes_text p attributes [] k st in
      let '(v, st) := declarations_text (declared k) st in
      let y := "<" +:+ hn +:+ v +:+ xs in
      match children with
      | [] => (y +:+ "/>", st)
      | _ =>
          let '(x, st) := (fix go (cs : list node) (st : writer) : list string * writer :=
                             match cs with
                             | [] => ([], st)
                             | c :: cs' => let '(x, st) := s c (in_scope k) (n + 1) l st in
                                           let '(xs, st) := go cs' st in (x :: xs, st)
                             end) children st in
          (content_text y hn (l && forallb is_element children) n x, st)
      end
  end.

Definition xml_declaration : string :=
  "<?xml version=" +:+ json_string "1.0" +:+ " encoding=" +:+ json_string "UTF-8" +:+ "?>".

(** _ze; [xmlDeclaration] and [format] are the options. All diagnostics are errors: with
    one of them there is no document. *)
Definition underscore_ze (e : list node) (xmlDeclaration format : bool) : option string * list xml_error :=
  match e with
  | [Element _ _ _ _ _ as c] =>
      let '(x, st) := s c [("xml", Jv)] 0 format (Writer [] 0 0) in
      let l := if xmlDeclaration then xml_declaration +:+ (if format then newline else "") else "" in
      (match diagnostics st with [] => Some (l +:+ x) | _ => None end, rev (diagnostics st))
  | _ => (None, [InvalidRoot])
  end.
