(* ===== verification/XmlReader.v ===== *)
(** * Reading an XML document

    What an XML processor makes of the text of a document: a machine over its characters
    gives the tags, with the names and attributes as they are written, and the characters
    of the content ([scan_xml]); the tags are put together to elements ([build]); the
    declarations give the names their namespaces ([resolve]). References, CDATA sections
    and empty elements are read; comments, processing instructions and a document type
    are not, the writer of Xml.v writes none. A literal carriage return, line end or tab
    would be changed by the rules for line ends and attributes: the reader refuses the
    first everywhere and all three in attributes. *)
From S2P Require Import Prelude Css Shell Snippets Literals Lex Xml.
#[local] Open Scope list_scope.

(** ** Tags and characters *)

Definition raw_attribute : Type := string * string.

Inductive xml_token : Type :=
| XChar (c : ascii)
| XOpen (name : string) (attributes : list raw_attribute)
| XEmpty (name : string) (attributes : list raw_attribute)
| XClose (name : string).

Inductive xml_state : Type :=
| InContent
| InReference (b : string)
| InMarkup                                                    (* behind [<] *)
| InBang (b : string)                                         (* behind [<!] *)
| InCdata (k : nat)                                           (* [k] brackets held back *)
| InName (n : string)                                         (* the name of a start tag *)
| InTag (n : string) (l : list raw_attribute) (gap : bool)    (* [gap]: behind a blank *)
| InAttribute (n : string) (l : list raw_attribute) (a : string)
| InEquals (n : string) (l : list raw_attribute) (a : string)
| InValue (n : string) (l : list raw_attribute) (a v : string)
| InValueReference (n : string) (l : list raw_attribute) (a v b : string)
| InSlash (n : string) (l : list raw_attribute)
| InClose (n : string)
| XmlError.

Definition reference (b : string) : option ascii :=
  if String.eqb b "amp" then Some "&"%char else if String.eqb b "lt" then Some "<"%char
  else if String.eqb b "gt" then Some ">"%char else if String.eqb b "quot" then Some DQc
  else if String.eqb b "apos" then Some "'"%char else if String.eqb b "#13" then Some "013"%char
  else if String.eqb b "#10" then Some "010"%char else if String.eqb b "#9" then Some "009"%char else None.

(** A character of a name as it is written, prefix and colon included *)
Definition qname_char (c : ascii) : bool := xml_name_char c || Ascii.eqb c ":".

Definition brackets (k : nat) : list xml_token := repeat (XChar "]") k.

Definition xml_step (st : xml_state) (c : ascii) : list xml_token * xml_state :=
  match st with
  | InContent =>
      if Ascii.eqb c "<" then ([], InMarkup) else if Ascii.eqb c "&" then ([], InReference "")
      else if xml_char c && negb (Ascii.eqb c "013") then ([XChar c], InContent) else ([], XmlError)
  | InReference b =>
      if Ascii.eqb c ";" then match reference b with Some d => ([XChar d], InContent) | None => ([], XmlError) end
      else ([], InReference (b +:+ one c))
  | InMarkup =>
      if Ascii.eqb c "/" then ([], InClose "") else if Ascii.eqb c "!" then ([], InBang "")
      else if xml_name_start c then ([], InName (one c)) else ([], XmlError)
  | InBang b =>
      let b := b +:+ one c in
      if String.eqb b "[CDATA[" then ([], InCdata 0) else if has_prefix b "[CDATA[" then ([], InBang b) else ([], XmlError)
  | InCdata k =>
      if Ascii.eqb c "]" then (if Nat.eqb k 2 then ([XChar c], InCdata 2) else ([], InCdata (S k)))
      else if Ascii.eqb c ">" && Nat.eqb k 2 then ([], InContent)
      else if xml_char c && negb (Ascii.eqb c "013") then (brackets k ++ [XChar c], InCdata 0) else ([], XmlError)
  | InName n =>
      if Ascii.eqb c ">" then ([XOpen n []], InContent) else if Ascii.eqb c "/" then ([], InSlash n [])
      else if Ascii.eqb c " " then ([], InTag n [] true)
      else if qname_char c then ([], InName (n +:+ one c)) else ([], XmlError)
  | InTag n l gap =>
      if Ascii.eqb c ">" then ([XOpen n l], InContent) else if Ascii.eqb c "/" then ([], InSlash n l)
      else if Ascii.eqb c " " then ([], InTag n l true)
      else if gap && xml_name_start c then ([], InAttribute n l (one c)) else ([], XmlError)
  | InAttribute n l a =>
      if Ascii.eqb c "=" then ([], InEquals n l a)
      else if qname_char c then ([], InAttribute n l (a +:+ one c)) else ([], XmlError)
  | InEquals n l a => ([], if Ascii.eqb c DQc then InValue n l a "" else XmlError)
  | InValue n l a v =>
      if Ascii.eqb c DQc then ([], InTag n (l ++ [(a, v)]) false)
      else if Ascii.eqb c "&" then ([], InValueReference n l a v "")
      else if Nat.leb 32 (nat_of_ascii c) && negb (Ascii.eqb c "<") then ([], InValue n l a (v +:+ one c)) else ([], XmlError)
  | InValueReference n l a v b =>
      if Ascii.eqb c ";" then ([], match reference b with Some d => InValue n l a (v +:+ one d) | None => XmlError end)
      else ([], InValueReference n l a v (b +:+ one c))
  | InSlash n l => if Ascii.eqb c ">" then ([XEmpty n l], InContent) else ([], XmlError)
  | InClose n =>
      if Ascii.eqb c ">" then ([XClose n], InContent) else if qname_char c then ([], InClose (n +:+ one c)) else ([], XmlError)
  | XmlError => ([], XmlError)
  end.

Fixpoint scan_xml (st : xml_state) (s : string) : list xml_token * xml_state :=
  match s with
  | "" => ([], st)
  | String c s' => let '(t, st) := xml_step st c in let '(t', st) := scan_xml st s' in (t ++ t', st)
  end.

(** ** Elements *)

Inductive raw_tree : Type :=
| RawChar (c : ascii)
| RawElement (name : string) (attributes : list raw_attribute) (content : list raw_tree).

(** An open element: its tag and what was read before it *)
Definition frame : Type := string * list raw_attribute * list raw_tree.

(** The content of the innermost open element so far, and the open elements around it *)
Fixpoint build (done : list raw_tree) (open : list frame) (ts : list xml_token) : option (list raw_tree * list frame) :=
  match ts with
  | [] => Some (done, open)
  | XChar c :: ts' => build (done ++ [RawChar c]) open ts'
  | XEmpty n l :: ts' => build (done ++ [RawElement n l []]) open ts'
  | XOpen n l :: ts' => build [] ((n, l, done) :: open) ts'
  | XClose n :: ts' =>
      match open with
      | (n', l, before) :: open' => if String.eqb n n' then build (before ++ [RawElement n l done]) open' ts' else None
      | [] => None
      end
  end.

(** ** Namespaces *)

Inductive tree : Type :=
| Char (c : ascii)
| Tree (name namespace : string) (attributes : list (string * string * string)) (content : list tree).

(** The prefix and the local part of a name *)
Definition qname (n : string) : string * string := match cut ":" n with Some (p, x) => (p, x) | None => ("", n) end.

(** The declarations among the attributes *)
Definition declaration (a : raw_attribute) : option (string * string) :=
  if String.eqb a.1 "xmlns" then Some ("", a.2)
  else if String.eqb (qname a.1).1 "xmlns" then Some ((qname a.1).2, a.2) else None.

(** The scope inside an element *)
Definition enter (env : scope) (l : list raw_attribute) : scope := foldl (λ e x, scope_set x.1 x.2 e) env (omap declaration l).

(** The namespace of a prefix; a prefix must be declared *)
Definition lookup_prefix (env : scope) (p : string) : option string :=
  match p with
  | "" => Some (default "" (scope_get "" env))
  | _ => match scope_get p env with None | Some "" => None | Some x => Some x end
  end.

(** An attribute: its name, its namespace (none without a prefix) and its value *)
Definition resolve_attribute (env : scope) (a : raw_attribute) : option (string * string * string) :=
  match (qname a.1).1 with
  | "" => Some (a.1, "", a.2)
  | p => option_map (λ x, ((qname a.1).2, x, a.2)) (lookup_prefix env p)
  end.

Fixpoint mapM {A B} (f : A → option B) (l : list A) : option (list B) :=
  match l with [] => Some [] | x :: l' => match f x, mapM f l' with Some y, Some ys => Some (y :: ys) | _, _ => None end end.

(** No two attributes of an element have the same name and namespace. *)
Fixpoint resolve (env : scope) (x : raw_tree) : option tree :=
  match x with
  | RawChar c => Some (Char c)
  | RawElement n l content =>
      let env := enter env l in
      match lookup_prefix env (qname n).1, mapM (resolve_attribute env) (List.filter (λ a, match declaration a with Some _ => false | None => true end) l),
            mapM (resolve env) content with
      | Some ns, Some attributes, Some content =>
          if bool_decide (NoDup (fst <$> attributes)) then Some (Tree (qname n).2 ns attributes content) else None
      | _, _, _ => None
      end
  end.

(** ** Documents *)

(** The XML declaration is read past. *)
Definition skip_declaration (s : string) : string :=
  match strip_prefix xml_declaration s with Some r => r | None => s end.

Definition blank_char (x : raw_tree) : bool :=
  match x with RawChar c => Ascii.eqb c " " || Ascii.eqb c "010" | _ => false end.

Definition read_xml (s : string) : option tree :=
  match scan_xml InContent (skip_declaration s) with
  | (ts, InContent) =>
      match build [] [] ts with
      | Some (l, []) => match List.filter (λ x, negb (blank_char x)) l with
                        | [RawElement n a c] => resolve [("xml", Jv)] (RawElement n a c)
                        | _ => None
                        end
      | _ => None
      end
  | _ => None
  end.
