(* ===== verification/XmlLaws.v ===== *)
(** * The XML document that is written is the one that was asked for

    [writes x l]: the text [x] is read as the trees [l], in any content. The parts of the
    writer are shown to write what they stand for; then the names of the trees resolve to
    the namespaces the document asked for ([document_is_read_back]). *)
From S2P Require Import Prelude Css Shell Snippets Literals Lex Xml XmlReader.
#[local] Open Scope list_scope.

(** ** Reading what stands one after the other *)

Lemma scan_xml_app st a b : scan_xml st (a +:+ b) =
  let '(t, st1) := scan_xml st a in let '(t', st2) := scan_xml st1 b in (t ++ t', st2).
Proof.
  revert st. induction a as [|c a IH]; intros st.
  - change ("" +:+ b) with b. cbn [scan_xml]. by destruct (scan_xml st b).
  - change (String c a +:+ b) with (String c (a +:+ b)). cbn [scan_xml]. destruct (xml_step st c) as [t st1].
    rewrite IH. destruct (scan_xml st1 a) as [t1 st2]. destruct (scan_xml st2 b). by rewrite app_assoc.
Qed.

Lemma scan_xml_cons st c x : scan_xml st (String c x) = let '(t, st1) := xml_step st c in let '(t', st2) := scan_xml st1 x in (t ++ t', st2).
Proof. done. Qed.

Definition writes (x : string) (l : list raw_tree) : Prop :=
  ∃ ts, scan_xml InContent x = (ts, InContent) ∧ ∀ done open rest, build done open (ts ++ rest) = build (done ++ l) open rest.

Lemma writes_nil : writes "" [].
Proof. exists []. split; [done|]. intros done open rest. by rewrite app_nil_r. Qed.

Lemma writes_app x y l k : writes x l → writes y k → writes (x +:+ y) (l ++ k).
Proof.
  intros (t & Ht & Hb) (t' & Ht' & Hb'). exists (t ++ t'). split; [by rewrite scan_xml_app, Ht, Ht'|].
  intros done open rest. by rewrite <- app_assoc, Hb, Hb', app_assoc.
Qed.

Lemma writes_chars x s : scan_xml InContent x = (XChar <$> list_ascii_of_string s, InContent) → writes x (RawChar <$> list_ascii_of_string s).
Proof.
  intros H. eexists. split; [exact H|]. clear H. induction (list_ascii_of_string s) as [|c l IH]; intros done open rest; [by cbn; rewrite app_nil_r|].
  cbn. rewrite IH. by rewrite <- app_assoc.
Qed.

Lemma writes_empty x n l : scan_xml InContent x = ([XEmpty n l], InContent) → writes x [RawElement n l []].
Proof. intros H. eexists. split; [exact H|]. done. Qed.

Lemma writes_element o x c n l k : scan_xml InContent o = ([XOpen n l], InContent) → writes x k →
  scan_xml InContent c = ([XClose n], InContent) → writes (o +:+ x +:+ c) [RawElement n l k].
Proof.
  intros Ho (t & Ht & Hb) Hc. exists ([XOpen n l] ++ t ++ [XClose n]). split; [by rewrite scan_xml_app, Ho, scan_xml_app, Ht, Hc|].
  intros done open rest. rewrite <- !app_assoc. cbn. rewrite Hb. cbn. by rewrite String.eqb_refl.
Qed.

Lemma writes_blank b : blank b = true → ∃ s, writes b (RawChar <$> list_ascii_of_string s) ∧ s = b.
Proof.
  intros Hb. exists b. split; [|done]. apply writes_chars. unfold blank in Hb. induction b as [|c b IH]; [done|].
  cbn [sforall] in Hb. apply andb_true_iff in Hb as [Hc Hb]. cbn [scan_xml].
  assert (xml_step InContent c = ([XChar c], InContent)) as -> by (by apply orb_true_iff in Hc as [->%Ascii.eqb_eq| ->%Ascii.eqb_eq]).
  by rewrite IH.
Qed.

(** ** Texts *)

(** What a character becomes in a text and in an attribute *)
Definition text_escape (t : bool) (c : ascii) : string := xml_text (one c) t.

Lemma xml_text_once e t : xml_text e t = flat_map_s (text_escape t) e.
Proof.
  unfold xml_text, text_escape, replace_char. destruct t; rewrite !flat_map_flat_map; apply flat_map_ext;
    intros c; by destruct c as [[] [] [] [] [] [] [] []].
Qed.

Lemma text_scan v : Zv v = false → scan_xml InContent (xml_text v false) = (XChar <$> list_ascii_of_string v, InContent).
Proof.
  rewrite xml_text_once. unfold Zv. rewrite negb_false_iff. induction v as [|c v IH]; [done|].
  cbn [sforall flat_map_s list_ascii_of_string]. intros [Hc Hv]%andb_true_iff. rewrite scan_xml_app.
  assert (scan_xml InContent (text_escape false c) = ([XChar c], InContent)) as ->; [|by rewrite IH].
  by destruct c as [[] [] [] [] [] [] [] []].
Qed.

Lemma value_scan n l a v w : Zv v = false → scan_xml (InValue n l a w) (xml_text v true) = ([], InValue n l a (w +:+ v)).
Proof.
  rewrite xml_text_once. unfold Zv. rewrite negb_false_iff. revert w. induction v as [|c v IH]; intros w; [by cbn; rewrite sapp_nil_r|].
  cbn [sforall flat_map_s]. intros [Hc Hv]%andb_true_iff. rewrite scan_xml_app.
  assert (scan_xml (InValue n l a w) (text_escape true c) = ([], InValue n l a (w +:+ one c))) as ->.
  { by destruct c as [[] [] [] [] [] [] [] []]. }
  rewrite IH by done. by rewrite sapp_assoc.
Qed.

(** ** CDATA sections *)

Definition cr_split (s : string) : string := replace_char "013" "]]>&#13;<![CDATA[" s.

Lemma cr_split_cons c s : cr_split (String c s) = (if Ascii.eqb c "013" then "]]>&#13;<![CDATA[" else one c) +:+ cr_split s.
Proof. done. Qed.

(** Brackets that are held back are no part of the end of a section. *)
Definition no_end (k : nat) (v : string) : Prop :=
  (1 ≤ k → ∀ r, v ≠ String "]" (String ">" r))%nat ∧ (k = 2%nat → ∀ r, v ≠ String ">" r).

Lemma split_cdata_other c s : (∀ r, String c s ≠ String "]" (String "]" (String ">" r))) → split_cdata (String c s) = String c (split_cdata s).
Proof.
  intros H. cbn [split_cdata]. destruct (decide (c = "]"%char)) as [->|Hc]; [|by destruct c as [[] [] [] [] [] [] [] []]].
  destruct s as [|d s]; [done|]. destruct (decide (d = "]"%char)) as [->|Hd]; [|by destruct d as [[] [] [] [] [] [] [] []]].
  destruct s as [|d s]; [done|]. destruct (decide (d = ">"%char)) as [->|Hd]; [by destruct (H s)|].
  by destruct d as [[] [] [] [] [] [] [] []].
Qed.

Lemma brackets_scan k x : (k ≤ 2)%nat → scan_xml (InCdata k) (String "]" x) =
  let '(t, st) := scan_xml (InCdata (if Nat.eqb k 2 then 2 else S k)) x in ((if Nat.eqb k 2 then [XChar "]"] else []) ++ t, st).
Proof. intros Hk. cbn [scan_xml xml_step]. destruct (Nat.eqb k 2); cbn; by destruct (scan_xml _ x). Qed.

(** The end of a section gives the brackets held back. *)
Lemma section_end k x : (k ≤ 2)%nat → scan_xml (InCdata k) ("]]>" +:+ x) =
  let '(t, st) := scan_xml InContent x in (brackets k ++ t, st).
Proof.
  intros Hk. change ("]]>" +:+ x) with (String "]" (String "]" (String ">" x))).
  destruct k as [|[|[|k]]]; [| | |lia]; cbn; by destruct (scan_xml InContent x).
Qed.

Lemma section_start x : scan_xml InContent ("<![CDATA[" +:+ x) = scan_xml (InCdata 0) x.
Proof. rewrite scan_xml_app. assert (scan_xml InContent "<![CDATA[" = ([], InCdata 0)) as -> by (vm_compute; done). by destruct (scan_xml (InCdata 0) x). Qed.

Lemma cdata_scan v : sforall xml_char v = true → ∀ k, (k ≤ 2)%nat → no_end k v →
  scan_xml (InCdata k) (cr_split (split_cdata v) +:+ "]]>") = (brackets k ++ (XChar <$> list_ascii_of_string v), InContent).
Proof.
  intros Hv. remember (String.length v) as n eqn:Hn. revert v Hv Hn.
  induction n as [n IH] using lt_wf_ind. intros v Hv Hn k Hk Hend.
  destruct v as [|c v]; [destruct k as [|[|[|k]]]; [done..|lia]|].
  cbn [sforall] in Hv. apply andb_true_iff in Hv as [Hc Hv].
  assert ((∃ r, String c v = String "]" (String "]" (String ">" r))) ∨ ∀ r, String c v ≠ String "]" (String "]" (String ">" r))) as [(r & E)|Hr].
  { destruct (String c v) as [|c1 [|c2 [|c3 r]]]; [by right..|].
    destruct (decide (c1 = "]"%char ∧ c2 = "]"%char ∧ c3 = ">"%char)) as [(-> & -> & ->)|H]; [left; by exists r|right].
    intros r' [= -> -> -> _]. apply H. by split_and!. }
  - injection E as -> ->. cbn [sforall] in Hv. change (split_cdata (String "]" (String "]" (String ">" r)))) with ("]]]]><![CDATA[>" +:+ split_cdata r).
    unfold cr_split, replace_char. rewrite flat_map_app. fold (replace_char "013" "]]>&#13;<![CDATA[" (split_cdata r)). fold (cr_split (split_cdata r)).
    change (flat_map_s (λ c, if Ascii.eqb c "013" then "]]>&#13;<![CDATA[" else one c) "]]]]><![CDATA[>") with "]]]]><![CDATA[>".
    rewrite sapp_assoc. cbn [String.length] in Hn.
    assert (scan_xml (InCdata 0) (String ">" (cr_split (split_cdata r) +:+ "]]>")) = (XChar ">" :: (XChar <$> list_ascii_of_string r), InContent)) as Hrest.
    { rewrite scan_xml_cons. change (xml_step (InCdata 0) ">") with ([XChar ">"], InCdata 0). cbv iota beta. rewrite (IH (String.length r)); [done|lia|by cbn in Hv; rewrite !andb_true_l in Hv|done|lia|].
      split; [lia|done]. }
    change ("]]]]><![CDATA[>" +:+ cr_split (split_cdata r) +:+ "]]>") with
      (String "]" (String "]" ("]]>" +:+ "<![CDATA[" +:+ String ">" (cr_split (split_cdata r) +:+ "]]>")))).
    destruct k as [|[|[|k]]]; [| | |lia]; rewrite !brackets_scan by (cbn; lia); cbn [Nat.eqb]; rewrite section_end, section_start, Hrest by lia; done.
  - rewrite split_cdata_other, cr_split_cons by done. cbn [String.length] in Hn.
    destruct (Ascii.eqb_spec c "013") as [->|Hcr].
    + change (("]]>&#13;<![CDATA[" +:+ cr_split (split_cdata v)) +:+ "]]>") with
        ("]]>" +:+ "&#13;" +:+ "<![CDATA[" +:+ (cr_split (split_cdata v) +:+ "]]>")).
      rewrite section_end by done. rewrite scan_xml_app. change (scan_xml InContent "&#13;") with ([XChar "013"], InContent). cbv iota beta.
      rewrite section_start, (IH (String.length v)); [done|lia|done|done|lia|]. split; [lia|done].
    + change ((one c +:+ cr_split (split_cdata v)) +:+ "]]>") with (String c (cr_split (split_cdata v) +:+ "]]>")).
      destruct (decide (c = "]"%char)) as [->|Hb].
      * rewrite brackets_scan by done. destruct Hend as [H1 H2].
        rewrite (IH (String.length v)); [|lia|done|done|destruct (Nat.eqb_spec k 2); lia|].
        { destruct k as [|[|[|k]]]; [done..|lia]. }
        split.
        -- intros _ x ->. by destruct (Hr x).
        -- intros Hk2 x ->. destruct (decide (1 ≤ k)%nat) as [Hk1|Hk1]; [by destruct (H1 Hk1 x)|].
           destruct k; [done|lia].
      * rewrite scan_xml_cons. cbn [xml_step]. rewrite (proj2 (Ascii.eqb_neq c "]") Hb).
        assert (Ascii.eqb c ">" && Nat.eqb k 2 = false) as ->.
        { destruct (Nat.eqb_spec k 2) as [->|]; [|by rewrite andb_false_r]. rewrite andb_true_r. apply Ascii.eqb_neq. intros ->.
          by destruct Hend as [_ Hend]; destruct (Hend eq_refl v). }
        rewrite (proj2 (Ascii.eqb_neq c "013") Hcr), Hc. cbn [negb andb].
        rewrite (IH (String.length v)); [by rewrite <- app_assoc|lia|done|done|lia|]. split; [lia|done].
Qed.

Lemma cdata_writes v : Zv v = false → writes (cdata_text v) (RawChar <$> list_ascii_of_string v).
Proof.
  unfold Zv. rewrite negb_false_iff. intros Hv. apply writes_chars. unfold cdata_text.
  rewrite section_start. apply (cdata_scan v Hv 0); [lia|]. split; [lia|done].
Qed.

(** ** Names and tags *)

Definition qname_ok (n : string) : bool :=
  match n with String c x => xml_name_start c && sforall qname_char x | "" => false end.

Lemma name_char_qname c : xml_name_char c = true → qname_char c = true.
Proof. unfold qname_char. by intros ->. Qed.

Lemma start_char_qname c : xml_name_start c = true → qname_char c = true.
Proof. unfold qname_char, xml_name_char. by intros ->. Qed.

Lemma qname_char_plain c : qname_char c = true →
  Ascii.eqb c ">" = false ∧ Ascii.eqb c "/" = false ∧ Ascii.eqb c " " = false ∧ Ascii.eqb c "=" = false.
Proof. by destruct c as [[] [] [] [] [] [] [] []]. Qed.

(** A state that collects the characters of a name *)
Lemma collect (f : string → xml_state) x : (∀ y c, qname_char c = true → xml_step (f y) c = ([], f (y +:+ one c))) →
  ∀ y, sforall qname_char x = true → scan_xml (f y) x = ([], f (y +:+ x)).
Proof.
  intros Hf. induction x as [|c x IH]; intros y Hx; [by rewrite sapp_nil_r|].
  cbn [sforall] in Hx. apply andb_true_iff in Hx as [Hc Hx]. rewrite scan_xml_cons, Hf, IH by done. by rewrite sapp_assoc.
Qed.

Lemma name_scan y x : sforall qname_char x = true → scan_xml (InName y) x = ([], InName (y +:+ x)).
Proof. apply (collect InName). intros z c Hc. cbn. destruct (qname_char_plain c Hc) as (-> & -> & -> & _). by rewrite Hc. Qed.

Lemma start_scan n : qname_ok n = true → scan_xml InContent ("<" +:+ n) = ([], InName n).
Proof.
  destruct n as [|c n]; [done|]. cbn [qname_ok]. intros [Hc Hn]%andb_true_iff.
  change ("<" +:+ String c n) with (String "<" (String c n)). rewrite scan_xml_cons. change (xml_step InContent "<") with (@nil xml_token, InMarkup).
  cbv iota beta. rewrite scan_xml_cons. assert (xml_step InMarkup c = ([], InName (one c))) as ->.
  { clear Hn. by destruct c as [[] [] [] [] [] [] [] []]. }
  cbv iota beta. by rewrite name_scan.
Qed.

(** What stands behind the name and the attributes read so far *)
Definition in_tag (n : string) (l : list raw_attribute) : xml_state := match l with [] => InName n | _ => InTag n l false end.

Lemma attribute_scan n l a v : qname_ok a = true → Zv v = false →
  scan_xml (in_tag n l) (attribute_text a (xml_text v true)) = ([], in_tag n (l ++ [(a, v)])).
Proof.
  intros Ha Hv. destruct a as [|c a]; [done|]. cbn [qname_ok] in Ha. apply andb_true_iff in Ha as [Hc Ha]. unfold attribute_text.
  change (" " +:+ String c a +:+ "=" +:+ quote_char +:+ xml_text v true +:+ quote_char) with
    (String " " (String c (a +:+ String "=" (String DQc (xml_text v true +:+ quote_char))))).
  rewrite scan_xml_cons. assert (xml_step (in_tag n l) " " = ([], InTag n l true)) as -> by (by destruct l). cbv iota beta.
  rewrite scan_xml_cons. assert (xml_step (InTag n l true) c = ([], InAttribute n l (one c))) as ->.
  { cbn. destruct (qname_char_plain c (start_char_qname c Hc)) as (-> & -> & -> & _). by rewrite Hc. }
  cbv iota beta. rewrite scan_xml_app, (collect (InAttribute n l)); [|clear|done].
  - cbv iota beta. rewrite scan_xml_cons. cbn [xml_step]. rewrite Ascii.eqb_refl. cbv iota beta. rewrite scan_xml_cons. cbn [xml_step].
    rewrite Ascii.eqb_refl. cbv iota beta. rewrite scan_xml_app, value_scan by done. cbv iota beta. cbn. by destruct l.
  - intros y d Hd. cbn. destruct (qname_char_plain d Hd) as (_ & _ & _ & ->). by rewrite Hd.
Qed.

Lemma open_scan n l : scan_xml (in_tag n l) ">" = ([XOpen n l], InContent).
Proof. by destruct l. Qed.

Lemma empty_scan n l : scan_xml (in_tag n l) "/>" = ([XEmpty n l], InContent).
Proof. by destruct l. Qed.

Lemma close_scan n : qname_ok n = true → scan_xml InContent ("</" +:+ n +:+ ">") = ([XClose n], InContent).
Proof.
  intros Hn. change ("</" +:+ n +:+ ">") with (String "<" (String "/" (n +:+ ">"))). rewrite !scan_xml_cons.
  change (xml_step InContent "<") with (@nil xml_token, InMarkup). cbv iota beta. rewrite scan_xml_cons.
  change (xml_step InMarkup "/") with (@nil xml_token, InClose ""). cbv iota beta. rewrite scan_xml_app, (collect InClose).
  - done.
  - intros y c Hc. cbn. destruct (qname_char_plain c Hc) as (-> & _). by rewrite Hc.
  - destruct n as [|c n]; [done|]. cbn in *. apply andb_true_iff in Hn as [Hc Hn]. by rewrite start_char_qname.
Qed.

(** ** Maps *)

Lemma scope_get_set k v u x : scope_get x (scope_set k v u) = if String.eqb k x then Some v else scope_get x u.
Proof.
  induction u as [|[k' v'] u IH]; [done|]. cbn. destruct (String.eqb_spec k' k) as [->|Hk]; cbn.
  - by destruct (String.eqb k x).
  - rewrite IH. destruct (String.eqb_spec k' x) as [->|]; [|done]. by rewrite (proj2 (String.eqb_neq k x)) by congruence.
Qed.

Lemma scope_set_keys k v u x : x ∈ fst <$> scope_set k v u ↔ x = k ∨ x ∈ fst <$> u.
Proof.
  induction u as [|[k' v'] u IH]; cbn; [by rewrite list_elem_of_singleton, elem_of_nil; tauto|].
  destruct (String.eqb_spec k' k) as [->|Hk]; cbn; rewrite !elem_of_cons; [tauto|]. rewrite IH. tauto.
Qed.

Lemma scope_set_NoDup k v u : NoDup (fst <$> u) → NoDup (fst <$> scope_set k v u).
Proof.
  induction u as [|[k' v'] u IH]; cbn; [intros _; apply NoDup_singleton|]. intros [H1 H2]%NoDup_cons.
  destruct (String.eqb_spec k' k) as [->|Hk]; cbn; apply NoDup_cons; [done|]. split; [|by apply IH].
  rewrite scope_set_keys. by intros [->|H].
Qed.

Lemma scope_get_None x u : x ∉ fst <$> u → scope_get x u = None.
Proof.
  induction u as [|[k v] u IH]; [done|]. cbn. intros [H1 H2]%not_elem_of_cons. rewrite (proj2 (String.eqb_neq k x)) by done. by apply IH.
Qed.

Lemma foldl_set_get d env x : NoDup (fst <$> d) →
  scope_get x (foldl (λ e y, scope_set y.1 y.2 e) env d) = match scope_get x d with Some v => Some v | None => scope_get x env end.
Proof.
  revert env. induction d as [|[k v] d IH]; intros env; [done|]. cbn. intros [H1 H2]%NoDup_cons. rewrite IH, scope_get_set by done.
  destruct (String.eqb_spec k x) as [->|]; [|done]. by rewrite scope_get_None.
Qed.

(** * The names of a written document

    What the maps of the writer ([m], [attributes_text], [declarations_text] of Xml.v)
    guarantee when nothing is reported: every name is written with a prefix that stands
    for its namespace where it is read. [naming_ok] is the invariant of the maps of one
    element, [item_ok] what is known of a name that was written. *)

(** ** Diagnostics *)

Definition quiet (st : writer) : Prop := diagnostics st = [].

Lemma quiet_r_if b e st : quiet (r_if b e st) → b = false ∧ quiet st.
Proof. unfold quiet. by destruct b. Qed.

Lemma i_ok e t st v st' : i e t st = (v, st') → v = xml_text e t ∧ (quiet st' → Zv e = false ∧ quiet st).
Proof. unfold i. intros H. split; [by apply pair_equal_spec in H as [<- _]|]. apply pair_equal_spec in H as [_ <-]. apply quiet_r_if. Qed.

(** ** Invented prefixes *)

Lemma format_int_unique a b : format_int a = format_int b → a = b.
Proof.
  intros E. pose proof (format_int_digits a) as Ha. rewrite E, format_int_digits in Ha. injection Ha as Ha.
  rewrite <- (DecimalZ.of_to a), <- (DecimalZ.of_to b). by rewrite Ha.
Qed.

Definition invented_name (a : nat) : string := "ns" +:+ format_int (Z.of_nat a).

Lemma invented_name_inj a b : invented_name a = invented_name b → a = b.
Proof. unfold invented_name. intros E%sapp_inj_l%format_int_unique. lia. Qed.

Lemma invent_None f u p a : invent f u p a = None → ∀ j, (a < j ≤ a + f)%nat → invented_name j ∈ (fst <$> u) ++ p.
Proof.
  revert a. induction f as [|f IH]; intros a Hi j Hj; [lia|]. cbn [invent] in Hi. fold (invented_name (S a)) in Hi.
  destruct (_ || _) eqn:E; [|done]. destruct (decide (j = S a)) as [->|Hne]; [|apply (IH (S a)); [done|lia]].
  apply elem_of_app. apply orb_true_iff in E as [E|E].
  - left. apply bool_decide_eq_true in E as [v Hv]. destruct (decide (invented_name (S a) ∈ fst <$> u)) as [|H]; [done|].
    by rewrite scope_get_None in Hv.
  - right. apply existsb_exists in E as (x & Hx & E%String.eqb_eq). rewrite E. by apply list_elem_of_In.
Qed.

(** There is always a prefix that is free. *)
Lemma invent_Some u p a : ∃ n b, invent (S (length u + length p)) u p a = Some (n, b).
Proof.
  destruct (invent (S (length u + length p)) u p a) as [[n b]|] eqn:E; [by exists n, b|]. exfalso.
  pose proof (invent_None _ _ _ _ E) as H. set (f := S (length u + length p)) in *.
  assert (NoDup (invented_name <$> seq (S a) f)) as Hn.
  { apply NoDup_fmap_2; [intros x y; apply invented_name_inj|apply NoDup_seq]. }
  assert (invented_name <$> seq (S a) f ⊆ (fst <$> u) ++ p) as Hs.
  { intros x (j & -> & Hj)%list_elem_of_fmap. apply elem_of_seq in Hj. apply H. lia. }
  apply NoDup_submseteq in Hs; [|done]. apply submseteq_length in Hs. rewrite length_fmap, length_seq, length_app, length_fmap in Hs. lia.
Qed.

Lemma invent_name f u p a n b : invent f u p a = Some (n, b) → ∃ j, n = invented_name j.
Proof. revert a. induction f as [|f IH]; intros a; [done|]. cbn [invent]. destruct (_ || _); [by apply IH|]. intros [= <- _]. by exists (S a). Qed.

Lemma invented_ok j : Xv (invented_name j) = true ∧ invented_name j ≠ "" ∧ invented_name j ≠ "xmlns".
Proof.
  split_and!; [|done|done]. unfold invented_name. change ("ns" +:+ format_int (Z.of_nat j)) with (String "n" (String "s" (format_int (Z.of_nat j)))).
  cbn [Xv sforall]. change (xml_name_start "n" && (xml_name_char "s" && sforall xml_name_char (format_int (Z.of_nat j)))) with (sforall xml_name_char (format_int (Z.of_nat j))).
  apply sforall_format; [|done]. intros c. by destruct c as [[] [] [] [] [] [] [] []].
Qed.

(** ** The maps of an element *)

Definition prefix_ok (n : string) : Prop := n = "" ∨ Xv n = true ∧ n ≠ "xmlns".
Definition scope_ok (u : scope) : Prop := ∀ x v, scope_get x u = Some v → prefix_ok x.
Definition ns_of (u : scope) (n : string) : string := default "" (scope_get n u).

Record naming_ok (t : scope) (k : naming) : Prop := {
  n_scope x : scope_get x (in_scope k) = match scope_get x (declared k) with Some v => Some v | None => scope_get x t end;
  n_used x j : scope_get x (used k) = Some j → ns_of (in_scope k) x = j;
  n_ok : scope_ok (in_scope k);
  n_declared x : scope_get x (used k) = None → scope_get x (declared k) = None;
  n_distinct : NoDup (fst <$> declared k) }.

Definition keeps (k k' : naming) : Prop := ∀ x j, scope_get x (used k) = Some j → scope_get x (used k') = Some j.

Lemma scope_member (u : scope) k v : (k, v) ∈ u → is_Some (scope_get k u).
Proof.
  induction u as [|[k' v'] u IH]; [by intros ?%elem_of_nil|]. intros [[= -> ->]|H]%elem_of_cons; cbn.
  - by rewrite String.eqb_refl.
  - destruct (String.eqb k' k); [done|by apply IH].
Qed.

Lemma find_prefix_ok i u : scope_ok u → prefix_ok (find_prefix i u).
Proof.
  intros Hu. unfold find_prefix. destruct (List.find _ u) as [[k v]|] eqn:E; [|by left].
  apply find_some in E as [Hin _]. apply list_elem_of_In, scope_member in Hin as [w Hw]. by eapply Hu.
Qed.

(** A name was written with the prefix [n] for the namespace [i]. *)
Record item_ok (k : naming) (t : bool) (name : string) (namespace prefix : option string) (n i : string) : Prop := {
  i_name : Xv name = true;
  i_prefix : prefix_ok n;
  i_plain : t = true → n = "" → name ≠ "xmlns" ∧ i = "";
  i_bound : n ≠ "" → i ≠ "";
  i_used : t = false ∨ n ≠ "" → scope_get n (used k) = Some i;
  i_given : t = true → match namespace, prefix with Some x, _ => i = x | None, None => i = "" | None, Some _ => i ≠ "" end }.

(** The prefix an element is written with: the one it asks for *)
Definition head_prefix (prefix : option string) (i : string) : string :=
  if String.eqb i Jv && String.eqb (default "" prefix) "" then "xml" else default "" prefix.

Record head_ok (k : naming) (namespace prefix : option string) (n i : string) : Prop := {
  h_prefix : n = head_prefix prefix i;
  h_given : match namespace, prefix with
            | Some x, _ => i = x
            | None, None => i = ns_of (in_scope k) ""
            | None, Some x => i = ns_of (in_scope k) x ∧ i ≠ ""
            end }.

Lemma item_keeps k k' t name ns px n i : keeps k k' → item_ok k t name ns px n i → item_ok k' t name ns px n i.
Proof. intros Hk []. split; auto. Qed.

Definition qualified (n name : string) : string := if String.eqb n "" then name else n +:+ ":" +:+ name.

(** The last part of m: the maps take up the name *)
Lemma take_up t u k n i st k' st' : prefix_ok n → naming_ok u k →
  (if negb t || negb (String.eqb n "") then
      let st := r_if (match scope_get n (used k) with Some j => negb (String.eqb j i) | None => false end) NamespaceConflict st in
      let f := scope_set n i (used k) in
      if String.eqb (default "" (scope_get n (in_scope k))) i then (Naming (in_scope k) (declared k) f, st)
      else (Naming (scope_set n i (in_scope k)) (scope_set n i (declared k)) f, st)
   else (k, st)) = (k', st') → quiet st' →
  quiet st ∧ naming_ok u k' ∧ keeps k k' ∧ (t = false ∨ n ≠ "" → scope_get n (used k') = Some i) ∧
  ((n = "" → t = true) → scope_get "" (used k') = scope_get "" (used k)).
Proof.
  intros Hn [Hs Hu Ho Hc Hd]. destruct (negb t || negb (String.eqb n "")) eqn:Et.
  2: { intros [= <- <-] Hq. split_and!; [done|done|by intros x j| |done]. apply orb_false_iff in Et as [E1%negb_false_iff E2%negb_false_iff%String.eqb_eq].
       intros [H|H]; congruence. }
  cbn zeta. set (b := match scope_get n (used k) with Some j => negb (String.eqb j i) | None => false end).
  assert (∀ k'', used k'' = scope_set n i (used k) → b = false → keeps k k'') as Hkeeps.
  { intros k'' Hk Hb x j Hx. rewrite Hk, scope_get_set. destruct (String.eqb_spec n x) as [->|]; [|done].
    unfold b in Hb. rewrite Hx in Hb. apply negb_false_iff, String.eqb_eq in Hb. by subst. }
  assert (∀ k'', used k'' = scope_set n i (used k) → scope_get n (used k'') = Some i) as Hset.
  { intros k'' Hk. by rewrite Hk, scope_get_set, String.eqb_refl. }
  assert ((n = "" → t = true) → scope_get "" (scope_set n i (used k)) = scope_get "" (used k)) as Hnone.
  { intros H. rewrite scope_get_set. destruct (String.eqb_spec n "") as [E|]; [|done]. by rewrite (H E) in Et. }
  destruct (String.eqb_spec (default "" (scope_get n (in_scope k))) i) as [E|E]; intros [= <- <-] [Hb Hq]%quiet_r_if;
    (split_and!; [done| |by apply Hkeeps|by intros _; apply Hset|done]); split; cbn [in_scope declared used].
  - apply Hs.
  - intros x j. rewrite scope_get_set. destruct (String.eqb_spec n x) as [->|]; [|apply Hu]. by intros [= <-].
  - done.
  - intros x. rewrite scope_get_set. destruct (String.eqb n x); [done|apply Hc].
  - done.
  - intros x. rewrite !scope_get_set. by destruct (String.eqb n x).
  - intros x j. unfold ns_of. rewrite !scope_get_set. destruct (String.eqb_spec n x) as [->|]; [by intros [= <-]|apply Hu].
  - intros x v. rewrite scope_get_set. destruct (String.eqb_spec n x) as [->|]; [by intros _|apply Ho].
  - intros x. rewrite !scope_get_set. destruct (String.eqb n x); [done|apply Hc].
  - by apply scope_set_NoDup.
Qed.

Lemma m_quiet p name ns px t k st w i k' st' : m p name ns px t k st = (w, i, k', st') → quiet st' → quiet st.
Proof.
  unfold m. set (st4 := r_if _ UnboundPrefix _). intros H Hq.
  assert (quiet st4) as [_ [_ [_ [_ Q]%quiet_r_if]%quiet_r_if]%quiet_r_if]%quiet_r_if; [|done].
  clearbody st4. revert H Hq. repeat case_match; intros; simplify_eq; by repeat match goal with H : quiet (r_if _ _ _) |- _ => apply quiet_r_if in H as [_ H] end.
Qed.

Lemma m_ok p name ns px t k st w i k' st' u : m p name ns px t k st = (w, i, k', st') → quiet st' → naming_ok u k →
  quiet st ∧ naming_ok u k' ∧ keeps k k' ∧
  ∃ n, w = qualified n name ∧ ((n = "" → t = true) → scope_get "" (used k') = scope_get "" (used k)) ∧ item_ok k' t name ns px n i ∧ (t = false → head_ok k ns px n i).
Proof.
  intros Hm Hq Hk. unfold m in Hm.
  set (i0 := match ns with Some i => i | None => _ end) in Hm.
  set (n0 := default "" px) in *. set (st1 := r_if (_ || _) InvalidName st) in Hm.
  set (st2 := r_if (_ || _) ReservedNamespace st1) in Hm.
  set (n1 := if String.eqb i0 Jv && String.eqb n0 "" then "xml" else n0) in Hm.
  set (st3 := r_if _ ReservedNamespace st2) in Hm. set (st4 := r_if _ UnboundPrefix st3) in Hm.
  match type of Hm with context [if t && negb (String.eqb i0 "") && String.eqb n1 "" then ?a else ?b] =>
    destruct (if t && negb (String.eqb i0 "") && String.eqb n1 "" then a else b) as [n2 st5] eqn:E2 end.
  match type of Hm with context [if negb t || negb (String.eqb n2 "") then ?a else ?b] =>
    destruct (if negb t || negb (String.eqb n2 "") then a else b) as [k2 st6] eqn:E6 end.
  injection Hm as <- <- <- <-.
  (* what the checks rule out, once the prefix is known *)
  assert (quiet st5 → quiet st4) as H54.
  { revert E2. clear. destruct (t && negb (String.eqb i0 "") && String.eqb n1 ""); [|by intros [= _ <-]].
    destruct (find_prefix _ _); [|by intros [= _ <-]]. destruct (invent _ _ _ _) as [[n b]|]; by intros [= _ <-]. }
  assert (quiet st4 → quiet st ∧ Xv name = true ∧ prefix_ok n1 ∧ (px ≠ None → n0 ≠ "" ∧ n1 ≠ "") ∧ (n1 ≠ "" → i0 ≠ "") ∧ (t = true → n1 = "" → name ≠ "xmlns")) as H4.
  { intros [B4 [B3 [B2 [B1 Q]%quiet_r_if]%quiet_r_if]%quiet_r_if]%quiet_r_if.
    apply orb_false_iff in B1 as [B1 B1'], B2 as [[B2 B2']%orb_false_iff B2'']. apply negb_false_iff in B1.
    assert (px ≠ None → Xv n0 = true ∧ n0 ≠ "") as Hpx.
    { subst n0. destruct px as [x|]; [|done]. intros _. cbn. apply negb_false_iff in B1'. split; [done|by intros ->]. }
    assert (px = None → n0 = "") as Hnone by (by subst n0; intros ->).
    split_and!; [done|done| | | |].
    - unfold n1. clearbody i0 n0. destruct (String.eqb i0 Jv && String.eqb n0 ""); [right; by split|]. apply String.eqb_neq in B2.
      destruct px as [x|]; [right; split; [by apply Hpx|done]|left; by apply Hnone].
    - intros H. apply Hpx in H as [H1 H2]. split; [done|]. unfold n1. clearbody i0 n0. by destruct (String.eqb i0 Jv && String.eqb n0 "").
    - intros H. apply andb_false_iff in B4 as [B4|B4]; [by apply negb_false_iff, String.eqb_eq in B4|by apply String.eqb_neq].
    - intros -> Hn1. assert (n0 = "") as Hn0 by (unfold n1 in Hn1; clearbody i0 n0; by destruct (String.eqb i0 Jv && String.eqb n0 "")).
      rewrite Hn0 in B2''. by apply String.eqb_neq in B2''. }
  assert (quiet st5 → prefix_ok n2 ∧ (n2 ≠ "" → i0 ≠ "") ∧ (t = true → n2 = "" → name ≠ "xmlns" ∧ i0 = "") ∧ (t = false → n2 = n1)) as H5.
  { intros Q. destruct (H4 (H54 Q)) as (_ & _ & O1 & _ & B & P).
    destruct (t && negb (String.eqb i0 "") && String.eqb n1 "") eqn:Et.
    - apply andb_true_iff in Et as [[-> Hi%negb_true_iff%String.eqb_neq]%andb_true_iff Hn%String.eqb_eq].
      assert (prefix_ok n2 ∧ n2 ≠ "") as [Hn2 Hn2']; [|by split_and!].
      pose proof (find_prefix_ok i0 (in_scope k) (n_ok _ _ Hk)) as Hf. destruct (find_prefix i0 (in_scope k)) as [|c x] eqn:Ef.
      + destruct (invent_Some (in_scope k) p (invented st4)) as (n & b & Ei). rewrite Ei in E2. injection E2 as <- _.
        apply invent_name in Ei as [j ->]. destruct (invented_ok j) as (? & ? & ?). by split; [right|].
      + injection E2 as <- _. by split.
    - injection E2 as <- _. split_and!; [done|done| |done]. intros -> Hn. split; [by apply P|]. rewrite Hn in Et. cbn in Et. rewrite andb_true_r in Et.
      by apply negb_false_iff, String.eqb_eq in Et. }
  destruct (decide (quiet st5)) as [Q5|Q5].
  - destruct (H5 Q5) as (O2 & B2 & P2 & E). destruct (H4 (H54 Q5)) as (Q & Hx & _ & Hpx & Bx & _).
    destruct (take_up t u k n2 i0 st5 k2 st6 O2 Hk E6 Hq) as (_ & Hk2 & Hkeep & Hused & Hdefault).
    split_and!; [done|done|done|]. exists n2. split; [done|]. split; [done|]. split.
    + split; try done. intros Ht. subst i0. destruct ns as [x|]; [done|]. destruct px as [x|]; [|by rewrite Ht].
      by apply Bx, Hpx.
    + intros Ht. split; [by rewrite (E Ht)|]. subst i0 n0. destruct ns as [x|]; [done|]. unfold ns_of. rewrite Ht in *.
      destruct px as [x|]; cbn [default] in *; [|by destruct (scope_get "" (in_scope k))].
      destruct Hpx as [H0 H1]; [done|]. apply Bx in H1. unfold id in *. rewrite (proj2 (String.eqb_neq x "") H0) in *.
      split; [by destruct (scope_get x (in_scope k))|done].
  - exfalso. apply Q5. revert E6 Hq. clear. destruct (_ || _); [|by intros [= _ <-]].
    destruct (String.eqb (default "" _) _); intros [= _ <-] Hq; by apply quiet_r_if in Hq as [_ Hq].
Qed.

(** ** Names as they are written *)

Lemma Xv_chars n : Xv n = true → n ≠ "" ∧ sforall xml_name_char n = true.
Proof.
  destruct n as [|c n]; [done|]. cbn. intros [Hc Hn]%andb_true_iff. split; [done|]. rewrite Hn. unfold xml_name_char. by rewrite Hc.
Qed.

Lemma Xv_lacks n : Xv n = true → lacks ":" n = true.
Proof. intros [_ H]%Xv_chars. revert H. apply sforall_impl. by intros [[] [] [] [] [] [] [] []]. Qed.

Lemma cut_none sep s : lacks sep s = true → cut (String sep "") s = None.
Proof.
  intros H. destruct (cut (String sep "") s) as [[a b]|] eqn:E; [|done]. apply cut_Some in E. exfalso.
  unfold lacks in H. rewrite E, !sforall_app in H. cbn -[Ascii.eqb] in H. by rewrite Ascii.eqb_refl, andb_false_r in H.
Qed.

Definition plain_prefix (n : string) : Prop := n = "" ∨ Xv n = true.

Lemma prefix_plain n : prefix_ok n → plain_prefix n.
Proof. intros [|[? _]]; [by left|by right]. Qed.

Lemma qualified_ok n name : plain_prefix n → Xv name = true → qname_ok (qualified n name) = true.
Proof.
  intros Hn Hx. unfold qualified. destruct (String.eqb_spec n "") as [->|Hne].
  - destruct name as [|c name]; [done|]. cbn in *. apply andb_true_iff in Hx as [-> Hx].
    by rewrite (sforall_impl _ _ _ name_char_qname Hx).
  - destruct Hn as [|Hn]; [done|]. destruct n as [|c n]; [done|]. cbn in Hn. apply andb_true_iff in Hn as [Hc Hn].
    change (String c n +:+ ":" +:+ name) with (String c (n +:+ ":" +:+ name)). cbn [qname_ok]. rewrite Hc, !sforall_app.
    rewrite (sforall_impl _ _ _ name_char_qname Hn). by rewrite (sforall_impl _ _ _ name_char_qname (proj2 (Xv_chars _ Hx))).
Qed.

Lemma qname_qualified n name : plain_prefix n → Xv name = true → qname (qualified n name) = (n, name).
Proof.
  intros Hn Hx. unfold qname, qualified. destruct (String.eqb_spec n "") as [->|Hne].
  - by rewrite (cut_none ":" name (Xv_lacks _ Hx)).
  - destruct Hn as [|Hn]; [done|]. change (n +:+ ":" +:+ name) with (n +:+ String ":" name). by rewrite (cut_lacks ":" n name (Xv_lacks _ Hn)).
Qed.

(** ** Attributes *)

Definition raw_item (e : attribute) (x : string * string) : raw_attribute := (qualified x.1 (at_name e), at_value e).
Definition item_key (e : attribute) (x : string * string) : string := x.2 +:+ String "000" (at_name e).
Definition attribute_ok (k : naming) (e : attribute) (x : string * string) : Prop :=
  item_ok k true (at_name e) (at_namespace e) (at_prefix e) x.1 x.2.

(** What was written: it is read back, the names are those asked for, no two are the same *)
Record attributes_ok (l : list attribute) (g : list string) (k k' : naming) (x : string) (items : list (string * string)) : Prop := {
  a_keeps : keeps k k';
  a_default : scope_get "" (used k') = scope_get "" (used k);
  a_items : Forall2 (attribute_ok k') l items;
  a_text n0 l0 : scan_xml (in_tag n0 l0) x = ([], in_tag n0 (l0 ++ zip_with raw_item l items));
  a_distinct : NoDup (zip_with item_key l items);
  a_fresh : Forall (λ y, y ∉ g) (zip_with item_key l items) }.

Lemma attributes_quiet p l : ∀ g k st x k' st', attributes_text p l g k st = (x, k', st') → quiet st' → quiet st.
Proof.
  induction l as [|e l IH]; intros g k st x k' st' H Hq; cbn [attributes_text] in H; [by injection H as _ _ <-|].
  destruct (m _ _ _ _ _ k st) as [[[tn ns] k1] st1] eqn:Em. destruct (i _ _ _) as [v st2] eqn:Ei.
  destruct (attributes_text p l _ k1 st2) as [[x2 k2] st3] eqn:Ea. injection H as _ _ <-.
  apply i_ok in Ei as [_ Ei]. apply IH, Ei in Ea as [_ [_ Ea]%quiet_r_if]; [|done]. by eapply m_quiet.
Qed.

Lemma attributes_text_ok p l u : ∀ g k st x k' st', attributes_text p l g k st = (x, k', st') → quiet st' → naming_ok u k →
  quiet st ∧ naming_ok u k' ∧ ∃ items, attributes_ok l g k k' x items.
Proof.
  induction l as [|e l IH]; intros g k st x k' st' H Hq Hk; cbn [attributes_text] in H.
  { injection H as <- <- <-. split_and!; [done|done|]. exists []. split; cbn [zip_with]; try done; try apply NoDup_nil_2.
    1: by intros y j. intros n0 l0. by rewrite app_nil_r. }
  destruct (m _ _ _ _ _ k st) as [[[tn ns] k1] st1] eqn:Em. destruct (i _ _ _) as [v st2] eqn:Ei.
  destruct (attributes_text p l _ k1 st2) as [[x2 k2] st3] eqn:Ea. injection H as <- <- <-. apply i_ok in Ei as [-> Ei].
  destruct (Ei (attributes_quiet _ _ _ _ _ _ _ _ Ea Hq)) as [Hv [Hg Hq1]%quiet_r_if].
  destruct (m_ok _ _ _ _ _ _ _ _ _ _ _ u Em Hq1 Hk) as (Hq0 & Hk1 & Hkeep & n & -> & Hd & Hi & _).
  destruct (IH _ _ _ _ _ _ Ea Hq Hk1) as (_ & Hk2 & items & [I1 I2 I3 I4 I5 I6]).
  split_and!; [done|done|]. exists ((n, ns) :: items). split; cbn [zip_with].
  - intros y j Hy. by apply I1, Hkeep.
  - rewrite I2. by apply Hd.
  - constructor; [by apply (item_keeps k1)|done].
  - intros n0 l0. destruct Hi as [Hx Hn _ _ _ _]. rewrite scan_xml_app, attribute_scan by (try apply qualified_ok; try apply prefix_plain; done).
    rewrite I4. by rewrite <- app_assoc.
  - apply NoDup_cons. split; [|done]. intros Hin. rewrite Forall_forall in I6. apply (I6 _ Hin). by left.
  - constructor.
    + intros Hin. apply list_elem_of_In in Hin. apply not_true_iff_false in Hg. apply Hg, existsb_exists.
      eexists. split; [done|]. by apply String.eqb_eq.
    + eapply Forall_impl; [done|]. intros y Hy Hin. apply Hy. by right.
Qed.

(** ** Declarations *)

Definition raw_declaration (x : string * string) : raw_attribute :=
  ("xmlns" +:+ (match x.1 with "" => "" | _ => ":" +:+ x.1 end), x.2).

Lemma raw_declaration_qualified x : (raw_declaration x).1 = if String.eqb x.1 "" then "xmlns" else qualified "xmlns" x.1.
Proof. by destruct x as [[|c e] t]. Qed.

Lemma raw_declaration_name x : prefix_ok x.1 → qname_ok (raw_declaration x).1 = true.
Proof.
  intros Hx. rewrite raw_declaration_qualified. destruct (String.eqb_spec x.1 "") as [|Hne]; [done|].
  apply qualified_ok; [by right|]. by destruct Hx as [|[? _]].
Qed.

Lemma declaration_raw x : prefix_ok x.1 → declaration (raw_declaration x) = Some x.
Proof.
  intros Hx. unfold declaration. rewrite raw_declaration_qualified. destruct (String.eqb_spec x.1 "") as [E|Hne].
  - destruct x as [e t]. cbn in E. by subst e.
  - destruct Hx as [|[Hx _]]; [done|]. rewrite qname_qualified by (try done; by right). cbn. by destruct x.
Qed.

Lemma declarations_quiet d : ∀ st x st', declarations_text d st = (x, st') → quiet st' → quiet st.
Proof.
  induction d as [|[e t] d IH]; intros st x st' H Hq; cbn [declarations_text] in H; [by injection H as _ <-|].
  destruct (i _ _ _) as [v st1] eqn:Ei. destruct (declarations_text d st1) as [x1 st2] eqn:E. injection H as _ <-.
  apply i_ok in Ei as [_ Ei]. by apply Ei, (IH _ _ _ E).
Qed.

Lemma declarations_text_ok d : ∀ st x st', declarations_text d st = (x, st') → quiet st' → Forall (λ y, prefix_ok y.1) d →
  ∀ n0 l0, scan_xml (in_tag n0 l0) x = ([], in_tag n0 (l0 ++ (raw_declaration <$> d))).
Proof.
  induction d as [|[e t] d IH]; intros st x st' H Hq Hd; cbn [declarations_text] in H.
  { injection H as <- <-. intros n0 l0. by rewrite app_nil_r. }
  destruct (i _ _ _) as [v st1] eqn:Ei. destruct (declarations_text d st1) as [x1 st2] eqn:E. injection H as <- <-.
  apply i_ok in Ei as [-> Ei]. destruct (Ei (declarations_quiet _ _ _ _ E Hq)) as [Hv _].
  apply Forall_cons in Hd as [He Hd]. intros n0 l0. rewrite scan_xml_app. change ("xmlns" +:+ _) with (raw_declaration (e, t)).1.
  rewrite attribute_scan by (try apply raw_declaration_name; done). rewrite (IH _ _ _ E Hq Hd). by rewrite <- app_assoc.
Qed.
