(* ===== verification/XmlDocument.v ===== *)
(** * The XML document that is read is the one that was asked for

    What a document asks for ([means]) and the theorem about [_ze]: when it reports
    nothing, the text it gives is read ([read_xml]) as the document it was given. The
    reader has its own scopes; they agree with the writer's maps at every node. *)
From S2P Require Import Prelude Css Shell Snippets Literals Lex Xml XmlReader XmlLaws.
#[local] Open Scope list_scope.

(** ** What a document asks for *)

Definition chars (v : string) : list tree := Char <$> list_ascii_of_string v.

Definition visible (x : tree) : bool := match x with Char c => negb (Ascii.eqb c " " || Ascii.eqb c "010") | _ => true end.

(** An attribute without a namespace has none, unless its prefix is bound to one. *)
Definition attribute_means (e : attribute) (x : string * string * string) : Prop :=
  ∃ i, x = (at_name e, i, at_value e) ∧
    match at_namespace e, at_prefix e with Some y, _ => i = y | None, None => i = "" | None, Some _ => i ≠ "" end.

(** [d]: the default namespace where the node stands, which an element without a
    namespace and a prefix has and an element without a prefix changes. Lines are broken
    between elements only. *)
Inductive means (format : bool) : string → node → list tree → Prop :=
| means_text d v : means format d (TextNode v) (chars v)
| means_cdata d v : means format d (Cdata v) (chars v)
| means_element d name namespace prefix attributes children i atts contents content :
    match namespace, prefix with Some y, _ => i = y | None, None => i = d | None, Some _ => i ≠ "" end →
    Forall2 attribute_means attributes atts →
    Forall2 (means format (if String.eqb (head_prefix prefix i) "" then i else d)) children contents →
    (if format && forallb is_element children then List.filter visible content else content) = List.concat contents →
    means format d (Element name namespace prefix attributes children) [Tree name i atts content].

Section node_induction.
  Context (P : node → Prop) (HT : ∀ v, P (TextNode v)) (HC : ∀ v, P (Cdata v)).
  Context (HE : ∀ name ns px l cs, Forall P cs → P (Element name ns px l cs)).

Fixpoint node_nested_ind (e : node) : P e :=
  match e with
  | TextNode v => HT v
  | Cdata v => HC v
  | Element name ns px l cs =>
      HE name ns px l cs ((fix go cs : Forall P cs :=
        match cs with [] => Forall_nil_2 P | c :: cs' => Forall_cons_2 P c cs' (node_nested_ind c) (go cs') end) cs)
  end.
End node_induction.

(** ** The scopes of the reader *)

Definition agree (env t : scope) : Prop := ∀ x, scope_get x env = scope_get x t.

Lemma item_no_declaration k e x : attribute_ok k e x → declaration (raw_item e x) = None.
Proof.
  intros [Hx Hn Hp _ _ _]. unfold declaration, raw_item. cbn [fst snd]. rewrite qname_qualified by (try apply prefix_plain; done). cbn [fst].
  destruct (String.eqb_spec (qualified x.1 (at_name e)) "xmlns") as [E|].
  - exfalso. unfold qualified in E. destruct (String.eqb_spec x.1 "") as [Hn0|Hn0]; [by destruct (Hp eq_refl Hn0)|].
    assert (lacks ":" "xmlns" = true) as H by done. rewrite <- E in H. unfold lacks in H. rewrite !sforall_app in H.
    by rewrite andb_false_r in H.
  - destruct (String.eqb_spec x.1 "xmlns") as [E|]; [|done]. exfalso. destruct Hn as [Hn|[_ Hn]]; [by rewrite E in Hn|done].
Qed.

Definition no_declaration (a : raw_attribute) : bool := match declaration a with Some _ => false | None => true end.

Lemma items_no_declaration k l items : Forall2 (attribute_ok k) l items →
  omap declaration (zip_with raw_item l items) = [] ∧ List.filter no_declaration (zip_with raw_item l items) = zip_with raw_item l items.
Proof.
  induction 1 as [|e x l items H _ [IH1 IH2]]; [done|]. cbn [zip_with omap list_omap List.filter]. unfold no_declaration at 1.
  rewrite (item_no_declaration _ _ _ H). by rewrite IH2.
Qed.

Lemma declarations_declare d : Forall (λ y, prefix_ok y.1) d →
  omap declaration (raw_declaration <$> d) = d ∧ List.filter no_declaration (raw_declaration <$> d) = [].
Proof.
  induction 1 as [|x d Hx _ [IH1 IH2]]; [done|]. rewrite fmap_cons. cbn [omap list_omap List.filter]. unfold no_declaration at 1.
  rewrite (declaration_raw _ Hx). split; [|done]. by f_equal.
Qed.

Lemma declared_prefixes t k : naming_ok t k → Forall (λ y, prefix_ok y.1) (declared k).
Proof.
  intros [Hs _ Ho _ _]. apply Forall_forall. intros [y v] [w Hw]%scope_member. cbn. apply (Ho y w). by rewrite Hs, Hw.
Qed.

Lemma filter_append {A} (f : A → bool) a b : List.filter f (a ++ b) = List.filter f a ++ List.filter f b.
Proof. apply List.filter_app. Qed.

(** Inside the tag the reader has the scope of the writer. *)
Lemma tag_scope env t k l items : agree env t → naming_ok t k → Forall2 (attribute_ok k) l items →
  agree (enter env ((raw_declaration <$> declared k) ++ zip_with raw_item l items)) (in_scope k) ∧
  List.filter no_declaration ((raw_declaration <$> declared k) ++ zip_with raw_item l items) = zip_with raw_item l items.
Proof.
  intros Ha Hk Hi. pose proof (declared_prefixes _ _ Hk) as Hd. destruct (items_no_declaration _ _ _ Hi) as [Hi1 Hi2].
  destruct (declarations_declare _ Hd) as [Hd1 Hd2]. split; [|by rewrite filter_append, Hd2, Hi2].
  intros x. unfold enter. rewrite omap_app, Hd1, Hi1, app_nil_r, foldl_set_get by apply Hk.
  rewrite (n_scope _ _ Hk), Ha. done.
Qed.

Lemma prefix_lookup env t k b name ns px n i : agree env (in_scope k) → naming_ok t k → item_ok k b name ns px n i → b = false ∨ n ≠ "" →
  lookup_prefix env n = Some i.
Proof.
  intros Ha Hk Hi Hb. pose proof (i_used _ _ _ _ _ _ _ Hi Hb) as Hu. apply (n_used _ _ Hk) in Hu. unfold ns_of in Hu. rewrite <- Ha in Hu.
  unfold lookup_prefix. destruct n as [|c n]; [by rewrite Hu|]. pose proof (i_bound _ _ _ _ _ _ _ Hi) as Hne.
  destruct (scope_get (String c n) env) as [[|c' j]|]; cbn in Hu; subst; [by destruct Hne|done|by destruct Hne].
Qed.

Lemma attribute_resolved env t k e x : agree env (in_scope k) → naming_ok t k → attribute_ok k e x →
  resolve_attribute env (raw_item e x) = Some (at_name e, x.2, at_value e).
Proof.
  intros Ha Hk Hi. unfold resolve_attribute, raw_item. cbn [fst snd].
  rewrite qname_qualified by (try apply prefix_plain; apply Hi). cbn [fst snd].
  destruct (decide (x.1 = "")) as [E|E].
  - destruct (i_plain _ _ _ _ _ _ _ Hi eq_refl E) as [_ ->]. rewrite E. done.
  - pose proof (prefix_lookup _ _ _ _ _ _ _ _ _ Ha Hk Hi (or_intror E)) as Hl. destruct x as [[|c n] j]; [done|]. cbn [fst snd] in *.
    by rewrite Hl.
Qed.

(** ** The attributes of an element *)

Definition resolved (e : attribute) (x : string * string) : string * string * string := (at_name e, x.2, at_value e).

Lemma attributes_resolved env t k l items : agree env (in_scope k) → naming_ok t k → Forall2 (attribute_ok k) l items →
  mapM (resolve_attribute env) (zip_with raw_item l items) = Some (zip_with resolved l items).
Proof.
  intros Ha Hk. induction 1 as [|e x l items H _ IH]; [done|]. cbn [zip_with mapM].
  by rewrite (attribute_resolved _ _ _ _ _ Ha Hk H), IH.
Qed.

Lemma attributes_distinct l items : NoDup (zip_with item_key l items) → NoDup (fst <$> zip_with resolved l items).
Proof.
  assert (zip_with item_key l items = (λ y, y.2 +:+ String "000" y.1) <$> (fst <$> zip_with resolved l items)) as ->; [|apply NoDup_fmap_1].
  revert items. induction l as [|e l IH]; intros [|x items]; [done..|]. cbn [zip_with]. rewrite !fmap_cons. by rewrite <- IH.
Qed.

Lemma attributes_mean k l items : Forall2 (attribute_ok k) l items → Forall2 attribute_means l (zip_with resolved l items).
Proof.
  induction 1 as [|e x l items H _ IH]; [by constructor|]. cbn [zip_with]. constructor; [|done]. exists x.2. split; [done|].
  apply (i_given _ _ _ _ _ _ _ H eq_refl).
Qed.

(** ** Content *)

(** The text is read as these trees, where the scope is [env]. *)
Definition reads (env : scope) (x : string) (T : list tree) : Prop := ∃ L, writes x L ∧ mapM (resolve env) L = Some T.

Lemma mapM_app {A B} (f : A → option B) a b x y : mapM f a = Some x → mapM f b = Some y → mapM f (a ++ b) = Some (x ++ y).
Proof.
  revert x. induction a as [|e a IH]; intros x Ha Hb; cbn in *; [by injection Ha as <-|].
  destruct (f e) as [z|]; [|done]. destruct (mapM f a) as [zs|]; [|done]. injection Ha as <-. by rewrite (IH zs).
Qed.

Lemma reads_app env x y T U : reads env x T → reads env y U → reads env (x +:+ y) (T ++ U).
Proof. intros (L & HL & RL) (K & HK & RK). exists (L ++ K). split; [by apply writes_app|by apply mapM_app]. Qed.

Lemma reads_chars env x v : writes x (RawChar <$> list_ascii_of_string v) → reads env x (chars v).
Proof.
  intros H. eexists. split; [done|]. unfold chars. clear H. induction (list_ascii_of_string v) as [|c l IH]; [done|].
  rewrite !fmap_cons. cbn [mapM resolve]. by rewrite IH.
Qed.

Lemma reads_blank env b : blank b = true → reads env b (chars b).
Proof. intros (s & H & <-)%writes_blank. by apply reads_chars. Qed.

Lemma blank_invisible b : blank b = true → List.filter visible (chars b) = [].
Proof.
  unfold blank, chars. induction b as [|c b IH]; [done|]. cbn [sforall list_ascii_of_string]. intros [Hc Hb]%andb_true_iff.
  rewrite fmap_cons. cbn [List.filter visible]. rewrite Hc. by apply IH.
Qed.

Lemma reads_concat env xs Ts : Forall2 (reads env) xs Ts → reads env (String.concat "" xs) (List.concat Ts).
Proof.
  induction 1 as [|x T xs Ts H H' IH]; [exists []; split; [apply writes_nil|done]|].
  destruct H' as [|x' T' xs Ts]; [by cbn; rewrite app_nil_r|]. by apply reads_app.
Qed.

(** Elements on lines of their own *)
Lemma reads_lines env p xs Ts : blank p = true → Forall2 (reads env) xs Ts → Forall (λ T, List.filter visible T = T) Ts →
  ∃ T, reads env (String.concat newline ((λ e, p +:+ e) <$> xs)) T ∧ List.filter visible T = List.concat Ts.
Proof.
  intros Hp H. induction H as [|x T xs Ts H H' IH]; intros Hv; [exists []; split; [exists []; split; [apply writes_nil|done]|done]|].
  apply Forall_cons in Hv as [HT Hv]. apply IH in Hv as (U & HU & HvU).
  assert (reads env (p +:+ x) (chars p ++ T)) as Hx by (apply reads_app; [by apply reads_blank|done]).
  destruct H' as [|x' T' xs Ts Hx' H'].
  - exists (chars p ++ T). split; [done|]. rewrite filter_append, (blank_invisible p), HT by done. cbn. by rewrite app_nil_r.
  - exists ((chars p ++ T) ++ chars newline ++ U). split.
    + rewrite !fmap_cons. change (String.concat newline ((p +:+ x) :: (p +:+ x') :: ((λ e, p +:+ e) <$> xs))) with
        ((p +:+ x) +:+ newline +:+ String.concat newline ((p +:+ x') :: ((λ e, p +:+ e) <$> xs))).
      apply reads_app; [done|]. apply reads_app; [by apply reads_blank|done].
    + by rewrite !filter_append, !blank_invisible, HT, HvU by done.
Qed.

(** ** Elements *)

Lemma element_open n v xs D I : qname_ok n = true →
  (∀ n0 l0, scan_xml (in_tag n0 l0) v = ([], in_tag n0 (l0 ++ D))) →
  (∀ n0 l0, scan_xml (in_tag n0 l0) xs = ([], in_tag n0 (l0 ++ I))) →
  scan_xml InContent ("<" +:+ n +:+ v +:+ xs) = ([], in_tag n (D ++ I)).
Proof.
  intros Hn Hv Hx. change ("<" +:+ n +:+ v +:+ xs) with (("<" +:+ n) +:+ v +:+ xs).
  rewrite scan_xml_app, start_scan by done. change (InName n) with (in_tag n []). by rewrite scan_xml_app, Hv, Hx.
Qed.

(** The content of an element, as [content_text] writes it *)
Lemma content_reads env y n k b x Ts A : scan_xml InContent y = ([], in_tag n A) → qname_ok n = true →
  Forall2 (reads env) x Ts → (b = true → Forall (λ T, List.filter visible T = T) Ts) →
  ∃ L T, writes (content_text y n b k x) [RawElement n A L] ∧ mapM (resolve env) L = Some T ∧
    (if b then List.filter visible T else T) = List.concat Ts.
Proof.
  intros Hy Hn Hx Hb. assert (scan_xml InContent (y +:+ ">") = ([XOpen n A], InContent)) as Ho by by rewrite scan_xml_app, Hy, open_scan.
  destruct b; cbn [content_text].
  - destruct (reads_lines env (spaces (2 * (k + 1))) x Ts (blank_spaces _) Hx (Hb eq_refl)) as (T & HT & HvT).
    assert (reads env (newline +:+ String.concat newline ((λ e, spaces (2 * (k + 1)) +:+ e) <$> x) +:+ newline +:+ spaces (2 * k))
      (chars newline ++ T ++ chars newline ++ chars (spaces (2 * k)))) as (L & HL & RL).
    { apply reads_app; [by apply reads_blank|]. apply reads_app; [done|]. apply reads_app; apply reads_blank; [done|apply blank_spaces]. }
    exists L, (chars newline ++ T ++ chars newline ++ chars (spaces (2 * k))). split_and!; [|done|].
    + pose proof (writes_element _ _ _ _ _ _ Ho HL (close_scan n Hn)) as H. unfold content_text. by rewrite !sapp_assoc in *.
    + rewrite !filter_append, HvT, !blank_invisible by (try done; apply blank_spaces). by rewrite !app_nil_r.
  - destruct (reads_concat env x Ts Hx) as (L & HL & RL). exists L, (List.concat Ts). split_and!; [|done|done].
    pose proof (writes_element _ _ _ _ _ _ Ho HL (close_scan n Hn)) as H. unfold content_text. by rewrite !sapp_assoc in *.
Qed.

Section texts.
  Context (f : node → writer → string * writer).

Fixpoint texts (cs : list node) (st : writer) : list string * writer :=
  match cs with
  | [] => ([], st)
  | c :: cs' => let '(x, st) := f c st in let '(xs, st) := texts cs' st in (x :: xs, st)
  end.
End texts.

Definition node_ok (l : bool) (e : node) : Prop := ∀ t n st x st', s e t n l st = (x, st') → quiet st' →
  quiet st ∧ ∀ env, scope_ok t → agree env t → ∃ T, reads env x T ∧ means l (ns_of t "") e T.

Lemma texts_ok l cs : Forall (node_ok l) cs → ∀ t n st xs st', texts (λ c st, s c t n l st) cs st = (xs, st') → quiet st' →
  quiet st ∧ ∀ env, scope_ok t → agree env t → ∃ Ts, Forall2 (reads env) xs Ts ∧ Forall2 (means l (ns_of t "")) cs Ts.
Proof.
  induction 1 as [|c cs Hc _ IH]; intros t n st xs st' H Hq; cbn [texts] in H; [injection H as <- <-; split; [done|]; by exists []|].
  destruct (s c t n l st) as [x st1] eqn:Ec. destruct (texts _ cs st1) as [xs1 st2] eqn:E. injection H as <- <-.
  destruct (IH _ _ _ _ _ E Hq) as (Hq1 & HR). destruct (Hc _ _ _ _ _ Ec Hq1) as (Hq0 & HR').
  split; [done|]. intros env Ht Ha. destruct (HR env Ht Ha) as (Ts & ? & ?), (HR' env Ht Ha) as (T & ? & ?).
  exists (T :: Ts). split; by constructor.
Qed.

Lemma elements_visible l d cs Ts : Forall2 (means l d) cs Ts → forallb is_element cs = true → Forall (λ T, List.filter visible T = T) Ts.
Proof.
  induction 1 as [|c T cs Ts H _ IH]; [by constructor|]. cbn [forallb]. intros [Hc Hcs]%andb_true_iff.
  constructor; [|by apply IH]. by destruct H.
Qed.

(** What [s] does with an element that is within the limits *)
Lemma s_element name ns px l cs t n f st x st' : s (Element name ns px l cs) t n f st = (x, st') → quiet st' →
  ∃ hn i k1 st1 xs k2 st2 v st3,
    m (omap id (px :: (at_prefix <$> l))) name ns px false (Naming t [] []) (Writer (diagnostics st) (invented st) (nodes st + 1)) = (hn, i, k1, st1) ∧
    attributes_text (omap id (px :: (at_prefix <$> l))) l [] k1 st1 = (xs, k2, st2) ∧
    declarations_text (declared k2) st2 = (v, st3) ∧
    ((cs = [] ∧ x = "<" +:+ hn +:+ v +:+ xs +:+ "/>" ∧ st' = st3) ∨
     ∃ ys, texts (λ c st, s c (in_scope k2) (n + 1) f st) cs st3 = (ys, st') ∧
           x = content_text ("<" +:+ hn +:+ v +:+ xs) hn (f && forallb is_element cs) n ys).
Proof.
  cbn [s]. destruct (_ || _); [by intros [= <- <-]|].
  destruct (m _ _ _ _ _ _ _) as [[[hn i] k1] st1] eqn:Em. destruct (attributes_text _ _ _ _ _) as [[xs k2] st2] eqn:Ea.
  destruct (declarations_text _ _) as [v st3] eqn:Ed. intros H Hq. exists hn, i, k1, st1, xs, k2, st2, v, st3. split_and!; [done..|].
  destruct cs as [|c cs].
  - left. injection H as <- <-. split_and!; [done| |done]. by rewrite !sapp_assoc.
  - right. change ((let '(x0, st4) := texts (λ c st, s c (in_scope k2) (n + 1) f st) (c :: cs) st3 in
      (content_text ("<" +:+ hn +:+ v +:+ xs) hn (f && forallb is_element (c :: cs)) n x0, st4)) = (x, st')) in H.
    destruct (texts _ (c :: cs) st3) as [ys st4]. injection H as <- <-. by exists ys.
Qed.

Lemma head_scope t k1 k2 name ns px n i : scope_ok t → naming_ok t k2 → item_ok k1 false name ns px n i →
  head_ok (Naming t [] []) ns px n i → keeps k1 k2 → (n ≠ "" → scope_get "" (used k2) = None) →
  ns_of (in_scope k2) "" = if String.eqb (head_prefix px i) "" then i else ns_of t "".
Proof.
  intros Ht Hk Hi [<- _] Hkeep Hd. destruct (String.eqb_spec n "") as [->|Hn].
  - apply (n_used _ _ Hk), Hkeep, (i_used _ _ _ _ _ _ _ Hi). by left.
  - unfold ns_of. by rewrite (n_scope _ _ Hk), (n_declared _ _ Hk _ (Hd Hn)).
Qed.

Lemma initial_naming t : scope_ok t → naming_ok t (Naming t [] []).
Proof. intros Ht. split; cbn; try done. apply NoDup_nil_2. Qed.

(** The maps once the start tag of an element is written *)
Lemma start_tag name ns px l t st hn i k1 st1 xs k2 st2 p : m p name ns px false (Naming t [] []) st = (hn, i, k1, st1) →
  attributes_text p l [] k1 st1 = (xs, k2, st2) → quiet st2 → scope_ok t →
  quiet st ∧ naming_ok t k2 ∧ ∃ n items, hn = qualified n name ∧ item_ok k2 false name ns px n i ∧
    head_ok (Naming t [] []) ns px n i ∧ attributes_ok l [] k1 k2 xs items ∧
    ns_of (in_scope k2) "" = if String.eqb (head_prefix px i) "" then i else ns_of t "".
Proof.
  intros Em Ea Hq Ht. pose proof (attributes_quiet _ _ _ _ _ _ _ _ Ea Hq) as Hq1.
  destruct (m_ok _ _ _ _ _ _ _ _ _ _ _ t Em Hq1 (initial_naming t Ht)) as (Hq0 & Hk1 & _ & n & -> & Hd & Hi & Hh). specialize (Hh eq_refl).
  destruct (attributes_text_ok _ _ t _ _ _ _ _ _ Ea Hq Hk1) as (_ & Hk2 & items & HA). split_and!; [done|done|].
  exists n, items. split_and!; [done|by apply (item_keeps k1); [apply HA|]|done|done|].
  apply (head_scope t k1 k2 name ns px n i); try done; [by apply HA|]. intros Hn. rewrite (a_default _ _ _ _ _ _ HA).
  by rewrite Hd.
Qed.

(** The tree of an element, once its name, its attributes and its content are read *)
Lemma element_tree env t name ns px l k k1 n i items xs L T : naming_ok t k → agree env t →
  item_ok k false name ns px n i → attributes_ok l [] k1 k xs items →
  let A := (raw_declaration <$> declared k) ++ zip_with raw_item l items in
  mapM (resolve (enter env A)) L = Some T →
  resolve env (RawElement (qualified n name) A L) = Some (Tree name i (zip_with resolved l items) T).
Proof.
  intros Hk Ha Hi HA A HL. destruct (tag_scope env t k l items Ha Hk (a_items _ _ _ _ _ _ HA)) as [He Hf]. fold A in He, Hf.
  cbn [resolve]. unfold no_declaration in Hf. rewrite Hf, HL, qname_qualified by (try apply prefix_plain; apply Hi). cbn [fst snd].
  rewrite (prefix_lookup _ t k _ _ _ _ _ _ He Hk Hi) by (by left). rewrite (attributes_resolved _ t k l items He Hk) by apply HA.
  rewrite bool_decide_eq_true_2; [done|]. apply attributes_distinct, HA.
Qed.

Lemma s_ok l e : node_ok l e.
Proof.
  induction e as [v|v|name ns px attributes cs IH] using node_nested_ind; intros t n st x st' H Hq.
  - cbn [s] in H. destruct (_ || _); [by injection H as <- <-|]. apply i_ok in H as [-> H]. destruct (H Hq) as [Hv Hq0].
    split; [done|]. intros env _ _. exists (chars v). split; [|constructor]. by apply reads_chars, writes_chars, text_scan.
  - cbn [s] in H. destruct (_ || _); injection H as <- <-; [done|]. apply quiet_r_if in Hq as [Hv Hq]. split; [done|].
    intros env _ _. exists (chars v). split; [|constructor]. by apply reads_chars, cdata_writes.
  - apply s_element in H as (hn & i & k1 & st1 & xs & k2 & st2 & v & st3 & Em & Ea & Ed & H); [|done].
    assert (quiet st3) as Hq3 by (destruct H as [(_ & _ & <-)|(ys & H & _)]; [done|by apply (texts_ok l cs IH) in H as [? _]]).
    pose proof (declarations_quiet _ _ _ _ Ed Hq3) as Hq2. split; [by eapply (m_quiet _ _ _ _ _ _ _ _ _ _ _ Em), attributes_quiet|]. intros env Ht Ha.
    destruct (start_tag _ _ _ _ _ _ _ _ _ _ _ _ _ _ Em Ea Hq2 Ht) as (_ & Hk & p & items & -> & Hi & Hh & HA & Hd).
    pose proof (declarations_text_ok _ _ _ _ Ed Hq3 (declared_prefixes _ _ Hk)) as Hv.
    set (A := (raw_declaration <$> declared k2) ++ zip_with raw_item attributes items).
    assert (qname_ok (qualified p name) = true) as Hn by (apply qualified_ok; [apply prefix_plain|]; apply Hi).
    pose proof (element_open _ _ _ _ _ Hn Hv (a_text _ _ _ _ _ _ HA)) as Ho. fold A in Ho.
    assert (∃ L T Ts, writes x [RawElement (qualified p name) A L] ∧ mapM (resolve (enter env A)) L = Some T ∧
      Forall2 (means l (ns_of (in_scope k2) "")) cs Ts ∧
      (if l && forallb is_element cs then List.filter visible T else T) = List.concat Ts) as (L & T & Ts & Hx & HL & HT & Hf).
    { destruct (tag_scope env t k2 attributes items Ha Hk (a_items _ _ _ _ _ _ HA)) as [He _]. fold A in He.
      destruct H as [(-> & -> & _)|(ys & H & ->)].
      - exists [], [], []. split_and!; [|done|done|by destruct l]. apply writes_empty.
        assert (∀ a b, "<" +:+ a +:+ v +:+ xs +:+ b = ("<" +:+ a +:+ v +:+ xs) +:+ b) as -> by (intros; by rewrite !sapp_assoc).
        by rewrite scan_xml_app, Ho, empty_scan.
      - destruct (texts_ok l cs IH _ _ _ _ _ H Hq) as [_ HR]. destruct (HR (enter env A) (n_ok _ _ Hk) He) as (Ts & HRs & HMs).
        destruct (content_reads (enter env A) _ _ n (l && forallb is_element cs) ys Ts A Ho Hn HRs) as (L & T & HL & HT & Hf); [|by exists L, T, Ts].
        intros [_ Hb]%andb_true_iff. by eapply elements_visible. }
    exists [Tree name i (zip_with resolved attributes items) T]. split.
    + exists [RawElement (qualified p name) A L]. split; [done|]. cbn [mapM].
      pose proof (element_tree env t name ns px attributes k2 k1 p i items xs L T Hk Ha Hi HA HL) as Ht'.
      fold A in Ht'. by rewrite Ht'.
    + rewrite Hd in HT. eapply means_element; [|by eapply attributes_mean, HA|done|done].
      pose proof (h_given _ _ _ _ _ Hh) as Hg. destruct ns; [done|]. destruct px; [by destruct Hg|done].
Qed.

(** ** Documents *)

Lemma scan_error x : scan_xml XmlError x = ([], XmlError).
Proof. induction x as [|c x IH]; [done|]. rewrite scan_xml_cons. cbn [xml_step]. by rewrite IH. Qed.

(** Content is not taken for an XML declaration. *)
Lemma content_no_declaration x L : writes x L → skip_declaration x = x.
Proof.
  intros (ts & H & _). unfold skip_declaration. destruct (strip_prefix xml_declaration x) as [r|] eqn:E; [|done].
  exfalso. apply strip_prefix_Some in E. subst x. rewrite scan_xml_app in H.
  assert (scan_xml InContent xml_declaration = ([], XmlError)) as Hd by by vm_compute.
  by rewrite Hd, scan_error in H.
Qed.

Lemma read_written x b r T : blank b = true → writes x [r] → resolve [("xml", Jv)] r = Some T → (∃ n A L, r = RawElement n A L) →
  skip_declaration (b +:+ x) = b +:+ x ∧ read_xml (b +:+ x) = Some T.
Proof.
  intros Hb Hx Hr (n & A & L & ->). destruct (writes_blank b Hb) as (v & Hv & ->).
  pose proof (writes_app _ _ _ _ Hv Hx) as H. split; [by eapply content_no_declaration|].
  unfold read_xml. rewrite (content_no_declaration _ _ H). destruct H as (ts & -> & Hbuild).
  specialize (Hbuild [] [] []). rewrite app_nil_r in Hbuild. rewrite Hbuild. cbn [build app].
  assert (List.filter (λ x, negb (blank_char x)) (RawChar <$> list_ascii_of_string b) = []) as Hf.
  { unfold blank in Hb. clear -Hb. induction b as [|c b IH]; [done|]. cbn [sforall list_ascii_of_string] in *.
    apply andb_true_iff in Hb as [Hc Hb]. rewrite fmap_cons. cbn [List.filter blank_char]. rewrite Hc. by apply IH. }
  rewrite filter_append, Hf. cbn [app List.filter blank_char negb]. done.
Qed.

Lemma root_scope : scope_ok [("xml", Jv)].
Proof. intros x v. cbn [scope_get]. destruct (String.eqb "xml" x) eqn:E; [|done]. apply String.eqb_eq in E as <-. intros _. by right. Qed.

(** C6. Reading a document that was written gives the document that was asked for: the names
    in the namespaces they were given, an element without one in the default namespace
    where it stands, no attribute twice, the values of the attributes and the characters
    of texts and CDATA sections, with line breaks added between elements only. *)
Theorem document_is_read_back e decl format x es : underscore_ze e decl format = (Some x, es) →
  es = [] ∧ ∃ c T, e = [c] ∧ means format "" c [T] ∧ read_xml x = Some T.
Proof.
  unfold underscore_ze. destruct e as [|c [|]]; [done| |by destruct c]. intros H.
  assert (is_element c = true ∧ (let '(x, st) := s c [("xml", Jv)] 0 format (Writer [] 0 0) in
     let l := if decl then xml_declaration +:+ (if format then newline else "") else "" in
     (match diagnostics st with [] => Some (l +:+ x) | _ => None end, rev (diagnostics st))) = (Some x, es)) as [Hc H'] by by destruct c.
  clear H. destruct (s c _ 0 format _) as [y st] eqn:E. destruct (diagnostics st) eqn:Hq; [|done].
  cbn [rev] in H'. apply pair_equal_spec in H' as [Hx <-]. split; [done|].
  destruct (s_ok format c _ _ _ _ _ E Hq) as [_ HR]. destruct (HR _ root_scope (λ _, eq_refl)) as (T & (L & HL & RL) & HM).
  change (ns_of [("xml", Jv)] "") with "" in HM. destruct c as [| |name ns px l cs]; [done..|].
  inversion HM as [| |? ? ? ? ? ? i atts contents content]; subst.
  destruct L as [|r [|? ?]]; cbn [mapM] in RL; [done| |repeat case_match; by simplify_eq].
  destruct (resolve _ r) as [T|] eqn:Er; [|done]. injection RL as ->.
  assert (∃ n A L, r = RawElement n A L) as Hr by (destruct r; [done|by eexists _, _, _]).
  eexists _, _. split; [done|]. split; [exact HM|].
  cbv zeta in Hx. injection Hx as <-. destruct decl.
  - assert (blank (if format then newline else "") = true) as Hb by by destruct format.
    destruct (read_written y _ r _ Hb HL Er Hr) as [Hs Hread].
    unfold read_xml in *. rewrite sapp_assoc. unfold skip_declaration at 1. rewrite strip_prefix_app. by rewrite Hs in Hread.
  - by destruct (read_written y "" r _ eq_refl HL Er Hr).
Qed.

Definition sample_document : node :=
  Element "order" (Some "urn:shop") None
    [Attribute "id" None None ("7" +:+ quote_char +:+ newline +:+ "&<"); Attribute "unit" (Some "urn:units") None "kg"; Attribute "lang" None (Some "xml") "en"]
    [Element "item" None None [Attribute "unit" (Some "urn:units") (Some "u") "g"] [TextNode "a < b & c"];
     Element "note" (Some "") None [] [Cdata ("]]" +:+ ">" +:+ "!")];
     Element "ref" (Some "urn:units") (Some "u") [] []].

Lemma document_witness : ∃ x T, underscore_ze [sample_document] true true = (Some x, []) ∧
  means true "" sample_document [T] ∧ read_xml x = Some T.
Proof.
  destruct (underscore_ze [sample_document] true true) as [[x|] es] eqn:E; [|vm_compute in E; done].
  destruct (document_is_read_back _ _ _ _ _ E) as (-> & c & T & Hc & HM & HR).
  injection Hc as <-. exists x, T. split; [done|]. split; [exact HM|exact HR].
Defined.
