(* ===== verification/RawRequest.v ===== *)
(** * scalar.js: the request behind a sample

    [rU] makes of a request of the API document the request that is sent: URL, method,
    headers with cookies and credentials, body. The samples that build the body in
    the program itself (Java, OCaml, PowerShell) are written from it. A body with files
    holds its boundary in the text; these samples draw a boundary when they run and put
    it in the place of the one in the text. [plan] is what such a sample says,
    [plan_sends] that it sends the request with the boundary that was drawn.
    The [URL] class is a parameter ([parse_url]), strings are bytes. *)
From S2P Require Import Prelude Css Mime Shell Snippets Utf8 Records Multipart FormData Objects.
#[local] Open Scope list_scope.

(** ** URL and body *)

(** The fields of [new URL(e)] the code reads, and its [toString()] *)
Record url_parts : Type := UrlParts { origin : string; pathname : string; search : string; hash : string; href : string }.

(** IH *)
Definition IH (e : string) (t : list pair) : string :=
  match MH t with
  | "" => e
  | String _ rest as n => match e with "" => n | _ => e +:+ (if includes "?" e then "&" else "?") +:+ rest end
  end.

(** What [new URLSearchParams(l).toString()] writes for a character *)
Definition form_char (c : ascii) : string :=
  if Ascii.eqb c " " then "+"
  else if byte_in 48 57 c || byte_in 65 90 c || byte_in 97 122 c || existsb (Ascii.eqb c) ["*"; "-"; "."; "_"]%char then one c
  else String "%" (String (upper_hex (nat_of_ascii c / 16)) (one (upper_hex (nat_of_ascii c mod 16)))).

Definition form_text (l : list (string * string)) : string :=
  String.concat "&" ((λ x, flat_map_s form_char x.1 +:+ "=" +:+ flat_map_s form_char x.2) <$> l).

(** [_b.encode] of a text in UTF-8 *)
Definition base64 (s : string) : string := string_of_list_ascii ((λ z, ascii_of_nat (Z.to_nat z)) <$> btoa (codes s)).

Section raw.
Variable parse_url : string → option url_parts.

(** FH *)
Definition FH (e : string) : string :=
  match e with
  | "" => ""
  | _ => match parse_url e with
         | Some t => if String.eqb (pathname t) "/" then origin t +:+ search t +:+ hash t else href t
         | None => e
         end
  end.

Record raw : Type := RawRequest { q_url : string; q_method : string; q_headers : list pair; q_body : option (list body_part) }.

(** The parameters of a multipart form *)
Definition form_params (e : request) : option (list param) :=
  match postData e with
  | Some d => if String.eqb (mimeType d) "multipart/form-data" then params d else None
  | None => None
  end.

(** The body that is no multipart form *)
Definition plain_body (d : post_data) : list body_part :=
  [PText (match (if String.eqb (mimeType d) "application/x-www-form-urlencoded" then params d else None) with
          | Some ps => form_text ((λ p, (pa_name p, default "" (pa_value p))) <$> ps)
          | None => default "" (Snippets.text d)
          end)].

(** rU, with the multipart body [i] of the form, when the request has one *)
Definition rU_with (i : option multipart) (e : request) (t : option credentials) : raw :=
  let n := headers e ++ cookie_header (cookies e) ++
           match auth_given t with Some (u, p) => [Pair "Authorization" ("Basic " +:+ base64 (u +:+ ":" +:+ p))] | None => [] end in
  let a := match i with Some i => Some (body i) | None => option_map plain_body (postData e) end in
  let o := match i with Some i => Some (contentType i) | None => option_map mimeType (postData e) end in
  let s := match i with Some _ => List.filter (λ h, negb (is_content_type h)) n | None => n end in
  let s := match o with
           | None | Some "" => s
           | Some c => if existsb is_content_type s then s else s ++ [Pair "Content-Type" c]
           end in
  RawRequest (FH (IH (default "" (url e)) (queryString e))) (PH (method e)) s a.

(** rU; [None]: the search for a boundary ran out of fuel, which it does not *)
Definition rU_request (e : request) (t : option credentials) : option raw :=
  match form_params e with
  | None => Some (rU_with None e t)
  | Some ps => match FPt ps with Some i => Some (rU_with (Some i) e t) | None => None end
  end.

(** iU of it *)
Definition drawn_boundary (r : raw) : option string :=
  match q_body r with Some b => iU (Some (Raw (q_headers r) b)) | None => None end.

(** ** What the samples say *)

(** A text, or a text in which the boundary that is drawn takes the place of another one *)
Inductive text_expr : Type := Lit (s : string) | Swap (b s : string).

Inductive part_expr : Type := TextPart (e : text_expr) | FilePart (f : string).

Record program : Type := Program {
  g_url : string; g_method : string; g_headers : list (string * text_expr); g_body : option (list part_expr) }.

(** A boundary that is missing or empty is false. *)
Definition swap (s : option string) (x : string) : text_expr :=
  match s with None | Some "" => Lit x | Some b => Swap b x end.

Definition plan (r : raw) : program :=
  let s := drawn_boundary r in
  Program (q_url r) (q_method r)
    ((λ h, (p_name h, if is_content_type h then swap s (p_value h) else Lit (p_value h))) <$> q_headers r)
    (option_map (λ l, (λ p, match p with PText x => TextPart (swap s x) | PFile f => FilePart f end) <$> l) (q_body r)).

(** What a program sends, once it has drawn the boundary [B] *)
Definition said (B : string) (x : text_expr) : string :=
  match x with Lit s => s | Swap b s => String.concat B (js_split b s) end.

Definition sends (B : string) (g : program) : raw :=
  RawRequest (g_url g) (g_method g) ((λ h, Pair h.1 (said B h.2)) <$> g_headers g)
    (option_map (λ l, (λ p, match p with TextPart x => PText (said B x) | FilePart f => PFile f end) <$> l) (g_body g)).

(** The same with the bytes of the body in a row; [files] are the contents of the files *)
Definition sent_bytes (B : string) (files : string → string) (g : program) : option string :=
  option_map (λ l, String.concat "" ((λ p, match p with TextPart x => said B x | FilePart f => files f end) <$> l)) (g_body g).

Definition sent_headers (B : string) (g : program) : list pair := (λ h, Pair h.1 (said B h.2)) <$> g_headers g.

(** The request with the boundary [B], when its body holds files *)
Definition with_boundary (B : string) (ps : list param) (i : multipart) : multipart :=
  if existsb is_file (body i) then form_body B ps else i.

Definition asked (B : string) (e : request) (t : option credentials) : option raw :=
  match form_params e with
  | None => Some (rU_with None e t)
  | Some ps => option_map (λ i, rU_with (Some (with_boundary B ps i)) e t) (FPt ps)
  end.
End raw.

(** ** What the request asks for

    Written from the request alone. *)

Definition asked_target (parse_url : string → option url_parts) (e : request) : string :=
  match asked_url e with
  | "" => ""
  | u => match parse_url u with
         | Some t => if String.eqb (pathname t) "/" then origin t +:+ search t +:+ hash t else href t
         | None => u
         end
  end.

(** The headers, then those of the cookies, the credentials and the body: the content type
    of a form takes the place of any other, that of another body is one more only when
    the request names none. *)
Definition asked_headers (B : string) (e : request) (t : option credentials) : list pair :=
  let hs := headers e ++ (match cookies e with [] => [] | l => [Pair "Cookie" (asked_cookies l)] end) ++
            (match asked_credentials t with Some (u, p) => [Pair "Authorization" ("Basic " +:+ base64 (u +:+ ":" +:+ p))] | None => [] end) in
  let is_type h := String.eqb (to_lower (p_name h)) "content-type" in
  match asked_fields "multipart/form-data" e, postData e with
  | Some _, _ => List.filter (λ h, negb (is_type h)) hs ++ [Pair "Content-Type" ("multipart/form-data; boundary=" +:+ B)]
  | None, Some d => if String.eqb (mimeType d) "" || existsb is_type hs then hs else hs ++ [Pair "Content-Type" (mimeType d)]
  | None, None => hs
  end.

Definition asked_bytes (B : string) (files : string → string) (e : request) : option string :=
  match asked_fields "multipart/form-data" e, asked_fields "application/x-www-form-urlencoded" e, postData e with
  | Some ps, _, _ => Some (asked_form B files ps)
  | None, Some ps, _ =>
      Some (String.concat "&" ((λ p, flat_map_s form_char (pa_name p) +:+ "=" +:+ flat_map_s form_char (default "" (pa_value p))) <$> ps))
  | None, None, Some d => Some (default "" (Snippets.text d))
  | None, None, None => None
  end.

(** The boundary of the form that arrives: the one that was drawn, when there are files,
    or the one the search for a free one has found, with the dashes [d] *)
Definition carried_boundary (B d : string) (e : request) : string :=
  match asked_fields "multipart/form-data" e with
  | Some ps => if existsb has_file ps then B else "scalar-boundary" +:+ d
  | None => B
  end.

(** [g] is a program that sends what the request asks for, whatever boundary it draws. *)
Definition asks_for (parse_url : string → option url_parts) (e : request) (t : option credentials) (g : program) : Prop :=
  g_url g = asked_target parse_url e ∧ g_method g = asked_method e ∧
  ∃ d, (∀ ps p v, asked_fields "multipart/form-data" e = Some ps → p ∈ ps → v ∈ param_fields p →
          includes ("scalar-boundary" +:+ d) v = false) ∧
    ∀ B files, let B' := carried_boundary B d e in
      sent_headers B g = asked_headers B' e t ∧ sent_bytes B files g = asked_bytes B' files e.

(** ** One boundary in the place of another *)

Lemma cut_lacking n s : includes n s = false → cut n s = None.
Proof.
  induction s as [|c s IH]; [by destruct n|]. rewrite includes_cons. cbn [cut].
  destruct (strip_prefix n (String c s)); [done|]. intros H. by rewrite IH.
Qed.

Lemma split_str_S f n s : split_str (S f) n s = match cut n s with Some (a, b) => a :: split_str f n b | None => [s] end.
Proof. done. Qed.

Lemma split_lacking f n s : includes n s = false → split_str f n s = [s].
Proof. intros H. destruct f; [done|]. cbn [split_str]. by rewrite cut_lacking. Qed.

Lemma swap_lacking n B s : includes n s = false → String.concat B (js_split n s) = s.
Proof. intros H. unfold js_split. by rewrite split_lacking. Qed.

(** The boundary [n] behind characters it does not begin with *)
Lemma cut_behind c n a b : sforall (λ d, negb (Ascii.eqb c d)) a = true → cut (String c n) (a +:+ String c n +:+ b) = Some (a, b).
Proof.
  induction a as [|d a IH].
  - intros _. change ("" +:+ String c n +:+ b) with (String c (n +:+ b)). cbn [cut].
    pose proof (strip_prefix_app (String c n) b) as H. change (String c n +:+ b) with (String c (n +:+ b)) in H. by rewrite H.
  - cbn [sforall]. intros [Hd Ha]%andb_true_iff. change (String d a +:+ String c n +:+ b) with (String d (a +:+ String c n +:+ b)).
    cbn [cut strip_prefix]. apply negb_true_iff in Hd. by rewrite Hd, IH.
Qed.

Lemma swap_once c n B a b : sforall (λ d, negb (Ascii.eqb c d)) a = true → includes (String c n) b = false →
  String.concat B (js_split (String c n) (a +:+ String c n +:+ b)) = a +:+ B +:+ b.
Proof.
  intros Ha Hb. unfold js_split.
  assert (∃ f, String.length (a +:+ String c n +:+ b) = S f) as (f & ->).
  { exists (String.length a + String.length (n +:+ b))%nat. change (String c n +:+ b) with (String c (n +:+ b)). rewrite slength_app. cbn [String.length]. lia. }
  cbn [split_str]. by rewrite cut_behind, split_lacking.
Qed.

(** ** The boundary of a form *)

Section boundary.
Context (d B : string) (Hd : sforall (Ascii.eqb "-") d = true).

#[local] Notation n := (String.append "scalar-boundary" d) (only parsing).

Lemma boundary_chars : sforall boundary_char n = true.
Proof.
  rewrite sforall_app. change (sforall boundary_char "scalar-boundary") with true. cbn [andb].
  revert Hd. apply sforall_impl. intros c Hc. unfold boundary_char. rewrite Ascii.eqb_sym in Hc. by rewrite Hc, orb_true_r.
Qed.

Lemma swap_boundary a b : sforall (λ c, negb (Ascii.eqb "s" c)) a = true → includes n b = false →
  String.concat B (js_split n (a +:+ n +:+ b)) = a +:+ B +:+ b.
Proof. apply (swap_once "s" ("calar-boundary" +:+ d) B a b). Qed.

(** The header lines of a part hold the boundary once, in front. *)
Lemma swap_head p : (∀ v, v ∈ param_fields p → includes n v = false) →
  String.concat B (js_split n (part_head n p)) = part_head B p.
Proof.
  intros Hv. assert (sforall boundary_char n = true) as Hn by apply boundary_chars.
  rewrite !part_head_headers, !sapp_assoc. apply (swap_boundary "--"); [done|].
  assert (includes n (param_headers p) = false) as Hh.
  { apply (headers_lack n Hn); [done|apply Hv; left| | |intros w Hw; by apply fixed_lack].
    - intros f Hf. by apply Hv, (field_of p f (pa_fileName p)); [right; left|].
    - intros c Hf. by apply Hv, (field_of p c (pa_contentType p)); [right; right; left|]. }
  assert (∀ c b, boundary_char c = false → includes n b = false → includes n (String c b) = false) as Hsep.
  { intros c b Hb. by apply (includes_sep n c ""); [|apply boundary_sep|]. }
  apply (Hsep "013"%char (String "010" (param_headers p +:+ crlf +:+ crlf))); [done|].
  apply (Hsep "010"%char (param_headers p +:+ crlf +:+ crlf)); [done|].
  apply (includes_sep n "013" (param_headers p) (String "010" crlf)); [done|by apply boundary_sep|done|].
  apply Hsep; [done|]. apply Hsep; [done|]. by apply Hsep.
Qed.

Lemma swap_part p : (∀ v, v ∈ param_fields p → includes n v = false) →
  (λ x, match x with PText s => PText (String.concat B (js_split n s)) | PFile f => PFile f end) <$> form_part n p = form_part B p.
Proof.
  intros Hv. unfold form_part. rewrite !fmap_cons, swap_head by done. cbn [fmap list_fmap]. do 2 f_equal.
  destruct (pa_fileName p); [done|]. rewrite swap_lacking; [done|]. destruct (pa_value p) as [v|] eqn:Ev; [|done].
  by apply Hv, (field_of p v (pa_value p)); [left|].
Qed.

Lemma swap_body ps : (∀ p v, p ∈ ps → v ∈ param_fields p → includes n v = false) →
  (λ x, match x with PText s => PText (String.concat B (js_split n s)) | PFile f => PFile f end) <$> body (form_body n ps) = body (form_body B ps).
Proof.
  intros Hv. cbn [form_body body]. rewrite fmap_app. f_equal.
  - induction ps as [|p ps IH]; [done|].
    assert (∀ m, mjoin (form_part m <$> p :: ps) = form_part m p ++ mjoin (form_part m <$> ps)) as Hj by done.
    rewrite !Hj, fmap_app, swap_part, IH; [done| |].
    + intros q v Hq. apply Hv. by right.
    + intros v. apply Hv. by left.
  - cbn [fmap list_fmap]. rewrite (swap_boundary "--" ("--" +:+ crlf)); [done|done|].
    assert (sforall boundary_char n = true) as Hn by apply boundary_chars.
    apply not_true_iff_false. intros H. apply includes_spec in H as (x & y & E). apply (f_equal String.length) in E.
    rewrite !slength_app in E. cbn in E. lia.
Qed.

Lemma swap_type : String.concat B (js_split n ("multipart/form-data; boundary=" +:+ n)) = "multipart/form-data; boundary=" +:+ B.
Proof.
  pose proof (swap_boundary "multipart/form-data; boundary=" "") as H. rewrite !sapp_nil_r in H. by apply H.
Qed.

Lemma swap_type_header : String.concat B (js_split n ("Content-Type: multipart/form-data; boundary=" +:+ n)) =
  "Content-Type: multipart/form-data; boundary=" +:+ B.
Proof.
  pose proof (swap_boundary "Content-Type: multipart/form-data; boundary=" "") as H. rewrite !sapp_nil_r in H. by apply H.
Qed.

(** iU finds the boundary in the header. *)
Lemma type_boundary : js_split "boundary=" ("multipart/form-data; boundary=" +:+ n) !! 1%nat = Some n.
Proof.
  assert (includes "boundary=" n = false) as Hi.
  { apply not_true_iff_false. intros H. apply includes_spec in H as (x & y & E).
    pose proof boundary_chars as Hn. rewrite E, !sforall_app in Hn. by rewrite andb_false_r in Hn. }
  unfold js_split. change (String.length ("multipart/form-data; boundary=" +:+ n)) with (S (29 + String.length n)).
  rewrite split_str_S. change (cut "boundary=" ("multipart/form-data; boundary=" +:+ n)) with (Some ("multipart/form-data; ", n)).
  cbv iota beta. by rewrite split_lacking.
Qed.
End boundary.

(** ** What a program sends *)

Lemma says_header h : {| p_name := p_name h; p_value := p_value h |} = h.
Proof. by destruct h. Qed.

Lemma plan_without B r : drawn_boundary r = None → sends B (plan r) = r.
Proof.
  intros Hr. unfold plan, sends. rewrite Hr. destruct r as [u m hs b]. cbn [q_url q_method q_headers q_body g_url g_method g_headers g_body swap].
  f_equal.
  - rewrite <- list_fmap_compose. rewrite <- (list_fmap_id hs) at 2. apply list_fmap_ext. intros _ h _. cbn.
    destruct (is_content_type h); cbn; apply says_header.
  - destruct b as [l|]; [|done]. cbn. f_equal. rewrite <- list_fmap_compose. rewrite <- (list_fmap_id l) at 2.
    apply list_fmap_ext. by intros _ [x|f] _.
Qed.

Lemma find_last {A} (f : A → bool) l x : existsb f l = false → f x = true → List.find f (l ++ [x]) = Some x.
Proof.
  induction l as [|y l IH]; cbn; [by intros _ ->|]. intros [Hy Hl]%orb_false_iff Hx. rewrite Hy. by apply IH.
Qed.

Lemma other_headers l : existsb is_content_type (List.filter (λ h, negb (is_content_type h)) l) = false.
Proof. induction l as [|h l IH]; [done|]. cbn. destruct (is_content_type h) eqn:E; cbn; [done|]. by rewrite E, IH. Qed.

Lemma plain_drawn parse_url e t : drawn_boundary (rU_with parse_url None e t) = None.
Proof. unfold drawn_boundary, rU_with. cbn [q_body]. by destruct (postData e). Qed.

(** Headers and body of the request for a form *)
Lemma form_request parse_url e t : ∃ hs, existsb is_content_type hs = false ∧
  ∀ i, contentType i ≠ "" → rU_with parse_url (Some i) e t = RawRequest (FH parse_url (IH (default "" (url e)) (queryString e))) (PH (method e))
    (hs ++ [Pair "Content-Type" (contentType i)]) (Some (body i)).
Proof.
  exists (List.filter (λ h, negb (is_content_type h)) (headers e ++ cookie_header (cookies e) ++
           match auth_given t with Some (u, p) => [Pair "Authorization" ("Basic " +:+ base64 (u +:+ ":" +:+ p))] | None => [] end)).
  split; [apply other_headers|]. intros i Hi. unfold rU_with. rewrite other_headers. by destruct (contentType i).
Qed.

Lemma plan_headers n B hs : existsb is_content_type hs = false →
  (λ h, Pair h.1 (said B h.2)) <$> ((λ h, (p_name h, if is_content_type h then swap (Some n) (p_value h) else Lit (p_value h))) <$> hs) = hs.
Proof.
  induction hs as [|h hs IH]; [done|]. cbn [existsb]. intros [Hh Hs]%orb_false_iff. rewrite !fmap_cons, IH by done.
  rewrite Hh. cbn. by rewrite says_header.
Qed.

(** A sample written from the plan of a request sends the request, whatever boundary it
    draws. *)
Lemma plan_sends parse_url e t B : ∃ r, rU_request parse_url e t = Some r ∧ asked parse_url B e t = Some (sends B (plan r)).
Proof.
  unfold rU_request, asked. destruct (form_params e) as [ps|].
  2: { eexists. split; [done|]. by rewrite plan_without by apply plain_drawn. }
  destruct (free_form ps) as (d & E & Hd & _ & Hfree). rewrite E. eexists. split; [done|]. cbn [option_map]. f_equal.
  unfold with_boundary.
  destruct (form_request parse_url e t) as (hs & Hhs & Hj). rewrite (Hj (form_body ("scalar-boundary" +:+ d) ps)) by done.
  destruct (existsb is_file (body (form_body ("scalar-boundary" +:+ d) ps))) eqn:Ef.
  - assert (drawn_boundary (RawRequest (FH parse_url (IH (default "" (url e)) (queryString e))) (PH (method e))
      (hs ++ [Pair "Content-Type" (contentType (form_body ("scalar-boundary" +:+ d) ps))]) (Some (body (form_body ("scalar-boundary" +:+ d) ps)))) = Some ("scalar-boundary" +:+ d)) as Hb.
    { unfold drawn_boundary, iU. cbn [q_body q_headers raw_body raw_headers]. rewrite Ef, find_last by done. by apply type_boundary. }
    rewrite Hj by done. unfold plan. rewrite Hb. unfold sends. cbn [q_url q_method q_headers q_body g_url g_method g_headers g_body]. f_equal.
    + rewrite !fmap_app, plan_headers by done. f_equal. cbn [fmap list_fmap p_name p_value contentType form_body fst snd]. do 2 f_equal.
      symmetry. by apply swap_type.
    + cbn [option_map]. f_equal. rewrite <- list_fmap_compose. rewrite <- (swap_body d B Hd ps Hfree). apply list_fmap_ext.
      by intros _ [x|f] _.
  - rewrite plan_without; [by apply Hj|]. unfold drawn_boundary, iU. cbn [q_body q_headers raw_body raw_headers]. by rewrite Ef.
Qed.

(** *** It is what the request asks for *)

Lemma form_params_asked e : form_params e = asked_fields "multipart/form-data" e.
Proof.
  unfold form_params, asked_fields. destruct (postData e) as [[m tx ps]|]; [|done]. cbn. destruct ps; [done|]. by destruct (String.eqb m _).
Qed.

Lemma target_asked parse_url e : FH parse_url (IH (default "" (url e)) (queryString e)) = asked_target parse_url e.
Proof.
  assert (IH (default "" (url e)) (queryString e) = asked_url e) as ->; [|unfold FH, asked_target; by destruct (asked_url e)].
  unfold IH, MH, asked_url. destruct (queryString e) as [|q l]; [done|].
  change ("?" +:+ ?x) with (String "?" x). cbv iota beta zeta. destruct (default "" (url e)) as [|c s]; [done|].
  by destruct (includes "?" (String c s)).
Qed.

Lemma has_file_body n ps : existsb is_file (body (form_body n ps)) = existsb has_file ps.
Proof.
  cbn [form_body body]. rewrite existsb_app, orb_false_r. induction ps as [|p ps IH]; [done|].
  change (mjoin (form_part n <$> p :: ps)) with (form_part n p ++ mjoin (form_part n <$> ps)).
  rewrite existsb_app, IH. unfold form_part, has_file. cbn [existsb]. by destruct (pa_fileName p).
Qed.

Lemma rU_with_asked parse_url e t B files i :
  match asked_fields "multipart/form-data" e with Some ps => i = Some (form_body B ps) | None => i = None end →
  q_headers (rU_with parse_url i e t) = asked_headers B e t ∧
  option_map (λ l, String.concat "" (piece_text files <$> l)) (q_body (rU_with parse_url i e t)) = asked_bytes B files e.
Proof.
  intros Hi. unfold rU_with, asked_headers, asked_bytes. cbn [q_headers q_body]. rewrite auth_given_asked.
  assert (cookie_header (cookies e) = match cookies e with [] => [] | l => [Pair "Cookie" (asked_cookies l)] end) as ->
    by by destruct (cookies e).
  set (hs := headers e ++ _ ++ _). destruct (asked_fields "multipart/form-data" e) as [ps|] eqn:E; subst i.
  - rewrite other_headers. cbn [contentType form_body option_map]. split; [done|]. by rewrite <- form_asked.
  - destruct (postData e) as [[m tx ps]|] eqn:Ed; [|unfold asked_fields; rewrite Ed; by split]. cbn [option_map mimeType Snippets.text]. split.
    + destruct m as [|c m]; [done|]. change (String.eqb (String c m) "") with false. cbn [orb]. done.
    + unfold asked_fields, plain_body. rewrite Ed. cbn [mimeType params Snippets.text].
      destruct (String.eqb m "application/x-www-form-urlencoded"); [|by destruct ps]. destruct ps as [ps|]; [|done].
      cbn. f_equal. unfold form_text. by rewrite <- list_fmap_compose.
Qed.

Lemma sends_asks parse_url e t : ∃ r, rU_request parse_url e t = Some r ∧ asks_for parse_url e t (plan r).
Proof.
  destruct (plan_sends parse_url e t "") as (r & Hr & _). exists r. split; [done|].
  assert (∃ i d, r = rU_with parse_url i e t ∧
    (∀ ps p v, asked_fields "multipart/form-data" e = Some ps → p ∈ ps → v ∈ param_fields p → includes ("scalar-boundary" +:+ d) v = false) ∧
    ∀ B, ∃ j, sends B (plan r) = rU_with parse_url j e t ∧
      match asked_fields "multipart/form-data" e with Some ps => j = Some (form_body (carried_boundary B d e) ps) | None => j = None end)
    as (i & d & -> & Hd & HB).
  { unfold carried_boundary. rewrite <- form_params_asked. destruct (form_params e) as [ps|] eqn:E.
    - destruct (free_form ps) as (d & Ed & _ & _ & Hfree). unfold rU_request in Hr. rewrite E, Ed in Hr. injection Hr as Hr.
      exists (Some (form_body ("scalar-boundary" +:+ d) ps)), d. split_and!; [done|intros ? p v [= <-]; apply Hfree|].
      intros B. destruct (plan_sends parse_url e t B) as (r' & Hr' & Ha). unfold rU_request in Hr'. rewrite E, Ed in Hr'.
      injection Hr' as Hr'. rewrite <- Hr, Hr'. unfold asked in Ha. rewrite E, Ed in Ha. cbn [option_map] in Ha. apply (inj Some) in Ha.
      eexists. split; [symmetry; exact Ha|]. unfold with_boundary. rewrite has_file_body. by destruct (existsb has_file ps).
    - exists None, "". unfold rU_request in Hr. rewrite E in Hr. injection Hr as Hr. split_and!; [done..|].
      intros B. destruct (plan_sends parse_url e t B) as (r' & Hr' & Ha). unfold rU_request in Hr'. rewrite E in Hr'.
      injection Hr' as Hr'. rewrite <- Hr, Hr'. unfold asked in Ha. rewrite E in Ha. apply (inj Some) in Ha.
      exists None. by rewrite <- Ha. }
  unfold asks_for. split_and!.
  - change (g_url (plan ?r)) with (q_url r). apply target_asked.
  - exact (PH_asked e).
  - exists d. split; [done|]. intros B files. destruct (HB B) as (j & Hj & Hf).
    destruct (rU_with_asked parse_url e t _ files j Hf) as [H1 H2]. rewrite <- H1, <- H2, <- Hj. split; [done|].
    unfold sent_bytes, sends. cbn [q_body]. destruct (g_body (plan (rU_with parse_url i e t))) as [l|]; [|done]. cbn [option_map]. f_equal.
    f_equal. rewrite <- list_fmap_compose. apply list_fmap_ext. by intros _ [x|f] _.
Qed.
