(* ===== verification/ShellSamples.v ===== *)
(** * scalar.js: what the curl and wget samples run

    What a POSIX shell reads in the curl sample of Snippets.v: one command with the
    arguments of the request, or, for a form curl's own options cannot carry, commands
    that write the body of the form piped into it. [sLt_generate] writes the sample for
    wget; a multipart body goes to a temporary file that the shell variable
    multipart_body names. The request, the multipart body and the shell are those of
    Snippets.v and Shell.v. *)
From S2P Require Import Prelude Css Mime Shell Snippets Utf8 Records Multipart MultipartLaws FormData Objects RawRequest.
#[local] Open Scope list_scope.

(** ** The arguments of curl *)

Section Curl.
Variable reformat : string → option string.

(** A parameter curl's own form options can carry: its name, a file's name and a value
    with a content type have none of the characters that mean something there. *)
Definition curl_carries (p : param) : bool :=
  negb (has_char [";"; "="; "034"; ","; "013"; "010"]%char (pa_name p)) &&
  match pa_fileName p, pa_contentType p, pa_value p with
  | Some f, _, _ => negb (has_char [";"; ","; "034"; "\"; "013"; "010"]%char f)
  | None, Some (String _ _), Some (String c s) =>
      negb (existsb (Ascii.eqb c) ["@"; "<"; "034"]%char) && negb (has_char [";"%char] (String c s))
  | None, _, _ => true
  end.

(** The form of a request of which curl cannot carry some parameter *)
Definition uncarried (e : request) : option (list param) :=
  match asked_fields "multipart/form-data" e with
  | Some ps => if forallb curl_carries ps then None else Some ps
  | None => None
  end.

(** A text as JSON laid out, when it is JSON *)
Definition laid_out (s : string) : string := match reformat s with Some t => t | None => s end.

Definition form_argument (p : param) : list string :=
  let type := match pa_contentType p with Some (String _ _ as c) => ";type=" +:+ c | _ => "" end in
  match pa_fileName p with
  | Some f => ["--form"; pa_name p +:+ "=@" +:+ f +:+ type]
  | None =>
      let v := match pa_value p with Some (String _ _ as v) => if Tb (pa_contentType p) then laid_out v else v | _ => "" end in
      let special := match v with String "@" _ | String "<" _ => true | _ => has_char [";"%char] v end in
      if bool_decide (type = "") && special then ["--form-string"; pa_name p +:+ "=" +:+ v]
      else ["--form"; pa_name p +:+ "=" +:+ v +:+ type]
  end.

(** The body: JSON, text and bytes as data, the fields of a form one by one, or all of it
    from the standard input ([piped]) *)
Definition data_arguments (piped : bool) (d : post_data) : list (list string) :=
  let m := mimeType d in
  let t := default "" (Snippets.text d) in
  if Tb (Some m) then if String.eqb t "" then [] else [["--data"; laid_out t]]
  else if qc (Some m) || String.eqb m "application/octet-stream" then [["--data-binary"; t]]
  else match params d with
       | Some ps =>
           if String.eqb m "application/x-www-form-urlencoded" then
             (λ p, ["--data-urlencode"; encodeURIComponent (pa_name p) +:+ "=" +:+ default "" (pa_value p)]) <$> ps
           else if String.eqb m "multipart/form-data" then
             if piped then [["--data-binary"; "@-"]] else form_argument <$> ps
           else [["--data"; laid_out t]]
       | None => [["--data"; laid_out t]]
       end.

(** The headers: those of the request; when the form is piped in with the boundary [B] the
    cookies too, and the content type of the form in the place of any other *)
Definition header_list (B : option string) (e : request) : list pair :=
  match B with
  | None => headers e
  | Some B =>
      List.filter (λ h, negb (String.eqb (to_lower (p_name h)) "content-type"))
        (headers e ++ match cookies e with [] => [] | l => [Pair "Cookie" (asked_cookies l)] end) ++
      [Pair "Content-Type" ("multipart/form-data; boundary=" +:+ B)]
  end.

(** The first Accept-Encoding header allows a compressed answer. *)
Definition accepts_compressed (hs : list pair) : bool :=
  match List.filter (λ h, String.eqb (to_lower (p_name h)) "accept-encoding") hs with
  | h :: _ => includes "gzip" (p_value h) || includes "deflate" (p_value h)
  | [] => false
  end.

Definition curl_arguments (B : option string) (e : request) (t : option credentials) : list (list string) :=
  let u := asked_url e in
  [["curl"; u]] ++
  (if has_char ["["; "]"]%char u || match cut "?" u with Some (_, q) => has_char ["{"; "}"]%char q | None => false end
   then [["--globoff"]] else []) ++
  (if String.eqb (asked_method e) "GET" then [] else [["--request"; asked_method e]]) ++
  (match asked_credentials t with Some (u, p) => [["--user"; u +:+ ":" +:+ p]] | None => [] end) ++
  ((λ h, ["--header"; p_name h +:+ ": " +:+ p_value h]) <$> header_list B e) ++
  (if accepts_compressed (header_list B e) then [["--compressed"]] else []) ++
  (match cookies e with [] => [] | l => [["--cookie"; asked_cookies l]] end) ++
  (match postData e with Some d => data_arguments (bool_decide (is_Some B)) d | None => [] end).

(** ** The pieces of the command are these arguments *)

Lemma needs_raw_carries p : needs_raw p = negb (curl_carries p).
Proof.
  unfold needs_raw, curl_carries. rewrite negb_andb, negb_involutive. f_equal.
  destruct (pa_fileName p); [by rewrite negb_involutive|].
  destruct (pa_contentType p) as [[|]|], (pa_value p) as [[|]|]; try done. cbn [truthy default from_option id andb].
  by rewrite negb_andb, !negb_involutive.
Qed.

Lemma raw_form_uncarried e : raw_form e = match uncarried e with Some ps => rU e ps | None => None end.
Proof.
  unfold raw_form, uncarried, asked_fields. destruct (postData e) as [[m tx ps]|]; [|done]. cbn [mimeType params].
  destruct ps as [ps|]; [|by destruct (String.eqb m _)]. destruct (String.eqb m _); [|done].
  assert (existsb needs_raw ps = negb (forallb curl_carries ps)) as ->.
  { induction ps as [|p ps IH]; [done|]. cbn. by rewrite needs_raw_carries, IH, negb_andb. }
  by destruct (forallb _ _).
Qed.

Lemma pretty_laid_out s : pretty reformat s = laid_out s.
Proof. unfold pretty, laid_out. by destruct (reformat s). Qed.

Lemma yields_form env p : yields env (form_option reformat p) (form_argument p).
Proof.
  unfold form_option, form_argument.
  set (n := if truthy (pa_contentType p) then _ else _).
  assert (match pa_contentType p with Some (String _ _ as c) => ";type=" +:+ c | _ => "" end = n) as -> by (subst n; by destruct (pa_contentType p) as [[|]|]).
  destruct (pa_fileName p) as [f|]; [by apply (yields_pasted env "--form" (pa_name p) "=@")|].
  set (o := if _ && truthy _ then _ else _).
  assert (match pa_value p with Some (String _ _ as v) => if Tb (pa_contentType p) then laid_out v else v | _ => "" end = o) as ->.
  { subst o. destruct (pa_value p) as [[|c s]|]; cbn [default from_option id truthy]; rewrite ?andb_false_r; try done.
    rewrite <- pretty_laid_out. by destruct (Tb (pa_contentType p)). }
  assert (bool_decide (n = "") = negb (truthy (pa_contentType p))) as -> by (subst n; by destruct (pa_contentType p) as [[|]|]).
  assert (match o with String "@" _ | String "<" _ => true | _ => has_char [";"%char] o end =
    (has_prefix "@" o || has_prefix "<" o || has_char [";"%char] o)) as ->.
  { clearbody o. unfold has_prefix. destruct o as [|c o]; [done|]. by destruct c as [[] [] [] [] [] [] [] []]. }
  destruct (negb _ && _).
  - by apply (yields_pasted env "--form-string" (pa_name p) "=").
  - by apply (yields_pasted env "--form" (pa_name p) "=").
Qed.

Lemma yields_map {A} env (f : A → string) g l : (∀ x, yields env (f x) (g x)) → Forall2 (yields env) (f <$> l) (g <$> l).
Proof. intros H. induction l as [|x l IH]; [constructor|]. rewrite !fmap_cons. by constructor. Qed.

Lemma yields_data env l d : Forall2 (yields env) (data_options reformat l d) (data_arguments l d).
Proof.
  assert (∀ opt v, safe_word opt = true → Forall2 (yields env) [quoted_option opt v] [[opt; v]]) as H1.
  { intros opt v Ho. constructor; [by apply yields_quoted|constructor]. }
  unfold data_options, data_arguments. destruct d as [m tx ps]. cbn [mimeType Snippets.text params].
  rewrite !pretty_laid_out. destruct (Tb _).
  { destruct tx as [[|c s]|]; [constructor| |constructor]. rewrite pretty_laid_out. by apply H1. }
  destruct (qc _); [by apply H1|]. cbn [orb]. destruct (String.eqb _ "application/octet-stream"); [by apply H1|].
  destruct (String.eqb_spec m "application/x-www-form-urlencoded") as [->|_].
  - destruct ps as [ps|]; [|by apply H1]. apply yields_map. intros p. by apply (yields_pasted env "--data-urlencode" (encodeURIComponent (pa_name p)) "=").
  - destruct (String.eqb m "multipart/form-data"); [|destruct ps; by apply H1]. destruct ps as [ps|]; [|by apply H1].
    destruct l; [|apply yields_map, yields_form]. constructor; [|constructor].
    apply (yields_option env "--data-binary" "@-" "@-"); [done|]. intros st Hst. by apply sh_safe_run.
Qed.

Lemma compressed_accepts hs : compressed hs = accepts_compressed hs.
Proof.
  unfold compressed, accepts_compressed. induction hs as [|h hs IH]; [done|]. cbn. by destruct (String.eqb _ _).
Qed.

(** The header of the content type, with the boundary of the shell or its own *)
Lemma yields_headers env u hs c c' : Forall (λ h, is_content_type h = false) hs → header_argument env u c = p_name c' +:+ ": " +:+ p_value c' →
  Forall2 (yields env) ((λ h, "--header " +:+ aW (p_name h +:+ ": " +:+ p_value h) (header_boundary u h)) <$> hs ++ [c])
    ((λ h, ["--header"; p_name h +:+ ": " +:+ p_value h]) <$> hs ++ [c']).
Proof.
  intros Hs Hc. induction Hs as [|h hs Hh _ IH].
  - constructor; [|constructor]. rewrite <- Hc. apply (yields_option env "--header"); [done|]. intros st. apply sh_aW.
  - cbn [app]. rewrite !fmap_cons. constructor; [|exact IH]. apply (yields_option env "--header"); [done|].
    intros st Hst. unfold header_boundary. rewrite Hh. by apply sh_aW.
Qed.

Lemma yields_plain_headers env hs :
  Forall2 (yields env) ((λ h, "--header " +:+ aW (p_name h +:+ ": " +:+ p_value h) (header_boundary None h)) <$> hs)
    ((λ h, ["--header"; p_name h +:+ ": " +:+ p_value h]) <$> hs).
Proof.
  apply yields_map. intros h. apply (yields_option env "--header"); [done|]. intros st Hst. unfold header_boundary.
  assert ((if is_content_type h then None else None) = @None string) as -> by by destruct (is_content_type h).
  by apply sh_aW.
Qed.

(** The command, given what its headers are *)
Lemma curl_words env e t B : url_ok (asked_url e) → safe_word (asked_method e) = true →
  bool_decide (is_Some B) = match raw_form e with Some _ => true | None => false end →
  let d := match raw_form e with Some r => raw_headers r | None => headers e end in
  Forall2 (yields env) ((λ h, "--header " +:+ aW (p_name h +:+ ": " +:+ p_value h) (header_boundary (iU (raw_form e)) h)) <$> d)
    ((λ h, ["--header"; p_name h +:+ ": " +:+ p_value h]) <$> header_list B e) →
  accepts_compressed d = accepts_compressed (header_list B e) →
  sh_words env (curl_command reformat e t) = Some (mjoin (curl_arguments B e t)).
Proof.
  intros Hu Hm HB d Hd Hc. unfold curl_command. apply yields_words; [|done]. unfold curl_pieces, curl_arguments.
  rewrite full_url_asked, auth_given_asked, compressed_accepts, PH_asked. fold d. rewrite HB, <- Hc.
  assert (has_char ["{"; "}"]%char (query_part (asked_url e)) =
    match cut "?" (asked_url e) with Some (_, q) => has_char ["{"; "}"]%char q | None => false end) as ->.
  { unfold query_part. by destruct (cut _ _) as [[a b]|]. }
  repeat apply Forall2_app.
  - constructor; [by apply (yields_url env "curl")|constructor].
  - destruct (_ || _); [constructor; [by apply yields_flag|constructor]|constructor].
  - destruct (String.eqb _ "GET"); [constructor|constructor; [by apply yields_method|constructor]].
  - destruct (asked_credentials t) as [[a b]|]; [constructor; [by apply yields_quoted|constructor]|constructor].
  - exact Hd.
  - destruct (accepts_compressed _); [constructor; [by apply yields_flag|constructor]|constructor].
  - destruct (cookies e) as [|c cs]; [constructor|constructor; [by apply yields_quoted|constructor]].
  - destruct (postData e) as [p|]; [apply yields_data|constructor].
Qed.

(** ** The commands that write a form *)

Lemma script_output_app env files a b x y : script_output env files a = Some x → script_output env files b = Some y →
  script_output env files (a ++ b) = Some (x +:+ y).
Proof.
  unfold script_output. set (f := λ c, match sh_words env c with Some ws => command_output files ws | None => None end).
  intros Ha Hb. revert x Ha. induction a as [|c a IH]; intros x Ha; [injection Ha as <-; exact Hb|]. cbn [app mapM] in *.
  destruct (f c) as [o|]; [|done]. cbn [mbind option_bind] in Ha |- *. destruct (mapM f a) as [xs|]; [|done]. cbn [mbind option_bind option_map mret option_ret] in Ha. apply (inj Some) in Ha as <-.
  specialize (IH _ eq_refl). destruct (mapM f (a ++ b)) as [zs|]; [|done]. injection IH as IH. cbn [mbind option_bind option_map mret option_ret].
  by rewrite !concat_empty_sep, IH, sapp_assoc.
Qed.

Lemma script_body env files t l : script_output env files (mjoin (part_commands t <$> l)) =
  Some (String.concat "" (part_content env files t <$> l)).
Proof.
  induction l as [|p l IH]; [done|]. change (mjoin (part_commands t <$> p :: l)) with (part_commands t p ++ mjoin (part_commands t <$> l)).
  rewrite fmap_cons, concat_empty_sep. apply script_output_app; [|done]. apply body_commands_write_the_body.
Qed.

Lemma form_commands_lines t l : String.concat newline ((part_lines t <$> l) ++ ["}"]) = String.concat newline (mjoin (part_commands t <$> l) ++ ["}"]).
Proof.
  assert (∀ a b, a ≠ [] → b ≠ [] → String.concat newline (a ++ b) = String.concat newline a +:+ newline +:+ String.concat newline b) as Happ.
  { intros a b Ha Hb. induction a as [|x [|y a] IH]; [done|by destruct b|]. cbn [app] in *. rewrite !concat_cons, IH by done. by rewrite !sapp_assoc. }
  assert (∀ p, part_commands t p ≠ []) as Hne.
  { intros [s|f]; [|done]. cbn [part_commands].
    assert (pieces s t ≠ []) as Hs.
    { unfold pieces, js_split. destruct t as [[|c b]|]; [done| |done]. destruct (String.length s); [done|]. cbn. by destruct (cut (String c b) s) as [[? ?]|]. }
    destruct (pieces s t) as [|x [|y l']]; [done|done|]. done. }
  induction l as [|p l IH]; [done|]. rewrite fmap_cons. cbn [app].
  change (mjoin (part_commands t <$> p :: l)) with (part_commands t p ++ mjoin (part_commands t <$> l)). rewrite <- app_assoc.
  change (part_lines t p :: (part_lines t <$> l) ++ ["}"]) with ([part_lines t p] ++ ((part_lines t <$> l) ++ ["}"])).
  rewrite (Happ [part_lines t p]) by (done || by intros []%app_eq_nil).
  rewrite (Happ (part_commands t p)) by (apply Hne || by intros []%app_eq_nil).
  by rewrite IH, part_lines_commands.
Qed.

Lemma concat_last sep l x y : String.concat sep (l ++ [x]) +:+ y = String.concat sep (l ++ [x +:+ y]).
Proof.
  induction l as [|z [|w l] IH]; [done| |].
  - cbn [app]. by rewrite !concat_cons, !sapp_assoc.
  - cbn [app] in *. by rewrite !concat_cons, !sapp_assoc, IH.
Qed.

(** [rW] of a body, piped into a command *)
Lemma piped t l command : rW l t +:+ " | " +:+ command =
  String.concat newline ("{" :: mjoin (part_commands t <$> l) ++ ["} | " +:+ command]).
Proof.
  unfold rW. assert (∀ m, String.concat newline ("{" :: m ++ ["}"]) = "{" +:+ newline +:+ String.concat newline (m ++ ["}"])) as H.
  { intros m. destruct (m ++ ["}"]) eqn:E; [by destruct m|]. by rewrite concat_cons. }
  rewrite H, form_commands_lines, <- H. exact (concat_last newline ("{" :: _) "}" _).
Qed.

(** C1. A curl sample runs the request and nothing else. Read by a POSIX shell it is one
    simple command whose words are exactly the arguments meant: the URL with the query,
    the method, the credentials, one argument per header and per form field and one for
    all the cookies, each text unchanged whatever quotes, blanks, substitutions or line
    ends it holds. Of a form with a parameter curl's own options cannot carry it is a
    pipeline instead: commands of literal words whose output is the body of the form,
    piped into that command, which has the boundary of the body in its content type and
    reads the body from its input; with a file in the form the boundary is drawn by the
    shell before, otherwise it is one that occurs in no field. Only the URL must not be
    empty nor begin with a tilde, and the method be a safe word. *)
Theorem curl_sample_runs_the_request env files e t : url_ok (asked_url e) → safe_word (asked_method e) = true →
  match uncarried e with
  | None => sh_words env (tLt_generate reformat e t) = Some (mjoin (curl_arguments None e t))
  | Some ps => ∃ d cmds command,
      let drawn := existsb has_file ps in
      let B := if drawn then env "boundary" else "scalar-boundary" +:+ d in
      tLt_generate reformat e t =
        (if drawn then "boundary=scalar-$(od -An -N16 -tx1 /dev/urandom | tr -d '[:space:]')" +:+ newline else "") +:+
        String.concat newline ("{" :: cmds ++ ["} | " +:+ command]) ∧
      script_output env files cmds = Some (asked_form B files ps) ∧
      sh_words env command = Some (mjoin (curl_arguments (Some B) e t)) ∧
      ∀ p v, p ∈ ps → v ∈ param_fields p → includes ("scalar-boundary" +:+ d) v = false
  end.
Proof.
  intros Hu Hm. unfold tLt_generate. pose proof (raw_form_uncarried e) as HR.
  destruct (uncarried e) as [ps|].
  - destruct (free_form ps) as (d & E & Hd & _ & Hfree). unfold rU in HR. rewrite E in HR.
    set (hs := List.filter _ _) in HR. set (n := "scalar-boundary" +:+ d) in *.
    assert (iU (raw_form e) = if existsb has_file ps then Some n else None) as Hb.
    { rewrite HR. unfold iU. cbn [raw_body raw_headers]. rewrite has_file_body. destruct (existsb has_file ps); [|done].
      rewrite find_last; [by apply type_boundary|apply other_headers|done]. }
    rewrite HR in Hb |- *. exists d, (mjoin (part_commands (if existsb has_file ps then Some n else None) <$> body (form_body n ps))), (curl_command reformat e t).
    cbv zeta. rewrite Hb. split_and!; [| | |exact Hfree].
    + cbn [raw_body]. rewrite piped. by destruct (existsb has_file ps).
    + rewrite script_body. f_equal. destruct (existsb has_file ps).
      * rewrite <- form_asked. unfold body_text. rewrite <- (swap_body d (env "boundary") Hd ps Hfree).
        rewrite <- list_fmap_compose. f_equal. apply list_fmap_ext. by intros _ [x|f] _.
      * by rewrite <- form_asked.
    + assert (∀ B, header_list (Some B) e = hs ++ [Pair "Content-Type" ("multipart/form-data; boundary=" +:+ B)]) as Hh.
      { intros B. unfold header_list, hs. by destruct (cookies e). }
      apply curl_words; [done|done|by rewrite HR| |].
      * rewrite HR, Hh. cbn [raw_headers]. rewrite Hb. apply yields_headers.
        -- apply Forall_forall. intros h Hin. apply list_elem_of_In, filter_In in Hin as [_ Hin]. by apply negb_true_iff.
        -- unfold header_argument. cbn [p_name p_value contentType form_body]. unfold header_boundary. cbn [is_content_type p_name].
           destruct (existsb has_file ps); [|done]. cbn. exact (swap_type_header d (env "boundary")).
      * rewrite HR, Hh. cbn [raw_headers]. unfold accepts_compressed. by rewrite !List.filter_app.
  - rewrite HR. apply curl_words; [done|done|by rewrite HR|rewrite HR; apply yields_plain_headers|by rewrite HR].
Qed.

End Curl.

(** The sample of [sample_request], and of the same request with a quote in the name of
    the file, which is piped in behind the boundary the shell has drawn *)
Definition piped_request : request :=
  Request (Some "https://api.test/up") (Some "put") [Pair "X-Q" "a'b"; Pair "content-type" "text/plain"] [] [Pair "s" "1"]
    (Some (Post "multipart/form-data" None (Some [Param "f" None (Some "a;b.txt") (Some "text/plain")]))).

Lemma curl_witness :
  sh_words (λ _, "") (tLt_generate no_reformat sample_request (Some (Credentials "me" "it's"))) =
    Some ["curl"; "https://api.test/it's?q=1 2"; "--request"; "POST"; "--user"; "me:it's";
          "--header"; "X-Q: a'b $(id)"; "--cookie"; "s=p%20q"; "--form-string"; "n=@v; rm";
          "--form"; "f=@it's.txt;type=text/plain"] ∧
  ∃ cmds command, tLt_generate no_reformat piped_request None =
      "boundary=scalar-$(od -An -N16 -tx1 /dev/urandom | tr -d '[:space:]')" +:+ newline +:+
      String.concat newline ("{" :: cmds ++ ["} | " +:+ command]) ∧
    script_output (λ _, "B") (λ _, "bytes") cmds = Some (String.concat crlf
      ["--B"; "Content-Disposition: form-data; name=" +:+ quote_char +:+ "f" +:+ quote_char +:+ "; filename=" +:+ quote_char +:+ "a;b.txt" +:+ quote_char;
       "Content-Type: text/plain"; ""; "bytes"; "--B--"; ""]) ∧
    sh_words (λ _, "B") command =
      Some ["curl"; "https://api.test/up"; "--request"; "PUT"; "--header"; "X-Q: a'b"; "--header"; "Cookie: s=1";
            "--header"; "Content-Type: multipart/form-data; boundary=B"; "--cookie"; "s=1"; "--data-binary"; "@-"].
Proof.
  assert (∀ e, asked_url e ≠ "" → match asked_url e with String "~" _ => false | _ => true end = true → url_ok (asked_url e)) as Hu.
  { intros e H1 H2. split; [done|]. destruct (asked_url e) as [|c s]; [done|]. by destruct c as [[] [] [] [] [] [] [] []]. }
  split.
  - etransitivity; [exact (curl_sample_runs_the_request no_reformat (λ _, "") (λ _, "") sample_request
      (Some (Credentials "me" "it's")) (Hu sample_request ltac:(discriminate) eq_refl) eq_refl)|reflexivity].
  - destruct (curl_sample_runs_the_request no_reformat (λ _, "B") (λ _, "bytes") piped_request None
      (Hu piped_request ltac:(discriminate) eq_refl) eq_refl) as (d & cmds & c & H1 & H2 & H3 & _).
    exists cmds, c. split; [exact H1|]. split; [exact H2|exact H3].
Defined.

(** ** wget *)

Section Generate.
Variable reformat : string → option string.

(** cW *)
Definition cW (e : string) : string := pretty reformat e.

(** c: the raw form; wget has no form options of its own *)
Definition wget_form (e : request) : option raw_request :=
  match postData e with
  | Some d => if String.eqb (mimeType d) "multipart/form-data"
              then match params d with Some ps => rU e ps | None => None end else None
  | None => None
  end.

Definition body_file : string := "--body-file=" +:+ template ["`$multipart_body`"].

Definition wget_body (d : post_data) : list string :=
  let data v := quoted_option "--body-data" v in
  if Tb (Some (mimeType d)) then
    match Snippets.text d with None | Some "" => [] | Some t => [data (cW t)] end
  else if String.eqb (mimeType d) "application/octet-stream" then [data (default "" (Snippets.text d))]
  else
    match String.eqb (mimeType d) "application/x-www-form-urlencoded", String.eqb (mimeType d) "multipart/form-data", params d with
    | true, _, Some ps =>
        [data (String.concat "&" ((λ p, encodeURIComponent (pa_name p) +:+ "=" +:+ encodeURIComponent (default "" (pa_value p))) <$> ps))]
    | _, true, Some _ => [body_file]
    | _, _, _ => match Snippets.text d with None | Some "" => [] | Some t => [data (cW t)] end
    end.

Definition wget_pieces (e : request) (t : option credentials) : list string :=
  let a := full_url e in
  let o := if bare_url a then a else "'" +:+ tW a +:+ "'" in
  let c := wget_form e in
  let u := match c with Some r => raw_headers r | None => headers e end in
  ["wget --quiet"; "--method " +:+ PH (method e)] ++
  (match auth_given t with
   | Some (n, p) => [quoted_option "--user" n; quoted_option "--password" p] | None => [] end) ++
  ((λ h, "--header " +:+ aW (p_name h +:+ ": " +:+ p_value h) (header_boundary (iU c) h)) <$> u) ++
  (match cookies e with [] => [] | cs => ["--header 'Cookie: " +:+ tW (cookie_text cs) +:+ "'"] end) ++
  (match postData e with Some d => wget_body d | None => [] end) ++
  ["--output-document"; "- " +:+ o].

Definition wget_command (e : request) (t : option credentials) : string := String.concat continued (wget_pieces e t).

(** sLt.generate *)
Definition sLt_generate (e : request) (t : option credentials) : string :=
  match wget_form e with
  | Some r =>
      (if truthy (iU (Some r)) then iW else "") +:+ "multipart_body=$(mktemp)" +:+ newline +:+
      "trap 'rm -f " +:+ template ["`$multipart_body`"] +:+ "' EXIT" +:+ newline +:+
      rW (raw_body r) (iU (Some r)) +:+ " > " +:+ template ["`$multipart_body`"] +:+ newline +:+ wget_command e t
  | None => wget_command e t
  end.

(** ** The arguments *)

Definition body_arguments (env : string → string) (d : post_data) : list (list string) :=
  if Tb (Some (mimeType d)) then
    match Snippets.text d with None | Some "" => [] | Some t => [["--body-data"; cW t]] end
  else if String.eqb (mimeType d) "application/octet-stream" then [["--body-data"; default "" (Snippets.text d)]]
  else
    match String.eqb (mimeType d) "application/x-www-form-urlencoded", String.eqb (mimeType d) "multipart/form-data", params d with
    | true, _, Some ps =>
        [["--body-data"; String.concat "&" ((λ p, encodeURIComponent (pa_name p) +:+ "=" +:+ encodeURIComponent (default "" (pa_value p))) <$> ps)]]
    | _, true, Some _ => [["--body-file=" +:+ env "multipart_body"]]
    | _, _, _ => match Snippets.text d with None | Some "" => [] | Some t => [["--body-data"; cW t]] end
    end.

Definition wget_arguments (env : string → string) (e : request) (t : option credentials) : list (list string) :=
  let c := wget_form e in
  let u := match c with Some r => raw_headers r | None => headers e end in
  [["wget"; "--quiet"]; ["--method"; PH (method e)]] ++
  (match auth_given t with Some (n, p) => [["--user"; n]; ["--password"; p]] | None => [] end) ++
  ((λ h, ["--header"; header_argument env (iU c) h]) <$> u) ++
  (match cookies e with [] => [] | cs => [["--header"; "Cookie: " +:+ cookie_text cs]] end) ++
  (match postData e with Some d => body_arguments env d | None => [] end) ++
  [["--output-document"]; ["-"; full_url e]].

Lemma yields_body env d : Forall2 (yields env) (wget_body d) (body_arguments env d).
Proof.
  assert (∀ v, Forall2 (yields env) [quoted_option "--body-data" v] [["--body-data"; v]]) as H1.
  { intros v. constructor; [by apply yields_quoted|constructor]. }
  assert (Forall2 (yields env) [body_file] [["--body-file=" +:+ env "multipart_body"]]) as H2.
  { constructor; [|constructor]. intros ws. unfold body_file. rewrite sh_run_app.
    rewrite (sh_safe_run env (sh_start ws)) by done. change (template ["`$multipart_body`"]) with (param_ref "multipart_body").
    rewrite sh_param by done. rewrite !sh_push_push. eexists _, _. split; [reflexivity|]. done. }
  unfold wget_body, body_arguments. cbv zeta.
  assert (Forall2 (yields env) match Snippets.text d with None | Some "" => [] | Some t => [quoted_option "--body-data" (cW t)] end
    match Snippets.text d with None | Some "" => [] | Some t => [["--body-data"; cW t]] end) as H3.
  { destruct (Snippets.text d) as [[|c s]|]; [constructor|apply H1|constructor]. }
  destruct (Tb _); [exact H3|]. destruct (String.eqb _ "application/octet-stream"); [apply H1|].
  destruct (String.eqb _ "application/x-www-form-urlencoded"), (String.eqb _ "multipart/form-data"), (params d) as [ps|]; auto.
Qed.

(** A wget sample runs the request and nothing else: for every request and
    credentials, read by a POSIX shell the command is one simple command whose words are
    exactly the arguments meant, texts unchanged; a form is sent from the file
    the shell variable names. Only the URL must not be empty nor begin with a tilde, and
    the method be a safe word. *)
Theorem wget_passes_the_request env e t : url_ok (full_url e) → safe_word (PH (method e)) = true →
  sh_words env (wget_command e t) = Some (mjoin (wget_arguments env e t)).
Proof.
  intros Hu Hm. unfold wget_command. apply yields_words; [|done]. unfold wget_pieces, wget_arguments. cbv zeta.
  repeat apply Forall2_app.
  - constructor; [by apply (yields_option env "wget" "--quiet" "--quiet"); [|intros st Hst; apply sh_safe_run]|].
    constructor; [|constructor]. apply (yields_option env "--method"); [done|]. intros st Hst.
    destruct (PH (method e)); [done|]. by apply sh_safe_run.
  - destruct (auth_given t) as [[a b]|]; [|constructor].
    constructor; [by apply yields_quoted|]. constructor; [by apply yields_quoted|constructor].
  - induction (match wget_form e with Some r => raw_headers r | None => headers e end) as [|h hs IH]; [constructor|].
    rewrite !fmap_cons. constructor; [|exact IH].
    apply (yields_option env "--header"); [done|]. intros st. apply sh_aW.
  - destruct (cookies e) as [|c cs]; [constructor|]. constructor; [|constructor].
    apply (yields_option env "--header" (single ("Cookie: " +:+ cookie_text (c :: cs)))); [done|].
    intros st. apply sh_single.
  - destruct (postData e) as [d|]; [apply yields_body|constructor].
  - constructor; [by apply yields_flag|]. constructor; [by apply (yields_url env "-")|constructor].
Qed.
End Generate.

Lemma wget_witness : url_ok (full_url sample_request) ∧
  ∃ ws, sh_words (λ _, "/tmp/x") (wget_command no_reformat sample_request None) = Some ws ∧ In "--body-file=/tmp/x" ws.
Proof.
  assert (url_ok (full_url sample_request)) as Hu by (split; [discriminate|exact I]). split; [exact Hu|].
  rewrite (wget_passes_the_request no_reformat (λ _, "/tmp/x") sample_request None Hu eq_refl).
  eexists. split; [reflexivity|]. vm_compute. tauto.
Defined.
