(* ===== verification/JavaSamples.v ===== *)
(** * scalar.js: the Java samples (AsyncHttp, java.net.http, Unirest)

    The samples are lines of code written from the request of [rU]: the bytes of the body
    ([sU]), then the calls of the client. [java] reads their texts, [read_java] their
    statements; what is read is the plan of the request. OkHttp builds its bodies with
    classes of its own and is not modelled. *)
From S2P Require Import Prelude Css Mime Shell Snippets Literals Lex Values RawRequest.
#[local] Open Scope list_scope.

(** ** Readers of samples

    Small readers of the tokens of a sample, put together from the reading of fixed
    code, of texts, of one thing or another and of many things in a row. [reads_in p ok ts x]:
    what [p] reads in front of anything that is [ok] is [x], from the tokens [ts]. *)

Definition reader_of (A : Type) : Type := list token → option (A * list token).

Definition gives {A} (x : A) : reader_of A := λ ts, Some (x, ts).
Definition reads_then {A B} (p : reader_of A) (q : A → reader_of B) : reader_of B :=
  λ ts, match p ts with Some (x, r) => q x r | None => None end.
Definition expect (p : list token) : reader_of unit := λ ts, option_map (Datatypes.pair tt) (strip p ts).
Definition text_p : reader_of string := λ ts, match ts with Text s :: r => Some (s, r) | _ => None end.
Definition either {A} (p q : reader_of A) : reader_of A := λ ts, match p ts with Some y => Some y | None => q ts end.

Fixpoint many_p {A} (p : reader_of A) (fuel : nat) : reader_of (list A) :=
  λ ts, match fuel with
        | O => Some ([], ts)
        | S f => match p ts with
                 | Some (x, r) => match many_p p f r with Some (xs, r') => Some (x :: xs, r') | None => None end
                 | None => Some ([], ts)
                 end
        end.

(** As many as there are *)
Definition many {A} (p : reader_of A) : reader_of (list A) := λ ts, many_p p (length ts) ts.

Declare Scope reader_scope.
Delimit Scope reader_scope with reader.
Notation "'let!' x ':=' p 'in' q" := (reads_then p (λ x, q)) (at level 200, x pattern, q at level 200) : reader_scope.
Notation "p ;! q" := (reads_then p (λ _, q)) (at level 100, right associativity) : reader_scope.

Definition anything (ts : list token) : Prop := True.

Definition reads_in {A} (p : reader_of A) (ok : list token → Prop) (ts : list token) (x : A) : Prop :=
  ∀ r, ok r → p (ts ++ r) = Some (x, r).

(** Many things, each of at least one token *)
Lemma many_reads {A} (p : reader_of A) (f : A → list token) xs r fuel : (∀ x, x ∈ xs → reads_in p anything (f x) x) →
  p r = None → (length xs ≤ fuel)%nat → many_p p fuel (mjoin (f <$> xs) ++ r) = Some (xs, r).
Proof.
  revert fuel. induction xs as [|x xs IH]; intros fuel Hp Hr Hf.
  - cbn. destruct fuel; cbn; [done|]. by rewrite Hr.
  - destruct fuel as [|fuel]; [cbn in Hf; lia|]. cbn [many_p].
    assert (mjoin (f <$> x :: xs) ++ r = f x ++ mjoin (f <$> xs) ++ r) as ->.
    { change (mjoin (f <$> x :: xs)) with (f x ++ mjoin (f <$> xs)). by rewrite <- app_assoc. }
    rewrite (Hp x) by (try done; by left). rewrite IH; [done| |done|cbn in Hf; lia]. intros y Hy. apply Hp. by right.
Qed.

Lemma reads_many {A} (p : reader_of A) (f : A → list token) (ok : list token → Prop) xs :
  (∀ x, x ∈ xs → reads_in p anything (f x) x) → (∀ x, f x ≠ []) → (∀ r, ok r → p r = None) →
  reads_in (many p) ok (mjoin (f <$> xs)) xs.
Proof.
  intros Hp Hn Hok r Hr. unfold many. apply many_reads; [done|by apply Hok|].
  rewrite length_app. assert (length xs ≤ length (mjoin (f <$> xs)))%nat; [|lia]. clear Hp. induction xs as [|x xs IH]; [done|].
  change (mjoin (f <$> x :: xs)) with (f x ++ mjoin (f <$> xs)). rewrite length_app. specialize (Hn x).
  destruct (f x) as [|y l]; [done|]. cbn [length]. lia.
Qed.

(** ** One thing after the other *)

Lemma then_expect {B} p (q : unit → reader_of B) ts : reads_then (expect p) q (p ++ ts) = q tt ts.
Proof. unfold reads_then, expect. by rewrite strip_app. Qed.

Lemma then_text {B} s (q : string → reader_of B) ts : reads_then text_p q ([Text s] ++ ts) = q s ts.
Proof. done. Qed.

Lemma then_reads {A B} (p : reader_of A) (q : A → reader_of B) ok ts x r : reads_in p ok ts x → ok r → reads_then p q (ts ++ r) = q x r.
Proof. intros H Hr. unfold reads_then. by rewrite H. Qed.

Lemma then_none {A B} (p : reader_of A) (q : A → reader_of B) ts : p ts = None → reads_then p q ts = None.
Proof. unfold reads_then. by intros ->. Qed.

Lemma either_first {A} (p q : reader_of A) ts y : p ts = Some y → either p q ts = Some y.
Proof. unfold either. by intros ->. Qed.

Lemma either_second {A} (p q : reader_of A) ts : p ts = None → either p q ts = q ts.
Proof. unfold either. by intros ->. Qed.

Lemma then_some {A B} (p : reader_of A) (q : A → reader_of B) ts x r : p ts = Some (x, r) → reads_then p q ts = q x r.
Proof. unfold reads_then. by intros ->. Qed.

(** ** The lines of a sample *)

Section lines.
Context (l : lexicon) `{!Blanks l}.

(** Lines of whole tokens *)
Definition lines_say (ls : list string) (ts : list token) : Prop := ∃ tss, Forall2 (closed l) ls tss ∧ ts = mjoin tss.

Lemma lines_nil : lines_say [] [].
Proof. by exists []. Qed.

Lemma lines_cons x ls t ts : closed l x t → lines_say ls ts → lines_say (x :: ls) (t ++ ts).
Proof. intros Hx (tss & H & ->). exists (t :: tss). by split; [constructor|]. Qed.

Lemma lines_app xs ys ts us : lines_say xs ts → lines_say ys us → lines_say (xs ++ ys) (ts ++ us).
Proof. intros (tss & H & ->) (uss & H' & ->). exists (tss ++ uss). split; [by apply Forall2_app|]. by rewrite join_app. Qed.

Lemma lines_one x t : closed l x t → lines_say [x] t.
Proof. intros H. exists [t]. split; [by repeat constructor|]. cbn. by rewrite app_nil_r. Qed.

Lemma lines_map {A} (f : A → string) (g : A → list token) xs : (∀ x, x ∈ xs → closed l (f x) (g x)) → lines_say (f <$> xs) (mjoin (g <$> xs)).
Proof. intros H. exists (g <$> xs). split; [|done]. by apply Forall2_map. Qed.

Lemma lines_closed ls ts : lines_say ls ts → closed l (String.concat newline ls) ts.
Proof. intros (tss & H & ->). by apply closed_lines. Qed.
End lines.

(** ** Java texts *)

Definition octal_value (c : ascii) : option nat := if byte_in 48 55 c then Some (nat_of_ascii c - 48)%nat else None.

(** Escapes; octal ones of three digits *)
Definition java_unescape (q : ascii) (e : string) : option (option string) :=
  match e with
  | String a "" =>
      if byte_in 48 51 a then Some None
      else match control_escape a with
           | Some d => Some (Some (one d))
           | None => if existsb (Ascii.eqb a) ["034"; "'"; "\"]%char then Some (Some (one a)) else None
           end
  | String a (String b "") => match octal_value b with Some _ => Some None | None => None end
  | String a (String b (String c "")) =>
      match octal_value a, octal_value b, octal_value c with
      | Some x, Some y, Some z => Some (Some (one (ascii_of_nat (64 * x + 8 * y + z))))
      | _, _, _ => None
      end
  | _ => None
  end.

Definition java : lexicon := Lexicon (λ c, Ascii.eqb c "034") (λ _, not_line_end) java_unescape.

(** What oU writes for a character *)
Definition java_char (c : ascii) : string :=
  let t := nat_of_ascii c in
  if Nat.ltb t 32 && negb (existsb (Ascii.eqb c) ["010"; "013"; "009"; "008"; "012"]%char)
  then String "\" (String (octal_digit (t / 64)) (String (octal_digit (t / 8 mod 8)) (one (octal_digit (t mod 8)))))
  else json_char c.

Definition oU (e : string) : string := quote_char +:+ flat_map_s java_char e +:+ quote_char.

(** ** What the bundle writes *)

(** A text of the body, with the boundary that is drawn *)
Definition java_text (t : option string) (e : string) : string :=
  match t with
  | None | Some "" => oU e
  | Some b => "(" +:+ oU e +:+ ".replace(" +:+ oU b +:+ ", boundary))"
  end.

Definition java_part (t : option string) (e : body_part) : string :=
  match e with
  | PFile f => "body.write(java.nio.file.Files.readAllBytes(java.nio.file.Path.of(" +:+ oU f +:+ ")));"
  | PText x => "body.write(" +:+ java_text t x +:+ ".getBytes(java.nio.charset.StandardCharsets.UTF_8));"
  end.

(** sU *)
Definition sU (e : option (list body_part)) (t : option string) : list string :=
  match e with
  | None => []
  | Some l =>
      (if truthy t then ["String boundary = java.util.UUID.randomUUID().toString();"] else []) ++
      ["java.io.ByteArrayOutputStream body = new java.io.ByteArrayOutputStream();"] ++ (java_part t <$> l) ++ [""]
  end.

(** A header: the text of its value *)
Definition java_header (t : option string) (h : pair) : string :=
  match (if truthy t && is_content_type h then t else None) with
  | Some b => oU (p_value h) +:+ ".replace(" +:+ oU b +:+ ", boundary)"
  | None => oU (p_value h)
  end.

Definition java_headers (before : string) (t : option string) (l : list pair) : list string :=
  (λ h, before +:+ oU (p_name h) +:+ ", " +:+ java_header t h +:+ ")") <$> l.

Definition has_body (b : option (list body_part)) : bool := match b with Some _ => true | None => false end.

Definition zPt_lines (n : raw) : list string :=
  let s := drawn_boundary n in
  sU (q_body n) s ++
  ["try (AsyncHttpClient client = new DefaultAsyncHttpClient()) {";
   "  Response response = client.prepare(" +:+ oU (q_method n) +:+ ", " +:+ oU (q_url n) +:+ ")"] ++
  java_headers "    .addHeader(" s (q_headers n) ++
  (if has_body (q_body n) then ["    .setBody(body.toByteArray())"] else []) ++
  ["    .execute()"; "    .get();"; "  System.out.println(response.getResponseBody());"; "}"].

Definition HPt_lines (n : raw) : list string :=
  let s := drawn_boundary n in
  sU (q_body n) s ++
  ["HttpClient client = HttpClient.newHttpClient();"; "HttpRequest request = HttpRequest.newBuilder()";
   "  .uri(java.net.URI.create(" +:+ oU (q_url n) +:+ "))"] ++
  java_headers "  .header(" s (q_headers n) ++
  ["  .method(" +:+ oU (q_method n) +:+ ", HttpRequest.BodyPublishers." +:+
     (if has_body (q_body n) then "ofByteArray(body.toByteArray())" else "noBody()") +:+ ")";
   "  .build();"; "";
   "HttpResponse<String> response = client.send(request, HttpResponse.BodyHandlers.ofString());";
   "System.out.println(response.body());"].

Definition JPt_lines (n : raw) : list string :=
  let s := drawn_boundary n in
  sU (q_body n) s ++
  ["HttpResponse<String> response = Unirest.request(" +:+ oU (q_method n) +:+ ", " +:+ oU (q_url n) +:+ ")"] ++
  java_headers "  .header(" s (q_headers n) ++
  (if has_body (q_body n) then ["  .body(body.toByteArray())"] else []) ++
  ["  .asString();"; "System.out.println(response.getBody());"].

Inductive java_client : Type := AsyncHttp | NetHttp | Unirest.

Definition java_lines (k : java_client) (n : raw) : list string :=
  match k with AsyncHttp => zPt_lines n | NetHttp => HPt_lines n | Unirest => JPt_lines n end.

(** zPt.generate, HPt.generate, JPt.generate *)
Definition java_generate (parse_url : string → option url_parts) (k : java_client) (e : request) (t : option credentials) : option string :=
  option_map (λ n, String.concat newline (java_lines k n)) (rU_request parse_url e t).

(** ** Reading Java *)

Definition jcode (s : string) : list token := default [] (lex java s).

#[local] Open Scope reader_scope.

(** A text, perhaps with [.replace(text, boundary)] behind it *)
Definition expr_p : reader_of text_expr :=
  let! s := text_p in
  either (expect (jcode ".replace(") ;! let! b := text_p in expect (jcode ", boundary)") ;! gives (Swap b s)) (gives (Lit s)).

Definition part_p : reader_of part_expr :=
  expect (jcode "body.write(") ;!
  either (expect (jcode "java.nio.file.Files.readAllBytes(java.nio.file.Path.of(") ;! let! f := text_p in expect (jcode ")));") ;! gives (FilePart f))
    (let! x := either (expect [Sign "("] ;! let! x := expr_p in expect [Sign ")"] ;! gives x) expr_p in
     expect (jcode ".getBytes(java.nio.charset.StandardCharsets.UTF_8));") ;! gives (TextPart x)).

(** The statements that draw a boundary and write the body *)
Definition body_p : reader_of (bool * option (list part_expr)) :=
  let! d := either (expect (jcode "String boundary = java.util.UUID.randomUUID().toString();") ;! gives true) (gives false) in
  let! l := either (expect (jcode "java.io.ByteArrayOutputStream body = new java.io.ByteArrayOutputStream();") ;!
                    let! l := many part_p in gives (Some l)) (gives None) in
  gives (d, l).

Definition header_p (name : string) : reader_of (string * text_expr) :=
  expect [Word name; Sign "("] ;! let! n := text_p in expect [Sign ","] ;! let! x := expr_p in expect [Sign ")"] ;! gives (n, x).

(** The body is sent when there is one. *)
Definition sent_p (l : option (list part_expr)) (sent : list token) : reader_of unit :=
  match l with Some _ => expect sent | None => gives tt end.

Definition client_p (k : java_client) (l : option (list part_expr)) : reader_of program :=
  match k with
  | AsyncHttp =>
      expect (jcode "try (AsyncHttpClient client = new DefaultAsyncHttpClient()) { Response response = client.prepare(") ;!
      let! m := text_p in expect [Sign ","] ;! let! u := text_p in expect [Sign ")"] ;!
      let! hs := many (header_p ".addHeader") in
      sent_p l (jcode ".setBody(body.toByteArray())") ;!
      expect (jcode ".execute() .get(); System.out.println(response.getResponseBody()); }") ;!
      gives (Program u m hs l)
  | NetHttp =>
      expect (jcode "HttpClient client = HttpClient.newHttpClient(); HttpRequest request = HttpRequest.newBuilder() .uri(java.net.URI.create(") ;!
      let! u := text_p in expect (jcode "))") ;!
      let! hs := many (header_p ".header") in
      expect (jcode ".method(") ;! let! m := text_p in
      expect (jcode (match l with Some _ => ", HttpRequest.BodyPublishers.ofByteArray(body.toByteArray())"
                                | None => ", HttpRequest.BodyPublishers.noBody()" end)) ;!
      expect (jcode ") .build(); HttpResponse<String> response = client.send(request, HttpResponse.BodyHandlers.ofString()); System.out.println(response.body());") ;!
      gives (Program u m hs l)
  | Unirest =>
      expect (jcode "HttpResponse<String> response = Unirest.request(") ;!
      let! m := text_p in expect [Sign ","] ;! let! u := text_p in expect [Sign ")"] ;!
      let! hs := many (header_p ".header") in
      sent_p l (jcode ".body(body.toByteArray())") ;!
      expect (jcode ".asString(); System.out.println(response.getBody());") ;!
      gives (Program u m hs l)
  end.

Definition is_swap (x : text_expr) : bool := match x with Swap _ _ => true | Lit _ => false end.

Definition needs_boundary (g : program) : bool :=
  existsb (λ h, is_swap h.2) (g_headers g) || existsb (λ p, match p with TextPart x => is_swap x | FilePart _ => false end) (default [] (g_body g)).

(** A boundary the texts refer to has to be drawn. *)
Definition read_java (k : java_client) (s : string) : option program :=
  match lex java s with
  | Some ts =>
      match reads_then body_p (λ x, reads_then (client_p k x.2) (λ g, gives (x.1, g))) ts with
      | Some ((d, g), []) => if implb (needs_boundary g) d then Some g else None
      | _ => None
      end
  | None => None
  end.

(** ** Texts *)

#[export] Instance java_blanks : Blanks java.
Proof. by split. Qed.

Lemma java_writes : writes java "034" java_char.
Proof. intros c s. by destruct c as [[] [] [] [] [] [] [] []]. Qed.

Lemma closed_oU s : closed java (oU s) [Text s].
Proof. apply (closed_text java "034" java_char s); [done|apply java_writes]. Qed.

(** Fixed code and texts in turn *)
Ltac java_code :=
  rewrite <- ?app_assoc; repeat lazymatch goal with
  | |- closed java (oU _) _ => apply closed_oU
  | |- closed java "" _ => apply closed_nil
  | |- closed java (String _ _) _ => unfold closed; vm_compute; reflexivity
  | |- closed java (_ +:+ _) _ => apply closed_app
  end.

(** ** What the samples consist of *)

Definition expr_tokens (x : text_expr) : list token :=
  match x with Lit s => [Text s] | Swap b s => [Text s] ++ jcode ".replace(" ++ [Text b] ++ jcode ", boundary)" end.

Definition part_tokens (p : part_expr) : list token :=
  jcode "body.write(" ++
  match p with
  | FilePart f => jcode "java.nio.file.Files.readAllBytes(java.nio.file.Path.of(" ++ [Text f] ++ jcode ")));"
  | TextPart x =>
      (if is_swap x then [Sign "("] ++ expr_tokens x ++ [Sign ")"] else expr_tokens x) ++
      jcode ".getBytes(java.nio.charset.StandardCharsets.UTF_8));"
  end.

Definition body_tokens (d : bool) (l : option (list part_expr)) : list token :=
  match l with
  | None => []
  | Some l =>
      (if d then jcode "String boundary = java.util.UUID.randomUUID().toString();" else []) ++
      jcode "java.io.ByteArrayOutputStream body = new java.io.ByteArrayOutputStream();" ++ mjoin (part_tokens <$> l)
  end.

Definition header_tokens (name : string) (h : string * text_expr) : list token :=
  [Word name; Sign "("] ++ [Text h.1] ++ [Sign ","] ++ expr_tokens h.2 ++ [Sign ")"].

Definition client_tokens (k : java_client) (g : program) : list token :=
  let sent ts := match g_body g with Some _ => ts | None => [] end in
  match k with
  | AsyncHttp =>
      jcode "try (AsyncHttpClient client = new DefaultAsyncHttpClient()) { Response response = client.prepare(" ++
      [Text (g_method g)] ++ [Sign ","] ++ [Text (g_url g)] ++ [Sign ")"] ++
      mjoin (header_tokens ".addHeader" <$> g_headers g) ++
      sent (jcode ".setBody(body.toByteArray())") ++
      jcode ".execute() .get(); System.out.println(response.getResponseBody()); }"
  | NetHttp =>
      jcode "HttpClient client = HttpClient.newHttpClient(); HttpRequest request = HttpRequest.newBuilder() .uri(java.net.URI.create(" ++
      [Text (g_url g)] ++ jcode "))" ++
      mjoin (header_tokens ".header" <$> g_headers g) ++
      jcode ".method(" ++ [Text (g_method g)] ++
      jcode (match g_body g with Some _ => ", HttpRequest.BodyPublishers.ofByteArray(body.toByteArray())"
                               | None => ", HttpRequest.BodyPublishers.noBody()" end) ++
      jcode ") .build(); HttpResponse<String> response = client.send(request, HttpResponse.BodyHandlers.ofString()); System.out.println(response.body());"
  | Unirest =>
      jcode "HttpResponse<String> response = Unirest.request(" ++
      [Text (g_method g)] ++ [Sign ","] ++ [Text (g_url g)] ++ [Sign ")"] ++
      mjoin (header_tokens ".header" <$> g_headers g) ++
      sent (jcode ".body(body.toByteArray())") ++
      jcode ".asString(); System.out.println(response.getBody());"
  end.

(** ** The samples consist of it *)

Lemma swap_cases t x : (truthy t = false ∧ swap t x = Lit x) ∨ ∃ b, t = Some b ∧ truthy t = true ∧ swap t x = Swap b x ∧ b ≠ "".
Proof. destruct t as [[|c b]|]; [by left| |by left]. right. by exists (String c b). Qed.

Lemma part_closed t p : closed java (java_part t p) (part_tokens (match p with PText x => TextPart (swap t x) | PFile f => FilePart f end)).
Proof.
  destruct p as [x|f]; unfold java_part, part_tokens.
  - apply closed_app; [java_code|]. apply closed_app; [|java_code].
    destruct t as [[|c b]|]; cbn [swap is_swap expr_tokens java_text]; java_code.
  - rewrite app_assoc. apply closed_app; [by vm_compute|java_code].
Qed.

Lemma header_closed before name t h : closed java before [Word name; Sign "("] →
  closed java (before +:+ oU (p_name h) +:+ ", " +:+ java_header t h +:+ ")")
    (header_tokens name (p_name h, if is_content_type h then swap t (p_value h) else Lit (p_value h))).
Proof.
  intros Hb. unfold header_tokens, java_header. cbn [fst snd]. apply closed_app; [done|]. apply closed_app; [java_code|].
  apply (closed_app java ", "); [java_code|]. apply closed_app; [|java_code].
  destruct t as [[|c b]|]; cbn [truthy andb]; [by destruct (is_content_type h); java_code| |by destruct (is_content_type h); java_code].
  destruct (is_content_type h); cbn [swap expr_tokens]; java_code.
Qed.

Definition planned (t : option string) (p : body_part) : part_expr :=
  match p with PText x => TextPart (swap t x) | PFile f => FilePart f end.

Lemma body_lines b t : lines_say java (sU b t) (body_tokens (truthy t) (option_map (fmap (planned t)) b)).
Proof.
  destruct b as [l|]; [|apply lines_nil]. cbn [sU option_map body_tokens].
  apply lines_app; [destruct (truthy t); [by apply lines_one|apply lines_nil]|].
  apply lines_app; [by apply lines_one|]. rewrite <- (app_nil_r (mjoin _)), <- list_fmap_compose.
  apply lines_app; [|by apply lines_one]. apply lines_map. intros p _. apply part_closed.
Qed.

Lemma headers_lines before name t hs : closed java before [Word name; Sign "("] →
  lines_say java (java_headers before t hs)
    (mjoin (header_tokens name <$> ((λ h, (p_name h, if is_content_type h then swap t (p_value h) else Lit (p_value h))) <$> hs))).
Proof. intros Hb. rewrite <- list_fmap_compose. apply lines_map. intros h _. by apply header_closed. Qed.

Lemma plan_parts n : g_headers (plan n) = (λ h, (p_name h, if is_content_type h then swap (drawn_boundary n) (p_value h) else Lit (p_value h))) <$> q_headers n ∧
  g_body (plan n) = option_map (fmap (planned (drawn_boundary n))) (q_body n) ∧ g_method (plan n) = q_method n ∧ g_url (plan n) = q_url n.
Proof. done. Qed.

Lemma sent_lines n line ts : closed java line ts →
  lines_say java (if has_body (q_body n) then [line] else []) (match g_body (plan n) with Some _ => ts | None => [] end).
Proof. destruct (plan_parts n) as (_ & -> & _). destruct (q_body n); cbn; [by apply lines_one|intros _; apply lines_nil]. Qed.

Lemma lines_step x ls t ts us : closed java x t → us = t ++ ts → lines_say java ls ts → lines_say java (x :: ls) us.
Proof. intros Hx -> H. by apply lines_cons. Qed.

Ltac java_line := eapply lines_step; [java_code|cbn [app]; reflexivity|].

Lemma asynchttp_lines n : lines_say java (zPt_lines n) (body_tokens (truthy (drawn_boundary n)) (g_body (plan n)) ++ client_tokens AsyncHttp (plan n)).
Proof.
  apply lines_app; [apply body_lines|]. unfold client_tokens. java_line. java_line.
  apply lines_app; [by apply headers_lines|].
  apply lines_app; [by apply sent_lines|]. repeat java_line. apply lines_nil.
Qed.

Lemma nethttp_lines n : lines_say java (HPt_lines n) (body_tokens (truthy (drawn_boundary n)) (g_body (plan n)) ++ client_tokens NetHttp (plan n)).
Proof.
  apply lines_app; [apply body_lines|]. unfold client_tokens. do 3 java_line.
  apply lines_app; [by apply headers_lines|]. destruct (plan_parts n) as (_ & -> & -> & _).
  destruct (q_body n); cbn [has_body option_map].
  - change (", HttpRequest.BodyPublishers." +:+ "ofByteArray(body.toByteArray())" +:+ ")") with
      ", HttpRequest.BodyPublishers.ofByteArray(body.toByteArray()))". repeat java_line. apply lines_nil.
  - change (", HttpRequest.BodyPublishers." +:+ "noBody()" +:+ ")") with ", HttpRequest.BodyPublishers.noBody())".
    repeat java_line. apply lines_nil.
Qed.

Lemma unirest_lines n : lines_say java (JPt_lines n) (body_tokens (truthy (drawn_boundary n)) (g_body (plan n)) ++ client_tokens Unirest (plan n)).
Proof.
  apply lines_app; [apply body_lines|]. unfold client_tokens. java_line.
  apply lines_app; [by apply headers_lines|].
  apply lines_app; [by apply sent_lines|]. repeat java_line. apply lines_nil.
Qed.

(** ** The samples are read *)

Definition no_replace (r : list token) : Prop := strip (jcode ".replace(") r = None.

Lemma expr_reads x : reads_in expr_p no_replace (expr_tokens x) x.
Proof.
  intros r Hr. unfold expr_p. destruct x as [s|b s]; cbn [expr_tokens]; rewrite <- ?app_assoc, then_text.
  - rewrite either_second; [done|]. apply then_none. unfold expect. by rewrite Hr.
  - apply either_first. by rewrite then_expect, then_text, then_expect.
Qed.

(** A text with its boundary replaced is in parentheses. *)
Lemma body_text_reads x : reads_in (either (expect [Sign "("] ;! let! x := expr_p in expect [Sign ")"] ;! gives x) expr_p) no_replace
  (if is_swap x then [Sign "("] ++ expr_tokens x ++ [Sign ")"] else expr_tokens x) x.
Proof.
  intros r Hr. destruct x as [s|b s]; cbn [is_swap].
  - rewrite either_second; [by apply expr_reads|]. by apply then_none.
  - apply either_first. rewrite <- !app_assoc, then_expect, (then_reads _ _ _ _ _ _ (expr_reads (Swap b s))) by done. by rewrite then_expect.
Qed.

Lemma part_reads p : reads_in part_p anything (part_tokens p) p.
Proof.
  intros r _. unfold part_p, part_tokens. rewrite <- !app_assoc, then_expect. destruct p as [x|f].
  - rewrite either_second by (apply then_none; by destruct x). rewrite <- app_assoc.
    rewrite (then_reads _ _ _ _ _ _ (body_text_reads x)) by by vm_compute. by rewrite then_expect.
  - apply either_first. by rewrite <- !app_assoc, then_expect, then_text, then_expect.
Qed.

Lemma header_reads name h : reads_in (header_p name) anything (header_tokens name h) h.
Proof.
  intros r _. unfold header_p, header_tokens. rewrite <- !app_assoc, then_expect, then_text, then_expect.
  rewrite (then_reads _ _ _ _ _ _ (expr_reads h.2)) by done. rewrite then_expect. by destruct h.
Qed.

Definition drawn (d : bool) (l : option (list part_expr)) : bool := match l with Some _ => d | None => false end.

(** The client's code is no statement about the body. *)
Definition no_body (r : list token) : Prop :=
  strip (jcode "String boundary = java.util.UUID.randomUUID().toString();") r = None ∧
  strip (jcode "java.io.ByteArrayOutputStream body = new java.io.ByteArrayOutputStream();") r = None ∧ strip (jcode "body.write(") r = None.

Lemma body_reads d l : reads_in body_p no_body (body_tokens d l) (drawn d l, l).
Proof.
  intros r (H1 & H2 & H3). unfold body_p, body_tokens. destruct l as [l|].
  - rewrite <- !app_assoc. rewrite (then_some _ _ _ d (jcode "java.io.ByteArrayOutputStream body = new java.io.ByteArrayOutputStream();" ++ mjoin (part_tokens <$> l) ++ r)).
    + rewrite (then_some _ _ _ (Some l) r); [done|]. apply either_first. rewrite then_expect. rewrite (then_some _ _ _ l r); [done|].
      apply (reads_many _ _ (λ r, part_p r = None)); [intros p _; apply part_reads|by intros []|done|].
      apply then_none. unfold expect. by rewrite H3.
    + destruct d; [by apply either_first; rewrite then_expect|]. rewrite either_second; [done|]. by apply then_none.
  - cbn [app drawn]. rewrite (then_some _ _ _ false r); [rewrite (then_some _ _ _ None r); [done|]|];
      (rewrite either_second; [done|apply then_none]); unfold expect; [by rewrite H2|by rewrite H1].
Qed.

Lemma headers_read name hs r : strip [Word name; Sign "("] r = None →
  many (header_p name) (mjoin (header_tokens name <$> hs) ++ r) = Some (hs, r).
Proof.
  intros Hr. apply (reads_many _ _ (λ r, strip [Word name; Sign "("] r = None)); [intros h _; apply header_reads|by intros []| |done].
  intros r' H. unfold header_p. apply then_none. unfold expect. by rewrite H.
Qed.

Lemma then_headers {B} name hs r (q : list (string * text_expr) → reader_of B) : strip [Word name; Sign "("] r = None →
  reads_then (many (header_p name)) q (mjoin (header_tokens name <$> hs) ++ r) = q hs r.
Proof. intros Hr. unfold reads_then. by rewrite headers_read. Qed.

Lemma then_sent {B} l sent (q : unit → reader_of B) r :
  reads_then (sent_p l sent) q (match l with Some _ => sent | None => [] end ++ r) = q tt r.
Proof. destruct l; [apply then_expect|done]. Qed.

Lemma client_reads k g : client_p k (g_body g) (client_tokens k g) = Some (g, []).
Proof.
  rewrite <- (app_nil_r (client_tokens k g)). unfold client_tokens, client_p. destruct k; rewrite <- !app_assoc.
  - rewrite then_expect, then_text, then_expect, then_text, then_expect, then_headers, then_sent, then_expect; [by destruct g|].
    destruct (g_body g); by vm_compute.
  - rewrite then_expect, then_text, then_expect, then_headers, then_expect, then_text, then_expect, then_expect; [by destruct g|].
    by vm_compute.
  - rewrite then_expect, then_text, then_expect, then_text, then_expect, then_headers, then_sent, then_expect; [by destruct g|].
    destruct (g_body g); by vm_compute.
Qed.

Lemma swap_needs t x : is_swap (swap t x) = true → truthy t = true.
Proof. by destruct t as [[|c b]|]. Qed.

Lemma boundary_is_drawn n : needs_boundary (plan n) = true → drawn (truthy (drawn_boundary n)) (g_body (plan n)) = true.
Proof.
  destruct (plan_parts n) as (Eh & Eb & _). unfold needs_boundary. rewrite Eh, Eb. intros H.
  assert (truthy (drawn_boundary n) = true) as Ht.
  { apply orb_true_iff in H as [H|H]; apply existsb_exists in H as (x & Hx & H); apply list_elem_of_In in Hx.
    - apply list_elem_of_fmap in Hx as (h & -> & _). cbn in H. destruct (is_content_type h); [by eapply swap_needs|done].
    - destruct (q_body n) as [l|]; [|by apply elem_of_nil in Hx]. cbn in Hx. apply list_elem_of_fmap in Hx as ([y|f] & -> & _); [|done].
      exact (swap_needs _ _ H). }
  rewrite Ht. unfold drawn_boundary in Ht. by destruct (q_body n).
Qed.

(** C8. What is read from the Java samples of every client is a program that hands the client
    what the request asks for: the URL with the query, the method, each header of the
    request and those of its cookies, credentials and content type, and the bytes of the
    body, text, encoded form or multipart form; of a form with files the one whose boundary
    is the text the program draws, in every part and in the Content-Type header, of
    another form the one whose boundary is in no field, whatever the fields hold. What
    the client libraries do with it is not modelled, the URL class is a parameter. *)
Theorem java_sample_sends_the_request parse_url k e t : ∃ s g, java_generate parse_url k e t = Some s ∧ read_java k s = Some g ∧
  asks_for parse_url e t g.
Proof.
  destruct (sends_asks parse_url e t) as (n & Hn & Ha).
  exists (String.concat newline (java_lines k n)), (plan n). unfold java_generate. rewrite Hn. split_and!; [done| |done].
  unfold read_java. assert (lines_say java (java_lines k n) (body_tokens (truthy (drawn_boundary n)) (g_body (plan n)) ++ client_tokens k (plan n))) as Hl.
  { destruct k; [apply asynchttp_lines|apply nethttp_lines|apply unirest_lines]. }
  rewrite (closed_lex _ _ _ (lines_closed _ _ _ Hl)).
  rewrite (then_reads _ _ _ _ _ _ (body_reads _ _)) by (destruct k; by vm_compute).
  rewrite (then_some _ _ _ _ _ (client_reads k (plan n))). cbn [gives fst].
  destruct (needs_boundary (plan n)) eqn:Ed; [|done]. by rewrite (boundary_is_drawn n Ed).
Qed.
