(* ===== verification/JsClients.v ===== *)
(** * scalar.js: the ofetch, undici, XHR and jQuery samples

    [ofetch_generate] writes the samples for ofetch of a page and of Node, [VFt_generate] the one
    for undici; [yU] prepares what [hFt_generate] (XHR) and [lFt_generate] (jQuery) write. They
    share the forms and headers of JsSamples.v. A sample is [None] where the bundle throws
    ([JSON.parse] of a text that is no JSON). [JSON.parse] is a parameter. *)
From S2P Require Import Prelude Css Mime Shell Snippets Literals Parameters Objects Lex Values Wordings JsObject JsSamples RawRequest.
#[local] Open Scope list_scope.

(** [lines.join("\n")] and two line ends, or nothing *)
Definition paragraph (n : list string) : string :=
  match n with [] => "" | _ => String.concat newline n +:+ newline +:+ newline end.

Section samples.
Variable parse_json : string → option jv.

(** ** ofetch and undici *)

(** The lines in front and the body, before JSON is looked at *)
Definition raw_data (d : post_data) (t : target) : list string * jv :=
  match (if String.eqb (mimeType d) "multipart/form-data" then params d else None) with
  | Some ps => (mU ps t "formData", Verbatim "formData")
  | None => ([], from_option Str Undefined (text d))
  end.

(** [JSON.parse] of the text; [None]: it throws, of undefined too *)
Definition parsed (d : post_data) : option jv := match text d with Some x => parse_json x | None => None end.

(** ofetch: the body of the options *)
Definition ofetch_data (d : post_data) (t : target) : option (list string * jv) :=
  if String.eqb (mimeType d) "application/json" then option_map (λ v, ((raw_data d t).1, v)) (parsed d) else Some (raw_data d t).

(** undici: the value in a call of JSON.stringify; lU throws for null *)
Definition undici_data (d : post_data) (t : target) : option (list string * jv) :=
  if String.eqb (mimeType d) "application/json" then
    match parsed d with
    | Some v => option_map (λ c, ((raw_data d t).1, c)) (json_code v)
    | None => None
    end
  else Some (raw_data d t).

Definition no_data : option (list string * jv) := Some ([], Undefined).

(** The options both have *)
Definition common_options (e : request) (query : entries) (body : option jv) : entries :=
  (if String.eqb (PH (method e)) "GET" then [] else [("method", Str (PH (method e)))]) ++
  (match query with [] => [] | q => [("query", Obj q)] end) ++
  (match fetch_headers e with [] => [] | h => [("headers", Obj h)] end) ++
  (match body with Some b => [("body", b)] | None => [] end).

(** The body, when the request has one *)
Definition data_of (f : post_data → target → option (list string * jv)) (e : request) (t : target) : option (list string * option jv) :=
  match postData e with
  | Some d => option_map (λ x, (x.1, Some x.2)) (f d t)
  | None => Some ([], None)
  end.

Definition options_argument (r : entries) : list string := match r with [] => [] | _ => [js_print (Obj r) 0] end.

(** The ofetch sample of a page and of Node *)
Definition ofetch_generate (t : target) (e : request) : option string :=
  option_map (λ '(i, b),
    "import { ofetch } from 'ofetch'" +:+ newline +:+ newline +:+ paragraph i +:+
    call_text "ofetch" (("'" +:+ default "undefined" (url e) +:+ "'") :: options_argument (common_options e (NH (queryString e)) b)))
  (data_of ofetch_data e t).

(** fFt.generate, RFt.generate *)
Definition fFt_generate : request → option string := ofetch_generate Page.
Definition RFt_generate : request → option string := ofetch_generate Node.

(** VFt.generate: the import *)
Definition undici_import (i : list string) : string :=
  "import { " +:+ (match i with [] => "request" | _ => "request, FormData" end) +:+ " } from 'undici'" +:+ newline +:+ newline.

(** VFt.generate *)
Definition VFt_generate (e : request) : option string :=
  option_map (λ '(i, b),
    undici_import i +:+ paragraph i +:+
    "const { statusCode, body } = await " +:+
    call_text "request" (("'" +:+ fetch_url e +:+ "'") :: options_argument (common_options e [] b)))
  (data_of undici_data e Node).

(** ** What they are meant to say *)

Definition options_tokens (r : entries) : list (list token) := match r with [] => [] | _ => [tokens js_syntax (Obj r)] end.

Definition ofetch_tokens (e : request) (t : target) (b : option jv) : list token :=
  code "import { ofetch } from 'ofetch'" ++ mjoin (fetch_setup e t) ++
  call_tokens "ofetch" ([Text (default "undefined" (url e))] :: options_tokens (common_options e (NH (queryString e)) b)).

Definition undici_tokens (e : request) (b : option jv) : list token :=
  (match fetch_setup e Node with [] => code "import { request } from 'undici'" | _ => code "import { request, FormData } from 'undici'" end) ++
  mjoin (fetch_setup e Node) ++
  code "const { statusCode, body } = await" ++
  call_tokens "request" ([Text (fetch_url e)] :: options_tokens (common_options e [] b)).

(** ** They say it *)

Lemma paragraph_closed n tss : Forall2 (reads_as js) n tss → closed js (paragraph n) (mjoin tss).
Proof.
  intros H. destruct H as [|x ts ls tss Hx H]; [done|]. rewrite <- (app_nil_r (mjoin (ts :: tss))).
  apply (lex_then js); [|done|done|done]. apply (lex_lines js). by constructor.
Qed.

Lemma raw_setup d t : Forall2 (reads_as js) (raw_data d t).1 (fetch_setup (Request None None [] [] [] (Some d)) t).
Proof.
  unfold raw_data, fetch_setup. destruct d as [m x ps]. cbn [mimeType text params postData].
  destruct (String.eqb m "multipart/form-data"); [|by destruct ps]. destruct ps as [ps|]; [by apply mU_lines|constructor].
Qed.

Lemma data_setup f e t i b : (∀ d x, f d t = Some x → x.1 = (raw_data d t).1) → data_of f e t = Some (i, b) →
  Forall2 (reads_as js) i (fetch_setup e t).
Proof.
  unfold data_of. intros Hf. destruct (postData e) as [d|] eqn:Hd.
  - destruct (f d t) as [[i' b']|] eqn:E; [|done]. intros [= <- <-]. apply Hf in E. cbn in E. subst i'.
    pose proof (raw_setup d t) as H. unfold fetch_setup in *. by rewrite Hd.
  - intros [= <- <-]. unfold fetch_setup. rewrite Hd. constructor.
Qed.

Lemma options_lex r : texts (Obj r) → Forall2 (reads_as js) (options_argument r) (options_tokens r).
Proof.
  intros [Ha Hc]. destruct r as [|x r]; [constructor|]. constructor; [|constructor]. apply closed_lex. by apply js_print_closed.
Qed.

(** The ofetch samples, of a page and of Node, say what the request is, when its URL holds
    no quote, backslash or line end: the import, the lines that build the form, and
    one call with the URL and an object of method, query, headers and body; a JSON body
    is the value itself. There is a sample unless JSON.parse throws. *)
Theorem ofetch_sample_says_the_request e t i b : data_of ofetch_data e t = Some (i, b) →
  sforall js_plain (default "undefined" (url e)) = true → texts (Obj (common_options e (NH (queryString e)) b)) →
  ∃ s, ofetch_generate t e = Some s ∧ lex js s = Some (ofetch_tokens e t b).
Proof.
  intros Hd Hu Ho. unfold ofetch_generate. rewrite Hd. eexists. split; [reflexivity|]. apply closed_lex. unfold ofetch_tokens.
  apply (closed_app js ("import { ofetch } from 'ofetch'" +:+ newline +:+ newline) _ (code "import { ofetch } from 'ofetch'")); [done|].
  apply closed_app.
  - apply paragraph_closed. apply (data_setup ofetch_data e t i b); [|done].
    intros d x. unfold ofetch_data. destruct (String.eqb _ _); [|by intros [= <-]]. destruct (parsed d); [|done]. by intros [= <-].
  - apply js_call; [done..|]. constructor; [by apply closed_lex, closed_js_plain|by apply options_lex].
Qed.

(** The undici sample says what the request is, in the same way; the query is in the URL, a JSON body
    in a call of JSON.stringify, and FormData is imported when a form is built. *)
Theorem undici_sample_says_the_request e i b : data_of undici_data e Node = Some (i, b) →
  sforall js_plain (fetch_url e) = true → texts (Obj (common_options e [] b)) →
  ∃ s, VFt_generate e = Some s ∧ lex js s = Some (undici_tokens e b).
Proof.
  intros Hd Hu Ho. unfold VFt_generate. rewrite Hd. eexists. split; [reflexivity|]. apply closed_lex. unfold undici_tokens.
  assert (Forall2 (reads_as js) i (fetch_setup e Node)) as Hi.
  { apply (data_setup undici_data e Node i b); [|done]. intros d x. unfold undici_data. destruct (String.eqb _ _); [|by intros [= <-]].
    destruct (parsed d) as [v|]; [|done]. destruct (json_code v); [|done]. by intros [= <-]. }
  apply closed_app; [by destruct Hi|]. apply closed_app; [by apply paragraph_closed|].
  apply (closed_app js "const { statusCode, body } = await " _ (code "const { statusCode, body } = await")); [done|].
  apply js_call; [done..|]. constructor; [by apply closed_lex, closed_js_plain|by apply options_lex].
Qed.
End samples.

(** ** XHR and jQuery *)

Record page_request : Type := PageRequest {
  y_url : string; y_method : string; y_headers : list (string * jv); y_setup : list string; y_credentials : bool; y_body : string }.

Definition is_cookie (h : pair) : bool := String.eqb (to_lower (p_name h)) "cookie".

(** yU: the cookies of the request and of its Cookie headers *)
Definition page_cookies (e : request) : list string :=
  ((λ c, encodeURIComponent (p_name c) +:+ "=" +:+ encodeURIComponent (p_value c)) <$> cookies e) ++
  List.filter (includes "=") (mjoin ((λ h, trim_space <$> split_on ";" (p_value h)) <$> List.filter is_cookie (headers e))).

Definition cookie_comment : string := "// Run on the request origin; document.cookie writes cookies for the current page's domain.".

(** yU: the parameters of a form that is no multipart form *)
Definition encoded_params (e : request) : option (list param) :=
  match postData e with
  | Some d => if String.eqb (mimeType d) "application/x-www-form-urlencoded" then params d else None
  | None => None
  end.

(** yU: the headers *)
Definition page_headers (e : request) (t : option credentials) : list pair :=
  let r := List.filter (λ h, negb (is_cookie h)) (headers e) ++
           match auth_given t with Some (u, p) => [Pair "Authorization" ("Basic " +:+ base64 (u +:+ ":" +:+ p))] | None => [] end in
  match postData e with
  | Some d => match mimeType d, form_params e with
              | String _ _ as m, None => if existsb is_content_type r then r else r ++ [Pair "Content-Type" m]
              | _, _ => r
              end
  | None => r
  end.

Definition yU (e : request) (t : option credentials) : page_request :=
  let n := page_cookies e in
  PageRequest (IH (default "" (url e)) (queryString e)) (PH (method e))
    (hU (Request (url e) (method e) (page_headers e t) (queryString e) (cookies e) (postData e)) "body")
    ((match n with [] => [] | _ => cookie_comment :: ((λ c, "document.cookie = " +:+ json_string (c +:+ "; path=/") +:+ ";") <$> n) end) ++
     match form_params e, encoded_params e with
     | Some ps, _ => mU ps Page "body"
     | None, Some ps => "const body = new URLSearchParams();" ::
         ((λ p, call_text "body.append" [json_string (pa_name p); json_string (default "" (pa_value p))] +:+ ";") <$> ps)
     | None, None => []
     end)
    (match n with [] => false | _ => true end)
    (match form_params e, encoded_params e, postData e with
     | Some _, _, _ => "body"
     | None, Some _, _ => "body.toString()"
     | None, None, Some d => json_string (default "" (text d))
     | None, None, None => "null"
     end).

Definition header_code (v : jv) : string := match v with Str s => json_string s | Verbatim c => c | _ => "" end.

Definition header_line (h : string * jv) : string := call_text "xhr.setRequestHeader" [json_string h.1; header_code h.2] +:+ ";".

(** hFt.generate: the lines *)
Definition xhr_lines (e : request) (t : option credentials) : list string :=
  let y := yU e t in
  y_setup y ++
  ["const xhr = new XMLHttpRequest();"; call_text "xhr.open" [json_string (y_method y); json_string (y_url y)] +:+ ";";
   "xhr.withCredentials = true;"] ++
  (header_line <$> y_headers y) ++
  [ticked "xhr.addEventListener(`load`, () => console.log(xhr.responseText));"; call_text "xhr.send" [y_body y] +:+ ";"].

Definition hFt_generate (e : request) (t : option credentials) : string := String.concat newline (xhr_lines e t).

(** lFt.generate: the lines *)
Definition jquery_lines (e : request) (t : option credentials) : list string :=
  let y := yU e t in
  y_setup y ++
  ["$.ajax({"; "  url: " +:+ json_string (y_url y) +:+ ","; "  method: " +:+ json_string (y_method y) +:+ ","] ++
  (if y_credentials y then ["  xhrFields: { withCredentials: true },"] else []) ++
  ["  processData: false,"; "  contentType: false,"] ++
  (match y_headers y with
   | [] => []
   | h => ["  beforeSend(xhr) {"] ++ ((λ h, "    " +:+ header_line h) <$> h) ++ ["  },"]
   end) ++
  ["  data: " +:+ y_body y +:+ ","; "}).done((response) => console.log(response));"].

Definition lFt_generate (e : request) (t : option credentials) : string := String.concat newline (jquery_lines e t).

(** ** What they are meant to say *)

(** The lines that are no comment *)
Definition code_lines : list string → list string := List.filter (λ l, negb (String.eqb l cookie_comment)).

Definition page_setup (e : request) : list (list token) :=
  ((λ c, [Word "document.cookie"; Sign "="; Text (c +:+ "; path=/"); Sign ";"]) <$> page_cookies e) ++
  match form_params e, encoded_params e with
  | Some ps, _ => mU_statements ps Page "body"
  | None, Some ps => code "const body = new URLSearchParams();" ::
      ((λ p, call_tokens "body.append" [[Text (pa_name p)]; [Text (default "" (pa_value p))]] ++ [Sign ";"]) <$> ps)
  | None, None => []
  end.

Definition page_body (e : request) : list token :=
  match form_params e, encoded_params e, postData e with
  | Some _, _, _ => [Word "body"]
  | None, Some _, _ => [Word "body.toString"; Sign "("; Sign ")"]
  | None, None, Some d => [Text (default "" (text d))]
  | None, None, None => [Word "null"]
  end.

Definition header_call (h : string * jv) : list token :=
  call_tokens "xhr.setRequestHeader" [[Text h.1]; match h.2 with Str s => [Text s] | _ => [Word "body.type"] end] ++ [Sign ";"].

Definition xhr_tokens (e : request) (t : option credentials) : list token :=
  mjoin (page_setup e) ++ code "const xhr = new XMLHttpRequest();" ++
  call_tokens "xhr.open" [[Text (PH (method e))]; [Text (IH (default "" (url e)) (queryString e))]] ++ [Sign ";"] ++
  code "xhr.withCredentials = true;" ++ mjoin (header_call <$> y_headers (yU e t)) ++
  code (ticked "xhr.addEventListener(`load`, () => console.log(xhr.responseText));") ++
  call_tokens "xhr.send" [page_body e] ++ [Sign ";"].

Definition option_tokens (k : string) (v : list token) : list token := [Word k; Sign ":"] ++ v ++ [Sign ","].

Definition jquery_tokens (e : request) (t : option credentials) : list token :=
  mjoin (page_setup e) ++ code "$.ajax({" ++
  option_tokens "url" [Text (IH (default "" (url e)) (queryString e))] ++ option_tokens "method" [Text (PH (method e))] ++
  (match page_cookies e with [] => [] | _ => code "xhrFields: { withCredentials: true }," end) ++
  code "processData: false, contentType: false," ++
  (match y_headers (yU e t) with
   | [] => []
   | h => code "beforeSend(xhr) {" ++ mjoin (header_call <$> h) ++ [Sign "}"; Sign ","]
   end) ++
  option_tokens "data" (page_body e) ++ code "}).done((response) => console.log(response));".

(** ** They say it *)

Lemma code_lines_reads l tss : Forall2 (reads_as js) l tss → code_lines l = l.
Proof.
  induction 1 as [|x ts l tss Hx _ IH]; [done|]. unfold code_lines in *. cbn [List.filter].
  destruct (String.eqb_spec x cookie_comment) as [->|_]; [discriminate Hx|]. cbn [negb]. by rewrite IH.
Qed.

Lemma json_reads s : reads_as js (json_string s) [Text s].
Proof. apply json_lex. Qed.

Lemma call_line f args tss : f ≠ "" → sforall is_word f = true → sforall (λ c, negb (is_quote js c)) f = true →
  Forall2 (reads_as js) args tss → reads_as js (call_text f args +:+ ";") (call_tokens f tss ++ [Sign ";"]).
Proof. intros Hn Hw Hq Ha. apply closed_lex, closed_app; [by apply js_call|done]. Qed.

Lemma setup_code e t : Forall2 (reads_as js) (code_lines (y_setup (yU e t))) (page_setup e).
Proof.
  unfold yU, page_setup. cbn [y_setup]. unfold code_lines. rewrite List.filter_app. fold code_lines.
  assert (Forall2 (reads_as js) (match form_params e, encoded_params e with
     | Some ps, _ => mU ps Page "body"
     | None, Some ps => "const body = new URLSearchParams();" ::
         ((λ p, call_text "body.append" [json_string (pa_name p); json_string (default "" (pa_value p))] +:+ ";") <$> ps)
     | None, None => []
     end) (match form_params e, encoded_params e with
     | Some ps, _ => mU_statements ps Page "body"
     | None, Some ps => code "const body = new URLSearchParams();" ::
         ((λ p, call_tokens "body.append" [[Text (pa_name p)]; [Text (default "" (pa_value p))]] ++ [Sign ";"]) <$> ps)
     | None, None => []
     end)) as Hf.
  { destruct (form_params e) as [ps|]; [by apply mU_lines|]. destruct (encoded_params e) as [ps|]; [|constructor].
    constructor; [done|]. apply Forall2_map. intros p _. apply call_line; [done..|]. repeat constructor; apply json_reads. }
  apply Forall2_app; [|by rewrite (code_lines_reads _ _ Hf)].
  assert (∀ l, Forall2 (reads_as js) ((λ c, "document.cookie = " +:+ json_string (c +:+ "; path=/") +:+ ";") <$> l)
    ((λ c, [Word "document.cookie"; Sign "="; Text (c +:+ "; path=/"); Sign ";"]) <$> l)) as Hc.
  { intros l. apply Forall2_map. intros c _. apply closed_lex. apply (closed_app js "document.cookie = " _ [Word "document.cookie"; Sign "="]); [done|].
    apply (closed_app js (json_string _) ";" [Text _]); [apply closed_json|done]. }
  destruct (page_cookies e) as [|c l]; [constructor|]. unfold code_lines. cbn [List.filter]. rewrite String.eqb_refl. cbn [negb].
  fold code_lines. rewrite (code_lines_reads _ _ (Hc (c :: l))). apply Hc.
Qed.

Lemma page_body_lex e t : reads_as js (y_body (yU e t)) (page_body e).
Proof.
  unfold yU, page_body. cbn [y_body]. destruct (form_params e); [done|]. destruct (encoded_params e); [done|].
  destruct (postData e); [apply json_reads|done].
Qed.

(** Headers are texts, but for the type of the blob. *)
Lemma hU_kinds e t x : x ∈ hU e t → (∃ s, x.2 = Str s) ∨ x.2 = Verbatim (t +:+ ".type").
Proof.
  assert (∀ l : list pair, x ∈ ((λ h, (p_name h, Str (p_value h))) <$> l) → ∃ s, x.2 = Str s) as Hp.
  { intros l (h & -> & _)%list_elem_of_fmap. by eexists. }
  unfold hU. destruct (postData e) as [[m y [ps|]]|]; [|intros H; left; by eapply Hp..].
  destruct (String.eqb m "multipart/form-data"); [|intros H; left; by eapply Hp].
  intros [H|H]%elem_of_app; [left; by eapply Hp|]. case_match; [|by apply elem_of_nil in H]. apply list_elem_of_singleton in H as ->. by right.
Qed.

Lemma header_line_lex e t h : h ∈ y_headers (yU e t) → reads_as js (header_line h) (header_call h).
Proof.
  intros H%hU_kinds. unfold header_line, header_call. apply call_line; [done..|]. constructor; [apply json_reads|]. constructor; [|constructor].
  destruct H as [[s ->]| ->]; [apply json_reads|done].
Qed.

(** The XHR sample says what the request is, for every request and credentials: the cookies are
    set, the form is built, the request is opened with the method and the URL with
    its query, and sent with the headers and the body, whatever the texts hold. The one comment is set apart. *)
Theorem xhr_sample_says_the_request e t : lex js (String.concat newline (code_lines (xhr_lines e t))) = Some (xhr_tokens e t).
Proof.
  assert (Forall2 (reads_as js)
    (["const xhr = new XMLHttpRequest();"; call_text "xhr.open" [json_string (y_method (yU e t)); json_string (y_url (yU e t))] +:+ ";"; "xhr.withCredentials = true;"] ++
     (header_line <$> y_headers (yU e t)) ++
     [ticked "xhr.addEventListener(`load`, () => console.log(xhr.responseText));"; call_text "xhr.send" [y_body (yU e t)] +:+ ";"])
    ([code "const xhr = new XMLHttpRequest();"; call_tokens "xhr.open" [[Text (PH (method e))]; [Text (IH (default "" (url e)) (queryString e))]] ++ [Sign ";"];
      code "xhr.withCredentials = true;"] ++ (header_call <$> y_headers (yU e t)) ++
     [code (ticked "xhr.addEventListener(`load`, () => console.log(xhr.responseText));"); call_tokens "xhr.send" [page_body e] ++ [Sign ";"]])) as H.
  { apply Forall2_app; [|apply Forall2_app].
    - constructor; [done|]. constructor; [|by repeat constructor]. apply call_line; [done..|]. repeat constructor; apply json_reads.
    - apply Forall2_map. intros h. by apply header_line_lex.
    - constructor; [done|]. constructor; [|constructor]. apply call_line; [done..|]. constructor; [apply page_body_lex|constructor]. }
  unfold xhr_lines. unfold code_lines. rewrite List.filter_app. fold code_lines. rewrite (code_lines_reads _ _ H).
  rewrite (lex_lines js _ _ (Forall2_app (setup_code e t) H)). unfold xhr_tokens. f_equal.
  rewrite !join_app. cbn [mjoin list_join app]. rewrite ?app_nil_r, <- ?app_assoc. done.
Qed.

Lemma option_line o k x ts : closed js o [Word k; Sign ":"] → reads_as js x ts → reads_as js (o +:+ x +:+ ",") (option_tokens k ts).
Proof. intros Ho Hx. apply (closed_then js o (x +:+ ",") [Word k; Sign ":"]); [done|]. apply closed_lex. by apply (lex_then js). Qed.

(** The jQuery sample says what the request is, in the same way, in an object of options. *)
Theorem jquery_sample_says_the_request e t : lex js (String.concat newline (code_lines (jquery_lines e t))) = Some (jquery_tokens e t).
Proof.
  set (y := yU e t). set (u := IH (default "" (url e)) (queryString e)).
  assert (Forall2 (reads_as js)
    (["$.ajax({"; "  url: " +:+ json_string (y_url y) +:+ ","; "  method: " +:+ json_string (y_method y) +:+ ","] ++
     (if y_credentials y then ["  xhrFields: { withCredentials: true },"] else []) ++
     ["  processData: false,"; "  contentType: false,"] ++
     (match y_headers y with [] => [] | h => ["  beforeSend(xhr) {"] ++ ((λ h, "    " +:+ header_line h) <$> h) ++ ["  },"] end) ++
     ["  data: " +:+ y_body y +:+ ","; "}).done((response) => console.log(response));"])
    ([code "$.ajax({"; option_tokens "url" [Text u]; option_tokens "method" [Text (PH (method e))]] ++
     (match page_cookies e with [] => [] | _ => [code "xhrFields: { withCredentials: true },"] end) ++
     [code "processData: false,"; code "contentType: false,"] ++
     (match y_headers y with [] => [] | h => [code "beforeSend(xhr) {"] ++ (header_call <$> h) ++ [[Sign "}"; Sign ","]] end) ++
     [option_tokens "data" (page_body e); code "}).done((response) => console.log(response));"])) as H.
  { repeat apply Forall2_app.
    - constructor; [done|]. constructor; [|constructor; [|constructor]]; by (apply option_line; [|apply json_reads]).
    - change (y_credentials y) with (match page_cookies e with [] => false | _ => true end). destruct (page_cookies e); by repeat constructor.
    - by repeat constructor.
    - pose proof (header_line_lex e t) as Hh. fold y in Hh. destruct (y_headers y) as [|x l]; [constructor|].
      apply Forall2_app; [by repeat constructor|]. apply Forall2_app; [|by repeat constructor]. apply Forall2_map. intros h Hx.
      by apply (lex_indented js "    "); [|apply Hh].
    - constructor; [|by repeat constructor]. apply (option_line "  data: "); [done|apply page_body_lex]. }
  unfold jquery_lines, jquery_tokens. fold y. unfold code_lines. rewrite List.filter_app. fold code_lines. rewrite (code_lines_reads _ _ H).
  etransitivity; [exact (lex_lines js _ _ (Forall2_app (setup_code e t) H))|]. f_equal. rewrite !join_app.
  destruct (page_cookies e), (y_headers y); cbn [mjoin list_join app]; rewrite ?join_app, ?app_nil_r, <- ?app_assoc; cbn [mjoin list_join app]; by rewrite ?app_nil_r, <- ?app_assoc.
Qed.

Lemma xhr_shows : hFt_generate (Request (Some "https://a.test") (Some "put") [Pair "Cookie" "b=2; x"] [Pair "q" "1"] [Pair "s" "v w"]
    (Some (Post "text/plain" (Some "it's") None))) None =
  template ["// Run on the request origin; document.cookie writes cookies for the current page's domain.";
    "document.cookie = `s=v%20w; path=/`;"; "document.cookie = `b=2; path=/`;"; "const xhr = new XMLHttpRequest();";
    "xhr.open(`PUT`, `https://a.test?q=1`);"; "xhr.withCredentials = true;"; "xhr.setRequestHeader(`Content-Type`, `text/plain`);";
    "xhr.addEventListener(`load`, () => console.log(xhr.responseText));"; "xhr.send(`it's`);"].
Proof. vm_compute. reflexivity. Qed.

Definition json_request : request :=
  Request (Some "https://api.test/x") (Some "post") [Pair "X-Q" "it's"] [Pair "q" "1"] [Pair "s" "v"]
    (Some (Post "application/json" (Some "[]") None)).

Lemma ofetch_sample_witness : let e := json_request in let b := Some (Arr [Str "'"; Null]) in
  data_of (ofetch_data parse_array) e Node = Some ([], b) ∧
  sforall js_plain (default "undefined" (url e)) = true ∧ texts (Obj (common_options e (NH (queryString e)) b)) ∧
  ∃ s, ofetch_generate parse_array Node e = Some s ∧ lex js s = Some (ofetch_tokens e Node b).
Proof.
  intros e b. assert (data_of (ofetch_data parse_array) e Node = Some ([], b)) as Hd by reflexivity.
  assert (sforall js_plain (default "undefined" (url e)) = true) as Hu by reflexivity.
  assert (texts (Obj (common_options e (NH (queryString e)) b))) as Ho by (split; reflexivity).
  split_and!; [done..|]. exact (ofetch_sample_says_the_request parse_array e Node [] b Hd Hu Ho).
Defined.

Lemma undici_sample_witness : let e := json_request in let b := Some (Verbatim "JSON.stringify(['\'', null])") in
  data_of (undici_data parse_array) e Node = Some ([], b) ∧
  sforall js_plain (fetch_url e) = true ∧ texts (Obj (common_options e [] b)) ∧
  ∃ s, VFt_generate parse_array e = Some s ∧ lex js s = Some (undici_tokens e b).
Proof.
  intros e b. assert (data_of (undici_data parse_array) e Node = Some ([], b)) as Hd by reflexivity.
  assert (sforall js_plain (fetch_url e) = true) as Hu by reflexivity.
  assert (texts (Obj (common_options e [] b))) as Ho by (split; reflexivity).
  split_and!; [done..|]. exact (undici_sample_says_the_request parse_array e [] b Hd Hu Ho).
Defined.

(** ** What the samples get wrong *)

(** A body of type JSON that is no JSON text, or that is missing, makes the samples of ofetch and
    undici throw; Axios, Fetch, XHR and jQuery send the text. *)
Lemma ofetch_and_undici_throw parse e t d : postData e = Some d → mimeType d = "application/json" →
  match text d with Some x => parse x = None | None => True end →
  ofetch_generate parse t e = None ∧ VFt_generate parse e = None.
Proof.
  intros Hd Hm Hx. unfold ofetch_generate, VFt_generate, data_of. rewrite Hd. unfold ofetch_data, undici_data, parsed. rewrite Hm.
  change (String.eqb "application/json" "application/json") with true. cbn beta iota. destruct (text d); [by rewrite Hx|done].
Qed.
