(* ===== verification/Templates.v ===== *)
(** * scalar.js: the Dart, F#, Go, Kotlin and Rust samples

    These samples are templates: lines of constant code with holes, into which the texts of
    the request are written as literals of the language. A line is a list of
    [piece]s. [sample_lex] is proved once: a compiler of the language finds the code
    of the template and in each hole the text that was put there; each language gives its
    lexicon, its quoting and its lines. Texts are ASCII; the [URL] class, JSON.parse and JSON.stringify
    of a whole document are parameters. *)
From S2P Require Import Prelude Css Mime Shell Snippets Literals Parameters Objects Lex RawRequest.
#[local] Open Scope list_scope.

(** ** Templates *)

(** Constant code, a text, a name, and a text of code with what it is read as *)
Inductive piece : Type := Code (s : string) | Hole (s : string) | Name (w : string) | Given (s : string) (ts : list token).

Section template.
Context (l : lexicon) (quoted : string → string).

Definition piece_text (p : piece) : string :=
  match p with Code s => s | Hole s => quoted s | Name w => w | Given s _ => s end.

Definition line_text (ps : list piece) : string := foldr (λ p s, piece_text p +:+ s) "" ps.

Definition piece_tokens (p : piece) : list token :=
  match p with Code s => default [] (lex l s) | Hole s => [Text s] | Name w => [Word w] | Given _ ts => ts end.

Definition line_tokens (ps : list piece) : list token := mjoin (piece_tokens <$> ps).

Definition sample_text (ls : list (list piece)) : string := String.concat newline (line_text <$> ls).
Definition sample_tokens (ls : list (list piece)) : list token := mjoin (line_tokens <$> ls).

(** The text leaves nothing open. *)
Definition ends_between (s : string) : bool := match lex_run l Between s with (_, Between) => true | _ => false end.

Definition reads_closed (s : string) (ts : list token) : bool := match lex_run l Between s with (us, Between) => bool_decide (us = ts) | _ => false end.

Definition word_ok (w : string) : bool := negb (String.eqb w "") && sforall is_word w && sforall (λ c, negb (is_quote l c)) w.

(** Code that is not the end of its line leaves nothing open; code that does not go on
    with a word stands behind a name. *)
Fixpoint line_ok (ps : list piece) : bool :=
  match ps with
  | [] => true
  | Code s :: ps' => (match ps' with [] => bool_decide (is_Some (lex l s)) | _ => ends_between s end) && line_ok ps'
  | Hole _ :: ps' => line_ok ps'
  | Name w :: ps' => word_ok w && line_ok ps' && match ps' with [] => true | Code (String _ _ as s) :: _ | Given (String _ _ as s) _ :: _ => apart l s | Hole _ :: _ => true | _ => false end
  | Given s ts :: ps' => reads_closed s ts && line_ok ps'
  end.

(** The constant code of a line, and what is pasted into it *)
Fixpoint shape_ok (ps : list piece) : bool :=
  match ps with
  | [] => true
  | Code s :: ps' => (match ps' with [] => bool_decide (is_Some (lex l s)) | _ => ends_between s end) && shape_ok ps'
  | Hole _ :: ps' | Given _ _ :: ps' => shape_ok ps'
  | Name w :: ps' => word_ok w && shape_ok ps' && match ps' with [] => true | Code (String _ _ as s) :: _ | Given (String _ _ as s) _ :: _ => apart l s | Hole _ :: _ => true | _ => false end
  end.

Definition pastes_ok (ps : list piece) : bool := forallb (λ p, match p with Given s ts => reads_closed s ts | _ => true end) ps.

Lemma line_ok_shape ps : shape_ok ps = true → pastes_ok ps = true → line_ok ps = true.
Proof.
  induction ps as [|p ps IH]; [done|]. intros Hs [Hg Hp]%andb_prop. destruct p; cbn [shape_ok line_ok] in *; [| | |].
  - apply andb_prop in Hs as [-> Hs]. by apply IH.
  - by apply IH.
  - apply andb_prop in Hs as [[-> Hs]%andb_prop ->]. by rewrite IH.
  - rewrite Hg. by apply IH.
Qed.

Context `{Blanks l}.
(** The texts that can be written *)
Context (text_ok : string → bool).
Hypothesis quoted_text : ∀ s, text_ok s = true → closed l (quoted s) [Text s].
Hypothesis quoted_apart : ∀ s x, apart l (quoted s +:+ x) = true ∧ quoted s ≠ "".

Definition holes_ok (ps : list piece) : bool := forallb (λ p, match p with Hole s => text_ok s | _ => true end) ps.

Lemma ends_closed s : ends_between s = true → closed l s (default [] (lex l s)).
Proof.
  unfold ends_between, closed, lex, lex_from. destruct (lex_run l Between s) as [ts []]; try done. intros _. cbn. by rewrite app_nil_r.
Qed.

Lemma line_ok_code s ps : ends_between s = true → line_ok ps = true → line_ok (Code s :: ps) = true.
Proof.
  intros Hs Hp. cbn [line_ok]. rewrite Hp, andb_true_r. destruct ps; [|done].
  apply bool_decide_eq_true. exists (default [] (lex l s)). by apply closed_lex, ends_closed.
Qed.

Lemma reads_closed_closed s ts : reads_closed s ts = true → closed l s ts.
Proof. unfold reads_closed, closed. destruct (lex_run l Between s) as [us []]; try done. by intros ->%bool_decide_eq_true. Qed.

Lemma line_lex ps : line_ok ps = true → holes_ok ps = true → reads_as l (line_text ps) (line_tokens ps).
Proof.
  induction ps as [|p ps IH]; [done|]. intros Hp [Hh Hhs]%andb_prop.
  change (line_tokens (p :: ps)) with (piece_tokens p ++ line_tokens ps). change (line_text (p :: ps)) with (piece_text p +:+ line_text ps).
  destruct p as [s|s|w|s ts]; cbn [line_ok piece_text piece_tokens] in *.
  - apply andb_prop in Hp as [Hs Hp]. destruct ps as [|q ps].
    + apply bool_decide_eq_true in Hs as [ts E]. cbn. rewrite sapp_nil_r, E. cbn. by rewrite app_nil_r.
    + apply closed_then; [by apply ends_closed|by apply IH].
  - apply closed_then; [by apply quoted_text|by apply IH].
  - apply andb_prop in Hp as [[[[Hn Hw]%andb_prop Hq]%andb_prop Hp]%andb_prop Hb]. apply negb_true_iff, String.eqb_neq in Hn.
    apply (lex_app l w _ [Word w]); [by apply lex_word| |by apply IH].
    destruct ps as [|[[|c s]|s|v|[|c s] ts] ps]; try done. cbn [line_text foldr piece_text]. apply quoted_apart.
  - apply andb_prop in Hp as [E%reads_closed_closed Hp]. apply closed_then; [exact E|by apply IH].
Qed.

Lemma sample_lex ls : forallb (λ ps, line_ok ps && holes_ok ps) ls = true → lex l (sample_text ls) = Some (sample_tokens ls).
Proof.
  intros Hl. apply lex_lines; [done|]. apply Forall2_map. intros ps Hps%list_elem_of_In.
  apply (proj1 (forallb_forall _ _) Hl) in Hps. apply andb_prop in Hps as [H1 H2]. by apply line_lex.
Qed.
End template.

(** A literal of the texts that can be written *)
Lemma closed_text_if l q f ok v : is_quote l q = true →
  (∀ c s, ok c = true → lex_run l (InText q s) (f c) = ([], InText q (s +:+ one c))) → sforall ok v = true →
  closed l (String q (flat_map_s f v +:+ one q)) [Text v].
Proof.
  intros Hq Hf Hv. assert (∀ s, lex_run l (InText q s) (flat_map_s f v) = ([], InText q (s +:+ v))) as H.
  { induction v as [|c v IH]; intros s; [by rewrite sapp_nil_r|]. cbn [sforall] in Hv. apply andb_prop in Hv as [Hc Hv].
    cbn [flat_map_s]. rewrite lex_run_app, Hf by done. rewrite IH by done. by rewrite sapp_assoc. }
  unfold closed. cbn [lex_run lex_char]. unfold Lex.code_char. rewrite Hq. rewrite lex_run_app, H. cbn [lex_run lex_char one]. by rewrite Ascii.eqb_refl.
Qed.

(** The lines of a template that hold no part of the request on their own *)
Lemma lines_ok_split {A} (f g : A → bool) xs : forallb f xs = true → forallb g xs = true → forallb (λ x, f x && g x) xs = true.
Proof. rewrite !forallb_forall. intros Hf Hg x Hx. by rewrite Hf, Hg. Qed.

Lemma forallb_fmap_const {A B} (f : B → bool) (g : A → B) xs : (∀ x, f (g x) = true) → forallb f (g <$> xs) = true.
Proof. intros Hf. induction xs as [|x xs IH]; [done|]. cbn. by rewrite Hf, IH. Qed.

Lemma forallb_mjoin_const {A B} (f : B → bool) (g : A → list B) xs : (∀ x, forallb f (g x) = true) → forallb f (mjoin (g <$> xs)) = true.
Proof.
  intros Hf. induction xs as [|x xs IH]; [done|]. change (mjoin (g <$> x :: xs)) with (g x ++ mjoin (g <$> xs)). by rewrite forallb_app, Hf, IH.
Qed.

Ltac template_lines :=
  rewrite ?forallb_app; repeat (apply andb_true_intro; split); try reflexivity;
  try (apply forallb_fmap_const; intros ?; reflexivity).

(** A line of texts between constant parts *)
Definition two_holes (f a b : string) : list piece := [Code (f +:+ "("); Hole a; Code ", "; Hole b; Code ")"].

(** A double quote is written as a backtick in constant code. *)
Definition ticked_text (s : string) : string := smap untick s.

(** ** Kotlin: OkHttp *)

Definition kotlin_unescape (q : ascii) (e : string) : option (option string) :=
  match e with
  | String "u" h => unicode_escape h
  | "t" => Some (Some (one "009")) | "b" => Some (Some (one "008")) | "n" => Some (Some (one "010")) | "r" => Some (Some (one "013"))
  | String c "" => if existsb (Ascii.eqb c) ["034"; "'"; "\"; "$"]%char then Some (Some (one c)) else None
  | _ => None
  end.

(** A dollar in a literal may begin a template. *)
Definition kotlin : lexicon := Lexicon (λ c, Ascii.eqb c DQc) (λ _ c, not_line_end c && negb (Ascii.eqb c "$")) kotlin_unescape.

(** OU *)
Definition OU (e : string) : string := replace_char "$" "\$" (json_string e).

Definition DFt : list string := ["GET"; "POST"; "PUT"; "DELETE"; "PATCH"; "HEAD"].
Definition OFt : list string := ["POST"; "PUT"; "DELETE"; "PATCH"].

Section kotlin.
Variable parse_url : string → option url_parts.

(** kFt: a part of a form *)
Definition kotlin_part (e : param) : list piece :=
  let v := default "" (pa_value e) in
  match pa_fileName e with
  | None => match pa_contentType e with
            | None | Some "" => two_holes "  .addFormDataPart" (pa_name e) v
            | Some c => [Code "  .addFormDataPart("; Hole (pa_name e); Code ", null, RequestBody.create(MediaType.parse("; Hole c; Code "), "; Hole v; Code "))"]
            end
  | Some f => [Code "  .addFormDataPart("; Hole (pa_name e); Code ", "; Hole f; Code ", RequestBody.create(MediaType.parse(";
               Hole (default "application/octet-stream" (pa_contentType e)); Code "), File("; Hole f; Code ")))"]
  end.

(** kFt: the lines of the body *)
Definition kotlin_body (i : post_data) : list (list piece) :=
  match (if String.eqb (mimeType i) "application/x-www-form-urlencoded" then params i else None) with
  | Some ps => [[Code "val body = FormBody.Builder()"]] ++ ((λ p, two_holes "  .add" (pa_name p) (default "" (pa_value p))) <$> ps) ++ [[Code "  .build()"]; []]
  | None =>
      match (if String.eqb (mimeType i) "multipart/form-data" then params i else None) with
      | Some ps => [[Code "val body = MultipartBody.Builder()"]; [Code "  .setType(MultipartBody.FORM)"]] ++ (kotlin_part <$> ps) ++ [[Code "  .build()"]; []]
      | None => [[Code "val mediaType = MediaType.parse("; Hole (mimeType i); Code ")"];
                 [Code "val body = RequestBody.create(mediaType, "; Hole (default "" (text i)); Code ")"]]
      end
  end.

(** kFt.generate: the lines *)
Definition kFt_lines (e : request) (t : option credentials) : list (list piece) :=
  let n := PH (method e) in
  let c := match postData e with
           | Some _ => "body"
           | None => if bool_decide (n ∈ ["POST"; "PUT"; "PATCH"; "PROPPATCH"; "REPORT"]) then ticked_text "RequestBody.create(null, ``)" else "null"
           end in
  [[Code "val client = OkHttpClient()"]; []] ++
  (match postData e with Some i => kotlin_body i | None => [] end) ++
  [[Code "val request = Request.Builder()"]; [Code "  .url("; Hole (FH parse_url (IH (default "" (url e)) (queryString e))); Code ")"]] ++
  [if bool_decide (n ∈ DFt) then
     [Code ("  ." +:+ to_lower n +:+ (if bool_decide (n ∈ OFt) then "(" +:+ c +:+ ")" else "()"))]
   else [Code "  .method("; Hole n; Code (", " +:+ c +:+ ")")]] ++
  (match auth_given t with
   | Some (u, p) => [[Code (ticked_text "  .addHeader(`Authorization`, Credentials.basic("); Hole u; Code ", "; Hole p; Code "))"]]
   | None => []
   end) ++
  ((λ h, two_holes "  .addHeader" (p_name h) (p_value h)) <$> (headers e ++ cookie_header (cookies e))) ++
  [[Code "  .build()"]; []; [Code "val response = client.newCall(request).execute()"]].

Definition kFt_generate (e : request) (t : option credentials) : string := sample_text OU (kFt_lines e t).
End kotlin.

#[export] Instance kotlin_blanks : Blanks kotlin.
Proof. done. Qed.

(** Kotlin knows no escape for a form feed. *)
Definition kotlin_text (s : string) : bool := lacks "012" s.

Definition kotlin_escape (c : ascii) : string := if Ascii.eqb c "$" then "\$" else json_char c.

Lemma OU_once e : OU e = String DQc (flat_map_s kotlin_escape e +:+ one DQc).
Proof.
  unfold OU, json_string, replace_char. rewrite !flat_map_app, flat_map_flat_map.
  change (flat_map_s _ quote_char) with quote_char. change (quote_char +:+ ?x) with (String DQc x). do 2 f_equal.
  apply flat_map_ext. intros c. by destruct c as [[] [] [] [] [] [] [] []].
Qed.

Lemma closed_OU s : kotlin_text s = true → closed kotlin (OU s) [Text s].
Proof.
  intros Hs. rewrite OU_once. apply (closed_text_if kotlin DQc kotlin_escape (λ c, negb (Ascii.eqb c "012"))); [done| |exact Hs].
  intros c x. by destruct c as [[] [] [] [] [] [] [] []].
Qed.

Lemma kotlin_lines_ok parse_url e t : forallb (line_ok kotlin) (kFt_lines parse_url e t) = true.
Proof.
  unfold kFt_lines. template_lines.
  - destruct (postData e) as [i|]; [|done]. unfold kotlin_body. destruct (if String.eqb (mimeType i) "application/x-www-form-urlencoded" then params i else None); [template_lines|].
    destruct (if String.eqb (mimeType i) "multipart/form-data" then params i else None); [|done]. template_lines.
    apply forallb_fmap_const. intros p. unfold kotlin_part. destruct (pa_fileName p); [done|]. by destruct (pa_contentType p) as [[|c x]|].
  - assert (∀ c : string, c = "body" ∨ c = "null" ∨ c = ticked_text "RequestBody.create(null, ``)" → line_ok kotlin
      (if bool_decide (PH (method e) ∈ DFt) then [Code ("  ." +:+ to_lower (PH (method e)) +:+ (if bool_decide (PH (method e) ∈ OFt) then "(" +:+ c +:+ ")" else "()"))]
       else [Code "  .method("; Hole (PH (method e)); Code (", " +:+ c +:+ ")")]) = true) as H.
    { intros c Hc. case_bool_decide as Hm; [|by destruct Hc as [-> | [-> | ->]]].
      revert Hm. generalize (PH (method e)). intros m Hm. unfold DFt in Hm.
      repeat (apply elem_of_cons in Hm as [->|Hm]; [by destruct Hc as [-> | [-> | ->]]|]). by apply elem_of_nil in Hm. }
    apply H. destruct (postData e); [by left|]. destruct (bool_decide (_ ∈ [_; _; _; _; _])); auto.
  - by destruct (auth_given t) as [[u p]|].
Qed.

(** The Kotlin sample says what the request is: for every request whose texts hold no form
    feed, Kotlin finds the code of the template and the texts of the request in its
    holes, dollar signs, quotes and line ends included. *)
Theorem kotlin_sample_says_the_request parse_url e t : forallb (holes_ok kotlin_text) (kFt_lines parse_url e t) = true →
  lex kotlin (kFt_generate parse_url e t) = Some (sample_tokens kotlin (kFt_lines parse_url e t)).
Proof.
  intros Hh. apply (sample_lex kotlin OU kotlin_text); [apply closed_OU|intros s x; rewrite OU_once; done|].
  apply lines_ok_split; [apply kotlin_lines_ok|exact Hh].
Qed.

(** ** Rust: reqwest *)

Definition rust_unescape (q : ascii) (e : string) : option (option string) :=
  match e with
  | "n" => Some (Some (one "010")) | "r" => Some (Some (one "013")) | "t" => Some (Some (one "009")) | "0" => Some (Some (one "000"))
  | String c "" => if existsb (Ascii.eqb c) ["034"; "'"; "\"]%char then Some (Some (one c)) else None
  | _ => None
  end.

Definition rust_lexicon : lexicon := Lexicon (λ c, Ascii.eqb c DQc) (λ _, not_line_end) rust_unescape.

(** $U *)
Definition dollarU (e : nat) (t : string) : string := spaces (e * 4) +:+ t.

(** eW: a method with the arguments [t] *)
Definition eW (e : string) (t : list piece) : list piece := [Code (dollarU 1 "." +:+ e +:+ "(")] ++ t ++ [Code ")"].

(** [[a, b].join(", ")] *)
Definition joined (a b : string) : list piece := [Hole a; Code ", "; Hole b].

(** zNt: the headers a sample keeps, in the order of an object, and the cookies *)
Definition zNt (e : request) : entries :=
  let t := foldl (λ t n, if truthy (Some (p_value n)) && negb (has_char [";"; " "]%char (p_name n)) then object_set (p_name n) (Str (p_value n)) t else t) [] (headers e) in
  match cookies e with [] => t | cs => object_set "Cookie" (Str (cookie_text cs)) t end.

(** YIt *)
Definition YIt (t : option credentials) : list (list piece) :=
  match auth_given t with Some (u, p) => [eW "basic_auth" (joined u p)] | None => [] end.

(** XIt *)
Definition XIt (a : entries) : list (list piece) := (λ x, eW "header" (joined x.1 (js_string x.2))) <$> a.

(** [e.value || ""] *)
Definition value_or_empty (e : param) : string := default "" (pa_value e).

(** JIt: the lines of a part of a form *)
Definition JIt (e : param) : list (list piece) :=
  let typed c := [[Code (dollarU 3 ".mime_str("); Hole c; Code ")"]; [Code (dollarU 3 ".unwrap();")]] in
  let add := [[Code (dollarU 2 "form = form.part("); Hole (pa_name e); Code ", part);"]] in
  match pa_fileName e with
  | Some f =>
      let name end_ := [Code (dollarU 3 ".file_name("); Hole f; Code (")" +:+ end_)] in
      [[Code (dollarU 2 "let part = reqwest::multipart::Part::bytes(std::fs::read("); Hole f; Code ")?)"]] ++
      (match pa_contentType e with None | Some "" => [name ";"] | Some c => [name ""] ++ typed c end) ++ add
  | None =>
      match pa_contentType e with
      | None | Some "" => [[Code (dollarU 2 "form = form.text(")] ++ joined (pa_name e) (value_or_empty e) ++ [Code ");"]]
      | Some c => [[Code (dollarU 2 "let part = reqwest::multipart::Part::text("); Hole (value_or_empty e); Code ")"]] ++ typed c ++ add
      end
  end.

Section rust.
(** [JSON.stringify(JSON.parse(e), null, 4)] *)
Variable reformat4 : string → option string.

(** GIt *)
Definition GIt (e : string) : string := match reformat4 e with Some n => reindent 4 n | None => e end.

(** ZIt: the pairs of a form *)
Fixpoint form_pairs (ps : list param) : list piece :=
  match ps with
  | [] => []
  | p :: ps' => [Code "("] ++ joined (pa_name p) (value_or_empty p) ++ [Code ")"] ++ (match ps' with [] => [] | _ => [Code ", "] end) ++ form_pairs ps'
  end.

(** ZIt; the JSON text is pasted into the macro [json!]. *)
Definition ZIt (e : post_data) : list (list piece) :=
  let t := mimeType e in
  if String.eqb t "application/json" then
    [eW "json" ([Code "&serde_json::json!("; Code (GIt (default "undefined" (text e))); Code ")"])]
  else if String.eqb t "application/x-www-form-urlencoded" then [eW "form" ([Code "&["] ++ form_pairs (default [] (params e)) ++ [Code "]"])]
  else if String.eqb t "multipart/form-data" then
    [[Code (dollarU 1 ".multipart({")]; [Code (dollarU 2 "let mut form = reqwest::multipart::Form::new();")]] ++
    (match params e with Some ((_ :: _) as r) => mjoin (JIt <$> r) | _ => [[]] end) ++
    [[Code (dollarU 3 "form")]; [Code (dollarU 2 "})")]]
  else [eW "body" [Hole (default "" (text e))]].

Definition rust_methods : list string := ["GET"; "POST"; "PUT"; "DELETE"; "PATCH"; "HEAD"].

(** [r[r.length - 1] = a + ";"] *)
Fixpoint end_statement (r : list (list piece)) : list (list piece) :=
  match r with [] => [] | [x] => [x ++ [Code ";"]] | x :: r' => x :: end_statement r' end.

(** QIt: the lines *)
Definition QIt (e t : string) (n : list (list piece)) : list (list piece) :=
  let i o := if bool_decide (t ∈ rust_methods) then [Code (o +:+ to_lower t +:+ "("); Hole e; Code ")"]
             else [Code (o +:+ "request(reqwest::Method::from_bytes("); Hole t; Code ".as_bytes())?, "; Hole e; Code ")"] in
  [[Code "let client = reqwest::Client::new();"]; []] ++
  end_statement (match n with
                 | [] => [i "let request = client."]
                 | _ => [[Code "let request = client"]; i (dollarU 1 ".")] ++ n
                 end) ++
  [[]; [Code "let response = request.send().await?;"]].

(** qIt.generate: the lines *)
Definition qIt_lines (e : request) (t : option credentials) : list (list piece) :=
  QIt (default "" (url e) +:+ MH (queryString e)) (PH (method e))
    (YIt t ++ XIt (zNt e) ++ match postData e with Some d => ZIt d | None => [] end).

Definition qIt_generate (e : request) (t : option credentials) : string := sample_text QU (qIt_lines e t).
End rust.

#[export] Instance rust_blanks : Blanks rust_lexicon.
Proof. done. Qed.

Lemma closed_QU s : closed rust_lexicon (QU s) [Text s].
Proof.
  unfold QU. rewrite WIt_once. apply (closed_text rust_lexicon DQc rust_escape); [done|].
  intros c x. by destruct c as [[] [] [] [] [] [] [] []].
Qed.

(** A line that may also be the last of the statement *)
Definition ends_ok (ps : list piece) : bool := line_ok rust_lexicon ps && line_ok rust_lexicon (ps ++ [Code ";"]).

Fixpoint lines_end (r : list (list piece)) : bool :=
  match r with [] => true | [x] => ends_ok x | x :: r' => line_ok rust_lexicon x && lines_end r' end.

Lemma lines_end_app a b : lines_end a = true → lines_end b = true → lines_end (a ++ b) = true.
Proof.
  intros Ha Hb. induction a as [|x a IH]; [done|]. destruct a as [|y a].
  - destruct b as [|z b]; [done|]. cbn in *. apply andb_prop in Ha as [-> _]. exact Hb.
  - cbn [app lines_end] in *. apply andb_prop in Ha as [-> Ha]. by apply IH.
Qed.

Lemma lines_end_all r : forallb ends_ok r = true → lines_end r = true.
Proof.
  induction r as [|x r IH]; [done|]. intros [Hx Hr]%andb_prop. destruct r as [|y r]; [done|].
  cbn [lines_end]. apply andb_prop in Hx as [-> _]. by apply IH.
Qed.

Lemma end_statement_ok r : lines_end r = true → forallb (line_ok rust_lexicon) (end_statement r) = true.
Proof.
  induction r as [|x r IH]; [done|]. destruct r as [|y r]; cbn [lines_end end_statement forallb].
  - intros [_ ->]%andb_prop. done.
  - intros [-> H]%andb_prop. by apply IH.
Qed.

Lemma JIt_ok p : forallb ends_ok (JIt p) = true.
Proof. unfold JIt. destruct (pa_fileName p), (pa_contentType p) as [[|c x]|]; reflexivity. Qed.

Lemma form_pairs_ok ps ts : line_ok rust_lexicon ts = true → line_ok rust_lexicon (form_pairs ps ++ ts) = true.
Proof.
  intros Hts. induction ps as [|p ps IH]; [done|]. cbn [form_pairs]. rewrite <- !app_assoc.
  destruct ps as [|q ps]; [by destruct ts|]. exact IH.
Qed.

(** The text of a JSON body leaves nothing open in Rust. *)
Definition rust_json_ok (reformat4 : string → option string) (e : request) : Prop :=
  ∀ d, postData e = Some d → mimeType d = "application/json" →
    ends_between rust_lexicon (GIt reformat4 (default "undefined" (text d))) = true.

Lemma ZIt_ok reformat4 d : (mimeType d = "application/json" → ends_between rust_lexicon (GIt reformat4 (default "undefined" (text d))) = true) →
  lines_end (ZIt reformat4 d) = true.
Proof.
  intros Hj. unfold ZIt. destruct (String.eqb_spec (mimeType d) "application/json") as [E|_].
  - specialize (Hj E). cbn [lines_end]. unfold ends_ok, eW. cbn -[GIt ends_between]. rewrite Hj. reflexivity.
  - destruct (String.eqb (mimeType d) "application/x-www-form-urlencoded").
    + cbn [lines_end]. unfold ends_ok, eW. rewrite <- !app_assoc. apply andb_true_intro.
      split; (apply line_ok_code; [done|]); (apply line_ok_code; [done|]); by apply form_pairs_ok.
    + destruct (String.eqb (mimeType d) "multipart/form-data"); [|done].
      repeat apply lines_end_app; try reflexivity.
      destruct (params d) as [[|p ps]|]; try reflexivity. apply lines_end_all, forallb_mjoin_const, JIt_ok.
Qed.

Lemma rust_lines_ok reformat4 e t : rust_json_ok reformat4 e → forallb (line_ok rust_lexicon) (qIt_lines reformat4 e t) = true.
Proof.
  intros Hj. unfold qIt_lines.
  assert (lines_end (YIt t ++ XIt (zNt e) ++ match postData e with Some d => ZIt reformat4 d | None => [] end) = true) as Hn.
  { repeat apply lines_end_app.
    - unfold YIt. by destruct (auth_given t) as [[u p]|].
    - by apply lines_end_all, forallb_fmap_const.
    - destruct (postData e) as [d|] eqn:Hd; [|done]. apply ZIt_ok. by apply Hj. }
  revert Hn. generalize (YIt t ++ XIt (zNt e) ++ match postData e with Some d => ZIt reformat4 d | None => [] end). intros n Hn.
  unfold QIt. generalize (default "" (url e) +:+ MH (queryString e)). intros u.
  assert (∀ o, o = "let request = client." ∨ o = dollarU 1 "." → ends_ok
    (if bool_decide (PH (method e) ∈ rust_methods) then [Code (o +:+ to_lower (PH (method e)) +:+ "("); Hole u; Code ")"]
     else [Code (o +:+ "request(reqwest::Method::from_bytes("); Hole (PH (method e)); Code ".as_bytes())?, "; Hole u; Code ")"]) = true) as Hi.
  { intros o Ho. generalize (PH (method e)). intros m. case_bool_decide as Hm; [|by destruct Ho as [-> | ->]]. unfold rust_methods in Hm.
    repeat (apply elem_of_cons in Hm as [->|Hm]; [by destruct Ho as [-> | ->]|]). by apply elem_of_nil in Hm. }
  rewrite !forallb_app. repeat (apply andb_true_intro; split); try reflexivity.
  destruct n as [|x n].
  - apply end_statement_ok. cbn [lines_end]. apply Hi. by left.
  - pose proof (Hi (dollarU 1 ".") (or_intror eq_refl)) as H. apply andb_prop in H as [H _].
    apply end_statement_ok in Hn. change (end_statement ([?a; ?b] ++ x :: n)) with (a :: b :: end_statement (x :: n)). cbn [forallb].
    rewrite H, Hn. reflexivity.
Qed.

Lemma holes_free ls : forallb (holes_ok (λ _, true)) ls = true.
Proof. apply forallb_forall. intros ps _. unfold holes_ok. apply forallb_forall. by intros [] _. Qed.

(** The Rust sample says what the request is, whatever its texts hold: Rust finds the code of
    the template and the texts of the request in its holes. Only the JSON text is pasted, into
    the macro [json!]; it leaves nothing open. *)
Theorem rust_sample_says_the_request reformat4 e t : rust_json_ok reformat4 e →
  lex rust_lexicon (qIt_generate reformat4 e t) = Some (sample_tokens rust_lexicon (qIt_lines reformat4 e t)).
Proof.
  intros Hj. apply (sample_lex rust_lexicon QU (λ _, true)); [intros s _; apply closed_QU|done|].
  apply lines_ok_split; [by apply rust_lines_ok|apply holes_free].
Qed.

(** ** F#: HttpClient *)

Definition fsharp_unescape (q : ascii) (e : string) : option (option string) :=
  match e with
  | "n" => Some (Some (one "010")) | "r" => Some (Some (one "013")) | "t" => Some (Some (one "009")) | "b" => Some (Some (one "008"))
  | String c "" => if existsb (Ascii.eqb c) ["034"; "'"; "\"]%char then Some (Some (one c)) else None
  | _ => None
  end.

Definition fsharp : lexicon := Lexicon (λ c, Ascii.eqb c DQc) (λ _ _, true) fsharp_unescape.

(** ["${eU(e)}"] *)
Definition eU_quoted (e : string) : string := String DQc (eU (Some e) +:+ one DQc).

(** A text between quotes as it is *)
Definition pasted (s : string) : piece := Given (String DQc (s +:+ one DQc)) [Text s].

(** mPt, pPt *)
Definition mPt (e : option string) (t : list pair) : string :=
  match e with None | Some "" => "" | Some e => e +:+ MH t end.

(** hPt *)
Definition hPt (e t : string) : list (list piece) :=
  [[Code "let httpRequestMessage = new HttpRequestMessage("]; [Code "  HttpMethod("; pasted e; Code "),"];
   [Code "  new Uri("; Hole t; Code ")"]; [Code ")"]; []].

(** gPt *)
Definition gPt (e : list pair) : list (list piece) :=
  ((λ n, two_holes "httpRequestMessage.Headers.Add" (p_name n) (p_value n)) <$> e) ++ [[]].

(** _Pt *)
Definition underscore_Pt (e : list pair) (t : string) : list (list piece) :=
  [[Code "let cookieContainer = CookieContainer()"]] ++
  ((λ r, [Code "cookieContainer.Add(Uri("; Hole t; Code "), Cookie("; Hole (p_name r); Code ", "; Hole (p_value r); Code "))"]) <$> e) ++
  [[Code "use handler = new HttpClientHandler()"]; [Code "handler.CookieContainer <- cookieContainer"]; []].

(** yPt *)
Definition yPt (e : post_data) : list (list piece) :=
  [[Code "let content = new StringContent("; Hole (default "" (text e)); Code ", Encoding.UTF8, "; Hole (mimeType e); Code ")"];
   [Code "content.Headers.ContentType <- MediaTypeHeaderValue("; Hole (mimeType e); Code ")"]].

(** bPt: the parts; [n] files and [r] typed texts are in front. *)
Fixpoint bPt_parts (n r : nat) (ps : list param) : list (list piece) :=
  match ps with
  | [] => []
  | i :: ps' =>
      match pa_fileName i with
      | Some f =>
          let c := "fileStreamContent_" +:+ format_int (Z.of_nat n) in
          [[Code "let "; Name c; Code " = new StreamContent(File.OpenRead("; Hole f; Code "))"]] ++
          (match pa_contentType i with None | Some "" => []
           | Some t => [[Name (c +:+ ".Headers.ContentType"); Code " <- MediaTypeHeaderValue("; Hole t; Code ")"]] end) ++
          [[Code "content.Add("; Name c; Code ", "; Hole (pa_name i); Code ", "; Hole f; Code ")"]] ++ bPt_parts (S n) r ps'
      | None =>
          match pa_contentType i with
          | None | Some "" =>
              [[Code "content.Add(new StringContent("; Hole (default "" (pa_value i)); Code "), "; Hole (pa_name i); Code ")"]] ++ bPt_parts n r ps'
          | Some t =>
              let c := "stringContent_" +:+ format_int (Z.of_nat r) in
              [[Code "let "; Name c; Code " = new StringContent("; Hole (default "" (pa_value i)); Code ")"];
               [Name (c +:+ ".Headers.ContentType"); Code " <- MediaTypeHeaderValue("; Hole t; Code ")"];
               [Code "content.Add("; Name c; Code ", "; Hole (pa_name i); Code ")"]] ++ bPt_parts n (S r) ps'
          end
      end
  end.

(** bPt *)
Definition bPt (e : post_data) : list (list piece) :=
  [Code "let content = new MultipartFormDataContent()"] :: bPt_parts 0 0 (default [] (params e)).

(** SPt *)
Definition SPt (e : post_data) : list (list piece) :=
  [[Code "let formUrlEncodedContentDictionary = new Dictionary<string, string>()"]] ++
  ((λ n, two_holes "formUrlEncodedContentDictionary.Add" (pa_name n) (default "" (pa_value n))) <$> default [] (params e)) ++
  [[Code "let content = new FormUrlEncodedContent(formUrlEncodedContentDictionary)"]].

Section fsharp.
(** [JSON.stringify(JSON.parse(e), null, 2)] *)
Variable reformat : string → option string.

Definition triple_quote : string := String DQc (String DQc (one DQc)).

(** xPt: the JSON text is a raw literal. *)
Definition xPt (e : post_data) : list (list piece) :=
  let t := pretty reformat (default "{}" (text e)) in
  [[Code "let content = new StringContent("; Given (triple_quote +:+ t +:+ triple_quote) [Text t];
    Code (ticked_text ", Encoding.UTF8, `application/json`)")]].

(** vPt *)
Definition vPt (e : post_data) : list (list piece) :=
  (if String.eqb (mimeType e) "multipart/form-data" then bPt e
   else if String.eqb (mimeType e) "application/x-www-form-urlencoded" then SPt e
   else if String.eqb (mimeType e) "application/json" then xPt e
   else yPt e) ++
  [[Code "httpRequestMessage.Content <- content"]; []].

(** CPt.generate: the lines; the sample ends with a line end. *)
Definition CPt_lines (e : request) : list (list piece) :=
  hPt (default "undefined" (method e)) (mPt (url e) (queryString e)) ++
  (match headers e with
   | [] => []
   | hs => gPt (match postData e with
                | Some (Post m _ (Some _)) => if String.eqb m "multipart/form-data" then List.filter (λ h, negb (is_content_type h)) hs else hs
                | _ => hs
                end)
   end) ++
  (match postData e with Some d => vPt d | None => [] end) ++
  (match cookies e, url e with
   | ((_ :: _) as cs), Some (String _ _ as u) => underscore_Pt cs u ++ [[Code "let client = new HttpClient(handler)"]]
   | _, _ => [[Code "let client = new HttpClient()"]]
   end) ++
  [[Code "let! result = client.SendAsync(httpRequestMessage)"]; []].

Definition CPt_generate (e : request) : string := sample_text eU_quoted (CPt_lines e).
End fsharp.

#[export] Instance fsharp_blanks : Blanks fsharp.
Proof. done. Qed.

Lemma closed_eU s : closed fsharp (eU_quoted s) [Text s].
Proof.
  unfold eU_quoted. cbn [eU]. rewrite BH_once. apply (closed_text fsharp DQc c_escape); [done|].
  intros c x. by destruct c as [[] [] [] [] [] [] [] []].
Qed.

(** A name with a number *)
Lemma numbered_ok w n x : word_ok fsharp w = true → sforall is_word x = true → sforall (λ c, negb (is_quote fsharp c)) x = true →
  word_ok fsharp ((w +:+ format_int (Z.of_nat n)) +:+ x) = true.
Proof.
  unfold word_ok. intros [[Hn Hw]%andb_prop Hq]%andb_prop Hx Hxq. rewrite !sforall_app, Hw, Hq, Hx, Hxq.
  rewrite (sforall_format is_word), (sforall_format (λ c, negb (is_quote fsharp c))); [|intros c; by destruct c as [[] [] [] [] [] [] [] []]|done|intros c; by destruct c as [[] [] [] [] [] [] [] []]|done].
  rewrite !andb_true_r. by destruct w.
Qed.

Lemma bPt_ok ps : ∀ n r, forallb (line_ok fsharp) (bPt_parts n r ps) = true.
Proof.
  assert (∀ w n, word_ok fsharp w = true → word_ok fsharp (w +:+ format_int (Z.of_nat n)) = true) as Hw.
  { intros w n H. rewrite <- (sapp_nil_r (w +:+ _)). by apply numbered_ok. }
  assert (∀ w n, word_ok fsharp w = true → word_ok fsharp ((w +:+ format_int (Z.of_nat n)) +:+ ".Headers.ContentType") = true) as Hx.
  { intros w n H. by apply numbered_ok. }
  induction ps as [|i ps IH]; intros n r; [done|]. cbn [bPt_parts]. destruct (pa_fileName i) as [f|].
  - rewrite !forallb_app, IH. destruct (pa_contentType i) as [[|c x]|]; cbn [forallb line_ok]; rewrite ?Hw, ?Hx by done; reflexivity.
  - destruct (pa_contentType i) as [[|c x]|]; rewrite forallb_app, IH; cbn [forallb line_ok]; rewrite ?Hw, ?Hx by done; reflexivity.
Qed.

(** The method is pasted, and a body that is JSON is a raw literal. *)
Definition fsharp_ready (e : request) : Prop :=
  reads_closed fsharp (String DQc (default "undefined" (method e) +:+ one DQc)) [Text (default "undefined" (method e))] = true ∧
  ∀ d, postData e = Some d → mimeType d ≠ "application/json".

Lemma fsharp_lines_ok reformat e : fsharp_ready e → forallb (line_ok fsharp) (CPt_lines reformat e) = true.
Proof.
  intros [Hm Hj]. unfold CPt_lines. rewrite !forallb_app. repeat (apply andb_true_intro; split); try reflexivity.
  - unfold hPt. cbn [forallb line_ok pasted]. rewrite Hm. reflexivity.
  - destruct (headers e) as [|h hs]; [done|]. unfold gPt. template_lines.
  - destruct (postData e) as [d|] eqn:Hd; [|done]. unfold vPt. rewrite forallb_app. apply andb_true_intro. split; [|reflexivity].
    destruct (String.eqb (mimeType d) "multipart/form-data"); [unfold bPt; cbn [forallb]; by rewrite bPt_ok|].
    destruct (String.eqb (mimeType d) "application/x-www-form-urlencoded"); [unfold SPt; template_lines|].
    rewrite (proj2 (String.eqb_neq _ _) (Hj d eq_refl)). reflexivity.
  - destruct (cookies e) as [|c cs]; [done|]. destruct (url e) as [[|x u]|]; [done| |done]. unfold underscore_Pt. template_lines.
Qed.

(** The F# sample says what the request is, whatever its texts hold: F# finds the code of the
    template and the texts of the request in its holes. The method has no quote or
    backslash and the body is not JSON, whose raw literal is not read here. *)
Theorem fsharp_sample_says_the_request reformat e : fsharp_ready e →
  lex fsharp (CPt_generate reformat e) = Some (sample_tokens fsharp (CPt_lines reformat e)).
Proof.
  intros He. apply (sample_lex fsharp eU_quoted (λ _, true)); [intros s _; apply closed_eU|done|].
  apply lines_ok_split; [by apply fsharp_lines_ok|apply holes_free].
Qed.

(** ** Go: net/http *)

(** Nothing is an escape between backticks. *)
Definition go_unescape (q : ascii) (e : string) : option (option string) :=
  if Ascii.eqb q "`" then match e with "`" => None | _ => Some (Some (String "\" e)) end
  else match e with
       | String "u" h => unicode_escape h
       | String c "" =>
           match control_escape c with
           | Some d => Some (Some (one d))
           | None => if existsb (Ascii.eqb c) ["034"; "\"]%char then Some (Some (one c)) else None
           end
       | _ => None
       end.

Definition go : lexicon :=
  Lexicon (λ c, Ascii.eqb c DQc || Ascii.eqb c "`") (λ q c, Ascii.eqb q "`" || not_line_end c) go_unescape.

Definition tab : string := one "009".

(** tU *)
Definition tU : string → string := json_string.

(** EPt *)
Definition EPt (e : string) : string := if includes " " e then e else tU e.

(** LH *)
Definition LH (e t : list pair) : list (string * string) :=
  let n := foldl (λ n h, match p_name h with "" => n | k => Mime.map_set k (p_value h) n end) [] e in
  match t with [] => n | _ => Mime.map_set "Cookie" (cookie_text t) n end.

(** The parts of a body *)
Record go_body : Type := GoBody {
  a_imports : list string; a_setupLines : list (list piece); a_requestBody : string; a_needsMultipartContentTypeHeader : bool }.

(** APt: the lines for the parts of a form; [first]: no file is in front *)
Fixpoint go_parts (first : bool) (ps : list param) : list (list piece) :=
  match ps with
  | [] => []
  | e :: ps' =>
      match pa_fileName e with
      | None => [[]; [Code "_ = writer.WriteField("; Hole (pa_name e); Code ", "; Hole (default "" (pa_value e)); Code ")"]] ++ go_parts first ps'
      | Some f =>
          let set := if first then ":=" else "=" in
          [[]; [Code ("part, _ " +:+ set +:+ " writer.CreateFormFile("); Hole (pa_name e); Code ", "; Hole f; Code ")"]; [];
           [Code ("f, _ " +:+ set +:+ " os.Open("); Hole f; Code ")"]; [Code "defer f.Close()"]; []; [Code "_, _ = io.Copy(part, f)"]] ++
          go_parts false ps'
      end
  end.

(** kPt: a raw literal, for JSON without a backtick *)
Definition kPt (e : string) (t : bool) : piece :=
  if t && negb (includes "`" e) then Given ("`" +:+ e +:+ "`") [Text e] else Hole e.

(** The order of [Array.prototype.sort] *)
Fixpoint insert_sorted (x : string) (l : list string) : list string :=
  match l with
  | [] => [x]
  | y :: l' => if String.eqb x y then l else if String.ltb x y then x :: l else y :: insert_sorted x l'
  end.

(** jPt *)
Definition jPt (e : list string) : list string := foldr insert_sorted [] (["fmt"; "io"; "net/http"] ++ e).

Section go.
Variable parse_url : string → option url_parts.
Variable reformat : string → option string.

(** DPt *)
Definition DPt (e : option string) : string := match e with None => "" | Some e => pretty reformat e end.

(** APt *)
Definition APt (e : option post_data) : go_body :=
  match e with
  | None => GoBody [] [] "nil" false
  | Some e =>
      match (if String.eqb (mimeType e) "application/x-www-form-urlencoded" then params e else None) with
      | Some ((_ :: _) as ps) =>
          GoBody [ticked_text "neturl `net/url`"; "strings"]
            ([[Code "postData := neturl.Values{}"]] ++ ((λ p, two_holes "postData.Set" (pa_name p) (default "" (pa_value p))) <$> ps))
            "strings.NewReader(postData.Encode())" false
      | _ =>
          match (if String.eqb (mimeType e) "multipart/form-data" then params e else None) with
          | Some ((_ :: _) as ps) =>
              GoBody (["bytes"; "mime/multipart"] ++ (if existsb (λ p, match pa_fileName p with Some _ => true | None => false end) ps then ["os"; "io"] else []))
                ([[Code "payload := &bytes.Buffer{}"]; [Code "writer := multipart.NewWriter(payload)"]] ++ go_parts true ps ++ [[Code "writer.Close()"]])
                "payload" true
          | _ =>
              let json := String.eqb (mimeType e) "application/json" in
              GoBody ["strings"]
                [[Code "payload := strings.NewReader("; kPt (if json then DPt (text e) else default "" (text e)) json; Code ")"]]
                "payload" false
          end
      end
  end.

(** A line with something in it, behind a tab *)
Definition tabbed (ps : list piece) : list piece := match ps with [] => [] | _ => Code tab :: ps end.

(** MPt.generate: the lines *)
Definition MPt_lines (e : request) (t : option credentials) : list (list piece) :=
  let r := FH parse_url (IH (default "" (url e)) (queryString e)) in
  let i := LH (headers e) (cookies e) in
  let a := APt (postData e) in
  [[Code "package main"]; []; [Code "import ("]] ++ ((λ e, [Code (tab +:+ EPt e)]) <$> jPt (a_imports a)) ++
  [[Code ")"]; []; [Code "func main() {"]; [Code (tab +:+ "requestUrl := "); Hole r]; []] ++
  (tabbed <$> a_setupLines a) ++ (match a_setupLines a with [] => [] | _ => [[]] end) ++
  [[Code (tab +:+ "req, _ := http.NewRequest("); Hole (PH (method e)); Code (", requestUrl, " +:+ a_requestBody a +:+ ")")]; []] ++
  (if a_needsMultipartContentTypeHeader a then [[Code (tab +:+ ticked_text "req.Header.Set(`Content-Type`, writer.FormDataContentType())")]] else []) ++
  (match auth_given t with Some (u, p) => [two_holes (tab +:+ "req.SetBasicAuth") u p] | None => [] end) ++
  ((λ h, two_holes (tab +:+ "req.Header.Add") h.1 h.2) <$> i) ++
  (match a_needsMultipartContentTypeHeader a, i, auth_given t with false, [], None => [] | _, _, _ => [[]] end) ++
  [[Code (tab +:+ "res, _ := http.DefaultClient.Do(req)")]; []; [Code (tab +:+ "defer res.Body.Close()")];
   [Code (tab +:+ "body, _ := io.ReadAll(res.Body)")]; []; [Code (tab +:+ "fmt.Println(res)")]; [Code (tab +:+ "fmt.Println(string(body))")]; []; [Code "}"]].

Definition MPt_generate (e : request) (t : option credentials) : string := sample_text tU (MPt_lines e t).
End go.

#[export] Instance go_blanks : Blanks go.
Proof. done. Qed.

Lemma closed_tU s : closed go (tU s) [Text s].
Proof.
  apply (closed_text go DQc json_char); [done|]. intros c x. by destruct c as [[] [] [] [] [] [] [] []].
Qed.

(** A JSON body is read between backticks: it does not end with a lone backslash. *)
Definition go_ready (reformat : string → option string) (e : request) : Prop :=
  ∀ d, postData e = Some d → mimeType d = "application/json" → includes "`" (DPt reformat (text d)) = false →
    reads_closed go ("`" +:+ DPt reformat (text d) +:+ "`") [Text (DPt reformat (text d))] = true.

Lemma go_parts_ok b ps : forallb (λ x, line_ok go (tabbed x)) (go_parts b ps) = true.
Proof.
  revert b. induction ps as [|p ps IH]; intros b; [done|]. cbn [go_parts].
  destruct (pa_fileName p); rewrite forallb_app, IH; [destruct b|]; reflexivity.
Qed.

(** What is known of the body *)
Definition go_body_ok (a : go_body) : Prop :=
  forallb (line_ok go) ((λ e, [Code (tab +:+ EPt e)]) <$> jPt (a_imports a)) = true ∧
  forallb (λ x, line_ok go (tabbed x)) (a_setupLines a) = true ∧
  lex go (", requestUrl, " +:+ a_requestBody a +:+ ")") ≠ None.

Lemma APt_ok reformat e : go_ready reformat e → go_body_ok (APt reformat (postData e)).
Proof.
  intros He. unfold APt. destruct (postData e) as [d|] eqn:Hd; [|done].
  assert (line_ok go (tabbed [Code "payload := strings.NewReader(";
    kPt (if String.eqb (mimeType d) "application/json" then DPt reformat (text d) else default "" (text d)) (String.eqb (mimeType d) "application/json"); Code ")"]) = true) as Hp.
  { unfold kPt. destruct (String.eqb_spec (mimeType d) "application/json") as [E|_]; [|done].
    specialize (He d Hd E). destruct (includes "`" (DPt reformat (text d))); [done|]. cbn [andb negb tabbed].
    apply line_ok_code; [done|]. apply line_ok_code; [done|]. cbn [line_ok]. by rewrite He. }
  assert (go_body_ok (GoBody ["strings"] [[Code "payload := strings.NewReader(";
    kPt (if String.eqb (mimeType d) "application/json" then DPt reformat (text d) else default "" (text d)) (String.eqb (mimeType d) "application/json"); Code ")"]] "payload" false)) as Hplain.
  { split; [done|]. split; [|done]. cbn [a_setupLines forallb]. by rewrite Hp. }
  assert (∀ ps : list param, go_body_ok (GoBody (["bytes"; "mime/multipart"] ++ (if existsb (λ p, match pa_fileName p with Some _ => true | None => false end) ps then ["os"; "io"] else []))
     ([[Code "payload := &bytes.Buffer{}"]; [Code "writer := multipart.NewWriter(payload)"]] ++ go_parts true ps ++ [[Code "writer.Close()"]]) "payload" true)) as Hmulti.
  { intros ps. split; [by destruct (existsb _ ps)|]. split; [|done]. cbn [a_setupLines]. rewrite !forallb_app, go_parts_ok. reflexivity. }
  destruct (String.eqb (mimeType d) "application/x-www-form-urlencoded").
  - destruct (params d) as [[|p ps]|].
    2: { split; [done|]. split; [|done]. cbn [a_setupLines]. rewrite forallb_app. apply andb_true_intro. split; [reflexivity|]. by apply forallb_fmap_const. }
    all: destruct (String.eqb (mimeType d) "multipart/form-data"); exact Hplain.
  - destruct (if String.eqb (mimeType d) "multipart/form-data" then params d else None) as [[|p ps]|]; [exact Hplain|apply (Hmulti (p :: ps))|exact Hplain].
Qed.

Lemma forallb_fmap {A B} (f : B → bool) (g : A → B) xs : forallb f (g <$> xs) = forallb (λ x, f (g x)) xs.
Proof. induction xs as [|x xs IH]; [done|]. cbn. by rewrite IH. Qed.

Lemma go_lines_ok parse_url reformat e t : go_ready reformat e → forallb (line_ok go) (MPt_lines parse_url reformat e t) = true.
Proof.
  intros He. destruct (APt_ok reformat e He) as (H1 & H2 & H3). unfold MPt_lines. generalize dependent (APt reformat (postData e)). intros a H1 H2 H3.
  generalize (LH (headers e) (cookies e)), (auth_given t), (FH parse_url (IH (default "" (url e)) (queryString e))), (PH (method e)). intros hs au u m.
  rewrite !forallb_app, H1. rewrite (forallb_fmap _ tabbed), H2. cbn [andb]. repeat (apply andb_true_intro; split); try reflexivity.
  - by destruct (a_setupLines a).
  - cbn [line_ok]. rewrite bool_decide_eq_true_2; [done|]. by apply not_eq_None_Some.
  - by destruct (a_needsMultipartContentTypeHeader a).
  - by destruct au as [[x y]|].
  - by apply forallb_fmap_const.
  - by destruct (a_needsMultipartContentTypeHeader a), hs, au as [[x y]|].
Qed.

(** The Go sample says what the request is, whatever its texts hold: Go finds the code of the
    template and the texts of the request in its holes, the JSON body in a raw
    literal when it has no backtick. *)
Theorem go_sample_says_the_request parse_url reformat e t : go_ready reformat e →
  lex go (MPt_generate parse_url reformat e t) = Some (sample_tokens go (MPt_lines parse_url reformat e t)).
Proof.
  intros He. apply (sample_lex go tU (λ _, true)); [intros s _; apply closed_tU|done|].
  apply lines_ok_split; [by apply go_lines_ok|apply holes_free].
Qed.

(** ** Dart: http *)

Definition dart_unescape (q : ascii) (e : string) : option (option string) :=
  match e with
  | String "u" h => unicode_escape h
  | String c "" =>
      match control_escape c with
      | Some d => Some (Some (one d))
      | None => if existsb (Ascii.eqb c) ["v"; "x"; "010"; "013"]%char then None else Some (Some (one c))
      end
  | _ => None
  end.

Definition dart : lexicon :=
  Lexicon (λ c, Ascii.eqb c "'" || Ascii.eqb c DQc) (λ _ c, not_line_end c && negb (Ascii.eqb c "$")) dart_unescape.

(** ['${s}'] *)
Definition ticks (s : string) : piece := Given ("'" +:+ s +:+ "'") [Text s].

(** uPt: the code of the credentials *)
Definition basic_code (u p : string) : string := "'Basic ' + base64Encode(utf8.encode('" +:+ u +:+ ":" +:+ p +:+ "'))".

(** uPt: the headers *)
Definition dart_headers (n : request) (t : option credentials) : entries :=
  let r := match form_params n with Some _ => true | None => false end in
  let c := foldl (λ e t, if truthy (Some (p_value t)) && negb (has_char [";"; " "]%char (p_name t)) && negb (r && is_content_type t)
                         then object_set (p_name t) (Str (p_value t)) e else e) [] (headers n) in
  let c := match auth_given t with Some (u, p) => object_set "Authorization" (Str (basic_code u p)) c | None => c end in
  match cookies n with [] => c | cs => object_set "Cookie" (Str (cookie_text cs)) c end.

(** uPt: a header; a value that looks like the code of the credentials is code *)
Definition dart_header (x : string * jv) : list piece :=
  let t := js_string x.2 in
  [Code "    "; ticks x.1; Code ": "; (if includes "utf8.encode" t then Given t (default [] (lex dart t)) else ticks t); Code ","].

(** uPt: the constant of the body *)
Definition dart_body (d : post_data) : list (list piece) :=
  let n := default "undefined" (text d) in
  if String.eqb (mimeType d) "application/json" then [[Code "  final body = "; Name "r"; ticks n; Code ";"]; []]
  else if String.eqb (mimeType d) "application/x-www-form-urlencoded" then
    [[Code "  final body = "; ticks (String.concat "&" ((λ p, encodeURIComponent (pa_name p) +:+ "=" +:+ encodeURIComponent (default "" (pa_value p))) <$> default [] (params d))); Code ";"]; []]
  else if String.eqb (mimeType d) "application/octet-stream" then [[Code "  final body = "; ticks n; Code ";"]; []]
  else [].

(** uPt: a part of a form *)
Definition dart_part (e : param) : list piece :=
  let typed := match pa_contentType e with None | Some "" => [] | Some c => [Code ", contentType: MediaType.parse("; Hole c; Code ")"] end in
  match pa_fileName e with
  | None => [Code "  request.files.add(http.MultipartFile.fromString("; Hole (pa_name e); Code ", "; Hole (default "" (pa_value e))] ++ typed ++ [Code "));"]
  | Some f => [Code "  request.files.add(await http.MultipartFile.fromPath("; Hole (pa_name e); Code ", "; Hole f] ++ typed ++ [Code "));"]
  end.

(** uPt: the method between ticks *)
Definition dart_method (m : string) : string :=
  replace_char "$" "\$" (replace_char "'" "\'" (replace_char "\" "\\" m)).

Definition dart_send : list piece := [Code "  final response = await http.Response.fromStream(await request.send());"].

(** uPt.generate: the lines *)
Definition uPt_lines (n : request) (t : option credentials) : list (list piece) :=
  let r := form_params n in
  let c := dart_headers n t in
  let m := PH (method n) in
  let u := default "undefined" (url n) +:+ MH (queryString n) in
  let d := match postData n with Some d => dart_body d | None => [] end in
  let add := match c with [] => [] | _ => [[Code "  request.headers.addAll(headers);"]] end in
  (if existsb (λ e, truthy (pa_contentType e)) (default [] r) then [[Code "import 'package:http_parser/http_parser.dart';"]] else []) ++
  [[Code "import 'package:http/http.dart' as http;"]; []; [Code "void main() async {"]] ++
  (match c with [] => [] | _ => [[Code "  final headers = <String,String>{"]] ++ (dart_header <$> c) ++ [[Code "  };"]; []] end) ++ d ++
  (match r with
   | Some ps => [[Code "  final request = http.MultipartRequest("; Hole m; Code ", Uri.parse("; Hole u; Code "));"]] ++ add ++ (dart_part <$> ps) ++ [dart_send]
   | None =>
       if bool_decide (m ∈ DFt) then
         [[Code ("  final response = await http." +:+ to_lower m +:+ "(Uri.parse("); ticks u;
           Code (")" +:+ (match c with [] => "" | _ => ", headers: headers" end) +:+ (match d with [] => "" | _ => ", body: body" end) +:+ ");")]]
       else [[Code "  final request = http.Request("; Given ("'" +:+ dart_method m +:+ "'") [Text m]; Code ", Uri.parse("; ticks u; Code "));"]] ++ add ++
            (match d with [] => [] | _ => [[Code "  request.body = body;"]] end) ++ [dart_send]
   end) ++
  [[Code "  print(response.body);"]; [Code "}"]].

Definition uPt_generate (n : request) (t : option credentials) : string := sample_text OU (uPt_lines n t).

#[export] Instance dart_blanks : Blanks dart.
Proof. done. Qed.

Lemma closed_dart s : closed dart (OU s) [Text s].
Proof.
  rewrite OU_once. apply (closed_text dart DQc kotlin_escape); [done|]. intros c x. by destruct c as [[] [] [] [] [] [] [] []].
Qed.

Lemma dart_shape n t : forallb (shape_ok dart) (uPt_lines n t) = true.
Proof.
  unfold uPt_lines. generalize (dart_headers n t), (default "undefined" (url n) +:+ MH (queryString n)). intros c u.
  assert (forallb (shape_ok dart) match postData n with Some d => dart_body d | None => [] end = true) as Hd.
  { destruct (postData n) as [d|]; [|done]. unfold dart_body. by repeat destruct (String.eqb _ _). }
  revert Hd. generalize (match postData n with Some d => dart_body d | None => [] end). intros d Hd.
  assert (forallb (shape_ok dart) match c with [] => [] | _ => [[Code "  request.headers.addAll(headers);"]] end = true) as Hadd by by destruct c.
  rewrite !forallb_app, Hd. repeat (apply andb_true_intro; split); try reflexivity.
  - by destruct (existsb _ _).
  - destruct c as [|x c]; [done|]. rewrite !forallb_app; repeat (apply andb_true_intro; split); try reflexivity.
    + unfold dart_header. by destruct (includes _ _).
    + apply forallb_fmap_const. intros y. unfold dart_header. by destruct (includes _ _).
  - destruct (form_params n) as [ps|].
    + rewrite !forallb_app, Hadd. repeat (apply andb_true_intro; split); try reflexivity.
      apply forallb_fmap_const. intros p. unfold dart_part. by destruct (pa_fileName p), (pa_contentType p) as [[|x y]|].
    + generalize (PH (method n)). intros m. case_bool_decide as Hm.
      * unfold DFt in Hm. repeat (apply elem_of_cons in Hm as [->|Hm]; [by destruct c, d|]). by apply elem_of_nil in Hm.
      * rewrite !forallb_app, Hadd. repeat (apply andb_true_intro; split); try reflexivity. by destruct d.
Qed.

(** The Dart sample says what the request is when what it pastes between ticks (the URL, the
    headers, a body) is there as it is: Dart finds the code of the template and the texts of
    the request. The parts of a form may hold any text. *)
Theorem dart_sample_says_the_request n t : forallb (pastes_ok dart) (uPt_lines n t) = true →
  lex dart (uPt_generate n t) = Some (sample_tokens dart (uPt_lines n t)).
Proof.
  intros Hp. apply (sample_lex dart OU (λ _, true)); [intros s _; apply closed_dart|intros s x; by rewrite OU_once|].
  apply lines_ok_split; [|apply holes_free]. apply forallb_forall. intros ps Hps.
  apply line_ok_shape; [apply (proj1 (forallb_forall _ _) (dart_shape n t) ps Hps)|apply (proj1 (forallb_forall _ _) Hp ps Hps)].
Qed.

(** ** The theorems at work *)

Definition template_request (m : string) : request :=
  Request (Some "https://a.test/$x") (Some "post") [Pair "X-Q" (ticked_text "a`$b")] [Pair "q" "1"] [Pair "s" "v"] (Some (Post m (Some "[]") None)).

Lemma kotlin_sample_witness : let e := template_request "text/plain" in
  forallb (holes_ok kotlin_text) (kFt_lines (λ _, None) e None) = true ∧
  lex kotlin (kFt_generate (λ _, None) e None) = Some (sample_tokens kotlin (kFt_lines (λ _, None) e None)).
Proof.
  intros e. assert (forallb (holes_ok kotlin_text) (kFt_lines (λ _, None) e None) = true) as H by (vm_compute; reflexivity).
  split; [exact H|]. exact (kotlin_sample_says_the_request (λ _, None) e None H).
Defined.

Lemma rust_sample_witness : let e := template_request "application/json" in let f := λ t : string, Some t in
  rust_json_ok f e ∧ lex rust_lexicon (qIt_generate f e None) = Some (sample_tokens rust_lexicon (qIt_lines f e None)).
Proof.
  intros e f. assert (rust_json_ok f e) as H by (intros d [= <-] _; vm_compute; reflexivity). split; [exact H|].
  exact (rust_sample_says_the_request f e None H).
Defined.

Lemma fsharp_sample_witness : let e := template_request "text/plain" in let f := λ t : string, Some t in
  fsharp_ready e ∧ lex fsharp (CPt_generate f e) = Some (sample_tokens fsharp (CPt_lines f e)).
Proof.
  intros e f. assert (fsharp_ready e) as H by (split; [vm_compute; reflexivity|intros d [= <-]; discriminate]). split; [exact H|].
  exact (fsharp_sample_says_the_request f e H).
Defined.

Lemma go_sample_witness : let e := template_request "application/json" in let f := λ t : string, Some t in
  go_ready f e ∧ lex go (MPt_generate (λ _, None) f e None) = Some (sample_tokens go (MPt_lines (λ _, None) f e None)).
Proof.
  intros e f. assert (go_ready f e) as H by (intros d [= <-] _ _; vm_compute; reflexivity). split; [exact H|].
  exact (go_sample_says_the_request (λ _, None) f e None H).
Defined.

(** ** What the samples get wrong *)

(** A form feed is written as an escape Kotlin does not know. *)
Example kotlin_form_feed : lex kotlin (OU (one "012")) = None.
Proof. reflexivity. Qed.

(** A JSON text is pasted into the macro [json!], but some of its escapes are not Rust's. *)
Example rust_pasted_json : lex rust_lexicon (json_string (one "008")) = None ∧ lex rust_lexicon (json_string (one "001")) = None.
Proof. done. Qed.

(** The content types of the parts of a form are left out of the Go sample. *)
Lemma go_drops_content_types b ps : go_parts b ps = go_parts b ((λ p, Param (pa_name p) (pa_value p) (pa_fileName p) None) <$> ps).
Proof.
  revert b. induction ps as [|p ps IH]; intros b; [done|]. cbn [fmap list_fmap go_parts pa_name pa_value pa_fileName].
  destruct (pa_fileName p); by rewrite IH.
Qed.

(** A header of the Rust sample with an empty value is left out. *)
Example rust_drops_empty_headers : zNt (Request None None [Pair "X-Empty" ""] [] [] None) = [].
Proof. reflexivity. Qed.

(** A quote in a header ends its literal in the Dart sample, and a value that looks like the
    code of the credentials is taken for it. *)
Example dart_headers_are_code :
  pastes_ok dart (dart_header ("X-A", Str "it's")) = false ∧
  line_tokens dart (dart_header ("X-A", Str "utf8.encode(secret)")) =
    [Text "X-A"; Sign ":"; Word "utf8.encode"; Sign "("; Word "secret"; Sign ")"; Sign ","].
Proof. by vm_compute. Qed.

Lemma dart_sample_witness : let e := Request (Some "https://a.test/x") (Some "post") [Pair "X-Q" "1"] [] [] (Some (Post "application/json" (Some "[]") None)) in
  forallb (pastes_ok dart) (uPt_lines e None) = true ∧ lex dart (uPt_generate e None) = Some (sample_tokens dart (uPt_lines e None)).
Proof.
  intros e. assert (forallb (pastes_ok dart) (uPt_lines e None) = true) as H by (vm_compute; reflexivity). split; [exact H|].
  exact (dart_sample_says_the_request e None H).
Defined.
