(* ===== verification/MultipartWriter.v ===== *)
(** * scalar.js: the multipart body of a request

    [bb] writes the fields of a form as the chunks of a multipart body: header lines with
    escaped names, texts with their line ends as CRLF, files, bodies inside bodies, behind
    a random boundary that occurs in no text. Variables are replaced by [n], a parameter;
    [random] gives the bytes drawn. [request_body_is_read_back]: the multipart reader of
    the bundle finds the fields, whatever is in them. *)
From S2P Require Import Prelude Css Mime Shell Snippets Literals Utf8 Records Multipart MultipartLaws FormData.
#[local] Open Scope list_scope.

(** ** Fields *)

Record attributes : Type := Attributes {
  key : option string; field_type : option string; field_headers : list (string * string) }.

(** The types of a file and of a blob are never undefined. *)
Inductive form_field : Type :=
| TextField (a : attributes) (value : string)
| FileField (a : attributes) (name type bytes : string)
| BlobField (a : attributes) (type bytes : string)
| MultipartField (a : attributes) (value : list form_field).

Inductive chunk : Type := Chars (s : string) | Bytes (s : string).

Inductive bb_error : Type := NestingExceeded | BadContentType | BadHeader | NoDistinctBoundary.

(** [/[\r\n\0]/] *)
Definition breaks_line (s : string) : bool :=
  negb (sforall (λ c, negb (existsb (Ascii.eqb c) ["013"; "010"; "000"]%char)) s).

(** [replace(/\r\n|\r|\n/g, "\r\n")] *)
Fixpoint line_ends (s : string) : string :=
  match s with
  | String "013" (String "010" s') => crlf +:+ line_ends s'
  | String c s' => (if Ascii.eqb c "013" || Ascii.eqb c "010" then crlf else one c) +:+ line_ends s'
  | "" => ""
  end.

Definition yb (e : string) : string := replace_char "034" "%22" (replace_char "010" "%0A" (replace_char "013" "%0D" (line_ends e))).

(** ** The boundary *)

(** [e.toString(16).padStart(2, "0")] of a byte *)
Definition hex_byte (c : ascii) : string :=
  String (lower_byte (upper_hex (nat_of_ascii c / 16))) (one (lower_byte (upper_hex (nat_of_ascii c mod 16)))).

Definition candidate (bytes : string) : string := "----scalar-" +:+ flat_map_s hex_byte bytes.

Section writer.
Variable n : string → string.
Variable random : nat → string.

(** Ten attempts, from the [k]-th draw on; with the number of draws so far *)
Fixpoint draw (fuel : nat) (t : string) (k : nat) : option (string * nat) :=
  match fuel with
  | O => None
  | S f => if includes (candidate (random k)) t then draw f t (S k) else Some (candidate (random k), S k)
  end.

Definition chunk_text (c : chunk) : string := match c with Chars s => s | Bytes _ => "" end.

(** Uze *)
Definition Uze (e : list chunk) (k : nat) : option (string * nat) := draw 10 (String.concat "" (chunk_text <$> e)) k.

(** ** A part *)

Definition header_token (s : string) : bool := negb (String.eqb s "") && sforall token_char s.

(** The other header lines *)
Fixpoint other_lines (l : list (string * string)) : result string bb_error :=
  match l with
  | [] => Ok ""
  | (e, t) :: l' =>
      let r := n t in
      if negb (header_token e) || breaks_line r then Err BadHeader
      else rbind (other_lines l') (λ s, Ok ((if String.eqb (to_lower e) "content-type" then "" else e +:+ ": " +:+ r +:+ crlf) +:+ s))
  end.

Definition disposition (k : option string) (file : option string) : string :=
  match k with
  | None => ""
  | Some e => "Content-Disposition: form-data; name=" +:+ quote_char +:+ yb (n e) +:+ quote_char +:+
              (match file with None => "" | Some i => "; filename=" +:+ quote_char +:+ yb i +:+ quote_char end) +:+ crlf
  end.

(** A part of the content [t] with the content type [a]; [file]: its file name *)
Definition section (e : attributes) (t : list chunk) (a : option string) (file : option string) : result (list chunk) bb_error :=
  if truthy a && breaks_line (default "" a) then Err BadContentType
  else rbind (other_lines (field_headers e)) (λ s,
    let head := disposition (key e) file +:+ (if truthy a then "Content-Type: " +:+ default "" a +:+ crlf else "") +:+ s +:+ crlf in
    let body := (λ c, match c with Chars t => Chars (if truthy (field_type e) then t else line_ends t) | Bytes b => Bytes b end) <$> t in
    Ok (Chars head :: body ++ [Chars crlf])).

Definition binary_type (e : attributes) (type : string) : option string :=
  match field_type e with Some c => Some c | None => Some (if String.eqb type "" then "application/octet-stream" else type) end.

Definition body_result : Type := list chunk * string * nat.

(** bb behind its checks; [a]: the parts, as they are written from the [k]-th draw on *)
Definition bb_of (a : nat → result (list (list chunk) * nat) bb_error) (t : string) (r k : nat) : result body_result bb_error :=
  if Nat.leb 8 r then Err NestingExceeded
  else if breaks_line t then Err BadContentType
  else
    let i := zc (Some t) in
    rbind (a k) (λ '(ps, k),
    match Uze (mjoin ps) k with
    | None => Err NoDistinctBoundary
    | Some (o, k) =>
        Ok (mjoin ((λ p, Chars ("--" +:+ o +:+ crlf) :: p) <$> ps) ++ [Chars ("--" +:+ o +:+ "--" +:+ crlf)],
            toString (Media (m_type i) (m_subtype i) (map_set "boundary" o (m_params i))), k)
    end).

Fixpoint part (e : form_field) (r k : nat) : result (list chunk * nat) bb_error :=
  match e with
  | TextField a v => rbind (section a [Chars (n v)] (field_type a) None) (λ p, Ok (p, k))
  | FileField a name type bytes => rbind (section a [Bytes bytes] (binary_type a type) (Some name)) (λ p, Ok (p, k))
  | BlobField a type bytes => rbind (section a [Bytes bytes] (binary_type a type) (Some "blob")) (λ p, Ok (p, k))
  | MultipartField a l =>
      let parts := fix go (l : list form_field) (k : nat) : result (list (list chunk) * nat) bb_error :=
                     match l with
                     | [] => Ok ([], k)
                     | e :: l' => rbind (part e (S r) k) (λ '(p, k), rbind (go l' k) (λ '(ps, k), Ok (p :: ps, k)))
                     end in
      rbind (bb_of (parts l) (default "multipart/form-data" (field_type a)) (S r) k) (λ '(t, c, k),
      rbind (section a t (Some c) None) (λ p, Ok (p, k)))
  end.

Fixpoint parts (l : list form_field) (r k : nat) : result (list (list chunk) * nat) bb_error :=
  match l with
  | [] => Ok ([], k)
  | e :: l' => rbind (part e r k) (λ '(p, k), rbind (parts l' r k) (λ '(ps, k), Ok (p :: ps, k)))
  end.

(** bb *)
Definition bb (e : list form_field) (t : option string) (r k : nat) : result body_result bb_error :=
  bb_of (parts e r) (default "multipart/form-data" t) r k.
End writer.
