(* ===== verification/MultipartSent.v ===== *)
(** * scalar.js: a form from the request to the multipart reader

    The chunks [bb] writes of a form (MultipartWriter.v) are a multipart body in the sense of
    the reader [Gc]: one part per field, its header lines, each on one line, and its content;
    a body inside the body again. *)
From S2P Require Import Prelude Css Mime Shell Snippets Literals Utf8 Records Multipart MultipartLaws FormData MultipartWriter.
#[local] Open Scope list_scope.

(** ** What is sent *)

Definition chunk_bytes (c : chunk) : string := match c with Chars s | Bytes s => s end.
Definition flat (l : list chunk) : string := String.concat "" (chunk_bytes <$> l).
Definition texts (l : list chunk) : string := String.concat "" (chunk_text <$> l).

Definition header_block (ls : list string) : string := String.concat "" ((λ l, l +:+ crlf) <$> ls).

(** A part with the header lines [ls] and the content [c] *)
Definition head_lines (ls : list string) : string := match ls with [] => crlf | _ => String.concat crlf ls +:+ crlf +:+ crlf end.

Section spec.
Variable n : string → string.

(** The header lines of a field of content type [c], with a file name or without *)
Definition header_lines (a : attributes) (c file : option string) : list string :=
  match key a with
  | None => []
  | Some e => ["Content-Disposition: form-data; name=" +:+ quote_char +:+ yb (n e) +:+ quote_char +:+
               match file with None => "" | Some i => "; filename=" +:+ quote_char +:+ yb i +:+ quote_char end]
  end ++
  (if truthy c then ["Content-Type: " +:+ default "" c] else []) ++
  ((λ h, h.1 +:+ ": " +:+ n h.2) <$> filter (λ h, to_lower h.1 ≠ "content-type") (field_headers a)).

(** A text has its line ends as CRLF, unless the field has a content type of its own. *)
Definition sent_chunk (typed : bool) (c : chunk) : chunk :=
  match c with Chars t => Chars (if typed then t else line_ends t) | Bytes b => Bytes b end.

Definition sent_as (a : attributes) (t : list chunk) : list chunk := sent_chunk (truthy (field_type a)) <$> t.

(** The header lines and the content of a field *)
Inductive sent (random : nat → string) (r : nat) : form_field → list string → list chunk → Prop :=
| sent_text a v : sent random r (TextField a v) (header_lines a (field_type a) None) (sent_as a [Chars (n v)])
| sent_file a name type b : sent random r (FileField a name type b) (header_lines a (binary_type a type) (Some name)) [Bytes b]
| sent_blob a type b : sent random r (BlobField a type b) (header_lines a (binary_type a type) (Some "blob")) [Bytes b]
| sent_body a l chunks c k k' : bb n random l (field_type a) (S r) k = Ok (chunks, c, k') →
    sent random r (MultipartField a l) (header_lines a (Some c) None) (sent_as a chunks).
End spec.

(** ** Line ends *)

Lemma line_ends_step c s : line_ends (String c s) =
  match Ascii.eqb c "013", s with
  | true, String "010" s' => crlf +:+ line_ends s'
  | _, _ => (if Ascii.eqb c "013" || Ascii.eqb c "010" then crlf else one c) +:+ line_ends s
  end.
Proof. destruct c as [[] [] [] [] [] [] [] []]; try done; destruct s as [|[[] [] [] [] [] [] [] []] s]; done. Qed.

Lemma line_ends_crlf s z : line_ends (s +:+ crlf +:+ z) = line_ends s +:+ crlf +:+ line_ends z.
Proof.
  remember (String.length s) as m eqn:Em. assert (String.length s ≤ m)%nat as Hm by lia. clear Em.
  revert s Hm. induction m as [|m IH]; intros [|c s] Hm; try done; cbn in Hm; try lia.
  change (String c s +:+ crlf +:+ z) with (String c (s +:+ crlf +:+ z)). rewrite !line_ends_step.
  destruct (Ascii.eqb c "013").
  - destruct s as [|d s]; [done|]. change (String d s +:+ crlf +:+ z) with (String d (s +:+ crlf +:+ z)).
    destruct (Ascii.eqb_spec d "010") as [->|Hd].
    + rewrite IH by (cbn in Hm; lia). by rewrite sapp_assoc.
    + pose proof (IH (String d s) ltac:(lia)) as H. change (String d s +:+ crlf +:+ z) with (String d (s +:+ crlf +:+ z)) in H.
      assert (∀ (x y : string) w, match String d w with String "010" _ => x | _ => y end = y) as Hw.
      { intros x y w. destruct d as [[] [] [] [] [] [] [] []]; done. }
      rewrite H. destruct d as [[] [] [] [] [] [] [] []]; try done; by rewrite !sapp_assoc.
  - rewrite IH by lia. by rewrite !sapp_assoc.
Qed.

Lemma replace_char_lacks x w c s : sforall (λ d, negb (Ascii.eqb d c)) w = true →
  x = c ∨ sforall (λ d, negb (Ascii.eqb d c)) s = true → sforall (λ d, negb (Ascii.eqb d c)) (replace_char x w s) = true.
Proof.
  intros Hw Hs. unfold replace_char. induction s as [|d s IH]; [done|]. cbn [flat_map_s]. rewrite sforall_app.
  apply andb_true_iff. split; [|apply IH; destruct Hs as [|Hs]; [by left|right]; cbn [sforall] in Hs; by apply andb_true_iff in Hs as [_ ?]].
  destruct (Ascii.eqb d x) eqn:E; [done|]. cbn. rewrite andb_true_r.
  destruct Hs as [->|Hs]; [by rewrite E|]. cbn [sforall] in Hs. by apply andb_true_iff in Hs as [? _].
Qed.

Lemma yb_no_line_end s : no_line_end (yb s) = true.
Proof.
  assert (∀ P Q z, (∀ c, P c && Q c = true → negb (Ascii.eqb c "013" || Ascii.eqb c "010") = true) →
    sforall P z = true → sforall Q z = true → no_line_end z = true) as Hall.
  { intros P Q z H. induction z as [|c z IH]; [done|]. unfold no_line_end in *. cbn [sforall].
    intros [H1 H2]%andb_true_iff [H3 H4]%andb_true_iff. rewrite IH by done. by rewrite H by by rewrite H1, H3. }
  apply (Hall (λ d, negb (Ascii.eqb d "013")) (λ d, negb (Ascii.eqb d "010"))).
  - intros c. by destruct (Ascii.eqb c "013"), (Ascii.eqb c "010").
  - unfold yb. do 2 (apply replace_char_lacks; [done|right]). apply replace_char_lacks; [done|by left].
  - unfold yb. apply replace_char_lacks; [done|right]. apply replace_char_lacks; [done|by left].
Qed.

Lemma breaks_no_line_end s : breaks_line s = false → no_line_end s = true.
Proof.
  unfold breaks_line. intros [=Hs%negb_false_iff]. revert Hs. apply sforall_impl. intros c. cbn [existsb].
  by destruct (Ascii.eqb c "013"), (Ascii.eqb c "010").
Qed.

(** ** Header lines *)

(** It begins with the character of a token, and is a line. *)
Definition header_line (s : string) : Prop :=
  match s with String c _ => token_char c = true | "" => False end ∧ no_line_end s = true.

Lemma head_lines_block ls : head_lines ls = header_block ls +:+ crlf.
Proof.
  unfold head_lines, header_block. destruct ls as [|l ls]; [done|]. revert l. induction ls as [|l' ls IH]; intros l; [rewrite fmap_cons, concat_empty_sep; change (String.concat crlf [l]) with l; by rewrite !sapp_assoc|].
  rewrite fmap_cons, concat_empty_sep. change (String.concat crlf (l :: l' :: ls)) with (l +:+ crlf +:+ String.concat crlf (l' :: ls)).
  by rewrite !sapp_assoc, IH.
Qed.

Lemma codes_no_line_end s : no_line_end s = true → CR ∉ codes s.
Proof. apply no_line_end_codes. Qed.

Lemma codes_line_head l : header_line l → ∃ c v, codes l = c :: v ∧ CR ≠ c.
Proof.
  intros [H0 H]. destruct l as [|c l]; [by destruct H0|]. exists (Z.of_nat (nat_of_ascii c)), (codes l). split; [done|].
  pose proof (codes_no_line_end _ H) as Hc. cbn [codes] in Hc. by apply not_elem_of_cons in Hc as [? _].
Qed.

(** The blank line is behind the last of the header lines. *)
Lemma lines_headed ls o : ls ≠ [] → Forall header_line ls → headed (codes (String.concat crlf ls), o).
Proof.
  intros Hne Hls. unfold headed. cbn [fst]. change (removelast (CRLF ++ CRLF)) with [13; 10; 13].
  assert (∃ c v, codes (String.concat crlf ls) = c :: v ∧ CR ≠ c ∧ find_sub (CRLF ++ CRLF) ((c :: v) ++ [13; 10; 13]) = None) as (c & v & -> & Hc & Hf).
  { induction Hls as [|l ls Hl Hls IH]; [done|]. destruct (codes_line_head l Hl) as (c & v & E & Hc).
    destruct ls as [|l' ls].
    - exists c, v. cbn [String.concat]. split_and!; [done|done|]. rewrite <- E. apply one_line, codes_no_line_end, Hl.
    - destruct IH as (c' & v' & E' & Hc' & Hf); [done|].
      change (String.concat crlf (l :: l' :: ls)) with (l +:+ crlf +:+ String.concat crlf (l' :: ls)).
      exists c, (v ++ CRLF ++ c' :: v'). rewrite !codes_app, E, E'. split_and!; [done|done|].
      change (c :: v ++ CRLF ++ c' :: v') with ((c :: v) ++ CRLF ++ c' :: v'). rewrite <- E, <- !app_assoc.
      apply find_sub_skips; [intros d Hd [= <-]; by apply (codes_no_line_end l); [apply Hl|]|done|].
      change (CRLF ++ (c' :: v') ++ [13; 10; 13]) with (13 :: 10 :: (c' :: v') ++ [13; 10; 13]).
      set (w := (c' :: v') ++ [13; 10; 13]) in *. cbn [find_sub]. rewrite Hf.
      assert (starts CRLF w = false) as Hw.
      { subst w. cbn [app starts CRLF]. destruct (Z.eqb_spec 13 c') as [H|]; [|done]. by destruct Hc'. }
      change (starts (CRLF ++ CRLF) (13 :: 10 :: w)) with (starts CRLF w). by rewrite Hw. }
  split_and!; [done| |done]. cbn [app starts CRLF]. destruct (Z.eqb_spec 13 c) as [H|]; [by destruct Hc|done].
Qed.

Section section.
Variable n : string → string.

Lemma other_lines_ok l s : other_lines n l = Ok s →
  let ls := (λ h, h.1 +:+ ": " +:+ n h.2) <$> filter (λ h, to_lower h.1 ≠ "content-type") l in
  s = header_block ls ∧ Forall header_line ls.
Proof.
  revert s. induction l as [|[e t] l IH]; intros s; [by intros [= <-]|]. cbn [other_lines].
  destruct (negb (header_token e) || breaks_line (n t)) eqn:E; [done|]. apply orb_false_iff in E as [He%negb_false_iff Hb].
  rewrite rbind_ok. intros (s' & Hs & [= <-]). specialize (IH s' Hs). cbn zeta in IH. destruct IH as [-> Hl].
  rewrite filter_cons. cbn [fst]. destruct (String.eqb_spec (to_lower e) "content-type") as [Hc|Hc].
  - by rewrite decide_False by tauto.
  - rewrite decide_True by done. rewrite fmap_cons. cbn [fst snd]. split.
    + unfold header_block at 2. rewrite fmap_cons, concat_empty_sep. by rewrite !sapp_assoc.
    + constructor; [|done]. unfold header_token in He. apply andb_true_iff in He as [He0 He].
      split; [destruct e as [|c e]; [done|]; cbn [sforall] in He; by apply andb_true_iff in He as [? _]|]. rewrite !no_line_end_app. rewrite (breaks_no_line_end _ Hb), andb_true_r.
      revert He. apply sforall_impl. intros c. by destruct c as [[] [] [] [] [] [] [] []].
Qed.

Lemma header_block_app a b : header_block (a ++ b) = header_block a +:+ header_block b.
Proof. unfold header_block. rewrite fmap_app. induction a as [|x a IH]; [done|]. cbn [fmap list_fmap app]. rewrite !concat_empty_sep, IH. by rewrite !sapp_assoc. Qed.

(** A part is its header lines, a blank line, its content and a line end. *)
Lemma section_ok e t a file p : section n e t a file = Ok p →
  p = Chars (head_lines (header_lines n e a file)) :: sent_as e t ++ [Chars crlf] ∧
  Forall header_line (header_lines n e a file).
Proof.
  unfold section. destruct (truthy a && breaks_line (default "" a)) eqn:Ea; [done|]. rewrite rbind_ok.
  intros (s & Hs & [= <-]). destruct (other_lines_ok _ _ Hs) as [-> Hl]. split.
  - rewrite head_lines_block. unfold header_lines. rewrite !header_block_app. f_equal.
    rewrite !sapp_assoc. f_equal. unfold disposition.
    f_equal; [destruct (key e) as [k|]; [|done]; unfold header_block; cbn [fmap list_fmap String.concat]; by destruct file; rewrite !sapp_assoc|].
    f_equal. destruct (truthy a); [|done]. unfold header_block; cbn [fmap list_fmap String.concat]. by rewrite !sapp_assoc.
  - unfold header_lines. apply Forall_app. split; [|apply Forall_app; split; [|done]].
    + destruct (key e) as [k|]; constructor; [|done]. split; [done|]. rewrite !no_line_end_app, yb_no_line_end.
      destruct file; [|done]. by rewrite !no_line_end_app, yb_no_line_end.
    + destruct (truthy a); constructor; [|done]. split; [done|]. rewrite no_line_end_app. cbn [andb] in Ea.
      by rewrite (breaks_no_line_end _ Ea).
Qed.
End section.

(** ** The chunks of a body *)

(** Every content of a file is between line ends. *)
Inductive framed : list chunk → Prop :=
| framed_nil : framed []
| framed_chars s l : framed l → framed (Chars s :: l)
| framed_bytes s b l : framed l → framed (Chars (s +:+ crlf) :: Bytes b :: Chars crlf :: l).

Lemma framed_app a b : framed a → framed b → framed (a ++ b).
Proof. intros Ha Hb. induction Ha; cbn [app]; by repeat constructor. Qed.

Lemma flat_app a b : flat (a ++ b) = flat a +:+ flat b.
Proof. unfold flat. induction a as [|x a IH]; [done|]. cbn [app]. rewrite !fmap_cons, !concat_empty_sep, IH. by rewrite sapp_assoc. Qed.

Lemma texts_app a b : texts (a ++ b) = texts a +:+ texts b.
Proof. unfold texts. induction a as [|x a IH]; [done|]. cbn [app]. rewrite !fmap_cons, !concat_empty_sep, IH. by rewrite sapp_assoc. Qed.

Lemma flat_cons c l : flat (c :: l) = chunk_bytes c +:+ flat l.
Proof. unfold flat. by rewrite fmap_cons, concat_empty_sep. Qed.

Lemma texts_cons c l : texts (c :: l) = chunk_text c +:+ texts l.
Proof. unfold texts. by rewrite fmap_cons, concat_empty_sep. Qed.

Lemma framed_sent typed l : framed l → framed (sent_chunk typed <$> l).
Proof.
  induction 1 as [|s l Hl IH|s b l Hl IH]; rewrite ?fmap_cons; cbn [sent_chunk]; [constructor|by constructor|].
  destruct typed; [by constructor|].
  pose proof (line_ends_crlf s "") as H. change (line_ends "") with "" in H. rewrite !sapp_nil_r in H. rewrite H.
  change (line_ends crlf) with crlf. by constructor.
Qed.

Definition bytes_lack (o : string) (l : list chunk) : Prop := ∀ b, Bytes b ∈ l → includes o b = false.

Lemma includes_suffix o a b : includes o (a +:+ b) = false → includes o b = false.
Proof.
  intros H. destruct (includes o b) eqn:E; [|done]. rewrite <- H. symmetry.
  pose proof (includes_around o a b "" E) as H'. by rewrite sapp_nil_r in H'.
Qed.

Lemma includes_prefix o a b : includes o (a +:+ b) = false → includes o a = false.
Proof. intros H. destruct (includes o a) eqn:E; [|done]. rewrite <- H. symmetry. by apply (includes_around o "" a b). Qed.

Lemma includes_crlf o : o ≠ "" → no_line_end o = true → ∀ u z,
  includes o u = false → includes o z = false → includes o (u +:+ crlf +:+ z) = false.
Proof.
  intros Ho Hc. assert (∀ c, Ascii.eqb c "013" || Ascii.eqb c "010" = true → sforall (λ d, negb (Ascii.eqb d c)) o = true) as Hcs.
  { intros c Hd. revert Hc. apply sforall_impl. intros d. by destruct (Ascii.eqb_spec d c) as [->|]; [rewrite Hd|]. }
  intros u z Hu Hz. apply (includes_sep o "013" u (String "010" z)); [done|by apply Hcs|done|].
  apply (includes_sep o "010" "" z); [done|by apply Hcs|by destruct o|done].
Qed.

(** What is not in the texts and not in a file is not in the body. *)
Lemma framed_lacks o l : o ≠ "" → no_line_end o = true → framed l → bytes_lack o l →
  ∀ u, includes o (u +:+ texts l) = false → includes o (u +:+ flat l) = false.
Proof.
  intros Ho Hc. induction 1 as [|s l Hl IH|s b l Hl IH]; intros Hb u; [done| |].
  - rewrite texts_cons, flat_cons, <- !sapp_assoc. apply IH. intros x Hx. apply Hb. by right.
  - rewrite !texts_cons, !flat_cons. cbn [chunk_text chunk_bytes].
    change ("" +:+ crlf +:+ texts l) with (crlf +:+ texts l). intros H.
    assert (includes o (u +:+ s) = false) as Hs.
    { apply (includes_prefix o _ (crlf +:+ crlf +:+ texts l)). by rewrite !sapp_assoc in *. }
    assert (includes o (flat l) = false) as Hf.
    { apply (IH ltac:(intros x Hx; apply Hb; by do 3 right) ""). do 3 apply includes_suffix in H. exact H. }
    rewrite sapp_assoc, <- (sapp_assoc u s). apply includes_crlf; [done..|].
    apply includes_crlf; [done|done|apply Hb; right; left|done].
Qed.

Lemma framed_lacks_all o l : o ≠ "" → no_line_end o = true → framed l → bytes_lack o l →
  includes o (texts l) = false → includes o (flat l) = false.
Proof. intros Ho Hc Hl Hb. by apply (framed_lacks o l Ho Hc Hl Hb ""). Qed.

(** ** Parts and bodies *)

Section bodies.
Variable n : string → string.
Variable random : nat → string.

Lemma part_multipart a l r k : part n random (MultipartField a l) r k =
  rbind (bb n random l (field_type a) (S r) k) (λ '(t, c, k), rbind (section n a t (Some c) None) (λ p, Ok (p, k))).
Proof.
  unfold bb, bb_of. cbn [part]. unfold bb_of. destruct (Nat.leb 8 (S r)); [done|]. destruct (breaks_line _); [done|].
  assert (∀ k, (fix go (l : list form_field) (k : nat) : result (list (list chunk) * nat) bb_error :=
     match l with
     | [] => Ok ([], k)
     | e :: l' => rbind (part n random e (S r) k) (λ '(p, k), rbind (go l' k) (λ '(ps, k), Ok (p :: ps, k)))
     end) l k = parts n random l (S r) k) as ->; [|done].
  clear. induction l as [|e l IH]; intros k; [done|]. cbn [parts]. destruct (part n random e (S r) k) as [[p k1]|]; [|done].
  cbn [rbind]. by rewrite IH.
Qed.

(** What a part is: the chunks of the header lines and the content of its field *)
Definition part_is (p : list chunk) (ls : list string) (t : list chunk) : Prop :=
  framed p ∧ p = Chars (head_lines ls) :: t ++ [Chars crlf] ∧ Forall header_line ls.

Lemma section_is e t a file p : framed t ∨ (∃ b, t = [Bytes b]) → section n e t a file = Ok p →
  part_is p (header_lines n e a file) (sent_as e t).
Proof.
  intros Ht [-> Hl]%section_ok. split_and!; [|done..].
  rewrite head_lines_block. destruct Ht as [Ht|[b ->]]; [|apply framed_bytes, framed_nil].
  constructor. apply framed_app; [by apply framed_sent|by repeat constructor].
Qed.

#[local] Abbreviation section := (list string * list chunk)%type.

Definition section_text (s : section) : string := head_lines s.1 +:+ flat s.2.

Definition body_chunks (o : string) (ps : list (list chunk)) : list chunk :=
  mjoin ((λ p, Chars ("--" +:+ o +:+ crlf) :: p) <$> ps) ++ [Chars ("--" +:+ o +:+ "--" +:+ crlf)].

Lemma bb_ok l t r k chunks ct k' : bb n random l t r k = Ok (chunks, ct, k') →
  ∃ ps k1 o, parts n random l r k = Ok (ps, k1) ∧ Uze random (mjoin ps) k1 = Some (o, k') ∧ chunks = body_chunks o ps ∧
    let i := zc (Some (default "multipart/form-data" t)) in
    ct = toString (Media (m_type i) (m_subtype i) (map_set "boundary" o (m_params i))) ∧ (r < 8)%nat.
Proof.
  unfold bb, bb_of. destruct (Nat.leb_spec 8 r); [done|]. destruct (breaks_line _); [done|]. rewrite rbind_ok.
  intros ([ps k1] & Hp & Hu). destruct (Uze random (mjoin ps) k1) as [[o k2]|] eqn:Eu; [|done].
  injection Hu as <- <- <-. by exists ps, k1, o.
Qed.

Lemma body_framed o ps : Forall framed ps → framed (body_chunks o ps).
Proof.
  intros H. apply framed_app; [|by repeat constructor]. induction H as [|p ps Hp _ IH]; [constructor|].
  rewrite fmap_cons. by apply (framed_app (_ :: p)); [constructor|].
Qed.

Definition sections_are (r : nat) (l : list form_field) (ps : list (list chunk)) (secs : list section) : Prop :=
  Forall2 (λ e s, sent n random r e s.1 s.2) l secs ∧ Forall2 (λ p s, part_is p s.1 s.2) ps secs.

Lemma parts_sent r : (∀ e k p k', part n random e r k = Ok (p, k') → ∃ ls c, sent n random r e ls c ∧ part_is p ls c) →
  ∀ l k ps k', parts n random l r k = Ok (ps, k') → ∃ secs, sections_are r l ps secs.
Proof.
  intros He. induction l as [|e l IH]; intros k ps k'; cbn [parts].
  - intros [= <- <-]. exists []. by split; constructor.
  - rewrite rbind_ok. intros ([p k1] & Hp & H). apply rbind_ok in H as ([ps' k2] & Hps & [= <- <-]).
    destruct (He _ _ _ _ Hp) as (ls & c & Hs & Hi). destruct (IH _ _ _ Hps) as (secs & H1 & H2).
    exists ((ls, c) :: secs). by split; constructor.
Qed.

Lemma sections_framed r l ps secs : sections_are r l ps secs → Forall framed ps.
Proof. intros [_ H]. induction H as [|p s ps secs Hp _ IH]; constructor; [apply Hp|done]. Qed.

Definition part_sends (r : nat) : Prop :=
  ∀ e k p k', part n random e r k = Ok (p, k') → ∃ ls c, sent n random r e ls c ∧ part_is p ls c.

(** Of a body inside the body, when it can be nested so deep *)
Lemma part_sends_step r : ((r < 7)%nat → part_sends (S r)) → part_sends r.
Proof.
  intros IH [a v|a name type b|a type b|a l] k p k'.
  4: { rewrite part_multipart, rbind_ok. intros ([[t c] k1] & Hbb & H). apply rbind_ok in H as (p' & Hp & [= <- <-]).
    destruct (bb_ok _ _ _ _ _ _ _ Hbb) as (ps & k2 & o & Hps & _ & -> & _ & Hr).
    destruct (parts_sent (S r) (IH ltac:(lia)) _ _ _ _ Hps) as (secs & Hsec).
    eexists _, _. split; [by eapply sent_body|]. eapply section_is; [left|done]. by eapply body_framed, sections_framed. }
  all: cbn [part]; rewrite rbind_ok; intros (p' & Hp & [= <- <-]); eexists _, _; (split; [constructor|]).
  all: by eapply section_is in Hp; [|first [left; apply framed_chars, framed_nil|by right; eexists]].
Qed.

Lemma part_sent r : part_sends r.
Proof.
  assert (∀ m r, (8 - r ≤ m)%nat → part_sends r) as H; [|by apply (H 8%nat); lia].
  induction m as [|m IH]; intros q Hq; apply part_sends_step; intros Hr; [lia|]. apply IH. lia.
Qed.

(** ** The boundary *)

Definition candidate_char (c : ascii) : bool := byte_in 48 57 c || byte_in 97 122 c || Ascii.eqb c "-".

Lemma hex_byte_chars c : sforall candidate_char (hex_byte c) = true ∧ String.length (hex_byte c) = 2%nat.
Proof. by destruct c as [[] [] [] [] [] [] [] []]. Qed.

Lemma hex_bytes b : sforall candidate_char (flat_map_s hex_byte b) = true ∧ String.length (flat_map_s hex_byte b) = (2 * String.length b)%nat.
Proof.
  induction b as [|c b [H1 H2]]; [done|]. destruct (hex_byte_chars c) as [H3 H4]. cbn [flat_map_s]. rewrite sforall_app, H1, H3.
  split; [done|]. rewrite slength_app, H4, H2. cbn. lia.
Qed.

Lemma candidate_chars b : sforall candidate_char (candidate b) = true.
Proof. unfold candidate. by rewrite sforall_app, (proj1 (hex_bytes b)). Qed.

Lemma candidate_ok b : String.length b = 24%nat → String.length (candidate b) = 59%nat ∧ last_char (candidate b) ≠ Some " "%char.
Proof.
  intros Hb. split; [unfold candidate; by rewrite slength_app, (proj2 (hex_bytes b)), Hb|].
  pose proof (candidate_chars b) as Hs. intros Hl. revert Hs Hl. generalize (candidate b). clear. intros s Hs Hl.
  induction s as [|c s IH]; [done|]. cbn [sforall] in Hs. apply andb_true_iff in Hs as [Hc Hs]. destruct s as [|d s]; [|by apply IH].
  cbn in Hl. by injection Hl as ->.
Qed.

Lemma draw_ok fuel t : ∀ k o k', draw random fuel t k = Some (o, k') → includes o t = false ∧ ∃ j, o = candidate (random j).
Proof.
  induction fuel as [|f IH]; intros k o k'; [done|]. cbn [draw]. destruct (includes (candidate (random k)) t) eqn:E; [apply IH|].
  intros [= <- <-]. split; [done|by exists k].
Qed.

(** The reader accepts the boundary the body has. *)
Lemma body_boundary o e : sforall candidate_char o = true → o ≠ "" → (String.length o ≤ 70)%nat → last_char o ≠ Some " "%char →
  boundary_of (toString (Media (m_type (zc e)) (m_subtype (zc e)) (map_set "boundary" o (m_params (zc e))))) = Some o.
Proof.
  intros Ho H0 Hl Hs. destruct (zc_ok e) as (H1 & H2 & H3 & H4 & H5 & H6).
  assert (∀ P, (∀ c, candidate_char c = true → P c = true) → sforall P o = true) as Hall.
  { intros P HP. revert Ho. by apply sforall_impl. }
  unfold boundary_of. rewrite zc_toString; [|done..| |by apply map_set_NoDup].
  - cbn [m_params]. assert (∀ l, map_get "boundary" (map_set "boundary" o l) = Some o) as ->.
    { induction l as [|[x y] l IH]; [done|]. cbn [map_set]. destruct (String.eqb x "boundary") eqn:E; cbn [map_get]; rewrite E; done. }
    rewrite (proj2 (String.eqb_neq o "") H0), (Hall boundary_byte) by (intros c; by destruct c as [[] [] [] [] [] [] [] []]).
    rewrite (proj2 (Nat.leb_le _ _)) by done. cbn [andb negb orb]. by rewrite bool_decide_false.
  - apply map_set_ok; [|done]. split_and!; [done|done|]. apply Hall. intros c. by destruct c as [[] [] [] [] [] [] [] []].
Qed.

(** ** The text of a body *)

Lemma codes_length s : length (codes s) = String.length s.
Proof. induction s as [|c s IH]; [done|]. cbn [codes length String.length]. by rewrite IH. Qed.

Lemma part_flat p ls t : part_is p ls t → flat p = head_lines ls +:+ flat t +:+ crlf.
Proof. intros (_ & -> & _). by rewrite flat_cons, flat_app, flat_cons. Qed.

Lemma body_text_written o ps secs : Forall2 (λ p s, part_is p s.1 s.2) ps secs →
  codes (flat (body_chunks o ps)) = write_multipart (codes ("--" +:+ o)) ((λ s, codes (section_text s)) <$> secs) CRLF.
Proof.
  unfold body_chunks, write_multipart. induction 1 as [|p s ps secs Hp%part_flat _ IH].
  - cbn [fmap list_fmap mjoin list_join app after_boundary]. unfold flat. cbn [fmap list_fmap chunk_bytes String.concat].
    change CRLF with (codes crlf). rewrite <- sapp_assoc, !codes_app. done.
  - rewrite fmap_cons. match goal with |- context [mjoin (?x :: ?l)] => change (mjoin (x :: l)) with (x ++ mjoin l) end. cbn [app].
    rewrite flat_cons, <- app_assoc, flat_app, Hp, fmap_cons. cbn [after_boundary].
    rewrite !codes_app, IH. cbn [chunk_bytes]. unfold section_text at 2. change CRLF with (codes crlf). by rewrite <- sapp_assoc, !codes_app, <- !app_assoc.
Qed.

(** *** With its line ends as CRLF, as the content of another field *)

Lemma line_ends_kept s z : no_line_end s = true → line_ends (s +:+ z) = s +:+ line_ends z.
Proof.
  intros Hs. induction s as [|c s IH]; [done|]. unfold no_line_end in *. cbn [sforall] in Hs. apply andb_true_iff in Hs as [Hc Hs].
  change (String c s +:+ z) with (String c (s +:+ z)). rewrite line_ends_step, IH by done.
  apply negb_true_iff, orb_false_iff in Hc as [H1 H2]. by rewrite H1, H2.
Qed.

Lemma line_ends_head ls : Forall header_line ls → line_ends (head_lines ls) = head_lines ls.
Proof.
  rewrite head_lines_block. induction 1 as [|l ls [_ Hl] _ IH]; [done|]. unfold header_block in *. rewrite fmap_cons, concat_empty_sep.
  rewrite !sapp_assoc, line_ends_kept by done. assert (∀ z, line_ends (crlf +:+ z) = crlf +:+ line_ends z) as H by done.
  by rewrite H, IH.
Qed.

Lemma part_is_sent typed p ls t : part_is p ls t → part_is (sent_chunk typed <$> p) ls (sent_chunk typed <$> t).
Proof.
  intros (Hf & -> & Hl). split_and!; [by apply framed_sent| |done]. rewrite fmap_cons, fmap_app. cbn [fmap list_fmap sent_chunk].
  rewrite line_ends_head by done. change (line_ends crlf) with crlf. by destruct typed.
Qed.

Lemma body_sent typed o ps : no_line_end o = true →
  sent_chunk typed <$> body_chunks o ps = body_chunks o ((λ p : list chunk, sent_chunk typed <$> p) <$> ps).
Proof.
  intros Ho. assert (∀ w, no_line_end w = true → sent_chunk typed (Chars (w +:+ crlf)) = Chars (w +:+ crlf)) as Hw.
  { intros w H. cbn [sent_chunk]. rewrite line_ends_kept by done. change (line_ends crlf) with crlf. by destruct typed. }
  unfold body_chunks. rewrite fmap_app. f_equal.
  - induction ps as [|p ps IH]; [done|]. rewrite !fmap_cons.
    repeat match goal with |- context [mjoin (?x :: ?l)] => change (mjoin (x :: l)) with (x ++ mjoin l) end.
    rewrite fmap_app, IH, fmap_cons. by rewrite <- (sapp_assoc "--" o), Hw by (by rewrite no_line_end_app, Ho).
  - cbn [fmap list_fmap]. by rewrite <- (sapp_assoc "--" o), <- (sapp_assoc _ "--"), Hw by (by rewrite !no_line_end_app, Ho).
Qed.

Lemma line_ends_lack o s : o ≠ "" → no_line_end o = true → ∀ u v,
  includes o (u +:+ s +:+ v) = false → includes o (u +:+ line_ends s +:+ v) = false.
Proof.
  intros Ho Hc. pose proof (includes_crlf o Ho Hc) as Hsep.
  remember (String.length s) as m eqn:Em. assert (String.length s ≤ m)%nat as Hm by lia. clear Em.
  revert s Hm. induction m as [|m IH]; intros [|c s] Hm u v; try done; cbn [String.length] in Hm; try lia.
  rewrite line_ends_step. intros H. change (String c s +:+ v) with (String c (s +:+ v)) in H.
  pose proof (includes_prefix _ _ _ H) as Hu. pose proof (includes_suffix _ _ _ H) as Hs. apply (includes_suffix _ (one c) (s +:+ v)) in Hs.
  destruct (Ascii.eqb c "013") eqn:E.
  - assert (includes o (line_ends s +:+ v) = false) as Hl by (by apply (IH s ltac:(lia) "" v)).
    destruct s as [|d s]; [rewrite sapp_assoc; by apply Hsep|].
    assert ((match d with "010"%char => crlf +:+ line_ends s | _ => crlf +:+ line_ends (String d s) end) =
      if Ascii.eqb d "010" then crlf +:+ line_ends s else crlf +:+ line_ends (String d s)) as Hd by (by destruct d as [[] [] [] [] [] [] [] []]).
    cbn [orb]. rewrite Hd. destruct (Ascii.eqb d "010"); rewrite sapp_assoc; apply Hsep; try done.
    apply (IH s ltac:(cbn in Hm; lia) "" v). by apply (includes_suffix _ (one d) (s +:+ v)).
  - cbn [orb]. destruct (Ascii.eqb c "010"); [rewrite sapp_assoc; apply Hsep; [done|by apply (IH s ltac:(lia) "" v)]|].
    rewrite sapp_assoc, <- sapp_assoc. apply IH; [lia|]. by rewrite sapp_assoc.
Qed.

Lemma texts_sent typed o l : o ≠ "" → no_line_end o = true → ∀ u, includes o (u +:+ texts l) = false →
  includes o (u +:+ texts (sent_chunk typed <$> l)) = false.
Proof.
  intros Ho Hc. induction l as [|[s|b] l IH]; intros u H; [done| |rewrite fmap_cons, texts_cons in *; by apply IH].
  rewrite fmap_cons, texts_cons in *. cbn [sent_chunk chunk_text] in *. rewrite <- sapp_assoc. apply IH. rewrite sapp_assoc.
  destruct typed; [done|]. by apply line_ends_lack.
Qed.

Lemma show_section decode reformat nested pre k s : Forall header_line s.1 → (String.length (section_text s) ≤ Uc)%nat →
  show_part decode reformat nested pre k (codes (section_text s)) =
  show_body decode reformat nested pre k (codes (String.concat crlf s.1)) (codes (flat s.2)).
Proof.
  destruct s as [ls t]. unfold section_text, head_lines. cbn [fst snd]. generalize (flat t). intros c Hl Hs. rewrite <- codes_length in Hs.
  destruct ls as [|l ls].
  - unfold show_part. rewrite (proj2 (Nat.ltb_ge _ _)) by done. rewrite codes_app. change (codes crlf) with CRLF.
    by rewrite (proj2 (starts_spec CRLF _)) by by eexists.
  - set (w := String.concat crlf (l :: ls)) in *.
    assert (codes ((w +:+ crlf +:+ crlf) +:+ c) = write_part (codes w, codes c)) as E.
    { unfold write_part. cbn [fst snd]. by rewrite !codes_app, <- !app_assoc. }
    rewrite E in *. apply (show_written decode reformat nested pre k (codes w, codes c)); [|done]. by apply lines_headed.
Qed.

(** ** The body at the reader *)

Lemma mjoin_part {A} (p : list A) ps : p ∈ ps → ∃ a b, mjoin ps = a ++ p ++ b.
Proof. intros (l1 & l2 & ->)%list_elem_of_split. exists (mjoin l1), (mjoin l2). by rewrite join_app. Qed.

(** The parts lack the boundary their texts were searched for. *)
Lemma sections_lack o ps secs : o ≠ "" → no_line_end o = true → Forall2 (λ p s, part_is p s.1 s.2) ps secs →
  includes o (texts (mjoin ps)) = false → bytes_lack o (mjoin ps) →
  Forall (λ s, ¬ occurs (codes ("--" +:+ o)) (codes (section_text s))) secs.
Proof.
  intros H0 Hc H Ht Hb. apply Forall_forall. intros s [i Hi]%list_elem_of_lookup.
  destruct (Forall2_lookup_r _ _ _ _ _ H Hi) as (p & Hp%list_elem_of_lookup_2 & Hs). destruct (mjoin_part p ps Hp) as (a & b & E).
  assert (includes o (flat p) = false) as Hl.
  { apply framed_lacks_all; [done|done|apply Hs| |].
    - intros x Hx. apply Hb. rewrite E. apply elem_of_app. right. apply elem_of_app. by left.
    - rewrite E, !texts_app in Ht. by apply includes_suffix, includes_prefix in Ht. }
  intros Ho%codes_occurs. rewrite (part_flat p _ _ Hs), <- sapp_assoc in Hl. apply includes_prefix in Hl.
  unfold section_text in Ho. assert (includes o (head_lines s.1 +:+ flat s.2) = true) as H'; [|congruence].
  apply includes_spec in Ho as (x & y & ->). apply includes_spec. exists (x +:+ "--"), y. by rewrite !sapp_assoc.
Qed.

Lemma bytes_sent typed o o' ps : bytes_lack o (body_chunks o' ps) → bytes_lack o (mjoin ((λ p : list chunk, sent_chunk typed <$> p) <$> ps)).
Proof.
  intros H b Hb. apply H. unfold body_chunks. apply elem_of_app. left. apply list_elem_of_join in Hb as (q & Hq & Hb).
  apply list_elem_of_fmap in Hb as (p & -> & Hp). apply list_elem_of_fmap in Hq as ([s|b'] & Hc & Hin); [done|]. injection Hc as ->.
  apply list_elem_of_join. exists (Chars ("--" +:+ o' +:+ crlf) :: p). split; [by right|]. apply list_elem_of_fmap. by exists p.
Qed.

Definition sent_section (typed : bool) (s : section) : section := (s.1, sent_chunk typed <$> s.2).

Lemma sections_sent typed ps secs : Forall2 (λ p s, part_is p s.1 s.2) ps secs →
  Forall2 (λ p s, part_is p s.1 s.2) ((λ p : list chunk, sent_chunk typed <$> p) <$> ps) (sent_section typed <$> secs).
Proof. induction 1; rewrite ?fmap_cons; constructor; [by apply part_is_sent|done]. Qed.

Lemma mjoin_sent typed ps : mjoin ((λ p : list chunk, sent_chunk typed <$> p) <$> ps) = sent_chunk typed <$> mjoin ps.
Proof.
  induction ps as [|p ps IH]; [done|]. rewrite fmap_cons.
  repeat match goal with |- context [mjoin (?x :: ?l)] => change (mjoin (x :: l)) with (x ++ mjoin l) end. by rewrite fmap_app, IH.
Qed.

(** C7. A form arrives: when the body of a request is written, the multipart reader accepts its
    content type and shows the fields of the form, in order, each with its header lines,
    none of them broken by a line end of a name or a value, and its content, in whatever
    chunks they arrive; also when the whole body is the content of a field of no content type
    ([typed] false), which has its line ends as CRLF. Each part is at most 8 MiB with its
    header lines, the reader's limit; the boundary is looked for in the texts, not in the
    files: a file must not hold it. *)
Theorem request_body_is_read_back l t r k chunks ct k' : (∀ j, String.length (random j) = 24%nat) →
  bb n random l t r k = Ok (chunks, ct, k') →
  ∃ o secs, boundary_of ct = Some o ∧ Forall2 (λ e s, sent n random r e s.1 s.2) l secs ∧
    Forall (λ s, Forall header_line s.1) secs ∧
    (∀ typed, codes (flat (sent_chunk typed <$> chunks)) =
      write_multipart (codes ("--" +:+ o)) ((λ s, codes (section_text s)) <$> (sent_section typed <$> secs)) CRLF) ∧
    ∀ decode reformat left pre typed pieces, bytes_lack o chunks →
      Forall (λ s, (String.length (section_text (sent_section typed s)) ≤ Uc)%nat) secs →
      concat pieces = codes (flat (sent_chunk typed <$> chunks)) →
      reader decode reformat (S left) ct pre pieces =
      in_order (λ j s, show_body decode reformat (λ c p b, reader decode reformat left c p [b]) pre j
                         (codes (String.concat crlf s.1)) (codes (flat (sent_chunk typed <$> s.2)))) 0 secs.
Proof.
  intros Hr (ps & k1 & o & Hps & Hu & -> & -> & _)%bb_ok.
  destruct (draw_ok _ _ _ _ _ Hu) as (Ht & j & Hj). destruct (candidate_ok _ (Hr j)) as (Hlen & Hlast).
  pose proof (candidate_chars (random j)) as Hc. rewrite <- Hj in *.
  destruct (parts_sent r (part_sent r) _ _ _ _ Hps) as (secs & Hs1 & Hs2).
  assert (o ≠ "") as H0 by (by intros ->). assert (no_line_end o = true) as Hnl.
  { revert Hc. apply sforall_impl. intros c. by destruct c as [[] [] [] [] [] [] [] []]. }
  assert (Forall (λ s, Forall header_line s.1) secs) as Hh by (by clear -Hs2; induction Hs2 as [|p s ? ? Hp]; [|constructor; [apply Hp|]]).
  pose proof (body_boundary o (Some (default "multipart/form-data" t)) Hc H0 ltac:(lia) Hlast) as Hbo.
  assert (∀ typed, codes (flat (sent_chunk typed <$> body_chunks o ps)) =
    write_multipart (codes ("--" +:+ o)) ((λ s, codes (section_text s)) <$> (sent_section typed <$> secs)) CRLF) as Htext.
  { intros typed. rewrite (body_sent typed o ps Hnl). by apply body_text_written, sections_sent. }
  exists o, secs. split_and!; [done..|]. intros decode reformat left pre typed pieces Hb Hl Hpieces.
  destruct (boundary_plain _ _ Hbo) as (H1 & H2 & H3). cbn [reader]. rewrite Hbo.
  apply (sections_sent typed) in Hs2.
  apply (Forall_fmap (sent_section typed) (λ s, (String.length (section_text s) ≤ Uc)%nat)) in Hl.
  assert (Forall (λ s, ¬ occurs (codes ("--" +:+ o)) (codes (section_text s))) (sent_section typed <$> secs)) as Hlack.
  { apply (sections_lack o _ _ H0 Hnl Hs2); [|by apply (bytes_sent typed) in Hb]. rewrite mjoin_sent. by apply (texts_sent typed o _ H0 Hnl ""). }
  rewrite (scan_body (codes ("--" +:+ o)) H1 H2 H3 ((λ s, codes (section_text s)) <$> (sent_section typed <$> secs)) CRLF).
  - rewrite show_parts, <- list_fmap_compose. apply in_order_ext. intros i s Hs.
    apply (show_section decode reformat _ pre i (sent_section typed s)).
    + by apply (proj1 (Forall_forall _ _) Hh s).
    + by apply (proj1 (Forall_forall _ _) Hl (sent_section typed s)), list_elem_of_fmap_2.
  - apply Forall_fmap, Forall_forall. intros s Hs. split.
    + by apply (proj1 (Forall_forall _ _) Hlack).
    + rewrite codes_length. by apply (proj1 (Forall_forall _ _) Hl).
  - right. exists []. split; [done|cbn; lia].
  - by rewrite Hpieces, Htext.
Qed.
End bodies.
