(* ===== verification/MultipartForms.v ===== *)
(** * scalar.js: forms inside forms, and forms on concrete fields

    A field that is a form of its own arrives as a part whose body the reader opens with the
    content type in its header lines ([nested_form_is_opened]). The witness of MultipartSent.v
    is here, on a form with a file and a form inside. *)
From S2P Require Import Prelude Css Mime Shell Snippets Literals Utf8 Records Multipart MultipartLaws FormData MultipartWriter MultipartSent.
#[local] Open Scope list_scope.

(** ** The content type of a part *)

Lemma unfold_line u w : CR ∉ u → unfold_headers false (u ++ w) = u ++ unfold_headers false w.
Proof.
  induction u as [|x u IH]; [done|]. intros [Hx Hu]%not_elem_of_cons. cbn [app unfold_headers andb].
  rewrite <- IH by done. destruct (u ++ w) as [|y [|z q]]; [done..|]. by rewrite (proj2 (Z.eqb_neq x CR)) by congruence.
Qed.

Lemma header_line_codes l : header_line l → ∃ c s, l = String c s ∧ codes l = Z.of_nat (nat_of_ascii c) :: codes s ∧ token_char c = true ∧ CR ∉ codes l.
Proof.
  intros [H0 H]. destruct l as [|c s]; [done|]. exists c, s. split_and!; [done|done|done|]. by apply no_line_end_codes.
Qed.

Lemma token_not_pad c : token_char c = true → pad (Z.of_nat (nat_of_ascii c)) = false ∧ white (Z.of_nat (nat_of_ascii c)) = false.
Proof. by destruct c as [[] [] [] [] [] [] [] []]. Qed.

(** No header line is folded. *)
Lemma unfold_lines ls : Forall header_line ls → unfold_headers false (codes (String.concat crlf ls)) = codes (String.concat crlf ls).
Proof.
  induction 1 as [|l ls Hl Hls IH]; [done|]. destruct (header_line_codes l Hl) as (c & s & _ & _ & _ & Hc).
  destruct Hls as [|l' ls Hl' Hls].
  - cbn [String.concat]. pose proof (unfold_line (codes l) [] Hc) as H. by rewrite !app_nil_r in H.
  - change (String.concat crlf (l :: l' :: ls)) with (l +:+ crlf +:+ String.concat crlf (l' :: ls)).
    rewrite !codes_app, unfold_line by done. f_equal.
    destruct (header_line_codes l' Hl') as (c' & s' & E & _ & Ht & _).
    assert (∃ w, String.concat crlf (l' :: ls) = String c' w) as [w Hw].
    { rewrite E. destruct ls as [|x ls]; [by eexists|]. by eexists (s' +:+ crlf +:+ String.concat crlf (x :: ls)). }
    rewrite Hw in *. cbn [codes] in *. change (codes crlf) with [13; 10].
    change ([13; 10] ++ Z.of_nat (nat_of_ascii c') :: codes w) with (13 :: 10 :: Z.of_nat (nat_of_ascii c') :: codes w).
    set (x := Z.of_nat (nat_of_ascii c') :: codes w) in *.
    assert (unfold_headers false (13 :: 10 :: x) = 13 :: unfold_headers false (10 :: x)) as ->.
    { subst x. cbn [unfold_headers andb]. by rewrite (proj1 (token_not_pad c' Ht)). }
    pose proof (unfold_line [10] x ltac:(set_solver)) as H. cbn [app] in H. by rewrite H, IH.
Qed.

Definition no_break (u : list Z) : Prop := Forall (λ c, line_break c = false) u.

Lemma header_no_break s : no_line_end s = true → no_break (codes s).
Proof.
  induction s as [|c s IH]; [constructor|]. unfold no_line_end in *. cbn [sforall codes]. intros [Hc Hs]%andb_true_iff.
  constructor; [|by apply IH]. by destruct c as [[] [] [] [] [] [] [] []].
Qed.

Lemma type_inside u w : no_break u → content_type false (u ++ w) = content_type false w.
Proof. induction 1 as [|c u Hc _ IH]; [done|]. cbn [app content_type]. by rewrite Hc. Qed.

(** A line that is not the content type is skipped. *)
Lemma type_skips u w : no_break u → u ≠ [] → starts_ci (codes "content-type:") (u ++ CRLF ++ w) = None →
  content_type true (u ++ CRLF ++ w) = content_type true w.
Proof.
  intros Hu H0 Hs. destruct u as [|c u]; [done|]. apply Forall_cons in Hu as [Hc Hu]. cbn [app] in *. cbn [content_type].
  rewrite Hs, Hc, type_inside by done. done.
Qed.

Lemma trim_start_none c e : white c = false → trim_start (c :: e) = c :: e.
Proof. intros H. cbn [trim_start]. by rewrite H. Qed.

Definition solid_end (s : string) : Prop := ∃ a d, s = a +:+ one d ∧ white (Z.of_nat (nat_of_ascii d)) = false.

Lemma solid_app a b : solid_end b → solid_end (a +:+ b).
Proof. intros (x & d & -> & Hd). exists (a +:+ x), d. by rewrite sapp_assoc. Qed.

Lemma trim_solid c s : white (Z.of_nat (nat_of_ascii c)) = false → solid_end (String c s) → trim (codes (String c s)) = codes (String c s).
Proof.
  intros Hc (a & d & E & Hd). unfold trim. cbn [codes]. rewrite trim_start_none by done.
  change (Z.of_nat (nat_of_ascii c) :: codes s) with (codes (String c s)). rewrite E, codes_app. cbn [one codes].
  rewrite reverse_snoc, trim_start_none by done. by rewrite reverse_cons, reverse_involutive.
Qed.

Lemma type_line c s w : white (Z.of_nat (nat_of_ascii c)) = false → no_line_end (String c s) = true → solid_end (String c s) →
  w = [] ∨ (∃ v, w = CRLF ++ v) →
  content_type true (codes ("Content-Type: " +:+ String c s) ++ w) = Some (codes (String c s)).
Proof.
  intros Hc Hs He Hw. rewrite codes_app, <- app_assoc. set (v := codes (String c s) ++ w).
  assert (starts_ci (codes "content-type:") (codes "Content-Type: " ++ v) = Some (32 :: v)) as E by done.
  assert (trim_start (32 :: v) = v) as Ev by (change (trim_start (32 :: v)) with (trim_start v); by apply trim_start_none).
  change (codes "Content-Type: " ++ v) with (67 :: codes "ontent-Type: " ++ v) in *. cbn [content_type]. rewrite E, Ev.
  assert (first_line v = codes (String c s)) as Hf.
  { subst v. assert (first_line w = []) as Hfw by (by destruct Hw as [-> |(x & ->)]).
    pose proof (header_no_break _ Hs) as Hb. revert Hb. generalize (codes (String c s)). induction 1 as [|x u Hx _ IH]; [done|].
    cbn [app first_line]. by rewrite Hx, IH. }
  assert (∃ z v', v = z :: v') as (z & v' & Hz) by by eexists _, _.
  rewrite Hz. rewrite <- Hz, Hf. by rewrite trim_solid.
Qed.

(** ** The content type of a body *)

Lemma token_solid s : Lc s = true → solid_end s.
Proof.
  intros [Hs H0]%Lc_token. induction s as [|c s IH]; [done|]. cbn [sforall] in Hs. apply andb_true_iff in Hs as [Hc Hs].
  destruct s as [|d s]; [exists "", c; split; [done|by apply token_not_pad]|]. apply (solid_app (one c)), IH; done.
Qed.

Lemma param_solid p : solid_end (param_text p).
Proof.
  unfold param_text. do 2 apply solid_app. destruct (Lc p.2) eqn:E; [by apply token_solid|].
  unfold Pve. apply (solid_app (one DQ)), solid_app. by exists "", DQ.
Qed.

Lemma toString_shape m : Lc (m_type m) = true → m_params m ≠ [] →
  ∃ c s, toString m = String c s ∧ token_char c = true ∧ solid_end (toString m).
Proof.
  intros [Ht H0]%Lc_token Hp. unfold toString, essence. destruct (m_type m) as [|c s]; [done|]. cbn [sforall] in Ht.
  apply andb_true_iff in Ht as [Hc _]. destruct (m_params m) as [|p ps]; [done|].
  eexists c, _. split_and!; [reflexivity|done|]. apply solid_app. change (solid_end ("; " +:+ join "; " (param_text <$> p :: ps))).
  apply solid_app. clear. unfold join. revert p. induction ps as [|q ps IH]; intros p; [apply param_solid|].
  rewrite fmap_cons. change (solid_end (param_text p +:+ "; " +:+ String.concat "; " (param_text <$> q :: ps))).
  do 2 apply solid_app. apply IH.
Qed.

Lemma to_string_codes s : to_string (codes s) = s.
Proof.
  unfold to_string. induction s as [|c s IH]; [done|]. cbn [codes fmap list_fmap string_of_list_ascii].
  rewrite Nat2Z.id, ascii_nat_embedding. by f_equal.
Qed.

Section nested.
Variable n : string → string.
Variable random : nat → string.

(** The lines of a field of content type [c] show that content type. *)
Lemma header_type a c s file : Forall header_line (header_lines n a (Some (String c s)) file) → token_char c = true →
  solid_end (String c s) →
  content_type true (unfold_headers false (codes (String.concat crlf (header_lines n a (Some (String c s)) file)))) = Some (codes (String c s)).
Proof.
  intros Hl Hc Hs. rewrite unfold_lines by done. revert Hl. unfold header_lines. cbn [truthy default from_option id].
  set (others := _ <$> filter _ _). set (dl := match key a with Some _ => _ | None => _ end). intros Hl.
  apply Forall_app in Hl as [Hd Ho]. apply Forall_app in Ho as [Ht%Forall_inv Ho].
  assert (∃ w, (w = [] ∨ ∃ v, w = CRLF ++ v) ∧
    codes (String.concat crlf (["Content-Type: " +:+ String c s] ++ others)) = codes ("Content-Type: " +:+ String c s) ++ w) as (w & Hw & E).
  { destruct others as [|x l]; [exists []; split; [by left|by rewrite !app_nil_r]|].
    exists (CRLF ++ codes (String.concat crlf (x :: l))). split; [right; by eexists|].
    change (String.concat crlf (["Content-Type: " +:+ String c s] ++ x :: l)) with (("Content-Type: " +:+ String c s) +:+ crlf +:+ String.concat crlf (x :: l)). by rewrite !codes_app. }
  assert (no_line_end (String c s) = true) as Hn.
  { destruct Ht as [_ Ht]. rewrite no_line_end_app in Ht. by apply andb_true_iff in Ht as [_ ?]. }
  pose proof (type_line c s w (proj2 (token_not_pad c Hc)) Hn Hs Hw) as Hty. rewrite <- E in Hty.
  destruct dl as [|l dl'] eqn:Edl; [done|]. assert (dl' = []) as -> by (unfold dl in Edl; destruct (key a); [by injection Edl as _ <-|done]).
  apply Forall_inv in Hd. destruct (header_line_codes l Hd) as (d & z & El & _ & _ & _).
  change (String.concat crlf ([l] ++ ["Content-Type: " +:+ String c s] ++ others)) with
    (l +:+ crlf +:+ String.concat crlf (["Content-Type: " +:+ String c s] ++ others)).
  rewrite !codes_app. change (codes crlf) with CRLF. rewrite type_skips; [done| | |].
  - by apply header_no_break, Hd.
  - by rewrite El.
  - subst dl. destruct (key a); [|done]. injection Edl as <-. done.
Qed.

(** C28. A form inside a form is opened: the part of a field that is a form of its own shows the
    output of a reader of the content type the form was written with, on the content of the part;
    [request_body_is_read_back] says what that is, with the [typed] of the field. *)
Theorem nested_form_is_opened r a l ls t : sent n random r (MultipartField a l) ls t → Forall header_line ls →
  m_type (zc (Some (default "multipart/form-data" (field_type a)))) = "multipart" →
  ∃ chunks ct k k', bb n random l (field_type a) (S r) k = Ok (chunks, ct, k') ∧ t = sent_as a chunks ∧
    ∀ decode reformat nested pre j b, show_body decode reformat nested pre j (codes (String.concat crlf ls)) b =
      let '(out, err) := nested ct ((pre ++ decimal (S j)) ++ codes ".") b in
      ((codes "Part " ++ (pre ++ decimal (S j)) ++ [LF] ++ codes (String.concat crlf ls) ++ [LF; LF]) :: out, err).
Proof.
  intros Hs Hl Hm. inversion Hs as [| | |a' l' chunks ct k k' Hbb]; subst. exists chunks, ct, k, k'. split_and!; [done..|].
  apply bb_ok in Hbb as (ps & k1 & o & _ & Hu & _ & -> & _). destruct (draw_ok _ _ _ _ _ _ Hu) as (_ & i & Ho).
  set (e := Some (default "multipart/form-data" (field_type a))) in *. destruct (zc_ok e) as (H1 & H2 & H3 & H4 & H5 & H6).
  set (m := Media _ _ _) in *. intros decode reformat nested pre j b.
  assert (m_params m ≠ []) as Hp by (subst m; cbn [m_params]; destruct (m_params (zc e)) as [|[x y] ps']; [done|cbn [map_set]; by case_match]).
  destruct (toString_shape m H1 Hp) as (c & s & E & Hc & Hsol). rewrite E in *.
  unfold show_body. rewrite (header_type a c s None Hl Hc Hsol), to_string_codes, <- E.
  assert (m_type (zc (Some (toString m))) = "multipart") as ->.
  { subst m. rewrite zc_toString; [done|done..| |by apply map_set_NoDup]. apply map_set_ok; [|done]. split_and!; [done|done|].
    rewrite Ho. generalize (candidate_chars (random i)). apply sforall_impl. intros d. by destruct d as [[] [] [] [] [] [] [] []]. }
  change (String.eqb "multipart" "multipart") with true. assert (∃ x ls, header_lines n a (Some (toString m)) None = x :: ls) as (x & ls & El).
  { unfold header_lines. rewrite E. cbn [truthy]. destruct (key a); by eexists _, _. }
  rewrite <- E, El in Hl. destruct (codes_line_head x) as (d & v & Ex & _); [by apply Forall_inv in Hl|]. rewrite El.
  assert (∃ w, codes (String.concat crlf (x :: ls)) = d :: w) as [w ->]; [|done].
  destruct ls as [|y ls]; [by exists v|]. change (String.concat crlf (x :: y :: ls)) with (x +:+ crlf +:+ String.concat crlf (y :: ls)).
  rewrite codes_app, Ex. by eexists.
Qed.
End nested.

(** ** A form on concrete fields *)

Definition sample_random (k : nat) : string := "ABCDEFGHIJKLMNOPQRSTUVW" +:+ one (ascii_of_nat k).

Definition sample_fields : list form_field :=
  let plain k := Attributes (Some k) None [] in
  [TextField (plain ("na" +:+ String "010" ("me" +:+ quote_char))) ("a" +:+ one "010" +:+ "b");
   FileField (Attributes (Some "f") None [("X-Id", "7")]) "x.bin" "" ("A" +:+ one "010" +:+ "C");
   MultipartField (plain "inner") [TextField (Attributes None (Some "text/html") []) "<p>"; BlobField (plain "b") "image/png" "PNG"]].

Lemma written_length a s l tl : s ∈ l → (length s ≤ length (write_multipart a l tl))%nat.
Proof.
  intros Hs. unfold write_multipart. rewrite length_app. induction l as [|x l IH]; [by apply elem_of_nil in Hs|].
  cbn [after_boundary]. rewrite !length_app. apply elem_of_cons in Hs as [->|Hs]; [lia|]. specialize (IH Hs). lia.
Qed.

Definition sample_body : body_result := Eval vm_compute in
  match bb (λ s, s) sample_random sample_fields None 0 0 with Ok b => b | Err _ => ([], "", 0%nat) end.

Lemma request_body_is_read_back_witness :
  let '(chunks, ct, k') := sample_body in
  bb (λ s, s) sample_random sample_fields None 0 0 = Ok (chunks, ct, k') ∧
  ∃ o secs, boundary_of ct = Some o ∧ Forall2 (λ e s, sent (λ s, s) sample_random 0 e s.1 s.2) sample_fields secs ∧
    Gc ascii_decode (λ _, None) ct [codes (flat (sent_chunk true <$> chunks))] =
    in_order (λ j s, show_body ascii_decode (λ _, None) (λ c p b, reader ascii_decode (λ _, None) 7 c p [b]) [] j
                       (codes (String.concat crlf s.1)) (codes (flat (sent_chunk true <$> s.2)))) 0 secs.
Proof.
  unfold sample_body. assert (bb (λ s, s) sample_random sample_fields None 0 0 = Ok sample_body) as Hbb by (vm_compute; reflexivity).
  split; [exact Hbb|].
  destruct (request_body_is_read_back (λ s, s) sample_random sample_fields None 0 0 _ _ _ (λ _, eq_refl) Hbb)
    as (o & secs & Ho & Hs & _ & Ht & Hr).
  exists o, secs. split; [exact Ho|]. split; [exact Hs|]. vm_compute in Ho. injection Ho as <-.
  apply (Hr _ _ 7%nat [] true).
  - intros b. assert (Forall (λ c, match c with Bytes b => negb (includes "----scalar-4142434445464748494a4b4c4d4e4f505152535455565701" b) = true | Chars _ => True end) sample_body.1.1) as H.
    { vm_compute. repeat constructor. }
    intros Hb. apply negb_true_iff. apply (proj1 (Forall_forall _ _) H (Bytes b) Hb).
  - apply Forall_forall. intros s Hin. rewrite <- codes_length. apply small_fits. etransitivity.
    + eapply (written_length _ (codes (section_text (sent_section true s)))). exact (list_elem_of_fmap_2 (λ s, codes (section_text s)) _ _ (list_elem_of_fmap_2 (sent_section true) _ _ Hin)).
    + rewrite <- (Ht true). by apply Nat.leb_le.
  - cbn [concat]. by rewrite app_nil_r.
Defined.

Definition inner_fields : list form_field :=
  [TextField (Attributes None (Some "text/html") []) "<p>"; BlobField (Attributes (Some "b") None []) "image/png" "PNG"].

Lemma nested_form_is_opened_witness :
  ∃ ls chunks ct k k', bb (λ s, s) sample_random inner_fields None 1 k = Ok (chunks, ct, k') ∧
    show_body ascii_decode (λ _, None) (λ c p b, reader ascii_decode (λ _, None) 7 c p [b]) [] 2
      (codes (String.concat crlf ls)) (codes (flat (sent_chunk false <$> chunks))) =
    let '(out, err) := reader ascii_decode (λ _, None) 7 ct ([] ++ decimal 3 ++ codes ".") [codes (flat (sent_chunk false <$> chunks))] in
    ((codes "Part " ++ ([] ++ decimal 3) ++ [LF] ++ codes (String.concat crlf ls) ++ [LF; LF]) :: out, err).
Proof.
  set (a := Attributes (Some "inner") None []).
  assert (∃ chunks ct k', bb (λ s, s) sample_random inner_fields None 1 0 = Ok (chunks, ct, k')) as (chunks & ct & k' & Hbb)
    by (eexists _, _, _; vm_compute; reflexivity).
  destruct (nested_form_is_opened (λ s, s) sample_random 0 a inner_fields _ _ (sent_body _ _ _ a _ _ _ _ _ Hbb))
    as (chunks' & ct' & k1 & k1' & H1 & H2 & H3).
  - vm_compute in Hbb. injection Hbb as <- <- <-. repeat constructor.
  - reflexivity.
  - eexists _, _, _, _, _. split; [exact H1|]. apply H3.
Defined.

(** The line ends of a text with a content type of its own are not kept when the form it is in
    is itself a field without one. *)
Example inner_text_is_altered :
  let html := TextField (Attributes None (Some "text/html") []) ("a" +:+ one "010" +:+ "b") in
  let sends l := match bb (λ s, s) sample_random l None 0 0 with Ok (chunks, _, _) => flat chunks | Err _ => "" end in
  includes ("a" +:+ one "010" +:+ "b") (sends [html]) = true ∧
  includes ("a" +:+ crlf +:+ "b") (sends [MultipartField (Attributes (Some "inner") None []) [html]]) = true ∧
  includes ("a" +:+ one "010" +:+ "b") (sends [MultipartField (Attributes (Some "inner") None []) [html]]) = false.
Proof. vm_compute. done. Qed.
