(* ===== verification/Schemas.v ===== *)
(** * scalar.js: schemas and their references

    A schema is a JS object: keys with values, which are JSON, other objects of the document
    (by their address) or tables of them. [vu], [oxe] and [yu] follow references, which may go
    in circles; [view] is what [iv.schema] gives for a schema the coercion of the bundle
    does not change: the object itself, or for a reference a fresh one with the keys of the target
    under its own. *)
From S2P Require Import Prelude Parameters Objects.
#[local] Open Scope list_scope.

(** ** Objects *)

(** A value of a key: JSON, a schema, a list of schemas, or the address of a table. *)
Inductive value : Type := Json (v : jv) | Node (e : nat) | Nodes (l : list nat) | Table (p : nat).

Definition schema : Type := list (string * value).

(** [e[k]] *)
Definition get (k : string) (e : schema) : option value := snd <$> List.find (λ x, String.eqb x.1 k) e.

(** [k in e] *)
Definition key_in (k : string) (e : schema) : bool := match get k e with Some _ => true | None => false end.

(** [{...r, ...n}]: only what is found under a key matters. *)
Definition spread_over (r n : schema) : schema := n ++ r.

(** [let {[k]: _, ...n} = e] *)
Definition without (k : string) (e : schema) : schema := List.filter (λ x, negb (String.eqb x.1 k)) e.

(** The JSON under a key; what is undefined is not there. *)
Definition json_of (k : string) (e : schema) : option jv :=
  match get k e with Some (Json Undefined) => None | Some (Json v) => Some v | _ => None end.

Definition node_at (k : string) (e : schema) : option nat := match get k e with Some (Node a) => Some a | _ => None end.
Definition nodes (k : string) (e : schema) : option (list nat) := match get k e with Some (Nodes l) => Some l | _ => None end.
Definition table (k : string) (e : schema) : option nat := match get k e with Some (Table p) => Some p | _ => None end.

(** The items under a key, if it is an array *)
Definition items_of (k : string) (e : schema) : option (list jv) := match json_of k e with Some (Arr l) => Some l | _ => None end.

(** Truth *)
Definition is_true (v : jv) : bool :=
  match v with
  | Undefined | Null => false
  | Bool b => b
  | Num n => negb (String.eqb n "0" || String.eqb n "NaN")
  | Str s => negb (String.eqb s "")
  | Verbatim _ | Arr _ | Obj _ => true
  end.

Definition flag (k : string) (e : schema) : bool := match json_of k e with Some v => is_true v | None => false end.

(** [v === s] *)
Definition is_text (s : string) (v : jv) : bool := match v with Str t => String.eqb t s | _ => false end.

(** [e[k] === s] *)
Definition key_says (k s : string) (e : schema) : bool := match json_of k e with Some v => is_text s v | None => false end.

Lemma get_spread k r n : get k (spread_over r n) = match get k n with Some v => Some v | None => get k r end.
Proof.
  unfold get, spread_over. induction n as [|x n IH]; [done|]. cbn [app List.find]. by destruct (String.eqb x.1 k).
Qed.

Lemma get_without k k' e : get k (without k' e) = if String.eqb k k' then None else get k e.
Proof.
  unfold get, without. induction e as [|[i v] e IH]; [by destruct (String.eqb k k')|]. cbn [List.filter fst].
  destruct (String.eqb_spec i k') as [->|Hi]; cbn [negb List.find fst]; [rewrite IH, (String.eqb_sym k'); by destruct (String.eqb k k')|].
  destruct (String.eqb_spec i k) as [->|Hk]; [by destruct (String.eqb_spec k k')|done].
Qed.

(** ** Documents

    The objects of a document have addresses, the position in a list. [$ref-value] holds
    the object a reference is resolved to. *)

Record document : Type := Document {
  schemas : list schema;
  property_lists : list (list (string * nat)) }.

Definition is_ref (e : schema) : bool := key_in "$ref" e.
Definition ref_value (e : schema) : option nat := node_at "$ref-value" e.

Section document.
Variable d : document.

Definition schema_at (e : nat) : schema := match schemas d !! e with Some n => n | None => [] end.
Definition properties_at (p : nat) : list (string * nat) := default [] (property_lists d !! p).

(** axe: an object of nothing but the reference *)
Definition axe (n : schema) : bool :=
  forallb (λ x, existsb (String.eqb x.1) ["$ref"; "$ref-value"; "$global"; "$status"]) n.

(** vu: to the end of a chain of references, or of one that goes in circles *)
Fixpoint vu (fuel : nat) (n : nat) (t : gset nat) : option nat :=
  match fuel with
  | O => None
  | S f =>
      if is_ref (schema_at n) && axe (schema_at n) && bool_decide (n ∉ t) then
        match ref_value (schema_at n) with None => Some n | Some e => vu f e ({[n]} ∪ t) end
      else Some n
  end.

Definition ref_fuel : nat := S (length (schemas d)).

(** oxe *)
Definition oxe (e : nat) : option nat :=
  match ref_value (schema_at e) with None => None | Some t => vu ref_fuel t {[e]} end.

(** [U(e) ?? e] *)
Definition U_or (e : nat) : nat := if is_ref (schema_at e) then default e (oxe e) else e.

(** yu: the target with the keys of the reference over it. The address is that of the
    reference in the set of those seen; an object that was made has none. *)
Definition yu (at_ : option nat) (n : schema) : schema :=
  match mbind (λ t, vu ref_fuel t (match at_ with Some e => {[e]} | None => ∅ end)) (ref_value n) with
  | None => without "$ref-value" n
  | Some t => spread_over (schema_at t) (without "$ref-value" n)
  end.

(** iv.schema *)
Definition view_of (at_ : option nat) (n : schema) : schema := if is_ref n then yu at_ n else n.
Definition view (e : nat) : schema := view_of (Some e) (schema_at e).

(** ** Chains of references end *)

(** Every address is one of the document. *)
Definition well_formed : Prop :=
  (∀ e n, schemas d !! e = Some n → ∀ t, ref_value n = Some t → t < length (schemas d))%nat ∧
  (∀ p l, property_lists d !! p = Some l → ∀ k e, (k, e) ∈ l → e < length (schemas d))%nat.

(** A set of addresses, and one address more *)
Definition addresses (A : gset nat) : Prop := ∀ x, x ∈ A → (x < length (schemas d))%nat.

Lemma addresses_size A : addresses A → (size A ≤ length (schemas d))%nat.
Proof.
  intros HA. rewrite <- (size_set_seq (C:=gset nat) 0 (length (schemas d))).
  apply subseteq_size. intros x Hx%HA. apply elem_of_set_seq. lia.
Qed.

Lemma room_shrinks A r fuel : addresses A → (r < length (schemas d))%nat → r ∉ A → (length (schemas d) < S fuel + size A)%nat →
  addresses ({[r]} ∪ A) ∧ (length (schemas d) < fuel + size ({[r]} ∪ A))%nat ∧ fuel ≠ O.
Proof.
  intros HA Hr Hn Hf. assert (addresses ({[r]} ∪ A)) as HA' by (intros x [->%elem_of_singleton|Hx]%elem_of_union; [done|by apply HA]).
  assert (size ({[r]} ∪ A) = S (size A)) as E by (rewrite size_union, size_singleton; [done|set_solver]).
  pose proof (addresses_size _ HA'). split_and!; [done|lia|lia].
Qed.

Section total.
Hypothesis Hd : well_formed.

Lemma schema_in e : (e < length (schemas d))%nat → schemas d !! e = Some (schema_at e).
Proof. intros [n Hn]%lookup_lt_is_Some. unfold schema_at. by rewrite Hn. Qed.

(** A chain of references ends, in circles too. *)
Lemma vu_ends fuel : ∀ n t, (n < length (schemas d))%nat → addresses t → (length (schemas d) < fuel + size t)%nat →
  ∃ m, vu fuel n t = Some m ∧ (m < length (schemas d))%nat.
Proof.
  induction fuel as [|f IH]; intros n t Hn Ht Hf; [pose proof (addresses_size _ Ht); lia|].
  cbn [vu]. destruct (is_ref (schema_at n) && axe (schema_at n)); [cbn [andb]|by exists n].
  case_bool_decide as Hin; [|by exists n]. destruct (ref_value (schema_at n)) as [e|] eqn:E; [|by exists n].
  destruct (room_shrinks t n f Ht Hn Hin Hf) as (Ht' & Hf' & _). apply IH; [|done..].
  by apply (proj1 Hd n (schema_at n)); [apply schema_in|].
Qed.

Lemma oxe_ends e : (e < length (schemas d))%nat → oxe e = None ∧ ref_value (schema_at e) = None ∨ ∃ t, oxe e = Some t ∧ (t < length (schemas d))%nat.
Proof.
  intros He. unfold oxe. destruct (ref_value (schema_at e)) as [t|] eqn:E; [right|by left].
  apply vu_ends; [by apply (proj1 Hd e (schema_at e)); [apply schema_in|]| |unfold ref_fuel; lia].
  intros x ->%elem_of_singleton. done.
Qed.

Lemma U_in e : (e < length (schemas d))%nat → (U_or e < length (schemas d))%nat.
Proof. intros He. unfold U_or. destruct (is_ref (schema_at e)); [|done]. by destruct (oxe_ends e He) as [[-> _]|(t & -> & ?)]. Qed.

Lemma properties_in p k e : (k, e) ∈ properties_at p → (e < length (schemas d))%nat.
Proof.
  unfold properties_at. destruct (property_lists d !! p) as [l|] eqn:E; [|by intros ?%elem_of_nil]. by apply (proj2 Hd p l E k e).
Qed.
End total.
End document.
