(* ===== verification/SchemaValue.v ===== *)
(** * scalar.js: the value of a parameter from its schema

    [qRe] takes the value of a schema from its default, its values or its examples, and
    those of an object from its properties. Schemas refer to each other, in cycles too:
    an object inside itself has no value, and objects found to have none are
    remembered, with the objects they are inside of that were the reason. [gives] is the
    definition without that memory; [memory_does_not_matter] says the results are the
    same, and that they are found, whatever the cycles. *)
From S2P Require Import Prelude Parameters Objects Schemas.
#[local] Open Scope list_scope.

Section document.
Variable d : document.

#[local] Notation schema_at := (schema_at d).
#[local] Notation properties_at := (properties_at d).
#[local] Notation U_or := (U_or d).
#[local] Notation view := (view d).

(** ** qRe *)

(** The value a schema states itself *)
Definition stated (n : schema) : option jv :=
  match json_of "default" n with Some v => Some v | None =>
  match default [] (items_of "enum" n) with v :: _ => Some v | [] =>
  match default [] (items_of "examples" n) with v :: _ => Some v | [] => json_of "example" n end end end.

(** The address of the object of the properties *)
Definition properties (n : schema) : option nat := table "properties" n.

Record memory : Type := Memory {
  ancestors : gset nat;
  withoutValues : gmap nat (nat * gset nat);
  stops : gset nat }.

Definition fresh_memory : memory := Memory ∅ ∅ ∅.

(** The value of an object, from those of its properties *)
Definition object_value (o : list (string * jv)) : option jv := match o with [] => None | _ => Some (Obj (fromEntries o)) end.

(** The properties that have a value, one after the other *)
Section with_values.
Variable value : nat → memory → option (option jv * memory).

Fixpoint with_values (l : list (string * nat)) (t : memory) : option (list (string * jv) * memory) :=
  match l with
  | [] => Some ([], t)
  | (k, e) :: l' =>
      match value e t with
      | None => None
      | Some (r, t1) =>
          match with_values l' t1 with
          | None => None
          | Some (o, t2) => Some (match r with None => o | Some v => (k, v) :: o end, t2)
          end
      end
  end.
End with_values.

(** What is remembered of the object [r] with the properties [p]: the stops *)
Definition remembered (r p : nat) (t : memory) : option (gset nat) :=
  match withoutValues t !! r with
  | Some (p', s) => if bool_decide (p' = p) && bool_decide (s ⊆ ancestors t) then Some s else None
  | None => None
  end.

(** Behind the properties of the object [r]: [a] are the stops before them. *)
Definition leave (r p : nat) (a : gset nat) (o : list (string * jv)) (t : memory) : option jv * memory :=
  let anc := ancestors t ∖ {[r]} in
  let s := filter (λ x, x ∈ anc) (stops t) in
  (object_value o,
   Memory anc (match o with [] => <[r:=(p, s)]> (withoutValues t) | _ => withoutValues t end) (s ∪ a)).

(** [None]: out of fuel *)
Fixpoint qRe (fuel e : nat) (t : memory) : option (option jv * memory) :=
  match fuel with
  | O => None
  | S f =>
      let n := view e in
      match stated n, properties n with
      | Some v, _ => Some (Some v, t)
      | None, None => Some (None, t)
      | None, Some p =>
          let r := U_or e in
          if bool_decide (r ∈ ancestors t) then Some (None, Memory (ancestors t) (withoutValues t) ({[r]} ∪ stops t))
          else
            match remembered r p t with
            | Some s => Some (None, Memory (ancestors t) (withoutValues t) (s ∪ stops t))
            | None =>
                match with_values (qRe f) (properties_at p) (Memory ({[r]} ∪ ancestors t) (withoutValues t) ∅) with
                | None => None
                | Some (o, t') => Some (leave r p (stops t) o t')
                end
            end
      end
  end.

(** The value of a schema, of a parameter say *)
Definition schema_value (e : nat) : option jv :=
  match qRe (S (length (schemas d))) e fresh_memory with Some (v, _) => v | None => None end.

(** ** The definition without memory

    Inside the objects [A] the schema [e] has this value. *)
Inductive gives : gset nat → nat → option jv → Prop :=
| gives_stated A e v : stated (view e) = Some v → gives A e (Some v)
| gives_nothing A e : stated (view e) = None → properties (view e) = None → gives A e None
| gives_stop A e p : stated (view e) = None → properties (view e) = Some p → U_or e ∈ A → gives A e None
| gives_object A e p o : stated (view e) = None → properties (view e) = Some p → U_or e ∉ A →
    gives_entries ({[U_or e]} ∪ A) (properties_at p) o → gives A e (object_value o)
with gives_entries : gset nat → list (string * nat) → list (string * jv) → Prop :=
| gives_nil A : gives_entries A [] []
| gives_cons A k e l v o : gives A e v → gives_entries A l o →
    gives_entries A ((k, e) :: l) (match v with None => o | Some v => (k, v) :: o end).

Scheme gives_mut := Induction for gives Sort Prop with gives_entries_mut := Induction for gives_entries Sort Prop.
Combined Scheme gives_ind2 from gives_mut, gives_entries_mut.

(** It is a function. *)
Lemma gives_unique : (∀ A e v, gives A e v → ∀ w, gives A e w → v = w) ∧
  (∀ A l o, gives_entries A l o → ∀ o', gives_entries A l o' → o = o').
Proof.
  apply gives_ind2.
  - intros A e v Hv w Hw. inversion Hw; congruence.
  - intros A e H1 H2 w Hw. inversion Hw; congruence.
  - intros A e p H1 H2 H3 w Hw. inversion Hw; subst; congruence || done.
  - intros A e p o H1 H2 H3 _ IH w Hw. inversion Hw; subst; try congruence.
    simplify_eq. f_equal. by apply IH.
  - intros A o' Ho. by inversion Ho.
  - intros A k e l v o _ IH1 _ IH2 o' Ho. inversion Ho as [|? ? ? ? v' o2 Hv Ho2]; subst.
    by rewrite (IH1 _ Hv), (IH2 _ Ho2).
Qed.

(** ** What is remembered *)

(** What has no value inside [B] has none inside more objects. *)
Definition valueless (B : gset nat) (p : nat) : Prop := gives_entries B (properties_at p) [].

Definition memory_ok (M : gmap nat (nat * gset nat)) : Prop :=
  ∀ r p s, M !! r = Some (p, s) → ∀ B, s ⊆ B → r ∉ B → valueless ({[r]} ∪ B) p.

Lemma object_value_none o : object_value o = None → o = [].
Proof. by destruct o. Qed.

Lemma no_values A l : (∀ e, e ∈ l.*2 → gives A e None) → gives_entries A l [].
Proof.
  induction l as [|[k e] l IH]; intros H; [constructor|].
  apply (gives_cons A k e l None []); [apply H; left|apply IH; intros e' He; apply H; by right].
Qed.

(** What a run says: the objects it is inside of are as before, what is remembered holds, and
    when there is no value there is none inside all objects that hold the stops. *)
Definition run_ok (e : nat) (t : memory) (v : option jv) (t' : memory) : Prop :=
  ancestors t' = ancestors t ∧ memory_ok (withoutValues t') ∧ gives (ancestors t) e v ∧
  ∃ s, stops t' = s ∪ stops t ∧ s ⊆ ancestors t ∧ (v = None → ∀ B, s ⊆ B → gives B e None).

Definition runs_ok (l : list (string * nat)) (t : memory) (o : list (string * jv)) (t' : memory) : Prop :=
  ancestors t' = ancestors t ∧ memory_ok (withoutValues t') ∧ gives_entries (ancestors t) l o ∧
  ∃ s, stops t' = s ∪ stops t ∧ s ⊆ ancestors t ∧ (o = [] → ∀ B, s ⊆ B → gives_entries B l []).

Lemma with_values_ok value : (∀ e t v t', memory_ok (withoutValues t) → value e t = Some (v, t') → run_ok e t v t') →
  ∀ l t o t', memory_ok (withoutValues t) → with_values value l t = Some (o, t') → runs_ok l t o t'.
Proof.
  intros Hv. induction l as [|[k e] l IH]; intros t o t' Ht.
  - intros [= <- <-]. split_and!; [done|done|constructor|]. exists ∅. split_and!; [set_solver..|]. intros _ B _. constructor.
  - cbn [with_values]. destruct (value e t) as [[v t1]|] eqn:E1; [|done].
    destruct (Hv _ _ _ _ Ht E1) as (A1 & M1 & G1 & s1 & S1 & I1 & N1).
    destruct (with_values value l t1) as [[o2 t2]|] eqn:E2; [|done]. intros [= <- <-].
    destruct (IH _ _ _ M1 E2) as (A2 & M2 & G2 & s2 & S2 & I2 & N2). rewrite A1 in *.
    split_and!; [done|done|by constructor|]. exists (s2 ∪ s1). split_and!; [rewrite S2, S1; set_solver|set_solver|].
    intros Ho B HB. destruct v as [v|]; [done|]. apply (gives_cons B k e l None []); [apply N1|apply N2]; [done|set_solver|done|set_solver].
Qed.

Lemma stopped A e p : stated (view e) = None → properties (view e) = Some p → ∀ B,
  (U_or e ∉ B → valueless ({[U_or e]} ∪ B) p) → A ⊆ B → gives B e None.
Proof.
  intros H1 H2 B HB _. destruct (decide (U_or e ∈ B)) as [Hin|Hout]; [by eapply gives_stop|].
  by apply (gives_object B e p []); [..|apply HB].
Qed.

Lemma qRe_ok f : ∀ e t v t', memory_ok (withoutValues t) → qRe f e t = Some (v, t') → run_ok e t v t'.
Proof.
  induction f as [|f IH]; intros e t v t' Ht; [done|]. cbn [qRe].
  destruct (stated (view e)) as [w|] eqn:E1.
  { intros [= <- <-]. split_and!; [done|done|by constructor|]. exists ∅. by split_and!; [set_solver..|]. }
  destruct (properties (view e)) as [p|] eqn:E2.
  2: { intros [= <- <-]. split_and!; [done|done|by apply gives_nothing|]. exists ∅. split_and!; [set_solver..|]. intros _ B _. by apply gives_nothing. }
  case_bool_decide as Hr.
  { intros [= <- <-]. split_and!; [done|done|by eapply gives_stop|]. exists {[U_or e]}. split_and!; [done|set_solver|].
    intros _ B HB. eapply gives_stop; [done..|set_solver]. }
  destruct (remembered (U_or e) p t) as [s|] eqn:Em.
  { intros [= <- <-]. unfold remembered in Em. destruct (withoutValues t !! U_or e) as [[p' s']|] eqn:El; [|done].
    case_bool_decide as Hp; [subst p'|done]. case_bool_decide as Hs; [|done]. injection Em as ->.
    assert (∀ B, s ⊆ B → gives B e None) as Hn.
    { intros B HB. apply (stopped s e p E1 E2); [|done]. intros HrB. by apply (Ht _ _ _ El). }
    split_and!; [done|done|by apply Hn|]. exists s. by split_and!. }
  destruct (with_values (qRe f) (properties_at p) _) as [[o t1]|] eqn:Ew; [|done].
  pose proof (with_values_ok (qRe f) IH _ _ _ _ (Ht : memory_ok (withoutValues (Memory _ _ _))) Ew) as (A1 & M1 & G1 & s1 & S1 & I1 & N1).
  cbn [ancestors withoutValues stops] in *. intros H. injection H as <- <-. unfold leave. cbn [fst snd].
  assert (ancestors t1 ∖ {[U_or e]} = ancestors t) as HA by (rewrite A1; set_solver). rewrite HA.
  set (s := filter (λ x, x ∈ ancestors t) (stops t1)).
  assert (o = [] → ∀ B, s ⊆ B → U_or e ∉ B → valueless ({[U_or e]} ∪ B) p) as Hn.
  { intros Ho B HB Hout. apply N1; [done|]. intros x Hx. pose proof (I1 x Hx) as Hx'. apply elem_of_union in Hx' as [?|Hx']; [set_solver|].
    apply elem_of_union. right. apply HB. subst s. apply elem_of_filter. split; [done|]. rewrite S1. set_solver. }
  split_and!; cbn [ancestors withoutValues stops].
  - done.
  - destruct o as [|x o]; [|done]. intros r q s' Hl B HB Hout. apply lookup_insert_Some in Hl as [[<- Hl]|[_ Hl]]; [|by apply (M1 _ _ _ Hl)].
    injection Hl as <- <-. by apply Hn.
  - by eapply gives_object.
  - exists s. split_and!; [done|subst s; intros x; rewrite elem_of_filter; tauto|]. intros Ho%object_value_none B HB.
    apply (stopped s e p E1 E2); [|done]. by apply Hn.
Qed.

(** ** Cycles come to an end *)

Section total.
Hypothesis Hd : well_formed d.

Lemma with_values_total value (P : memory → Prop) :
  ∀ l t, P t → (∀ k e t, (k, e) ∈ l → P t → ∃ v t', value e t = Some (v, t') ∧ P t') →
  ∃ o t', with_values value l t = Some (o, t') ∧ P t'.
Proof.
  induction l as [|[k e] l IH]; intros t Ht Hv; [by exists [], t|]. cbn [with_values].
  destruct (Hv k e t) as (v & t1 & -> & H1); [left|done|]. destruct (IH t1 H1) as (o & t2 & -> & H2); [|by eexists _, _].
  intros k' e' t' Hin. apply (Hv k'). by right.
Qed.

Lemma qRe_total f : ∀ e t, (e < length (schemas d))%nat → addresses d (ancestors t) → memory_ok (withoutValues t) →
  (length (schemas d) < f + size (ancestors t))%nat → ∃ v t', qRe f e t = Some (v, t').
Proof.
  induction f as [|f IH]; intros e t He Ha Hm Hf.
  { pose proof (addresses_size d _ Ha). lia. }
  cbn [qRe]. destruct (stated (view e)); [by eexists _, _|]. destruct (properties (view e)) as [p|]; [|by eexists _, _].
  case_bool_decide as Hr; [by eexists _, _|]. destruct (remembered _ _ _); [by eexists _, _|].
  destruct (room_shrinks d _ _ f Ha (U_in d Hd e He) Hr Hf) as (Ha' & Hf' & _).
  set (A := {[U_or e]} ∪ ancestors t) in *.
  destruct (with_values_total (qRe f) (λ t, ancestors t = A ∧ memory_ok (withoutValues t)) (properties_at p)
    (Memory A (withoutValues t) ∅)) as (o & t' & -> & _); [done| |by destruct (leave _ _ _ _ _); eexists _, _].
  intros k e' t1 Hin [HA1 HM1]. destruct (IH e' t1) as (v & t2 & E); [by eapply (properties_in d Hd)|by rewrite HA1|done|by rewrite HA1|].
  exists v, t2. split; [done|]. destruct (qRe_ok f _ _ _ _ HM1 E) as (A2 & M2 & _). by rewrite A2.
Qed.

(** C16. The memory does not matter: in every document, whatever cycles its references make, the
    value of a schema is found, and is the one of the definition without memory: what is
    remembered of an object inside some objects, that it has no value, is used only inside
    all objects that were the reason. *)
Theorem memory_does_not_matter e : (e < length (schemas d))%nat →
  ∃ v t, qRe (S (length (schemas d))) e fresh_memory = Some (v, t) ∧ ∀ w, gives ∅ e w ↔ schema_value e = w.
Proof.
  intros He. assert (memory_ok (withoutValues fresh_memory)) as Hm by (intros r p s; cbn; by rewrite lookup_empty).
  destruct (qRe_total (S (length (schemas d))) e fresh_memory) as (v & t & E); [done|by intros x ?%elem_of_empty|done|lia|].
  exists v, t. split; [done|]. unfold schema_value. rewrite E. destruct (qRe_ok _ _ _ _ _ Hm E) as (_ & _ & G & _).
  cbn [ancestors fresh_memory] in G. intros w. split; [intros Hw; by apply (proj1 gives_unique _ _ _ G)|by intros <-].
Qed.
End total.
End document.

(** ** The value of a parameter *)

(** An example of a parameter; only its value is looked at here. *)
Record example : Type := Example { ex_value : option jv }.

(** The entry [k] of an object *)
Definition entry {A} (k : string) (l : list (string * A)) : option A := snd <$> List.find (λ x, String.eqb x.1 k) l.

(** KRe: the example [n] of the examples [e], the example [t] *)
Definition KRe (e : option (list (string * example))) (t : option jv) (n : option string) : option example :=
  let l := default [] e in
  let named := match n with None | Some "" => false | _ => true end in
  let i := match n with None | Some "" => default "" (head l.*1) | Some k => k end in
  match entry i l with
  | Some a => Some a
  | None => match t with Some v => if bool_decide (l = []) || negb named then Some (Example (Some v)) else None | None => None end
  end.

Record media : Type := MediaObject { me_examples : option (list (string * example)); me_example : option jv }.

Record parameter_object : Type := ParameterObject {
  po_examples : option (list (string * example)); po_example : option jv;
  po_content : option (list (string * media));
  po_schema : option nat }.

(** ov: of the example [t] and the media type [n] *)
Definition ov (d : document) (e : parameter_object) (t n : option string) : option example :=
  match KRe (po_examples e) (po_example e) t with
  | Some a => Some a
  | None =>
      let c := default [] (po_content e) in
      let r := entry (default (default "" (head c.*1)) n) c in
      match KRe (mbind me_examples r) (mbind me_example r) t with
      | Some a => Some a
      | None => match po_schema e with Some s => (λ v, Example (Some v)) <$> schema_value d s | None => None end
      end
  end.

(** ** A document *)

(** A user has a team, a team its lead, who is the user, and a list of members without a
    value; the user also has a role, which has the team again. *)
Definition sample_document : document :=
  let object p := [("properties", Table p)] in
  let ref t := [("$ref", Json (Str "#/components/schemas/" )); ("$ref-value", Node t)] in
  Document
    ([object 0; ref 2; object 1; ref 0; [("type", Json (Str "array"))]; object 2;
      [("type", Json (Str "string")); ("examples", Json (Arr [Str "admin"]))]])%nat
    ([[("team", 1); ("role", 5)]; [("lead", 3); ("members", 4)]; [("team", 1); ("name", 6)]])%nat.

Lemma memory_does_not_matter_witness :
  (0 < length (schemas sample_document))%nat ∧
  (∃ v t, qRe sample_document (S (length (schemas sample_document))) 0 fresh_memory = Some (v, t) ∧
    ∀ w, gives sample_document ∅ 0 w ↔ schema_value sample_document 0 = w) ∧
  schema_value sample_document 0 = Some (Obj [("role", Obj [("name", Str "admin")])]).
Proof.
  assert (0 < length (schemas sample_document))%nat as H by (cbn; lia).
  split; [exact H|]. split; [|vm_compute; reflexivity]. apply (memory_does_not_matter sample_document); [|exact H]. split.
  - intros e n He t Ht. do 7 (destruct e as [|e]; [injection He as <-; cbn in Ht; simplify_eq; cbn; lia|]). discriminate He.
  - intros p l Hp k e Hin. do 3 (destruct p as [|p]; [injection Hp as <-; repeat (apply elem_of_cons in Hin as [[= -> ->]|Hin]; [cbn; lia|]); by apply elem_of_nil in Hin|]). discriminate Hp.
Defined.

(** The team is remembered: the role of the user is not searched through the team again. *)
Example team_is_remembered :
  match qRe sample_document 8 0 fresh_memory with Some (_, t) => withoutValues t !! 2%nat | None => None end = Some (1%nat, {[0%nat]}).
Proof. vm_compute. reflexivity. Qed.
