(* ===== verification/Generator.v ===== *)
(** * scalar.js: the examples generated from schemas

    [Kv] makes a value for a schema: what the schema states, or a value of its type, of its
    properties and items, of the alternatives and parts it is composed of. Schemas may
    refer to themselves: a schema inside itself has no value, and below the level [hv] only a
    short value is made ([Uv]). Objects and arrays found are remembered by the identity of their
    schema, unless something was cut.

    An object has an address when it is one of the document; one made on the way (a reference
    merged with its target, a composition) has none: it is equal to no other. Files, the
    trace of an evaluation and keys that are not own keys of the tables are not modelled. *)
From Stdlib Require Import QArith.
From S2P Require Import Prelude Snippets Literals Parameters Objects Schemas.
#[local] Open Scope list_scope.
#[local] Open Scope Z_scope.

(** ** Options *)

Record options : Type := Options {
  emptyString : option string;
  xml : bool;
  mode : option string;
  variables : list (string * string);
  omitEmptyAndOptionalProperties : bool;
  includeDeprecated : bool;
  compositionSelection : gmap string Z }.

#[export] Instance options_eq_dec : EqDecision options.
Proof. solve_decision. Defined.

Definition no_options : options := Options None false None [] false false ∅.

(** The value of a variable *)
Definition variable (k : string) (t : options) : option string := snd <$> List.find (λ x, String.eqb x.1 k) (variables t).

Definition non_empty (s : option string) : bool := match s with None | Some "" => false | _ => true end.

(** kv *)
Definition kv (e : list string) (t : string) : string := String.concat "." (e ++ [t]).

(** Av: the alternative selected at a path *)
Definition Av (e : list string) (t : string) (n : options) (r : nat) : option nat :=
  (λ i, Z.to_nat (Z.max 0 (Z.min i (Z.of_nat r - 1)))) <$> compositionSelection n !! kv e t.

(** jv of the source: the options without the selection at a path *)
Definition deselect (e : options) (t : list string) (n : string) : options :=
  Options (emptyString e) (xml e) (mode e) (variables e) (omitEmptyAndOptionalProperties e) (includeDeprecated e)
    (delete (kv t n) (compositionSelection e)).

(** cv *)
Definition cv (e : string) : string := replace_char "/" "~1" (replace_char "~" "~0" e).

(** ** Values *)

(** The entries an object, an array or a string is spread into *)
Definition own_entries (v : jv) : entries :=
  match v with
  | Obj l => l
  | Arr l => imap (λ i w, (format_int (Z.of_nat i), w)) l
  | Str s => imap (λ i c, (format_int (Z.of_nat i), Str (String c ""))) (list_ascii_of_string s)
  | _ => []
  end.

(** [Object.assign(s, v)] *)
Definition assign (s : entries) (v : jv) : entries := foldl (λ e x, object_set x.1 x.2 e) s (own_entries v).

Definition is_object (v : jv) : bool := match v with Arr _ | Obj _ => true | _ => false end.

Definition nullish (v : jv) : bool := match v with Undefined | Null => true | _ => false end.

(** Sv *)
Definition Sv (e t : jv) : jv :=
  if nullish t then e else if nullish e then t else
  match e, t with
  | Arr a, Arr b => Arr (a ++ b)
  | _, _ => if is_object e && is_object t then Obj (assign (assign [] e) t) else t
  end.

(** [Number.isInteger], of the text a number is printed as *)
Definition isInteger (n : string) : bool :=
  negb (existsb (String.eqb n) ["NaN"; "Infinity"; "-Infinity"]) &&
  (includes "e+" n || negb (includes "." n || includes "e-" n)).

(** wv *)
Definition wv (e : jv) (t : string) : bool :=
  if String.eqb t "string" then match e with Str _ => true | _ => false end
  else if String.eqb t "number" then match e with Num n => negb (String.eqb n "NaN") | _ => false end
  else if String.eqb t "integer" then match e with Num n => isInteger n | _ => false end
  else if String.eqb t "boolean" then match e with Bool _ => true | _ => false end
  else if String.eqb t "object" then match e with Obj _ => true | _ => false end
  else if String.eqb t "array" then match e with Arr _ => true | _ => false end
  else if String.eqb t "null" then match e with Null => true | _ => false end
  else false.

(** [Number(v)] of a decimal, for the order of keys: [None] for what is no number *)
Fixpoint digits (s : string) (n : Z) (k : nat) : option (Z * nat * string) :=
  match s with
  | String c s' => if byte_in 48 57 c then digits s' (n * 10 + (Z.of_nat (nat_of_ascii c) - 48)) (S k) else Some (n, k, s)
  | "" => Some (n, k, "")
  end.

Definition unsigned (s : string) : option Q :=
  match digits s 0 0 with
  | Some (n, S _, "") => Some (inject_Z n)
  | Some (n, i, String "." r) =>
      match digits r n 0 with
      | Some (m, k, "") => if Nat.eqb (i + k) 0 then None else Some (m # Z.to_pos (10 ^ Z.of_nat k))
      | _ => None
      end
  | _ => None
  end.

Definition decimal (s : string) : option Q :=
  match trim_space s with
  | "" => Some 0%Q
  | String "-" r => Qopp <$> unsigned r
  | String "+" r => unsigned r
  | r => unsigned r
  end.

Definition number_value (v : jv) : option Q :=
  match v with
  | Null => Some 0%Q
  | Bool b => Some (if b then 1%Q else 0%Q)
  | Num s | Str s => decimal s
  | _ => None
  end.

(** Pv *)
Definition Pv (e : schema) : option Q := mbind number_value (json_of "x-order" e).

(** ** What a schema states *)

(** The truthy type of a schema *)
Definition type_of (e : schema) : option jv := match json_of "type" e with Some v => if is_true v then Some v else None | None => None end.

(** Bv: its types *)
Definition Bv (e : schema) : list jv := match type_of e with Some (Arr l) => l | Some v => [v] | None => [] end.

Definition among (s : string) (l : list jv) : bool := existsb (is_text s) l.

(** xv *)
Definition composed (k : string) (e : schema) : bool := match get k e with Some (Json v) => is_true v | Some _ => true | None => false end.
Definition xv (e : schema) : bool := composed "allOf" e || composed "oneOf" e || composed "anyOf" e.

(** [e.oneOf ? "oneOf" : e.anyOf ? "anyOf" : undefined], and its alternatives when there are any *)
Definition alternatives (e : schema) : option (string * list nat) :=
  let k := if composed "oneOf" e then Some "oneOf" else if composed "anyOf" e then Some "anyOf" else None in
  match k with
  | Some k => match nodes k e with Some (a :: l) => Some (k, a :: l) | _ => None end
  | None => None
  end.

(** The key [k] is an array of schemas, and not an empty one *)
Definition parts (k : string) (e : schema) : list nat := default [] (nodes k e).

(** Some alternatives are given, for the path of a part of an allOf *)
Definition has_alternatives (e : schema) : bool :=
  match nodes "oneOf" e, nodes "anyOf" e with None, None => false | _, _ => true end.

(** rze: the keys an object requires *)
Definition rze (e : option schema) : option (list string) :=
  match mbind (items_of "required") e with
  | Some (v :: l) => Some (omap (λ v, match v with Str s => Some s | _ => None end) (v :: l))
  | _ => None
  end.

(** ize: it is left out *)
Definition ize (e : schema) (t : option schema) (n : option string) (r : options) : bool :=
  if flag "deprecated" e && negb (includeDeprecated r) ||
     bool_decide (mode r = Some "write") && flag "readOnly" e || bool_decide (mode r = Some "read") && flag "writeOnly" e
  then true
  else if negb (omitEmptyAndOptionalProperties r) || key_says "type" "object" e || key_says "type" "array" e || xv e ||
     negb (bool_decide (default [] (items_of "examples" e) = [])) || bool_decide (is_Some (json_of "example" e)) ||
     bool_decide (is_Some (json_of "default" e)) || bool_decide (is_Some (json_of "const" e)) ||
     negb (bool_decide (default [] (items_of "enum" e) = []))
  then false
  else
    let i := match n with Some k => k | None => match json_of "title" e with Some v => js_string v | None => "" end end in
    match rze t with Some a => negb (existsb (String.eqb i) a) | None => true end.

(** ** Values of the simple types *)

Section generator.
(** The time the bundle was loaded, as toISOString writes it; what the engine prints of a number
    read from a text; and the document *)
Variable gv : string.
Variable Number : string → string.
Variable d : document.

(** $Re *)
Definition dollar_Re : list (string * string) := [
  ("date-time", gv); ("date", match cut "T" gv with Some (a, _) => a | None => gv end);
  ("email", "hello@example.com"); ("hostname", "example.com"); ("idn-email", "jane.doe@example.com");
  ("idn-hostname", "example.com"); ("ipv4", "127.0.0.1"); ("ipv6", "51d4:7fab:bfbf:b7d7:b2cb:d4b4:3dad:d998");
  ("iri-reference", "/entitiy/1"); ("iri", "https://example.com/entity/123"); ("json-pointer", "/nested/objects");
  ("password", "super-secret"); ("regex", "/[a-z]/"); ("relative-json-pointer", "1/nested/objects");
  ("time", match cut "T" gv with Some (_, b) => match cut "." b with Some (c, _) => c | None => b end | None => "" end);
  ("uri-reference", "../folder"); ("uri-template", "https://example.com/{id}"); ("uri", "https://example.com");
  ("uuid", "123e4567-e89b-12d3-a456-426614174000"); ("object-id", "6592008029c8c3e4dc76256c")].

(** [/^uuid[1-8]$/] *)
Definition uuid_version (f : string) : bool :=
  match strip_prefix "uuid" f with Some (String c "") => byte_in 49 56 c | _ => false end.

(** tze *)
Definition tze (e : schema) (t : bool) (n : string) : string :=
  if key_says "type" "string" e && key_says "format" "binary" e then "@filename"
  else if t && flag "format" e then
    match json_of "format" e with
    | Some (Str f) => default n (snd <$> List.find (λ x, String.eqb x.1 (if uuid_version f then "uuid" else f)) dollar_Re)
    | _ => n
    end
  else n.

(** The minimum, or one *)
Definition least (e : schema) : jv := match json_of "minimum" e with Some (Num n) => Num n | _ => Num "1" end.

(** Fv: of a type *)
Definition Fv (e : schema) (t : bool) (n : option string) : option jv :=
  match type_of e with
  | Some (Str ty) =>
      if String.eqb ty "string" then Some (Str (tze e t (default "" n)))
      else if String.eqb ty "boolean" then Some (Bool true)
      else if String.eqb ty "integer" || String.eqb ty "number" then Some (least e)
      else if String.eqb ty "array" then Some (Arr [])
      else None
  | _ => None
  end.

(** Iv: of the first of several types *)
Definition Iv (e : schema) (t : bool) (n : option string) : option jv :=
  match type_of e with
  | Some (Arr l) =>
      if among "null" l then Some Null
      else match l with
      | Str ty :: _ =>
          if String.eqb ty "string" then Some (Str (tze e t (default "" n)))
          else if String.eqb ty "boolean" then Some (Bool true)
          else if String.eqb ty "integer" || String.eqb ty "number" then Some (least e)
          else None
      | _ => None
      end
  | _ => None
  end.

(** ** Objects and their identity *)

Definition object : Type := option nat * schema.

Definition at_address (a : nat) : object := (Some a, schema_at d a).
Definition made (s : schema) : object := (None, s).

(** iv.schema *)
Definition iv (e : object) : object := if is_ref e.2 then made (yu d e.1 e.2) else e.

(** [U(e)] *)
Definition U (e : object) : option object :=
  if is_ref e.2 then
    match mbind (λ t, vu d (ref_fuel d) t (match e.1 with Some a => {[a]} | None => ∅ end)) (ref_value e.2) with
    | Some t => Some (at_address t)
    | None => None
    end
  else Some e.

(** ** Dynamic references *)

(** uv: its text *)
Definition uv (e : schema) : option string := match json_of "$dynamicRef" e with Some (Str s) => Some s | _ => None end.

(** JRe: a resource of its own *)
Definition JRe (e : schema) : bool := key_in "$dynamicAnchor" e || key_in "$id" e || key_in "$defs" e.

Definition anchor_of (e : object) : list (string * object) :=
  match json_of "$dynamicAnchor" e.2 with Some (Str s) => [(s, iv e)] | _ => [] end.

(** XRe: the anchors of a resource, the first of a name counts *)
Definition XRe (e : object) : list (string * object) :=
  anchor_of e ++ mjoin ((λ x, anchor_of (at_address x.2)) <$> match table "$defs" e.2 with Some p => properties_at d p | None => [] end).

(** dv: the resources around *)
Definition dv (e : list object) (t : object) : list object :=
  match (if JRe t.2 then Some t else U t) with Some n => if JRe n.2 then e ++ [n] else e | None => e end.

(** fv: the outermost resource with the anchor *)
Definition fv (e : string) (t : list object) : option object :=
  match e with
  | String "#" "" | String "#" (String "/" _) => None
  | String "#" n => head (omap (λ r, snd <$> List.find (λ x, String.eqb x.1 n) (XRe r)) t)
  | _ => None
  end.

(** ** Defaults that fit their schema *)

(** aze *)
Definition hv : nat := 10.
Definition aze : nat := hv * 5.

(** Tv: the schema of an address, one object for each *)
Definition Tv (a : nat) : object := (Some a, (iv (at_address a)).2).

Definition mark (e : object) (n : gset nat) : gset nat := match e.1 with Some a => {[a]} ∪ n | None => n end.
Definition marked (e : object) (n : gset nat) : bool := match e.1 with Some a => bool_decide (a ∈ n) | None => false end.

(** One of the types fits. *)
Definition type_fits (e : schema) (t : jv) : bool :=
  match type_of e with
  | None => true
  | Some _ => existsb (λ ty, match ty with
      | Str k => if String.eqb k "number" && wv t "integer" then true else wv t k
      | _ => false end) (Bv e)
  end.

(** Ev: the value fits the schema, as far as it is looked at. [r]: what is left to the limit of the depth. *)
Fixpoint Ev (r : nat) (e : object) (t : jv) (n : gset nat) : bool :=
  match r with
  | O => true
  | S r =>
      if marked e n then true
      else
        let n := mark e n in
        let fits a := Ev r (Tv a) t n in
        type_fits e.2 t &&
        match parts "anyOf" e.2 with [] => true | l => existsb fits l end &&
        match parts "oneOf" e.2 with [] => true | l => existsb fits l end &&
        match parts "allOf" e.2 with [] => true | l => forallb fits l end
  end.

(** Ov *)
Definition Ov (e : object) : option jv :=
  match json_of "default" e.2 with Some t => if Ev (S aze) e t ∅ then Some t else None | None => None end.

(** Hv: what the schema states *)
Definition Hv (e : object) : option jv :=
  match default [] (items_of "examples" e.2) with v :: _ => Some v | [] =>
  match json_of "example" e.2 with Some v => Some v | None =>
  match Ov e with Some v => Some v | None =>
  match json_of "const" e.2 with Some v => Some v | None =>
  match default [] (items_of "enum" e.2) with v :: _ => Some v | [] => None end end end end end.

(** ** Alternatives *)

(** The position of the reference with a text *)
Definition ref_index (t : list nat) (e : string) : option nat :=
  fst <$> list_find (λ a, key_says "$ref" e (schema_at d a) = true) t.

(** [p]: by the name of a component, or by the whole reference *)
Definition mapped_index (t : list nat) (e : string) : option nat :=
  match ref_index t ("#/components/schemas/" +:+ cv e) with Some i => Some i | None => ref_index t e end.

Definition named_xml (k : string) (e : schema) : option jv := match json_of "xml" e with Some (Obj l) => object_get k l | _ => None end.

(** The name for XML, if the option is set *)
Definition xml_name (n : options) (e : schema) : option string :=
  if xml n then match named_xml "name" e with Some (Str s) => Some s | _ => None end else None.

(** Nv: the alternative a discriminator points at; [r]: the entries so far *)
Definition Nv (e : schema) (t : list nat) (n : options) (r : option entries) : option nat :=
  match json_of "discriminator" e with
  | Some (Obj i) =>
      match object_get "defaultMapping" i with
      | None | Some Undefined => None
      | Some m =>
          let key := js_string (default Undefined (object_get "propertyName" i)) in
          let a := match table "properties" e with Some p => snd <$> List.find (λ x, String.eqb x.1 key) (properties_at d p) | None => None end in
          let o := (λ a, iv (at_address a)) <$> a in
          let s := default key (mbind (λ o, xml_name n o.2) o) in
          let c := mbind (λ o, match json_of "x-variable" o.2 with Some (Str k) => if non_empty (Some k) then variable k n else None | _ => None end) o in
          let l := mbind Hv o in
          let u := match r with Some r => object_get s r | None => match c with Some v => Some (Str v) | None => l end end in
          let fallback := mapped_index t (js_string m) in
          match u with
          | Some (Str u) =>
              let e := match object_get "mapping" i with Some (Obj mp) => js_string <$> object_get u mp | _ => None end in
              match e with
              | Some e => mapped_index t e
              | None => match ref_index t ("#/components/schemas/" +:+ cv u) with Some j => Some j | None => fallback end
              end
          | _ => fallback
          end
      end
  | _ => None
  end.

(** The first alternative that is not null alone *)
Definition not_null (o : list nat) : option nat := List.find (λ a, negb (key_says "type" "null" (iv (at_address a)).2)) o.

Definition chosen (s : option nat) (o : list nat) : option nat := mbind (λ s, o !! s) s.

Definition selected (e : schema) (o : list nat) (t : list string) (a : string) (n : options) (i : option entries) : option nat :=
  match Av t a n (length o) with Some s => Some s | None => Nv e o n i end.

(** Mv *)
Definition Mv (e : schema) (t : list string) (n : options) (i : option entries) : option nat :=
  match alternatives e with
  | None => None
  | Some (a, o) =>
      let s := selected e o t a n i in
      let c := key_in "properties" e || key_says "type" "object" e in
      if bool_decide (is_Some s) || c then chosen (Some (default O s)) o else not_null o
  end.

(** Vv *)
Definition Vv (e : schema) (t : options) (n : list string) : option object :=
  match alternatives e with
  | None => None
  | Some (r, i) =>
      (λ a, iv (at_address a)) <$> match selected e i n r t None with None => not_null i | Some a => chosen (Some a) i end
  end.

(** The paths of the parts of an allOf: the ones with alternatives are numbered. *)
Fixpoint part_paths (a : list string) (o : nat) (l : list nat) : list (nat * list string) :=
  match l with
  | [] => []
  | s :: l' =>
      if has_alternatives (iv (at_address s)).2 then (s, a ++ [format_int (Z.of_nat o)]) :: part_paths a (S o) l'
      else (s, a) :: part_paths a o l'
  end.

(** ** Below the last level

    [zv], [fze], [pze], [Uv]. [vv]: something was cut, nothing is remembered. *)

Definition zv : string := "[Max Depth Exceeded]".

(** fze: no properties, no items *)
Definition fze (e : schema) : option jv :=
  if key_in "properties" e || among "object" (Bv e) then Some (Obj [])
  else if key_in "items" e || among "array" (Bv e) then Some (Arr [])
  else None.

Section pze.
Variable Uv : object → list string → bool → jv * bool.

Fixpoint joined (a : jv) (l : list (nat * list string)) (vv : bool) : jv * bool :=
  match l with
  | [] => (a, vv)
  | (i, s) :: l' =>
      let '(c, vv) := Uv (iv (at_address i)) s vv in
      joined (match c with Str t => if String.eqb t zv then a else Sv a c | _ => Sv a c end) l' vv
  end.

(** pze: Undefined for nothing *)
Definition pze (e : schema) (t : options) (n : list string) (vv : bool) : jv * bool :=
  match Vv e t n with
  | Some i => Uv i n vv
  | None => joined Undefined (part_paths n O (parts "allOf" e)) vv
  end.
End pze.

(** Uv; [room]: how many objects more the set may hold, of [dze] *)
Fixpoint Uv (room : nat) (r : gset nat) (t : options) (e : object) (n : list string) (vv : bool) : jv * bool :=
  match Hv e with
  | Some i => (i, vv)
  | None =>
      match fze e.2 with
      | Some a => (a, true)
      | None =>
          let o := non_empty (emptyString t) in
          match Fv e.2 o (emptyString t) with
          | Some s => (s, vv)
          | None =>
              let '(i, vv) :=
                match room with
                | S room => if marked e r then (Undefined, true) else pze (Uv room (mark e r) t) e.2 t n vv
                | O => (Undefined, true)
                end in
              match i with
              | Undefined =>
                  match Iv e.2 o (emptyString t) with
                  | Some l => (l, vv)
                  | None =>
                      if among "null" (Bv e.2) || xv e.2 || key_in "not" e.2 then (Null, vv) else (Str zv, true)
                  end
              | i => (i, vv)
              end
          end
      end
  end.

Definition dze : nat := hv * 5.

(** ** What is remembered *)

(** lze: the options and the path an object was found at *)
Definition place : Type := options * option string.

Record state : Type := State { memo : list ((nat * place) * jv); vv : bool }.

Definition M (A : Type) : Type := state → option (A * state).
Definition mret {A} (x : A) : M A := λ st, Some (x, st).
Definition mbnd {A B} (m : M A) (k : A → M B) : M B := λ st, match m st with Some (x, st') => k x st' | None => None end.

#[local] Notation "x <- m ; k" := (mbnd m (λ x, k)) (at level 100, m at next level, right associativity).

Definition place_of (t : options) (o : list string) : place := (t, match o with [] => None | _ => Some (String.concat "." o) end).

Definition recall (e : object) (f : place) (l : list ((nat * place) * jv)) : option jv :=
  match e.1 with Some a => snd <$> List.find (λ x, bool_decide (x.1 = (a, f))) l | None => None end.

(** bv: remembered, unless [r] or something was cut *)
Definition bv (e : object) (t : jv) (n : place) (r : bool) : M jv := λ st,
  Some (t, match e.1 with
    | Some a => if r || vv st || negb (is_object t) then st else State (((a, n), t) :: memo st) (vv st)
    | None => st
    end).

(** ** The order of the properties *)

Definition x_order (a : nat) : option Q := Pv (schema_at d a).

(** The first comes behind the other: a stable sort inserts before what comes behind. *)
Definition behind (t n : string * nat) : bool :=
  match x_order t.2, x_order n.2 with
  | Some r, Some i => match Qcompare r i with Gt => true | _ => false end
  | None, Some _ => true
  | _, None => false
  end.

Fixpoint place_key (x : string * nat) (l : list (string * nat)) : list (string * nat) :=
  match l with
  | [] => [x]
  | y :: l' => if behind x y then y :: place_key x l' else x :: l
  end.

(** oze *)
Definition oze (l : list (string * nat)) : list (string * nat) := foldr place_key [] l.

(** eze: the names keys must have *)
Definition eze (e : schema) : list jv :=
  match node_at "propertyNames" e with Some a => default [] (items_of "enum" (iv (at_address a)).2) | None => [] end.

(** ** The generator *)

(** What a call is given besides the schema and the options *)
Record call : Type := Call {
  level : nat;
  parentSchema : option schema;
  name : option string;
  seen : gset nat;
  schemaPath : list string;
  dynamicScope : list object }.

Section Wv.
Variable Kv : object → options → call → M jv.

(** The entries of the properties *)
Fixpoint put_properties (l : list (string * nat)) (e : schema) (t : options) (n : nat) (r : gset nat) (a : list string)
    (c : list object) (s : entries) : M entries :=
  match l with
  | [] => mret s
  | (k, i) :: l' =>
      let d := iv (at_address i) in
      p <- Kv d t (Call (S n) (Some e) (Some k) r (a ++ [k]) c);
      put_properties l' e t n r a c
        (match p with Undefined => s | _ => object_set (default k (xml_name t d.2)) p s end)
  end.

Fixpoint put_patterns (l : list (string * nat)) (e : schema) (t : options) (n : nat) (r : gset nat) (a : list string)
    (c : list object) (s : entries) : M entries :=
  match l with
  | [] => mret s
  | (k, i) :: l' =>
      p <- Kv (iv (at_address i)) t (Call (S n) (Some e) (Some k) r (a ++ [k]) c);
      put_patterns l' e t n r a c (object_set k p s)
  end.

Definition put_additional (e : schema) (t : options) (n : nat) (r : gset nat) (a : list string) (c : list object) (s : entries) : M entries :=
  let key (i : schema) : string :=
    match json_of "x-additionalPropertiesName" i with Some (Str l) => trim_space l | _ => "" end in
  let put (f : string) (p : jv) :=
    object_set (match (if non_empty (Some f) then [] else eze e) with v :: _ => js_string v | [] => if non_empty (Some f) then f else "additionalProperty" end) p s in
  match get "additionalProperties" e with
  | Some (Json v) => mret (if is_true v then put "" (Str "anything") else s)
  | Some (Node i) =>
      let x := iv (at_address i) in
      let l := key x.2 in
      let f := if non_empty (Some l) then l else "additionalProperty" in
      p <- (match schema_at d i with [] => mret (Str "anything") | _ => Kv x t (Call (S n) None None r (a ++ [f]) c) end);
      mret (put l p)
  | _ => mret s
  end.

(** The parts of an allOf; [join] puts a value to the ones before. *)
Fixpoint all_parts (join : jv → jv → jv) (l : list (nat * list string)) (view : bool) (e : schema) (t : options) (n : nat) (r : gset nat)
    (c : list object) (i : jv) : M jv :=
  match l with
  | [] => mret i
  | (s, u) :: l' =>
      p <- Kv (if view then iv (at_address s) else at_address s) t (Call (S n) (Some e) None r u c);
      all_parts join l' view e t n r c (join i p)
  end.

Definition put_composition (e : schema) (t : options) (n : nat) (r : gset nat) (a : list string) (c : list object) (s : entries) : M entries :=
  match alternatives e with
  | Some (u, _) =>
      match Mv e a t (Some s) with
      | Some i => v <- Kv (at_address i) (deselect t a u) (Call (S n) None None r a c); mret (assign s v)
      | None => mret s
      end
  | None =>
      match parts "allOf" e with
      | [] => mret s
      | l =>
          i <- all_parts Sv (part_paths a O l) true e t n r c (Obj s);
          mret (if is_object i then assign s i else s)
      end
  end.

(** sze: an object *)
Definition sze (e : object) (t : options) (n : nat) (r : gset nat) (i : place) (a : list string) (o : list object) : M jv :=
  let c := dv o e in
  let l := negb (bool_decide (length o = O)) in
  s <- match table "properties" e.2 with Some p => put_properties (oze (properties_at d p)) e.2 t n r a c [] | None => mret [] end;
  s <- match table "patternProperties" e.2 with Some p => put_patterns (properties_at d p) e.2 t n r a c s | None => mret s end;
  s <- put_additional e.2 t n r a c s;
  s <- put_composition e.2 t n r a c s;
  match (if Nat.eqb n 0 then xml_name t e.2 else None) with
  | Some (String _ _ as k) => bv e (Obj [(k, Obj s)]) i l
  | _ => bv e (Obj s) i l
  end.

(** The values of several schemas, one after the other *)
Fixpoint each (l : list (object * list string)) (t : options) (k : list string → call) : M (list jv) :=
  match l with
  | [] => mret []
  | (s, u) :: l' => v <- Kv s t (k u); vs <- each l' t k; mret (v :: vs)
  end.

(** The schema of the items, through a dynamic reference, and the schemas seen there *)
Definition item_schema (e : schema) (r : gset nat) (s : list object) : option object * gset nat :=
  match (λ a, iv (at_address a)) <$> node_at "items" e with
  | None => (None, r)
  | Some l =>
      match mbind (λ x, fv x s) (uv l.2) with Some l' => (Some l', ∅) | None => (Some l, r) end
  end.

(** The name items are wrapped in for XML *)
Definition wrapper (t : options) (e : schema) (l : option object) : option string :=
  match mbind (λ l, xml_name t l.2) l, named_xml "wrapped" e with
  | Some (String _ _ as f), Some w => if is_true w then Some f else None
  | _, _ => None
  end.

Definition wrap_item (f : option string) (v : jv) : jv := match f with Some f => Obj [(f, v)] | None => v end.

(** The items of an array *)
Definition item_values (e : schema) (l : object) (t : options) (n : nat) (u : gset nat) (d : list string) (s : list object) : M (list jv) :=
  match parts "allOf" l.2 with
  | a :: r =>
      if key_says "type" "object" (iv (at_address a)).2 then
        v <- Kv (made [("type", Json (Str "object")); ("allOf", Nodes (a :: r))]) t (Call (S n) (Some e) None u d s); mret [v]
      else
        vs <- each ((λ x, (iv (at_address x), d)) <$> a :: r) t (λ d, Call (S n) (Some e) None u d s);
        mret (List.filter (λ v, negb (nullish v)) vs)
  | [] =>
      match alternatives l.2 with
      | Some (r, a) =>
          match chosen (Some (default O (selected l.2 a d r t None))) a with
          | Some o => v <- Kv (iv (at_address o)) (deselect t d r) (Call (S n) (Some e) None u d s); mret [v]
          | None => mret [Undefined]
          end
      | None =>
          if bool_decide (is_Some (type_of l.2)) || key_in "properties" l.2 || key_in "items" l.2 then
            v <- Kv l t (Call (S n) None None u d s); mret [v]
          else mret []
      end
  end.

(** cze: an array *)
Definition cze (e : object) (t : options) (n : nat) (r : gset nat) (i : place) (a : list string) (o : list object) : M jv :=
  let s := dv o e in
  let c := negb (bool_decide (length o = O)) in
  match nodes "prefixItems" e.2 with
  | Some l =>
      vs <- each (imap (λ i x, (at_address x, a ++ ["prefixItems"; format_int (Z.of_nat i)])) l) t (λ u, Call (S n) None None r u s);
      bv e (Arr vs) i c
  | None =>
      let '(l, u) := item_schema e.2 r s in
      let f := wrapper t e.2 l in
      match json_of "example" e.2 with
      | Some v => bv e (wrap_item f v) i c
      | None =>
          vs <- match l with Some l => item_values e.2 l t n u (a ++ ["items"]) s | None => mret [] end;
          bv e (Arr (wrap_item f <$> vs)) i c
      end
  end.

(** Two values of the parts of an allOf *)
Definition join_parts (e d : jv) : jv :=
  match e with
  | Undefined => d
  | _ => if is_object e && is_object d then Sv e d else if nullish d then e else d
  end.

(** A schema with alternatives which are no objects: the chosen one over it *)
Definition overlay (c h : schema) : option schema :=
  let e := match json_of "type" c with Some Null | None => None | v => v end in
  let s := match json_of "type" h with
    | Some Null | None => match e with Some v => Some v | None => if key_in "items" c && negb (key_in "properties" c) then Some (Str "array") else None end
    | v => v
    end in
  match s with
  | None => None
  | Some s =>
      if is_text "object" s then None
      else
        let x := without "properties" (spread_over (without "anyOf" (without "oneOf" c)) h) in
        Some (if is_text "array" s then x else without "items" x)
  end.

(** Wv: by what kind of schema it is *)
Definition by_kind (c : object) (t : options) (k : call) (l : list object) : M jv :=
  let '(Call n r i a o s) := k in
  let u := negb (bool_decide (length s = O)) in
  let f := place_of t o in
  let a' := mark c a in
  if key_in "properties" c.2 || key_says "type" "object" c.2 then sze c t n a' f o s
  else if key_says "type" "array" c.2 || key_in "items" c.2 || key_in "prefixItems" c.2 then cze c t n a' f o s
  else
    match Fv c.2 (non_empty (emptyString t)) (emptyString t) with
    | Some g => bv c g f u
    | None =>
        match alternatives c.2 with
        | Some (m, _) =>
            match Mv c.2 o t None with
            | Some e => v <- Kv (iv (at_address e)) (deselect t o m) (Call (S n) None None a o l); bv c v f u
            | None => bv c Null f u
            end
        | None =>
            match parts "allOf" c.2 with
            | [] => bv c (default Null (Iv c.2 (non_empty (emptyString t)) (emptyString t))) f u
            | p =>
                e <- all_parts join_parts (part_paths o O p) false c.2 t n a' l Undefined;
                bv c (match e with Undefined => Null | _ => e end) f u
            end
        end
    end.

(** Wv: what does not come from the schema itself *)
Definition composite (c : object) (t : options) (k : call) (l : list object) : M jv :=
  match alternatives c.2, mbind (λ h, overlay c.2 h.2) (Vv c.2 t (schemaPath k)) with
  | Some (m, _), Some x =>
      v <- Kv (made x) (deselect t (schemaPath k) m)
        (Call (S (level k)) (parentSchema k) (name k) (mark c (seen k)) (schemaPath k) l);
      bv c v (place_of t (schemaPath k)) (negb (bool_decide (length (dynamicScope k) = O)))
  | _, _ => by_kind c t k l
  end.

(** The variable a schema is bound to *)
Definition bound_variable (c : schema) (t : options) : option jv :=
  match json_of "x-variable" c with
  | Some (Str (String _ _ as x)) =>
      (λ v, if key_says "type" "number" c || key_says "type" "integer" c then Num (Number v) else Str v) <$> variable x t
  | _ => None
  end.

(** Wv, behind a dynamic reference; [l]: the resources around, with the schema *)
Definition own_value (c : object) (t : options) (k : call) (l : list object) : M jv := λ st,
  let u := negb (bool_decide (length (dynamicScope k) = O)) in
  let f := place_of t (schemaPath k) in
  if marked c (seen k) then mret Undefined st
  else
    match (if u then None else recall c f (memo st)) with
    | Some v => mret v st
    | None =>
        if ize c.2 (parentSchema k) (name k) t then mret Undefined st
        else
          match bound_variable c.2 t, Hv c with
          | Some v, _ | None, Some v => bv c v f u st
          | None, None =>
              if Nat.ltb hv (level k) then
                let '(v, b) := Uv dze ∅ t c (schemaPath k) (vv st) in Some (v, State (memo st) b)
              else composite c t k l st
          end
    end.

(** Wv *)
Definition Wv (e : object) (t : options) (k : call) : M jv := λ st,
  let st := if Nat.eqb (level k) 0 then State (memo st) false else st in
  let c := iv e in
  match mbind (λ x, fv x (dynamicScope k)) (uv c.2) with
  | Some e' => Kv e' t (Call (S (level k)) (parentSchema k) (name k) ∅ (schemaPath k) (dynamicScope k)) st
  | None => own_value c t k (dv (dynamicScope k) c) st
  end.
End Wv.

(** Kv, without files and traces; [None]: out of fuel *)
Fixpoint Kv (fuel : nat) (e : object) (t : options) (n : call) : M jv :=
  match fuel with O => λ _, None | S f => Wv (Kv f) e t n end.

(** A call from outside *)
Definition top_call : call := Call O None None ∅ [] [].
Definition no_state : state := State [] false.

(** Enough for all levels *)
Definition kv_fuel : nat := hv + 3.

Definition example_of (e : object) (t : options) (st : state) : option (jv * state) := Kv kv_fuel e t top_call st.
End generator.
