(* ===== verification/GeneratorLaws.v ===== *)
(** * scalar.js: what the generator of examples promises

    In a document whose dynamic references are not mixed with others ([tame]) an example is
    found for every schema, whatever cycles there are, and one of a schema of a simple
    type is of that type, also when it is remembered from an earlier one. *)
From S2P Require Import Prelude Snippets Literals Parameters Objects Schemas Generator.
#[local] Open Scope list_scope.

(** ** Schemas with dynamic references *)

(** A schema is no dynamic reference and its target at once; one that is a reference or has
    alternatives is neither. *)
Definition tame (s : schema) : bool :=
  let anchored := key_in "$dynamicAnchor" s in
  let dynamic := key_in "$dynamicRef" s in
  let alternative := key_in "oneOf" s || key_in "anyOf" s in
  negb (anchored && dynamic) &&
  negb (key_in "$ref-value" s && (anchored || dynamic || alternative)) &&
  negb (alternative && (anchored || dynamic)).

Definition tame_keys : list string := ["$dynamicAnchor"; "$dynamicRef"; "$ref-value"; "oneOf"; "anyOf"].

Lemma tame_same s s' : (∀ k, k ∈ tame_keys → get k s' = get k s) → tame s = true → tame s' = true.
Proof.
  intros H. unfold tame, key_in. rewrite !H by (repeat first [left | right]). done.
Qed.

Lemma get_not k s : key_in k s = false → get k s = None.
Proof. unfold key_in. by destruct (get k s). Qed.

Section document.
Context (gv : string) (Number : string → string) (d : document).

Definition tame_document : Prop := ∀ s, s ∈ schemas d → tame s = true.

(** Its address is where the object is. *)
Definition genuine (e : object) : Prop := match e.1 with Some a => e.2 = schema_at d a | None => True end.

(** The objects the generator meets *)
Definition met (e : object) : Prop := tame e.2 = true ∧ genuine e.

Section tame.
Hypothesis Hd : tame_document.

Lemma schema_tame a : tame (schema_at d a) = true.
Proof. unfold schema_at. destruct (schemas d !! a) eqn:E; [|done]. by eapply Hd, list_elem_of_lookup_2. Qed.

Lemma met_raw a : met (at_address d a).
Proof. split; [apply schema_tame|done]. Qed.

Lemma met_made s : tame s = true → met (made s).
Proof. by split. Qed.

(** A reference has no other key that counts here, and alternatives come with no dynamic one. *)
Lemma tame_alone k s : tame s = true → (k = "$ref-value" ∨ k = "oneOf" ∨ k = "anyOf") → key_in k s = true →
  ∀ k', k' ∈ (if String.eqb k "$ref-value" then ["$dynamicAnchor"; "$dynamicRef"; "oneOf"; "anyOf"] else ["$dynamicAnchor"; "$dynamicRef"; "$ref-value"]) →
  get k' s = None.
Proof.
  unfold tame. intros Hs Hk Hh k' Hk'. apply get_not. destruct Hk as [->|[-> | ->]]; cbn in Hk'; rewrite Hh in Hs;
    repeat (apply elem_of_cons in Hk' as [->|Hk']); [..|by apply elem_of_nil in Hk'];
    repeat (apply elem_of_cons in Hk' as [->|Hk']); try (by apply elem_of_nil in Hk');
    revert Hs; clear; repeat match goal with |- context [key_in ?k ?e] => destruct (key_in k e) end; done.
Qed.

Lemma tame_without n : tame n = true → tame (without "$ref-value" n) = true.
Proof.
  unfold tame, key_in. rewrite !get_without. cbn. unfold key_in. repeat destruct (get _ n); done.
Qed.

Lemma yu_tame at_ n : tame n = true → tame (yu d at_ n) = true.
Proof.
  intros Hn. unfold yu. destruct (mbind _ (ref_value n)) as [t|] eqn:E; [|by apply tame_without].
  assert (key_in "$ref-value" n = true) as Hr.
  { unfold key_in. unfold ref_value, node_at in E. by destruct (get "$ref-value" n) as [[]|]. }
  refine (tame_same _ _ _ (schema_tame t)). intros k Hk. rewrite get_spread, get_without.
  destruct (String.eqb_spec k "$ref-value") as [->|Hne]; [done|].
  rewrite (tame_alone "$ref-value" n Hn) by (cbn; set_solver || auto). done.
Qed.

Lemma iv_met e : met e → met (iv d e).
Proof. intros [H1 H2]. unfold iv. destruct (is_ref e.2); [by apply met_made, yu_tame|done]. Qed.

Lemma alternatives_key s x : alternatives s = Some x → key_in "oneOf" s = true ∨ key_in "anyOf" s = true.
Proof.
  unfold alternatives, composed, nodes, key_in. destruct (get "oneOf" s); [by left|]. destruct (get "anyOf" s); [by right|done].
Qed.

Lemma overlay_met c h x y : met c → met h → alternatives c.2 = Some y → overlay c.2 h.2 = Some x → met (made x).
Proof.
  intros [Hc _] [Hh _] Ha%alternatives_key Hx. apply met_made. refine (tame_same h.2 x _ Hh). intros k Hk.
  assert (get k c.2 = None ∨ k = "oneOf" ∨ k = "anyOf") as Hn.
  { destruct (decide (k = "oneOf" ∨ k = "anyOf")) as [?|Hno]; [by right|left].
    unfold tame_keys in Hk. destruct Ha as [Ha|Ha]; [eapply (tame_alone "oneOf")|eapply (tame_alone "anyOf")]; try done; try tauto; cbn; set_solver. }
  assert (get k x = get k (without "properties" (spread_over (without "anyOf" (without "oneOf" c.2)) h.2))) as ->.
  { unfold overlay in Hx. match type of Hx with match ?m with _ => _ end = _ => destruct m as [s|]; [|done] end.
    destruct (is_text "object" s); [done|]. injection Hx as <-. destruct (is_text "array" s); [done|]. rewrite get_without.
    destruct (String.eqb_spec k "items") as [->|_]; [unfold tame_keys in Hk; set_solver|done]. }
  rewrite get_without, get_spread, !get_without.
  destruct (String.eqb_spec k "properties") as [->|_]; [unfold tame_keys in Hk; set_solver|].
  destruct (get k h.2); [done|]. destruct (String.eqb_spec k "anyOf") as [_|]; [done|]. destruct (String.eqb_spec k "oneOf") as [_|]; [done|].
  by destruct Hn as [?|[?|?]].
Qed.

(** ** Dynamic references lead to schemas that are none *)

Lemma anchored_static e s : met e → get "$dynamicAnchor" e.2 = Some s → uv (iv d e).2 = None.
Proof.
  intros He Ha. destruct (iv_met e He) as [Ht _]. unfold uv, json_of. rewrite (get_not "$dynamicRef"); [done|].
  unfold tame in Ht. assert (key_in "$dynamicAnchor" (iv d e).2 = true) as Hk; [|rewrite Hk in Ht; by destruct (key_in "$dynamicRef" _)].
  unfold key_in, iv, yu. destruct (is_ref e.2); [cbn [made snd]|by rewrite Ha].
  destruct (mbind _ _); [rewrite get_spread|]; rewrite get_without; cbn; by rewrite Ha.
Qed.

(** What an anchor stands for *)
Definition static (e : object) : Prop := met e ∧ uv (iv d e).2 = None.

Lemma anchor_static e x : met e → x ∈ anchor_of d e → static x.2.
Proof.
  intros He. unfold anchor_of, json_of. destruct (get "$dynamicAnchor" e.2) as [[v| | |]|] eqn:E; try by intros ?%elem_of_nil.
  destruct v; try by intros ?%elem_of_nil. intros ->%list_elem_of_singleton. cbn [snd].
  split; [by apply iv_met|]. pose proof (anchored_static e _ He E) as Hu.
  destruct (is_ref e.2) eqn:Hr; [|unfold iv in *; rewrite Hr in *; cbn; by rewrite Hr].
  apply (anchored_static (iv d e) (Json (Str s))); [by apply iv_met|].
  unfold iv. rewrite Hr. unfold yu. cbn [made snd]. destruct (mbind _ _); [rewrite get_spread|]; rewrite get_without; cbn; by rewrite E.
Qed.

Lemma fv_static n t e : Forall met t → fv d n t = Some e → static e.
Proof.
  intros Ht. unfold fv. intros H. assert (∃ m, head (omap (λ r, snd <$> List.find (λ x, String.eqb x.1 m) (XRe d r)) t) = Some e) as [m Hm].
  { destruct n as [|c n]; [done|]. repeat (match type of H with context [match ?x with _ => _ end] => is_var x; destruct x end; try done); by eexists. }
  clear H. induction Ht as [|r t Hr Ht IH]; [done|]. cbn [omap list_omap] in Hm.
  destruct (List.find _ (XRe d r)) as [x|] eqn:E; cbn in Hm; [|by apply IH]. injection Hm as <-.
  apply List.find_some in E as [Hx%list_elem_of_In _]. unfold XRe in Hx. apply elem_of_app in Hx as [Hx|Hx]; [by apply (anchor_static r)|].
  apply list_elem_of_join in Hx as (l & Hx & Hl). apply list_elem_of_fmap in Hl as ([k i] & -> & _). by apply (anchor_static (at_address d i)); [apply met_raw|].
Qed.

Lemma dv_met e t : Forall met e → met t → Forall met (dv d e t).
Proof.
  intros He Ht. unfold dv. destruct (if JRe t.2 then Some t else U d t) as [n|] eqn:E; [|done].
  destruct (JRe n.2); [|done]. apply Forall_app. split; [done|]. apply Forall_singleton.
  destruct (JRe t.2); [by injection E as <-|]. unfold U in E. destruct (is_ref t.2); [|by injection E as <-].
  destruct (mbind _ _); [injection E as <-; apply met_raw|done].
Qed.

Lemma Vv_met e t n h : Vv d e t n = Some h → met h.
Proof.
  unfold Vv. destruct (alternatives e) as [[r i]|]; [|done]. intros (a & _ & ->)%fmap_Some. apply iv_met, met_raw.
Qed.

(** ** Runs

    [good Q m]: from what is remembered rightly, [m] comes to an end with a value as [Q] key_says, and
    what is remembered then is right. *)

(** The schema [c] states values of the type [T] only, has no alternatives and no
    keys of another type. *)
Definition plain_type (c : object) (t : options) (T : string) : bool :=
  existsb (String.eqb T) ["object"; "array"; "string"; "boolean"; "integer"; "number"] &&
  key_says "type" T c.2 &&
  match alternatives c.2 with None => true | Some _ => false end &&
  match bound_variable Number c.2 t with None => true | Some _ => false end &&
  match Hv d c with Some w => wv w T | None => true end &&
  (String.eqb T "object" || negb (key_in "properties" c.2)) &&
  (String.eqb T "object" || String.eqb T "array" || negb (key_in "items" c.2 || key_in "prefixItems" c.2)) &&
  (if String.eqb T "integer" || String.eqb T "number" then wv (least c.2) T else true).

Definition right (c : object) (t : options) (v : jv) : Prop := ∀ T, plain_type c t T = true → wv v T = true.

Definition coherent (st : state) : Prop :=
  ∀ a t p v, (((a, (t, p)), v) : nat * place * jv) ∈ memo st → right (at_address d a) t v ∧ v ≠ Undefined.

Definition good {A} (Q : A → Prop) (m : M A) : Prop :=
  ∀ st, coherent st → ∃ v st', m st = Some (v, st') ∧ coherent st' ∧ Q v.

Lemma good_ret {A} (Q : A → Prop) x : Q x → good Q (mret x).
Proof. intros HQ st Hst. by exists x, st. Qed.

Lemma good_bnd {A B} (P : A → Prop) (Q : B → Prop) m k : good P m → (∀ x, P x → good Q (k x)) → good Q (mbnd m k).
Proof.
  intros Hm Hk st Hst. unfold mbnd. destruct (Hm st Hst) as (x & st' & -> & Hst' & Hx). by apply Hk.
Qed.

Lemma good_bv Q e t v o u : genuine e → right e t v → Q v → good Q (bv e v (place_of t o) u).
Proof.
  intros He Hv HQ st Hst. eexists _, _. split; [reflexivity|]. split; [|done].
  destruct e as [[a|] s]; cbn [fst]; [|done]. destruct (u || vv st); [done|]. destruct (is_object v) eqn:Ho; [cbn [negb orb]|done].
  intros a' t' p v' [[= -> -> -> ->]|Hin]%elem_of_cons; [|by eapply Hst].
  unfold genuine in He. cbn in He. subst s. split; [exact Hv|]. by intros ->.
Qed.

(** It is left out: it is inside itself, or the options say so. *)
Definition left_out (c : object) (t : options) (k : call) : Prop :=
  marked c (seen k) = true ∨ ize c.2 (parentSchema k) (name k) t = true.

(** It has a value of its own, alternatives or not. *)
Definition valued (c : object) : Prop := alternatives c.2 = None ∧ Hv d c ≠ Some Undefined.

Definition stands (c : object) (t : options) (v : jv) : Prop := right c t v ∧ (valued c → v ≠ Undefined).

(** What a call gives: nothing for what is left out, or else a value, of the type of the schema *)
Definition answers (e : object) (t : options) (k : call) (v : jv) : Prop :=
  mbind (λ x, fv d x (dynamicScope k)) (uv (iv d e).2) = None →
  v = Undefined ∧ left_out (iv d e) t k ∨ stands (iv d e) t v.

Definition all {A} : A → Prop := λ _, True.

Lemma good_mono {A} (P Q : A → Prop) m : (∀ x, P x → Q x) → good P m → good Q m.
Proof. intros H Hm st Hst. destruct (Hm st Hst) as (v & st' & E & Hst' & Hv). exists v, st'. auto. Qed.

(** ** Entries are only added *)

Definition extends (s s' : entries) : Prop := ∀ k, k ∈ s.*1 → k ∈ s'.*1.

Lemma extends_refl s : extends s s.
Proof. by intros k. Qed.

#[local] Hint Resolve extends_refl : core.

Lemma extends_trans s1 s2 s3 : extends s1 s2 → extends s2 s3 → extends s1 s3.
Proof. intros H1 H2 k Hk. by apply H2, H1. Qed.

Lemma set_keys k v s : k ∈ (object_set k v s).*1 ∧ extends s (object_set k v s).
Proof.
  induction s as [|[k' v'] s [IH1 IH2]]; cbn [object_set]; [split; [left|by intros x ?%elem_of_nil]|].
  destruct (String.eqb_spec k' k) as [->|_]; [split; [left|by intros x Hx]|].
  destruct (key_before k k' && _); [split; [left|intros x Hx; by right]|].
  split; [by right|]. intros x [->|Hx]%elem_of_cons; [left|right; by apply IH2].
Qed.

Lemma extends_set k v s : extends s (object_set k v s).
Proof. apply set_keys. Qed.

Lemma extends_assign s v : extends s (assign s v).
Proof.
  unfold assign. generalize (own_entries v) as l. intros l. revert s. induction l as [|x l IH]; intros s; [done|].
  eapply extends_trans; [apply extends_set|apply IH].
Qed.

Section calls.
Variables (Kv : object → options → call → M jv) (n : nat).
Hypothesis HK : ∀ e t k, level k = S n → met e → Forall met (dynamicScope k) → good (answers e t k) (Kv e t k).

Lemma good_call {B} (Q : B → Prop) e t r i a o s k : met e → Forall met s → (∀ v, good Q (k v)) →
  good Q (mbnd (Kv e t (Call (S n) r i a o s)) k).
Proof. intros He Hs Hk. eapply good_bnd; [by apply (HK _ _ (Call _ _ _ _ _ _))|]. intros v _. apply Hk. Qed.

(** The schema of a property, as it is read for its value *)
Definition property_schema (i : nat) : object := iv d (iv d (at_address d i)).

(** A property that is not left out of an object [e], inside the objects [r] *)
Definition visible (t : options) (e : schema) (r : gset nat) (p : string * nat) : Prop :=
  let x := property_schema p.2 in
  uv x.2 = None ∧ valued x ∧ marked x r = false ∧ ize x.2 (Some e) (Some p.1) t = false.

(** Its key in the example *)
Definition shown_as (t : options) (p : string * nat) : string := default p.1 (xml_name t (iv d (at_address d p.2)).2).

Definition shows (t : options) (e : schema) (r : gset nat) (l : list (string * nat)) (s : entries) : Prop :=
  ∀ p, p ∈ l → visible t e r p → shown_as t p ∈ s.*1.

Lemma properties_good l e t r a c : Forall met c → ∀ s,
  good (λ s', extends s s' ∧ shows t e r l s') (put_properties d Kv l e t n r a c s).
Proof.
  intros Hc. induction l as [|[k i] l IH]; intros s; [apply good_ret; split; [done|by intros p ?%elem_of_nil]|].
  cbn [put_properties]. eapply good_bnd; [by apply (HK _ _ (Call _ _ _ _ _ _)); [|apply iv_met, met_raw|]|]. intros v Hv.
  eapply good_mono; [|apply IH]. intros s' [Hs' Hl]. split.
  { eapply extends_trans; [|exact Hs']. destruct v; try apply extends_set; done. }
  intros p [->|Hp]%elem_of_cons Hvis; [|by apply Hl]. destruct Hvis as (Hu & Hval & Hm & Hi). apply Hs'.
  destruct Hv as [[_ [Hlo|Hlo]]|[_ Hlo]]; [by unfold property_schema in Hu; cbn in *; rewrite Hu|unfold left_out, property_schema in *; cbn in *; congruence..|].
  specialize (Hlo Hval). unfold shown_as. cbn [fst snd]. destruct v; try exact (proj1 (set_keys _ _ _)). done.
Qed.

Lemma patterns_good l e t r a c : Forall met c → ∀ s, good (extends s) (put_patterns d Kv l e t n r a c s).
Proof.
  intros Hc. induction l as [|[k i] l IH]; intros s; [by apply good_ret|].
  apply good_call; [apply iv_met, met_raw|done|]. intros v. eapply good_mono; [|apply IH].
  intros s'. apply extends_trans, extends_set.
Qed.

Lemma additional_good e t r a c s : Forall met c → good (extends s) (put_additional d Kv e t n r a c s).
Proof.
  intros Hc. unfold put_additional. destruct (get "additionalProperties" e) as [[v|i|l|p]|]; try by apply good_ret.
  - apply good_ret. destruct (is_true v); [apply extends_set|done].
  - destruct (schema_at d i).
    + eapply good_bnd; [by apply (good_ret all)|]. intros. apply good_ret, extends_set.
    + apply good_call; [apply iv_met, met_raw|done|]. intros. apply good_ret, extends_set.
Qed.

Lemma parts_good join l view e t r c : Forall met c → ∀ i, good all (all_parts d Kv join l view e t n r c i).
Proof.
  intros Hc. induction l as [|[s u] l IH]; intros i; [by apply good_ret|].
  apply good_call; [destruct view; [apply iv_met|]; apply met_raw|done|]. intros v. apply IH.
Qed.

Lemma composition_good e t r a c s : Forall met c → good (extends s) (put_composition d Kv e t n r a c s).
Proof.
  intros Hc. unfold put_composition. destruct (alternatives e) as [[u l]|].
  - destruct (Mv d e a t (Some s)); [|by apply good_ret]. apply good_call; [apply met_raw|done|]. intros. apply good_ret, extends_assign.
  - destruct (parts "allOf" e); [by apply good_ret|]. eapply good_bnd; [by apply parts_good|]. intros v _. apply good_ret.
    destruct (is_object v); [apply extends_assign|done].
Qed.

Lemma each_good l t k : (∀ u, level (k u) = S n ∧ Forall met (dynamicScope (k u))) → (∀ x, x ∈ l → met x.1) → good all (each Kv l t k).
Proof.
  intros Hk. induction l as [|[s u] l IH]; intros Hl; [by apply good_ret|]. cbn [each].
  eapply good_bnd; [apply (HK s t (k u)); [apply Hk|apply (Hl (s, u)); left|apply Hk]|]. intros v _.
  eapply good_bnd; [apply IH; intros x Hx; apply Hl; by right|]. intros vs _. by apply good_ret.
Qed.

Lemma item_schema_met e r s l u : Forall met s → item_schema d e r s = (Some l, u) → met l.
Proof.
  intros Hs. unfold item_schema. destruct (node_at "items" e) as [a|]; [|done]. cbn [fmap option_fmap option_map].
  destruct (mbind _ _) as [l'|] eqn:E; intros [= <- _]; [|apply iv_met, met_raw].
  apply bind_Some in E as (x & _ & E). by apply (fv_static _ _ _ Hs E).
Qed.

Lemma items_good e l t u p s : met l → Forall met s → good all (item_values d Kv e l t n u p s).
Proof.
  intros Hl Hs. unfold item_values. destruct (parts "allOf" l.2) as [|a r].
  - destruct (alternatives l.2) as [[m al]|].
    + destruct (chosen _ al); [|by apply good_ret]. apply good_call; [apply iv_met, met_raw|done|]. intros. by apply good_ret.
    + destruct (_ || _); [|by apply good_ret]. apply good_call; [done..|]. intros. by apply good_ret.
  - destruct (key_says _ _ _).
    + apply good_call; [by apply met_made|done|]. intros. by apply good_ret.
    + eapply good_bnd; [apply each_good; [by split|]|intros; by apply good_ret].
      intros x (y & -> & _)%list_elem_of_fmap. apply iv_met, met_raw.
Qed.

Lemma place_key_in x y l : x ∈ place_key d y l ↔ x = y ∨ x ∈ l.
Proof.
  induction l as [|z l IH]; cbn [place_key]; [by rewrite list_elem_of_singleton, elem_of_nil; tauto|].
  destruct (behind d y z); rewrite !elem_of_cons, ?IH; tauto.
Qed.

Lemma oze_in x l : x ∈ oze d l ↔ x ∈ l.
Proof.
  induction l as [|y l IH]; [done|]. change (oze d (y :: l)) with (place_key d y (oze d l)). by rewrite place_key_in, IH, elem_of_cons.
Qed.

(** The properties of a schema *)
Definition properties_of (e : schema) : list (string * nat) := match table "properties" e with Some p => properties_at d p | None => [] end.

(** An object with all the properties that are not left out, perhaps in one element *)
Definition an_object (e : schema) (t : options) (r : gset nat) (v : jv) : Prop :=
  ∃ s, shows t e r (properties_of e) s ∧ (v = Obj s ∨ xml t = true ∧ ∃ k, v = Obj [(k, Obj s)]).

Lemma sze_good e t r p a o : met e → Forall met o → (∀ l, right e t (Obj l)) →
  good (an_object e.2 t r) (sze d Kv e t n r (place_of t p) a o).
Proof.
  intros He Ho Hr. unfold sze. pose proof (dv_met o e Ho He) as Hc.
  apply good_bnd with (P := shows t e.2 r (properties_of e.2)).
  { unfold properties_of. destruct (table "properties" e.2); [|by apply good_ret; intros x ?%elem_of_nil].
    eapply good_mono; [|by apply properties_good]. intros s [_ Hs] x Hx. by apply Hs, oze_in. }
  intros s1 H1. eapply good_bnd; [destruct (table "patternProperties" e.2); [by apply patterns_good|by apply (good_ret (extends s1))]|].
  intros s2 H2. eapply good_bnd; [by apply additional_good|]. intros s3 H3.
  eapply good_bnd; [by apply composition_good|]. intros s4 H4.
  assert (shows t e.2 r (properties_of e.2) s4) as Hs by (intros x Hx Hv; apply H4, H3, H2, H1; done).
  destruct (if Nat.eqb n 0 then xml_name t e.2 else None) as [[|c k]|] eqn:E; apply good_bv; try apply He; try apply Hr; exists s4; eauto 6.
  split; [done|]. right. split; [|by eexists]. destruct (Nat.eqb n 0); [|done]. unfold xml_name in E. by destruct (xml t).
Qed.

Definition an_array (v : jv) : Prop := ∃ l, v = Arr l.

Lemma cze_good e t r p a o : met e → Forall met o → (∀ l, right e t (Arr l)) →
  Hv d e = None → good an_array (cze d Kv e t n r (place_of t p) a o).
Proof.
  intros He Ho Hr Hh. unfold cze. pose proof (dv_met o e Ho He) as Hc.
  destruct (nodes "prefixItems" e.2) as [l|].
  - eapply good_bnd; [apply each_good; [by split|]|].
    + intros x Hx. apply elem_of_lookup_imap in Hx as (i & y & -> & _). apply met_raw.
    + intros vs _. apply good_bv; [apply He|apply Hr|by eexists].
  - destruct (item_schema d e.2 r _) as [l u] eqn:El.
    destruct (json_of "example" e.2) as [v|] eqn:E.
    + unfold Hv in Hh. rewrite E in Hh. by destruct (default [] _).
    + eapply good_bnd.
      * destruct l as [l|]; [apply items_good; [by eapply (item_schema_met _ _ _ _ _ Hc El)|done]|by apply (good_ret all)].
      * intros vs _. apply good_bv; [apply He|apply Hr|by eexists].
Qed.
End calls.

(** ** Values of a simple type *)

Lemma says_type T s : key_says "type" T s = true → T ≠ "" → type_of s = Some (Str T).
Proof.
  unfold key_says, type_of, is_text. destruct (json_of "type" s) as [[]|]; try done. intros ->%String.eqb_eq HT. cbn.
  by destruct (String.eqb_spec T "").
Qed.

Lemma says_inj k s T T' : key_says k T s = true → key_says k T' s = true → T = T'.
Proof. unfold key_says, is_text. destruct (json_of k s) as [[]|]; try done. by intros ->%String.eqb_eq ->%String.eqb_eq. Qed.

Record plain (c : object) (t : options) (T : string) : Prop := {
  plain_says : key_says "type" T c.2 = true;
  plain_type_of : type_of c.2 = Some (Str T);
  plain_alone : alternatives c.2 = None;
  plain_unbound : bound_variable Number c.2 t = None;
  plain_stated : ∀ w, Hv d c = Some w → wv w T = true;
  plain_kind : T = "object" ∨ key_in "properties" c.2 = false ∧
    (T = "array" ∨ key_in "items" c.2 = false ∧ key_in "prefixItems" c.2 = false ∧
      (T = "string" ∨ T = "boolean" ∨ (T = "integer" ∨ T = "number") ∧ wv (least c.2) T = true)) }.

Lemma plain_type_plain c t T : plain_type c t T = true → plain c t T.
Proof.
  unfold plain_type. intros [[[[[[[HT Hs]%andb_prop Ha]%andb_prop Hb]%andb_prop Hh]%andb_prop Hp]%andb_prop Hi]%andb_prop Hl]%andb_prop.
  apply existsb_exists in HT as (T' & HT & ->%String.eqb_eq). split.
  - done.
  - apply says_type; [done|]. cbn in HT. intros ->. intuition discriminate.
  - by destruct (alternatives c.2).
  - by destruct (bound_variable Number c.2 t).
  - intros w Hw. by rewrite Hw in Hh.
  - apply orb_prop in Hp as [->%String.eqb_eq|Hp%negb_true_iff]; [by left|].
    cbn in HT. destruct HT as [<-|HT]; [by left|]. right. split; [done|]. destruct HT as [<-|HT]; [by left|right].
    assert (T' ≠ "object" ∧ T' ≠ "array") as [H1 H2] by (split; intros ->; intuition discriminate).
    apply orb_prop in Hi as [Hi|Hi%negb_true_iff%orb_false_elim].
    { apply orb_prop in Hi as [?%String.eqb_eq|?%String.eqb_eq]; done. }
    destruct Hi as [-> ->]. split_and!; [done..|]. intuition subst; auto.
Qed.

Lemma Fv_plain c t T : plain c t T → T ≠ "object" → ∃ g, Fv gv c.2 (non_empty (emptyString t)) (emptyString t) = Some g ∧ wv g T = true.
Proof.
  intros [_ Ht _ _ _ Hk] HT. unfold Fv. rewrite Ht. destruct Hk as [->|[_ [->|(_ & _ & [->|[->|[[-> | ->] Hl]]])]]]; [done|..]; by eexists.
Qed.

Lemma Bv_plain c t T : plain c t T → Bv c.2 = [Str T].
Proof. intros [_ Ht _ _ _ _]. unfold Bv. by rewrite Ht. Qed.

(** The short values below the last level *)
Lemma Uv_simple room r t c n b : ∀ v,
  Hv d c = Some v ∨ Hv d c = None ∧ (fze c.2 = Some v ∨ fze c.2 = None ∧ Fv gv c.2 (non_empty (emptyString t)) (emptyString t) = Some v) →
  (Uv gv d room r t c n b).1 = v.
Proof. intros v H. destruct room; cbn [Uv]; by destruct H as [->|[-> [->|[-> ->]]]]. Qed.

Lemma fze_plain c t T : plain c t T →
  fze c.2 = if String.eqb T "object" then Some (Obj []) else if String.eqb T "array" then Some (Arr []) else None.
Proof.
  intros Hp. unfold fze. rewrite (Bv_plain _ _ _ Hp). cbn [among existsb is_text]. rewrite !orb_false_r.
  destruct (plain_kind _ _ _ Hp) as [->|[-> Hk]]; [by rewrite orb_true_r|]. cbn [orb].
  destruct (String.eqb T "object"); [done|]. destruct Hk as [->|(-> & _ & _)]; [by rewrite orb_true_r|done].
Qed.

Lemma Uv_right room r t c n b : right c t (Uv gv d room r t c n b).1.
Proof.
  intros T Hp%plain_type_plain. destruct (Hv d c) as [w|] eqn:E.
  { rewrite (Uv_simple _ _ _ _ _ _ w) by auto. by apply (plain_stated _ _ _ Hp). }
  pose proof (fze_plain _ _ _ Hp) as Hf. destruct (String.eqb_spec T "object") as [->|HT].
  { by rewrite (Uv_simple _ _ _ _ _ _ (Obj [])) by auto. }
  destruct (String.eqb_spec T "array") as [->|_]; [by rewrite (Uv_simple _ _ _ _ _ _ (Arr [])) by auto|].
  destruct (Fv_plain _ _ _ Hp HT) as (g & Hg & Hw). by rewrite (Uv_simple _ _ _ _ _ _ g) by auto 6.
Qed.

(** ** The generator *)

Lemma sze_right c t : key_in "properties" c.2 || key_says "type" "object" c.2 = true → ∀ l, right c t (Obj l).
Proof.
  intros H l T Hp%plain_type_plain. destruct (plain_kind _ _ _ Hp) as [->|[Hk _]]; [done|].
  rewrite Hk in H. cbn in H. by rewrite (says_inj _ _ _ _ (plain_says _ _ _ Hp) H).
Qed.

Lemma cze_right c t : key_in "properties" c.2 || key_says "type" "object" c.2 = false →
  key_says "type" "array" c.2 || key_in "items" c.2 || key_in "prefixItems" c.2 = true → ∀ l, right c t (Arr l).
Proof.
  intros Ho H l T Hp%plain_type_plain. apply orb_false_elim in Ho as [_ Ho].
  destruct (plain_kind _ _ _ Hp) as [->|[_ [->|(Hi & Hx & _)]]]; [by rewrite (plain_says _ _ _ Hp) in Ho|done|].
  rewrite Hi, Hx, !orb_false_r in H. by rewrite (says_inj _ _ _ _ (plain_says _ _ _ Hp) H).
Qed.

Lemma alternatives_right c t x v : alternatives c.2 = Some x → right c t v.
Proof. intros Ha T Hp%plain_type_plain. by rewrite (plain_alone _ _ _ Hp) in Ha. Qed.

Section step.
Variable Kv : object → options → call → M jv.

(** What is made of a schema that states nothing *)
Definition is_objectlike (c : schema) : bool := key_in "properties" c || key_says "type" "object" c.

Definition describes (c : object) (t : options) (k : call) (v : jv) : Prop :=
  stands c t v ∧ (alternatives c.2 = None → is_objectlike c.2 = true → an_object c.2 t (mark c (seen k)) v).

Lemma Fv_defined e p n : Fv gv e p n ≠ Some Undefined.
Proof.
  unfold Fv. destruct (type_of e) as [[]|]; try done. repeat (destruct (String.eqb _ _); [done|]).
  destruct (_ || _); [|by destruct (String.eqb _ _)]. unfold least. by destruct (json_of "minimum" e) as [[]|].
Qed.

Lemma Iv_defined e p n : Iv gv e p n ≠ Some Undefined.
Proof.
  unfold Iv, least. destruct (type_of e) as [[]|]; try done. destruct (among _ _); [done|]. destruct l as [|[] ?]; try done.
  repeat (destruct (String.eqb _ _); [done|]). destruct (_ || _); [|done]. by destruct (json_of "minimum" e) as [[]|].
Qed.

Lemma by_kind_good c t k l : met c → Forall met (dynamicScope k) → Forall met l → Hv d c = None →
  (∀ e t k', level k' = S (level k) → met e → Forall met (dynamicScope k') → good (answers e t k') (Kv e t k')) →
  good (describes c t k) (by_kind gv d Kv c t k l).
Proof.
  destruct k as [n r i a o s]. cbn [level dynamicScope]. intros Hc Hs Hl Hh HK. unfold by_kind, describes, is_objectlike. cbn [seen].
  destruct (key_in "properties" c.2 || key_says "type" "object" c.2) eqn:Eo.
  { eapply good_mono; [|by apply (sze_good Kv n HK); [..|apply sze_right]]. intros v Hv. split; [|done].
    destruct Hv as (x & _ & [->|(_ & k & ->)]); (split; [by apply sze_right|done]). }
  assert (∀ v, stands c t v → stands c t v ∧ (alternatives c.2 = None → false = true → an_object c.2 t (mark c a) v)) as Hq by done.
  destruct (key_says "type" "array" c.2 || _ || _) eqn:Ea.
  { eapply good_mono; [|by apply (cze_good Kv n HK); [..|apply cze_right|]]. intros v [x ->]. apply Hq. split; [by apply cze_right|done]. }
  destruct (Fv gv c.2 _ _) as [g|] eqn:Eg.
  { assert (right c t g); [|apply good_bv; [apply Hc|done|apply Hq; split; [done|intros _ ->; by apply Fv_defined in Eg]]].
    intros T Hp%plain_type_plain.
    destruct (decide (T = "object")) as [->|HT]; [by rewrite (plain_says _ _ _ Hp), orb_true_r in Eo|].
    destruct (Fv_plain _ _ _ Hp HT) as (g' & Hg & Hw). rewrite Hg in Eg. by injection Eg as <-. }
  destruct (alternatives c.2) as [[m al]|] eqn:Em.
  - assert (∀ v, stands c t v) as Hr by (intros v; split; [by eapply alternatives_right|intros [? _]; congruence]).
    destruct (Mv d c.2 o t None); [|apply good_bv; [apply Hc|apply Hr|by apply Hq]].
    apply (good_call Kv n HK); [apply iv_met, met_raw|done|]. intros v. apply good_bv; [apply Hc|apply Hr|by apply Hq].
  - assert (∀ v, right c t v) as Hr.
    { intros v T Hp%plain_type_plain. destruct (decide (T = "object")) as [->|HT]; [by rewrite (plain_says _ _ _ Hp), orb_true_r in Eo|].
      destruct (Fv_plain _ _ _ Hp HT) as (g' & Hg & _). by rewrite Hg in Eg. }
    destruct (parts "allOf" c.2) as [|p ps].
    + apply good_bv; [apply Hc|done|]. apply Hq. split; [done|]. intros _. pose proof (Iv_defined c.2 (non_empty (emptyString t)) (emptyString t)).
      destruct (Iv _ _ _ _) as [[]|]; done.
    + eapply good_bnd; [by apply (parts_good Kv n HK)|]. intros v _. apply good_bv; [apply Hc|done|]. apply Hq. split; [done|]. by destruct v.
Qed.

Lemma composite_good c t k l : met c → Forall met (dynamicScope k) → Forall met l → Hv d c = None →
  (∀ e t k', level k' = S (level k) → met e → Forall met (dynamicScope k') → good (answers e t k') (Kv e t k')) →
  good (describes c t k) (composite gv d Kv c t k l).
Proof.
  intros Hc Hs Hl Hh HK. unfold composite. destruct (alternatives c.2) as [[m al]|] eqn:Em; [|by apply by_kind_good].
  destruct (mbind _ _) as [x|] eqn:Ex; [|by apply by_kind_good]. apply bind_Some in Ex as (h & Hh' & Ex).
  eapply good_bnd; [apply HK; [done| |done]|].
  - by apply (overlay_met c h x (m, al)); [|eapply Vv_met|..].
  - intros v _. unfold describes, stands, valued. rewrite Em. apply good_bv; [apply Hc|by eapply alternatives_right|].
    split; [split; [by eapply alternatives_right|by intros [? _]]|done].
Qed.

(** Also below the last level there is a value. *)
Lemma Uv_defined room : ∀ r t c n b, valued c → (Uv gv d room r t c n b).1 ≠ Undefined.
Proof.
  intros r t c n b [_ Hh]. destruct room as [|room]; cbn [Uv];
    (destruct (Hv d c) as [w|]; [cbn [fst]; congruence|]);
    (destruct (fze c.2) as [f|] eqn:Ef; [unfold fze in Ef; destruct (_ || _); [by injection Ef as <-|]; destruct (_ || _); [by injection Ef as <-|done]|]);
    (pose proof (Fv_defined c.2 (non_empty (emptyString t)) (emptyString t)); destruct (Fv gv _ _ _) as [g|]; [cbn [fst]; congruence|]);
    pose proof (Iv_defined c.2 (non_empty (emptyString t)) (emptyString t)) as HI.
  - destruct (Iv _ _ _ _) as [g|]; [cbn [fst]; congruence|]. by destruct (_ || _ || _).
  - destruct (if marked c r then _ else _) as [i b']. destruct i; try done. destruct (Iv _ _ _ _) as [g|]; [cbn [fst]; congruence|]. by destruct (_ || _ || _).
Qed.

Lemma recall_right c t o l : coherent l → genuine c → ∀ v, recall c (place_of t o) (memo l) = Some v → right c t v ∧ v ≠ Undefined.
Proof.
  intros Hl Hc v. unfold recall, genuine in *. destruct c as [[a|] s]; cbn [fst snd] in *; [|done]. subst s.
  destruct (List.find _ (memo l)) as [[y w]|] eqn:E; [|done]. intros [= <-].
  apply List.find_some in E as [Hin%list_elem_of_In Hy%bool_decide_eq_true_1]. cbn in Hy. subst y. by eapply Hl.
Qed.

(** A call that makes a value: it is not remembered, nor given, nor cut. *)
Definition makes (c : object) (t : options) (k : call) (st : state) : Prop :=
  recall c (place_of t (schemaPath k)) (memo st) = None ∧ bound_variable Number c.2 t = None ∧ Hv d c = None ∧
  ¬ left_out c t k ∧ (level k ≤ hv)%nat.

(** What such a call ends with *)
Definition ends (c : object) (t : options) (k : call) (st : state) (r : option (jv * state)) : Prop :=
  ∃ v st', r = Some (v, st') ∧ coherent st' ∧ (v = Undefined ∧ left_out c t k ∨ stands c t v) ∧ (makes c t k st → describes c t k v).

Lemma ends_out c t k st : coherent st → left_out c t k → ends c t k st (mret Undefined st).
Proof. intros Hst Ho. exists Undefined, st. split_and!; [done..|by left|]. intros (_ & _ & _ & Hn & _). done. Qed.

Lemma ends_given c t k st v u : coherent st → genuine c →
  bound_variable Number c.2 t = Some v ∨ bound_variable Number c.2 t = None ∧ Hv d c = Some v →
  ends c t k st (bv c v (place_of t (schemaPath k)) u st).
Proof.
  intros Hst Hc Hv'. assert (stands c t v) as Hs.
  { split.
    - intros T HT%plain_type_plain. destruct Hv' as [Hb|[_ Hh]]; [by rewrite (plain_unbound _ _ _ HT) in Hb|by apply (plain_stated _ _ _ HT)].
    - intros [_ Hn] ->. destruct Hv' as [Hb|[_ Hh]]; [|done]. unfold bound_variable in Hb.
      destruct (json_of "x-variable" c.2) as [[| | | |[]| | |]|]; try done. destruct (variable _ _); [|done]. cbn in Hb. by destruct (_ || _). }
  destruct (good_bv (stands c t) c t v (schemaPath k) u Hc (proj1 Hs) Hs st Hst) as (v' & st' & E & Hst' & Hv).
  exists v', st'. split_and!; [done..|by right|]. intros (_ & Hb & Hh & _). destruct Hv' as [|[]]; congruence.
Qed.

Lemma own_value_good c t k l st : met c → Forall met (dynamicScope k) → Forall met l → coherent st →
  (∀ e t k', level k' = S (level k) → met e → Forall met (dynamicScope k') → (level k ≤ hv)%nat → good (answers e t k') (Kv e t k')) →
  ends c t k st (own_value gv Number d Kv c t k l st).
Proof.
  intros Hc Hs Hl Hst HK. unfold own_value.
  destruct (marked c (seen k)) eqn:Em; [by apply ends_out; [|left]|].
  destruct (if negb _ then None else _) as [v|] eqn:Er.
  { destruct (negb _); [done|]. destruct (recall_right c t (schemaPath k) st Hst (proj2 Hc) v Er) as [Hr Hu].
    exists v, st. split_and!; [done..|by right|]. intros [Hn _]. congruence. }
  destruct (ize c.2 (parentSchema k) (name k) t) eqn:Ei; [by apply ends_out; [|right]|].
  destruct (bound_variable Number c.2 t) as [b|] eqn:Eb; [apply ends_given; [done|apply Hc|by left]|].
  destruct (Hv d c) as [w|] eqn:Ew; [apply ends_given; [done|apply Hc|by right]|].
  destruct (Nat.ltb_spec hv (level k)) as [Hn|Hn].
  - pose proof (Uv_right dze ∅ t c (schemaPath k) (vv st)) as Hr. pose proof (Uv_defined dze ∅ t c (schemaPath k) (vv st)) as Hu.
    destruct (Uv gv d dze ∅ t c _ (vv st)) as [v b]. exists v, (State (memo st) b). split_and!; [done|exact Hst|right; split; [done|exact Hu]|].
    intros (_ & _ & _ & _ & ?). lia.
  - destruct (composite_good c t k l) with (st := st) as (v & st' & E & Hc' & Hd'); [done..| |done|].
    { intros. by apply HK. }
    exists v, st'. split_and!; [done..|right; apply Hd'|done].
Qed.

Lemma Wv_good e t k : met e → Forall met (dynamicScope k) →
  (∀ e' t k', level k' = S (level k) → met e' → Forall met (dynamicScope k') → (level k ≤ hv)%nat ∨ static e' ∧ uv (iv d e).2 ≠ None →
    good (answers e' t k') (Kv e' t k')) →
  good (answers e t k) (Wv gv Number d Kv e t k).
Proof.
  intros He Hs HK st Hst. unfold Wv, answers.
  assert (coherent (if Nat.eqb (level k) 0 then State (memo st) false else st)) as Hst' by by destruct (Nat.eqb (level k) 0).
  destruct (mbind _ (uv (iv d e).2)) as [e'|] eqn:Eh.
  - apply bind_Some in Eh as (x & Ex & Ef). pose proof (fv_static _ _ _ Hs Ef) as He'.
    edestruct (HK e' t (Call (S (level k)) (parentSchema k) (name k) ∅ (schemaPath k) (dynamicScope k))) as (v & st' & E & Hc' & _);
      [done|apply He'|done|right; by rewrite Ex|exact Hst'|]. by exists v, st'.
  - edestruct (own_value_good (iv d e) t k (dv d (dynamicScope k) (iv d e))) as (v & st' & E & Hc' & Ha & _); [by apply iv_met|done| |exact Hst'| |].
    + by apply dv_met; [|apply iv_met].
    + intros. by apply HK; [..|left].
    + exists v, st'. split_and!; [done..|]. intros _. exact Ha.
Qed.
End step.

Lemma Kv_good f : ∀ e t k, met e → Forall met (dynamicScope k) →
  (2 ≤ f ∧ 13 ≤ f + level k ∨ static e ∧ 1 ≤ f ∧ (13 ≤ f + level k ∨ 11 ≤ level k))%nat →
  good (answers e t k) (Kv gv Number d f e t k).
Proof.
  induction f as [|f IH]; intros e t k He Hs Hf; [lia|]. cbn [Kv]. apply Wv_good; [done..|].
  intros e' t' k' Hk He' Hs' Hn. apply IH; [done..|]. rewrite Hk. unfold hv in Hn.
  destruct Hf as [Hf|[[_ Hu] Hf]]; destruct Hn as [Hn|[Hn Hu']]; try congruence; [left; lia|right; split; [done|lia]|left; lia].
Qed.

Lemma top_ends a t st : coherent st →
  ends (iv d (at_address d a)) t top_call (State (memo st) false) (example_of gv Number d (at_address d a) t st).
Proof.
  intros Hst. unfold example_of. change kv_fuel with (S (hv + 2)). cbn [Kv]. unfold Wv. cbn [level top_call Nat.eqb].
  assert (mbind (λ x, fv d x (dynamicScope top_call)) (uv (iv d (at_address d a)).2) = None) as ->.
  { destruct (uv _) as [x|]; [|done]. cbn. unfold fv. repeat (match goal with |- context [match ?y with _ => _ end] => is_var y; destruct y end; try done). }
  apply own_value_good; [apply iv_met, met_raw|constructor|apply dv_met; [constructor|apply iv_met, met_raw]|exact Hst|].
  intros e t' k' Hk He Hs _. apply Kv_good; [done..|]. rewrite Hk. left. unfold hv. cbn. lia.
Qed.
End tame.

(** ** Examples one after the other *)

Fixpoint examples (l : list (nat * options)) (st : state) : option (list jv * state) :=
  match l with
  | [] => Some ([], st)
  | (a, t) :: l' =>
      match example_of gv Number d (at_address d a) t st with
      | Some (v, st') => match examples l' st' with Some (vs, st'') => Some (v :: vs, st'') | None => None end
      | None => None
      end
  end.

(** The value an example has when the schema is of a simple type *)
Definition of_its_type (r : nat * options) (v : jv) : Prop :=
  ∀ T, plain_type (iv d (at_address d r.1)) r.2 T = true → wv v T = true ∨ v = Undefined ∧ ize (iv d (at_address d r.1)).2 None None r.2 = true.

Lemma examples_good l : tame_document → ∀ st, coherent st →
  ∃ vs st', examples l st = Some (vs, st') ∧ coherent st' ∧ Forall2 of_its_type l vs.
Proof.
  intros Hd. induction l as [|[a t] l IH]; intros st Hst; [exists [], st; split_and!; [done..|constructor]|]. cbn [examples].
  destruct (top_ends Hd a t st Hst) as (v & st1 & -> & Hst1 & Hv & _).
  destruct (IH st1 Hst1) as (vs & st2 & -> & Hst2 & Hvs). exists (v :: vs), st2. split_and!; [done..|].
  constructor; [|done]. intros T HT. destruct Hv as [[-> [Hm|Hi]]|[Hr _]]; [|by right|left; by apply Hr].
  exfalso. unfold marked in Hm. cbn in Hm. by destruct (iv d (at_address d a)).1.
Qed.

Lemma coherent_start : coherent no_state.
Proof. by intros a t p v ?%elem_of_nil. Qed.

(** C17. Every schema has an example: in a document whose dynamic references are set apart, whatever
    circles its schemas make, each of the examples asked for one after the other is found within
    the levels of the generator, and the one of a schema of a simple type that states no values of
    another type is of that type, also when parts of it are remembered from an earlier
    one, or it is one the options leave out. *)
Theorem every_schema_has_an_example l : tame_document →
  ∃ vs st, examples l no_state = Some (vs, st) ∧ Forall2 of_its_type l vs.
Proof. intros Hd. destruct (examples_good l Hd no_state coherent_start) as (vs & st & E & _ & H). by exists vs, st. Qed.

(** C18. An example shows the properties: in a document where no schema is a dynamic reference and
    an anchor at once, and none that is a reference or has alternatives is either (a circle of
    other ones may have no example: [dynamic_circle_never_ends]), of a schema of an object that is
    not left out, states no example, default, constant or enum value, has no alternatives, is bound
    to no variable the options give and is not remembered, after whatever other examples, the value
    is an object (for XML perhaps in an element) with the key of each of its properties, but
    possibly of one the options leave out, one that is the object itself, one that is a dynamic
    reference, one with alternatives, and one that states undefined as its value. *)
Theorem example_shows_the_properties a t l vs st : tame_document → examples l no_state = Some (vs, st) →
  let c := iv d (at_address d a) in
  is_objectlike c.2 = true → alternatives c.2 = None → bound_variable Number c.2 t = None → Hv d c = None →
  ize c.2 None None t = false → recall c (place_of t []) (memo st) = None →
  ∃ v s st', example_of gv Number d (at_address d a) t st = Some (v, st') ∧
    (v = Obj s ∨ xml t = true ∧ ∃ k, v = Obj [(k, Obj s)]) ∧
    ∀ p, p ∈ properties_of c.2 → visible t c.2 (mark c ∅) p → shown_as t p ∈ s.*1.
Proof.
  intros Hd Hl c Ho Ha Hb Hh Hi Hr. destruct (examples_good l Hd no_state coherent_start) as (vs' & st1 & E & Hst & _).
  rewrite Hl in E. injection E as <- <-. destruct (top_ends Hd a t st Hst) as (v & st' & E & _ & _ & Hv).
  destruct Hv as [_ Hv].
  { split_and!; [done..|unfold left_out, marked; cbn [seen parentSchema name top_call]|cbn; lia].
    intros [Hm|Hm]; [|unfold c in Hi; congruence]. by destruct (iv d (at_address d a)).1. }
  destruct (Hv Ha Ho) as (s & Hs & Hs'). by exists v, s, st'.
Qed.
End document.

(** ** Documents *)

Lemma tame_check d : forallb tame (schemas d) = true → tame_document d.
Proof. intros H s Hs%list_elem_of_In. rewrite forallb_forall in H. by apply H. Qed.

Definition load_time : string := "2024-05-01T10:20:30.000Z".

(** A user has a name, friends, an age and a manager, who is a user. *)
Definition company : document :=
  Document [
    [("type", Json (Str "object")); ("properties", Table 0)];
    [("type", Json (Str "string")); ("format", Json (Str "uuid"))];
    [("type", Json (Str "array")); ("items", Node 3)];
    [("$ref", Json (Str "#/components/schemas/User")); ("$ref-value", Node 0)];
    [("type", Json (Str "integer")); ("minimum", Json (Num "18"))];
    [("type", Json (Str "array")); ("items", Node 4); ("minItems", Json (Num "1"))]]%nat
    [[("name", 1); ("friends", 2); ("age", 4); ("manager", 3)]]%nat.

Lemma every_schema_has_an_example_witness :
  tame_document company ∧
  ∃ vs st, examples load_time id company [(0, no_options); (5, no_options); (1, Options (Some " ") false None [] false false ∅)]%nat no_state = Some (vs, st) ∧
    Forall2 (of_its_type id company) [(0, no_options); (5, no_options); (1, Options (Some " ") false None [] false false ∅)]%nat vs ∧
    plain_type id company (iv company (at_address company 0)) no_options "object" = true ∧
    vs !! 1%nat = Some (Arr [Num "18"]) ∧ vs !! 2%nat = Some (Str "123e4567-e89b-12d3-a456-426614174000").
Proof.
  assert (tame_document company) as H by (apply tame_check; vm_compute; reflexivity). split; [exact H|].
  destruct (every_schema_has_an_example load_time id company [(0, no_options); (5, no_options); (1, Options (Some " ") false None [] false false ∅)]%nat H)
    as (vs & st & E & HF). exists vs, st. split; [exact E|]. split; [exact HF|]. vm_compute in E. injection E as <- <-. by vm_compute.
Defined.

Lemma example_shows_the_properties_witness :
  tame_document company ∧
  ∃ v s st', example_of load_time id company (at_address company 0) no_options no_state = Some (v, st') ∧
    (v = Obj s ∨ xml no_options = true ∧ ∃ k, v = Obj [(k, Obj s)]) ∧ "friends" ∈ s.*1 ∧ "manager" ∈ s.*1.
Proof.
  assert (tame_document company) as H by (apply tame_check; vm_compute; reflexivity). split; [exact H|].
  destruct (example_shows_the_properties load_time id company 0 no_options [] [] no_state H) as (v & s & st' & E & Hv & Hs);
    [vm_compute; reflexivity..|].
  exists v, s, st'. split; [exact E|]. split; [exact Hv|].
  assert (∀ p, p = ("friends", 2%nat) ∨ p = ("manager", 3%nat) → visible company no_options (iv company (at_address company 0)).2 (mark (iv company (at_address company 0)) ∅) p) as Hvis.
  { intros p [-> | ->]; (split; [vm_compute; reflexivity|]; split; [split; [vm_compute; reflexivity|vm_compute; discriminate]|]; split; vm_compute; reflexivity). }
  change "friends" with (shown_as company no_options ("friends", 2%nat)). change "manager" with (shown_as company no_options ("manager", 3%nat)).
  split; apply Hs; [|apply Hvis; by left| |apply Hvis; by right]; apply list_elem_of_In; vm_compute; auto 6.
Defined.

(** A schema that is the target of a dynamic reference and one itself refers to itself. *)
Definition dynamic_circle : document := Document [
  [("$defs", Table 0); ("properties", Table 1)];
  [("$dynamicAnchor", Json (Str "node")); ("$dynamicRef", Json (Str "#node"))];
  [("$dynamicRef", Json (Str "#node"))]]%nat [[("n", 1)]; [("x", 2)]]%nat.

Lemma circle_never_ends f : ∀ a t k st, a = 1%nat ∨ a = 2%nat → dynamicScope k = [at_address dynamic_circle 0] →
  Kv load_time id dynamic_circle f (at_address dynamic_circle a) t k st = None.
Proof.
  induction f as [|f IH]; intros a t k st Ha Hk; [done|]. cbn [Kv]. unfold Wv.
  assert (mbind (λ x, fv dynamic_circle x (dynamicScope k)) (uv (iv dynamic_circle (at_address dynamic_circle a)).2) = Some (at_address dynamic_circle 1)) as ->.
  { rewrite Hk. by destruct Ha as [-> | ->]; vm_compute. }
  apply IH; [by left|done].
Qed.

(** The generator does not end on it, whatever the depth: the level is not looked at before a
    dynamic reference is followed. *)
Theorem dynamic_circle_never_ends f : Kv load_time id dynamic_circle f (at_address dynamic_circle 0) no_options top_call no_state = None.
Proof.
  destruct f as [|f]; [done|]. cbn [Kv].
  change (Wv load_time id dynamic_circle (Kv load_time id dynamic_circle f) (at_address dynamic_circle 0) no_options top_call no_state)
    with (sze dynamic_circle (Kv load_time id dynamic_circle f) (at_address dynamic_circle 0) no_options 0 {[0%nat]} (place_of no_options []) [] [] no_state).
  unfold sze. change (table "properties" (at_address dynamic_circle 0).2) with (Some 1%nat). cbn iota beta.
  change (oze dynamic_circle (properties_at dynamic_circle 1)) with [("x", 2%nat)]. cbn [put_properties].
  change (iv dynamic_circle (at_address dynamic_circle 2)) with (at_address dynamic_circle 2). unfold mbnd.
  rewrite circle_never_ends; [done|by right|reflexivity].
Qed.

(** ** The order of examples *)

(** A is an object with B in it, B has C, C has A; D has a reference to B. *)
Definition rounds : document :=
  let ref a := [("$ref", Json (Str "#/components/schemas/")); ("$ref-value", Node a)] in
  Document [[("properties", Table 0)]; [("properties", Table 1)]; [("properties", Table 2)]; ref 0; [("properties", Table 3)]; ref 1]%nat
    [[("b", 1)]; [("c", 2)]; [("a", 3)]; [("b", 5)]]%nat.

(** The example of D is another one when the one of A was made before: what is remembered of C then lacks
    B, which it was inside of. *)
Theorem examples_depend_on_earlier_ones :
  ∃ v w st st', examples load_time id rounds [(4, no_options)]%nat no_state = Some ([v], st) ∧
    examples load_time id rounds [(0, no_options); (4, no_options)]%nat no_state = Some ([w; w], st') ∧ v ≠ w.
Proof.
  do 4 eexists. split; [vm_compute; reflexivity|]. split; [vm_compute; reflexivity|discriminate].
Qed.
